(* ===== verification/_CoqProject ===== *)
-Q . S2P
Prelude.v
UdsTypes.v
Uds.v
UdsMacros.v
UdsServices.v
UdsMemory.v
UdsLinkControl.v
UdsFileTransfer.v
UdsUploadDownload.v
UdsDDDI.v
UdsSystem.v
UdsDispatch.v
UdsViews.v
UdsWitness.v
Lin.v
LinScheduler.v
LinPair.v
LinSamples.v
Can.v
Lin2Can.v
Lin2CanSamples.v
Gpio.v
PowerIoShield.v
PowerIoShieldEmul.v
HvShield.v
UdsLegacy.v
CanRouter.v
Lin2CanGateway.v
CanSample.v
BoardSamples.v
CanLog.v
Iso14229.v
IsoThread.v
DefaultInstance.v
Gearshift.v
SensorSamples.v
Usb.v
FirmwareLoader.v
UdsSample.v
UdsSampleLaws.v
UdsSampleSecurity.v
UdsSampleData.v
UdsSampleRoutine.v
UdsSampleDtc.v
UdsSampleWitness.v
UdsBusSample.v
UdsBusTheorems.v
UdsBusScenario.v
UdsBusWitness.v
GpioExpander.v
HwTest.v
ShieldSamples.v
EndOfLine.v
ShieldOnDriver.v
ShieldWitness.v
HwTestGpio.v
HwTestLines.v
HwTestWitness.v
SampleWitness.v
DriverWitness.v
AppWitness.v
