(* ===== verification/Prelude.v ===== *)
(** * ARDEP: a verification library

    ARDEP is the software of an automotive development board on Zephyr: a UDS
    (ISO 14229) diagnostic server library, drivers for LIN, for CAN over LIN
    and for two I/O shields, and small libraries and applications around them.
    This library models its C code in Rocq and proves what makes it correct.

    ** How the program is put together, and where its parts are modelled

    A UDS instance owns static registrations (put into a linker section by the
    [UDS_REGISTER_*] macros) and a list of dynamic ones.  The iso14229 server (a
    submodule) calls [uds_event_callback] for every request; it selects the
    event's handler data, and [uds_handle_event] offers the event to the
    registrations until one consumes it.  A registration has a check and an
    action; the services of lib/uds are such checks and actions.

    - [UdsTypes] (include/ardep/uds.h): enumerations, event arguments,
      registrations, contexts, and the state [world E] of an instance: static
      registrations, the list of dynamic registrations, the kernel heap they
      live in, and the state [E] of everything else.
    - [Uds] (lib/uds/uds.c): [uds_check_and_act_on_event],
      [uds_handle_event], [uds_event_callback], and registering and
      unregistering at run time.
    - [UdsMacros] (include/ardep/uds_macro.h): the registrations each macro
      defines.
    - [UdsServices] (data_by_identifier.c, ecu_reset.c, diag_session_ctrl.c,
      read_dtc_info.c, routine_control.c, security_access.c, authentication.c,
      clear_diag_info.c, comm_ctrl.c, control_dtc_setting.c,
      default_instance.c of lib/uds): getters, event table, wrapping checks,
      resets and sessions.
    - [UdsMemory] (memory_by_address.c), [UdsLinkControl] (link_control.c,
      util.c), [UdsFileTransfer] (upload_download_file_transfer.c),
      [UdsUploadDownload] (upload_download.c), [UdsDDDI]
      (dynamically_define_data_ids.c).
    - [UdsSystem]: what every function name runs; the action for dynamic
      identifiers calls [uds_event_callback] again, so the callbacks are
      defined by recursion on the nesting depth.  [UdsDispatch]: what the
      dispatcher does with an event for which one registration is relevant;
      [UdsViews]: the rules for code of which an observer sees a part only.
    - [Lin] and [LinScheduler] (drivers/lin/abstract_lin): the callback table
      between a LIN bus driver and the application, and the thread that walks
      schedule tables.
    - [Can], [Gpio]: the types of Zephyr's CAN and GPIO interfaces.
    - [Lin2Can] (drivers/can/lin2can): the CAN driver whose frames travel in
      LIN frames; its LIN callbacks are entries of the table of [Lin].
    - [PowerIoShield] and [PowerIoShieldEmul] (drivers/power_io_shield): the
      GPIO driver of the power I/O shield and the emulator the repository tests
      it with.
    - [HvShield] (drivers/hv_shield): the shift register behind the high
      voltage pins with its image, and the GPIO and DAC drivers that call it.
    - [Iso14229] (lib/iso14229, [uds_init] and [uds_get_isotp_config] of
      lib/uds/uds.c): the queues between the CAN controller and the server, the
      event loop, the set-up of an instance; [IsoThread]: starting and stopping
      the thread that runs the loop.
    - [DefaultInstance] (lib/uds/default_instance.c): the start of the default
      instance, of the CAN controller and of the thread.
    - [UdsLegacy] (lib/uds_legacy): the older diagnostic server, one thread over
      ISO-TP that writes a new image.
    - [CanRouter] (lib/can_router) and [CanLog] (lib/can_log): forwarding
      between controllers, and the log backend that sends text as frames.
    - [Gearshift] (drivers/binary_encoded_gpio, lib/gearshift_address_providers):
      a position switch and the addresses derived from it.
    - [FirmwareLoader] (firmware_loader/src): the routine that erases the
      slot, the sessions and [main]; its handlers are application callbacks
      of [UdsSystem] and run through [uds_event_callback].
    - [Usb] (lib/ardep_usb, usb_dfu.c of the firmware loader): the set-up of the
      two USB devices and their message callbacks.
    - [UdsSample] (samples/uds/src): the ECU that shows every service, with its
      thread and its work items.  [UdsSampleLaws] has the laws of its
      devices and what its linked program answers; the theorems are in
      [UdsSampleSecurity] (security_access.c, authentication.c),
      [UdsSampleData] (data_by_id.c, mem_by_address.c), [UdsSampleRoutine]
      (routine_control.c) and [UdsSampleDtc] (dtc_information.c,
      diag_session_ctrl.c).
    - [UdsBusSample] (samples/uds_bus_sample/src): controller and worker of a
      board; [UdsBusTheorems] connects boards to a bus, [UdsBusScenario] is
      their client.
    - [HwTest] (samples/hardware_test and hardware_tester, main.c, util.c and
      hw_info.c): the console of the two boards of the end-of-line test, the
      thread that runs their commands, what a test prints and what a wire
      between the boards carries.  [HwTestGpio] (both gpio.c) and
      [HwTestLines] (both uart.c, lin.c and can.c): the tests on both ends.
    - [GpioExpander] (samples/gpio_expander): pins over CAN; the receive
      callbacks interrupt the work items at every place.
    - [ShieldSamples] (samples/power_io_shield: toggle_outputs, multiple,
      interrupts) and [EndOfLine] (end_of_line_tester): programs over an
      interface of the shield's pins; [ShieldOnDriver] implements the interface
      with the driver of [PowerIoShield].
    - [LinPair]: two boards on a LIN bus, each with the driver of [Lin].
      [LinSamples] (samples/lin): the two commanders and the responder of a LED,
      whose callbacks are entries of the table of [Lin].
    - [Lin2CanSamples] (samples/lin2can: commander, responder, the schedule
      table of isotp) and [Lin2CanGateway] (gateway): programs on the driver of
      [Lin2Can]; the gateway is the router of [CanRouter] between it and a CAN
      controller.
    - [CanSample] (samples/can), [BoardSamples] (samples/led,
      digital_input_interrupt, dac, hv_shield) and [SensorSamples] (samples/adc,
      gearshift, iso14229, lin2can/isotp): programs over interfaces of the
      devices; those of [SensorSamples] use [Gearshift] and [Iso14229].
    - [UdsWitness], [UdsSampleWitness], [UdsBusWitness], [HwTestWitness],
      [ShieldWitness], [SampleWitness], [DriverWitness] and [AppWitness]:
      concrete environments that satisfy the laws the theorems assume, and
      closed instances of the theorems.

    ** How C is modelled

    Stateful code is in the monad [M] below: a function from a state to a result
    and a state, or to a [fault] where C has no meaning (NULL or freed
    pointers, an index outside of an array, a failed assertion) or, for
    semaphores, where a wait never ends.  Integers are [Z]; where C computes in
    a fixed width and the result can leave it, [wrap] is written out.  A
    function pointer is the name of a function.  Heap objects have addresses;
    the environment decides which allocations fail, and a freed address is not
    handed out again, so that a stale pointer is recognised.  [sys_slist_t] is
    the list of its nodes, and the iteration macros read the successor when
    the C macros do.

    Code that is not in the repository is a class of operations: the server
    ([Server]), the platform ([Platform]), memory, CAN controller, file system,
    flash, the LIN bus, I2C, SPI, ISO-TP.  The documented behaviour a theorem needs is a class
    of laws ([CanControllerLaws], [FileSystemLaws], [FlashLaws],
    [ResponseLaws], [ExpanderBus], ...), and the witness files have an instance
    of each.

    ** What is shown

    - Dispatch: the function refines a transition system over the
      registrations ([uds_handle_event_refines]); the first applicable
      registration decides, failing checks end the event, the default response
      is given exactly when nothing applies, the order of the event table does
      not matter.
    - Registry: registering takes the least unused identifier or reports which
      resource is missing; unregistering removes exactly one registration and
      frees it; the registry stays well formed and does what its specification
      says, for every sequence of calls ([registry_refines]).
    - Transfers: an upload sends, and a download stores, exactly the announced
      range; a written file holds the accepted blocks; from every well-formed
      state every request returns without a fault
      ([upload_download_safe]).
    - Memory: the range check is exact in 32-bit arithmetic; reads and writes
      have their functional behaviour; writing and reading back.
    - Dynamic identifiers: reading concatenates the parts; defining and
      clearing restore heap and registrations; what each failing allocation
      leads to.
    - LIN: the table with its operations is a finite map, for every sequence of
      calls; the bus callbacks act on the map; the scheduler is safe under
      every interleaving with its client.
    - Power I/O shield: pin numbers, writing and reading the port, interrupts
      reported for exactly the configured pins and edges.
    - CAN over LIN: frames arrive unchanged but for the padding, under their
      identifiers and in order, through the callbacks of both drivers; receive
      filters match what the CAN interface says.
    - HV shield: the register shows what was set, for every sequence of calls;
      masked writes and reads of the port.
    - USB: the order of the set-up calls, and that the first failing one ends it.
    - Instance: received frames reach the ISO-TP link they are for, in order
      and up to the capacity of its queue; setting up succeeds or leaves a state
      that is described; there is one thread at most and a thread asked to stop
      ends, under every interleaving of any number of clients.
    - Legacy server: every request is answered except for two, after which the
      thread is gone; a client that follows the protocol gets its image written.
    - Router, log, gearshift: what is forwarded, that a log text is sent
      completely, what the pins spell.
    - Firmware loader: the erase routine, through the dispatcher and with its
      work item, refines its protocol; the session is resumed once.
    - UDS sample: through the dispatcher of the linked program and under every
      sequence of requests and turns of the work items, security access,
      authentication, the LED with its thread, the asynchronous routine and the
      trouble codes refine their protocols; a routine that runs ends; writes to
      the memory stay in it unless the range wraps.
    - UDS bus sample: a client that configures fresh boards and starts the
      controller gets the signatures of all workers in their order, in
      whatever order the boards run ([signature_chain]).
    - Hardware test: the commands typed on the console run one at a time and in
      their order, under every interleaving of the two threads
      ([commands_run_in_order]), and all of them run ([commands_finish]).  The
      tester reports no error when the wires are whole and the boards start
      within the time the code allows for: GPIO pins, UART, LIN and CAN; a pin
      that stays silent fails all pins after it ([dead_pin_fails_the_rest]).
    - GPIO expander: whatever frames arrive and wherever they interrupt the
      work, the work ends, and then the pins have the configured directions
      ([configuration_settles]) and the outputs the levels written last, of
      which the state frame tells the truth ([written_levels_settle]).
    - Shield samples, on the real driver: the outputs count in binary, the
      interrupts are those of the README, and the end of line test passes
      exactly when the shield answers right to every pattern it drives
      ([end_of_line_verdict]).
    - LIN samples: two boards refine the protocol of the LED, whatever is
      scheduled ([led_boards_refine]).
    - CAN over LIN samples: two boards hand each other's frames to their
      programs, all of them and in order, whatever the schedule
      ([can_samples_exchange]); the gateway is two queues between the buses
      ([gateway_forwards]).
    - CAN sample: the frames are counted without a gap ([frames_are_counted]).
      Board samples: what the LEDs, pins and converters are told over time
      ([leds_alternate], [output_follows_input], [dac_sawtooth], [hv_ramp]), what
      is printed of the inputs ([adc_prints], [positions_logged]) and of the
      transfers ([transfers_printed]), and the server's answers
      ([iso_sample_serves]).
    - Some theorems state what the code does where it differs from what it
      means to do: a write to a read-only identifier calls a NULL pointer, a
      self-referential identifier recurses without end, an allocation failure
      leads to a use after free, a range check wraps, a file stays open, the
      verified bit rate is ignored, callbacks run while a semaphore is held,
      the router stops at its second filter, a block is acknowledged and lost, a
      start through a NULL pointer follows a failed set-up, a stop waits for a
      thread that was started anew, a proof of authentication can be replayed,
      a failing LED blocks every later request, a failed send leaves a receive
      filter with a pointer into a stack frame that is gone, a level stored for
      an input is reported but not driven when the pin becomes an output, a
      START after a lost S is not heard, the start of a working gateway reports
      an error, a send that fails is the last one, readings are printed without
      a pause while the reference cannot be read.

    ** Fuel and bounds

    [uds_handle_event] takes the number of dynamic registrations it may visit;
    the refinement theorem is over some fuel, and the theorems on totality say
    that the length of the list is enough.  [find_next_dynamic_id] gets one
    round per registration and two more; it always ends.  The list iterations get
    the length of the list at their start, which only shrinks.  The LIN loops
    get 256 rounds, more than an 8-bit counter can count.  The nesting depth of
    [callbacks] has no counterpart in the code; theorems hold for every
    depth (in the loader, where a wrapping check calls the application's
    handler, for every one from two on), and [self_referential_read_diverges]
    uses all of them.  One tick of the
    event loop empties queues of at most [MSGQ_CAPACITY] frames and gets one
    round more.  The log core gets one call per byte of the text and one more;
    every call takes at least one byte or fails.
    The asynchronous routine of the UDS sample has 3000 iterations of its loop; 3004
    turns of the work queue are enough for it.  [n] workers and the controller
    need at most [n + 3] rounds, in which every board has a turn.
    Waiting for a pin of the hardware test polls every millisecond: the time-out
    and two rounds more are enough.  A UART interrupt reads a FIFO that is
    shorter than its fuel.  The end of line test waits with one round more than
    there are polls until the host has spoken; its pattern loop gets one round
    per pattern and one more.

    ** What is not modelled

    The clock and the debug output of lib/iso14229 change
    no state.  The UART sample squares a floating-point number of the C library,
    and lin2can/uds and uds_legacy print a greeting.  The
    tests, the board files and the Python scripts stay outside.  Logging is left
    out throughout, except where it is what a program is for: in [CanLog], in the
    hardware test and in the samples that show something on the console.  The
    endless loops of the board samples run for any number of rounds.

    Work items are as Zephyr documents them, without the state in which a
    cancellation waits for a handler that runs.  A work handler of the UDS
    sample runs without a request in between, except for the routine that
    sleeps.  On the bus of the bus sample a frame is heard by
    all other boards when it is sent; a frame that arrives while a worker copies
    the frame before it is not modelled.  In the hardware test a wire has a
    level at every time, the voltages and edges in between are left out, and a
    byte that is sent arrives after a bounded delay; what a test prints is left
    open where the console is the subject.  A callback of the GPIO expander is
    one step, and so is a read of one bit of its arrays; the main thread builds
    the state frame in one step as well.  A LIN frame reaches the other board
    unchanged.

    ** This file

    The monad with its laws, weakest preconditions and frames, the tactics that
    run monadic code, and fixed-width integers. *)

From stdpp Require Import base gmap list numbers.
From Stdlib Require Import ZArith Lia Bool.

#[export] Set Default Goal Selector "!".
#[local] Open Scope Z_scope.


(** ** Outcomes of C code

    A C statement either ends and yields a value, or it does something the C
    language gives no meaning to.  The second case is a value of [fault], so
    that "this code never does that" is a theorem about the model instead of
    an assumption built into it.  [OutOfFuel] is the one constructor that is
    not a C behaviour: a fuelled loop that was given too little. *)

Inductive fault :=
| NullPointer          (** a NULL object or function pointer is used *)
| UseAfterFree         (** an object is read or written after its lifetime *)
| DoubleFree           (** [k_free] of an object that is not allocated *)
| OutOfBounds          (** an array is accessed outside its bounds *)
| DivisionByZero
| AssertFailed         (** [__ASSERT] or [assert] with a false condition *)
| BadArgument          (** an event argument read as a struct it is not *)
| Blocked              (** a wait for a semaphore nobody in the model will give *)
| OutOfFuel.

#[export] Instance fault_eq_dec : EqDecision fault.
Proof. solve_decision. Defined.

Inductive outcome (W A : Type) :=
| Ret (a : A) (w : W)
| Fault (f : fault).
Arguments Ret {W A} a w.
Arguments Fault {W A} f.

(** Stateful code over a world [W]. *)
Definition M (W A : Type) : Type := W -> outcome W A.

Definition ret {W A} (a : A) : M W A := fun w => Ret a w.

Definition bind {W A B} (m : M W A) (k : A -> M W B) : M W B :=
  fun w => match m w with Ret a w' => k a w' | Fault f => Fault f end.

Definition fail {W A} (f : fault) : M W A := fun _ => Fault f.

Definition get {W} : M W W := fun w => Ret w w.

Definition put {W} (w : W) : M W unit := fun _ => Ret tt w.

Definition gets {W A} (f : W -> A) : M W A := fun w => Ret (f w) w.

Definition modify {W} (f : W -> W) : M W unit := fun w => Ret tt (f w).

(** A partial read: [None] is the given fault. *)
Definition of_option {W A} (f : fault) (o : option A) : M W A :=
  match o with Some a => ret a | None => fail f end.

(** Running a component's operation on its part of a larger state. *)
Definition zoom {W S A} (g : W -> S) (p : S -> W -> W) (m : M S A) : M W A := fun w =>
  match m (g w) with Ret a s => Ret a (p s w) | Fault f => Fault f end.

Declare Scope ardep_scope.
Delimit Scope ardep_scope with ardep.

Notation "'let*' x ':=' m 'in' k" := (bind m (fun x => k))
  (at level 10, x pattern, m at level 100, k at level 200) : ardep_scope.
Notation "m ;; k" := (bind m (fun _ => k))
  (at level 100, k at level 200, right associativity) : ardep_scope.

#[global] Open Scope ardep_scope.

Section monad_laws.
Context {W A B C : Type}.
Implicit Types (m : M W A) (w : W).

Lemma bind_ret_l (a : A) (k : A -> M W B) w : bind (ret a) k w = k a w.
Proof. reflexivity. Qed.

Lemma bind_assoc m (k : A -> M W B) (h : B -> M W C) w :
  bind (bind m k) h w = bind m (fun a => bind (k a) h) w.
Proof. unfold bind. by destruct (m w). Qed.

(** A computation that returns did so through its first half. *)
Lemma bind_Ret m (k : A -> M W B) w b w' :
  bind m k w = Ret b w' <->
  exists a w1, m w = Ret a w1 /\ k a w1 = Ret b w'.
Proof.
  unfold bind. destruct (m w) as [a w1|f]; split.
  - eauto.
  - intros (? & ? & [= -> ->] & H). exact H.
  - discriminate.
  - intros (? & ? & ? & ?). discriminate.
Qed.

Lemma bind_step m (k : A -> M W B) w a w1 :
  m w = Ret a w1 -> bind m k w = k a w1.
Proof. unfold bind. by intros ->. Qed.

Lemma bind_fault m (k : A -> M W B) w f :
  m w = Fault f -> bind m k w = Fault f.
Proof. unfold bind. by intros ->. Qed.
End monad_laws.

(** [frame f m]: [m] leaves what [f] observes as it was. *)
Definition frame {W A B} (f : W -> B) (m : M W A) : Prop :=
  forall w a w', m w = Ret a w' -> f w' = f w.

Section frame.
Context {W B : Type} (f : W -> B).

Lemma frame_ret {A} (a : A) : frame f (ret a).
Proof. by intros w b w' [= <- <-]. Qed.
Lemma frame_fail {A} e : frame f (@fail W A e).
Proof. done. Qed.
Lemma frame_gets {A} (g : W -> A) : frame f (gets g).
Proof. by intros w b w' [= <- <-]. Qed.
Lemma frame_bind {A C} (m : M W A) (k : A -> M W C) :
  frame f m -> (forall a, frame f (k a)) -> frame f (bind m k).
Proof. intros Hm Hk w c w' (a & w1 & H1 & H2)%bind_Ret. by rewrite (Hk _ _ _ _ H2), (Hm _ _ _ H1). Qed.
Lemma frame_if {A} (b : bool) (m1 m2 : M W A) : frame f m1 -> frame f m2 -> frame f (if b then m1 else m2).
Proof. by destruct b. Qed.
Lemma frame_of_option {A} e (o : option A) : frame f (of_option e o).
Proof. destruct o; [apply frame_ret|apply frame_fail]. Qed.
End frame.

Create HintDb ardep_frame.
#[export] Hint Resolve frame_ret frame_fail frame_gets frame_bind frame_if frame_of_option : ardep_frame.

(** [safe m w]: running [m] from [w] ends without a fault. *)
Definition safe {W A} (m : M W A) (w : W) : Prop := exists a w', m w = Ret a w'.

(** [wp m Q w]: [m] runs from [w] without a fault and [Q] holds at its end. *)
Definition wp {W A} (m : M W A) (Q : A -> W -> Prop) (w : W) : Prop :=
  match m w with Ret a w' => Q a w' | Fault _ => False end.

#[global] Arguments wp : simpl never.

Section wp.
Context {W A B : Type}.
Implicit Types (m : M W A) (w : W).

Lemma wp_ret (a : A) (Q : A -> W -> Prop) w : Q a w -> wp (ret a) Q w.
Proof. done. Qed.
Lemma wp_gets (f : W -> A) (Q : A -> W -> Prop) w : Q (f w) w -> wp (gets f) Q w.
Proof. done. Qed.
Lemma wp_modify (f : W -> W) (Q : unit -> W -> Prop) w : Q tt (f w) -> wp (modify f) Q w.
Proof. done. Qed.
Lemma wp_bind m (k : A -> M W B) (Q : B -> W -> Prop) w :
  wp m (fun a => wp (k a) Q) w -> wp (bind m k) Q w.
Proof. unfold wp, bind. by destruct (m w). Qed.
Lemma wp_mono m (P Q : A -> W -> Prop) w : wp m P w -> (forall a w', P a w' -> Q a w') -> wp m Q w.
Proof. unfold wp. destruct (m w); auto. Qed.
Lemma wp_Ret m (Q : A -> W -> Prop) w : wp m Q w <-> exists a w', m w = Ret a w' /\ Q a w'.
Proof. unfold wp. destruct (m w); split; naive_solver. Qed.
Lemma wp_zoom {S} (g : W -> S) (p : S -> W -> W) (n : M S A) (Q : A -> W -> Prop) w :
  wp n (fun a s => Q a (p s w)) (g w) -> wp (zoom g p n) Q w.
Proof. unfold wp, zoom. by destruct (n (g w)). Qed.
End wp.

(** One step of a [wp] goal. *)
Ltac wp_step :=
  lazymatch goal with
  | |- wp (ret _) _ _ => apply wp_ret
  | |- wp (gets _) _ _ => apply wp_gets
  | |- wp (modify _) _ _ => apply wp_modify
  | |- wp (bind _ _) _ _ => apply wp_bind
  | |- wp (if ?b then _ else _) _ _ => destruct b eqn:?
  | |- wp (match ?b with _ => _ end) _ _ => destruct b eqn:?
  end; cbn beta.
Ltac wp_run := repeat wp_step.

(** Inversion of a monadic run that returned, one step at a time. *)
Ltac m_inv_step :=
  match goal with
  | H : bind _ _ _ = Ret _ _ |- _ =>
      let Hm := fresh "Hm" in let Hk := fresh "Hk" in
      apply bind_Ret in H as (? & ? & Hm & Hk)
  | H : ret _ _ = Ret _ _ |- _ => unfold ret in H
  | H : Ret _ _ = Ret _ _ |- _ => injection H; clear H; intros; subst
  | H : Fault _ = Ret _ _ |- _ => discriminate H
  | H : fail _ _ = Ret _ _ |- _ => discriminate H
  | H : get _ = Ret _ _ |- _ => unfold get in H
  | H : put _ _ = Ret _ _ |- _ => unfold put in H
  | H : gets _ _ = Ret _ _ |- _ => unfold gets in H

  | H : of_option _ ?o _ = Ret _ _ |- _ =>
      let E := fresh "E" in destruct o eqn:E; unfold of_option in H
  end.
Ltac m_inv := repeat m_inv_step.

(** Unfold the monad operations in the goal and reduce. *)
Ltac m_simpl := unfold bind, ret, fail, get, put, gets, modify, of_option; cbn.

(** Settle the decisions that compare equal or different constants. *)
Ltac settle :=
  repeat (first [ rewrite decide_True by (done || congruence)
                | rewrite decide_False by (congruence || (let H := fresh in intros H; by apply H)) ]; cbn).

(** Run the goal's monadic code as far as it goes. *)
Ltac m_run := repeat progress (m_simpl; settle).

(** Split every boolean or decision a goal or hypothesis branches on. *)
Ltac split_ifs :=
  repeat match goal with
  | |- context [if ?b then _ else _] => destruct b eqn:?
  | H : context [if ?b then _ else _] |- _ => destruct b eqn:?
  end.

(** ** Machine integers

    An unsigned integer of [w] bits is a [Z]; every C operation that can leave
    its range is followed by [wrap w]. *)

Definition wrap (w z : Z) : Z := z mod 2 ^ w.
#[global] Arguments wrap : simpl never.
Abbreviation u8 := (wrap 8).
Abbreviation u16 := (wrap 16).
Abbreviation u32 := (wrap 32).

Definition UINT8_MAX : Z := 0xFF.
Definition UINT32_MAX : Z := 0xFFFFFFFF.

Definition in_width (w z : Z) : Prop := 0 <= z < 2 ^ w.
Abbreviation is_u8 := (in_width 8).
Abbreviation is_u16 := (in_width 16).
Abbreviation is_u32 := (in_width 32).

(** [errno.h] *)
Definition EPERM : Z := 1.
Definition ENOENT : Z := 2.
Definition EIO : Z := 5.
Definition ENOMEM : Z := 12.
Definition EACCES : Z := 13.
Definition EEXIST : Z := 17.
Definition ENODEV : Z := 19.
Definition EINVAL : Z := 22.
Definition ENOSPC : Z := 28.
Definition ENOSYS : Z := 88.
Definition EALREADY : Z := 120.
Definition ENOTSUP : Z := 134.

Lemma wrap_range w z : 0 <= w -> in_width w (wrap w z).
Proof. intros Hw. apply Z.mod_pos_bound, Z.pow_pos_nonneg; lia. Qed.

Lemma wrap_small w z : in_width w z -> wrap w z = z.
Proof. apply Z.mod_small. Qed.

Lemma wrap_idemp w z : 0 <= w -> wrap w (wrap w z) = wrap w z.
Proof. intros. by apply wrap_small, wrap_range. Qed.

Lemma wrap_add_l w a b : wrap w (wrap w a + b) = wrap w (a + b).
Proof. unfold wrap. by rewrite Zplus_mod_idemp_l. Qed.

Lemma wrap_land w z : 0 <= w -> wrap w z = Z.land z (Z.ones w).
Proof. intros. unfold wrap. by rewrite Z.land_ones. Qed.

Lemma testbit_wrap w z i :
  0 <= w -> 0 <= i -> Z.testbit (wrap w z) i = (i <? w) && Z.testbit z i.
Proof.
  intros Hw Hi. unfold wrap. destruct (Z.ltb_spec i w).
  - by rewrite Z.mod_pow2_bits_low.
  - by rewrite Z.mod_pow2_bits_high.
Qed.

(** ** Byte order

    The object representation of [sys_cpu_to_be32 (x)] and
    [sys_cpu_to_be16 (x)], and reading through a [uint32_t *] or [uint16_t *]
    what is stored in one byte order. *)

Definition be32 (x : Z) : list Z :=
  [u8 (Z.shiftr (u32 x) 24); u8 (Z.shiftr (u32 x) 16); u8 (Z.shiftr (u32 x) 8); u8 x].

Definition be16 (x : Z) : list Z := [u8 (Z.shiftr (u16 x) 8); u8 x].

Definition of_be32 (l : list Z) : option Z :=
  match l with a :: b :: c :: d :: _ => Some (a * 2 ^ 24 + b * 2 ^ 16 + c * 2 ^ 8 + d) | _ => None end.

Definition of_be16 (l : list Z) : option Z :=
  match l with a :: b :: _ => Some (a * 2 ^ 8 + b) | _ => None end.

Definition of_le16 (l : list Z) : option Z :=
  match l with a :: b :: _ => Some (a + b * 2 ^ 8) | _ => None end.

Lemma of_be32_be32 x : is_u32 x -> of_be32 (be32 x) = Some x.
Proof.
  intros Hx. unfold of_be32, be32. rewrite (wrap_small 32 x) by done. f_equal. unfold wrap, in_width in *.
  rewrite !Z.shiftr_div_pow2 by lia. Z.div_mod_to_equations. lia.
Qed.

Lemma of_be16_be16 x : is_u16 x -> of_be16 (be16 x) = Some x.
Proof.
  intros Hx. unfold of_be16, be16. rewrite (wrap_small 16 x) by done. f_equal. unfold wrap, in_width in *.
  rewrite !Z.shiftr_div_pow2 by lia. Z.div_mod_to_equations. lia.
Qed.

Lemma be16_of_be16 a b x : is_u8 a -> is_u8 b -> of_be16 [a; b] = Some x -> be16 x = [a; b].
Proof.
  intros Ha Hb [= <-]. unfold in_width in *. unfold be16. rewrite (wrap_small 16) by (unfold in_width; lia).
  unfold wrap. rewrite Z.shiftr_div_pow2 by lia.
  apply (f_equal2 cons); [|apply (f_equal2 cons); [|done] ]; Z.div_mod_to_equations; lia.
Qed.

(** ** Protocols

    A component with a protocol answers a sequence of operations; the protocol
    says, for the phase it is in, what an operation may be answered with, what
    is sent for it, and which phase follows. *)

Section protocol.
Context {W Op R P : Type}.

Fixpoint run_ops (step : Op -> M W R) (ops : list Op) : M W (list R) :=
  match ops with
  | [] => ret []
  | op :: ops => let* r := step op in let* rs := run_ops step ops in ret (r :: rs)
  end.

Inductive spec_ops (spec : P -> Op -> R -> list Z -> P -> Prop) : P -> list Op -> list R -> list Z -> P -> Prop :=
| spec_ops_nil p : spec_ops spec p [] [] [] p
| spec_ops_cons p op ops r sent p1 rs sent' p2 :
    spec p op r sent p1 -> spec_ops spec p1 ops rs sent' p2 ->
    spec_ops spec p (op :: ops) (r :: rs) (sent ++ sent') p2.

(** When every operation follows the protocol, every sequence does. *)
Lemma run_ops_refines (step : Op -> M W R) (spec : P -> Op -> R -> list Z -> P -> Prop)
    (state : P -> W -> Prop) (output : W -> list Z) (ok : Op -> Prop) :
  (forall op p w, ok op -> state p w -> exists r sent p' w',
     step op w = Ret r w' /\ spec p op r sent p' /\ state p' w' /\ output w' = output w ++ sent) ->
  forall ops p w, Forall ok ops -> state p w -> exists rs sent p' w',
    run_ops step ops w = Ret rs w' /\ spec_ops spec p ops rs sent p' /\ state p' w' /\ output w' = output w ++ sent.
Proof.
  intros Hstep ops. induction ops as [|op ops IH]; intros p w Hok Hp.
  { exists [], [], p, w. rewrite app_nil_r. split_and!; try done. apply spec_ops_nil. }
  apply Forall_cons_1 in Hok as [Hop Hops].
  destruct (Hstep op p w Hop Hp) as (r & sent & p1 & w1 & Hrun & Hspec & Hp1 & Hout).
  destruct (IH p1 w1 Hops Hp1) as (rs & sent' & p2 & w2 & Hrest & Hspec2 & Hp2 & Hout2).
  exists (r :: rs), (sent ++ sent'), p2, w2. cbn [run_ops].
  rewrite (bind_step _ _ _ _ _ Hrun), (bind_step _ _ _ _ _ Hrest).
  split_and!; [done|by eapply spec_ops_cons|done|]. by rewrite Hout2, Hout, (assoc_L app).
Qed.
End protocol.
