(* ===== verification/UdsTypes.v ===== *)
(** * Data of the UDS library ([include/ardep/uds.h])

    The enumerations, the event arguments, the registrations and the state of
    one UDS instance: its static registrations, its list of dynamic
    registrations, and the kernel heap the dynamic objects live in.

    A C enumeration is an inductive type with a coercion to the integer its
    enumerators stand for.  A C function pointer is a constructor of a type of
    function names; the instance of [UdsCallbacks] in [UdsSystem] says what
    each name runs.  [sys_slist_t] is the sequence of its nodes, in link
    order. *)

From stdpp Require Import base gmap list numbers relations.
From Stdlib Require Import ZArith Lia.
From S2P Require Import Prelude.

#[local] Open Scope Z_scope.

(** ** Enumerations *)

Inductive uds_diagnostic_session :=
| UDS_DIAG_SESSION__DEFAULT
| UDS_DIAG_SESSION__PROGRAMMING
| UDS_DIAG_SESSION__EXTENDED
| UDS_DIAG_SESSION__SAFETY_SYSTEM
| UDS_DIAG_SESSION__VEHICLE_MANUFACTURER_SPECIFIC_START
| UDS_DIAG_SESSION__VEHICLE_MANUFACTURER_SPECIFIC_END
| UDS_DIAG_SESSION__SYSTEM_SUPPLIER_SPECIFIC_START
| UDS_DIAG_SESSION__SYSTEM_SUPPLIER_SPECIFIC_END.

Definition uds_diagnostic_session_value (x : uds_diagnostic_session) : Z :=
  match x with
  | UDS_DIAG_SESSION__DEFAULT => 0x01
  | UDS_DIAG_SESSION__PROGRAMMING => 0x02
  | UDS_DIAG_SESSION__EXTENDED => 0x03
  | UDS_DIAG_SESSION__SAFETY_SYSTEM => 0x04
  | UDS_DIAG_SESSION__VEHICLE_MANUFACTURER_SPECIFIC_START => 0x40
  | UDS_DIAG_SESSION__VEHICLE_MANUFACTURER_SPECIFIC_END => 0x5F
  | UDS_DIAG_SESSION__SYSTEM_SUPPLIER_SPECIFIC_START => 0x60
  | UDS_DIAG_SESSION__SYSTEM_SUPPLIER_SPECIFIC_END => 0x7E
  end.
Coercion uds_diagnostic_session_value : uds_diagnostic_session >-> Z.

Inductive uds_ecu_reset_type :=
| ECU_RESET__HARD
| ECU_RESET__KEY_OFF_ON
| ECU_RESET__ENABLE_RAPID_POWER_SHUT_DOWN
| ECU_RESET__DISABLE_RAPID_POWER_SHUT_DOWN
| ECU_RESET__VEHICLE_MANUFACTURER_SPECIFIC_START
| ECU_RESET__VEHICLE_MANUFACTURER_SPECIFIC_END
| ECU_RESET__SYSTEM_SUPPLIER_SPECIFIC_START
| ECU_RESET__SYSTEM_SUPPLIER_SPECIFIC_END.

Definition uds_ecu_reset_type_value (x : uds_ecu_reset_type) : Z :=
  match x with
  | ECU_RESET__HARD => 1
  | ECU_RESET__KEY_OFF_ON => 2
  | ECU_RESET__ENABLE_RAPID_POWER_SHUT_DOWN => 4
  | ECU_RESET__DISABLE_RAPID_POWER_SHUT_DOWN => 5
  | ECU_RESET__VEHICLE_MANUFACTURER_SPECIFIC_START => 0x40
  | ECU_RESET__VEHICLE_MANUFACTURER_SPECIFIC_END => 0x5F
  | ECU_RESET__SYSTEM_SUPPLIER_SPECIFIC_START => 0x60
  | ECU_RESET__SYSTEM_SUPPLIER_SPECIFIC_END => 0x7E
  end.
Coercion uds_ecu_reset_type_value : uds_ecu_reset_type >-> Z.

Inductive uds_read_dtc_info_subfunc :=
| UDS_READ_DTC_INFO_SUBFUNC__NUM_OF_DTC_BY_STATUS_MASK
| UDS_READ_DTC_INFO_SUBFUNC__DTC_BY_STATUS_MASK
| UDS_READ_DTC_INFO_SUBFUNC__DTC_SNAPSHOT_IDENTIFICATION
| UDS_READ_DTC_INFO_SUBFUNC__DTC_SNAPSHOT_RECORD_BY_DTC_NUM
| UDS_READ_DTC_INFO_SUBFUNC__DTC_STORED_DATA_BY_RECORD_NUM
| UDS_READ_DTC_INFO_SUBFUNC__DTC_EXT_DATA_RECORD_BY_DTC_NUM
| UDS_READ_DTC_INFO_SUBFUNC__NUM_OF_DTC_BY_SEVERITY_MASK_RECORD
| UDS_READ_DTC_INFO_SUBFUNC__DTC_BY_SEVERITY_MASK_RECORD
| UDS_READ_DTC_INFO_SUBFUNC__SEVERITY_INFO_OF_DTC
| UDS_READ_DTC_INFO_SUBFUNC__SUPPORTED_DTC
| UDS_READ_DTC_INFO_SUBFUNC__FIRST_TEST_FAILED_DTC
| UDS_READ_DTC_INFO_SUBFUNC__FIRST_CONFIRMED_DTC
| UDS_READ_DTC_INFO_SUBFUNC__MOST_RECENT_TEST_FAILED_DTC
| UDS_READ_DTC_INFO_SUBFUNC__MOST_RECENT_CONFIRMED_DTC
| UDS_READ_DTC_INFO_SUBFUNC__DTC_FAULT_DETECTION_COUNTER
| UDS_READ_DTC_INFO_SUBFUNC__DTC_WITH_PERMANENT_STATUS
| UDS_READ_DTC_INFO_SUBFUNC__DTC_EXT_DATA_RECORD_BY_NUM
| UDS_READ_DTC_INFO_SUBFUNC__USER_DEF_MEM_DTC_BY_STATUS_MASK
| UDS_READ_DTC_INFO_SUBFUNC__USER_DEF_MEM_DTC_SNAPSHOT_RECORD_BY_DTC_NUM
| UDS_READ_DTC_INFO_SUBFUNC__USER_DEF_MEM_DTC_EXT_DATA_RECORD_BY_DTC_NUM
| UDS_READ_DTC_INFO_SUBFUNC__DTC_EXTENDED_DATA_RECORD_IDENTIFICATION
| UDS_READ_DTC_INFO_SUBFUNC__WWHOBD_DTC_BY_MASK_RECORD
| UDS_READ_DTC_INFO_SUBFUNC__WWHOBD_DTC_WITH_PERMANENT_STATUS
| UDS_READ_DTC_INFO_SUBFUNC__DTC_INFO_BY_DTC_READINESS_GROUP_IDENTIFIER.

Definition uds_read_dtc_info_subfunc_value (x : uds_read_dtc_info_subfunc) : Z :=
  match x with
  | UDS_READ_DTC_INFO_SUBFUNC__NUM_OF_DTC_BY_STATUS_MASK => 0x01
  | UDS_READ_DTC_INFO_SUBFUNC__DTC_BY_STATUS_MASK => 0x02
  | UDS_READ_DTC_INFO_SUBFUNC__DTC_SNAPSHOT_IDENTIFICATION => 0x03
  | UDS_READ_DTC_INFO_SUBFUNC__DTC_SNAPSHOT_RECORD_BY_DTC_NUM => 0x04
  | UDS_READ_DTC_INFO_SUBFUNC__DTC_STORED_DATA_BY_RECORD_NUM => 0x05
  | UDS_READ_DTC_INFO_SUBFUNC__DTC_EXT_DATA_RECORD_BY_DTC_NUM => 0x06
  | UDS_READ_DTC_INFO_SUBFUNC__NUM_OF_DTC_BY_SEVERITY_MASK_RECORD => 0x07
  | UDS_READ_DTC_INFO_SUBFUNC__DTC_BY_SEVERITY_MASK_RECORD => 0x08
  | UDS_READ_DTC_INFO_SUBFUNC__SEVERITY_INFO_OF_DTC => 0x09
  | UDS_READ_DTC_INFO_SUBFUNC__SUPPORTED_DTC => 0x0A
  | UDS_READ_DTC_INFO_SUBFUNC__FIRST_TEST_FAILED_DTC => 0x0B
  | UDS_READ_DTC_INFO_SUBFUNC__FIRST_CONFIRMED_DTC => 0x0C
  | UDS_READ_DTC_INFO_SUBFUNC__MOST_RECENT_TEST_FAILED_DTC => 0x0D
  | UDS_READ_DTC_INFO_SUBFUNC__MOST_RECENT_CONFIRMED_DTC => 0x0E
  | UDS_READ_DTC_INFO_SUBFUNC__DTC_FAULT_DETECTION_COUNTER => 0x14
  | UDS_READ_DTC_INFO_SUBFUNC__DTC_WITH_PERMANENT_STATUS => 0x15
  | UDS_READ_DTC_INFO_SUBFUNC__DTC_EXT_DATA_RECORD_BY_NUM => 0x16
  | UDS_READ_DTC_INFO_SUBFUNC__USER_DEF_MEM_DTC_BY_STATUS_MASK => 0x17
  | UDS_READ_DTC_INFO_SUBFUNC__USER_DEF_MEM_DTC_SNAPSHOT_RECORD_BY_DTC_NUM => 0x18
  | UDS_READ_DTC_INFO_SUBFUNC__USER_DEF_MEM_DTC_EXT_DATA_RECORD_BY_DTC_NUM => 0x19
  | UDS_READ_DTC_INFO_SUBFUNC__DTC_EXTENDED_DATA_RECORD_IDENTIFICATION => 0x1A
  | UDS_READ_DTC_INFO_SUBFUNC__WWHOBD_DTC_BY_MASK_RECORD => 0x42
  | UDS_READ_DTC_INFO_SUBFUNC__WWHOBD_DTC_WITH_PERMANENT_STATUS => 0x55
  | UDS_READ_DTC_INFO_SUBFUNC__DTC_INFO_BY_DTC_READINESS_GROUP_IDENTIFIER => 0x56
  end.
Coercion uds_read_dtc_info_subfunc_value : uds_read_dtc_info_subfunc >-> Z.

Inductive uds_input_output_control_param :=
| UDS_IO_CONTROL__RETURN_CONTROL_TO_ECU
| UDS_IO_CONTROL__RESET_TO_DEFAULT
| UDS_IO_CONTROL__FREEZE_CURRENT_STATE
| UDS_IO_CONTROL__SHORT_TERM_ADJUSTMENT
| UDS_IO_CONTROL__TACHOGRAPH_TEST_IDS_START
| UDS_IO_CONTROL__TACHOGRAPH_TEST_IDS_END
| UDS_IO_CONTROL__VEHICLE_MANUFACTURER_SPECIFIC_START
| UDS_IO_CONTROL__VEHICLE_MANUFACTURER_SPECIFIC_END
| UDS_IO_CONTROL__OBD_TEST_IDS_START
| UDS_IO_CONTROL__OBD_TEST_IDS_END
| UDS_IO_CONTROL__EXECUTE_SPL
| UDS_IO_CONTROL__DEPLOY_LOOP_ROUTINE_ID
| UDS_IO_CONTROL__SAFETY_SYSTEM_ROUTINE_IDS_START
| UDS_IO_CONTROL__SAFETY_SYSTEM_ROUTINE_IDS_END
| UDS_IO_CONTROL__SYSTEM_SUPPLIER_SPECIFIC
| UDS_IO_CONTROL__SYSTEM_SUPPLIER_SPECIFIC_END
| UDS_IO_CONTROL__ERASE_MEMORY
| UDS_IO_CONTROL__CHECK_PROGRAMMING_DEPENDENCIES.

Definition uds_input_output_control_param_value (x : uds_input_output_control_param) : Z :=
  match x with
  | UDS_IO_CONTROL__RETURN_CONTROL_TO_ECU => 0x00
  | UDS_IO_CONTROL__RESET_TO_DEFAULT => 0x01
  | UDS_IO_CONTROL__FREEZE_CURRENT_STATE => 0x02
  | UDS_IO_CONTROL__SHORT_TERM_ADJUSTMENT => 0x03
  | UDS_IO_CONTROL__TACHOGRAPH_TEST_IDS_START => 0x100
  | UDS_IO_CONTROL__TACHOGRAPH_TEST_IDS_END => 0x1FF
  | UDS_IO_CONTROL__VEHICLE_MANUFACTURER_SPECIFIC_START => 0x200
  | UDS_IO_CONTROL__VEHICLE_MANUFACTURER_SPECIFIC_END => 0xDFFF
  | UDS_IO_CONTROL__OBD_TEST_IDS_START => 0xE000
  | UDS_IO_CONTROL__OBD_TEST_IDS_END => 0xE1FF
  | UDS_IO_CONTROL__EXECUTE_SPL => 0xE200
  | UDS_IO_CONTROL__DEPLOY_LOOP_ROUTINE_ID => 0xE201
  | UDS_IO_CONTROL__SAFETY_SYSTEM_ROUTINE_IDS_START => 0xE202
  | UDS_IO_CONTROL__SAFETY_SYSTEM_ROUTINE_IDS_END => 0xE2FF
  | UDS_IO_CONTROL__SYSTEM_SUPPLIER_SPECIFIC => 0xF000
  | UDS_IO_CONTROL__SYSTEM_SUPPLIER_SPECIFIC_END => 0xFEFF
  | UDS_IO_CONTROL__ERASE_MEMORY => 0xFF00
  | UDS_IO_CONTROL__CHECK_PROGRAMMING_DEPENDENCIES => 0xFF01
  end.
Coercion uds_input_output_control_param_value : uds_input_output_control_param >-> Z.

Inductive uds_routine_control_subfunc :=
| UDS_ROUTINE_CONTROL__START_ROUTINE
| UDS_ROUTINE_CONTROL__STOP_ROUTINE
| UDS_ROUTINE_CONTROL__REQUEST_ROUTINE_RESULTS.

Definition uds_routine_control_subfunc_value (x : uds_routine_control_subfunc) : Z :=
  match x with
  | UDS_ROUTINE_CONTROL__START_ROUTINE => 0x01
  | UDS_ROUTINE_CONTROL__STOP_ROUTINE => 0x02
  | UDS_ROUTINE_CONTROL__REQUEST_ROUTINE_RESULTS => 0x03
  end.
Coercion uds_routine_control_subfunc_value : uds_routine_control_subfunc >-> Z.

Inductive uds_dynamically_define_data_ids_subfunc :=
| UDS_DYNAMICALLY_DEFINED_DATA_IDS__DEFINE_BY_DATA_ID
| UDS_DYNAMICALLY_DEFINED_DATA_IDS__DEFINE_BY_MEMORY_ADDRESS
| UDS_DYNAMICALLY_DEFINED_DATA_IDS__CLEAR.

Definition uds_dynamically_define_data_ids_subfunc_value (x : uds_dynamically_define_data_ids_subfunc) : Z :=
  match x with
  | UDS_DYNAMICALLY_DEFINED_DATA_IDS__DEFINE_BY_DATA_ID => 0x01
  | UDS_DYNAMICALLY_DEFINED_DATA_IDS__DEFINE_BY_MEMORY_ADDRESS => 0x02
  | UDS_DYNAMICALLY_DEFINED_DATA_IDS__CLEAR => 0x03
  end.
Coercion uds_dynamically_define_data_ids_subfunc_value : uds_dynamically_define_data_ids_subfunc >-> Z.

Inductive uds_link_control_subfunc :=
| UDS_LINK_CONTROL__VERIFY_MODE_TRANSITION_WITH_FIXED_PARAMETER
| UDS_LINK_CONTROL__VERIFY_MODE_TRANSITION_WITH_SPECIFIC_PARAMETER
| UDS_LINK_CONTROL__TRANSITION_MODE
| UDS_LINK_CONTROL__VEHICLE_MANUFACTURER_SPECIFIC_START
| UDS_LINK_CONTROL__VEHICLE_MANUFACTURER_SPECIFIC_END
| UDS_LINK_CONTROL__SYSTEM_SUPPLIER_SPECIFIC_START
| UDS_LINK_CONTROL__SYSTEM_SUPPLIER_SPECIFIC_END.

Definition uds_link_control_subfunc_value (x : uds_link_control_subfunc) : Z :=
  match x with
  | UDS_LINK_CONTROL__VERIFY_MODE_TRANSITION_WITH_FIXED_PARAMETER => 0x01
  | UDS_LINK_CONTROL__VERIFY_MODE_TRANSITION_WITH_SPECIFIC_PARAMETER => 0x02
  | UDS_LINK_CONTROL__TRANSITION_MODE => 0x03
  | UDS_LINK_CONTROL__VEHICLE_MANUFACTURER_SPECIFIC_START => 0x40
  | UDS_LINK_CONTROL__VEHICLE_MANUFACTURER_SPECIFIC_END => 0x5F
  | UDS_LINK_CONTROL__SYSTEM_SUPPLIER_SPECIFIC_START => 0x60
  | UDS_LINK_CONTROL__SYSTEM_SUPPLIER_SPECIFIC_END => 0x7E
  end.
Coercion uds_link_control_subfunc_value : uds_link_control_subfunc >-> Z.

Inductive uds_link_control_modifier :=
| UDS_LINK_CONTROL_MODIFIER__PC_9600_BAUD
| UDS_LINK_CONTROL_MODIFIER__PC_1920_BAUD
| UDS_LINK_CONTROL_MODIFIER__PC_38400_BAUD
| UDS_LINK_CONTROL_MODIFIER__PC_57600_BAUD
| UDS_LINK_CONTROL_MODIFIER__PC_115200_BAUD
| UDS_LINK_CONTROL_MODIFIER__CAN_125000_BAUD
| UDS_LINK_CONTROL_MODIFIER__CAN_250000_BAUD
| UDS_LINK_CONTROL_MODIFIER__CAN_500000_BAUD
| UDS_LINK_CONTROL_MODIFIER__CAN_1000000_BAUD
| UDS_LINK_CONTROL_MODIFIER__PROGRAMMING_SETUP.

Definition uds_link_control_modifier_value (x : uds_link_control_modifier) : Z :=
  match x with
  | UDS_LINK_CONTROL_MODIFIER__PC_9600_BAUD => 0x01
  | UDS_LINK_CONTROL_MODIFIER__PC_1920_BAUD => 0x02
  | UDS_LINK_CONTROL_MODIFIER__PC_38400_BAUD => 0x03
  | UDS_LINK_CONTROL_MODIFIER__PC_57600_BAUD => 0x04
  | UDS_LINK_CONTROL_MODIFIER__PC_115200_BAUD => 0x05
  | UDS_LINK_CONTROL_MODIFIER__CAN_125000_BAUD => 0x10
  | UDS_LINK_CONTROL_MODIFIER__CAN_250000_BAUD => 0x11
  | UDS_LINK_CONTROL_MODIFIER__CAN_500000_BAUD => 0x12
  | UDS_LINK_CONTROL_MODIFIER__CAN_1000000_BAUD => 0x13
  | UDS_LINK_CONTROL_MODIFIER__PROGRAMMING_SETUP => 0x20
  end.
Coercion uds_link_control_modifier_value : uds_link_control_modifier >-> Z.

Inductive uds_registration_type_t :=
| UDS_REGISTRATION_TYPE__ECU_RESET
| UDS_REGISTRATION_TYPE__MEMORY
| UDS_REGISTRATION_TYPE__READ_DTC_INFO
| UDS_REGISTRATION_TYPE__DATA_IDENTIFIER
| UDS_REGISTRATION_TYPE__DIAG_SESSION_CTRL
| UDS_REGISTRATION_TYPE__CLEAR_DIAG_INFO
| UDS_REGISTRATION_TYPE__ROUTINE_CONTROL
| UDS_REGISTRATION_TYPE__SECURITY_ACCESS
| UDS_REGISTRATION_TYPE__COMMUNICATION_CONTROL
| UDS_REGISTRATION_TYPE__DYNAMIC_DEFINE_DATA_IDS
| UDS_REGISTRATION_TYPE__CONTROL_DTC_SETTING
| UDS_REGISTRATION_TYPE__UPLOAD_DOWNLOAD
| UDS_REGISTRATION_TYPE__LINK_CONTROL
| UDS_REGISTRATION_TYPE__AUTHENTICATION.

#[export] Instance uds_registration_type_eq_dec : EqDecision uds_registration_type_t.
Proof. solve_decision. Defined.

(** ** Names taken from the iso14229 library

    The submodule is not part of the repository's files; only the names the
    sources use are here.  [UDSErr_int] is any other integer a function of the
    library returns through a [UDSErr_t], for instance a negative errno.
    [UDS_OK] and [UDS_PositiveResponse] are two names of the value 0. *)

Inductive UDSErr_t :=
| UDS_OK
| UDS_NRC_GeneralReject
| UDS_NRC_ServiceNotSupported
| UDS_NRC_SubFunctionNotSupported
| UDS_NRC_IncorrectMessageLengthOrInvalidFormat
| UDS_NRC_ResponseTooLong
| UDS_NRC_ConditionsNotCorrect
| UDS_NRC_RequestSequenceError
| UDS_NRC_RequestOutOfRange
| UDS_NRC_SecurityAccessDenied
| UDS_NRC_InvalidKey
| UDS_NRC_UploadDownloadNotAccepted
| UDS_NRC_GeneralProgrammingFailure
| UDS_NRC_SubFunctionNotSupportedInActiveSession
| UDS_ERR_MISUSE
| UDSErr_int (z : Z).

Abbreviation UDS_PositiveResponse := UDS_OK.

#[export] Instance UDSErr_eq_dec : EqDecision UDSErr_t.
Proof. solve_decision. Defined.

Inductive UDSEvent_t :=
| UDS_EVT_DiagSessCtrl
| UDS_EVT_SessionTimeout
| UDS_EVT_EcuReset
| UDS_EVT_DoScheduledReset
| UDS_EVT_ReadDataByIdent
| UDS_EVT_WriteDataByIdent
| UDS_EVT_IOControl
| UDS_EVT_ReadMemByAddr
| UDS_EVT_WriteMemByAddr
| UDS_EVT_ReadDTCInformation
| UDS_EVT_ClearDiagnosticInfo
| UDS_EVT_RoutineCtrl
| UDS_EVT_SecAccessRequestSeed
| UDS_EVT_SecAccessValidateKey
| UDS_EVT_CommCtrl
| UDS_EVT_ControlDTCSetting
| UDS_EVT_DynamicDefineDataId
| UDS_EVT_RequestDownload
| UDS_EVT_RequestUpload
| UDS_EVT_TransferData
| UDS_EVT_RequestTransferExit
| UDS_EVT_RequestFileTransfer
| UDS_EVT_LinkControl
| UDS_EVT_Auth
| UDS_EVT_AuthTimeout
| UDS_EVT_other (n : N).

#[export] Instance UDSEvent_eq_dec : EqDecision UDSEvent_t.
Proof. solve_decision. Defined.

(** ** Event arguments

    One constructor per argument struct; the fields are the ones the sources
    read or write.  A handler that casts [context->arg] to another struct than
    the event's is the fault [BadArgument]. *)

(** The [copy] member of an argument: the server's own copy into the response,
    or the collecting copy of the dynamic data identifiers. *)
Inductive copy_fn := copy_server | copy_uds_copy.

Inductive dddi_sub_args :=
| defineById (sourceDataId position size : Z)
| defineByMemAddress (memAddr memSize : Z)
| dddi_no_args.

Inductive auth_sub_args :=
| reqChallengeArgs (algoInd : list Z)
| verifyPownArgs (algoInd pown : list Z)
| auth_no_args.

Inductive uds_arg :=
| UDSDiagSessCtrlArgs (type : Z)
| UDSECUResetArgs (type powerDownTimeMillis : Z)
| UDSScheduledResetArg (reset_type : Z)
| UDSRDBIArgs (dataId : Z) (copy : copy_fn)
| UDSWDBIArgs (dataId : Z) (data : list Z)
| UDSIOCtrlArgs (dataId ioCtrlParam : Z) (ctrlStateAndMask : list Z) (copy : copy_fn)
| UDSReadMemByAddrArgs (memAddr memSize : Z) (copy : copy_fn)
| UDSWriteMemByAddrArgs (memAddr memSize : Z) (data : list Z)
| UDSRDTCIArgs (type mask : Z)
| UDSCDIArgs (groupOfDTC : Z)
| UDSRoutineCtrlArgs (ctrlType id : Z) (optionRecord : list Z)
| UDSSecAccessRequestSeedArgs (level : Z)
| UDSSecAccessValidateKeyArgs (level : Z) (key : list Z)
| UDSControlDTCSettingArgs (type : Z) (data : list Z)
| UDSAuthArgs (type : Z) (subFuncArgs : auth_sub_args)
| UDSDDDIArgs (type : Z) (allDataIds : bool) (dynamicDataId : Z) (subFuncArgs : dddi_sub_args)
| UDSLinkCtrlArgs (type : Z) (data : list Z)
| UDSRequestDownloadArgs (addr size dataFormatIdentifier : Z)
| UDSRequestUploadArgs (addr size maxNumberOfBlockLength : Z)
| UDSTransferDataArgs (data : list Z) (maxRespLen : Z) (copyResponse : option copy_fn)
| UDSRequestFileTransferArgs (modeOfOperation : Z) (filePath : option (list Z))
    (fileSizeCompressed maxNumberOfBlockLength : Z)
| UDSOtherArgs.

(** ** Function pointers *)

(** The functions a [uds_check_fn] can point to. *)
Inductive uds_check_fn :=
| uds_check_user (n : nat)
| uds_check_ecu_hard_reset_fn
| uds_check_execute_scheduled_reset_fn
| uds_check_default_memory_by_addr_read_fn
| uds_check_default_memory_by_addr_write_fn
| uds_check_default_dynamically_define_data_ids_fn
| uds_dynamic_data_by_id_read_data_by_id_check_fn
| uds_check_default_link_control_fn
| uds_check_default_link_control_change_diag_session_fn
| uds_check_read_with_data_id_fn
| uds_check_write_with_data_id_fn
| uds_check_io_control_with_data_id_fn
| uds_check_with_subfunc_fn_fn
| uds_check_with_routine_id_fn_fn
| uds_check_always_apply_fn
| default_diag_session_ctrl_check_fn
| default_diag_session_timeout_check_fn.

(** The functions a [uds_action_fn] can point to. *)
Inductive uds_action_fn :=
| uds_action_user (n : nat)
| uds_action_ecu_hard_reset_fn
| uds_action_execute_scheduled_reset_fn
| uds_action_default_memory_by_addr_read_fn
| uds_action_default_memory_by_addr_write_fn
| uds_action_default_dynamically_define_data_ids_fn
| uds_dynamic_data_by_id_read_data_by_id_action_fn
| uds_action_default_link_control_fn
| uds_action_default_link_control_change_diag_session_fn
| uds_action_upload_download_fn
| default_diag_session_ctrl_action_fn
| default_diag_session_timeout_action_fn.

Inductive unregister_fn :=
| unregister_user (n : nat)
| uds_unregister_dynamic_identifier_fn.

Record uds_actor := Actor {
  check : option uds_check_fn;    (** [None] is NULL *)
  action : option uds_action_fn;
}.

Definition null_actor : uds_actor := Actor None None.

(** ** Registrations *)

Abbreviation addr := positive.

(** The union of [struct uds_registration_t].  The constructor is also the
    tag: the [type] member is [registration_type] of it. *)
Inductive uds_registration_data :=
| diag_session_ctrl (diag_sess_ctrl session_timeout : uds_actor)
| ecu_reset (type : Z) (ecu_reset_actor execute_scheduled_reset : uds_actor)
| data_identifier (data : addr) (data_id : Z) (read write io_control : uds_actor)
| memory (read write : uds_actor)
| read_dtc (sub_function : Z) (actor : uds_actor)
| control_dtc_setting (actor : uds_actor)
| clear_diagnostic_information (actor : uds_actor)
| routine_control (routine_id : Z) (actor : uds_actor)
| security_access (request_seed validate_key : uds_actor)
| communication_control (actor : uds_actor)
| dynamically_define_data_ids (dynamic_registration_id_list : list addr) (actor : uds_actor)
| link_control (actor : uds_actor)
| auth (auth_actor timeout : uds_actor)
| upload_download.

Definition registration_type (p : uds_registration_data) : uds_registration_type_t :=
  match p with
  | diag_session_ctrl _ _ => UDS_REGISTRATION_TYPE__DIAG_SESSION_CTRL
  | ecu_reset _ _ _ => UDS_REGISTRATION_TYPE__ECU_RESET
  | data_identifier _ _ _ _ _ => UDS_REGISTRATION_TYPE__DATA_IDENTIFIER
  | memory _ _ => UDS_REGISTRATION_TYPE__MEMORY
  | read_dtc _ _ => UDS_REGISTRATION_TYPE__READ_DTC_INFO
  | control_dtc_setting _ => UDS_REGISTRATION_TYPE__CONTROL_DTC_SETTING
  | clear_diagnostic_information _ => UDS_REGISTRATION_TYPE__CLEAR_DIAG_INFO
  | routine_control _ _ => UDS_REGISTRATION_TYPE__ROUTINE_CONTROL
  | security_access _ _ => UDS_REGISTRATION_TYPE__SECURITY_ACCESS
  | communication_control _ => UDS_REGISTRATION_TYPE__COMMUNICATION_CONTROL
  | dynamically_define_data_ids _ _ => UDS_REGISTRATION_TYPE__DYNAMIC_DEFINE_DATA_IDS
  | link_control _ => UDS_REGISTRATION_TYPE__LINK_CONTROL
  | auth _ _ => UDS_REGISTRATION_TYPE__AUTHENTICATION
  | upload_download => UDS_REGISTRATION_TYPE__UPLOAD_DOWNLOAD
  end.

(** [instance] is the number of the UDS instance, [user_context] an opaque
    pointer the library only passes on. *)
Record uds_registration_t := Registration {
  instance : option nat;
  user_context : Z;
  payload : uds_registration_data;
  dynamic_registration_id : Z;
  unregister_registration_fn : option unregister_fn;
}.

Definition type (r : uds_registration_t) : uds_registration_type_t := registration_type (payload r).

Definition set_dynamic_registration_id (id : Z) (r : uds_registration_t) :=
  Registration (instance r) (user_context r) (payload r) id (unregister_registration_fn r).
Definition set_instance (i : option nat) (r : uds_registration_t) :=
  Registration i (user_context r) (payload r) (dynamic_registration_id r) (unregister_registration_fn r).
Definition set_payload (x : uds_registration_data) (r : uds_registration_t) :=
  Registration (instance r) (user_context r) x (dynamic_registration_id r) (unregister_registration_fn r).

(** One part of a dynamically defined data identifier. *)
Inductive uds_dynamically_defined_data :=
| UDS_DYNAMICALLY_DEFINED_DATA_TYPE__ID (id position size : Z)
| UDS_DYNAMICALLY_DEFINED_DATA_TYPE__MEMORY (memAddr memSize : Z).

(** A registration is a static one, by its position in the iterable section,
    or a heap object. *)
Inductive reg_ptr := StaticReg (n : nat) | DynReg (a : addr).

#[export] Instance reg_ptr_eq_dec : EqDecision reg_ptr.
Proof. solve_decision. Defined.

(** The [server] member of the C struct is the server of [ctx_instance]. *)
Record uds_context := Context {
  ctx_instance : nat;
  ctx_registration : reg_ptr;
  ctx_event : UDSEvent_t;
  ctx_arg : uds_arg;
}.

(** ** The heap and the state of an instance *)

(** What the library allocates with [k_malloc]: registrations, the
    [sys_slist_t] of a dynamic identifier, its items, and the items of
    [dynamic_registration_id_list]. *)
Inductive obj :=
| obj_registration (r : uds_registration_t)
| obj_data_list (l : list addr)
| obj_data_item (d : uds_dynamically_defined_data)
| obj_id_item (dynamic_registration_id : Z).

(** [oom] is the environment's decision for the coming [k_malloc] calls
    ([true]: no memory); when it is used up they succeed.  [next_addr] is above
    every address handed out so far, so a freed address is not handed out
    again and a stale pointer stays recognisable.  [temp_buffer] is the used
    part, [temp_buffer_len] bytes long, of the static buffer of
    dynamically_define_data_ids.c.  [ext] is the state of the other
    components. *)
Record world (E : Type) := World {
  inst_id : nat;
  static_regs : list uds_registration_t;
  dynamic_registrations : list addr;
  heap : gmap addr obj;
  next_addr : addr;
  oom : list bool;
  temp_buffer : list Z;
  ext : E;
}.
Arguments World {E}.
Arguments inst_id {E}.
Arguments static_regs {E}.
Arguments dynamic_registrations {E}.
Arguments heap {E}.
Arguments next_addr {E}.
Arguments oom {E}.
Arguments temp_buffer {E}.
Arguments ext {E}.

Section world_ops.
Context {E : Type}.
Implicit Types (w : world E).

Definition set_static_regs l w :=
  World (inst_id w) l (dynamic_registrations w) (heap w) (next_addr w) (oom w) (temp_buffer w) (ext w).
Definition set_dynamic_registrations l w :=
  World (inst_id w) (static_regs w) l (heap w) (next_addr w) (oom w) (temp_buffer w) (ext w).
Definition set_heap h w :=
  World (inst_id w) (static_regs w) (dynamic_registrations w) h (next_addr w) (oom w) (temp_buffer w) (ext w).
Definition set_temp_buffer b w :=
  World (inst_id w) (static_regs w) (dynamic_registrations w) (heap w) (next_addr w) (oom w) b (ext w).
Definition set_ext (e : E) w :=
  World (inst_id w) (static_regs w) (dynamic_registrations w) (heap w) (next_addr w) (oom w) (temp_buffer w) e.

Definition set_oom o w :=
  World (inst_id w) (static_regs w) (dynamic_registrations w) (heap w) (next_addr w) o (temp_buffer w) (ext w).

(** The state with a new object [o] at [next_addr]. *)
Definition alloc (o : obj) w :=
  World (inst_id w) (static_regs w) (dynamic_registrations w) (<[next_addr w := o]> (heap w))
    (Pos.succ (next_addr w)) (oom w) (temp_buffer w) (ext w).

(** The environment's answer to the next [k_malloc]. *)
Definition out_of_memory w : bool := match oom w with true :: _ => true | _ => false end.

(** [k_malloc], immediately followed by the initialisation of the object
    with [o]: [None] is NULL. *)
Definition k_malloc (o : obj) : M (world E) (option addr) := fun w =>
  let w1 := set_oom (tail (oom w)) w in
  if out_of_memory w then Ret None w1 else Ret (Some (next_addr w)) (alloc o w1).

Definition k_free (a : addr) : M (world E) unit := fun w =>
  match heap w !! a with
  | Some _ => Ret tt (set_heap (delete a (heap w)) w)
  | None => Fault DoubleFree
  end.

(** Reading and writing through a pointer to a heap object. *)
Definition read_obj (a : addr) : M (world E) obj := fun w =>
  match heap w !! a with Some o => Ret o w | None => Fault UseAfterFree end.

Definition write_obj (a : addr) (o : obj) : M (world E) unit := fun w =>
  match heap w !! a with
  | Some _ => Ret tt (set_heap (<[a := o]> (heap w)) w)
  | None => Fault UseAfterFree
  end.

Definition read_dyn_reg (a : addr) : M (world E) uds_registration_t :=
  let* o := read_obj a in
  match o with obj_registration r => ret r | _ => fail UseAfterFree end.

Definition read_data_list (a : addr) : M (world E) (list addr) :=
  let* o := read_obj a in
  match o with obj_data_list l => ret l | _ => fail UseAfterFree end.

Definition read_data_item (a : addr) : M (world E) uds_dynamically_defined_data :=
  let* o := read_obj a in
  match o with obj_data_item d => ret d | _ => fail UseAfterFree end.

Definition read_id_item (a : addr) : M (world E) Z :=
  let* o := read_obj a in
  match o with obj_id_item i => ret i | _ => fail UseAfterFree end.

Definition read_static_reg (n : nat) : M (world E) uds_registration_t := fun w =>
  match static_regs w !! n with Some r => Ret r w | None => Fault OutOfBounds end.

(** Through a [struct uds_registration_t *]. *)
Definition read_reg (p : reg_ptr) : M (world E) uds_registration_t :=
  match p with StaticReg n => read_static_reg n | DynReg a => read_dyn_reg a end.

Definition write_reg (p : reg_ptr) (r : uds_registration_t) : M (world E) unit :=
  match p with
  | StaticReg n => fun w => Ret tt (set_static_regs (<[n := r]> (static_regs w)) w)
  | DynReg a => write_obj a (obj_registration r)
  end.

(** [SYS_SLIST_FOR_EACH_CONTAINER] reads the link of the current node after
    the body: [slist_next l a] is the node after [a] in the list as it then
    is; a node that is no longer linked has no successor. *)
Fixpoint slist_next (l : list addr) (a : addr) : option addr :=
  match l with
  | [] => None
  | x :: l' => if decide (x = a) then head l' else slist_next l' a
  end.

(** [sys_slist_find_and_remove]: the list without its first occurrence of
    the node, and whether there was one. *)
Fixpoint slist_find_and_remove (l : list addr) (a : addr) : bool * list addr :=
  match l with
  | [] => (false, [])
  | x :: l' =>
      if decide (x = a) then (true, l')
      else let '(r, l'') := slist_find_and_remove l' a in (r, x :: l'')
  end.
End world_ops.

#[global] Arguments read_reg : simpl never.
#[global] Arguments write_reg : simpl never.

(** ** Interface of the callbacks

    What the dispatcher of [Uds] asks of the check, action and unregister
    functions: a check yields its return value and [*apply_action]; an action
    its return value, [*consume_event] and the argument object as it left
    it. *)
Class UdsCallbacks (E : Type) := {
  call_check : uds_check_fn -> uds_context -> bool -> M (world E) (UDSErr_t * bool);
  call_action : uds_action_fn -> uds_context -> bool -> M (world E) (UDSErr_t * bool * uds_arg);
  call_unregister : unregister_fn -> addr -> M (world E) Z;
}.
