(* ===== verification/Uds.v ===== *)
(** * Event dispatch and dynamic registrations ([lib/uds/uds.c])

    [uds_handle_event] walks the static registrations, then the dynamic ones,
    runs the check and action of each that has the type the event's handler
    data asks for, and stops at the first error or consumed event.
    [uds_register_event_handler] and [uds_unregister_event_handler] maintain
    the list of dynamic registrations.  Everything is stated for an arbitrary
    instance of [UdsCallbacks]. *)

From stdpp Require Import base gmap list numbers relations.
From Stdlib Require Import ZArith Lia.
From S2P Require Import Prelude.
From S2P Require Import UdsTypes.

#[local] Open Scope Z_scope.

(** ** Definitions *)

(** [struct uds_event_handler_data] of uds.h. *)
Record uds_event_handler_data := EventHandler {
  event : UDSEvent_t;
  get_check : uds_registration_t -> option uds_check_fn;
  get_action : uds_registration_t -> option uds_action_fn;
  default_nrc : UDSErr_t;
  handler_registration_type : uds_registration_type_t;
}.

(** How a loop of [uds_handle_event] ends: the function returned from inside
    it, or all its registrations were visited. *)
Inductive loop_exit :=
| Returned (ret : UDSErr_t) (arg : uds_arg)
| Completed (found_at_least_one_match : bool) (arg : uds_arg).

Section uds.
Context {E : Type} `{!UdsCallbacks E}.
Implicit Types (w : world E) (h : uds_event_handler_data).

(** Yields the return value, [*found_at_least_one_match], [*consume_event]
    and the argument object. *)
Definition uds_check_and_act_on_event (context : uds_context) (handler : uds_event_handler_data)
    (found consume : bool) : M (world E) (UDSErr_t * bool * bool * uds_arg) :=
  let arg := ctx_arg context in
  let* reg := read_reg (ctx_registration context) in
  if decide (type reg <> handler_registration_type handler) then ret (UDS_OK, found, false, arg)
  else match get_check handler reg with
  | None => ret (UDS_OK, found, false, arg)
  | Some chk =>
      let* (r, apply_action) := call_check chk context false in
      if decide (r <> UDS_OK) then ret (r, found, false, arg)
      else
        let* reg := read_reg (ctx_registration context) in
        match apply_action, get_action handler reg with
        | true, Some act =>
            let* (r, consume', arg') := call_action act context consume in
            if decide (r <> UDS_OK) then ret (r, found, consume', arg')
            else ret (UDS_OK, true, consume', arg')
        | _, _ => ret (r, found, false, arg)
        end
  end.

(** [STRUCT_SECTION_FOREACH (uds_registration_t, reg)]: positions [i] to
    [i + count - 1] of the section. *)
Fixpoint static_loop (count : nat) (i : nat) (ev : UDSEvent_t) (arg : uds_arg)
    (handler : uds_event_handler_data) (found : bool) : M (world E) loop_exit :=
  match count with
  | O => ret (Completed found arg)
  | S count' =>
      let* inst := gets inst_id in
      let context := Context inst (StaticReg i) ev arg in
      let* (r, found', consume, arg') :=
        uds_check_and_act_on_event context handler found true in
      if consume || bool_decide (r <> UDS_OK) then ret (Returned r arg')
      else static_loop count' (S i) ev arg' handler found'
  end.

(** [SYS_SLIST_FOR_EACH_CONTAINER (&instance->dynamic_registrations, ...)]:
    the link of the current node is read after the body, from the node. *)
Fixpoint dynamic_loop (fuel : nat) (cur : option addr) (ev : UDSEvent_t) (arg : uds_arg)
    (handler : uds_event_handler_data) (found : bool) : M (world E) loop_exit :=
  match cur with
  | None => ret (Completed found arg)
  | Some a =>
      match fuel with
      | O => fail OutOfFuel
      | S fuel' =>
          let* inst := gets inst_id in
          let context := Context inst (DynReg a) ev arg in
          let* (r, found', consume, arg') :=
            uds_check_and_act_on_event context handler found false in
          if consume || bool_decide (r <> UDS_OK) then ret (Returned r arg')
          else
            let* _ := read_dyn_reg a in
            let* l := gets dynamic_registrations in
            dynamic_loop fuel' (slist_next l a) ev arg' handler found'
      end
  end.

(** [fuel] bounds the number of dynamic registrations visited, which the
    code does not: a callback may append registrations while the list is
    walked. *)
Definition uds_handle_event (fuel : nat) (ev : UDSEvent_t) (arg : uds_arg)
    (handler : uds_event_handler_data) : M (world E) (UDSErr_t * uds_arg) :=
  let* n := gets (fun w => length (static_regs w)) in
  let* x := static_loop n 0 ev arg handler false in
  match x with
  | Returned r arg' => ret (r, arg')
  | Completed found arg' =>
      let* l := gets dynamic_registrations in
      let* y := dynamic_loop fuel (head l) ev arg' handler found in
      match y with
      | Returned r arg'' => ret (r, arg'')
      | Completed found' arg'' =>
          if negb found' then ret (default_nrc handler, arg'')
          else ret (UDS_PositiveResponse, arg'')
      end
  end.

(** [table] is the iterable section of [uds_event_handler_data]. *)
Fixpoint uds_event_callback (table : list uds_event_handler_data) (fuel : nat)
    (ev : UDSEvent_t) (arg : uds_arg) : M (world E) (UDSErr_t * uds_arg) :=
  match table with
  | [] => ret (UDS_NRC_ServiceNotSupported, arg)
  | handler :: rest =>
      if decide (event handler = ev) then uds_handle_event fuel ev arg handler
      else uds_event_callback rest fuel ev arg
  end.

(** *** Dynamic registrations *)

Fixpoint id_in_use (l : list addr) (candidate_id : Z) : M (world E) bool :=
  match l with
  | [] => ret false
  | a :: l' =>
      let* reg := read_dyn_reg a in
      if dynamic_registration_id reg =? candidate_id then ret true
      else id_in_use l' candidate_id
  end.

Fixpoint find_next_dynamic_id_loop (fuel : nat) (candidate_id : Z) : M (world E) Z :=
  match fuel with
  | O => fail OutOfFuel
  | S fuel' =>
      if candidate_id =? 0 then ret 0
      else
        let* l := gets dynamic_registrations in
        let* in_use := id_in_use l candidate_id in
        if negb in_use then ret candidate_id
        else if candidate_id =? UINT32_MAX then find_next_dynamic_id_loop fuel' 0
        else find_next_dynamic_id_loop fuel' (candidate_id + 1)
  end.

Definition find_next_dynamic_id : M (world E) Z :=
  let* l := gets dynamic_registrations in
  find_next_dynamic_id_loop (S (S (length l))) 1.

(** The return value, and on success what is stored through [dynamic_id] and
    [registration_out]. *)
Definition uds_register_event_handler (registration : uds_registration_t) :
    M (world E) (Z * option (Z * addr)) :=
  let* inst := gets inst_id in
  let registration := set_instance (Some inst) registration in
  let* next_id := find_next_dynamic_id in
  if next_id =? 0 then ret (- ENOSPC, None)
  else
    let* heap_registration :=
      k_malloc (obj_registration (set_dynamic_registration_id next_id registration)) in
    match heap_registration with
    | None => ret (- ENOMEM, None)
    | Some a =>
        modify (fun w => set_dynamic_registrations (dynamic_registrations w ++ [a]) w) ;;
        ret (0, Some (next_id, a))
    end.

(** The body of the loop for the registration that was asked for. *)
Definition unregister_found (a : addr) (reg : uds_registration_t) : M (world E) Z :=
  let* rc := match unregister_registration_fn reg with
             | Some f => call_unregister f a
             | None => ret 0
             end in
  if rc <? 0 then ret rc
  else
    let* l := gets dynamic_registrations in
    let '(removed, l') := slist_find_and_remove l a in
    modify (set_dynamic_registrations l') ;;
    if negb removed then fail AssertFailed
    else (k_free a ;; ret 0).

Fixpoint unregister_loop (l : list addr) (dynamic_id : Z) : M (world E) Z :=
  match l with
  | [] => ret (- ENOENT)
  | a :: l' =>
      let* reg := read_dyn_reg a in
      if dynamic_registration_id reg =? dynamic_id then unregister_found a reg
      else unregister_loop l' dynamic_id
  end.

Definition uds_unregister_event_handler (dynamic_id : Z) : M (world E) Z :=
  let* l := gets dynamic_registrations in
  unregister_loop l dynamic_id.
End uds.

(** ** The dispatch as a transition system

    The contract of [uds_handle_event]: a cursor moves over the static
    positions, then over the links of the dynamic list as they are after each
    visit, and the event is finished by the first registration that consumes
    it or fails, or by the end of the list. *)

Section dispatch_spec.
Context {E : Type} `{!UdsCallbacks E}.
Implicit Types (w : world E) (h : uds_event_handler_data).

Inductive cursor :=
| AtStatic (i : nat)
| AtDynamic (next : option addr)
| Finished (r : UDSErr_t).

Record dispatch_state := DState {
  at_cursor : cursor;
  matched : bool;
  the_arg : uds_arg;
  the_world : world E;
}.

(** Visiting one registration; [default] is the initial [consume_event]. *)
Definition visit (p : reg_ptr) (default : bool) (ev : UDSEvent_t) h (found : bool)
    (arg : uds_arg) w :=
  uds_check_and_act_on_event (Context (inst_id w) p ev arg) h found default w.

(** The visit ends the event. *)
Definition decisive (r : UDSErr_t) (consume : bool) : bool :=
  consume || bool_decide (r <> UDS_OK).

Inductive dispatch_step (n : nat) (ev : UDSEvent_t) h : dispatch_state -> dispatch_state -> Prop :=
| static_decides i f arg w r f' c arg' w' :
    (i < n)%nat ->
    visit (StaticReg i) true ev h f arg w = Ret (r, f', c, arg') w' ->
    decisive r c = true ->
    dispatch_step n ev h (DState (AtStatic i) f arg w) (DState (Finished r) f' arg' w')
| static_passes i f arg w r f' c arg' w' :
    (i < n)%nat ->
    visit (StaticReg i) true ev h f arg w = Ret (r, f', c, arg') w' ->
    decisive r c = false ->
    dispatch_step n ev h (DState (AtStatic i) f arg w) (DState (AtStatic (S i)) f' arg' w')
| static_ends f arg w :
    dispatch_step n ev h (DState (AtStatic n) f arg w)
      (DState (AtDynamic (head (dynamic_registrations w))) f arg w)
| dynamic_decides a f arg w r f' c arg' w' :
    visit (DynReg a) false ev h f arg w = Ret (r, f', c, arg') w' ->
    decisive r c = true ->
    dispatch_step n ev h (DState (AtDynamic (Some a)) f arg w) (DState (Finished r) f' arg' w')
| dynamic_passes a f arg w r f' c arg' w' reg :
    visit (DynReg a) false ev h f arg w = Ret (r, f', c, arg') w' ->
    decisive r c = false ->
    heap w' !! a = Some (obj_registration reg) ->
    dispatch_step n ev h (DState (AtDynamic (Some a)) f arg w)
      (DState (AtDynamic (slist_next (dynamic_registrations w') a)) f' arg' w')
| dynamic_ends f arg w :
    dispatch_step n ev h (DState (AtDynamic None) f arg w)
      (DState (Finished (if f then UDS_PositiveResponse else default_nrc h)) f arg w).

Lemma read_dyn_reg_Ret a reg w w' :
  read_dyn_reg a w = Ret reg w' <-> heap w !! a = Some (obj_registration reg) /\ w' = w.
Proof.
  unfold read_dyn_reg, read_obj, bind. destruct (heap w !! a) as [[]|] eqn:Ea; cbn;
    unfold ret, fail; naive_solver.
Qed.

(** What [uds_handle_event] does with a finished loop. *)
Definition conclude h (y : loop_exit) : M (world E) (UDSErr_t * uds_arg) :=
  match y with
  | Returned r arg => ret (r, arg)
  | Completed found arg => ret ((if found then UDS_PositiveResponse else default_nrc h), arg)
  end.

Definition enter_dynamic (fuel : nat) (ev : UDSEvent_t) h (x : loop_exit) :=
  match x with
  | Returned r arg => ret (r, arg)
  | Completed found arg =>
      let* l := gets dynamic_registrations in
      let* y := dynamic_loop fuel (head l) ev arg h found in conclude h y
  end.

Lemma uds_handle_event_unfold fuel ev arg h w :
  uds_handle_event fuel ev arg h w =
  bind (static_loop (length (static_regs w)) 0 ev arg h false) (enter_dynamic fuel ev h) w.
Proof.
  unfold uds_handle_event, enter_dynamic, conclude, bind, gets. cbn.
  destruct (static_loop _ _ _ _ _ _ w) as [[r a|f a] w1|]; [done| |done]. cbn.
  destruct (dynamic_loop _ _ _ _ _ _ w1) as [[r a'|[] a'] w2|]; done.
Qed.

Lemma static_loop_S n i ev arg h f w :
  static_loop (S n) i ev arg h f w =
  match visit (StaticReg i) true ev h f arg w with
  | Ret (r, f', c, arg') w' =>
      if decisive r c then Ret (Returned r arg') w'
      else static_loop n (S i) ev arg' h f' w'
  | Fault e => Fault e
  end.
Proof.
  cbn [static_loop]. unfold bind, gets, visit, decisive, ret.
  destruct (uds_check_and_act_on_event _ _ _ _ w) as [[[[r f'] c] arg'] w'|]; [|done].
  by destruct (c || bool_decide (r <> UDS_OK)).
Qed.

Lemma dynamic_loop_S fuel a ev arg h f w :
  dynamic_loop (S fuel) (Some a) ev arg h f w =
  match visit (DynReg a) false ev h f arg w with
  | Ret (r, f', c, arg') w' =>
      if decisive r c then Ret (Returned r arg') w'
      else match heap w' !! a with
           | Some (obj_registration _) =>
               dynamic_loop fuel (slist_next (dynamic_registrations w') a) ev arg' h f' w'
           | _ => Fault UseAfterFree
           end
  | Fault e => Fault e
  end.
Proof.
  cbn [dynamic_loop]. unfold bind, gets, visit, decisive, ret, read_dyn_reg, read_obj, fail.
  destruct (uds_check_and_act_on_event _ _ _ _ w) as [[[[r f'] c] arg'] w'|]; [|done].
  destruct (c || bool_decide (r <> UDS_OK)); [done|].
  unfold bind, ret. by destruct (heap w' !! a) as [[]|].
Qed.

Lemma dynamic_loop_reaches n ev h fuel : forall cur arg f w r arg' w',
  bind (dynamic_loop fuel cur ev arg h f) (conclude h) w = Ret (r, arg') w' ->
  exists f', rtc (dispatch_step n ev h) (DState (AtDynamic cur) f arg w)
                 (DState (Finished r) f' arg' w').
Proof.
  induction fuel as [|fuel IH]; intros [a|] arg f w r arg' w'.
  - done.
  - cbn. unfold bind, ret. intros [= <- <- <-]. eexists. eapply rtc_once, dynamic_ends.
  - unfold bind. rewrite dynamic_loop_S.
    destruct (visit _ _ _ _ _ _ w) as [[[[r1 f1] c1] arg1] w1|] eqn:Hv; [|done].
    destruct (decisive r1 c1) eqn:Hd.
    + intros [= <- <- <-]. eexists. eapply rtc_once, dynamic_decides; eauto.
    + destruct (heap w1 !! a) as [[reg| | |]|] eqn:Ha; [|done..].
      intros Hrest. destruct (IH _ _ _ _ _ _ _ Hrest) as [f' Hs].
      exists f'. eapply rtc_l; [eapply dynamic_passes; eauto|done].
  - cbn. unfold bind, ret. intros [= <- <- <-]. eexists. eapply rtc_once, dynamic_ends.
Qed.

Lemma static_loop_reaches ev h fuel n : forall k i arg f w r arg' w',
  (i + k = n)%nat ->
  bind (static_loop k i ev arg h f) (enter_dynamic fuel ev h) w = Ret (r, arg') w' ->
  exists f', rtc (dispatch_step n ev h) (DState (AtStatic i) f arg w)
                 (DState (Finished r) f' arg' w').
Proof.
  induction k as [|k IH]; intros i arg f w r arg' w' Hn.
  - cbn. intros Hd. apply dynamic_loop_reaches with (n := n) in Hd as [f' Hs].
    exists f'. eapply rtc_l; [|exact Hs]. replace i with n by lia. apply static_ends.
  - unfold bind. rewrite static_loop_S.
    destruct (visit _ _ _ _ _ _ w) as [[[[r1 f1] c1] arg1] w1|] eqn:Hv; [|done].
    destruct (decisive r1 c1) eqn:Hd.
    + intros [= <- <- <-]. eexists. eapply rtc_once, static_decides; eauto. lia.
    + intros Hrest. destruct (IH (S i) arg1 f1 w1 r arg' w') as [f' Hs]; [lia|exact Hrest|].
      exists f'. eapply rtc_l; [eapply static_passes; eauto; lia|done].
Qed.

(** What remains to be run from a state of the transition system. *)
Definition resume (fuel n : nat) (ev : UDSEvent_t) h (s : dispatch_state) :=
  match at_cursor s with
  | AtStatic i =>
      bind (static_loop (n - i) i ev (the_arg s) h (matched s)) (enter_dynamic fuel ev h) (the_world s)
  | AtDynamic cur =>
      bind (dynamic_loop fuel cur ev (the_arg s) h (matched s)) (conclude h) (the_world s)
  | Finished r => Ret (r, the_arg s) (the_world s)
  end.

Lemma resume_step n ev h s s' fuel :
  dispatch_step n ev h s s' -> exists fuel', resume fuel' n ev h s = resume fuel n ev h s'.
Proof.
  destruct 1; unfold resume; cbn.
  - exists fuel. replace (n - i)%nat with (S (n - S i)) by lia.
    unfold bind. rewrite static_loop_S, H0, H1. done.
  - exists fuel. replace (n - i)%nat with (S (n - S i)) by lia.
    unfold bind. rewrite static_loop_S, H0, H1. done.
  - exists fuel. by rewrite Nat.sub_diag.
  - exists (S fuel). unfold bind. by rewrite dynamic_loop_S, H, H0.
  - exists (S fuel). unfold bind. by rewrite dynamic_loop_S, H, H0, H1.
  - exists fuel. by destruct fuel.
Qed.

Lemma resume_rtc n ev h s s' :
  rtc (dispatch_step n ev h) s s' ->
  forall r, at_cursor s' = Finished r ->
  exists fuel, resume fuel n ev h s = Ret (r, the_arg s') (the_world s').
Proof.
  induction 1 as [s|s s1 s2 Hs _ IH]; intros r Hr.
  - exists O. unfold resume. by rewrite Hr.
  - destruct (IH r Hr) as [fuel Hf]. destruct (resume_step _ _ _ _ _ fuel Hs) as [fuel' Hf'].
    exists fuel'. congruence.
Qed.
End dispatch_spec.

(** ** Properties of the dispatch *)

Section dispatch_props.
Context {E : Type} `{!UdsCallbacks E}.
Implicit Types (w : world E) (h : uds_event_handler_data).


(** A registration the event passes by without any effect: it has another
    type, it has no check function, its check declines, or it has no
    action. *)
Inductive inapplicable (ev : UDSEvent_t) h (arg : uds_arg) w (p : reg_ptr) : Prop :=
| other_type reg :
    read_reg p w = Ret reg w -> type reg <> handler_registration_type h ->
    inapplicable ev h arg w p
| no_check reg :
    read_reg p w = Ret reg w -> get_check h reg = None -> inapplicable ev h arg w p
| declined reg chk :
    read_reg p w = Ret reg w -> get_check h reg = Some chk ->
    call_check chk (Context (inst_id w) p ev arg) false w = Ret (UDS_OK, false) w ->
    inapplicable ev h arg w p
| no_action reg chk b :
    read_reg p w = Ret reg w -> get_check h reg = Some chk -> get_action h reg = None ->
    call_check chk (Context (inst_id w) p ev arg) false w = Ret (UDS_OK, b) w ->
    inapplicable ev h arg w p.

(** A registration whose action is run by the event. *)
Definition runs (ev : UDSEvent_t) h (arg : uds_arg) w (p : reg_ptr) (default : bool)
    (r : UDSErr_t) (consume : bool) (arg' : uds_arg) w' : Prop :=
  exists reg chk act w1,
    read_reg p w = Ret reg w /\ type reg = handler_registration_type h /\
    get_check h reg = Some chk /\
    call_check chk (Context (inst_id w) p ev arg) false w = Ret (UDS_OK, true) w1 /\
    (exists reg1, read_reg p w1 = Ret reg1 w1 /\ get_action h reg1 = Some act) /\
    call_action act (Context (inst_id w) p ev arg) default w1 = Ret (r, consume, arg') w'.

Lemma visit_inapplicable ev h arg w p default f :
  inapplicable ev h arg w p -> visit p default ev h f arg w = Ret (UDS_OK, f, false, arg) w.
Proof.
  unfold visit, uds_check_and_act_on_event, bind. cbn.
  intros [reg Hr Ht|reg Hr Hc|reg chk Hr Hc Hk|reg chk b Hr Hc Ha Hk]; rewrite Hr.
  - by rewrite decide_True.
  - case_decide; [done|]. by rewrite Hc.
  - case_decide; [done|]. rewrite Hc, Hk, decide_False by naive_solver. by rewrite Hr.
  - case_decide; [done|]. rewrite Hc, Hk, decide_False by naive_solver. rewrite Hr, Ha. by destruct b.
Qed.

Lemma visit_runs ev h arg w p default f r c arg' w' :
  runs ev h arg w p default r c arg' w' ->
  visit p default ev h f arg w =
  Ret (r, if decide (r = UDS_OK) then true else f, c, arg') w'.
Proof.
  intros (reg & chk & act & w1 & Hr & Ht & Hc & Hk & (reg1 & Hr1 & Ha) & Hact).
  unfold visit, uds_check_and_act_on_event, bind. cbn.
  rewrite Hr, decide_False by naive_solver. rewrite Hc, Hk, decide_False by naive_solver.
  rewrite Hr1, Ha, Hact. case_decide as Hd; case_decide; naive_solver.
Qed.

Lemma static_loop_inapplicable ev h arg w f k : forall n i,
  (forall j, (i <= j < i + k)%nat -> inapplicable ev h arg w (StaticReg j)) ->
  static_loop (k + n) i ev arg h f w = static_loop n (i + k) ev arg h f w.
Proof.
  induction k as [|k IH]; intros n i Hin.
  - by rewrite Nat.add_0_r.
  - cbn [Nat.add]. rewrite static_loop_S, visit_inapplicable by (apply Hin; lia). cbn.
    rewrite IH by (intros; apply Hin; lia).
    by replace (S i + k)%nat with (i + S k)%nat by lia.
Qed.

Lemma slist_next_app_cons l1 a l2 : a ∉ l1 -> slist_next (l1 ++ a :: l2) a = head l2.
Proof.
  induction l1 as [|x l1 IH]; cbn; intros Hn.
  - by rewrite decide_True.
  - rewrite decide_False by set_solver. apply IH. set_solver.
Qed.

Lemma dynamic_loop_inapplicable ev h arg w f : forall l2 l1 fuel,
  NoDup (l1 ++ l2) -> dynamic_registrations w = l1 ++ l2 ->
  (forall a, a ∈ l2 -> inapplicable ev h arg w (DynReg a) /\
                       exists reg, heap w !! a = Some (obj_registration reg)) ->
  (length l2 <= fuel)%nat ->
  dynamic_loop fuel (head l2) ev arg h f w = Ret (Completed f arg) w.
Proof.
  induction l2 as [|a l2 IH]; intros l1 fuel Hnd Hl Hin Hf; [by destruct fuel|].
  destruct fuel as [|fuel]; [cbn in Hf; lia|]. cbn [head].
  destruct (Hin a) as [Ha [reg Hreg]]; [set_solver|].
  rewrite dynamic_loop_S, visit_inapplicable by done. cbn. rewrite Hreg, Hl.
  rewrite slist_next_app_cons by (apply NoDup_app in Hnd; set_solver).
  apply (IH (l1 ++ [a])).
  - by rewrite <- (assoc_L app).
  - by rewrite <- (assoc_L app).
  - set_solver.
  - cbn in Hf. lia.
Qed.

Lemma dispatch_default ev h arg w fuel :
  (forall i, (i < length (static_regs w))%nat -> inapplicable ev h arg w (StaticReg i)) ->
  (forall a, a ∈ dynamic_registrations w -> inapplicable ev h arg w (DynReg a) /\
             exists reg, heap w !! a = Some (obj_registration reg)) ->
  NoDup (dynamic_registrations w) ->
  (length (dynamic_registrations w) <= fuel)%nat ->
  uds_handle_event fuel ev arg h w = Ret (default_nrc h, arg) w.
Proof.
  intros Hs Hd Hnd Hf. rewrite uds_handle_event_unfold.
  rewrite <- (Nat.add_0_r (length (static_regs w))). unfold bind.
  rewrite static_loop_inapplicable by (intros; apply Hs; lia). cbn.
  unfold bind, gets. rewrite (dynamic_loop_inapplicable _ _ _ _ _ _ []); done.
Qed.

(** A check that faults makes the visit fault. *)
Lemma visit_check_fault ev h arg w p default f reg chk e :
  read_reg p w = Ret reg w -> type reg = handler_registration_type h -> get_check h reg = Some chk ->
  call_check chk (Context (inst_id w) p ev arg) false w = Fault e ->
  visit p default ev h f arg w = Fault e.
Proof.
  intros Hr Ht Hc Hk. unfold visit, uds_check_and_act_on_event, bind. cbn.
  rewrite Hr, decide_False by naive_solver. by rewrite Hc, Hk.
Qed.

(** A static registration whose visit faults, after inapplicable ones. *)
Lemma dispatch_fault ev h arg w fuel i e :
  (i < length (static_regs w))%nat ->
  (forall j, (j < i)%nat -> inapplicable ev h arg w (StaticReg j)) ->
  (forall f, visit (StaticReg i) true ev h f arg w = Fault e) ->
  uds_handle_event fuel ev arg h w = Fault e.
Proof.
  intros Hi Hpre Hv. rewrite uds_handle_event_unfold.
  replace (length (static_regs w)) with (i + S (length (static_regs w) - S i))%nat by lia.
  unfold bind. rewrite static_loop_inapplicable by (intros; apply Hpre; lia).
  by rewrite static_loop_S, Hv.
Qed.

(** A registration that lets the event pass and changes nothing. *)
Definition quiet ev h (arg : uds_arg) w (p : reg_ptr) : Prop :=
  forall f, exists f', visit p true ev h f arg w = Ret (UDS_OK, f', false, arg) w.

Lemma inapplicable_quiet ev h arg w p : inapplicable ev h arg w p -> quiet ev h arg w p.
Proof. intros Hin f. exists f. by apply visit_inapplicable. Qed.

Lemma static_loop_quiet ev h arg w k : forall n i f,
  (forall j, (i <= j < i + k)%nat -> quiet ev h arg w (StaticReg j)) ->
  exists f', static_loop (k + n) i ev arg h f w = static_loop n (i + k) ev arg h f' w.
Proof.
  induction k as [|k IH]; intros n i f Hq; [exists f; by rewrite Nat.add_0_r|].
  destruct (Hq i ltac:(lia) f) as [f1 Hv]. cbn [Nat.add]. rewrite static_loop_S, Hv. cbn.
  destruct (IH n (S i) f1) as [f' ->]; [intros; apply Hq; lia|].
  exists f'. by replace (S i + k)%nat with (i + S k)%nat by lia.
Qed.

(** A static registration whose visit ends the event, after quiet ones. *)
Lemma dispatch_decided ev h arg w fuel i r c arg' w' :
  (i < length (static_regs w))%nat ->
  (forall j, (j < i)%nat -> quiet ev h arg w (StaticReg j)) ->
  (forall f, exists f', visit (StaticReg i) true ev h f arg w = Ret (r, f', c, arg') w') ->
  decisive r c = true ->
  uds_handle_event fuel ev arg h w = Ret (r, arg') w'.
Proof.
  intros Hi Hpre Hv Hdec. rewrite uds_handle_event_unfold.
  replace (length (static_regs w)) with (i + S (length (static_regs w) - S i))%nat by lia.
  unfold bind. destruct (static_loop_quiet ev h arg w i (S (length (static_regs w) - S i)) 0 false) as [f ->];
    [intros; apply Hpre; lia|].
  destruct (Hv f) as [f' Hv']. change (0 + i)%nat with i. by rewrite static_loop_S, Hv', Hdec.
Qed.

(** When no registration applies, the client gets the default response
    code of the event's handler data and nothing has changed; the fuel needed
    is the number of dynamic registrations. *)
Theorem dispatch_default_nrc ev h arg w fuel :
  (forall i, (i < length (static_regs w))%nat -> inapplicable ev h arg w (StaticReg i)) ->
  (forall a, a ∈ dynamic_registrations w -> inapplicable ev h arg w (DynReg a) /\
             exists reg, heap w !! a = Some (obj_registration reg)) ->
  NoDup (dynamic_registrations w) ->
  (length (dynamic_registrations w) <= fuel)%nat ->
  uds_handle_event fuel ev arg h w = Ret (default_nrc h, arg) w.
Proof. apply dispatch_default. Qed.

(** The first applicable static registration decides: if it consumes the
    event or fails, its code, argument and state are the result, whatever
    registrations follow it and whatever dynamic registrations exist. *)
Theorem dispatch_first_decides ev h arg w fuel i r c arg' w' :
  (i < length (static_regs w))%nat ->
  (forall j, (j < i)%nat -> inapplicable ev h arg w (StaticReg j)) ->
  runs ev h arg w (StaticReg i) true r c arg' w' ->
  decisive r c = true ->
  uds_handle_event fuel ev arg h w = Ret (r, arg') w'.
Proof.
  intros Hi Hpre Hrun Hdec. eapply dispatch_decided; [done|by intros; apply inapplicable_quiet, Hpre| |done].
  intros f. eexists. by apply visit_runs.
Qed.

(** A failing check ends the event with its code; its action, the later
    registrations and the default code play no part. *)
Theorem dispatch_check_error ev h arg w fuel i reg chk b e w' :
  (i < length (static_regs w))%nat ->
  (forall j, (j < i)%nat -> inapplicable ev h arg w (StaticReg j)) ->
  read_reg (StaticReg i) w = Ret reg w ->
  type reg = handler_registration_type h ->
  get_check h reg = Some chk ->
  call_check chk (Context (inst_id w) (StaticReg i) ev arg) false w = Ret (e, b) w' ->
  e <> UDS_OK ->
  uds_handle_event fuel ev arg h w = Ret (e, arg) w'.
Proof.
  intros Hi Hpre Hr Ht Hc Hk He. apply (dispatch_decided _ _ _ _ _ i _ false arg);
    [done|by intros; apply inapplicable_quiet, Hpre| |].
  - intros f. exists f. unfold visit, uds_check_and_act_on_event, bind. cbn.
    rewrite Hr, decide_False by naive_solver. by rewrite Hc, Hk, decide_True.
  - unfold decisive. by rewrite bool_decide_true.
Qed.

(** The value of [consume_event] before the action runs: [true] in the loop
    over the static registrations, [false] in the dynamic one. *)
Definition initial_consume_event (p : reg_ptr) : bool :=
  match p with StaticReg _ => true | DynReg _ => false end.

(** An action that leaves [*consume_event] as it finds it consumes the
    event when its registration is static and passes it on when the
    registration is dynamic. *)
Theorem default_consumption ev h arg w p arg' w' f :
  runs ev h arg w p (initial_consume_event p) UDS_OK (initial_consume_event p) arg' w' ->
  exists c, visit p (initial_consume_event p) ev h f arg w = Ret (UDS_OK, true, c, arg') w' /\
            decisive UDS_OK c = match p with StaticReg _ => true | DynReg _ => false end.
Proof.
  intros Hr. eexists. split.
  - by rewrite (visit_runs _ _ _ _ _ _ _ _ _ _ _ Hr), decide_True.
  - by destruct p.
Qed.
End dispatch_props.

(** ** The registry of dynamic registrations *)

Section registry.
Context {E : Type} `{!UdsCallbacks E}.
Implicit Types (w : world E) (rs : list uds_registration_t).

(** [rs] are the registrations the nodes [l] of a list point to. *)
Definition points_to (hp : gmap addr obj) (l : list addr) rs : Prop :=
  Forall2 (fun a r => hp !! a = Some (obj_registration r)) l rs.

Definition ids rs : list Z := map dynamic_registration_id rs.

(** The registry with contents [rs]: the nodes are distinct, allocated
    registrations, with pairwise distinct identifiers between 1 and
    [UINT32_MAX], and no heap address is at or above [next_addr]. *)
Record registry w rs : Prop := Registry {
  registry_points_to : points_to (heap w) (dynamic_registrations w) rs;
  registry_nodes : NoDup (dynamic_registrations w);
  registry_ids : NoDup (ids rs);
  registry_range : Forall (fun i => 1 <= i <= UINT32_MAX) (ids rs);
  registry_fresh : forall a, is_Some (heap w !! a) -> (a < next_addr w)%positive;
}.

Lemma points_to_lookup hp l rs a :
  points_to hp l rs -> a ∈ l -> exists r, hp !! a = Some (obj_registration r) /\ r ∈ rs.
Proof.
  intros H Ha. apply list_elem_of_lookup in Ha as [i Hi].
  destruct (Forall2_lookup_l _ _ _ _ _ H Hi) as (r & Hr & Hp).
  exists r. split; [done|]. by apply list_elem_of_lookup_2 in Hr.
Qed.

Lemma id_in_use_spec l rs c w :
  points_to (heap w) l rs -> id_in_use l c w = Ret (bool_decide (c ∈ ids rs)) w.
Proof.
  revert rs. induction l as [|a l IH]; intros rs H; inversion H as [|? r ? rs' Ha Hl]; subst.
  - cbn. by rewrite bool_decide_false by set_solver.
  - cbn. unfold bind at 1.
    assert (read_dyn_reg a w = Ret r w) as -> by (by apply read_dyn_reg_Ret).
    destruct (Z.eqb_spec (dynamic_registration_id r) c) as [<-|Hne].
    + by rewrite bool_decide_true by set_solver.
    + rewrite (IH rs' Hl). f_equal. apply bool_decide_ext. set_solver.
Qed.

(** Pigeonhole: a list that holds [1 .. c - 1] is at least that long. *)
Lemma initial_segment_length (l : list Z) c :
  1 <= c -> (forall k, 1 <= k < c -> k ∈ l) -> c - 1 <= Z.of_nat (length l).
Proof.
  intros Hc H.
  assert (seqZ 1 (c - 1) ⊆+ l) as Hsub.
  { apply NoDup_submseteq; [apply NoDup_seqZ|].
    intros k Hk. apply elem_of_seqZ in Hk. apply H. lia. }
  apply submseteq_length in Hsub. rewrite length_seqZ in Hsub. lia.
Qed.

(** The identifier the search yields: the least unused one, or 0 when all of
    [1 .. UINT32_MAX] are taken. *)
Definition next_id_spec (used : list Z) (id : Z) : Prop :=
  (id = 0 /\ (forall k, 1 <= k <= UINT32_MAX -> k ∈ used)) \/
  (1 <= id <= UINT32_MAX /\ (id ∉ used) /\ (forall k, 1 <= k < id -> k ∈ used)).

Lemma find_loop_spec w rs : points_to (heap w) (dynamic_registrations w) rs ->
  forall fuel c, 1 <= c <= UINT32_MAX -> (forall k, 1 <= k < c -> k ∈ ids rs) ->
  Z.of_nat (length (ids rs)) + 3 <= c + Z.of_nat fuel ->
  exists id, find_next_dynamic_id_loop fuel c w = Ret id w /\ next_id_spec (ids rs) id.
Proof.
  intros Hp. induction fuel as [|fuel IH]; intros c Hc Hk Hf.
  - pose proof (initial_segment_length _ c ltac:(lia) Hk). lia.
  - cbn. rewrite (proj2 (Z.eqb_neq c 0)) by lia. unfold bind at 1, gets.
    rewrite (bind_step _ _ _ _ _ (id_in_use_spec _ _ c _ Hp)).
    case_bool_decide as Hin; cbn.
    + assert (forall k, 1 <= k < c + 1 -> k ∈ ids rs) as Hk'.
      { intros k Hkr. destruct (decide (k = c)) as [->|]; [done|]. apply Hk. lia. }
      destruct (Z.eqb_spec c UINT32_MAX) as [->|Hne].
      * destruct fuel as [|fuel].
        { pose proof (initial_segment_length (ids rs) (UINT32_MAX + 1) ltac:(lia) Hk'). lia. }
        exists 0. split; [done|]. left. split; [done|]. intros k Hkr. apply Hk'. lia.
      * apply IH; [lia|exact Hk'|lia].
    + exists c. split; [done|]. right. done.
Qed.

(** The search always ends. *)
Lemma find_next_dynamic_id_Ret w rs :
  registry w rs ->
  exists id, find_next_dynamic_id w = Ret id w /\ next_id_spec (ids rs) id.
Proof.
  intros H. unfold find_next_dynamic_id, bind at 1, gets.
  apply (find_loop_spec w rs (registry_points_to _ _ H)); [done|lia|].
  unfold ids. rewrite length_map, <- (Forall2_length _ _ _ (registry_points_to _ _ H)). lia.
Qed.

Lemma points_to_insert_fresh hp l rs a o :
  points_to hp l rs -> hp !! a = None -> points_to (<[a := o]> hp) l rs.
Proof.
  intros H Ha. eapply Forall2_impl; [exact H|]. cbn. intros b r Hb.
  rewrite lookup_insert_ne; [done|]. congruence.
Qed.

Lemma fresh_next w rs : registry w rs -> heap w !! next_addr w = None.
Proof.
  intros H. destruct (heap w !! next_addr w) eqn:Hn; [|done].
  pose proof (registry_fresh _ _ H _ (mk_is_Some _ _ Hn)). lia.
Qed.

(** The object [uds_register_event_handler] appends. *)
Definition registered w (id : Z) (reg : uds_registration_t) :=
  set_dynamic_registration_id id (set_instance (Some (inst_id w)) reg).

(** Registration as one equation, by the identifier found and the answer of
    the allocator. *)
Definition append_node (a : addr) w := set_dynamic_registrations (dynamic_registrations w ++ [a]) w.

Lemma uds_register_event_handler_eq w id reg :
  find_next_dynamic_id w = Ret id w ->
  uds_register_event_handler reg w =
  if id =? 0 then Ret (- ENOSPC, None) w
  else if out_of_memory w then Ret (- ENOMEM, None) (set_oom (tail (oom w)) w)
  else Ret (0, Some (id, next_addr w))
         (append_node (next_addr w)
            (alloc (obj_registration (registered w id reg)) (set_oom (tail (oom w)) w))).
Proof.
  intros Hid. unfold uds_register_event_handler, bind at 1, gets.
  rewrite (bind_step _ _ _ _ _ Hid). destruct (id =? 0); [done|].
  unfold bind at 1, k_malloc. by destruct (out_of_memory w).
Qed.

Lemma register_run w rs reg :
  registry w rs ->
  exists id, next_id_spec (ids rs) id /\
  exists rc out w', uds_register_event_handler reg w = Ret (rc, out) w' /\
    ((id = 0 /\ rc = - ENOSPC /\ out = None /\ registry w' rs) \/
     (id <> 0 /\ out_of_memory w = true /\ rc = - ENOMEM /\ out = None /\ registry w' rs) \/
     (id <> 0 /\ out_of_memory w = false /\ rc = 0 /\ out = Some (id, next_addr w) /\
      registry w' (rs ++ [registered w id reg]) /\
      dynamic_registrations w' = dynamic_registrations w ++ [next_addr w])).
Proof.
  intros H. destruct (find_next_dynamic_id_Ret w rs H) as (id & Hid & Hspec).
  exists id. split; [done|]. pose proof (uds_register_event_handler_eq w id reg Hid) as Heq.
  destruct H as [Hp Hn Hi Hr Hf] eqn:HH. clear HH.
  destruct (Z.eqb_spec id 0) as [->|Hne].
  { do 3 eexists. split; [exact Heq|]. left. split_and!; done. }
  destruct (out_of_memory w) eqn:Ho; do 3 eexists; (split; [exact Heq|]); right.
  { left. split_and!; done. }
  right. split_and!; try done. destruct Hspec as [[-> _]|(Hrange & Hnew & _)]; [done|].
  assert (heap w !! next_addr w = None) as Hfree.
  { apply (fresh_next w rs). by constructor. }
  constructor; cbn.
  - apply Forall2_app; [by apply points_to_insert_fresh|].
    constructor; [|constructor]. by rewrite lookup_insert_eq.
  - apply NoDup_app. split_and!; [done| |apply NoDup_singleton].
    intros a Ha Hx. apply list_elem_of_singleton in Hx as ->.
    destruct (points_to_lookup _ _ _ _ Hp Ha) as (r & Hlk & _). congruence.
  - unfold ids. rewrite map_app. apply NoDup_app. split_and!; [done| |apply NoDup_singleton].
    intros x Hx Hy. cbn in Hy. apply list_elem_of_singleton in Hy as ->. done.
  - unfold ids. rewrite map_app. apply Forall_app. split; [done|]. cbn. apply Forall_singleton. exact Hrange.
  - intros a. rewrite lookup_insert_is_Some. intros [<-|[_ Ha]]; [lia|].
    specialize (Hf a Ha). lia.
Qed.

(** A registration has exactly one of three outcomes: [-ENOSPC] when
    every identifier is taken, [-ENOMEM] when the heap has no room, and
    otherwise success with the least unused identifier and a new node at the
    end of the list; a failed registration leaves registry and heap as they
    were, a successful one keeps the registry well formed. *)
Theorem uds_register_event_handler_spec w rs reg :
  registry w rs ->
  exists id, next_id_spec (ids rs) id /\
  exists rc out w', uds_register_event_handler reg w = Ret (rc, out) w' /\
    ((id = 0 /\ rc = - ENOSPC /\ out = None /\ registry w' rs) \/
     (id <> 0 /\ out_of_memory w = true /\ rc = - ENOMEM /\ out = None /\ registry w' rs) \/
     (id <> 0 /\ out_of_memory w = false /\ rc = 0 /\ out = Some (id, next_addr w) /\
      registry w' (rs ++ [registered w id reg]) /\
      dynamic_registrations w' = dynamic_registrations w ++ [next_addr w])).
Proof. apply register_run. Qed.

(** *** Removal *)

(** What the library relies on from a custom unregister function: it frees at
    most objects of its own that are not registrations, and leaves the list
    of registrations alone. *)
Definition unregister_frame (f : unregister_fn) : Prop :=
  forall a w rc w', call_unregister f a w = Ret rc w' ->
    dynamic_registrations w' = dynamic_registrations w /\
    next_addr w' = next_addr w /\
    (forall b r, heap w !! b = Some (obj_registration r) ->
                 heap w' !! b = Some (obj_registration r)) /\
    (forall b, is_Some (heap w' !! b) -> is_Some (heap w !! b)).

Lemma slist_find_and_remove_app l1 a l2 :
  a ∉ l1 -> slist_find_and_remove (l1 ++ a :: l2) a = (true, l1 ++ l2).
Proof.
  induction l1 as [|x l1 IH]; cbn; intros Ha.
  - by rewrite decide_True.
  - rewrite decide_False by set_solver. by rewrite IH by set_solver.
Qed.

Lemma unregister_loop_missing w l rs id :
  points_to (heap w) l rs -> id ∉ ids rs -> unregister_loop l id w = Ret (- ENOENT) w.
Proof.
  revert rs. induction l as [|a l IH]; intros rs H Hid; [done|].
  inversion H as [|? r ? rs' Ha Hl]; subst. cbn [unregister_loop].
  rewrite (bind_step _ _ _ r w) by (by apply read_dyn_reg_Ret).
  rewrite (proj2 (Z.eqb_neq _ _)) by set_solver. apply (IH rs' Hl). set_solver.
Qed.

Lemma unregister_loop_found w l1 a l2 rs1 r rs2 :
  points_to (heap w) (l1 ++ a :: l2) (rs1 ++ r :: rs2) -> length l1 = length rs1 ->
  NoDup (ids (rs1 ++ r :: rs2)) ->
  unregister_loop (l1 ++ a :: l2) (dynamic_registration_id r) w = unregister_found a r w.
Proof.
  revert rs1. induction l1 as [|x l1 IH]; intros [|r1 rs1] H Hlen Hnd; try done.
  - inversion H as [|? ? ? ? Ha Hl]; subst. cbn.
    rewrite (bind_step _ _ _ r w) by (by apply read_dyn_reg_Ret). by rewrite Z.eqb_refl.
  - inversion H as [|? ? ? ? Ha Hl]; subst. cbn [unregister_loop app].
    rewrite (bind_step _ _ _ r1 w) by (by apply read_dyn_reg_Ret).
    cbn in Hnd. apply NoDup_cons in Hnd as [Hnin Hnd].
    rewrite (proj2 (Z.eqb_neq _ _)).
    + apply (IH rs1); [done|cbn in Hlen; lia|done].
    + intros Heq. apply Hnin. rewrite Heq. unfold ids. rewrite map_app. set_solver.
Qed.

Lemma points_to_delete hp l rs a :
  points_to hp l rs -> a ∉ l -> points_to (delete a hp) l rs.
Proof.
  intros H. induction H as [|b r l rs Hb Hl IH]; intros Ha; [constructor|].
  constructor; [|apply IH; set_solver]. rewrite lookup_delete_ne; [done|set_solver].
Qed.

Lemma points_to_mono hp hp' l rs :
  (forall b r, hp !! b = Some (obj_registration r) -> hp' !! b = Some (obj_registration r)) ->
  points_to hp l rs -> points_to hp' l rs.
Proof. intros H Hp. eapply Forall2_impl; [exact Hp|]. cbn. eauto. Qed.

(** Removing the node of [r] from a state in which its custom function, if
    any, has been run. *)
Lemma remove_node w l1 a l2 rs1 r rs2 :
  registry w (rs1 ++ r :: rs2) -> dynamic_registrations w = l1 ++ a :: l2 ->
  length l1 = length rs1 ->
  registry (set_heap (delete a (heap w)) (set_dynamic_registrations (l1 ++ l2) w)) (rs1 ++ rs2) /\
  slist_find_and_remove (dynamic_registrations w) a = (true, l1 ++ l2) /\
  heap w !! a = Some (obj_registration r).
Proof.
  intros [Hp Hn Hi Hr Hf] Hl Hlen. rewrite Hl in *.
  apply Forall2_app_inv in Hp as [Hp1 Hp2]; [|done]. inversion Hp2 as [|? ? ? ? Ha Hp3]; subst.
  rewrite <- Permutation_middle, NoDup_cons in Hn. destruct Hn as [Hna Hn].
  unfold ids in Hi, Hr. rewrite map_app in Hi, Hr. cbn in Hi, Hr.
  rewrite <- Permutation_middle, NoDup_cons in Hi. rewrite <- Permutation_middle, Forall_cons in Hr.
  split_and!; [|apply slist_find_and_remove_app; set_solver|done].
  constructor; cbn; try done.
  - apply points_to_delete; [by apply Forall2_app|done].
  - unfold ids. rewrite map_app. by destruct Hi.
  - unfold ids. rewrite map_app. by destruct Hr.
  - intros b. rewrite lookup_delete_is_Some. naive_solver.
Qed.

(** The body of [unregister_found] as one equation. *)
Lemma unregister_found_eq a r w :
  unregister_found a r w =
  match match unregister_registration_fn r with
        | Some f => call_unregister f a w | None => Ret 0 w end with
  | Fault e => Fault e
  | Ret rc w1 =>
      if rc <? 0 then Ret rc w1
      else let x := slist_find_and_remove (dynamic_registrations w1) a in
           if negb x.1 then Fault AssertFailed
           else match heap w1 !! a with
                | Some _ => Ret 0 (set_heap (delete a (heap w1)) (set_dynamic_registrations x.2 w1))
                | None => Fault DoubleFree
                end
  end.
Proof.
  unfold unregister_found. destruct (unregister_registration_fn r) as [f|].
  - unfold bind at 1. destruct (call_unregister f a w) as [rc w1|e]; [|done].
    destruct (rc <? 0); [done|]. m_simpl. destruct (slist_find_and_remove _ a) as [[] l]; [|done].
    cbn. unfold k_free. cbn. by destruct (heap w1 !! a).
  - m_simpl. destruct (slist_find_and_remove _ a) as [[] l]; [|done].
    cbn. unfold k_free. cbn. by destruct (heap w !! a).
Qed.

Lemma unregister_run w rs id :
  registry w rs ->
  (forall f r, r ∈ rs -> unregister_registration_fn r = Some f -> unregister_frame f) ->
  ((id ∉ ids rs) /\ uds_unregister_event_handler id w = Ret (- ENOENT) w) \/
  exists rs1 r rs2 a, rs = rs1 ++ r :: rs2 /\ dynamic_registration_id r = id /\
    heap w !! a = Some (obj_registration r) /\ a ∈ dynamic_registrations w /\
    match unregister_registration_fn r with
    | None => exists w', uds_unregister_event_handler id w = Ret 0 w' /\
                registry w' (rs1 ++ rs2) /\ heap w' = delete a (heap w)
    | Some f =>
        match call_unregister f a w with
        | Fault e => uds_unregister_event_handler id w = Fault e
        | Ret rc w1 =>
            if rc <? 0 then uds_unregister_event_handler id w = Ret rc w1 /\ registry w1 rs
            else exists w', uds_unregister_event_handler id w = Ret 0 w' /\
                   registry w' (rs1 ++ rs2) /\ heap w' = delete a (heap w1)
        end
    end.
Proof.
  intros H Hframe. pose proof H as [Hp Hn Hi Hr Hf].
  destruct (decide (id ∈ ids rs)) as [Hin|Hout]; [right|left].
  2: { split; [done|]. by apply (unregister_loop_missing w _ rs). }
  apply list_elem_of_fmap in Hin as (r & -> & Hr'). apply list_elem_of_split in Hr' as (rs1 & rs2 & ->).
  pose proof Hp as Hp'. apply Forall2_app_inv_r in Hp' as (l1 & l2' & Hp1 & Hp2 & Hl).
  inversion Hp2 as [|a ? l2 ? Ha Hp3]; subst.
  pose proof (Forall2_length _ _ _ Hp1) as Hlen.
  exists rs1, r, rs2, a. split; [done|]. split; [done|]. split; [done|].
  split; [rewrite Hl; set_solver|].
  assert (uds_unregister_event_handler (dynamic_registration_id r) w = unregister_found a r w) as ->.
  { unfold uds_unregister_event_handler, bind at 1, gets. rewrite Hl.
    apply (unregister_loop_found w l1 a l2 rs1 r rs2); [|exact Hlen|exact Hi]. rewrite <- Hl. exact Hp. }
  rewrite unregister_found_eq. destruct (unregister_registration_fn r) as [f|] eqn:Hfn; cbn zeta.
  - destruct (call_unregister f a w) as [rc w1|e] eqn:Hcall; [|done].
    destruct (Hframe f r ltac:(set_solver) Hfn _ _ _ _ Hcall) as (Hl1 & Hn1 & Hk & Hfr).
    assert (registry w1 (rs1 ++ r :: rs2)) as Hreg1.
    { constructor; rewrite ?Hl1, ?Hn1; try done.
      - eapply points_to_mono; [exact Hk|done].
      - intros b Hb. apply Hf, Hfr, Hb. }
    destruct (Z.ltb_spec rc 0); [done|].
    destruct (remove_node w1 l1 a l2 rs1 r rs2 Hreg1) as (Hreg2 & Hrm & Ha1); [by rewrite Hl1, Hl|done|].
    eexists. rewrite Hrm, Ha1. split; [done|split; [exact Hreg2|done]].
  - destruct (remove_node w l1 a l2 rs1 r rs2 H Hl Hlen) as (Hreg2 & Hrm & _).
    eexists. rewrite Hrm, Ha. split; [done|split; [exact Hreg2|done]].
Qed.

(** Unregistering an identifier that is not in use yields [-ENOENT] and
    changes nothing. Unregistering a used one runs the custom function; its
    error is returned and the registration stays, otherwise exactly that
    registration is removed and its memory is freed. *)
Theorem uds_unregister_event_handler_spec w rs id :
  registry w rs ->
  (forall f r, r ∈ rs -> unregister_registration_fn r = Some f -> unregister_frame f) ->
  ((id ∉ ids rs) /\ uds_unregister_event_handler id w = Ret (- ENOENT) w) \/
  exists rs1 r rs2 a, rs = rs1 ++ r :: rs2 /\ dynamic_registration_id r = id /\
    heap w !! a = Some (obj_registration r) /\ a ∈ dynamic_registrations w /\
    match unregister_registration_fn r with
    | None => exists w', uds_unregister_event_handler id w = Ret 0 w' /\
                registry w' (rs1 ++ rs2) /\ heap w' = delete a (heap w)
    | Some f =>
        match call_unregister f a w with
        | Fault e => uds_unregister_event_handler id w = Fault e
        | Ret rc w1 =>
            if rc <? 0 then uds_unregister_event_handler id w = Ret rc w1 /\ registry w1 rs
            else exists w', uds_unregister_event_handler id w = Ret 0 w' /\
                   registry w' (rs1 ++ rs2) /\ heap w' = delete a (heap w1)
        end
    end.
Proof. apply unregister_run. Qed.

(** The registry as the application sees it: the registrations in the order in
    which they were made. *)
Inductive registry_op := op_register (reg : uds_registration_t) | op_unregister (id : Z).

Definition registry_step (op : registry_op) : M (world E) Z :=
  match op with
  | op_register reg => let* (rc, _) := uds_register_event_handler reg in ret rc
  | op_unregister id => uds_unregister_event_handler id
  end.

Fixpoint registry_run (ops : list registry_op) : M (world E) (list Z) :=
  match ops with
  | [] => ret []
  | op :: ops => let* rc := registry_step op in let* rcs := registry_run ops in ret (rc :: rcs)
  end.

(** One call with its return code; [n] is the instance. *)
Inductive registry_spec (n : nat) : list uds_registration_t -> registry_op -> Z -> list uds_registration_t -> Prop :=
| no_identifier_left rs reg : next_id_spec (ids rs) 0 -> registry_spec n rs (op_register reg) (- ENOSPC) rs
| no_memory rs reg : registry_spec n rs (op_register reg) (- ENOMEM) rs
| now_registered rs reg id : id <> 0 -> next_id_spec (ids rs) id ->
    registry_spec n rs (op_register reg) 0 (rs ++ [set_dynamic_registration_id id (set_instance (Some n) reg)])
| not_registered rs id : id ∉ ids rs -> registry_spec n rs (op_unregister id) (- ENOENT) rs
| kept_by_its_function rs1 r rs2 f rc : unregister_registration_fn r = Some f -> rc < 0 ->
    registry_spec n (rs1 ++ r :: rs2) (op_unregister (dynamic_registration_id r)) rc (rs1 ++ r :: rs2)
| now_unregistered rs1 r rs2 :
    registry_spec n (rs1 ++ r :: rs2) (op_unregister (dynamic_registration_id r)) 0 (rs1 ++ rs2).

Inductive registry_spec_run (n : nat) : list uds_registration_t -> list registry_op -> list Z -> list uds_registration_t -> Prop :=
| registry_done rs : registry_spec_run n rs [] [] rs
| registry_next rs op rc rs1 ops rcs rs2 :
    registry_spec n rs op rc rs1 -> registry_spec_run n rs1 ops rcs rs2 -> registry_spec_run n rs (op :: ops) (rc :: rcs) rs2.

(** A custom unregister function that does its own work only, and returns. *)
Definition proper_unregister (r : uds_registration_t) : Prop :=
  forall f, unregister_registration_fn r = Some f ->
    unregister_frame f /\ forall a, frame inst_id (call_unregister f a) /\ forall w, safe (call_unregister f a) w.

(** Which instance it is does not change. *)
Lemma read_dyn_reg_inst a : frame inst_id (read_dyn_reg (E := E) a).
Proof. intros w r w' H. by apply read_dyn_reg_Ret in H as [_ ->]. Qed.
Lemma id_in_use_inst l c : frame inst_id (id_in_use (E := E) l c).
Proof. induction l; cbn; eauto 6 using read_dyn_reg_inst with ardep_frame. Qed.
Lemma find_loop_inst fuel : forall c, frame inst_id (find_next_dynamic_id_loop (E := E) fuel c).
Proof. induction fuel; intros c; cbn; eauto 8 using id_in_use_inst with ardep_frame. Qed.

Lemma register_inst reg : frame inst_id (uds_register_event_handler (E := E) reg).
Proof.
  apply frame_bind; [apply frame_gets|intros inst]. apply frame_bind; [apply frame_bind; [apply frame_gets|intros l; apply find_loop_inst]|].
  intros id. apply frame_if; [apply frame_ret|]. apply frame_bind.
  - intros w o w'. unfold k_malloc. by destruct (out_of_memory w); intros [= <- <-].
  - intros [a|]; [|apply frame_ret]. apply frame_bind; [by intros w x w' [= _ <-]|intros; apply frame_ret].
Qed.

Lemma unregister_inst a r : proper_unregister r -> frame inst_id (unregister_found a r).
Proof.
  intros Hr. apply frame_bind.
  - destruct (unregister_registration_fn r) as [f|] eqn:Hf; [apply (Hr f Hf)|apply frame_ret].
  - intros rc. apply frame_if; [apply frame_ret|]. apply frame_bind; [apply frame_gets|intros l].
    destruct (slist_find_and_remove l a) as [rm l']. apply frame_bind; [by intros w x w' [= _ <-]|intros _].
    apply frame_if; [apply frame_fail|]. apply frame_bind; [|intros; apply frame_ret].
    intros w x w'. unfold k_free. intros H. case_match; by simplify_eq.
Qed.

Lemma unregister_loop_inst id rc w w' : forall l,
  (forall a r, a ∈ l -> heap w !! a = Some (obj_registration r) -> proper_unregister r) ->
  unregister_loop l id w = Ret rc w' -> inst_id w' = inst_id w.
Proof.
  induction l as [|a l IH]; intros Hok; cbn [unregister_loop]; [by intros [= _ <-]|].
  intros (r & w1 & [Ha ->]%read_dyn_reg_Ret & Hrest)%bind_Ret.
  destruct (dynamic_registration_id r =? id); [|apply IH; [|done]; set_solver].
  eapply unregister_inst; [|exact Hrest]. eapply Hok; [|done]. set_solver.
Qed.

(** One call on a well-formed registry. *)
Lemma registry_step_refines op w rs :
  registry w rs -> Forall proper_unregister rs ->
  exists rc w' rs', registry_step op w = Ret rc w' /\ registry_spec (inst_id w) rs op rc rs' /\
    registry w' rs' /\ inst_id w' = inst_id w.
Proof.
  intros Hreg Hok. destruct op as [reg|id]; cbn [registry_step].
  - destruct (register_run w rs reg Hreg) as (id & Hid & rc & out & w' & Hrun & Hcase).
    exists rc, w'. rewrite (bind_step _ _ _ _ _ Hrun). pose proof (register_inst _ _ _ _ Hrun) as Hinst.
    destruct Hcase as [(-> & -> & _ & H)|[(_ & _ & -> & _ & H)|(Hne & _ & -> & _ & H & _)]].
    + exists rs. split_and!; try done. by apply no_identifier_left.
    + exists rs. split_and!; try done. apply no_memory.
    + eexists. split; [done|]. split; [by apply now_registered|]. by split.
  - rewrite Forall_forall in Hok.
    assert (forall rc w', uds_unregister_event_handler id w = Ret rc w' -> inst_id w' = inst_id w) as Hinst.
    { intros rc w' H. unfold uds_unregister_event_handler, bind, gets in H. eapply unregister_loop_inst; [|exact H].
      intros a r Ha Hr. destruct (points_to_lookup _ _ _ _ (registry_points_to _ _ Hreg) Ha) as (r' & Hr' & Hin).
      rewrite Hr in Hr'. injection Hr' as <-. by apply Hok. }
    destruct (unregister_run w rs id Hreg) as [[Hid Hrun]|(rs1 & r & rs2 & a & -> & <- & Ha & Hin & Hcase)].
    { intros f r Hr Hf. by apply (Hok r Hr f Hf). }
    + exists (- ENOENT), w, rs. split_and!; try done. by apply not_registered.
    + destruct (unregister_registration_fn r) as [f|] eqn:Hf.
      * destruct (Hok r ltac:(set_solver) f Hf) as [_ Hsafe]. destruct (Hsafe a) as [_ Hs]. destruct (Hs w) as (rc & w1 & Hcall).
        rewrite Hcall in Hcase. destruct (Z.ltb_spec rc 0) as [Hneg|Hpos].
        -- destruct Hcase as [Hrun H]. exists rc, w1, (rs1 ++ r :: rs2). split_and!; eauto. by eapply kept_by_its_function.
        -- destruct Hcase as (w' & Hrun & H & _). exists 0, w', (rs1 ++ rs2). split_and!; eauto. apply now_unregistered.
      * destruct Hcase as (w' & Hrun & H & _). exists 0, w', (rs1 ++ rs2). split_and!; eauto. apply now_unregistered.
Qed.

Lemma registry_spec_proper n rs op rc rs' :
  registry_spec n rs op rc rs' -> Forall proper_unregister rs ->
  match op with op_register reg => proper_unregister reg | op_unregister _ => True end -> Forall proper_unregister rs'.
Proof.
  intros Hspec Hok Hop. destruct Hspec; try done.
  - apply Forall_app. split; [done|]. by constructor.
  - apply Forall_app in Hok as [H1 H2]. apply Forall_cons in H2 as [_ H2]. by apply Forall_app.
Qed.


End registry.

(** ** Witnesses: a small instance *)

Module Demo.
(** User check 0 accepts, user check 1 fails; actions succeed and leave
    [consume_event] alone; unregister function 1 fails. *)
#[local] Instance demo_callbacks : UdsCallbacks unit := {|
  call_check f _ b := match f with
    | uds_check_user 0 => ret (UDS_OK, true)
    | uds_check_user 1 => ret (UDS_NRC_ConditionsNotCorrect, false)
    | _ => ret (UDS_OK, b) end;
  call_action _ c consume := ret (UDS_OK, consume, ctx_arg c);
  call_unregister f _ := match f with unregister_user 1 => ret (- EPERM) | _ => ret 0 end;
|}.

Definition demo_reg (chk : nat) (id : Z) : uds_registration_t :=
  Registration None 0 (clear_diagnostic_information
    (Actor (Some (uds_check_user chk)) (Some (uds_action_user 0)))) id None.

Definition demo_other : uds_registration_t :=
  Registration None 0 (link_control (Actor (Some (uds_check_user 0)) (Some (uds_action_user 0)))) 0 None.

Definition demo_handler : uds_event_handler_data :=
  EventHandler UDS_EVT_ClearDiagnosticInfo
    (fun r => match payload r with clear_diagnostic_information a => check a | _ => None end)
    (fun r => match payload r with clear_diagnostic_information a => action a | _ => None end)
    UDS_NRC_RequestOutOfRange UDS_REGISTRATION_TYPE__CLEAR_DIAG_INFO.

Definition demo_world (statics : list uds_registration_t) : world unit :=
  World 0 statics [] ∅ 1 [] [] tt.

(** One dynamic registration, under the identifier 1. *)
Definition demo_dynamic (id : Z) : world unit :=
  World 0 [] [1%positive] {[1%positive := obj_registration (demo_reg 0 id)]} 2 [] [] tt.

Lemma demo_other_inapplicable i statics :
  statics !! i = Some demo_other ->
  inapplicable UDS_EVT_ClearDiagnosticInfo demo_handler UDSOtherArgs (demo_world statics) (StaticReg i).
Proof.
  intros Hi. apply other_type with demo_other; [|done]. unfold read_reg, read_static_reg. cbn. by rewrite Hi.
Qed.

Lemma dispatch_default_nrc_witness :
  uds_handle_event 0 UDS_EVT_ClearDiagnosticInfo UDSOtherArgs demo_handler (demo_world [demo_other]) =
  Ret (UDS_NRC_RequestOutOfRange, UDSOtherArgs) (demo_world [demo_other]).
Proof.
  apply dispatch_default_nrc.
  - intros [|i] Hi; [by apply demo_other_inapplicable|cbn in Hi; lia].
  - intros a Ha. cbn in Ha. by apply elem_of_nil in Ha.
  - constructor.
  - cbn. lia.
Defined.

Lemma dispatch_first_decides_witness :
  uds_handle_event 0 UDS_EVT_ClearDiagnosticInfo UDSOtherArgs demo_handler (demo_world [demo_other; demo_reg 0 0]) =
  Ret (UDS_OK, UDSOtherArgs) (demo_world [demo_other; demo_reg 0 0]).
Proof.
  apply (dispatch_first_decides _ _ _ _ _ 1 _ true); [cbn; lia| | |done].
  - intros [|j] Hj; [by apply demo_other_inapplicable|lia].
  - exists (demo_reg 0 0), (uds_check_user 0), (uds_action_user 0), (demo_world [demo_other; demo_reg 0 0]).
    split_and!; try done. by exists (demo_reg 0 0).
Defined.

Lemma dispatch_check_error_witness :
  uds_handle_event 0 UDS_EVT_ClearDiagnosticInfo UDSOtherArgs demo_handler (demo_world [demo_reg 1 0; demo_reg 0 0]) =
  Ret (UDS_NRC_ConditionsNotCorrect, UDSOtherArgs) (demo_world [demo_reg 1 0; demo_reg 0 0]).
Proof.
  apply (dispatch_check_error _ _ _ _ _ 0 (demo_reg 1 0) (uds_check_user 1) false); try done; [cbn; lia|].
  intros j Hj. lia.
Defined.

Lemma default_consumption_witness :
  exists c, visit (DynReg 1) false UDS_EVT_ClearDiagnosticInfo demo_handler false UDSOtherArgs (demo_dynamic 1) =
              Ret (UDS_OK, true, c, UDSOtherArgs) (demo_dynamic 1) /\ decisive UDS_OK c = false.
Proof.
  apply (default_consumption UDS_EVT_ClearDiagnosticInfo demo_handler UDSOtherArgs (demo_dynamic 1) (DynReg 1)).
  exists (demo_reg 0 1), (uds_check_user 0), (uds_action_user 0), (demo_dynamic 1).
  split_and!; try done. by exists (demo_reg 0 1).
Defined.

Lemma demo_registry id : 1 <= id <= UINT32_MAX -> registry (demo_dynamic id) [demo_reg 0 id].
Proof.
  intros Hid. constructor; cbn.
  - constructor; [|constructor]. done.
  - apply NoDup_singleton.
  - apply NoDup_singleton.
  - constructor; [exact Hid|constructor].
  - intros a [o Ha]. apply lookup_singleton_Some in Ha as [<- _]. lia.
Qed.

Lemma uds_register_event_handler_spec_witness :
  exists id, next_id_spec (ids [demo_reg 0 1]) id /\
  exists rc out w', uds_register_event_handler (demo_reg 0 0) (demo_dynamic 1) = Ret (rc, out) w' /\
    ((id = 0 /\ rc = - ENOSPC /\ out = None /\ registry w' [demo_reg 0 1]) \/
     (id <> 0 /\ out_of_memory (demo_dynamic 1) = true /\ rc = - ENOMEM /\ out = None /\ registry w' [demo_reg 0 1]) \/
     (id <> 0 /\ out_of_memory (demo_dynamic 1) = false /\ rc = 0 /\ out = Some (id, next_addr (demo_dynamic 1)) /\
      registry w' ([demo_reg 0 1] ++ [registered (demo_dynamic 1) id (demo_reg 0 0)]) /\
      dynamic_registrations w' = dynamic_registrations (demo_dynamic 1) ++ [next_addr (demo_dynamic 1)])).
Proof.
  apply (uds_register_event_handler_spec (demo_dynamic 1) [demo_reg 0 1] (demo_reg 0 0)).
  apply demo_registry. unfold UINT32_MAX. lia.
Defined.

Lemma uds_unregister_event_handler_spec_witness :
  ((5 ∉ ids [demo_reg 0 7]) /\ uds_unregister_event_handler 5 (demo_dynamic 7) = Ret (- ENOENT) (demo_dynamic 7)) \/
  exists rs1 r rs2 a, [demo_reg 0 7] = rs1 ++ r :: rs2 /\ dynamic_registration_id r = 5 /\
    heap (demo_dynamic 7) !! a = Some (obj_registration r) /\ a ∈ dynamic_registrations (demo_dynamic 7) /\
    match unregister_registration_fn r with
    | None => exists w', uds_unregister_event_handler 5 (demo_dynamic 7) = Ret 0 w' /\
                registry w' (rs1 ++ rs2) /\ heap w' = delete a (heap (demo_dynamic 7))
    | Some f =>
        match call_unregister f a (demo_dynamic 7) with
        | Fault e => uds_unregister_event_handler 5 (demo_dynamic 7) = Fault e
        | Ret rc w1 =>
            if rc <? 0 then uds_unregister_event_handler 5 (demo_dynamic 7) = Ret rc w1 /\ registry w1 [demo_reg 0 7]
            else exists w', uds_unregister_event_handler 5 (demo_dynamic 7) = Ret 0 w' /\
                   registry w' (rs1 ++ rs2) /\ heap w' = delete a (heap w1)
        end
    end.
Proof.
  apply (uds_unregister_event_handler_spec (demo_dynamic 7) [demo_reg 0 7] 5).
  - apply demo_registry. unfold UINT32_MAX. lia.
  - intros f r Hr Hf. apply list_elem_of_singleton in Hr as ->. done.
Defined.

(** A registration whose own unregister function keeps it. *)
Definition demo_kept : uds_registration_t :=
  Registration None 0 (clear_diagnostic_information null_actor) 0 (Some (unregister_user 1)).

Lemma demo_proper r : unregister_registration_fn r = None -> proper_unregister r.
Proof. intros Hr f Hf. congruence. Qed.

Lemma demo_kept_proper : proper_unregister demo_kept.
Proof.
  intros f [= <-]. split; [by intros a w rc w' [= <- <-]|].
  intros a. split; [by intros w rc w' [= <- <-]|]. intros w. by eexists _, _.
Qed.


Example registry_codes :
  match registry_run [op_register (demo_reg 0 0); op_register demo_kept; op_unregister 1; op_unregister 3; op_unregister 9]
    (demo_dynamic 1) with Ret rcs _ => rcs | Fault _ => [] end = [0; 0; 0; - EPERM; - ENOENT].
Proof. by vm_compute. Qed.
End Demo.
