(* ===== verification/UdsMacros.v ===== *)
(** * Registration macros ([include/ardep/uds_macro.h])

    Every [UDS_REGISTER_*] macro puts one static registration (or, for the
    multi-argument macros, several) into the iterable section of
    registrations.  Here a macro is a function to the registrations it
    defines; pointer arguments that may be NULL are options.  The members a
    designated initialiser does not name are zero: no dynamic identifier, no
    unregister function. *)

From stdpp Require Import base gmap list numbers relations.
From Stdlib Require Import ZArith Lia.
From S2P Require Import Prelude.
From S2P Require Import UdsTypes.

#[local] Open Scope Z_scope.

(** ** Definitions *)

(** [STRUCT_SECTION_ITERABLE (uds_registration_t, ...)] *)
Definition static_registration (inst : option nat) (ctx : Z) (x : uds_registration_data) :=
  Registration inst ctx x 0 None.

Section macros.
Context (_instance : option nat) (_user_context : Z).
Implicit Types (_check : option uds_check_fn) (_act : option uds_action_fn).

Definition UDS_REGISTER_READ_DTC_INFO_HANDLER _check _act (_subfunc_id : Z) :=
  static_registration _instance _user_context (read_dtc _subfunc_id (Actor _check _act)).

(** The [APPLY_n] family: [APPLY_n] registers the first [n - 1] identifiers
    through [APPLY_(n-1)] and then the last one. *)
Definition UDS_REGISTER_READ_DTC_INFO_HANDLER_APPLY _check _act (s : list Z) :=
  foldl (fun regs sf => regs ++ [UDS_REGISTER_READ_DTC_INFO_HANDLER _check _act sf]) [] s.

(** [_UDS_VA_NARGS] counts up to 24 arguments; with none or with more there
    is no [APPLY_n] to dispatch to and the program does not compile. *)
Definition UDS_REGISTER_READ_DTC_INFO_HANDLER_MANY _check _act (s : list Z) :=
  if ((1 <=? length s) && (length s <=? 24))%nat
  then Some (UDS_REGISTER_READ_DTC_INFO_HANDLER_APPLY _check _act s) else None.

Definition UDS_REGISTER_READ_DTC_INFO_HANDLER_ALL _check _act :=
  UDS_REGISTER_READ_DTC_INFO_HANDLER_APPLY _check _act
    [0x01; 0x02; 0x03; 0x04; 0x05; 0x06; 0x07; 0x08; 0x09;
     0x0A; 0x0B; 0x0C; 0x0D; 0x0E; 0x14; 0x15; 0x16; 0x17;
     0x18; 0x19; 0x1A; 0x42; 0x55; 0x56].

Definition UDS_REGISTER_MEMORY_HANDLER _read_check _read _write_check _write :=
  static_registration _instance _user_context
    (memory (Actor _read_check _read) (Actor _write_check _write)).

Definition UDS_REGISTER_ECU_RESET_HANDLER (_reset_type : Z) _ecu_reset_check _ecu_reset
    _do_scheduled_reset_check _do_scheduled_reset :=
  static_registration _instance _user_context
    (ecu_reset _reset_type (Actor _ecu_reset_check _ecu_reset)
       (Actor _do_scheduled_reset_check _do_scheduled_reset)).

Definition UDS_REGISTER_DATA_BY_IDENTIFIER_HANDLER (_data_id : Z) (_data_ptr : addr)
    _read_check _read _write_check _write _io_control_check _io_control :=
  static_registration _instance _user_context
    (data_identifier _data_ptr _data_id (Actor _read_check _read) (Actor _write_check _write)
       (Actor _io_control_check _io_control)).

Definition UDS_REGISTER_DIAG_SESSION_CTRL_HANDLER _diag_session_ctrl_check _diag_session_ctrl
    _session_timeout_check _session_timeout :=
  static_registration _instance _user_context
    (diag_session_ctrl (Actor _diag_session_ctrl_check _diag_session_ctrl)
       (Actor _session_timeout_check _session_timeout)).

Definition UDS_REGISTER_CLEAR_DIAG_INFO_HANDLER _check _act :=
  static_registration _instance _user_context (clear_diagnostic_information (Actor _check _act)).

Definition UDS_REGISTER_ROUTINE_CONTROL_HANDLER (_routine_id : Z) _check _act :=
  static_registration _instance _user_context (routine_control _routine_id (Actor _check _act)).

Definition UDS_REGISTER_SECURITY_ACCESS_HANDLER _request_seed_check _request_seed_act
    _validate_key_check _validate_key_act :=
  static_registration _instance _user_context
    (security_access (Actor _request_seed_check _request_seed_act)
       (Actor _validate_key_check _validate_key_act)).

Definition UDS_REGISTER_COMMUNICATION_CONTROL_HANDLER _check _act :=
  static_registration _instance _user_context (communication_control (Actor _check _act)).

Definition UDS_REGISTER_CONTROL_DTC_SETTING_HANDLER _check _act :=
  static_registration _instance _user_context (control_dtc_setting (Actor _check _act)).

(** [SYS_SLIST_STATIC_INIT]: the list of identifiers starts empty. *)
Definition UDS_REGISTER_DYNAMICALLY_DEFINE_DATA_IDS_HANDLER _check _act :=
  static_registration _instance _user_context (dynamically_define_data_ids [] (Actor _check _act)).

Definition UDS_REGISTER_AUTHENTICATION_HANDLER _auth_check _auth_act _timeout_check _timeout_act :=
  static_registration _instance _user_context
    (auth (Actor _auth_check _auth_act) (Actor _timeout_check _timeout_act)).

Definition UDS_REGISTER_LINK_CONTROL_HANDLER _check _act :=
  static_registration _instance _user_context (link_control (Actor _check _act)).
End macros.

(** The default handlers pass NULL as the user context. *)
Section default_macros.
Context (_instance : option nat).

Definition UDS_REGISTER_MEMORY_DEFAULT_HANDLER :=
  UDS_REGISTER_MEMORY_HANDLER _instance 0
    (Some uds_check_default_memory_by_addr_read_fn) (Some uds_action_default_memory_by_addr_read_fn)
    (Some uds_check_default_memory_by_addr_write_fn) (Some uds_action_default_memory_by_addr_write_fn).

Definition UDS_REGISTER_ECU_DEFAULT_HARD_RESET_HANDLER :=
  UDS_REGISTER_ECU_RESET_HANDLER _instance 0 ECU_RESET__HARD
    (Some uds_check_ecu_hard_reset_fn) (Some uds_action_ecu_hard_reset_fn)
    (Some uds_check_execute_scheduled_reset_fn) (Some uds_action_execute_scheduled_reset_fn).

Definition UDS_REGISTER_DYNAMICALLY_DEFINE_DATA_IDS_DEFAULT_HANDLER :=
  UDS_REGISTER_DYNAMICALLY_DEFINE_DATA_IDS_HANDLER _instance 0
    (Some uds_check_default_dynamically_define_data_ids_fn)
    (Some uds_action_default_dynamically_define_data_ids_fn).

Definition UDS_REGISTER_LINK_CONTROL_DEFAULT_HANDLER : list uds_registration_t :=
  [UDS_REGISTER_LINK_CONTROL_HANDLER _instance 0
     (Some uds_check_default_link_control_fn) (Some uds_action_default_link_control_fn);
   UDS_REGISTER_DIAG_SESSION_CTRL_HANDLER _instance 0
     (Some uds_check_default_link_control_change_diag_session_fn)
     (Some uds_action_default_link_control_change_diag_session_fn)
     (Some uds_check_default_link_control_change_diag_session_fn)
     (Some uds_action_default_link_control_change_diag_session_fn)].
End default_macros.

(** ** Lemmas *)

Lemma read_dtc_apply_map inst ctx chk act s :
  UDS_REGISTER_READ_DTC_INFO_HANDLER_APPLY inst ctx chk act s =
  map (UDS_REGISTER_READ_DTC_INFO_HANDLER inst ctx chk act) s.
Proof.
  unfold UDS_REGISTER_READ_DTC_INFO_HANDLER_APPLY.
  enough (forall acc, foldl (fun regs sf => regs ++ [UDS_REGISTER_READ_DTC_INFO_HANDLER inst ctx chk act sf]) acc s =
                 acc ++ map (UDS_REGISTER_READ_DTC_INFO_HANDLER inst ctx chk act) s) as -> by done.
  induction s as [|x s IH]; intros acc; cbn.
  - by rewrite app_nil_r.
  - rewrite IH. by rewrite <- (assoc_L app).
Qed.

(** The sub-function a read-DTC registration is for. *)
Definition read_dtc_sub_function (r : uds_registration_t) : option Z :=
  match payload r with read_dtc s _ => Some s | _ => None end.

(** The enumerators, in the order of the header. *)
Definition all_read_dtc_subfuncs : list uds_read_dtc_info_subfunc :=
  [UDS_READ_DTC_INFO_SUBFUNC__NUM_OF_DTC_BY_STATUS_MASK;
   UDS_READ_DTC_INFO_SUBFUNC__DTC_BY_STATUS_MASK;
   UDS_READ_DTC_INFO_SUBFUNC__DTC_SNAPSHOT_IDENTIFICATION;
   UDS_READ_DTC_INFO_SUBFUNC__DTC_SNAPSHOT_RECORD_BY_DTC_NUM;
   UDS_READ_DTC_INFO_SUBFUNC__DTC_STORED_DATA_BY_RECORD_NUM;
   UDS_READ_DTC_INFO_SUBFUNC__DTC_EXT_DATA_RECORD_BY_DTC_NUM;
   UDS_READ_DTC_INFO_SUBFUNC__NUM_OF_DTC_BY_SEVERITY_MASK_RECORD;
   UDS_READ_DTC_INFO_SUBFUNC__DTC_BY_SEVERITY_MASK_RECORD;
   UDS_READ_DTC_INFO_SUBFUNC__SEVERITY_INFO_OF_DTC;
   UDS_READ_DTC_INFO_SUBFUNC__SUPPORTED_DTC;
   UDS_READ_DTC_INFO_SUBFUNC__FIRST_TEST_FAILED_DTC;
   UDS_READ_DTC_INFO_SUBFUNC__FIRST_CONFIRMED_DTC;
   UDS_READ_DTC_INFO_SUBFUNC__MOST_RECENT_TEST_FAILED_DTC;
   UDS_READ_DTC_INFO_SUBFUNC__MOST_RECENT_CONFIRMED_DTC;
   UDS_READ_DTC_INFO_SUBFUNC__DTC_FAULT_DETECTION_COUNTER;
   UDS_READ_DTC_INFO_SUBFUNC__DTC_WITH_PERMANENT_STATUS;
   UDS_READ_DTC_INFO_SUBFUNC__DTC_EXT_DATA_RECORD_BY_NUM;
   UDS_READ_DTC_INFO_SUBFUNC__USER_DEF_MEM_DTC_BY_STATUS_MASK;
   UDS_READ_DTC_INFO_SUBFUNC__USER_DEF_MEM_DTC_SNAPSHOT_RECORD_BY_DTC_NUM;
   UDS_READ_DTC_INFO_SUBFUNC__USER_DEF_MEM_DTC_EXT_DATA_RECORD_BY_DTC_NUM;
   UDS_READ_DTC_INFO_SUBFUNC__DTC_EXTENDED_DATA_RECORD_IDENTIFICATION;
   UDS_READ_DTC_INFO_SUBFUNC__WWHOBD_DTC_BY_MASK_RECORD;
   UDS_READ_DTC_INFO_SUBFUNC__WWHOBD_DTC_WITH_PERMANENT_STATUS;
   UDS_READ_DTC_INFO_SUBFUNC__DTC_INFO_BY_DTC_READINESS_GROUP_IDENTIFIER].

Lemma all_read_dtc_subfuncs_complete s : s ∈ all_read_dtc_subfuncs.
Proof. destruct s; unfold all_read_dtc_subfuncs; repeat constructor. Qed.

Lemma count_NoDup (l : list Z) z :
  NoDup l -> length (filter (fun x => x = z) l) = if decide (z ∈ l) then 1%nat else 0%nat.
Proof.
  induction l as [|x l IH]; intros Hn; [done|].
  apply NoDup_cons in Hn as [Hx Hn]. rewrite filter_cons. specialize (IH Hn).
  destruct (decide (x = z)) as [->|Hne]; cbn [length]; rewrite IH;
    repeat (case_decide; try done); set_solver.
Qed.

Lemma count_sub_function inst ctx chk act z l :
  length (filter (fun r => read_dtc_sub_function r = Some z)
            (map (UDS_REGISTER_READ_DTC_INFO_HANDLER inst ctx chk act) l)) =
  length (filter (fun s => s = z) l).
Proof.
  induction l as [|s l IH]; [done|]. cbn [map]. rewrite !filter_cons.
  destruct (decide (s = z)) as [->|Hne]; repeat case_decide; cbn in *; congruence.
Qed.

(** ** Properties *)

(** [UDS_REGISTER_READ_DTC_INFO_HANDLER_ALL] registers the handler exactly
    once for every enumerator of [uds_read_dtc_info_subfunc] and for nothing
    else: the literal list of the macro and the enumeration agree. *)
Theorem read_dtc_all_covers inst ctx chk act (z : Z) :
  let regs := UDS_REGISTER_READ_DTC_INFO_HANDLER_ALL inst ctx chk act in
  (length (filter (fun r => read_dtc_sub_function r = Some z) regs) = 1%nat <->
   exists s : uds_read_dtc_info_subfunc, uds_read_dtc_info_subfunc_value s = z) /\
  ((length (filter (fun r => read_dtc_sub_function r = Some z) regs) <= 1)%nat) /\
  Forall (fun r => type r = UDS_REGISTRATION_TYPE__READ_DTC_INFO) regs.
Proof.
  cbn zeta. unfold UDS_REGISTER_READ_DTC_INFO_HANDLER_ALL. rewrite read_dtc_apply_map.
  rewrite count_sub_function.
  change [0x01; 0x02; 0x03; 0x04; 0x05; 0x06; 0x07; 0x08; 0x09;
          0x0A; 0x0B; 0x0C; 0x0D; 0x0E; 0x14; 0x15; 0x16; 0x17;
          0x18; 0x19; 0x1A; 0x42; 0x55; 0x56]
    with (map uds_read_dtc_info_subfunc_value all_read_dtc_subfuncs).
  rewrite count_NoDup by (apply (bool_decide_unpack _); vm_compute; exact I).
  split_and!.
  - case_decide as Hz; split; intros H; try done.
    + apply list_elem_of_fmap in Hz as (s & -> & _). by exists s.
    + destruct H as [s <-]. destruct Hz. apply list_elem_of_fmap. eauto using all_read_dtc_subfuncs_complete.
  - case_decide; lia.
  - apply Forall_map, Forall_true. done.
Qed.
