(* ===== verification/UdsServices.v ===== *)
(** * The services: getters, checks and the event table ([lib/uds/*.c])

    Every service file of lib/uds puts one [uds_event_handler_data] per event
    into the iterable section [uds_event_callback] searches.  The getters read
    the member of the union the service uses; the dispatcher has compared the
    tag before it calls them, and for another member they yield NULL here.
    Also here: the checks that select a registration by identifier, ECU reset,
    the switch into the firmware loader and the session handlers of
    default_instance.c. *)

From stdpp Require Import base gmap list numbers relations.
From Stdlib Require Import ZArith Lia.
From S2P Require Import Prelude.
From S2P Require Import UdsTypes.
From S2P Require Import Uds.

#[local] Open Scope Z_scope.

(** ** The event table *)

(** *** data_by_identifier.c *)

Definition uds_get_check_for_read_data_by_identifier (reg : uds_registration_t) : option uds_check_fn :=
  Some uds_check_read_with_data_id_fn.

Definition uds_get_action_for_read_data_by_identifier (reg : uds_registration_t) : option uds_action_fn :=
  match payload reg with data_identifier _ _ r _ _ => action r | _ => None end.

Definition __uds_event_handler_data_read_data_by_ident_ :=
  EventHandler UDS_EVT_ReadDataByIdent uds_get_check_for_read_data_by_identifier uds_get_action_for_read_data_by_identifier
    UDS_NRC_RequestOutOfRange UDS_REGISTRATION_TYPE__DATA_IDENTIFIER.

Definition uds_get_check_for_write_data_by_identifier (reg : uds_registration_t) : option uds_check_fn :=
  Some uds_check_write_with_data_id_fn.

Definition uds_get_action_for_write_data_by_identifier (reg : uds_registration_t) : option uds_action_fn :=
  match payload reg with data_identifier _ _ _ wr _ => action wr | _ => None end.

Definition __uds_event_handler_data_write_data_by_ident_ :=
  EventHandler UDS_EVT_WriteDataByIdent uds_get_check_for_write_data_by_identifier uds_get_action_for_write_data_by_identifier
    UDS_NRC_RequestOutOfRange UDS_REGISTRATION_TYPE__DATA_IDENTIFIER.

Definition uds_get_check_for_io_control_by_identifier (reg : uds_registration_t) : option uds_check_fn :=
  Some uds_check_io_control_with_data_id_fn.

Definition uds_get_action_for_io_control_by_identifier (reg : uds_registration_t) : option uds_action_fn :=
  match payload reg with data_identifier _ _ _ _ io => action io | _ => None end.

Definition __uds_event_handler_data_io_control_ :=
  EventHandler UDS_EVT_IOControl uds_get_check_for_io_control_by_identifier uds_get_action_for_io_control_by_identifier
    UDS_NRC_RequestOutOfRange UDS_REGISTRATION_TYPE__DATA_IDENTIFIER.

(** *** diag_session_ctrl.c *)

Definition uds_get_check_for_diag_session_ctrl (reg : uds_registration_t) : option uds_check_fn :=
  match payload reg with diag_session_ctrl c _ => check c | _ => None end.

Definition uds_get_action_for_diag_session_ctrl (reg : uds_registration_t) : option uds_action_fn :=
  match payload reg with diag_session_ctrl c _ => action c | _ => None end.

Definition __uds_event_handler_data_diag_sess_ctrl_ :=
  EventHandler UDS_EVT_DiagSessCtrl uds_get_check_for_diag_session_ctrl uds_get_action_for_diag_session_ctrl
    UDS_PositiveResponse UDS_REGISTRATION_TYPE__DIAG_SESSION_CTRL.

Definition uds_get_check_for_session_timeout (reg : uds_registration_t) : option uds_check_fn :=
  match payload reg with diag_session_ctrl _ t => check t | _ => None end.

Definition uds_get_action_for_session_timeout (reg : uds_registration_t) : option uds_action_fn :=
  match payload reg with diag_session_ctrl _ t => action t | _ => None end.

Definition __uds_event_handler_data_session_timeout_ :=
  EventHandler UDS_EVT_SessionTimeout uds_get_check_for_session_timeout uds_get_action_for_session_timeout
    UDS_PositiveResponse UDS_REGISTRATION_TYPE__DIAG_SESSION_CTRL.

(** *** ecu_reset.c *)

Definition uds_get_check_for_ecu_reset (reg : uds_registration_t) : option uds_check_fn :=
  match payload reg with ecu_reset _ e _ => check e | _ => None end.

Definition uds_get_action_for_ecu_reset (reg : uds_registration_t) : option uds_action_fn :=
  match payload reg with ecu_reset _ e _ => action e | _ => None end.

Definition __uds_event_handler_data_ecu_reset_ :=
  EventHandler UDS_EVT_EcuReset uds_get_check_for_ecu_reset uds_get_action_for_ecu_reset
    UDS_NRC_SubFunctionNotSupported UDS_REGISTRATION_TYPE__ECU_RESET.

Definition uds_get_check_for_execute_scheduled_reset (reg : uds_registration_t) : option uds_check_fn :=
  match payload reg with ecu_reset _ _ e => check e | _ => None end.

Definition uds_get_action_for_execute_scheduled_reset (reg : uds_registration_t) : option uds_action_fn :=
  match payload reg with ecu_reset _ _ e => action e | _ => None end.

Definition __uds_event_handler_data_do_scheduled_reset_ :=
  EventHandler UDS_EVT_DoScheduledReset uds_get_check_for_execute_scheduled_reset uds_get_action_for_execute_scheduled_reset
    UDS_NRC_SubFunctionNotSupported UDS_REGISTRATION_TYPE__ECU_RESET.

(** *** read_dtc_info.c *)

Definition uds_get_check_for_read_dtc_info (reg : uds_registration_t) : option uds_check_fn :=
  Some uds_check_with_subfunc_fn_fn.

Definition uds_get_action_for_read_dtc_info (reg : uds_registration_t) : option uds_action_fn :=
  match payload reg with read_dtc _ a => action a | _ => None end.

Definition __uds_event_handler_data_read_dtc_information_ :=
  EventHandler UDS_EVT_ReadDTCInformation uds_get_check_for_read_dtc_info uds_get_action_for_read_dtc_info
    UDS_NRC_SubFunctionNotSupported UDS_REGISTRATION_TYPE__READ_DTC_INFO.

(** *** security_access.c *)

Definition uds_get_check_for_security_access_request_seed (reg : uds_registration_t) : option uds_check_fn :=
  match payload reg with security_access s _ => check s | _ => None end.

Definition uds_get_action_for_security_access_request_seed (reg : uds_registration_t) : option uds_action_fn :=
  match payload reg with security_access s _ => action s | _ => None end.

Definition __uds_event_handler_data_sec_access_request_seed_ :=
  EventHandler UDS_EVT_SecAccessRequestSeed uds_get_check_for_security_access_request_seed uds_get_action_for_security_access_request_seed
    UDS_NRC_ConditionsNotCorrect UDS_REGISTRATION_TYPE__SECURITY_ACCESS.

Definition uds_get_check_for_security_access_validate_key (reg : uds_registration_t) : option uds_check_fn :=
  match payload reg with security_access _ k => check k | _ => None end.

Definition uds_get_action_for_security_access_validate_key (reg : uds_registration_t) : option uds_action_fn :=
  match payload reg with security_access _ k => action k | _ => None end.

Definition __uds_event_handler_data_sec_access_validate_key_ :=
  EventHandler UDS_EVT_SecAccessValidateKey uds_get_check_for_security_access_validate_key uds_get_action_for_security_access_validate_key
    UDS_NRC_ConditionsNotCorrect UDS_REGISTRATION_TYPE__SECURITY_ACCESS.

(** *** authentication.c *)

Definition uds_get_check_for_auth (reg : uds_registration_t) : option uds_check_fn :=
  match payload reg with auth a _ => check a | _ => None end.

Definition uds_get_action_for_auth (reg : uds_registration_t) : option uds_action_fn :=
  match payload reg with auth a _ => action a | _ => None end.

Definition __uds_event_handler_data_auth_ :=
  EventHandler UDS_EVT_Auth uds_get_check_for_auth uds_get_action_for_auth
    UDS_NRC_SubFunctionNotSupported UDS_REGISTRATION_TYPE__AUTHENTICATION.

Definition uds_get_check_for_auth_timeout (reg : uds_registration_t) : option uds_check_fn :=
  match payload reg with auth _ t => check t | _ => None end.

Definition uds_get_action_for_auth_timeout (reg : uds_registration_t) : option uds_action_fn :=
  match payload reg with auth _ t => action t | _ => None end.

Definition __uds_event_handler_data_auth_timeout_ :=
  EventHandler UDS_EVT_AuthTimeout uds_get_check_for_auth_timeout uds_get_action_for_auth_timeout
    UDS_NRC_SubFunctionNotSupported UDS_REGISTRATION_TYPE__AUTHENTICATION.

(** *** comm_ctrl.c *)

Definition uds_get_check_for_communication_control (reg : uds_registration_t) : option uds_check_fn :=
  match payload reg with communication_control a => check a | _ => None end.

Definition uds_get_action_for_communication_control (reg : uds_registration_t) : option uds_action_fn :=
  match payload reg with communication_control a => action a | _ => None end.

Definition __uds_event_handler_data_comm_ctrl_ :=
  EventHandler UDS_EVT_CommCtrl uds_get_check_for_communication_control uds_get_action_for_communication_control
    UDS_NRC_RequestOutOfRange UDS_REGISTRATION_TYPE__COMMUNICATION_CONTROL.

(** *** routine_control.c *)

Definition uds_get_check_for_routine_control (reg : uds_registration_t) : option uds_check_fn :=
  Some uds_check_with_routine_id_fn_fn.

Definition uds_get_action_for_routine_control (reg : uds_registration_t) : option uds_action_fn :=
  match payload reg with routine_control _ a => action a | _ => None end.

Definition __uds_event_handler_data_routine_ctrl_ :=
  EventHandler UDS_EVT_RoutineCtrl uds_get_check_for_routine_control uds_get_action_for_routine_control
    UDS_NRC_SubFunctionNotSupported UDS_REGISTRATION_TYPE__ROUTINE_CONTROL.

(** *** control_dtc_setting.c *)

Definition uds_get_check_for_control_dtc_setting (reg : uds_registration_t) : option uds_check_fn :=
  match payload reg with control_dtc_setting a => check a | _ => None end.

Definition uds_get_action_for_control_dtc_setting (reg : uds_registration_t) : option uds_action_fn :=
  match payload reg with control_dtc_setting a => action a | _ => None end.

Definition __uds_event_handler_data_control_dtc_setting_ :=
  EventHandler UDS_EVT_ControlDTCSetting uds_get_check_for_control_dtc_setting uds_get_action_for_control_dtc_setting
    UDS_NRC_SubFunctionNotSupported UDS_REGISTRATION_TYPE__CONTROL_DTC_SETTING.

(** *** clear_diag_info.c *)

Definition uds_get_check_for_clear_diag_info (reg : uds_registration_t) : option uds_check_fn :=
  match payload reg with clear_diagnostic_information a => check a | _ => None end.

Definition uds_get_action_for_clear_diag_info (reg : uds_registration_t) : option uds_action_fn :=
  match payload reg with clear_diagnostic_information a => action a | _ => None end.

Definition __uds_event_handler_data_clear_diag_info_ :=
  EventHandler UDS_EVT_ClearDiagnosticInfo uds_get_check_for_clear_diag_info uds_get_action_for_clear_diag_info
    UDS_NRC_RequestOutOfRange UDS_REGISTRATION_TYPE__CLEAR_DIAG_INFO.

(** *** memory_by_address.c *)

Definition uds_get_check_for_read_memory_by_addr (reg : uds_registration_t) : option uds_check_fn :=
  match payload reg with memory r _ => check r | _ => None end.

Definition uds_get_action_for_read_memory_by_addr (reg : uds_registration_t) : option uds_action_fn :=
  match payload reg with memory r _ => action r | _ => None end.

Definition __uds_event_handler_data_read_mem_by_addr_ :=
  EventHandler UDS_EVT_ReadMemByAddr uds_get_check_for_read_memory_by_addr uds_get_action_for_read_memory_by_addr
    UDS_NRC_ConditionsNotCorrect UDS_REGISTRATION_TYPE__MEMORY.

Definition uds_get_check_for_write_memory_by_addr (reg : uds_registration_t) : option uds_check_fn :=
  match payload reg with memory _ wr => check wr | _ => None end.

Definition uds_get_action_for_write_memory_by_addr (reg : uds_registration_t) : option uds_action_fn :=
  match payload reg with memory _ wr => action wr | _ => None end.

Definition __uds_event_handler_data_write_mem_by_addr_ :=
  EventHandler UDS_EVT_WriteMemByAddr uds_get_check_for_write_memory_by_addr uds_get_action_for_write_memory_by_addr
    UDS_NRC_ConditionsNotCorrect UDS_REGISTRATION_TYPE__MEMORY.

(** *** link_control.c *)

Definition uds_get_check_for_link_control (reg : uds_registration_t) : option uds_check_fn :=
  match payload reg with link_control a => check a | _ => None end.

Definition uds_get_action_for_link_control (reg : uds_registration_t) : option uds_action_fn :=
  match payload reg with link_control a => action a | _ => None end.

Definition __uds_event_handler_data_link_control_ :=
  EventHandler UDS_EVT_LinkControl uds_get_check_for_link_control uds_get_action_for_link_control
    UDS_NRC_SubFunctionNotSupported UDS_REGISTRATION_TYPE__LINK_CONTROL.

(** *** dynamically_define_data_ids.c *)

Definition uds_get_check_for_dynamically_define_data_ids (reg : uds_registration_t) : option uds_check_fn :=
  match payload reg with dynamically_define_data_ids _ a => check a | _ => None end.

Definition uds_get_action_for_dynamically_define_data_ids (reg : uds_registration_t) : option uds_action_fn :=
  match payload reg with dynamically_define_data_ids _ a => action a | _ => None end.

Definition __uds_event_handler_data_dynamically_define_data_ids_ :=
  EventHandler UDS_EVT_DynamicDefineDataId uds_get_check_for_dynamically_define_data_ids uds_get_action_for_dynamically_define_data_ids
    UDS_NRC_SubFunctionNotSupported UDS_REGISTRATION_TYPE__DYNAMIC_DEFINE_DATA_IDS.

(** *** upload_download.c

    One check and one action for all five events. *)

Definition get_check_upload_download (reg : uds_registration_t) : option uds_check_fn :=
  Some uds_check_always_apply_fn.

Definition get_action_upload_download (reg : uds_registration_t) : option uds_action_fn :=
  Some uds_action_upload_download_fn.

Definition __uds_event_handler_data_upload_download_request_download_ :=
  EventHandler UDS_EVT_RequestDownload get_check_upload_download get_action_upload_download
    UDS_NRC_SubFunctionNotSupported UDS_REGISTRATION_TYPE__UPLOAD_DOWNLOAD.

Definition __uds_event_handler_data_upload_download_request_upload_ :=
  EventHandler UDS_EVT_RequestUpload get_check_upload_download get_action_upload_download
    UDS_NRC_SubFunctionNotSupported UDS_REGISTRATION_TYPE__UPLOAD_DOWNLOAD.

Definition __uds_event_handler_data_upload_download_transfer_data_ :=
  EventHandler UDS_EVT_TransferData get_check_upload_download get_action_upload_download
    UDS_NRC_SubFunctionNotSupported UDS_REGISTRATION_TYPE__UPLOAD_DOWNLOAD.

Definition __uds_event_handler_data_upload_download_request_transfer_exit_ :=
  EventHandler UDS_EVT_RequestTransferExit get_check_upload_download get_action_upload_download
    UDS_NRC_SubFunctionNotSupported UDS_REGISTRATION_TYPE__UPLOAD_DOWNLOAD.

Definition __uds_event_handler_data_upload_download_request_file_transfer_ :=
  EventHandler UDS_EVT_RequestFileTransfer get_check_upload_download get_action_upload_download
    UDS_NRC_SubFunctionNotSupported UDS_REGISTRATION_TYPE__UPLOAD_DOWNLOAD.

(** The registration that makes the upload and download handler reachable. *)
Definition __uds_registration_dummy_upload_download_ : uds_registration_t :=
  Registration None 0 upload_download 0 None.

(** The whole iterable section.  The linker orders it by name; by
    [uds_event_handlers_NoDup] below the order cannot matter. *)
Definition uds_event_handlers : list uds_event_handler_data :=
  [__uds_event_handler_data_read_data_by_ident_;
   __uds_event_handler_data_write_data_by_ident_;
   __uds_event_handler_data_io_control_;
   __uds_event_handler_data_diag_sess_ctrl_;
   __uds_event_handler_data_session_timeout_;
   __uds_event_handler_data_ecu_reset_;
   __uds_event_handler_data_do_scheduled_reset_;
   __uds_event_handler_data_read_dtc_information_;
   __uds_event_handler_data_sec_access_request_seed_;
   __uds_event_handler_data_sec_access_validate_key_;
   __uds_event_handler_data_auth_;
   __uds_event_handler_data_auth_timeout_;
   __uds_event_handler_data_comm_ctrl_;
   __uds_event_handler_data_routine_ctrl_;
   __uds_event_handler_data_control_dtc_setting_;
   __uds_event_handler_data_clear_diag_info_;
   __uds_event_handler_data_read_mem_by_addr_;
   __uds_event_handler_data_write_mem_by_addr_;
   __uds_event_handler_data_link_control_;
   __uds_event_handler_data_dynamically_define_data_ids_;
   __uds_event_handler_data_upload_download_request_download_;
   __uds_event_handler_data_upload_download_request_upload_;
   __uds_event_handler_data_upload_download_transfer_data_;
   __uds_event_handler_data_upload_download_request_transfer_exit_;
   __uds_event_handler_data_upload_download_request_file_transfer_].

(** ** What the services ask of the iso14229 server and of the platform *)

(** The server is code of the iso14229 submodule: the fields of [UDSServer_t]
    the sources read, and its own [copy] function, which appends the first
    [count] bytes at [src] ([None] is NULL) to the response. *)
Class Server (E : Type) := {
  p2_ms : E -> Z;
  sessionType : E -> Z;
  server_copy : option (list Z) -> Z -> M E UDSErr_t;
}.

(** Zephyr functions of the platform: the retention memory, the boot mode, the
    reset, and sleeping. *)
Class Platform (E : Type) := {
  retention_write : Z -> list Z -> M E Z;
  bootmode_set : Z -> M E Z;
  sys_reboot : Z -> M E unit;
  log_flush : M E unit;
  k_msleep : Z -> M E unit;
}.

Definition SYS_REBOOT_WARM : Z := 0.
Definition SYS_REBOOT_COLD : Z := 1.
Definition BOOT_MODE_TYPE_BOOTLOADER : Z := 1.

(** Running an operation of the environment on the state of an instance. *)
Definition on_ext {E A} (m : M E A) : M (world E) A := zoom ext set_ext m.

(** ** The copy functions an argument can carry *)

(** [sizeof (temp_buffer)] of dynamically_define_data_ids.c. *)
Definition temp_buffer_size : Z := 256.

Section copy.
Context {E : Type} `{!Server E}.

(** The server pointer of an event is never NULL. *)
Definition uds_copy (src : option (list Z)) (count : Z) : M (world E) UDSErr_t :=
  match src with
  | None => ret UDS_NRC_GeneralReject
  | Some src =>
      let* buf := gets temp_buffer in
      if count <=? temp_buffer_size - Z.of_nat (length buf) then
        if Z.of_nat (length src) <? count then fail OutOfBounds
        else (modify (set_temp_buffer (buf ++ take (Z.to_nat count) src)) ;; ret UDS_PositiveResponse)
      else ret UDS_NRC_ResponseTooLong
  end.

(** Calling [args->copy]; the count parameter is a [uint16_t]. *)
Definition call_copy (copy : copy_fn) (src : option (list Z)) (count : Z) : M (world E) UDSErr_t :=
  match copy with
  | copy_server => on_ext (server_copy src (u16 count))
  | copy_uds_copy => uds_copy src (u16 count)
  end.
End copy.

(** ** Checks and actions *)

(** [args->dataId] through a [UDSRDBIArgs_t *]: [dataId] is the first member of
    the argument structs of all three events that select by data identifier. *)
Definition arg_dataId (a : uds_arg) : option Z :=
  match a with
  | UDSRDBIArgs d _ | UDSWDBIArgs d _ | UDSIOCtrlArgs d _ _ _ => Some d
  | _ => None
  end.

(** The actor of a data identifier registration each event uses. *)
Definition data_identifier_parts (r : uds_registration_t) :
    option (Z * uds_actor * uds_actor * uds_actor) :=
  match payload r with data_identifier _ i rd wr io => Some (i, rd, wr, io) | _ => None end.

Section checks.
Context {E : Type} `{!UdsCallbacks E}.

(** A check through a function pointer that is not tested first. *)
Definition call_check_ptr (f : option uds_check_fn) (context : uds_context) (apply : bool) :
    M (world E) (UDSErr_t * bool) :=
  match f with Some f => call_check f context apply | None => fail NullPointer end.

Definition uds_check_read_with_data_id (context : uds_context) (apply_action : bool) :
    M (world E) (UDSErr_t * bool) :=
  let* reg := read_reg (ctx_registration context) in
  let* dataId := of_option BadArgument (arg_dataId (ctx_arg context)) in
  let* (data_id, rd, _, _) := of_option BadArgument (data_identifier_parts reg) in
  if decide (dataId <> data_id) then ret (UDS_OK, false)
  else match check rd with
       | Some f => call_check f context apply_action
       | None => ret (UDS_OK, apply_action)
       end.

Definition uds_check_write_with_data_id (context : uds_context) (apply_action : bool) :
    M (world E) (UDSErr_t * bool) :=
  let* reg := read_reg (ctx_registration context) in
  let* dataId := of_option BadArgument (arg_dataId (ctx_arg context)) in
  let* (data_id, _, wr, _) := of_option BadArgument (data_identifier_parts reg) in
  if decide (dataId <> data_id) then ret (UDS_OK, false)
  else call_check_ptr (check wr) context apply_action.

Definition uds_check_io_control_with_data_id (context : uds_context) (apply_action : bool) :
    M (world E) (UDSErr_t * bool) :=
  let* reg := read_reg (ctx_registration context) in
  let* dataId := of_option BadArgument (arg_dataId (ctx_arg context)) in
  let* (data_id, _, _, io) := of_option BadArgument (data_identifier_parts reg) in
  if decide (dataId <> data_id) then ret (UDS_OK, false)
  else call_check_ptr (check io) context apply_action.

Definition uds_check_with_subfunc_fn (context : uds_context) (apply_action : bool) :
    M (world E) (UDSErr_t * bool) :=
  let* reg := read_reg (ctx_registration context) in
  match ctx_arg context, payload reg with
  | UDSRDTCIArgs ty _, read_dtc sub_function actor =>
      if decide (sub_function <> ty) then ret (UDS_OK, false)
      else match check actor with
           | Some f => call_check f context apply_action
           | None => ret (UDS_OK, apply_action)
           end
  | _, _ => fail BadArgument
  end.

Definition uds_check_with_routine_id_fn (context : uds_context) (apply_action : bool) :
    M (world E) (UDSErr_t * bool) :=
  let* reg := read_reg (ctx_registration context) in
  match ctx_arg context, payload reg with
  | UDSRoutineCtrlArgs _ id _, routine_control routine_id actor =>
      if decide (routine_id <> id) then ret (UDS_OK, false)
      else match check actor with
           | Some f => call_check f context apply_action
           | None => ret (UDS_OK, apply_action)
           end
  | _, _ => fail BadArgument
  end.

Definition uds_check_always_apply (context : uds_context) (apply_action : bool) :
    M (world E) (UDSErr_t * bool) := ret (UDS_OK, true).
End checks.

Section ecu_reset.
Context {E : Type} `{!Server E} `{!Platform E}.

Definition uds_check_ecu_hard_reset (context : uds_context) (apply_action : bool) :
    M (world E) (UDSErr_t * bool) :=
  match ctx_arg context with
  | UDSECUResetArgs ty _ => ret (UDS_OK, if decide (ty = ECU_RESET__HARD) then true else apply_action)
  | _ => fail BadArgument
  end.

Definition uds_action_ecu_hard_reset (context : uds_context) (consume_event : bool) :
    M (world E) (UDSErr_t * bool * uds_arg) :=
  match ctx_arg context with
  | UDSECUResetArgs ty _ =>
      let* p2 := gets (fun w => p2_ms (ext w)) in
      ret (UDS_OK, false, UDSECUResetArgs ty p2)
  | _ => fail BadArgument
  end.

Definition uds_check_execute_scheduled_reset (context : uds_context) (apply_action : bool) :
    M (world E) (UDSErr_t * bool) :=
  match ctx_arg context with
  | UDSScheduledResetArg ty => ret (UDS_OK, if decide (ty = ECU_RESET__HARD) then true else apply_action)
  | _ => fail BadArgument
  end.

(** The lines after [sys_reboot] are reached when it returns. *)
Definition uds_action_execute_scheduled_reset (context : uds_context) (consume_event : bool) :
    M (world E) (UDSErr_t * bool * uds_arg) :=
  on_ext log_flush ;;
  on_ext (k_msleep 100) ;;
  on_ext (sys_reboot SYS_REBOOT_COLD) ;;
  ret (UDS_NRC_ConditionsNotCorrect, consume_event, ctx_arg context).

Definition uds_switch_to_firmware_loader_with_programming_session : M (world E) UDSErr_t :=
  let session_type : Z := UDS_DIAG_SESSION__PROGRAMMING in
  let* r := on_ext (retention_write 0 [session_type]) in
  if decide (r <> 0) then ret UDS_NRC_ConditionsNotCorrect
  else
    let* r := on_ext (bootmode_set BOOT_MODE_TYPE_BOOTLOADER) in
    if decide (r <> 0) then ret UDS_NRC_ConditionsNotCorrect
    else (on_ext (sys_reboot SYS_REBOOT_WARM) ;; ret UDS_NRC_GeneralReject).

(** *** default_instance.c

    [disable_switch] is CONFIG_UDS_DEFAULT_INSTANCE_DISABLE_SWITCH_TO_FIRMWARE_LOADER. *)
Definition diag_session_ctrl_check (context : uds_context) (apply_action : bool) :
    M (world E) (UDSErr_t * bool) := ret (UDS_OK, true).

Definition diag_session_ctrl_action (disable_switch : bool) (context : uds_context)
    (consume_event : bool) : M (world E) (UDSErr_t * bool * uds_arg) :=
  if disable_switch then ret (UDS_PositiveResponse, false, ctx_arg context)
  else match ctx_arg context with
  | UDSDiagSessCtrlArgs ty =>
      if decide (ty = UDS_DIAG_SESSION__PROGRAMMING)
      then let* r := uds_switch_to_firmware_loader_with_programming_session in
           ret (r, false, ctx_arg context)
      else ret (UDS_PositiveResponse, false, ctx_arg context)
  | _ => fail BadArgument
  end.

Definition diag_session_timeout_check (context : uds_context) (apply_action : bool) :
    M (world E) (UDSErr_t * bool) := ret (UDS_OK, true).

Definition diag_session_timeout_action (context : uds_context) (consume_event : bool) :
    M (world E) (UDSErr_t * bool * uds_arg) :=
  ret (UDS_PositiveResponse, false, ctx_arg context).
End ecu_reset.

(** ** The event table: properties *)

Section table.
Context {E : Type} `{!UdsCallbacks E}.
Implicit Types (w : world E) (t : list uds_event_handler_data).

Lemma uds_event_handlers_NoDup : NoDup (map event uds_event_handlers).
Proof. apply (bool_decide_unpack _). by vm_compute. Qed.

Lemma event_callback_found t fuel h arg w :
  NoDup (map event t) -> h ∈ t ->
  uds_event_callback t fuel (event h) arg w = uds_handle_event fuel (event h) arg h w.
Proof.
  induction t as [|h' t IH]; intros Hn Hh; [by apply elem_of_nil in Hh|].
  cbn in Hn. apply NoDup_cons in Hn as [Hn1 Hn2]. cbn [uds_event_callback].
  apply elem_of_cons in Hh as [->|Hh]; [by rewrite decide_True|].
  rewrite decide_False; [by apply IH|]. intros Heq. apply Hn1. rewrite Heq. by apply list_elem_of_fmap_2.
Qed.

Lemma event_callback_missing t fuel ev arg w :
  ev ∉ map event t -> uds_event_callback t fuel ev arg w = Ret (UDS_NRC_ServiceNotSupported, arg) w.
Proof.
  induction t as [|h' t IH]; intros Hh; [done|]. cbn in Hh. apply not_elem_of_cons in Hh as [Hh1 Hh2].
  cbn [uds_event_callback]. rewrite decide_False by congruence. by apply IH.
Qed.

Lemma event_callback_handled fuel h arg w :
  h ∈ uds_event_handlers ->
  uds_event_callback uds_event_handlers fuel (event h) arg w = uds_handle_event fuel (event h) arg h w.
Proof. apply event_callback_found, uds_event_handlers_NoDup. Qed.

(** The event table: every event of the library has exactly one entry,
    and because of that the result of [uds_event_callback] does not depend on
    the order in which the linker lays the entries out; an event without an
    entry is answered with ServiceNotSupported. *)
Theorem event_table_order_irrelevant t fuel ev arg w :
  Permutation t uds_event_handlers ->
  (NoDup (map event t)) /\
  (uds_event_callback t fuel ev arg w = uds_event_callback uds_event_handlers fuel ev arg w) /\
  (forall n, ev = UDS_EVT_other n ->
     uds_event_callback t fuel ev arg w = Ret (UDS_NRC_ServiceNotSupported, arg) w) /\
  ((forall n, ev <> UDS_EVT_other n) -> exists h, h ∈ t /\ event h = ev /\
     uds_event_callback t fuel ev arg w = uds_handle_event fuel ev arg h w).
Proof.
  intros Hp. assert (NoDup (map event t)) as Hn.
  { rewrite Hp. apply uds_event_handlers_NoDup. }
  assert ((forall n, ev <> UDS_EVT_other n) -> exists h, h ∈ t /\ event h = ev) as Hex.
  { intros Hev. assert (ev ∈ map event uds_event_handlers) as Hin.
    { apply (bool_decide_unpack _). destruct ev; try by vm_compute. by destruct (Hev n). }
    rewrite <- Hp in Hin. apply list_elem_of_fmap in Hin as (h & -> & Hh). eauto. }
  assert (forall n, ev = UDS_EVT_other n -> ev ∉ map event uds_event_handlers) as Hother.
  { intros n -> Hin. cbn in Hin. repeat (apply elem_of_cons in Hin as [Hin|Hin]; [discriminate|]).
    by apply elem_of_nil in Hin. }
  split_and!; [done| | |].
  - destruct (decide (ev ∈ map event t)) as [Hin|Hin].
    + apply list_elem_of_fmap in Hin as (h & -> & Hh). rewrite event_callback_found by done.
      rewrite event_callback_handled; [done|]. by rewrite <- Hp.
    + rewrite event_callback_missing by done. rewrite event_callback_missing; [done|]. by rewrite <- Hp.
  - intros n Hev. apply event_callback_missing. rewrite Hp. by eapply Hother.
  - intros Hev. destruct (Hex Hev) as (h & Hh & Heq). exists h. split_and!; try done.
    rewrite <- Heq. by apply event_callback_found.
Qed.
End table.
