(* ===== verification/UdsMemory.v ===== *)
(** * Default handlers for memory access ([lib/uds/memory_by_address.c])

    The address check, and the default read and write handlers over an address
    space of 32 bits.  Memory is a finite map from addresses to bytes; touching
    an address outside it is the fault [OutOfBounds]. *)

From stdpp Require Import base gmap list numbers relations.
From Stdlib Require Import ZArith Lia.
From S2P Require Import Prelude.
From S2P Require Import UdsTypes.
From S2P Require Import UdsServices.

#[local] Open Scope Z_scope.

(** ** Definitions *)

(** Pointers and [size_t] have 32 bits. *)
Definition UINTPTR_MAX : Z := 0xFFFFFFFF.

(** What the configuration and the device tree say: whether the board is
    native_sim, and base and size of the chosen zephyr,sram and zephyr,flash
    nodes where there are such. *)
Record memory_config := MemoryConfig {
  native_sim : bool;
  sram : option (Z * Z);
  flash : option (Z * Z);
}.

(** [addr >= base && addr + size <= end], in 32-bit arithmetic. *)
Definition in_region (region : option (Z * Z)) (addr size : Z) : bool :=
  match region with
  | Some (base, len) => (base <=? addr) && (u32 (addr + size) <=? u32 (base + len))
  | None => false
  end.

Definition is_memory_address_valid (cfg : memory_config) (addr size : Z) (readonly : bool) : bool :=
  if UINTPTR_MAX - size <? addr then false
  else if native_sim cfg then true
  else if in_region (sram cfg) addr size then true
  else readonly && in_region (flash cfg) addr size.

(** The memory of the controller as a part of the environment. *)
Class Memory (E : Type) := {
  mem : E -> gmap Z Z;
  set_mem : gmap Z Z -> E -> E;
  mem_set_mem : forall m e, mem (set_mem m e) = m;
}.

(** The [n] bytes from [a] on, when all of them are mapped. *)
Fixpoint load_bytes (m : gmap Z Z) (a : Z) (n : nat) : option (list Z) :=
  match n with
  | O => Some []
  | S n => b ← m !! a; bs ← load_bytes m (a + 1) n; Some (b :: bs)
  end.

(** Storing bytes from [a] on, when all the addresses are mapped. *)
Fixpoint store_bytes (m : gmap Z Z) (a : Z) (bs : list Z) : option (gmap Z Z) :=
  match bs with
  | [] => Some m
  | b :: bs => _ ← m !! a; store_bytes (<[a := b]> m) (a + 1) bs
  end.

Section handlers.
Context {E : Type} `{!Server E} `{!Memory E} (cfg : memory_config).

Definition uds_check_default_memory_by_addr_read (context : uds_context) (apply_action : bool) :
    M (world E) (UDSErr_t * bool) :=
  match ctx_arg context with
  | UDSReadMemByAddrArgs memAddr memSize _ =>
      if memAddr =? 0 then ret (UDS_NRC_RequestOutOfRange, apply_action)
      else if memSize =? 0 then ret (UDS_NRC_RequestOutOfRange, apply_action)
      else if negb (is_memory_address_valid cfg memAddr memSize true)
      then ret (UDS_NRC_RequestOutOfRange, apply_action)
      else ret (UDS_OK, true)
  | _ => fail BadArgument
  end.

(** The copy function reads the memory itself, [u16 memSize] bytes of it. *)
Definition uds_action_default_memory_by_addr_read (context : uds_context) (consume_event : bool) :
    M (world E) (UDSErr_t * bool * uds_arg) :=
  match ctx_arg context with
  | UDSReadMemByAddrArgs memAddr memSize copy =>
      let* m := gets (fun w => mem (ext w)) in
      let* bytes := of_option OutOfBounds (load_bytes m memAddr (Z.to_nat (u16 memSize))) in
      let* copy_result := call_copy copy (Some bytes) memSize in
      if decide (copy_result <> UDS_PositiveResponse)
      then ret (UDS_NRC_RequestOutOfRange, consume_event, ctx_arg context)
      else ret (UDS_PositiveResponse, consume_event, ctx_arg context)
  | _ => fail BadArgument
  end.

Definition uds_check_default_memory_by_addr_write (context : uds_context) (apply_action : bool) :
    M (world E) (UDSErr_t * bool) :=
  match ctx_arg context with
  | UDSWriteMemByAddrArgs memAddr memSize _ =>
      if memAddr =? 0 then ret (UDS_NRC_RequestOutOfRange, apply_action)
      else if memSize =? 0 then ret (UDS_NRC_RequestOutOfRange, apply_action)
      else if negb (is_memory_address_valid cfg memAddr memSize false)
      then ret (UDS_NRC_RequestOutOfRange, apply_action)
      else ret (UDS_OK, true)
  | _ => fail BadArgument
  end.

Definition uds_action_default_memory_by_addr_write (context : uds_context) (consume_event : bool) :
    M (world E) (UDSErr_t * bool * uds_arg) :=
  match ctx_arg context with
  | UDSWriteMemByAddrArgs memAddr memSize data =>
      let* m := gets (fun w => mem (ext w)) in
      if Z.of_nat (length data) <? memSize then fail OutOfBounds
      else
        let* m' := of_option OutOfBounds (store_bytes m memAddr (take (Z.to_nat memSize) data)) in
        modify (fun w => set_ext (set_mem m' (ext w)) w) ;;
        ret (UDS_PositiveResponse, consume_event, ctx_arg context)
  | _ => fail BadArgument
  end.
End handlers.

(** ** Lemmas on memory *)

(** All of [\[a, a + n)] is mapped. *)
Definition mapped (m : gmap Z Z) (a n : Z) : Prop := forall i, a <= i < a + n -> is_Some (m !! i).

Lemma load_bytes_mapped m n : forall a,
  mapped m a (Z.of_nat n) -> exists bs, load_bytes m a n = Some bs /\ length bs = n /\
    forall i, (i < n)%nat -> bs !! i = m !! (a + Z.of_nat i).
Proof.
  induction n as [|n IH]; intros a Hm.
  - exists []. split_and!; [done|done|]. intros; lia.
  - destruct (Hm a) as [b Hb]; [lia|].
    destruct (IH (a + 1)) as (bs & Hbs & Hlen & Hi). { intros i Hi. apply Hm. lia. }
    exists (b :: bs). cbn. rewrite Hb. cbn. rewrite Hbs. cbn. split_and!; [done|by rewrite Hlen|].
    intros [|i] Hlt; cbn.
    + by rewrite Z.add_0_r.
    + rewrite Hi by lia. f_equal. lia.
Qed.

Lemma store_bytes_mapped bs : forall m a,
  mapped m a (Z.of_nat (length bs)) -> exists m', store_bytes m a bs = Some m' /\ dom m' = dom m /\
    (forall i, (i < length bs)%nat -> m' !! (a + Z.of_nat i) = bs !! i) /\
    (forall j, j < a \/ a + Z.of_nat (length bs) <= j -> m' !! j = m !! j).
Proof.
  induction bs as [|b bs IH]; intros m a Hm.
  - exists m. split_and!; try done. cbn. intros; lia.
  - destruct (Hm a) as [b0 Hb]; [cbn; lia|].
    destruct (IH (<[a := b]> m) (a + 1)) as (m' & Hs & Hdom & Hin & Hout).
    { intros i Hi. apply lookup_insert_is_Some. right. split; [lia|]. apply Hm. cbn. lia. }
    exists m'. cbn. rewrite Hb. cbn. split_and!; [done| | |].
    + rewrite Hdom, dom_insert_lookup_L; done.
    + intros [|i] Hlt; cbn in *.
      * rewrite Z.add_0_r, Hout by lia. by rewrite lookup_insert_eq.
      * rewrite <- Hin by lia. f_equal. lia.
    + intros j Hj. cbn in Hj. rewrite Hout by lia. rewrite lookup_insert_ne; [done|lia].
Qed.

(** Loading what has just been stored. *)
Lemma load_store m a bs m' :
  store_bytes m a bs = Some m' -> mapped m a (Z.of_nat (length bs)) ->
  load_bytes m' a (length bs) = Some bs.
Proof.
  intros Hs Hm. destruct (store_bytes_mapped bs m a Hm) as (m2 & Hs2 & Hdom & Hin & _).
  assert (m2 = m') as -> by congruence.
  destruct (load_bytes_mapped m' (length bs) a) as (bs' & Hl & Hlen & Hi).
  { intros i Hi. apply elem_of_dom. rewrite Hdom. by apply elem_of_dom, Hm. }
  rewrite Hl. f_equal. apply list_eq_same_length with (length bs); [done..|].
  intros i x y Hlt Hx Hy. rewrite Hi, Hin in Hx by done. congruence.
Qed.

(** ** Properties *)

Section memory_props.
Context {E : Type} `{!Server E} `{!Memory E}.
Implicit Types (w : world E) (cfg : memory_config).

(** [\[addr, addr + size)] lies inside the region. *)
Definition inside (region : option (Z * Z)) (addr size : Z) : Prop :=
  exists base len, region = Some (base, len) /\ base <= addr /\ addr + size <= base + len.

(** A region of the device tree: it ends below the top of the address space. *)
Definition region_ok (region : option (Z * Z)) : Prop :=
  forall base len, region = Some (base, len) -> 0 <= base /\ 0 <= len /\ base + len <= UINTPTR_MAX.

Lemma in_region_inside region addr size :
  region_ok region -> is_u32 addr -> is_u32 size -> addr + size <= UINTPTR_MAX ->
  in_region region addr size = true <-> inside region addr size.
Proof.
  unfold in_region, inside, region_ok, in_width, UINTPTR_MAX. intros Hok Ha Hs Hle.
  destruct region as [[base len]|]; [|split; [done|intros (?&?&?&_); done]].
  destruct (Hok _ _ eq_refl) as (? & ? & ?).
  rewrite !(wrap_small 32) by (unfold in_width; lia). rewrite andb_true_iff, !Z.leb_le.
  split; [naive_solver|]. intros (? & ? & [= <- <-] & ?). lia.
Qed.

Lemma inside_bound region addr size :
  region_ok region -> inside region addr size -> addr + size <= UINTPTR_MAX.
Proof. intros Hok (base & len & -> & ? & ?). destruct (Hok _ _ eq_refl). lia. Qed.

Lemma is_memory_address_valid_iff cfg addr size readonly :
  native_sim cfg = false -> region_ok (sram cfg) -> region_ok (flash cfg) ->
  is_u32 addr -> is_u32 size ->
  is_memory_address_valid cfg addr size readonly = true <->
  inside (sram cfg) addr size \/ (readonly = true /\ inside (flash cfg) addr size).
Proof.
  intros Hn Hr Hf Ha Hs. unfold is_memory_address_valid. rewrite Hn.
  destruct (Z.ltb_spec (UINTPTR_MAX - size) addr) as [Hlt|Hle].
  - split; [done|]. intros [H|[_ H]]; apply inside_bound in H; try done; lia.
  - rewrite <- !in_region_inside by (done || lia).
    destruct (in_region (sram cfg) addr size), readonly, (in_region (flash cfg) addr size); naive_solver.
Qed.

(** The range check is exact: whatever 32-bit address and size a client
    sends, with no wrap-around to exploit, a range is accepted for reading
    when it lies inside the RAM or inside the flash, and for writing when it
    lies inside the RAM. *)
Theorem is_memory_address_valid_spec cfg addr size readonly :
  native_sim cfg = false -> region_ok (sram cfg) -> region_ok (flash cfg) ->
  is_u32 addr -> is_u32 size ->
  is_memory_address_valid cfg addr size readonly = true <->
  inside (sram cfg) addr size \/ (readonly = true /\ inside (flash cfg) addr size).
Proof. apply is_memory_address_valid_iff. Qed.

(** What check and action of a default handler do to one event: the action
    runs when the check asks for it. *)
Definition checked (chk : M (world E) (UDSErr_t * bool)) (act : M (world E) (UDSErr_t * bool * uds_arg)) :
    M (world E) UDSErr_t :=
  let* (r, apply) := chk in
  if decide (r <> UDS_OK) then ret r
  else if apply then let* (r, _, _) := act in ret r else ret UDS_OK.

(** The memory a configuration describes. *)
Definition region_mapped (m : gmap Z Z) (region : option (Z * Z)) : Prop :=
  forall base len, region = Some (base, len) -> mapped m base len.

Lemma inside_mapped m region addr size :
  region_mapped m region -> inside region addr size -> mapped m addr size.
Proof. intros Hm (base & len & -> & ? & ?) i Hi. apply (Hm _ _ eq_refl). lia. Qed.

Definition read_event cfg (c : uds_context) :=
  checked (uds_check_default_memory_by_addr_read cfg c false)
          (uds_action_default_memory_by_addr_read c true).
Definition write_event cfg (c : uds_context) :=
  checked (uds_check_default_memory_by_addr_write cfg c false)
          (uds_action_default_memory_by_addr_write c true).

Lemma read_event_accepted cfg w inst p ev addr size copy bs :
  addr <> 0 -> size <> 0 -> is_memory_address_valid cfg addr size true = true ->
  load_bytes (mem (ext w)) addr (Z.to_nat (u16 size)) = Some bs ->
  read_event cfg (Context inst p ev (UDSReadMemByAddrArgs addr size copy)) w =
  match call_copy copy (Some bs) size w with
  | Ret r w' => Ret (if decide (r = UDS_OK) then UDS_OK else UDS_NRC_RequestOutOfRange) w'
  | Fault f => Fault f
  end.
Proof.
  intros Ha Hs Hv Hl. unfold read_event, checked, uds_check_default_memory_by_addr_read,
    uds_action_default_memory_by_addr_read. cbn [ctx_arg].
  rewrite (proj2 (Z.eqb_neq addr 0)), (proj2 (Z.eqb_neq size 0)), Hv by done. cbn.
  m_run. rewrite Hl. m_run.
  destruct (call_copy copy (Some bs) size w) as [r w'|f]; [|done].
  destruct (decide (r = UDS_OK)) as [->|Hr]; [done|]. by rewrite decide_True.
Qed.

(** The default read handler on every request: an address range outside
    RAM and flash, a NULL address or a zero size is refused with
    RequestOutOfRange and nothing is read; otherwise the copy function gets
    exactly the [u16 size] bytes stored at the address, and its failure is
    reported as RequestOutOfRange. No fault arises from reading. *)
Theorem default_memory_read_spec cfg w inst p ev addr size copy :
  native_sim cfg = false -> region_ok (sram cfg) -> region_ok (flash cfg) ->
  region_mapped (mem (ext w)) (sram cfg) -> region_mapped (mem (ext w)) (flash cfg) ->
  is_u32 addr -> is_u32 size ->
  let c := Context inst p ev (UDSReadMemByAddrArgs addr size copy) in
  ((addr = 0 \/ size = 0 \/ ~ (inside (sram cfg) addr size \/ inside (flash cfg) addr size)) /\
   read_event cfg c w = Ret UDS_NRC_RequestOutOfRange w) \/
  (exists bs, (Z.of_nat (length bs) = u16 size) /\
    (forall i, (i < length bs)%nat -> bs !! i = mem (ext w) !! (addr + Z.of_nat i)) /\
    read_event cfg c w =
    match call_copy copy (Some bs) size w with
    | Ret r w' => Ret (if decide (r = UDS_OK) then UDS_OK else UDS_NRC_RequestOutOfRange) w'
    | Fault f => Fault f
    end).
Proof.
  intros Hn Hr Hf Hmr Hmf Ha Hs c.
  pose proof (is_memory_address_valid_iff cfg addr size true Hn Hr Hf Ha Hs) as Hv.
  destruct (Z.eqb_spec addr 0) as [->|Hne]; [by left; auto|].
  destruct (Z.eqb_spec size 0) as [->|Hns].
  { left. split; [auto|]. subst c. unfold read_event, checked, uds_check_default_memory_by_addr_read. cbn [ctx_arg].
    by rewrite (proj2 (Z.eqb_neq addr 0)) by done. }
  destruct (is_memory_address_valid cfg addr size true) eqn:Hval.
  - right. assert (mapped (mem (ext w)) addr size) as Hm.
    { destruct (proj1 Hv eq_refl) as [H|[_ H]]; [exact (inside_mapped _ _ _ _ Hmr H)|exact (inside_mapped _ _ _ _ Hmf H)]. }
    assert (0 <= u16 size <= size) as Hu.
    { split; [apply (wrap_range 16); lia|]. apply Z.mod_le; unfold in_width in *; lia. }
    destruct (load_bytes_mapped (mem (ext w)) (Z.to_nat (u16 size)) addr) as (bs & Hl & Hlen & Hi).
    { intros i Hi. apply Hm. lia. }
    exists bs. split; [lia|]. split; [by rewrite Hlen|]. by apply read_event_accepted.
  - left. split; [right; right; intros H; apply (f_equal negb) in Hval; naive_solver|].
    subst c. unfold read_event, checked, uds_check_default_memory_by_addr_read. cbn [ctx_arg].
    by rewrite (proj2 (Z.eqb_neq addr 0)), (proj2 (Z.eqb_neq size 0)), Hval by done.
Qed.

Lemma write_event_accepted cfg w inst p ev addr size data :
  native_sim cfg = false -> region_ok (sram cfg) -> region_ok (flash cfg) ->
  region_mapped (mem (ext w)) (sram cfg) -> is_u32 addr -> is_u32 size ->
  addr <> 0 -> size <> 0 -> inside (sram cfg) addr size -> Z.of_nat (length data) = size ->
  exists m', store_bytes (mem (ext w)) addr data = Some m' /\
    write_event cfg (Context inst p ev (UDSWriteMemByAddrArgs addr size data)) w =
    Ret UDS_OK (set_ext (set_mem m' (ext w)) w).
Proof.
  intros Hn Hr Hf Hm Ha Hs Hne Hns Hin Hlen.
  assert (is_memory_address_valid cfg addr size false = true) as Hv.
  { apply is_memory_address_valid_iff; auto. }
  destruct (store_bytes_mapped data (mem (ext w)) addr) as (m' & Hst & _).
  { rewrite Hlen. by eapply inside_mapped. }
  exists m'. split; [done|]. unfold write_event, checked, uds_check_default_memory_by_addr_write,
    uds_action_default_memory_by_addr_write. cbn [ctx_arg].
  rewrite (proj2 (Z.eqb_neq addr 0)), (proj2 (Z.eqb_neq size 0)), Hv by done. m_run.
  rewrite (proj2 (Z.ltb_ge _ _)) by lia. m_run. rewrite take_ge by lia. by rewrite Hst.
Qed.

(** The default write handler: a range inside the RAM is written with
    exactly the bytes of the request and nothing else changes; every other
    range, the flash included, is refused and nothing changes. *)
Theorem default_memory_write_spec cfg w inst p ev addr size data :
  native_sim cfg = false -> region_ok (sram cfg) -> region_ok (flash cfg) ->
  region_mapped (mem (ext w)) (sram cfg) -> is_u32 addr -> is_u32 size ->
  Z.of_nat (length data) = size ->
  let c := Context inst p ev (UDSWriteMemByAddrArgs addr size data) in
  ((addr = 0 \/ size = 0 \/ ~ inside (sram cfg) addr size) /\
   write_event cfg c w = Ret UDS_NRC_RequestOutOfRange w) \/
  (exists m', write_event cfg c w = Ret UDS_OK (set_ext (set_mem m' (ext w)) w) /\
    (forall i, (i < length data)%nat -> m' !! (addr + Z.of_nat i) = data !! i) /\
    (forall j, j < addr \/ addr + size <= j -> m' !! j = mem (ext w) !! j)).
Proof.
  intros Hn Hr Hf Hm Ha Hs Hlen c.
  pose proof (is_memory_address_valid_iff cfg addr size false Hn Hr Hf Ha Hs) as Hv.
  destruct (decide (addr = 0)) as [->|Hne]; [by left; auto|].
  destruct (decide (size = 0)) as [Hz|Hns].
  { left. split; [auto|]. subst c. unfold write_event, checked, uds_check_default_memory_by_addr_write. cbn [ctx_arg].
    by rewrite (proj2 (Z.eqb_neq addr 0)), Hz by done. }
  destruct (is_memory_address_valid cfg addr size false) eqn:Hval.
  - right. assert (inside (sram cfg) addr size) as Hin by naive_solver.
    destruct (write_event_accepted cfg w inst p ev addr size data) as (m' & Hst & Hw); try done.
    destruct (store_bytes_mapped data (mem (ext w)) addr) as (m2 & Hst2 & _ & Hi & Ho).
    { rewrite Hlen. by eapply inside_mapped. }
    assert (m2 = m') as -> by congruence. exists m'. by rewrite <- Hlen.
  - left. split; [right; right; intros H; apply (f_equal negb) in Hval; naive_solver|].
    subst c. unfold write_event, checked, uds_check_default_memory_by_addr_write. cbn [ctx_arg].
    by rewrite (proj2 (Z.eqb_neq addr 0)), (proj2 (Z.eqb_neq size 0)), Hval by done.
Qed.

(** Writing RAM and reading it back: after an accepted write of at most
    65535 bytes, a read of the same range hands exactly these bytes to the
    copy function. *)
Theorem memory_write_read_roundtrip cfg w inst p ev addr size data copy :
  native_sim cfg = false -> region_ok (sram cfg) -> region_ok (flash cfg) ->
  region_mapped (mem (ext w)) (sram cfg) -> is_u32 addr -> 0 < size < 65536 ->
  addr <> 0 -> inside (sram cfg) addr size -> Z.of_nat (length data) = size ->
  exists w', write_event cfg (Context inst p ev (UDSWriteMemByAddrArgs addr size data)) w = Ret UDS_OK w' /\
    read_event cfg (Context inst p ev (UDSReadMemByAddrArgs addr size copy)) w' =
    match call_copy copy (Some data) size w' with
    | Ret r w2 => Ret (if decide (r = UDS_OK) then UDS_OK else UDS_NRC_RequestOutOfRange) w2
    | Fault f => Fault f
    end.
Proof.
  intros Hn Hr Hf Hm Ha Hs Hne Hin Hlen.
  assert (is_u32 size) as Hs32 by (unfold in_width; lia).
  destruct (write_event_accepted cfg w inst p ev addr size data) as (m' & Hst & Hw); try (done || lia).
  eexists. split; [exact Hw|]. apply read_event_accepted; [done|lia| |].
  - apply is_memory_address_valid_iff; auto.
  - cbn. rewrite mem_set_mem, (wrap_small 16) by (unfold in_width; lia).
    rewrite <- Hlen, Nat2Z.id. apply (load_store (mem (ext w))); [done|].
    rewrite Hlen. by eapply inside_mapped.
Qed.
End memory_props.
