(* ===== verification/UdsLinkControl.v ===== *)
(** * Link control ([lib/uds/link_control.c], [lib/uds/util.c])

    The LinkControl service verifies a bit rate first and switches the CAN
    controller to it in a second request; a return to the default session
    restores the default bit rate. *)

From stdpp Require Import base gmap list numbers relations.
From Stdlib Require Import ZArith Lia.
From S2P Require Import Prelude.
From S2P Require Import UdsTypes.
From S2P Require Import UdsServices.

#[local] Open Scope Z_scope.

(** ** Definitions *)

(** The CAN controller API of Zephyr; every function yields 0 or a negative
    errno. *)
Class CanController (E : Type) := {
  can_stop : M E Z;
  can_set_bitrate : Z -> M E Z;
  can_start : M E Z;
}.

(** The two static variables of link_control.c. *)
Record link_control_state := LinkControlState {
  uds_default_link_control_handler_modifier : Z;
  uds_default_link_control_handler_modifier_set : bool;
}.

Definition link_control_init : link_control_state := LinkControlState 0 false.

(** They are a part of the environment. *)
Class LinkControlVars (E : Type) := {
  link_vars : E -> link_control_state;
  set_link_vars : link_control_state -> E -> E;
}.

(** [switch (modifier)]: the parameter is any integer a byte can hold. *)
Definition uds_link_control_modifier_to_baudrate (modifier : Z) : Z :=
  if modifier =? UDS_LINK_CONTROL_MODIFIER__PC_9600_BAUD then 9600
  else if modifier =? UDS_LINK_CONTROL_MODIFIER__PC_1920_BAUD then 19200
  else if modifier =? UDS_LINK_CONTROL_MODIFIER__PC_38400_BAUD then 38400
  else if modifier =? UDS_LINK_CONTROL_MODIFIER__PC_57600_BAUD then 57600
  else if modifier =? UDS_LINK_CONTROL_MODIFIER__PC_115200_BAUD then 115200
  else if modifier =? UDS_LINK_CONTROL_MODIFIER__CAN_125000_BAUD then 125000
  else if modifier =? UDS_LINK_CONTROL_MODIFIER__CAN_250000_BAUD then 250000
  else if modifier =? UDS_LINK_CONTROL_MODIFIER__CAN_500000_BAUD then 500000
  else if modifier =? UDS_LINK_CONTROL_MODIFIER__CAN_1000000_BAUD then 1000000
  else 0.

Section bitrate.
Context {E : Type} `{!CanController E}.

Definition uds_set_can_bitrate (baud_rate : Z) : M E UDSErr_t :=
  let* r := can_stop in
  if decide (r <> 0) then ret UDS_NRC_ConditionsNotCorrect
  else
    let* r := can_set_bitrate baud_rate in
    if decide (r <> 0) then (can_start ;; ret UDS_NRC_ConditionsNotCorrect)
    else
      let* r := can_start in
      if decide (r <> 0) then ret UDS_NRC_ConditionsNotCorrect
      else ret UDS_OK.

(** [default_bitrate] is CONFIG_UDS_DEFAULT_CAN_BITRATE. *)
Definition uds_set_can_default_bitrate (default_bitrate : Z) : M E UDSErr_t :=
  uds_set_can_bitrate default_bitrate.
End bitrate.

Section link_control.
Context {E : Type} `{!Server E} `{!CanController E} `{!LinkControlVars E}.

(** [*(uint8_t * )args->data] *)
Definition data_byte (data : list Z) : M (world E) Z := of_option OutOfBounds (head data).

Definition uds_check_default_link_control (context : uds_context) (apply_action : bool) :
    M (world E) (UDSErr_t * bool) :=
  match ctx_arg context with
  | UDSLinkCtrlArgs ty data =>
      if ty =? UDS_LINK_CONTROL__VERIFY_MODE_TRANSITION_WITH_FIXED_PARAMETER then
        let* modifier := data_byte data in
        if negb (modifier =? UDS_LINK_CONTROL_MODIFIER__CAN_125000_BAUD) &&
           negb (modifier =? UDS_LINK_CONTROL_MODIFIER__CAN_250000_BAUD) &&
           negb (modifier =? UDS_LINK_CONTROL_MODIFIER__CAN_500000_BAUD)
        then ret (UDS_NRC_RequestOutOfRange, false)
        else ret (UDS_OK, true)
      else if ty =? UDS_LINK_CONTROL__TRANSITION_MODE then
        let* v := gets (fun w => link_vars (ext w)) in
        if negb (uds_default_link_control_handler_modifier_set v)
        then ret (UDS_NRC_RequestSequenceError, false)
        else ret (UDS_OK, true)
      else ret (UDS_NRC_SubFunctionNotSupported, apply_action)
  | _ => fail BadArgument
  end.

Definition uds_action_default_link_control (context : uds_context) (consume_event : bool) :
    M (world E) (UDSErr_t * bool * uds_arg) :=
  let arg := ctx_arg context in
  match arg with
  | UDSLinkCtrlArgs ty data =>
      let* modifier := data_byte data in
      let* session := gets (fun w => sessionType (ext w)) in
      if ty =? UDS_LINK_CONTROL__VERIFY_MODE_TRANSITION_WITH_FIXED_PARAMETER then
        if session =? UDS_DIAG_SESSION__DEFAULT
        then ret (UDS_NRC_SubFunctionNotSupportedInActiveSession, false, arg)
        else
          modify (fun w => set_ext (set_link_vars (LinkControlState modifier true) (ext w)) w) ;;
          ret (UDS_OK, true, arg)
      else if ty =? UDS_LINK_CONTROL__TRANSITION_MODE then
        if session =? UDS_DIAG_SESSION__DEFAULT
        then ret (UDS_NRC_SubFunctionNotSupportedInActiveSession, consume_event, arg)
        else
          let* r := on_ext (uds_set_can_bitrate (uds_link_control_modifier_to_baudrate modifier)) in
          ret (r, consume_event, arg)
      else ret (UDS_NRC_SubFunctionNotSupported, consume_event, arg)
  | _ => fail BadArgument
  end.

Definition uds_check_default_link_control_change_diag_session (context : uds_context)
    (apply_action : bool) : M (world E) (UDSErr_t * bool) :=
  if decide (ctx_event context = UDS_EVT_DiagSessCtrl) then
    match ctx_arg context with
    | UDSDiagSessCtrlArgs ty =>
        ret (UDS_OK, if ty =? UDS_DIAG_SESSION__DEFAULT then true else apply_action)
    | _ => fail BadArgument
    end
  else if decide (ctx_event context = UDS_EVT_SessionTimeout) then ret (UDS_OK, true)
  else ret (UDS_OK, apply_action).

Definition uds_action_default_link_control_change_diag_session (default_bitrate : Z)
    (context : uds_context) (consume_event : bool) : M (world E) (UDSErr_t * bool * uds_arg) :=
  let* r := on_ext (uds_set_can_default_bitrate default_bitrate) in
  ret (r, false, ctx_arg context).
End link_control.

(** ** A controller for the theorems

    The documented behaviour of the CAN API: [can_stop] and [can_start] fail
    with [-EALREADY] when there is nothing to do and may fail otherwise; the
    bit rate changes only while the controller is stopped and only to a rate
    the hardware supports. *)

Record can_state := CanState { started : bool; bitrate : Z }.

Section controller.
Context {E : Type} `{!CanController E}.
(** The controller state in an environment, and which of the three functions
    report a hardware failure there. *)
Context (can : E -> can_state) (stop_fails start_fails : E -> bool) (supported : Z -> bool).

Class CanControllerLaws : Prop := {
  can_stop_law : forall e, exists r e', can_stop e = Ret r e' /\
    if started (can e) && negb (stop_fails e)
    then r = 0 /\ can e' = CanState false (bitrate (can e))
    else r < 0 /\ can e' = can e;
  can_set_bitrate_law : forall e b, exists r e', can_set_bitrate b e = Ret r e' /\
    if negb (started (can e)) && supported b
    then r = 0 /\ can e' = CanState false b
    else r < 0 /\ can e' = can e;
  can_start_law : forall e, exists r e', can_start e = Ret r e' /\
    if negb (started (can e)) && negb (start_fails e)
    then r = 0 /\ can e' = CanState true (bitrate (can e))
    else r < 0 /\ can e' = can e;
}.
End controller.
Arguments can_stop_law {E _ can stop_fails start_fails supported _} e.
Arguments can_set_bitrate_law {E _ can stop_fails start_fails supported _} e b.
Arguments can_start_law {E _ can stop_fails start_fails supported _} e.

(** ** Properties *)

Section link_control_props.
Context {E : Type} `{!Server E} `{!CanController E} `{!LinkControlVars E}.
Context (can : E -> can_state) (stop_fails start_fails : E -> bool) (supported : Z -> bool).
Context `{!CanControllerLaws can stop_fails start_fails supported}.

(** The outcome of a bit rate change from a state of the controller. *)
Definition bitrate_outcome (b : Z) (c : can_state) (r : UDSErr_t) (c' : can_state) : Prop :=
  (r = UDS_OK /\ started c = true /\ supported b = true /\ c' = CanState true b) \/
  (r = UDS_NRC_ConditionsNotCorrect /\
   (c' = c \/ (started c = true /\ c' = CanState false (if supported b then b else bitrate c)))).

Lemma uds_set_can_bitrate_outcome b e :
  exists r e', uds_set_can_bitrate b e = Ret r e' /\ bitrate_outcome b (can e) r (can e').
Proof.
  unfold uds_set_can_bitrate, bind, ret, bitrate_outcome.
  destruct (can_stop_law e) as (r1 & e1 & -> & H1).
  destruct (started (can e) && negb (stop_fails e)) eqn:Hs; destruct H1 as [Hr1 Hc1].
  2: { rewrite decide_True by lia. exists UDS_NRC_ConditionsNotCorrect, e1. split; [done|]. by rewrite Hc1; auto. }
  apply andb_true_iff in Hs as [Hs _]. rewrite decide_False by lia.
  destruct (can_set_bitrate_law e1 b) as (r2 & e2 & -> & H2). rewrite Hc1 in H2. cbn in H2.
  destruct (supported b) eqn:Hb; destruct H2 as [Hr2 Hc2].
  - rewrite decide_False by lia. destruct (can_start_law e2) as (r3 & e3 & -> & H3).
    rewrite Hc2 in H3. cbn in H3. destruct (start_fails e2); cbn in H3; destruct H3 as [Hr3 Hc3].
    + rewrite decide_True by lia. do 2 eexists. split; [done|]. right. rewrite Hc3. auto.
    + rewrite decide_False by lia. do 2 eexists. split; [done|]. left. rewrite Hc3. auto.
  - rewrite decide_True by lia. destruct (can_start_law e2) as (r3 & e3 & -> & H3).
    rewrite Hc2 in H3. cbn in H3. do 2 eexists. split; [done|]. right. split; [done|].
    destruct (start_fails e2); cbn in H3; destruct H3 as [_ ->]; [right; auto|left].
    destruct (can e) as [st br]. cbn in *. congruence.
Qed.

(** Changing the bit rate ends in one of two ways: success, and then the
    controller runs at the new rate, or ConditionsNotCorrect, and then it is
    as it was before or it is stopped; it never runs at a rate that was
    reported as refused, and a refused rate leaves the old one selected. *)
Theorem uds_set_can_bitrate_spec b e :
  exists r e', uds_set_can_bitrate b e = Ret r e' /\
    ((r = UDS_OK /\ started (can e) = true /\ supported b = true /\ can e' = CanState true b) \/
     (r = UDS_NRC_ConditionsNotCorrect /\
      (can e' = can e \/
       (started (can e) = true /\
        can e' = CanState false (if supported b then b else bitrate (can e)))))).
Proof. apply uds_set_can_bitrate_outcome. Qed.

(** The variables are separate from the controller and the server. *)
Class LinkControlVarsLaws : Prop := {
  link_vars_set : forall v e, link_vars (set_link_vars v e) = v;
  can_set_link_vars : forall v e, can (set_link_vars v e) = can e;
  session_set_link_vars : forall v e, sessionType (set_link_vars v e) = sessionType e;
}.
Context `{!LinkControlVarsLaws}.
Implicit Types (w : world E).

Definition link_ctrl_context inst p ty data := Context inst p UDS_EVT_LinkControl (UDSLinkCtrlArgs ty data).

(** One LinkControl request to a static registration of the default handler:
    check, and action when the check asks for it. *)
Definition link_control_request (c : uds_context) : M (world E) UDSErr_t :=
  let* (r, apply) := uds_check_default_link_control c false in
  if decide (r <> UDS_OK) then ret r
  else if apply then let* (r, _, _) := uds_action_default_link_control c true in ret r
  else ret UDS_OK.

(** The modifiers the verification accepts. *)
Definition verifiable (m : Z) : Prop :=
  m = UDS_LINK_CONTROL_MODIFIER__CAN_125000_BAUD \/
  m = UDS_LINK_CONTROL_MODIFIER__CAN_250000_BAUD \/
  m = UDS_LINK_CONTROL_MODIFIER__CAN_500000_BAUD.

#[local] Instance verifiable_dec m : Decision (verifiable m).
Proof. unfold verifiable. apply _. Defined.

Lemma verify_step w inst p m rest :
  link_control_request (link_ctrl_context inst p UDS_LINK_CONTROL__VERIFY_MODE_TRANSITION_WITH_FIXED_PARAMETER (m :: rest)) w =
  if decide (verifiable m) then
    if sessionType (ext w) =? UDS_DIAG_SESSION__DEFAULT
    then Ret UDS_NRC_SubFunctionNotSupportedInActiveSession w
    else Ret UDS_OK (set_ext (set_link_vars (LinkControlState m true) (ext w)) w)
  else Ret UDS_NRC_RequestOutOfRange w.
Proof.
  unfold link_control_request, link_ctrl_context, uds_check_default_link_control,
    uds_action_default_link_control, data_byte. m_run.
  destruct (decide (verifiable m)) as [Hv|Hv].
  - assert (negb (m =? 16) && negb (m =? 17) && negb (m =? 18) = false) as ->.
    { destruct Hv as [-> | [-> | -> ] ]; reflexivity. }
    m_run. by destruct (sessionType (ext w) =? 1).
  - assert (negb (m =? 16) && negb (m =? 17) && negb (m =? 18) = true) as ->.
    { unfold verifiable in Hv. cbn in Hv.
      destruct (Z.eqb_spec m 16), (Z.eqb_spec m 17), (Z.eqb_spec m 18); naive_solver. }
    m_run. done.
Qed.

Lemma transition_step w inst p d rest :
  link_control_request (link_ctrl_context inst p UDS_LINK_CONTROL__TRANSITION_MODE (d :: rest)) w =
  if negb (uds_default_link_control_handler_modifier_set (link_vars (ext w)))
  then Ret UDS_NRC_RequestSequenceError w
  else if sessionType (ext w) =? UDS_DIAG_SESSION__DEFAULT
  then Ret UDS_NRC_SubFunctionNotSupportedInActiveSession w
  else on_ext (uds_set_can_bitrate (uds_link_control_modifier_to_baudrate d)) w.
Proof.
  unfold link_control_request, link_ctrl_context, uds_check_default_link_control,
    uds_action_default_link_control, data_byte. m_run.
  destruct (uds_default_link_control_handler_modifier_set _); m_run; [|done].
  destruct (sessionType (ext w) =? 1); m_run; [done|].
  by destruct (on_ext _ w) as [?|?].
Qed.

(** The LinkControl protocol as the default handler implements it. A
    transition that no verification preceded is a sequence error; a
    verification accepts exactly the three CAN rates and only records them,
    outside the default session; every other sub-function is refused. *)
Theorem link_control_protocol w inst p ty m rest :
  let req := link_control_request (link_ctrl_context inst p ty (m :: rest)) w in
  (ty = UDS_LINK_CONTROL__VERIFY_MODE_TRANSITION_WITH_FIXED_PARAMETER ->
    req = if decide (verifiable m) then
            if sessionType (ext w) =? UDS_DIAG_SESSION__DEFAULT
            then Ret UDS_NRC_SubFunctionNotSupportedInActiveSession w
            else Ret UDS_OK (set_ext (set_link_vars (LinkControlState m true) (ext w)) w)
          else Ret UDS_NRC_RequestOutOfRange w) /\
  (ty = UDS_LINK_CONTROL__TRANSITION_MODE ->
    uds_default_link_control_handler_modifier_set (link_vars (ext w)) = false ->
    req = Ret UDS_NRC_RequestSequenceError w) /\
  (ty <> UDS_LINK_CONTROL__VERIFY_MODE_TRANSITION_WITH_FIXED_PARAMETER ->
    ty <> UDS_LINK_CONTROL__TRANSITION_MODE -> req = Ret UDS_NRC_SubFunctionNotSupported w).
Proof.
  cbn zeta. split_and!.
  - intros ->. apply verify_step.
  - intros -> Hset. rewrite transition_step, Hset. done.
  - intros H1 H3. unfold link_control_request, link_ctrl_context, uds_check_default_link_control. cbn [ctx_arg].
    rewrite (proj2 (Z.eqb_neq _ _) H1), (proj2 (Z.eqb_neq _ _) H3). m_run. done.
Qed.

(** The transition does not use the verified modifier: after any accepted
    verification the controller is switched to whatever rate the first data
    byte of the transition request names, also to one the verification
    refuses. *)
Theorem transition_ignores_verified_modifier w inst p m d rest rest' :
  verifiable m ->
  sessionType (ext w) <> UDS_DIAG_SESSION__DEFAULT ->
  started (can (ext w)) = true ->
  supported (uds_link_control_modifier_to_baudrate d) = true ->
  (forall e, stop_fails e = false) -> (forall e, start_fails e = false) ->
  exists w1 w2,
    link_control_request (link_ctrl_context inst p UDS_LINK_CONTROL__VERIFY_MODE_TRANSITION_WITH_FIXED_PARAMETER (m :: rest)) w = Ret UDS_OK w1 /\
    link_control_request (link_ctrl_context inst p UDS_LINK_CONTROL__TRANSITION_MODE (d :: rest')) w1 = Ret UDS_OK w2 /\
    can (ext w2) = CanState true (uds_link_control_modifier_to_baudrate d).
Proof.
  intros Hv Hs Hst Hsup Hnf1 Hnf2.
  exists (set_ext (set_link_vars (LinkControlState m true) (ext w)) w).
  assert ((sessionType (ext w) =? 1) = false) as Hs1 by (by apply Z.eqb_neq).
  rewrite verify_step, decide_True, transition_step by done. cbn.
  rewrite link_vars_set, session_set_link_vars, Hs1. unfold on_ext, zoom. cbn.
  set (e := set_link_vars _ _). assert (can e = can (ext w)) as Hcan by apply can_set_link_vars.
  unfold uds_set_can_bitrate, bind, ret. rewrite <- Hcan in Hst.
  destruct (can_stop_law e) as (r1 & e1 & -> & H1). rewrite Hst, Hnf1 in H1. destruct H1 as [-> Hc1].
  rewrite decide_False by lia.
  destruct (can_set_bitrate_law e1 (uds_link_control_modifier_to_baudrate d)) as (r2 & e2 & -> & H2).
  rewrite Hc1, Hsup in H2. destruct H2 as [-> Hc2]. rewrite decide_False by lia.
  destruct (can_start_law e2) as (r3 & e3 & -> & H3). rewrite Hc2, Hnf2 in H3. destruct H3 as [-> Hc3].
  rewrite decide_False by lia. eexists. split; [done|]. split; [done|]. done.
Qed.
End link_control_props.
