(* ===== verification/UdsFileTransfer.v ===== *)
(** * File transfer ([lib/uds/upload_download_file_transfer.c])

    RequestFileTransfer opens, deletes or reads a file through Zephyr's file
    system; TransferData then moves blocks and RequestTransferExit ends the
    transfer.  The static [file_transfer_state] is a part of the environment;
    the file system is a parameter. *)

From stdpp Require Import base gmap list numbers relations.
From Stdlib Require Import ZArith Lia.
From S2P Require Import Prelude.
From S2P Require Import UdsTypes.
From S2P Require Import UdsServices.

#[local] Open Scope Z_scope.

(** ** Definitions *)

(** Constants of the iso14229 library. *)
Class Iso14229Constants := {
  UDS_TP_MTU : Z;
  UDS_MOOP_ADDFILE : Z;
  UDS_MOOP_DELFILE : Z;
  UDS_MOOP_REPLFILE : Z;
  UDS_MOOP_RDFILE : Z;
  UDS_0X36_RESP_BASE_LEN : Z;
}.

(** The file system of Zephyr.  A handle names an open file, its position is
    the file system's business.  All functions yield a negative errno or, for
    read and write, the number of bytes moved. *)
Class FileSystem (E : Type) := {
  fs_open : list Z -> Z -> M E (Z * positive);
  fs_close : positive -> M E Z;
  fs_stat : list Z -> M E (Z * bool * Z);
  fs_unlink : list Z -> M E Z;
  fs_write : positive -> list Z -> M E Z;
  fs_read : positive -> Z -> M E (Z * list Z);
}.

(** zephyr/fs/fs.h *)
Definition FS_O_READ : Z := 0x01.
Definition FS_O_RDWR : Z := 0x03.
Definition FS_O_CREATE : Z := 0x10.
Definition FS_O_TRUNC : Z := 0x40.

Inductive FileTransferMode :=
| UDS_FILE_TRANSFER__IDLE
| UDS_FILE_TRANSFER__WRITE
| UDS_FILE_TRANSFER__READ.

#[export] Instance FileTransferMode_eq_dec : EqDecision FileTransferMode.
Proof. solve_decision. Defined.

(** [file] is [None] after [fs_file_t_init]. *)
Record file_transfer_state := FileTransferState {
  mode : FileTransferMode;
  file : option positive;
  file_open : bool;
  expected_size : Z;
  transferred : Z;
  block_length : Z;
}.

Definition file_transfer_state_init : file_transfer_state :=
  FileTransferState UDS_FILE_TRANSFER__IDLE None false 0 0 0.

Class FileTransferVars (E : Type) := {
  ft : E -> file_transfer_state;
  set_ft : file_transfer_state -> E -> E;
  ft_set : forall s e, ft (set_ft s e) = s;
}.

Definition UDS_FILE_TRANSFER_MAX_PATH : Z := 256.

Definition uds_file_transfer_block_length `{!Iso14229Constants} (requested : Z) : Z :=
  let limit := UDS_TP_MTU in
  if (0 <? requested) && (requested <? limit) then requested else limit.

Definition fs_error_to_nrc (err : Z) : UDSErr_t :=
  if - err =? ENOENT then UDS_NRC_RequestOutOfRange
  else if (- err =? EPERM) || (- err =? EACCES) then UDS_NRC_SecurityAccessDenied
  else UDS_NRC_UploadDownloadNotAccepted.

Section file_transfer.
Context {E : Type} `{!Iso14229Constants} `{!Server E} `{!FileSystem E} `{!FileTransferVars E}.

Definition get_ft : M E file_transfer_state := gets ft.
Definition put_ft (s : file_transfer_state) : M E unit := modify (set_ft s).

(** Using the handle of a file object that was never opened. *)
Definition the_file (s : file_transfer_state) : M E positive := of_option NullPointer (file s).

Definition uds_file_transfer_reset : M E unit :=
  let* s := get_ft in
  (if file_open s then let* h := the_file s in fs_close h ;; ret tt else ret tt) ;;
  put_ft (FileTransferState UDS_FILE_TRANSFER__IDLE (file s) false 0 0 0).

(** Yields the return value and the new [args->maxNumberOfBlockLength]. *)
Definition uds_file_transfer_begin_write (path : list Z) (expected maxNumberOfBlockLength : Z) :
    M E (UDSErr_t * Z) :=
  let* (rc, h) := fs_open path (Z.lor (Z.lor FS_O_CREATE FS_O_TRUNC) FS_O_RDWR) in
  if rc <? 0 then
    let* s := get_ft in
    put_ft (FileTransferState (mode s) None (file_open s) (expected_size s) (transferred s) (block_length s)) ;;
    ret (fs_error_to_nrc rc, maxNumberOfBlockLength)
  else
    let len := uds_file_transfer_block_length maxNumberOfBlockLength in
    put_ft (FileTransferState UDS_FILE_TRANSFER__WRITE (Some h) true expected 0 len) ;;
    ret (UDS_OK, len).

Definition uds_file_transfer_begin_read (path : list Z) (maxNumberOfBlockLength : Z) :
    M E (UDSErr_t * Z) :=
  let* (rc, h) := fs_open path FS_O_READ in
  let* s := get_ft in
  if rc <? 0 then
    put_ft (FileTransferState (mode s) None (file_open s) (expected_size s) (transferred s) (block_length s)) ;;
    ret (fs_error_to_nrc rc, maxNumberOfBlockLength)
  else
    put_ft (FileTransferState (mode s) (Some h) (file_open s) (expected_size s) (transferred s) (block_length s)) ;;
    let* (rc, is_file, size) := fs_stat path in
    if rc <? 0 then (uds_file_transfer_reset ;; ret (fs_error_to_nrc rc, maxNumberOfBlockLength))
    else if negb is_file then (uds_file_transfer_reset ;; ret (UDS_NRC_RequestOutOfRange, maxNumberOfBlockLength))
    else
      let len := uds_file_transfer_block_length maxNumberOfBlockLength in
      put_ft (FileTransferState UDS_FILE_TRANSFER__READ (Some h) true size 0 len) ;;
      ret (UDS_OK, len).

Definition uds_file_transfer_delete (path : list Z) : M E UDSErr_t :=
  let* rc := fs_unlink path in
  if rc <? 0 then ret (fs_error_to_nrc rc) else ret UDS_OK.

(** [filePathLen] is the length of [filePath]; [path] is passed on without
    its terminating zero. *)
Definition uds_file_transfer_request (arg : uds_arg) : M E (UDSErr_t * uds_arg) :=
  match arg with
  | UDSRequestFileTransferArgs moop filePath size maxlen =>
      match filePath with
      | None => ret (UDS_NRC_RequestOutOfRange, arg)
      | Some path =>
          if Z.of_nat (length path) =? 0 then ret (UDS_NRC_RequestOutOfRange, arg)
          else if UDS_FILE_TRANSFER_MAX_PATH <=? Z.of_nat (length path) then ret (UDS_NRC_RequestOutOfRange, arg)
          else if (moop =? UDS_MOOP_ADDFILE) || (moop =? UDS_MOOP_REPLFILE) then
            let* (r, len) := uds_file_transfer_begin_write path size maxlen in
            ret (r, UDSRequestFileTransferArgs moop filePath size len)
          else if moop =? UDS_MOOP_DELFILE then
            let* r := uds_file_transfer_delete path in
            ret (r, UDSRequestFileTransferArgs moop filePath size 0)
          else if moop =? UDS_MOOP_RDFILE then
            let* (r, len) := uds_file_transfer_begin_read path maxlen in
            ret (r, UDSRequestFileTransferArgs moop filePath size len)
          else ret (UDS_NRC_RequestOutOfRange, arg)
      end
  | _ => fail BadArgument
  end.

Definition uds_file_transfer_write (data : list Z) : M E UDSErr_t :=
  let len := Z.of_nat (length data) in
  let* s := get_ft in
  if len =? 0 then ret UDS_NRC_RequestOutOfRange
  else if (0 <? expected_size s) && (expected_size s <? u32 (transferred s + len))
  then ret UDS_NRC_RequestOutOfRange
  else
    let* h := the_file s in
    let* rc := fs_write h data in
    if rc <? 0 then ret (fs_error_to_nrc rc)
    else if negb (rc =? len) then ret UDS_NRC_UploadDownloadNotAccepted
    else
      let* s := get_ft in
      put_ft (FileTransferState (mode s) (file s) (file_open s) (expected_size s)
                (u32 (transferred s + len)) (block_length s)) ;;
      ret UDS_OK.

(** The bytes are read over the request's own data buffer, which the caller
    gets back in the argument. *)
Definition uds_file_transfer_read (data : list Z) (maxRespLen : Z) (copyResponse : option copy_fn) :
    M (world E) (UDSErr_t * list Z) :=
  match copyResponse with
  | None => ret (UDS_ERR_MISUSE, data)
  | Some copy =>
      let* s := on_ext get_ft in
      let remaining := if transferred s <=? expected_size s then expected_size s - transferred s else 0 in
      if remaining =? 0 then ret (UDS_NRC_RequestSequenceError, data)
      else
        let max_len := Z.min maxRespLen remaining in
        let* h := on_ext (the_file s) in
        let* (rc, bytes) := on_ext (fs_read h max_len) in
        let data' := bytes ++ drop (length bytes) data in
        if rc <? 0 then ret (fs_error_to_nrc rc, data')
        else if rc =? 0 then ret (UDS_NRC_RequestSequenceError, data')
        else
          let* copy_status := call_copy copy (Some data') rc in
          if decide (copy_status <> UDS_PositiveResponse) then ret (copy_status, data')
          else
            let* s := on_ext get_ft in
            on_ext (put_ft (FileTransferState (mode s) (file s) (file_open s) (expected_size s)
                              (u32 (transferred s + rc)) (block_length s))) ;;
            ret (UDS_OK, data')
  end.

Definition uds_file_transfer_continue (arg : uds_arg) : M (world E) (UDSErr_t * uds_arg) :=
  match arg with
  | UDSTransferDataArgs data maxRespLen copyResponse =>
      let* s := on_ext get_ft in
      match mode s with
      | UDS_FILE_TRANSFER__WRITE =>
          let* r := on_ext (uds_file_transfer_write data) in ret (r, arg)
      | UDS_FILE_TRANSFER__READ =>
          let* (r, data') := uds_file_transfer_read data maxRespLen copyResponse in
          ret (r, UDSTransferDataArgs data' maxRespLen copyResponse)
      | UDS_FILE_TRANSFER__IDLE => ret (UDS_NRC_RequestSequenceError, arg)
      end
  | _ => fail BadArgument
  end.

Definition uds_file_transfer_exit : M E UDSErr_t :=
  let* s := get_ft in
  if decide (mode s = UDS_FILE_TRANSFER__IDLE) then ret UDS_NRC_RequestSequenceError
  else
    let complete := negb (bool_decide (mode s = UDS_FILE_TRANSFER__WRITE) && (0 <? expected_size s) &&
                          negb (transferred s =? expected_size s)) in
    uds_file_transfer_reset ;;
    ret (if complete then UDS_OK else UDS_NRC_GeneralProgrammingFailure).

Definition uds_file_transfer_is_active : M E bool :=
  let* s := get_ft in ret (negb (bool_decide (mode s = UDS_FILE_TRANSFER__IDLE))).
End file_transfer.

(** ** The file system the theorems assume

    [open_files] are the open handles with the contents of their file and the
    position in it.  A transfer moves at most the bytes asked for; truncating
    opens an empty file; every other function leaves the open files alone. *)

Section laws.
Context {E : Type} `{!FileSystem E} `{!FileTransferVars E}.
Context (open_files : E -> gmap positive (list Z * nat)).

Class FileSystemLaws : Prop := {
  fs_open_law : forall p fl e, exists rc h e', fs_open p fl e = Ret (rc, h) e' /\ ft e' = ft e /\
    if rc <? 0 then open_files e' = open_files e
    else open_files e !! h = None /\
         exists c, open_files e' = <[h := (c, 0%nat)]> (open_files e) /\
                   (Z.land fl FS_O_TRUNC = FS_O_TRUNC -> c = []);
  fs_close_law : forall h e, exists rc e', fs_close h e = Ret rc e' /\ ft e' = ft e /\
    open_files e' = if rc <? 0 then open_files e else delete h (open_files e);
  fs_stat_law : forall p e, exists rc b sz e', fs_stat p e = Ret (rc, b, sz) e' /\ ft e' = ft e /\
    open_files e' = open_files e;
  fs_unlink_law : forall p e, exists rc e', fs_unlink p e = Ret rc e' /\ ft e' = ft e /\
    open_files e' = open_files e;
  fs_write_law : forall h d e c pos, open_files e !! h = Some (c, pos) ->
    exists rc e', fs_write h d e = Ret rc e' /\ ft e' = ft e /\ rc <= Z.of_nat (length d) /\
    open_files e' =
      if rc <? 0 then open_files e
      else let n := Z.to_nat rc in
           <[h := (take pos c ++ take n d ++ drop (pos + n) c, (pos + n)%nat)]> (open_files e);
  fs_read_law : forall h n e c pos, open_files e !! h = Some (c, pos) -> 0 <= n ->
    exists rc bs e', fs_read h n e = Ret (rc, bs) e' /\ ft e' = ft e /\ rc <= n /\
    Z.of_nat (length bs) = Z.max rc 0 /\
    open_files e' =
      if rc <? 0 then open_files e else <[h := (c, (pos + Z.to_nat rc)%nat)]> (open_files e);
  fs_read_bytes : forall h n e c pos rc bs e', open_files e !! h = Some (c, pos) ->
    fs_read h n e = Ret (rc, bs) e' -> 0 <= rc -> bs = take (Z.to_nat rc) (drop pos c);
  set_ft_law : forall s e, open_files (set_ft s e) = open_files e;
}.
End laws.
Arguments fs_open_law {E _ _ open_files _} p fl e.
Arguments fs_close_law {E _ _ open_files _} h e.
Arguments fs_stat_law {E _ _ open_files _} p e.
Arguments fs_unlink_law {E _ _ open_files _} p e.
Arguments fs_write_law {E _ _ open_files _} h d e c pos.
Arguments fs_read_law {E _ _ open_files _} h n e c pos.
Arguments fs_read_bytes {E _ _ open_files _} h n e c pos rc bs e'.
Arguments set_ft_law {E _ _ open_files _} s e.

(** ** Properties *)

Section file_transfer_props.
Context {E : Type} `{!Iso14229Constants} `{!Server E} `{!FileSystem E} `{!FileTransferVars E}.
Context (open_files : E -> gmap positive (list Z * nat)) `{!FileSystemLaws open_files}.
Implicit Types (e : E).

(** A write transfer in progress: [data] is what the file holds. *)
Definition writing e (h : positive) (expected : Z) (data : list Z) : Prop :=
  mode (ft e) = UDS_FILE_TRANSFER__WRITE /\ file (ft e) = Some h /\ file_open (ft e) = true /\
  expected_size (ft e) = expected /\ transferred (ft e) = u32 (Z.of_nat (length data)) /\
  open_files e !! h = Some (data, length data).

Lemma fs_error_not_ok z : fs_error_to_nrc z <> UDS_OK.
Proof. unfold fs_error_to_nrc. by repeat case_match. Qed.

Lemma begin_write_step path expected maxlen e :
  exists r len e', uds_file_transfer_begin_write path expected maxlen e = Ret (r, len) e' /\
    (r = UDS_OK -> exists h, writing e' h expected [] /\ len = block_length (ft e')).
Proof.
  unfold uds_file_transfer_begin_write, bind.
  destruct (fs_open_law path (Z.lor (Z.lor FS_O_CREATE FS_O_TRUNC) FS_O_RDWR) e)
    as (rc & h & e1 & -> & Hft & Ho).
  destruct (rc <? 0).
  - do 3 eexists. split; [reflexivity|]. intros Hbad. by apply fs_error_not_ok in Hbad.
  - destruct Ho as (_ & c & Ho & Hc). specialize (Hc eq_refl). subst c.
    do 3 eexists. split; [reflexivity|]. intros _. exists h. unfold writing.
    rewrite set_ft_law, Ho, ft_set, lookup_insert_eq. done.
Qed.

Lemma write_step e h expected data block :
  writing e h expected data -> Z.of_nat (length data + length block) < 2 ^ 32 ->
  exists r e', uds_file_transfer_write block e = Ret r e' /\
    (r = UDS_OK -> writing e' h expected (data ++ block) /\ block <> [] /\
       (0 < expected -> Z.of_nat (length (data ++ block)) <= expected)).
Proof.
  intros (Hm & Hf & Hop & Hx & Ht & Ho) Hlen. unfold uds_file_transfer_write, get_ft, the_file. m_simpl.
  assert (u32 (transferred (ft e) + Z.of_nat (length block)) = Z.of_nat (length data + length block)) as Htr.
  { rewrite Ht, wrap_add_l. rewrite wrap_small; [lia|]. unfold in_width. lia. }
  rewrite Htr, Hf, Hx. destruct (Z.eqb_spec (Z.of_nat (length block)) 0) as [Hz|Hz]; [by do 2 eexists|].
  destruct ((0 <? expected) && (expected <? Z.of_nat (length data + length block))) eqn:Hb; [by do 2 eexists|].
  m_simpl. destruct (fs_write_law h block e data (length data) Ho) as (rc & e1 & -> & Hft & Hrc & Ho1).
  revert Ho1. destruct (Z.ltb_spec rc 0) as [Hneg|Hpos]; intros Ho1.
  { do 2 eexists. split; [reflexivity|]. intros Hbad. by apply fs_error_not_ok in Hbad. }
  destruct (Z.eqb_spec rc (Z.of_nat (length block))) as [->|Hne]; cbn; [|by do 2 eexists].
  do 2 eexists. split; [reflexivity|]. intros _. rewrite Hft, Htr.
  cbn zeta in Ho1. rewrite Nat2Z.id, !take_ge, drop_ge, app_nil_r in Ho1 by lia.
  split_and!; [| |rewrite length_app; rewrite andb_false_iff, !Z.ltb_ge in Hb; lia].
  - unfold writing. rewrite set_ft_law, ft_set, Ho1, lookup_insert_eq, length_app. cbn.
    split_and!; try done. by rewrite wrap_small by (unfold in_width; lia).
  - by intros ->.
Qed.

(** The TransferData requests of one write transfer. *)
Fixpoint write_blocks (blocks : list (list Z)) : M E (list UDSErr_t) :=
  match blocks with
  | [] => ret []
  | b :: blocks =>
      let* r := uds_file_transfer_write b in
      let* rs := write_blocks blocks in
      ret (r :: rs)
  end.

Lemma write_blocks_run blocks : forall e h expected data rs e',
  writing e h expected data -> Z.of_nat (length data + length (concat blocks)) < 2 ^ 32 ->
  (0 < expected -> Z.of_nat (length data) <= expected) ->
  write_blocks blocks e = Ret rs e' -> Forall (eq UDS_OK) rs ->
  writing e' h expected (data ++ concat blocks) /\
  (0 < expected -> Z.of_nat (length (data ++ concat blocks)) <= expected).
Proof.
  induction blocks as [|b blocks IH]; cbn; intros e h expected data rs e' Hw Hlen Hexp Hrun Hok.
  - unfold ret in Hrun. injection Hrun as <- <-. by rewrite app_nil_r.
  - rewrite length_app in Hlen. apply bind_Ret in Hrun as (r & e1 & Hr & Hrun).
    apply bind_Ret in Hrun as (rs' & e2 & Hrs & Hret). injection Hret as <- <-.
    apply Forall_cons in Hok as [<- Hok].
    destruct (write_step e h expected data b Hw) as (r & e1' & Hr' & Hspec); [lia|].
    rewrite Hr in Hr'. injection Hr' as <- <-. destruct (Hspec eq_refl) as (Hw1 & _ & Hle).
    rewrite (assoc_L app). eapply IH; try done. rewrite length_app. lia.
Qed.

Lemma reset_closes e h :
  file_open (ft e) = true -> file (ft e) = Some h ->
  exists rc e', fs_close h e = Ret rc e' /\
    uds_file_transfer_reset e =
    Ret tt (set_ft (FileTransferState UDS_FILE_TRANSFER__IDLE (Some h) false 0 0 0) e').
Proof.
  intros Hop Hf. unfold uds_file_transfer_reset, get_ft, the_file. m_simpl. rewrite Hop, Hf. m_simpl.
  destruct (fs_close_law h e) as (rc & e' & -> & _). by exists rc, e'.
Qed.

(** A write transfer as the client sees it: when the request and every
    TransferData block were accepted, the file holds the concatenation of the
    blocks, never more than the announced size, and the exit reports success
    exactly when the announced size (if any) was reached; afterwards the
    transfer is idle. *)
Theorem file_write_session e path expected maxlen len e1 blocks rs e2 :
  0 <= expected -> Z.of_nat (length (concat blocks)) < 2 ^ 32 ->
  uds_file_transfer_begin_write path expected maxlen e = Ret (UDS_OK, len) e1 ->
  write_blocks blocks e1 = Ret rs e2 -> Forall (eq UDS_OK) rs ->
  exists h e3,
    open_files e2 !! h = Some (concat blocks, length (concat blocks)) /\
    (0 < expected -> Z.of_nat (length (concat blocks)) <= expected) /\
    uds_file_transfer_exit e2 =
      Ret (if (expected =? 0) || (Z.of_nat (length (concat blocks)) =? expected)
           then UDS_OK else UDS_NRC_GeneralProgrammingFailure) e3 /\
    mode (ft e3) = UDS_FILE_TRANSFER__IDLE /\ file_open (ft e3) = false.
Proof.
  intros Hx Hlen Hb Hrun Hok.
  destruct (begin_write_step path expected maxlen e) as (r & l & e1' & Hb' & Hw).
  rewrite Hb in Hb'. injection Hb' as <- <- <-. destruct (Hw eq_refl) as (h & Hw1 & _).
  destruct (write_blocks_run blocks e1 h expected [] rs e2 Hw1) as (Hw2 & Hle); cbn; try done.
  destruct Hw2 as (Hm & Hf & Hop & Hex & Ht & Ho). cbn in *.
  destruct (reset_closes e2 h Hop Hf) as (rc & e3 & _ & Hreset).
  exists h, (set_ft (FileTransferState UDS_FILE_TRANSFER__IDLE (Some h) false 0 0 0) e3).
  rewrite !ft_set. split_and!; try done.
  unfold uds_file_transfer_exit, get_ft, bind, gets. rewrite Hm, decide_False by done.
  rewrite Hreset. unfold ret. rewrite Hex, Ht. rewrite wrap_small by (unfold in_width; lia). f_equal.
  destruct (Z.ltb_spec 0 expected), (Z.eqb_spec expected 0), (Z.eqb_spec (Z.of_nat (length (concat blocks))) expected);
    cbn; try done; lia.
Qed.

(** Opening for reading leaks the file: when [fs_stat] fails after
    [fs_open] succeeded, the request is refused, the transfer counts as idle
    with no file open, and yet the handle is still open. *)
Theorem begin_read_leaks_handle e path maxlen h e1 rc sz e2 b :
  fs_open path FS_O_READ e = Ret (0, h) e1 ->
  file_open (ft e) = false ->
  fs_stat path (set_ft (FileTransferState (mode (ft e1)) (Some h) false (expected_size (ft e1))
                          (transferred (ft e1)) (block_length (ft e1))) e1) = Ret (rc, b, sz) e2 ->
  rc < 0 ->
  exists e', uds_file_transfer_begin_read path maxlen e = Ret (fs_error_to_nrc rc, maxlen) e' /\
    mode (ft e') = UDS_FILE_TRANSFER__IDLE /\ file_open (ft e') = false /\
    is_Some (open_files e' !! h).
Proof.
  intros Hopen Hclosed Hstat Hrc.
  destruct (fs_open_law path FS_O_READ e) as (rc' & h' & e1' & Hopen' & Hft & Ho).
  rewrite Hopen in Hopen'. injection Hopen' as <- <- <-. destruct Ho as (_ & c & Ho & _).
  destruct (fs_stat_law path (set_ft (FileTransferState (mode (ft e1)) (Some h) false (expected_size (ft e1))
                          (transferred (ft e1)) (block_length (ft e1))) e1))
    as (rc' & b' & sz' & e2' & Hstat' & Hft2 & Ho2).
  rewrite Hstat in Hstat'. injection Hstat' as <- <- <- <-.
  unfold uds_file_transfer_begin_read, get_ft. m_simpl. rewrite Hopen. cbn.
  assert (file_open (ft e1) = false) as -> by congruence. rewrite Hstat.
  rewrite (proj2 (Z.ltb_lt rc 0) Hrc). unfold uds_file_transfer_reset, get_ft. m_simpl.
  rewrite Hft2, ft_set. cbn. eexists. split; [reflexivity|].
  rewrite !ft_set, set_ft_law, Ho2, set_ft_law, Ho, lookup_insert_eq. done.
Qed.
End file_transfer_props.
