(* ===== verification/UdsUploadDownload.v ===== *)
(** * Upload and download ([lib/uds/upload_download.c])

    RequestDownload and RequestUpload open a transfer to or from the flash,
    TransferData moves blocks, RequestTransferExit ends it; file transfers
    ([UdsFileTransfer]) share the TransferData and exit events.  The static
    [upload_download_state] is a part of the environment, the flash driver is a
    parameter. *)

From stdpp Require Import base gmap list numbers relations.
From Stdlib Require Import ZArith Lia.
From S2P Require Import Prelude.
From S2P Require Import UdsTypes.
From S2P Require Import UdsServices.
From S2P Require Import UdsFileTransfer.

#[local] Open Scope Z_scope.

(** ** Definitions *)

(** The flash controller of Zephyr: whether the device exists and is ready, its
    write block size, and reading and writing at an offset; both yield 0 or a
    negative errno. *)
Class FlashDriver (E : Type) := {
  flash_controller_present : E -> bool;
  flash_controller_ready : E -> bool;
  flash_get_write_block_size : E -> Z;
  flash_write : Z -> list Z -> M E Z;
  flash_read : Z -> Z -> M E (Z * list Z);
}.

(** Device tree and Kconfig values. *)
Record updown_config := UpDownConfig {
  FLASH_BASE_ADDRESS : Z;
  FLASH_MAX_SIZE : Z;
  CONFIG_UDS_UPLOAD_MAX_PAYLOAD_SIZE : Z;
  CONFIG_UDS_FILE_TRANSFER : bool;
}.

Definition MAXIMUM_FLASH_WRITE_BLOCK_SIZE : Z := 32.

Inductive UploadDownloadState :=
| UDS_UPDOWN__IDLE
| UDS_UPDOWN__DOWNLOAD_IN_PROGRESS
| UDS_UPDOWN__UPLOAD_IN_PROGRESS.

#[export] Instance UploadDownloadState_eq_dec : EqDecision UploadDownloadState.
Proof. solve_decision. Defined.

Record upload_download_state := UpDown {
  state : UploadDownloadState;
  start_address : Z;
  current_address : Z;
  total_size : Z;
  write_block_size : Z;
}.

Definition upload_download_state_init : upload_download_state := UpDown UDS_UPDOWN__IDLE 0 0 0 0.

Class UpDownVars (E : Type) := {
  ud : E -> upload_download_state;
  set_ud : upload_download_state -> E -> E;
  ud_set : forall s e, ud (set_ud s e) = s;
}.

Section upload_download.
Context {E : Type} `{!Iso14229Constants} `{!Server E} `{!FileSystem E} `{!FileTransferVars E}
  `{!FlashDriver E} `{!UpDownVars E} (cfg : updown_config).

Definition get_ud : M E upload_download_state := gets ud.
Definition put_ud (s : upload_download_state) : M E unit := modify (set_ud s).

(** [flash_controller == NULL || !device_is_ready (flash_controller)] *)
Definition flash_unavailable : M E bool :=
  gets (fun e => negb (flash_controller_present e) || negb (flash_controller_ready e)).

(** An address above the base of the flash becomes an offset. *)
Definition normalize_address (addr : Z) : Z :=
  if FLASH_BASE_ADDRESS cfg <? addr then addr - FLASH_BASE_ADDRESS cfg else addr.

Definition start_download (arg : uds_arg) : M E (UDSErr_t * uds_arg) :=
  let* unavailable := flash_unavailable in
  if unavailable then ret (UDS_NRC_UploadDownloadNotAccepted, arg)
  else match arg with
  | UDSRequestDownloadArgs addr size dataFormatIdentifier =>
      if size =? 0 then ret (UDS_NRC_RequestOutOfRange, arg)
      else
        let addr := normalize_address addr in
        let arg := UDSRequestDownloadArgs addr size dataFormatIdentifier in
        if FLASH_MAX_SIZE cfg <? u32 (addr + size) then ret (UDS_NRC_RequestOutOfRange, arg)
        else if negb (dataFormatIdentifier =? 0) then ret (UDS_NRC_RequestOutOfRange, arg)
        else
          let* s := get_ud in
          let* block := gets flash_get_write_block_size in
          put_ud (UpDown (state s) addr addr size block) ;;
          if MAXIMUM_FLASH_WRITE_BLOCK_SIZE <? block
          then ret (UDS_NRC_UploadDownloadNotAccepted, arg)
          else
            put_ud (UpDown UDS_UPDOWN__DOWNLOAD_IN_PROGRESS addr addr size block) ;;
            ret (UDS_OK, arg)
  | _ => fail BadArgument
  end.

Definition start_upload (arg : uds_arg) : M E (UDSErr_t * uds_arg) :=
  let* s := get_ud in
  if decide (state s <> UDS_UPDOWN__IDLE) then ret (UDS_NRC_RequestSequenceError, arg)
  else
    let* unavailable := flash_unavailable in
    if unavailable then ret (UDS_NRC_UploadDownloadNotAccepted, arg)
    else match arg with
    | UDSRequestUploadArgs addr size maxNumberOfBlockLength =>
        if size =? 0 then ret (UDS_NRC_RequestOutOfRange, arg)
        else
          let addr := normalize_address addr in
          let arg := UDSRequestUploadArgs addr size maxNumberOfBlockLength in
          if FLASH_MAX_SIZE cfg <? u32 (addr + size) then ret (UDS_NRC_RequestOutOfRange, arg)
          else
            put_ud (UpDown UDS_UPDOWN__UPLOAD_IN_PROGRESS addr addr size (write_block_size s)) ;;
            ret (UDS_OK, UDSRequestUploadArgs addr size
                   (Z.min (CONFIG_UDS_UPLOAD_MAX_PAYLOAD_SIZE cfg + UDS_0X36_RESP_BASE_LEN)
                          maxNumberOfBlockLength))
    | _ => fail BadArgument
    end.

(** The padded last block: the bytes that do not fill a write block, then
    0xFF. *)
Definition last_bytes (block : Z) (rest : list Z) : list Z :=
  rest ++ replicate (Z.to_nat (block - Z.of_nat (length rest))) 0xFF.

Definition continue_download (data : list Z) : M E UDSErr_t :=
  let len := Z.of_nat (length data) in
  let* s := get_ud in
  if (len =? 0) || (u32 (start_address s + total_size s) <? u32 (current_address s + len))
  then ret UDS_NRC_RequestOutOfRange
  else if write_block_size s =? 0 then fail DivisionByZero
  else
    let overflow_size := len mod write_block_size s in
    let first_write := len - overflow_size in
    let* rc := if 0 <? first_write
               then flash_write (current_address s) (take (Z.to_nat first_write) data)
               else ret 0 in
    if negb (rc =? 0) then ret UDS_NRC_GeneralProgrammingFailure
    else
      let* rc := if negb (overflow_size =? 0) then
                   if MAXIMUM_FLASH_WRITE_BLOCK_SIZE <? write_block_size s then fail OutOfBounds
                   else flash_write (u32 (current_address s + first_write))
                          (last_bytes (write_block_size s) (drop (Z.to_nat first_write) data))
                 else ret 0 in
      if negb (rc =? 0) then ret UDS_NRC_GeneralProgrammingFailure
      else
        let* s := get_ud in
        put_ud (UpDown (state s) (start_address s) (u32 (current_address s + len))
                  (total_size s) (write_block_size s)) ;;
        ret UDS_OK.

(** The result of [copyResponse] is not used. *)
Definition continue_upload (maxRespLen : Z) (copyResponse : option copy_fn) : M (world E) UDSErr_t :=
  let* s := on_ext get_ud in
  if decide (state s <> UDS_UPDOWN__UPLOAD_IN_PROGRESS) then ret UDS_NRC_RequestSequenceError
  else if u32 (start_address s + total_size s) <=? current_address s then ret UDS_NRC_RequestSequenceError
  else
    let len_to_copy := Z.min (CONFIG_UDS_UPLOAD_MAX_PAYLOAD_SIZE cfg)
        (Z.min maxRespLen (u32 (u32 (start_address s + total_size s) - current_address s))) in
    let* (rc, upload_buffer) := on_ext (flash_read (current_address s) len_to_copy) in
    if negb (rc =? 0) then ret UDS_NRC_GeneralProgrammingFailure
    else match copyResponse with
    | None => ret UDS_ERR_MISUSE
    | Some copy =>
        call_copy copy (Some upload_buffer) len_to_copy ;;
        let* s := on_ext get_ud in
        on_ext (put_ud (UpDown (state s) (start_address s) (u32 (current_address s + len_to_copy))
                          (total_size s) (write_block_size s))) ;;
        ret UDS_OK
    end.

Definition uds_upload_download_reset : M E UDSErr_t :=
  let* s := get_ud in
  if decide (state s = UDS_UPDOWN__IDLE) then ret UDS_NRC_RequestSequenceError
  else (put_ud (UpDown UDS_UPDOWN__IDLE 0 0 0 (write_block_size s)) ;; ret UDS_OK).

Definition transfer_exit : M E UDSErr_t :=
  if CONFIG_UDS_FILE_TRANSFER cfg then
    let* ret1 := uds_upload_download_reset in
    let* ret2 := uds_file_transfer_exit in
    if negb (bool_decide (ret1 = UDS_NRC_RequestSequenceError) ||
             bool_decide (ret2 = UDS_NRC_RequestSequenceError))
    then fail AssertFailed
    else ret (if decide (ret1 = UDS_NRC_RequestSequenceError) then ret2 else ret1)
  else uds_upload_download_reset.

(** TransferData, with a file transfer taking precedence. *)
Definition transfer_data (arg : uds_arg) : M (world E) (UDSErr_t * uds_arg) :=
  let* file_active := if CONFIG_UDS_FILE_TRANSFER cfg
                      then on_ext uds_file_transfer_is_active else ret false in
  if (file_active : bool) then uds_file_transfer_continue arg
  else
    let* s := on_ext get_ud in
    match state s, arg with
    | UDS_UPDOWN__DOWNLOAD_IN_PROGRESS, UDSTransferDataArgs data _ _ =>
        let* r := on_ext (continue_download data) in ret (r, arg)
    | UDS_UPDOWN__UPLOAD_IN_PROGRESS, UDSTransferDataArgs _ maxRespLen copyResponse =>
        let* r := continue_upload maxRespLen copyResponse in ret (r, arg)
    | UDS_UPDOWN__IDLE, _ => ret (UDS_NRC_RequestSequenceError, arg)
    | _, _ => fail BadArgument
    end.

Definition is_start_event (ev : UDSEvent_t) : bool :=
  match ev with
  | UDS_EVT_RequestDownload | UDS_EVT_RequestUpload | UDS_EVT_RequestFileTransfer => true
  | _ => false
  end.

Definition uds_action_upload_download (context : uds_context) (consume_event : bool) :
    M (world E) (UDSErr_t * bool * uds_arg) :=
  let arg := ctx_arg context in
  let* err := if is_start_event (ctx_event context) then on_ext transfer_exit else ret UDS_OK in
  if decide (err <> UDS_OK /\ err <> UDS_NRC_RequestSequenceError) then ret (err, true, arg)
  else
    let* (r, arg') :=
      match ctx_event context with
      | UDS_EVT_RequestDownload => on_ext (start_download arg)
      | UDS_EVT_RequestUpload => on_ext (start_upload arg)
      | UDS_EVT_RequestFileTransfer =>
          if CONFIG_UDS_FILE_TRANSFER cfg then on_ext (uds_file_transfer_request arg)
          else ret (UDS_NRC_ServiceNotSupported, arg)
      | UDS_EVT_TransferData => transfer_data arg
      | UDS_EVT_RequestTransferExit => let* r := on_ext transfer_exit in ret (r, arg)
      | _ => ret (UDS_ERR_MISUSE, arg)
      end in
    ret (r, true, arg').
End upload_download.

(** ** The devices the theorems assume

    [contents] is the byte stored at an offset of the flash.  A write that
    succeeds stores its bytes and touches nothing else, a write that fails
    touches at most the range it was asked to write; a successful read yields
    what is stored.  The variables of the components, the flash, the file
    system and the server's response are separate parts of the environment. *)

Section laws.
Context {E : Type} `{!FileSystem E} `{!FileTransferVars E} `{!Server E} `{!FlashDriver E} `{!UpDownVars E}.
Context (open_files : E -> gmap positive (list Z * nat)) (contents : E -> Z -> Z).

Class FlashLaws : Prop := {
  flash_write_law : forall a d e, exists rc e', flash_write a d e = Ret rc e' /\
    (rc = 0 -> forall i : nat, (i < length d)%nat -> Some (contents e' (a + Z.of_nat i)) = d !! i) /\
    (forall i, i < a \/ a + Z.of_nat (length d) <= i -> contents e' i = contents e i);
  flash_read_law : forall a n e, 0 <= n -> exists rc bs e', flash_read a n e = Ret (rc, bs) e' /\
    length bs = Z.to_nat n /\
    (rc = 0 -> forall i, (i < length bs)%nat -> bs !! i = Some (contents e (a + Z.of_nat i)));
  flash_block_law : forall e, 0 < flash_get_write_block_size e;
  flash_write_ud : forall a d, frame ud (flash_write a d);
  flash_write_ft : forall a d, frame ft (flash_write a d);
  flash_write_files : forall a d, frame open_files (flash_write a d);
  flash_read_ud : forall a n, frame ud (flash_read a n);
  flash_read_ft : forall a n, frame ft (flash_read a n);
  flash_read_files : forall a n, frame open_files (flash_read a n);
  flash_read_contents : forall a n, frame contents (flash_read a n);
  set_ud_ft : forall s e, ft (set_ud s e) = ft e;
  set_ud_files : forall s e, open_files (set_ud s e) = open_files e;
  set_ud_contents : forall s e, contents (set_ud s e) = contents e;
  set_ft_ud : forall s e, ud (set_ft s e) = ud e;
  fs_open_ud : forall p fl, frame ud (fs_open p fl);
  fs_close_ud : forall h, frame ud (fs_close h);
  fs_stat_ud : forall p, frame ud (fs_stat p);
  fs_unlink_ud : forall p, frame ud (fs_unlink p);
  fs_write_ud : forall h d, frame ud (fs_write h d);
  fs_read_ud : forall h n, frame ud (fs_read h n);
  server_copy_total : forall src n e, exists r e', server_copy src n e = Ret r e';
  server_copy_ud : forall src n, frame ud (server_copy src n);
  server_copy_ft : forall src n, frame ft (server_copy src n);
  server_copy_files : forall src n, frame open_files (server_copy src n);
  server_copy_contents : forall src n, frame contents (server_copy src n);
}.
End laws.
Arguments flash_write_law {E _ _ _ _ _ open_files contents _} a d e.
Arguments flash_read_law {E _ _ _ _ _ open_files contents _} a n e.
Arguments flash_block_law {E _ _ _ _ _ open_files contents _}.
Arguments flash_write_ud {E _ _ _ _ _ open_files contents _}.
Arguments flash_write_ft {E _ _ _ _ _ open_files contents _}.
Arguments flash_write_files {E _ _ _ _ _ open_files contents _}.
Arguments flash_read_ud {E _ _ _ _ _ open_files contents _}.
Arguments flash_read_ft {E _ _ _ _ _ open_files contents _}.
Arguments flash_read_files {E _ _ _ _ _ open_files contents _}.
Arguments flash_read_contents {E _ _ _ _ _ open_files contents _}.
Arguments set_ud_ft {E _ _ _ _ _ open_files contents _}.
Arguments set_ud_files {E _ _ _ _ _ open_files contents _}.
Arguments set_ud_contents {E _ _ _ _ _ open_files contents _}.
Arguments set_ft_ud {E _ _ _ _ _ open_files contents _}.
Arguments fs_open_ud {E _ _ _ _ _ open_files contents _}.
Arguments fs_close_ud {E _ _ _ _ _ open_files contents _}.
Arguments fs_stat_ud {E _ _ _ _ _ open_files contents _}.
Arguments fs_unlink_ud {E _ _ _ _ _ open_files contents _}.
Arguments fs_write_ud {E _ _ _ _ _ open_files contents _}.
Arguments fs_read_ud {E _ _ _ _ _ open_files contents _}.
Arguments server_copy_total {E _ _ _ _ _ open_files contents _}.
Arguments server_copy_ud {E _ _ _ _ _ open_files contents _}.
Arguments server_copy_ft {E _ _ _ _ _ open_files contents _}.
Arguments server_copy_files {E _ _ _ _ _ open_files contents _}.
Arguments server_copy_contents {E _ _ _ _ _ open_files contents _}.

(** ** Properties of the download *)

Section download_props.
Context {E : Type} `{!Iso14229Constants} `{!Server E} `{!FileSystem E} `{!FileTransferVars E}
  `{!FlashDriver E} `{!UpDownVars E} (cfg : updown_config).
Context (open_files : E -> gmap positive (list Z * nat)) (contents : E -> Z -> Z)
  `{!FlashLaws open_files contents}.
Implicit Types (e : E).

(** A download in progress: [data] has been accepted so far and is in the
    flash; away from it and from one block of padding the flash is [c0]. *)
Record downloading (c0 : Z -> Z) e (start total block : Z) (data : list Z) : Prop := Downloading {
  dl_ud : ud e = UpDown UDS_UPDOWN__DOWNLOAD_IN_PROGRESS start (start + Z.of_nat (length data)) total block;
  dl_block : 0 < block <= MAXIMUM_FLASH_WRITE_BLOCK_SIZE;
  dl_start : 0 <= start;
  dl_top : start + total + 65535 < 2 ^ 32;
  dl_len : Z.of_nat (length data) <= total;
  dl_data : forall i, (i < length data)%nat -> Some (contents e (start + Z.of_nat i)) = data !! i;
  dl_frame : forall i, i < start \/ start + total + block <= i -> contents e i = c0 i;
}.

(** The write of a full-block part or of the padded rest: it leaves what was
    written before alone and, when it succeeds, adds its bytes. *)
Definition written e (a : Z) (d : list Z) : Prop :=
  forall i, (i < length d)%nat -> Some (contents e (a + Z.of_nat i)) = d !! i.

Lemma written_frame e e' a d lo :
  written e a d -> a + Z.of_nat (length d) <= lo ->
  (forall i, i < lo -> contents e' i = contents e i) -> written e' a d.
Proof. intros Hw Hle Hc i Hi. rewrite Hc by lia. by apply Hw. Qed.

Lemma written_app e a d1 d2 :
  written e a d1 -> written e (a + Z.of_nat (length d1)) d2 -> written e a (d1 ++ d2).
Proof.
  intros H1 H2 i Hi. rewrite length_app in Hi. destruct (decide (i < length d1)%nat).
  - rewrite lookup_app_l by lia. by apply H1.
  - rewrite lookup_app_r by lia. rewrite <- H2 by lia. do 2 f_equal. lia.
Qed.

(** The flash writes of one block of data: full write blocks first, then the
    padded rest. *)
Definition write_padded (a block : Z) (data : list Z) : M E Z :=
  let first := Z.of_nat (length data) - Z.of_nat (length data) mod block in
  let* rc := if 0 <? first then flash_write a (take (Z.to_nat first) data) else ret 0 in
  if negb (rc =? 0) then ret rc
  else if negb (Z.of_nat (length data) mod block =? 0)
  then flash_write (u32 (a + first)) (last_bytes block (drop (Z.to_nat first) data))
  else ret 0.

Lemma optional_write (b : bool) a d e :
  exists rc e', (if b then flash_write a d else ret 0) e = Ret rc e' /\ ud e' = ud e /\
    (rc = 0 -> b = true -> written e' a d) /\
    (forall i, i < a \/ a + Z.of_nat (length d) <= i -> contents e' i = contents e i).
Proof.
  destruct b; [|by exists 0, e].
  destruct (flash_write_law a d e) as (rc & e' & Hw & Hok & Hfr).
  exists rc, e'. split_and!; [done|by eapply flash_write_ud|intros Hrc _ i Hi; by apply Hok|done].
Qed.

Lemma write_padded_spec a block data e :
  0 < block -> 0 <= a -> a + Z.of_nat (length data) < 2 ^ 32 -> data <> [] ->
  exists rc e', write_padded a block data e = Ret rc e' /\ ud e' = ud e /\
    (rc = 0 -> written e' a data) /\
    (forall i, i < a \/ a + Z.of_nat (length data) + block <= i -> contents e' i = contents e i).
Proof.
  intros Hb Ha Htop Hne. unfold write_padded, last_bytes.
  remember (Z.of_nat (length data)) as n eqn:Hn. remember (n mod block) as ov eqn:Hov0.
  assert (0 <= ov < block) as Hov by (subst ov; apply Z.mod_pos_bound; lia).
  assert (ov <= n) as Hovn by (subst ov; apply Z.mod_le; lia).
  assert (length (take (Z.to_nat (n - ov)) data) = Z.to_nat (n - ov)) as Ht by (rewrite length_take; lia).
  assert (length (drop (Z.to_nat (n - ov)) data) = Z.to_nat ov) as Hd by (rewrite length_drop; lia).
  destruct (optional_write (0 <? n - ov) a (take (Z.to_nat (n - ov)) data) e)
    as (rc1 & e1 & Hrun1 & Hud1 & Hw1 & Hfr1).
  rewrite Ht in Hfr1. unfold bind. rewrite Hrun1.
  destruct (Z.eqb_spec rc1 0) as [->|Hrc1]; cbn.
  2: { exists rc1, e1. split_and!; [done|done|done|]. intros i Hi. apply Hfr1. lia. }
  assert (written e1 a (take (Z.to_nat (n - ov)) data)) as Hw1'.
  { destruct (Z.ltb_spec 0 (n - ov)); [by apply Hw1|].
    intros i Hi. rewrite Ht in Hi. lia. }
  rewrite (wrap_small 32) by (unfold in_width; lia).
  destruct (optional_write (negb (ov =? 0)) (a + (n - ov))
              (drop (Z.to_nat (n - ov)) data ++ replicate (Z.to_nat (block - Z.of_nat (length (drop (Z.to_nat (n - ov)) data)))) 255) e1)
    as (rc2 & e2 & Hrun2 & Hud2 & Hw2 & Hfr2).
  rewrite Hrun2, length_app, length_replicate, Hd in *.
  exists rc2, e2. split_and!; [done|congruence| |].
  - intros Hrc2. rewrite <- (take_drop (Z.to_nat (n - ov)) data). apply written_app.
    + apply (written_frame e1 _ _ _ (a + (n - ov))); [done|lia|]. intros i Hi. apply Hfr2. lia.
    + rewrite Ht. replace (a + Z.of_nat (Z.to_nat (n - ov))) with (a + (n - ov)) by lia.
      destruct (Z.eqb_spec ov 0) as [Hz|Hz].
      * intros i Hi. rewrite Hd in Hi. lia.
      * intros i Hi. specialize (Hw2 Hrc2 eq_refl i). rewrite length_app, lookup_app_l in Hw2 by done.
        apply Hw2. lia.
  - intros i Hi. destruct (Z.eqb_spec ov 0) as [Hz|Hz].
    + cbn in Hrun2. unfold ret in Hrun2. injection Hrun2 as <- <-. apply Hfr1. lia.
    + rewrite Hfr2 by lia. apply Hfr1. lia.
Qed.

(** [continue_download] as one equation over [write_padded]. *)
Lemma continue_download_eq data e s :
  ud e = s -> 0 < write_block_size s <= MAXIMUM_FLASH_WRITE_BLOCK_SIZE ->
  continue_download data e =
  if (Z.of_nat (length data) =? 0) ||
     (u32 (start_address s + total_size s) <? u32 (current_address s + Z.of_nat (length data)))
  then Ret UDS_NRC_RequestOutOfRange e
  else match write_padded (current_address s) (write_block_size s) data e with
       | Ret rc e1 =>
           if negb (rc =? 0) then Ret UDS_NRC_GeneralProgrammingFailure e1
           else Ret UDS_OK (set_ud (UpDown (state (ud e1)) (start_address (ud e1))
                  (u32 (current_address (ud e1) + Z.of_nat (length data)))
                  (total_size (ud e1)) (write_block_size (ud e1))) e1)
       | Fault f => Fault f
       end.
Proof.
  intros Hs Hb. unfold continue_download, write_padded, get_ud, put_ud, bind, gets, modify. rewrite Hs.
  destruct (_ || _); [done|]. rewrite (proj2 (Z.eqb_neq _ 0)) by lia.
  rewrite (proj2 (Z.ltb_ge _ (write_block_size s))) by lia.
  match goal with |- context [(if 0 <? ?x then ?a else ?b) e] =>
    destruct ((if 0 <? x then a else b) e) as [rc e1|f]; [|done] end.
  destruct (Z.eqb_spec rc 0) as [->|Hrc]; cbn; [|by rewrite (proj2 (Z.eqb_neq _ 0) Hrc)].
  match goal with |- context [(if ?c then ?a else ?b) e1] =>
    by destruct ((if c then a else b) e1) as [rc2 e2|f]; [destruct (rc2 =? 0)|] end.
Qed.

Lemma download_step c0 e start total block data d :
  downloading c0 e start total block data -> Z.of_nat (length d) < 65536 ->
  exists r e', continue_download d e = Ret r e' /\
    downloading c0 e' start total block (if decide (r = UDS_OK) then data ++ d else data).
Proof.
  intros [Hud Hb Hst Htop Hlen Hdata Hfr] Hd.
  rewrite (continue_download_eq d e _ Hud) by (cbn; lia). cbn [start_address total_size current_address write_block_size].
  rewrite !(wrap_small 32) by (unfold in_width; lia).
  destruct ((_ =? 0) || _) eqn:Hg.
  { do 2 eexists. split; [reflexivity|]. rewrite decide_False by done. by constructor. }
  apply orb_false_iff in Hg as [Hd0%Z.eqb_neq Hle%Z.ltb_ge].
  destruct (write_padded_spec (start + Z.of_nat (length data)) block d e)
    as (rc & e1 & Hrun & Hud1 & Hw & Hfr1); try lia. { by intros ->. }
  rewrite Hrun. rewrite Hud in Hud1. destruct (Z.eqb_spec rc 0) as [->|Hrc]; cbn.
  - do 2 eexists. split; [reflexivity|]. rewrite decide_True by done. specialize (Hw eq_refl).
    constructor; try done.
    + rewrite ud_set, Hud1. cbn. rewrite (wrap_small 32) by (unfold in_width; lia).
      f_equal. rewrite length_app. lia.
    + rewrite length_app. lia.
    + rewrite set_ud_contents. apply written_app; [|done].
      apply (written_frame e _ _ _ (start + Z.of_nat (length data))); [done|lia|]. intros; apply Hfr1; lia.
    + intros i Hi. rewrite set_ud_contents, Hfr1 by lia. by apply Hfr.
  - do 2 eexists. split; [reflexivity|]. rewrite decide_False by done. constructor; try done.
    + apply (written_frame e _ _ _ (start + Z.of_nat (length data))); [done|lia|]. intros; apply Hfr1; lia.
    + intros i Hi. rewrite Hfr1 by lia. by apply Hfr.
Qed.

(** The TransferData requests of one download, in order, with the response to
    each. *)
Fixpoint download_blocks (blocks : list (list Z)) : M E (list UDSErr_t) :=
  match blocks with
  | [] => ret []
  | b :: blocks =>
      let* r := continue_download b in
      let* rs := download_blocks blocks in
      ret (r :: rs)
  end.

(** The blocks that were accepted. *)
Fixpoint accepted (blocks : list (list Z)) (rs : list UDSErr_t) : list Z :=
  match blocks, rs with
  | b :: blocks, r :: rs => (if decide (r = UDS_OK) then b else []) ++ accepted blocks rs
  | _, _ => []
  end.

Lemma download_blocks_run c0 start total block blocks : forall e data,
  downloading c0 e start total block data ->
  Forall (fun b => Z.of_nat (length b) < 65536) blocks ->
  exists rs e', download_blocks blocks e = Ret rs e' /\ length rs = length blocks /\
    downloading c0 e' start total block (data ++ accepted blocks rs).
Proof.
  induction blocks as [|b blocks IH]; cbn; intros e data Hdl Hb.
  - exists [], e. split_and!; [done|done|]. by rewrite app_nil_r.
  - apply Forall_cons in Hb as [Hb Hbs].
    destruct (download_step c0 e start total block data b Hdl Hb) as (r & e1 & Hr & Hdl1).
    destruct (IH e1 _ Hdl1 Hbs) as (rs & e2 & Hrs & Hlen & Hdl2).
    exists (r :: rs), e2. unfold bind, ret. rewrite Hr, Hrs. split_and!; [done|by cbn; rewrite Hlen|].
    cbn. destruct (decide (r = UDS_OK)); [by rewrite (assoc_L app)|done].
Qed.

(** The range a request names, as offsets into the flash. *)
Lemma start_download_accepts e addr size e1 arg1 :
  is_u32 addr -> is_u32 size ->
  start_download cfg (UDSRequestDownloadArgs addr size 0) e = Ret (UDS_OK, arg1) e1 ->
  ud e1 = UpDown UDS_UPDOWN__DOWNLOAD_IN_PROGRESS (normalize_address cfg addr) (normalize_address cfg addr)
            size (flash_get_write_block_size e) /\
  0 < size /\ u32 (normalize_address cfg addr + size) <= FLASH_MAX_SIZE cfg /\
  flash_get_write_block_size e <= MAXIMUM_FLASH_WRITE_BLOCK_SIZE /\ contents e1 = contents e.
Proof.
  intros Ha Hs. unfold start_download, flash_unavailable, get_ud, put_ud. m_simpl.
  destruct (_ || _); [done|]. destruct (Z.eqb_spec size 0); [done|].
  destruct (Z.ltb_spec (FLASH_MAX_SIZE cfg) (u32 (normalize_address cfg addr + size))); [done|].
  destruct (Z.ltb_spec MAXIMUM_FLASH_WRITE_BLOCK_SIZE (flash_get_write_block_size e)); cbn; [done|].
  intros [= _ <-]. rewrite ud_set, !set_ud_contents. unfold in_width in *. split_and!; try done; lia.
Qed.

(** C5. A download as the client sees it. After an accepted RequestDownload
    for a range of the flash, any sequence of TransferData blocks runs without
    fault, and whatever the responses were, the flash holds the accepted
    blocks one after the other from the start address on, they never exceed
    the announced size, and outside the range (and one padded write block at
    its end) nothing has changed. *)
Theorem download_session e addr size arg1 e1 blocks :
  is_u32 addr -> is_u32 size -> 0 <= normalize_address cfg addr ->
  normalize_address cfg addr + size + 65535 < 2 ^ 32 ->
  Forall (fun b => Z.of_nat (length b) < 65536) blocks ->
  start_download cfg (UDSRequestDownloadArgs addr size 0) e = Ret (UDS_OK, arg1) e1 ->
  exists rs e2, download_blocks blocks e1 = Ret rs e2 /\ length rs = length blocks /\
    let data := accepted blocks rs in
    let start := normalize_address cfg addr in
    (Z.of_nat (length data) <= size) /\
    (forall i, (i < length data)%nat -> Some (contents e2 (start + Z.of_nat i)) = data !! i) /\
    (forall i, i < start \/ start + size + MAXIMUM_FLASH_WRITE_BLOCK_SIZE <= i -> contents e2 i = contents e i) /\
    current_address (ud e2) = start + Z.of_nat (length data).
Proof.
  intros Ha Hs Hst Htop Hb Hrun.
  destruct (start_download_accepts e addr size e1 arg1 Ha Hs Hrun) as (Hud & Hpos & _ & Hblk & Hc).
  pose proof (flash_block_law e) as Hblk0.
  destruct (download_blocks_run (contents e) (normalize_address cfg addr) size (flash_get_write_block_size e)
              blocks e1 []) as (rs & e2 & Hrs & Hlen & Hdl).
  { constructor; cbn; try lia; [by rewrite Hud, Z.add_0_r|by rewrite Hc]. }
  { done. }
  exists rs, e2. destruct Hdl as [Hud2 _ _ _ Hle Hdata Hfr]. cbn in *. split_and!; try done.
  - intros i Hi. apply Hfr. lia.
  - by rewrite Hud2.
Qed.

(** An address equal to the base of the flash is not normalised: where
    the base is at or above the flash size, a download to the first byte of
    the flash by its absolute address is refused, while the byte after it is
    accepted. *)
Theorem download_to_flash_base_refused e size :
  flash_controller_present e = true -> flash_controller_ready e = true ->
  FLASH_MAX_SIZE cfg <= FLASH_BASE_ADDRESS cfg ->
  0 < size -> 1 + size <= FLASH_MAX_SIZE cfg -> FLASH_BASE_ADDRESS cfg + size < 2 ^ 32 ->
  flash_get_write_block_size e <= MAXIMUM_FLASH_WRITE_BLOCK_SIZE ->
  start_download cfg (UDSRequestDownloadArgs (FLASH_BASE_ADDRESS cfg) size 0) e =
    Ret (UDS_NRC_RequestOutOfRange, UDSRequestDownloadArgs (FLASH_BASE_ADDRESS cfg) size 0) e /\
  exists e', start_download cfg (UDSRequestDownloadArgs (FLASH_BASE_ADDRESS cfg + 1) size 0) e =
    Ret (UDS_OK, UDSRequestDownloadArgs 1 size 0) e'.
Proof.
  intros Hp Hr Hmax Hs Hle Htop Hblk. unfold start_download, flash_unavailable, get_ud, put_ud, normalize_address.
  m_simpl. rewrite Hp, Hr. cbn. rewrite (proj2 (Z.eqb_neq size 0)) by lia.
  rewrite Z.ltb_irrefl, (proj2 (Z.ltb_lt _ (_ + 1))) by lia. split.
  - rewrite (wrap_small 32), (proj2 (Z.ltb_lt _ _)) by (unfold in_width; lia). done.
  - replace (FLASH_BASE_ADDRESS cfg + 1 - FLASH_BASE_ADDRESS cfg) with 1 by lia.
    rewrite (wrap_small 32) by (unfold in_width; lia).
    rewrite (proj2 (Z.ltb_ge _ (1 + size))), (proj2 (Z.ltb_ge _ (flash_get_write_block_size e))) by lia.
    by eexists.
Qed.

(** The range check is done on the wrapped 32-bit sum: a range that ends
    beyond 2^32 is accepted although it starts outside the flash. *)
Theorem download_range_check_wraps e addr size :
  flash_controller_present e = true -> flash_controller_ready e = true ->
  flash_get_write_block_size e <= MAXIMUM_FLASH_WRITE_BLOCK_SIZE ->
  FLASH_BASE_ADDRESS cfg < addr -> is_u32 addr -> is_u32 size -> size <> 0 ->
  let off := addr - FLASH_BASE_ADDRESS cfg in
  FLASH_MAX_SIZE cfg < off -> 2 ^ 32 <= off + size <= 2 ^ 32 + FLASH_MAX_SIZE cfg ->
  FLASH_MAX_SIZE cfg < 2 ^ 32 ->
  exists e', start_download cfg (UDSRequestDownloadArgs addr size 0) e =
    Ret (UDS_OK, UDSRequestDownloadArgs off size 0) e' /\
    start_address (ud e') = off /\ state (ud e') = UDS_UPDOWN__DOWNLOAD_IN_PROGRESS.
Proof.
  intros Hp Hr Hblk Hab Ha Hs Hs0 off Hoff Hsum Hmax.
  unfold start_download, flash_unavailable, get_ud, put_ud, normalize_address. m_simpl. rewrite Hp, Hr. cbn.
  rewrite (proj2 (Z.eqb_neq size 0)), (proj2 (Z.ltb_lt _ addr)) by lia. fold off.
  assert (u32 (off + size) = off + size - 2 ^ 32) as ->.
  { unfold wrap. symmetry. apply Z.mod_unique_pos with 1; lia. }
  rewrite (proj2 (Z.ltb_ge _ (off + size - 2 ^ 32))), (proj2 (Z.ltb_ge _ (flash_get_write_block_size e))) by lia.
  eexists. split; [reflexivity|]. by rewrite ud_set.
Qed.
End download_props.

(** ** Properties of the upload *)

(** The [n] bytes of a flash from offset [a] on. *)
Fixpoint flash_range (c : Z -> Z) (a : Z) (n : nat) : list Z :=
  match n with O => [] | S n => c a :: flash_range c (a + 1) n end.

Lemma length_flash_range c n : forall a, length (flash_range c a n) = n.
Proof. induction n as [|n IH]; intros a; [done|]. cbn. by rewrite IH. Qed.

Lemma flash_range_app c n m : forall a,
  flash_range c a (n + m) = flash_range c a n ++ flash_range c (a + Z.of_nat n) m.
Proof.
  induction n as [|n IH]; intros a; cbn [flash_range Nat.add app].
  - by rewrite Z.add_0_r.
  - rewrite IH. do 3 f_equal. lia.
Qed.

Lemma flash_range_spec c bs : forall a,
  (forall i, (i < length bs)%nat -> bs !! i = Some (c (a + Z.of_nat i))) ->
  bs = flash_range c a (length bs).
Proof.
  induction bs as [|b bs IH]; intros a H; [done|]. cbn. f_equal.
  - specialize (H 0%nat ltac:(cbn; lia)). cbn in H. rewrite Z.add_0_r in H. congruence.
  - apply IH. intros i Hi. specialize (H (S i) ltac:(cbn; lia)).
    change ((b :: bs) !! S i) with (bs !! i) in H. rewrite H. do 2 f_equal. lia.
Qed.

Section upload_props.
Context {E : Type} `{!Iso14229Constants} `{!Server E} `{!FileSystem E} `{!FileTransferVars E}
  `{!FlashDriver E} `{!UpDownVars E} (cfg : updown_config).
Context (open_files : E -> gmap positive (list Z * nat)) (contents : E -> Z -> Z)
  `{!FlashLaws open_files contents}.
Implicit Types (w : world E).

(** The server's copy function with room in the response: it appends the
    bytes to what has been sent. *)
Class ResponseLaws (response : E -> list Z) : Prop := {
  server_copy_appends : forall bs n e, 0 <= n <= Z.of_nat (length bs) ->
    exists e', server_copy (Some bs) n e = Ret UDS_OK e' /\
               response e' = response e ++ take (Z.to_nat n) bs;
  flash_read_response : forall a n, frame response (flash_read a n);
  set_ud_response : forall s e, response (set_ud s e) = response e;
}.
Context (response : E -> list Z) `{!ResponseLaws response}.

(** An upload of [total] bytes from [start] on of which [sent] are out. *)
Record uploading (c : Z -> Z) (resp0 : list Z) w (start total sent : Z) : Prop := Uploading {
  ul_state : state (ud (ext w)) = UDS_UPDOWN__UPLOAD_IN_PROGRESS;
  ul_start : start_address (ud (ext w)) = start /\ 0 <= start;
  ul_total : total_size (ud (ext w)) = total /\ start + total < 2 ^ 32;
  ul_current : current_address (ud (ext w)) = start + sent;
  ul_sent : 0 <= sent <= total;
  ul_contents : contents (ext w) = c;
  ul_response : response (ext w) = resp0 ++ flash_range c start (Z.to_nat sent);
}.

Lemma upload_step c resp0 w start total sent maxRespLen :
  uploading c resp0 w start total sent -> 0 <= maxRespLen ->
  0 <= CONFIG_UDS_UPLOAD_MAX_PAYLOAD_SIZE cfg < 65536 ->
  exists r w', continue_upload cfg maxRespLen (Some copy_server) w = Ret r w' /\
    ((sent = total -> r = UDS_NRC_RequestSequenceError) /\
     exists sent', uploading c resp0 w' start total sent' /\
       (r = UDS_OK -> sent' = sent + Z.min (CONFIG_UDS_UPLOAD_MAX_PAYLOAD_SIZE cfg)
                                       (Z.min maxRespLen (total - sent))) /\
       (r <> UDS_OK -> sent' = sent)).
Proof.
  intros [Hst [Hs Hs0] [Ht Ht0] Hc Hsent Hcont Hresp] Hmax Hcfg.
  unfold continue_upload, on_ext, zoom, get_ud, put_ud, bind, gets, modify. cbn.
  rewrite Hst, decide_False by (intros Hx; by apply Hx). rewrite Hs, Ht, Hc.
  rewrite (wrap_small 32 (start + total)) by (unfold in_width; lia).
  destruct (Z.leb_spec (start + total) (start + sent)).
  { unfold ret. do 2 eexists. split; [reflexivity|]. split; [done|]. exists sent. split_and!; [|done|done].
    destruct w; by constructor. }
  rewrite (wrap_small 32 (start + total - _)) by (unfold in_width; lia).
  replace (start + total - (start + sent)) with (total - sent) by lia.
  set (n := Z.min _ (Z.min _ _)). change (ext (set_ext (ext w) w)) with (ext w).
  destruct (flash_read_law (start + sent) n (ext w)) as (rc & bs & e1 & Hrun & Hlen & Hbs); [lia|].
  pose proof (flash_read_ud _ _ _ _ _ Hrun) as Hud. pose proof (flash_read_contents _ _ _ _ _ Hrun) as Hct.
  pose proof (flash_read_response _ _ _ _ _ Hrun) as Hrs. cbn beta in *. rewrite Hrun.
  destruct (Z.eqb_spec rc 0) as [->|Hrc]; cbn.
  2: { do 2 eexists. split; [reflexivity|]. split; [lia|]. exists sent. split_and!; [|done|done].
       constructor; cbn; rewrite ?Hud; try done; congruence. }
  rewrite (wrap_small 16) by (unfold in_width; lia). unfold on_ext, zoom. cbn.
  destruct (server_copy_appends bs n e1) as (e2 & Hcopy & Hresp2); [lia|].
  pose proof (server_copy_ud _ _ _ _ _ Hcopy) as Hud2.
  pose proof (server_copy_contents _ _ _ _ _ Hcopy) as Hct2. cbn beta in *. rewrite Hcopy. cbn.
  rewrite Hud2, Hud, Hst, Hs, Ht, Hc. do 2 eexists. split; [reflexivity|]. split; [lia|].
  exists (sent + n). split_and!; [|done|done]. constructor; cbn; rewrite ?ud_set; cbn; try done; try lia.
  - rewrite (wrap_small 32) by (unfold in_width; lia). lia.
  - rewrite set_ud_contents. congruence.
  - rewrite set_ud_response, Hresp2, Hrs, Hresp, <- (assoc_L app). f_equal.
    rewrite Z2Nat.inj_add, flash_range_app by lia. f_equal.
    rewrite take_ge by lia. rewrite Z2Nat.id by lia. rewrite <- Hlen.
    apply flash_range_spec. intros i Hi. rewrite Hbs by done. by rewrite Hcont.
Qed.

(** TransferData requests of one upload, by the room each response has. *)
Fixpoint upload_blocks (rooms : list Z) : M (world E) (list UDSErr_t) :=
  match rooms with
  | [] => ret []
  | room :: rooms =>
      let* r := continue_upload cfg room (Some copy_server) in
      let* rs := upload_blocks rooms in
      ret (r :: rs)
  end.

Lemma upload_blocks_run c resp0 start total rooms : forall w sent,
  uploading c resp0 w start total sent -> Forall (fun n => 0 <= n) rooms ->
  0 <= CONFIG_UDS_UPLOAD_MAX_PAYLOAD_SIZE cfg < 65536 ->
  exists rs w' sent', upload_blocks rooms w = Ret rs w' /\ uploading c resp0 w' start total sent'.
Proof.
  induction rooms as [|room rooms IH]; intros w sent Hul Hr Hcfg.
  - by exists [], w, sent.
  - apply Forall_cons in Hr as [Hr Hrs].
    destruct (upload_step c resp0 w start total sent room Hul Hr Hcfg) as (r & w1 & Hrun & _ & s1 & Hul1 & _).
    destruct (IH w1 s1 Hul1 Hrs Hcfg) as (rs & w2 & s2 & Hrun2 & Hul2).
    exists (r :: rs), w2, s2. cbn. unfold bind, ret. by rewrite Hrun, Hrun2.
Qed.

(** C6. An upload as the client sees it. After an accepted RequestUpload,
    any sequence of TransferData requests runs without fault; what has been
    sent is exactly the flash contents of the announced range up to the
    current address, and once all of it is out, a further request is a
    sequence error. *)
Theorem upload_session w addr size maxlen arg1 e1 rooms :
  is_u32 addr -> is_u32 size -> 0 <= normalize_address cfg addr ->
  normalize_address cfg addr + size < 2 ^ 32 ->
  0 <= CONFIG_UDS_UPLOAD_MAX_PAYLOAD_SIZE cfg < 65536 ->
  Forall (fun n => 0 <= n) rooms ->
  start_upload cfg (UDSRequestUploadArgs addr size maxlen) (ext w) = Ret (UDS_OK, arg1) e1 ->
  response e1 = response (ext w) ->
  exists rs w2 sent, upload_blocks rooms (set_ext e1 w) = Ret rs w2 /\
    0 <= sent <= size /\ contents (ext w2) = contents (ext w) /\
    current_address (ud (ext w2)) = normalize_address cfg addr + sent /\
    response (ext w2) =
      response (ext w) ++ flash_range (contents (ext w)) (normalize_address cfg addr) (Z.to_nat sent) /\
    (sent = size -> forall room, 0 <= room -> exists w3,
       continue_upload cfg room (Some copy_server) w2 = Ret UDS_NRC_RequestSequenceError w3).
Proof.
  intros Ha Hs Hst Htop Hcfg Hr Hrun Hresp.
  assert (uploading (contents (ext w)) (response (ext w)) (set_ext e1 w) (normalize_address cfg addr) size 0) as Hul.
  { revert Hrun. unfold start_upload, flash_unavailable, get_ud, put_ud. m_simpl.
    destruct (decide _); [done|]. m_simpl. destruct (_ || _); [done|].
    destruct (Z.eqb_spec size 0); [done|]. destruct (_ <? _); [done|].
    intros [= _ <-]. unfold in_width in *. constructor; cbn; rewrite ?ud_set; cbn; try done; try lia.
    - apply set_ud_contents.
    - by rewrite app_nil_r. }
  destruct (upload_blocks_run _ _ _ _ rooms _ _ Hul Hr Hcfg) as (rs & w2 & sent & Hrun2 & Hul2).
  exists rs, w2, sent. pose proof Hul2 as [H1 H2 H3 H4 H5 H6 H7]. split_and!; try done; try lia.
  intros Hend room Hroom.
  destruct (upload_step _ _ _ _ _ _ room Hul2 Hroom Hcfg) as (r & w3 & Hrun3 & Hseq & _).
  exists w3. by rewrite Hrun3, (Hseq Hend).
Qed.
End upload_props.

(** ** Safety of the whole handler *)

Section updown_safety.
Context {E : Type} `{!Iso14229Constants} `{!Server E} `{!FileSystem E} `{!FileTransferVars E}
  `{!FlashDriver E} `{!UpDownVars E} (cfg : updown_config).
Context (open_files : E -> gmap positive (list Z * nat)) (contents : E -> Z -> Z)
  `{!FileSystemLaws open_files} `{!FlashLaws open_files contents}.
Implicit Types (e : E) (w : world E).

(** A file transfer is active exactly while its file is open; a flash
    transfer and a file transfer exclude each other; during a download the
    write block size fits the padding buffer and is not zero. *)
Record updown_wf e : Prop := UpDownWf {
  wf_idle : mode (ft e) = UDS_FILE_TRANSFER__IDLE -> file_open (ft e) = false;
  wf_active : mode (ft e) <> UDS_FILE_TRANSFER__IDLE ->
    file_open (ft e) = true /\ exists h, file (ft e) = Some h /\ is_Some (open_files e !! h);
  wf_excl : state (ud e) <> UDS_UPDOWN__IDLE -> mode (ft e) = UDS_FILE_TRANSFER__IDLE;
  wf_block : state (ud e) = UDS_UPDOWN__DOWNLOAD_IN_PROGRESS ->
    0 < write_block_size (ud e) <= MAXIMUM_FLASH_WRITE_BLOCK_SIZE;
}.

(** Nothing is in progress. *)
Definition all_idle e : Prop :=
  state (ud e) = UDS_UPDOWN__IDLE /\ mode (ft e) = UDS_FILE_TRANSFER__IDLE /\ file_open (ft e) = false.

Lemma all_idle_wf e : all_idle e -> updown_wf e.
Proof. intros (H1 & H2 & H3). constructor; congruence. Qed.

(** The parts of the environment the invariant looks at. *)
Definition same_view e e' : Prop := ft e' = ft e /\ ud e' = ud e /\ open_files e' = open_files e.

Lemma updown_wf_view e e' : same_view e e' -> updown_wf e -> updown_wf e'.
Proof. intros (H1 & H2 & H3) [? ? ? ?]. constructor; rewrite ?H1, ?H2, ?H3; done. Qed.

Lemma set_ud_view s e : ft (set_ud s e) = ft e /\ ud (set_ud s e) = s /\ open_files (set_ud s e) = open_files e.
Proof. split_and!; [apply set_ud_ft|apply ud_set|apply set_ud_files]. Qed.

Lemma set_ft_view s e : ft (set_ft s e) = s /\ ud (set_ft s e) = ud e /\ open_files (set_ft s e) = open_files e.
Proof. split_and!; [apply ft_set|apply set_ft_ud|apply set_ft_law]. Qed.

Lemma flash_write_wp a d (Q : Z -> E -> Prop) e :
  (forall rc e', same_view e e' -> Q rc e') -> wp (flash_write a d) Q e.
Proof.
  intros HQ. destruct (flash_write_law a d e) as (rc & e' & Hx & _). unfold wp. rewrite Hx.
  apply HQ. split_and!; [by eapply flash_write_ft|by eapply flash_write_ud|by eapply flash_write_files].
Qed.

Lemma flash_read_wp a n (Q : Z * list Z -> E -> Prop) e :
  0 <= n -> (forall rc bs e', same_view e e' -> Q (rc, bs) e') -> wp (flash_read a n) Q e.
Proof.
  intros Hn HQ. destruct (flash_read_law a n e Hn) as (rc & bs & e' & Hx & _). unfold wp. rewrite Hx.
  apply HQ. split_and!; [by eapply flash_read_ft|by eapply flash_read_ud|by eapply flash_read_files].
Qed.

Lemma server_copy_wp src n (Q : UDSErr_t -> E -> Prop) e :
  (forall r e', same_view e e' -> Q r e') -> wp (server_copy src n) Q e.
Proof.
  intros HQ. destruct (server_copy_total src n e) as (r & e' & Hx). unfold wp. rewrite Hx.
  apply HQ. split_and!; [by eapply server_copy_ft|by eapply server_copy_ud|by eapply server_copy_files].
Qed.

Lemma reset_wp (Q : unit -> E -> Prop) e :
  updown_wf e \/ file_open (ft e) = false ->
  (forall e', mode (ft e') = UDS_FILE_TRANSFER__IDLE -> file_open (ft e') = false -> ud e' = ud e -> Q tt e') ->
  wp uds_file_transfer_reset Q e.
Proof.
  intros Hwf HQ. unfold uds_file_transfer_reset, get_ft, put_ft, the_file. do 3 wp_step.
  destruct (file_open (ft e)) eqn:Hop.
  - assert (exists h, file (ft e) = Some h) as [h Hh].
    { destruct Hwf as [Hwf|]; [|done]. destruct (decide (mode (ft e) = UDS_FILE_TRANSFER__IDLE)) as [Hm|Hm].
      - apply (wf_idle e Hwf) in Hm. congruence.
      - destruct (wf_active e Hwf Hm) as (_ & h & ? & _). eauto. }
    rewrite Hh. cbn. do 3 wp_step. destruct (fs_close_law h e) as (rc & e1 & Hc & _). unfold wp. rewrite Hc.
    apply wp_ret. cbn. apply HQ; rewrite ?ft_set, ?set_ft_ud; try done. by eapply fs_close_ud.
  - wp_run. apply HQ; by rewrite ?ft_set, ?set_ft_ud.
Qed.

Lemma transfer_exit_wp (Q : UDSErr_t -> E -> Prop) e :
  CONFIG_UDS_FILE_TRANSFER cfg = true -> updown_wf e ->
  (forall r e', all_idle e' -> Q r e') -> wp (transfer_exit cfg) Q e.
Proof.
  intros Hcfg Hwf HQ. unfold transfer_exit. rewrite Hcfg. wp_step.
  apply (wp_mono _ (fun r e' => state (ud e') = UDS_UPDOWN__IDLE /\ updown_wf e' /\
           (r = UDS_NRC_RequestSequenceError \/ mode (ft e') = UDS_FILE_TRANSFER__IDLE))).
  { unfold uds_upload_download_reset, get_ud, put_ud. wp_run; [by auto|].
    destruct (set_ud_view (UpDown UDS_UPDOWN__IDLE 0 0 0 (write_block_size (ud e))) e) as (Hf & Hu & Ho).
    destruct Hwf as [H1 H2 H3 H4]. rewrite Hu, Hf. split_and!; [done| |right; auto].
    constructor; rewrite ?Hf, ?Hu, ?Ho; try done. }
  intros r1 e1 (Hst & Hwf1 & Hr1). unfold uds_file_transfer_exit, get_ft. do 3 wp_step.
  destruct (decide (mode (ft e1) = UDS_FILE_TRANSFER__IDLE)) as [Hm|Hm].
  - wp_step. rewrite (bool_decide_true (UDS_NRC_RequestSequenceError = _)), orb_true_r by done. cbn.
    wp_step. apply HQ. split_and!; [done|done|by apply (wf_idle e1)].
  - destruct Hr1 as [->|]; [|done]. wp_step. apply reset_wp; [by left|]. intros e2 Hm2 Hop2 Hud2.
    wp_step. rewrite (bool_decide_true (UDS_NRC_RequestSequenceError = _)) by done. cbn.
    wp_step. apply HQ. split_and!; congruence.
Qed.

Lemma put_ud_wf s e :
  mode (ft e) = UDS_FILE_TRANSFER__IDLE -> file_open (ft e) = false ->
  (state s = UDS_UPDOWN__DOWNLOAD_IN_PROGRESS -> 0 < write_block_size s <= MAXIMUM_FLASH_WRITE_BLOCK_SIZE) ->
  updown_wf (set_ud s e).
Proof.
  intros Hm Hop Hb. destruct (set_ud_view s e) as (Hf & Hu & Ho).
  constructor; rewrite ?Hf, ?Hu, ?Ho; done.
Qed.

Lemma start_download_wp arg e :
  all_idle e -> (exists a sz f, arg = UDSRequestDownloadArgs a sz f) ->
  wp (start_download cfg arg) (fun _ => updown_wf) e.
Proof.
  intros Hidle (a & sz & f & ->). pose proof Hidle as (Hs & Hm & Hop).
  pose proof (flash_block_law e) as Hb. pose proof (all_idle_wf e Hidle).
  unfold start_download, flash_unavailable, get_ud, put_ud. wp_run; try done.
  - apply put_ud_wf; cbn; try done. congruence.
  - apply put_ud_wf; cbn; [by rewrite set_ud_ft..|].
    intros _. match goal with Hx : (MAXIMUM_FLASH_WRITE_BLOCK_SIZE <? _) = false |- _ => apply Z.ltb_ge in Hx end. lia.
Qed.

Lemma start_upload_wp arg e :
  all_idle e -> (exists a sz f, arg = UDSRequestUploadArgs a sz f) ->
  wp (start_upload cfg arg) (fun _ => updown_wf) e.
Proof.
  intros Hidle (a & sz & f & ->). pose proof Hidle as (Hs & Hm & Hop). pose proof (all_idle_wf e Hidle).
  unfold start_upload, flash_unavailable, get_ud, put_ud. wp_run; try done.
  apply put_ud_wf; cbn; done.
Qed.

Lemma put_ft_wf s e :
  state (ud e) = UDS_UPDOWN__IDLE ->
  (mode s = UDS_FILE_TRANSFER__IDLE -> file_open s = false) ->
  (mode s <> UDS_FILE_TRANSFER__IDLE ->
     file_open s = true /\ exists h, file s = Some h /\ is_Some (open_files e !! h)) ->
  updown_wf (set_ft s e).
Proof.
  intros Hs H1 H2. destruct (set_ft_view s e) as (Hf & Hu & Ho).
  constructor; rewrite ?Hf, ?Hu, ?Ho; try done; congruence.
Qed.

Lemma reset_wf e :
  state (ud e) = UDS_UPDOWN__IDLE -> file_open (ft e) = false ->
  wp uds_file_transfer_reset (fun _ => updown_wf) e.
Proof.
  intros Hs Hop. apply reset_wp; [by right|]. intros e' Hm Hop' Hu. apply all_idle_wf. split_and!; congruence.
Qed.

Lemma fs_open_wp p fl (Q : Z * positive -> E -> Prop) e :
  (forall rc h e', ft e' = ft e -> ud e' = ud e -> (0 <= rc -> is_Some (open_files e' !! h)) -> Q (rc, h) e') ->
  wp (fs_open p fl) Q e.
Proof.
  intros HQ. destruct (fs_open_law p fl e) as (rc & h & e' & Hx & Hf & Ho). unfold wp. rewrite Hx.
  apply HQ; [done|by eapply fs_open_ud|]. intros Hrc. rewrite (proj2 (Z.ltb_ge rc 0) Hrc) in Ho.
  destruct Ho as (_ & c & -> & _). by rewrite lookup_insert_eq.
Qed.

Lemma file_request_wp arg e :
  all_idle e -> (exists m p a b, arg = UDSRequestFileTransferArgs m p a b) ->
  wp (uds_file_transfer_request arg) (fun _ => updown_wf) e.
Proof.
  intros Hidle (m & p & a & b & ->). pose proof Hidle as (Hs & Hm & Hop). pose proof (all_idle_wf e Hidle).
  unfold uds_file_transfer_request. destruct p as [p|]; [|by apply wp_ret].
  do 3 (wp_step; [by try apply wp_ret|]) || idtac.
  repeat (match goal with |- wp (if _ then _ else _) _ _ => wp_step end; try by apply wp_ret).
  - wp_step. unfold uds_file_transfer_begin_write. wp_step. apply fs_open_wp. intros rc h e1 Hf Hu Ho.
    unfold get_ft, put_ft. wp_run; apply put_ft_wf; cbn; rewrite ?Hf, ?Hu; try done.
    intros _. split; [done|]. exists h. split; [done|]. apply Ho. by apply Z.ltb_ge.
  - wp_step. unfold uds_file_transfer_delete. wp_step. destruct (fs_unlink_law p e) as (rc & e1 & Hx & Hf & Ho).
    unfold wp at 1. rewrite Hx. assert (updown_wf e1).
    { apply (updown_wf_view e); [|done]. split_and!; [done|by eapply fs_unlink_ud|done]. }
    wp_run; done.
  - wp_step. unfold uds_file_transfer_begin_read. wp_step. apply fs_open_wp. intros rc h e1 Hf Hu Ho.
    unfold get_ft, put_ft. do 4 wp_step.
    { wp_run. apply put_ft_wf; cbn; rewrite ?Hf, ?Hu; try done. }
    match goal with Hx : (rc <? 0) = false |- _ => apply Z.ltb_ge in Hx; specialize (Ho Hx) end.
    do 2 wp_step. set (e2 := set_ft _ e1). destruct (set_ft_view (FileTransferState (mode (ft e1)) (Some h) (file_open (ft e1))
      (expected_size (ft e1)) (transferred (ft e1)) (block_length (ft e1))) e1) as (Hf2 & Hu2 & Ho2). fold e2 in Hf2, Hu2, Ho2.
    destruct (fs_stat_law p e2) as (rc2 & isf & sz & e3 & Hx & Hf3 & Ho3).
    pose proof (fs_stat_ud _ _ _ _ Hx) as Hu3. cbn beta in Hu3. unfold wp at 1. rewrite Hx.
    wp_run; try (apply (wp_mono _ (fun _ => updown_wf));
      [apply reset_wf; [congruence|by rewrite Hf3, Hf2, Hf]|intros; wp_run; done]).
    apply put_ft_wf; cbn; [congruence|done|]. intros _. split; [done|]. exists h. by rewrite Ho3, Ho2.
Qed.

(** The argument object of each event; a TransferData request comes with room
    for a response and with the server's own copy function. *)
Definition arg_matches (ev : UDSEvent_t) (arg : uds_arg) : Prop :=
  match ev with
  | UDS_EVT_RequestDownload => exists a sz f, arg = UDSRequestDownloadArgs a sz f
  | UDS_EVT_RequestUpload => exists a sz f, arg = UDSRequestUploadArgs a sz f
  | UDS_EVT_RequestFileTransfer => exists m p a b, arg = UDSRequestFileTransferArgs m p a b
  | UDS_EVT_TransferData =>
      exists d room copy, arg = UDSTransferDataArgs d room copy /\ 0 <= room < 65536 /\
        copy <> Some copy_uds_copy
  | _ => True
  end.

Lemma continue_download_wp data e :
  updown_wf e -> state (ud e) = UDS_UPDOWN__DOWNLOAD_IN_PROGRESS ->
  wp (continue_download data) (fun _ => updown_wf) e.
Proof.
  intros Hwf Hs. pose proof (wf_block e Hwf Hs) as Hb. pose proof (wf_excl e Hwf ltac:(congruence)) as Hm.
  pose proof (wf_idle e Hwf Hm) as Hop.
  unfold continue_download, get_ud, put_ud. do 2 wp_step. destruct (_ || _); [by apply wp_ret|].
  rewrite (proj2 (Z.eqb_neq _ 0)), (proj2 (Z.ltb_ge _ (write_block_size (ud e)))) by lia.
  wp_step. apply (wp_mono _ (fun _ => same_view e)).
  { destruct (0 <? _); [by apply flash_write_wp|by apply wp_ret]. }
  intros rc e1 Hv1. destruct (negb _); [apply wp_ret; by eapply updown_wf_view|].
  wp_step. apply (wp_mono _ (fun _ => same_view e)).
  { destruct (negb _); [|by apply wp_ret]. apply flash_write_wp. intros ? e2 (H1 & H2 & H3).
    destruct Hv1 as (H4 & H5 & H6). split_and!; congruence. }
  intros rc2 e2 Hv2. destruct (negb _); [apply wp_ret; by eapply updown_wf_view|].
  wp_run. destruct Hv2 as (H1 & H2 & H3). apply put_ud_wf; cbn; rewrite ?H1, ?H2; done.
Qed.

Lemma call_copy_wp copy src n (Q : UDSErr_t -> world E -> Prop) w :
  copy <> copy_uds_copy ->
  (forall r e', same_view (ext w) e' -> Q r (set_ext e' w)) -> wp (call_copy copy src n) Q w.
Proof.
  intros Hc HQ. destruct copy; [|done]. apply wp_zoom, server_copy_wp. intros r e' Hv. by apply HQ.
Qed.

Lemma continue_upload_wp room copy w :
  updown_wf (ext w) -> 0 <= room -> 0 <= CONFIG_UDS_UPLOAD_MAX_PAYLOAD_SIZE cfg -> copy <> Some copy_uds_copy ->
  wp (continue_upload cfg room copy) (fun _ w' => updown_wf (ext w')) w.
Proof.
  intros Hwf Hroom Hmax Hcopy. unfold continue_upload, get_ud, put_ud, on_ext. wp_step. apply wp_zoom, wp_gets.
  destruct (decide _) as [|Hs]; [by wp_run|]. apply dec_stable in Hs.
  destruct (_ <=? _); [by wp_run|]. wp_step. apply wp_zoom, flash_read_wp.
  { pose proof (wrap_range 32 (u32 (start_address (ud (ext w)) + total_size (ud (ext w))) - current_address (ud (ext w)))
      ltac:(lia)) as Hr. unfold in_width in Hr. lia. }
  intros rc bs e1 Hv1. destruct (negb _); [wp_step; by eapply updown_wf_view|].
  destruct copy as [copy|]; [|wp_step; by eapply updown_wf_view].
  wp_step. apply call_copy_wp; [congruence|]. intros r e2 Hv2. cbn in Hv2.
  wp_step. apply wp_zoom, wp_gets. wp_step. apply wp_zoom, wp_modify. wp_step.
  destruct Hv1 as (H1 & H2 & H3), Hv2 as (H4 & H5 & H6). cbn in *. rewrite H2 in H5.
  pose proof (wf_excl _ Hwf ltac:(congruence)) as Hm. apply put_ud_wf; cbn; [congruence| |congruence].
  rewrite H4, H1. by apply (wf_idle _ Hwf).
Qed.

Lemma file_write_wp data e :
  updown_wf e -> mode (ft e) = UDS_FILE_TRANSFER__WRITE ->
  wp (uds_file_transfer_write data) (fun _ => updown_wf) e.
Proof.
  intros Hwf Hm. destruct (wf_active e Hwf ltac:(congruence)) as (Hop & h & Hh & [c pos] & Ho).
  unfold uds_file_transfer_write, get_ft, put_ft, the_file. do 2 wp_step.
  wp_step; [by wp_run|]. wp_step; [by wp_run|]. rewrite Hh. cbn. do 2 wp_step. wp_step.
  destruct (fs_write_law h data e c pos Ho) as (rc & e1 & Hx & Hf & _ & Ho1).
  pose proof (fs_write_ud _ _ _ _ _ Hx) as Hu. cbn beta in Hu. unfold wp at 1. rewrite Hx.
  assert (is_Some (open_files e1 !! h)) as Hso.
  { rewrite Ho1. destruct (rc <? 0); [by rewrite Ho|by rewrite lookup_insert_eq]. }
  assert (state (ud e) = UDS_UPDOWN__IDLE) as Hidle.
  { destruct (decide (state (ud e) = UDS_UPDOWN__IDLE)) as [|Hn]; [done|]. apply (wf_excl e Hwf) in Hn. congruence. }
  assert (updown_wf e1).
  { constructor; rewrite ?Hf, ?Hu; try done; try congruence. intros _. split; [done|]. by exists h. }
  wp_run; try done. apply put_ft_wf; cbn; rewrite ?Hf, ?Hu; try done; try congruence.
  intros _. split; [done|]. by exists h.
Qed.

Lemma file_read_wp data room copy w :
  updown_wf (ext w) -> mode (ft (ext w)) = UDS_FILE_TRANSFER__READ -> 0 <= room < 65536 ->
  copy <> Some copy_uds_copy ->
  wp (uds_file_transfer_read data room copy) (fun _ w' => updown_wf (ext w')) w.
Proof.
  intros Hwf Hm Hroom Hcopy. destruct (wf_active _ Hwf ltac:(congruence)) as (Hop & h & Hh & [c pos] & Ho).
  assert (state (ud (ext w)) = UDS_UPDOWN__IDLE) as Hidle.
  { destruct (decide (state (ud (ext w)) = UDS_UPDOWN__IDLE)) as [|Hn]; [done|]. apply (wf_excl _ Hwf) in Hn. congruence. }
  unfold uds_file_transfer_read, get_ft, put_ft, the_file, on_ext. destruct copy as [copy|]; [|by wp_run].
  wp_step. apply wp_zoom, wp_gets. cbn zeta.
  set (remaining := if _ <=? _ then _ else _).
  assert (0 <= remaining) as Hrem. { subst remaining. destruct (Z.leb_spec (transferred (ft (ext w))) (expected_size (ft (ext w)))); lia. }
  wp_step; [by wp_run|]. wp_step. apply wp_zoom. rewrite Hh. cbn. wp_step. wp_step. apply wp_zoom.
  destruct (fs_read_law h (Z.min room remaining) (ext w) c pos Ho ltac:(lia)) as (rc & bs & e1 & Hx & Hf & _ & _ & Ho1).
  pose proof (fs_read_ud _ _ _ _ _ Hx) as Hu. cbn beta in Hu. unfold wp at 1. cbn. rewrite Hx.
  assert (is_Some (open_files e1 !! h)) as Hso.
  { rewrite Ho1. destruct (rc <? 0); [by rewrite Ho|by rewrite lookup_insert_eq]. }
  assert (updown_wf e1) as Hwf1.
  { constructor; rewrite ?Hf, ?Hu; try done; try congruence. intros _. split; [done|]. by exists h. }
  wp_step; [by wp_run|]. wp_step; [by wp_run|]. wp_step. apply call_copy_wp; [congruence|].
  intros r e2 Hv2. cbn in Hv2. pose proof (updown_wf_view _ _ Hv2 Hwf1) as Hwf2.
  destruct Hv2 as (H4 & H5 & H6). destruct (decide _); [by wp_run|].
  wp_step. apply wp_zoom, wp_gets. wp_step. apply wp_zoom, wp_modify. wp_step. cbn.
  apply put_ft_wf; cbn; try congruence. intros _. rewrite H4, Hf, H6. split; [done|]. by exists h.
Qed.

Lemma transfer_data_wp arg w :
  CONFIG_UDS_FILE_TRANSFER cfg = true -> 0 <= CONFIG_UDS_UPLOAD_MAX_PAYLOAD_SIZE cfg ->
  updown_wf (ext w) -> arg_matches UDS_EVT_TransferData arg ->
  wp (transfer_data cfg arg) (fun _ w' => updown_wf (ext w')) w.
Proof.
  intros Hcfg Hmax Hwf (d & room & copy & -> & Hroom & Hcopy). unfold transfer_data. rewrite Hcfg.
  wp_step. apply wp_zoom. unfold uds_file_transfer_is_active, get_ft. do 3 wp_step.
  destruct (bool_decide_reflect (mode (ft (ext w)) = UDS_FILE_TRANSFER__IDLE)) as [Hm|Hm]; cbn.
  - wp_step. apply wp_zoom, wp_gets. cbn. destruct (state (ud (ext w))) eqn:Hs.
    + by wp_run.
    + wp_step. apply wp_zoom. eapply wp_mono; [by apply continue_download_wp|]. intros. wp_run. done.
    + wp_step. eapply wp_mono; [apply continue_upload_wp; (done || lia)|]. intros. wp_run. done.
  - unfold uds_file_transfer_continue, get_ft. wp_step. apply wp_zoom, wp_gets. cbn.
    destruct (mode (ft (ext w))) eqn:Hmo; [done| |].
    + wp_step. apply wp_zoom. eapply wp_mono; [by apply file_write_wp|]. intros. wp_run. done.
    + wp_step. eapply wp_mono; [by apply file_read_wp|]. intros [r d'] w' Hw'. wp_run. done.
Qed.

End updown_safety.
