(* ===== verification/UdsDDDI.v ===== *)
(** * Dynamically defined data identifiers
      ([lib/uds/dynamically_define_data_ids.c])

    A client puts a data identifier together from parts of other identifiers
    and from memory ranges.  The handler keeps a heap structure per identifier:
    a registration in the instance's dynamic list, a list object with the
    parts, and an item in the list of identifiers of the handler's own
    registration.  All of it lives in the heap of [UdsTypes], so that freeing
    twice or using freed memory is a fault of the model. *)

From stdpp Require Import base gmap list numbers relations.
From Stdlib Require Import ZArith Lia.
From S2P Require Import Prelude.
From S2P Require Import UdsTypes.
From S2P Require Import Uds.
From S2P Require Import UdsServices.

#[local] Open Scope Z_scope.

(** ** Definitions *)

(** The two iteration macros of sys_slist.  [SYS_SLIST_FOR_EACH_CONTAINER]
    takes the link of the current node after the body, the [_SAFE] variant
    before it.  [get_list] is the list the macro walks, as it is at that
    moment, and [touch] reads the node whose link is followed; the fuel is the length of the list at the start, which is enough as
    no body adds nodes. *)
Section iteration.
Context {W : Type} (touch : addr -> M W unit).

Fixpoint slist_for_each (fuel : nat) (get_list : M W (list addr)) (body : addr -> M W unit)
    (cur : option addr) : M W unit :=
  match cur with
  | None => ret tt
  | Some a =>
      match fuel with
      | O => fail OutOfFuel
      | S fuel =>
          body a ;;
          touch a ;;
          let* l := get_list in
          slist_for_each fuel get_list body (slist_next l a)
      end
  end.

Fixpoint slist_for_each_safe (fuel : nat) (get_list : M W (list addr)) (body : addr -> M W unit)
    (cur : option addr) : M W unit :=
  match cur with
  | None => ret tt
  | Some a =>
      match fuel with
      | O => fail OutOfFuel
      | S fuel =>
          touch a ;;
          let* l := get_list in
          body a ;;
          slist_for_each_safe fuel get_list body (slist_next l a)
      end
  end.

Definition SYS_SLIST_FOR_EACH (get_list : M W (list addr)) (body : addr -> M W unit) : M W unit :=
  let* l := get_list in slist_for_each (length l) get_list body (head l).

Definition SYS_SLIST_FOR_EACH_SAFE (get_list : M W (list addr)) (body : addr -> M W unit) : M W unit :=
  let* l := get_list in slist_for_each_safe (length l) get_list body (head l).

(** [STRUCT_SECTION_FOREACH]: the positions of a section of [n] entries. *)
Fixpoint section_for_each (n i : nat) (body : nat -> M W unit) : M W unit :=
  match n with
  | O => ret tt
  | S n => body i ;; section_for_each n (S i) body
  end.
End iteration.

(** The three kinds of nodes. *)
Section nodes.
Context {E : Type}.
Definition touch_reg (a : addr) : M (world E) unit := let* _ := read_dyn_reg a in ret tt.
Definition touch_data (a : addr) : M (world E) unit := let* _ := read_data_item a in ret tt.
Definition touch_id (a : addr) : M (world E) unit := let* _ := read_id_item a in ret tt.
End nodes.

(** The union members the functions use. *)
Definition reg_data (r : uds_registration_t) : option addr :=
  match payload r with data_identifier d _ _ _ _ => Some d | _ => None end.
Definition reg_data_id (r : uds_registration_t) : option Z :=
  match payload r with data_identifier _ i _ _ _ => Some i | _ => None end.
Definition reg_id_list (r : uds_registration_t) : option (list addr) :=
  match payload r with dynamically_define_data_ids l _ => Some l | _ => None end.
Definition set_reg_id_list (l : list addr) (r : uds_registration_t) : uds_registration_t :=
  match payload r with
  | dynamically_define_data_ids _ a => set_payload (dynamically_define_data_ids l a) r
  | _ => r
  end.

Section dddi.
Context {E : Type} `{!Server E} `{!UdsCallbacks E}.
(** [uds_event_callback] of the instance, called again for every part of an
    identifier. *)
Context (event_callback : UDSEvent_t -> uds_arg -> M (world E) (UDSErr_t * uds_arg)).
Implicit Types (context : uds_context).

Definition uds_check_default_dynamically_define_data_ids context (apply_action : bool) :
    M (world E) (UDSErr_t * bool) :=
  match ctx_arg context with
  | UDSDDDIArgs ty _ _ _ =>
      ret (UDS_OK, if (ty =? UDS_DYNAMICALLY_DEFINED_DATA_IDS__DEFINE_BY_DATA_ID) ||
                      (ty =? UDS_DYNAMICALLY_DEFINED_DATA_IDS__DEFINE_BY_MEMORY_ADDRESS) ||
                      (ty =? UDS_DYNAMICALLY_DEFINED_DATA_IDS__CLEAR)
                   then true else apply_action)
  | _ => fail BadArgument
  end.

Definition uds_dynamic_data_by_id_read_data_by_id_check context (apply_action : bool) :
    M (world E) (UDSErr_t * bool) :=
  let* reg := read_reg (ctx_registration context) in
  match ctx_arg context, reg_data_id reg with
  | UDSRDBIArgs dataId _, Some data_id =>
      ret (UDS_OK, if data_id =? dataId then true else apply_action)
  | _, _ => fail BadArgument
  end.

(** *** Reading a dynamic identifier *)

(** The body of the loop for one part; [Some e] ends the action with [e]. *)
Definition read_item (parent_copy : copy_fn) (data : uds_dynamically_defined_data) :
    M (world E) (option UDSErr_t) :=
  match data with
  | UDS_DYNAMICALLY_DEFINED_DATA_TYPE__ID id position size =>
      modify (set_temp_buffer []) ;;
      let* (r, _) := event_callback UDS_EVT_ReadDataByIdent (UDSRDBIArgs id copy_uds_copy) in
      if decide (r <> UDS_PositiveResponse) then ret (Some r)
      else
        let* buf := gets temp_buffer in
        if Z.of_nat (length buf) <? position + size then ret (Some UDS_NRC_GeneralReject)
        else
          let* r := call_copy parent_copy (Some (drop (Z.to_nat position) buf)) size in
          if decide (r <> UDS_OK) then ret (Some r) else ret None
  | UDS_DYNAMICALLY_DEFINED_DATA_TYPE__MEMORY memAddr memSize =>
      let* (r, _) := event_callback UDS_EVT_ReadMemByAddr (UDSReadMemByAddrArgs memAddr memSize parent_copy) in
      if decide (r <> UDS_PositiveResponse) then ret (Some r) else ret None
  end.

Fixpoint read_items_loop (fuel : nat) (list_obj : addr) (parent_copy : copy_fn) (cur : option addr) :
    M (world E) (option UDSErr_t) :=
  match cur with
  | None => ret None
  | Some a =>
      match fuel with
      | O => fail OutOfFuel
      | S fuel =>
          let* data := read_data_item a in
          let* r := read_item parent_copy data in
          match r with
          | Some e => ret (Some e)
          | None =>
              let* _ := read_data_item a in
              let* l := read_data_list list_obj in
              read_items_loop fuel list_obj parent_copy (slist_next l a)
          end
      end
  end.

Definition uds_dynamic_data_by_id_read_data_by_id_action context (consume_event : bool) :
    M (world E) (UDSErr_t * bool * uds_arg) :=
  match ctx_arg context with
  | UDSRDBIArgs _ copy =>
      let* reg := read_reg (ctx_registration context) in
      let* list_obj := of_option BadArgument (reg_data reg) in
      let* l := read_data_list list_obj in
      let* r := read_items_loop (length l) list_obj copy (head l) in
      match r with
      | Some e => ret (e, consume_event, ctx_arg context)
      | None => ret (UDS_OK, true, ctx_arg context)
      end
  | _ => fail BadArgument
  end.

(** *** Freeing *)

Definition uds_unregister_dynamic_identifier (this : addr) : M (world E) Z :=
  let* reg := read_dyn_reg this in
  let* list_obj := of_option BadArgument (reg_data reg) in
  SYS_SLIST_FOR_EACH_SAFE touch_data (read_data_list list_obj) k_free ;;
  k_free list_obj ;;
  ret 0.

(** [sys_slist_remove (data_list, NULL, node)] for the first node, and freeing
    it: the cleanup loop of three functions. *)
Definition remove_first_and_free (list_obj a : addr) : M (world E) unit :=
  let* l := read_data_list list_obj in
  write_obj list_obj (obj_data_list (tail l)) ;;
  k_free a.

Definition free_items (list_obj : addr) : M (world E) unit :=
  SYS_SLIST_FOR_EACH_SAFE touch_data (read_data_list list_obj) (remove_first_and_free list_obj).

(** *** Defining *)

(** Both [uds_append_dynamic_*_to_registration] functions, after they have
    read the part from the argument. *)
Definition append_data_item (data : uds_dynamically_defined_data) (list_obj : addr) : M (world E) UDSErr_t :=
  let* a := k_malloc (obj_data_item data) in
  match a with
  | None => free_items list_obj ;; ret UDS_NRC_GeneralReject
  | Some a =>
      let* l := read_data_list list_obj in
      write_obj list_obj (obj_data_list (l ++ [a])) ;;
      ret UDS_OK
  end.

Definition uds_append_dynamic_data_identifiers_to_registration (args : dddi_sub_args) (list_obj : addr) :
    M (world E) UDSErr_t :=
  match args with
  | defineById id position size => append_data_item (UDS_DYNAMICALLY_DEFINED_DATA_TYPE__ID id position size) list_obj
  | _ => fail BadArgument
  end.

Definition uds_append_dynamic_memory_addresses_to_registration (args : dddi_sub_args) (list_obj : addr) :
    M (world E) UDSErr_t :=
  match args with
  | defineByMemAddress memAddr memSize =>
      append_data_item (UDS_DYNAMICALLY_DEFINED_DATA_TYPE__MEMORY memAddr memSize) list_obj
  | _ => fail BadArgument
  end.

(** The list of identifiers of the handler's own registration. *)
Definition read_id_list (p : reg_ptr) : M (world E) (list addr) :=
  let* reg := read_reg p in of_option BadArgument (reg_id_list reg).

Definition write_id_list (p : reg_ptr) (l : list addr) : M (world E) unit :=
  let* reg := read_reg p in write_reg p (set_reg_id_list l reg).

(** Whether some item of [l] has the identifier [id]. *)
Fixpoint id_listed (l : list addr) (id : Z) : M (world E) bool :=
  match l with
  | [] => ret false
  | a :: l => let* i := read_id_item a in if i =? id then ret true else id_listed l id
  end.

Fixpoint find_existing_loop (regs : list addr) (p : reg_ptr) (data_id : Z) : M (world E) (option addr) :=
  match regs with
  | [] => ret None
  | a :: regs =>
      let* reg := read_dyn_reg a in
      if bool_decide (type reg = UDS_REGISTRATION_TYPE__DATA_IDENTIFIER) &&
         bool_decide (reg_data_id reg = Some data_id) then
        let* l := read_id_list p in
        let* listed := id_listed l (dynamic_registration_id reg) in
        if (listed : bool) then ret (Some a) else find_existing_loop regs p data_id
      else find_existing_loop regs p data_id
  end.

(** [None] is the return value -1. *)
Definition uds_find_existing_registration_by_data_id context (data_id : Z) : M (world E) (option addr) :=
  let* regs := gets dynamic_registrations in
  find_existing_loop regs (ctx_registration context) data_id.

Definition new_data_identifier (inst : nat) (list_obj : addr) (data_id : Z) : uds_registration_t :=
  Registration (Some inst) 0
    (data_identifier list_obj data_id
       (Actor (Some uds_dynamic_data_by_id_read_data_by_id_check_fn)
              (Some uds_dynamic_data_by_id_read_data_by_id_action_fn))
       null_actor null_actor)
    0 (Some uds_unregister_dynamic_identifier_fn).

(** The return value, and the new registration when it is 0. *)
Definition uds_create_new_data_identifier_by_id context (data_id : Z) : M (world E) (Z * option addr) :=
  let* data_list := k_malloc (obj_data_list []) in
  match data_list with
  | None => ret (-1, None)
  | Some data_list =>
      let* reg := k_malloc (obj_registration (new_data_identifier (ctx_instance context) data_list data_id)) in
      match reg with
      | None => k_free data_list ;; ret (-2, None)
      | Some reg => ret (0, Some reg)
      end
  end.

Definition uds_register_new_data_by_id_item context (reg : addr) : M (world E) UDSErr_t :=
  let* registration := read_dyn_reg reg in
  let* (rc, out) := uds_register_event_handler registration in
  if rc <? 0 then ret (UDSErr_int rc)
  else match out with
  | None => fail NullPointer
  | Some (dynamic_id, _) =>
      let* item := k_malloc (obj_id_item dynamic_id) in
      match item with
      | None => uds_unregister_event_handler dynamic_id ;; ret UDS_NRC_GeneralReject
      | Some item =>
          let* l := read_id_list (ctx_registration context) in
          write_id_list (ctx_registration context) (l ++ [item]) ;;
          k_free reg ;;
          ret UDS_OK
      end
  end.

(** [read_data_by_id_reg->data_identifier.data] *)
Definition read_reg_data (reg : addr) : M (world E) addr :=
  let* r := read_dyn_reg reg in of_option BadArgument (reg_data r).

(** Both [uds_dynamicallY_define_data_by_*_add_new_id] functions; [append] is
    the one statement they differ in. *)
Definition add_new_id (append : addr -> M (world E) UDSErr_t) context (dynamicDataId : Z)
    (consume_event : bool) : M (world E) (UDSErr_t * bool) :=
  let* existing := uds_find_existing_registration_by_data_id context dynamicDataId in
  match existing with
  | Some reg =>
      let* data_list := read_reg_data reg in
      let* r := append data_list in
      if decide (r <> UDS_OK) then ret (r, consume_event) else ret (UDS_OK, true)
  | None =>
      let* (rc, reg) := uds_create_new_data_identifier_by_id context dynamicDataId in
      match reg with
      | None => ret (UDS_NRC_GeneralReject, consume_event)
      | Some reg =>
          let* data_list := read_reg_data reg in
          let* r := append data_list in
          if decide (r <> UDS_OK) then
            let* d := read_reg_data reg in
            k_free d ;; k_free reg ;; ret (r, consume_event)
          else
            let* r := uds_register_new_data_by_id_item context reg in
            if decide (r <> UDS_OK) then
              free_items data_list ;;
              let* d := read_reg_data reg in
              k_free d ;; k_free reg ;; ret (r, consume_event)
            else ret (UDS_OK, true)
      end
  end.

Definition uds_dynamicallY_define_data_by_id_add_new_id context (consume_event : bool) :
    M (world E) (UDSErr_t * bool) :=
  match ctx_arg context with
  | UDSDDDIArgs _ _ dynamicDataId sub =>
      add_new_id (uds_append_dynamic_data_identifiers_to_registration sub) context dynamicDataId consume_event
  | _ => fail BadArgument
  end.

Definition uds_dynamicallY_define_data_by_memory_address_add_new_id context (consume_event : bool) :
    M (world E) (UDSErr_t * bool) :=
  match ctx_arg context with
  | UDSDDDIArgs _ _ dynamicDataId sub =>
      add_new_id (uds_append_dynamic_memory_addresses_to_registration sub) context dynamicDataId consume_event
  | _ => fail BadArgument
  end.

(** *** Clearing *)

(** The first registration of the data identifier is unregistered, whatever
    its kind; yields its dynamic identifier, or 0. *)
Fixpoint remove_registration_loop (regs : list addr) (data_id : Z) : M (world E) Z :=
  match regs with
  | [] => ret 0
  | a :: regs =>
      let* reg := read_dyn_reg a in
      if bool_decide (type reg = UDS_REGISTRATION_TYPE__DATA_IDENTIFIER) &&
         bool_decide (reg_data_id reg = Some data_id) then
        uds_unregister_event_handler (dynamic_registration_id reg) ;;
        ret (dynamic_registration_id reg)
      else remove_registration_loop regs data_id
  end.

(** Removing one item of an identifier list, and freeing it. *)
Definition remove_id_item (p : reg_ptr) (item : addr) : M (world E) unit :=
  let* l := read_id_list p in
  write_id_list p (slist_find_and_remove l item).2 ;;
  k_free item.

(** For a registration of the dynamically-define type: its items with the
    identifier [id]. *)
Definition remove_matching_items (id : Z) (p : reg_ptr) : M (world E) unit :=
  let* reg := read_reg p in
  if bool_decide (type reg = UDS_REGISTRATION_TYPE__DYNAMIC_DEFINE_DATA_IDS) then
    SYS_SLIST_FOR_EACH_SAFE touch_id (read_id_list p) (fun item =>
      let* i := read_id_item item in
      if i =? id then remove_id_item p item else ret tt)
  else ret tt.

Definition uds_dynamicallY_define_data_by_id_remove_single_id (data_id : Z) : M (world E) unit :=
  let* regs := gets dynamic_registrations in
  let* dynamic_id_to_remove := remove_registration_loop regs data_id in
  let* n := gets (fun w => length (static_regs w)) in
  section_for_each n 0 (fun i => remove_matching_items dynamic_id_to_remove (StaticReg i)) ;;
  SYS_SLIST_FOR_EACH touch_reg (gets dynamic_registrations)
    (fun a => remove_matching_items dynamic_id_to_remove (DynReg a)).

(** For a registration of the dynamically-define type: unregister everything
    its list names. *)
Definition unregister_listed (p : reg_ptr) : M (world E) unit :=
  let* reg := read_reg p in
  if bool_decide (type reg = UDS_REGISTRATION_TYPE__DYNAMIC_DEFINE_DATA_IDS) then
    SYS_SLIST_FOR_EACH touch_id (read_id_list p) (fun item =>
      let* id := read_id_item item in
      uds_unregister_event_handler id ;; ret tt)
  else ret tt.

Definition remove_all_items (p : reg_ptr) : M (world E) unit :=
  let* reg := read_reg p in
  if bool_decide (type reg = UDS_REGISTRATION_TYPE__DYNAMIC_DEFINE_DATA_IDS) then
    SYS_SLIST_FOR_EACH_SAFE touch_id (read_id_list p) (remove_id_item p)
  else ret tt.

Definition uds_dynamicallY_define_data_by_id_remove_all_ids : M (world E) unit :=
  let* n := gets (fun w => length (static_regs w)) in
  section_for_each n 0 (fun i => unregister_listed (StaticReg i)) ;;
  SYS_SLIST_FOR_EACH touch_reg (gets dynamic_registrations) (fun a => unregister_listed (DynReg a)) ;;
  section_for_each n 0 (fun i => remove_all_items (StaticReg i)) ;;
  SYS_SLIST_FOR_EACH touch_reg (gets dynamic_registrations) (fun a => remove_all_items (DynReg a)).

Definition uds_dynamicallY_define_data_by_id_remove_ids context (consume_event : bool) :
    M (world E) (UDSErr_t * bool) :=
  match ctx_arg context with
  | UDSDDDIArgs _ allDataIds dynamicDataId _ =>
      (if (allDataIds : bool) then uds_dynamicallY_define_data_by_id_remove_all_ids
       else uds_dynamicallY_define_data_by_id_remove_single_id dynamicDataId) ;;
      ret (UDS_OK, true)
  | _ => fail BadArgument
  end.

Definition uds_action_default_dynamically_define_data_ids context (consume_event : bool) :
    M (world E) (UDSErr_t * bool * uds_arg) :=
  match ctx_arg context with
  | UDSDDDIArgs ty _ _ _ =>
      let* (r, c) :=
        if ty =? UDS_DYNAMICALLY_DEFINED_DATA_IDS__DEFINE_BY_DATA_ID
        then uds_dynamicallY_define_data_by_id_add_new_id context consume_event
        else if ty =? UDS_DYNAMICALLY_DEFINED_DATA_IDS__DEFINE_BY_MEMORY_ADDRESS
        then uds_dynamicallY_define_data_by_memory_address_add_new_id context consume_event
        else if ty =? UDS_DYNAMICALLY_DEFINED_DATA_IDS__CLEAR
        then uds_dynamicallY_define_data_by_id_remove_ids context consume_event
        else ret (UDS_NRC_SubFunctionNotSupported, consume_event) in
      ret (r, c, ctx_arg context)
  | _ => fail BadArgument
  end.
End dddi.

(** ** The data structure *)

Section structure.
Context {E : Type}.
Implicit Types (w : world E) (hp : gmap addr obj).

(** The items of a list object, and what they hold. *)
Definition items_at hp (items : list addr) (parts : list uds_dynamically_defined_data) : Prop :=
  Forall2 (fun a d => hp !! a = Some (obj_data_item d)) items parts.

(** The identifier items of a handler registration. *)
Definition id_items_at hp (items : list addr) (vals : list Z) : Prop :=
  Forall2 (fun a i => hp !! a = Some (obj_id_item i)) items vals.

(** [r] is a registration made for the dynamic identifier [did] with the
    parts [parts], its list object at [lo]. *)
Record dynamic_identifier hp (did : Z) (parts : list uds_dynamically_defined_data)
    (lo : addr) (items : list addr) (r : uds_registration_t) : Prop := DynamicIdentifier {
  di_payload : payload r = data_identifier lo did
    (Actor (Some uds_dynamic_data_by_id_read_data_by_id_check_fn)
           (Some uds_dynamic_data_by_id_read_data_by_id_action_fn)) null_actor null_actor;
  di_unregister : unregister_registration_fn r = Some uds_unregister_dynamic_identifier_fn;
  di_list : hp !! lo = Some (obj_data_list items);
  di_items : items_at hp items parts;
  di_nodup : NoDup items;
}.

(** The heap without the nodes [l]. *)
Definition delete_all (l : list addr) hp : gmap addr obj := foldl (fun h a => delete a h) hp l.

Lemma lookup_delete_all l hp a : delete_all l hp !! a = if decide (a ∈ l) then None else hp !! a.
Proof.
  unfold delete_all. revert hp. induction l as [|x l IH]; intros hp; [done|]. cbn.
  rewrite IH. destruct (decide (a = x)) as [->|Hne].
  - rewrite lookup_delete_eq. rewrite (decide_True _ _ (P := x ∈ x :: l)) by set_solver. by destruct (decide (x ∈ l)).
  - rewrite lookup_delete_ne by done. destruct (decide (a ∈ l)).
    + by rewrite decide_True by set_solver.
    + by rewrite decide_False by set_solver.
Qed.

Lemma items_at_not_list hp items parts lo l :
  items_at hp items parts -> hp !! lo = Some (obj_data_list l) -> lo ∉ items.
Proof.
  intros Hi Hl Hin. apply list_elem_of_lookup in Hin as [i Hin].
  destruct (Forall2_lookup_l _ _ _ _ _ Hi Hin) as (d & _ & Hd). congruence.
Qed.

Lemma items_at_frame hp hp' items parts :
  items_at hp items parts -> (forall a, a ∈ items -> hp' !! a = hp !! a) -> items_at hp' items parts.
Proof.
  induction 1 as [|a d items parts Ha _ IH]; intros Hfr; constructor.
  - rewrite Hfr; [done|set_solver].
  - apply IH. set_solver.
Qed.

Lemma read_data_list_run w lo l :
  heap w !! lo = Some (obj_data_list l) -> read_data_list lo w = Ret l w.
Proof. intros H. unfold read_data_list, read_obj, bind. by rewrite H. Qed.

Lemma read_data_item_run w a d :
  heap w !! a = Some (obj_data_item d) -> read_data_item a w = Ret d w.
Proof. intros H. unfold read_data_item, read_obj, bind. by rewrite H. Qed.

Lemma touch_data_run w a d : heap w !! a = Some (obj_data_item d) -> touch_data a w = Ret tt w.
Proof. intros H. unfold touch_data, bind. by rewrite (read_data_item_run _ _ _ H). Qed.

Lemma k_free_run w a o : heap w !! a = Some o -> k_free a w = Ret tt (set_heap (delete a (heap w)) w).
Proof. intros H. unfold k_free. by rewrite H. Qed.

Lemma set_heap_set_heap h1 h2 w : set_heap h1 (set_heap h2 w) = set_heap h1 w.
Proof. done. Qed.

Lemma set_heap_self w : set_heap (heap w) w = w.
Proof. by destruct w. Qed.

(** The cleanup loop [free_items]: every item is freed exactly once and the
    list is empty afterwards. *)
Lemma free_items_loop lo parts : forall items w fuel,
  heap w !! lo = Some (obj_data_list items) -> items_at (heap w) items parts -> NoDup items ->
  (length items <= fuel)%nat ->
  slist_for_each_safe touch_data fuel (read_data_list lo) (remove_first_and_free lo) (head items) w =
  Ret tt (set_heap (delete_all items (<[lo := obj_data_list []]> (heap w))) w).
Proof.
  induction parts as [|d parts IH]; intros items w fuel Hl Hi Hn Hf.
  - apply Forall2_nil_inv_r in Hi as ->. destruct fuel; cbn; unfold ret;
      rewrite insert_id by done; by rewrite set_heap_self.
  - pose proof Hi as Hi0. apply Forall2_cons_inv_r in Hi as (a & items' & Ha & Hi & ->).
    destruct fuel as [|fuel]; [cbn in Hf; lia|]. apply NoDup_cons in Hn as [Han Hn].
    pose proof (items_at_not_list _ _ _ _ _ Hi0 Hl) as Hlo. apply not_elem_of_cons in Hlo as [Hlo1 Hlo2].
    cbn [slist_for_each_safe head]. rewrite (bind_step _ _ _ _ _ (touch_data_run _ _ _ Ha)).
    rewrite (bind_step _ _ _ _ _ (read_data_list_run _ _ _ Hl)).
    unfold remove_first_and_free at 1. rewrite bind_assoc, (bind_step _ _ _ _ _ (read_data_list_run _ _ _ Hl)).
    rewrite bind_assoc. unfold write_obj. unfold bind at 1. rewrite Hl. cbn [tail].
    erewrite bind_step; [|apply (k_free_run _ _ (obj_data_item d)); cbn; by rewrite lookup_insert_ne].
    cbn [slist_next]. rewrite decide_True by done. rewrite set_heap_set_heap. cbn [heap set_heap].
    rewrite (IH items' (set_heap (delete a (<[lo:=obj_data_list items']> (heap w))) w)); cbn [heap set_heap].
    + rewrite set_heap_set_heap. unfold delete_all. cbn. do 3 f_equal.
      rewrite delete_insert_ne, insert_insert_eq by done. by rewrite delete_insert_ne by done.
    + rewrite lookup_delete_ne by done. by rewrite lookup_insert_eq.
    + eapply items_at_frame; [exact Hi|]. intros b Hb.
      rewrite lookup_delete_ne, lookup_insert_ne; [done| |]; set_solver.
    + done.
    + cbn in Hf. lia.
Qed.

Lemma free_items_run w lo items parts :
  heap w !! lo = Some (obj_data_list items) -> items_at (heap w) items parts -> NoDup items ->
  free_items lo w = Ret tt (set_heap (delete_all items (<[lo := obj_data_list []]> (heap w))) w).
Proof.
  intros Hl Hi Hn. unfold free_items, SYS_SLIST_FOR_EACH_SAFE.
  rewrite (bind_step _ _ _ _ _ (read_data_list_run _ _ _ Hl)). by eapply free_items_loop.
Qed.

(** The loop of [uds_unregister_dynamic_identifier]: the list object keeps
    naming the nodes while they are freed. *)
Lemma free_nodes_loop lo parts : forall items l1 w fuel,
  heap w !! lo = Some (obj_data_list (l1 ++ items)) -> items_at (heap w) items parts ->
  NoDup (l1 ++ items) -> (length items <= fuel)%nat ->
  slist_for_each_safe touch_data fuel (read_data_list lo) k_free (head items) w =
  Ret tt (set_heap (delete_all items (heap w)) w).
Proof.
  induction parts as [|d parts IH]; intros items l1 w fuel Hl Hi Hn Hf.
  - apply Forall2_nil_inv_r in Hi as ->. destruct fuel; cbn; unfold ret; by rewrite set_heap_self.
  - pose proof (items_at_not_list _ _ _ _ _ Hi Hl) as Hlo.
    apply Forall2_cons_inv_r in Hi as (a & items' & Ha & Hi & ->).
    destruct fuel as [|fuel]; [cbn in Hf; lia|].
    cbn [slist_for_each_safe head]. rewrite (bind_step _ _ _ _ _ (touch_data_run _ _ _ Ha)).
    rewrite (bind_step _ _ _ _ _ (read_data_list_run _ _ _ Hl)).
    rewrite (bind_step _ _ _ _ _ (k_free_run _ _ _ Ha)).
    rewrite slist_next_app_cons by (apply NoDup_app in Hn; set_solver).
    rewrite (IH items' (l1 ++ [a]) (set_heap (delete a (heap w)) w)); cbn [heap set_heap].
    + by rewrite set_heap_set_heap.
    + rewrite lookup_delete_ne by set_solver. by rewrite <- (assoc_L app).
    + eapply items_at_frame; [exact Hi|]. intros b Hb. rewrite lookup_delete_ne; [done|].
      apply NoDup_app in Hn as (_ & _ & Hn). apply NoDup_cons in Hn. set_solver.
    + by rewrite <- (assoc_L app).
    + cbn in Hf. lia.
Qed.

Lemma read_dyn_reg_run w a r : heap w !! a = Some (obj_registration r) -> read_dyn_reg a w = Ret r w.
Proof. intros H. by apply read_dyn_reg_Ret. Qed.

Lemma unregister_dynamic_identifier_run w a r did parts lo items :
  heap w !! a = Some (obj_registration r) -> dynamic_identifier (heap w) did parts lo items r ->
  uds_unregister_dynamic_identifier a w =
  Ret 0 (set_heap (delete lo (delete_all items (heap w))) w).
Proof.
  intros Ha [Hp _ Hl Hi Hn]. unfold uds_unregister_dynamic_identifier.
  rewrite (bind_step _ _ _ _ _ (read_dyn_reg_run _ _ _ Ha)).
  unfold reg_data. rewrite Hp. unfold bind at 1, of_option, ret at 1, SYS_SLIST_FOR_EACH_SAFE.
  rewrite bind_assoc, (bind_step _ _ _ _ _ (read_data_list_run _ _ _ Hl)).
  erewrite bind_step; [|by apply (free_nodes_loop lo parts items [])].
  erewrite bind_step; [|eapply k_free_run; cbn; rewrite lookup_delete_all, decide_False; [exact Hl|];
    by eapply items_at_not_list]. by rewrite set_heap_set_heap.
Qed.
End structure.

(** ** Reading: properties *)

Section reading.
Context {E : Type} `{!Server E} `{!UdsCallbacks E}.
Context (event_callback : UDSEvent_t -> uds_arg -> M (world E) (UDSErr_t * uds_arg)).
Implicit Types (w : world E).

(** What the event callback does with the simulated requests for the parts:
    reading a readable identifier [id] with the collecting copy leaves
    [did_value id] in the buffer, reading a readable memory range with the
    parent's copy sends [mem_value addr size]. [sent] is what the server has put into the
    response, [good] holds of the states of the program in which the sources
    are registered. *)
Context (good : world E -> Prop) (did_readable : Z -> Prop) (did_value : Z -> list Z)
  (mem_readable : Z -> Z -> Prop) (mem_value : Z -> Z -> list Z) (sent : E -> list Z).

(** The parts of an identifier that can be read: the slices lie inside the
    values. *)
Definition part_ok (d : uds_dynamically_defined_data) : Prop :=
  match d with
  | UDS_DYNAMICALLY_DEFINED_DATA_TYPE__ID id position size =>
      did_readable id /\ 0 <= position /\ 0 <= size < 65536 /\
      position + size <= Z.of_nat (length (did_value id))
  | UDS_DYNAMICALLY_DEFINED_DATA_TYPE__MEMORY a n => mem_readable a n
  end.

Definition part_value (d : uds_dynamically_defined_data) : list Z :=
  match d with
  | UDS_DYNAMICALLY_DEFINED_DATA_TYPE__ID id position size =>
      take (Z.to_nat size) (drop (Z.to_nat position) (did_value id))
  | UDS_DYNAMICALLY_DEFINED_DATA_TYPE__MEMORY a n => mem_value a n
  end.

(** Two states with the same heap and registrations. *)
Definition same_registry w w' : Prop :=
  heap w' = heap w /\ dynamic_registrations w' = dynamic_registrations w /\ static_regs w' = static_regs w.

Class ReadLaws : Prop := {
  read_did_law : forall id w, good w -> did_readable id -> temp_buffer w = [] -> exists a w',
    event_callback UDS_EVT_ReadDataByIdent (UDSRDBIArgs id copy_uds_copy) w = Ret (UDS_OK, a) w' /\
    good w' /\ temp_buffer w' = did_value id /\ same_registry w w' /\ sent (ext w') = sent (ext w);
  read_mem_law : forall a n w, good w -> mem_readable a n -> exists x w',
    event_callback UDS_EVT_ReadMemByAddr (UDSReadMemByAddrArgs a n copy_server) w = Ret (UDS_OK, x) w' /\
    good w' /\ same_registry w w' /\ sent (ext w') = sent (ext w) ++ mem_value a n;
  send_law : forall bs n w, good w -> 0 <= n <= Z.of_nat (length bs) ->
    exists e', server_copy (Some bs) n (ext w) = Ret UDS_OK e' /\ good (set_ext e' w) /\
      sent e' = sent (ext w) ++ take (Z.to_nat n) bs;
  good_temp_buffer : forall w, good w -> good (set_temp_buffer [] w);
}.
Context `{!ReadLaws}.

Lemma read_item_run w d :
  good w -> part_ok d ->
  exists w', read_item event_callback copy_server d w = Ret None w' /\ good w' /\ same_registry w w' /\
    sent (ext w') = sent (ext w) ++ part_value d.
Proof.
  intros Hgood. destruct d as [id position size|a n]; cbn [read_item part_ok part_value].
  - intros (Hrd & Hp & Hs & Hle). unfold bind at 1, modify.
    destruct (read_did_law id (set_temp_buffer [] w) (good_temp_buffer w Hgood) Hrd eq_refl)
      as (a & w1 & Hrun & Hg1 & Hbuf & Hreg & Hsent).
    rewrite (bind_step _ _ _ _ _ Hrun), decide_False by (intros Hx; by apply Hx).
    unfold bind at 1, gets. rewrite Hbuf, (proj2 (Z.ltb_ge _ _)) by lia.
    unfold bind, call_copy, on_ext, zoom. rewrite (wrap_small 16) by (unfold in_width; lia).
    destruct (send_law (drop (Z.to_nat position) (did_value id)) size w1 Hg1) as (e2 & Hc & Hg2 & Hs2).
    { rewrite length_drop. lia. }
    rewrite Hc, decide_False by (intros Hx; by apply Hx). eexists. split; [reflexivity|].
    split; [exact Hg2|]. split; [destruct Hreg as (H1 & H2 & H3); done|].
    cbn. by rewrite Hs2, Hsent.
  - intros Hrd. destruct (read_mem_law a n w Hgood Hrd) as (x & w1 & Hrun & Hg1 & Hreg & Hsent).
    rewrite (bind_step _ _ _ _ _ Hrun), decide_False by (intros Hx; by apply Hx).
    exists w1. done.
Qed.

Lemma read_items_run lo parts : forall items l1 w fuel,
  heap w !! lo = Some (obj_data_list (l1 ++ items)) -> items_at (heap w) items parts ->
  NoDup (l1 ++ items) -> good w -> Forall part_ok parts -> (length items <= fuel)%nat ->
  exists w', read_items_loop event_callback fuel lo copy_server (head items) w = Ret None w' /\
    same_registry w w' /\ sent (ext w') = sent (ext w) ++ concat (map part_value parts).
Proof.
  induction parts as [|d parts IH]; intros items l1 w fuel Hl Hi Hn Hg Hok Hf.
  - apply Forall2_nil_inv_r in Hi as ->. exists w. split; [by destruct fuel|]. by rewrite app_nil_r.
  - apply Forall2_cons_inv_r in Hi as (a & items' & Ha & Hi & ->).
    apply Forall_cons in Hok as [Hd Hok]. destruct fuel as [|fuel]; [cbn in Hf; lia|].
    cbn [read_items_loop head]. rewrite (bind_step _ _ _ _ _ (read_data_item_run _ _ _ Ha)).
    destruct (read_item_run w d Hg Hd) as (w1 & Hrun & Hg1 & Hreg & Hsent). rewrite (bind_step _ _ _ _ _ Hrun).
    pose proof Hreg as (Hh & Hdr & Hsr). rewrite <- Hh in Ha, Hl, Hi.
    rewrite (bind_step _ _ _ _ _ (read_data_item_run _ _ _ Ha)).
    rewrite (bind_step _ _ _ _ _ (read_data_list_run _ _ _ Hl)).
    rewrite slist_next_app_cons by (apply NoDup_app in Hn; set_solver).
    destruct (IH items' (l1 ++ [a]) w1 fuel) as (w2 & Hrun2 & Hreg2 & Hsent2); try done.
    + by rewrite <- (assoc_L app).
    + by rewrite <- (assoc_L app).
    + cbn in Hf. lia.
    + exists w2. split; [done|]. destruct Hreg2 as (? & ? & ?). split; [split_and!; congruence|].
      rewrite Hsent2, Hsent. cbn. by rewrite (assoc_L app).
Qed.

(** C9. Reading a dynamic identifier sends the concatenation of its parts in
    the order of definition: the selected slice of every source identifier
    and every memory range. The loop ends, consumes the event and leaves all
    registrations and the heap as they were. *)
Theorem read_dynamic_identifier w p r did parts lo items ev dataId consume :
  good w -> read_reg p w = Ret r w ->
  dynamic_identifier (heap w) did parts lo items r -> Forall part_ok parts ->
  let c := Context (inst_id w) p ev (UDSRDBIArgs dataId copy_server) in
  exists w', uds_dynamic_data_by_id_read_data_by_id_action event_callback c consume w =
      Ret (UDS_OK, true, UDSRDBIArgs dataId copy_server) w' /\
    same_registry w w' /\ sent (ext w') = sent (ext w) ++ concat (map part_value parts).
Proof.
  intros Hg Hr [Hp _ Hl Hi Hn] Hok c. unfold uds_dynamic_data_by_id_read_data_by_id_action. cbn [ctx_arg c ctx_registration].
  rewrite (bind_step _ _ _ _ _ Hr). unfold reg_data. rewrite Hp. unfold bind at 1, of_option, ret at 1.
  rewrite (bind_step _ _ _ _ _ (read_data_list_run _ _ _ Hl)).
  destruct (read_items_run lo parts items [] w (length items) Hl Hi Hn Hg Hok ltac:(lia)) as (w' & Hrun & H1 & H2).
  exists w'. by rewrite (bind_step _ _ _ _ _ Hrun).
Qed.
End reading.

(** ** Defining and clearing: lemmas *)

Section defining.
Context {E : Type} `{!Server E} `{!UdsCallbacks E}.
Implicit Types (w : world E) (h : gmap addr obj) (rs : list uds_registration_t).

(** A state of the same run as [w0]: [k] allocations have been asked for. *)
Definition mk w0 (k : nat) h (dr : list addr) (sr : list uds_registration_t) (n : addr) : world E :=
  World (inst_id w0) sr dr h n (drop k (oom w0)) (temp_buffer w0) (ext w0).

(** The environment refuses the [k]-th allocation of the run. *)
Definition refused w0 (k : nat) : bool := bool_decide (oom w0 !! k = Some true).

Lemma mk_self w : w = mk w 0 (heap w) (dynamic_registrations w) (static_regs w) (next_addr w).
Proof. by destruct w. Qed.

Lemma tail_drop {A} (l : list A) k : tail (drop k l) = drop (S k) l.
Proof. revert k. induction l as [|x l IH]; intros [|k]; try done. cbn. apply IH. Qed.

Lemma head_drop (l : list bool) k :
  match drop k l with true :: _ => true | _ => false end = bool_decide (l !! k = Some true).
Proof. revert k. induction l as [|[] l IH]; intros [|k]; try done; apply IH. Qed.

Lemma malloc_mk w0 k h dr sr n o :
  k_malloc o (mk w0 k h dr sr n) =
  if refused w0 k then Ret None (mk w0 (S k) h dr sr n)
  else Ret (Some n) (mk w0 (S k) (<[n := o]> h) dr sr (Pos.succ n)).
Proof.
  unfold k_malloc, out_of_memory, refused, mk, alloc, set_oom. cbn. rewrite head_drop.
  change (match drop k (oom w0) with [] => [] | _ :: l => l end) with (tail (drop k (oom w0))).
  by rewrite tail_drop.
Qed.

Lemma registry_mk w0 k h dr sr n rs :
  points_to h dr rs -> NoDup dr -> NoDup (ids rs) -> Forall (fun i => 1 <= i <= UINT32_MAX) (ids rs) ->
  (forall a, is_Some (h !! a) -> (a < n)%positive) -> registry (mk w0 k h dr sr n) rs.
Proof. by constructor. Qed.

Lemma points_to_frame h h' l rs :
  points_to h l rs -> (forall a, a ∈ l -> h' !! a = h !! a) -> points_to h' l rs.
Proof.
  induction 1 as [|a r l rs Ha _ IH]; intros Hfr; constructor.
  - rewrite Hfr; [done|set_solver].
  - apply IH. set_solver.
Qed.

Lemma id_listed_run l vals id w :
  id_items_at (heap w) l vals -> id_listed l id w = Ret (bool_decide (id ∈ vals)) w.
Proof.
  induction 1 as [|a i l vals Ha _ IH]; cbn.
  - by rewrite bool_decide_false by set_solver.
  - unfold read_id_item, read_obj, bind. rewrite Ha. cbn. destruct (Z.eqb_spec i id) as [->|Hne].
    + by rewrite bool_decide_true by set_solver.
    + rewrite IH. f_equal. apply bool_decide_ext. set_solver.
Qed.

(** The handler's registration is the static one at [i]; [vals] are the
    dynamic identifiers its list names. *)
Record handler_at w (i : nat) (hreg : uds_registration_t) (idl : list addr) (vals : list Z) : Prop := HandlerAt {
  ha_reg : static_regs w !! i = Some hreg;
  ha_list : reg_id_list hreg = Some idl;
  ha_items : id_items_at (heap w) idl vals;
}.

Lemma read_id_list_run w i hreg idl vals :
  handler_at w i hreg idl vals -> read_id_list (StaticReg i) w = Ret idl w.
Proof.
  intros [Hr Hl _]. unfold read_id_list, read_reg, read_static_reg, bind. by rewrite Hr, Hl.
Qed.

(** [did] is not one of the identifiers defined through the handler. *)
Definition undefined rs (vals : list Z) (did : Z) : Prop :=
  forall r, r ∈ rs -> reg_data_id r = Some did -> dynamic_registration_id r ∉ vals.

Lemma find_existing_none w i hreg idl vals did : forall regs rs,
  handler_at w i hreg idl vals -> points_to (heap w) regs rs -> undefined rs vals did ->
  find_existing_loop regs (StaticReg i) did w = Ret None w.
Proof.
  intros regs rs Hh. induction 1 as [|a r regs rs Ha _ IH]; intros Hu; [done|].
  cbn [find_existing_loop]. rewrite (bind_step _ _ _ _ _ (read_dyn_reg_run _ _ _ Ha)).
  assert (undefined rs vals did) as Hu' by (intros x Hx; apply Hu; set_solver).
  destruct (bool_decide _ && bool_decide _) eqn:Hb; [|by apply IH].
  apply andb_true_iff in Hb as [_ Hb]. apply bool_decide_eq_true in Hb.
  rewrite (bind_step _ _ _ _ _ (read_id_list_run _ _ _ _ _ Hh)).
  rewrite (bind_step _ _ _ _ _ (id_listed_run _ _ _ _ (ha_items _ _ _ _ _ Hh))).
  rewrite bool_decide_false; [by apply IH|]. apply Hu; [set_solver|done].
Qed.

(** The context of a request to the static handler at [i]. *)
Definition handler_context w (i : nat) (arg : uds_arg) : uds_context :=
  Context (inst_id w) (StaticReg i) UDS_EVT_DynamicDefineDataId arg.
End defining.

(** Lookups at the fresh addresses of a run. *)
Ltac heap_lookup :=
  repeat first
    [ rewrite lookup_insert_eq
    | rewrite lookup_insert_ne by (try done; lia)
    | rewrite lookup_delete_eq
    | rewrite lookup_delete_ne by (try done; lia) ].

Section define_run.
Context {E : Type} `{!Server E} `{!UdsCallbacks E}.
Implicit Types (w : world E) (h : gmap addr obj) (rs : list uds_registration_t).

(** The name [uds_unregister_dynamic_identifier_fn] runs that function. *)
Class DDDIUnregister : Prop :=
  call_unregister_dddi : forall a, call_unregister uds_unregister_dynamic_identifier_fn a =
                                   uds_unregister_dynamic_identifier (E := E) a.

Lemma create_run w0 k h dr sr n context did :
  h !! n = None ->
  uds_create_new_data_identifier_by_id context did (mk w0 k h dr sr n) =
  if refused w0 k then Ret (-1, None) (mk w0 (S k) h dr sr n)
  else if refused w0 (S k) then Ret (-2, None) (mk w0 (S (S k)) h dr sr (Pos.succ n))
  else Ret (0, Some (Pos.succ n))
         (mk w0 (S (S k))
            (<[Pos.succ n := obj_registration (new_data_identifier (ctx_instance context) n did)]>
               (<[n := obj_data_list []]> h)) dr sr (Pos.succ (Pos.succ n))).
Proof.
  intros Hn. unfold uds_create_new_data_identifier_by_id, bind at 1. rewrite malloc_mk.
  destruct (refused w0 k); [done|]. unfold bind at 1. rewrite malloc_mk.
  destruct (refused w0 (S k)); [|done].
  erewrite bind_step; [|eapply k_free_run; cbn; by rewrite lookup_insert_eq].
  unfold ret, set_heap, mk. cbn. by rewrite delete_insert_id.
Qed.

(** Freeing an unregistered identifier: its parts, its list object and its
    temporary registration. *)
Lemma cleanup_run w lo reg r items parts (c : bool) (e : UDSErr_t) :
  heap w !! lo = Some (obj_data_list items) -> items_at (heap w) items parts -> NoDup items ->
  heap w !! reg = Some (obj_registration r) -> reg_data r = Some lo ->
  (free_items lo ;; let* d := read_reg_data reg in k_free d ;; k_free reg ;; ret (e, c)) w =
  Ret (e, c) (set_heap (delete reg (delete lo (delete_all items (heap w)))) w).
Proof.
  intros Hl Hi Hn Hr Hd. rewrite (bind_step _ _ _ _ _ (free_items_run _ _ _ _ Hl Hi Hn)).
  assert (reg ∉ items) as Hri.
  { intros Hin. apply list_elem_of_lookup in Hin as [j Hin].
    destruct (Forall2_lookup_l _ _ _ _ _ Hi Hin) as (x & _ & Hx). congruence. }
  assert (lo <> reg) as Hne by congruence.
  pose proof (items_at_not_list _ _ _ _ _ Hi Hl) as Hlo.
  assert (delete_all items (<[lo:=obj_data_list []]> (heap w)) !! reg = Some (obj_registration r)) as Hr'.
  { by rewrite lookup_delete_all, decide_False, lookup_insert_ne. }
  unfold read_reg_data. rewrite bind_assoc.
  erewrite bind_step; [|apply read_dyn_reg_run; exact Hr']. rewrite Hd. unfold bind at 1, of_option, ret at 1.
  erewrite bind_step; [|eapply k_free_run; cbn; by rewrite lookup_delete_all, decide_False, lookup_insert_eq].
  erewrite bind_step; [|eapply k_free_run; cbn; by rewrite lookup_delete_ne].
  unfold ret. rewrite !set_heap_set_heap. cbn [heap set_heap]. do 2 f_equal. f_equal.
  apply map_eq. intros a. destruct (decide (a = lo)) as [->|Ha].
  - by rewrite !lookup_delete_eq.
  - by rewrite !lookup_delete_ne, !lookup_delete_all, lookup_insert_ne by done.
Qed.

Lemma append_run w0 k h dr sr n lo items d :
  h !! lo = Some (obj_data_list items) -> h !! n = None ->
  append_data_item d lo (mk w0 k h dr sr n) =
  if refused w0 k then (free_items lo ;; ret UDS_NRC_GeneralReject) (mk w0 (S k) h dr sr n)
  else Ret UDS_OK (mk w0 (S k) (<[lo := obj_data_list (items ++ [n])]> (<[n := obj_data_item d]> h)) dr sr (Pos.succ n)).
Proof.
  intros Hl Hn. unfold append_data_item, bind at 1. rewrite malloc_mk. destruct (refused w0 k); [done|].
  assert (<[n := obj_data_item d]> h !! lo = Some (obj_data_list items)) as Hl'.
  { rewrite lookup_insert_ne; [done|]. intros ->. congruence. }
  erewrite bind_step; [|apply read_data_list_run; exact Hl'].
  unfold bind, write_obj. cbn [heap mk]. by rewrite Hl'.
Qed.

Lemma register_mk w0 k h dr sr n rs reg :
  registry (mk w0 k h dr sr n) rs -> Z.of_nat (length rs) < UINT32_MAX ->
  exists id, next_id_spec (ids rs) id /\ id <> 0 /\
  uds_register_event_handler reg (mk w0 k h dr sr n) =
  if refused w0 k then Ret (- ENOMEM, None) (mk w0 (S k) h dr sr n)
  else Ret (0, Some (id, n))
         (mk w0 (S k) (<[n := obj_registration (registered w0 id reg)]> h) (dr ++ [n]) sr (Pos.succ n)).
Proof.
  intros Hreg Hlen. destruct (find_next_dynamic_id_Ret _ _ Hreg) as (id & Hid & Hspec).
  exists id. split; [done|]. assert (id <> 0) as Hne.
  { intros ->. destruct Hspec as [[_ Hall]|(H1 & _)]; [|lia].
    pose proof (initial_segment_length (ids rs) (UINT32_MAX + 1) ltac:(unfold UINT32_MAX; lia)) as Hpig.
    unfold ids in *. rewrite length_map in Hpig. specialize (Hpig ltac:(intros k' Hk'; apply Hall; lia)). lia. }
  split; [done|]. rewrite (uds_register_event_handler_eq _ id); [|done].
  rewrite (proj2 (Z.eqb_neq id 0) Hne). unfold out_of_memory. cbn [oom mk]. rewrite head_drop.
  unfold refused. destruct (bool_decide _).
  - unfold set_oom, mk. cbn. by rewrite tail_drop.
  - unfold append_node, alloc, set_oom, set_dynamic_registrations, mk, registered. cbn. by rewrite tail_drop.
Qed.

(** The registry of the run after the copy of the registration was added. *)
Lemma registry_extended w0 k h dr sr n rs id reg :
  registry (mk w0 k h dr sr n) rs -> h !! n = None -> next_id_spec (ids rs) id -> id <> 0 ->
  registry (mk w0 (S k) (<[n := obj_registration (registered w0 id reg)]> h) (dr ++ [n]) sr (Pos.succ n))
    (rs ++ [registered w0 id reg]) /\ n ∉ dr.
Proof.
  intros [Hp Hn Hi Hr Hf] Hfree Hspec Hid. destruct Hspec as [[-> _]|(Hrange & Hnew & _)]; [done|]. cbn in *.
  assert (n ∉ dr) as Hndr.
  { intros Ha. destruct (points_to_lookup _ _ _ _ Hp Ha) as (r & Hlk & _). congruence. }
  split; [|done]. apply registry_mk.
  - apply Forall2_app; [by apply points_to_insert_fresh|].
    constructor; [|constructor]. by rewrite lookup_insert_eq.
  - apply NoDup_app. split_and!; [done| |apply NoDup_singleton]. set_solver.
  - unfold ids. rewrite map_app. apply NoDup_app. split_and!; [done| |apply NoDup_singleton].
    intros x Hx Hy. cbn in Hy. apply list_elem_of_singleton in Hy as ->. done.
  - unfold ids. rewrite map_app. apply Forall_app. split; [done|]. by apply Forall_singleton.
  - intros a. rewrite lookup_insert_is_Some. intros [<-|[_ Ha]]; [lia|]. specialize (Hf a Ha). lia.
Qed.

Context `{!DDDIUnregister}.

(** Unregistering the registration that was just added. *)
Lemma unregister_last w rs r a dr did parts lo items :
  registry w (rs ++ [r]) -> dynamic_registrations w = dr ++ [a] -> a ∉ dr ->
  heap w !! a = Some (obj_registration r) ->
  dynamic_identifier (heap w) did parts lo items r -> a ∉ items ->
  uds_unregister_event_handler (dynamic_registration_id r) w =
  Ret 0 (set_heap (delete a (delete lo (delete_all items (heap w)))) (set_dynamic_registrations dr w)).
Proof.
  intros Hreg Hdr Ha Hr Hdi Hai. unfold uds_unregister_event_handler, bind at 1, gets. rewrite Hdr.
  pose proof Hreg as [Hp _ Hi _ _]. rewrite Hdr in Hp.
  assert (length dr = length rs) as Hlen.
  { apply Forall2_length in Hp. rewrite !length_app in Hp. cbn in Hp. lia. }
  rewrite (unregister_loop_found w dr a [] rs r []); try done.
  rewrite unregister_found_eq, (di_unregister _ _ _ _ _ _ Hdi), call_unregister_dddi.
  rewrite (unregister_dynamic_identifier_run _ _ _ _ _ _ _ Hr Hdi). cbn [Z.ltb Z.compare]. cbn zeta.
  cbn [dynamic_registrations set_heap]. rewrite Hdr, slist_find_and_remove_app by done. cbn [negb fst snd heap set_heap].
  assert (lo <> a). { intros ->. destruct Hdi. congruence. }
  rewrite lookup_delete_ne, lookup_delete_all, decide_False, Hr by done.
  rewrite app_nil_r. by destruct w.
Qed.

Lemma register_item_run w0 k h dr sr n rs context i hreg idl vals lo items parts reg did :
  ctx_registration context = StaticReg i -> registry (mk w0 k h dr sr n) rs -> Z.of_nat (length rs) < UINT32_MAX ->
  handler_at (mk w0 k h dr sr n) i hreg idl vals ->
  h !! reg = Some (obj_registration (new_data_identifier (inst_id w0) lo did)) ->
  h !! lo = Some (obj_data_list items) -> items_at h items parts -> NoDup items ->
  h !! n = None ->
  exists id, next_id_spec (ids rs) id /\ id <> 0 /\
  let copy := registered w0 id (new_data_identifier (inst_id w0) lo did) in
  uds_register_new_data_by_id_item context reg
    (mk w0 k h dr sr n) =
  if refused w0 k then Ret (UDSErr_int (- ENOMEM)) (mk w0 (S k) h dr sr n)
  else if refused w0 (S k)
  then Ret UDS_NRC_GeneralReject
         (mk w0 (S (S k)) (delete n (delete lo (delete_all items (<[n := obj_registration copy]> h)))) dr sr (Pos.succ n))
  else Ret UDS_OK
         (mk w0 (S (S k)) (delete reg (<[Pos.succ n := obj_id_item id]> (<[n := obj_registration copy]> h)))
            (dr ++ [n]) (<[i := set_reg_id_list (idl ++ [Pos.succ n]) hreg]> sr) (Pos.succ (Pos.succ n))).
Proof.
  intros Hctx Hreg Hlen Hh Hr Hl Hi Hn Hfree.
  destruct (register_mk w0 k h dr sr n rs (new_data_identifier (inst_id w0) lo did) Hreg Hlen) as (id & Hspec & Hid & Hrun).
  exists id. split; [done|]. split; [done|]. cbn zeta. set (copy := registered w0 id _) in *.
  unfold uds_register_new_data_by_id_item. erewrite bind_step; [|apply read_dyn_reg_run; exact Hr].
  unfold bind at 1. rewrite Hrun. destruct (refused w0 k); [done|]. cbn [Z.ltb Z.compare].
  unfold bind at 1. rewrite malloc_mk. destruct (registry_extended w0 k h dr sr n rs id (new_data_identifier (inst_id w0) lo did) Hreg Hfree Hspec Hid) as [Hreg2 Hndr].
  assert (n ∉ items) as Hni.
  { intros Hin. apply list_elem_of_lookup in Hin as [j Hin].
    destruct (Forall2_lookup_l _ _ _ _ _ Hi Hin) as (x & _ & Hx). congruence. }
  assert (lo <> n) as Hlon by congruence.
  destruct (refused w0 (S k)).
  - change id with (dynamic_registration_id copy).
    erewrite bind_step; [|apply (unregister_last _ rs copy n dr did parts lo items); cbn; try done;
      [destruct Hreg2 as [? ? ? ? ?]; by apply registry_mk|by rewrite lookup_insert_eq|]]; [done|].
    constructor; try done.
    + by rewrite lookup_insert_ne.
    + eapply items_at_frame; [exact Hi|]. intros a Ha. rewrite lookup_insert_ne; [done|]. by intros ->.
  - set (h2 := <[Pos.succ n := obj_id_item id]> (<[n := obj_registration copy]> h)).
    destruct Hh as [Hs Hil Hit]. cbn in Hs, Hit.
    unfold read_id_list, write_id_list, read_reg, read_static_reg, write_reg. rewrite Hctx.
    unfold bind at 1 2. cbn [static_regs mk]. rewrite Hs, Hil. unfold bind at 1 2, of_option, ret. cbn [static_regs mk]. rewrite Hs.
    assert (reg <> n) by congruence.
    assert (reg <> Pos.succ n) as Hrn.
    { intros ->. pose proof (registry_fresh _ _ Hreg _ (mk_is_Some _ _ Hr)) as Hx. cbn in Hx. lia. }
    erewrite bind_step; [|eapply k_free_run; cbn; unfold h2; rewrite !lookup_insert_ne by done; exact Hr].
    done.
Qed.

(** The heap after a definition: the list object with its one part, the
    registered copy and the identifier item; the temporary registration is
    gone. *)
Definition defined_heap h (n : addr) (d : uds_dynamically_defined_data) (copy : uds_registration_t) (id : Z) :=
  let n1 := Pos.succ n in let n2 := Pos.succ n1 in let n3 := Pos.succ n2 in let n4 := Pos.succ n3 in
  <[n4 := obj_id_item id]> (<[n3 := obj_registration copy]>
    (<[n2 := obj_data_item d]> (<[n := obj_data_list [n2]]> h))).

(** The definition of a new identifier as one equation, by the allocation the
    environment refuses first. *)
Lemma add_new_id_run w rs context i hreg idl vals did d (c : bool) :
  ctx_registration context = StaticReg i -> ctx_instance context = inst_id w ->
  registry w rs -> Z.of_nat (length rs) < UINT32_MAX ->
  handler_at w i hreg idl vals -> undefined rs vals did ->
  exists id, next_id_spec (ids rs) id /\ id <> 0 /\
  let n := next_addr w in
  let n1 := Pos.succ n in let n2 := Pos.succ n1 in let n3 := Pos.succ n2 in let n4 := Pos.succ n3 in
  let same k n := mk w k (heap w) (dynamic_registrations w) (static_regs w) n in
  add_new_id (append_data_item d) context did c w =
  if refused w 0 then Ret (UDS_NRC_GeneralReject, c) (same 1%nat n)
  else if refused w 1 then Ret (UDS_NRC_GeneralReject, c) (same 2%nat n1)
  else if refused w 2 then Ret (UDS_NRC_GeneralReject, c) (same 3%nat n2)
  else if refused w 3 then Ret (UDSErr_int (- ENOMEM), c) (same 4%nat n3)
  else if refused w 4 then Fault UseAfterFree
  else Ret (UDS_OK, true)
         (mk w 5 (defined_heap (heap w) n d (registered w id (new_data_identifier (inst_id w) n did)) id)
            (dynamic_registrations w ++ [n3]) (<[i := set_reg_id_list (idl ++ [n4]) hreg]> (static_regs w))
            (Pos.succ n4)).
Proof.
  intros Hctx Hinst Hreg Hlen Hh Hu.
  remember (next_addr w) as n eqn:Hnext. set (n1 := Pos.succ n). set (n2 := Pos.succ n1).
  assert (forall a, (n <= a)%positive -> heap w !! a = None) as Hfree.
  { intros a Ha. destruct (heap w !! a) eqn:Hx; [|done].
    pose proof (registry_fresh _ _ Hreg a (mk_is_Some _ _ Hx)). lia. }
  set (temp := new_data_identifier (inst_id w) n did).
  set (h2 := <[n1 := obj_registration temp]> (<[n := obj_data_list []]> (heap w))).
  set (h3 := <[n := obj_data_list [n2]]> (<[n2 := obj_data_item d]> h2)).
  assert (forall a, (a < n)%positive -> h3 !! a = heap w !! a) as Hold.
  { intros a Ha. subst h3 h2 n2 n1. by rewrite !lookup_insert_ne by lia. }
  assert (forall a, is_Some (h3 !! a) -> (a < Pos.succ n2)%positive) as Hnew.
  { intros a Ha. subst h3 h2 n2 n1. rewrite !lookup_insert_is_Some in Ha.
    destruct (decide (a < Pos.succ (Pos.succ (Pos.succ n)))%positive) as [|Hge]; [done|].
    assert (is_Some (heap w !! a)) as Hx by naive_solver lia. rewrite Hfree in Hx by lia. by destruct Hx. }
  assert (registry (mk w 3 h3 (dynamic_registrations w) (static_regs w) (Pos.succ n2)) rs) as Hreg3.
  { destruct Hreg as [Hp Hn Hi Hr Hf]. apply registry_mk; try done.
    eapply points_to_frame; [exact Hp|]. intros a Ha. apply Hold.
    destruct (points_to_lookup _ _ _ _ Hp Ha) as (r & Hlk & _). rewrite Hnext. apply Hf. eauto. }
  assert (handler_at (mk w 3 h3 (dynamic_registrations w) (static_regs w) (Pos.succ n2)) i hreg idl vals) as Hh3.
  { destruct Hh as [H1 H2 H3]. constructor; [done|done|]. cbn. clear -H3 Hold Hreg Hnext.
    eapply Forall2_impl; [exact H3|]. cbn. intros a v Hx. rewrite Hold; [done|].
    rewrite Hnext. apply (registry_fresh _ _ Hreg). eauto. }
  destruct (register_item_run w 3 h3 (dynamic_registrations w) (static_regs w) (Pos.succ n2) rs context i hreg idl vals
              n [n2] [d] n1 did) as (id & Hspec & Hid & Hrun); try done.
  { subst h3 h2 n2 n1. by heap_lookup. }
  { subst h3. by rewrite lookup_insert_eq. }
  { constructor; [|constructor]. subst h3 h2 n2 n1. by heap_lookup. }
  { apply NoDup_singleton. }
  { rewrite eq_None_not_Some. intros Hx. apply Hnew in Hx. lia. }
  exists id. split; [done|]. split; [done|]. cbn zeta in Hrun |- *.
  unfold add_new_id, uds_find_existing_registration_by_data_id. rewrite bind_assoc. unfold bind at 1, gets. rewrite Hctx.
  rewrite (bind_step _ _ _ _ _ (find_existing_none w i hreg idl vals did _ rs Hh (registry_points_to _ _ Hreg) Hu)).
  unfold bind at 1. rewrite (mk_self w) at 1. rewrite <- Hnext.
  rewrite create_run by (apply Hfree; lia).
  destruct (refused w 0); [done|]. destruct (refused w 1); [done|]. rewrite Hinst.
  fold n1 temp h2. fold n2. unfold read_reg_data at 1. rewrite bind_assoc.
  erewrite bind_step; [|apply read_dyn_reg_run; cbn; unfold h2; by rewrite lookup_insert_eq].
  cbn [reg_data payload temp new_data_identifier]. unfold bind at 1, of_option, ret at 1.
  unfold bind at 1. rewrite (append_run w 2 h2 _ _ n2 n []); [|subst h2 n2 n1; by heap_lookup|subst h2 n2 n1; heap_lookup; apply Hfree; lia].
  fold h3. destruct (refused w 2).
  - set (w3 := mk w 3 h2 _ _ _).
    assert (heap w3 !! n = Some (obj_data_list [])) as Hl3 by (subst w3 h2 n1; cbn; by heap_lookup).
    assert (heap w3 !! n1 = Some (obj_registration temp)) as Hr3 by (subst w3 h2; cbn; by rewrite lookup_insert_eq).
    pose proof (cleanup_run w3 n n1 temp [] [] c UDS_NRC_GeneralReject Hl3 ltac:(constructor)
                  ltac:(constructor) Hr3 eq_refl) as Hc.
    pose proof (free_items_run w3 n [] [] Hl3 ltac:(constructor) ltac:(constructor)) as Hf.
    rewrite (bind_step _ _ _ _ _ Hf) in Hc. rewrite (bind_step _ _ _ _ _ Hf). unfold ret at 1. rewrite decide_True by done. rewrite Hc.
    subst w3. unfold set_heap, mk. cbn. do 2 f_equal. subst h2 n2 n1.
    apply map_eq. intros a. destruct (decide (a = n)) as [->|]; [|destruct (decide (a = Pos.succ n)) as [->|]];
      heap_lookup; try done; symmetry; apply Hfree; lia.
  - rewrite decide_False by (intros Hx; by apply Hx). cbn [app]. fold h3. unfold bind at 1. rewrite Hrun.
    destruct (refused w 3); [|destruct (refused w 4)].
    + rewrite decide_True by done. rewrite (cleanup_run _ n n1 temp [n2] [d]); cbn; try done.
      * unfold set_heap, mk. cbn. do 2 f_equal. subst h3 h2 n2 n1.
        apply map_eq. intros a. destruct (decide (a = n)) as [->|]; [|destruct (decide (a = Pos.succ n)) as [->|];
          [|destruct (decide (a = Pos.succ (Pos.succ n))) as [->|]]];
          heap_lookup; try done; symmetry; apply Hfree; lia.
      * subst h3. by rewrite lookup_insert_eq.
      * constructor; [|constructor]. subst h3 h2 n2 n1. by heap_lookup.
      * apply NoDup_singleton.
      * subst h3 h2 n2 n1. by heap_lookup.
    + rewrite decide_True by done. unfold free_items, SYS_SLIST_FOR_EACH_SAFE, read_data_list, read_obj.
      unfold bind at 1 2 3 4. cbn [heap mk]. subst h3 h2 n2 n1. cbn [delete_all foldl]. by heap_lookup.
    + rewrite decide_False by (intros Hx; by apply Hx). unfold ret, defined_heap. do 2 f_equal.
      subst h3 h2 n2 n1 temp. cbn zeta.
      apply map_eq. intros a. destruct (decide (a = n)) as [->|]; [|destruct (decide (a = Pos.succ n)) as [->|];
          [|destruct (decide (a = Pos.succ (Pos.succ n))) as [->|];
            [|destruct (decide (a = Pos.succ (Pos.succ (Pos.succ n)))) as [->|];
              [|destruct (decide (a = Pos.succ (Pos.succ (Pos.succ (Pos.succ n))))) as [->|]]]]];
          heap_lookup; try done. symmetry; apply Hfree; lia.
Qed.
End define_run.

(** ** Clearing: lemmas *)

Section clear_run.
Context {E : Type} `{!Server E} `{!UdsCallbacks E}.
Implicit Types (w : world E) (h : gmap addr obj) (rs : list uds_registration_t).

Lemma section_skip {W} (body : nat -> M W unit) (v : W) : forall n a,
  (forall j, (a <= j < a + n)%nat -> body j v = Ret tt v) -> section_for_each n a body v = Ret tt v.
Proof.
  induction n as [|n IH]; intros a Hb; [done|]. cbn.
  rewrite (bind_step _ _ _ _ _ (Hb a ltac:(lia))). apply IH. intros j Hj. apply Hb. lia.
Qed.

Lemma section_app {W} (body : nat -> M W unit) m : forall n a (v : W),
  section_for_each (n + m) a body v =
  bind (section_for_each n a body) (fun _ => section_for_each m (a + n) body) v.
Proof.
  induction n as [|n IH]; intros a v; cbn.
  - by rewrite Nat.add_0_r.
  - rewrite bind_assoc. unfold bind. destruct (body a v) as [u v'|]; [|done].
    fold (bind (section_for_each n (S a) body) (fun _ => section_for_each m (a + S n) body) v').
    rewrite IH. by replace (S a + n)%nat with (a + S n)%nat by lia.
Qed.

(** One position does something, the others nothing. *)
Lemma section_single {W} (body : nat -> M W unit) n i (v v' : W) :
  (i < n)%nat -> (forall j, (j < i)%nat -> body j v = Ret tt v) -> body i v = Ret tt v' ->
  (forall j, (i < j < n)%nat -> body j v' = Ret tt v') -> section_for_each n 0 body v = Ret tt v'.
Proof.
  intros Hi H1 H2 H3. replace n with (i + S (n - S i))%nat by lia.
  rewrite section_app. erewrite bind_step; [|apply section_skip; intros j Hj; apply H1; lia].
  cbn. rewrite (bind_step _ _ _ _ _ H2). apply section_skip. intros j Hj. apply H3. lia.
Qed.

Definition no_dddi (r : uds_registration_t) : Prop := type r <> UDS_REGISTRATION_TYPE__DYNAMIC_DEFINE_DATA_IDS.

Lemma remove_matching_skip w p r id :
  read_reg p w = Ret r w -> no_dddi r -> remove_matching_items id p w = Ret tt w.
Proof.
  intros Hr Hn. unfold remove_matching_items. rewrite (bind_step _ _ _ _ _ Hr).
  by rewrite bool_decide_false.
Qed.

Lemma touch_id_run w a i : heap w !! a = Some (obj_id_item i) -> touch_id a w = Ret tt w.
Proof. intros Ha. unfold touch_id, read_id_item, read_obj, bind. by rewrite Ha. Qed.

Lemma read_id_item_run w a i : heap w !! a = Some (obj_id_item i) -> read_id_item a w = Ret i w.
Proof. intros Ha. unfold read_id_item, read_obj, bind. by rewrite Ha. Qed.

(** Removing the last item of the handler's list, the only one with the
    identifier. *)
Lemma remove_last_item w p l a id vals w' : forall l2 l1 vals2 fuel,
  l = l1 ++ l2 -> NoDup (l ++ [a]) -> vals = vals2 -> id_items_at (heap w) l2 vals2 -> id ∉ vals2 ->
  heap w !! a = Some (obj_id_item id) ->
  read_id_list p w = Ret (l ++ [a]) w -> remove_id_item p a w = Ret tt w' ->
  (S (length l2) <= fuel)%nat ->
  slist_for_each_safe touch_id fuel (read_id_list p)
    (fun item => let* i := read_id_item item in if i =? id then remove_id_item p item else ret tt)
    (head (l2 ++ [a])) w = Ret tt w'.
Proof.
  intros l2. revert vals. induction l2 as [|b l2 IH]; intros vals l1 vals2 fuel Hl Hn Hv Hi Hid Ha Hrd Hrm Hf;
    (destruct fuel as [|fuel]; [cbn in Hf; lia|]); cbn [slist_for_each_safe head app].
  - rewrite (bind_step _ _ _ _ _ (touch_id_run _ _ _ Ha)), (bind_step _ _ _ _ _ Hrd).
    rewrite bind_assoc, (bind_step _ _ _ _ _ (read_id_item_run _ _ _ Ha)), Z.eqb_refl.
    rewrite (bind_step _ _ _ _ _ Hrm). apply NoDup_app in Hn as (_ & Hn & _).
    rewrite slist_next_app_cons by set_solver. by destruct fuel.
  - apply Forall2_cons_inv_l in Hi as (v & vals3 & Hb & Hi & ->). apply not_elem_of_cons in Hid as [Hid1 Hid2].
    rewrite (bind_step _ _ _ _ _ (touch_id_run _ _ _ Hb)), (bind_step _ _ _ _ _ Hrd).
    rewrite bind_assoc, (bind_step _ _ _ _ _ (read_id_item_run _ _ _ Hb)), (proj2 (Z.eqb_neq v id)) by done.
    unfold bind at 1, ret at 1. subst l. rewrite <- (assoc_L app). cbn [app].
    rewrite slist_next_app_cons.
    + apply (IH vals3 (l1 ++ [b]) vals3); try done; [by rewrite <- (assoc_L app)|cbn in Hf; lia].
    + rewrite <- (assoc_L app) in Hn. apply NoDup_app in Hn as (_ & Hn & _). cbn in Hn. set_solver.
Qed.

Lemma touch_reg_run w a r : heap w !! a = Some (obj_registration r) -> touch_reg a w = Ret tt w.
Proof. intros Ha. unfold touch_reg. by rewrite (bind_step _ _ _ _ _ (read_dyn_reg_run _ _ _ Ha)). Qed.

(** The walk over the dynamic registrations, when none is a handler. *)
Lemma dynamic_walk_skip w (body : addr -> M (world E) unit) : forall l2 l1 rs2 fuel,
  dynamic_registrations w = l1 ++ l2 -> NoDup (l1 ++ l2) -> points_to (heap w) l2 rs2 ->
  (forall a, a ∈ l2 -> body a w = Ret tt w) -> (length l2 <= fuel)%nat ->
  slist_for_each touch_reg fuel (gets dynamic_registrations) body (head l2) w = Ret tt w.
Proof.
  induction l2 as [|a l2 IH]; intros l1 rs2 fuel Hl Hn Hp Hb Hf; [by destruct fuel|].
  apply Forall2_cons_inv_l in Hp as (r & rs3 & Ha & Hp & ->). destruct fuel as [|fuel]; [cbn in Hf; lia|].
  cbn [slist_for_each head]. rewrite (bind_step _ _ _ _ _ (Hb a ltac:(set_solver))).
  rewrite (bind_step _ _ _ _ _ (touch_reg_run _ _ _ Ha)). unfold bind at 1, gets. rewrite Hl.
  rewrite slist_next_app_cons by (apply NoDup_app in Hn; set_solver).
  apply (IH (l1 ++ [a]) rs3); try done; [by rewrite <- (assoc_L app)|by rewrite <- (assoc_L app)| |cbn in Hf; lia].
  intros b Hb'. apply Hb. set_solver.
Qed.

(** Skipping the registrations of other identifiers. *)
Lemma remove_registration_loop_skip w did : forall l rs l2,
  points_to (heap w) l rs -> (forall r, r ∈ rs -> reg_data_id r <> Some did) ->
  remove_registration_loop (l ++ l2) did w = remove_registration_loop l2 did w.
Proof.
  intros l rs l2 Hp. induction Hp as [|a r l rs Ha _ IH]; intros Hr; [done|].
  cbn [app remove_registration_loop]. rewrite (bind_step _ _ _ _ _ (read_dyn_reg_run _ _ _ Ha)).
  rewrite (bool_decide_false (reg_data_id r = Some did)) by (apply Hr; set_solver).
  rewrite andb_false_r. apply IH. set_solver.
Qed.
End clear_run.

(** ** Defining and clearing: properties *)

Section dddi_props.
Context {E : Type} `{!Server E} `{!UdsCallbacks E} `{!DDDIUnregister (E := E)}.
Implicit Types (w : world E) (rs : list uds_registration_t).

(** The state after a definition that got all its memory. *)
Definition defined_world w (i : nat) (hreg : uds_registration_t) (idl : list addr) (did : Z)
    (d : uds_dynamically_defined_data) (id : Z) : world E :=
  let n := next_addr w in
  let n3 := Pos.succ (Pos.succ (Pos.succ n)) in let n4 := Pos.succ n3 in
  mk w 5 (defined_heap (heap w) n d (registered w id (new_data_identifier (inst_id w) n did)) id)
    (dynamic_registrations w ++ [n3]) (<[i := set_reg_id_list (idl ++ [n4]) hreg]> (static_regs w)) (Pos.succ n4).

Lemma fresh_above w rs a : registry w rs -> (next_addr w <= a)%positive -> heap w !! a = None.
Proof.
  intros Hreg Ha. destruct (heap w !! a) eqn:Hx; [|done].
  pose proof (registry_fresh _ _ Hreg a (mk_is_Some _ _ Hx)). lia.
Qed.

Lemma defined_registry w rs i hreg idl did d id :
  registry w rs -> next_id_spec (ids rs) id -> id <> 0 ->
  registry (defined_world w i hreg idl did d id)
    (rs ++ [registered w id (new_data_identifier (inst_id w) (next_addr w) did)]).
Proof.
  intros Hreg Hspec Hid. set (reg := new_data_identifier _ _ _).
  set (n := next_addr w). set (n2 := Pos.succ (Pos.succ n)).
  set (h := <[n2 := obj_data_item d]> (<[n := obj_data_list [n2]]> (heap w))).
  assert (registry (mk w 3 h (dynamic_registrations w) (static_regs w) (Pos.succ n2)) rs) as Hreg3.
  { pose proof Hreg as [Hp Hn Hi Hr Hf]. apply registry_mk; try done.
    - eapply points_to_frame; [exact Hp|]. intros a Ha.
      destruct (points_to_lookup _ _ _ _ Hp Ha) as (r & Hlk & _).
      pose proof (Hf a (mk_is_Some _ _ Hlk)). subst h n2 n. by rewrite !lookup_insert_ne by lia.
    - intros a. subst h n2. rewrite !lookup_insert_is_Some. intros [->|[_ [->|[_ Ha]]]]; [lia..|].
      specialize (Hf a Ha). fold n in Hf. lia. }
  destruct (registry_extended w 3 h _ (static_regs w) (Pos.succ n2) rs id reg Hreg3) as [[Hp Hn Hi Hr Hf] _]; [|done..|].
  { subst h n2. rewrite !lookup_insert_ne by lia. apply (fresh_above w rs); [done|]. subst n. lia. }
  cbn in Hp, Hn, Hf. unfold defined_world, defined_heap. cbn zeta. fold n n2 reg. apply registry_mk; try done.
  - eapply points_to_frame; [exact Hp|]. intros a Ha.
    destruct (points_to_lookup _ _ _ _ Hp Ha) as (r & Hlk & _). pose proof (Hf a (mk_is_Some _ _ Hlk)) as Hlt.
    fold h. rewrite (lookup_insert_ne _ (Pos.succ (Pos.succ n2))) by lia. done.
  - intros a. fold h. rewrite lookup_insert_is_Some. intros [<-|[_ Ha]]; [lia|]. specialize (Hf a Ha). lia.
Qed.

Lemma defined_identifier w rs i hreg idl did d id :
  registry w rs ->
  let w' := defined_world w i hreg idl did d id in
  let n := next_addr w in
  dynamic_identifier (heap w') did [d] n [Pos.succ (Pos.succ n)]
    (registered w id (new_data_identifier (inst_id w) n did)) /\
  heap w' !! Pos.succ (Pos.succ (Pos.succ n)) =
    Some (obj_registration (registered w id (new_data_identifier (inst_id w) n did))) /\
  heap w' !! Pos.succ (Pos.succ (Pos.succ (Pos.succ n))) = Some (obj_id_item id).
Proof.
  intros Hreg w' n. subst w'. unfold defined_world, defined_heap. cbn [heap mk]. fold n. cbn zeta.
  split_and!; [constructor; try done| |]; heap_lookup; try done.
  - constructor; [|constructor]. by heap_lookup.
  - apply NoDup_singleton.
Qed.

(** C7. Defining a new identifier when there is memory: the request succeeds
    and consumes the event; the registry is well formed and has one more
    registration, under the least unused identifier; that registration is a
    dynamic identifier whose only part is the requested one; the handler's
    list names it; every object that existed before is unchanged, and
    exactly four new objects remain, so the temporary ones were freed. *)
Theorem define_new_identifier w rs context i hreg idl vals did d c :
  ctx_registration context = StaticReg i -> ctx_instance context = inst_id w ->
  registry w rs -> Z.of_nat (length rs) < UINT32_MAX ->
  handler_at w i hreg idl vals -> undefined rs vals did ->
  (forall k, (k < 5)%nat -> refused w k = false) ->
  exists id r lo item w', add_new_id (append_data_item d) context did c w = Ret (UDS_OK, true) w' /\
    next_id_spec (ids rs) id /\ dynamic_registration_id r = id /\ registry w' (rs ++ [r]) /\
    dynamic_identifier (heap w') did [d] lo [item] r /\
    (exists hreg' x, handler_at w' i hreg' (idl ++ [x]) (vals ++ [id])) /\
    (forall a, is_Some (heap w !! a) -> heap w' !! a = heap w !! a) /\
    size (dom (heap w')) = (size (dom (heap w)) + 4)%nat.
Proof.
  intros Hctx Hinst Hreg Hlen Hh Hu Hmem.
  destruct (add_new_id_run w rs context i hreg idl vals did d c Hctx Hinst Hreg Hlen Hh Hu) as (id & Hspec & Hid & Hrun).
  cbn zeta in Hrun. rewrite !Hmem in Hrun by lia.
  destruct (defined_identifier w rs i hreg idl did d id Hreg) as (Hdi & Hr & Hit).
  exists id, (registered w id (new_data_identifier (inst_id w) (next_addr w) did)), (next_addr w), (Pos.succ (Pos.succ (next_addr w))).
  exists (defined_world w i hreg idl did d id).
  assert (forall a, is_Some (heap w !! a) -> heap (defined_world w i hreg idl did d id) !! a = heap w !! a) as Hold.
  { intros a Ha. pose proof (registry_fresh _ _ Hreg a Ha). unfold defined_world, defined_heap. cbn.
    by rewrite !lookup_insert_ne by lia. }
  split_and!; try done.
  - by apply defined_registry.
  - exists (set_reg_id_list (idl ++ [Pos.succ (Pos.succ (Pos.succ (Pos.succ (next_addr w))))]) hreg).
    exists (Pos.succ (Pos.succ (Pos.succ (Pos.succ (next_addr w))))). destruct Hh as [H1 H2 H3]. constructor.
    + unfold defined_world. cbn. apply list_lookup_insert_eq. by apply lookup_lt_Some in H1.
    + unfold reg_id_list, set_reg_id_list in *. by destruct (payload hreg).
    + apply Forall2_app; [|constructor; [exact Hit|constructor]].
      eapply Forall2_impl; [exact H3|]. cbn. intros a v Hx. rewrite Hold; eauto.
  - unfold defined_world, defined_heap. cbn. rewrite !dom_insert_L.
    rewrite !size_union by (rewrite ?disjoint_singleton_l, ?not_elem_of_union, ?not_elem_of_singleton, ?not_elem_of_dom;
      split_and!; try lia; apply (fresh_above w rs); (done || lia)).
    rewrite size_union by (apply disjoint_singleton_l, not_elem_of_dom, (fresh_above w rs); (done || lia)).
    rewrite !size_singleton. lia.
Qed.

(** Running out of memory while defining a new identifier: when the
    refused allocation is one of the first four (list object, temporary
    registration, part, registered copy), the request fails and everything
    that had been allocated is freed again: heap, registrations and handler
    list are as before. *)
Theorem define_out_of_memory_restores w rs context i hreg idl vals did d c k :
  ctx_registration context = StaticReg i -> ctx_instance context = inst_id w ->
  registry w rs -> Z.of_nat (length rs) < UINT32_MAX ->
  handler_at w i hreg idl vals -> undefined rs vals did ->
  (k < 4)%nat -> refused w k = true -> (forall j, (j < k)%nat -> refused w j = false) ->
  exists e w', add_new_id (append_data_item d) context did c w = Ret (e, c) w' /\ e <> UDS_OK /\
    heap w' = heap w /\ dynamic_registrations w' = dynamic_registrations w /\ static_regs w' = static_regs w.
Proof.
  intros Hctx Hinst Hreg Hlen Hh Hu Hk Hr Hj.
  destruct (add_new_id_run w rs context i hreg idl vals did d c Hctx Hinst Hreg Hlen Hh Hu) as (id & _ & _ & Hrun).
  cbn zeta in Hrun. destruct k as [|[|[|[|k]]]]; [..|lia]; rewrite ?Hr, ?Hj in Hrun by lia; by do 2 eexists.
Qed.

(** Running out of memory at the last allocation (the item of the
    handler's list) is not survived: the registration is unregistered, which
    frees the parts and the list object, and the caller's cleanup then walks
    the freed list. *)
Theorem define_out_of_memory_use_after_free w rs context i hreg idl vals did d c :
  ctx_registration context = StaticReg i -> ctx_instance context = inst_id w ->
  registry w rs -> Z.of_nat (length rs) < UINT32_MAX ->
  handler_at w i hreg idl vals -> undefined rs vals did ->
  refused w 4 = true -> (forall j, (j < 4)%nat -> refused w j = false) ->
  add_new_id (append_data_item d) context did c w = Fault UseAfterFree.
Proof.
  intros Hctx Hinst Hreg Hlen Hh Hu Hr Hj.
  destruct (add_new_id_run w rs context i hreg idl vals did d c Hctx Hinst Hreg Hlen Hh Hu) as (id & _ & _ & Hrun).
  cbn zeta in Hrun. by rewrite Hr, !Hj in Hrun by lia.
Qed.

(** Adding a part to an existing identifier when there is no memory for
    it: the request fails, but all parts the identifier had are freed and its
    list is left empty, while its registration stays. *)
Theorem append_out_of_memory_empties w lo items parts d :
  heap w !! lo = Some (obj_data_list items) -> items_at (heap w) items parts -> NoDup items ->
  refused w 0 = true ->
  exists w', append_data_item d lo w = Ret UDS_NRC_GeneralReject w' /\
    heap w' !! lo = Some (obj_data_list []) /\ (forall a, a ∈ items -> heap w' !! a = None) /\
    dynamic_registrations w' = dynamic_registrations w.
Proof.
  intros Hl Hi Hn Hr. unfold append_data_item, bind at 1. rewrite (mk_self w), malloc_mk, Hr.
  pose proof (items_at_not_list _ _ _ _ _ Hi Hl) as Hlo.
  erewrite bind_step; [|by apply (free_items_run _ lo items parts)]. eexists. split; [reflexivity|]. cbn.
  split_and!; [by rewrite lookup_delete_all, decide_False, lookup_insert_eq| |done].
  intros a Ha. by rewrite lookup_delete_all, decide_True.
Qed.

(** The handler's own registration in the defined state, and its list back as
    it was. *)
Lemma set_reg_id_list_twice l1 l2 r : reg_id_list r = Some l2 -> set_reg_id_list l2 (set_reg_id_list l1 r) = r.
Proof. unfold reg_id_list, set_reg_id_list. destruct r as [? ? [] ? ?]; cbn; intros [= ->]; done. Qed.

Lemma reg_id_list_set l l2 r : reg_id_list r = Some l2 -> reg_id_list (set_reg_id_list l r) = Some l.
Proof. unfold reg_id_list, set_reg_id_list. by destruct (payload r). Qed.

Lemma dddi_type r l : reg_id_list r = Some l -> type r = UDS_REGISTRATION_TYPE__DYNAMIC_DEFINE_DATA_IDS.
Proof. unfold reg_id_list, type. by destruct (payload r). Qed.

(** The first half of clearing, on the defined state. *)
Lemma clear_registration w rs i hreg idl vals did d id :
  registry w rs -> handler_at w i hreg idl vals ->
  (forall r, r ∈ rs -> reg_data_id r <> Some did) -> next_id_spec (ids rs) id -> id <> 0 ->
  let n4 := Pos.succ (Pos.succ (Pos.succ (Pos.succ (next_addr w)))) in
  remove_registration_loop (dynamic_registrations w ++ [Pos.succ (Pos.succ (Pos.succ (next_addr w)))]) did
    (defined_world w i hreg idl did d id) =
  Ret id (mk w 5 (<[n4 := obj_id_item id]> (heap w)) (dynamic_registrations w)
            (<[i := set_reg_id_list (idl ++ [n4]) hreg]> (static_regs w)) (Pos.succ n4)).
Proof.
  intros Hreg Hh Hno Hspec Hid n4. set (w' := defined_world w i hreg idl did d id).
  pose proof (defined_registry w rs i hreg idl did d id Hreg Hspec Hid) as Hreg'. fold w' in Hreg'.
  destruct (defined_identifier w rs i hreg idl did d id Hreg) as (Hdi & Hr & Hit). fold w' in Hdi, Hr, Hit.
  set (copy := registered w id _) in *.
  assert (Pos.succ (Pos.succ (Pos.succ (next_addr w))) ∉ dynamic_registrations w) as Hnin.
  { destruct Hreg' as [_ Hn' _ _ _]. unfold w', defined_world in Hn'. cbn in Hn'. apply NoDup_app in Hn'. set_solver. }
  destruct Hreg' as [Hp Hn Hi Hrg Hf] eqn:Heq. clear Heq.
  assert (points_to (heap w') (dynamic_registrations w) rs) as Hp0.
  { unfold w', defined_world in Hp. cbn in Hp. apply Forall2_app_inv in Hp as [Hp _]; [exact Hp|].
    apply (Forall2_length _ _ _ (registry_points_to _ _ Hreg)). }
  rewrite (remove_registration_loop_skip w' did _ rs _ Hp0 Hno). cbn [remove_registration_loop].
  rewrite (bind_step _ _ _ _ _ (read_dyn_reg_run _ _ _ Hr)).
  rewrite bool_decide_true by done. rewrite bool_decide_true by done. cbn [andb].
  erewrite bind_step; [|apply (unregister_last w' rs copy (Pos.succ (Pos.succ (Pos.succ (next_addr w)))) (dynamic_registrations w) did [d]
    (next_addr w) [Pos.succ (Pos.succ (next_addr w))]); try done].
  - unfold ret. f_equal. unfold w', defined_world, defined_heap, set_heap, set_dynamic_registrations, mk.
    cbn [heap inst_id static_regs dynamic_registrations next_addr oom temp_buffer ext delete_all foldl]. f_equal.
    assert (forall a, (next_addr w <= a)%positive -> heap w !! a = None) as Hfree by (intros a; by apply fresh_above with (rs := rs)).
    subst n4. apply map_eq. intros a.
    destruct (decide (a = next_addr w)) as [->|]; [|destruct (decide (a = Pos.succ (Pos.succ (next_addr w)))) as [->|];
      [|destruct (decide (a = Pos.succ (Pos.succ (Pos.succ (next_addr w))))) as [->|];
        [|destruct (decide (a = Pos.succ (Pos.succ (Pos.succ (Pos.succ (next_addr w)))))) as [->|]]]];
      heap_lookup; try done; symmetry; apply Hfree; lia.
  - intros [?|[]%elem_of_nil]%elem_of_cons. lia.
Qed.

(** The second half: the handler's list. *)
Lemma clear_handler_list w i hreg idl vals id n4 :
  handler_at w i hreg idl vals -> (forall v, v ∈ vals -> v <> id) -> NoDup (idl ++ [n4]) ->
  heap w !! n4 = None -> forall k next,
  remove_matching_items id (StaticReg i)
    (mk w k (<[n4 := obj_id_item id]> (heap w)) (dynamic_registrations w)
       (<[i := set_reg_id_list (idl ++ [n4]) hreg]> (static_regs w)) next) =
  Ret tt (mk w k (heap w) (dynamic_registrations w) (static_regs w) next).
Proof.
  intros [H1 H2 H3] Hv Hn Hfree k next. set (w' := mk w k _ _ _ next).
  assert (static_regs w' !! i = Some (set_reg_id_list (idl ++ [n4]) hreg)) as Hs.
  { cbn. apply list_lookup_insert_eq. by apply lookup_lt_Some in H1. }
  assert (read_id_list (StaticReg i) w' = Ret (idl ++ [n4]) w') as Hrd.
  { unfold read_id_list, read_reg, read_static_reg, bind. rewrite Hs.
    by rewrite (reg_id_list_set _ idl). }
  unfold remove_matching_items, read_reg, read_static_reg. unfold bind at 1. rewrite Hs.
  rewrite (dddi_type _ (idl ++ [n4])) by (by apply (reg_id_list_set _ idl)). rewrite bool_decide_true by done.
  unfold SYS_SLIST_FOR_EACH_SAFE. rewrite (bind_step _ _ _ _ _ Hrd).
  apply (remove_last_item w' _ idl n4 id vals) with (l1 := []) (vals2 := vals); try done.
  - eapply Forall2_impl; [exact H3|]. cbn. intros a v Ha. rewrite lookup_insert_ne; [done|]. intros ->. by rewrite Hfree in Ha.
  - intros Hin. by apply Hv in Hin.
  - cbn. by rewrite lookup_insert_eq.
  - unfold remove_id_item. rewrite (bind_step _ _ _ _ _ Hrd).
    rewrite slist_find_and_remove_app by (apply NoDup_app in Hn; set_solver). rewrite app_nil_r. cbn [snd].
    unfold write_id_list, read_reg, read_static_reg, write_reg. rewrite bind_assoc. unfold bind at 1. rewrite Hs.
    unfold bind at 1. rewrite (set_reg_id_list_twice _ idl) by done.
    erewrite k_free_run; [|cbn; by rewrite lookup_insert_eq].
    unfold set_heap, set_static_regs, w', mk. cbn. do 2 f_equal.
    + rewrite list_insert_insert_eq. by apply list_insert_id.
    + by apply delete_insert_id.
  - rewrite length_app. cbn. lia.
Qed.

(** C8. Clearing undoes defining: after a successful definition of a new
    identifier, clearing it gives back the heap, the dynamic registrations
    and the static registrations exactly as they were: everything is freed
    once, nothing is leaked. *)
Theorem define_clear_roundtrip w rs context i hreg idl vals did d c :
  ctx_registration context = StaticReg i -> ctx_instance context = inst_id w ->
  registry w rs -> Z.of_nat (length rs) < UINT32_MAX ->
  handler_at w i hreg idl vals -> NoDup idl -> (forall v, v ∈ vals -> v ∈ ids rs) ->
  (forall r, r ∈ rs -> reg_data_id r <> Some did) ->
  (forall r, r ∈ rs -> no_dddi r) -> (forall j r, static_regs w !! j = Some r -> j <> i -> no_dddi r) ->
  (forall k, (k < 5)%nat -> refused w k = false) ->
  exists w1 w2, add_new_id (append_data_item d) context did c w = Ret (UDS_OK, true) w1 /\
    uds_dynamicallY_define_data_by_id_remove_single_id did w1 = Ret tt w2 /\
    heap w2 = heap w /\ dynamic_registrations w2 = dynamic_registrations w /\ static_regs w2 = static_regs w.
Proof.
  intros Hctx Hinst Hreg Hlen Hh Hnd Hvals Hno Hnod Hnos Hmem.
  assert (undefined rs vals did) as Hu by (intros r Hr Hx; by apply Hno in Hx).
  destruct (add_new_id_run w rs context i hreg idl vals did d c Hctx Hinst Hreg Hlen Hh Hu) as (id & Hspec & Hid & Hrun).
  cbn zeta in Hrun. rewrite !Hmem in Hrun by lia. do 2 eexists. split; [exact Hrun|].
  pose proof (clear_registration w rs i hreg idl vals did d id Hreg Hh Hno Hspec Hid) as Hclear. cbn zeta in Hclear.
  unfold uds_dynamicallY_define_data_by_id_remove_single_id. unfold bind at 1, gets at 1. cbn [dynamic_registrations mk].
  rewrite (bind_step _ _ _ _ _ Hclear).
  set (n4 := Pos.succ (Pos.succ (Pos.succ (Pos.succ (next_addr w))))). set (w5 := mk w 5 _ _ _ _).
  assert (forall a, is_Some (heap w !! a) -> a <> n4) as Hold.
  { intros a Ha. pose proof (registry_fresh _ _ Hreg a Ha). subst n4. lia. }
  assert (forall v, v ∈ vals -> v <> id) as Hvid.
  { intros v Hv ->. apply Hvals in Hv. destruct Hspec as [[? _]|(_ & Hx & _)]; done. }
  assert (NoDup (idl ++ [n4])) as Hnd4.
  { apply NoDup_app. split_and!; [done| |apply NoDup_singleton]. intros a Ha Hx.
    apply list_elem_of_singleton in Hx as ->. apply list_elem_of_lookup in Ha as [j Ha].
    destruct (Forall2_lookup_l _ _ _ _ _ (ha_items _ _ _ _ _ Hh) Ha) as (v & _ & Hv). by apply (Hold n4); [eexists|]. }
  assert (heap w !! n4 = None) as Hn4 by (apply (fresh_above w rs); [done|subst n4; lia]).
  pose proof (clear_handler_list w i hreg idl vals id n4 Hh Hvid Hnd4 Hn4 5 (Pos.succ n4)) as Hlist. fold w5 in Hlist.
  assert (forall j (wx : world E), j <> i -> (forall k, k <> i -> static_regs wx !! k = static_regs w !! k) ->
    (j < length (static_regs w))%nat -> remove_matching_items id (StaticReg j) wx = Ret tt wx) as Hskip.
  { intros j wx Hj Hx Hlt. apply lookup_lt_is_Some in Hlt as [r Hr]. apply (remove_matching_skip wx _ r); [|by apply (Hnos j)].
    unfold read_reg, read_static_reg. by rewrite Hx, Hr. }
  unfold bind at 1, gets at 1. cbn [static_regs w5 mk]. rewrite length_insert. fold w5.
  erewrite bind_step; [|apply (section_single _ _ i w5 (mk w 5 (heap w) (dynamic_registrations w) (static_regs w) (Pos.succ n4)))].
  - unfold SYS_SLIST_FOR_EACH. unfold bind at 1, gets at 1.
    split; [apply (dynamic_walk_skip _ _ _ [] rs); cbn; try done|done].
    + apply Hreg.
    + apply Hreg.
    + intros a Ha. destruct (points_to_lookup _ _ _ _ (registry_points_to _ _ Hreg) Ha) as (r & Hlk & Hr).
      apply (remove_matching_skip _ _ r); [|by apply Hnod]. by apply read_dyn_reg_run.
  - destruct Hh as [H1 _ _]. by apply lookup_lt_Some in H1.
  - intros j Hj. apply Hskip; [lia| |]; [|destruct Hh as [H1 _ _]; apply lookup_lt_Some in H1; lia].
    intros k Hk. cbn. by apply list_lookup_insert_ne.
  - exact Hlist.
  - intros j Hj. apply Hskip; [lia|done|lia].
Qed.
End dddi_props.
