(* ===== verification/UdsSystem.v ===== *)
(** * The UDS library as a whole

    The components meet in the callbacks: [callbacks] says what every function
    name of a registration runs, the actions for dynamic identifiers call the
    event dispatcher again.  The nesting depth of such calls is the fuel of
    [callbacks]; the code has no bound on it. *)

From stdpp Require Import base gmap list numbers relations.
From Stdlib Require Import ZArith Lia.
From S2P Require Import Prelude.
From S2P Require Import UdsTypes.
From S2P Require Import Uds.
From S2P Require Import UdsMacros.
From S2P Require Import UdsServices.
From S2P Require Import UdsMemory.
From S2P Require Import UdsLinkControl.
From S2P Require Import UdsFileTransfer.
From S2P Require Import UdsUploadDownload.
From S2P Require Import UdsDDDI.

#[local] Open Scope Z_scope.

(** ** Definitions *)

(** The callbacks of an application. *)
Class UserCallbacks (E : Type) := {
  user_check : nat -> uds_context -> bool -> M (world E) (UDSErr_t * bool);
  user_action : nat -> uds_context -> bool -> M (world E) (UDSErr_t * bool * uds_arg);
  user_unregister : nat -> addr -> M (world E) Z;
}.

(** Kconfig and device tree values. *)
Record uds_config := UdsConfig {
  cfg_memory : memory_config;
  cfg_updown : updown_config;
  CONFIG_UDS_DEFAULT_CAN_BITRATE : Z;
  DISABLE_SWITCH_TO_FIRMWARE_LOADER : bool;
  CONFIG_UDS_USE_LINK_CONTROL : bool;
}.

Section system.
Context {E : Type} `{!Iso14229Constants} `{!Server E} `{!Platform E} `{!Memory E} `{!CanController E}
  `{!LinkControlVars E} `{!FileSystem E} `{!FileTransferVars E} `{!FlashDriver E} `{!UpDownVars E}
  `{!UserCallbacks E}.
Context (cfg : uds_config).

(** No depth left. *)
Definition no_callbacks : UdsCallbacks E := {|
  call_check _ _ _ := fail OutOfFuel;
  call_action _ _ _ := fail OutOfFuel;
  call_unregister _ _ := fail OutOfFuel;
|}.

Definition run_check (inner : UdsCallbacks E) (f : uds_check_fn) (c : uds_context) (b : bool) :
    M (world E) (UDSErr_t * bool) :=
  match f with
  | uds_check_user n => user_check n c b
  | uds_check_ecu_hard_reset_fn => uds_check_ecu_hard_reset c b
  | uds_check_execute_scheduled_reset_fn => uds_check_execute_scheduled_reset c b
  | uds_check_default_memory_by_addr_read_fn => uds_check_default_memory_by_addr_read (cfg_memory cfg) c b
  | uds_check_default_memory_by_addr_write_fn => uds_check_default_memory_by_addr_write (cfg_memory cfg) c b
  | uds_check_default_dynamically_define_data_ids_fn => uds_check_default_dynamically_define_data_ids c b
  | uds_dynamic_data_by_id_read_data_by_id_check_fn => uds_dynamic_data_by_id_read_data_by_id_check c b
  | uds_check_default_link_control_fn => uds_check_default_link_control c b
  | uds_check_default_link_control_change_diag_session_fn => uds_check_default_link_control_change_diag_session c b
  | uds_check_read_with_data_id_fn => uds_check_read_with_data_id c b
  | uds_check_write_with_data_id_fn => uds_check_write_with_data_id c b
  | uds_check_io_control_with_data_id_fn => uds_check_io_control_with_data_id c b
  | uds_check_with_subfunc_fn_fn => uds_check_with_subfunc_fn c b
  | uds_check_with_routine_id_fn_fn => uds_check_with_routine_id_fn c b
  | uds_check_always_apply_fn => uds_check_always_apply c b
  | default_diag_session_ctrl_check_fn => diag_session_ctrl_check c b
  | default_diag_session_timeout_check_fn => diag_session_timeout_check c b
  end.

(** [fuel] bounds the dynamic registrations visited per event. *)
Definition run_action (fuel : nat) (inner : UdsCallbacks E) (f : uds_action_fn) (c : uds_context) (b : bool) :
    M (world E) (UDSErr_t * bool * uds_arg) :=
  match f with
  | uds_action_user n => user_action n c b
  | uds_action_ecu_hard_reset_fn => uds_action_ecu_hard_reset c b
  | uds_action_execute_scheduled_reset_fn => uds_action_execute_scheduled_reset c b
  | uds_action_default_memory_by_addr_read_fn => uds_action_default_memory_by_addr_read c b
  | uds_action_default_memory_by_addr_write_fn => uds_action_default_memory_by_addr_write c b
  | uds_action_default_dynamically_define_data_ids_fn => uds_action_default_dynamically_define_data_ids c b
  | uds_dynamic_data_by_id_read_data_by_id_action_fn =>
      uds_dynamic_data_by_id_read_data_by_id_action (uds_event_callback uds_event_handlers fuel) c b
  | uds_action_default_link_control_fn => uds_action_default_link_control c b
  | uds_action_default_link_control_change_diag_session_fn =>
      uds_action_default_link_control_change_diag_session (CONFIG_UDS_DEFAULT_CAN_BITRATE cfg) c b
  | uds_action_upload_download_fn => uds_action_upload_download (cfg_updown cfg) c b
  | default_diag_session_ctrl_action_fn => diag_session_ctrl_action (DISABLE_SWITCH_TO_FIRMWARE_LOADER cfg) c b
  | default_diag_session_timeout_action_fn => diag_session_timeout_action c b
  end.

Definition run_unregister (f : unregister_fn) (a : addr) : M (world E) Z :=
  match f with
  | unregister_user n => user_unregister n a
  | uds_unregister_dynamic_identifier_fn => uds_unregister_dynamic_identifier a
  end.

Fixpoint callbacks (depth fuel : nat) : UdsCallbacks E :=
  match depth with
  | O => no_callbacks
  | S depth =>
      let inner := callbacks depth fuel in
      {| call_check := run_check inner;
         call_action := run_action fuel inner;
         call_unregister := run_unregister |}
  end.

(** [uds_event_callback] of the linked program. *)
Definition event_callback (depth fuel : nat) (ev : UDSEvent_t) (arg : uds_arg) :
    M (world E) (UDSErr_t * uds_arg) :=
  @uds_event_callback E (callbacks depth fuel) uds_event_handlers fuel ev arg.

(** The static registrations of default_instance.c and upload_download.c, in
    the order of their definition. *)
Definition default_instance_registrations (inst : nat) : list uds_registration_t :=
  UDS_REGISTER_DIAG_SESSION_CTRL_HANDLER (Some inst) 0
    (Some default_diag_session_ctrl_check_fn) (Some default_diag_session_ctrl_action_fn)
    (Some default_diag_session_timeout_check_fn) (Some default_diag_session_timeout_action_fn) ::
  (if CONFIG_UDS_USE_LINK_CONTROL cfg then UDS_REGISTER_LINK_CONTROL_DEFAULT_HANDLER (Some inst) else []) ++
  [UDS_REGISTER_ECU_DEFAULT_HARD_RESET_HANDLER (Some inst); __uds_registration_dummy_upload_download_].
End system.

(** ** Lemmas *)

Section system_props.
Context {E : Type} `{!Iso14229Constants} `{!Server E} `{!Platform E} `{!Memory E} `{!CanController E}
  `{!LinkControlVars E} `{!FileSystem E} `{!FileTransferVars E} `{!FlashDriver E} `{!UpDownVars E}
  `{!UserCallbacks E}.
Context (cfg : uds_config).
Implicit Types (w : world E).

(** The unregister function of dynamic identifiers, in every system with some
    depth. *)
#[export] Instance callbacks_dddi_unregister depth fuel :
  @DDDIUnregister E (callbacks cfg (S depth) fuel).
Proof. done. Qed.

(** The three events that select a registration by data identifier, with
    their arguments and their entries in the event table. *)
Inductive did_event (did : Z) : UDSEvent_t -> uds_arg -> uds_event_handler_data -> uds_check_fn -> Prop :=
| did_read copy : did_event did UDS_EVT_ReadDataByIdent (UDSRDBIArgs did copy)
    __uds_event_handler_data_read_data_by_ident_ uds_check_read_with_data_id_fn
| did_write data : did_event did UDS_EVT_WriteDataByIdent (UDSWDBIArgs did data)
    __uds_event_handler_data_write_data_by_ident_ uds_check_write_with_data_id_fn
| did_io param st copy : did_event did UDS_EVT_IOControl (UDSIOCtrlArgs did param st copy)
    __uds_event_handler_data_io_control_ uds_check_io_control_with_data_id_fn.

Lemma did_event_handled did ev arg h chk fuel depth w :
  did_event did ev arg h chk ->
  event_callback cfg depth fuel ev arg w = @uds_handle_event E (callbacks cfg depth fuel) fuel ev arg h w.
Proof.
  intros Hev. unfold event_callback. assert (h ∈ uds_event_handlers /\ event h = ev) as [Hin <-].
  { destruct Hev; (split; [unfold uds_event_handlers; repeat constructor|done]). }
  by apply event_callback_handled.
Qed.

Lemma read_static_run i r w : static_regs w !! i = Some r -> read_reg (StaticReg i) w = Ret r w.
Proof. intros Hr. unfold read_reg, read_static_reg. by rewrite Hr. Qed.

Lemma reg_data_id_type r :
  type r = UDS_REGISTRATION_TYPE__DATA_IDENTIFIER ->
  exists d i rd wr io, payload r = data_identifier d i rd wr io.
Proof. unfold type. destruct (payload r); try done. eauto 6. Qed.

(** A registration of another identifier, or of another service, is passed
    by. *)
Lemma did_inapplicable depth fuel did ev arg h chk w p r :
  did_event did ev arg h chk -> read_reg p w = Ret r w -> reg_data_id r <> Some did ->
  @inapplicable E (callbacks cfg (S depth) fuel) ev h arg w p.
Proof.
  intros Hev Hr Hid. destruct (decide (type r = UDS_REGISTRATION_TYPE__DATA_IDENTIFIER)) as [Ht|Ht].
  2: { eapply other_type; [exact Hr|]. by destruct Hev. }
  apply reg_data_id_type in Ht as (d & i & rd & wr & io & Hp).
  unfold reg_data_id in Hid. rewrite Hp in Hid.
  eapply (declined _ _ _ _ _ r chk); [exact Hr|by destruct Hev|].
  destruct Hev; cbn [callbacks call_check run_check];
    unfold uds_check_read_with_data_id, uds_check_write_with_data_id, uds_check_io_control_with_data_id;
    cbn [ctx_registration ctx_arg arg_dataId]; rewrite (bind_step _ _ _ _ _ Hr);
    unfold data_identifier_parts; rewrite Hp; unfold bind, of_option, ret;
    rewrite decide_True by congruence; done.
Qed.

(** Every registration that a request for [did] could reach is for another
    identifier. *)
Definition unknown_did w (did : Z) : Prop :=
  (forall i r, static_regs w !! i = Some r -> reg_data_id r <> Some did) /\
  (forall a, a ∈ dynamic_registrations w -> exists r, heap w !! a = Some (obj_registration r) /\
                                                      reg_data_id r <> Some did).

(** A request to read, write or control a data identifier that nobody
    registered is answered with RequestOutOfRange, and nothing has changed. *)
Theorem unknown_data_identifier depth fuel did ev arg h chk w :
  did_event did ev arg h chk -> unknown_did w did -> NoDup (dynamic_registrations w) ->
  (length (dynamic_registrations w) <= fuel)%nat ->
  event_callback cfg (S depth) fuel ev arg w = Ret (UDS_NRC_RequestOutOfRange, arg) w.
Proof.
  intros Hev [Hs Hd] Hn Hf. rewrite (did_event_handled _ _ _ _ _ _ _ _ Hev).
  rewrite dispatch_default; try done; [by destruct Hev| |].
  - intros i Hi. apply lookup_lt_is_Some in Hi as [r Hr]. eapply did_inapplicable; [exact Hev| |by eapply Hs].
    unfold read_reg, read_static_reg. by rewrite Hr.
  - intros a Ha. destruct (Hd a Ha) as (r & Hr & Hid). split; [|by exists r].
    eapply did_inapplicable; [exact Hev| |exact Hid]. by apply read_dyn_reg_run.
Qed.

(** A data identifier whose write (or I/O control) actor is NULL, as the
    registration macro documents for read-only identifiers, is not refused: a
    write (or I/O control) request for it calls a NULL function pointer. *)
Theorem write_read_only_did_faults depth fuel w i r d did rd wr io arg ev :
  static_regs w !! i = Some r -> payload r = data_identifier d did rd wr io ->
  (forall j r', (j < i)%nat -> static_regs w !! j = Some r' -> reg_data_id r' <> Some did) ->
  ((ev = UDS_EVT_WriteDataByIdent /\ check wr = None /\ exists data, arg = UDSWDBIArgs did data) \/
   (ev = UDS_EVT_IOControl /\ check io = None /\ exists param st copy, arg = UDSIOCtrlArgs did param st copy)) ->
  event_callback cfg (S depth) fuel ev arg w = Fault NullPointer.
Proof.
  intros Hr Hp Hpre Hcase.
  assert (exists h chk, did_event did ev arg h chk /\
    call_check (UdsCallbacks := callbacks cfg (S depth) fuel) chk (Context (inst_id w) (StaticReg i) ev arg) false w =
    Fault NullPointer) as (h & chk & Hev & Hk).
  { destruct Hcase as [(-> & Hc & data & ->)|(-> & Hc & param & st & copy & ->)].
    - do 2 eexists. split; [apply did_write|]. cbn [callbacks call_check run_check].
      unfold uds_check_write_with_data_id. rewrite (bind_step _ _ _ r w) by (by apply read_static_run).
      cbn [ctx_arg arg_dataId]. unfold data_identifier_parts. rewrite Hp. unfold bind, of_option, ret.
      rewrite decide_False by congruence. by rewrite Hc.
    - do 2 eexists. split; [apply did_io|]. cbn [callbacks call_check run_check].
      unfold uds_check_io_control_with_data_id. rewrite (bind_step _ _ _ r w) by (by apply read_static_run).
      cbn [ctx_arg arg_dataId]. unfold data_identifier_parts. rewrite Hp. unfold bind, of_option, ret.
      rewrite decide_False by congruence. by rewrite Hc. }
  assert (forall f, @visit E (callbacks cfg (S depth) fuel) (StaticReg i) true ev h f arg w = Fault NullPointer) as Hv.
  { intros f. eapply visit_check_fault; [by apply read_static_run| | |exact Hk];
      [unfold type; rewrite Hp; by destruct Hev|by destruct Hev]. }
  rewrite (did_event_handled _ _ _ _ _ _ _ _ Hev). eapply (dispatch_fault _ _ _ _ _ i); [by eapply lookup_lt_Some| |exact Hv].
  intros j Hj. assert (j < length (static_regs w))%nat as Hlt by (apply lookup_lt_Some in Hr; lia).
  apply lookup_lt_is_Some in Hlt as [r' Hr']. eapply did_inapplicable; [exact Hev| |by eapply Hpre].
  unfold read_reg, read_static_reg. by rewrite Hr'.
Qed.

(** The situation of a dynamic identifier that has itself as a part. *)
Definition self_referential w (did : Z) : Prop :=
  (forall i r, static_regs w !! i = Some r -> reg_data_id r <> Some did) /\
  exists a r lo item pos size, dynamic_registrations w = [a] /\ heap w !! a = Some (obj_registration r) /\
    dynamic_identifier (heap w) did [UDS_DYNAMICALLY_DEFINED_DATA_TYPE__ID did pos size] lo [item] r.

Lemma self_reference_at_depth_0 fuel ev arg h chk w did :
  did_event did ev arg h chk -> self_referential w did ->
  event_callback cfg 0 fuel ev arg w = Fault OutOfFuel.
Proof.
  intros Hev (Hs & a & r & lo & item & pos & size & Hd & Ha & Hdi).
  rewrite (did_event_handled _ _ _ _ _ _ _ _ Hev), uds_handle_event_unfold.
  assert (forall k i, (i + k <= length (static_regs w))%nat ->
    bind (@static_loop E (callbacks cfg 0 fuel) k i ev arg h false)
      (@enter_dynamic E (callbacks cfg 0 fuel) fuel ev h) w = Fault OutOfFuel) as Hl; [|by apply Hl].
  induction k as [|k IH]; intros i Hi.
  - cbn. unfold bind, gets, ret. rewrite Hd. cbn [head]. destruct fuel as [|fuel]; [done|].
    rewrite dynamic_loop_S. unfold visit, uds_check_and_act_on_event. cbn [ctx_registration].
    unfold read_reg. rewrite (bind_step _ _ _ _ _ (read_dyn_reg_run _ _ _ Ha)).
    destruct Hdi as [Hp _ _ _ _]. rewrite decide_False.
    { destruct Hev; done. }
    unfold type. rewrite Hp. by destruct Hev; intros Hx; apply Hx.
  - unfold bind. rewrite static_loop_S. assert (i < length (static_regs w))%nat as Hlt by lia.
    apply lookup_lt_is_Some in Hlt as [r' Hr'].
    unfold visit, uds_check_and_act_on_event. cbn [ctx_registration]. unfold read_reg, read_static_reg.
    unfold bind at 1. rewrite Hr'. destruct (decide _).
    + unfold ret. cbn. apply IH. lia.
    + by destruct Hev.
Qed.

(** A dynamic identifier that was defined with itself as the source makes
    reading it recurse without end: whatever the depth and the number of
    registrations that may be visited, the read request does not return. *)
Theorem self_referential_read_diverges depth : forall fuel w did copy,
  self_referential w did ->
  event_callback cfg depth fuel UDS_EVT_ReadDataByIdent (UDSRDBIArgs did copy) w = Fault OutOfFuel.
Proof.
  induction depth as [depth IH] using lt_wf_ind. intros fuel w did copy Hself.
  destruct depth as [|depth]; [by eapply self_reference_at_depth_0; [apply did_read|]|].
  pose proof Hself as (Hs & a & r & lo & item & pos & size & Hd & Ha & [Hp Hun Hlo Hit Hnd]).
  rewrite (did_event_handled _ _ _ _ _ _ _ _ (did_read did copy)), uds_handle_event_unfold.
  rewrite <- (Nat.add_0_r (length (static_regs w))). unfold bind at 1.
  rewrite (static_loop_inapplicable _ _ _ _ _ (length (static_regs w))).
  2: { intros j Hj. assert (j < length (static_regs w))%nat as Hlt by lia.
       apply lookup_lt_is_Some in Hlt as [r' Hr']. eapply did_inapplicable; [apply did_read| |by eapply Hs].
       unfold read_reg, read_static_reg. by rewrite Hr'. }
  unfold static_loop, ret at 1. cbn [enter_dynamic]. unfold bind at 1, gets. rewrite Hd. cbn [head].
  destruct fuel as [|fuel]; [done|]. unfold bind at 1. rewrite dynamic_loop_S.
  unfold visit, uds_check_and_act_on_event. cbn [ctx_registration ctx_arg]. unfold read_reg at 1.
  rewrite (bind_step _ _ _ _ _ (read_dyn_reg_run _ _ _ Ha)). rewrite decide_False.
  2: { unfold type. rewrite Hp. intros Hx. by apply Hx. }
  cbn [get_check __uds_event_handler_data_read_data_by_ident_ uds_get_check_for_read_data_by_identifier].
  cbn [callbacks call_check run_check]. unfold uds_check_read_with_data_id. cbn [ctx_registration ctx_arg arg_dataId].
  unfold read_reg at 1. rewrite bind_assoc, (bind_step _ _ _ _ _ (read_dyn_reg_run _ _ _ Ha)).
  unfold data_identifier_parts. rewrite Hp. unfold bind at 1 2 3, of_option, ret at 1 2.
  rewrite decide_False by congruence. cbn [check].
  destruct depth as [|depth]; [done|].
  cbn [callbacks call_check run_check]. unfold uds_dynamic_data_by_id_read_data_by_id_check. cbn [ctx_registration ctx_arg].
  unfold read_reg at 1. rewrite (bind_step _ _ _ _ _ (read_dyn_reg_run _ _ _ Ha)).
  unfold reg_data_id. rewrite Hp, Z.eqb_refl. unfold ret at 1. rewrite decide_False by congruence.
  unfold read_reg at 1. rewrite (bind_step _ _ _ _ _ (read_dyn_reg_run _ _ _ Ha)).
  cbn [get_action __uds_event_handler_data_read_data_by_ident_]. unfold uds_get_action_for_read_data_by_identifier.
  rewrite Hp. cbn [action]. cbn [callbacks call_action run_action].
  unfold uds_dynamic_data_by_id_read_data_by_id_action. cbn [ctx_arg ctx_registration].
  unfold read_reg at 1. rewrite bind_assoc, (bind_step _ _ _ _ _ (read_dyn_reg_run _ _ _ Ha)).
  unfold reg_data. rewrite Hp. unfold bind at 1 2, of_option, ret at 1.
  rewrite (bind_step _ _ _ _ _ (read_data_list_run _ _ _ Hlo)).
  apply Forall2_cons_inv_l in Hit as (x & l & Hx & _ & [= <- <-]).
  cbn [length head read_items_loop].
  rewrite bind_assoc, (bind_step _ _ _ _ _ (read_data_item_run _ _ _ Hx)). cbn [read_item].
  pose proof (IH (S depth) ltac:(lia) (S fuel) (set_temp_buffer [] w) did copy_uds_copy Hself) as Hi.
  unfold event_callback in Hi. cbn [callbacks] in Hi.
  unfold bind, modify. rewrite Hi. done.
Qed.
End system_props.
