(* ===== verification/UdsDispatch.v ===== *)
(** * Requests to an application on the UDS library

    What [uds_event_callback] does with a request for which the linked program
    has exactly one registration, whatever the other registrations are and in
    whatever order the linker put them: the check and then the action of that
    registration answer it.  The theorems about the applications
    ([FirmwareLoader] and the UDS sample) are instances of these lemmas. *)

From stdpp Require Import base gmap list numbers relations.
From Stdlib Require Import ZArith Lia.
From S2P Require Import Prelude.
From S2P Require Import UdsTypes.
From S2P Require Import Uds.
From S2P Require Import UdsMacros.
From S2P Require Import UdsServices.
From S2P Require Import UdsMemory.
From S2P Require Import UdsLinkControl.
From S2P Require Import UdsFileTransfer.
From S2P Require Import UdsUploadDownload.
From S2P Require Import UdsSystem.

#[local] Open Scope Z_scope.

(** ** Definitions *)

(** The argument has the struct of the event, for the events whose
    registrations are selected by a member of it. *)
Definition fits (ev : UDSEvent_t) (arg : uds_arg) : bool :=
  match ev, arg with
  | UDS_EVT_ReadDataByIdent, UDSRDBIArgs _ _
  | UDS_EVT_WriteDataByIdent, UDSWDBIArgs _ _
  | UDS_EVT_IOControl, UDSIOCtrlArgs _ _ _ _
  | UDS_EVT_ReadDTCInformation, UDSRDTCIArgs _ _
  | UDS_EVT_RoutineCtrl, UDSRoutineCtrlArgs _ _ _ => true
  | (UDS_EVT_ReadDataByIdent | UDS_EVT_WriteDataByIdent | UDS_EVT_IOControl | UDS_EVT_ReadDTCInformation
    | UDS_EVT_RoutineCtrl), _ => false
  | _, _ => true
  end.

(** The registration has the identifier of the request, for the events that
    select by one. *)
Definition selected (arg : uds_arg) (r : uds_registration_t) : bool :=
  match arg, payload r with
  | (UDSRDBIArgs id _ | UDSWDBIArgs id _ | UDSIOCtrlArgs id _ _ _), data_identifier _ i _ _ _ => i =? id
  | UDSRDTCIArgs ty _, read_dtc s _ => s =? ty
  | UDSRoutineCtrlArgs _ id _, routine_control i _ => i =? id
  | _, _ => true
  end.

(** The registrations an event is meant for. *)
Definition relevant (h : uds_event_handler_data) (arg : uds_arg) (r : uds_registration_t) : bool :=
  bool_decide (type r = handler_registration_type h) && selected arg r.

(** The actor of a registration that an event uses. *)
Definition actor_of (ev : UDSEvent_t) (r : uds_registration_t) : uds_actor :=
  match ev, payload r with
  | UDS_EVT_ReadDataByIdent, data_identifier _ _ a _ _
  | UDS_EVT_WriteDataByIdent, data_identifier _ _ _ a _
  | UDS_EVT_IOControl, data_identifier _ _ _ _ a
  | UDS_EVT_DiagSessCtrl, diag_session_ctrl a _
  | UDS_EVT_SessionTimeout, diag_session_ctrl _ a
  | UDS_EVT_EcuReset, ecu_reset _ a _
  | UDS_EVT_DoScheduledReset, ecu_reset _ _ a
  | UDS_EVT_ReadDTCInformation, read_dtc _ a
  | UDS_EVT_SecAccessRequestSeed, security_access a _
  | UDS_EVT_SecAccessValidateKey, security_access _ a
  | UDS_EVT_Auth, auth a _
  | UDS_EVT_AuthTimeout, auth _ a
  | UDS_EVT_CommCtrl, communication_control a
  | UDS_EVT_RoutineCtrl, routine_control _ a
  | UDS_EVT_ControlDTCSetting, control_dtc_setting a
  | UDS_EVT_ClearDiagnosticInfo, clear_diagnostic_information a
  | UDS_EVT_ReadMemByAddr, memory a _
  | UDS_EVT_WriteMemByAddr, memory _ a
  | UDS_EVT_LinkControl, link_control a
  | UDS_EVT_DynamicDefineDataId, dynamically_define_data_ids _ a => a
  | _, _ => null_actor
  end.

(** ** Lemmas on lists *)

Lemma Permutation_List_filter {A} (P : A -> bool) l l' :
  Permutation l l' -> Permutation (List.filter P l) (List.filter P l').
Proof. induction 1; cbn; repeat case_match; eauto using perm_nil, perm_skip, perm_swap, perm_trans. Qed.

(** In every order of a list with one element that satisfies [P], that element
    has only others around it. *)
Lemma sole_element {A} (P : A -> bool) (L l : list A) x :
  Permutation l L -> List.filter P L = [x] ->
  exists pre post, l = pre ++ x :: post /\ Forall (fun a => P a = false) (pre ++ post).
Proof.
  intros Hperm HL. assert (List.filter P l = [x]) as Hl.
  { apply Permutation_singleton_r. rewrite <- HL. by apply Permutation_List_filter. }
  assert (In x (List.filter P l)) as [Hin Hx]%filter_In by (rewrite Hl; by left).
  apply in_split in Hin as (pre & post & ->). exists pre, post. split; [done|].
  assert (List.filter P (pre ++ post) = []) as Hnil.
  { apply length_zero_iff_nil. pose proof (f_equal length Hl) as Hlen. rewrite List.filter_app in *. cbn in Hlen.
    rewrite Hx, !length_app in *. cbn in Hlen. lia. }
  apply Forall_forall. intros a Ha%list_elem_of_In. destruct (P a) eqn:Hpa; [|done].
  assert (In a (List.filter P (pre ++ post))) as Hf by by apply filter_In. by rewrite Hnil in Hf.
Qed.

(** ** One relevant registration *)

Lemma set_ext_ext {E} (w : world E) : set_ext (ext w) w = w.
Proof. by destruct w. Qed.

Section dispatch.
Context {E : Type} `{!Iso14229Constants} `{!Server E} `{!Platform E} `{!Memory E} `{!CanController E}
  `{!LinkControlVars E} `{!FileSystem E} `{!FileTransferVars E} `{!FlashDriver E} `{!UpDownVars E}
  `{!UserCallbacks E}.
Context (cfg : uds_config) (depth fuel : nat).
Implicit Types (w : world E) (h : uds_event_handler_data) (arg : uds_arg).

#[local] Abbreviation cbs := (callbacks cfg (S (S depth)) fuel) (only parsing).
#[local] Abbreviation deliver := (event_callback cfg (S (S depth)) fuel) (only parsing).

Lemma handled h arg w : h ∈ uds_event_handlers ->
  deliver (event h) arg w = @uds_handle_event _ cbs fuel (event h) arg h w.
Proof. apply (@event_callback_handled _ cbs). Qed.

(** The check the dispatcher calls: the actor's own, or one that compares the
    identifier first. *)
Lemma get_action_actor h r : h ∈ uds_event_handlers -> type r = handler_registration_type h ->
  type r <> UDS_REGISTRATION_TYPE__UPLOAD_DOWNLOAD -> get_action h r = action (actor_of (event h) r).
Proof.
  intros Hh Hty Hud. destruct r as [i u pl d un]. unfold type in *. cbn in Hty, Hud.
  unfold uds_event_handlers in Hh.
  repeat (apply elem_of_cons in Hh as [->|Hh]; [by destruct pl|]). by apply elem_of_nil in Hh.
Qed.

Lemma check_actor h r n p w arg : h ∈ uds_event_handlers -> fits (event h) arg = true ->
  relevant h arg r = true -> read_reg p w = Ret r w -> check (actor_of (event h) r) = Some (uds_check_user n) ->
  exists chk, get_check h r = Some chk /\
    @call_check E cbs chk (Context (inst_id w) p (event h) arg) false w =
      user_check n (Context (inst_id w) p (event h) arg) false w.
Proof.
  intros Hh Hfit Hrel Hr Hc. unfold relevant in Hrel. apply andb_prop in Hrel as [Hty%bool_decide_eq_true Hsel].
  destruct r as [i u pl d un]. unfold type in Hty. cbn in Hty. unfold uds_event_handlers in Hh.
  repeat (apply elem_of_cons in Hh as [->|Hh];
    [destruct pl; try discriminate Hty; try discriminate Hc; cbn in Hc; eexists; (split; [exact Hc || reflexivity|]); try reflexivity;
     destruct arg; try discriminate Hfit; unfold selected in Hsel; cbn in Hsel; apply Z.eqb_eq in Hsel as ->;
     cbn [callbacks call_check run_check];
     unfold uds_check_read_with_data_id, uds_check_write_with_data_id, uds_check_io_control_with_data_id, uds_check_with_subfunc_fn,
       uds_check_with_routine_id_fn; cbn [ctx_registration ctx_arg arg_dataId]; rewrite (bind_step _ _ _ _ _ Hr);
     unfold data_identifier_parts, bind, of_option, ret; cbn [payload]; rewrite decide_False by naive_solver;
     unfold call_check_ptr; by rewrite Hc|]).
  by apply elem_of_nil in Hh.
Qed.

(** A registration the event is not meant for is passed by. *)
Lemma passed_by h r p w arg : h ∈ uds_event_handlers -> fits (event h) arg = true ->
  relevant h arg r = false -> read_reg p w = Ret r w -> @inapplicable E cbs (event h) h arg w p.
Proof.
  intros Hh Hfit Hrel Hr. destruct (decide (type r = handler_registration_type h)) as [Hty|Hty]; [|by eapply other_type].
  unfold relevant in Hrel. rewrite bool_decide_true in Hrel by done. cbn in Hrel.
  destruct r as [i u pl d un]. unfold type in Hty. cbn in Hty. unfold uds_event_handlers in Hh.
  repeat (apply elem_of_cons in Hh as [->|Hh];
    [destruct pl; try discriminate Hty; destruct arg; first [discriminate Hfit|discriminate Hrel|
     cbn in Hrel; apply Z.eqb_neq in Hrel; eapply declined; [exact Hr|reflexivity|];
     cbn [callbacks call_check run_check];
     unfold uds_check_read_with_data_id, uds_check_write_with_data_id, uds_check_io_control_with_data_id, uds_check_with_subfunc_fn,
       uds_check_with_routine_id_fn; cbn [ctx_registration ctx_arg arg_dataId]; rewrite (bind_step _ _ _ _ _ Hr);
     unfold data_identifier_parts, bind, of_option, ret; cbn [payload]; by rewrite decide_True by congruence]|]).
  by apply elem_of_nil in Hh.
Qed.

(** What the callbacks of an actor answer: the code, [*consume_event] and the
    argument; the check declines with [false]. *)
Definition user_answer (n m : nat) (c : uds_context) : M (world E) (UDSErr_t * bool * uds_arg) :=
  let* (r, apply_action) := user_check n c false in
  if decide (r <> UDS_OK) then ret (r, false, ctx_arg c)
  else if apply_action then user_action m c true
  else ret (UDS_OK, false, ctx_arg c).

(** The check of the application only looks. *)
Definition looks (n : nat) (c : uds_context) w : Prop := exists r b, user_check n c false w = Ret (r, b) w.

(** The visit of a registration of the application is its answer. *)
Lemma visit_user h r n m i w arg f : h ∈ uds_event_handlers -> fits (event h) arg = true ->
  relevant h arg r = true -> static_regs w !! i = Some r ->
  actor_of (event h) r = Actor (Some (uds_check_user n)) (Some (uds_action_user m)) ->
  looks n (Context (inst_id w) (StaticReg i) (event h) arg) w ->
  match user_answer n m (Context (inst_id w) (StaticReg i) (event h) arg) w with
  | Ret (r, c, arg') w' => exists f', @visit E cbs (StaticReg i) true (event h) h f arg w = Ret (r, f', c, arg') w'
  | Fault e => @visit E cbs (StaticReg i) true (event h) h f arg w = Fault e
  end.
Proof.
  intros Hh Hfit Hrel Hreg Hact (r1 & b & Hchk).
  pose proof (read_static_run _ _ _ Hreg) as Hr.
  destruct (check_actor h r n (StaticReg i) w arg) as (chk & Hget & Hcall); [done..|by rewrite Hact|].
  assert (get_action h r = Some (uds_action_user m)) as Hga.
  { pose proof Hrel as Hrel'. unfold relevant in Hrel'. apply andb_prop in Hrel' as [Hty%bool_decide_eq_true _].
    rewrite get_action_actor; [by rewrite Hact|done|done|]. intros Hud.
    destruct r as [? ? pl ? ?]; destruct pl; try discriminate Hud. revert Hact. unfold actor_of. cbn. by destruct (event h). }
  rewrite Hchk in Hcall. unfold user_answer, visit, uds_check_and_act_on_event. cbn [ctx_registration ctx_arg].
  rewrite (bind_step _ _ _ _ _ Hchk), (bind_step _ _ _ _ _ Hr). cbn beta iota.
  rewrite (decide_False (P := type r <> handler_registration_type h)).
  2: { unfold relevant in Hrel. apply andb_prop in Hrel as [Hty%bool_decide_eq_true _]. intros Hne. by apply Hne. }
  rewrite Hget, (bind_step _ _ _ _ _ Hcall). cbn beta iota.
  destruct (decide (r1 <> UDS_OK)) as [Hne|Heq%dec_stable]; [by eexists|]. subst r1.
  rewrite (bind_step _ _ _ _ _ Hr), Hga. destruct b; [|by eexists].
  change (@call_action E cbs (uds_action_user m)) with (user_action m).
  unfold bind. destruct (user_action m _ true w) as [[[r2 c] a2] w'|e]; [|done].
  destruct (decide (r2 <> UDS_OK)) as [|Heq%dec_stable]; [by eexists|]. subst r2. by eexists.
Qed.

Section sole.
Context (h : uds_event_handler_data) (arg : uds_arg) (L : list uds_registration_t).
Hypothesis (Hh : h ∈ uds_event_handlers) (Hfit : fits (event h) arg = true).

Lemma others_passed_by w pre r post : static_regs w = pre ++ r :: post ->
  Forall (fun a => relevant h arg a = false) (pre ++ post) ->
  forall j, j <> length pre -> (j < length (static_regs w))%nat -> @inapplicable E cbs (event h) h arg w (StaticReg j).
Proof.
  intros Hs Hall j Hj Hlt. destruct (lookup_lt_is_Some_2 _ _ Hlt) as [x Hx].
  apply (passed_by h x); [done..| |by apply read_static_run].
  rewrite Forall_forall in Hall. apply Hall. rewrite Hs in Hx. apply elem_of_app.
  apply lookup_app_Some in Hx as [Hx|[Hle Hx]]; [left; by eapply list_elem_of_lookup_2|right].
  apply lookup_cons_Some in Hx as [[Hx _]|[_ Hx]]; [lia|by eapply list_elem_of_lookup_2].
Qed.

(** The outcome of a request with one relevant registration, whose callbacks
    answer [o] wherever the linker put it. *)
Lemma sole_answer r n m w o :
  Permutation (static_regs w) L -> dynamic_registrations w = [] -> List.filter (relevant h arg) L = [r] ->
  actor_of (event h) r = Actor (Some (uds_check_user n)) (Some (uds_action_user m)) ->
  (forall i, static_regs w !! i = Some r -> looks n (Context (inst_id w) (StaticReg i) (event h) arg) w /\
    user_answer n m (Context (inst_id w) (StaticReg i) (event h) arg) w = o) ->
  match o with
  | Ret (r, c, arg') w' => decisive r c = true -> deliver (event h) arg w = Ret (r, arg') w'
  | Fault e => deliver (event h) arg w = Fault e
  end.
Proof.
  intros Hperm Hdyn Hsole Hact Ho.
  destruct (sole_element _ _ _ _ Hperm Hsole) as (pre & post & Hs & Hall).
  assert (relevant h arg r = true) as Hrel.
  { assert (In r (List.filter (relevant h arg) L)) as [_ ?]%filter_In; [rewrite Hsole; by left|done]. }
  assert (static_regs w !! length pre = Some r) as Hreg by by rewrite Hs, list_lookup_middle.
  destruct (Ho _ Hreg) as [Hlook Hans]. rewrite handled by done.
  pose proof (visit_user h r n m (length pre) w arg) as Hv. rewrite Hans in Hv.
  assert (forall j, (j < length pre)%nat -> @inapplicable E cbs (event h) h arg w (StaticReg j)) as Hpre.
  { intros j Hj. eapply others_passed_by; [done..|lia|rewrite Hs, length_app; lia]. }
  destruct o as [[[r1 c] arg'] w'|e].
  - intros Hdec. eapply (@dispatch_decided E cbs _ _ _ _ _ (length pre)); [by eapply lookup_lt_Some| | |exact Hdec].
    + intros j Hj. by apply inapplicable_quiet, Hpre.
    + intros f. by apply Hv.
  - eapply (@dispatch_fault E cbs _ _ _ _ _ (length pre)); [by eapply lookup_lt_Some|exact Hpre|]. intros f. by apply Hv.
Qed.

(** A request whose relevant registrations all decline is answered with the
    default code. *)
Lemma all_decline w :
  Permutation (static_regs w) L -> dynamic_registrations w = [] ->
  (forall r i, r ∈ L -> relevant h arg r = true -> static_regs w !! i = Some r ->
    exists n, check (actor_of (event h) r) = Some (uds_check_user n) /\
      user_check n (Context (inst_id w) (StaticReg i) (event h) arg) false w = Ret (UDS_OK, false) w) ->
  deliver (event h) arg w = Ret (default_nrc h, arg) w.
Proof.
  intros Hperm Hdyn Hdec. rewrite handled by done.
  apply (@dispatch_default E cbs); rewrite ?Hdyn; [|set_solver|constructor|cbn; lia].
  intros i [r Hr]%lookup_lt_is_Some. pose proof (read_static_run _ _ _ Hr) as Hread.
  destruct (relevant h arg r) eqn:Hrel; [|by apply (passed_by h r)].
  destruct (Hdec r i) as (n & Hn & Hrun); [rewrite <- Hperm; by eapply list_elem_of_lookup_2|done..|].
  destruct (check_actor h r n (StaticReg i) w arg) as (chk & Hget & Hcall); [done..|].
  eapply declined; [exact Hread|exact Hget|by rewrite Hcall].
Qed.
End sole.

(** When every registration lets the event pass, the answer is the default or,
    when one of them ran, positive. *)
Lemma all_quiet h arg w : h ∈ uds_event_handlers -> dynamic_registrations w = [] ->
  (forall i r, static_regs w !! i = Some r -> @quiet E cbs (event h) h arg w (StaticReg i)) ->
  exists r, deliver (event h) arg w = Ret (r, arg) w /\ (r = default_nrc h \/ r = UDS_PositiveResponse).
Proof.
  intros Hh Hdyn Hq. rewrite handled, (@uds_handle_event_unfold E cbs) by done. unfold bind.
  rewrite <- (Nat.add_0_r (length (static_regs w))). destruct (@static_loop_quiet E cbs (event h) h arg w (length (static_regs w)) 0 0 false) as [f ->].
  { intros j Hj. destruct (lookup_lt_is_Some_2 (static_regs w) j) as [r Hr]; [lia|]. by apply (Hq j r). }
  cbn. unfold bind, gets. rewrite Hdyn. destruct fuel, f; cbn; eauto.
Qed.

(** The default instance's session handler lets a request pass, in a program
    without the switch into the firmware loader. *)
Lemma default_session_quiet ty w n inst :
  DISABLE_SWITCH_TO_FIRMWARE_LOADER cfg = true ->
  static_regs w !! n = head (default_instance_registrations cfg inst) ->
  @quiet E cbs UDS_EVT_DiagSessCtrl __uds_event_handler_data_diag_sess_ctrl_ (UDSDiagSessCtrlArgs ty) w (StaticReg n).
Proof.
  intros Hcfg Hreg f. exists true. cbn in Hreg. pose proof (read_static_run _ _ _ Hreg) as Hread.
  rewrite (visit_runs _ _ _ _ _ _ _ UDS_OK false (UDSDiagSessCtrlArgs ty) w); [done|].
  eexists _, default_diag_session_ctrl_check_fn, default_diag_session_ctrl_action_fn, w.
  split_and!; [exact Hread|done..|eexists; split; [exact Hread|done]|]. cbn. unfold diag_session_ctrl_action. by rewrite Hcfg.
Qed.
End dispatch.

(** The event's handler data are in the table. *)
Ltac in_table := unfold uds_event_handlers; repeat constructor.

(** The registrations an event is meant for, computed. *)
Ltac relevant_run := lazy -[Z.eqb].
