(* ===== verification/UdsViews.v ===== *)
(** * Programs over what is visible of a state

    The theorems about an application do not see all of its environment: they
    see a [view] of it, a function of the state that the laws of the devices
    speak about.  Here are the rules that run code on views, the same in the
    world of a UDS instance, and the rule for a request that one registration
    of the application answers. *)

From stdpp Require Import base gmap list numbers relations.
From Stdlib Require Import ZArith Lia.
From S2P Require Import Prelude.
From S2P Require Import UdsTypes.
From S2P Require Import Uds.
From S2P Require Import UdsMacros.
From S2P Require Import UdsServices.
From S2P Require Import UdsMemory.
From S2P Require Import UdsLinkControl.
From S2P Require Import UdsFileTransfer.
From S2P Require Import UdsUploadDownload.
From S2P Require Import UdsSystem.
From S2P Require Import UdsDispatch.

#[local] Open Scope Z_scope.

Section views.
Context {E V : Type} (view : E -> V).

(** From every state with the view [v], [m] runs without a fault and ends with
    a result and a view that satisfy [Q]. *)
Definition vwp {A} (m : M E A) (Q : A -> V -> Prop) (v : V) : Prop :=
  forall e, view e = v -> exists a e', m e = Ret a e' /\ Q a (view e').

Lemma vwp_ret {A} (a : A) (Q : A -> V -> Prop) v : Q a v -> vwp (ret a) Q v.
Proof. intros HQ e <-. by exists a, e. Qed.

Lemma vwp_bind {A C} (m : M E A) (k : A -> M E C) (Q : C -> V -> Prop) v :
  vwp m (fun a v' => vwp (k a) Q v') v -> vwp (bind m k) Q v.
Proof.
  intros Hm e He. destruct (Hm e He) as (a & e1 & Hrun & Hk). destruct (Hk e1 eq_refl) as (c & e2 & Hrun2 & HQ).
  exists c, e2. by rewrite (bind_step _ _ _ _ _ Hrun).
Qed.

Lemma vwp_mono {A} (m : M E A) (P Q : A -> V -> Prop) v : vwp m P v -> (forall a v', P a v' -> Q a v') -> vwp m Q v.
Proof. intros Hm HPQ e He. destruct (Hm e He) as (a & e1 & Hrun & HP). eauto. Qed.

(** A part of the state that the view shows. *)
Lemma vwp_gets {A} (f : E -> A) (g : V -> A) (Q : A -> V -> Prop) v : (forall e, f e = g (view e)) -> Q (g v) v -> vwp (gets f) Q v.
Proof. intros Hf HQ e <-. exists (f e), e. split; [done|]. by rewrite Hf. Qed.

(** A change of the state that the view shows. *)
Lemma vwp_modify f (g : V -> V) (Q : unit -> V -> Prop) v : (forall e, view (f e) = g (view e)) -> Q tt (g v) -> vwp (modify f) Q v.
Proof. intros Hf HQ e <-. exists tt, (f e). split; [done|]. by rewrite Hf. Qed.

Lemma vwp_of_option {A} f (x : option A) a (Q : A -> V -> Prop) v : x = Some a -> Q a v -> vwp (of_option f x) Q v.
Proof. intros ->. apply vwp_ret. Qed.

(** The same for the code of an instance: only the state behind it changes. *)
Definition hvwp {A} (m : M (world E) A) (Q : A -> V -> Prop) (w : world E) (v : V) : Prop :=
  forall e, view e = v -> exists a e', m (set_ext e w) = Ret a (set_ext e' w) /\ Q a (view e').

Lemma hvwp_ret {A} (a : A) (Q : A -> V -> Prop) w v : Q a v -> hvwp (ret a) Q w v.
Proof. intros HQ e <-. by exists a, e. Qed.

Lemma hvwp_bind {A C} (m : M (world E) A) (k : A -> M (world E) C) (Q : C -> V -> Prop) w v :
  hvwp m (fun a v' => hvwp (k a) Q w v') w v -> hvwp (bind m k) Q w v.
Proof.
  intros Hm e He. destruct (Hm e He) as (a & e1 & Hrun & Hk). destruct (Hk e1 eq_refl) as (c & e2 & Hrun2 & HQ).
  exists c, e2. by rewrite (bind_step _ _ _ _ _ Hrun).
Qed.

Lemma hvwp_mono {A} (m : M (world E) A) (P Q : A -> V -> Prop) w v :
  hvwp m P w v -> (forall a v', P a v' -> Q a v') -> hvwp m Q w v.
Proof. intros Hm HPQ e He. destruct (Hm e He) as (a & e1 & Hrun & HP). eauto. Qed.

Lemma hvwp_on_ext {A} (m : M E A) (Q : A -> V -> Prop) w v : vwp m Q v -> hvwp (on_ext m) Q w v.
Proof. intros Hm e He. destruct (Hm e He) as (a & e' & Hrun & HQ). exists a, e'. unfold on_ext, zoom. cbn. by rewrite Hrun. Qed.

Lemma hvwp_of_option {A} f (x : option A) a (Q : A -> V -> Prop) w v : x = Some a -> Q a v -> hvwp (of_option f x) Q w v.
Proof. intros ->. apply hvwp_ret. Qed.

(** What holds on the view of a world. *)
Lemma hvwp_run {A} (m : M (world E) A) (Q : A -> V -> Prop) w : hvwp m Q w (view (ext w)) ->
  exists a e', m w = Ret a (set_ext e' w) /\ Q a (view e').
Proof. intros Hm. destruct (Hm (ext w) eq_refl) as (a & e' & Hrun & HQ). rewrite set_ext_ext in Hrun. eauto. Qed.
End views.

(** A request that one registration of the linked program answers. *)
Section requests.
Context {E : Type} `{!Iso14229Constants} `{!Server E} `{!Platform E} `{!Memory E} `{!CanController E}
  `{!LinkControlVars E} `{!FileSystem E} `{!FileTransferVars E} `{!FlashDriver E} `{!UpDownVars E}
  `{!UserCallbacks E}.
Context {V : Type} (view : E -> V) (cfg : uds_config) (depth fuel : nat).
Implicit Types (w : world E) (h : uds_event_handler_data) (arg : uds_arg).

Lemma request_view h arg (L : list uds_registration_t) r n m (Q : UDSErr_t * uds_arg -> V -> Prop) w v :
  Permutation (static_regs w) L -> dynamic_registrations w = [] ->
  h ∈ uds_event_handlers -> fits (event h) arg = true -> List.filter (relevant h arg) L = [r] ->
  actor_of (event h) r = Actor (Some (uds_check_user n)) (Some (uds_action_user m)) ->
  (forall e i, view e = v -> static_regs w !! i = Some r ->
     looks n (Context (inst_id w) (StaticReg i) (event h) arg) (set_ext e w)) ->
  (forall i, static_regs w !! i = Some r ->
     hvwp view (user_answer n m (Context (inst_id w) (StaticReg i) (event h) arg))
       (fun '(r, c, a) v' => decisive r c = true /\ Q (r, a) v') w v) ->
  hvwp view (event_callback cfg (S (S depth)) fuel (event h) arg) Q w v.
Proof.
  intros Hperm Hdyn Hh Hfit Hsole Hact Hlook Hans e He.
  destruct (sole_element _ _ _ _ Hperm Hsole) as (pre & post & Heq & Hall).
  assert (static_regs w !! length pre = Some r) as Hreg by by rewrite Heq, list_lookup_middle.
  destruct (Hans _ Hreg e He) as ([[rc c] a] & e' & Hrun & Hdec & HQ).
  exists (rc, a), e'. split; [|done].
  assert (relevant h arg r = true) as Hrel.
  { assert (In r (List.filter (relevant h arg) L)) as [_ ?]%filter_In; [rewrite Hsole; by left|done]. }
  pose proof (visit_user cfg depth fuel h r n m (length pre) (set_ext e w) arg) as Hv.
  cbn [inst_id set_ext] in Hv. rewrite Hrun in Hv. rewrite handled by done.
  eapply (@dispatch_decided E (callbacks cfg (S (S depth)) fuel) _ _ _ _ _ (length pre)); [by eapply lookup_lt_Some| | |exact Hdec].
  - intros j Hj. eapply inapplicable_quiet, (others_passed_by cfg depth fuel h arg Hh Hfit _ pre); [exact Heq|exact Hall|lia|].
    cbn. rewrite Heq, length_app. lia.
  - intros f. apply Hv; try done. by apply Hlook.
Qed.
End requests.
