(* ===== verification/UdsWitness.v ===== *)
(** * Witnesses for the UDS library

    One concrete environment that satisfies the laws the theorems assume of the
    devices, and for every theorem with hypotheses a closed instance of it
    there. *)

From stdpp Require Import base gmap list numbers relations.
From Stdlib Require Import ZArith Lia.
From S2P Require Import Prelude.
From S2P Require Import UdsTypes.
From S2P Require Import Uds.
From S2P Require Import UdsMacros.
From S2P Require Import UdsServices.
From S2P Require Import UdsMemory.
From S2P Require Import UdsLinkControl.
From S2P Require Import UdsFileTransfer.
From S2P Require Import UdsUploadDownload.
From S2P Require Import UdsDDDI.
From S2P Require Import UdsSystem.

#[local] Open Scope Z_scope.

(** ** The environment

    The user callbacks accept every request; reading an identifier sends its
    low byte and 1, 2, 3. *)

Record env := Env {
  e_session : Z;
  e_sent : list Z;
  e_mem : gmap Z Z;
  e_can : can_state;
  e_link : link_control_state;
  e_ft : file_transfer_state;
  e_ud : upload_download_state;
  e_files : gmap positive (list Z * nat);
  e_flash : Z -> Z;
  e_stat_fails : bool;
}.

Definition env_set_sent x e := Env (e_session e) x (e_mem e) (e_can e) (e_link e) (e_ft e) (e_ud e) (e_files e) (e_flash e) (e_stat_fails e).
Definition env_set_mem x e := Env (e_session e) (e_sent e) x (e_can e) (e_link e) (e_ft e) (e_ud e) (e_files e) (e_flash e) (e_stat_fails e).
Definition env_set_can x e := Env (e_session e) (e_sent e) (e_mem e) x (e_link e) (e_ft e) (e_ud e) (e_files e) (e_flash e) (e_stat_fails e).
Definition env_set_link x e := Env (e_session e) (e_sent e) (e_mem e) (e_can e) x (e_ft e) (e_ud e) (e_files e) (e_flash e) (e_stat_fails e).
Definition env_set_ft x e := Env (e_session e) (e_sent e) (e_mem e) (e_can e) (e_link e) x (e_ud e) (e_files e) (e_flash e) (e_stat_fails e).
Definition env_set_ud x e := Env (e_session e) (e_sent e) (e_mem e) (e_can e) (e_link e) (e_ft e) x (e_files e) (e_flash e) (e_stat_fails e).
Definition env_set_files x e := Env (e_session e) (e_sent e) (e_mem e) (e_can e) (e_link e) (e_ft e) (e_ud e) x (e_flash e) (e_stat_fails e).
Definition env_set_flash x e := Env (e_session e) (e_sent e) (e_mem e) (e_can e) (e_link e) (e_ft e) (e_ud e) (e_files e) x (e_stat_fails e).

#[export] Instance env_constants : Iso14229Constants := {|
  UDS_TP_MTU := 4095; UDS_MOOP_ADDFILE := 1; UDS_MOOP_DELFILE := 2; UDS_MOOP_REPLFILE := 3;
  UDS_MOOP_RDFILE := 4; UDS_0X36_RESP_BASE_LEN := 2;
|}.

#[export] Instance env_server : Server env := {|
  p2_ms _ := 50;
  sessionType := e_session;
  server_copy src n e := match src with
    | Some bs => Ret UDS_OK (env_set_sent (e_sent e ++ take (Z.to_nat n) bs) e)
    | None => Ret UDS_ERR_MISUSE e end;
|}.

#[export] Instance env_platform : Platform env := {|
  retention_write _ _ := ret 0; bootmode_set _ := ret 0; sys_reboot _ := ret tt; log_flush := ret tt; k_msleep _ := ret tt;
|}.

#[export, program] Instance env_memory : Memory env := {| mem := e_mem; set_mem := env_set_mem |}.
Next Obligation. done. Qed.

Definition env_supported (b : Z) : bool := 0 <? b.

#[export] Instance env_controller : CanController env := {|
  can_stop e := if started (e_can e) then Ret 0 (env_set_can (CanState false (bitrate (e_can e))) e)
                else Ret (- EALREADY) e;
  can_set_bitrate b e := if negb (started (e_can e)) && env_supported b
                         then Ret 0 (env_set_can (CanState false b) e) else Ret (- EINVAL) e;
  can_start e := if started (e_can e) then Ret (- EALREADY) e
                 else Ret 0 (env_set_can (CanState true (bitrate (e_can e))) e);
|}.

#[export] Instance env_link_vars : LinkControlVars env := {| link_vars := e_link; set_link_vars := env_set_link |}.

#[export, program] Instance env_ft_vars : FileTransferVars env := {| ft := e_ft; set_ft := env_set_ft |}.
Next Obligation. done. Qed.

#[export, program] Instance env_ud_vars : UpDownVars env := {| ud := e_ud; set_ud := env_set_ud |}.
Next Obligation. done. Qed.

(** A file has the bytes 1, 2, 3 unless it is truncated. *)
#[export] Instance env_fs : FileSystem env := {|
  fs_open _ fl e :=
    let h := fresh (dom (e_files e)) in
    Ret (0, h) (env_set_files (<[h := ((if Z.land fl FS_O_TRUNC =? FS_O_TRUNC then [] else [1; 2; 3]), 0%nat)]> (e_files e)) e);
  fs_close h e := Ret 0 (env_set_files (delete h (e_files e)) e);
  fs_stat _ e := Ret ((if e_stat_fails e then - EIO else 0), true, 3) e;
  fs_unlink _ := ret 0;
  fs_write h d e := match e_files e !! h with
    | Some (c, pos) => Ret (Z.of_nat (length d))
        (env_set_files (<[h := (take pos c ++ d ++ drop (pos + length d) c, (pos + length d)%nat)]> (e_files e)) e)
    | None => Ret (- EINVAL) e end;
  fs_read h n e := match e_files e !! h with
    | Some (c, pos) =>
        let bs := take (Z.to_nat n) (drop pos c) in
        Ret (Z.of_nat (length bs), bs) (env_set_files (<[h := (c, (pos + length bs)%nat)]> (e_files e)) e)
    | None => Ret (- EINVAL, []) e end;
|}.

#[export] Instance env_flash_driver : FlashDriver env := {|
  flash_controller_present _ := true; flash_controller_ready _ := true; flash_get_write_block_size _ := 8;
  flash_write a d e := Ret 0 (env_set_flash (fun i => if (a <=? i) && (i <? a + Z.of_nat (length d))
                                                      then default 0 (d !! Z.to_nat (i - a)) else e_flash e i) e);
  flash_read a n e := Ret (0, flash_range (e_flash e) a (Z.to_nat n)) e;
|}.

#[export] Instance env_user : UserCallbacks env := {|
  user_check _ _ _ := ret (UDS_OK, true);
  user_action _ c consume := match ctx_arg c with
    | UDSRDBIArgs id copy => let* r := call_copy copy (Some [id mod 256; 1; 2; 3]) 4 in ret (r, consume, ctx_arg c)
    | a => ret (UDS_OK, consume, a) end;
  user_unregister _ _ := ret 0;
|}.

(** ** It satisfies the laws *)

#[export] Instance env_can_laws : CanControllerLaws e_can (fun _ => false) (fun _ => false) env_supported.
Proof.
  constructor; cbn; [intros e|intros e b|intros e].
  - rewrite andb_true_r. destruct (started (e_can e)); do 2 eexists; (split; [reflexivity|]); done.
  - destruct (negb (started (e_can e)) && env_supported b); do 2 eexists; (split; [reflexivity|]); done.
  - destruct (started (e_can e)); do 2 eexists; (split; [reflexivity|]); done.
Qed.

#[export] Instance env_link_laws : LinkControlVarsLaws e_can.
Proof. by constructor. Qed.

#[export] Instance env_fs_laws : FileSystemLaws e_files.
Proof.
  constructor; cbn.
  - intros p fl e. do 3 eexists. split; [reflexivity|]. split; [done|]. split.
    + apply not_elem_of_dom, is_fresh.
    + eexists. split; [reflexivity|]. intros ->. by rewrite Z.eqb_refl.
  - intros h e. by do 2 eexists.
  - intros p e. by do 4 eexists.
  - intros p e. by do 2 eexists.
  - intros h d e c pos ->. do 2 eexists. split; [reflexivity|]. split_and!; [done|lia|].
    rewrite (proj2 (Z.ltb_ge _ 0)) by lia. cbn. by rewrite Nat2Z.id, (take_ge d) by lia.
  - intros h n e c pos -> Hn. do 3 eexists. split; [reflexivity|].
    rewrite length_take, length_drop. split_and!; [done|lia|lia|].
    rewrite (proj2 (Z.ltb_ge _ 0)) by lia. cbn. by rewrite Nat2Z.id.
  - intros h n e c pos rc bs e' -> [= <- <- <-] _. rewrite Nat2Z.id, length_take.
    destruct (decide (Z.to_nat n <= length (drop pos c))%nat).
    + by rewrite Nat.min_l.
    + by rewrite Nat.min_r, !take_ge by lia.
  - done.
Qed.

Lemma env_flash_range_lookup c a n i :
  (i < n)%nat -> flash_range c a n !! i = Some (c (a + Z.of_nat i)).
Proof.
  revert a i. induction n as [|n IH]; intros a [|i] Hi; [lia..| |].
  - cbn. by rewrite Z.add_0_r.
  - cbn [flash_range]. change (flash_range c (a + 1) n !! i = Some (c (a + Z.of_nat (S i)))).
    rewrite IH by lia. do 2 f_equal. lia.
Qed.

#[export] Instance env_flash_laws : FlashLaws e_files e_flash.
Proof.
  constructor; try (intros; intros ? ? ? [= <- <-]; done); try done.
  - intros a d e. do 2 eexists. split; [reflexivity|]. cbn. split.
    + intros _ i Hi. rewrite (proj2 (Z.leb_le _ _)), (proj2 (Z.ltb_lt _ _)) by lia. cbn.
      replace (Z.to_nat (a + Z.of_nat i - a)) with i by lia.
      apply lookup_lt_is_Some in Hi as [x Hx]. by rewrite Hx.
    + intros i Hi. destruct (Z.leb_spec a i), (Z.ltb_spec i (a + Z.of_nat (length d))); cbn; try done; lia.
  - intros a n e Hn. do 3 eexists. split; [reflexivity|]. rewrite length_flash_range. split; [done|].
    intros _ i Hi. by apply env_flash_range_lookup.
  - intros h d e a w'. cbn. destruct (e_files e !! h) as [[c pos]|]; intros [= <- <-]; done.
  - intros h n e a w'. cbn. destruct (e_files e !! h) as [[c pos]|]; intros [= <- <-]; done.
  - intros [bs|] n e; by do 2 eexists.
  - intros [bs|] n e a w' [= <- <-]; done.
  - intros [bs|] n e a w' [= <- <-]; done.
  - intros [bs|] n e a w' [= <- <-]; done.
  - intros [bs|] n e a w' [= <- <-]; done.
Qed.

#[export] Instance env_response_laws : ResponseLaws e_sent.
Proof.
  constructor.
  - intros bs n e Hn. by eexists.
  - intros a n e x w' [= <- <-]. done.
  - done.
Qed.

(** ** Memory, link control, transfers *)

Definition demo_mem : gmap Z Z :=
  list_to_map [(0x20000000, 10); (0x20000001, 11); (0x20000002, 12); (0x20000003, 13);
               (0x08000000, 20); (0x08000001, 21); (0x08000002, 22); (0x08000003, 23)].

Definition demo_env : env :=
  Env 3 [] demo_mem (CanState true 500000) link_control_init file_transfer_state_init
    upload_download_state_init ∅ (fun i => i mod 256) false.

Definition demo : world env := World 0 [] [] ∅ 1 [] [] demo_env.

Definition demo_memory_config : memory_config :=
  MemoryConfig false (Some (0x20000000, 4)) (Some (0x08000000, 4)).

Lemma demo_region_ok b l : 0 <= b -> 0 <= l -> b + l <= UINTPTR_MAX -> region_ok (Some (b, l)).
Proof. intros ? ? ? b' l' [= <- <-]. done. Qed.

Lemma demo_sram_ok : region_ok (sram demo_memory_config).
Proof. apply demo_region_ok; unfold UINTPTR_MAX; lia. Qed.
Lemma demo_flash_ok : region_ok (flash demo_memory_config).
Proof. apply demo_region_ok; unfold UINTPTR_MAX; lia. Qed.

Lemma mapped_4 m a :
  is_Some (m !! a) -> is_Some (m !! (a + 1)) -> is_Some (m !! (a + 2)) -> is_Some (m !! (a + 3)) -> mapped m a 4.
Proof.
  intros H0 H1 H2 H3 i Hi. assert (i = a \/ i = a + 1 \/ i = a + 2 \/ i = a + 3) as Hc by lia.
  destruct Hc as [H|[H|[H|H]]]; by rewrite H.
Qed.

Lemma demo_sram_mapped : region_mapped (mem (ext demo)) (sram demo_memory_config).
Proof. intros b l [= <- <-]. apply mapped_4; vm_compute; eauto. Qed.
Lemma demo_flash_mapped : region_mapped (mem (ext demo)) (flash demo_memory_config).
Proof. intros b l [= <- <-]. apply mapped_4; vm_compute; eauto. Qed.

Lemma is_memory_address_valid_spec_witness :
  is_memory_address_valid demo_memory_config 0x08000001 3 true = true <->
  inside (sram demo_memory_config) 0x08000001 3 \/
  (true = true /\ inside (flash demo_memory_config) 0x08000001 3).
Proof.
  apply is_memory_address_valid_spec; [done|apply demo_sram_ok|apply demo_flash_ok|unfold in_width; lia..].
Defined.

Lemma default_memory_read_spec_witness :
  let c := Context 0 (StaticReg 0) UDS_EVT_ReadMemByAddr (UDSReadMemByAddrArgs 0x08000001 3 copy_server) in
  ((0x08000001 = 0 \/ 3 = 0 \/ ~ (inside (sram demo_memory_config) 0x08000001 3 \/ inside (flash demo_memory_config) 0x08000001 3)) /\
     read_event demo_memory_config c demo = Ret UDS_NRC_RequestOutOfRange demo) \/
  (exists bs, (Z.of_nat (length bs) = u16 3) /\
      (forall i, (i < length bs)%nat -> bs !! i = mem (ext demo) !! (0x08000001 + Z.of_nat i)) /\
      read_event demo_memory_config c demo =
      match call_copy copy_server (Some bs) 3 demo with
      | Ret r w' => Ret (if decide (r = UDS_OK) then UDS_OK else UDS_NRC_RequestOutOfRange) w'
      | Fault f => Fault f
      end).
Proof.
  apply default_memory_read_spec; [done|apply demo_sram_ok|apply demo_flash_ok|apply demo_sram_mapped
    |apply demo_flash_mapped|unfold in_width; lia..].
Defined.

Lemma default_memory_write_spec_witness :
  let c := Context 0 (StaticReg 0) UDS_EVT_WriteMemByAddr (UDSWriteMemByAddrArgs 0x20000001 2 [7; 8]) in
  ((0x20000001 = 0 \/ 2 = 0 \/ ~ inside (sram demo_memory_config) 0x20000001 2) /\
     write_event demo_memory_config c demo = Ret UDS_NRC_RequestOutOfRange demo) \/
  (exists m', write_event demo_memory_config c demo = Ret UDS_OK (set_ext (set_mem m' (ext demo)) demo) /\
      (forall i, (i < length [7; 8])%nat -> m' !! (0x20000001 + Z.of_nat i) = [7; 8] !! i) /\
      (forall j, j < 0x20000001 \/ 0x20000001 + 2 <= j -> m' !! j = mem (ext demo) !! j)).
Proof.
  apply default_memory_write_spec; [done|apply demo_sram_ok|apply demo_flash_ok|apply demo_sram_mapped
    |unfold in_width; lia|unfold in_width; lia|done].
Defined.

Lemma memory_write_read_roundtrip_witness :
  exists w', write_event demo_memory_config
      (Context 0 (StaticReg 0) UDS_EVT_WriteMemByAddr (UDSWriteMemByAddrArgs 0x20000001 2 [7; 8])) demo = Ret UDS_OK w' /\
    read_event demo_memory_config
      (Context 0 (StaticReg 0) UDS_EVT_WriteMemByAddr (UDSReadMemByAddrArgs 0x20000001 2 copy_server)) w' =
    match call_copy copy_server (Some [7; 8]) 2 w' with
    | Ret r w2 => Ret (if decide (r = UDS_OK) then UDS_OK else UDS_NRC_RequestOutOfRange) w2
    | Fault f => Fault f
    end.
Proof.
  apply memory_write_read_roundtrip; [done|apply demo_sram_ok|apply demo_flash_ok|apply demo_sram_mapped
    |unfold in_width; lia|lia|lia| |done].
  exists 0x20000000, 4. split; [done|lia].
Defined.

Lemma transition_ignores_verified_modifier_witness :
  exists w1 w2,
    link_control_request (link_ctrl_context 0 (StaticReg 0)
      UDS_LINK_CONTROL__VERIFY_MODE_TRANSITION_WITH_FIXED_PARAMETER [0x10]) demo = Ret UDS_OK w1 /\
    link_control_request (link_ctrl_context 0 (StaticReg 0) UDS_LINK_CONTROL__TRANSITION_MODE [0x13]) w1 = Ret UDS_OK w2 /\
    e_can (ext w2) = CanState true (uds_link_control_modifier_to_baudrate 0x13).
Proof.
  apply (transition_ignores_verified_modifier e_can (fun _ => false) (fun _ => false) env_supported
           demo 0 (StaticReg 0) 0x10 0x13 [] []); try done.
  by left.
Defined.

Definition demo_opened : env :=
  match uds_file_transfer_begin_write [65] 3 0 demo_env with Ret _ e => e | Fault _ => demo_env end.
Definition demo_written : env :=
  match write_blocks [[1; 2]; [3]] demo_opened with Ret _ e => e | Fault _ => demo_env end.

Lemma file_write_session_witness :
  exists h e3,
    e_files demo_written !! h = Some ([1; 2; 3], 3%nat) /\
    (0 < 3 -> Z.of_nat 3 <= 3) /\
    uds_file_transfer_exit demo_written = Ret UDS_OK e3 /\
    mode (ft e3) = UDS_FILE_TRANSFER__IDLE /\ file_open (ft e3) = false.
Proof.
  apply (file_write_session e_files demo_env [65] 3 0 4095 demo_opened [[1; 2]; [3]] [UDS_OK; UDS_OK] demo_written);
    [lia|cbn; lia|reflexivity|vm_compute; reflexivity|repeat constructor].
Defined.

Definition demo_stat_fails : env :=
  Env 3 [] ∅ (CanState true 500000) link_control_init file_transfer_state_init upload_download_state_init ∅ (fun _ => 0) true.

Lemma begin_read_leaks_handle_witness :
  exists e', uds_file_transfer_begin_read [65] 0 demo_stat_fails = Ret (fs_error_to_nrc (- EIO), 0) e' /\
    mode (ft e') = UDS_FILE_TRANSFER__IDLE /\ file_open (ft e') = false /\
    is_Some (e_files e' !! fresh (dom (e_files demo_stat_fails))).
Proof.
  eapply (begin_read_leaks_handle e_files demo_stat_fails [65] 0 _ _ (- EIO) 3 _ true); try reflexivity.
Defined.

Definition demo_updown_config : updown_config := UpDownConfig 0x08000000 0x1000 128 true.

Definition demo_download : env :=
  match start_download demo_updown_config (UDSRequestDownloadArgs 0x08000010 20 0) demo_env with
  | Ret _ e => e | Fault _ => demo_env end.

Lemma download_session_witness :
  exists rs e2, download_blocks [[1; 2; 3]; [4]] demo_download = Ret rs e2 /\ length rs = 2%nat /\
    let data := accepted [[1; 2; 3]; [4]] rs in
    let start := normalize_address demo_updown_config 0x08000010 in
    (Z.of_nat (length data) <= 20) /\
    (forall i, (i < length data)%nat -> Some (e_flash e2 (start + Z.of_nat i)) = data !! i) /\
    (forall i, i < start \/ start + 20 + MAXIMUM_FLASH_WRITE_BLOCK_SIZE <= i -> e_flash e2 i = e_flash demo_env i) /\
    current_address (ud e2) = start + Z.of_nat (length data).
Proof.
  apply (download_session demo_updown_config e_files e_flash demo_env 0x08000010 20
           (UDSRequestDownloadArgs 0x10 20 0) demo_download [[1; 2; 3]; [4]]);
    [unfold in_width; lia|unfold in_width; lia|cbn; lia|cbn; lia|repeat constructor|reflexivity].
Defined.

Lemma download_to_flash_base_refused_witness :
  start_download demo_updown_config (UDSRequestDownloadArgs 0x08000000 16 0) demo_env =
    Ret (UDS_NRC_RequestOutOfRange, UDSRequestDownloadArgs 0x08000000 16 0) demo_env /\
  exists e', start_download demo_updown_config (UDSRequestDownloadArgs (0x08000000 + 1) 16 0) demo_env =
    Ret (UDS_OK, UDSRequestDownloadArgs 1 16 0) e'.
Proof. by apply (download_to_flash_base_refused demo_updown_config demo_env 16). Defined.

Lemma download_range_check_wraps_witness :
  exists e', start_download demo_updown_config (UDSRequestDownloadArgs 0xFFFFFFF0 0x08000020 0) demo_env =
    Ret (UDS_OK, UDSRequestDownloadArgs (0xFFFFFFF0 - 0x08000000) 0x08000020 0) e' /\
    start_address (ud e') = 0xFFFFFFF0 - 0x08000000 /\ state (ud e') = UDS_UPDOWN__DOWNLOAD_IN_PROGRESS.
Proof.
  apply (download_range_check_wraps demo_updown_config demo_env 0xFFFFFFF0 0x08000020);
    try done; unfold in_width; cbn; lia.
Defined.

Definition demo_upload : env :=
  match start_upload demo_updown_config (UDSRequestUploadArgs 0x08000010 5 100) demo_env with
  | Ret _ e => e | Fault _ => demo_env end.

Lemma upload_session_witness :
  exists rs w2 sent, upload_blocks demo_updown_config [2; 2; 2] (set_ext demo_upload demo) = Ret rs w2 /\
    0 <= sent <= 5 /\ e_flash (ext w2) = e_flash (ext demo) /\
    current_address (ud (ext w2)) = normalize_address demo_updown_config 0x08000010 + sent /\
    e_sent (ext w2) = e_sent (ext demo) ++
      flash_range (e_flash (ext demo)) (normalize_address demo_updown_config 0x08000010) (Z.to_nat sent) /\
    (sent = 5 -> forall room, 0 <= room -> exists w3,
       continue_upload demo_updown_config room (Some copy_server) w2 = Ret UDS_NRC_RequestSequenceError w3).
Proof.
  apply (upload_session demo_updown_config e_files e_flash e_sent demo 0x08000010 5 100
           (UDSRequestUploadArgs 0x10 5 100) demo_upload [2; 2; 2]);
    [unfold in_width; lia|unfold in_width; lia|cbn; lia|cbn; lia|cbn; lia|repeat constructor; lia|reflexivity|reflexivity].
Defined.


(** ** The bit rate *)

Lemma uds_set_can_bitrate_spec_witness :
  exists r e', uds_set_can_bitrate 250000 demo_env = Ret r e' /\
    ((r = UDS_OK /\ started (e_can demo_env) = true /\ env_supported 250000 = true /\ e_can e' = CanState true 250000) \/
     (r = UDS_NRC_ConditionsNotCorrect /\
      (e_can e' = e_can demo_env \/
       (started (e_can demo_env) = true /\
        e_can e' = CanState false (if env_supported 250000 then 250000 else bitrate (e_can demo_env)))))).
Proof. apply (uds_set_can_bitrate_spec e_can (fun _ => false) (fun _ => false) env_supported 250000 demo_env). Defined.

Lemma link_control_protocol_witness :
  link_control_request (link_ctrl_context 0 (StaticReg 0)
    UDS_LINK_CONTROL__VERIFY_MODE_TRANSITION_WITH_FIXED_PARAMETER [0x11]) demo =
  Ret UDS_OK (set_ext (env_set_link (LinkControlState 0x11 true) demo_env) demo) /\
  link_control_request (link_ctrl_context 0 (StaticReg 0) UDS_LINK_CONTROL__TRANSITION_MODE [0x11]) demo =
  Ret UDS_NRC_RequestSequenceError demo.
Proof.
  split.
  - rewrite (proj1 (link_control_protocol demo 0 (StaticReg 0) _ 0x11 []) eq_refl).
    by rewrite decide_True by (right; by left).
  - by apply (link_control_protocol demo 0 (StaticReg 0)).
Defined.

(** ** Dynamic identifiers *)

(** A readable identifier, the memory services, the service that defines
    identifiers. *)
Definition demo_did : uds_registration_t :=
  UDS_REGISTER_DATA_BY_IDENTIFIER_HANDLER (Some 0%nat) 0 0x0142 1%positive
    (Some (uds_check_user 0)) (Some (uds_action_user 0)) None None None None.

Definition demo_statics : list uds_registration_t :=
  [demo_did; UDS_REGISTER_MEMORY_DEFAULT_HANDLER (Some 0%nat);
   UDS_REGISTER_DYNAMICALLY_DEFINE_DATA_IDS_DEFAULT_HANDLER (Some 0%nat)].

Definition demo_cfg : uds_config := UdsConfig demo_memory_config demo_updown_config 500000 false true.

Definition demo_callbacks : UdsCallbacks env := callbacks demo_cfg 2 4.

(** An instance in which nothing is defined yet; the allocations fail as [o]
    says. *)
Definition demo_instance (o : list bool) : world env := World 0 demo_statics [] ∅ 1 o [] demo_env.

Definition demo_context : uds_context :=
  Context 0 (StaticReg 2) UDS_EVT_DynamicDefineDataId
    (UDSDDDIArgs 1 false 0xF300 (defineById 0x0142 0 2)).

Definition demo_part : uds_dynamically_defined_data := UDS_DYNAMICALLY_DEFINED_DATA_TYPE__ID 0x0142 0 2.

Lemma demo_empty_registry o : registry (demo_instance o) [].
Proof. constructor; try by constructor. intros a [x Hx]. by apply (lookup_empty_Some (M := gmap addr) a x) in Hx. Qed.

Lemma demo_handler_at o :
  handler_at (demo_instance o) 2 (UDS_REGISTER_DYNAMICALLY_DEFINE_DATA_IDS_DEFAULT_HANDLER (Some 0%nat)) [] [].
Proof. constructor; try done. constructor. Qed.

Lemma define_new_identifier_witness :
  exists id r lo item w',
    @add_new_id env demo_callbacks (append_data_item demo_part) demo_context 0xF300 false (demo_instance []) = Ret (UDS_OK, true) w' /\
    next_id_spec (ids []) id /\ dynamic_registration_id r = id /\ registry w' ([] ++ [r]) /\
    dynamic_identifier (heap w') 0xF300 [demo_part] lo [item] r /\
    (exists hreg' x, handler_at w' 2 hreg' ([] ++ [x]) ([] ++ [id])) /\
    (forall a, is_Some (heap (demo_instance []) !! a) -> heap w' !! a = heap (demo_instance []) !! a) /\
    size (dom (heap w')) = (size (dom (heap (demo_instance []))) + 4)%nat.
Proof.
  eapply (@define_new_identifier env demo_callbacks _ (demo_instance []) [] demo_context 2 _ [] []);
    [done|done|apply demo_empty_registry|done|apply demo_handler_at| |].
  - intros r Hr. by apply elem_of_nil in Hr.
  - intros k Hk. by destruct k.
Defined.

Lemma define_out_of_memory_restores_witness :
  exists e w',
    @add_new_id env demo_callbacks (append_data_item demo_part) demo_context 0xF300 false (demo_instance [false; true]) =
      Ret (e, false) w' /\ e <> UDS_OK /\
    heap w' = heap (demo_instance [false; true]) /\ dynamic_registrations w' = [] /\ static_regs w' = demo_statics.
Proof.
  eapply (@define_out_of_memory_restores env demo_callbacks _ (demo_instance [false; true]) [] demo_context 2 _ [] [] _ _ _ 1);
    [done|done|apply demo_empty_registry|done|apply demo_handler_at| |lia|by vm_compute|].
  - intros r Hr. by apply elem_of_nil in Hr.
  - intros [|j] Hj; [by vm_compute|lia].
Defined.

Lemma define_out_of_memory_use_after_free_witness :
  @add_new_id env demo_callbacks (append_data_item demo_part) demo_context 0xF300 false
    (demo_instance [false; false; false; false; true]) = Fault UseAfterFree.
Proof.
  eapply (@define_out_of_memory_use_after_free env demo_callbacks _
            (demo_instance [false; false; false; false; true]) [] demo_context 2 _ [] []);
    [done|done|apply demo_empty_registry|done|apply demo_handler_at| |by vm_compute|].
  - intros r Hr. by apply elem_of_nil in Hr.
  - intros [|[|[|[|j] ] ] ] Hj; [by vm_compute..|lia].
Defined.

Lemma define_clear_roundtrip_witness :
  exists w1 w2,
    @add_new_id env demo_callbacks (append_data_item demo_part) demo_context 0xF300 false (demo_instance []) = Ret (UDS_OK, true) w1 /\
    @uds_dynamicallY_define_data_by_id_remove_single_id env demo_callbacks 0xF300 w1 = Ret tt w2 /\
    heap w2 = heap (demo_instance []) /\ dynamic_registrations w2 = [] /\ static_regs w2 = demo_statics.
Proof.
  eapply (@define_clear_roundtrip env demo_callbacks _ (demo_instance []) [] demo_context 2 _ [] []);
    [done|done|apply demo_empty_registry|done|apply demo_handler_at|constructor|..].
  - intros v Hv. by apply elem_of_nil in Hv.
  - intros r Hr. by apply elem_of_nil in Hr.
  - intros r Hr. by apply elem_of_nil in Hr.
  - intros [|[|[|j] ] ] r Hr Hj; cbn in Hr; simplify_eq; try done.
  - intros k Hk. by destruct k.
Defined.

(** ** Reading a dynamic identifier *)

Definition demo_parts : list uds_dynamically_defined_data :=
  [UDS_DYNAMICALLY_DEFINED_DATA_TYPE__ID 0x0142 1 2; UDS_DYNAMICALLY_DEFINED_DATA_TYPE__MEMORY 0x20000001 3].

Definition demo_dynamic_reg : uds_registration_t :=
  set_dynamic_registration_id 1 (new_data_identifier 0 2%positive 0xF300).

Definition demo_heap : gmap addr obj :=
  list_to_map [(1%positive, obj_registration demo_dynamic_reg); (2%positive, obj_data_list [3%positive; 4%positive]);
    (3%positive, obj_data_item (UDS_DYNAMICALLY_DEFINED_DATA_TYPE__ID 0x0142 1 2));
    (4%positive, obj_data_item (UDS_DYNAMICALLY_DEFINED_DATA_TYPE__MEMORY 0x20000001 3))].

Definition demo_defined (o : list bool) : world env := World 0 demo_statics [1%positive] demo_heap 5 o [] demo_env.

Lemma demo_dynamic_identifier :
  dynamic_identifier demo_heap 0xF300 demo_parts 2 [3%positive; 4%positive] demo_dynamic_reg.
Proof.
  constructor; try done.
  - repeat constructor.
  - apply (bool_decide_unpack _). by vm_compute.
Qed.

Definition demo_good (w : world env) : Prop :=
  inst_id w = 0%nat /\ static_regs w = demo_statics /\ dynamic_registrations w = [1%positive] /\
  heap w = demo_heap /\ e_mem (ext w) = demo_mem.

(** The laws hold of the program's own event callback. *)
#[export] Instance demo_read_laws :
  ReadLaws (event_callback demo_cfg 2 4) demo_good
    (fun id => id = 0x0142) (fun id => [id mod 256; 1; 2; 3])
    (fun a n => a = 0x20000001 /\ n = 3) (fun _ _ => [11; 12; 13]) e_sent.
Proof.
  constructor.
  - intros id [i s d h n o b [es et em ec el ef eu efs efl est]] Hg -> Hb.
    unfold demo_good in Hg. cbn in Hb, Hg. destruct Hg as (-> & -> & -> & -> & ->). subst b.
    do 2 eexists. split; [vm_compute; reflexivity|]. done.
  - intros a k [i s d h n o b [es et em ec el ef eu efs efl est]] Hg [-> ->].
    unfold demo_good in Hg. cbn in Hg. destruct Hg as (-> & -> & -> & -> & ->).
    do 2 eexists. split; [vm_compute; reflexivity|]. done.
  - intros bs n w Hg Hn. eexists. split; [reflexivity|]. done.
  - intros w Hg. exact Hg.
Qed.

Lemma read_dynamic_identifier_witness :
  exists w', @uds_dynamic_data_by_id_read_data_by_id_action env env_server (event_callback demo_cfg 2 4)
      (Context 0 (DynReg 1) UDS_EVT_ReadDataByIdent (UDSRDBIArgs 0xF300 copy_server)) false (demo_defined []) =
      Ret (UDS_OK, true, UDSRDBIArgs 0xF300 copy_server) w' /\
    same_registry (demo_defined []) w' /\ e_sent (ext w') = [1; 2; 11; 12; 13].
Proof.
  apply (read_dynamic_identifier (event_callback demo_cfg 2 4) demo_good
    (fun id => id = 0x0142) (fun id => [id mod 256; 1; 2; 3])
    (fun a n => a = 0x20000001 /\ n = 3) (fun _ _ => [11; 12; 13]) e_sent
    (demo_defined []) (DynReg 1) demo_dynamic_reg 0xF300 demo_parts 2 [3%positive; 4%positive]);
    [done|done|apply demo_dynamic_identifier|].
  constructor; [|constructor; [|constructor] ]; [|done].
  cbn. split_and!; (done || lia).
Defined.

Lemma append_out_of_memory_empties_witness :
  exists w', append_data_item demo_part 2 (demo_defined [true]) = Ret UDS_NRC_GeneralReject w' /\
    heap w' !! 2%positive = Some (obj_data_list []) /\
    (forall a, a ∈ [3%positive; 4%positive] -> heap w' !! a = None) /\
    dynamic_registrations w' = [1%positive].
Proof.
  apply (append_out_of_memory_empties (demo_defined [true]) 2 [3%positive; 4%positive] demo_parts);
    [done|apply demo_dynamic_identifier|apply demo_dynamic_identifier|by vm_compute].
Defined.

(** ** The whole system *)

Lemma event_table_order_irrelevant_witness :
  NoDup (map event (reverse uds_event_handlers)) /\
  (@uds_event_callback env demo_callbacks (reverse uds_event_handlers) 4 UDS_EVT_ClearDiagnosticInfo UDSOtherArgs (demo_defined []) =
   @uds_event_callback env demo_callbacks uds_event_handlers 4 UDS_EVT_ClearDiagnosticInfo UDSOtherArgs (demo_defined [])) /\
  (forall n, UDS_EVT_ClearDiagnosticInfo = UDS_EVT_other n ->
   @uds_event_callback env demo_callbacks (reverse uds_event_handlers) 4 UDS_EVT_ClearDiagnosticInfo UDSOtherArgs (demo_defined []) =
     Ret (UDS_NRC_ServiceNotSupported, UDSOtherArgs) (demo_defined [])) /\
  ((forall n, UDS_EVT_ClearDiagnosticInfo <> UDS_EVT_other n) -> exists h, h ∈ reverse uds_event_handlers /\
     event h = UDS_EVT_ClearDiagnosticInfo /\
     @uds_event_callback env demo_callbacks (reverse uds_event_handlers) 4 UDS_EVT_ClearDiagnosticInfo UDSOtherArgs (demo_defined []) =
     @uds_handle_event env demo_callbacks 4 UDS_EVT_ClearDiagnosticInfo UDSOtherArgs h (demo_defined [])).
Proof. apply event_table_order_irrelevant, reverse_Permutation. Defined.

Lemma unknown_data_identifier_witness :
  event_callback demo_cfg 2 4 UDS_EVT_WriteDataByIdent (UDSWDBIArgs 0x9999 [1]) (demo_defined []) =
  Ret (UDS_NRC_RequestOutOfRange, UDSWDBIArgs 0x9999 [1]) (demo_defined []).
Proof.
  eapply (unknown_data_identifier demo_cfg 1 4 0x9999); [apply did_write| |apply NoDup_singleton|cbn; lia].
  split.
  - intros [|[|[|i] ] ] r Hr; cbn in Hr; simplify_eq; done.
  - intros a Ha. cbn in Ha. apply list_elem_of_singleton in Ha as ->. by exists demo_dynamic_reg.
Defined.

Lemma write_read_only_did_faults_witness :
  event_callback demo_cfg 2 4 UDS_EVT_WriteDataByIdent (UDSWDBIArgs 0x0142 [1]) (demo_instance []) = Fault NullPointer.
Proof.
  eapply (write_read_only_did_faults demo_cfg 1 4 (demo_instance []) 0 demo_did 1%positive 0x0142); [done|done| |].
  - intros j r Hj. lia.
  - left. split_and!; [done|done|by eexists].
Defined.

Definition demo_loop_reg : uds_registration_t :=
  set_dynamic_registration_id 1 (new_data_identifier 0 2%positive 0xF301).

Definition demo_loop : world env :=
  World 0 demo_statics [1%positive]
    (list_to_map [(1%positive, obj_registration demo_loop_reg); (2%positive, obj_data_list [3%positive]);
       (3%positive, obj_data_item (UDS_DYNAMICALLY_DEFINED_DATA_TYPE__ID 0xF301 1 4))]) 4 [] [] demo_env.

Lemma self_referential_read_diverges_witness :
  event_callback demo_cfg 7 4 UDS_EVT_ReadDataByIdent (UDSRDBIArgs 0xF301 copy_server) demo_loop = Fault OutOfFuel.
Proof.
  apply (self_referential_read_diverges demo_cfg 7 4 demo_loop 0xF301 copy_server). split.
  - intros [|[|[|i] ] ] r Hr; cbn in Hr; simplify_eq; done.
  - exists 1%positive, demo_loop_reg, 2%positive, 3%positive, 1, 4. split_and!; [done|done|].
    constructor; try done; [by repeat constructor|apply NoDup_singleton].
Defined.

(** ** The environment as a part of a larger one

    An application adds its own state and devices to those of the library. *)

Section lifted.
Context {L : Type} (base : L -> env) (with_base : env -> L -> L) (base_with_base : forall e l, base (with_base e l) = e).

Definition lift {A} (m : M env A) : M L A := zoom base with_base m.

Definition lifted_server : Server L :=
  {| p2_ms _ := 50; sessionType l := e_session (base l); server_copy src n := lift (server_copy src n) |}.
Definition lifted_platform : Platform L := {|
  retention_write a d := lift (retention_write a d); bootmode_set m := lift (bootmode_set m); sys_reboot t := lift (sys_reboot t);
  log_flush := lift log_flush; k_msleep n := lift (k_msleep n);
|}.
Program Definition lifted_memory : Memory L := {| mem l := mem (base l); set_mem m l := with_base (set_mem m (base l)) l |}.
Next Obligation. intros. cbn. by rewrite base_with_base. Qed.
Definition lifted_controller : CanController L :=
  {| can_stop := lift can_stop; can_set_bitrate b := lift (can_set_bitrate b); can_start := lift can_start |}.
Definition lifted_link_vars : LinkControlVars L :=
  {| link_vars l := link_vars (base l); set_link_vars s l := with_base (set_link_vars s (base l)) l |}.
Definition lifted_fs : FileSystem L := {|
  fs_open p f := lift (fs_open p f); fs_close h := lift (fs_close h); fs_stat p := lift (fs_stat p);
  fs_unlink p := lift (fs_unlink p); fs_write h d := lift (fs_write h d); fs_read h n := lift (fs_read h n);
|}.
Program Definition lifted_ft_vars : FileTransferVars L := {| ft l := ft (base l); set_ft s l := with_base (set_ft s (base l)) l |}.
Next Obligation. intros. cbn. by rewrite base_with_base. Qed.
Definition lifted_flash_driver : FlashDriver L := {|
  flash_controller_present _ := true; flash_controller_ready _ := true; flash_get_write_block_size _ := 8;
  flash_write a d := lift (flash_write a d); flash_read a n := lift (flash_read a n);
|}.
Program Definition lifted_ud_vars : UpDownVars L := {| ud l := ud (base l); set_ud s l := with_base (set_ud s (base l)) l |}.
Next Obligation. intros. cbn. by rewrite base_with_base. Qed.
End lifted.
