(* ===== verification/Lin.v ===== *)
(** * Abstract LIN driver ([drivers/lin/abstract_lin/abstract_lin.c])

    A table of callbacks, one per frame identifier, between the LIN bus driver
    and the application.  The table is an array with a counter of used slots;
    its contract is a finite map from frame identifiers to handlers, and
    [al_simulation] says that every sequence of API calls behaves as that map
    does.  The callbacks the bus driver invokes are proved against the map.

    The LIN bus driver is a module of another repository; it is the interface
    [LinBus].  Application callbacks are the interface [LinCallbacks]; a
    callback runs on the whole state and may call the API again, and the code's
    pointer into the table is read again after a call. *)

From stdpp Require Import base gmap list numbers relations.
From Stdlib Require Import ZArith Lia.
From S2P Require Import Prelude.

#[local] Open Scope Z_scope.

(** ** Definitions *)

Inductive lin_mode := LIN_MODE_COMMANDER | LIN_MODE_RESPONDER.
#[export] Instance lin_mode_eq_dec : EqDecision lin_mode.
Proof. solve_decision. Defined.

Inductive lin_action := LIN_ACTION_NONE | LIN_ACTION_RECEIVE | LIN_ACTION_SEND.

Inductive lin_checksum := LIN_CHECKSUM_AUTO | LIN_CHECKSUM_other (n : Z).

(** The members of [struct lin_frame] the driver uses. *)
Record lin_frame := LinFrame {
  frame_id : Z;
  frame_len : Z;
  frame_type : lin_checksum;
  frame_data : list Z;
}.

Definition set_frame_id x f := LinFrame x (frame_len f) (frame_type f) (frame_data f).
Definition set_frame_len x f := LinFrame (frame_id f) x (frame_type f) (frame_data f).
Definition set_frame_type x f := LinFrame (frame_id f) (frame_len f) x (frame_data f).

Inductive cb_direction := INCOMING | OUTGOING.
#[export] Instance cb_direction_eq_dec : EqDecision cb_direction.
Proof. solve_decision. Defined.

(** [cb] is the union of the two callback pointers, [type] says which. *)
Record abstract_lin_callback_entry_t := CallbackEntry {
  cb_frame_id : Z;
  cb_frame_size : Z;
  cb_type : cb_direction;
  cb_fn : option nat;
  cb_user_data : Z;
}.

(** A slot in zeroed memory. *)
Definition empty_entry : abstract_lin_callback_entry_t := CallbackEntry 0 0 INCOMING None 0.

Record abstract_lin_data := LinData {
  callbacks : list abstract_lin_callback_entry_t;
  used_callbacks : Z;
}.

Record al_world (E : Type) := AlWorld { al_data : abstract_lin_data; al_ext : E }.
Arguments AlWorld {E}.
Arguments al_data {E}.
Arguments al_ext {E}.

Class LinBus (E : Type) := {
  lin_set_mode : lin_mode -> M E Z;
  lin_set_header_callback : M E Z;
  lin_set_rx_callback : M E Z;
  lin_receive : Z -> lin_checksum -> Z -> M E Z;
  lin_send : lin_frame -> M E Z;
}.

Class LinCallbacks (E : Type) := {
  incoming_cb : nat -> lin_frame -> Z -> M (al_world E) unit;
  outgoing_cb : nat -> lin_frame -> Z -> M (al_world E) (bool * lin_frame);
}.

Section driver.
Context {E : Type} `{!LinBus E} `{!LinCallbacks E}.
(** CONFIG_ABSTRACT_LIN_MAX_FRAME_COUNT, the mode of the device tree node, and
    what the stack holds where [al_schedule_now] declares its frame. *)
Context (CONFIG_ABSTRACT_LIN_MAX_FRAME_COUNT : Z) (mode : lin_mode) (stack : lin_frame).

Definition on_bus {A} (m : M E A) : M (al_world E) A :=
  zoom al_ext (fun e w => AlWorld (al_data w) e) m.

Definition get_data : M (al_world E) abstract_lin_data := gets al_data.
Definition put_data (d : abstract_lin_data) : M (al_world E) unit := modify (fun w => AlWorld d (al_ext w)).

(** [&data->callbacks[i]], dereferenced. *)
Definition callback_at (i : nat) : M (al_world E) abstract_lin_callback_entry_t :=
  let* d := get_data in of_option OutOfBounds (callbacks d !! i).

(** [used_callbacks] is at most 255, which bounds the loops. *)
Definition loop_fuel : nat := 256.

Fixpoint lin_header_loop (fuel i : nat) (frame : lin_frame) : M (al_world E) (lin_action * lin_frame) :=
  match fuel with
  | O => fail OutOfFuel
  | S fuel =>
      let* d := get_data in
      if used_callbacks d <=? Z.of_nat i then ret (LIN_ACTION_NONE, frame)
      else
        let* cb := callback_at i in
        if negb (cb_frame_id cb =? frame_id frame) then lin_header_loop fuel (S i) frame
        else
          let frame := set_frame_type LIN_CHECKSUM_AUTO (set_frame_len (cb_frame_size cb) frame) in
          match cb_type cb with
          | INCOMING => ret (LIN_ACTION_RECEIVE, frame)
          | OUTGOING =>
              let* f := of_option NullPointer (cb_fn cb) in
              let* (res, frame) := outgoing_cb f frame (cb_user_data cb) in
              let* cb := callback_at i in
              ret (if (res : bool) then LIN_ACTION_SEND else LIN_ACTION_NONE, set_frame_len (cb_frame_size cb) frame)
          end
  end.

Definition lin_header_callback (frame : lin_frame) : M (al_world E) (lin_action * lin_frame) :=
  lin_header_loop loop_fuel 0 frame.

Fixpoint lin_rx_loop (fuel i : nat) (frame : lin_frame) : M (al_world E) unit :=
  match fuel with
  | O => fail OutOfFuel
  | S fuel =>
      let* d := get_data in
      if used_callbacks d <=? Z.of_nat i then ret tt
      else
        let* cb := callback_at i in
        if negb (cb_frame_id cb =? frame_id frame) || negb (bool_decide (cb_type cb = INCOMING))
        then lin_rx_loop fuel (S i) frame
        else if negb (cb_frame_size cb =? frame_len frame) then fail AssertFailed
        else
          let* f := of_option NullPointer (cb_fn cb) in
          incoming_cb f frame (cb_user_data cb) ;;
          lin_rx_loop fuel (S i) frame
  end.

Definition lin_rx_callback (error : Z) (frame : lin_frame) : M (al_world E) unit :=
  if negb (error =? 0) then ret tt else lin_rx_loop loop_fuel 0 frame.

(** The return value, and [*free_slots] when the pointer is not NULL. *)
Definition al_get_free_cb_slots (free_slots_null : bool) : M (al_world E) (Z * option Z) :=
  let* d := get_data in
  if free_slots_null then ret (- EINVAL, None)
  else ret (0, Some (u8 (CONFIG_ABSTRACT_LIN_MAX_FRAME_COUNT - used_callbacks d))).

(** Whether one of the first [n] slots from [i] on has the identifier. *)
Fixpoint id_used (n i : nat) (id : Z) : M (al_world E) bool :=
  match n with
  | O => ret false
  | S n => let* cb := callback_at i in if cb_frame_id cb =? id then ret true else id_used n (S i) id
  end.

Definition allocate_callback (id : Z) : M (al_world E) Z :=
  let* d := get_data in
  if CONFIG_ABSTRACT_LIN_MAX_FRAME_COUNT <=? used_callbacks d then ret (- ENOSPC)
  else
    let* used := id_used (Z.to_nat (used_callbacks d)) 0 id in
    if used : bool then ret (- EEXIST)
    else
      put_data (LinData (callbacks d) (u8 (used_callbacks d + 1))) ;;
      ret (used_callbacks d).

(** [data->callbacks[i] = e] *)
Definition write_callback (i : nat) (e : abstract_lin_callback_entry_t) : M (al_world E) unit :=
  let* d := get_data in
  if decide (i < length (callbacks d))%nat
  then put_data (LinData (<[i := e]> (callbacks d)) (used_callbacks d))
  else fail OutOfBounds.

(** The two register functions differ in the direction they store. *)
Definition al_register_cb (ty : cb_direction) (callback : option nat) (id size user_data : Z) : M (al_world E) Z :=
  if bool_decide (callback = None) || (0x3F <? id) || (size <? 1) || (8 <? size) then ret (- EINVAL)
  else
    let* free_index := allocate_callback id in
    if free_index <? 0 then ret free_index
    else
      write_callback (Z.to_nat free_index) (CallbackEntry id size ty callback user_data) ;;
      ret 0.

Definition al_register_incoming_cb := al_register_cb INCOMING.
Definition al_register_outgoing_cb := al_register_cb OUTGOING.

Fixpoint al_schedule_loop (fuel i : nat) (id : Z) : M (al_world E) Z :=
  match fuel with
  | O => fail OutOfFuel
  | S fuel =>
      let* d := get_data in
      if used_callbacks d <=? Z.of_nat i then ret (- EINVAL)
      else
        let* cb := callback_at i in
        if negb (cb_frame_id cb =? id) then al_schedule_loop fuel (S i) id
        else match cb_type cb with
        | INCOMING => on_bus (lin_receive (cb_frame_id cb) LIN_CHECKSUM_AUTO (cb_frame_size cb))
        | OUTGOING =>
            let frame := set_frame_type LIN_CHECKSUM_AUTO
                           (set_frame_len (cb_frame_size cb) (set_frame_id (cb_frame_id cb) stack)) in
            let* f := of_option NullPointer (cb_fn cb) in
            let* (send, frame) := outgoing_cb f frame (cb_user_data cb) in
            let* cb := callback_at i in
            let frame := set_frame_len (cb_frame_size cb) (set_frame_id (cb_frame_id cb) frame) in
            if send : bool then on_bus (lin_send frame) else ret 0
        end
  end.

Definition al_schedule_now (id : Z) : M (al_world E) Z :=
  if 0x3F <? id then ret (- EINVAL)
  else if decide (mode <> LIN_MODE_COMMANDER) then ret (- ENOTSUP)
  else al_schedule_loop loop_fuel 0 id.

(** The first of the [n] slots from [i] on with the identifier. *)
Fixpoint find_callback (n i : nat) (id : Z) : M (al_world E) (option nat) :=
  match n with
  | O => ret None
  | S n => let* cb := callback_at i in if cb_frame_id cb =? id then ret (Some i) else find_callback n (S i) id
  end.

(** [for (i...) callbacks[i] = callbacks[i + 1]], [n] rounds. *)
Fixpoint move_left (n i : nat) : M (al_world E) unit :=
  match n with
  | O => ret tt
  | S n => let* e := callback_at (S i) in write_callback i e ;; move_left n (S i)
  end.

Definition al_unregister (id : Z) : M (al_world E) Z :=
  let* d := get_data in
  let* tbf_index := find_callback (Z.to_nat (used_callbacks d)) 0 id in
  match tbf_index with
  | None => ret (- EINVAL)
  | Some i =>
      put_data (LinData (callbacks d) (u8 (used_callbacks d - 1))) ;;
      let* d := get_data in
      move_left (Z.to_nat (used_callbacks d) - i) i ;;
      ret 0
  end.

Definition al_init : M (al_world E) Z :=
  let* err := on_bus (lin_set_mode mode) in
  if negb (err =? 0) then ret err
  else
    let* err := on_bus lin_set_header_callback in
    if negb (err =? 0) then ret err
    else on_bus lin_set_rx_callback.

(** [ABSTRACT_LIN_INIT]: a zeroed table. *)
Definition abstract_lin_data_init : abstract_lin_data :=
  LinData (replicate (Z.to_nat CONFIG_ABSTRACT_LIN_MAX_FRAME_COUNT) empty_entry) 0.

(** The table part of the API. *)
Inductive al_op :=
| op_register_incoming (callback : option nat) (id size user_data : Z)
| op_register_outgoing (callback : option nat) (id size user_data : Z)
| op_unregister (id : Z)
| op_free_slots.

(** The return value and the output parameter of a call. *)
Definition al_run (o : al_op) : M (al_world E) (Z * option Z) :=
  match o with
  | op_register_incoming f id size u => let* r := al_register_incoming_cb f id size u in ret (r, None)
  | op_register_outgoing f id size u => let* r := al_register_outgoing_cb f id size u in ret (r, None)
  | op_unregister id => let* r := al_unregister id in ret (r, None)
  | op_free_slots => al_get_free_cb_slots false
  end.

Fixpoint al_run_all (l : list al_op) : M (al_world E) (list (Z * option Z)) :=
  match l with
  | [] => ret []
  | o :: l => let* r := al_run o in let* rs := al_run_all l in ret (r :: rs)
  end.
End driver.

(** ** Specification: a finite map *)

Section spec.
Context (max : Z).

Definition spec_register (e : abstract_lin_callback_entry_t) (m : gmap Z abstract_lin_callback_entry_t) :
    Z * gmap Z abstract_lin_callback_entry_t :=
  if decide (cb_fn e = None \/ 0x3F < cb_frame_id e \/ cb_frame_size e < 1 \/ 8 < cb_frame_size e) then (- EINVAL, m)
  else if decide (max <= Z.of_nat (size m)) then (- ENOSPC, m)
  else if decide (is_Some (m !! cb_frame_id e)) then (- EEXIST, m)
  else (0, <[cb_frame_id e := e]> m).

Definition spec_run (o : al_op) (m : gmap Z abstract_lin_callback_entry_t) :
    (Z * option Z) * gmap Z abstract_lin_callback_entry_t :=
  match o with
  | op_register_incoming f id size u => let '(r, m) := spec_register (CallbackEntry id size INCOMING f u) m in (r, None, m)
  | op_register_outgoing f id size u => let '(r, m) := spec_register (CallbackEntry id size OUTGOING f u) m in (r, None, m)
  | op_unregister id => match m !! id with Some _ => (0, None, delete id m) | None => (- EINVAL, None, m) end
  | op_free_slots => (0, Some (max - Z.of_nat (size m)), m)
  end.

Fixpoint spec_run_all (l : list al_op) (m : gmap Z abstract_lin_callback_entry_t) :
    list (Z * option Z) * gmap Z abstract_lin_callback_entry_t :=
  match l with
  | [] => ([], m)
  | o :: l => let '(r, m1) := spec_run o m in let '(rs, m2) := spec_run_all l m1 in (r :: rs, m2)
  end.
End spec.

(** The slots in use, and the map they stand for. *)
Definition entries (d : abstract_lin_data) : list abstract_lin_callback_entry_t :=
  take (Z.to_nat (used_callbacks d)) (callbacks d).
Definition entry_map (l : list abstract_lin_callback_entry_t) : gmap Z abstract_lin_callback_entry_t :=
  list_to_map ((fun e => (cb_frame_id e, e)) <$> l).
Definition handlers (d : abstract_lin_data) : gmap Z abstract_lin_callback_entry_t := entry_map (entries d).

(** A handler as the register functions accept it. *)
Definition entry_ok (e : abstract_lin_callback_entry_t) : Prop :=
  cb_fn e <> None /\ cb_frame_id e <= 0x3F /\ 1 <= cb_frame_size e <= 8.

Record lin_wf (max : Z) (d : abstract_lin_data) : Prop := LinWf {
  wf_length : Z.of_nat (length (callbacks d)) = max;
  wf_used : 0 <= used_callbacks d <= max;
  wf_ids : NoDup (map cb_frame_id (entries d));
  wf_entries : Forall entry_ok (entries d);
}.

(** ** Lemmas: the table *)

Lemma length_snoc {A} (l : list A) x : length (l ++ [x]) = S (length l).
Proof. rewrite length_app. cbn. lia. Qed.

Section table.
Context {E : Type}.
Implicit Types (w : al_world E) (l : list abstract_lin_callback_entry_t).

Lemma callback_at_run i e w : callbacks (al_data w) !! i = Some e -> callback_at i w = Ret e w.
Proof. intros H. unfold callback_at, get_data, bind, gets. by rewrite H. Qed.

Lemma write_callback_run i e w :
  (i < length (callbacks (al_data w)))%nat ->
  write_callback i e w =
  Ret tt (AlWorld (LinData (<[i := e]> (callbacks (al_data w))) (used_callbacks (al_data w))) (al_ext w)).
Proof. intros H. unfold write_callback, get_data, bind, gets. by rewrite decide_True. Qed.

Lemma callbacks_entries max d :
  lin_wf max d -> exists rest, callbacks d = entries d ++ rest /\
    Z.of_nat (length (entries d)) = used_callbacks d /\ Z.of_nat (length rest) = max - used_callbacks d.
Proof.
  intros [Hl Hu _ _]. exists (drop (Z.to_nat (used_callbacks d)) (callbacks d)). unfold entries.
  rewrite length_take, length_drop, take_drop. split; [done|]. lia.
Qed.

Lemma id_used_run id w : forall l l1 rest,
  callbacks (al_data w) = l1 ++ l ++ rest ->
  id_used (length l) (length l1) id w = Ret (bool_decide (id ∈ map cb_frame_id l)) w.
Proof.
  induction l as [|e l IH]; intros l1 rest Hc; [done|].
  cbn [length id_used]. rewrite (bind_step _ _ _ e w).
  2: { apply callback_at_run. rewrite Hc. by apply list_lookup_middle. }
  destruct (Z.eqb_spec (cb_frame_id e) id) as [<-|Hne].
  - by rewrite bool_decide_true by set_solver.
  - specialize (IH (l1 ++ [e]) rest). rewrite length_snoc in IH. rewrite IH.
    + f_equal. apply bool_decide_ext. set_solver.
    + by rewrite Hc, <- !(assoc_L app).
Qed.

Lemma find_callback_missing id w : forall l l1 rest,
  callbacks (al_data w) = l1 ++ l ++ rest -> id ∉ map cb_frame_id l ->
  find_callback (length l) (length l1) id w = Ret None w.
Proof.
  induction l as [|e l IH]; intros l1 rest Hc Hn; [done|].
  cbn [length find_callback]. rewrite (bind_step _ _ _ e w).
  2: { apply callback_at_run. rewrite Hc. by apply list_lookup_middle. }
  cbn in Hn. apply not_elem_of_cons in Hn as [Hne Hn]. rewrite (proj2 (Z.eqb_neq _ _)) by congruence.
  specialize (IH (l1 ++ [e]) rest). rewrite length_snoc in IH. apply IH; [|done].
  by rewrite Hc, <- !(assoc_L app).
Qed.

Lemma find_callback_found w e l2 : forall l l1 rest,
  callbacks (al_data w) = l1 ++ (l ++ e :: l2) ++ rest -> cb_frame_id e ∉ map cb_frame_id l ->
  find_callback (length (l ++ e :: l2)) (length l1) (cb_frame_id e) w = Ret (Some (length l1 + length l)%nat) w.
Proof.
  induction l as [|x l IH]; intros l1 rest Hc Hn.
  - cbn [app length find_callback]. rewrite (bind_step _ _ _ e w).
    + by rewrite Z.eqb_refl, Nat.add_0_r.
    + apply callback_at_run. rewrite Hc. by apply list_lookup_middle.
  - cbn [app length find_callback]. rewrite (bind_step _ _ _ x w).
    2: { apply callback_at_run. rewrite Hc. by apply list_lookup_middle. }
    cbn in Hn. apply not_elem_of_cons in Hn as [Hne Hn]. rewrite (proj2 (Z.eqb_neq _ _)) by congruence.
    specialize (IH (l1 ++ [x]) rest). rewrite length_snoc in IH. rewrite IH; [|by rewrite Hc, <- !(assoc_L app)|done].
    do 2 f_equal. lia.
Qed.

Lemma move_left_run e : forall l2 l1 rest (x : abstract_lin_callback_entry_t) u,
  exists y, move_left (length l2) (length l1) (AlWorld (LinData (l1 ++ x :: l2 ++ rest) u) e) =
    Ret tt (AlWorld (E := E) (LinData (l1 ++ l2 ++ y :: rest) u) e).
Proof.
  induction l2 as [|y l2 IH]; intros l1 rest x u; [by exists x|].
  cbn [length move_left]. rewrite (bind_step _ _ _ y (AlWorld (LinData (l1 ++ x :: (y :: l2) ++ rest) u) e)).
  2: { apply callback_at_run. cbn. rewrite lookup_app_r by lia. by replace (S (length l1) - length l1)%nat with 1%nat by lia. }
  erewrite bind_step; [|apply write_callback_run; cbn; rewrite length_app; cbn; lia]. cbn.
  rewrite <- (Nat.add_0_r (length l1)), insert_app_r. cbn.
  destruct (IH (l1 ++ [y]) rest y u) as [z Hz]. exists z.
  rewrite length_snoc, <- !(assoc_L app) in Hz. cbn in Hz. rewrite Nat.add_0_r. exact Hz.
Qed.
End table.

(** ** Lemmas: the map *)

Section entry_map.
Implicit Types (l : list abstract_lin_callback_entry_t).

Lemma entry_keys l : ((fun e => (cb_frame_id e, e)) <$> l).*1 = map cb_frame_id l.
Proof. rewrite <- list_fmap_compose. by apply list_fmap_ext. Qed.

Lemma entry_map_size l : NoDup (map cb_frame_id l) -> size (entry_map l) = length l.
Proof. intros Hn. unfold entry_map. rewrite map_size_list_to_map, length_fmap; [done|]. by rewrite entry_keys. Qed.

Lemma entry_map_missing l id : (id ∉ map cb_frame_id l) <-> entry_map l !! id = None.
Proof. unfold entry_map. rewrite <- not_elem_of_list_to_map, entry_keys. done. Qed.

Lemma entry_map_found l e : NoDup (map cb_frame_id l) -> e ∈ l -> entry_map l !! cb_frame_id e = Some e.
Proof.
  intros Hn He. unfold entry_map. apply elem_of_list_to_map_1; [by rewrite entry_keys|].
  by apply (list_elem_of_fmap_2 (fun e => (cb_frame_id e, e))).
Qed.

Lemma entry_map_elem l id e : entry_map l !! id = Some e -> e ∈ l /\ cb_frame_id e = id.
Proof.
  intros H. apply elem_of_list_to_map_2 in H. apply list_elem_of_fmap in H as (e' & [= -> ->] & He). done.
Qed.

Lemma entry_map_snoc l e : (cb_frame_id e ∉ map cb_frame_id l) -> entry_map (l ++ [e]) = <[cb_frame_id e := e]> (entry_map l).
Proof. intros Hn. unfold entry_map. rewrite fmap_app. apply list_to_map_snoc. by rewrite entry_keys. Qed.

Lemma entry_map_remove l1 e l2 :
  NoDup (map cb_frame_id (l1 ++ e :: l2)) -> entry_map (l1 ++ l2) = delete (cb_frame_id e) (entry_map (l1 ++ e :: l2)).
Proof.
  intros Hn. assert (Permutation (l1 ++ e :: l2) (e :: l1 ++ l2)) as Hp by (symmetry; apply Permutation_middle).
  assert (entry_map (l1 ++ e :: l2) = entry_map (e :: l1 ++ l2)) as ->.
  { unfold entry_map. apply list_to_map_proper; [by rewrite entry_keys|]. by rewrite Hp. }
  unfold entry_map at 2. cbn. rewrite delete_insert_id; [done|].
  apply (entry_map_missing (l1 ++ l2)). rewrite Hp in Hn. cbn in Hn. by apply NoDup_cons in Hn as [Hn _].
Qed.
End entry_map.

(** ** The API implements the map *)

Section simulation.
Context {E : Type} `{!LinBus E} `{!LinCallbacks E}.
Context (max : Z) (Hmax : 0 <= max <= 255).
Implicit Types (w : al_world E) (d : abstract_lin_data).

Lemma handlers_size d : lin_wf max d -> Z.of_nat (size (handlers d)) = used_callbacks d.
Proof.
  intros Hwf. destruct (callbacks_entries max d Hwf) as (rest & _ & Hl & _).
  unfold handlers. by rewrite entry_map_size by apply Hwf.
Qed.

(** A table with the entries [l] in front of [rest]. *)
Lemma entries_app l rest u : u = Z.of_nat (length l) -> entries (LinData (l ++ rest) u) = l.
Proof. intros ->. unfold entries. cbn. by rewrite Nat2Z.id, take_app_length. Qed.

Lemma lin_wf_app l rest u :
  u = Z.of_nat (length l) -> Z.of_nat (length (l ++ rest)) = max ->
  NoDup (map cb_frame_id l) -> Forall entry_ok l -> lin_wf max (LinData (l ++ rest) u).
Proof.
  intros Hu Hl Hn Ho. constructor; rewrite ?entries_app by done; cbn; try done.
  rewrite length_app in Hl. lia.
Qed.

Lemma register_simulation ty f id sz u w :
  lin_wf max (al_data w) ->
  exists d', al_register_cb max ty f id sz u w =
      Ret (fst (spec_register max (CallbackEntry id sz ty f u) (handlers (al_data w)))) (AlWorld d' (al_ext w)) /\
    lin_wf max d' /\ handlers d' = snd (spec_register max (CallbackEntry id sz ty f u) (handlers (al_data w))).
Proof.
  intros Hwf. destruct w as [d e]. cbn [al_data al_ext] in *.
  unfold al_register_cb, spec_register. cbn [cb_fn cb_frame_id cb_frame_size].
  assert (bool_decide (f = None) || (63 <? id) || (sz <? 1) || (8 <? sz) =
          bool_decide (f = None \/ 63 < id \/ sz < 1 \/ 8 < sz)) as ->.
  { apply eq_true_iff_eq. rewrite !orb_true_iff, !bool_decide_eq_true, !Z.ltb_lt. tauto. }
  case_bool_decide as Harg; [rewrite decide_True by done; by exists d|rewrite decide_False by done].
  unfold allocate_callback, get_data. rewrite handlers_size by done. unfold bind at 1 2, gets. cbn [al_data].
  destruct (Z.leb_spec max (used_callbacks d)); [rewrite decide_True by done; by exists d|rewrite decide_False by lia].
  destruct (callbacks_entries max d Hwf) as (rest & Hc & Hl & Hr).
  pose proof (id_used_run id (AlWorld d e) (entries d) [] rest Hc) as Hid. cbn [length] in Hid.
  rewrite <- Hl, Nat2Z.id. unfold bind at 1 2. rewrite Hid. cbv iota beta.
  case_bool_decide as Hin.
  - rewrite decide_True; [by exists d|]. destruct (handlers d !! id) eqn:Hm; [by eexists|].
    by apply (entry_map_missing (entries d)) in Hm.
  - pose proof Hin as Hm. apply entry_map_missing in Hm. rewrite decide_False by (unfold handlers; rewrite Hm; by intros [? ?]).
    destruct rest as [|x rest]; [cbn in Hr; lia|].
    unfold put_data, modify, ret. cbv iota beta. cbn [al_data al_ext].
    rewrite (proj2 (Z.ltb_ge _ _)) by lia. rewrite Nat2Z.id.
    erewrite bind_step; [|apply write_callback_run; cbn; rewrite Hc, length_app; cbn; lia].
    cbn [al_data al_ext callbacks used_callbacks]. unfold ret. eexists. split; [reflexivity|].
    rewrite Hc. rewrite <- (Nat.add_0_r (length (entries d))), insert_app_r. cbn [insert list_insert].
    rewrite (wrap_small 8) by (unfold in_width; lia).
    change (x :: rest) with ([x] ++ rest).
    set (ne := CallbackEntry _ _ _ _ _).
    assert (entries d ++ ne :: rest = (entries d ++ [ne]) ++ rest) as -> by (by rewrite <- (assoc_L app)).
    split.
    + apply lin_wf_app.
      * rewrite length_snoc. lia.
      * rewrite !length_app. cbn. cbn in Hr. lia.
      * rewrite map_app. apply NoDup_app. split_and!; [apply Hwf| |apply NoDup_singleton].
        intros y Hy Hx. apply list_elem_of_singleton in Hx as ->. done.
      * apply Forall_app. split; [apply Hwf|]. constructor; [|done]. split_and!; cbn; naive_solver lia.
    + unfold handlers at 1. rewrite entries_app by (rewrite length_snoc; lia). by apply (entry_map_snoc _ ne).
Qed.

Lemma unregister_simulation id w :
  lin_wf max (al_data w) ->
  exists d', al_unregister id w =
      Ret (if decide (is_Some (handlers (al_data w) !! id)) then 0 else - EINVAL) (AlWorld d' (al_ext w)) /\
    lin_wf max d' /\ handlers d' = delete id (handlers (al_data w)).
Proof.
  intros Hwf. destruct w as [d e]. cbn [al_data al_ext] in *.
  destruct (callbacks_entries max d Hwf) as (rest & Hc & Hl & Hr).
  unfold al_unregister, get_data. unfold bind at 1, gets. cbn [al_data]. rewrite <- Hl, Nat2Z.id.
  destruct (handlers d !! id) as [x|] eqn:Hx.
  - rewrite decide_True by eauto. apply entry_map_elem in Hx as [Hx <-].
    pose proof (wf_ids _ _ Hwf) as Hn. pose proof (wf_entries _ _ Hwf) as Ho. unfold handlers.
    apply list_elem_of_split in Hx as (l1 & l2 & Hsplit). rewrite Hsplit in *.
    assert (cb_frame_id x ∉ map cb_frame_id l1) as Hx1.
    { rewrite map_app in Hn. apply NoDup_app in Hn as (_ & Hn & _). intros Hin. apply (Hn _ Hin). cbn. set_solver. }
    rewrite (bind_step _ _ _ _ _ (find_callback_found (AlWorld d e) x l2 l1 [] rest Hc Hx1)). cbn [length Nat.add].
    unfold put_data, modify. unfold bind at 1 2. cbn [al_data al_ext used_callbacks].
    rewrite length_app in Hl. cbn in Hl. rewrite (wrap_small 8) by (destruct (wf_used _ _ Hwf); unfold in_width; rewrite length_app; cbn; lia).
    rewrite length_app. cbn [length]. replace (Z.to_nat _ - length l1)%nat with (length l2) by lia.
    rewrite Hc, <- (assoc_L app). cbn [app].
    destruct (move_left_run e l2 l1 rest x (Z.of_nat (length l1 + S (length l2)) - 1)) as [y Hy].
    rewrite (bind_step _ _ _ _ _ Hy). unfold ret. eexists. split; [reflexivity|].
    rewrite (assoc_L app l1 l2). assert (Permutation (l1 ++ x :: l2) (x :: l1 ++ l2)) as Hp by (symmetry; apply Permutation_middle).
    split.
    + apply lin_wf_app.
      * rewrite length_app. lia.
      * rewrite !length_app. cbn. destruct (wf_used _ _ Hwf). lia.
      * rewrite Hp in Hn. cbn in Hn. by apply NoDup_cons in Hn as [_ Hn].
      * rewrite Hp in Ho. by apply Forall_cons in Ho as [_ Ho].
    + rewrite entries_app by (rewrite length_app; lia). by apply entry_map_remove.
  - rewrite decide_False by (by intros [? ?]). exists d.
    pose proof (find_callback_missing id (AlWorld d e) (entries d) [] rest Hc) as Hf. cbn [length] in Hf.
    rewrite (bind_step _ _ _ _ _ (Hf ltac:(by apply entry_map_missing))).
    split; [done|]. split; [done|]. by rewrite delete_id.
Qed.

(** One call of the API against the specification. *)
Lemma al_run_simulation o w :
  lin_wf max (al_data w) ->
  exists d', al_run max o w = Ret (fst (spec_run max o (handlers (al_data w)))) (AlWorld d' (al_ext w)) /\
    lin_wf max d' /\ handlers d' = snd (spec_run max o (handlers (al_data w))).
Proof.
  intros Hwf. destruct o as [f id sz u|f id sz u|id|]; cbn [al_run spec_run].
  - destruct (register_simulation INCOMING f id sz u w Hwf) as (d' & Hrun & Hwf' & Hh).
    exists d'. destruct (spec_register _ _ _) as [r m]. cbn in *. unfold al_register_incoming_cb.
    by rewrite (bind_step _ _ _ _ _ Hrun).
  - destruct (register_simulation OUTGOING f id sz u w Hwf) as (d' & Hrun & Hwf' & Hh).
    exists d'. destruct (spec_register _ _ _) as [r m]. cbn in *. unfold al_register_outgoing_cb.
    by rewrite (bind_step _ _ _ _ _ Hrun).
  - destruct (unregister_simulation id w Hwf) as (d' & Hrun & Hwf' & Hh).
    exists d'. rewrite (bind_step _ _ _ _ _ Hrun). destruct (handlers (al_data w) !! id) eqn:Hid; cbn.
    + by rewrite decide_True by eauto.
    + rewrite decide_False by (by intros [? ?]). rewrite Hh. by rewrite delete_id.
  - exists (al_data w). unfold al_get_free_cb_slots, get_data, bind, gets. rewrite handlers_size by done. cbn.
    destruct w as [d e]. cbn in *. destruct (wf_used _ _ Hwf). by rewrite (wrap_small 8) by (unfold in_width; lia).
Qed.

Lemma al_init_wf : lin_wf max (abstract_lin_data_init max) /\ handlers (abstract_lin_data_init max) = ∅.
Proof.
  split; [|done]. constructor; cbn; [rewrite length_replicate; lia|lia|constructor|constructor].
Qed.

(** C10. The table of the LIN driver is a finite map: from the start, every
    sequence of register, unregister and free-slot calls returns what the
    specification on finite maps returns, and leaves a well-formed table that
    stands for the specification's map; none of the calls faults. *)
Theorem al_refines_map l (e : E) :
  exists d', al_run_all max l (AlWorld (abstract_lin_data_init max) e) =
      Ret (fst (spec_run_all max l ∅)) (AlWorld d' e) /\
    lin_wf max d' /\ handlers d' = snd (spec_run_all max l ∅).
Proof.
  destruct al_init_wf as [Hwf Hh]. rewrite <- Hh. clear Hh. revert Hwf. generalize (abstract_lin_data_init max) as d.
  induction l as [|o l IH]; intros d Hwf; [by exists d|].
  destruct (al_run_simulation o (AlWorld d e) Hwf) as (d1 & Hrun & Hwf1 & Hh). cbn [al_data al_ext] in *.
  destruct (IH d1 Hwf1) as (d2 & Hrun2 & Hwf2 & Hh2). exists d2. cbn [al_run_all spec_run_all].
  rewrite (bind_step _ _ _ _ _ Hrun), (bind_step _ _ _ _ _ Hrun2).
  destruct (spec_run max o (handlers d)) as [r m1]. cbn in Hh. subst m1. cbn.
  by destruct (spec_run_all max l (handlers d1)).
Qed.
End simulation.

(** ** The callbacks and the scheduling call against the map *)

(** A callback that leaves the table as it is. *)
Class LinCallbackLaws (E : Type) `{!LinCallbacks E} : Prop := {
  incoming_table : forall f fr u, frame al_data (incoming_cb (E := E) f fr u);
  outgoing_table : forall f fr u, frame al_data (outgoing_cb (E := E) f fr u);
}.

Section dispatch.
Context {E : Type} `{!LinBus E} `{!LinCallbacks E} `{!LinCallbackLaws E}.
Context (max : Z) (Hmax : 0 <= max <= 255) (stack : lin_frame).
Implicit Types (w : al_world E) (l : list abstract_lin_callback_entry_t).

(** A loop over the slots passes by the slots with other identifiers. *)
Lemma loop_skip {A} (loop : nat -> nat -> M (al_world E) A) id w :
  (forall fuel i e, Z.of_nat i < used_callbacks (al_data w) -> callbacks (al_data w) !! i = Some e ->
     cb_frame_id e <> id -> loop (S fuel) i w = loop fuel (S i) w) ->
  forall l l1 rest fuel, callbacks (al_data w) = l1 ++ l ++ rest ->
    Z.of_nat (length l1 + length l) <= used_callbacks (al_data w) -> (id ∉ map cb_frame_id l) ->
    loop (length l + fuel)%nat (length l1) w = loop fuel (length l1 + length l)%nat w.
Proof.
  intros Hloop. induction l as [|e l IH]; intros l1 rest fuel Hc Hu Hn; [by rewrite Nat.add_0_r|].
  cbn in Hn. apply not_elem_of_cons in Hn as [Hne Hn]. cbn [length] in *. cbn [Nat.add].
  rewrite (Hloop _ _ e); [|lia| |congruence].
  2: { rewrite Hc. by apply list_lookup_middle. }
  specialize (IH (l1 ++ [e]) rest fuel). rewrite length_snoc in IH. rewrite IH.
  - f_equal. lia.
  - by rewrite Hc, <- !(assoc_L app).
  - lia.
  - done.
Qed.

Lemma header_loop_skip frame w fuel i e :
  Z.of_nat i < used_callbacks (al_data w) -> callbacks (al_data w) !! i = Some e -> cb_frame_id e <> frame_id frame ->
  lin_header_loop (S fuel) i frame w = lin_header_loop fuel (S i) frame w.
Proof.
  intros Hi He Hne. cbn [lin_header_loop]. unfold get_data. unfold bind at 1, gets.
  rewrite (proj2 (Z.leb_gt _ _) Hi), (bind_step _ _ _ _ _ (callback_at_run _ _ _ He)).
  by rewrite (proj2 (Z.eqb_neq _ _) Hne).
Qed.

Lemma rx_loop_skip frame w fuel i e :
  Z.of_nat i < used_callbacks (al_data w) -> callbacks (al_data w) !! i = Some e -> cb_frame_id e <> frame_id frame ->
  lin_rx_loop (S fuel) i frame w = lin_rx_loop fuel (S i) frame w.
Proof.
  intros Hi He Hne. cbn [lin_rx_loop]. unfold get_data. unfold bind at 1, gets.
  rewrite (proj2 (Z.leb_gt _ _) Hi), (bind_step _ _ _ _ _ (callback_at_run _ _ _ He)).
  by rewrite (proj2 (Z.eqb_neq _ _) Hne).
Qed.

Lemma schedule_loop_skip id w fuel i e :
  Z.of_nat i < used_callbacks (al_data w) -> callbacks (al_data w) !! i = Some e -> cb_frame_id e <> id ->
  al_schedule_loop stack (S fuel) i id w = al_schedule_loop stack fuel (S i) id w.
Proof.
  intros Hi He Hne. cbn [al_schedule_loop]. unfold get_data. unfold bind at 1, gets.
  rewrite (proj2 (Z.leb_gt _ _) Hi), (bind_step _ _ _ _ _ (callback_at_run _ _ _ He)).
  by rewrite (proj2 (Z.eqb_neq _ _) Hne).
Qed.

(** Where the scan of a well-formed table for [id] gets to: behind the last
    slot, or to the slot of the handler, after which no slot has [id]. *)
Lemma scan_end {A} (loop : nat -> nat -> M (al_world E) A) id w :
  lin_wf max (al_data w) ->
  (forall fuel i e, Z.of_nat i < used_callbacks (al_data w) -> callbacks (al_data w) !! i = Some e ->
     cb_frame_id e <> id -> loop (S fuel) i w = loop fuel (S i) w) ->
  match handlers (al_data w) !! id with
  | None => exists fuel i, loop loop_fuel 0%nat w = loop (S fuel) i w /\ used_callbacks (al_data w) <= Z.of_nat i
  | Some h => exists fuel i n, loop loop_fuel 0%nat w = loop (S (n + S fuel))%nat i w /\
      Z.of_nat i < used_callbacks (al_data w) /\ callbacks (al_data w) !! i = Some h /\ cb_frame_id h = id /\
      used_callbacks (al_data w) <= Z.of_nat (S i + n) /\ (forall w1 fuel, al_data w1 = al_data w ->
        (forall fuel i e, Z.of_nat i < used_callbacks (al_data w1) -> callbacks (al_data w1) !! i = Some e ->
          cb_frame_id e <> id -> loop (S fuel) i w1 = loop fuel (S i) w1) ->
        loop (n + fuel)%nat (S i) w1 = loop fuel (S i + n)%nat w1)
  end.
Proof.
  intros Hwf Hloop. destruct (callbacks_entries max _ Hwf) as (rest & Hc & Hl & Hr).
  pose proof (wf_used _ _ Hwf) as Hu. pose proof (wf_ids _ _ Hwf) as Hn.
  destruct (handlers (al_data w) !! id) as [h|] eqn:Hh.
  - apply entry_map_elem in Hh as [Hh Hid]. apply list_elem_of_split in Hh as (l1 & l2 & Hsplit).
    rewrite Hsplit in *. rewrite length_app in Hl. cbn in Hl.
    rewrite map_app in Hn. apply NoDup_app in Hn as (_ & Hn1 & Hn2). cbn in Hn2. apply NoDup_cons in Hn2 as [Hn2 _].
    exists (255 - length l1 - length l2 - 1)%nat, (length l1), (length l2).
    rewrite <- (assoc_L app) in Hc. split_and!; try lia; try done.
    + replace loop_fuel with (length l1 + (S (length l2 + S (255 - length l1 - length l2 - 1))))%nat
        by (unfold loop_fuel; lia).
      rewrite (loop_skip loop id w Hloop l1 [] ((h :: l2) ++ rest)); cbn; [done|done|lia|].
      intros Hx. subst id. by apply (Hn1 _ Hx); left.
    + rewrite Hc. by apply list_lookup_middle.
    + intros w1 fuel Hw1 Hloop1. pose proof (loop_skip loop id w1 Hloop1 l2 (l1 ++ [h]) rest fuel) as Hs.
      rewrite length_snoc in Hs. apply Hs; rewrite ?Hw1.
      * by rewrite Hc, <- !(assoc_L app).
      * lia.
      * by subst id.
  - apply (entry_map_missing (entries (al_data w))) in Hh.
    exists (255 - length (entries (al_data w)))%nat, (length (entries (al_data w))). split; [|lia].
    replace loop_fuel with (length (entries (al_data w)) + S (255 - length (entries (al_data w))))%nat
      by (unfold loop_fuel; lia).
    by apply (loop_skip loop id w Hloop (entries (al_data w)) [] rest); cbn; [|lia|].
Qed.

(** What the bus driver gets to know about a header. *)
Definition header_response (frame : lin_frame) (h : option abstract_lin_callback_entry_t) :
    M (al_world E) (lin_action * lin_frame) :=
  match h with
  | None => ret (LIN_ACTION_NONE, frame)
  | Some h =>
      let frame := set_frame_type LIN_CHECKSUM_AUTO (set_frame_len (cb_frame_size h) frame) in
      match cb_type h, cb_fn h with
      | INCOMING, _ => ret (LIN_ACTION_RECEIVE, frame)
      | OUTGOING, None => fail NullPointer
      | OUTGOING, Some f =>
          let* (res, frame) := outgoing_cb f frame (cb_user_data h) in
          ret (if (res : bool) then LIN_ACTION_SEND else LIN_ACTION_NONE, set_frame_len (cb_frame_size h) frame)
      end
  end.

(** What a received frame leads to. *)
Definition reception (frame : lin_frame) (h : option abstract_lin_callback_entry_t) : M (al_world E) unit :=
  match h with
  | Some (CallbackEntry _ sz INCOMING (Some f) u) =>
      if sz =? frame_len frame then incoming_cb f frame u else fail AssertFailed
  | _ => ret tt
  end.

(** What scheduling an identifier does on the bus. *)
Definition transmission (id : Z) (h : option abstract_lin_callback_entry_t) : M (al_world E) Z :=
  match h with
  | Some (CallbackEntry _ sz INCOMING _ _) => on_bus (lin_receive id LIN_CHECKSUM_AUTO sz)
  | Some (CallbackEntry _ sz OUTGOING (Some f) u) =>
      let* (send, frame) := outgoing_cb f (LinFrame id sz LIN_CHECKSUM_AUTO (frame_data stack)) u in
      if (send : bool) then on_bus (lin_send (LinFrame id sz (frame_type frame) (frame_data frame))) else ret 0
  | _ => ret (- EINVAL)
  end.

Lemma handler_ok w id h : lin_wf max (al_data w) -> handlers (al_data w) !! id = Some h -> entry_ok h.
Proof.
  intros Hwf Hh. apply entry_map_elem in Hh as [Hh _]. by apply (Forall_forall entry_ok (entries (al_data w))); [apply Hwf|].
Qed.

Lemma header_run w frame : lin_wf max (al_data w) ->
  lin_header_callback frame w = header_response frame (handlers (al_data w) !! frame_id frame) w.
Proof.
  intros Hwf. unfold lin_header_callback.
  pose proof (scan_end (fun n i => lin_header_loop n i frame) (frame_id frame) w Hwf (header_loop_skip frame w)) as Hs.
  destruct (handlers _ !! _) as [h|] eqn:Hh.
  - destruct Hs as (fuel & i & n & -> & Hi & Hc & Hid & _). cbn [lin_header_loop]. unfold get_data. unfold bind at 1, gets.
    rewrite (proj2 (Z.leb_gt _ _) Hi), (bind_step _ _ _ _ _ (callback_at_run _ _ _ Hc)), Hid, Z.eqb_refl. cbn [negb].
    unfold header_response. destruct (cb_type h); [done|].
    destruct (cb_fn h) as [f|]; [|done]. unfold of_option. unfold bind at 1, ret at 1. unfold bind at 1 3.
    destruct (outgoing_cb _ _ _ w) as [[res fr'] w'|] eqn:Ho; [|done]. apply outgoing_table in Ho.
    rewrite (bind_step _ _ _ h w') by (apply callback_at_run; by rewrite Ho). done.
  - destruct Hs as (fuel & i & -> & Hi). cbn [lin_header_loop]. unfold get_data, bind, gets. by rewrite (proj2 (Z.leb_le _ _) Hi).
Qed.

Lemma rx_run w frame : lin_wf max (al_data w) ->
  lin_rx_callback 0 frame w = reception frame (handlers (al_data w) !! frame_id frame) w.
Proof.
  intros Hwf. unfold lin_rx_callback. cbn [negb Z.eqb].
  pose proof (scan_end (fun n i => lin_rx_loop n i frame) (frame_id frame) w Hwf (rx_loop_skip frame w)) as Hs.
  destruct (handlers _ !! _) as [h|] eqn:Hh.
  - destruct (handler_ok w _ h Hwf Hh) as [Hfn _].
    destruct Hs as (fuel & i & n & -> & Hi & Hc & Hid & Hend & Hrest).
    assert (forall w1, al_data w1 = al_data w -> lin_rx_loop (n + S fuel) (S i) frame w1 = Ret tt w1) as Hdone.
    { intros w1 Hw1. rewrite (Hrest w1 (S fuel) Hw1 (rx_loop_skip frame w1)).
      cbn [lin_rx_loop]. unfold get_data, bind, gets. rewrite Hw1. by rewrite (proj2 (Z.leb_le _ _) Hend). }
    cbn [lin_rx_loop]. unfold get_data. unfold bind at 1, gets.
    rewrite (proj2 (Z.leb_gt _ _) Hi), (bind_step _ _ _ _ _ (callback_at_run _ _ _ Hc)), Hid, Z.eqb_refl. cbn [negb orb].
    destruct h as [hid sz ty [f|] u]; [|done]. cbn [cb_type cb_fn cb_frame_size cb_user_data reception].
    destruct ty; [rewrite bool_decide_true by done|rewrite bool_decide_false by done; by apply Hdone].
    cbn [negb]. destruct (sz =? frame_len frame); [|done]. cbn. unfold bind.
    destruct (incoming_cb f frame u w) as [[] w'|] eqn:Ho; [|done]. apply incoming_table in Ho. by apply Hdone.
  - destruct Hs as (fuel & i & -> & Hi). cbn [lin_rx_loop]. unfold get_data, bind, gets. by rewrite (proj2 (Z.leb_le _ _) Hi).
Qed.

Lemma schedule_run w id : lin_wf max (al_data w) ->
  al_schedule_loop stack loop_fuel 0 id w = transmission id (handlers (al_data w) !! id) w.
Proof.
  intros Hwf.
  pose proof (scan_end (fun n i => al_schedule_loop stack n i id) id w Hwf (schedule_loop_skip id w)) as Hs.
  destruct (handlers _ !! _) as [h|] eqn:Hh.
  - destruct (handler_ok w _ h Hwf Hh) as [Hfn _].
    destruct Hs as (fuel & i & n & -> & Hi & Hc & Hid & _). cbn [al_schedule_loop]. unfold get_data. unfold bind at 1, gets.
    rewrite (proj2 (Z.leb_gt _ _) Hi), (bind_step _ _ _ _ _ (callback_at_run _ _ _ Hc)).
    destruct h as [hid sz ty [f|] u]; [|done]. cbn [cb_frame_id cb_type cb_fn cb_frame_size cb_user_data] in *. subst hid.
    rewrite Z.eqb_refl. cbn [negb]. destruct ty; [done|].
    unfold of_option. unfold bind at 1, ret at 1. unfold transmission. unfold bind at 1 3.
    change (set_frame_type _ _) with (LinFrame id sz LIN_CHECKSUM_AUTO (frame_data stack)).
    destruct (outgoing_cb _ _ _ w) as [[res fr'] w'|] eqn:Ho; [|done]. apply outgoing_table in Ho.
    rewrite (bind_step _ _ _ (CallbackEntry id sz OUTGOING (Some f) u) w') by (apply callback_at_run; by rewrite Ho). done.
  - destruct Hs as (fuel & i & -> & Hi). cbn [al_schedule_loop]. unfold get_data, bind, gets. by rewrite (proj2 (Z.leb_le _ _) Hi).
Qed.

(** The callbacks of the LIN bus and the scheduling call do what the map
    of handlers says for the identifier at hand: the header callback receives
    or sends with the registered length, a received frame reaches exactly the
    incoming handler of its identifier, once, and a commander requests or
    sends. *)
Theorem lin_dispatch w frame id :
  lin_wf max (al_data w) ->
  lin_header_callback frame w = header_response frame (handlers (al_data w) !! frame_id frame) w /\
  lin_rx_callback 0 frame w = reception frame (handlers (al_data w) !! frame_id frame) w /\
  al_schedule_now LIN_MODE_COMMANDER stack id w =
    (if 0x3F <? id then ret (- EINVAL) else transmission id (handlers (al_data w) !! id)) w.
Proof.
  intros Hwf. split_and!; [by apply header_run|by apply rx_run|].
  unfold al_schedule_now. destruct (0x3F <? id); [done|]. rewrite decide_False by auto. by apply schedule_run.
Qed.
End dispatch.
