(* ===== verification/LinScheduler.v ===== *)
(** * LIN scheduler ([drivers/lin/abstract_lin/lin_scheduler.c])

    A thread that walks the active schedule table and hands frame identifiers
    to the LIN driver, and two functions another thread calls to change or
    stop the table.  They share the scheduler object and synchronise with one
    binary semaphore.  The model is a transition system: each step is one
    semaphore operation or one access to the shared fields, and the two
    threads interleave in every way.  The client is a single thread that calls
    the two functions in any order, after the scheduler thread has initialised
    its semaphores.

    A table is the list of its entries ([count] is its length); an index of
    all ones, the C value -1, means that no table is active.  The delay between
    two entries is any number of steps. *)

From stdpp Require Import base gmap list numbers relations.
From Stdlib Require Import ZArith Lia.
From S2P Require Import Prelude.

#[local] Open Scope Z_scope.

(** ** Definitions *)

Record abstract_lin_schedule_entry_t := ScheduleEntry { entry_frame_id : Z; entry_delay : Z }.

Abbreviation abstract_lin_schedule_table_t := (list abstract_lin_schedule_entry_t).

(** [(size_t) -1] *)
Definition no_table : Z := UINT32_MAX.

Record abstract_lin_scheduler_t := Scheduler {
  tables : list abstract_lin_schedule_table_t;
  current_table : Z;
  current_table_entry : Z;
  skip : Z;
  active : Z;
}.

Definition table_count (s : abstract_lin_scheduler_t) : Z := Z.of_nat (length (tables s)).
Definition set_current_table x s := Scheduler (tables s) x (current_table_entry s) (skip s) (active s).
Definition set_current_table_entry x s := Scheduler (tables s) (current_table s) x (skip s) (active s).
Definition set_active x s := Scheduler (tables s) (current_table s) (current_table_entry s) (skip s) x.

(** [ABSTRACT_LIN_REGISTER_SCHEDULER_INITIAL_TABLE]: zeroed semaphores. *)
Definition register_scheduler (tables_array : list abstract_lin_schedule_table_t) (initial_table : Z) :=
  Scheduler tables_array (u32 initial_table) 0 0 0.

(** Semaphores of limit 1: [k_sem_give], and [k_sem_take] where it does not
    block. *)
Definition k_sem_give (n : Z) : Z := if n =? 1 then n else n + 1.
Definition k_sem_take (n : Z) : option Z := if 0 <? n then Some (n - 1) else None.

(** The start of the thread, up to its loop. *)
Definition thread_start (s : abstract_lin_scheduler_t) : abstract_lin_scheduler_t :=
  let s := Scheduler (tables s) (current_table s) (current_table_entry s) 0 0 in
  if negb (current_table s =? no_table) then set_active (k_sem_give (active s)) s else s.

(** The statements between taking and giving the semaphore, without the call:
    the entry that is due, and the advanced position.  [None] is an access
    outside of an array. *)
Definition next_entry (s : abstract_lin_scheduler_t) :
    option (abstract_lin_schedule_entry_t * abstract_lin_scheduler_t) :=
  table ← tables s !! Z.to_nat (current_table s);
  entry ← table !! Z.to_nat (current_table_entry s);
  let s := set_current_table_entry (u32 (current_table_entry s + 1)) s in
  Some (entry, if Z.of_nat (length table) <=? current_table_entry s then set_current_table_entry 0 s else s).

(** Where the scheduler thread is: before [k_sem_take] of [active], before the
    table is read, before the call with an identifier, before [k_sem_give],
    before the delay has passed; [Crashed] is behind an access outside of an
    array. *)
Inductive thread_pc :=
| TakeActive
| ReadTable
| ScheduleNow (id : Z)
| GiveActive
| Delay
| Crashed.

(** Where the client is: between calls; in [set_active_table] before its
    [k_sem_take], its two writes and its [k_sem_give]; in [disable] before its
    [k_sem_take] and its write. *)
Inductive client_pc :=
| Idle
| SetTake (table_index : Z)
| SetTable (table_index : Z)
| SetEntry
| SetGive
| DisableTake
| DisableWrite.

(** [log] collects the identifiers the LIN driver got since the active table
    was set. *)
Record system := System {
  sched : abstract_lin_scheduler_t;
  thread : thread_pc;
  client : client_pc;
  log : list Z;
}.

(** The first statements of the two functions, up to the semaphore. *)
Definition abstract_lin_scheduler_set_active_table (s : abstract_lin_scheduler_t) (table_index : Z) :
    Z * client_pc :=
  if table_count s <=? table_index then (- ENOENT, Idle)
  else if negb (current_table s =? no_table) then (0, SetTake table_index) else (0, SetTable table_index).

Definition abstract_lin_scheduler_disable (s : abstract_lin_scheduler_t) : client_pc :=
  if current_table s =? no_table then Idle else DisableTake.

(** One step of the scheduler thread. *)
Inductive thread_step : system -> system -> Prop :=
| step_take_active s c l n :
    k_sem_take (active s) = Some n ->
    thread_step (System s TakeActive c l) (System (set_active n s) ReadTable c l)
| step_read_table s c l entry s' :
    next_entry s = Some (entry, s') ->
    thread_step (System s ReadTable c l) (System s' (ScheduleNow (entry_frame_id entry)) c l)
| step_read_outside s c l :
    next_entry s = None ->
    thread_step (System s ReadTable c l) (System s Crashed c l)
| step_schedule s c l id :
    thread_step (System s (ScheduleNow id) c l) (System s GiveActive c (l ++ [id]))
| step_give_active s c l :
    thread_step (System s GiveActive c l) (System (set_active (k_sem_give (active s)) s) Delay c l)
| step_delay s c l :
    thread_step (System s Delay c l) (System s TakeActive c l).

(** One step of the client. *)
Inductive client_step : system -> system -> Prop :=
| step_call_set s t l table_index :
    0 <= table_index ->
    client_step (System s t Idle l)
      (System s t (snd (abstract_lin_scheduler_set_active_table s table_index)) l)
| step_set_take s t l table_index n :
    k_sem_take (active s) = Some n ->
    client_step (System s t (SetTake table_index) l) (System (set_active n s) t (SetTable table_index) l)
| step_set_table s t l table_index :
    client_step (System s t (SetTable table_index) l) (System (set_current_table table_index s) t SetEntry l)
| step_set_entry s t l :
    client_step (System s t SetEntry l) (System (set_current_table_entry 0 s) t SetGive [])
| step_set_give s t l :
    client_step (System s t SetGive l) (System (set_active (k_sem_give (active s)) s) t Idle l)
| step_call_disable s t l :
    client_step (System s t Idle l) (System s t (abstract_lin_scheduler_disable s) l)
| step_disable_take s t l n :
    k_sem_take (active s) = Some n ->
    client_step (System s t DisableTake l) (System (set_active n s) t DisableWrite l)
| step_disable_write s t l :
    client_step (System s t DisableWrite l) (System (set_current_table no_table s) t Idle l).

Definition sched_step (s s' : system) : Prop := thread_step s s' \/ client_step s s'.

(** ** The invariant *)

Section invariant.
Context (tbls : list abstract_lin_schedule_table_t).

(** The first [n] identifiers of the endless repetition of a table. *)
Definition cyclic (table : abstract_lin_schedule_table_t) (n : nat) : list Z :=
  map (fun k => default 0 (entry_frame_id <$> table !! (k mod length table)%nat)) (seq 0 n).

(** A table is active, and [ids], the identifiers of it that were read so far,
    are the first ones in order. *)
Record running (s : abstract_lin_scheduler_t) (ids : list Z) : Prop := Running {
  run_tables : tables s = tbls;
  run_table : exists table, tbls !! Z.to_nat (current_table s) = Some table /\ 0 <= current_table s /\
    ids = cyclic table (length ids) /\
    current_table_entry s = Z.of_nat (length ids mod length table)%nat;
}.

Definition resting (t : thread_pc) : Prop := t = TakeActive \/ t = Delay.
Definition waiting (c : client_pc) : Prop :=
  c = Idle \/ (exists t, c = SetTake t /\ 0 <= t < Z.of_nat (length tbls)) \/ c = DisableTake.

(** Who has the right to use the shared fields: nobody when no table is
    active, the semaphore, the scheduler thread, or the client. *)
Inductive sched_inv : system -> Prop :=
| inv_disabled s t c l :
    tables s = tbls -> current_table s = no_table -> active s = 0 -> resting t ->
    c = Idle \/ (exists i, c = SetTable i /\ 0 <= i < Z.of_nat (length tbls)) ->
    sched_inv (System s t c l)
| inv_free s t c l :
    running s l -> active s = 1 -> resting t -> waiting c -> sched_inv (System s t c l)
| inv_thread s t c l :
    (t = ReadTable \/ t = GiveActive) -> running s l -> active s = 0 -> waiting c -> sched_inv (System s t c l)
| inv_schedule s id c l :
    running s (l ++ [id]) -> active s = 0 -> waiting c -> sched_inv (System s (ScheduleNow id) c l)
| inv_set s t l i :
    tables s = tbls -> active s = 0 -> resting t -> 0 <= i < Z.of_nat (length tbls) ->
    sched_inv (System s t (SetTable i) l)
| inv_set_entry s t l :
    tables s = tbls -> active s = 0 -> resting t -> 0 <= current_table s < Z.of_nat (length tbls) ->
    sched_inv (System s t SetEntry l)
| inv_give s t l :
    running s l -> active s = 0 -> resting t -> sched_inv (System s t SetGive l)
| inv_disable s t l :
    tables s = tbls -> active s = 0 -> resting t -> sched_inv (System s t DisableWrite l).
End invariant.

(** ** Lemmas *)

(** Tables the thread can walk: none is empty, the index and the position fit
    into 32 bits. *)
Definition tables_ok (tbls : list abstract_lin_schedule_table_t) : Prop :=
  Z.of_nat (length tbls) <= UINT32_MAX /\ Forall (fun t => (0 < length t)%nat /\ Z.of_nat (length t) <= UINT32_MAX) tbls.

Section scheduler.
Context (tbls : list abstract_lin_schedule_table_t) (Hok : tables_ok tbls).
Implicit Types (s : abstract_lin_scheduler_t).

Lemma cyclic_snoc table n e :
  table !! (n mod length table)%nat = Some e -> cyclic table (S n) = cyclic table n ++ [entry_frame_id e].
Proof. intros He. unfold cyclic. rewrite seq_S, map_app. cbn [map].
  by rewrite Nat.add_0_l, He.
Qed.

Lemma table_ok i table : tbls !! i = Some table -> (0 < length table)%nat /\ Z.of_nat (length table) <= UINT32_MAX.
Proof. destruct Hok as [_ Hf]. intros Hi. apply (Forall_lookup_1 _ _ _ _ Hf Hi). Qed.

(** Advancing the position modulo the length of the table. *)
Lemma advance n len : (0 < len)%nat -> Z.of_nat len <= UINT32_MAX ->
  let p := u32 (Z.of_nat (n mod len) + 1) in
  (if Z.of_nat len <=? p then 0 else p) = Z.of_nat (S n mod len).
Proof.
  intros Hl Hu. unfold UINT32_MAX in Hu. cbn zeta. pose proof (Nat.mod_upper_bound n len ltac:(lia)) as Hb.
  rewrite wrap_small by (unfold in_width; lia).
  assert (S n mod len = if (len <=? n mod len + 1)%nat then 0 else n mod len + 1)%nat as ->.
  { replace (S n) with (n + 1)%nat by lia. rewrite <- Nat.Div0.add_mod_idemp_l.
    destruct (Nat.leb_spec len (n mod len + 1)).
    - replace (n mod len + 1)%nat with len by lia. apply Nat.Div0.mod_same.
    - by apply Nat.mod_small. }
  destruct (Z.leb_spec (Z.of_nat len) (Z.of_nat (n mod len) + 1)), (Nat.leb_spec len (n mod len + 1)); lia.
Qed.

Lemma next_entry_running s ids :
  running tbls s ids -> exists e s', next_entry s = Some (e, s') /\ running tbls s' (ids ++ [entry_frame_id e]) /\
    active s' = active s.
Proof.
  intros [Ht (table & Htab & H0 & Hids & Hpos)]. pose proof (table_ok _ _ Htab) as [Hl Hu].
  unfold next_entry. rewrite Ht, Htab. cbn [mbind option_bind]. rewrite Hpos, Nat2Z.id.
  destruct (table !! (length ids mod length table)%nat) as [e|] eqn:He.
  2: { apply lookup_ge_None in He. pose proof (Nat.mod_upper_bound (length ids) (length table)). lia. }
  cbn [mbind option_bind]. exists e. eexists. split; [reflexivity|].
  assert (length (ids ++ [entry_frame_id e]) = S (length ids)) as Hlen by (rewrite length_app; cbn; lia).
  pose proof (advance (length ids) (length table) Hl Hu) as Hadv. cbn zeta in Hadv.
  cbn [current_table_entry set_current_table_entry] in *.
  split; [|by destruct (_ <=? _)]. constructor; [by destruct (_ <=? _)|].
  exists table. split_and!.
  - by destruct (_ <=? _).
  - by destruct (_ <=? _).
  - rewrite Hlen, (cyclic_snoc _ _ e He). by rewrite <- Hids.
  - rewrite Hlen, <- Hadv. by destruct (_ <=? _).
Qed.

Lemma running_active s ids n : running tbls s ids -> running tbls (set_active n s) ids.
Proof. by intros [? ?]. Qed.

Lemma running_valid s ids : running tbls s ids -> current_table s <> no_table.
Proof.
  intros [_ (table & Ht & H0 & _)] Hx. apply lookup_lt_Some in Ht. rewrite Hx in Ht. destruct Hok as [Hl _].
  unfold no_table in *. lia.
Qed.

Lemma inv_start initial_table l :
  initial_table = -1 \/ 0 <= initial_table < Z.of_nat (length tbls) ->
  sched_inv tbls (System (thread_start (register_scheduler tbls initial_table)) TakeActive Idle (take 0 l)).
Proof.
  intros [->|Hi].
  - apply inv_disabled; try done; [by left|by left].
  - assert (u32 initial_table = initial_table) as Hw.
    { apply wrap_small. destruct Hok as [Hl _]. unfold in_width, UINT32_MAX in *. lia. }
    unfold thread_start, register_scheduler. cbn. rewrite Hw. rewrite (proj2 (Z.eqb_neq initial_table no_table)).
    2: { destruct Hok as [Hl _]. unfold no_table, UINT32_MAX in *. lia. }
    apply inv_free; [|done|by left|by left]. constructor; [done|]. cbn.
    destruct (lookup_lt_is_Some_2 tbls (Z.to_nat initial_table)) as [table Ht]; [lia|].
    exists table. split_and!; try done; [lia|]. by rewrite Nat.Div0.mod_0_l.
Qed.

Lemma k_sem_take_1 n m : k_sem_take n = Some m -> 0 < n /\ m = n - 1.
Proof. unfold k_sem_take. destruct (Z.ltb_spec 0 n); [|done]. by intros [= <-]. Qed.

Lemma thread_step_inv st st' : sched_inv tbls st -> thread_step st st' -> sched_inv tbls st'.
Proof.
  intros Hinv Hstep. destruct Hstep as [s c l n Hn|s c l e s' He|s c l He|s c l id|s c l|s c l].
  - apply k_sem_take_1 in Hn as [H0 ->]. inversion Hinv; subst; try lia.
    apply inv_thread; [by left|by apply running_active|cbn; lia|done].
  - inversion Hinv; subst; try (by match goal with H : resting _ |- _ => destruct H end).
    match goal with H : running _ _ _ |- _ => destruct (next_entry_running _ _ H) as (e1 & s1 & He1 & Hr & Ha) end.
    rewrite He in He1. injection He1 as <- <-. apply inv_schedule; [done|congruence|done].
  - inversion Hinv; subst; try (by match goal with H : resting _ |- _ => destruct H end).
    match goal with H : running _ _ _ |- _ => destruct (next_entry_running _ _ H) as (e1 & s1 & He1 & Hr & Ha) end.
    by rewrite He in He1.
  - inversion Hinv; subst; try (by match goal with H : resting _ |- _ => destruct H end).
    + by match goal with H : _ \/ _ |- _ => destruct H end.
    + apply inv_thread; [by right|done..].
  - inversion Hinv; subst; try (by match goal with H : resting _ |- _ => destruct H end).
    apply inv_free; [by apply running_active| |by right|done].
    cbn. match goal with H : active _ = 0 |- _ => by rewrite H end.
  - inversion Hinv; subst; try (by match goal with H : _ \/ _ |- _ => destruct H end);
      [eapply inv_disabled|apply inv_free|apply inv_set|apply inv_set_entry|apply inv_give|apply inv_disable]; try done; by left.
Qed.

Lemma client_step_inv st st' : sched_inv tbls st -> client_step st st' -> sched_inv tbls st'.
Proof.
  intros Hinv Hstep. destruct Hstep as [s t l i Hi|s t l i n Hn|s t l i|s t l|s t l|s t l|s t l n Hn|s t l].
  - unfold abstract_lin_scheduler_set_active_table. destruct (Z.leb_spec (table_count s) i) as [|Hlt]; [done|].
    unfold table_count in Hlt. inversion Hinv; subst.
    + match goal with H : current_table _ = _ |- _ => rewrite H end. cbn. apply inv_disabled; try done.
      right. exists i. split; [done|lia].
    + match goal with H : running _ _ _ |- _ => pose proof (running_valid _ _ H) as Hv; pose proof (run_tables _ _ _ H) as Ht end.
      rewrite (proj2 (Z.eqb_neq _ _) Hv). cbn. apply inv_free; try done. right. left. exists i. split; [done|]. rewrite <- Ht. lia.
    + match goal with H : running _ _ _ |- _ => pose proof (running_valid _ _ H) as Hv; pose proof (run_tables _ _ _ H) as Ht end.
      rewrite (proj2 (Z.eqb_neq _ _) Hv). cbn. apply inv_thread; try done. right. left. exists i. split; [done|]. rewrite <- Ht. lia.
    + match goal with H : running _ _ _ |- _ => pose proof (running_valid _ _ H) as Hv; pose proof (run_tables _ _ _ H) as Ht end.
      rewrite (proj2 (Z.eqb_neq _ _) Hv). cbn. apply inv_schedule; try done. right. left. exists i. split; [done|]. rewrite <- Ht. lia.
  - apply k_sem_take_1 in Hn as [H0 ->]. inversion Hinv; subst; try lia.
    match goal with H : waiting _ _ |- _ => destruct H as [|[(j & [= ->] & Hj)|] ]; try done end.
    match goal with H : running _ _ _ |- _ => pose proof (run_tables _ _ _ H) end.
    apply inv_set; try done. cbn. lia.
  - inversion Hinv; subst; try (by match goal with H : waiting _ _ |- _ => destruct H as [|[(? & ? & ?)|] ] end).
    + match goal with H : _ \/ _ |- _ => destruct H as [|(j & [= ->] & Hj)]; [done|] end. by apply inv_set_entry.
    + by apply inv_set_entry.
  - inversion Hinv; subst; try (by match goal with H : waiting _ _ |- _ => destruct H as [|[(? & ? & ?)|] ] end);
      [by match goal with H : _ \/ _ |- _ => destruct H as [|(? & ? & ?)] end|].
    apply inv_give; try done. constructor; [done|].
    destruct (lookup_lt_is_Some_2 (tables s) (Z.to_nat (current_table s))) as [table Ht]; [lia|].
    exists table. cbn. split_and!; try done; [lia|]. by rewrite Nat.Div0.mod_0_l.
  - inversion Hinv; subst; try (by match goal with H : waiting _ _ |- _ => destruct H as [|[(? & ? & ?)|] ] end);
      [by match goal with H : _ \/ _ |- _ => destruct H as [|(? & ? & ?)] end|].
    apply inv_free; [by apply running_active| |done|by left]. cbn. match goal with H : active _ = 0 |- _ => by rewrite H end.
  - unfold abstract_lin_scheduler_disable. destruct (Z.eqb_spec (current_table s) no_table) as [|Hne]; [done|].
    inversion Hinv; subst; [done|..].
    + apply inv_free; try done. by right; right.
    + apply inv_thread; try done. by right; right.
    + apply inv_schedule; try done. by right; right.
  - apply k_sem_take_1 in Hn as [H0 ->]. inversion Hinv; subst; try lia.
    match goal with H : running _ _ _ |- _ => pose proof (run_tables _ _ _ H) end.
    apply inv_disable; try done. cbn. lia.
  - inversion Hinv; subst; try (by match goal with H : waiting _ _ |- _ => destruct H as [|[(? & ? & ?)|] ] end);
      [by match goal with H : _ \/ _ |- _ => destruct H as [|(? & ? & ?)] end|].
    apply inv_disabled; try done. by left.
Qed.

(** The states of a run of the two threads. *)
Definition reachable (initial_table : Z) (st : system) : Prop :=
  rtc sched_step (System (thread_start (register_scheduler tbls initial_table)) TakeActive Idle []) st.

Lemma reachable_inv initial_table st :
  initial_table = -1 \/ 0 <= initial_table < Z.of_nat (length tbls) ->
  reachable initial_table st -> sched_inv tbls st.
Proof.
  intros Hi Hr. pose proof (inv_start initial_table [] Hi) as H0. cbn in H0. unfold reachable in Hr.
  revert H0. remember (System _ _ _ _) as st0 eqn:Heq. clear Heq.
  induction Hr as [|st0 st1 st2 [Hs|Hs] _ IH]; intros H0; [done|..]; apply IH;
    [by eapply thread_step_inv|by eapply client_step_inv].
Qed.

Lemma resting_not_busy t : resting t ->
  t <> Crashed /\ (forall id, ~ (t = ReadTable \/ t = ScheduleNow id \/ t = GiveActive)).
Proof. intros [-> | ->]; (split; [done|]); intros id Hid; by destruct Hid as [|[|] ]. Qed.

(** C13. The scheduler under every interleaving with its client: no access
    falls outside of a table; while the thread is between taking and giving
    the semaphore the client writes nothing; the identifiers that went to the
    LIN driver since the table was set are the table's entries in order,
    repeated from the start after the last one; once a call that set a table
    has returned, a thread that waits for the semaphore can go on; and once a
    disabling call has returned, the thread is at rest and nothing more is
    scheduled. *)
Theorem scheduler_safe initial_table st :
  initial_table = -1 \/ 0 <= initial_table < Z.of_nat (length tbls) ->
  reachable initial_table st ->
  let s := sched st in
  (thread st <> Crashed) /\
  (forall id, thread st = ReadTable \/ thread st = ScheduleNow id \/ thread st = GiveActive ->
     waiting tbls (client st) /\
     exists table, tbls !! Z.to_nat (current_table s) = Some table /\
       log st = cyclic table (length (log st)) /\
       (thread st = ScheduleNow id -> log st ++ [id] = cyclic table (S (length (log st))))) /\
  (client st = Idle -> current_table s <> no_table -> thread st = TakeActive -> active s = 1) /\
  (client st = Idle -> current_table s = no_table -> resting (thread st) /\ active s = 0).
Proof.
  intros Hi Hr. pose proof (reachable_inv _ _ Hi Hr) as Hinv. cbn zeta.
  destruct Hinv as [s t c l Ht Hc Ha Hrest Hcl|s t c l Hrun Ha Hrest Hw|s t c l Hb Hrun Ha Hw|s id c l Hrun Ha Hw
    |s t l i Ht Ha Hrest Hl|s t l Ht Ha Hrest Hl|s t l Hrun Ha Hrest|s t l Ht Ha Hrest]; cbn [sched thread client log].
  all: try (destruct (resting_not_busy _ Hrest) as (Hn1 & Hn2); split_and!;
         [done|by intros id Hb; destruct (Hn2 id)|by intros ? ? ?; (done || congruence)
         |by intros ? ?; first [done|by match goal with H : running _ _ _ |- _ => apply running_valid in H end] ]).
  - split_and!; [by destruct Hb as [->| ->]| |intros _ _ ->; by destruct Hb|].
    + intros id _. split; [done|]. destruct Hrun as [_ (table & Htab & _ & Hids & _)]. exists table.
      split_and!; try done. intros ->. by destruct Hb.
    + intros _ Hc. by apply running_valid in Hrun.
  - split_and!; [done| |done|].
    + intros id' Hb. split; [done|]. destruct Hrun as [_ (table & Htab & _ & Hids & _)]. exists table.
      assert (length (l ++ [id]) = S (length l)) as Hlen by (rewrite length_app; cbn; lia). rewrite Hlen in Hids.
      split_and!; [done| |by intros [= <-]]. unfold cyclic in Hids. rewrite seq_S, map_app in Hids.
      by apply app_inj_2 in Hids as [Hids _].
    + intros _ Hc. by apply running_valid in Hrun.
Qed.
End scheduler.
