(* ===== verification/LinPair.v ===== *)
(** * Two boards on a LIN bus

    What the samples with a commander and a responder share: the requests a
    commander's bus driver gets, how the bus carries them out, and what one
    slot of the schedule does, in terms of the callbacks in the two tables of
    [Lin].  The bus is a kernel object of another repository; a frame reaches
    the other board as it was sent. *)

From stdpp Require Import base gmap list numbers.
From Stdlib Require Import ZArith Lia.
From S2P Require Import Prelude.
From S2P Require Import Lin.

#[local] Open Scope Z_scope.

(** What a commander's bus driver was asked for: a header, for a frame of the
    responder of this length, or a header with a frame. *)
Inductive bus_request := RequestFrame (id len : Z) | SendFrame (f : lin_frame).

(** The bus: a request is taken off when it is done. *)
Class BusRequests (B : Type) `{!LinBus B} := {
  pending : B -> list bus_request;
  take_request : M B (option bus_request);
  receive_law : forall id t len b, exists b', lin_receive id t len b = Ret 0 b' /\ pending b' = pending b ++ [RequestFrame id len];
  lin_send_law : forall f b, exists b', lin_send f b = Ret 0 b' /\ pending b' = pending b ++ [SendFrame f];
  take_law : forall b, exists b', take_request b = Ret (head (pending b)) b' /\ pending b' = tail (pending b);
}.

(** The bus driver of a board with variables [V]. *)
Definition on_snd {V B A} (m : M B A) : M (V * B) A := zoom snd (fun b e => (fst e, b)) m.

#[export] Instance app_bus {V B} `{!LinBus B} : LinBus (V * B) := {|
  lin_set_mode m := on_snd (lin_set_mode m);
  lin_set_header_callback := on_snd lin_set_header_callback;
  lin_set_rx_callback := on_snd lin_set_rx_callback;
  lin_receive id t n := on_snd (lin_receive id t n);
  lin_send f := on_snd (lin_send f);
|}.

Lemma on_bus_run {E A} (m : M E A) t e a e' : m e = Ret a e' -> on_bus m (AlWorld t e) = Ret a (AlWorld t e').
Proof. intros H. unfold on_bus, zoom. cbn [al_ext]. by rewrite H. Qed.

Section pair.
Context {E1 E2 : Type} `{!LinBus E1} `{!LinCallbacks E1} `{!LinCallbacks E2}.
(** Taking a request off the commander's bus driver; the frame buffers of the
    responder's driver and of the commander's stack. *)
Context (take1 : M E1 (option bus_request)) (buffer stack : list Z).

Definition boards : Type := al_world E1 * al_world E2.
Definition on_commander {A} (m : M (al_world E1) A) : M boards A := zoom fst (fun w s => (w, snd s)) m.
Definition on_responder {A} (m : M (al_world E2) A) : M boards A := zoom snd (fun w s => (fst s, w)) m.

(** A header arrives at the responder. *)
Definition header (id : Z) : lin_frame := LinFrame id 0 LIN_CHECKSUM_AUTO buffer.

(** The bus carries out a request: the frame that one side sends reaches the
    other as it is. *)
Definition carry (r : bus_request) : M boards unit :=
  match r with
  | RequestFrame id len =>
      let* (action, frame) := on_responder (lin_header_callback (header id)) in
      match action with
      | LIN_ACTION_SEND => on_commander (lin_rx_callback 0 frame)
      | _ => ret tt
      end
  | SendFrame f =>
      let* (action, _) := on_responder (lin_header_callback (header (frame_id f))) in
      match action with
      | LIN_ACTION_RECEIVE => on_responder (lin_rx_callback 0 f)
      | _ => ret tt
      end
  end.

Definition bus_turn : M boards unit :=
  let* r := on_commander (on_bus take1) in
  match r with None => ret tt | Some r => carry r end.

Definition stack_frame : lin_frame := LinFrame 0 0 LIN_CHECKSUM_AUTO stack.

(** An identifier is scheduled and its frame carried over. *)
Definition slot (id : Z) : M boards unit := on_commander (al_schedule_now LIN_MODE_COMMANDER stack_frame id) ;; bus_turn.

(** ** Lemmas *)

Implicit Types (wc : al_world E1) (wr : al_world E2).

Lemma zoom_run {A T U} (g : T -> U) (p : U -> T -> T) (m : M U A) w a u : m (g w) = Ret a u -> zoom g p m w = Ret a (p u w).
Proof. intros H. unfold zoom. by rewrite H. Qed.

Lemma on_commander_run {A} (m : M (al_world E1) A) wc wr a wc' : m wc = Ret a wc' -> on_commander m (wc, wr) = Ret a (wc', wr).
Proof. apply (zoom_run fst (fun w s => (w, snd s)) m (wc, wr)). Qed.

Lemma on_responder_run {A} (m : M (al_world E2) A) wc wr a wr' : m wr = Ret a wr' -> on_responder m (wc, wr) = Ret a (wc, wr').
Proof. apply (zoom_run snd (fun w s => (fst s, w)) m (wc, wr)). Qed.

Context `{!LinCallbackLaws E1} `{!LinCallbackLaws E2} (max : Z) (Hmax : 0 <= max <= 255).

Lemma pair_turn_run wc wr r e : take1 (al_ext wc) = Ret (Some r) e -> bus_turn (wc, wr) = carry r (AlWorld (al_data wc) e, wr).
Proof. intros H. unfold bus_turn. by erewrite bind_step by (apply on_commander_run, zoom_run; exact H). Qed.

Lemma bus_idle wc wr e : take1 (al_ext wc) = Ret None e -> bus_turn (wc, wr) = Ret tt (AlWorld (al_data wc) e, wr).
Proof. intros H. unfold bus_turn. by erewrite bind_step by (apply on_commander_run, zoom_run; exact H). Qed.

Lemma schedule_as wc id : lin_wf max (al_data wc) -> id <= 0x3F ->
  al_schedule_now LIN_MODE_COMMANDER stack_frame id wc = transmission stack_frame id (handlers (al_data wc) !! id) wc.
Proof.
  intros Hwf Hid. unfold al_schedule_now. rewrite (proj2 (Z.ltb_ge 63 id)) by lia. rewrite decide_False by auto. by apply (schedule_run max Hmax).
Qed.

(** A slot of a frame the responder sends: it is requested, and the commander's
    callback gets it, or nothing comes. *)
Lemma slot_requested wc wr id n f u e1 e2 : lin_wf max (al_data wc) -> id <= 0x3F ->
  handlers (al_data wc) !! id = Some (CallbackEntry id n INCOMING (Some f) u) ->
  lin_receive id LIN_CHECKSUM_AUTO n (al_ext wc) = Ret 0 e1 -> take1 e1 = Ret (Some (RequestFrame id n)) e2 ->
  slot id (wc, wr) = carry (RequestFrame id n) (AlWorld (al_data wc) e2, wr).
Proof.
  intros Hwf Hid Hh Hrx Ht. unfold slot. erewrite bind_step.
  2: { apply on_commander_run. rewrite schedule_as, Hh by done. cbn [transmission]. apply zoom_run. exact Hrx. }
  by rewrite (pair_turn_run _ _ _ e2) by exact Ht.
Qed.

Lemma carry_answer wc wr id n f u fr wr' : lin_wf max (al_data wc) ->
  handlers (al_data wc) !! id = Some (CallbackEntry id n INCOMING (Some f) u) ->
  lin_header_callback (header id) wr = Ret (LIN_ACTION_SEND, fr) wr' -> frame_id fr = id -> frame_len fr = n ->
  carry (RequestFrame id n) (wc, wr) = on_commander (incoming_cb f fr u) (wc, wr').
Proof.
  intros Hwf Hh Ha Hid Hn. cbn [carry]. erewrite bind_step by (apply on_responder_run; exact Ha). cbn beta iota.
  unfold on_commander, zoom. cbn [fst snd]. rewrite (rx_run max Hmax) by done. rewrite Hid, Hh. cbn [reception]. by rewrite Hn, Z.eqb_refl.
Qed.

Lemma carry_silence s wr' id n fr : lin_header_callback (header id) s.2 = Ret (LIN_ACTION_NONE, fr) wr' ->
  carry (RequestFrame id n) s = Ret tt (s.1, wr').
Proof. destruct s as [wc wr]. intros Ha. cbn [carry]. by erewrite bind_step by (apply on_responder_run; exact Ha). Qed.

(** A slot of a frame the commander sends: the callback gives the frame, and the
    responder's callback gets it, or nothing is sent. *)
Lemma slot_sent wc wr id n f u fr wc1 e1 e2 g ug : lin_wf max (al_data wc) -> lin_wf max (al_data wr) -> id <= 0x3F ->
  handlers (al_data wc) !! id = Some (CallbackEntry id n OUTGOING (Some f) u) ->
  handlers (al_data wr) !! id = Some (CallbackEntry id n INCOMING (Some g) ug) ->
  outgoing_cb f (LinFrame id n LIN_CHECKSUM_AUTO stack) u wc = Ret (true, fr) wc1 ->
  let fr' := LinFrame id n (frame_type fr) (frame_data fr) in
  lin_send fr' (al_ext wc1) = Ret 0 e1 -> take1 e1 = Ret (Some (SendFrame fr')) e2 ->
  slot id (wc, wr) = on_responder (incoming_cb g fr' ug) (AlWorld (al_data wc) e2, wr).
Proof.
  intros Hwf Hwr Hid Hh Hg Hcb fr' Hs Ht. unfold slot. assert (al_data wc1 = al_data wc) as Hd by (by apply outgoing_table in Hcb).
  erewrite bind_step.
  2: { apply on_commander_run. rewrite schedule_as, Hh by done. cbn [transmission frame_data stack_frame].
       rewrite (bind_step _ _ _ _ _ Hcb). cbn beta iota. apply zoom_run. exact Hs. }
  rewrite (pair_turn_run _ _ _ e2) by exact Ht. cbn [al_data carry]. rewrite Hd.
  erewrite bind_step. 2: { apply on_responder_run. rewrite (header_run max Hmax) by done. change (frame_id (header (frame_id fr'))) with id. rewrite Hg. reflexivity. }
  cbn beta iota. unfold on_responder, zoom. cbn [fst snd]. rewrite (rx_run max Hmax) by done. change (frame_id fr') with id. rewrite Hg.
  cbn [reception]. change (frame_len fr') with n. by rewrite Z.eqb_refl.
Qed.

Lemma slot_unsent wc wr id n f u fr wc1 e : lin_wf max (al_data wc) -> id <= 0x3F ->
  handlers (al_data wc) !! id = Some (CallbackEntry id n OUTGOING (Some f) u) ->
  outgoing_cb f (LinFrame id n LIN_CHECKSUM_AUTO stack) u wc = Ret (false, fr) wc1 ->
  take1 (al_ext wc1) = Ret None e -> slot id (wc, wr) = Ret tt (AlWorld (al_data wc) e, wr).
Proof.
  intros Hwf Hid Hh Hcb Ht. unfold slot. assert (al_data wc1 = al_data wc) as Hd by (by apply outgoing_table in Hcb).
  erewrite bind_step.
  2: { apply on_commander_run. rewrite schedule_as, Hh by done. cbn [transmission frame_data stack_frame].
       rewrite (bind_step _ _ _ _ _ Hcb). reflexivity. }
  rewrite (bus_idle _ _ e) by exact Ht. by rewrite Hd.
Qed.

(** An identifier the commander has no callback for. *)
Lemma slot_unknown wc wr id e : lin_wf max (al_data wc) -> handlers (al_data wc) !! id = None ->
  take1 (al_ext wc) = Ret None e -> slot id (wc, wr) = Ret tt (AlWorld (al_data wc) e, wr).
Proof.
  intros Hwf Hh Ht. unfold slot.
  assert (al_schedule_now LIN_MODE_COMMANDER stack_frame id wc = Ret (- EINVAL) wc) as Hs.
  { destruct (Z.le_gt_cases id 0x3F) as [Hid|Hid]; [by rewrite schedule_as, Hh|]. unfold al_schedule_now. by rewrite (proj2 (Z.ltb_lt 63 id)) by lia. }
  rewrite (bind_step _ _ _ _ _ (on_commander_run _ _ _ _ _ Hs)). by apply bus_idle.
Qed.
End pair.
