(* ===== verification/LinSamples.v ===== *)
(** * The LIN samples ([samples/lin])

    A LED that one board controls over LIN: the commander sends commands and
    asks for the status, the responder switches the LED and answers.  Both are
    callbacks in the table of [Lin]; the second commander leaves the timing to
    the scheduler of [LinScheduler].  Here are the three programs and their
    set-up, on the two boards of [LinPair]; the theorem is that the boards refine the
    protocol, whatever is scheduled. *)

From stdpp Require Import base gmap list numbers strings.
From Stdlib Require Import ZArith Lia.
From S2P Require Import Prelude.
From S2P Require Import Lin.
From S2P Require Import LinPair.
From S2P Require LinScheduler.

#[local] Open Scope Z_scope.

(** ** The programs *)

(** The variables of a program, with what it logged, and the bus driver. *)
Record commander_vars := CommanderVars { remote_led_target : bool; remote_led_is : bool; commander_log : list string }.
Record responder_vars := ResponderVars { led : bool; responder_log : list string }.

Definition set_remote_led_target x v := CommanderVars x (remote_led_is v) (commander_log v).
Definition set_remote_led_is x v := CommanderVars (remote_led_target v) x (commander_log v).
Definition commander_logs s v := CommanderVars (remote_led_target v) (remote_led_is v) (commander_log v ++ [s]).
Definition set_led x v := ResponderVars x (responder_log v).
Definition responder_logs s v := ResponderVars (led v) (responder_log v ++ [s]).

Definition commander_init : commander_vars := CommanderVars false false [].
Definition responder_init : responder_vars := ResponderVars false [].

(** The identifiers of the frames. *)
Definition STATUS_ID : Z := 0x10.
Definition COMMAND_ID : Z := 0x11.

(** The callbacks by number. *)
Definition status_fn : nat := 0.
Definition command_fn : nat := 1.

Section programs.
Context {B : Type}.

(** A change of the variables. *)
Definition update {V} (f : V -> V) : M (al_world (V * B)) unit := modify (fun w => AlWorld (al_data w) (f (fst (al_ext w)), snd (al_ext w))).
Definition get_vars {V} : M (al_world (V * B)) V := gets (fun w => fst (al_ext w)).

(** [frame->data[0] = x] and [frame->data[0]] *)
Definition write_data0 {W} (x : Z) (f : lin_frame) : M W lin_frame :=
  match frame_data f with [] => fail OutOfBounds | _ :: l => ret (LinFrame (frame_id f) (frame_len f) (frame_type f) (x :: l)) end.
Definition read_data0 {W} (f : lin_frame) : M W Z := of_option OutOfBounds (head (frame_data f)).

(** *** commander *)

Definition command_callback (frame : lin_frame) : M (al_world (commander_vars * B)) (bool * lin_frame) :=
  let* v := get_vars in
  let* frame := write_data0 (Z.b2z (remote_led_target v)) frame in
  ret (true, frame).

Definition commander_status_callback (frame : lin_frame) : M (al_world (commander_vars * B)) unit :=
  let* x := read_data0 frame in
  if x =? 0 then (update (commander_logs "LED Status: off") ;; update (set_remote_led_is false))
  else if x =? 1 then (update (commander_logs "LED Status: on") ;; update (set_remote_led_is true))
  else update (commander_logs "Unknown status received. Ignoring").

(** *** commander_scheduler: the command is toggled when it is sent *)

(** The same code as the first commander's. *)
Definition scheduled_status_callback : lin_frame -> M (al_world (commander_vars * B)) unit := commander_status_callback.

Definition scheduled_command_callback (frame : lin_frame) : M (al_world (commander_vars * B)) (bool * lin_frame) :=
  let* v := get_vars in
  update (commander_logs (if remote_led_target v then "Sending command on" else "Sending command off")) ;;
  let* frame := write_data0 (Z.b2z (remote_led_target v)) frame in
  update (set_remote_led_target (negb (remote_led_target v))) ;;
  ret (true, frame).

(** *** responder *)

Definition responder_status_callback (frame : lin_frame) : M (al_world (responder_vars * B)) (bool * lin_frame) :=
  let* v := get_vars in
  let* frame := write_data0 (Z.b2z (led v)) frame in
  ret (true, frame).

Definition responder_command_callback (frame : lin_frame) : M (al_world (responder_vars * B)) unit :=
  let* x := read_data0 frame in
  if x =? 0 then (update (responder_logs "Turn on led") ;; update (set_led false))
  else if x =? 1 then (update (responder_logs "Turn off led") ;; update (set_led true))
  else update (responder_logs "Unknown command received. Ignoring").

(** The callbacks of a program; [scheduled] is the second commander. *)
Definition commander_callbacks (scheduled : bool) : LinCallbacks (commander_vars * B) := {|
  incoming_cb n frame _ :=
    if decide (n = status_fn) then (if scheduled then scheduled_status_callback frame else commander_status_callback frame) else fail BadArgument;
  outgoing_cb n frame _ :=
    if decide (n = command_fn) then (if scheduled then scheduled_command_callback frame else command_callback frame) else fail BadArgument;
|}.
Definition responder_callbacks : LinCallbacks (responder_vars * B) := {|
  incoming_cb n frame _ := if decide (n = command_fn) then responder_command_callback frame else fail BadArgument;
  outgoing_cb n frame _ := if decide (n = status_fn) then responder_status_callback frame else fail BadArgument;
|}.

(** The first part of [main] of all three: -1, or 0 when the callbacks are
    registered; a register call that fails is only logged. *)
Definition sample_main {V} (max : Z) (ready : bool) (register_status register_command : M (al_world (V * B)) Z) : M (al_world (V * B)) Z :=
  if negb ready then ret (-1)
  else
    let* (err, slots) := al_get_free_cb_slots max false in
    let free_slots := if err =? 0 then default 0 slots else 0 in
    if free_slots <? 2 then ret (-1)
    else (register_status ;; register_command ;; ret 0).

Definition commander_main (max : Z) (ready : bool) : M (al_world (commander_vars * B)) Z :=
  sample_main max ready (al_register_incoming_cb max (Some status_fn) STATUS_ID 1 0) (al_register_outgoing_cb max (Some command_fn) COMMAND_ID 1 0).
Definition responder_main (max : Z) (ready : bool) : M (al_world (responder_vars * B)) Z :=
  sample_main max ready (al_register_outgoing_cb max (Some status_fn) STATUS_ID 1 0) (al_register_incoming_cb max (Some command_fn) COMMAND_ID 1 0).
Definition scheduled_commander_main : Z -> bool -> M (al_world (commander_vars * B)) Z := commander_main.
End programs.

(** The schedule tables of the second commander. *)
Definition schedule_tables : list (list LinScheduler.abstract_lin_schedule_entry_t) :=
  [ [LinScheduler.ScheduleEntry STATUS_ID 500; LinScheduler.ScheduleEntry COMMAND_ID 500];
    [LinScheduler.ScheduleEntry STATUS_ID 125; LinScheduler.ScheduleEntry COMMAND_ID 125] ].

(** The calls of its main loop. *)
Inductive scheduler_call := SetActiveTable (table_index : Z) | Disable | Sleep (ms : Z).
Definition scheduled_commander_round : list scheduler_call :=
  [SetActiveTable 0; Sleep 5000; SetActiveTable 1; Sleep 5000; Disable; Sleep 5000].

(** ** Two boards on a bus *)

Section boards.
Context {B : Type} `{!LinBus B} `{!BusRequests B}.
(** Which commander; the frame buffers of the responder's driver and of
    the stack. *)
Context (scheduled : bool) (buffer stack : list Z).

#[local] Instance commander_cbs : LinCallbacks (commander_vars * B) := commander_callbacks scheduled.
#[local] Instance responder_cbs : LinCallbacks (responder_vars * B) := responder_callbacks.

#[local] Abbreviation boards := (boards (E1 := commander_vars * B) (E2 := responder_vars * B)).
#[local] Abbreviation led_slot := (slot (E2 := responder_vars * B) (on_snd (V := commander_vars) take_request) buffer stack).

(** What happens: an identifier is scheduled and its frame carried over, or
    the main loop of the first commander toggles the command. *)
Inductive led_event := Schedule (id : Z) | Toggle.

Definition led_run (ev : led_event) : M boards unit :=
  match ev with
  | Toggle => on_commander (update (fun v => set_remote_led_target (negb (remote_led_target v)) v))
  | Schedule id => led_slot id
  end.

Fixpoint led_run_all (evs : list led_event) : M boards unit :=
  match evs with [] => ret tt | ev :: evs => led_run ev ;; led_run_all evs end.

(** The loop of the first commander: one round. *)
Definition commander_round : list led_event := [Toggle; Schedule STATUS_ID; Schedule COMMAND_ID].

(** ** The protocol *)

(** The command, the LED, and what the commander knows of it. *)
Record led_protocol := LedProtocol { command : bool; lamp : bool; known : bool }.

Definition led_spec (ev : led_event) (s : led_protocol) : led_protocol :=
  match ev with
  | Toggle => LedProtocol (negb (command s)) (lamp s) (known s)
  | Schedule id =>
      if decide (id = STATUS_ID) then LedProtocol (command s) (lamp s) (lamp s)
      else if decide (id = COMMAND_ID) then LedProtocol (if scheduled then negb (command s) else command s) (command s) (known s)
      else s
  end.

Definition led_spec_all (evs : list led_event) (s : led_protocol) : led_protocol := fold_left (fun s ev => led_spec ev s) evs s.
(** ** Lemmas: the callbacks *)

Implicit Types (wc : al_world (commander_vars * B)) (wr : al_world (responder_vars * B)).

Lemma update_table {V} (f : V -> V) : frame al_data (update (B := B) f).
Proof. by intros w a w' [= <- <-]. Qed.

Lemma write_data0_table {V} x f : frame al_data (write_data0 (W := al_world (V * B)) x f).
Proof. intros w a w'. unfold write_data0. destruct (frame_data f); by intros [= <- <-]. Qed.

Lemma get_vars_table {V} : frame al_data (get_vars (B := B) (V := V)).
Proof. by intros w a w' [= <- <-]. Qed.

#[local] Hint Resolve update_table write_data0_table get_vars_table : ardep_frame.

#[local] Instance commander_callback_laws : LinCallbackLaws (commander_vars * B).
Proof.
  constructor; intros n f u; cbn; case_decide; [|auto with ardep_frame| |auto with ardep_frame].
  - apply frame_if; unfold scheduled_status_callback, commander_status_callback, read_data0;
      (apply frame_bind; [auto with ardep_frame|]; intros x; repeat apply frame_if; auto with ardep_frame).
  - destruct scheduled; unfold scheduled_command_callback, command_callback; auto 10 with ardep_frame.
Qed.

#[local] Instance responder_callback_laws : LinCallbackLaws (responder_vars * B).
Proof.
  constructor; intros n f u; cbn; case_decide; [|auto with ardep_frame| |auto with ardep_frame].
  - unfold responder_command_callback, read_data0. apply frame_bind; [auto with ardep_frame|]. intros x.
    repeat apply frame_if; auto with ardep_frame.
  - unfold responder_status_callback; auto 10 with ardep_frame.
Qed.
(** ** Lemmas: the boards *)

Context (max : Z) (Hmax : 0 <= max <= 255).

(** The tables after the set-up. *)
Definition entry (id : Z) (ty : cb_direction) (f : nat) : abstract_lin_callback_entry_t := CallbackEntry id 1 ty (Some f) 0.
Definition commander_table : gmap Z abstract_lin_callback_entry_t :=
  <[COMMAND_ID := entry COMMAND_ID OUTGOING command_fn]> (<[STATUS_ID := entry STATUS_ID INCOMING status_fn]> ∅).
Definition responder_table : gmap Z abstract_lin_callback_entry_t :=
  <[COMMAND_ID := entry COMMAND_ID INCOMING command_fn]> (<[STATUS_ID := entry STATUS_ID OUTGOING status_fn]> ∅).

Record commander_ok wc : Prop := CommanderOk {
  c_wf : lin_wf max (al_data wc);
  c_table : handlers (al_data wc) = commander_table;
}.
Record responder_ok wr : Prop := ResponderOk {
  r_wf : lin_wf max (al_data wr);
  r_table : handlers (al_data wr) = responder_table;
}.

(** The boards between two events, and what they are in the protocol. *)
Definition boards_ok (s : boards) : Prop := commander_ok s.1 /\ responder_ok s.2 /\ pending (snd (al_ext s.1)) = [].
Definition protocol_of (s : boards) : led_protocol :=
  LedProtocol (remote_led_target (fst (al_ext s.1))) (led (fst (al_ext s.2))) (remote_led_is (fst (al_ext s.1))).

Context (Hstack : stack <> []) (Hbuffer : buffer <> []).

(** The commander's variables after it sent a command. *)
Definition after_command (v : commander_vars) : commander_vars :=
  if scheduled then
    set_remote_led_target (negb (remote_led_target v))
      (commander_logs (if remote_led_target v then "Sending command on" else "Sending command off") v)
  else v.

(** What the callbacks do. *)
Lemma command_sent t v b x l :
  outgoing_cb command_fn (LinFrame COMMAND_ID 1 LIN_CHECKSUM_AUTO (x :: l)) 0 (AlWorld t (v, b)) =
  Ret (true, LinFrame COMMAND_ID 1 LIN_CHECKSUM_AUTO (Z.b2z (remote_led_target v) :: l)) (AlWorld t (after_command v, b)).
Proof. cbn. unfold after_command. by destruct scheduled. Qed.

Lemma status_answer wr v b : al_ext wr = (v, b) -> responder_ok wr ->
  exists l, lin_header_callback (header buffer STATUS_ID) wr =
    Ret (LIN_ACTION_SEND, LinFrame STATUS_ID 1 LIN_CHECKSUM_AUTO (Z.b2z (led v) :: l)) wr.
Proof.
  intros He [Hwf Ht]. rewrite (header_run max Hmax wr _ Hwf), Ht. cbn [frame_id header].
  change (responder_table !! STATUS_ID) with (Some (entry STATUS_ID OUTGOING status_fn)). unfold header.
  destruct buffer as [|x l]; [done|]. exists l. destruct wr as [d e]. cbn in He. by subst e.
Qed.

Lemma status_received t v b (x : bool) l :
  exists v', incoming_cb status_fn (LinFrame STATUS_ID 1 LIN_CHECKSUM_AUTO (Z.b2z x :: l)) 0 (AlWorld t (v, b)) = Ret tt (AlWorld t (v', b)) /\
    remote_led_is v' = x /\ remote_led_target v' = remote_led_target v.
Proof. cbn. destruct x, scheduled; (eexists; split; [reflexivity|done]). Qed.

Lemma command_received t v b (x : bool) l :
  exists v', incoming_cb command_fn (LinFrame COMMAND_ID 1 LIN_CHECKSUM_AUTO (Z.b2z x :: l)) 0 (AlWorld t (v, b)) = Ret tt (AlWorld t (v', b)) /\ led v' = x.
Proof. destruct x; (eexists; split; [reflexivity|done]). Qed.

(** ** The boards implement the protocol *)

Lemma status_event s : boards_ok s -> exists s', led_run (Schedule STATUS_ID) s = Ret tt s' /\ boards_ok s' /\
  protocol_of s' = led_spec (Schedule STATUS_ID) (protocol_of s).
Proof.
  destruct s as [ [tc [v b] ] [tr [v2 b2] ] ]. intros (Hc & Hr & Hp). cbn [fst snd al_ext] in *.
  destruct (receive_law STATUS_ID LIN_CHECKSUM_AUTO 1 b) as (b1 & H1 & Hp1), (take_law b1) as (b3 & H3 & Hp3). rewrite Hp in Hp1. rewrite Hp1 in H3, Hp3.
  unfold led_run. rewrite (slot_requested _ _ _ max Hmax _ _ STATUS_ID 1 status_fn 0 (v, b1) (v, b3));
    [|apply Hc|done|by rewrite (c_table _ Hc)|cbn; unfold on_snd, zoom; cbn; by rewrite H1|unfold on_snd, zoom; cbn; by rewrite H3].
  destruct (status_answer (AlWorld tr (v2, b2)) v2 b2 eq_refl Hr) as [l Ha].
  rewrite (carry_answer _ max Hmax _ _ STATUS_ID 1 status_fn 0 _ _) with (3 := Ha); [|apply Hc|cbn [al_data]; by rewrite (c_table _ Hc : handlers tc = _)|done|done].
  destruct (status_received tc v b3 (led v2) l) as (v' & Hrx & His & Htg). rewrite (on_commander_run _ _ _ _ _ Hrx).
  eexists. split; [reflexivity|]. split; [split; [by destruct Hc|by split]|].
  unfold protocol_of, led_spec. cbn [fst snd al_ext]. rewrite decide_True by done. cbn. by rewrite His, Htg.
Qed.

Lemma command_event s : boards_ok s -> exists s', led_run (Schedule COMMAND_ID) s = Ret tt s' /\ boards_ok s' /\
  protocol_of s' = led_spec (Schedule COMMAND_ID) (protocol_of s).
Proof.
  destruct s as [ [tc [v b] ] [tr [v2 b2] ] ]. intros (Hc & Hr & Hp). cbn [fst snd al_ext] in *.
  destruct stack as [|x l] eqn:Hs; [done|]. set (f := LinFrame COMMAND_ID 1 LIN_CHECKSUM_AUTO (Z.b2z (remote_led_target v) :: l)).
  destruct (lin_send_law f b) as (b1 & H1 & Hp1), (take_law b1) as (b3 & H3 & Hp3). rewrite Hp in Hp1. rewrite Hp1 in H3, Hp3.
  destruct (command_received tr v2 b2 (remote_led_target v) l) as (v' & Hrx & Hled).
  unfold led_run. rewrite Hs.
  rewrite (slot_sent _ _ _ max Hmax _ _ COMMAND_ID 1 command_fn 0 f (AlWorld tc (after_command v, b)) (after_command v, b1) (after_command v, b3) command_fn 0);
    [|apply Hc|apply Hr|done|by rewrite (c_table _ Hc)|by rewrite (r_table _ Hr)|apply command_sent|cbn; unfold on_snd, zoom; cbn; fold f; by rewrite H1|
     unfold on_snd, zoom; cbn; by rewrite H3].
  rewrite (on_responder_run _ _ _ _ _ Hrx).
  eexists. split; [reflexivity|]. split; [split; [by destruct Hc|split; [by destruct Hr|done] ]|].
  unfold protocol_of, led_spec. cbn [fst snd al_ext]. rewrite decide_False, decide_True by done. cbn [command lamp known fst].
  rewrite Hled. unfold after_command. by destruct scheduled.
Qed.

Lemma led_step ev s : boards_ok s -> exists s', led_run ev s = Ret tt s' /\ boards_ok s' /\ protocol_of s' = led_spec ev (protocol_of s).
Proof.
  intros Hok. destruct ev as [id|].
  - destruct (decide (id = STATUS_ID)) as [->|Hns]; [by apply status_event|].
    destruct (decide (id = COMMAND_ID)) as [->|Hnc]; [by apply command_event|].
    destruct s as [ [tc [v b] ] [tr [v2 b2] ] ]. destruct Hok as (Hc & Hr & Hp). cbn [fst snd al_ext] in *.
    destruct (take_law b) as (b' & Ht & Hp'). rewrite Hp in Ht, Hp'. unfold led_run.
    rewrite (slot_unknown _ _ _ max Hmax _ _ id (v, b')); [|apply Hc| |unfold on_snd, zoom; cbn; by rewrite Ht].
    2: { rewrite (c_table _ Hc). unfold commander_table. by rewrite !lookup_insert_ne by congruence. }
    eexists. split; [reflexivity|]. split; [split; [by destruct Hc|by split]|]. unfold protocol_of, led_spec. by rewrite !decide_False by done.
  - destruct s as [wc wr]. destruct Hok as (Hc & Hr & Hp). unfold led_run. erewrite on_commander_run by reflexivity.
    eexists. split; [reflexivity|]. split; [split; [by destruct Hc|by split]|done].
Qed.

Lemma led_steps evs : forall s, boards_ok s -> exists s', led_run_all evs s = Ret tt s' /\ boards_ok s' /\
  protocol_of s' = led_spec_all evs (protocol_of s).
Proof.
  induction evs as [|ev evs IH]; intros s Hok; [by exists s|]. destruct (led_step ev s Hok) as (s1 & H1 & Hok1 & Hp1).
  destruct (IH s1 Hok1) as (s2 & H2 & Hok2 & Hp2). exists s2. cbn [led_run_all]. rewrite (bind_step _ _ _ _ _ H1), Hp2, Hp1. done.
Qed.
End boards.

(** ** The set-up *)

Section setup.
Context {V B : Type} `{!LinBus B} `{!LinCallbacks (V * B)}.
Context (max : Z) (Hmax : 2 <= max <= 255).

(** Two registrations in an empty table. *)
Lemma sample_main_run ty1 ty2 f1 f2 (e : V * B) :
  exists d, sample_main max true (al_register_cb max ty1 (Some f1) STATUS_ID 1 0) (al_register_cb max ty2 (Some f2) COMMAND_ID 1 0)
      (AlWorld (abstract_lin_data_init max) e) = Ret 0 (AlWorld d e) /\
    lin_wf max d /\ handlers d = <[COMMAND_ID := entry COMMAND_ID ty2 f2]> (<[STATUS_ID := entry STATUS_ID ty1 f1]> ∅).
Proof.
  destruct (al_init_wf max ltac:(lia)) as [Hwf0 Hh0]. unfold sample_main. cbn [negb]. set (w0 := AlWorld _ e).
  assert (al_get_free_cb_slots max false w0 = Ret (0, Some max) w0) as Hfree.
  { unfold al_get_free_cb_slots, get_data. unfold bind, gets, ret. cbn. rewrite Z.sub_0_r, wrap_small by (unfold in_width; lia). done. }
  rewrite (bind_step _ _ _ _ _ Hfree). cbn [Z.eqb default from_option id]. rewrite (proj2 (Z.ltb_ge max 2)) by lia.
  destruct (register_simulation max ltac:(lia) ty1 (Some f1) STATUS_ID 1 0 w0 Hwf0) as (d1 & H1 & Hwf1 & Hh1). cbn [al_data w0] in H1, Hh1.
  rewrite Hh0 in H1, Hh1. unfold spec_register in H1, Hh1. cbn [cb_fn cb_frame_id cb_frame_size] in H1, Hh1.
  rewrite decide_False in H1, Hh1 by (unfold STATUS_ID; intros [?|[?|[?|?] ] ]; (congruence || lia)).
  rewrite decide_False in H1, Hh1 by (rewrite map_size_empty; lia).
  rewrite decide_False in H1, Hh1 by (rewrite lookup_empty; by intros [? ?]). cbn [fst snd] in H1, Hh1.
  rewrite (bind_step _ _ _ _ _ H1). cbn [al_ext w0].
  destruct (register_simulation max ltac:(lia) ty2 (Some f2) COMMAND_ID 1 0 (AlWorld d1 e) Hwf1) as (d2 & H2 & Hwf2 & Hh2). cbn [al_data] in H2, Hh2.
  rewrite Hh1 in H2, Hh2. unfold spec_register in H2, Hh2. cbn [cb_fn cb_frame_id cb_frame_size] in H2, Hh2.
  rewrite decide_False in H2, Hh2 by (unfold COMMAND_ID; intros [?|[?|[?|?] ] ]; (congruence || lia)).
  rewrite decide_False in H2, Hh2 by (rewrite map_size_insert_None, map_size_empty by done; lia).
  rewrite decide_False in H2, Hh2 by (rewrite lookup_insert_ne, lookup_empty by done; by intros [? ?]). cbn [fst snd] in H2, Hh2.
  rewrite (bind_step _ _ _ _ _ H2). exists d2. split; [reflexivity|]. by split.
Qed.
End setup.

(** C32. Both boards set up their callbacks, and from then on,
    whatever identifiers are scheduled and however often the command is
    toggled, the programs behave as the protocol: the LED is what the last
    command said, and what the commander knows is the LED at the time of the last
    status frame; none of the callbacks faults. *)
Theorem led_boards_refine {B} `{!LinBus B} `{!BusRequests B} scheduled buffer stack max (b1 b2 : B) :
  2 <= max <= 255 -> buffer <> [] -> stack <> [] -> pending b1 = [] ->
  exists wc wr,
    commander_main max true (AlWorld (abstract_lin_data_init max) (commander_init, b1)) = Ret 0 wc /\
    responder_main max true (AlWorld (abstract_lin_data_init max) (responder_init, b2)) = Ret 0 wr /\
    forall evs, exists s, led_run_all scheduled buffer stack evs (wc, wr) = Ret tt s /\
      protocol_of s = led_spec_all scheduled evs (LedProtocol false false false).
Proof.
  intros Hmax Hbuf Hst Hp.
  destruct (sample_main_run max Hmax INCOMING OUTGOING status_fn command_fn (commander_init, b1)) as (d1 & Hc & Hwf1 & Hh1).
  destruct (sample_main_run max Hmax OUTGOING INCOMING status_fn command_fn (responder_init, b2)) as (d2 & Hr & Hwf2 & Hh2).
  do 2 eexists. split; [exact Hc|]. split; [exact Hr|]. intros evs.
  destruct (led_steps scheduled buffer stack max ltac:(lia) Hst Hbuf evs (AlWorld d1 (commander_init, b1), AlWorld d2 (responder_init, b2)))
    as (s & Hrun & _ & Hs); [by split_and!|]. by exists s.
Qed.

(** [calls_accepted]: the tables the main loop asks for exist. *)
Theorem calls_accepted s i : LinScheduler.tables s = schedule_tables -> SetActiveTable i ∈ scheduled_commander_round ->
  (LinScheduler.abstract_lin_scheduler_set_active_table s i).1 = 0.
Proof.
  intros Ht Hi. assert (i = 0 \/ i = 1) as Hi'.
  { repeat (apply elem_of_cons in Hi as [Hi|Hi]; [first [discriminate Hi|injection Hi; auto] |]). by apply elem_of_nil in Hi. }
  unfold LinScheduler.abstract_lin_scheduler_set_active_table, LinScheduler.table_count. rewrite Ht.
  destruct Hi' as [-> | ->]; cbn; by destruct (negb _).
Qed.

(** [led_blinks]: what the protocol means for the commanders' loops.  After [k + 1]
    rounds of the first one the LED is on when [k] is even, and the commander
    knows its state before the last command; the frames in the order of the
    second one's tables, as often as they are repeated, make it blink as well. *)
Theorem led_blinks k :
  led_spec_all false (concat (replicate (S k) commander_round)) (LedProtocol false false false) =
    LedProtocol (Nat.even k) (Nat.even k) (negb (Nat.even k)) /\
  forall table, table ∈ schedule_tables ->
    led_spec_all true (Schedule <$> concat (replicate (S k) (LinScheduler.entry_frame_id <$> table))) (LedProtocol false false false) =
    LedProtocol (Nat.even k) (negb (Nat.even k)) (Nat.even k && negb (k =? 0)%nat).
Proof.
  assert (forall A n (l : list A), concat (replicate (S n) l) = concat (replicate n l) ++ l) as Hend.
  { intros A n l. rewrite replicate_S_end, concat_app. cbn. by rewrite app_nil_r. }
  split.
  - induction k as [|k IH]; [done|]. rewrite Hend. unfold led_spec_all in *. rewrite fold_left_app, IH, Nat.even_succ, <- Nat.negb_even.
    by destruct (Nat.even k).
  - intros table Htable. assert (LinScheduler.entry_frame_id <$> table = [STATUS_ID; COMMAND_ID]) as ->.
    { by repeat (apply elem_of_cons in Htable as [-> |Htable]; [done|]); apply elem_of_nil in Htable. }
    induction k as [|k IH]; [done|]. rewrite Hend, fmap_app. unfold led_spec_all in *. rewrite fold_left_app, IH, Nat.even_succ, <- Nat.negb_even.
    destruct (Nat.even k) eqn:Hk; cbn; [by destruct k|done].
Qed.

(** [led_log_inverted]: the responder's log says the opposite of what it does. *)
Theorem led_log_inverted {B} (x : bool) l (w : al_world (responder_vars * B)) :
  exists w', responder_command_callback (LinFrame COMMAND_ID 1 LIN_CHECKSUM_AUTO (Z.b2z x :: l)) w = Ret tt w' /\
    led (fst (al_ext w')) = x /\
    responder_log (fst (al_ext w')) = responder_log (fst (al_ext w)) ++ [(if x then "Turn off led" else "Turn on led")%string].
Proof. destruct x; (eexists; split; [reflexivity|done]). Qed.
