(* ===== verification/Can.v ===== *)
(** * Zephyr's CAN interface

    The types of drivers/can.h that the CAN drivers and libraries of the
    repository share. *)

From stdpp Require Import base list numbers relations.
From Stdlib Require Import ZArith Lia.
From S2P Require Import Prelude.

#[local] Open Scope Z_scope.

Definition CAN_STD_ID_MASK : Z := 0x7FF.
Definition CAN_EXT_ID_MASK : Z := 0x1FFFFFFF.
(** The length of [data] in [struct can_frame]. *)
Definition CAN_MAX_DLEN : Z := 8.
Definition K_NO_WAIT : Z := 0.

Record can_frame := CanFrame { can_id : Z; can_dlc : Z; can_flags : Z; can_data : list Z }.
Record can_filter := CanFilter { filter_id : Z; filter_mask : Z }.

Inductive can_state := CAN_STATE_STOPPED | CAN_STATE_BUS_OFF | CAN_STATE_other (n : Z).
