(* ===== verification/Lin2Can.v ===== *)
(** * CAN over LIN ([drivers/can/lin2can/lin2can.c])

    A CAN driver without a CAN controller: frames of four CAN identifiers
    travel in the frames of two LIN identifiers, one per direction, and the top
    two bits of the first data byte, which ISO-TP leaves unused, say which of
    the four it is.

    The driver is a client of the abstract LIN driver (file [Lin]): its two
    LIN callbacks are an instance of [LinCallbacks] over [l2c_world], and the
    theorems on the way of a frame go through [lin_header_callback] and
    [lin_rx_callback].  Zephyr's message queue is the interface [MsgQueue] with
    the laws of its documentation, the callbacks of the CAN user are
    [CanCallbacks]. *)

From stdpp Require Import base gmap list numbers relations.
From Stdlib Require Import ZArith Lia.
From S2P Require Import Prelude.
From S2P Require Import Can.
From S2P Require Import Lin.

#[local] Open Scope Z_scope.

(** ** Definitions *)

Definition TRANSLATABLE_ADDRESSES_LEN : Z := 4.
(** The data members of [struct can_frame] and [struct lin_frame] have eight bytes. *)
Definition DATA_LEN : Z := 8.

(** One of [incoming_callbacks]; [None] is the pointer 0 of an unused slot. *)
Record rx_slot := RxSlot { rx_callback : option nat; rx_user_data : Z }.

Record lin2can_outgoing_frame_t := OutgoingFrame {
  out_frame : lin_frame;
  out_callback : option nat;
  out_user_data : Z;
}.

(** The queue the third member points to is a kernel object, see [MsgQueue]. *)
Record lin2can_data := Lin2CanData {
  incoming_callbacks : list rx_slot;
  outgoing_id : Z;
  incoming_id : Z;
}.

(** [LIN2CAN_INIT]: zeroed memory. *)
Definition lin2can_data_init : lin2can_data := Lin2CanData (replicate 4 (RxSlot None 0)) 0 0.

Record lin2can_kconfig := Lin2CanKconfig {
  CONFIG_LIN2CAN_CAN_ID0 : Z;
  CONFIG_LIN2CAN_CAN_ID1 : Z;
  CONFIG_LIN2CAN_CAN_ID2 : Z;
  CONFIG_LIN2CAN_CAN_ID3 : Z;
  CONFIG_LIN2CAN_MASTER_REQUEST_ID : Z;
  CONFIG_LIN2CAN_SLAVE_RESPONSE_ID : Z;
}.

Record l2c_world (E : Type) := L2cWorld { l2c_data : lin2can_data; l2c_ext : E }.
Arguments L2cWorld {E}.
Arguments l2c_data {E}.
Arguments l2c_ext {E}.

Class MsgQueue (E : Type) := {
  k_msgq_put : lin2can_outgoing_frame_t -> Z -> M E Z;
  (** with K_NO_WAIT; [None] is a return value other than 0 *)
  k_msgq_get : M E (option lin2can_outgoing_frame_t);
}.

Class CanCallbacks (E : Type) := {
  can_rx_callback : nat -> can_frame -> Z -> M (l2c_world E) unit;
  can_tx_callback : nat -> Z -> Z -> M (l2c_world E) unit;
}.

(** The callbacks other users of the same LIN bus registered. *)
Class LinUsers (E : Type) := {
  user_incoming_cb : nat -> lin_frame -> Z -> M (al_world (l2c_world E)) unit;
  user_outgoing_cb : nat -> lin_frame -> Z -> M (al_world (l2c_world E)) (bool * lin_frame);
}.

Section lin2can.
Context {E : Type} `{!MsgQueue E} `{!CanCallbacks E} `{!LinUsers E}.
(** The configuration, the limit of the LIN driver's table, the mode of the
    LIN bus, and the device pointer handed to the LIN driver. *)
Context (cfg : lin2can_kconfig) (max : Z) (mode : lin_mode) (dev : Z).

Definition id_mapping : list Z :=
  [CONFIG_LIN2CAN_CAN_ID0 cfg; CONFIG_LIN2CAN_CAN_ID1 cfg; CONFIG_LIN2CAN_CAN_ID2 cfg; CONFIG_LIN2CAN_CAN_ID3 cfg].

(** The loop over the rest [l] of the mapping, from index [i] on. *)
Fixpoint map_loop (l : list Z) (i : Z) (id : Z) : Z :=
  match l with
  | [] => 0xff
  | x :: l => if x =? id then i else map_loop l (i + 1) id
  end.

Definition map_from_can_id (id : Z) : Z := map_loop id_mapping 0 id.

Definition on_queue {A} (m : M E A) : M (l2c_world E) A :=
  zoom l2c_ext (fun e w => L2cWorld (l2c_data w) e) m.
Definition get_l2c : M (l2c_world E) lin2can_data := gets l2c_data.
Definition put_l2c (d : lin2can_data) : M (l2c_world E) unit := modify (fun w => L2cWorld d (l2c_ext w)).

(** [data->incoming_callbacks[i]], read and written; an index outside the
    array, a negative one included, is a fault. *)
Definition slot_at (i : Z) : M (l2c_world E) rx_slot :=
  let* d := get_l2c in
  if i <? 0 then fail OutOfBounds else of_option OutOfBounds (incoming_callbacks d !! Z.to_nat i).

Definition write_slot (i : Z) (s : rx_slot) : M (l2c_world E) unit :=
  let* d := get_l2c in
  if (i <? 0) || (Z.of_nat (length (incoming_callbacks d)) <=? i) then fail OutOfBounds
  else put_l2c (Lin2CanData (<[Z.to_nat i := s]> (incoming_callbacks d)) (outgoing_id d) (incoming_id d)).

Definition lin_outgoing_cb (frame : lin_frame) : M (l2c_world E) (bool * lin_frame) :=
  let* outgoing := on_queue k_msgq_get in
  match outgoing with
  | None => ret (false, frame)
  | Some outgoing =>
      let* callback := of_option NullPointer (out_callback outgoing) in
      can_tx_callback callback 0 (out_user_data outgoing) ;;
      ret (true, out_frame outgoing)
  end.

Definition lin_incoming_cb (frame : lin_frame) : M (l2c_world E) unit :=
  let* data0 := of_option OutOfBounds (frame_data frame !! 0%nat) in
  let mapped_id := u8 (Z.shiftr data0 6) in
  if TRANSLATABLE_ADDRESSES_LEN <=? mapped_id then fail AssertFailed
  else
    let* slot := slot_at mapped_id in
    match rx_callback slot with
    | None => ret tt
    | Some callback =>
        let* id := of_option OutOfBounds (id_mapping !! Z.to_nat mapped_id) in
        if (DATA_LEN <? frame_len frame) || (Z.of_nat (length (frame_data frame)) <? frame_len frame)
        then fail OutOfBounds
        else
          let data := take (Z.to_nat (frame_len frame)) (frame_data frame)
                        ++ replicate (Z.to_nat (DATA_LEN - frame_len frame)) 0 in
          let translated := CanFrame id 8 0 (<[0%nat := Z.land data0 0x3f]> data) in
          can_rx_callback callback translated (rx_user_data slot)
    end.

(** Whether all of the [n] slots from [i] on are unused. *)
Fixpoint all_unused (n : nat) (i : Z) : M (l2c_world E) bool :=
  match n with
  | O => ret true
  | S n =>
      let* slot := slot_at i in
      if decide (rx_callback slot <> None) then ret false else all_unused n (i + 1)
  end.

(** The [n] slots from [i] on get [f] of what they hold. *)
Fixpoint update_slots (f : rx_slot -> rx_slot) (n : nat) (i : Z) : M (l2c_world E) unit :=
  match n with
  | O => ret tt
  | S n => let* slot := slot_at i in write_slot i (f slot) ;; update_slots f n (i + 1)
  end.

(** [.callback = 0], the user data stays. *)
Definition clear_slot (s : rx_slot) : rx_slot := RxSlot None (rx_user_data s).

Definition lin2can_add_rx_filter (callback : option nat) (user_data : Z) (filter : can_filter) :
    M (l2c_world E) Z :=
  if Z.land (filter_mask filter) 0x7FF =? 0 then
    let* unused := all_unused 4 0 in
    if negb unused then ret (- ENOSPC)
    else
      update_slots (fun _ => RxSlot callback user_data) 4 0 ;;
      ret TRANSLATABLE_ADDRESSES_LEN
  else if negb (filter_mask filter =? CAN_STD_ID_MASK) && negb (filter_mask filter =? CAN_EXT_ID_MASK)
  then ret (- ENOTSUP)
  else
    let mapped_id := map_from_can_id (filter_id filter) in
    if mapped_id =? 0xff then ret (- ENOTSUP)
    else
      let* slot := slot_at mapped_id in
      if decide (rx_callback slot <> None) then ret (- ENOSPC)
      else
        write_slot mapped_id (RxSlot callback user_data) ;;
        ret mapped_id.

Definition lin2can_remove_rx_filter (filter_id : Z) : M (l2c_world E) unit :=
  if filter_id =? TRANSLATABLE_ADDRESSES_LEN then update_slots clear_slot 4 0
  else if TRANSLATABLE_ADDRESSES_LEN <=? filter_id then ret tt
  else let* slot := slot_at filter_id in write_slot filter_id (clear_slot slot).

Definition lin2can_send (frame : can_frame) (timeout : Z) (callback : option nat) (user_data : Z) :
    M (l2c_world E) Z :=
  let mapped_id := map_from_can_id (can_id frame) in
  if mapped_id =? 0xff then ret (- EINVAL)
  else
    let* d := get_l2c in
    if (DATA_LEN <? can_dlc frame) || (Z.of_nat (length (can_data frame)) <? can_dlc frame)
    then fail OutOfBounds
    else
      let data := take (Z.to_nat (can_dlc frame)) (can_data frame)
                    ++ replicate (Z.to_nat (DATA_LEN - can_dlc frame)) 0xFF in
      let* data0 := of_option OutOfBounds (data !! 0%nat) in
      let data := <[0%nat := u8 (Z.lor data0 (Z.shiftl mapped_id 6))]> data in
      let outgoing := OutgoingFrame (LinFrame (outgoing_id d) 8 LIN_CHECKSUM_AUTO data) callback user_data in
      let* err := on_queue (k_msgq_put outgoing timeout) in
      if negb (err =? 0) then ret err else ret 0.

(** The rest of the API answers with constants: there is no controller. *)
Definition CAN_MODE_ONE_SHOT : Z := 8.
Definition CAN_STATE_ERROR_ACTIVE : can_state := CAN_STATE_other 0.

Definition lin2can_get_caps : M (l2c_world E) (Z * Z) := ret (0, CAN_MODE_ONE_SHOT).
Definition lin2can_start : M (l2c_world E) Z := ret 0.
Definition lin2can_setmode (can_mode : Z) : M (l2c_world E) Z := ret 0.
(** What is stored through [state], [None] for a NULL pointer. *)
Definition lin2can_get_state (state : option can_state) : M (l2c_world E) (Z * option can_state) :=
  ret (0, (fun _ => CAN_STATE_ERROR_ACTIVE) <$> state).

(** The names of the two LIN callbacks in the LIN driver's table. *)
Definition LIN_INCOMING_CB : nat := 0.
Definition LIN_OUTGOING_CB : nat := 1.

#[export] Instance l2c_lin_callbacks : LinCallbacks (l2c_world E) := {|
  incoming_cb f frame user_data :=
    if decide (f = LIN_INCOMING_CB) then on_bus (lin_incoming_cb frame) else user_incoming_cb f frame user_data;
  outgoing_cb f frame user_data :=
    if decide (f = LIN_OUTGOING_CB) then on_bus (lin_outgoing_cb frame) else user_outgoing_cb f frame user_data;
|}.

(** The identifiers a node receives and sends on. *)
Definition node_incoming_id (m : lin_mode) : Z :=
  match m with LIN_MODE_COMMANDER => CONFIG_LIN2CAN_SLAVE_RESPONSE_ID cfg | LIN_MODE_RESPONDER => CONFIG_LIN2CAN_MASTER_REQUEST_ID cfg end.
Definition node_outgoing_id (m : lin_mode) : Z :=
  match m with LIN_MODE_COMMANDER => CONFIG_LIN2CAN_MASTER_REQUEST_ID cfg | LIN_MODE_RESPONDER => CONFIG_LIN2CAN_SLAVE_RESPONSE_ID cfg end.

Definition lin2can_init : M (al_world (l2c_world E)) Z :=
  on_bus (update_slots clear_slot 4 0) ;;
  on_bus (let* d := get_l2c in
          put_l2c (Lin2CanData (incoming_callbacks d) (node_outgoing_id mode) (node_incoming_id mode))) ;;
  let* d := on_bus get_l2c in
  let* err := al_register_incoming_cb max (Some LIN_INCOMING_CB) (incoming_id d) 8 dev in
  if negb (err =? 0) then ret err
  else
    let* d := on_bus get_l2c in
    let* err := al_register_outgoing_cb max (Some LIN_OUTGOING_CB) (outgoing_id d) 8 dev in
    if negb (err =? 0) then ret err else ret 0.
End lin2can.

(** ** Contracts *)

(** [K_MSGQ_DEFINE]: a bounded queue, first in first out. *)
Class MsgQueueLaws (E : Type) `{!MsgQueue E} := {
  queue : E -> list lin2can_outgoing_frame_t;
  capacity : nat;
  put_room : forall x t e, (length (queue e) < capacity)%nat ->
    exists e', k_msgq_put x t e = Ret 0 e' /\ queue e' = queue e ++ [x];
  put_full : forall x e, (capacity <= length (queue e))%nat ->
    exists rc, k_msgq_put x K_NO_WAIT e = Ret rc e /\ rc < 0;
  get_empty : forall e, queue e = [] -> k_msgq_get e = Ret None e;
  get_head : forall e x l, queue e = x :: l ->
    exists e', k_msgq_get e = Ret (Some x) e' /\ queue e' = l;
}.

(** The CAN user: told of a transmission it returns and sends nothing at once;
    a reception may do anything but resize the driver's array. *)
Class CanCallbackLaws (E : Type) `{!MsgQueue E} `{!MsgQueueLaws E} `{!CanCallbacks E} : Prop := {
  tx_returns : forall f err u (w : l2c_world E), exists w',
    can_tx_callback f err u w = Ret tt w' /\ l2c_data w' = l2c_data w /\ queue (l2c_ext w') = queue (l2c_ext w);
  rx_slots : forall f fr u,
    frame (fun w : l2c_world E => length (incoming_callbacks (l2c_data w))) (can_rx_callback f fr u);
}.

Class LinUsersLaws (E : Type) `{!LinUsers E} : Prop := {
  user_incoming_table : forall f fr u, frame al_data (user_incoming_cb (E := E) f fr u);
  user_outgoing_table : forall f fr u, frame al_data (user_outgoing_cb (E := E) f fr u);
}.

(** The four identifiers are different standard identifiers. *)
Definition mapping_ok (cfg : lin2can_kconfig) : Prop :=
  NoDup (id_mapping cfg) /\ Forall (fun id => 0 <= id <= CAN_STD_ID_MASK) (id_mapping cfg).

(** The callback that a frame with a CAN identifier reaches. *)
Definition receiver (cfg : lin2can_kconfig) (d : lin2can_data) (id : Z) : option (nat * Z) :=
  s ← incoming_callbacks d !! Z.to_nat (map_from_can_id cfg id);
  f ← rx_callback s;
  Some (f, rx_user_data s).

(** The meaning of a filter in Zephyr's CAN interface, for identifiers of one
    kind, and the filters this driver takes. *)
Definition filter_matches (flt : can_filter) (id : Z) : Prop :=
  Z.land (Z.lxor id (filter_id flt)) (filter_mask flt) = 0.
Definition filter_supported (flt : can_filter) : Prop :=
  Z.land (filter_mask flt) 0x7FF = 0 \/ filter_mask flt = CAN_STD_ID_MASK \/ filter_mask flt = CAN_EXT_ID_MASK.
#[export] Instance filter_matches_dec flt id : Decision (filter_matches flt id).
Proof. unfold filter_matches. apply _. Defined.

(** ** Lemmas: identifiers and filters *)

Lemma map_loop_found id : forall l i k, NoDup l -> l !! k = Some id -> map_loop l i id = i + Z.of_nat k.
Proof.
  induction l as [|x l IH]; intros i k Hn Hk; [done|]. apply NoDup_cons in Hn as [Hx Hn]. cbn.
  destruct k as [|k]; cbn in Hk.
  - injection Hk as ->. rewrite Z.eqb_refl. lia.
  - destruct (Z.eqb_spec x id) as [->|_]; [by apply list_elem_of_lookup_2 in Hk|]. rewrite (IH _ k) by done. lia.
Qed.

Lemma map_loop_missing id : forall l i, (id ∉ l) -> map_loop l i id = 0xff.
Proof.
  induction l as [|x l IH]; intros i Hn; [done|]. apply not_elem_of_cons in Hn as [Hx Hn]. cbn.
  by rewrite (proj2 (Z.eqb_neq _ _)), IH.
Qed.

(** A number below [2 ^ 11] has no bits above the standard identifier. *)
Lemma land_std x m : 0 <= x <= CAN_STD_ID_MASK -> Z.land x m = Z.land x (Z.land m 0x7FF).
Proof.
  intros Hx. rewrite (Z.land_comm m), Z.land_assoc. f_equal. change 0x7FF with (Z.ones 11).
  rewrite Z.land_ones by lia. symmetry. apply Z.mod_small. unfold CAN_STD_ID_MASK in Hx. lia.
Qed.

Lemma lxor_std x y : 0 <= x <= CAN_STD_ID_MASK -> 0 <= y <= CAN_STD_ID_MASK -> 0 <= Z.lxor x y <= CAN_STD_ID_MASK.
Proof.
  unfold CAN_STD_ID_MASK. intros Hx Hy. split; [apply Z.lxor_nonneg; lia|].
  apply Z.lt_succ_r. change (Z.succ 0x7FF) with (2 ^ 11).
  destruct (Z.eq_dec (Z.lxor x y) 0) as [->|Hne]; [done|].
  pose proof (proj2 (Z.lxor_nonneg x y) ltac:(lia)).
  apply Z.log2_lt_pow2; [lia|]. apply (Z.le_lt_trans _ _ _ (Z.log2_lxor x y ltac:(lia) ltac:(lia))).
  apply Z.max_lub_lt; [destruct (Z.eq_dec x 0) as [->|]|destruct (Z.eq_dec y 0) as [->|]]; try done;
    apply Z.log2_lt_pow2; lia.
Qed.

Section filters.
Context (cfg : lin2can_kconfig) (Hcfg : mapping_ok cfg).

Lemma map_from_can_id_found k id : id_mapping cfg !! k = Some id -> map_from_can_id cfg id = Z.of_nat k.
Proof. intros Hk. unfold map_from_can_id. by rewrite (map_loop_found id _ 0 k) by (done || apply Hcfg). Qed.

Lemma receiver_at d k id : id_mapping cfg !! k = Some id ->
  receiver cfg d id = (s ← incoming_callbacks d !! k; f ← rx_callback s; Some (f, rx_user_data s)).
Proof. intros Hk. unfold receiver. by rewrite (map_from_can_id_found k id Hk), Nat2Z.id. Qed.

Lemma mapped_std k id : id_mapping cfg !! k = Some id -> 0 <= id <= CAN_STD_ID_MASK.
Proof. intros Hk. destruct Hcfg as [_ Hf]. by apply (Forall_lookup_1 _ _ _ _ Hf Hk). Qed.

Lemma wildcard_matches flt k id : Z.land (filter_mask flt) 0x7FF = 0 -> 0 <= filter_id flt <= CAN_STD_ID_MASK ->
  id_mapping cfg !! k = Some id -> filter_matches flt id.
Proof.
  intros Hm Hf Hk. unfold filter_matches. rewrite land_std by (apply lxor_std; [by eapply mapped_std|done]).
  by rewrite Hm, Z.land_0_r.
Qed.

Lemma single_matches flt k id : filter_mask flt = CAN_STD_ID_MASK \/ filter_mask flt = CAN_EXT_ID_MASK ->
  0 <= filter_id flt <= CAN_STD_ID_MASK -> id_mapping cfg !! k = Some id ->
  filter_matches flt id <-> id = filter_id flt.
Proof.
  intros Hm Hf Hk. pose proof (lxor_std id (filter_id flt) ltac:(by eapply mapped_std) Hf) as Hx.
  unfold filter_matches. rewrite land_std by done.
  assert (Z.land (filter_mask flt) 0x7FF = 0x7FF) as -> by (by destruct Hm as [-> | ->]).
  rewrite <- (Z.lxor_eq_0_iff id (filter_id flt)). change 0x7FF with (Z.ones 11). rewrite Z.land_ones by lia.
  rewrite Z.mod_small by (unfold CAN_STD_ID_MASK in Hx; lia). done.
Qed.

Lemma mapping_lookup k id : id_mapping cfg !! k = Some id -> (k < 4)%nat.
Proof. intros Hk. by apply lookup_lt_Some in Hk. Qed.
End filters.

Section rx_filter.
Context {E : Type} (cfg : lin2can_kconfig).
Implicit Types (w : l2c_world E).

(** [add_ok w w' f u flt r]: a filter was added under the handle [r]. *)
Definition filter_added w w' (f : nat) (u : Z) (flt : can_filter) (r : Z) : Prop :=
  0 <= r /\ l2c_ext w' = l2c_ext w /\
  (exists k id, id_mapping cfg !! k = Some id /\ filter_matches flt id) /\
  (forall k id, id_mapping cfg !! k = Some id ->
     (filter_matches flt id -> receiver cfg (l2c_data w) id = None) /\
     receiver cfg (l2c_data w') id =
       if decide (filter_matches flt id) then Some (f, u) else receiver cfg (l2c_data w) id) /\
  exists w2, lin2can_remove_rx_filter r w' = Ret tt w2 /\ l2c_ext w2 = l2c_ext w /\
    (forall k id, id_mapping cfg !! k = Some id -> receiver cfg (l2c_data w2) id = receiver cfg (l2c_data w) id).

(** Why a filter is refused. *)
Definition filter_refused w (flt : can_filter) : Prop :=
  (~ filter_supported flt) \/
  (forall k id, id_mapping cfg !! k = Some id -> ~ filter_matches flt id) \/
  exists k id, id_mapping cfg !! k = Some id /\ filter_matches flt id /\ is_Some (receiver cfg (l2c_data w) id).
End rx_filter.

Section rx_filter_lemmas.
Context {E : Type} (cfg : lin2can_kconfig) (Hcfg : mapping_ok cfg).
Implicit Types (w : l2c_world E).

(** A run over the four slots, which are all there is. *)
Lemma all_unused_run s0 s1 s2 s3 o i (e : E) :
  all_unused 4 0 (L2cWorld (Lin2CanData [s0; s1; s2; s3] o i) e) =
  Ret (bool_decide (Forall (fun s => rx_callback s = None) [s0; s1; s2; s3])) (L2cWorld (Lin2CanData [s0; s1; s2; s3] o i) e).
Proof.
  destruct s0 as [[] ?], s1 as [[] ?], s2 as [[] ?], s3 as [[] ?]; reflexivity.
Qed.

Lemma update_slots_run f s0 s1 s2 s3 o i (e : E) :
  update_slots f 4 0 (L2cWorld (Lin2CanData [s0; s1; s2; s3] o i) e) =
  Ret tt (L2cWorld (Lin2CanData [f s0; f s1; f s2; f s3] o i) e).
Proof. reflexivity. Qed.

Lemma slots_four (d : lin2can_data) : length (incoming_callbacks d) = 4%nat ->
  exists s0 s1 s2 s3, d = Lin2CanData [s0; s1; s2; s3] (outgoing_id d) (incoming_id d).
Proof.
  destruct d as [[|s0 [|s1 [|s2 [|s3 [|]]]]] o i]; cbn; try discriminate. intros _. by exists s0, s1, s2, s3.
Qed.

Lemma write_slot_run k s w : (k < length (incoming_callbacks (l2c_data w)))%nat ->
  write_slot (Z.of_nat k) s w =
  Ret tt (L2cWorld (Lin2CanData (<[k := s]> (incoming_callbacks (l2c_data w)))
                      (outgoing_id (l2c_data w)) (incoming_id (l2c_data w))) (l2c_ext w)).
Proof.
  intros Hk. unfold write_slot, get_l2c, bind, gets.
  rewrite (proj2 (Z.ltb_ge _ _)), (proj2 (Z.leb_gt _ _)) by lia. cbn. by rewrite Nat2Z.id.
Qed.

Lemma slot_at_run k s w : incoming_callbacks (l2c_data w) !! k = Some s -> slot_at (Z.of_nat k) w = Ret s w.
Proof.
  intros Hk. unfold slot_at, get_l2c, bind, gets. rewrite (proj2 (Z.ltb_ge _ _)) by lia. by rewrite Nat2Z.id, Hk.
Qed.

Lemma remove_single_run k s w : (k < 4)%nat -> incoming_callbacks (l2c_data w) !! k = Some s ->
  lin2can_remove_rx_filter (Z.of_nat k) w =
  Ret tt (L2cWorld (Lin2CanData (<[k := clear_slot s]> (incoming_callbacks (l2c_data w)))
                      (outgoing_id (l2c_data w)) (incoming_id (l2c_data w))) (l2c_ext w)).
Proof.
  intros Hk Hs. unfold lin2can_remove_rx_filter, TRANSLATABLE_ADDRESSES_LEN.
  rewrite (proj2 (Z.eqb_neq _ _)), (proj2 (Z.leb_gt _ _)) by lia.
  rewrite (bind_step _ _ _ _ _ (slot_at_run _ _ _ Hs)). apply write_slot_run. by apply lookup_lt_Some in Hs.
Qed.

(** A wildcard takes all four identifiers or none. *)
Lemma add_wildcard f u flt w :
  length (incoming_callbacks (l2c_data w)) = 4%nat -> 0 <= filter_id flt <= CAN_STD_ID_MASK ->
  Z.land (filter_mask flt) 0x7FF = 0 ->
  exists r w', lin2can_add_rx_filter cfg (Some f) u flt w = Ret r w' /\
    (filter_added cfg w w' f u flt r \/ (r < 0 /\ w' = w /\ filter_refused cfg w flt)).
Proof.
  intros Hlen Hid Hm. pose proof (fun k id => wildcard_matches cfg Hcfg flt k id Hm Hid) as Hall.
  destruct w as [d e]. cbn in Hlen. destruct (slots_four d Hlen) as (s0 & s1 & s2 & s3 & ->).
  unfold lin2can_add_rx_filter. rewrite Hm. cbn [Z.eqb].
  rewrite (bind_step _ _ _ _ _ (all_unused_run s0 s1 s2 s3 _ _ e)).
  case_bool_decide as Hfree; cbn [negb].
  - rewrite (bind_step _ _ _ _ _ (update_slots_run _ s0 s1 s2 s3 _ _ e)). eexists _, _. split; [done|]. left.
    split_and!; [done|done|exists 0%nat; eexists; split; [done|by eapply (Hall 0%nat)]|..].
    + intros k id Hk. rewrite decide_True by eauto. rewrite !(receiver_at cfg Hcfg _ k id Hk). cbn.
      repeat apply Forall_cons in Hfree as [?Hf Hfree]. pose proof (mapping_lookup _ _ _ Hk).
      split; [intros _|]; destruct k as [|[|[|[|]]]]; cbn; try lia; try done; by rewrite ?Hf, ?Hf0, ?Hf1, ?Hf2.
    + eexists. split; [by unfold lin2can_remove_rx_filter; cbn [Z.eqb]; apply update_slots_run|]. split; [done|].
      intros k id Hk. rewrite !(receiver_at cfg Hcfg _ k id Hk).
      repeat apply Forall_cons in Hfree as [?Hf Hfree]. pose proof (mapping_lookup _ _ _ Hk).
      destruct k as [|[|[|[|]]]]; cbn; try lia; by rewrite ?Hf, ?Hf0, ?Hf1, ?Hf2.
  - eexists _, _. split; [done|]. right. split_and!; [done|done|]. right; right.
    apply not_Forall_Exists in Hfree; [|solve_decision]. apply Exists_exists in Hfree as (s & Hs & Hne).
    apply list_elem_of_lookup in Hs as [k Hk].
    assert (exists id, id_mapping cfg !! k = Some id) as [id Hid'].
    { apply lookup_lt_is_Some. apply lookup_lt_Some in Hk. done. }
    exists k, id. split_and!; [done|eauto|]. rewrite (receiver_at cfg Hcfg _ k id Hid'). cbn [incoming_callbacks l2c_data].
    rewrite Hk. cbn. destruct (rx_callback s) eqn:Hs; [by eexists|]. exfalso. by apply Hne.
Qed.

(** A filter for one identifier. *)
Lemma add_single f u flt w :
  length (incoming_callbacks (l2c_data w)) = 4%nat -> 0 <= filter_id flt <= CAN_STD_ID_MASK ->
  Z.land (filter_mask flt) 0x7FF <> 0 -> filter_mask flt = CAN_STD_ID_MASK \/ filter_mask flt = CAN_EXT_ID_MASK ->
  exists r w', lin2can_add_rx_filter cfg (Some f) u flt w = Ret r w' /\
    (filter_added cfg w w' f u flt r \/ (r < 0 /\ w' = w /\ filter_refused cfg w flt)).
Proof.
  intros Hlen Hid Hne Hm. pose proof (fun k id => single_matches cfg Hcfg flt k id Hm Hid) as Hone.
  unfold lin2can_add_rx_filter. rewrite (proj2 (Z.eqb_neq _ _) Hne).
  replace (negb _ && negb _) with false by (destruct Hm as [-> | ->]; done).
  destruct (decide (filter_id flt ∈ id_mapping cfg)) as [[k Hk]%list_elem_of_lookup|Hmiss].
  - rewrite (map_from_can_id_found cfg Hcfg k _ Hk). pose proof (mapping_lookup _ _ _ Hk).
    rewrite (proj2 (Z.eqb_neq _ _)) by lia.
    destruct (lookup_lt_is_Some_2 (incoming_callbacks (l2c_data w)) k ltac:(lia)) as [s Hs].
    rewrite (bind_step _ _ _ _ _ (slot_at_run _ _ _ Hs)).
    destruct (rx_callback s) as [g|] eqn:Hg.
    + rewrite decide_True by done. eexists _, _. split; [done|]. right. split_and!; [done|done|]. right; right.
      exists k, (filter_id flt). split_and!; [done|by eapply Hone|].
      rewrite (receiver_at cfg Hcfg _ k _ Hk), Hs. cbn. by rewrite Hg.
    + rewrite decide_False by auto. erewrite bind_step; [|apply write_slot_run; lia].
      eexists _, _. split; [done|]. left.
      split_and!; [lia|done|by exists k, (filter_id flt); split; [|by eapply Hone]|..].
      * intros j id Hj. rewrite !(receiver_at cfg Hcfg _ j id Hj). cbn. rewrite (decide_ext _ _ _ _ (Hone j id Hj)).
        split.
        -- intros ->%(Hone j id Hj). assert (j = k) as -> by (eapply (NoDup_lookup (id_mapping cfg)); eauto; apply Hcfg).
           rewrite Hs. cbn. by rewrite Hg.
        -- destruct (decide (id = filter_id flt)) as [->|Hdiff].
           ++ assert (j = k) as -> by (eapply (NoDup_lookup (id_mapping cfg)); eauto; apply Hcfg).
              rewrite list_lookup_insert_eq by lia. done.
           ++ rewrite list_lookup_insert_ne by congruence. done.
      * eexists. split; [apply remove_single_run; [lia|cbn; apply list_lookup_insert_eq; lia]|]. split; [done|].
        intros j id Hj. rewrite !(receiver_at cfg Hcfg _ j id Hj). cbn. rewrite list_insert_insert_eq.
        destruct (decide (j = k)) as [->|Hjk]; [|by rewrite list_lookup_insert_ne by done].
        rewrite list_lookup_insert_eq by lia. rewrite Hs. cbn. by rewrite Hg.
  - unfold map_from_can_id. rewrite (map_loop_missing _ _ _ Hmiss). eexists _, _. split; [done|]. right.
    split_and!; [done|done|]. right; left. intros k id Hk Hmatch%(Hone k id Hk). subst id.
    by apply Hmiss, (list_elem_of_lookup_2 _ k).
Qed.
End rx_filter_lemmas.

Section add_filter.
Context {E : Type}.

(** Receive filters mean what the CAN interface says.  A filter is added
    only if no identifier it matches has a receiver; then exactly the matching
    identifiers get the new receiver, the others keep theirs, and removing the
    filter by the returned handle gives every identifier its former receiver
    back.  Otherwise the call returns an error and changes nothing, and the
    filter is of a kind the driver does not support, matches none of the four
    identifiers, or matches one that has a receiver. *)
Theorem rx_filter_spec (cfg : lin2can_kconfig) (w : l2c_world E) f u flt :
  mapping_ok cfg -> length (incoming_callbacks (l2c_data w)) = 4%nat -> 0 <= filter_id flt <= CAN_STD_ID_MASK ->
  exists r w', lin2can_add_rx_filter cfg (Some f) u flt w = Ret r w' /\
    (filter_added cfg w w' f u flt r \/ (r < 0 /\ w' = w /\ filter_refused cfg w flt)).
Proof.
  intros Hcfg Hlen Hid.
  destruct (decide (Z.land (filter_mask flt) 0x7FF = 0)) as [Hw|Hw]; [by apply add_wildcard|].
  destruct (decide (filter_mask flt = CAN_STD_ID_MASK \/ filter_mask flt = CAN_EXT_ID_MASK)) as [Hm|Hm];
    [by apply add_single|].
  exists (- ENOTSUP), w. split; [|right; split_and!; [done|done|left; unfold filter_supported; tauto]].
  unfold lin2can_add_rx_filter. rewrite (proj2 (Z.eqb_neq _ _) Hw).
  rewrite (proj2 (Z.eqb_neq (filter_mask flt) CAN_STD_ID_MASK)), (proj2 (Z.eqb_neq _ _)) by tauto. done.
Qed.
End add_filter.

(** ** The way of a frame *)

(** A frame the driver is made for: a mapped identifier, at least one byte, and
    a first byte that leaves the top two bits alone. *)
Definition transportable (cfg : lin2can_kconfig) (fr : can_frame) : Prop :=
  can_id fr ∈ id_mapping cfg /\ 1 <= can_dlc fr <= 8 /\ length (can_data fr) = 8%nat /\
  exists b l, can_data fr = b :: l /\ 0 <= b < 64.

(** The bytes of a CAN frame, padded to the length of a LIN frame. *)
Definition padded_data (fr : can_frame) : list Z :=
  take (Z.to_nat (can_dlc fr)) (can_data fr) ++ replicate (Z.to_nat (8 - can_dlc fr)) 0xFF.

(** The frame as it is received; its flags are zero. *)
Definition padded (fr : can_frame) : can_frame := CanFrame (can_id fr) 8 0 (padded_data fr).

(** The frame as it is on the LIN bus. *)
Definition lin_encoding (cfg : lin2can_kconfig) (lin_id : Z) (fr : can_frame) : lin_frame :=
  LinFrame lin_id 8 LIN_CHECKSUM_AUTO
    (<[0%nat := Z.lor (nth 0 (padded_data fr) 0) (Z.shiftl (map_from_can_id cfg (can_id fr)) 6)]> (padded_data fr)).

Section transport.
Context {E : Type} `{!MsgQueue E} `{!MsgQueueLaws E} `{!CanCallbacks E} `{!CanCallbackLaws E} `{!LinUsers E} `{!LinUsersLaws E}.
Context (cfg : lin2can_kconfig) (Hcfg : mapping_ok cfg).
#[local] Instance node_callbacks : LinCallbacks (l2c_world E) := l2c_lin_callbacks cfg.

Lemma on_bus_table {A} (m : M (l2c_world E) A) : frame al_data (on_bus m).
Proof. intros w a w'. unfold on_bus, zoom. destruct (m (al_ext w)); by intros [= <- <-]. Qed.

#[local] Instance node_callback_laws : LinCallbackLaws (l2c_world E).
Proof.
  constructor; intros f fr u; cbn; case_decide; auto using on_bus_table, user_incoming_table, user_outgoing_table.
Qed.

(** What the driver does with a frame for an identifier: the receiver's callback. *)
Definition receive (fr : can_frame) : M (al_world (l2c_world E)) unit :=
  on_bus (let* d := get_l2c in
          match receiver cfg d (can_id fr) with
          | None => ret tt
          | Some (f, u) => can_rx_callback f fr u
          end).

Fixpoint receive_all (l : list can_frame) : M (al_world (l2c_world E)) unit :=
  match l with [] => ret tt | fr :: l => receive fr ;; receive_all l end.

(** [can_send] of every frame of a list, without waiting. *)
Fixpoint send_all (l : list can_frame) (f : nat) (u : Z) : M (al_world (l2c_world E)) (list Z) :=
  match l with
  | [] => ret []
  | fr :: l =>
      let* r := on_bus (lin2can_send cfg fr K_NO_WAIT (Some f) u) in
      let* rs := send_all l f u in
      ret (r :: rs)
  end.

(** A header on the bus for every frame of a list, and what the driver answers. *)
Fixpoint answer_headers (l : list lin_frame) : M (al_world (l2c_world E)) (list (lin_action * lin_frame)) :=
  match l with
  | [] => ret []
  | h :: l => let* r := lin_header_callback h in let* rs := answer_headers l in ret (r :: rs)
  end.

(** Frames received from the bus. *)
Fixpoint rx_all (l : list lin_frame) : M (al_world (l2c_world E)) unit :=
  match l with [] => ret tt | fr :: l => lin_rx_callback 0 fr ;; rx_all l end.

(** The driver's two entries in the table of the LIN driver. *)
Record attached (max : Z) (mode : lin_mode) (w : al_world (l2c_world E)) : Prop := Attached {
  at_wf : lin_wf max (al_data w);
  at_slots : length (incoming_callbacks (l2c_data (al_ext w))) = 4%nat;
  at_outgoing : outgoing_id (l2c_data (al_ext w)) = node_outgoing_id cfg mode;
  at_in : exists u, handlers (al_data w) !! node_incoming_id cfg mode =
    Some (CallbackEntry (node_incoming_id cfg mode) 8 INCOMING (Some LIN_INCOMING_CB) u);
  at_out : exists u, handlers (al_data w) !! node_outgoing_id cfg mode =
    Some (CallbackEntry (node_outgoing_id cfg mode) 8 OUTGOING (Some LIN_OUTGOING_CB) u);
}.

(** The top two bits of a byte, set and taken off again. *)
Lemma tag_ok b k : 0 <= b < 64 -> (k < 4)%nat ->
  let t := Z.lor b (Z.shiftl (Z.of_nat k) 6) in
  u8 t = t /\ u8 (Z.shiftr t 6) = Z.of_nat k /\ Z.land t 0x3f = b.
Proof.
  intros Hb Hk.
  assert (forallb (fun k => forallb (fun b => let t := Z.lor b (Z.shiftl (Z.of_nat k) 6) in
    (u8 t =? t) && (u8 (Z.shiftr t 6) =? Z.of_nat k) && (Z.land t 0x3f =? b)) (seqZ 0 64)) (seq 0 4) = true) as Hall
    by (by vm_compute).
  rewrite forallb_forall in Hall. specialize (Hall k ltac:(apply in_seq; lia)). rewrite forallb_forall in Hall.
  specialize (Hall b ltac:(apply list_elem_of_In, elem_of_seqZ; lia)). cbv zeta in Hall |- *.
  rewrite !andb_true_iff, !Z.eqb_eq in Hall. tauto.
Qed.

Lemma padded_length fr : 1 <= can_dlc fr <= 8 -> length (can_data fr) = 8%nat -> length (padded_data fr) = 8%nat.
Proof. intros Hd Hl. unfold padded_data. rewrite length_app, length_take, length_replicate. lia. Qed.

(** What is known of a transportable frame's bytes. *)
Lemma transportable_inv fr : transportable cfg fr ->
  exists k b l, id_mapping cfg !! k = Some (can_id fr) /\ map_from_can_id cfg (can_id fr) = Z.of_nat k /\ (k < 4)%nat /\
    0 <= b < 64 /\ padded_data fr = b :: l /\ length l = 7%nat /\ 1 <= can_dlc fr <= 8 /\ length (can_data fr) = 8%nat.
Proof.
  intros (Hid & Hd & Hl & b & l & Hb & Hrange). apply list_elem_of_lookup in Hid as [k Hk].
  pose proof (padded_length fr Hd Hl) as Hp. unfold padded_data in *. rewrite Hb in *.
  destruct (Z.to_nat (can_dlc fr)) as [|n] eqn:Hn; [lia|]. cbn [take app] in *.
  eexists k, b, _. split_and!; try done; try lia.
  - by apply map_from_can_id_found.
  - by apply mapping_lookup in Hk.
  - cbn in Hp. lia.
Qed.

Lemma length_queue_snoc (l : list lin2can_outgoing_frame_t) x : length (l ++ [x]) = S (length l).
Proof. rewrite length_app. cbn. lia. Qed.

(** Sending puts the encoding at the end of the queue. *)
Lemma send_run fr f u t w :
  transportable cfg fr -> (length (queue (l2c_ext w)) < capacity (E := E))%nat ->
  exists e', lin2can_send cfg fr t (Some f) u w = Ret 0 (L2cWorld (l2c_data w) e') /\
    queue e' = queue (l2c_ext w) ++
      [OutgoingFrame (lin_encoding cfg (outgoing_id (l2c_data w)) fr) (Some f) u].
Proof.
  intros Ht Hroom. destruct (transportable_inv fr Ht) as (k & b & l & Hk & Hmap & Hk4 & Hb & Hpad & Hl & Hd & Hlen).
  destruct (tag_ok b k Hb Hk4) as (Htag & _).
  unfold lin2can_send, DATA_LEN, lin_encoding. rewrite Hmap. change (take _ _ ++ _) with (padded_data fr).
  rewrite (proj2 (Z.eqb_neq _ _)) by lia. rewrite Hpad.
  unfold get_l2c. unfold bind at 1, gets. rewrite (proj2 (Z.ltb_ge 8 _)), (proj2 (Z.ltb_ge _ _)) by lia. cbn [orb].
  cbn [lookup list_lookup of_option nth]. rewrite bind_ret_l, Htag. cbn [insert list_insert].
  match goal with |- context [k_msgq_put ?x _] => destruct (put_room x t (l2c_ext w) Hroom) as (e' & Hput & Hq) end.
  exists e'. split; [|exact Hq]. unfold on_queue, zoom, bind. by rewrite Hput.
Qed.

(** A reception of an encoded frame runs the callback for its identifier. *)
Lemma incoming_run fr id w :
  transportable cfg fr -> length (incoming_callbacks (l2c_data w)) = 4%nat ->
  lin_incoming_cb cfg (lin_encoding cfg id fr) w =
  match receiver cfg (l2c_data w) (can_id fr) with
  | None => Ret tt w
  | Some (f, u) => can_rx_callback f (padded fr) u w
  end.
Proof.
  intros Ht Hslots. destruct (transportable_inv fr Ht) as (k & b & l & Hk & Hmap & Hk4 & Hb & Hpad & Hl & Hd & Hlen).
  destruct (tag_ok b k Hb Hk4) as (_ & Hshift & Hland).
  unfold lin_incoming_cb, lin_encoding, padded, DATA_LEN, TRANSLATABLE_ADDRESSES_LEN. rewrite Hmap, Hpad.
  cbn [frame_data frame_len nth insert list_insert lookup list_lookup of_option]. rewrite bind_ret_l, Hshift, Hland.
  rewrite (proj2 (Z.leb_gt _ _)) by lia.
  destruct (lookup_lt_is_Some_2 (incoming_callbacks (l2c_data w)) k ltac:(lia)) as [s Hs].
  rewrite (bind_step _ _ _ _ _ (slot_at_run _ _ _ Hs)), (receiver_at cfg Hcfg _ k _ Hk), Hs. cbn [mbind option_bind].
  destruct (rx_callback s) as [f|]; [|done]. cbn [mbind option_bind]. rewrite Nat2Z.id, Hk. cbn [of_option].
  rewrite bind_ret_l. cbn [length]. rewrite Hl. cbn [Z.ltb Z.compare orb Pos.compare Pos.compare_cont Z.of_nat Pos.of_succ_nat Pos.succ].
  replace (take (Z.to_nat 8) _) with (Z.lor b (Z.shiftl (Z.of_nat k) 6) :: l) by (symmetry; apply take_ge; cbn; lia).
  by rewrite app_nil_r.
Qed.

(** *** Lists of frames *)

Definition queued (w : al_world (l2c_world E)) : list lin2can_outgoing_frame_t := queue (l2c_ext (al_ext w)).

(** What [can_send] queues for a frame. *)
Definition outgoing (lin_id : Z) (f : nat) (u : Z) (fr : can_frame) : lin2can_outgoing_frame_t :=
  OutgoingFrame (lin_encoding cfg lin_id fr) (Some f) u.

(** Two states that differ in the queue at most. *)
Definition same_data (w w' : al_world (l2c_world E)) : Prop :=
  al_data w' = al_data w /\ l2c_data (al_ext w') = l2c_data (al_ext w).

Lemma send_all_run f u : forall l w,
  Forall (transportable cfg) l -> (length (queued w) + length l <= capacity (E := E))%nat ->
  exists w', send_all l f u w = Ret (replicate (length l) 0) w' /\ same_data w w' /\
    queued w' = queued w ++ (outgoing (outgoing_id (l2c_data (al_ext w))) f u <$> l).
Proof.
  induction l as [|fr l IH]; intros w Hl Hroom; cbn in Hroom.
  - exists w. by rewrite app_nil_r.
  - apply Forall_cons in Hl as [Hfr Hl].
    destruct (send_run fr f u K_NO_WAIT (al_ext w) Hfr ltac:(unfold queued in Hroom; lia)) as (e' & Hsend & Hq).
    destruct (IH (AlWorld (al_data w) (L2cWorld (l2c_data (al_ext w)) e')) Hl) as (w' & Hrest & [Hd1 Hd2] & Hq').
    { unfold queued in *. cbn. rewrite Hq, length_queue_snoc. lia. }
    exists w'. cbn [send_all]. rewrite (bind_step _ _ _ 0 (AlWorld (al_data w) (L2cWorld (l2c_data (al_ext w)) e'))).
    2: { unfold on_bus, zoom. by rewrite Hsend. }
    rewrite (bind_step _ _ _ _ _ Hrest). split_and!; [done|done|].
    rewrite Hq'. unfold queued at 1. cbn. rewrite Hq, <- (assoc_L app). done.
Qed.

Lemma outgoing_run frame fr f u l w : queue (l2c_ext w) = OutgoingFrame fr (Some f) u :: l ->
  exists w', lin_outgoing_cb frame w = Ret (true, fr) w' /\ l2c_data w' = l2c_data w /\ queue (l2c_ext w') = l.
Proof.
  intros Hq. destruct (get_head _ _ _ Hq) as (e1 & Hget & Hq1).
  destruct (tx_returns f 0 u (L2cWorld (l2c_data w) e1)) as (w2 & Htx & Hd & Hq2).
  exists w2. split; [|by rewrite Hd, Hq2].
  unfold lin_outgoing_cb. rewrite (bind_step _ _ _ (Some (OutgoingFrame fr (Some f) u)) (L2cWorld (l2c_data w) e1)).
  - cbn [out_callback of_option out_frame out_user_data]. rewrite bind_ret_l. by rewrite (bind_step _ _ _ _ _ Htx).
  - unfold on_queue, zoom. by rewrite Hget.
Qed.

(** A header of the driver's outgoing identifier takes the first frame. *)
Lemma header_answer max (Hmax : 0 <= max <= 255) mode w h lin_id f u fr l :
  attached max mode w -> frame_id h = node_outgoing_id cfg mode -> queued w = outgoing lin_id f u fr :: l ->
  exists w', lin_header_callback h w = Ret (LIN_ACTION_SEND, lin_encoding cfg lin_id fr) w' /\
    same_data w w' /\ queued w' = l.
Proof.
  intros Hat Hid Hq. rewrite (header_run max Hmax) by apply Hat. rewrite Hid.
  destruct (at_out _ _ _ Hat) as [ud ->]. cbn [header_response cb_frame_size cb_type cb_fn cb_user_data].
  cbn [outgoing_cb node_callbacks l2c_lin_callbacks]. rewrite decide_True by done.
  match goal with |- context [lin_outgoing_cb ?x] =>
    destruct (outgoing_run x _ _ _ _ (al_ext w) Hq) as (w2 & Hrun & Hd & Hq2) end.
  exists (AlWorld (al_data w) w2). split_and!; [|done|done].
  rewrite (bind_step _ _ _ (true, lin_encoding cfg lin_id fr) (AlWorld (al_data w) w2)); [done|].
  unfold on_bus, zoom. by rewrite Hrun.
Qed.

Lemma header_silent max (Hmax : 0 <= max <= 255) mode w h :
  attached max mode w -> frame_id h = node_outgoing_id cfg mode -> queued w = [] ->
  exists h', lin_header_callback h w = Ret (LIN_ACTION_NONE, h') w.
Proof.
  intros Hat Hid Hq. rewrite (header_run max Hmax) by apply Hat. rewrite Hid.
  destruct (at_out _ _ _ Hat) as [ud ->]. cbn [header_response cb_frame_size cb_type cb_fn cb_user_data].
  cbn [outgoing_cb node_callbacks l2c_lin_callbacks]. rewrite decide_True by done.
  eexists. erewrite bind_step.
  2: { unfold on_bus, zoom, lin_outgoing_cb, on_queue, zoom. unfold bind at 1. rewrite (get_empty _ Hq). done. }
  by destruct w as [d [d2 e]].
Qed.

(** [attached] is about the parts of the state [same_data] speaks of. *)
Lemma attached_same max mode w w' : same_data w w' -> attached max mode w -> attached max mode w'.
Proof. intros [H1 H2] [? ? ? ? ?]. constructor; rewrite ?H1, ?H2; done. Qed.

Lemma answer_headers_run max (Hmax : 0 <= max <= 255) mode lin_id f u : forall l hs w,
  attached max mode w -> Forall (fun h => frame_id h = node_outgoing_id cfg mode) hs -> length hs = length l ->
  queued w = outgoing lin_id f u <$> l ->
  exists w', answer_headers hs w = Ret ((fun fr => (LIN_ACTION_SEND, lin_encoding cfg lin_id fr)) <$> l) w' /\
    same_data w w' /\ queued w' = [].
Proof.
  induction l as [|fr l IH]; intros [|h hs] w Hat Hhs Hlen Hq; try discriminate; [by exists w|].
  apply Forall_cons in Hhs as [Hh Hhs]. injection Hlen as Hlen.
  destruct (header_answer max Hmax mode w h _ _ _ _ _ Hat Hh Hq) as (w1 & Hrun & Hs1 & Hq1).
  destruct (IH hs w1 (attached_same _ _ _ _ Hs1 Hat) Hhs Hlen Hq1) as (w2 & Hrest & Hs2 & Hq2).
  exists w2. cbn [answer_headers]. rewrite (bind_step _ _ _ _ _ Hrun), (bind_step _ _ _ _ _ Hrest).
  split_and!; [done| |done]. destruct Hs1, Hs2. split; congruence.
Qed.

(** The receiving node's part of [attached]. *)
Record listening (max : Z) (mode : lin_mode) (w : al_world (l2c_world E)) : Prop := Listening {
  li_wf : lin_wf max (al_data w);
  li_slots : length (incoming_callbacks (l2c_data (al_ext w))) = 4%nat;
  li_in : exists u, handlers (al_data w) !! node_incoming_id cfg mode =
    Some (CallbackEntry (node_incoming_id cfg mode) 8 INCOMING (Some LIN_INCOMING_CB) u);
}.

Lemma rx_encoded max (Hmax : 0 <= max <= 255) mode w fr :
  listening max mode w -> transportable cfg fr ->
  lin_rx_callback 0 (lin_encoding cfg (node_incoming_id cfg mode) fr) w = receive (padded fr) w.
Proof.
  intros Hli Hfr. rewrite (rx_run max Hmax) by apply Hli. cbn [frame_id lin_encoding].
  destruct (li_in _ _ _ Hli) as [u ->]. cbn [reception frame_len lin_encoding Z.eqb Pos.eqb].
  cbn [incoming_cb node_callbacks l2c_lin_callbacks]. rewrite decide_True by done.
  unfold receive, on_bus, zoom. change (LinFrame _ _ _ _) with (lin_encoding cfg (node_incoming_id cfg mode) fr).
  rewrite incoming_run by (done || apply Hli). unfold get_l2c, bind, gets. cbn [padded can_id].
  by destruct (receiver _ _ _) as [[g ug]|].
Qed.

Lemma receive_listening max mode fr w w' : listening max mode w -> receive fr w = Ret tt w' -> listening max mode w'.
Proof.
  intros [Hwf Hsl Hin] Hrun. pose proof (on_bus_table _ _ _ _ Hrun) as Hd.
  assert (length (incoming_callbacks (l2c_data (al_ext w'))) = 4%nat) as Hsl'.
  { rewrite <- Hsl. revert Hrun. unfold receive, on_bus, zoom, get_l2c, bind, gets.
    destruct (receiver _ _ _) as [[g ug]|]; [|by intros [= <-]].
    destruct (can_rx_callback g fr ug (al_ext w)) as [[] x|] eqn:Hrx; [|done]. intros [= <-]. by apply rx_slots in Hrx. }
  constructor; rewrite ?Hd; done.
Qed.

Lemma rx_all_run max (Hmax : 0 <= max <= 255) mode : forall l w,
  listening max mode w -> Forall (transportable cfg) l ->
  rx_all (lin_encoding cfg (node_incoming_id cfg mode) <$> l) w = receive_all (padded <$> l) w.
Proof.
  induction l as [|fr l IH]; intros w Hli Hl; [done|]. apply Forall_cons in Hl as [Hfr Hl].
  cbn [fmap list_fmap rx_all receive_all]. unfold bind. rewrite (rx_encoded max Hmax) by done.
  destruct (receive (padded fr) w) as [[] w1|] eqn:Hrun; [|done]. apply IH; [|done]. by eapply receive_listening.
Qed.


(** A CAN frame without data loses its identifier: the driver pads it with
    0xFF before it writes the identifier's number into the top two bits, which
    are set already, so the other node takes it for a frame of the fourth
    identifier, with eight bytes of padding. *)
Theorem empty_frame_misrouted (ws wr : l2c_world E) fr f u t :
  can_id fr ∈ id_mapping cfg -> can_dlc fr = 0 -> length (incoming_callbacks (l2c_data wr)) = 4%nat ->
  (length (queue (l2c_ext ws)) < capacity (E := E))%nat ->
  exists e' lf, lin2can_send cfg fr t (Some f) u ws = Ret 0 (L2cWorld (l2c_data ws) e') /\
    queue e' = queue (l2c_ext ws) ++ [OutgoingFrame lf (Some f) u] /\
    lin_incoming_cb cfg lf wr =
      match receiver cfg (l2c_data wr) (CONFIG_LIN2CAN_CAN_ID3 cfg) with
      | None => Ret tt wr
      | Some (g, ug) => can_rx_callback g (CanFrame (CONFIG_LIN2CAN_CAN_ID3 cfg) 8 0 (0x3F :: replicate 7 0xFF)) ug wr
      end.
Proof.
  intros [k Hk]%list_elem_of_lookup Hdlc Hslots Hroom. pose proof (mapping_lookup _ _ _ Hk) as Hk4.
  unfold lin2can_send, DATA_LEN. rewrite (map_from_can_id_found cfg Hcfg k _ Hk), Hdlc.
  rewrite (proj2 (Z.eqb_neq _ _)) by lia. unfold get_l2c. unfold bind at 1, gets.
  rewrite (proj2 (Z.ltb_ge 8 _)), (proj2 (Z.ltb_ge _ _)) by lia. cbn [orb].
  change (take _ _ ++ _) with (replicate 8 0xFF). cbn [lookup list_lookup of_option replicate]. rewrite bind_ret_l.
  assert (u8 (Z.lor 0xFF (Z.shiftl (Z.of_nat k) 6)) = 0xFF) as -> by (by destruct k as [|[|[|[|]]]]; [..|lia]).
  match goal with |- context [k_msgq_put ?x _] => destruct (put_room x t (l2c_ext ws) Hroom) as (e' & Hput & Hq) end.
  eexists e', _. split; [|split; [exact Hq|]].
  - unfold on_queue, zoom, bind. by rewrite Hput.
  - destruct wr as [d e]. cbn in Hslots. destruct (slots_four d Hslots) as (s0 & s1 & s2 & s3 & ->).
    rewrite (receiver_at cfg Hcfg _ 3 _ eq_refl). unfold lin_incoming_cb. cbn [frame_data lookup list_lookup insert list_insert of_option].
    rewrite bind_ret_l. change (u8 (Z.shiftr 0xFF 6)) with 3. cbn [Z.leb Z.compare Pos.compare Pos.compare_cont TRANSLATABLE_ADDRESSES_LEN].
    rewrite (bind_step _ _ _ _ _ (slot_at_run 3 s3 (L2cWorld (Lin2CanData [s0; s1; s2; s3] (outgoing_id d) (incoming_id d)) e) eq_refl)).
    by destruct s3 as [[g|] ug].
Qed.

(** The entries of the driver, and whether the table has room for both. *)
Definition in_entry (mode : lin_mode) (dev : Z) : abstract_lin_callback_entry_t :=
  CallbackEntry (node_incoming_id cfg mode) 8 INCOMING (Some LIN_INCOMING_CB) dev.
Definition out_entry (mode : lin_mode) (dev : Z) : abstract_lin_callback_entry_t :=
  CallbackEntry (node_outgoing_id cfg mode) 8 OUTGOING (Some LIN_OUTGOING_CB) dev.
Definition both_fit (max : Z) (mode : lin_mode) (m : gmap Z abstract_lin_callback_entry_t) : Prop :=
  Z.of_nat (size m) + 2 <= max /\ m !! node_incoming_id cfg mode = None /\ m !! node_outgoing_id cfg mode = None.

(** The two LIN identifiers are different and in the range of LIN identifiers. *)
Definition lin_ids_ok : Prop :=
  CONFIG_LIN2CAN_MASTER_REQUEST_ID cfg <> CONFIG_LIN2CAN_SLAVE_RESPONSE_ID cfg /\
  CONFIG_LIN2CAN_MASTER_REQUEST_ID cfg <= 0x3F /\ CONFIG_LIN2CAN_SLAVE_RESPONSE_ID cfg <= 0x3F.

(** The first two statements of [lin2can_init]. *)
Lemma init_reset mode (w : al_world (l2c_world E)) :
  length (incoming_callbacks (l2c_data (al_ext w))) = 4%nat ->
  exists d, length (incoming_callbacks d) = 4%nat /\ outgoing_id d = node_outgoing_id cfg mode /\
    incoming_id d = node_incoming_id cfg mode /\ (forall id, receiver cfg d id = None) /\
    forall (A : Type) (k : M (al_world (l2c_world E)) A),
      (on_bus (update_slots clear_slot 4 0) ;;
       on_bus (let* d := get_l2c in
               put_l2c (Lin2CanData (incoming_callbacks d) (node_outgoing_id cfg mode) (node_incoming_id cfg mode))) ;; k) w =
      k (AlWorld (al_data w) (L2cWorld d (l2c_ext (al_ext w)))).
Proof.
  destruct w as [t [d e]]. cbn. intros Hlen. destruct (slots_four d Hlen) as (s0 & s1 & s2 & s3 & ->).
  exists (Lin2CanData (clear_slot <$> [s0; s1; s2; s3]) (node_outgoing_id cfg mode) (node_incoming_id cfg mode)).
  split_and!; try done. intros id. unfold receiver. cbn [incoming_callbacks]. rewrite list_lookup_fmap.
  by destruct ([s0; s1; s2; s3] !! _).
Qed.

#[local] Instance both_fit_dec max mode m : Decision (both_fit max mode m).
Proof. unfold both_fit. apply _. Defined.

(** One registration of the driver, on the map. *)
Lemma spec_register_entry max ty f id u m : id <= 0x3F ->
  spec_register max (CallbackEntry id 8 ty (Some f) u) m =
  if decide (max <= Z.of_nat (size m)) then (- ENOSPC, m)
  else if decide (is_Some (m !! id)) then (- EEXIST, m)
  else (0, <[id := CallbackEntry id 8 ty (Some f) u]> m).
Proof.
  intros Hid. unfold spec_register. cbn. rewrite decide_False; [done|].
  intros [?|[?|[?|?]]]; (congruence || lia).
Qed.

(** The driver's start: it forgets every receive callback and takes its two
    identifiers in the LIN driver's table.  It succeeds exactly when the table
    has room for both and neither is taken, and is then attached to the bus;
    otherwise it returns the LIN driver's error, and of its entries the incoming
    one may be left in the table.  Nothing else in the table changes. *)
Theorem lin2can_init_spec max mode dev (w : al_world (l2c_world E)) :
  0 <= max <= 255 -> lin_ids_ok -> lin_wf max (al_data w) -> length (incoming_callbacks (l2c_data (al_ext w))) = 4%nat ->
  exists r w', lin2can_init cfg max mode dev w = Ret r w' /\ l2c_ext (al_ext w') = l2c_ext (al_ext w) /\
    lin_wf max (al_data w') /\ (forall id, receiver cfg (l2c_data (al_ext w')) id = None) /\
    if decide (both_fit max mode (handlers (al_data w)))
    then r = 0 /\ attached max mode w' /\
      handlers (al_data w') = <[node_outgoing_id cfg mode := out_entry mode dev]>
                                (<[node_incoming_id cfg mode := in_entry mode dev]> (handlers (al_data w)))
    else (r = - ENOSPC \/ r = - EEXIST) /\
      (handlers (al_data w') = handlers (al_data w) \/
       handlers (al_data w') = <[node_incoming_id cfg mode := in_entry mode dev]> (handlers (al_data w))).
Proof.
  intros Hmax (Hne & Hreq & Hresp) Hwf Hslots.
  assert (node_incoming_id cfg mode <= 0x3F /\ node_outgoing_id cfg mode <= 0x3F /\
          node_incoming_id cfg mode <> node_outgoing_id cfg mode) as (Hin & Hout & Hio) by (destruct mode; cbn; auto).
  destruct (init_reset mode w Hslots) as (d & Hlen & Hoid & Hiid & Hrecv & Hk).
  unfold lin2can_init. rewrite Hk. clear Hk. set (w0 := AlWorld (al_data w) (L2cWorld d (l2c_ext (al_ext w)))).
  rewrite (bind_step _ _ _ d w0) by done. rewrite Hiid.
  destruct (register_simulation max Hmax INCOMING (Some LIN_INCOMING_CB) (node_incoming_id cfg mode) 8 dev w0 Hwf)
    as (t1 & Hrun1 & Hwf1 & Hh1).
  rewrite spec_register_entry in Hrun1, Hh1 by done. unfold al_register_incoming_cb.
  rewrite (bind_step _ _ _ _ _ Hrun1). clear Hrun1. cbn [al_data al_ext w0] in *.
  set (m := handlers (al_data w)) in *. unfold both_fit.
  destruct (decide (max <= Z.of_nat (size m))) as [Hfull|Hroom1]; cbn [fst snd] in *.
  { eexists _, _. rewrite decide_False by lia. split_and!; cbn; eauto. }
  destruct (decide (is_Some (m !! node_incoming_id cfg mode))) as [Htaken|Hfree1%eq_None_not_Some]; cbn [fst snd] in *.
  { eexists _, _. rewrite decide_False by (intros (_ & Hn & _); rewrite Hn in Htaken; by destruct Htaken).
    split_and!; cbn; eauto. }
  cbn [Z.eqb negb]. set (w1 := AlWorld t1 _). rewrite (bind_step _ _ _ d w1) by done. rewrite Hoid.
  destruct (register_simulation max Hmax OUTGOING (Some LIN_OUTGOING_CB) (node_outgoing_id cfg mode) 8 dev w1 Hwf1)
    as (t2 & Hrun2 & Hwf2 & Hh2).
  rewrite spec_register_entry in Hrun2, Hh2 by done. unfold al_register_outgoing_cb.
  rewrite (bind_step _ _ _ _ _ Hrun2). clear Hrun2. cbn [al_data al_ext w1] in *. rewrite Hh1 in *.
  rewrite map_size_insert_None, lookup_insert_ne in * by done.
  destruct (decide (max <= Z.of_nat (S (size m)))) as [Hfull|Hroom2]; cbn [fst snd] in *.
  { eexists _, _. rewrite decide_False by lia. split_and!; cbn; eauto. }
  destruct (decide (is_Some (m !! node_outgoing_id cfg mode))) as [Htaken|Hfree2%eq_None_not_Some]; cbn [fst snd] in *.
  { eexists _, _. rewrite decide_False by (intros (_ & _ & Hn); rewrite Hn in Htaken; by destruct Htaken).
    split_and!; cbn; eauto. }
  eexists _, _. rewrite decide_True by (split_and!; [lia|done|done]). split_and!; cbn; eauto.
  constructor; cbn; try done; exists dev; rewrite Hh2.
  - by rewrite lookup_insert_ne, lookup_insert_eq by done.
  - by rewrite lookup_insert_eq.
Qed.
End transport.
