(* ===== verification/Lin2CanSamples.v ===== *)
(** * The CAN over LIN samples ([samples/lin2can]: commander, responder)

    Two boards that send CAN frames to each other over LIN: the commander
    waits for the end of each transmission, the responder is told by a callback.
    Application, CAN driver ([Lin2Can]), LIN driver ([Lin]) and bus ([LinPair])
    run together; the theorem is that, whatever is scheduled and whenever the
    programs run, the boards do what two counters of frames per direction say. *)

From stdpp Require Import base gmap list numbers strings.
From Stdlib Require Import ZArith Lia.
From S2P Require Import Prelude.
From S2P Require Import Can.
From S2P Require Import Lin.
From S2P Require Import LinPair.
From S2P Require Import Lin2Can.
From S2P Require LinScheduler.

#[local] Open Scope Z_scope.

(** ** The programs *)

Definition K_FOREVER : Z := -1.

(** What is logged. *)
Inductive l2c_message :=
| HexDump (data : list Z)
| FilterError (err : Z)
| TxFailed
| TxComplete.

(** The variables of a program; [tx_waits] while [can_send] waits for the end of
    the transmission, which is what Zephyr does when there is no callback. *)
Record l2c_vars := L2cVars { next_byte : Z; tx_waits : bool; messages : list l2c_message }.

Definition l2c_vars_init : l2c_vars := L2cVars 0 false [].
Definition set_next_byte x v := L2cVars x (tx_waits v) (messages v).
Definition set_tx_waits x v := L2cVars (next_byte v) x (messages v).
Definition add_message m v := L2cVars (next_byte v) (tx_waits v) (messages v ++ [m]).

(** What surrounds the driver: the program, the message queue and the bus. *)
Record l2c_env (Q B : Type) := L2cEnv { vars : l2c_vars; msgq : Q; bus : B }.
Arguments L2cEnv {Q B}.
Arguments vars {Q B}.
Arguments msgq {Q B}.
Arguments bus {Q B}.

(** The callbacks by number: [can_rx_handler]; Zephyr's own one, and [can_tx_cb]. *)
Definition can_rx_handler_fn : nat := 0.
Definition can_tx_default_fn : nat := 0.
Definition can_tx_cb_fn : nat := 1.

Section programs.
Context {Q B : Type} `{!MsgQueue Q} (cfg : lin2can_kconfig).

#[export] Instance env_queue : MsgQueue (l2c_env Q B) := {|
  k_msgq_put x t := zoom msgq (fun q e => L2cEnv (vars e) q (bus e)) (k_msgq_put x t);
  k_msgq_get := zoom msgq (fun q e => L2cEnv (vars e) q (bus e)) k_msgq_get;
|}.

Definition update_vars (f : l2c_vars -> l2c_vars) : M (l2c_world (l2c_env Q B)) unit :=
  modify (fun w => L2cWorld (l2c_data w) (L2cEnv (f (vars (l2c_ext w))) (msgq (l2c_ext w)) (bus (l2c_ext w)))).

Definition can_rx_handler (frame : can_frame) : M (l2c_world (l2c_env Q B)) unit :=
  update_vars (add_message (HexDump (take (Z.to_nat (can_dlc frame)) (can_data frame)))).

Definition can_tx_cb (err : Z) : M (l2c_world (l2c_env Q B)) unit :=
  (if negb (err =? 0) then update_vars (add_message TxFailed) else ret tt) ;;
  update_vars (add_message TxComplete).

#[export] Instance env_can : CanCallbacks (l2c_env Q B) := {|
  can_rx_callback _ frame _ := can_rx_handler frame;
  can_tx_callback f err _ := if decide (f = can_tx_default_fn) then update_vars (set_tx_waits false) else can_tx_cb err;
|}.

(** No other program is on the LIN bus. *)
#[export] Instance env_users : LinUsers (l2c_env Q B) := {|
  user_incoming_cb _ _ _ := fail BadArgument;
  user_outgoing_cb _ _ _ := fail BadArgument;
|}.

(** *** commander *)

Definition l2c_commander_setup (ready : bool) : M (l2c_world (l2c_env Q B)) Z :=
  if negb ready then ret (-1)
  else
    let* err := lin2can_add_rx_filter cfg (Some can_rx_handler_fn) 0 (CanFilter 0x80 CAN_STD_ID_MASK) in
    (if negb (err =? 0) then update_vars (add_message (FilterError err)) else ret tt) ;;
    ret 0.

(** The test frame with the counter [i]. *)
Definition commander_frame (i : Z) : can_frame := CanFrame 0x180 8 0 [0x00; 0xad; 0xbe; 0xef; 0xde; 0xad; 0xbe; i].

(** One round of the loop, up to the wait for the transmission. *)
Definition l2c_commander_round : M (l2c_world (l2c_env Q B)) unit :=
  let* i := gets (fun w => next_byte (vars (l2c_ext w))) in
  update_vars (set_next_byte (u8 (i + 1))) ;;
  update_vars (set_tx_waits true) ;;
  let* err := lin2can_send cfg (commander_frame i) K_FOREVER (Some can_tx_default_fn) 0 in
  if negb (err =? 0) then update_vars (set_tx_waits false) else ret tt.

(** *** responder *)

Definition l2c_responder_setup (ready : bool) : M (l2c_world (l2c_env Q B)) Z :=
  if negb ready then ret (-1)
  else
    lin2can_add_rx_filter cfg (Some can_rx_handler_fn) 0 (CanFilter 0x180 CAN_STD_ID_MASK) ;;
    ret 0.

Definition responder_frame (i : Z) : can_frame := CanFrame 0x80 2 0 [0; i; 0; 0; 0; 0; 0; 0].

Definition l2c_responder_round : M (l2c_world (l2c_env Q B)) unit :=
  let* i := gets (fun w => next_byte (vars (l2c_ext w))) in
  update_vars (set_next_byte (u8 (i + 1))) ;;
  lin2can_send cfg (responder_frame i) K_FOREVER (Some can_tx_cb_fn) 0 ;;
  ret tt.
End programs.

(** The schedule tables of the commander and of the other samples. *)
Definition l2c_schedule_table (delay : Z) : list LinScheduler.abstract_lin_schedule_entry_t :=
  [LinScheduler.ScheduleEntry 0x3D delay; LinScheduler.ScheduleEntry 0x3C delay].
Definition l2c_commander_table := l2c_schedule_table 250.
Definition isotp_table := l2c_schedule_table 25.
Definition gateway_table := l2c_schedule_table 5.

(** ** The boards *)

#[export] Instance env_queue_laws {Q B} `{!MsgQueue Q} `{!MsgQueueLaws Q} : MsgQueueLaws (l2c_env Q B).
Proof.
  refine {| queue e := queue (msgq e); capacity := capacity (E := Q) |}; unfold k_msgq_put, k_msgq_get; cbn; intros.
  - destruct (put_room x t (msgq e) H) as (q & Hq & ?). unfold zoom. rewrite Hq. by eexists.
  - destruct (put_full x (msgq e) H) as (rc & Hq & ?). unfold zoom. rewrite Hq. exists rc. split; [|done]. by destruct e.
  - unfold zoom. rewrite get_empty by done. by destruct e.
  - destruct (get_head (msgq e) x l H) as (q & Hq & ?). unfold zoom. rewrite Hq. by eexists.
Defined.

#[export] Instance env_can_laws {Q B} `{!MsgQueue Q} `{!MsgQueueLaws Q} : CanCallbackLaws (l2c_env Q B).
Proof.
  constructor; intros; cbn.
  - case_decide; [by eexists|]. unfold can_tx_cb, update_vars. destruct (negb (err =? 0)); by eexists.
  - by intros w a w' [= <- <-].
Qed.

#[export] Instance env_users_laws {Q B} : LinUsersLaws (l2c_env Q B).
Proof. constructor; by intros f fr u w a w'. Qed.

(** What happens: a program runs on, unless it waits; a slot of the schedule. *)
Inductive l2c_event := CommanderRun | ResponderRun | Slot (id : Z).

Section boards.
Context {Q B : Type} `{!MsgQueue Q} `{!MsgQueueLaws Q} `{!LinBus B} `{!BusRequests B}.
Context (cfg : lin2can_kconfig) (buffer stack : list Z).
#[local] Abbreviation env := (l2c_env Q B).
#[local] Abbreviation board := (al_world (l2c_world env)).

Definition on_env_bus {A} (m : M B A) : M (l2c_world env) A :=
  zoom (fun w => bus (l2c_ext w)) (fun b w => L2cWorld (l2c_data w) (L2cEnv (vars (l2c_ext w)) (msgq (l2c_ext w)) b)) m.

#[local] Instance env_bus : LinBus (l2c_world env) := {|
  lin_set_mode m := on_env_bus (lin_set_mode m);
  lin_set_header_callback := on_env_bus lin_set_header_callback;
  lin_set_rx_callback := on_env_bus lin_set_rx_callback;
  lin_receive id t n := on_env_bus (lin_receive id t n);
  lin_send f := on_env_bus (lin_send f);
|}.
#[local] Instance env_callbacks : LinCallbacks (l2c_world env) := l2c_lin_callbacks cfg.

#[local] Abbreviation pair := (boards (E1 := l2c_world env) (E2 := l2c_world env)).

(** [can_send] waits while the queue is full. *)
Definition l2c_run (ev : l2c_event) : M pair unit :=
  match ev with
  | CommanderRun => on_commander (on_bus (
      let* waits := gets (fun w => tx_waits (vars (l2c_ext w))) in
      if (waits : bool) then ret tt else l2c_commander_round cfg))
  | ResponderRun => on_responder (on_bus (
      let* room := gets (fun w => bool_decide (length (queue (l2c_ext w)) < capacity (E := Q))%nat) in
      if (room : bool) then l2c_responder_round cfg else ret tt))
  | Slot id => slot (on_env_bus take_request) buffer stack id
  end.

Fixpoint l2c_run_all (evs : list l2c_event) : M pair unit :=
  match evs with [] => ret tt | ev :: evs => l2c_run ev ;; l2c_run_all evs end.

(** The driver's start and the first part of [main]; a driver whose start failed
    is not ready. *)
Definition l2c_boot (max : Z) (mode : lin_mode) (setup : bool -> M (l2c_world env) Z) : M board Z :=
  let* err := lin2can_init cfg max mode 0 in
  on_bus (setup (err =? 0)).

(** ** The specification: two counters per direction *)

(** The frames sent and received, of the commander and of the responder. *)
Record traffic := Traffic { c_sent : nat; c_heard : nat; r_sent : nat; r_heard : nat }.

Definition traffic_spec (ev : l2c_event) (t : traffic) : traffic :=
  match ev with
  | CommanderRun => if decide (c_sent t = c_heard t) then Traffic (S (c_sent t)) (c_heard t) (r_sent t) (r_heard t) else t
  | ResponderRun =>
      if decide (r_sent t < r_heard t + capacity (E := Q))%nat then Traffic (c_sent t) (c_heard t) (S (r_sent t)) (r_heard t) else t
  | Slot id =>
      if decide (id = CONFIG_LIN2CAN_MASTER_REQUEST_ID cfg) then Traffic (c_sent t) (c_sent t) (r_sent t) (r_heard t)
      else if decide (id = CONFIG_LIN2CAN_SLAVE_RESPONSE_ID cfg) then
        Traffic (c_sent t) (c_heard t) (r_sent t) (if decide (r_heard t < r_sent t)%nat then S (r_heard t) else r_heard t)
      else t
  end.

Definition traffic_spec_all (evs : list l2c_event) : traffic := fold_left (fun t ev => traffic_spec ev t) evs (Traffic 0 0 0 0).

Definition nth_commander_frame (n : nat) : can_frame := commander_frame (Z.of_nat n mod 256).
Definition nth_responder_frame (n : nat) : can_frame := responder_frame (Z.of_nat n mod 256).

(** The frames a program was handed. *)
Definition dumps (w : board) : list (list Z) :=
  omap (fun m => match m with HexDump d => Some d | _ => None end) (messages (vars (l2c_ext (al_ext w)))).

(** ** Lemmas: the driver, with all that surrounds it *)

Context (Hcfg : mapping_ok cfg).
Implicit Types (d : lin2can_data) (v : l2c_vars) (q : Q) (b : B).

Lemma send_env fr t f u : frame (fun w : l2c_world env => (l2c_data w, vars (l2c_ext w), bus (l2c_ext w))) (lin2can_send cfg fr t f u).
Proof.
  unfold lin2can_send. apply frame_if; [auto with ardep_frame|]. apply frame_bind; [unfold get_l2c; auto with ardep_frame|]. intros d.
  apply frame_if; [auto with ardep_frame|]. apply frame_bind; [auto with ardep_frame|]. intros x.
  apply frame_bind; [|intros err; apply frame_if; auto with ardep_frame].
  intros w a w'. unfold on_queue, k_msgq_put, env_queue, zoom. destruct (k_msgq_put _ _ (msgq (l2c_ext w))); by intros [= <- <-].
Qed.

Lemma send_env_run fr t f u d v q b : transportable cfg fr -> (length (queue q) < capacity (E := Q))%nat ->
  exists q', lin2can_send cfg fr t (Some f) u (L2cWorld d (L2cEnv v q b)) = Ret 0 (L2cWorld d (L2cEnv v q' b)) /\
    queue q' = queue q ++ [outgoing cfg (outgoing_id d) f u fr].
Proof.
  intros Hfr Hroom. assert (length (queue (L2cEnv v q b)) < capacity (E := env))%nat as Hroom' by exact Hroom.
  destruct (send_run cfg Hcfg fr f u t (L2cWorld d (L2cEnv v q b)) Hfr Hroom') as (e' & Hrun & Hq).
  pose proof (send_env fr t (Some f) u _ _ _ Hrun) as [= Hv Hb]. destruct e' as [v' q' b']. cbn in Hv, Hb, Hq. subst v' b'. by exists q'.
Qed.

(** The program after the end of a transmission. *)
Definition after_tx (f : nat) (v : l2c_vars) : l2c_vars :=
  if decide (f = can_tx_default_fn) then set_tx_waits false v else add_message TxComplete v.

Lemma outgoing_env_run frame fr f u l d v q b : queue q = OutgoingFrame fr (Some f) u :: l ->
  exists q', lin_outgoing_cb frame (L2cWorld d (L2cEnv v q b)) = Ret (true, fr) (L2cWorld d (L2cEnv (after_tx f v) q' b)) /\ queue q' = l.
Proof.
  intros Hq. destruct (get_head q _ _ Hq) as (q' & Hget & Hq'). exists q'. split; [|done].
  unfold lin_outgoing_cb. unfold bind at 1. unfold on_queue, k_msgq_get, env_queue, zoom. cbn [l2c_ext msgq]. rewrite Hget.
  unfold after_tx. cbn. by case_decide.
Qed.

Lemma outgoing_env_empty frame d v q b : queue q = [] ->
  lin_outgoing_cb frame (L2cWorld d (L2cEnv v q b)) = Ret (false, frame) (L2cWorld d (L2cEnv v q b)).
Proof.
  intros Hq. unfold lin_outgoing_cb. unfold bind at 1. unfold on_queue, k_msgq_get, env_queue, zoom. cbn [l2c_ext msgq]. by rewrite get_empty.
Qed.

Lemma incoming_env_run fr id d v q b u : transportable cfg fr -> length (incoming_callbacks d) = 4%nat ->
  receiver cfg d (can_id fr) = Some (can_rx_handler_fn, u) ->
  lin_incoming_cb cfg (lin_encoding cfg id fr) (L2cWorld d (L2cEnv v q b)) =
    Ret tt (L2cWorld d (L2cEnv (add_message (HexDump (padded_data fr)) v) q b)).
Proof.
  intros Hfr Hl Hr. rewrite (incoming_run cfg Hcfg) by done. cbn [l2c_data]. rewrite Hr. cbn. unfold can_rx_handler, update_vars, modify.
  cbn. rewrite take_ge; [done|]. rewrite padded_length; [done|apply Hfr|apply Hfr].
Qed.

#[local] Instance env_callback_laws : LinCallbackLaws (l2c_world env).
Proof. constructor; intros f fr u; cbn; case_decide; apply on_bus_table || done. Qed.

(** ** The invariant *)

Context (max : Z) (Hmax : 0 <= max <= 255) (Hids : lin_ids_ok cfg).
Context (H80 : 0x80 ∈ id_mapping cfg) (H180 : 0x180 ∈ id_mapping cfg) (Hcap : (1 <= capacity (E := Q))%nat).
#[local] Abbreviation REQUEST := (CONFIG_LIN2CAN_MASTER_REQUEST_ID cfg).
#[local] Abbreviation RESPONSE := (CONFIG_LIN2CAN_SLAVE_RESPONSE_ID cfg).

(** A board after its start that listens to the CAN identifier [id]. *)
Record node_ok (mode : lin_mode) (id : Z) (t : abstract_lin_data) (d : lin2can_data) : Prop := NodeOk {
  node_wf : lin_wf max t;
  node_table : handlers t = <[node_outgoing_id cfg mode := out_entry cfg mode 0]> (<[node_incoming_id cfg mode := in_entry cfg mode 0]> ∅);
  node_slots : length (incoming_callbacks d) = 4%nat;
  node_out : outgoing_id d = node_outgoing_id cfg mode;
  node_receiver : receiver cfg d id = Some (can_rx_handler_fn, 0);
}.

(** The frames from number [i] on that wait in a queue. *)
Definition queued_from (lin_id : Z) (f : nat) (frame : nat -> can_frame) (i j : nat) : list lin2can_outgoing_frame_t :=
  outgoing cfg lin_id f 0 <$> (frame <$> seq i (j - i)).

Definition heard (frame : nat -> can_frame) (n : nat) : list (list Z) := (fun k => padded_data (frame k)) <$> seq 0 n.

Record carried (t : traffic) (s : pair) : Prop := Carried {
  ca_commander : node_ok LIN_MODE_COMMANDER 0x80 (al_data s.1) (l2c_data (al_ext s.1));
  ca_responder : node_ok LIN_MODE_RESPONDER 0x180 (al_data s.2) (l2c_data (al_ext s.2));
  ca_bus : pending (bus (l2c_ext (al_ext s.1))) = [];
  ca_c : (c_heard t <= c_sent t <= S (c_heard t))%nat;
  ca_r : (r_heard t <= r_sent t <= r_heard t + capacity (E := Q))%nat;
  ca_c_byte : next_byte (vars (l2c_ext (al_ext s.1))) = Z.of_nat (c_sent t) mod 256;
  ca_r_byte : next_byte (vars (l2c_ext (al_ext s.2))) = Z.of_nat (r_sent t) mod 256;
  ca_waits : tx_waits (vars (l2c_ext (al_ext s.1))) = bool_decide (c_sent t <> c_heard t);
  ca_c_queue : queue (msgq (l2c_ext (al_ext s.1))) = queued_from REQUEST can_tx_default_fn nth_commander_frame (c_heard t) (c_sent t);
  ca_r_queue : queue (msgq (l2c_ext (al_ext s.2))) = queued_from RESPONSE can_tx_cb_fn nth_responder_frame (r_heard t) (r_sent t);
  ca_c_dumps : dumps s.1 = heard nth_responder_frame (r_heard t);
  ca_r_dumps : dumps s.2 = heard nth_commander_frame (c_heard t);
}.

Lemma queued_from_end lin_id f fr i j : (i <= j)%nat -> queued_from lin_id f fr i j ++ [outgoing cfg lin_id f 0 (fr j)] = queued_from lin_id f fr i (S j).
Proof.
  intros H. unfold queued_from. replace (S j - i)%nat with (S (j - i)) by lia. rewrite seq_S, !fmap_app. cbn.
  by replace (i + (j - i))%nat with j by lia.
Qed.

Lemma queued_from_head lin_id f fr i j : (i < j)%nat -> queued_from lin_id f fr i j = outgoing cfg lin_id f 0 (fr i) :: queued_from lin_id f fr (S i) j.
Proof. intros H. unfold queued_from. replace (j - i)%nat with (S (j - S i)) by lia. done. Qed.

Lemma queued_from_none lin_id f fr i : queued_from lin_id f fr i i = [].
Proof. unfold queued_from. by rewrite Nat.sub_diag. Qed.

Lemma length_queued_from lin_id f fr i j : length (queued_from lin_id f fr i j) = (j - i)%nat.
Proof. unfold queued_from. by rewrite !length_fmap, length_seq. Qed.

Lemma heard_S fr n : heard fr (S n) = heard fr n ++ [padded_data (fr n)].
Proof. unfold heard. by rewrite seq_S, fmap_app. Qed.

Lemma next_byte_S n : u8 (Z.of_nat n mod 256 + 1) = Z.of_nat (S n) mod 256.
Proof. unfold u8, wrap. rewrite Nat2Z.inj_succ, <- Z.add_1_r. change (2 ^ 8) with 256. by rewrite Zplus_mod_idemp_l. Qed.

Lemma byte_range n : 0 <= Z.of_nat n mod 256 < 256.
Proof. by apply Z.mod_pos_bound. Qed.

Lemma commander_transportable n : transportable cfg (nth_commander_frame n).
Proof. split; [done|]. split; [cbn; lia|]. split; [done|]. do 2 eexists. split; [reflexivity|lia]. Qed.

Lemma responder_transportable n : transportable cfg (nth_responder_frame n).
Proof. split; [done|]. split; [cbn; lia|]. split; [done|]. do 2 eexists. split; [reflexivity|lia]. Qed.

#[local] Arguments queued_from : simpl never.
#[local] Arguments heard : simpl never.
#[local] Arguments Z.modulo : simpl never.

(** The programs run on. *)
Lemma commander_event t s : carried t s -> exists s', l2c_run CommanderRun s = Ret tt s' /\ carried (traffic_spec CommanderRun t) s'.
Proof.
  destruct s as [ [tc [dc [v q b] ] ] wr]. intros Hs. pose proof Hs as [ [Hwf Ht Hsl Ho Hrx] Hr Hb Hc Hrr Hcb Hrb Hw Hcq Hrq Hcd Hrd].
  cbn [fst snd al_data al_ext l2c_data l2c_ext vars msgq bus] in *. unfold l2c_run, traffic_spec.
  destruct (decide (c_sent t = c_heard t)) as [He|Hne].
  2: { erewrite on_commander_run; [eexists; split; [reflexivity|exact Hs]|]. apply on_bus_run. unfold bind, gets. cbn [l2c_ext vars].
       rewrite Hw, bool_decide_true by done. reflexivity. }
  rewrite bool_decide_false in Hw by auto. rewrite He, queued_from_none in Hcq.
  set (v' := set_tx_waits true (set_next_byte (u8 (next_byte v + 1)) v)).
  destruct (send_env_run (nth_commander_frame (c_sent t)) K_FOREVER can_tx_default_fn 0 dc v' q b) as (q' & Hrun & Hq');
    [apply commander_transportable|rewrite Hcq; cbn; lia|].
  rewrite Hcq, Ho, He in Hq'.
  exists (AlWorld tc (L2cWorld dc (L2cEnv v' q' b)), wr). split.
  - apply on_commander_run, on_bus_run. unfold bind at 1, gets. cbn [l2c_ext vars]. rewrite Hw. unfold l2c_commander_round.
    unfold bind at 1, gets. cbn [l2c_ext vars]. erewrite bind_step by reflexivity. erewrite bind_step by reflexivity.
    cbn [l2c_data l2c_ext vars msgq bus]. fold v'. erewrite bind_step; [|rewrite Hcb; exact Hrun]. reflexivity.
  - constructor; cbn; try done; try lia.
    + by rewrite Hcb, next_byte_S.
    + by rewrite bool_decide_true by lia.
    + rewrite Hq'. rewrite He, <- queued_from_end by done. by rewrite queued_from_none.
Qed.

Lemma responder_event t s : carried t s -> exists s', l2c_run ResponderRun s = Ret tt s' /\ carried (traffic_spec ResponderRun t) s'.
Proof.
  destruct s as [wc [tr [dr [v q b] ] ] ]. intros Hs. pose proof Hs as [Hc0 [Hwf Ht Hsl Ho Hrx] Hb Hc Hrr Hcb Hrb Hw Hcq Hrq Hcd Hrd].
  cbn [fst snd al_data al_ext l2c_data l2c_ext vars msgq bus] in *. unfold l2c_run, traffic_spec.
  assert (length (queue q) < capacity (E := Q) <-> r_sent t < r_heard t + capacity (E := Q))%nat as Hroom
    by (rewrite Hrq, length_queued_from; lia).
  destruct (decide (r_sent t < r_heard t + capacity (E := Q))%nat) as [Hlt|Hge].
  2: { erewrite on_responder_run; [eexists; split; [reflexivity|exact Hs]|]. apply on_bus_run. unfold bind, gets. cbn [l2c_ext queue env_queue_laws msgq].
       rewrite bool_decide_false by tauto. reflexivity. }
  set (v' := set_next_byte (u8 (next_byte v + 1)) v).
  destruct (send_env_run (nth_responder_frame (r_sent t)) K_FOREVER can_tx_cb_fn 0 dr v' q b) as (q' & Hrun & Hq');
    [apply responder_transportable|tauto|]. rewrite Hrq, Ho in Hq'.
  exists (wc, AlWorld tr (L2cWorld dr (L2cEnv v' q' b))). split.
  - apply on_responder_run, on_bus_run. unfold bind at 1, gets. cbn [l2c_ext queue env_queue_laws msgq]. rewrite bool_decide_true by tauto.
    unfold l2c_responder_round. unfold bind at 1, gets. cbn [l2c_ext vars]. erewrite bind_step by reflexivity.
    cbn [l2c_data l2c_ext vars msgq bus]. fold v'. erewrite bind_step; [|rewrite Hrb; exact Hrun]. reflexivity.
  - constructor; cbn; try done; try lia.
    + by rewrite Hrb, next_byte_S.
    + rewrite Hq'. apply queued_from_end. lia.
Qed.

(** What the callbacks in the tables do. *)
Lemma lin_ids : REQUEST <= 0x3F /\ RESPONSE <= 0x3F /\ REQUEST <> RESPONSE.
Proof. destruct Hids as (? & ? & ?). split_and!; lia. Qed.

Lemma commander_entries t d id : node_ok LIN_MODE_COMMANDER id t d ->
  handlers t !! REQUEST = Some (CallbackEntry REQUEST 8 OUTGOING (Some LIN_OUTGOING_CB) 0) /\
  handlers t !! RESPONSE = Some (CallbackEntry RESPONSE 8 INCOMING (Some LIN_INCOMING_CB) 0) /\
  forall k, k <> REQUEST -> k <> RESPONSE -> handlers t !! k = None.
Proof.
  intros [_ -> _ _ _]. pose proof lin_ids. cbn. split_and!.
  - by rewrite lookup_insert_eq.
  - rewrite lookup_insert_ne by tauto. by rewrite lookup_insert_eq.
  - intros k H1 H2. by rewrite !lookup_insert_ne by auto.
Qed.

Lemma responder_entries t d id : node_ok LIN_MODE_RESPONDER id t d ->
  handlers t !! REQUEST = Some (CallbackEntry REQUEST 8 INCOMING (Some LIN_INCOMING_CB) 0) /\
  handlers t !! RESPONSE = Some (CallbackEntry RESPONSE 8 OUTGOING (Some LIN_OUTGOING_CB) 0).
Proof.
  intros [_ -> _ _ _]. pose proof lin_ids. cbn. split.
  - rewrite lookup_insert_ne by (intros ?; intuition congruence). by rewrite lookup_insert_eq.
  - by rewrite lookup_insert_eq.
Qed.

Lemma outgoing_cb_run t frame w r w' : lin_outgoing_cb frame w = Ret r w' ->
  outgoing_cb LIN_OUTGOING_CB frame 0 (AlWorld t w) = Ret r (AlWorld t w').
Proof. intros H. cbn. by apply on_bus_run. Qed.

Lemma incoming_cb_run t frame w w' : lin_incoming_cb cfg frame w = Ret tt w' ->
  incoming_cb LIN_INCOMING_CB frame 0 (AlWorld t w) = Ret tt (AlWorld t w').
Proof. intros H. cbn. by apply on_bus_run. Qed.

Lemma env_lin_send f d v q b b' : lin_send f b = Ret 0 b' -> lin_send f (L2cWorld d (L2cEnv v q b)) = Ret 0 (L2cWorld d (L2cEnv v q b')).
Proof. intros H. cbn. unfold on_env_bus, zoom. cbn. by rewrite H. Qed.

Lemma env_lin_receive id n d v q b b' : lin_receive id LIN_CHECKSUM_AUTO n b = Ret 0 b' ->
  lin_receive id LIN_CHECKSUM_AUTO n (L2cWorld d (L2cEnv v q b)) = Ret 0 (L2cWorld d (L2cEnv v q b')).
Proof. intros H. cbn. unfold on_env_bus, zoom. cbn. by rewrite H. Qed.

Lemma env_take d v q b r b' : take_request b = Ret r b' -> on_env_bus take_request (L2cWorld d (L2cEnv v q b)) = Ret r (L2cWorld d (L2cEnv v q b')).
Proof. intros H. unfold on_env_bus, zoom. cbn. by rewrite H. Qed.

Lemma dumps_snoc t d v q b x : dumps (AlWorld t (L2cWorld d (L2cEnv (add_message (HexDump x) v) q b))) = dumps (AlWorld t (L2cWorld d (L2cEnv v q b))) ++ [x].
Proof. unfold dumps. cbn. by rewrite omap_app. Qed.

Lemma dumps_tx t d v q b f q' b' t' d' : dumps (AlWorld t' (L2cWorld d' (L2cEnv (after_tx f v) q' b'))) = dumps (AlWorld t (L2cWorld d (L2cEnv v q b))).
Proof. unfold dumps, after_tx. cbn. case_decide; cbn; [done|]. rewrite omap_app. cbn. by rewrite app_nil_r. Qed.

(** A slot of the commander's frame. *)
Lemma request_event t s : carried t s -> exists s', l2c_run (Slot REQUEST) s = Ret tt s' /\ carried (traffic_spec (Slot REQUEST) t) s'.
Proof.
  destruct s as [ [tc [dc [vc qc bc] ] ] [tr [dr [vr qr br] ] ] ]. intros [Hnc Hnr Hb Hc Hrr Hcb Hrb Hw Hcq Hrq Hcd Hrd].
  cbn [fst snd al_data al_ext l2c_data l2c_ext vars msgq bus] in *. unfold l2c_run, traffic_spec. rewrite decide_True by done.
  pose proof lin_ids as (Hreq & _ & _). destruct (commander_entries _ _ _ Hnc) as (Hout & _ & _), (responder_entries _ _ _ Hnr) as (Hin & _).
  destruct (decide (c_sent t = c_heard t)) as [He|Hne].
  - rewrite He, queued_from_none in Hcq. destruct (take_law bc) as (b1 & Ht1 & Hp1). rewrite Hb in Ht1, Hp1.
    erewrite (slot_unsent _ _ _ max Hmax); [|apply Hnc|done|exact Hout|by apply outgoing_cb_run, outgoing_env_empty|by apply env_take].
    eexists. split; [reflexivity|]. rewrite He in *. by constructor; cbn; try done; try lia; rewrite ?queued_from_none, ?bool_decide_false by auto.
  - assert (c_sent t = S (c_heard t)) as He by lia. rewrite He, (queued_from_head _ _ _ (c_heard t)), queued_from_none in Hcq by lia.
    set (fr := lin_encoding cfg REQUEST (nth_commander_frame (c_heard t))).
    destruct (outgoing_env_run (LinFrame REQUEST 8 LIN_CHECKSUM_AUTO stack) _ _ _ _ dc vc qc bc Hcq) as (q1 & Ho1 & Hq1).
    destruct (lin_send_law fr bc) as (b1 & Hs1 & Hp1). rewrite Hb in Hp1. destruct (take_law b1) as (b2 & Ht2 & Hp2). rewrite Hp1 in Ht2, Hp2.
    erewrite (slot_sent _ _ _ max Hmax); [|apply Hnc|apply Hnr|done|exact Hout|exact Hin|apply outgoing_cb_run; exact Ho1| |].
    2: { apply (env_lin_send fr). exact Hs1. } 2: { apply env_take. exact Ht2. }
    erewrite on_responder_run by (apply incoming_cb_run, (incoming_env_run _ REQUEST dr vr qr br 0);
      [apply commander_transportable|apply Hnr|apply Hnr]).
    eexists. split; [reflexivity|]. rewrite He in *. constructor; cbn; try done; try lia.
    + by rewrite bool_decide_false by auto.
    + by rewrite queued_from_none.
    + rewrite heard_S, <- Hrd. apply dumps_snoc.
Qed.

(** A slot of the responder's frame. *)
Lemma response_event t s : carried t s -> exists s', l2c_run (Slot RESPONSE) s = Ret tt s' /\ carried (traffic_spec (Slot RESPONSE) t) s'.
Proof.
  destruct s as [ [tc [dc [vc qc bc] ] ] [tr [dr [vr qr br] ] ] ]. intros [Hnc Hnr Hb Hc Hrr Hcb Hrb Hw Hcq Hrq Hcd Hrd].
  cbn [fst snd al_data al_ext l2c_data l2c_ext vars msgq bus] in *. pose proof lin_ids as (Hreq & Hrsp & Hne). unfold l2c_run, traffic_spec.
  rewrite decide_False, decide_True by auto.
  destruct (commander_entries _ _ _ Hnc) as (_ & Hin & _), (responder_entries _ _ _ Hnr) as (_ & Hout).
  destruct (receive_law RESPONSE LIN_CHECKSUM_AUTO 8 bc) as (b1 & Hr1 & Hp1). rewrite Hb in Hp1.
  destruct (take_law b1) as (b2 & Ht2 & Hp2). rewrite Hp1 in Ht2, Hp2.
  erewrite (slot_requested _ _ _ max Hmax); [|apply Hnc|done|exact Hin|by apply env_lin_receive|apply env_take; exact Ht2]. cbn [al_data].
  assert (lin_header_callback (header buffer RESPONSE) (AlWorld tr (L2cWorld dr (L2cEnv vr qr br))) =
    header_response (header buffer RESPONSE) (Some (CallbackEntry RESPONSE 8 OUTGOING (Some LIN_OUTGOING_CB) 0)) (AlWorld tr (L2cWorld dr (L2cEnv vr qr br)))) as Hh.
  { rewrite (header_run max Hmax) by apply Hnr. cbn [al_data]. change (frame_id (header buffer RESPONSE)) with RESPONSE. by rewrite Hout. }
  cbn [header_response cb_type cb_fn cb_frame_size cb_user_data] in Hh.
  destruct (decide (r_heard t < r_sent t)%nat) as [Hlt|Hge].
  - rewrite queued_from_head in Hrq by done.
    destruct (outgoing_env_run (set_frame_type LIN_CHECKSUM_AUTO (set_frame_len 8 (header buffer RESPONSE))) _ _ _ _ dr vr qr br Hrq) as (q1 & Ho1 & Hq1).
    rewrite (bind_step _ _ _ _ _ (outgoing_cb_run tr _ _ _ _ Ho1)) in Hh.
    erewrite (carry_answer _ max Hmax) with (3 := Hh); [|apply Hnc|exact Hin|done|done].
    erewrite on_commander_run by (apply incoming_cb_run, (incoming_env_run _ RESPONSE dc vc qc b2 0);
      [apply responder_transportable|apply Hnc|apply Hnc]).
    eexists. split; [reflexivity|]. constructor; cbn; try done; try lia.
    + rewrite heard_S, <- Hcd. apply dumps_snoc.
    + rewrite <- Hrd. apply (dumps_tx tr dr vr qr br can_tx_cb_fn).
  - replace (r_heard t) with (r_sent t) in * by lia. rewrite queued_from_none in Hrq.
    rewrite (bind_step _ _ _ _ _ (outgoing_cb_run tr _ _ _ _ (outgoing_env_empty _ dr vr qr br Hrq))) in Hh. cbn beta iota in Hh.
    rewrite (carry_silence _ (_, _) _ _ _ _ Hh). eexists. split; [reflexivity|].
    constructor; cbn; try done; try lia. by rewrite queued_from_none.
Qed.

(** Another slot: the commander has no callback for it. *)
Lemma other_event id t s : id <> REQUEST -> id <> RESPONSE -> carried t s ->
  exists s', l2c_run (Slot id) s = Ret tt s' /\ carried (traffic_spec (Slot id) t) s'.
Proof.
  intros H1 H2. destruct s as [ [tc [dc [vc qc bc] ] ] wr]. intros [Hnc Hnr Hb Hc Hrr Hcb Hrb Hw Hcq Hrq Hcd Hrd].
  cbn [fst snd al_data al_ext l2c_data l2c_ext vars msgq bus] in *. unfold l2c_run, traffic_spec. rewrite !decide_False by done.
  destruct (take_law bc) as (b1 & Ht1 & Hp1). rewrite Hb in Ht1, Hp1.
  erewrite (slot_unknown _ _ _ max Hmax); [|apply Hnc|by apply (commander_entries _ _ _ Hnc)|by apply env_take].
  eexists. split; [reflexivity|]. by constructor.
Qed.

Lemma l2c_step ev t s : carried t s -> exists s', l2c_run ev s = Ret tt s' /\ carried (traffic_spec ev t) s'.
Proof.
  destruct ev as [| |id]; [apply commander_event|apply responder_event|].
  destruct (decide (id = REQUEST)) as [->|H1]; [apply request_event|]. destruct (decide (id = RESPONSE)) as [->|H2]; [apply response_event|].
  by apply other_event.
Qed.

Lemma l2c_steps evs : forall t s, carried t s -> exists s', l2c_run_all evs s = Ret tt s' /\ carried (fold_left (fun t ev => traffic_spec ev t) evs t) s'.
Proof.
  induction evs as [|ev evs IH]; intros t s H; [by exists s|]. destruct (l2c_step ev t s H) as (s1 & H1 & Hc1).
  destruct (IH _ s1 Hc1) as (s2 & H2 & Hc2). exists s2. cbn [l2c_run_all]. by rewrite (bind_step _ _ _ _ _ H1).
Qed.

(** ** The start *)

(** A filter for one identifier. *)
Lemma add_filter_run d (e : env) k id s f u : id_mapping cfg !! k = Some id -> incoming_callbacks d !! k = Some s -> rx_callback s = None ->
  lin2can_add_rx_filter cfg (Some f) u (CanFilter id CAN_STD_ID_MASK) (L2cWorld d e) =
  Ret (Z.of_nat k) (L2cWorld (Lin2CanData (<[k := RxSlot (Some f) u]> (incoming_callbacks d)) (outgoing_id d) (incoming_id d)) e).
Proof.
  intros Hk Hs Hn. unfold lin2can_add_rx_filter. change (Z.land _ 2047 =? 0) with false. cbn [filter_mask filter_id].
  rewrite Z.eqb_refl. cbn [negb andb]. rewrite (map_from_can_id_found cfg Hcfg k id Hk).
  rewrite (proj2 (Z.eqb_neq _ _)) by (apply mapping_lookup in Hk; lia).
  rewrite (bind_step _ _ _ _ _ (slot_at_run k s (L2cWorld d e) Hs)). rewrite Hn, decide_False by auto.
  erewrite bind_step; [reflexivity|]. apply write_slot_run. by apply lookup_lt_Some in Hs.
Qed.

(** The two kinds of [main]: a filter for one identifier, and no received frame. *)
Definition listens (setup : bool -> M (l2c_world env) Z) (id : Z) : Prop := forall d e r w,
  lin2can_add_rx_filter cfg (Some can_rx_handler_fn) 0 (CanFilter id CAN_STD_ID_MASK) (L2cWorld d e) = Ret r w ->
  exists w', setup true (L2cWorld d e) = Ret 0 w' /\ l2c_data w' = l2c_data w /\ msgq (l2c_ext w') = msgq (l2c_ext w) /\
    bus (l2c_ext w') = bus (l2c_ext w) /\ next_byte (vars (l2c_ext w')) = next_byte (vars (l2c_ext w)) /\
    tx_waits (vars (l2c_ext w')) = tx_waits (vars (l2c_ext w)) /\ forall t, dumps (AlWorld t w') = dumps (AlWorld t w).

Lemma commander_listens : listens (l2c_commander_setup cfg) 0x80.
Proof.
  intros d e r w H. unfold l2c_commander_setup. cbn [negb]. rewrite (bind_step _ _ _ _ _ H).
  destruct (negb (r =? 0)); (eexists; split; [reflexivity|]); split_and!; try done. intros t. unfold dumps. cbn. rewrite omap_app. cbn. by rewrite app_nil_r.
Qed.

Lemma responder_listens : listens (l2c_responder_setup cfg) 0x180.
Proof. intros d e r w H. unfold l2c_responder_setup. cbn [negb]. rewrite (bind_step _ _ _ _ _ H). by eexists. Qed.

Definition power_up (q : Q) (b : B) : board := AlWorld (abstract_lin_data_init max) (L2cWorld lin2can_data_init (L2cEnv l2c_vars_init q b)).

Lemma boot_run mode setup id q b : 2 <= max -> id ∈ id_mapping cfg -> listens setup id ->
  exists w, l2c_boot max mode setup (power_up q b) = Ret 0 w /\ node_ok mode id (al_data w) (l2c_data (al_ext w)) /\
    msgq (l2c_ext (al_ext w)) = q /\ bus (l2c_ext (al_ext w)) = b /\ next_byte (vars (l2c_ext (al_ext w))) = 0 /\
    tx_waits (vars (l2c_ext (al_ext w))) = false /\ dumps w = [].
Proof.
  intros Hmax2 Hid Hset. destruct (al_init_wf max ltac:(lia)) as [Hwf0 Hh0].
  destruct (lin2can_init_spec cfg max mode 0 (power_up q b) Hmax Hids Hwf0 eq_refl) as (r & w & Hrun & He & Hwf & Hrecv & Hcase).
  cbn [al_data power_up] in Hcase. rewrite Hh0 in Hcase. rewrite decide_True in Hcase.
  2: { split_and!; [rewrite map_size_empty; lia|apply lookup_empty|apply lookup_empty]. }
  destruct Hcase as (-> & Hat & Hh). unfold l2c_boot. rewrite (bind_step _ _ _ _ _ Hrun). cbn [Z.eqb].
  destruct w as [t [d e] ]. cbn [al_ext l2c_ext l2c_data al_data power_up] in *. subst e.
  apply list_elem_of_lookup in Hid as [k Hk]. pose proof (mapping_lookup _ _ _ Hk) as Hk4.
  pose proof (at_slots _ _ _ _ Hat) as Hsl. cbn in Hsl. destruct (lookup_lt_is_Some_2 (incoming_callbacks d) k ltac:(lia)) as [s Hs].
  pose proof (Hrecv id) as Hn. rewrite (receiver_at cfg Hcfg _ k id Hk), Hs in Hn. cbn in Hn.
  assert (rx_callback s = None) as Hnone by (by destruct (rx_callback s)).
  destruct (Hset _ _ _ _ (add_filter_run d (L2cEnv l2c_vars_init q b) k id s can_rx_handler_fn 0 Hk Hs Hnone))
    as (w' & Hw & Hd & Hq & Hb & Hnb & Htx & Hdm).
  exists (AlWorld t w'). split; [by apply on_bus_run|]. cbn [al_data al_ext]. rewrite Hd, Hq, Hb, Hnb, Htx, Hdm. split_and!; try done.
  constructor; cbn [l2c_data incoming_callbacks outgoing_id]; try done.
  - by rewrite length_insert.
  - by apply (at_outgoing _ _ _ _ Hat).
  - rewrite (receiver_at cfg Hcfg _ k id Hk). cbn [incoming_callbacks]. by rewrite list_lookup_insert_eq by lia.
Qed.

(** C34. Both boards start, and from then on, whatever the
    schedule and whenever the programs run, nothing faults, and each program has
    been handed exactly the frames the other one sent, padded, in their order,
    as far as the two counters of the specification say; the commander never
    has more than one frame under way, the responder not more than its queue
    takes. *)
Theorem can_samples_exchange q1 q2 b1 b2 : 2 <= max -> queue q1 = [] -> queue q2 = [] -> pending b1 = [] ->
  exists wc wr, l2c_boot max LIN_MODE_COMMANDER (l2c_commander_setup cfg) (power_up q1 b1) = Ret 0 wc /\
    l2c_boot max LIN_MODE_RESPONDER (l2c_responder_setup cfg) (power_up q2 b2) = Ret 0 wr /\
    forall evs, exists s, let t := traffic_spec_all evs in
      l2c_run_all evs (wc, wr) = Ret tt s /\
      dumps s.1 = heard nth_responder_frame (r_heard t) /\ dumps s.2 = heard nth_commander_frame (c_heard t) /\
      (c_heard t <= c_sent t <= S (c_heard t))%nat /\ (r_heard t <= r_sent t <= r_heard t + capacity (E := Q))%nat.
Proof.
  intros Hmax2 Hq1 Hq2 Hb1.
  destruct (boot_run LIN_MODE_COMMANDER _ 0x80 q1 b1 Hmax2 H80 commander_listens) as (wc & Hrc & Hnc & Hqc & Hbc & Hnbc & Htx & Hdc).
  destruct (boot_run LIN_MODE_RESPONDER _ 0x180 q2 b2 Hmax2 H180 responder_listens) as (wr & Hrr & Hnr & Hqr & _ & Hnbr & _ & Hdr).
  exists wc, wr. split; [done|]. split; [done|]. intros evs.
  destruct (l2c_steps evs (Traffic 0 0 0 0) (wc, wr)) as (s & Hrun & Hs).
  { constructor; cbn [fst snd c_sent c_heard r_sent r_heard]; try done; try lia; by rewrite ?Hbc, ?Hqc, ?Hqr, ?queued_from_none. }
  exists s. split; [done|]. split_and!; apply Hs.
Qed.
End boards.
