(* ===== verification/Gpio.v ===== *)
(** * Zephyr's GPIO interface

    The types of drivers/gpio.h that the GPIO drivers of the repository share,
    single bits of a port value, and numbers read from and written to a list
    of pin levels. *)

From stdpp Require Import base list numbers.
From Stdlib Require Import ZArith Lia.
From S2P Require Import Prelude.

#[local] Open Scope Z_scope.

Inductive gpio_int_mode := GPIO_INT_MODE_DISABLED | GPIO_INT_MODE_LEVEL | GPIO_INT_MODE_EDGE | GPIO_INT_MODE_other (n : Z).
Inductive gpio_int_trig := GPIO_INT_TRIG_LOW | GPIO_INT_TRIG_HIGH | GPIO_INT_TRIG_BOTH | GPIO_INT_TRIG_other (n : Z).

(** The members of [gpio_flags_t] the drivers test. *)
Record gpio_flags_t := GpioFlags {
  GPIO_INPUT : bool;
  GPIO_OUTPUT : bool;
  GPIO_PULL_UP : bool;
  GPIO_PULL_DOWN : bool;
  GPIO_SINGLE_ENDED : bool;
  GPIO_OUTPUT_INIT_HIGH : bool;
}.

(** ** Bits *)

Definition BIT (n : Z) : Z := Z.shiftl 1 n.

Lemma testbit_BIT b i : 0 <= b -> 0 <= i -> Z.testbit (BIT b) i = bool_decide (i = b).
Proof.
  intros Hb Hi. unfold BIT. rewrite Z.shiftl_1_l, Z.pow2_bits_eqb by done.
  apply eq_true_iff_eq. rewrite Z.eqb_eq, bool_decide_eq_true. lia.
Qed.


(** The number whose binary digits are [l], the lowest first. *)
Definition of_bits (l : list bool) : Z := foldr (fun b z => Z.b2z b + 2 * z) 0 l.

Lemma of_bits_range l : 0 <= of_bits l < 2 ^ Z.of_nat (length l).
Proof.
  induction l as [|b l IH]; [by cbn|]. cbn [of_bits foldr length]. change (foldr _ 0 l) with (of_bits l).
  rewrite Nat2Z.inj_succ, Z.pow_succ_r by lia. destruct b; cbn [Z.b2z]; lia.
Qed.

Lemma testbit_of_bits l i : 0 <= i -> Z.testbit (of_bits l) i = default false (l !! Z.to_nat i).
Proof.
  revert i. induction l as [|b l IH]; intros i Hi; [by rewrite Z.testbit_0_l|].
  cbn [of_bits foldr]. change (foldr _ 0 l) with (of_bits l). rewrite Z.add_comm.
  destruct (decide (i = 0)) as [->|Hne]; [by rewrite Z.testbit_0_r|].
  replace i with (Z.succ (i - 1)) at 1 by lia. rewrite Z.testbit_succ_r by lia. rewrite IH by lia.
  by replace (Z.to_nat i) with (S (Z.to_nat (i - 1))) by lia.
Qed.

(** The test of one bit in a mask. *)
Lemma land_BIT v b : 0 <= b -> (Z.land v (BIT b) =? 0) = negb (Z.testbit v b).
Proof.
  intros Hb. apply eq_true_iff_eq. rewrite Z.eqb_eq, negb_true_iff. split; intros H.
  - assert (Z.testbit (Z.land v (BIT b)) b = false) as Ht by (by rewrite H, Z.testbit_0_l).
    by rewrite Z.land_spec, testbit_BIT, bool_decide_true, andb_true_r in Ht.
  - apply Z.bits_inj'. intros i Hi. rewrite Z.land_spec, testbit_BIT, Z.testbit_0_l by done.
    destruct (decide (i = b)) as [->|]; [by rewrite H|]. by rewrite bool_decide_false, andb_false_r.
Qed.

(** Setting and clearing one bit. *)
Lemma testbit_set v b i : 0 <= b -> 0 <= i -> Z.testbit (Z.lor v (BIT b)) i = if decide (i = b) then true else Z.testbit v i.
Proof.
  intros Hb Hi. rewrite Z.lor_spec, testbit_BIT by done. case_decide as H.
  - rewrite bool_decide_true by done. by rewrite orb_true_r.
  - rewrite bool_decide_false by done. by rewrite orb_false_r.
Qed.

Lemma testbit_clear v b i : 0 <= b -> 0 <= i -> Z.testbit (Z.ldiff v (BIT b)) i = if decide (i = b) then false else Z.testbit v i.
Proof.
  intros Hb Hi. rewrite Z.ldiff_spec, testbit_BIT by done. case_decide as H.
  - rewrite bool_decide_true by done. by rewrite andb_false_r.
  - rewrite bool_decide_false by done. by rewrite andb_true_r.
Qed.

(** Two numbers of [w] bits with the same bits. *)
Lemma bits_equal w a b : 0 <= a < 2 ^ w -> 0 <= b < 2 ^ w -> 0 <= w ->
  (forall i, 0 <= i < w -> Z.testbit a i = Z.testbit b i) -> a = b.
Proof.
  intros Ha Hb Hw H. apply Z.bits_inj'. intros i Hi. destruct (decide (i < w)) as [|Hge]; [by apply H|].
  rewrite <- (Z.mod_small a (2 ^ w)), <- (Z.mod_small b (2 ^ w)) by done.
  by rewrite !Z.mod_pow2_bits_high by lia.
Qed.
