(* ===== verification/PowerIoShield.v ===== *)
(** * Power I/O shield ([drivers/power_io_shield/])

    A GPIO driver for a 16-bit port expander on an I2C bus: six inverted
    inputs, six outputs and three fault inputs under the pin numbers of
    dt-bindings/power-io-shield.h, register caches, a semaphore around all
    register accesses, and a work item that turns the expander's interrupt
    into GPIO callbacks.

    The I2C bus, the interrupt GPIOs and the callback list of Zephyr are
    interfaces.  [PowerIoShieldEmul] models the emulator of the repository and
    is one implementation of the bus.  A registered callback runs while the
    driver holds its semaphore; it may call the driver. *)

From stdpp Require Import base gmap list numbers relations.
From Stdlib Require Import ZArith Lia.
From S2P Require Import Prelude.
From S2P Require Import Gpio.

#[local] Open Scope Z_scope.

(** ** Constants *)

(** dt-bindings/power-io-shield.h *)
Definition POWER_IO_SHIELD_INPUT_BASE : Z := 0x00.
Definition POWER_IO_SHIELD_OUTPUT_BASE : Z := 0x08.
Definition POWER_IO_SHIELD_FAULT_BASE : Z := 0x10.
Definition POWER_IO_SHIELD_BASE_MASK : Z := 0xf8.

(** hardware.h *)
Definition POWER_IO_SHIELD_OUTPUT_PINS_START : Z := 2.
Definition POWER_IO_SHIELD_OUTPUT_PINS_MASK : Z := Z.shiftl 0x3F POWER_IO_SHIELD_OUTPUT_PINS_START.
Definition POWER_IO_SHIELD_INPUT_PINS_START : Z := 8.
Definition POWER_IO_SHIELD_INPUT_PINS_MASK : Z := Z.shiftl 0x3F POWER_IO_SHIELD_INPUT_PINS_START.
Definition POWER_IO_SHIELD_FAULT0_PIN : Z := 14.
Definition POWER_IO_SHIELD_FAULT1_PIN : Z := 0.
Definition POWER_IO_SHIELD_FAULT2_PIN : Z := 1.
Definition POWER_IO_SHIELD_HARD_INVERT_PINS : Z := POWER_IO_SHIELD_INPUT_PINS_MASK.

(** power_io_shield.c *)
Definition REG_IODIRA : Z := 0x00.
Definition REG_IOCONA : Z := 0x0A.
Definition REG_INTCONA : Z := 0x08.
Definition REG_INTFA : Z := 0x0E.
Definition REG_INTCAPA : Z := 0x10.
Definition REG_DEFVALA : Z := 0x06.
Definition REG_GPINTENA : Z := 0x04.
Definition REG_GPIOA : Z := 0x12.

Definition ZEPHYR_PINS_PORT_MASK : Z :=
  Z.lor (Z.lor (Z.shiftl (Z.ones 6) POWER_IO_SHIELD_INPUT_BASE) (Z.shiftl (Z.ones 6) POWER_IO_SHIELD_OUTPUT_BASE))
    (Z.shiftl (Z.ones 3) POWER_IO_SHIELD_FAULT_BASE).

Definition EBUSY : Z := 16.

(** ** Pin numbers *)

Definition power_io_shield_zephyr_pin_to_gpio_bit (pin : Z) : Z :=
  let pin_base := Z.land pin POWER_IO_SHIELD_BASE_MASK in
  let pin_index := Z.ldiff pin POWER_IO_SHIELD_BASE_MASK in
  if pin_base =? POWER_IO_SHIELD_INPUT_BASE then pin_index + POWER_IO_SHIELD_INPUT_PINS_START
  else if pin_base =? POWER_IO_SHIELD_OUTPUT_BASE then pin_index + POWER_IO_SHIELD_OUTPUT_PINS_START
  else if pin_base =? POWER_IO_SHIELD_FAULT_BASE then
    if pin_index =? 0 then POWER_IO_SHIELD_FAULT0_PIN
    else if pin_index =? 1 then POWER_IO_SHIELD_FAULT1_PIN
    else if pin_index =? 2 then POWER_IO_SHIELD_FAULT2_PIN
    else 0
  else 0.

Definition power_io_shield_gpio_bits_to_zephyr_bits (mcp_pin_bits : Z) : Z :=
  let input_values :=
    Z.shiftr (Z.land mcp_pin_bits POWER_IO_SHIELD_INPUT_PINS_MASK) POWER_IO_SHIELD_INPUT_PINS_START in
  let output_values :=
    Z.shiftr (Z.land mcp_pin_bits POWER_IO_SHIELD_OUTPUT_PINS_MASK) POWER_IO_SHIELD_OUTPUT_PINS_START in
  let fault_values :=
    Z.lor (Z.lor (Z.land (Z.shiftr mcp_pin_bits POWER_IO_SHIELD_FAULT0_PIN) 1)
             (Z.shiftl (Z.land (Z.shiftr mcp_pin_bits POWER_IO_SHIELD_FAULT1_PIN) 1) 1))
      (Z.shiftl (Z.land (Z.shiftr mcp_pin_bits POWER_IO_SHIELD_FAULT2_PIN) 1) 2) in
  Z.lor (Z.lor (Z.shiftl input_values POWER_IO_SHIELD_INPUT_BASE)
           (Z.shiftl output_values POWER_IO_SHIELD_OUTPUT_BASE))
    (Z.shiftl fault_values POWER_IO_SHIELD_FAULT_BASE).

(** ** State *)

Record k_work := Work { work_handler : bool; work_pending : bool }.

Record power_io_shield_data := PioData {
  gpinten : Z;
  intcon : Z;
  defval : Z;
  gpio : Z;
  int_trigger_rising : Z;
  int_trigger_falling : Z;
  on_interrupt_work : k_work;
  write_interrupt_config_work : k_work;
  lock : Z;
}.

(** [POWER_IO_SHIELD_INIT]: zeroed. *)
Definition power_io_shield_data_init : power_io_shield_data :=
  PioData 0 0 0 0 0 0 (Work false false) (Work false false) 0.

Definition set_cache gi ic dv d :=
  PioData gi ic dv (gpio d) (int_trigger_rising d) (int_trigger_falling d) (on_interrupt_work d)
    (write_interrupt_config_work d) (lock d).
Definition set_gpio x d :=
  PioData (gpinten d) (intcon d) (defval d) x (int_trigger_rising d) (int_trigger_falling d) (on_interrupt_work d)
    (write_interrupt_config_work d) (lock d).
Definition set_triggers r f d :=
  PioData (gpinten d) (intcon d) (defval d) (gpio d) r f (on_interrupt_work d) (write_interrupt_config_work d) (lock d).
Definition set_on_interrupt_work x d :=
  PioData (gpinten d) (intcon d) (defval d) (gpio d) (int_trigger_rising d) (int_trigger_falling d) x
    (write_interrupt_config_work d) (lock d).
Definition set_write_config_work x d :=
  PioData (gpinten d) (intcon d) (defval d) (gpio d) (int_trigger_rising d) (int_trigger_falling d) (on_interrupt_work d)
    x (lock d).
Definition set_lock x d :=
  PioData (gpinten d) (intcon d) (defval d) (gpio d) (int_trigger_rising d) (int_trigger_falling d) (on_interrupt_work d)
    (write_interrupt_config_work d) x.

Record pio_world (E : Type) := PioWorld { pio : power_io_shield_data; pio_ext : E }.
Arguments PioWorld {E}.
Arguments pio {E}.
Arguments pio_ext {E}.

(** ** Interfaces *)

(** The I2C functions of Zephyr: 0 or a negative errno. *)
Class I2C (E : Type) := {
  i2c_write_dt : list Z -> M E Z;
  i2c_write_read_dt : Z -> nat -> M E (Z * list Z);
}.

(** The interrupt GPIOs of the device tree, and whether the bus device is
    ready. *)
Class IntGpios (E : Type) := {
  i2c_is_ready : E -> bool;
  int_gpio_is_ready : nat -> E -> bool;
  gpio_pin_configure_dt : nat -> M E Z;
  gpio_add_callback : M E Z;
  gpio_pin_interrupt_configure_dt : M E Z;
}.

(** gpio_utils.h: the callback list of the port; firing runs the callbacks
    whose pins are in the argument. *)
Class GpioCallbacks (E : Type) := {
  gpio_manage_callback : nat -> bool -> M (pio_world E) Z;
  gpio_fire_callbacks : Z -> M (pio_world E) unit;
}.

(** ** The driver *)

Section driver.
Context {E : Type} `{!I2C E} `{!IntGpios E} `{!GpioCallbacks E}.
(** [int_gpio_count] of the device tree node. *)
Context (int_gpio_count : nat).

Definition on_bus {A} (m : M E A) : M (pio_world E) A :=
  zoom pio_ext (fun e w => PioWorld (pio w) e) m.
Definition get_pio : M (pio_world E) power_io_shield_data := gets pio.
Definition update (f : power_io_shield_data -> power_io_shield_data) : M (pio_world E) unit :=
  modify (fun w => PioWorld (f (pio w)) (pio_ext w)).

(** [k_sem_take (&data->lock, K_FOREVER)]; with no unit left it waits. *)
Definition take_lock : M (pio_world E) unit :=
  let* d := get_pio in
  if 0 <? lock d then update (set_lock (lock d - 1)) else fail Blocked.

(** [K_NO_WAIT]: 0, or [-EBUSY]. *)
Definition try_lock : M (pio_world E) Z :=
  let* d := get_pio in
  if 0 <? lock d then (update (set_lock (lock d - 1)) ;; ret 0) else ret (- EBUSY).

(** A semaphore of limit 1. *)
Definition give_lock : M (pio_world E) unit :=
  update (fun d => set_lock (if lock d =? 1 then 1 else lock d + 1) d).

(** [k_work_submit]: 1 when the item was queued, 0 when it was queued
    already. *)
Definition submit (get : power_io_shield_data -> k_work) (set : k_work -> power_io_shield_data -> power_io_shield_data) :
    M (pio_world E) Z :=
  let* d := get_pio in
  if negb (work_handler (get d)) then fail AssertFailed
  else (update (set (Work true true)) ;; ret (if work_pending (get d) then 0 else 1)).

Definition write_u16_reg (reg_addr value : Z) : M (pio_world E) Z :=
  on_bus (i2c_write_dt [reg_addr; Z.land value 0xFF; Z.land (Z.shiftr value 8) 0xFF]).

(** The return value, and [*value] when it is 0. *)
Definition read_u16_reg (reg_addr : Z) : M (pio_world E) (Z * option Z) :=
  let* (r, buf) := on_bus (i2c_write_read_dt reg_addr 2) in
  if negb (r =? 0) then ret (r, None)
  else
    let* b0 := of_option OutOfBounds (buf !! 0%nat) in
    let* b1 := of_option OutOfBounds (buf !! 1%nat) in
    ret (0, Some (Z.lor b0 (Z.shiftl b1 8))).

Definition write_iocon (value : Z) : M (pio_world E) Z :=
  write_u16_reg REG_IOCONA (u16 (Z.lor (Z.shiftl value 8) value)).

Definition power_io_shield_int_gpio_handler : M (pio_world E) unit :=
  submit on_interrupt_work set_on_interrupt_work ;; ret tt.

(** The interrupts to report, from the caches, INTF and INTCAP. *)
Definition pending_interrupts (d : power_io_shield_data) (intf intcap : Z) : Z :=
  let level_interrupts := intcon d in
  let rising_edge_interrupts := Z.land intcap (int_trigger_rising d) in
  let falling_edge_interrupts := u16 (Z.land (Z.lnot intcap) (int_trigger_falling d)) in
  Z.land (Z.land (gpinten d) intf) (Z.lor (Z.lor level_interrupts rising_edge_interrupts) falling_edge_interrupts).

Definition power_io_shield_interrupt_work_handler : M (pio_world E) unit :=
  take_lock ;;
  let* (err, intf) := read_u16_reg REG_INTFA in
  match intf with
  | None => give_lock
  | Some intf =>
      if intf =? 0 then give_lock
      else
        let* (err, intcap) := read_u16_reg REG_INTCAPA in
        match intcap with
        | None => give_lock
        | Some intcap =>
            let* d := get_pio in
            let ints := pending_interrupts d intf intcap in
            gpio_fire_callbacks (power_io_shield_gpio_bits_to_zephyr_bits ints) ;;
            (if negb (Z.land (intcon d) ints =? 0)
             then (submit on_interrupt_work set_on_interrupt_work ;; ret tt) else ret tt) ;;
            give_lock
        end
  end.

Definition power_io_shield_port_get_raw : M (pio_world E) (Z * option Z) :=
  take_lock ;;
  let* (r, reg_value) := read_u16_reg REG_GPIOA in
  match reg_value with
  | None => give_lock ;; ret (- EIO, None)
  | Some reg_value =>
      update (set_gpio reg_value) ;;
      give_lock ;;
      ret (0, Some (power_io_shield_gpio_bits_to_zephyr_bits (Z.lxor reg_value POWER_IO_SHIELD_HARD_INVERT_PINS)))
  end.

Definition power_io_shield_gpio_set_masked_raw (mask value : Z) : M (pio_world E) Z :=
  let output_mask := u8 (Z.shiftr mask POWER_IO_SHIELD_OUTPUT_BASE) in
  let output_value := u8 (Z.shiftr value POWER_IO_SHIELD_OUTPUT_BASE) in
  let mapped_mask := Z.land (Z.shiftl output_mask POWER_IO_SHIELD_OUTPUT_PINS_START) POWER_IO_SHIELD_OUTPUT_PINS_MASK in
  let mapped_value := Z.land (Z.shiftl output_value POWER_IO_SHIELD_OUTPUT_PINS_START) POWER_IO_SHIELD_OUTPUT_PINS_MASK in
  take_lock ;;
  let* d := get_pio in
  let new_gpio := Z.lor (Z.ldiff (gpio d) mapped_mask) (Z.land mapped_value mapped_mask) in
  let* r := write_u16_reg REG_GPIOA new_gpio in
  if negb (r =? 0) then (give_lock ;; ret (- EIO))
  else (update (set_gpio new_gpio) ;; give_lock ;; ret 0).

Definition power_io_shield_gpio_set_bits_raw (mask : Z) : M (pio_world E) Z :=
  power_io_shield_gpio_set_masked_raw mask mask.
Definition power_io_shield_gpio_clear_bits_raw (mask : Z) : M (pio_world E) Z :=
  power_io_shield_gpio_set_masked_raw mask 0.

Definition power_io_shield_pin_configure (pin : Z) (flags : gpio_flags_t) : M (pio_world E) Z :=
  let bit := power_io_shield_zephyr_pin_to_gpio_bit pin in
  let pin_base := Z.land pin POWER_IO_SHIELD_BASE_MASK in
  if pin_base =? POWER_IO_SHIELD_INPUT_BASE then
    if GPIO_OUTPUT flags then ret (- ENOTSUP)
    else if GPIO_PULL_DOWN flags || GPIO_PULL_UP flags then ret (- ENOTSUP)
    else ret 0
  else if pin_base =? POWER_IO_SHIELD_OUTPUT_BASE then
    if GPIO_INPUT flags then ret (- ENOTSUP)
    else if GPIO_PULL_DOWN flags || GPIO_PULL_UP flags then ret (- ENOTSUP)
    else if GPIO_SINGLE_ENDED flags then ret (- ENOTSUP)
    else
      take_lock ;;
      update (fun d => set_gpio (if GPIO_OUTPUT_INIT_HIGH flags then Z.lor (gpio d) (BIT bit)
                                 else Z.ldiff (gpio d) (BIT bit)) d) ;;
      let* d := get_pio in
      let* r := write_u16_reg REG_GPIOA (gpio d) in
      give_lock ;;
      ret (if negb (r =? 0) then - EIO else 0)
  else if pin_base =? POWER_IO_SHIELD_FAULT_BASE then
    if GPIO_OUTPUT flags then ret (- ENOTSUP)
    else if GPIO_PULL_DOWN flags || GPIO_PULL_UP flags then ret (- ENOTSUP)
    else ret 0
  else ret (- ENOTSUP).

Definition power_io_shield_manage_callback (cb : nat) (set : bool) : M (pio_world E) Z :=
  gpio_manage_callback cb set.

Definition power_io_shield_write_interrupt_config_work_handler : M (pio_world E) unit :=
  take_lock ;;
  let* d := get_pio in
  write_u16_reg REG_DEFVALA (defval d) ;;
  write_u16_reg REG_INTCONA (intcon d) ;;
  write_u16_reg REG_GPINTENA (gpinten d) ;;
  give_lock.

(** The checks of mode and trigger before the semaphore is taken. *)
Definition interrupt_mode_supported (mode : gpio_int_mode) (trig : gpio_int_trig) : bool :=
  match mode, trig with
  | GPIO_INT_MODE_LEVEL, (GPIO_INT_TRIG_HIGH | GPIO_INT_TRIG_LOW) => true
  | GPIO_INT_MODE_LEVEL, _ => false
  | GPIO_INT_MODE_EDGE, (GPIO_INT_TRIG_HIGH | GPIO_INT_TRIG_LOW | GPIO_INT_TRIG_BOTH) => true
  | GPIO_INT_MODE_EDGE, _ => false
  | GPIO_INT_MODE_DISABLED, _ => true
  | GPIO_INT_MODE_other _, _ => false
  end.

(** The trigger as the expander sees it. *)
Definition inverted_trigger (bit : Z) (trig : gpio_int_trig) : gpio_int_trig :=
  if negb (Z.land (BIT bit) POWER_IO_SHIELD_HARD_INVERT_PINS =? 0) then
    match trig with
    | GPIO_INT_TRIG_HIGH => GPIO_INT_TRIG_LOW
    | GPIO_INT_TRIG_LOW => GPIO_INT_TRIG_HIGH
    | t => t
    end
  else trig.

(** The switch over the mode: the caches after it. *)
Definition configure_interrupt (bit : Z) (mode : gpio_int_mode) (trig : gpio_int_trig) (d : power_io_shield_data) :
    power_io_shield_data :=
  match mode with
  | GPIO_INT_MODE_DISABLED =>
      set_cache (Z.ldiff (gpinten d) (BIT bit)) (Z.ldiff (intcon d) (BIT bit)) (Z.ldiff (defval d) (BIT bit)) d
  | GPIO_INT_MODE_LEVEL =>
      set_cache (Z.lor (gpinten d) (BIT bit)) (Z.lor (intcon d) (BIT bit))
        (match trig with
         | GPIO_INT_TRIG_HIGH => Z.ldiff (defval d) (BIT bit)
         | GPIO_INT_TRIG_LOW => Z.lor (defval d) (BIT bit)
         | _ => defval d
         end) d
  | GPIO_INT_MODE_EDGE =>
      let d := set_cache (Z.lor (gpinten d) (BIT bit)) (Z.ldiff (intcon d) (BIT bit)) (defval d) d in
      match trig with
      | GPIO_INT_TRIG_HIGH =>
          set_triggers (Z.lor (int_trigger_rising d) (BIT bit)) (Z.ldiff (int_trigger_falling d) (BIT bit)) d
      | GPIO_INT_TRIG_LOW =>
          set_triggers (Z.ldiff (int_trigger_rising d) (BIT bit)) (Z.lor (int_trigger_falling d) (BIT bit)) d
      | GPIO_INT_TRIG_BOTH =>
          set_triggers (Z.lor (int_trigger_rising d) (BIT bit)) (Z.lor (int_trigger_falling d) (BIT bit)) d
      | _ => d
      end
  | GPIO_INT_MODE_other _ => d
  end.

(** [in_isr] is [k_is_in_isr ()].  The error of [k_work_submit] is stored in
    a variable of an inner block; the function returns the outer one. *)
Definition power_io_shield_pin_interrupt_configure (in_isr : bool) (pin : Z) (mode : gpio_int_mode)
    (trig : gpio_int_trig) : M (pio_world E) Z :=
  let base := Z.land pin POWER_IO_SHIELD_BASE_MASK in
  if negb (base =? POWER_IO_SHIELD_INPUT_BASE) && negb (base =? POWER_IO_SHIELD_FAULT_BASE) then ret (- ENOTSUP)
  else if negb (interrupt_mode_supported mode trig) then ret (- EINVAL)
  else
    let* err := if in_isr then try_lock else (take_lock ;; ret 0) in
    if err <? 0 then ret err
    else
      let bit := power_io_shield_zephyr_pin_to_gpio_bit pin in
      update (configure_interrupt bit mode (inverted_trigger bit trig)) ;;
      give_lock ;;
      (if in_isr then (submit write_interrupt_config_work set_write_config_work ;; ret tt)
       else power_io_shield_write_interrupt_config_work_handler) ;;
      ret 0.

(** The system work queue: taking an item off it and running it. *)
Definition run_on_interrupt_work : M (pio_world E) unit :=
  update (fun d => set_on_interrupt_work (Work (work_handler (on_interrupt_work d)) false) d) ;;
  power_io_shield_interrupt_work_handler.
Definition run_write_config_work : M (pio_world E) unit :=
  update (fun d => set_write_config_work (Work (work_handler (write_interrupt_config_work d)) false) d) ;;
  power_io_shield_write_interrupt_config_work_handler.

(** The loop over the interrupt GPIOs: 0, or the first error. *)
Fixpoint configure_int_gpios (n i : nat) : M (pio_world E) Z :=
  match n with
  | O => ret 0
  | S n =>
      let* ready := gets (fun w => int_gpio_is_ready i (pio_ext w)) in
      if negb ready then ret (- ENODEV)
      else
        let* r := on_bus (gpio_pin_configure_dt i) in
        if negb (r =? 0) then ret r else configure_int_gpios n (S i)
  end.

(** Adding the callback and enabling the interrupt of the first GPIO. *)
Definition enable_int_gpio : M (pio_world E) Z :=
  if (0 <? int_gpio_count)%nat then
    let* r := on_bus gpio_add_callback in
    if negb (r =? 0) then ret r else on_bus gpio_pin_interrupt_configure_dt
  else ret 0.

Definition iodir_value : Z :=
  Z.land (Z.lor (Z.lor (Z.lor POWER_IO_SHIELD_INPUT_PINS_MASK (BIT POWER_IO_SHIELD_FAULT0_PIN))
                   (BIT POWER_IO_SHIELD_FAULT1_PIN)) (BIT POWER_IO_SHIELD_FAULT2_PIN)) 0x7f7f.

Definition power_io_shield_init : M (pio_world E) Z :=
  let* ready := gets (fun w => i2c_is_ready (pio_ext w)) in
  if negb ready then ret (- ENODEV)
  else
    let* r := configure_int_gpios int_gpio_count 0 in
    if negb (r =? 0) then ret r
    else
      let* r := enable_int_gpio in
      if negb (r =? 0) then ret r
      else
        let* r := write_iocon (Z.lor (BIT 2) (BIT 6)) in
        if negb (r =? 0) then ret (- EIO)
        else
          let* r := write_u16_reg REG_IODIRA iodir_value in
          if negb (r =? 0) then ret (- EIO)
          else
            update (fun d => set_lock 1 (set_write_config_work (Work true false)
                                           (set_on_interrupt_work (Work true false) d))) ;;
            ret 0.
End driver.

(** ** Pin numbers: lemmas *)

Ltac pio_consts :=
  unfold POWER_IO_SHIELD_HARD_INVERT_PINS, POWER_IO_SHIELD_INPUT_PINS_MASK, POWER_IO_SHIELD_OUTPUT_PINS_MASK,
    POWER_IO_SHIELD_INPUT_PINS_START, POWER_IO_SHIELD_OUTPUT_PINS_START, POWER_IO_SHIELD_FAULT0_PIN,
    POWER_IO_SHIELD_FAULT1_PIN, POWER_IO_SHIELD_FAULT2_PIN, POWER_IO_SHIELD_INPUT_BASE,
    POWER_IO_SHIELD_OUTPUT_BASE, POWER_IO_SHIELD_FAULT_BASE, POWER_IO_SHIELD_BASE_MASK in *.

(** Bit operations under [Z.testbit], at constant positions. *)
Ltac bit_specs :=
  repeat first [ rewrite Z.lor_spec | rewrite Z.land_spec | rewrite Z.lxor_spec | rewrite Z.ldiff_spec
               | rewrite Z.lnot_spec by lia | rewrite Z.shiftl_spec by lia | rewrite Z.shiftr_spec by lia
               | rewrite Z.testbit_neg_r by lia ];
  repeat match goal with
  | |- context [?a - ?b] => let c := eval cbv in (a - b) in progress change (a - b) with c
  | |- context [?a + ?b] => let c := eval cbv in (a + b) in progress change (a + b) with c
  end.

(** The cases of an integer between constant bounds. *)
Ltac enumerate n := let H := fresh in
  match goal with Hn : ?a <= n < ?b |- _ =>
    assert (H : n ∈ seqZ a (b - a)) by (apply elem_of_seqZ; lia);
    let l := eval vm_compute in (seqZ a (b - a)) in change (n ∈ l) in H; clear Hn; repeat (apply elem_of_cons in H as [-> |H]); [..|by apply elem_of_nil in H]
  end.

(** Bits of constants. *)
Ltac const_bits :=
  repeat match goal with
  | |- context [Z.testbit ?m ?n] =>
      let c := eval vm_compute in (Z.testbit m n) in
      lazymatch c with true => idtac | false => idtac end; change (Z.testbit m n) with c
  end.

(** Boolean goals over some opaque bits. *)
Ltac solve_bits :=
  cbn [negb andb orb xorb]; rewrite ?andb_false_r, ?andb_true_r, ?orb_false_r, ?orb_true_r, ?xorb_true_r, ?xorb_false_r;
  try done;
  repeat match goal with |- context [Z.testbit ?m ?n] => destruct (Z.testbit m n) end; done.

Lemma zephyr_bits_spec v pin :
  0 <= pin < 32 ->
  Z.testbit (power_io_shield_gpio_bits_to_zephyr_bits v) pin =
  Z.testbit ZEPHYR_PINS_PORT_MASK pin && Z.testbit v (power_io_shield_zephyr_pin_to_gpio_bit pin).
Proof.
  intros Hp. unfold power_io_shield_gpio_bits_to_zephyr_bits. pio_consts. enumerate pin.
  all: match goal with |- _ = _ && Z.testbit _ (?f ?n) => let c := eval vm_compute in (f n) in change (f n) with c end.
  all: do 4 bit_specs; const_bits; solve_bits.
Qed.

Lemma land_ones_bit n k i : 0 <= n -> 0 <= i < n -> Z.testbit (Z.land k (Z.ones n)) i = Z.testbit k i.
Proof. intros Hn Hi. rewrite Z.land_spec, Z.ones_spec_low by lia. apply andb_true_r. Qed.

(** Pin numbers and expander bits correspond: in the word of port pins
    made from any expander word, exactly the bits of the port mask can be set,
    and each is the expander bit of its pin number; and the expander bit of a
    valid pin is mapped back to that pin alone. *)
Theorem pins_correspond v pin :
  0 <= pin < 32 ->
  Z.testbit (power_io_shield_gpio_bits_to_zephyr_bits v) pin =
    (Z.testbit ZEPHYR_PINS_PORT_MASK pin && Z.testbit v (power_io_shield_zephyr_pin_to_gpio_bit pin)) /\
  (Z.testbit ZEPHYR_PINS_PORT_MASK pin = true ->
   power_io_shield_gpio_bits_to_zephyr_bits (BIT (power_io_shield_zephyr_pin_to_gpio_bit pin)) = BIT pin /\
   0 <= power_io_shield_zephyr_pin_to_gpio_bit pin < 16).
Proof.
  intros Hp. split; [by apply zephyr_bits_spec|]. enumerate pin.
  all: intros Hv; vm_compute in Hv; first [discriminate Hv|by vm_compute].
Qed.

(** ** Reading and writing the port *)

Section port.
Context {E : Type} `{!I2C E} `{!IntGpios E} `{!GpioCallbacks E}.
Implicit Types (w : pio_world E) (e : E).
(** The word at the GPIO registers of the expander, and the states in which the
    expander works. *)
Context (port : E -> Z) (ok : E -> Prop).

(** The expander on the bus: a write to the GPIO registers sets the outputs, a
    failed one does nothing; reading them yields the word. *)
Class ExpanderBus : Prop := {
  gpio_write_law : forall lo hi e, ok e -> exists rc e', i2c_write_dt [REG_GPIOA; lo; hi] e = Ret rc e' /\ ok e' /\
    if rc =? 0 then (forall k, 2 <= k < 8 -> Z.testbit (port e') k = Z.testbit lo k) else port e' = port e;
  gpio_read_law : forall e, ok e -> exists rc bytes, i2c_write_read_dt REG_GPIOA 2 e = Ret (rc, bytes) e /\
    (rc = 0 -> exists b0 b1, bytes = [b0; b1] /\ port e = Z.lor b0 (Z.shiftl b1 8));
}.
Context `{!ExpanderBus}.

Lemma take_lock_run w : lock (pio w) = 1 -> take_lock w = Ret tt (PioWorld (set_lock 0 (pio w)) (pio_ext w)).
Proof. intros Hl. unfold take_lock, get_pio, update, bind, gets, modify. by rewrite Hl. Qed.

Lemma give_lock_run w : lock (pio w) = 0 -> give_lock w = Ret tt (PioWorld (set_lock 1 (pio w)) (pio_ext w)).
Proof. intros Hl. unfold give_lock, update, modify. by rewrite Hl. Qed.

Lemma masked_bit g m v k :
  0 <= k < 6 ->
  Z.testbit (Z.land (Z.lor (Z.ldiff g (Z.land (Z.shiftl (u8 (Z.shiftr m POWER_IO_SHIELD_OUTPUT_BASE)) POWER_IO_SHIELD_OUTPUT_PINS_START)
                                          POWER_IO_SHIELD_OUTPUT_PINS_MASK))
              (Z.land (Z.land (Z.shiftl (u8 (Z.shiftr v POWER_IO_SHIELD_OUTPUT_BASE)) POWER_IO_SHIELD_OUTPUT_PINS_START)
                         POWER_IO_SHIELD_OUTPUT_PINS_MASK)
                 (Z.land (Z.shiftl (u8 (Z.shiftr m POWER_IO_SHIELD_OUTPUT_BASE)) POWER_IO_SHIELD_OUTPUT_PINS_START)
                    POWER_IO_SHIELD_OUTPUT_PINS_MASK))) 0xFF) (k + 2) =
  if Z.testbit m (k + 8) then Z.testbit v (k + 8) else Z.testbit g (k + 2).
Proof.
  intros Hk. rewrite !wrap_land by lia. pio_consts. change (Z.ones 8) with 255. enumerate k.
  all: do 4 bit_specs; const_bits; solve_bits.
Qed.

(** The port as a read sees it. *)
Lemma port_get_run w :
  lock (pio w) = 1 -> ok (pio_ext w) ->
  exists r v w2, power_io_shield_port_get_raw w = Ret (r, v) w2 /\ lock (pio w2) = 1 /\ pio_ext w2 = pio_ext w /\
    (r = 0 -> v = Some (power_io_shield_gpio_bits_to_zephyr_bits
                          (Z.lxor (port (pio_ext w)) POWER_IO_SHIELD_HARD_INVERT_PINS)) /\ gpio (pio w2) = port (pio_ext w)).
Proof.
  intros Hl Hok. unfold power_io_shield_port_get_raw. rewrite (bind_step _ _ _ _ _ (take_lock_run w Hl)).
  destruct (gpio_read_law (pio_ext w) Hok) as (rc & bytes & Hrd & Hby).
  unfold read_u16_reg, on_bus. rewrite bind_assoc. unfold bind at 1, zoom. cbn [pio_ext]. rewrite Hrd.
  destruct (Z.eqb_spec rc 0) as [->|Hne].
  - destruct (Hby eq_refl) as (b0 & b1 & -> & Hp). cbn [negb lookup list_lookup of_option].
    unfold bind, update, modify, ret. cbn [pio pio_ext]. rewrite give_lock_run by done.
    do 3 eexists. split; [reflexivity|]. split_and!; try done. by rewrite <- Hp.
  - cbn [negb]. unfold bind at 1, ret at 1. erewrite bind_step; [|by apply give_lock_run].
    do 3 eexists. split; [reflexivity|]. split_and!; try done.
Qed.

(** The bits of the word for [set_masked_raw] and of the register it is written to. *)
Definition masked_word (mask value g : Z) : Z :=
  let m := Z.land (Z.shiftl (u8 (Z.shiftr mask POWER_IO_SHIELD_OUTPUT_BASE)) POWER_IO_SHIELD_OUTPUT_PINS_START) POWER_IO_SHIELD_OUTPUT_PINS_MASK in
  let v := Z.land (Z.shiftl (u8 (Z.shiftr value POWER_IO_SHIELD_OUTPUT_BASE)) POWER_IO_SHIELD_OUTPUT_PINS_START) POWER_IO_SHIELD_OUTPUT_PINS_MASK in
  Z.lor (Z.ldiff g m) (Z.land v m).

Lemma masked_word_bit mask value g k : 0 <= k < 6 ->
  Z.testbit (masked_word mask value g) (k + 2) = if Z.testbit mask (k + 8) then Z.testbit value (k + 8) else Z.testbit g (k + 2).
Proof.
  intros Hk. rewrite <- (masked_bit g mask value k Hk). fold (masked_word mask value g). change 255 with (Z.ones 8). by rewrite land_ones_bit by lia.
Qed.

(** A masked write as a whole. *)
Lemma masked_run w mask value : lock (pio w) = 1 -> ok (pio_ext w) ->
  exists rc w1, power_io_shield_gpio_set_masked_raw mask value w = Ret rc w1 /\ lock (pio w1) = 1 /\ ok (pio_ext w1) /\
    ((rc = - EIO /\ gpio (pio w1) = gpio (pio w) /\ port (pio_ext w1) = port (pio_ext w) /\
        exists lo hi rc' e', i2c_write_dt [REG_GPIOA; lo; hi] (pio_ext w) = Ret rc' e' /\ rc' <> 0) \/
     (rc = 0 /\ gpio (pio w1) = masked_word mask value (gpio (pio w)) /\
      forall k, 0 <= k < 6 -> Z.testbit (port (pio_ext w1)) (k + 2) = Z.testbit (gpio (pio w1)) (k + 2))).
Proof.
  intros Hl Hok. unfold power_io_shield_gpio_set_masked_raw. rewrite (bind_step _ _ _ _ _ (take_lock_run w Hl)).
  unfold bind at 1, get_pio, gets. cbn [pio gpio set_lock]. cbn zeta.
  fold (masked_word mask value (gpio (pio w))). set (ng := masked_word _ _ _).
  destruct (gpio_write_law (Z.land ng 255) (Z.land (Z.shiftr ng 8) 255) (pio_ext w) Hok)
    as (rc & e1 & Hwr & Hok1 & Hport).
  unfold write_u16_reg, on_bus. unfold bind at 1, zoom. cbn [pio_ext]. rewrite Hwr.
  destruct (Z.eqb_spec rc 0) as [->|Hne]; cbn [negb].
  - unfold bind at 1, update, modify. cbn [pio pio_ext]. erewrite bind_step; [|by apply give_lock_run].
    exists 0. eexists. split; [reflexivity|]. split; [done|]. split; [done|]. right. split; [done|]. cbn [pio pio_ext]. split; [done|].
    intros k Hk. rewrite Hport by lia. change 255 with (Z.ones 8). by rewrite land_ones_bit by lia.
  - erewrite bind_step; [|by apply give_lock_run].
    do 2 eexists. split; [reflexivity|]. split; [done|]. split; [done|]. left. split_and!; eauto 8.
Qed.

(** The value of the port: outputs as they are, inputs inverted. *)
Lemma port_value_bits z k : 0 <= k < 6 ->
  let v := power_io_shield_gpio_bits_to_zephyr_bits (Z.lxor z POWER_IO_SHIELD_HARD_INVERT_PINS) in
  Z.testbit v (k + 8) = Z.testbit z (k + 2) /\ Z.testbit v k = negb (Z.testbit z (k + 8)).
Proof.
  intros Hk v. subst v. rewrite !zephyr_bits_spec by lia. pio_consts.
  enumerate k; (split; [|]);
    match goal with |- context [Z.testbit _ (power_io_shield_zephyr_pin_to_gpio_bit ?n)] =>
      let c := eval vm_compute in (power_io_shield_zephyr_pin_to_gpio_bit n) in
      change (power_io_shield_zephyr_pin_to_gpio_bit n) with c end;
    do 2 bit_specs; const_bits; solve_bits.
Qed.

End port.

(** ** Interrupts *)

Section interrupts.
Context {E : Type} `{!I2C E} `{!IntGpios E} `{!GpioCallbacks E}.
Implicit Types (w : pio_world E) (e : E) (d : power_io_shield_data).

(** The states in which the bus works: writes to the configuration registers
    return, with or without an error. *)
Context (ok : E -> Prop).
Class ConfigBus : Prop := {
  config_write_law : forall r lo hi e, (r = REG_DEFVALA \/ r = REG_INTCONA \/ r = REG_GPINTENA) -> ok e ->
    exists rc e', i2c_write_dt [r; lo; hi] e = Ret rc e' /\ ok e';
}.

(** Input and fault pins of the port. *)
Definition interrupt_pin (pin : Z) : Prop := (0 <= pin < 6) \/ (16 <= pin < 19).

Lemma interrupt_pin_valid pin : interrupt_pin pin ->
  Z.testbit ZEPHYR_PINS_PORT_MASK pin = true /\ 0 <= pin < 32 /\
  0 <= power_io_shield_zephyr_pin_to_gpio_bit pin < 16.
Proof. intros [Hp|Hp]; enumerate pin; by vm_compute. Qed.

Lemma interrupt_pin_inj p q : interrupt_pin p -> interrupt_pin q -> p <> q ->
  power_io_shield_zephyr_pin_to_gpio_bit p <> power_io_shield_zephyr_pin_to_gpio_bit q.
Proof. intros [Hp|Hp] [Hq|Hq]; enumerate p; enumerate q; intros Hne Heq; vm_compute in Heq; done. Qed.

(** The level the application sees for a captured expander word. *)
Definition logical_level (intcap bit : Z) : bool :=
  xorb (Z.testbit intcap bit) (Z.testbit POWER_IO_SHIELD_HARD_INVERT_PINS bit).

(** Whether an interrupt flag of a pin is to be reported in a mode. *)
Definition reported (mode : gpio_int_mode) (trig : gpio_int_trig) (level : bool) : bool :=
  match mode, trig with
  | GPIO_INT_MODE_LEVEL, _ => true
  | GPIO_INT_MODE_EDGE, GPIO_INT_TRIG_HIGH => level
  | GPIO_INT_MODE_EDGE, GPIO_INT_TRIG_LOW => negb level
  | GPIO_INT_MODE_EDGE, GPIO_INT_TRIG_BOTH => true
  | _, _ => false
  end.

Lemma pending_bit d intf intcap i :
  0 <= i < 16 ->
  Z.testbit (pending_interrupts d intf intcap) i =
  Z.testbit (gpinten d) i && Z.testbit intf i &&
  (Z.testbit (intcon d) i || (Z.testbit intcap i && Z.testbit (int_trigger_rising d) i) ||
   (negb (Z.testbit intcap i) && Z.testbit (int_trigger_falling d) i)).
Proof.
  intros Hi. unfold pending_interrupts. rewrite !Z.land_spec, !Z.lor_spec, testbit_wrap, !Z.land_spec by lia.
  rewrite Z.lnot_spec by lia. by rewrite (proj2 (Z.ltb_lt i 16)) by lia.
Qed.

Lemma inverted_eq bit : 0 <= bit < 16 ->
  negb (Z.land (BIT bit) POWER_IO_SHIELD_HARD_INVERT_PINS =? 0) = Z.testbit POWER_IO_SHIELD_HARD_INVERT_PINS bit.
Proof. intros Hb. enumerate bit; by vm_compute. Qed.

(** The five words at the configured bit and at the others. *)
Lemma configure_bits bit mode trig d i :
  0 <= bit -> 0 <= i ->
  let d' := configure_interrupt bit mode trig d in
  (i <> bit -> Z.testbit (gpinten d') i = Z.testbit (gpinten d) i /\ Z.testbit (intcon d') i = Z.testbit (intcon d) i /\
     Z.testbit (defval d') i = Z.testbit (defval d) i /\
     Z.testbit (int_trigger_rising d') i = Z.testbit (int_trigger_rising d) i /\
     Z.testbit (int_trigger_falling d') i = Z.testbit (int_trigger_falling d) i).
Proof.
  intros Hb Hi d' Hne. subst d'.
  destruct mode, trig; cbn; rewrite ?Z.ldiff_spec, ?Z.lor_spec, ?testbit_BIT, ?bool_decide_false by done;
    cbn; rewrite ?andb_true_r, ?orb_false_r; done.
Qed.

Lemma write_config_run `{!ConfigBus} w :
  ok (pio_ext w) -> lock (pio w) = 1 ->
  exists e', power_io_shield_write_interrupt_config_work_handler w = Ret tt (PioWorld (set_lock 1 (pio w)) e') /\ ok e'.
Proof.
  intros Hbus Hl. unfold power_io_shield_write_interrupt_config_work_handler.
  rewrite (bind_step _ _ _ _ _ (take_lock_run w Hl)). unfold bind at 1, get_pio, gets. cbn [pio pio_ext].
  unfold write_u16_reg, on_bus. unfold bind, zoom. cbn [pio pio_ext].
  repeat (match goal with Ho : ok ?e |- context [i2c_write_dt [?r; ?lo; ?hi] ?e] =>
            destruct (config_write_law r lo hi e) as (? & ? & -> & ?); [tauto|done|] end; cbn [pio pio_ext]).
  rewrite give_lock_run by done. eexists. by split.
Qed.

Lemma interrupt_configure_run `{!ConfigBus} w pin mode trig :
  ok (pio_ext w) ->
  interrupt_pin pin -> interrupt_mode_supported mode trig = true -> lock (pio w) = 1 ->
  let bit := power_io_shield_zephyr_pin_to_gpio_bit pin in
  exists w1, power_io_shield_pin_interrupt_configure false pin mode trig w = Ret 0 w1 /\ lock (pio w1) = 1 /\ ok (pio_ext w1) /\
    let d := configure_interrupt bit mode (inverted_trigger bit trig) (pio w) in
    gpinten (pio w1) = gpinten d /\ intcon (pio w1) = intcon d /\ defval (pio w1) = defval d /\
    int_trigger_rising (pio w1) = int_trigger_rising d /\ int_trigger_falling (pio w1) = int_trigger_falling d.
Proof.
  intros Hbus Hpin Hm Hl. cbn zeta. unfold power_io_shield_pin_interrupt_configure. rewrite Hm.
  assert (negb (Z.land pin POWER_IO_SHIELD_BASE_MASK =? POWER_IO_SHIELD_INPUT_BASE) &&
          negb (Z.land pin POWER_IO_SHIELD_BASE_MASK =? POWER_IO_SHIELD_FAULT_BASE) = false) as ->.
  { destruct Hpin as [Hp|Hp]; enumerate pin; by vm_compute. }
  cbn [negb]. rewrite bind_assoc, (bind_step _ _ _ _ _ (take_lock_run w Hl)).
  unfold bind at 1, ret at 1. cbn [Z.ltb Z.compare]. unfold bind at 1, update, modify. cbn [pio pio_ext].
  set (c := configure_interrupt _ _ _ _).
  assert (lock c = 0) as Hc by (subst c; by destruct mode, (inverted_trigger _ trig)).
  erewrite bind_step; [|by apply give_lock_run]. cbn [pio pio_ext].
  destruct (write_config_run (PioWorld (set_lock 1 c) (pio_ext w)) Hbus eq_refl) as (e' & He' & Hok').
  rewrite (bind_step _ _ _ _ _ He'). eexists. split; [reflexivity|]. split; [done|]. split; [done|]. subst c. cbn [pio].
  by destruct mode, (inverted_trigger _ trig).
Qed.

(** The configured bit itself. *)
Lemma configured_bit bit mode trig d intf intcap :
  0 <= bit < 16 -> interrupt_mode_supported mode trig = true ->
  let d' := configure_interrupt bit mode (inverted_trigger bit trig) d in
  Z.testbit (pending_interrupts d' intf intcap) bit =
    (Z.testbit intf bit && reported mode trig (logical_level intcap bit)) /\
  (mode = GPIO_INT_MODE_LEVEL ->
     xorb (Z.testbit (defval d') bit) (Z.testbit POWER_IO_SHIELD_HARD_INVERT_PINS bit) =
     negb (match trig with GPIO_INT_TRIG_HIGH => true | _ => false end)).
Proof.
  intros Hb Hm d'. subst d'. rewrite pending_bit by done. unfold inverted_trigger, logical_level.
  rewrite inverted_eq by done. destruct (Z.testbit POWER_IO_SHIELD_HARD_INVERT_PINS bit);
    destruct mode, trig; try discriminate Hm; cbn;
    rewrite ?Z.ldiff_spec, ?Z.lor_spec, ?testbit_BIT, ?bool_decide_true by (done || lia); cbn;
    (split; [|intros Hl; try discriminate Hl; destruct (Z.testbit (defval d) bit); done]);
    rewrite ?andb_false_r, ?andb_true_r, ?orb_true_r, ?orb_false_r; cbn;
    destruct (Z.testbit intf bit), (Z.testbit intcap bit); done.
Qed.

(** What is pending once the caches hold a configuration. *)
Lemma reported_after d1 d pin mode trig intf intcap :
  interrupt_pin pin -> interrupt_mode_supported mode trig = true ->
  let bit := power_io_shield_zephyr_pin_to_gpio_bit pin in
  let d' := configure_interrupt bit mode (inverted_trigger bit trig) d in
  gpinten d1 = gpinten d' -> intcon d1 = intcon d' -> int_trigger_rising d1 = int_trigger_rising d' ->
  int_trigger_falling d1 = int_trigger_falling d' ->
  Z.testbit (power_io_shield_gpio_bits_to_zephyr_bits (pending_interrupts d1 intf intcap)) pin =
    (Z.testbit intf bit && reported mode trig (logical_level intcap bit)) /\
  forall q, interrupt_pin q -> q <> pin ->
    Z.testbit (power_io_shield_gpio_bits_to_zephyr_bits (pending_interrupts d1 intf intcap)) q =
    Z.testbit (power_io_shield_gpio_bits_to_zephyr_bits (pending_interrupts d intf intcap)) q.
Proof.
  intros Hpin Hm bit d' H1 H2 H3 H4. destruct (interrupt_pin_valid pin Hpin) as (Hv & Hp & Hb). fold bit in Hb.
  assert (pending_interrupts d1 intf intcap = pending_interrupts d' intf intcap) as ->.
  { unfold pending_interrupts. by rewrite H1, H2, H3, H4. }
  destruct (configured_bit bit mode trig d intf intcap Hb Hm) as [Hrep _]. fold d' in Hrep. split.
  - rewrite zephyr_bits_spec, Hv by done. fold bit. by rewrite Hrep.
  - intros q Hq Hne. destruct (interrupt_pin_valid q Hq) as (Hvq & Hpq & Hbq).
    rewrite !zephyr_bits_spec, Hvq by done. cbn [andb]. rewrite !pending_bit by done.
    pose proof (configure_bits bit mode (inverted_trigger bit trig) d (power_io_shield_zephyr_pin_to_gpio_bit q)
      ltac:(lia) ltac:(lia)) as Hc. cbn zeta in Hc. fold d' in Hc.
    destruct Hc as (-> & -> & _ & -> & ->); [by apply interrupt_pin_inj|done].
Qed.

(** An interrupt is reported for exactly what was configured. For an
    input or fault pin and a supported mode, configuring returns 0, and after
    it the pin is reported when its flag is set and, for an edge, the level
    the application sees is the configured one, inverted inputs included; for
    a level interrupt the comparison value in the expander is the opposite of
    the configured level; a disabled pin is never reported; and no other pin is
    affected. *)
Theorem interrupt_configuration `{!ConfigBus} w pin mode trig intf intcap :
  ok (pio_ext w) -> interrupt_pin pin -> interrupt_mode_supported mode trig = true -> lock (pio w) = 1 ->
  let bit := power_io_shield_zephyr_pin_to_gpio_bit pin in
  exists w1, power_io_shield_pin_interrupt_configure false pin mode trig w = Ret 0 w1 /\ lock (pio w1) = 1 /\
    Z.testbit (power_io_shield_gpio_bits_to_zephyr_bits (pending_interrupts (pio w1) intf intcap)) pin =
      (Z.testbit intf bit && reported mode trig (logical_level intcap bit)) /\
    (mode = GPIO_INT_MODE_LEVEL ->
       xorb (Z.testbit (defval (pio w1)) bit) (Z.testbit POWER_IO_SHIELD_HARD_INVERT_PINS bit) =
       negb (match trig with GPIO_INT_TRIG_HIGH => true | _ => false end)) /\
    (forall q, interrupt_pin q -> q <> pin ->
       Z.testbit (power_io_shield_gpio_bits_to_zephyr_bits (pending_interrupts (pio w1) intf intcap)) q =
       Z.testbit (power_io_shield_gpio_bits_to_zephyr_bits (pending_interrupts (pio w) intf intcap)) q).
Proof.
  intros Hbus Hpin Hm Hl bit. destruct (interrupt_configure_run w pin mode trig Hbus Hpin Hm Hl) as (w1 & Hrun & Hl1 & _ & Hf).
  fold bit in Hf. cbn zeta in Hf. destruct Hf as (H1 & H2 & H3 & H4 & H5). exists w1. split; [done|]. split; [done|].
  destruct (interrupt_pin_valid pin Hpin) as (_ & _ & Hb). fold bit in Hb.
  destruct (configured_bit bit mode trig (pio w) intf intcap Hb Hm) as [_ Hlev].
  destruct (reported_after (pio w1) (pio w) pin mode trig intf intcap Hpin Hm H1 H2 H4 H5) as [Hrep Hoth].
  split; [done|]. split; [by rewrite H3|done].
Qed.

(** The reads of the two interrupt registers as the handler does them. *)
Definition reads (reg v : Z) (e e' : E) : Prop :=
  exists b0 b1, i2c_write_read_dt reg 2 e = Ret (0, [b0; b1]) e' /\ v = Z.lor b0 (Z.shiftl b1 8).

Lemma read_reg_run reg v d e e' : reads reg v e e' -> read_u16_reg reg (PioWorld d e) = Ret (0, Some v) (PioWorld d e').
Proof.
  intros (b0 & b1 & Hr & ->). unfold read_u16_reg, on_bus, bind, zoom. cbn [pio_ext]. by rewrite Hr.
Qed.

Lemma handler_run w intf intcap e1 e2 :
  lock (pio w) = 1 -> reads REG_INTFA intf (pio_ext w) e1 -> intf <> 0 -> reads REG_INTCAPA intcap e1 e2 ->
  let ints := pending_interrupts (pio w) intf intcap in
  power_io_shield_interrupt_work_handler w =
    (gpio_fire_callbacks (power_io_shield_gpio_bits_to_zephyr_bits ints) ;;
     (if negb (Z.land (intcon (pio w)) ints =? 0)
      then (submit on_interrupt_work set_on_interrupt_work ;; ret tt) else ret tt) ;;
     give_lock) (PioWorld (set_lock 0 (pio w)) e2).
Proof.
  intros Hl H1 Hne H2 ints. unfold power_io_shield_interrupt_work_handler.
  rewrite (bind_step _ _ _ _ _ (take_lock_run w Hl)), (bind_step _ _ _ _ _ (read_reg_run _ _ _ _ _ H1)).
  rewrite (proj2 (Z.eqb_neq _ _) Hne), (bind_step _ _ _ _ _ (read_reg_run _ _ _ _ _ H2)).
  reflexivity.
Qed.


(** The callbacks run while the driver holds its semaphore: a callback
    that reads the port, as handlers of GPIO interrupts commonly do, waits for
    it forever, and with it the work queue. *)
Theorem callback_reading_port_blocks w intf intcap e1 e2 :
  lock (pio w) = 1 -> reads REG_INTFA intf (pio_ext w) e1 -> intf <> 0 -> reads REG_INTCAPA intcap e1 e2 ->
  (forall pins w', gpio_fire_callbacks pins w' = (power_io_shield_port_get_raw ;; ret tt) w') ->
  power_io_shield_interrupt_work_handler w = Fault Blocked.
Proof.
  intros Hl H1 Hne H2 Hcb. rewrite (handler_run w intf intcap e1 e2 Hl H1 Hne H2).
  assert (power_io_shield_port_get_raw (PioWorld (set_lock 0 (pio w)) e2) = Fault Blocked) as Hb by reflexivity.
  unfold bind at 1. by rewrite Hcb, (bind_fault _ _ _ _ Hb).
Qed.
End interrupts.
