(* ===== verification/PowerIoShieldEmul.v ===== *)
(** * Emulator of the power I/O shield ([drivers/power_io_shield/power_io_shield_emul.c])

    The repository's model of the port expander: 27 byte registers behind the
    I2C transfers of the driver.  It implements the interface of the bus, and
    satisfies what the theorems of [PowerIoShield] ask of the expander.  The
    registers are a part of an environment, so that tests can keep more state
    beside them. *)

From stdpp Require Import base gmap list numbers relations.
From Stdlib Require Import ZArith Lia.
From S2P Require Import Prelude.
From S2P Require Import PowerIoShield.

#[local] Open Scope Z_scope.

(** ** Definitions *)

Definition NUM_REGS : Z := 27.

(** [struct i2c_msg]; the length is that of the buffer. *)
Record i2c_msg := I2cMsg { msg_read : bool; msg_stop : bool; msg_buf : list Z }.

(** The registers of an emulated expander. *)
Class EmulRegs (E : Type) := {
  reg : E -> list Z;
  set_reg : list Z -> E -> E;
}.

Section emul.
Context {E : Type} `{!EmulRegs E}.

(** [data->reg[a]] and [data->reg[a] = v] *)
Definition load (a : Z) : M E Z := let* e := get in of_option OutOfBounds (reg e !! Z.to_nat a).
Definition store (a v : Z) : M E unit :=
  let* e := get in
  if decide (Z.to_nat a < length (reg e))%nat then put (set_reg (<[Z.to_nat a := v]> (reg e)) e) else fail OutOfBounds.

Definition assert_no_msg (b : bool) : M E unit := if b then ret tt else fail AssertFailed.

Definition power_io_shield_emul_set_reg (reg_addr val : Z) : M E unit :=
  assert_no_msg (reg_addr <=? NUM_REGS) ;; store reg_addr val.

Definition power_io_shield_emul_set_u16_reg (reg_addr val : Z) : M E unit :=
  assert_no_msg (reg_addr + 1 <=? NUM_REGS) ;;
  store reg_addr (Z.land val 0xFF) ;;
  store (reg_addr + 1) (Z.land (Z.shiftr val 8) 0xFF).

Definition power_io_shield_emul_get_reg (reg_addr : Z) : M E Z :=
  assert_no_msg (reg_addr <=? NUM_REGS) ;; load reg_addr.

Definition power_io_shield_emul_get_u16_reg (reg_addr : Z) : M E Z :=
  assert_no_msg (reg_addr + 1 <=? NUM_REGS) ;;
  let* hi := load (reg_addr + 1) in
  let* lo := load reg_addr in
  ret (Z.lor (Z.shiftl hi 8) lo).

(** Storing the bytes of a buffer from register [a] on; [reg_addr] is 8 bits
    wide.  The result is the register after the last one. *)
Fixpoint store_regs (a : Z) (bs : list Z) : M E Z :=
  match bs with
  | [] => ret a
  | b :: bs => store a b ;; store_regs (u8 (a + 1)) bs
  end.

Fixpoint load_regs (a : Z) (n : nat) : M E (Z * list Z) :=
  match n with
  | O => ret (a, [])
  | S n => let* b := load a in let* (a, bs) := load_regs (u8 (a + 1)) n in ret (a, b :: bs)
  end.

(** The loop over the messages: the return value and the messages with their
    buffers filled. *)
Fixpoint transfer_loop (msgs : list i2c_msg) (reg_addr : Z) (stop_seen : bool) : M E (Z * list i2c_msg) :=
  match msgs with
  | [] => ret (0, [])
  | msg :: msgs =>
      if stop_seen then
        if msg_read msg then ret (- EIO, msg :: msgs)
        else
          let* a := of_option OutOfBounds (head (msg_buf msg)) in
          let* a := store_regs a (tail (msg_buf msg)) in
          let* (r, ms) := transfer_loop msgs a (msg_stop msg) in
          ret (r, msg :: ms)
      else if msg_read msg then
        let* (a, bs) := load_regs reg_addr (length (msg_buf msg)) in
        let* (r, ms) := transfer_loop msgs a (msg_stop msg) in
        ret (r, I2cMsg true (msg_stop msg) bs :: ms)
      else
        let* a := store_regs reg_addr (msg_buf msg) in
        let* (r, ms) := transfer_loop msgs a (msg_stop msg) in
        ret (r, msg :: ms)
  end.

Definition power_io_shield_emul_transfer_i2c (msgs : list i2c_msg) : M E (Z * list i2c_msg) :=
  match msgs with
  | [] => ret (- EIO, [])
  | _ => transfer_loop msgs 0 true
  end.

Definition power_io_shield_emul_init : M E Z :=
  modify (set_reg (replicate (Z.to_nat NUM_REGS) 0)) ;; ret 0.

(** The bus functions of Zephyr in terms of transfers: a write is one message
    with a stop; a write and read are a message without and a restarted
    reading message with a stop. *)
#[export] Instance emul_i2c : I2C E := {|
  i2c_write_dt buf :=
    let* (r, _) := power_io_shield_emul_transfer_i2c [I2cMsg false true buf] in ret r;
  i2c_write_read_dt a n :=
    let* (r, msgs) := power_io_shield_emul_transfer_i2c [I2cMsg false false [a]; I2cMsg true true (replicate n 0)] in
    ret (r, default [] (msg_buf <$> msgs !! 1%nat));
|}.
End emul.

(** ** Properties *)

(** Registers that are only changed through [set_reg]. *)
Class EmulRegsLaws (E : Type) `{!EmulRegs E} : Prop := { reg_set_reg : forall l (e : E), reg (set_reg l e) = l }.

(** A 16-bit value in two registers. *)
Definition reg16 {E} `{!EmulRegs E} (a : Z) (e : E) : Z :=
  Z.lor (default 0 (reg e !! Z.to_nat a)) (Z.shiftl (default 0 (reg e !! S (Z.to_nat a))) 8).

Section emul_props.
Context {E : Type} `{!EmulRegs E} `{!EmulRegsLaws E}.
Implicit Types (e : E).

Lemma load_run a x e : reg e !! Z.to_nat a = Some x -> load a e = Ret x e.
Proof. intros H. unfold load, get, bind. by rewrite H. Qed.

Lemma store_run a v e : (Z.to_nat a < length (reg e))%nat -> store a v e = Ret tt (set_reg (<[Z.to_nat a := v]> (reg e)) e).
Proof. intros H. unfold store, get, bind. by rewrite decide_True. Qed.

(** Writing two registers. *)
Lemma emul_write_run a lo hi e :
  0 <= a -> a + 1 < NUM_REGS -> Z.of_nat (length (reg e)) = NUM_REGS ->
  i2c_write_dt [a; lo; hi] e =
  Ret 0 (set_reg (<[S (Z.to_nat a) := hi]> (<[Z.to_nat a := lo]> (reg e)))
           (set_reg (<[Z.to_nat a := lo]> (reg e)) e)).
Proof.
  intros H0 H1 Hl. unfold NUM_REGS in *. cbn [i2c_write_dt emul_i2c]. unfold power_io_shield_emul_transfer_i2c.
  cbn [transfer_loop msg_read msg_stop msg_buf head tail of_option]. unfold bind at 1 2, ret at 1.
  cbn [store_regs]. rewrite bind_assoc, (bind_step _ _ _ _ _ (store_run a lo e ltac:(lia))).
  rewrite (wrap_small 8) by (unfold in_width; lia).
  assert (Z.to_nat (a + 1) = S (Z.to_nat a)) as Hs by lia.
  rewrite bind_assoc. erewrite bind_step; [|apply store_run; rewrite reg_set_reg, length_insert; lia].
  rewrite reg_set_reg, Hs. reflexivity.
Qed.

Lemma emul_read_run a e :
  0 <= a -> a + 1 < NUM_REGS -> Z.of_nat (length (reg e)) = NUM_REGS ->
  exists lo hi, reg e !! Z.to_nat a = Some lo /\ reg e !! S (Z.to_nat a) = Some hi /\
    i2c_write_read_dt a 2 e = Ret (0, [lo; hi]) e.
Proof.
  intros H0 H1 Hl. unfold NUM_REGS in *.
  destruct (lookup_lt_is_Some_2 (reg e) (Z.to_nat a)) as [lo Hlo]; [lia|].
  destruct (lookup_lt_is_Some_2 (reg e) (S (Z.to_nat a))) as [hi Hhi]; [lia|].
  exists lo, hi. split; [done|]. split; [done|]. cbn [i2c_write_read_dt emul_i2c].
  unfold power_io_shield_emul_transfer_i2c. cbn [transfer_loop msg_read msg_stop msg_buf head tail of_option store_regs replicate length load_regs].
  unfold bind, ret. rewrite (load_run a lo e Hlo). rewrite (wrap_small 8) by (unfold in_width; lia).
  rewrite (load_run (a + 1) hi e); [done|]. by replace (Z.to_nat (a + 1)) with (S (Z.to_nat a)) by lia.
Qed.

(** The emulator is an expander for the theorems on the port. *)
#[export] Instance emul_expander : ExpanderBus (reg16 REG_GPIOA) (fun e : E => Z.of_nat (length (reg e)) = NUM_REGS).
Proof.
  constructor.
  - intros lo hi e Hl. rewrite emul_write_run by done. do 2 eexists. split; [reflexivity|].
    rewrite !reg_set_reg, !length_insert. split; [done|]. cbn [Z.eqb].
    intros k Hk. unfold reg16. rewrite !reg_set_reg. unfold NUM_REGS in Hl.
    assert (Z.to_nat REG_GPIOA = 18%nat) as -> by done.
    rewrite list_lookup_insert_ne by lia.
    rewrite !list_lookup_insert_eq by (rewrite ?length_insert; lia). cbn [default].
    rewrite Z.lor_spec, Z.shiftl_spec_low by lia. apply orb_false_r.
  - intros e Hl. destruct (emul_read_run REG_GPIOA e) as (lo & hi & H1 & H2 & Hr); try done.
    exists 0, [lo; hi]. split; [done|]. intros _. exists lo, hi. split; [done|]. unfold reg16. by rewrite H1, H2.
Qed.

#[export] Instance emul_config : ConfigBus (fun e : E => Z.of_nat (length (reg e)) = NUM_REGS).
Proof.
  constructor. intros r lo hi e Hr Hl. rewrite emul_write_run; [| | |done].
  - do 2 eexists. split; [reflexivity|]. by rewrite !reg_set_reg, !length_insert.
  - by destruct Hr as [-> |[-> | ->] ].
  - by destruct Hr as [-> |[-> | ->] ].
Qed.
End emul_props.
