(* ===== verification/HvShield.v ===== *)
(** * HV shield ([drivers/hv_shield/])

    A shift register on SPI selects the direction of 32 high voltage pins and
    the gain of two DAC outputs.  Section [main] is hv_shield.c, which owns the
    register image; [gpio] is hv_shield_gpio.c, a GPIO driver whose pins are
    low voltage pins of other GPIO controllers with their direction set in the
    image; [dac] is hv_shield_dac.c.  The two front ends call the main driver
    through its API, as in the code.

    The SPI bus, the output enable pin, the other GPIO controllers and the DACs
    are the interfaces [ShieldBus], [GpioPorts] and [Dacs]. *)

From stdpp Require Import base gmap list numbers relations.
From Stdlib Require Import ZArith Lia.
From S2P Require Import Prelude.
From S2P Require Import Gpio.

#[local] Open Scope Z_scope.

(** ** Definitions *)

Inductive hv_shield_dac_gains_t :=
| HV_SHIELD_DAC_GAIN_1 | HV_SHIELD_DAC_GAIN_2 | HV_SHIELD_DAC_GAIN_4 | HV_SHIELD_DAC_GAIN_8 | HV_SHIELD_DAC_GAIN_16.

Definition gain_value (g : hv_shield_dac_gains_t) : Z :=
  match g with
  | HV_SHIELD_DAC_GAIN_1 => 0x0 | HV_SHIELD_DAC_GAIN_2 => 0x1 | HV_SHIELD_DAC_GAIN_4 => 0x3
  | HV_SHIELD_DAC_GAIN_8 => 0x7 | HV_SHIELD_DAC_GAIN_16 => 0xF
  end.

(** The packed image; the gains are bit fields of four bits. *)
Record hv_shield_registers_t := Registers { gpio_output : Z; dac0 : Z; dac1 : Z }.

(** The object in memory: little endian, the lower nibble first. *)
Definition raw_bytes (r : hv_shield_registers_t) : list Z :=
  [u8 (gpio_output r); u8 (Z.shiftr (gpio_output r) 8); u8 (Z.shiftr (gpio_output r) 16); u8 (Z.shiftr (gpio_output r) 24);
   Z.lor (dac0 r) (Z.shiftl (dac1 r) 4)].

(** The registers and the two maps of the GPIO front end. *)
Record hv_world (E : Type) := HvWorld {
  registers : hv_shield_registers_t;
  input_map : Z;
  output_map : Z;
  hv_ext : E;
}.
Arguments HvWorld {E}.
Arguments registers {E}.
Arguments input_map {E}.
Arguments output_map {E}.
Arguments hv_ext {E}.

Class ShieldBus (E : Type) := {
  oe_configure_inactive : M E Z;
  oe_set : Z -> M E Z;
  spi_write_dt : list Z -> M E Z;
}.

(** The other GPIO controllers: a port, then a pin of it or a mask of its pins;
    the functions of a port's API table may be NULL. *)
Class GpioPorts (E : Type) := {
  gpio_pin_configure_dt : Z -> Z -> gpio_flags_t -> M E Z;
  (** the return value and what is stored through [flags] *)
  gpio_pin_get_config_dt : Z -> Z -> M E (Z * gpio_flags_t);
  gpio_pin_get_dt : Z -> Z -> M E Z;
  gpio_pin_set : Z -> Z -> bool -> M E Z;
  pin_interrupt_configure : Z -> option (Z -> gpio_int_mode -> gpio_int_trig -> M E Z);
  port_set_bits_raw : Z -> option (Z -> M E Z);
  port_clear_bits_raw : Z -> option (Z -> M E Z);
  port_toggle_bits : Z -> option (Z -> M E Z);
  get_pending_int : Z -> option (M E Z);
}.

Section main.
Context {E : Type} `{!ShieldBus E}.

Definition on_ext {A} (m : M E A) : M (hv_world E) A :=
  zoom hv_ext (fun e w => HvWorld (registers w) (input_map w) (output_map w) e) m.

Definition set_registers (r : hv_shield_registers_t) : M (hv_world E) unit :=
  modify (fun w => HvWorld r (input_map w) (output_map w) (hv_ext w)).

(** The bytes go out in reverse order. *)
Definition _hv_shield_update : M (hv_world E) Z :=
  let* r := gets registers in
  let rotated_buffer := rev (raw_bytes r) in
  let* err := on_ext (spi_write_dt rotated_buffer) in
  if negb (err =? 0) then ret err else ret 0.

Definition hv_shield_init : M (hv_world E) Z :=
  let* err := on_ext oe_configure_inactive in
  if negb (err =? 0) then ret err
  else
    set_registers (Registers 0 0 0) ;;
    let* err := _hv_shield_update in
    if negb (err =? 0) then ret err else on_ext (oe_set 1).

Definition hvs_set_dac_gain (dac : Z) (gain : hv_shield_dac_gains_t) : M (hv_world E) Z :=
  if 1 <? dac then ret (- EINVAL)
  else
    let* r := gets registers in
    if dac =? 0 then set_registers (Registers (gpio_output r) (gain_value gain) (dac1 r)) ;; _hv_shield_update
    else if dac =? 1 then set_registers (Registers (gpio_output r) (dac0 r) (gain_value gain)) ;; _hv_shield_update
    else ret (- EINVAL).

Definition hvs_set_gpio_output_enable (index : Z) (enable : bool) : M (hv_world E) Z :=
  if 31 <? index then ret (- EINVAL)
  else
    let index := if index mod 8 <? 4 then u8 (index + 4) else u8 (index - 4) in
    let* r := gets registers in
    set_registers (Registers (if enable then Z.lor (gpio_output r) (BIT index) else Z.ldiff (gpio_output r) (BIT index))
                     (dac0 r) (dac1 r)) ;;
    _hv_shield_update.
End main.

Section gpio.
Context {E : Type} `{!ShieldBus E} `{!GpioPorts E}.
(** The port and the pin behind each pin of the driver; at most 32. *)
Context (lv_gpios : list (Z * Z)).

Definition lv_gpios_count : Z := Z.of_nat (length lv_gpios).

(** [&config->lv_gpios[pin]] *)
Definition lv_gpio (pin : Z) : M (hv_world E) (Z * Z) := of_option OutOfBounds (lv_gpios !! Z.to_nat pin).

Definition set_maps (i o : Z) : M (hv_world E) unit := modify (fun w => HvWorld (registers w) i o (hv_ext w)).

Definition hvs_gpio_pin_configure (pin : Z) (flags : gpio_flags_t) : M (hv_world E) Z :=
  if lv_gpios_count <=? pin then ret (- EINVAL)
  else
    let* (port, p) := lv_gpio pin in
    let* err := on_ext (gpio_pin_configure_dt port p flags) in
    if negb (err =? 0) then ret err
    else
      let* err := hvs_set_gpio_output_enable pin (GPIO_OUTPUT flags) in
      if negb (err =? 0) then ret err
      else
        let* i := gets input_map in
        let* o := gets output_map in
        set_maps (if GPIO_INPUT flags then Z.lor i (BIT pin) else Z.ldiff i (BIT pin))
          (if GPIO_OUTPUT flags then Z.lor o (BIT pin) else Z.ldiff o (BIT pin)) ;;
        ret 0.

Definition hvs_gpio_init : M (hv_world E) Z :=
  let* o := gets output_map in set_maps 0 o ;; ret 0.

Definition hvs_pin_interrupt_configure (pin : Z) (mode : gpio_int_mode) (trig : gpio_int_trig) : M (hv_world E) Z :=
  if lv_gpios_count <=? pin then ret (- EINVAL)
  else
    let* (port, p) := lv_gpio pin in
    let* f := of_option NullPointer (pin_interrupt_configure port) in
    on_ext (f p mode trig).

(** The return value and [*flags]; nothing is stored for a pin out of range. *)
Definition hvs_gpio_pin_get_config (pin : Z) : M (hv_world E) (Z * option gpio_flags_t) :=
  if lv_gpios_count <=? pin then ret (- EINVAL, None)
  else
    let* (port, p) := lv_gpio pin in
    let* (r, flags) := on_ext (gpio_pin_get_config_dt port p) in
    ret (r, Some flags).

(** The loop over the pins from [i] on; the return value and [*value]. *)
Fixpoint port_get_loop (pins : list (Z * Z)) (i value : Z) : M (hv_world E) (Z * Z) :=
  match pins with
  | [] => ret (0, value)
  | (port, p) :: pins =>
      let* inputs := gets input_map in
      if Z.land inputs (BIT i) =? 0 then port_get_loop pins (i + 1) value
      else
        let* r := on_ext (gpio_pin_get_dt port p) in
        if r <? 0 then ret (r, value)
        else port_get_loop pins (i + 1) (if r =? 1 then Z.lor value (BIT i) else value)
  end.

(** [None] for a NULL pointer. *)
Definition hvs_gpio_port_get_raw (value_null : bool) : M (hv_world E) (Z * option Z) :=
  if value_null then ret (- EINVAL, None)
  else let* (r, v) := port_get_loop lv_gpios 0 0 in ret (r, Some v).

Fixpoint set_masked_loop (pins : list (Z * Z)) (i mask value : Z) : M (hv_world E) Z :=
  match pins with
  | [] => ret 0
  | (port, p) :: pins =>
      if Z.land mask (BIT i) =? 0 then set_masked_loop pins (i + 1) mask value
      else
        let* r := on_ext (gpio_pin_set port p (negb (Z.land value (BIT i) =? 0))) in
        if r <? 0 then ret r else set_masked_loop pins (i + 1) mask value
  end.

Definition hvs_set_masked_raw (mask value : Z) : M (hv_world E) Z := set_masked_loop lv_gpios 0 mask value.

(** [_HVS_GPIO_RUN_LL_API_FOREACH_MASK]: a missing function is logged, and
    called all the same. *)
Fixpoint foreach_mask (api_func : Z -> option (Z -> M E Z)) (pins : list (Z * Z)) (i pin_mask : Z) :
    M (hv_world E) Z :=
  match pins with
  | [] => ret 0
  | (port, p) :: pins =>
      if Z.land pin_mask (BIT i) =? 0 then foreach_mask api_func pins (i + 1) pin_mask
      else
        let* f := of_option NullPointer (api_func port) in
        let* r := on_ext (f (BIT p)) in
        if r <? 0 then ret r else foreach_mask api_func pins (i + 1) pin_mask
  end.

Definition hvs_gpio_clear_pins (pins : Z) : M (hv_world E) Z := foreach_mask port_clear_bits_raw lv_gpios 0 pins.
Definition hvs_gpio_set_pins (pins : Z) : M (hv_world E) Z := foreach_mask port_set_bits_raw lv_gpios 0 pins.
Definition hvs_gpio_toggle_pins (pins : Z) : M (hv_world E) Z := foreach_mask port_toggle_bits lv_gpios 0 pins.

Definition hvs_gpio_manage_callback : M (hv_world E) Z := ret (- ENOSYS).

(** The error is returned as an unsigned number. *)
Fixpoint pending_loop (pins : list (Z * Z)) : M (hv_world E) Z :=
  match pins with
  | [] => ret 0
  | (port, _) :: pins =>
      match get_pending_int port with
      | None => ret (u32 (- ENOSYS))
      | Some f =>
          let* r := on_ext f in
          if u32 r =? u32 (- ENOSYS) then ret (u32 r)
          else if 0 <? u32 r then ret (u32 r) else pending_loop pins
      end
  end.

Definition hvs_gpio_get_pending_int : M (hv_world E) Z := pending_loop lv_gpios.

(** The return value and what is stored through [inputs] and [outputs]; either
    may be NULL. *)
Definition hvs_gpio_get_direction (map : Z) (inputs_null outputs_null : bool) :
    M (hv_world E) (Z * option Z * option Z) :=
  let* i := gets input_map in
  let* o := gets output_map in
  ret (0, if inputs_null then None else Some (Z.land i map), if outputs_null then None else Some (Z.land o map)).
End gpio.

Record dac_channel_cfg := DacChannelCfg { channel_id : Z; resolution : Z; buffered : bool }.

Class Dacs (E : Type) := {
  dac_channel_setup : Z -> dac_channel_cfg -> M E Z;
  dac_write_value : Z -> Z -> Z -> M E Z;
}.

Section dac.
Context {E : Type} `{!ShieldBus E} `{!Dacs E}.
(** The DAC and its channel behind each channel, and the gains of the device
    tree. *)
Context (mapping : list (Z * Z)) (gains : list Z).

Definition channel_count : Z := Z.of_nat (length mapping).

Definition hvs_dac_channel_setup (channel_cfg : dac_channel_cfg) : M (hv_world E) Z :=
  if channel_count <=? channel_id channel_cfg then ret (- EINVAL)
  else
    let* (dac, ch) := of_option OutOfBounds (mapping !! Z.to_nat (channel_id channel_cfg)) in
    on_ext (dac_channel_setup dac (DacChannelCfg (u8 ch) (resolution channel_cfg) (buffered channel_cfg))).

Definition hvs_dac_write_value (channel value : Z) : M (hv_world E) Z :=
  if channel_count <=? channel then ret (- EINVAL)
  else
    let* (dac, ch) := of_option OutOfBounds (mapping !! Z.to_nat channel) in
    let mapped_channel := u8 ch in
    on_ext (dac_write_value dac mapped_channel value).

(** [None] is [-ENOTSUP]. *)
Definition hvs_dac_convert_gain (raw_gain : Z) : option hv_shield_dac_gains_t :=
  if raw_gain =? 1 then Some HV_SHIELD_DAC_GAIN_1
  else if raw_gain =? 2 then Some HV_SHIELD_DAC_GAIN_2
  else if raw_gain =? 4 then Some HV_SHIELD_DAC_GAIN_4
  else if raw_gain =? 8 then Some HV_SHIELD_DAC_GAIN_8
  else if raw_gain =? 16 then Some HV_SHIELD_DAC_GAIN_16
  else None.

Fixpoint dac_init_loop (n : nat) (i : Z) : M (hv_world E) Z :=
  match n with
  | O => ret 0
  | S n =>
      let* raw := of_option OutOfBounds (gains !! Z.to_nat i) in
      match hvs_dac_convert_gain raw with
      | None => ret (- ENOTSUP)
      | Some gain =>
          let* rc := hvs_set_dac_gain i gain in
          if negb (rc =? 0) then ret rc else dac_init_loop n (i + 1)
      end
  end.

Definition hv_shield_dac_init : M (hv_world E) Z := dac_init_loop (length mapping) 0.
End dac.

(** ** Specification of the shift register *)

(** What the shield is set to: the direction of each pin and the two gains. *)
Record shield := Shield { is_output : Z -> bool; gain0 : hv_shield_dac_gains_t; gain1 : hv_shield_dac_gains_t }.
Definition blank : shield := Shield (fun _ => false) HV_SHIELD_DAC_GAIN_1 HV_SHIELD_DAC_GAIN_1.

(** The wiring: in every group of eight the outputs of the register are the
    pins 4 to 7, then 0 to 3. *)
Definition wired (i : Z) : Z := if i mod 8 <? 4 then i + 4 else i - 4.

(** The bytes on the bus: the gains first, then the pins from the last to the
    first group. *)
Definition pin_byte (s : shield) (k : Z) : Z := of_bits ((fun j => is_output s (wired (8 * k + j))) <$> seqZ 0 8).
Definition frame_of (s : shield) : list Z :=
  [gain_value (gain0 s) + 16 * gain_value (gain1 s); pin_byte s 3; pin_byte s 2; pin_byte s 1; pin_byte s 0].

Inductive hv_op := set_gain (dac : Z) (g : hv_shield_dac_gains_t) | set_output (index : Z) (enable : bool).

(** [None] for an argument out of range. *)
Definition spec_op (o : hv_op) (s : shield) : option shield :=
  match o with
  | set_gain dac g =>
      if dac =? 0 then Some (Shield (is_output s) g (gain1 s))
      else if dac =? 1 then Some (Shield (is_output s) (gain0 s) g) else None
  | set_output i en =>
      if 31 <? i then None
      else Some (Shield (fun j => if decide (j = i) then en else is_output s j) (gain0 s) (gain1 s))
  end.

Fixpoint spec_run (l : list hv_op) (s : shield) : list (list Z) * shield :=
  match l with
  | [] => ([], s)
  | o :: l => match spec_op o s with
              | None => spec_run l s
              | Some s => let '(fs, s') := spec_run l s in (frame_of s :: fs, s')
              end
  end.

Definition op_index (o : hv_op) : Z := match o with set_gain i _ => i | set_output i _ => i end.

(** The result of each call: an argument error, or what the bus returned. *)
Fixpoint results_ok (l : list hv_op) (rs : list Z) (s : shield) : Prop :=
  match l, rs with
  | [], [] => True
  | o :: l, r :: rs => match spec_op o s with None => r = - EINVAL /\ results_ok l rs s | Some s => results_ok l rs s end
  | _, _ => False
  end.

Class ShieldBusLaws (E : Type) `{!ShieldBus E} := {
  frames : E -> list (list Z);
  spi_law : forall f e, exists rc e', spi_write_dt f e = Ret rc e' /\ frames e' = frames e ++ [f];
}.

Section refinement.
Context {E : Type} `{!ShieldBus E} `{!ShieldBusLaws E}.

Definition hv_run (o : hv_op) : M (hv_world E) Z :=
  match o with set_gain dac g => hvs_set_dac_gain dac g | set_output i en => hvs_set_gpio_output_enable i en end.

Fixpoint hv_run_all (l : list hv_op) : M (hv_world E) (list Z) :=
  match l with
  | [] => ret []
  | o :: l => let* r := hv_run o in let* rs := hv_run_all l in ret (r :: rs)
  end.

(** The image stands for the setting. *)
Record represents (r : hv_shield_registers_t) (s : shield) : Prop := Represents {
  rep_pins : forall i, 0 <= i < 32 -> Z.testbit (gpio_output r) i = is_output s (wired i);
  rep_gain0 : dac0 r = gain_value (gain0 s);
  rep_gain1 : dac1 r = gain_value (gain1 s);
}.

Lemma wired_range i : 0 <= i < 32 -> 0 <= wired i < 32.
Proof.
  intros Hi. unfold wired. pose proof (Z.div_mod i 8 ltac:(lia)). pose proof (Z.mod_pos_bound i 8 ltac:(lia)).
  destruct (Z.ltb_spec (i mod 8) 4); [|lia]. assert (i / 8 < 4) by (apply Z.div_lt_upper_bound; lia). lia.
Qed.

Lemma wired_involutive i : 0 <= i < 32 -> wired (wired i) = i.
Proof.
  intros Hi. assert (forallb (fun i => wired (wired i) =? i) (seqZ 0 32) = true) as Hall by (by vm_compute).
  rewrite forallb_forall in Hall. apply Z.eqb_eq, Hall, list_elem_of_In, elem_of_seqZ. lia.
Qed.

Lemma pin_byte_eq r s k : represents r s -> 0 <= k < 4 -> u8 (Z.shiftr (gpio_output r) (8 * k)) = pin_byte s k.
Proof.
  intros Hr Hk. apply (bits_equal 8).
  - apply (wrap_range 8); lia.
  - unfold pin_byte. match goal with |- context [of_bits ?l] => pose proof (of_bits_range l) as Hl end.
    by rewrite length_fmap, length_seqZ in Hl.
  - lia.
  - intros j Hj. unfold pin_byte. rewrite testbit_wrap, testbit_of_bits, Z.shiftr_spec by lia.
    rewrite (proj2 (Z.ltb_lt _ _)) by lia. cbn [andb]. rewrite list_lookup_fmap, lookup_seqZ_lt by lia.
    cbn. rewrite (rep_pins _ _ Hr) by lia. f_equal. f_equal. lia.
Qed.

Lemma frame_eq r s : represents r s -> rev (raw_bytes r) = frame_of s.
Proof.
  intros Hr. unfold raw_bytes, frame_of. cbn [rev app].
  rewrite <- !(pin_byte_eq r s) by (done || lia). rewrite Z.shiftr_0_r.
  f_equal. rewrite (rep_gain0 _ _ Hr), (rep_gain1 _ _ Hr). by destruct (gain0 s), (gain1 s).
Qed.

(** An update sends the image. *)
Lemma update_run r s w : represents r s ->
  exists rc e', (set_registers r ;; _hv_shield_update) w = Ret rc (HvWorld r (input_map w) (output_map w) e') /\
    frames e' = frames (hv_ext w) ++ [frame_of s].
Proof.
  intros Hr. destruct (spi_law (frame_of s) (hv_ext w)) as (rc & e' & Hrun & Hf). exists (if rc =? 0 then 0 else rc), e'.
  split; [|done]. unfold _hv_shield_update, set_registers, on_ext, zoom, bind, modify, gets. cbn [registers hv_ext].
  rewrite (frame_eq r s Hr), Hrun. by destruct (rc =? 0).
Qed.

Lemma wired_u8 i : 0 <= i < 32 -> (if i mod 8 <? 4 then u8 (i + 4) else u8 (i - 4)) = wired i.
Proof.
  intros Hi. pose proof (wired_range i Hi) as Hw. unfold wired in *.
  destruct (i mod 8 <? 4); apply (wrap_small 8); unfold in_width; lia.
Qed.

Lemma output_represents r s i (en : bool) : represents r s -> 0 <= i < 32 ->
  represents (Registers (if en then Z.lor (gpio_output r) (BIT (wired i)) else Z.ldiff (gpio_output r) (BIT (wired i))) (dac0 r) (dac1 r))
    (Shield (fun j => if decide (j = i) then en else is_output s j) (gain0 s) (gain1 s)).
Proof.
  intros [Hp H0 H1] Hi. constructor; cbn; [|done|done]. intros j Hj. pose proof (wired_range i Hi).
  transitivity (if decide (j = wired i) then en else Z.testbit (gpio_output r) j).
  - destruct en; [by rewrite testbit_set by lia|by rewrite testbit_clear by lia].
  - rewrite Hp by done. destruct (decide (j = wired i)) as [->|Hne].
    + by rewrite wired_involutive, decide_True by done.
    + rewrite decide_False; [done|]. intros Hji. apply Hne. rewrite <- Hji. by rewrite wired_involutive.
Qed.

Lemma hv_run_refines o w s : represents (registers w) s -> 0 <= op_index o ->
  match spec_op o s with
  | None => hv_run o w = Ret (- EINVAL) w
  | Some s' => exists rc r' e', hv_run o w = Ret rc (HvWorld r' (input_map w) (output_map w) e') /\
      represents r' s' /\ frames e' = frames (hv_ext w) ++ [frame_of s']
  end.
Proof.
  intros Hr Hi. destruct o as [i g|i en]; cbn [spec_op op_index hv_run] in *.
  - unfold hvs_set_dac_gain. pose proof Hr as [Hp H0 H1]. destruct (Z.ltb_spec 1 i).
    { by rewrite (proj2 (Z.eqb_neq i 0)), (proj2 (Z.eqb_neq i 1)) by lia. }
    unfold bind at 1, gets. destruct (Z.eqb_spec i 0) as [->|].
    + assert (represents (Registers (gpio_output (registers w)) (gain_value g) (dac1 (registers w)))
                (Shield (is_output s) g (gain1 s))) as Hr' by (by constructor).
      destruct (update_run _ _ w Hr') as (rc & e' & Hrun & Hf). eexists rc, _, e'. split; [exact Hrun|done].
    + destruct (Z.eqb_spec i 1) as [->|]; [|lia].
      assert (represents (Registers (gpio_output (registers w)) (dac0 (registers w)) (gain_value g))
                (Shield (is_output s) (gain0 s) g)) as Hr' by (by constructor).
      destruct (update_run _ _ w Hr') as (rc & e' & Hrun & Hf). eexists rc, _, e'. split; [exact Hrun|done].
  - unfold hvs_set_gpio_output_enable. destruct (Z.ltb_spec 31 i); [done|]. rewrite wired_u8 by lia.
    unfold bind at 1, gets.
    destruct (update_run _ _ w (output_represents _ _ i en Hr ltac:(lia))) as (rc & e' & Hrun & Hf).
    eexists rc, _, e'. split; [exact Hrun|]. split; [by apply output_represents; [|lia]|done].
Qed.

(** C28. The shift register always shows what was set.  For every sequence of
    calls on a driver whose image stands for a setting, each call with
    arguments in range sends one frame, which is the encoding of the setting
    after the call, with the pins wired as on the shield and every other pin
    and gain as before; a call with an argument out of range returns [-EINVAL]
    and sends nothing. *)
Theorem hv_shield_refines l w s :
  represents (registers w) s -> Forall (fun o => 0 <= op_index o) l ->
  exists rs w', hv_run_all l w = Ret rs w' /\ results_ok l rs s /\
    frames (hv_ext w') = frames (hv_ext w) ++ (spec_run l s).1 /\ represents (registers w') (spec_run l s).2 /\
    input_map w' = input_map w /\ output_map w' = output_map w.
Proof.
  revert w s. induction l as [|o l IH]; intros w s Hr Hok.
  - exists [], w. cbn. by rewrite app_nil_r.
  - apply Forall_cons in Hok as [Ho Hok]. pose proof (hv_run_refines o w s Hr Ho) as Hrun.
    cbn [hv_run_all spec_run results_ok]. destruct (spec_op o s) as [s1|].
    + destruct Hrun as (rc & r1 & e1 & Hrun & Hr1 & Hf1).
      destruct (IH (HvWorld r1 (input_map w) (output_map w) e1) s1 Hr1 Hok) as (rs & w' & Hall & Hres & Hf & Hr' & Hin & Hout).
      exists (rc :: rs), w'. rewrite (bind_step _ _ _ _ _ Hrun), (bind_step _ _ _ _ _ Hall).
      destruct (spec_run l s1) as [fs s2]. cbn in *. split_and!; try done. by rewrite Hf, Hf1, <- (assoc_L app).
    + destruct (IH w s Hr Hok) as (rs & w' & Hall & Hres & Hf & Hr' & Hin & Hout).
      exists (- EINVAL :: rs), w'. rewrite (bind_step _ _ _ _ _ Hrun), (bind_step _ _ _ _ _ Hall). by split_and!.
Qed.
End refinement.

(** ** The port of the GPIO front end *)

(** The other controllers: reading a pin gives its level or an error, setting
    it changes this pin only. *)
Class GpioPortsLaws (E : Type) `{!GpioPorts E} := {
  level : E -> Z -> Z -> bool;
  get_law : forall port p e, exists rc, gpio_pin_get_dt port p e = Ret rc e /\ (rc < 0 \/ rc = Z.b2z (level e port p));
  set_law : forall port p v e, exists rc e', gpio_pin_set port p v e = Ret rc e' /\ rc <= 0 /\
    (forall q i, level e' q i = if decide (rc = 0 /\ q = port /\ i = p) then v else level e q i);
}.

Section port.
Context {E : Type} `{!GpioPorts E} `{!GpioPortsLaws E}.
Implicit Types (w : hv_world E) (pins : list (Z * Z)).

(** What the loop reads for the pin number [i + k]. *)
Lemma port_get_loop_run w : forall pins i value, 0 <= i ->
  exists r v, port_get_loop pins i value w = Ret (r, v) w /\
    (r < 0 \/ r = 0 /\ forall j, 0 <= j -> Z.testbit v j = Z.testbit value j ||
      match pins !! Z.to_nat (j - i) with
      | Some (port, p) => (i <=? j) && Z.testbit (input_map w) j && level (hv_ext w) port p
      | None => false
      end).
Proof.
  induction pins as [|[port p] pins IH]; intros i value Hi.
  - exists 0, value. split; [done|]. right. split; [done|]. intros j Hj. by rewrite orb_false_r.
  - cbn [port_get_loop]. unfold bind at 1, gets. rewrite land_BIT by done.
    assert (forall r' v' b, (forall j, 0 <= j -> Z.testbit v' j = Z.testbit (if b : bool then Z.lor value (BIT i) else value) j ||
        match pins !! Z.to_nat (j - (i + 1)) with
        | Some (port, p) => (i + 1 <=? j) && Z.testbit (input_map w) j && level (hv_ext w) port p | None => false end) ->
      b = Z.testbit (input_map w) i && level (hv_ext w) port p ->
      r' = 0 -> r' < 0 \/ r' = 0 /\ forall j, 0 <= j -> Z.testbit v' j = Z.testbit value j ||
        match ((port, p) :: pins) !! Z.to_nat (j - i) with
        | Some (port, p) => (i <=? j) && Z.testbit (input_map w) j && level (hv_ext w) port p | None => false end) as Hstep.
    { intros r' v' b Hv Hb ->. right. split; [done|]. intros j Hj. rewrite Hv by done.
      destruct (Z.lt_total j i) as [Hlt|[->|Hgt]].
      - replace (Z.to_nat (j - i)) with 0%nat by lia. cbn. rewrite !(proj2 (Z.leb_gt _ _)) by lia. cbn.
        destruct (pins !! _) as [[]|]; rewrite ?orb_false_r;
          (destruct b; [rewrite testbit_set by lia; by rewrite decide_False by lia|done]).
      - rewrite Z.sub_diag. change (((port, p) :: pins) !! Z.to_nat 0) with (Some (port, p)).
        rewrite Z.leb_refl, (proj2 (Z.leb_gt (i + 1) i)) by lia. rewrite andb_true_l, <- Hb. cbn.
        destruct (pins !! _) as [[]|]; rewrite ?orb_false_r;
          (destruct b; [rewrite testbit_set by lia; by rewrite decide_True, orb_true_r by done|by rewrite orb_false_r]).
      - replace (Z.to_nat (j - i)) with (S (Z.to_nat (j - (i + 1)))) by lia. cbn.
        rewrite !(proj2 (Z.leb_le _ _)) by lia.
        f_equal. destruct b; [rewrite testbit_set by lia; by rewrite decide_False by lia|done]. }
    destruct (Z.testbit (input_map w) i) eqn:Hin; cbn [negb].
    + destruct (get_law port p (hv_ext w)) as (rc & Hget & Hrc).
      rewrite (bind_step _ _ _ rc w). 2: { unfold on_ext, zoom. rewrite Hget. by destruct w. }
      destruct (Z.ltb_spec rc 0); [by exists rc, value; split; [|left]|]. destruct Hrc as [|Hrc]; [lia|].
      destruct (IH (i + 1) (if rc =? 1 then Z.lor value (BIT i) else value) ltac:(lia)) as (r' & v' & Hrun & Hv').
      exists r', v'. split; [exact Hrun|]. destruct Hv' as [|[Hr' Hv']]; [by left|].
      apply (Hstep r' v' (rc =? 1)); [done| |done]. rewrite Hrc. by destruct (level _ _ _).
    + destruct (IH (i + 1) value ltac:(lia)) as (r' & v' & Hrun & Hv').
      exists r', v'. split; [exact Hrun|]. destruct Hv' as [|[Hr' Hv']]; [by left|].
      by apply (Hstep r' v' false).
Qed.

Lemma set_masked_loop_run mask value : forall pins i w, 0 <= i -> NoDup pins ->
  exists r w', set_masked_loop pins i mask value w = Ret r w' /\ r <= 0 /\
    registers w' = registers w /\ input_map w' = input_map w /\ output_map w' = output_map w /\
    (forall port p, (port, p) ∉ pins -> level (hv_ext w') port p = level (hv_ext w) port p) /\
    (r = 0 -> forall k port p, pins !! k = Some (port, p) -> level (hv_ext w') port p =
       if Z.testbit mask (i + Z.of_nat k) then Z.testbit value (i + Z.of_nat k) else level (hv_ext w) port p).
Proof.
  induction pins as [|[port p] pins IH]; intros i w Hi Hn.
  - exists 0, w. by split_and!.
  - apply NoDup_cons in Hn as [Hp Hn]. cbn [set_masked_loop]. rewrite !land_BIT by done.
    destruct (Z.testbit mask i) eqn:Hm; cbn [negb].
    + rewrite negb_involutive. destruct (set_law port p (Z.testbit value i) (hv_ext w)) as (rc & e' & Hset & Hrc & Hlev).
      set (w1 := HvWorld (registers w) (input_map w) (output_map w) e').
      rewrite (bind_step _ _ _ rc w1) by (unfold on_ext, zoom; by rewrite Hset).
      destruct (Z.ltb_spec rc 0) as [Hneg|Hpos].
      { exists rc, w1. split_and!; try done; cbn; [|lia]. intros q j _. rewrite Hlev. by rewrite decide_False by lia. }
      assert (rc = 0) as -> by lia.
      destruct (IH (i + 1) w1 ltac:(lia) Hn) as (r & w' & Hrun & Hr & Hregs & Him & Hom & Hrest & Hpins).
      exists r, w'. split_and!; try done.
      * intros q j Hq. apply not_elem_of_cons in Hq as [Hne Hq]. rewrite Hrest by done. cbn. rewrite Hlev.
        rewrite decide_False; [done|]. intros (_ & -> & ->). done.
      * intros H0 k q j Hk. destruct k as [|k]; cbn in Hk.
        -- injection Hk as <- <-. rewrite Z.add_0_r, Hm. rewrite Hrest by done. cbn. rewrite Hlev. by rewrite decide_True.
        -- rewrite (Hpins H0 k q j Hk). cbn. rewrite Hlev. rewrite decide_False.
           ++ by replace (i + 1 + Z.of_nat k) with (i + Z.of_nat (S k)) by lia.
           ++ intros (_ & -> & ->). by apply list_elem_of_lookup_2 in Hk.
    + destruct (IH (i + 1) w ltac:(lia) Hn) as (r & w' & Hrun & Hr & Hregs & Him & Hom & Hrest & Hpins).
      exists r, w'. split_and!; try done.
      * intros q j Hq. apply not_elem_of_cons in Hq as [Hne Hq]. by apply Hrest.
      * intros H0 k q j Hk. destruct k as [|k]; cbn in Hk.
        -- injection Hk as <- <-. rewrite Z.add_0_r, Hm. by apply Hrest.
        -- rewrite (Hpins H0 k q j Hk). by replace (i + 1 + Z.of_nat k) with (i + Z.of_nat (S k)) by lia.
Qed.

(** Writing and reading the port.  A masked write that succeeds gives every
    pin in the mask the value's bit, and no other pin of any controller
    changes; a failing write is reported.  A read after it that succeeds
    returns, for every pin configured as an input, its level (so the written
    bit where the mask has it), and zero for all other bits. *)
Theorem hv_port_write_read lv_gpios mask value w :
  NoDup lv_gpios ->
  exists r w', hvs_set_masked_raw lv_gpios mask value w = Ret r w' /\ r <= 0 /\
    (forall port p, (port, p) ∉ lv_gpios -> level (hv_ext w') port p = level (hv_ext w) port p) /\
    exists r' v, hvs_gpio_port_get_raw lv_gpios false w' = Ret (r', Some v) w' /\
      (r = 0 -> r' = 0 -> forall j, 0 <= j -> Z.testbit v j =
         match lv_gpios !! Z.to_nat j with
         | Some (port, p) => Z.testbit (input_map w) j &&
             (if Z.testbit mask j then Z.testbit value j else level (hv_ext w) port p)
         | None => false
         end).
Proof.
  intros Hn. destruct (set_masked_loop_run mask value lv_gpios 0 w ltac:(lia) Hn)
    as (r & w' & Hrun & Hr & _ & Him & _ & Hrest & Hpins).
  exists r, w'. split_and!; [exact Hrun|done|done|].
  destruct (port_get_loop_run w' lv_gpios 0 0 ltac:(lia)) as (r' & v & Hget & Hv). exists r', v.
  split; [unfold hvs_gpio_port_get_raw; by rewrite (bind_step _ _ _ _ _ Hget)|].
  intros H0 Hr' j Hj. destruct Hv as [|[_ Hv]]; [lia|]. rewrite Hv by done. rewrite Z.testbit_0_l, Z.sub_0_r. cbn.
  destruct (lv_gpios !! Z.to_nat j) as [[port p]|] eqn:Hk; [|done].
  rewrite (proj2 (Z.leb_le _ _)) by done. rewrite (Hpins H0 _ _ _ Hk), Him, Z.add_0_l, Z2Nat.id by done. done.
Qed.
End port.
