(* ===== verification/UdsLegacy.v ===== *)
(** * Legacy UDS handler ([lib/uds_legacy])

    A diagnostic server of its own, older than [lib/uds]: one thread receives
    requests over ISO-TP, answers them, and writes a new firmware image through
    a download of numbered blocks.

    ISO-TP, the flash image library, the boot loader, timers and the CAN
    controller are Zephyr's and are the interface [LegacyEnv].  The thread's
    loop runs over the list of what [isotp_recv] returns, so a theorem about it
    is about every sequence of requests.  The receive buffer is part of the
    state, because the code reads bytes of it that the current request did not
    fill. *)

From stdpp Require Import base gmap list numbers relations.
From Stdlib Require Import ZArith Lia.
From S2P Require Import Prelude.
From S2P Require Import Can.

#[local] Open Scope Z_scope.

(** ** Definitions *)

(** [enum UDS_SID] *)
Definition UDS_SID_DIAGNOSTIC_SESSION_CONTROL : Z := 0x10.
Definition UDS_SID_ECU_RESET : Z := 0x11.
Definition UDS_SID_ROUTINE_CONTROL : Z := 0x31.
Definition UDS_SID_REQUEST_DOWNLOAD : Z := 0x34.
Definition UDS_SID_TRANSFER_DATA : Z := 0x36.
Definition UDS_SID_REQUEST_TRANSFER_EXIT : Z := 0x37.
Definition UDS_SID_NEGATIVE_RESPONSE : Z := 0x7F.

(** [enum UDS_NRC] *)
Definition UDS_NRC_SERVICE_NOT_SUPPORTED : Z := 0x11.
Definition UDS_NRC_SUBFUNCTION_NOT_SUPPORTED : Z := 0x12.
Definition UDS_NRC_INCORRECT_MESSAGE_LENGTH_OR_INVALID_FORMAT : Z := 0x13.
Definition UDS_NRC_FAILURE_PREVENTS_EXECUTION_OF_REQUESTED_ACTION : Z := 0x26.
Definition UDS_NRC_REQUEST_RECEIVED_RESPONSE_PENDING : Z := 0x78.

Definition UDS_RESET_TYPE_HARD : Z := 0x01.

(** [enum UdsSessionState] *)
Definition UDS_SESSION_STATE_DEFAULT : Z := 1.
Definition UDS_SESSION_STATE_PROGRAMMING : Z := 2.
Definition UDS_SESSION_STATE_EXTENDED_DIAGNOSTIC : Z := 3.

(** The static variables of [uds.c] and [uds_session.c]. *)
Record legacy_state := LegacyState {
  uds_session_state : Z;
  flash_context_initialized : bool;
  block_id : Z;
  rx_buffer : list Z;
}.

(** The values at the start of the program. *)
Definition legacy_state_init : legacy_state := LegacyState UDS_SESSION_STATE_DEFAULT false 0xF (replicate 512 0).

Record legacy_world (E : Type) := LegacyWorld { legacy : legacy_state; legacy_ext : E }.
Arguments LegacyWorld {E}.
Arguments legacy {E}.
Arguments legacy_ext {E}.

Class LegacyEnv (E : Type) := {
  device_is_ready : M E bool;
  can_get_state : M E (Z * can_state);
  can_set_mode : Z -> M E Z;
  can_start : M E Z;
  isotp_bind : M E Z;
  isotp_send : list Z -> M E Z;
  flash_img_init : M E Z;
  flash_img_buffered_write : list Z -> bool -> M E Z;
  boot_request_upgrade : M E Z;
  k_timer_start : M E unit;
}.

(** Where a round of the loop leads: to the next one, out of the thread's
    function, or to a reset of the controller. *)
Inductive next := Next | Return | Reboot.

Section legacy.
Context {E : Type} `{!LegacyEnv E}.

Definition env {A} (m : M E A) : M (legacy_world E) A :=
  zoom legacy_ext (fun e w => LegacyWorld (legacy w) e) m.
Definition state : M (legacy_world E) legacy_state := gets legacy.
Definition set_state (s : legacy_state) : M (legacy_world E) unit :=
  modify (fun w => LegacyWorld s (legacy_ext w)).

(** [uds_session.c] *)
Definition uds_session_timeout : M (legacy_world E) unit :=
  let* s := state in
  set_state (LegacyState UDS_SESSION_STATE_DEFAULT (flash_context_initialized s) (block_id s) (rx_buffer s)).

Definition restart_uds_session_timer : M (legacy_world E) unit := env k_timer_start.

Definition change_session (new_state : Z) : M (legacy_world E) unit :=
  let* s := state in
  set_state (LegacyState new_state (flash_context_initialized s) (block_id s) (rx_buffer s)) ;;
  restart_uds_session_timer.

(** A send error is logged. *)
Definition send (tx_data : list Z) : M (legacy_world E) unit :=
  let* _ := env (isotp_send tx_data) in ret tt.

Definition send_negative_response (request_sid response_code : Z) : M (legacy_world E) unit :=
  send [UDS_SID_NEGATIVE_RESPONSE; request_sid; response_code].

Definition send_session_control_response (session_type p2_timeout_ms p2_star_timeout_ms : Z) :
    M (legacy_world E) unit :=
  let positive_sid := u8 (UDS_SID_DIAGNOSTIC_SESSION_CONTROL + 0x40) in
  send [positive_sid; u8 session_type;
        Z.land (Z.shiftr p2_timeout_ms 8) 0xFF; Z.land p2_timeout_ms 0xFF;
        Z.land (Z.shiftr (p2_star_timeout_ms / 10) 8) 0xFF; Z.land (p2_star_timeout_ms / 10) 0xFF].

Definition send_positive_reset_response (reset_type : Z) : M (legacy_world E) unit :=
  send [u8 (UDS_SID_ECU_RESET + 0x40); reset_type].

Definition handle_ecu_reset (data : list Z) (len : Z) : M (legacy_world E) next :=
  if negb (len =? 2) then
    send_negative_response UDS_SID_ECU_RESET UDS_NRC_INCORRECT_MESSAGE_LENGTH_OR_INVALID_FORMAT ;; ret Next
  else
    let* reset_type := of_option OutOfBounds (data !! 1%nat) in
    if reset_type =? UDS_RESET_TYPE_HARD then
      send_positive_reset_response UDS_RESET_TYPE_HARD ;; ret Reboot
    else
      send_negative_response UDS_SID_ECU_RESET UDS_NRC_SUBFUNCTION_NOT_SUPPORTED ;; ret Next.

Definition send_request_download_response : M (legacy_world E) unit :=
  send [u8 (UDS_SID_REQUEST_DOWNLOAD + 0x40); 0x20; 0x00; 0xD2].

Definition send_transfer_data_response (block_sequence_counter : Z) : M (legacy_world E) unit :=
  send [u8 (UDS_SID_TRANSFER_DATA + 0x40); block_sequence_counter].

Definition send_routine_control_result (routine_id result : Z) : M (legacy_world E) unit :=
  send [u8 (UDS_SID_ROUTINE_CONTROL + 0x40); 0x1;
        Z.land (Z.shiftr routine_id 8) 0xFF; Z.land routine_id 0xFF; u8 result].

Definition handle_erase_routine : M (legacy_world E) unit :=
  send_negative_response UDS_SID_ROUTINE_CONTROL UDS_NRC_REQUEST_RECEIVED_RESPONSE_PENDING ;;
  let* rc := env flash_img_init in
  if negb (rc =? 0) then send_routine_control_result 1337 rc
  else
    let* s := state in
    set_state (LegacyState (uds_session_state s) true 0xFF (rx_buffer s)) ;;
    send_routine_control_result 1337 0.

Definition handle_confirm_routine : M (legacy_world E) unit :=
  let* _ := env boot_request_upgrade in
  send_routine_control_result 1338 0.

Definition handle_transfer_data (data : list Z) (len : Z) : M (legacy_world E) unit :=
  if len <? 2 then
    send_negative_response UDS_SID_TRANSFER_DATA UDS_NRC_INCORRECT_MESSAGE_LENGTH_OR_INVALID_FORMAT
  else
    let* block_sequence_counter := of_option OutOfBounds (data !! 1%nat) in
    let* s := state in
    if block_sequence_counter =? block_id s then send_transfer_data_response (block_id s)
    else
      set_state (LegacyState (uds_session_state s) (flash_context_initialized s) (u8 (block_id s + 1)) (rx_buffer s)) ;;
      let* s := state in
      if negb (block_sequence_counter =? block_id s) then
        send_negative_response UDS_SID_TRANSFER_DATA UDS_NRC_INCORRECT_MESSAGE_LENGTH_OR_INVALID_FORMAT
      else if negb (flash_context_initialized s) then
        send_negative_response UDS_SID_TRANSFER_DATA UDS_NRC_FAILURE_PREVENTS_EXECUTION_OF_REQUESTED_ACTION
      else
        let* rc := env (flash_img_buffered_write (take (Z.to_nat (len - 2)) (drop 2 data)) false) in
        (if negb (rc =? 0) then
           send_negative_response UDS_SID_TRANSFER_DATA UDS_NRC_FAILURE_PREVENTS_EXECUTION_OF_REQUESTED_ACTION
         else ret tt) ;;
        send_transfer_data_response (block_id s).

Definition send_transer_exit_positive_response : M (legacy_world E) unit :=
  send [u8 (UDS_SID_REQUEST_TRANSFER_EXIT + 0x40)].

Definition handle_transfer_exit : M (legacy_world E) unit :=
  let* s := state in
  if negb (flash_context_initialized s) then
    send_negative_response UDS_SID_REQUEST_TRANSFER_EXIT UDS_NRC_FAILURE_PREVENTS_EXECUTION_OF_REQUESTED_ACTION
  else
    let* rc := env (flash_img_buffered_write [] true) in
    (if negb (rc =? 0) then
       send_negative_response UDS_SID_REQUEST_TRANSFER_EXIT UDS_NRC_FAILURE_PREVENTS_EXECUTION_OF_REQUESTED_ACTION
     else ret tt) ;;
    let* s := state in
    set_state (LegacyState (uds_session_state s) false (block_id s) (rx_buffer s)) ;;
    send_transer_exit_positive_response.

(** The branches of the loop's body that take more than one line. *)
Definition session_control (received_len : Z) : M (legacy_world E) next :=
  if negb (received_len =? 2) then
    send_negative_response UDS_SID_DIAGNOSTIC_SESSION_CONTROL UDS_NRC_INCORRECT_MESSAGE_LENGTH_OR_INVALID_FORMAT ;;
    ret Next
  else
    let* s := state in
    let* session_type := of_option OutOfBounds (rx_buffer s !! 1%nat) in
    (if (session_type =? UDS_SESSION_STATE_DEFAULT) || (session_type =? UDS_SESSION_STATE_PROGRAMMING)
        || (session_type =? UDS_SESSION_STATE_EXTENDED_DIAGNOSTIC)
     then change_session session_type ;; send_session_control_response session_type 4000 10000
     else send_negative_response UDS_SID_DIAGNOSTIC_SESSION_CONTROL UDS_NRC_SUBFUNCTION_NOT_SUPPORTED) ;;
    ret Next.

Definition routine_control (received_len : Z) : M (legacy_world E) next :=
  if received_len <? 3 then
    send_negative_response UDS_SID_ROUTINE_CONTROL UDS_NRC_INCORRECT_MESSAGE_LENGTH_OR_INVALID_FORMAT ;;
    ret Next
  else
    let* s := state in
    let* sub := of_option OutOfBounds (rx_buffer s !! 1%nat) in
    if negb (sub =? 0x01) then
      send_negative_response UDS_SID_ROUTINE_CONTROL UDS_NRC_SUBFUNCTION_NOT_SUPPORTED ;; ret Return
    else
      let* hi := of_option OutOfBounds (rx_buffer s !! 2%nat) in
      let* lo := of_option OutOfBounds (rx_buffer s !! 3%nat) in
      let routine_id := u16 (Z.lor (Z.shiftl hi 8) lo) in
      (if routine_id =? 1337 then handle_erase_routine
       else if routine_id =? 1338 then handle_confirm_routine
       else send_negative_response UDS_SID_ROUTINE_CONTROL UDS_NRC_SUBFUNCTION_NOT_SUPPORTED) ;;
      ret Next.

Definition request_download (received_len : Z) : M (legacy_world E) next :=
  (if negb (received_len =? 11) then
     send_negative_response UDS_SID_REQUEST_DOWNLOAD UDS_NRC_INCORRECT_MESSAGE_LENGTH_OR_INVALID_FORMAT
   else send_request_download_response) ;;
  ret Next.

(** One round of the loop, after [isotp_recv] filled the buffer. *)
Definition handle_request (received_len : Z) : M (legacy_world E) next :=
  let* s := state in
  let* sid := of_option OutOfBounds (rx_buffer s !! 0%nat) in
  if sid =? UDS_SID_DIAGNOSTIC_SESSION_CONTROL then session_control received_len
  else if sid =? UDS_SID_ECU_RESET then handle_ecu_reset (rx_buffer s) received_len
  else if sid =? UDS_SID_ROUTINE_CONTROL then routine_control received_len
  else if sid =? UDS_SID_REQUEST_DOWNLOAD then request_download received_len
  else if sid =? UDS_SID_TRANSFER_DATA then handle_transfer_data (rx_buffer s) received_len ;; ret Next
  else if sid =? UDS_SID_REQUEST_TRANSFER_EXIT then handle_transfer_exit ;; ret Next
  else send_negative_response sid UDS_NRC_SERVICE_NOT_SUPPORTED ;; ret Next.

(** [isotp_recv] with a message: its bytes come first, the rest of the buffer
    is what it was. *)
Definition fill (m : list Z) : M (legacy_world E) unit :=
  let* s := state in
  set_state (LegacyState (uds_session_state s) (flash_context_initialized s) (block_id s)
               (m ++ drop (length m) (rx_buffer s))).

(** The loop over what [isotp_recv] returns; [None] is an error or a timeout. *)
Fixpoint thread_loop (received : list (option (list Z))) : M (legacy_world E) next :=
  match received with
  | [] => ret Next
  | None :: received => thread_loop received
  | Some m :: received =>
      fill m ;;
      let* n := handle_request (Z.of_nat (length m)) in
      match n with Next => thread_loop received | n => ret n end
  end.

Definition init_can : M (legacy_world E) Z :=
  let* ready := env device_is_ready in
  if negb ready then ret 0
  else
    let* (rc, cs) := env can_get_state in
    if negb (rc =? 0) then ret rc
    else match cs with
    | CAN_STATE_STOPPED =>
        let* rc := env (can_set_mode 0) in
        if negb (rc =? 0) then ret rc
        else let* rc := env can_start in if negb (rc =? 0) then ret rc else ret 0
    | _ => ret 0
    end.

Definition thread_entry (received : list (option (list Z))) : M (legacy_world E) next :=
  let* rc := init_can in
  if negb (rc =? 0) then ret Return
  else
    let* rc := env isotp_bind in
    if negb (rc =? 0) then ret Return else thread_loop received.
End legacy.

(** ** Contracts *)

(** ISO-TP records what is sent; the image library appends what fits into the
    image area and returns an error number otherwise. *)
Class LegacyLaws (E : Type) `{!LegacyEnv E} := {
  sent : E -> list (list Z);
  written : E -> list Z;
  room : E -> nat;
  image_size : nat;
  send_law : forall d e, exists rc e', isotp_send d e = Ret rc e' /\
    sent e' = sent e ++ [d] /\ written e' = written e /\ room e' = room e;
  init_law : forall e, exists rc e', flash_img_init e = Ret rc e' /\ sent e' = sent e /\ - 256 < rc <= 0 /\
    (rc = 0 -> written e' = [] /\ room e' = image_size);
  write_law : forall d flush e, exists rc e', flash_img_buffered_write d flush e = Ret rc e' /\ sent e' = sent e /\
    if decide (length d <= room e)%nat
    then rc = 0 /\ written e' = written e ++ d /\ room e' = (room e - length d)%nat
    else rc < 0 /\ written e' = written e /\ room e' = room e;
  upgrade_law : forall e, exists rc e', boot_request_upgrade e = Ret rc e' /\
    sent e' = sent e /\ written e' = written e /\ room e' = room e;
  timer_law : forall e, exists e', k_timer_start e = Ret tt e' /\
    sent e' = sent e /\ written e' = written e /\ room e' = room e;
}.

Definition rx_size : nat := 512.

(** An answer to a request for a service: a negative response that names it, or
    a positive one. *)
Definition answer_to (sid : Z) (m : list Z) : Prop :=
  (exists nrc, m = [UDS_SID_NEGATIVE_RESPONSE; sid; nrc]) \/ exists l, m = (sid + 0x40) :: l.

(** The two requests that end the thread's loop. *)
Definition ends_with (m : list Z) (n : next) : Prop :=
  match n with
  | Next => False
  | Return => exists sub l, m = UDS_SID_ROUTINE_CONTROL :: sub :: l /\ sub <> 0x01 /\ l <> []
  | Reboot => m = [UDS_SID_ECU_RESET; UDS_RESET_TYPE_HARD]
  end.

Section answers.
Context {E : Type} `{!LegacyEnv E} `{!LegacyLaws E}.
Implicit Types (w : legacy_world E).

(** [talks sid k w w']: from [w] to [w'] at least [k] answers to [sid] were sent,
    and the receive buffer is what it was. *)
Definition talks (sid : Z) (k : nat) w w' : Prop :=
  rx_buffer (legacy w') = rx_buffer (legacy w) /\
  exists new, sent (legacy_ext w') = sent (legacy_ext w) ++ new /\ (k <= length new)%nat /\ Forall (answer_to sid) new.

Lemma talks_refl sid w : talks sid 0 w w.
Proof. split; [done|]. exists []. by rewrite app_nil_r. Qed.

Lemma talks_trans sid k1 k2 w1 w2 w3 : talks sid k1 w1 w2 -> talks sid k2 w2 w3 -> talks sid (k1 + k2) w1 w3.
Proof.
  intros (Hb1 & n1 & Hs1 & Hk1 & Hf1) (Hb2 & n2 & Hs2 & Hk2 & Hf2). split; [congruence|].
  exists (n1 ++ n2). rewrite Hs2, Hs1, (assoc_L app), length_app. split_and!; [done|lia|by apply Forall_app].
Qed.

Lemma talks_less sid k w w' : talks sid k w w' -> talks sid 0 w w'.
Proof. intros (Hb & n & Hs & _ & Hf). split; [done|]. exists n. split_and!; [done|lia|done]. Qed.

(** A step that sends nothing and keeps the buffer. *)
Lemma talks_silent sid w s e :
  rx_buffer s = rx_buffer (legacy w) -> sent e = sent (legacy_ext w) -> talks sid 0 w (LegacyWorld s e).
Proof. intros Hb Hs. split; [done|]. exists []. cbn. by rewrite app_nil_r. Qed.

Lemma wp_send sid d (Q : unit -> legacy_world E -> Prop) w :
  answer_to sid d -> (forall w', talks sid 1 w w' -> Q tt w') -> wp (send d) Q w.
Proof.
  intros Hd HQ. destruct (send_law d (legacy_ext w)) as (rc & e' & Hsend & Hs & _).
  unfold send, env. apply wp_bind, wp_zoom. unfold wp at 1. rewrite Hsend. apply HQ.
  split; [done|]. exists [d]. split_and!; [done|cbn; lia|by constructor].
Qed.

Lemma wp_negative sid nrc (Q : unit -> legacy_world E -> Prop) w :
  (forall w', talks sid 1 w w' -> Q tt w') -> wp (send_negative_response sid nrc) Q w.
Proof. apply wp_send. left. by eexists. Qed.

Lemma wp_positive sid l (Q : unit -> legacy_world E -> Prop) w :
  0 <= sid + 0x40 < 256 -> (forall w', talks sid 1 w w' -> Q tt w') -> wp (send (u8 (sid + 0x40) :: l)) Q w.
Proof. intros Hsid. apply wp_send. right. exists l. by rewrite wrap_small. Qed.

Lemma wp_set_state sid s (Q : unit -> legacy_world E -> Prop) w :
  rx_buffer s = rx_buffer (legacy w) ->
  (forall w', legacy w' = s -> talks sid 0 w w' -> Q tt w') -> wp (set_state s) Q w.
Proof. intros Hb HQ. apply wp_modify, HQ; [done|]. by apply talks_silent. Qed.

Lemma wp_state (Q : legacy_state -> legacy_world E -> Prop) w : Q (legacy w) w -> wp state Q w.
Proof. done. Qed.

Lemma wp_write sid d fl (Q : Z -> legacy_world E -> Prop) w :
  (forall rc w', legacy w' = legacy w -> talks sid 0 w w' -> Q rc w') -> wp (env (flash_img_buffered_write d fl)) Q w.
Proof.
  intros HQ. destruct (write_law d fl (legacy_ext w)) as (rc & e' & Hrun & Hs & _).
  apply wp_zoom. unfold wp. rewrite Hrun. apply HQ; [done|]. by apply talks_silent.
Qed.

Lemma wp_init sid (Q : Z -> legacy_world E -> Prop) w :
  (forall rc w', legacy w' = legacy w -> talks sid 0 w w' -> Q rc w') -> wp (env flash_img_init) Q w.
Proof.
  intros HQ. destruct (init_law (legacy_ext w)) as (rc & e' & Hrun & Hs & _).
  apply wp_zoom. unfold wp. rewrite Hrun. apply HQ; [done|]. by apply talks_silent.
Qed.

Lemma wp_upgrade sid (Q : Z -> legacy_world E -> Prop) w :
  (forall rc w', talks sid 0 w w' -> Q rc w') -> wp (env boot_request_upgrade) Q w.
Proof.
  intros HQ. destruct (upgrade_law (legacy_ext w)) as (rc & e' & Hrun & Hs & _).
  apply wp_zoom. unfold wp. rewrite Hrun. apply HQ. by apply talks_silent.
Qed.

Lemma wp_timer sid (Q : unit -> legacy_world E -> Prop) w :
  (forall w', talks sid 0 w w' -> Q tt w') -> wp (env k_timer_start) Q w.
Proof.
  intros HQ. destruct (timer_law (legacy_ext w)) as (e' & Hrun & Hs & _).
  apply wp_zoom. unfold wp. rewrite Hrun. apply HQ. by apply talks_silent.
Qed.

(** A byte of the buffer that the code reads. *)
Lemma wp_byte (l : list Z) i (Q : Z -> legacy_world E -> Prop) w :
  (i < length l)%nat -> (forall b, l !! i = Some b -> Q b w) -> wp (of_option OutOfBounds (l !! i)) Q w.
Proof. intros Hi HQ. destruct (lookup_lt_is_Some_2 l i Hi) as [b Hb]. rewrite Hb. by apply wp_ret, HQ. Qed.
End answers.

(** One statement of a handler for the service [sid]. *)
Ltac legacy_step sid :=
  lazymatch goal with
  | |- wp (send_negative_response _ _) _ _ => apply (wp_negative sid); intros ? ?
  | |- wp (send (u8 _ :: _)) _ _ => apply (wp_positive sid); [by cbn|]; intros ? ?
  | |- wp (set_state _) _ _ => apply (wp_set_state sid); [done|]; intros ? ? ?
  | |- wp state _ _ => apply wp_state
  | |- wp (env (flash_img_buffered_write _ _)) _ _ => apply (wp_write sid); intros ? ? ? ?
  | |- wp (env flash_img_init) _ _ => apply (wp_init sid); intros ? ? ? ?
  | |- wp (env boot_request_upgrade) _ _ => apply (wp_upgrade sid); intros ? ? ?
  | |- wp (env k_timer_start) _ _ => apply (wp_timer sid); intros ? ?
  | |- wp (of_option OutOfBounds _) _ _ => apply wp_byte; [try lia|]; intros ? ?
  | |- _ => wp_step
  end; cbn beta.

(** The end of a handler: the pieces of talk add up. *)
Ltac talks_done :=
  repeat match goal with
  | H1 : talks ?s _ ?w1 ?w2, H2 : talks ?s _ ?w2 ?w3 |- _ =>
      pose proof (talks_trans _ _ _ _ _ _ H1 H2); clear H1 H2
  end; match goal with
  | H : talks _ _ ?w ?w' |- talks _ 1 ?w ?w' =>
      destruct H as (? & ? & ? & ? & ?); split; [done|]; eexists; split_and!; [eassumption|lia|eassumption]
  end.

Section answers_proofs.
Context {E : Type} `{!LegacyEnv E} `{!LegacyLaws E}.
Implicit Types (w : legacy_world E).

(** The buffer holds the request [m]. *)
Definition holds (m : list Z) w : Prop :=
  length (rx_buffer (legacy w)) = rx_size /\ (1 <= length m)%nat /\ exists rest, rx_buffer (legacy w) = m ++ rest.

Definition answered (sid : Z) (m : list Z) w (n : next) w' : Prop :=
  talks sid 1 w w' /\ (n <> Next -> ends_with m n).

Lemma session_control_wp m w : holds m w ->
  wp (session_control (Z.of_nat (length m))) (answered UDS_SID_DIAGNOSTIC_SESSION_CONTROL m w) w.
Proof.
  intros (Hlen & _). unfold rx_size in Hlen.
  unfold session_control, change_session, restart_uds_session_timer, send_session_control_response.
  repeat legacy_step UDS_SID_DIAGNOSTIC_SESSION_CONTROL; (split; [talks_done|done]).
Qed.

Lemma legacy_transfer_data_wp m w : holds m w ->
  wp (handle_transfer_data (rx_buffer (legacy w)) (Z.of_nat (length m)) ;; ret Next) (answered UDS_SID_TRANSFER_DATA m w) w.
Proof.
  intros (Hlen & _). unfold rx_size in Hlen. unfold handle_transfer_data, send_transfer_data_response.
  repeat legacy_step UDS_SID_TRANSFER_DATA; (split; [talks_done|done]).
Qed.

Lemma legacy_transfer_exit_wp m w :
  wp (handle_transfer_exit ;; ret Next) (answered UDS_SID_REQUEST_TRANSFER_EXIT m w) w.
Proof.
  unfold handle_transfer_exit, send_transer_exit_positive_response.
  repeat legacy_step UDS_SID_REQUEST_TRANSFER_EXIT; (split; [talks_done|done]).
Qed.

Lemma request_download_wp m w :
  wp (request_download (Z.of_nat (length m))) (answered UDS_SID_REQUEST_DOWNLOAD m w) w.
Proof.
  unfold request_download, send_request_download_response.
  repeat legacy_step UDS_SID_REQUEST_DOWNLOAD; (split; [talks_done|done]).
Qed.

Lemma ecu_reset_wp m w : holds m w -> m !! 0%nat = Some UDS_SID_ECU_RESET ->
  wp (handle_ecu_reset (rx_buffer (legacy w)) (Z.of_nat (length m))) (answered UDS_SID_ECU_RESET m w) w.
Proof.
  intros (Hlen & _ & rest & Hrest) Hsid. unfold rx_size in Hlen. unfold handle_ecu_reset, send_positive_reset_response.
  repeat legacy_step UDS_SID_ECU_RESET; (split; [talks_done|]); try done.
  intros _. assert (length m = 2%nat) as Hm by lia. rewrite Hrest in *.
  destruct m as [|x [|y [|]]]; try discriminate. cbn in *. simplify_eq. f_equal. f_equal. lia.
Qed.

Lemma routine_control_wp m w : holds m w -> m !! 0%nat = Some UDS_SID_ROUTINE_CONTROL ->
  wp (routine_control (Z.of_nat (length m))) (answered UDS_SID_ROUTINE_CONTROL m w) w.
Proof.
  intros (Hlen & _ & rest & Hrest) Hsid. unfold rx_size in Hlen.
  unfold routine_control, handle_erase_routine, handle_confirm_routine, send_routine_control_result.
  repeat legacy_step UDS_SID_ROUTINE_CONTROL; (split; [talks_done|]); try done.
  intros _. assert (3 <= length m)%nat as Hm by lia. rewrite Hrest in *.
  destruct m as [|x [|y [|z l]]]; cbn in *; [lia..|]. simplify_eq. exists b, (z :: l). split_and!; [done|lia|done].
Qed.

(** One round of the loop. *)
Lemma handle_request_wp sid l w : holds (sid :: l) w ->
  wp (handle_request (Z.of_nat (length (sid :: l)))) (answered sid (sid :: l) w) w.
Proof.
  intros Hm. pose proof Hm as (Hlen & _ & rest & Hrest). unfold handle_request.
  apply wp_bind, wp_state. rewrite Hrest at 1. cbn [app lookup list_lookup of_option]. apply wp_bind, wp_ret.
  repeat (match goal with |- context [sid =? ?c] => destruct (Z.eqb_spec sid c) as [-> |?] end;
    [first [by apply session_control_wp | by apply ecu_reset_wp | by apply routine_control_wp
           | by apply request_download_wp | by apply legacy_transfer_data_wp | by apply legacy_transfer_exit_wp]|]).
  repeat legacy_step sid; (split; [talks_done|done]).
Qed.

Lemma fill_run m w : (length m <= rx_size)%nat -> length (rx_buffer (legacy w)) = rx_size -> m <> [] ->
  exists s, fill m w = Ret tt (LegacyWorld s (legacy_ext w)) /\ holds m (LegacyWorld s (legacy_ext w)).
Proof.
  intros Hm Hlen Hne. eexists. split; [done|]. split; [|split].
  - cbn. rewrite length_app, length_drop. lia.
  - destruct m; [done|cbn; lia].
  - by eexists.
Qed.

(** The first byte of a request. *)
Definition service (m : list Z) : Z := nth 0 m 0.

Definition group_ok (m : list Z) (g : list (list Z)) : Prop := g <> [] /\ Forall (answer_to (service m)) g.

(** C19. The thread answers every request it takes, and stops for two only.
    Over every sequence of receptions the loop ends without a fault; the
    requests it has handled are a prefix of those received, each got at least
    one answer, in the order of the requests, and every answer is a negative
    response naming the request's service or the positive response of that
    service.  The loop stops early only at the request for a hard reset, and at
    a routine control request with another sub-function than "start", after
    which the thread has ended and nothing is answered any more. *)
Theorem legacy_answers received w :
  Forall (fun m => m <> [] /\ (length m < rx_size)%nat) (omap id received) ->
  length (rx_buffer (legacy w)) = rx_size ->
  exists n w' handled rest groups, thread_loop received w = Ret n w' /\
    omap id received = handled ++ rest /\ Forall2 group_ok handled groups /\
    sent (legacy_ext w') = sent (legacy_ext w) ++ concat groups /\
    (n = Next -> rest = []) /\ (n <> Next -> exists m, last handled = Some m /\ ends_with m n).
Proof.
  revert w. induction received as [|[m|] received IH]; intros w Hok Hlen.
  - exists Next, w, [], [], []. split_and!; try done. by rewrite app_nil_r.
  - cbn [omap list_omap id] in Hok |- *. apply Forall_cons in Hok as [[Hne Hm] Hok].
    destruct (fill_run m w ltac:(lia) Hlen Hne) as (s & Hfill & Hholds). destruct m as [|sid l]; [done|].
    pose proof (handle_request_wp sid l _ Hholds) as Hwp. apply wp_Ret in Hwp as (n & w1 & Hrun & Htalk & Hend).
    destruct Htalk as (Hb & new & Hs & Hk & Hf).
    cbn [thread_loop]. rewrite (bind_step _ _ _ _ _ Hfill), (bind_step _ _ _ _ _ Hrun).
    assert (group_ok (sid :: l) new) as Hg by (split; [intros ->; cbn in Hk; lia|done]).
    destruct n.
    + destruct (IH w1 Hok) as (n & w' & handled & rest & groups & Hloop & Hsplit & Hall & Hsent & Hnext & Hstop).
      { rewrite Hb. apply Hholds. }
      exists n, w', ((sid :: l) :: handled), rest, (new :: groups). rewrite Hloop. split_and!; [done| |by constructor| |done|].
      * cbn. by rewrite Hsplit.
      * rewrite Hsent, Hs. cbn. by rewrite <- (assoc_L app).
      * intros Hn. destruct (Hstop Hn) as (m & Hlast & Hm'). exists m. split; [|done]. by destruct handled.
    + exists Return, w1, [sid :: l], (omap id received), [new]. cbn [concat]. rewrite app_nil_r.
      split_and!; [done|done|by constructor; [|constructor]|done|done|]. intros Hn. exists (sid :: l). split; [done|by apply Hend].
    + exists Reboot, w1, [sid :: l], (omap id received), [new]. cbn [concat]. rewrite app_nil_r.
      split_and!; [done|done|by constructor; [|constructor]|done|done|]. intros Hn. exists (sid :: l). split; [done|by apply Hend].
  - cbn [omap list_omap id thread_loop] in *. by apply IH.
Qed.
End answers_proofs.

(** ** The download *)

Definition erase_request : list Z := [UDS_SID_ROUTINE_CONTROL; 0x01; 0x05; 0x39].
Definition erase_done : list Z := [0x71; 0x01; 0x05; 0x39; 0x00].

(** The requests of a client that numbers its blocks from [k] on and repeats
    the request of each block a number of times, and the answers it expects. *)
Fixpoint block_requests (k : Z) (blocks : list (list Z * nat)) : list (list Z) :=
  match blocks with
  | [] => []
  | (d, r) :: blocks => replicate (S r) (UDS_SID_TRANSFER_DATA :: u8 k :: d) ++ block_requests (k + 1) blocks
  end.
Fixpoint block_answers (k : Z) (blocks : list (list Z * nat)) : list (list Z) :=
  match blocks with
  | [] => []
  | (_, r) :: blocks => replicate (S r) [0x76; u8 k] ++ block_answers (k + 1) blocks
  end.

Section download.
Context {E : Type} `{!LegacyEnv E} `{!LegacyLaws E}.
Implicit Types (w : legacy_world E).

(** A download is open, the last block was [b], and [r] bytes fit in. *)
Record downloading (b : Z) (r : nat) w : Prop := Downloading {
  dl_open : flash_context_initialized (legacy w) = true;
  dl_block : block_id (legacy w) = b;
  dl_buffer : length (rx_buffer (legacy w)) = rx_size;
  dl_room : room (legacy_ext w) = r;
}.

(** The output of the server: what it sent and what is in the image. *)
Definition adds (answers : list (list Z)) (data : list Z) w w' : Prop :=
  sent (legacy_ext w') = sent (legacy_ext w) ++ answers /\ written (legacy_ext w') = written (legacy_ext w) ++ data.

Lemma adds_trans a1 d1 a2 d2 w1 w2 w3 : adds a1 d1 w1 w2 -> adds a2 d2 w2 w3 -> adds (a1 ++ a2) (d1 ++ d2) w1 w3.
Proof. intros [H1 H2] [H3 H4]. split; by rewrite ?H3, ?H4, ?H1, ?H2, (assoc_L app). Qed.

Lemma answer_run d w : exists e', send d w = Ret tt (LegacyWorld (legacy w) e') /\
  sent e' = sent (legacy_ext w) ++ [d] /\ written e' = written (legacy_ext w) /\ room e' = room (legacy_ext w).
Proof.
  destruct (send_law d (legacy_ext w)) as (rc & e' & Hs & H). exists e'. split; [|exact H].
  unfold send, env, zoom, bind. by rewrite Hs.
Qed.

Lemma u8_next b : 0 <= b < 256 -> u8 (b + 1) <> b /\ 0 <= u8 (b + 1) < 256.
Proof.
  intros Hb. pose proof (wrap_range 8 (b + 1) ltac:(lia)) as Hr. unfold in_width in Hr. split; [|exact Hr].
  destruct (decide (b = 255)) as [->|]; [by vm_compute|]. rewrite wrap_small by (unfold in_width; lia). lia.
Qed.

(** A transfer request up to the handler. *)
Lemma transfer_round c d l w : (length d <= 509)%nat -> length (rx_buffer (legacy w)) = rx_size ->
  exists w0, legacy_ext w0 = legacy_ext w /\
    rx_buffer (legacy w0) = (UDS_SID_TRANSFER_DATA :: c :: d) ++ drop (S (S (length d))) (rx_buffer (legacy w)) /\
    length (rx_buffer (legacy w0)) = rx_size /\
    flash_context_initialized (legacy w0) = flash_context_initialized (legacy w) /\ block_id (legacy w0) = block_id (legacy w) /\
    thread_loop (Some (UDS_SID_TRANSFER_DATA :: c :: d) :: l) w =
      (handle_transfer_data (rx_buffer (legacy w0)) (Z.of_nat (length d) + 2) ;; thread_loop l) w0.
Proof.
  intros Hd Hlen.
  exists (LegacyWorld (LegacyState (uds_session_state (legacy w)) (flash_context_initialized (legacy w)) (block_id (legacy w))
    ((UDS_SID_TRANSFER_DATA :: c :: d) ++ drop (S (S (length d))) (rx_buffer (legacy w)))) (legacy_ext w)).
  split_and!; try reflexivity.
  - cbn [legacy rx_buffer]. rewrite length_app, length_drop, Hlen. cbn [length]. unfold rx_size. lia.
  - unfold fill. cbn [thread_loop]. unfold state, set_state. unfold bind at 1 2 3, gets, modify.
    unfold handle_request, state. unfold bind at 1 2, gets. cbn.
    replace (Z.of_nat (S (S (length d)))) with (Z.of_nat (length d) + 2) by lia. unfold bind. by destruct (handle_transfer_data _ _ _) as [[] w1|].
Qed.

(** The next block, in sequence, is written and acknowledged. *)
Lemma next_block b r d l w : downloading b r w -> 0 <= b < 256 -> (length d <= 509)%nat -> (length d <= r)%nat ->
  exists w', thread_loop (Some (UDS_SID_TRANSFER_DATA :: u8 (b + 1) :: d) :: l) w = thread_loop l w' /\
    downloading (u8 (b + 1)) (r - length d) w' /\ adds [[0x76; u8 (b + 1)] ] d w w'.
Proof.
  intros Hdl Hb Hd Hr. destruct (u8_next b Hb) as [Hne Hrange].
  destruct (transfer_round (u8 (b + 1)) d l w Hd (dl_buffer _ _ _ Hdl)) as (w0 & He & Hbuf & Hlen & Ho & Hbl & ->).
  rewrite (dl_open _ _ _ Hdl) in Ho. rewrite (dl_block _ _ _ Hdl) in Hbl.
  unfold handle_transfer_data. rewrite (proj2 (Z.ltb_ge _ _)) by lia. rewrite Hbuf.
  cbn [app lookup list_lookup of_option]. rewrite bind_assoc, bind_ret_l.
  unfold state, set_state. rewrite bind_assoc. unfold bind at 1, gets. rewrite Hbl, (proj2 (Z.eqb_neq _ _) Hne).
  rewrite bind_assoc. unfold bind at 1, modify. rewrite bind_assoc. unfold bind at 1. cbn [legacy block_id flash_context_initialized].
  rewrite Z.eqb_refl, Ho. cbn [negb].
  replace (take _ _) with d.
  2: { cbn [drop]. rewrite (drop_0 (d ++ _)). replace (Z.to_nat _) with (length d) by lia. by rewrite take_app_length. }
  destruct (write_law d false (legacy_ext w0)) as (rc & e1 & Hw & Hs1 & Hcase).
  rewrite decide_True in Hcase by (rewrite He, (dl_room _ _ _ Hdl); done). destruct Hcase as (-> & Hw1 & Hr1).
  rewrite bind_assoc. unfold env at 1. unfold bind at 1, zoom. cbn [legacy_ext legacy]. rewrite Hw. cbn [Z.eqb negb].
  rewrite bind_assoc, bind_ret_l. unfold send_transfer_data_response.
  change (u8 (UDS_SID_TRANSFER_DATA + 0x40)) with 0x76.
  match goal with |- context [(send ?x ;; _) ?w1] => destruct (answer_run x w1) as (e2 & Hsend & Hs2 & Hw2 & Hr2) end.
  cbn [legacy_ext] in *.
  eexists. split; [by rewrite (bind_step _ _ _ _ _ Hsend)|]. split.
  - constructor; cbn; [done|done|done|]. rewrite Hr2, Hr1, He. by rewrite (dl_room _ _ _ Hdl).
  - split; cbn; [by rewrite Hs2, Hs1, He|by rewrite Hw2, Hw1, He].
Qed.

(** The last block again is acknowledged and not written. *)
Lemma same_block b r d l w : downloading b r w -> (length d <= 509)%nat ->
  exists w', thread_loop (Some (UDS_SID_TRANSFER_DATA :: b :: d) :: l) w = thread_loop l w' /\
    downloading b r w' /\ adds [[0x76; b] ] [] w w'.
Proof.
  intros Hdl Hd.
  destruct (transfer_round b d l w Hd (dl_buffer _ _ _ Hdl)) as (w0 & He & Hbuf & Hlen & Ho & Hbl & ->).
  rewrite (dl_open _ _ _ Hdl) in Ho. rewrite (dl_block _ _ _ Hdl) in Hbl.
  unfold handle_transfer_data. rewrite (proj2 (Z.ltb_ge _ _)) by lia. rewrite Hbuf.
  cbn [app lookup list_lookup of_option]. rewrite bind_assoc, bind_ret_l.
  unfold state. rewrite bind_assoc. unfold bind at 1, gets. rewrite Hbl, Z.eqb_refl.
  unfold send_transfer_data_response. change (u8 (UDS_SID_TRANSFER_DATA + 0x40)) with 0x76.
  destruct (answer_run [0x76; b] w0) as (e2 & Hsend & Hs2 & Hw2 & Hr2). rewrite He in *.
  eexists. split; [by rewrite (bind_step _ _ _ _ _ Hsend)|]. split.
  - constructor; cbn; [done|done|done|]. by rewrite Hr2, (dl_room _ _ _ Hdl).
  - split; cbn; [done|]. by rewrite app_nil_r.
Qed.

(** A block out of sequence is refused, and counted all the same. *)
Lemma other_block b r c d l w : downloading b r w -> (length d <= 509)%nat -> c <> b -> c <> u8 (b + 1) ->
  exists w', thread_loop (Some (UDS_SID_TRANSFER_DATA :: c :: d) :: l) w = thread_loop l w' /\
    downloading (u8 (b + 1)) r w' /\
    adds [[UDS_SID_NEGATIVE_RESPONSE; UDS_SID_TRANSFER_DATA; UDS_NRC_INCORRECT_MESSAGE_LENGTH_OR_INVALID_FORMAT] ] [] w w'.
Proof.
  intros Hdl Hd Hne Hne'.
  destruct (transfer_round c d l w Hd (dl_buffer _ _ _ Hdl)) as (w0 & He & Hbuf & Hlen & Ho & Hbl & ->).
  rewrite (dl_open _ _ _ Hdl) in Ho. rewrite (dl_block _ _ _ Hdl) in Hbl.
  unfold handle_transfer_data. rewrite (proj2 (Z.ltb_ge _ _)) by lia. rewrite Hbuf.
  cbn [app lookup list_lookup of_option]. rewrite bind_assoc, bind_ret_l.
  unfold state, set_state. rewrite bind_assoc. unfold bind at 1, gets. rewrite Hbl, (proj2 (Z.eqb_neq _ _) Hne).
  rewrite bind_assoc. unfold bind at 1, modify. rewrite bind_assoc. unfold bind at 1. cbn [legacy block_id flash_context_initialized].
  rewrite (proj2 (Z.eqb_neq _ _) Hne'). cbn [negb]. unfold send_negative_response.
  match goal with |- context [(send ?x ;; _) ?w1] => destruct (answer_run x w1) as (e2 & Hsend & Hs2 & Hw2 & Hr2) end.
  cbn [legacy_ext] in *. rewrite He in *.
  eexists. split; [by rewrite (bind_step _ _ _ _ _ Hsend)|]. split.
  - constructor; cbn; [done|done|done|]. by rewrite Hr2, (dl_room _ _ _ Hdl).
  - split; cbn; [done|]. by rewrite app_nil_r.
Qed.

(** Repeating the last block. *)
Lemma repeated_block b d l : forall n r w, downloading b r w -> (length d <= 509)%nat ->
  exists w', thread_loop ((Some <$> replicate n (UDS_SID_TRANSFER_DATA :: b :: d)) ++ l) w = thread_loop l w' /\
    downloading b r w' /\ adds (replicate n [0x76; b]) [] w w'.
Proof.
  induction n as [|n IH]; intros r w Hdl Hd.
  - exists w. split_and!; [done|done|]. split; by rewrite app_nil_r.
  - destruct (same_block b r d ((Some <$> replicate n (UDS_SID_TRANSFER_DATA :: b :: d)) ++ l) w Hdl Hd)
      as (w1 & Hrun & Hdl1 & Ha1).
    destruct (IH r w1 Hdl1 Hd) as (w2 & Hrest & Hdl2 & Ha2). exists w2.
    split_and!; [by rewrite <- Hrest, <- Hrun|done|exact (adds_trans _ _ _ _ _ _ _ Ha1 Ha2)].
Qed.

(** The bytes of a list of blocks. *)
Definition block_data (blocks : list (list Z * nat)) : list Z := concat (fst <$> blocks).

Lemma block_sequence l : forall blocks k r w, downloading (u8 (k - 1)) r w ->
  Forall (fun b => (length b.1 <= 509)%nat) blocks -> (length (block_data blocks) <= r)%nat ->
  exists w' b', thread_loop ((Some <$> block_requests k blocks) ++ l) w = thread_loop l w' /\
    downloading b' (r - length (block_data blocks)) w' /\ adds (block_answers k blocks) (block_data blocks) w w'.
Proof.
  induction blocks as [|[d n] blocks IH]; intros k r w Hdl Hok Hfit.
  - exists w, (u8 (k - 1)). split_and!; [done|by rewrite Nat.sub_0_r|]. split; by rewrite app_nil_r.
  - apply Forall_cons in Hok as [Hd Hok]. cbn in Hd. unfold block_data in *. cbn [fmap list_fmap fst concat] in *.
    rewrite length_app in *. pose proof (wrap_range 8 (k - 1) ltac:(lia)) as Hrange. unfold in_width in Hrange.
    assert (u8 (u8 (k - 1) + 1) = u8 k) as Hk by (rewrite wrap_add_l; f_equal; lia).
    cbn [block_requests block_answers]. rewrite fmap_app, <- (assoc_L app).
    set (rest := (Some <$> block_requests (k + 1) blocks) ++ l). cbn [replicate fmap list_fmap app].
    destruct (next_block (u8 (k - 1)) r d ((Some <$> replicate n (UDS_SID_TRANSFER_DATA :: u8 k :: d)) ++ rest) w Hdl Hrange Hd
                ltac:(lia)) as (w1 & Hrun & Hdl1 & Ha1). rewrite Hk in *.
    destruct (repeated_block (u8 k) d rest n _ w1 Hdl1 Hd) as (w2 & Hrun2 & Hdl2 & Ha2).
    destruct (IH (k + 1) (r - length d)%nat w2) as (w3 & b3 & Hrun3 & Hdl3 & Ha3); [by replace (k + 1 - 1) with k by lia|done|lia|].
    exists w3, b3. split_and!.
    + etransitivity; [exact Hrun|]. etransitivity; [exact Hrun2|]. exact Hrun3.
    + by rewrite Nat.sub_add_distr.
    + pose proof (adds_trans _ _ _ _ _ _ _ (adds_trans _ _ _ _ _ _ _ Ha1 Ha2) Ha3) as Ha.
      by rewrite app_nil_r in Ha.
Qed.

(** The end of the download. *)
Lemma exit_round b r l w : downloading b r w ->
  exists w', thread_loop (Some [UDS_SID_REQUEST_TRANSFER_EXIT] :: l) w = thread_loop l w' /\
    flash_context_initialized (legacy w') = false /\ adds [[0x77] ] [] w w'.
Proof.
  intros Hdl. set (s := LegacyState (uds_session_state (legacy w)) (flash_context_initialized (legacy w)) (block_id (legacy w))
    ([UDS_SID_REQUEST_TRANSFER_EXIT] ++ drop 1 (rx_buffer (legacy w)))).
  destruct (write_law [] true (legacy_ext w)) as (rc & e1 & Hw & Hs1 & Hcase).
  rewrite decide_True in Hcase by (cbn; lia). destruct Hcase as (-> & Hw1 & _).
  destruct (answer_run [0x77] (LegacyWorld (LegacyState (uds_session_state s) false (block_id s) (rx_buffer s)) e1))
    as (e2 & Hsend & Hs2 & Hw2 & _). cbn [legacy_ext] in *.
  exists (LegacyWorld (LegacyState (uds_session_state s) false (block_id s) (rx_buffer s)) e2). split_and!; [|done|].
  - cbn [thread_loop length]. rewrite (bind_step _ _ _ tt (LegacyWorld s (legacy_ext w))) by done.
    rewrite (bind_step _ _ _ Next (LegacyWorld (LegacyState (uds_session_state s) false (block_id s) (rx_buffer s)) e2)); [done|].
    unfold handle_request. rewrite (bind_step _ _ _ s (LegacyWorld s (legacy_ext w))) by done.
    rewrite (bind_step _ _ _ UDS_SID_REQUEST_TRANSFER_EXIT (LegacyWorld s (legacy_ext w))) by done.
    cbn [Z.eqb Pos.eqb UDS_SID_REQUEST_TRANSFER_EXIT UDS_SID_DIAGNOSTIC_SESSION_CONTROL UDS_SID_ECU_RESET
      UDS_SID_ROUTINE_CONTROL UDS_SID_REQUEST_DOWNLOAD UDS_SID_TRANSFER_DATA].
    rewrite (bind_step _ _ _ tt (LegacyWorld (LegacyState (uds_session_state s) false (block_id s) (rx_buffer s)) e2)); [done|].
    unfold handle_transfer_exit. rewrite (bind_step _ _ _ s (LegacyWorld s (legacy_ext w))) by done.
    cbn [flash_context_initialized s]. rewrite (dl_open _ _ _ Hdl). cbn [negb].
    rewrite (bind_step _ _ _ 0 (LegacyWorld s e1)) by (unfold env, zoom; cbn [legacy_ext]; by rewrite Hw).
    cbn [Z.eqb negb]. rewrite bind_ret_l. rewrite (bind_step _ _ _ s (LegacyWorld s e1)) by done.
    rewrite (bind_step _ _ _ tt (LegacyWorld (LegacyState (uds_session_state s) false (block_id s) (rx_buffer s)) e1)) by done.
    exact Hsend.
  - split; cbn; [by rewrite Hs2, Hs1|by rewrite Hw2, Hw1, !app_nil_r].
Qed.

(** The erase request, which opens a download when the answer is a success. *)
Lemma erase_round w : length (rx_buffer (legacy w)) = rx_size ->
  exists w' res, thread_loop [Some erase_request] w = Ret Next w' /\
    sent (legacy_ext w') = sent (legacy_ext w) ++
      [[UDS_SID_NEGATIVE_RESPONSE; UDS_SID_ROUTINE_CONTROL; UDS_NRC_REQUEST_RECEIVED_RESPONSE_PENDING]; [0x71; 0x01; 0x05; 0x39; res] ] /\
    (res = 0 -> downloading 0xFF image_size w' /\ written (legacy_ext w') = []).
Proof.
  intros Hlen. set (s := LegacyState (uds_session_state (legacy w)) (flash_context_initialized (legacy w)) (block_id (legacy w))
    (erase_request ++ drop 4 (rx_buffer (legacy w)))).
  assert (length (rx_buffer s) = rx_size) as Hbuf by (cbn [rx_buffer s]; rewrite length_app, length_drop, Hlen; done).
  assert (forall w', handle_erase_routine (LegacyWorld s (legacy_ext w)) = Ret tt w' ->
    thread_loop [Some erase_request] w = Ret Next w') as Hloop.
  { intros w' Hw'. cbn [thread_loop length erase_request]. rewrite (bind_step _ _ _ tt (LegacyWorld s (legacy_ext w))) by done.
    rewrite (bind_step _ _ _ Next w'); [done|]. set (w0 := LegacyWorld s (legacy_ext w)) in *. unfold handle_request.
    rewrite (bind_step _ _ _ s w0), (bind_step _ _ _ UDS_SID_ROUTINE_CONTROL w0) by done.
    change (routine_control 4 w0 = Ret Next w'). unfold routine_control.
    change (4 <? 3) with false. cbn match.
    rewrite (bind_step _ _ _ s w0), (bind_step _ _ _ 0x01 w0) by done. cbn [Z.eqb Pos.eqb negb].
    rewrite (bind_step _ _ _ 0x05 w0), (bind_step _ _ _ 0x39 w0) by done.
    change ((handle_erase_routine ;; ret Next) w0 = Ret Next w'). by rewrite (bind_step _ _ _ _ _ Hw'). }
  destruct (answer_run [UDS_SID_NEGATIVE_RESPONSE; UDS_SID_ROUTINE_CONTROL; UDS_NRC_REQUEST_RECEIVED_RESPONSE_PENDING]
              (LegacyWorld s (legacy_ext w))) as (e1 & Hsend1 & Hs1 & _). cbn [legacy_ext legacy] in *.
  destruct (init_law e1) as (rc & e2 & Hinit & Hs2 & Hrc & Hok).
  set (s2 := if rc =? 0 then LegacyState (uds_session_state s) true 0xFF (rx_buffer s) else s).
  destruct (answer_run [0x71; 0x01; 0x05; 0x39; u8 rc] (LegacyWorld s2 e2)) as (e3 & Hsend3 & Hs3 & Hw3 & Hr3).
  cbn [legacy_ext legacy] in *. exists (LegacyWorld s2 e3), (u8 rc). split_and!.
  - apply Hloop. unfold handle_erase_routine, send_negative_response. rewrite (bind_step _ _ _ _ _ Hsend1).
    rewrite (bind_step _ _ _ rc (LegacyWorld s e2)) by (unfold env, zoom; cbn [legacy_ext]; by rewrite Hinit).
    subst s2. destruct (Z.eqb_spec rc 0) as [->|]; cbn [negb]; [|exact Hsend3].
    rewrite (bind_step _ _ _ s (LegacyWorld s e2)) by done. exact Hsend3.
  - cbn. by rewrite Hs3, Hs2, Hs1, <- (assoc_L app).
  - intros Hzero. assert (rc = 0) as ->.
    { destruct (decide (rc = 0)) as [|Hne]; [done|]. exfalso. revert Hzero. unfold wrap. change (2 ^ 8) with 256.
      rewrite <- (Z.mod_unique rc 256 (-1) (rc + 256)); lia. }
    destruct (Hok eq_refl) as [Hw Hr]. split; [|cbn; by rewrite Hw3]. constructor; cbn; [done|done|done|congruence].
Qed.

(** C20. A client that follows the protocol gets its firmware image written.  If
    the erase request is answered with success, and the client then numbers its
    blocks from 0 (modulo 256), repeats any block's request as often as it
    likes, and ends the transfer, every request is answered positively, the
    image holds the blocks' data, each block once and in order, and the
    download is closed. *)
Theorem legacy_download w w1 blocks :
  length (rx_buffer (legacy w)) = rx_size ->
  thread_loop [Some erase_request] w = Ret Next w1 -> last (sent (legacy_ext w1)) = Some erase_done ->
  Forall (fun b => (length b.1 <= 509)%nat) blocks -> (length (block_data blocks) <= image_size (E := E))%nat ->
  exists w2, thread_loop (Some <$> (block_requests 0 blocks ++ [[UDS_SID_REQUEST_TRANSFER_EXIT] ])) w1 = Ret Next w2 /\
    written (legacy_ext w2) = block_data blocks /\
    sent (legacy_ext w2) = sent (legacy_ext w1) ++ block_answers 0 blocks ++ [[0x77] ] /\
    flash_context_initialized (legacy w2) = false.
Proof.
  intros Hlen Hrun Hlast Hok Hfit.
  destruct (erase_round w Hlen) as (w' & res & Hrun' & Hsent & Hopen). rewrite Hrun in Hrun'. injection Hrun' as <-.
  rewrite Hsent, last_app in Hlast. cbn in Hlast. injection Hlast as ->. destruct (Hopen eq_refl) as [Hdl Hw].
  destruct (block_sequence [Some [UDS_SID_REQUEST_TRANSFER_EXIT] ] blocks 0 image_size w1 Hdl Hok Hfit)
    as (w2 & b & Hblocks & Hdl2 & [Hs2 Hw2]).
  destruct (exit_round _ _ [] w2 Hdl2) as (w3 & Hexit & Hclosed & [Hs3 Hw3]). exists w3. split_and!.
  - rewrite fmap_app. etransitivity; [exact Hblocks|exact Hexit].
  - by rewrite Hw3, Hw2, Hw, app_nil_r.
  - by rewrite Hs3, Hs2, <- (assoc_L app).
  - done.
Qed.

(** A block can be acknowledged and lost.  During a download, a block with a
    wrong number is refused but advances the counter, so when the client sends
    the expected block next, the server takes it for a repetition, acknowledges
    it and does not write it. *)
Theorem acknowledged_block_lost b r w c d d' :
  downloading b r w -> 0 <= b < 256 -> c <> b -> c <> u8 (b + 1) -> (length d <= 509)%nat -> (length d' <= 509)%nat ->
  exists w', thread_loop [Some (UDS_SID_TRANSFER_DATA :: c :: d'); Some (UDS_SID_TRANSFER_DATA :: u8 (b + 1) :: d)] w = Ret Next w' /\
    sent (legacy_ext w') = sent (legacy_ext w) ++
      [[UDS_SID_NEGATIVE_RESPONSE; UDS_SID_TRANSFER_DATA; UDS_NRC_INCORRECT_MESSAGE_LENGTH_OR_INVALID_FORMAT]; [0x76; u8 (b + 1)] ] /\
    written (legacy_ext w') = written (legacy_ext w) /\ downloading (u8 (b + 1)) r w'.
Proof.
  intros Hdl Hb Hne Hne' Hd Hd'.
  destruct (other_block b r c d' [Some (UDS_SID_TRANSFER_DATA :: u8 (b + 1) :: d)] w Hdl Hd' Hne Hne') as (w1 & Hrun1 & Hdl1 & Ha1).
  destruct (same_block _ _ d [] w1 Hdl1 Hd) as (w2 & Hrun2 & Hdl2 & Ha2).
  destruct (adds_trans _ _ _ _ _ _ _ Ha1 Ha2) as [Hs Hw]. exists w2. split_and!; [|exact Hs| |done].
  - etransitivity; [exact Hrun1|exact Hrun2].
  - by rewrite Hw, app_nil_r.
Qed.
End download.
