(* ===== verification/CanRouter.v ===== *)
(** * CAN router ([lib/can_router/can_router.c])

    Routes are receive filters: the router registers, for every entry of its
    tables, a filter on the entry's source controller with a callback that
    sends the frame on the entry's target controller.  The controllers are the
    interface [CanDevices]; a filter's callback and user data are stored with
    the controller, so the callback is a name that [can_router_frame_cb] gives a
    meaning to. *)

From stdpp Require Import base list numbers relations.
From Stdlib Require Import ZArith Lia.
From S2P Require Import Prelude.
From S2P Require Import Can.

#[local] Open Scope Z_scope.

(** ** Definitions *)

Record can_router_entry_t := RouterEntry { from : nat; to : nat; filter : can_filter }.

(** A table in the linker section. *)
Record can_router_table_t := RouterTable { entries : list can_router_entry_t }.

(** Controllers by number.  [can_add_rx_filter dev target filter] is the call
    with the callback [can_router_frame_cb] and [target] as its user data. *)
Class CanDevices (E : Type) := {
  can_add_rx_filter : nat -> nat -> can_filter -> M E Z;
  can_send : nat -> can_frame -> M E Z;
}.

Section router.
Context {E : Type} `{!CanDevices E}.

(** A failing transmission is logged. *)
Definition can_router_frame_cb (dev : nat) (frame : can_frame) (user_data : nat) : M E unit :=
  let* _ := can_send user_data frame in ret tt.

Fixpoint can_router_register (l : list can_router_entry_t) : M E Z :=
  match l with
  | [] => ret 0
  | e :: l =>
      let* err := can_add_rx_filter (from e) (to e) (filter e) in
      if negb (err =? 0) then ret err else can_router_register l
  end.

Fixpoint can_router_sysinit (tables : list can_router_table_t) : M E Z :=
  match tables with
  | [] => ret 0
  | t :: tables =>
      let* err := can_router_register (entries t) in
      if negb (err =? 0) then ret err else can_router_sysinit tables
  end.
End router.

(** ** Contract and theorems *)

(** A controller numbers its filters from 0 and returns the number of the new
    one; a full controller returns an error.  [filters] are those of a
    controller in the order of their numbers, with the targets of their
    routes; [transmitted] is what a controller was given to send. *)
Class CanDevicesLaws (E : Type) `{!CanDevices E} := {
  filters : E -> nat -> list (nat * can_filter);
  transmitted : E -> nat -> list can_frame;
  max_filters : nat -> nat;
  add_law : forall dev target f e, exists rc e', can_add_rx_filter dev target f e = Ret rc e' /\
    transmitted e' = transmitted e /\
    if decide (length (filters e dev) < max_filters dev)%nat
    then rc = Z.of_nat (length (filters e dev)) /\
      forall d, filters e' d = if decide (d = dev) then filters e d ++ [(target, f)] else filters e d
    else rc < 0 /\ forall d, filters e' d = filters e d;
  send_law : forall dev fr e, exists rc e', can_send dev fr e = Ret rc e' /\
    (forall d, filters e' d = filters e d) /\
    (rc = 0 -> forall d, transmitted e' d = if decide (d = dev) then transmitted e d ++ [fr] else transmitted e d);
}.

Section router_theorems.
Context {E : Type} `{!CanDevices E} `{!CanDevicesLaws E}.

(** The filters a list of entries asks for, on one controller. *)
Definition routes (l : list can_router_entry_t) (dev : nat) : list (nat * can_filter) :=
  (fun e => (to e, filter e)) <$> list_filter (fun e => from e = dev) _ l.

Lemma routes_cons e l dev :
  routes (e :: l) dev = (if decide (from e = dev) then [(to e, filter e)] else []) ++ routes l dev.
Proof. unfold routes. cbn. by destruct (decide (from e = dev)). Qed.

(** An entry whose filter gets the number 0: the first on its controller. *)
Definition first_on_device (e : E) (r : can_router_entry_t) : Prop :=
  filters e (from r) = [] /\ (0 < max_filters (from r))%nat.

(** One entry, by the number of the filter it got. *)
Lemma register_cons r l e :
  exists rc e', can_add_rx_filter (from r) (to r) (filter r) e = Ret rc e' /\ transmitted e' = transmitted e /\
    (rc = 0 <-> first_on_device e r) /\ (0 < rc -> filters e (from r) <> []) /\
    (0 <= rc -> forall d, filters e' d = filters e d ++ routes [r] d) /\ (rc < 0 -> forall d, filters e' d = filters e d) /\
    can_router_register (r :: l) e = if rc =? 0 then can_router_register l e' else Ret rc e'.
Proof.
  destruct (add_law (from r) (to r) (filter r) e) as (rc & e' & Hadd & Ht & Hcase). exists rc, e'.
  unfold first_on_device.
  destruct (decide (length (filters e (from r)) < max_filters (from r))%nat) as [Hroom|Hfull].
  - destruct Hcase as [Hrc Hf]. split_and!; [done|done| | | |lia|].
    + split.
      * intros H0. rewrite Hrc in H0. split; [|lia]. apply nil_length_inv. lia.
      * intros [Hnil _]. by rewrite Hrc, Hnil.
    + intros Hpos Hnil. rewrite Hnil in Hrc. cbn in Hrc. lia.
    + intros _ d. rewrite Hf, routes_cons. cbn. rewrite app_nil_r.
      destruct (decide (d = from r)) as [->|Hne]; [by rewrite decide_True|]. rewrite decide_False by done. by rewrite app_nil_r.
    + cbn [can_router_register]. rewrite (bind_step _ _ _ _ _ Hadd). by destruct (rc =? 0).
  - destruct Hcase as [Hrc Hf]. split_and!; [done|done| |lia|lia|done|].
    + split; [lia|]. intros [Hnil Hmax]. rewrite Hnil in Hfull. cbn in Hfull. lia.
    + cbn [can_router_register]. rewrite (bind_step _ _ _ _ _ Hadd). by destruct (rc =? 0).
Qed.

(** The router takes the number of a receive filter for an error.  It
    succeeds, with every route registered, if the source controllers of the
    routes are all different and have no filter yet; but as soon as the
    controller of a route has a filter, of an earlier route or of another part
    of the program, registering stops there: the route's filter is added, the
    later routes are not, and the call returns a number other than 0, which is
    the positive filter number unless the controller was full. *)
Theorem router_stops_at_second_filter l e :
  exists rc e' done rest, can_router_register l e = Ret rc e' /\ l = done ++ rest /\ transmitted e' = transmitted e /\
    (rc = 0 -> rest = [] /\ forall d, filters e' d = filters e d ++ routes l d) /\
    (0 < rc -> (forall d, filters e' d = filters e d ++ routes done d) /\
       exists r, last done = Some r /\ filters e (from r) ++ routes (removelast done) (from r) <> []) /\
    (NoDup (from <$> l) -> Forall (first_on_device e) l -> rc = 0).
Proof.
  revert e. induction l as [|r l IH]; intros e.
  - exists 0, e, [], []. split_and!; try done. intros _. split; [done|]. intros d. by rewrite app_nil_r.
  - destruct (register_cons r l e) as (rc1 & e1 & _ & Ht1 & Hfirst & Hused & Hadded & Hkept & ->).
    destruct (Z.eqb_spec rc1 0) as [H0|Hne].
    + destruct (IH e1) as (rc & e' & dn & rest & Hrun & Hsplit & Ht & Hzero & Hpos & Hall).
      assert (forall l' d, filters e1 d ++ routes l' d = filters e d ++ routes (r :: l') d) as Hone.
      { intros l' d. rewrite Hadded by lia. rewrite (routes_cons r l'), (routes_cons r []), <- (assoc_L app).
        cbn. by rewrite app_nil_r. }
      exists rc, e', (r :: dn), rest. split_and!; [done|by rewrite Hsplit|by rewrite Ht| | |].
      * intros H. destruct (Hzero H) as [-> Hf]. split; [done|]. intros d. by rewrite Hf, Hone.
      * intros H. destruct (Hpos H) as [Hf (q & Hlast & Hq)]. split; [intros d; by rewrite Hf, Hone|].
        destruct dn as [|x dn]; [done|]. exists q. split; [done|].
        change (removelast (r :: x :: dn)) with (r :: removelast (x :: dn)). by rewrite <- Hone.
      * intros Hn Hok. cbn in Hn. apply NoDup_cons in Hn as [Hr Hn]. apply Forall_cons in Hok as [_ Hok].
        apply Hall; [done|]. rewrite Forall_forall in Hok |- *. intros q Hq. destruct (Hok q Hq) as [Hnil Hmax].
        split; [|done]. rewrite Hadded by lia. rewrite Hnil, routes_cons, decide_False; [done|].
        intros Heq. apply Hr. rewrite Heq. by apply list_elem_of_fmap_2.
    + exists rc1, e1, [r], l. split_and!; [done|done|done|lia| |].
      * intros H. split; [intros d; apply Hadded; lia|]. exists r. split; [done|]. cbn. rewrite app_nil_r. by apply Hused.
      * intros _ [Hok _]%Forall_cons. by apply Hfirst in Hok.
Qed.
End router_theorems.
