(* ===== verification/Lin2CanGateway.v ===== *)
(** * The CAN to LIN gateway ([samples/lin2can/gateway/src/main.c])

    A board that passes every frame of its CAN controller to a LIN bus and back:
    the CAN router ([CanRouter]) with one route in each direction, between a CAN
    controller and the CAN over LIN driver ([Lin2Can]), which is a client of the
    LIN driver ([Lin]).  The program is its configuration and its start; the
    theorems are about the composition: what the start reports, and that the
    board refines a pair of queues. *)

From stdpp Require Import base gmap list numbers relations.
From Stdlib Require Import ZArith Lia.
From S2P Require Import Prelude.
From S2P Require Import Can.
From S2P Require Import Lin.
From S2P Require Import LinPair.
From S2P Require Import Lin2Can.
From S2P Require Import CanRouter.

#[local] Open Scope Z_scope.

(** ** The board *)

(** The two devices of the routes. *)
Definition can_a_dev : nat := 0.
Definition lincan_dev : nat := 1.

(** The CAN controller; a filter is added with the callback of the router and
    the target of the route. *)
Class CanA (C : Type) := {
  can_a_start : M C Z;
  can_a_add_rx_filter : nat -> can_filter -> M C Z;
  can_a_send : can_frame -> M C Z;
}.

(** What surrounds the drivers: message queue, LIN bus, CAN controller. *)
Record gw_env (Q B C : Type) := GwEnv { gw_queue : Q; gw_bus : B; gw_can_a : C }.
Arguments GwEnv {Q B C}.
Arguments gw_queue {Q B C}.
Arguments gw_bus {Q B C}.
Arguments gw_can_a {Q B C}.

(** Catch all. *)
Definition catch_all : can_filter := CanFilter 0 0.
Definition gateway_entries : list can_router_entry_t := [RouterEntry can_a_dev lincan_dev catch_all; RouterEntry lincan_dev can_a_dev catch_all].

(** The callbacks of the router by number: receptions and transmissions. *)
Definition can_router_frame_fn : nat := 0.
Definition can_router_tx_fn : nat := 1.

Section gateway.
Context {Q B C : Type} `{!MsgQueue Q} `{!LinBus B} `{!CanA C} (cfg : lin2can_kconfig).
#[local] Abbreviation env := (gw_env Q B C).

#[export] Instance gw_msgq : MsgQueue env := {|
  k_msgq_put x t := zoom gw_queue (fun q e => GwEnv q (gw_bus e) (gw_can_a e)) (k_msgq_put x t);
  k_msgq_get := zoom gw_queue (fun q e => GwEnv q (gw_bus e) (gw_can_a e)) k_msgq_get;
|}.

Definition on_can_a {A} (m : M C A) : M (l2c_world env) A :=
  zoom (fun w => gw_can_a (l2c_ext w)) (fun c w => L2cWorld (l2c_data w) (GwEnv (gw_queue (l2c_ext w)) (gw_bus (l2c_ext w)) c)) m.

(** The router's two controllers. *)
#[export] Instance gw_devices : CanDevices (l2c_world env) := {|
  can_add_rx_filter dev target flt :=
    if decide (dev = can_a_dev) then on_can_a (can_a_add_rx_filter target flt)
    else lin2can_add_rx_filter cfg (Some can_router_frame_fn) (Z.of_nat target) flt;
  can_send dev frame :=
    if decide (dev = can_a_dev) then on_can_a (can_a_send frame)
    else lin2can_send cfg frame K_NO_WAIT (Some can_router_tx_fn) 0;
|}.

(** The driver's user is the router; the end of a transmission is only logged. *)
#[export] Instance gw_can : CanCallbacks env := {|
  can_rx_callback _ frame user_data := can_router_frame_cb lincan_dev frame (Z.to_nat user_data);
  can_tx_callback _ _ _ := ret tt;
|}.

#[export] Instance gw_users : LinUsers env := {|
  user_incoming_cb _ _ _ := fail BadArgument;
  user_outgoing_cb _ _ _ := fail BadArgument;
|}.

Definition on_gw_bus {A} (m : M B A) : M (l2c_world env) A :=
  zoom (fun w => gw_bus (l2c_ext w)) (fun b w => L2cWorld (l2c_data w) (GwEnv (gw_queue (l2c_ext w)) b (gw_can_a (l2c_ext w)))) m.

#[export] Instance gw_lin_bus : LinBus (l2c_world env) := {|
  lin_set_mode m := on_gw_bus (lin_set_mode m);
  lin_set_header_callback := on_gw_bus lin_set_header_callback;
  lin_set_rx_callback := on_gw_bus lin_set_rx_callback;
  lin_receive id t n := on_gw_bus (lin_receive id t n);
  lin_send f := on_gw_bus (lin_send f);
|}.

(** [main]: what [can_start] returns. *)
Definition gateway_main : M (l2c_world env) Z :=
  let* r := on_can_a can_a_start in
  if negb (r =? 0) then ret r else ret 0.

(** The start of the drivers, of the router and of the program: what the last
    two return. *)
Definition gateway_boot (max : Z) : M (al_world (l2c_world env)) (Z * Z) :=
  lin2can_init cfg max LIN_MODE_COMMANDER 0 ;;
  let* registered := on_bus (can_router_sysinit [RouterTable gateway_entries]) in
  let* started := on_bus gateway_main in
  ret (registered, started).

(** The controller hands a frame to the callback of every filter it matches. *)
Fixpoint deliver (l : list (nat * can_filter)) (frame : can_frame) : M (l2c_world env) unit :=
  match l with
  | [] => ret tt
  | (target, flt) :: l =>
      (if decide (filter_matches flt (can_id frame)) then can_router_frame_cb can_a_dev frame target else ret tt) ;;
      deliver l frame
  end.
End gateway.

(** ** Contracts *)

Class CanALaws (C : Type) `{!CanA C} := {
  can_a_filters : C -> list (nat * can_filter);
  can_a_sent : C -> list can_frame;
  start_a_law : forall c, exists r c', can_a_start c = Ret r c' /\ can_a_filters c' = can_a_filters c /\ can_a_sent c' = can_a_sent c;
  add_a_law : forall target flt c, can_a_filters c = [] ->
    exists c', can_a_add_rx_filter target flt c = Ret 0 c' /\ can_a_filters c' = [(target, flt)] /\ can_a_sent c' = can_a_sent c;
  (** without waiting; it may be refused *)
  send_a_law : forall frame c, exists r c', can_a_send frame c = Ret r c' /\ can_a_filters c' = can_a_filters c /\
    can_a_sent c' = if r =? 0 then can_a_sent c ++ [frame] else can_a_sent c;
}.

#[export] Instance gw_msgq_laws {Q B C} `{!MsgQueue Q} `{!MsgQueueLaws Q} : MsgQueueLaws (gw_env Q B C).
Proof.
  refine {| queue e := queue (gw_queue e); capacity := capacity (E := Q) |}; unfold k_msgq_put, k_msgq_get; cbn; intros.
  - destruct (put_room x t (gw_queue e) H) as (q & Hq & ?). unfold zoom. rewrite Hq. by eexists.
  - destruct (put_full x (gw_queue e) H) as (rc & Hq & ?). unfold zoom. rewrite Hq. exists rc. split; [|done]. by destruct e.
  - unfold zoom. rewrite get_empty by done. by destruct e.
  - destruct (get_head (gw_queue e) x l H) as (q & Hq & ?). unfold zoom. rewrite Hq. by eexists.
Defined.

(** ** The specification: two queues *)

(** Frames that wait for the LIN bus, frames sent to it, frames sent on CAN. *)
Record gw_traffic := GwTraffic { to_lin : list can_frame; lin_sent : list can_frame; can_sent : list can_frame }.

(** A frame from CAN, a frame of the other LIN node, a slot of this node. *)
Inductive gw_event := FromCan (frame : can_frame) | FromLin (frame : can_frame) | LinSlot.

Inductive gw_spec (cfg : lin2can_kconfig) (room : nat) : gw_event -> gw_traffic -> gw_traffic -> Prop :=
| gw_accept fr q l c : transportable cfg fr -> (length q < room)%nat ->
    gw_spec cfg room (FromCan fr) (GwTraffic q l c) (GwTraffic (q ++ [fr]) l c)
| gw_full fr q l c : transportable cfg fr -> (room <= length q)%nat ->
    gw_spec cfg room (FromCan fr) (GwTraffic q l c) (GwTraffic q l c)
| gw_unmapped fr q l c : (can_id fr ∉ id_mapping cfg) ->
    gw_spec cfg room (FromCan fr) (GwTraffic q l c) (GwTraffic q l c)
| gw_slot fr q l c : gw_spec cfg room LinSlot (GwTraffic (fr :: q) l c) (GwTraffic q (l ++ [fr]) c)
| gw_slot_empty l c : gw_spec cfg room LinSlot (GwTraffic [] l c) (GwTraffic [] l c)
| gw_forward fr q l c : transportable cfg fr ->
    gw_spec cfg room (FromLin fr) (GwTraffic q l c) (GwTraffic q l (c ++ [padded fr]))
| gw_refused fr q l c : transportable cfg fr ->
    gw_spec cfg room (FromLin fr) (GwTraffic q l c) (GwTraffic q l c).

Inductive gw_spec_all (cfg : lin2can_kconfig) (room : nat) : list gw_event -> gw_traffic -> gw_traffic -> Prop :=
| gw_none t : gw_spec_all cfg room [] t t
| gw_some ev evs t1 t2 t3 : gw_spec cfg room ev t1 t2 -> gw_spec_all cfg room evs t2 t3 -> gw_spec_all cfg room (ev :: evs) t1 t3.

(** The frames the drivers were made for, and frames of other identifiers. *)
Definition event_ok (cfg : lin2can_kconfig) (ev : gw_event) : Prop :=
  match ev with
  | FromCan fr => transportable cfg fr \/ (can_id fr ∉ id_mapping cfg)
  | FromLin fr => transportable cfg fr
  | LinSlot => True
  end.

Section composition.
Context {Q B C : Type} `{!MsgQueue Q} `{!MsgQueueLaws Q} `{!LinBus B} `{!BusRequests B} `{!CanA C} `{!CanALaws C}.
Context (cfg : lin2can_kconfig) (Hcfg : mapping_ok cfg) (Hids : lin_ids_ok cfg) (max : Z) (Hmax : 2 <= max <= 255) (stack : list Z).
#[local] Abbreviation env := (gw_env Q B C).
#[local] Abbreviation board := (al_world (l2c_world env)).
#[local] Abbreviation REQUEST := (CONFIG_LIN2CAN_MASTER_REQUEST_ID cfg).
#[local] Abbreviation RESPONSE := (CONFIG_LIN2CAN_SLAVE_RESPONSE_ID cfg).
#[local] Instance gw_devices' : CanDevices (l2c_world env) := gw_devices cfg.
#[local] Instance gw_can' : CanCallbacks env := gw_can cfg.
#[local] Instance gw_callbacks : LinCallbacks (l2c_world env) := l2c_lin_callbacks cfg.

Definition gw_run (ev : gw_event) : M board unit :=
  match ev with
  | FromCan frame => on_bus (let* l := gets (fun w => can_a_filters (gw_can_a (l2c_ext w))) in deliver cfg l frame)
  | FromLin frame => lin_rx_callback 0 (lin_encoding cfg RESPONSE frame)
  | LinSlot => al_schedule_now LIN_MODE_COMMANDER (stack_frame stack) REQUEST ;; ret tt
  end.

Fixpoint gw_run_all (evs : list gw_event) : M board unit :=
  match evs with [] => ret tt | ev :: evs => gw_run ev ;; gw_run_all evs end.

Lemma gw_send_frame fr t f u : frame (fun w : l2c_world env => (l2c_data w, gw_bus (l2c_ext w), gw_can_a (l2c_ext w))) (lin2can_send cfg fr t f u).
Proof.
  unfold lin2can_send. apply frame_if; [auto with ardep_frame|]. apply frame_bind; [unfold get_l2c; auto with ardep_frame|]. intros d.
  apply frame_if; [auto with ardep_frame|]. apply frame_bind; [auto with ardep_frame|]. intros x.
  apply frame_bind; [|intros err; apply frame_if; auto with ardep_frame].
  intros w a w'. unfold on_queue, k_msgq_put, gw_msgq, zoom. destruct (k_msgq_put _ _ (gw_queue (l2c_ext w))); by intros [= <- <-].
Qed.

#[local] Instance gw_can_laws : CanCallbackLaws env.
Proof.
  constructor; [intros; cbn; by eexists|]. intros f fr u. cbn. unfold can_router_frame_cb. apply frame_bind; [|auto with ardep_frame].
  cbn. case_decide.
  - intros w a w'. unfold on_can_a, zoom. destruct (can_a_send fr _); by intros [= <- <-].
  - intros w a w' Hs. by apply gw_send_frame in Hs as [= -> _ _].
Qed.

#[local] Instance gw_users_laws : LinUsersLaws env.
Proof. constructor; by intros f fr u w a w'. Qed.

#[local] Instance gw_callback_laws : LinCallbackLaws (l2c_world env).
Proof. constructor; intros f fr u; cbn; case_decide; apply on_bus_table || done. Qed.

(** ** The invariant *)

(** The board after its start, with this traffic behind it. *)
Record gw_ok (t : gw_traffic) (w : board) : Prop := GwOk {
  g_wf : lin_wf max (al_data w);
  g_out : handlers (al_data w) !! REQUEST = Some (CallbackEntry REQUEST 8 OUTGOING (Some LIN_OUTGOING_CB) 0);
  g_in : handlers (al_data w) !! RESPONSE = Some (CallbackEntry RESPONSE 8 INCOMING (Some LIN_INCOMING_CB) 0);
  g_slots : length (incoming_callbacks (l2c_data (al_ext w))) = 4%nat;
  g_outgoing : outgoing_id (l2c_data (al_ext w)) = REQUEST;
  g_receiver : forall id, id ∈ id_mapping cfg -> receiver cfg (l2c_data (al_ext w)) id = Some (can_router_frame_fn, 0);
  g_filters : can_a_filters (gw_can_a (l2c_ext (al_ext w))) = [(lincan_dev, catch_all)];
  g_queue : queue (gw_queue (l2c_ext (al_ext w))) = outgoing cfg REQUEST can_router_tx_fn 0 <$> to_lin t;
  g_lin : pending (gw_bus (l2c_ext (al_ext w))) = SendFrame <$> (lin_encoding cfg REQUEST <$> lin_sent t);
  g_can : can_a_sent (gw_can_a (l2c_ext (al_ext w))) = can_sent t;
}.

Implicit Types (d : lin2can_data) (q : Q) (b : B) (c : C).

(** [can_send] on the LIN side, without waiting. *)
Lemma gw_send_run fr d q b c : transportable cfg fr ->
  exists r q', lin2can_send cfg fr K_NO_WAIT (Some can_router_tx_fn) 0 (L2cWorld d (GwEnv q b c)) = Ret r (L2cWorld d (GwEnv q' b c)) /\
    queue q' = if decide (length (queue q) < capacity (E := Q))%nat then queue q ++ [outgoing cfg (outgoing_id d) can_router_tx_fn 0 fr] else queue q.
Proof.
  intros Hfr. destruct (decide _) as [Hroom|Hfull%Nat.nlt_ge].
  - assert (length (queue (GwEnv q b c)) < capacity (E := env))%nat as Hroom' by exact Hroom.
    destruct (send_run cfg Hcfg fr can_router_tx_fn 0 K_NO_WAIT (L2cWorld d (GwEnv q b c)) Hfr Hroom') as (e' & Hrun & Hq).
    pose proof (gw_send_frame fr _ _ _ _ _ _ Hrun) as [= Hb Hc]. destruct e' as [q' b' c']. cbn in Hb, Hc, Hq. subst b' c'. by exists 0, q'.
  - destruct (transportable_inv cfg Hcfg fr Hfr) as (k & x & l & Hk & Hmap & Hk4 & Hb & Hpad & Hl & Hd & Hlen).
    unfold lin2can_send, DATA_LEN. rewrite Hmap. change (take _ _ ++ _) with (padded_data fr).
    rewrite (proj2 (Z.eqb_neq _ _)) by lia. rewrite Hpad.
    unfold get_l2c. unfold bind at 1, gets. rewrite (proj2 (Z.ltb_ge 8 _)), (proj2 (Z.ltb_ge _ _)) by lia. cbn [orb].
    cbn [lookup list_lookup of_option]. rewrite bind_ret_l.
    unfold on_queue, zoom, bind. cbn. unfold zoom. cbn.
    match goal with |- context [k_msgq_put ?y _ q] => destruct (put_full y q Hfull) as (rc & -> & Hneg) end.
    exists rc, q. split; [|done]. by rewrite (proj2 (Z.eqb_neq rc 0)) by lia.
Qed.

Lemma gw_send_unmapped fr t f u (w : l2c_world env) : (can_id fr ∉ id_mapping cfg) -> lin2can_send cfg fr t f u w = Ret (- EINVAL) w.
Proof. intros H. unfold lin2can_send, map_from_can_id. by rewrite map_loop_missing. Qed.

(** A frame from CAN goes to the queue, if there is room and its identifier is one of the four. *)
Lemma from_can_step fr t w : gw_ok t w -> event_ok cfg (FromCan fr) ->
  exists t' w', gw_run (FromCan fr) w = Ret tt w' /\ gw_spec cfg (capacity (E := Q)) (FromCan fr) t t' /\ gw_ok t' w'.
Proof.
  intros Hw Hev. destruct w as [ta [d [q b c] ] ]. pose proof Hw as [Hwf Hout Hin Hsl Ho Hrecv Hfi Hq Hl Hc]. destruct t as [tl ls cs].
  cbn [al_data al_ext l2c_data l2c_ext gw_queue gw_bus gw_can_a to_lin lin_sent can_sent] in *. unfold gw_run.
  assert (forall r w2, lin2can_send cfg fr K_NO_WAIT (Some can_router_tx_fn) 0 (L2cWorld d (GwEnv q b c)) = Ret r w2 ->
    on_bus (let* l := gets (fun w => can_a_filters (gw_can_a (l2c_ext w))) in deliver cfg l fr) (AlWorld ta (L2cWorld d (GwEnv q b c))) =
    Ret tt (AlWorld ta w2)) as Hrun.
  { intros r w2 Hs. apply on_bus_run. unfold bind at 1, gets. cbn [l2c_ext gw_can_a]. rewrite Hfi. cbn [deliver].
    rewrite decide_True by (unfold filter_matches; apply Z.land_0_r). unfold can_router_frame_cb.
    cbn [can_send gw_devices]. rewrite decide_False by done. unfold bind. by rewrite Hs. }
  destruct Hev as [Hfr|Hnot].
  - destruct (gw_send_run fr d q b c Hfr) as (r & q' & Hs & Hq'). exists (GwTraffic (if decide (length tl < capacity (E := Q))%nat then tl ++ [fr] else tl) ls cs).
    eexists. split; [by apply (Hrun r)|]. rewrite Hq, length_fmap in Hq'. case_decide as Hroom.
    + split; [by constructor|]. constructor; try done. cbn. rewrite Hq', Ho, fmap_app. done.
    + split; [constructor; [done|lia]|]. by constructor.
  - exists (GwTraffic tl ls cs). eexists. split; [by eapply Hrun, gw_send_unmapped|]. split; [by constructor|done].
Qed.

Lemma gw_lin_send f d q b c b' : lin_send f b = Ret 0 b' -> lin_send f (L2cWorld d (GwEnv q b c)) = Ret 0 (L2cWorld d (GwEnv q b' c)).
Proof. intros H. cbn. unfold on_gw_bus, zoom. cbn. by rewrite H. Qed.

(** A slot sends the first frame that waits. *)
Lemma lin_slot_step t w : gw_ok t w ->
  exists t' w', gw_run LinSlot w = Ret tt w' /\ gw_spec cfg (capacity (E := Q)) LinSlot t t' /\ gw_ok t' w'.
Proof.
  intros Hw. destruct w as [ta [d [q b c] ] ]. pose proof Hw as [Hwf Hout Hin Hsl Ho Hrecv Hfi Hq Hl Hc]. destruct t as [tl ls cs].
  cbn [al_data al_ext l2c_data l2c_ext gw_queue gw_bus gw_can_a to_lin lin_sent can_sent] in *. destruct Hids as (_ & Hreq & _).
  assert (al_schedule_now LIN_MODE_COMMANDER (stack_frame stack) REQUEST (AlWorld ta (L2cWorld d (GwEnv q b c))) =
    transmission (stack_frame stack) REQUEST (Some (CallbackEntry REQUEST 8 OUTGOING (Some LIN_OUTGOING_CB) 0)) (AlWorld ta (L2cWorld d (GwEnv q b c)))) as Hs
    by (rewrite (schedule_as stack max ltac:(lia)) by done; cbn [al_data]; by rewrite Hout).
  unfold gw_run. cbn [transmission] in Hs. set (f0 := LinFrame REQUEST 8 LIN_CHECKSUM_AUTO _) in Hs.
  destruct tl as [|fr tl]; cbn [fmap list_fmap] in Hq.
  - assert (outgoing_cb LIN_OUTGOING_CB f0 0 (AlWorld ta (L2cWorld d (GwEnv q b c))) = Ret (false, f0) (AlWorld ta (L2cWorld d (GwEnv q b c)))) as Hcb.
    { cbn. apply on_bus_run. unfold lin_outgoing_cb, on_queue, zoom, bind. cbn. unfold zoom. cbn. by rewrite get_empty. }
    rewrite (bind_step _ _ _ _ _ Hcb) in Hs. cbn beta iota in Hs. rewrite (bind_step _ _ _ _ _ Hs).
    eexists _, _. split; [reflexivity|]. split; [apply gw_slot_empty|done].
  - destruct (get_head q _ _ Hq) as (q' & Hget & Hq'). destruct (lin_send_law (lin_encoding cfg REQUEST fr) b) as (b' & Hsend & Hp).
    assert (outgoing_cb LIN_OUTGOING_CB f0 0 (AlWorld ta (L2cWorld d (GwEnv q b c))) =
      Ret (true, lin_encoding cfg REQUEST fr) (AlWorld ta (L2cWorld d (GwEnv q' b c)))) as Hcb.
    { cbn. apply on_bus_run. unfold lin_outgoing_cb, on_queue, zoom, bind. cbn. unfold zoom. cbn. by rewrite Hget. }
    rewrite (bind_step _ _ _ _ _ Hcb) in Hs. cbn beta iota in Hs. erewrite bind_step; [|rewrite Hs; apply on_bus_run, (gw_lin_send (lin_encoding cfg REQUEST fr)); exact Hsend].
    eexists _, _. split; [reflexivity|]. split; [apply gw_slot|]. constructor; try done. cbn. by rewrite Hp, Hl, !fmap_app.
Qed.

(** A frame of the other LIN node goes to the CAN controller. *)
Lemma from_lin_step fr t w : gw_ok t w -> transportable cfg fr ->
  exists t' w', gw_run (FromLin fr) w = Ret tt w' /\ gw_spec cfg (capacity (E := Q)) (FromLin fr) t t' /\ gw_ok t' w'.
Proof.
  intros Hw Hfr. destruct w as [ta [d [q b c] ] ]. pose proof Hw as [Hwf Hout Hin Hsl Ho Hrecv Hfi Hq Hl Hc]. destruct t as [tl ls cs].
  cbn [al_data al_ext l2c_data l2c_ext gw_queue gw_bus gw_can_a to_lin lin_sent can_sent] in *. unfold gw_run.
  rewrite (rx_run max ltac:(lia)) by done. cbn [al_data]. change (frame_id (lin_encoding cfg RESPONSE fr)) with RESPONSE. rewrite Hin.
  cbn [reception]. change (frame_len (lin_encoding cfg RESPONSE fr)) with 8. rewrite Z.eqb_refl.
  destruct (send_a_law (padded fr) c) as (r & c' & Hs & Hf' & Hsent).
  assert (incoming_cb LIN_INCOMING_CB (lin_encoding cfg RESPONSE fr) 0 (AlWorld ta (L2cWorld d (GwEnv q b c))) =
    Ret tt (AlWorld ta (L2cWorld d (GwEnv q b c')))) as ->.
  { cbn [incoming_cb gw_callbacks l2c_lin_callbacks]. rewrite decide_True by done. apply on_bus_run. rewrite (incoming_run cfg Hcfg) by done.
    cbn [l2c_data]. rewrite Hrecv by apply Hfr. cbn [can_rx_callback gw_can']. unfold can_rx_callback, gw_can', gw_can, can_router_frame_cb.
    cbn [can_send gw_devices]. rewrite decide_True by done. unfold bind, on_can_a, zoom. cbn [l2c_ext gw_can_a]. by rewrite Hs. }
  destruct (r =? 0).
  - eexists _, _. split; [reflexivity|]. split; [by apply gw_forward|]. constructor; try done; cbn; by rewrite ?Hf', ?Hsent, ?Hc.
  - eexists _, _. split; [reflexivity|]. split; [by apply gw_refused|]. constructor; try done; cbn; by rewrite ?Hf', ?Hsent, ?Hc.
Qed.

Lemma gw_steps evs : forall t w, gw_ok t w -> Forall (event_ok cfg) evs ->
  exists t' w', gw_run_all evs w = Ret tt w' /\ gw_spec_all cfg (capacity (E := Q)) evs t t' /\ gw_ok t' w'.
Proof.
  induction evs as [|ev evs IH]; intros t w Hw Hev; [exists t, w; split_and!; [done|constructor|done]|].
  apply Forall_cons in Hev as [Hev Hevs].
  assert (exists t1 w1, gw_run ev w = Ret tt w1 /\ gw_spec cfg (capacity (E := Q)) ev t t1 /\ gw_ok t1 w1) as (t1 & w1 & H1 & Hs1 & Hw1)
    by (destruct ev; [by apply from_can_step|by apply from_lin_step|by apply lin_slot_step]).
  destruct (IH t1 w1 Hw1 Hevs) as (t' & w' & H' & Hs' & Hw'). exists t', w'. cbn [gw_run_all]. rewrite (bind_step _ _ _ _ _ H1).
  split_and!; [done|by econstructor|done].
Qed.

(** ** The start *)

(** A filter for everything takes all four slots; its number is 4. *)
Lemma wildcard_run d (e : env) f u : length (incoming_callbacks d) = 4%nat -> (forall id, receiver cfg d id = None) ->
  lin2can_add_rx_filter cfg (Some f) u catch_all (L2cWorld d e) =
  Ret 4 (L2cWorld (Lin2CanData (replicate 4 (RxSlot (Some f) u)) (outgoing_id d) (incoming_id d)) e).
Proof.
  intros Hl Hr. destruct (slots_four d Hl) as (s0 & s1 & s2 & s3 & Hd). rewrite Hd in Hr |- *.
  unfold lin2can_add_rx_filter, catch_all. cbn [filter_mask]. change (Z.land 0 2047 =? 0) with true. cbv iota.
  rewrite (bind_step _ _ _ _ _ (all_unused_run s0 s1 s2 s3 _ _ e)). rewrite bool_decide_true; [reflexivity|].
  assert (forall k s, [s0; s1; s2; s3] !! k = Some s -> rx_callback s = None) as Hall.
  { intros k s Hk. assert (exists id, id_mapping cfg !! k = Some id) as [id Hid] by (apply lookup_lt_Some in Hk; by apply lookup_lt_is_Some_2).
    pose proof (Hr id) as Hn. rewrite (receiver_at cfg Hcfg _ k id Hid) in Hn. cbn [incoming_callbacks] in Hn. rewrite Hk in Hn. cbn in Hn.
    by destruct (rx_callback s). }
  repeat constructor; [by apply (Hall 0%nat)|by apply (Hall 1%nat)|by apply (Hall 2%nat)|by apply (Hall 3%nat)].
Qed.

Definition gw_power_up (q : Q) (b : B) (c : C) : board := AlWorld (abstract_lin_data_init max) (L2cWorld lin2can_data_init (GwEnv q b c)).

Lemma gateway_boot_run q b c : queue q = [] -> pending b = [] -> can_a_filters c = [] -> can_a_sent c = [] ->
  exists r w, gateway_boot cfg max (gw_power_up q b c) = Ret (4, r) w /\ gw_ok (GwTraffic [] [] []) w.
Proof.
  intros Hq Hb Hf Hs. destruct (al_init_wf max ltac:(lia)) as [Hwf0 Hh0].
  destruct (lin2can_init_spec cfg max LIN_MODE_COMMANDER 0 (gw_power_up q b c) ltac:(lia) Hids Hwf0 eq_refl) as (r & w & Hrun & He & Hwf & Hrecv & Hcase).
  cbn [al_data gw_power_up] in Hcase. rewrite Hh0 in Hcase. rewrite decide_True in Hcase.
  2: { split_and!; [rewrite map_size_empty; lia|apply lookup_empty|apply lookup_empty]. }
  destruct Hcase as (-> & Hat & Hh). unfold gateway_boot. rewrite (bind_step _ _ _ _ _ Hrun).
  pose proof (at_slots _ _ _ _ Hat) as Hsl. pose proof (at_outgoing _ _ _ _ Hat) as Hout. destruct w as [t [d e] ].
  cbn [al_ext l2c_ext l2c_data al_data gw_power_up] in *. subst e.
  destruct (add_a_law lincan_dev catch_all c Hf) as (c1 & Ha & Hf1 & Hs1). destruct (start_a_law c1) as (r & c2 & Hst & Hf2 & Hs2).
  set (d' := Lin2CanData (replicate 4 (RxSlot (Some can_router_frame_fn) 0)) (outgoing_id d) (incoming_id d)).
  assert (can_router_sysinit [RouterTable gateway_entries] (L2cWorld d (GwEnv q b c)) = Ret 4 (L2cWorld d' (GwEnv q b c1))) as Hreg.
  { cbn [can_router_sysinit entries can_router_register gateway_entries from to filter can_add_rx_filter gw_devices' gw_devices].
    rewrite decide_True, decide_False by done. unfold on_can_a, zoom, bind. cbn [l2c_ext gw_can_a]. rewrite Ha. cbn [Z.eqb negb l2c_data l2c_ext gw_queue gw_bus].
    by rewrite (wildcard_run d _ can_router_frame_fn (Z.of_nat can_a_dev) Hsl Hrecv). }
  rewrite (bind_step _ _ _ _ _ (on_bus_run _ t _ _ _ Hreg)).
  assert (gateway_main (L2cWorld d' (GwEnv q b c1)) = Ret r (L2cWorld d' (GwEnv q b c2))) as Hmain.
  { unfold gateway_main, on_can_a, zoom, bind. cbn [l2c_ext gw_can_a]. rewrite Hst. cbn. by destruct (Z.eqb_spec r 0) as [->|]. }
  rewrite (bind_step _ _ _ _ _ (on_bus_run _ t _ _ _ Hmain)). exists r. eexists. split; [reflexivity|].
  constructor; cbn [al_data al_ext l2c_data l2c_ext gw_queue gw_bus gw_can_a to_lin lin_sent can_sent fmap list_fmap]; try done.
  - rewrite Hh. apply lookup_insert_eq.
  - rewrite Hh. rewrite lookup_insert_ne by (destruct Hids; cbn; done). apply lookup_insert_eq.
  - intros id [k Hk]%list_elem_of_lookup. rewrite (receiver_at cfg Hcfg _ k id Hk). pose proof (mapping_lookup _ _ _ Hk).
    cbn [incoming_callbacks d']. by rewrite lookup_replicate_2 by lia.
  - by rewrite Hf2, Hf1.
  - by rewrite Hs2, Hs1.
Qed.

End composition.
