(* ===== verification/CanSample.v ===== *)
(** * The CAN sample ([samples/can/src/main.c])

    Frames with a counter go from one controller of the board to the other; a
    semaphore lets the next frame wait until the last one is sent.  The main
    thread and the interrupt at the end of a transmission are the events; the
    theorems say which frames are sent, and that a failed transmission is the
    last one. *)

From stdpp Require Import base list numbers.
From Stdlib Require Import ZArith Lia.
From S2P Require Import Prelude.
From S2P Require Import Can.

#[local] Open Scope Z_scope.

(** ** The program *)

(** [CAN_FRAME_FDF], and the length of [data] with CONFIG_CAN_FD_MODE. *)
Definition CAN_FRAME_FDF : Z := 4.
Definition CANFD_MAX_DLEN : nat := 64.

(** The two controllers, by number, and [can_a] with the callback of the
    program. *)
Class CanPair (E : Type) := {
  can_is_ready : nat -> M E bool;
  can_set_mode_fd : nat -> M E Z;
  can_start : nat -> M E Z;
  can_add_rx_filter : nat -> can_filter -> M E Z;
  can_send : nat -> can_frame -> M E Z;
}.

Definition can_dev_1 : nat := 0.
Definition can_dev_2 : nat := 1.

(** The variables; [received] are the identifiers that were logged. *)
Record can_sample := CanSample { tx_queue_sem : Z; frame_counter : Z; received : list Z }.
Record cs_world (E : Type) := CsWorld { cs : can_sample; cs_ext : E }.
Arguments CsWorld {E}.
Arguments cs {E}.
Arguments cs_ext {E}.

Definition can_sample_init : can_sample := CanSample 0 0 [].
Definition set_sem x s := CanSample x (frame_counter s) (received s).
Definition set_counter x s := CanSample (tx_queue_sem s) x (received s).
Definition add_received id s := CanSample (tx_queue_sem s) (frame_counter s) (received s ++ [id]).

Section program.
Context {E : Type} `{!CanPair E}.
(** CONFIG_CAN_EXAMPLE_FRAME_ID and CONFIG_CAN_EXAMPLE_USE_CAN_FD. *)
Context (CAN_FRAME_ID : Z) (use_fd : bool).

Definition on_can {A} (m : M E A) : M (cs_world E) A := zoom cs_ext (fun e w => CsWorld (cs w) e) m.
Definition update_cs (f : can_sample -> can_sample) : M (cs_world E) unit := modify (fun w => CsWorld (f (cs w)) (cs_ext w)).

(** A semaphore of limit 1. *)
Definition cs_tx_callback : M (cs_world E) unit := update_cs (set_sem 1).

Definition cs_init_can (can_dev : nat) : M (cs_world E) Z :=
  let* ready := on_can (can_is_ready can_dev) in
  if negb ready then ret (- ENODEV)
  else
    let* err := if use_fd then on_can (can_set_mode_fd can_dev) else ret 0 in
    if negb (err =? 0) then ret err
    else
      let* err := on_can (can_start can_dev) in
      if negb (err =? 0) then ret err else ret 0.

(** The frame with the counter [data] before it is incremented. *)
Definition sample_frame (data : Z) : can_frame :=
  if use_fd then CanFrame CAN_FRAME_ID 15 CAN_FRAME_FDF (replicate CANFD_MAX_DLEN (u8 (data + 1)))
  else CanFrame CAN_FRAME_ID 1 0 (data :: replicate 7 0).

Definition send_frame (can_dev : nat) : M (cs_world E) Z :=
  let* data := gets (fun w => frame_counter (cs w)) in
  update_cs (set_counter (u8 (data + 1))) ;;
  on_can (can_send can_dev (sample_frame data)).

Definition receive_frame_filter : can_filter := CanFilter CAN_FRAME_ID CAN_STD_ID_MASK.

Definition cs_rx_callback (frame : can_frame) : M (cs_world E) unit := update_cs (add_received (can_id frame)).

(** [main] up to its loop. *)
Definition cs_setup : M (cs_world E) Z :=
  update_cs (set_sem 1) ;;
  let* err := cs_init_can can_dev_1 in
  if negb (err =? 0) then ret err
  else
    let* err := cs_init_can can_dev_2 in
    if negb (err =? 0) then ret err
    else
      let* filter_id := on_can (can_add_rx_filter can_dev_2 receive_frame_filter) in
      if filter_id <? 0 then ret filter_id else ret 0.

(** One round of the loop; without the semaphore it waits 100 ms and goes on. *)
Definition cs_round : M (cs_world E) unit :=
  let* sem := gets (fun w => tx_queue_sem (cs w)) in
  if 0 <? sem then
    update_cs (set_sem (sem - 1)) ;;
    send_frame can_dev_1 ;;
    ret tt
  else ret tt.
End program.

(** ** The controllers *)

(** [under_way] tells whether a frame whose callback is outstanding is with the
    first controller, [transmitted] what it accepted so far; [transmission_ends]
    is the hardware's step. *)
Class CanPairLaws (E : Type) `{!CanPair E} := {
  under_way : E -> nat;
  transmitted : E -> list can_frame;
  transmission_ends : E -> E;
  untouched (e e' : E) : Prop := under_way e' = under_way e /\ transmitted e' = transmitted e;
  ready_law : forall d e, exists b e', can_is_ready d e = Ret b e' /\ untouched e e';
  mode_law : forall d e, exists r e', can_set_mode_fd d e = Ret r e' /\ untouched e e';
  start_law : forall d e, exists r e', can_start d e = Ret r e' /\ untouched e e';
  filter_law : forall d f e, exists r e', can_add_rx_filter d f e = Ret r e' /\ untouched e e';
  send_law : forall fr e, exists r e', can_send can_dev_1 fr e = Ret r e' /\
    if r =? 0 then under_way e' = S (under_way e) /\ transmitted e' = transmitted e ++ [fr] else untouched e e';
  ends_law : forall e n, under_way e = S n -> under_way (transmission_ends e) = n /\ transmitted (transmission_ends e) = transmitted e;
}.

(** A round of the main thread; the end of a transmission, if there is one;
    the reception of a frame. *)
Inductive cs_event := MainRound | TransmissionEnds | Received (frame : can_frame).

Section events.
Context {E : Type} `{!CanPair E} `{!CanPairLaws E} (CAN_FRAME_ID : Z) (use_fd : bool).
Implicit Types (w : cs_world E).

Definition cs_run (ev : cs_event) : M (cs_world E) unit :=
  match ev with
  | MainRound => cs_round CAN_FRAME_ID use_fd
  | TransmissionEnds =>
      let* n := gets (fun w => under_way (cs_ext w)) in
      match n with
      | O => ret tt
      | S _ => modify (fun w => CsWorld (cs w) (transmission_ends (cs_ext w))) ;; cs_tx_callback
      end
  | Received frame => cs_rx_callback frame
  end.

Fixpoint cs_run_all (evs : list cs_event) : M (cs_world E) unit :=
  match evs with [] => ret tt | ev :: evs => cs_run ev ;; cs_run_all evs end.

(** The [n]-th frame. *)
Definition nth_frame (n : nat) : can_frame := sample_frame CAN_FRAME_ID use_fd (Z.of_nat n mod 256).

(** A state between two events, [base] frames after which the program began;
    [failed] after a transmission that was not accepted. *)
Record cs_ok (base : list can_frame) (n : nat) (failed : bool) w : Prop := CsOk {
  ok_sent : transmitted (cs_ext w) = base ++ (nth_frame <$> seq 0 n);
  ok_counter : frame_counter (cs w) = Z.of_nat (n + (if failed then 1 else 0)) mod 256;
  ok_sem : tx_queue_sem (cs w) + Z.of_nat (under_way (cs_ext w)) = (if failed then 0 else 1);
  ok_range : 0 <= tx_queue_sem (cs w);
}.

(** How an event continues. *)
Definition cs_next (base : list can_frame) (n : nat) (failed : bool) w' : Prop :=
  cs_ok base n failed w' \/ (failed = false /\ (cs_ok base (S n) false w' \/ cs_ok base n true w')).

Lemma counter_S n : u8 (Z.of_nat n mod 256 + 1) = Z.of_nat (n + 1) mod 256.
Proof. unfold u8, wrap. change (2 ^ 8) with 256. rewrite Nat2Z.inj_add. by rewrite Zplus_mod_idemp_l. Qed.

Lemma on_can_run {A} (m : M E A) s e a e' : m e = Ret a e' -> on_can m (CsWorld s e) = Ret a (CsWorld s e').
Proof. intros H. unfold on_can, zoom. cbn. by rewrite H. Qed.

Lemma cs_step base n failed ev w : cs_ok base n failed w -> exists w', cs_run ev w = Ret tt w' /\ cs_next base n failed w'.
Proof.
  destruct w as [s e]. intros Hw. pose proof Hw as [Hs Hc Hsem Hr]. cbn [cs cs_ext] in *. destruct ev as [| |frame]; unfold cs_run.
  - unfold cs_round. unfold bind at 1, gets. cbn [cs]. destruct (Z.ltb_spec 0 (tx_queue_sem s)) as [Hpos|Hz].
    2: { eexists. split; [reflexivity|]. by left. }
    assert (failed = false /\ tx_queue_sem s = 1 /\ under_way e = 0%nat) as (-> & H1 & Hu) by (destruct failed; lia).
    erewrite bind_step by reflexivity. unfold send_frame. cbn [cs cs_ext]. rewrite Nat.add_0_r in Hc.
    destruct (send_law (sample_frame CAN_FRAME_ID use_fd (frame_counter s)) e) as (r & e' & Hsend & Hcase).
    eexists. split.
    { unfold bind, gets, update_cs, modify. cbn [cs cs_ext]. rewrite (on_can_run _ _ _ _ _ Hsend). reflexivity. }
    right. split; [done|]. destruct (r =? 0).
    + left. destruct Hcase as [Hu' Ht']. constructor; cbn [cs cs_ext set_sem set_counter frame_counter tx_queue_sem].
      * rewrite Ht', Hs, seq_S, fmap_app, <- (assoc_L app). cbn. unfold nth_frame. by rewrite Hc.
      * rewrite Hc, counter_S. by replace (S n + 0)%nat with (n + 1)%nat by lia.
      * rewrite Hu', Hu. lia.
      * lia.
    + right. destruct Hcase as [Hu' Ht']. constructor; cbn [cs cs_ext set_sem set_counter frame_counter tx_queue_sem].
      * by rewrite Ht'.
      * by rewrite Hc, counter_S.
      * rewrite Hu', Hu. lia.
      * lia.
  - unfold bind at 1, gets. cbn [cs_ext]. destruct (under_way e) as [|m] eqn:Hu; [eexists; split; [reflexivity|by left]|].
    destruct (ends_law e m Hu) as [Hm Ht]. eexists. split; [reflexivity|]. left.
    assert (failed = false /\ m = 0%nat) as [-> ->] by (destruct failed; lia).
    constructor; cbn; [by rewrite Ht|done|by rewrite Hm|lia].
  - eexists. split; [reflexivity|]. left. by constructor.
Qed.

Lemma cs_steps base evs : forall n failed w, cs_ok base n failed w -> exists n' failed' w',
  cs_run_all evs w = Ret tt w' /\ cs_ok base n' failed' w' /\ (failed = true -> n' = n).
Proof.
  induction evs as [|ev evs IH]; intros n failed w Hw; [by exists n, failed, w|].
  destruct (cs_step base n failed ev w Hw) as (w1 & H1 & Hn). cbn [cs_run_all].
  assert (exists n1 f1, cs_ok base n1 f1 w1 /\ (failed = true -> f1 = true /\ n1 = n)) as (n1 & f1 & Hok1 & Hf).
  { destruct Hn as [Hn|[-> [Hn|Hn] ] ]; [by exists n, failed|by exists (S n), false|by exists n, true]. }
  destruct (IH n1 f1 w1 Hok1) as (n' & f' & w' & H2 & Hok2 & Hf2). exists n', f', w'. rewrite (bind_step _ _ _ _ _ H1).
  split_and!; [done|done|]. intros Ht. destruct (Hf Ht) as [-> ->]. by apply Hf2.
Qed.

(** The set-up keeps the controllers' frames. *)
Lemma init_can_run dev s e : exists r e', cs_init_can use_fd dev (CsWorld s e) = Ret r (CsWorld s e') /\ untouched e e'.
Proof.
  unfold cs_init_can, untouched. destruct (ready_law dev e) as (b & e1 & H1 & Hu1 & Ht1). rewrite (bind_step _ _ _ _ _ (on_can_run _ _ _ _ _ H1)).
  destruct b; cbn [negb]; [|by exists (- ENODEV), e1].
  assert (exists r e2, (if use_fd then on_can (can_set_mode_fd dev) else ret 0) (CsWorld s e1) = Ret r (CsWorld s e2) /\ untouched e1 e2)
    as (r2 & e2 & H2 & Hu2 & Ht2).
  { destruct use_fd; [|by exists 0, e1]. destruct (mode_law dev e1) as (r & e2 & H & Hk). exists r, e2. split; [by apply on_can_run|done]. }
  rewrite (bind_step _ _ _ _ _ H2). destruct (negb (r2 =? 0)); [exists r2, e2; by rewrite Hu2, Ht2|].
  destruct (start_law dev e2) as (r3 & e3 & H3 & Hu3 & Ht3). rewrite (bind_step _ _ _ _ _ (on_can_run _ _ _ _ _ H3)).
  destruct (negb (r3 =? 0)); eexists _, e3; (split; [reflexivity|]); by rewrite Hu3, Hu2, Ht3, Ht2.
Qed.

Lemma setup_run e : under_way e = 0%nat ->
  exists r w, cs_setup CAN_FRAME_ID use_fd (CsWorld can_sample_init e) = Ret r w /\ cs_ok (transmitted e) 0 false w.
Proof.
  intros Hu. unfold cs_setup. erewrite bind_step by reflexivity. cbn [cs cs_ext].
  assert (forall e', untouched e e' -> cs_ok (transmitted e) 0 false (CsWorld (set_sem 1 can_sample_init) e')) as Hok.
  { intros e' [Hu' Ht']. constructor; cbn [cs cs_ext]; [by rewrite Ht', app_nil_r|done|cbn; by rewrite Hu', Hu|done]. }
  destruct (init_can_run can_dev_1 (set_sem 1 can_sample_init) e) as (r1 & e1 & H1 & Hu1 & Ht1). rewrite (bind_step _ _ _ _ _ H1).
  destruct (negb (r1 =? 0)); [exists r1; eexists; split; [reflexivity|by apply Hok]|].
  destruct (init_can_run can_dev_2 (set_sem 1 can_sample_init) e1) as (r2 & e2 & H2 & Hu2 & Ht2). rewrite (bind_step _ _ _ _ _ H2).
  destruct (negb (r2 =? 0)); [exists r2; eexists; split; [reflexivity|apply Hok; split; congruence]|].
  destruct (filter_law can_dev_2 (receive_frame_filter CAN_FRAME_ID) e2) as (r3 & e3 & H3 & Hu3 & Ht3).
  rewrite (bind_step _ _ _ _ _ (on_can_run _ _ _ _ _ H3)).
  destruct (r3 <? 0); eexists _, _; (split; [reflexivity|apply Hok; split; congruence]).
Qed.

(** [frames_are_counted]: after the set-up, whatever the order of rounds, ends
    of transmissions and receptions: the frames that were accepted carry the
    numbers 0, 1, ... in their order, modulo 256, and at most one of them is
    under way. *)
Theorem frames_are_counted e evs : under_way e = 0%nat ->
  exists r w, cs_setup CAN_FRAME_ID use_fd (CsWorld can_sample_init e) = Ret r w /\
    exists n w', cs_run_all evs w = Ret tt w' /\ transmitted (cs_ext w') = transmitted e ++ (nth_frame <$> seq 0 n) /\
      (under_way (cs_ext w') <= 1)%nat.
Proof.
  intros Hu. destruct (setup_run e Hu) as (r & w & Hr & Hok). exists r, w. split; [done|].
  destruct (cs_steps _ evs 0 false w Hok) as (n & f & w' & Hrun & [Hs _ Hsem Hrange] & _). exists n, w'. split_and!; [done|done|].
  destruct f; lia.
Qed.

(** [failed_send_is_last]: when a frame is not accepted, its callback never
    runs and the semaphore is not given back: no frame is sent any more,
    whatever happens. *)
Theorem failed_send_is_last s e r e' evs : tx_queue_sem s = 1 -> under_way e = 0%nat ->
  can_send can_dev_1 (sample_frame CAN_FRAME_ID use_fd (frame_counter s)) e = Ret r e' -> r <> 0 ->
  exists w', cs_run_all (MainRound :: evs) (CsWorld s e) = Ret tt w' /\ transmitted (cs_ext w') = transmitted e.
Proof.
  intros Hsem Hu Hsend Hr. destruct (send_law (sample_frame CAN_FRAME_ID use_fd (frame_counter s)) e) as (r2 & e2 & Hsend' & Hcase).
  rewrite Hsend in Hsend'. injection Hsend' as <- <-. rewrite (proj2 (Z.eqb_neq _ _) Hr) in Hcase. destruct Hcase as [Hu' Ht'].
  cbn [cs_run_all cs_run]. erewrite bind_step.
  2: { unfold cs_round, send_frame, bind, gets, update_cs, modify. cbn [cs cs_ext]. rewrite Hsem. cbn [Z.ltb Z.compare].
       rewrite (on_can_run _ _ _ _ _ Hsend). reflexivity. }
  assert (forall evs s2 e2, tx_queue_sem s2 = 0 -> under_way e2 = 0%nat ->
    exists w', cs_run_all evs (CsWorld s2 e2) = Ret tt w' /\ transmitted (cs_ext w') = transmitted e2) as Hdead.
  { clear. induction evs as [|ev evs IH]; intros s2 e2 Hsem Hu; [by eexists|]. cbn [cs_run_all].
    destruct ev as [| |frame]; cbn [cs_run].
    - erewrite bind_step; [by apply (IH s2)|]. unfold cs_round, bind, gets. cbn [cs]. by rewrite Hsem.
    - erewrite bind_step; [by apply (IH s2)|]. unfold bind, gets. cbn [cs_ext]. by rewrite Hu.
    - erewrite bind_step by reflexivity. cbn [cs cs_ext]. by apply IH. }
  cbn [cs cs_ext]. destruct (Hdead evs (set_counter (u8 (frame_counter s + 1)) (set_sem (1 - 1) s)) e' eq_refl) as (w' & Hw & Ht); [by rewrite Hu'|].
  exists w'. split; [exact Hw|]. by rewrite Ht.
Qed.
End events.
