(* ===== verification/BoardSamples.v ===== *)
(** * The samples of the board's outputs

    [LedSample] (samples/led), [InputSample] (samples/digital_input_interrupt),
    [DacSample] (samples/dac) and [HvSample] (samples/hv_shield): programs over
    the pins and converters of the board.  Each is given with an interface of
    the devices it uses; the theorems say what the devices show over time. *)

From stdpp Require Import base list numbers relations.
From Stdlib Require Import ZArith Lia.
From S2P Require Import Prelude.

#[local] Open Scope Z_scope.

(** [k] rounds of a loop that hands a value on. *)
Fixpoint loop_rounds {W A} (round : A -> M W A) (k : nat) (a : A) : M W A :=
  match k with O => ret a | S k => let* a := round a in loop_rounds round k a end.

Lemma wp_loop_rounds {W A} (round : A -> M W A) (I : nat -> A -> W -> Prop) :
  (forall i a w, I i a w -> wp (round a) (fun a' w' => I (S i) a' w') w) ->
  forall k i a w, I i a w -> wp (loop_rounds round k a) (fun a' w' => I (i + k)%nat a' w') w.
Proof.
  intros Hr. induction k as [|k IH]; intros i a w Hi; cbn [loop_rounds].
  - apply wp_ret. by rewrite Nat.add_0_r.
  - apply wp_bind. eapply wp_mono; [by apply Hr|]. cbn beta. intros a' w' H'. rewrite <- Nat.add_succ_comm. by apply IH.
Qed.

(** A law of the form "runs, and then". *)
Lemma wp_law {W A} (m : M W A) (P Q : A -> W -> Prop) w : (exists a w', m w = Ret a w' /\ P a w') -> (forall a w', P a w' -> Q a w') -> wp m Q w.
Proof. intros (a & w' & Hm & HP) HQ. apply wp_Ret. exists a, w'. auto. Qed.

Lemma seqZ_one i : seqZ i 1 = [i].
Proof. by rewrite seqZ_cons, seqZ_nil by lia. Qed.

(** ** samples/led *)

Module LedSample.
Inductive board_led := red_led | green_led.
#[export] Instance board_led_eq_dec : EqDecision board_led.
Proof. solve_decision. Defined.

Definition TOGGLE_TIME_MS : Z := 1000.

Class Leds (E : Type) := {
  gpio_is_ready_dt : board_led -> M E bool;
  gpio_pin_configure_active : board_led -> M E Z;
  gpio_pin_set_dt : board_led -> bool -> M E Z;
  k_msleep : Z -> M E unit;
}.

Section program.
Context {E : Type} `{!Leds E}.

Definition init_leds : M E Z :=
  let* ready := gpio_is_ready_dt red_led in
  if negb ready then ret (- ENODEV)
  else
    let* ready := gpio_is_ready_dt green_led in
    if negb ready then ret (- ENODEV) else ret 0.

Definition configure_leds : M E Z :=
  let* r := gpio_pin_configure_active red_led in
  if r <? 0 then ret r
  else
    let* r := gpio_pin_configure_active green_led in
    if r <? 0 then ret r else ret 0.

Definition toggle_leds (red_is_on : bool) : M E unit :=
  gpio_pin_set_dt red_led red_is_on ;;
  gpio_pin_set_dt green_led (negb red_is_on) ;;
  ret tt.

Definition led_round (red_is_on : bool) : M E bool :=
  toggle_leds red_is_on ;;
  k_msleep TOGGLE_TIME_MS ;;
  ret (negb red_is_on).

(** [main] for [k] rounds; it does not end unless the set-up fails. *)
Definition led_main (k : nat) : M E Z :=
  let* rc := init_leds in
  if rc <? 0 then ret rc
  else
    let* rc := configure_leds in
    if rc <? 0 then ret rc else (loop_rounds led_round k true ;; ret 0).
End program.

(** LEDs that work. *)
Class LedsLaws (E : Type) `{!Leds E} := {
  lit : E -> board_led -> bool;
  elapsed : E -> Z;
  ready_law : forall l e, exists b e', gpio_is_ready_dt l e = Ret b e' /\ b = true /\ lit e' = lit e /\ elapsed e' = elapsed e;
  configure_law : forall l e, exists r e', gpio_pin_configure_active l e = Ret r e' /\ r = 0 /\ elapsed e' = elapsed e /\
    forall k, lit e' k = if decide (k = l) then true else lit e k;
  set_law : forall l b e, exists r e', gpio_pin_set_dt l b e = Ret r e' /\ elapsed e' = elapsed e /\
    forall k, lit e' k = if decide (k = l) then b else lit e k;
  sleep_law : forall ms e, exists r e', k_msleep ms e = Ret r e' /\ elapsed e' = elapsed e + ms /\ lit e' = lit e;
}.

Section theorems.
Context {E : Type} `{!Leds E} `{!LedsLaws E}.

(** After [i] rounds from [t0] on. *)
Definition shown (t0 : Z) (i : nat) (red_is_on : bool) (e : E) : Prop :=
  red_is_on = Nat.even i /\ elapsed e = t0 + TOGGLE_TIME_MS * Z.of_nat i /\
  match i with O => lit e red_led = true /\ lit e green_led = true | S i => lit e red_led = Nat.even i /\ lit e green_led = negb (Nat.even i) end.

Lemma led_round_wp t0 i b e : shown t0 i b e -> wp (led_round b) (shown t0 (S i)) e.
Proof.
  intros (-> & Ht & _). unfold led_round, toggle_leds. apply wp_bind, wp_bind.
  eapply wp_law; [apply set_law|]. intros _ e1 (H1 & L1). cbn beta. apply wp_bind.
  eapply wp_law; [apply set_law|]. intros _ e2 (H2 & L2). cbn beta. apply wp_ret, wp_bind.
  eapply wp_law; [apply sleep_law|]. intros _ e3 (H3 & L3). apply wp_ret. unfold shown. rewrite Nat.even_succ, <- Nat.negb_even, L3, !L2, !L1.
  split_and!; [done| |done|done]. rewrite H3, H2, H1, Ht. unfold TOGGLE_TIME_MS. lia.
Qed.

(** [leds_alternate]: the program goes on for ever; both LEDs are on when it
    begins, and after every round exactly one is, the red one first, changing
    with every second. *)
Theorem leds_alternate e k :
  wp (led_main k) (fun rc e' => rc = 0 /\ elapsed e' = elapsed e + 1000 * Z.of_nat k /\
    match k with O => lit e' red_led = true /\ lit e' green_led = true
    | S k => lit e' red_led = Nat.even k /\ lit e' green_led = negb (Nat.even k) end) e.
Proof.
  unfold led_main, init_leds. do 2 apply wp_bind.
  eapply wp_law; [apply ready_law|]. intros _ e1 (-> & _ & H1). cbn [negb]. apply wp_bind.
  eapply wp_law; [apply ready_law|]. intros _ e2 (-> & _ & H2). cbn [negb]. apply wp_ret. cbn [Z.ltb Z.compare].
  unfold configure_leds. do 2 apply wp_bind.
  eapply wp_law; [apply configure_law|]. intros _ e3 (-> & H3 & L3). cbn [Z.ltb Z.compare]. apply wp_bind.
  eapply wp_law; [apply configure_law|]. intros _ e4 (-> & H4 & L4). cbn [Z.ltb Z.compare]. apply wp_ret. cbn [Z.ltb Z.compare].
  apply wp_bind. eapply wp_mono; [apply (wp_loop_rounds led_round (shown (elapsed e)) (led_round_wp (elapsed e)) k 0)|].
  - split_and!; [done|rewrite H4, H3, H2, H1; lia|by rewrite L4, L3|by rewrite L4].
  - intros b e5 (_ & Ht & Hl). apply wp_ret. split; [done|]. split; [exact Ht|exact Hl].
Qed.
End theorems.
End LedSample.

(** ** samples/digital_input_interrupt *)

Module InputSample.
(** A pin: its port and its number there. *)
Definition gpio_pin : Type := nat * Z.

Class Pins (E : Type) := {
  gpio_is_ready_dt : gpio_pin -> M E bool;
  gpio_pin_configure_output : gpio_pin -> M E Z;
  gpio_pin_configure_input : gpio_pin -> M E Z;
  gpio_pin_interrupt_configure_both : gpio_pin -> M E Z;
  gpio_add_callback : nat -> Z -> M E Z;
  gpio_pin_get : nat -> Z -> M E Z;
  gpio_pin_set : nat -> Z -> Z -> M E Z;
}.

Section program.
Context {E : Type} `{!Pins E} (input output : gpio_pin).

(** The output is looked up on the port of the input. *)
Definition input_changed (dev : nat) : M E unit :=
  let* value := gpio_pin_get dev input.2 in
  if value <? 0 then ret tt
  else
    let* r := gpio_pin_set dev output.2 value in
    ret tt.

Definition configure_output : M E Z :=
  let* ready := gpio_is_ready_dt output in
  if negb ready then ret (- ENODEV)
  else
    let* r := gpio_pin_configure_output output in
    if negb (r =? 0) then ret (- ENODEV) else ret 0.

Definition configure_input : M E Z :=
  let* ready := gpio_is_ready_dt input in
  if negb ready then ret (- ENODEV)
  else
    let* r := gpio_pin_configure_input input in
    if negb (r =? 0) then ret (- ENODEV)
    else
      let* r := gpio_pin_interrupt_configure_both input in
      if negb (r =? 0) then ret (- ENODEV)
      else
        let* r := gpio_add_callback input.1 input.2 in
        if negb (r =? 0) then ret (- ENODEV) else ret 0.

Definition input_main : M E Z :=
  let* r := configure_output in
  if negb (r =? 0) then ret r
  else
    let* r := configure_input in
    if negb (r =? 0) then ret r else ret 0.
End program.

(** Pins that work: [level_of] is the logical level of a pin, [hooked] whether
    an edge of the input runs the callback. *)
Class PinsLaws (E : Type) `{!Pins E} := {
  level_of : E -> gpio_pin -> bool;
  hooked : E -> gpio_pin -> bool;
  outside : gpio_pin -> bool -> E -> E;
  ready_law : forall p e, exists b e', gpio_is_ready_dt p e = Ret b e' /\ (level_of e' = level_of e /\ hooked e' = hooked e);
  output_law : forall p e, exists r e', gpio_pin_configure_output p e = Ret r e' /\
    hooked e' = hooked e /\ forall q, level_of e' q = if decide (q = p /\ r = 0) then false else level_of e q;
  input_law : forall p e, exists r e', gpio_pin_configure_input p e = Ret r e' /\ (level_of e' = level_of e /\ hooked e' = hooked e);
  interrupt_law : forall p e, exists r e', gpio_pin_interrupt_configure_both p e = Ret r e' /\ (level_of e' = level_of e /\ hooked e' = hooked e);
  callback_law : forall port n e, exists r e', gpio_add_callback port n e = Ret r e' /\
    (level_of e' = level_of e /\ (r = 0 -> hooked e' (port, n) = true));
  get_law : forall port n e, gpio_pin_get port n e = Ret (Z.b2z (level_of e (port, n))) e;
  set_law : forall port n v e, exists r e', gpio_pin_set port n v e = Ret r e' /\
    (hooked e' = hooked e /\ forall q, level_of e' q = if decide (q = (port, n)) then negb (v =? 0) else level_of e q);
  outside_law : forall p b e, hooked (outside p b e) = hooked e /\ forall q, level_of (outside p b e) q = if decide (q = p) then b else level_of e q;
}.

Section theorems.
Context {E : Type} `{!Pins E} `{!PinsLaws E} (input output : gpio_pin).

(** The level outside becomes [b]; an edge runs the callback. *)
Definition input_becomes (b : bool) : M E unit :=
  let* edge := gets (fun e => hooked e input && negb (bool_decide (level_of e input = b))) in
  modify (outside input b) ;;
  if (edge : bool) then input_changed input output input.1 else ret tt.

Fixpoint input_becomes_all (l : list bool) : M E unit :=
  match l with [] => ret tt | b :: l => input_becomes b ;; input_becomes_all l end.

(** A configuration that succeeds. *)
Lemma main_hooked e r e' : input_main input output e = Ret r e' -> r = 0 -> input <> output ->
  hooked e' input = true /\ level_of e' input = level_of e input /\ level_of e' output = false.
Proof.
  intros Hrun -> Hne. unfold input_main in Hrun. apply bind_Ret in Hrun as (r1 & e1 & H1 & Hrun).
  assert (negb (r1 =? 0) = false) as Hr1 by (destruct (negb (r1 =? 0)) eqn:Hr; [injection Hrun as -> <-; by rewrite Z.eqb_refl in Hr|done]).
  rewrite Hr1 in Hrun. apply negb_false_iff, Z.eqb_eq in Hr1. subst r1.
  assert (level_of e1 output = false /\ level_of e1 input = level_of e input) as [Ho Hi].
  { unfold configure_output in H1. destruct (ready_law output e) as (b & e2 & Hr & Hl & _). rewrite (bind_step _ _ _ _ _ Hr) in H1.
    destruct b; [|discriminate]. cbn [negb] in H1. destruct (output_law output e2) as (r2 & e3 & Hc & _ & Hl2). rewrite (bind_step _ _ _ _ _ Hc) in H1.
    destruct (Z.eqb_spec r2 0) as [->|]; [|discriminate]. injection H1 as <-. by rewrite !Hl2, decide_True, decide_False, Hl by tauto. }
  apply bind_Ret in Hrun as (r2 & e2 & H2 & Hrun).
  assert (negb (r2 =? 0) = false /\ e2 = e') as [Hr2 ->] by (destruct (negb (r2 =? 0)) eqn:Hr; [injection Hrun as -> <-; by rewrite Z.eqb_refl in Hr|by injection Hrun as <-]).
  clear Hrun. apply negb_false_iff, Z.eqb_eq in Hr2. subst r2. unfold configure_input in H2.
  destruct (ready_law input e1) as (b & e3 & Hr & Hl3 & _). rewrite (bind_step _ _ _ _ _ Hr) in H2. destruct b; [|discriminate]. cbn [negb] in H2.
  destruct (input_law input e3) as (r4 & e4 & H4 & Hl4 & _). rewrite (bind_step _ _ _ _ _ H4) in H2. destruct (r4 =? 0); [|discriminate]. cbn [negb] in H2.
  destruct (interrupt_law input e4) as (r5 & e5 & H5 & Hl5 & _). rewrite (bind_step _ _ _ _ _ H5) in H2. destruct (r5 =? 0); [|discriminate]. cbn [negb] in H2.
  destruct (callback_law input.1 input.2 e5) as (r6 & e6 & H6 & Hl6 & Hk). rewrite (bind_step _ _ _ _ _ H6) in H2.
  destruct (Z.eqb_spec r6 0) as [->|]; [|discriminate]. cbn [negb] in H2. injection H2 as <-.
  rewrite Hl6, Hl5, Hl4, Hl3, Ho, Hi. destruct input. by split_and!; [apply Hk| |].
Qed.

(** The output shows the input, or nothing has changed since the start [b0]. *)
Definition follows (b0 : bool) (e : E) : Prop :=
  hooked e input = true /\ (level_of e output = level_of e input \/ (level_of e output = false /\ level_of e input = b0)).

Lemma becomes_step b0 b e : input.1 = output.1 -> input <> output -> follows b0 e ->
  exists e', input_becomes b e = Ret tt e' /\ follows b0 e' /\ level_of e' input = b /\ (b <> level_of e input -> level_of e' output = b) /\
    (b = level_of e input -> level_of e' output = level_of e output).
Proof.
  intros Hport Hne [Hh Hf]. unfold input_becomes. unfold bind at 1, gets. rewrite Hh. cbn [andb].
  destruct (outside_law input b e) as [Hh1 Hl1]. erewrite bind_step by reflexivity. unfold follows.
  case_bool_decide as Heq; cbn [negb].
  - eexists. split; [reflexivity|]. rewrite Hh1, !Hl1, (decide_True (P := input = input)), (decide_False (P := output = input)) by congruence.
    rewrite Heq in Hf. by split_and!.
  - unfold input_changed. rewrite (bind_step _ _ _ _ _ (get_law _ _ _)). rewrite <- surjective_pairing, Hl1, decide_True by done.
    rewrite (proj2 (Z.ltb_ge _ _)) by (destruct b; cbn; lia).
    destruct (set_law input.1 output.2 (Z.b2z b) (outside input b e)) as (r & e2 & Hset & Hh2 & Hl2).
    rewrite (bind_step _ _ _ _ _ Hset). eexists. split; [reflexivity|]. rewrite Hh2, Hh1, !Hl2.
    assert ((input.1, output.2) = output) as -> by (rewrite Hport; by destruct output).
    rewrite (decide_False (P := input = output)), (decide_True (P := output = output)), Hl1, decide_True by done.
    split_and!; try done; try (left; by destruct b); try (intros _; by destruct b).
Qed.

(** [output_follows_input]: with both pins on one port: after a successful
    set-up the output is off, whatever the input is; from the first change of
    the input on the output shows the input. *)
Theorem output_follows_input e e1 l : input.1 = output.1 -> input <> output -> input_main input output e = Ret 0 e1 ->
  exists e2, input_becomes_all l e1 = Ret tt e2 /\ level_of e2 input = default (level_of e input) (last l) /\
    level_of e2 output = if decide (Forall (fun b => b = level_of e input) l) then false else level_of e2 input.
Proof.
  intros Hport Hne Hmain. destruct (main_hooked e 0 e1 Hmain eq_refl Hne) as (Hh & Hi & Ho).
  assert (forall l e1, follows (level_of e input) e1 -> exists e2, input_becomes_all l e1 = Ret tt e2 /\ follows (level_of e input) e2 /\
    level_of e2 input = default (level_of e1 input) (last l) /\
    level_of e2 output = if decide (Forall (fun b => b = level_of e1 input) l) then level_of e1 output else level_of e2 input) as Hall.
  { clear -Hport Hne. induction l as [|b l IH]; intros e1 Hf; [by exists e1|]. cbn [input_becomes_all].
    destruct (becomes_step _ b e1 Hport Hne Hf) as (e2 & H2 & Hf2 & Hb & Hdiff & Hsame). destruct (IH e2 Hf2) as (e3 & H3 & Hf3 & Hl3 & Ho3).
    exists e3. rewrite (bind_step _ _ _ _ _ H2). split; [done|]. split; [done|]. rewrite Hb in *. split.
    - rewrite Hl3, last_cons. by destruct (last l).
    - rewrite Ho3. destruct (decide (b = level_of e1 input)) as [Heq|Hneq].
      + specialize (Hsame Heq). rewrite Heq, Hsame. rewrite Heq in *.
        destruct (decide (Forall _ l)) as [Hall|Hall]; [rewrite decide_True by (by constructor); done|].
        by rewrite decide_False by (rewrite Forall_cons; tauto).
      + rewrite (decide_False (P := Forall _ (b :: l))) by (rewrite Forall_cons; tauto). case_decide as Hall; [|done].
        rewrite (Hdiff Hneq), Hl3. clear -Hall. destruct (last l) as [x|] eqn:Hx; [|done]. cbn.
        symmetry. apply (proj1 (Forall_forall _ _) Hall). by apply last_Some_elem_of. }
  destruct (Hall l e1) as (e2 & H2 & _ & Hl2 & Ho2); [split; [done|by right]|]. exists e2. rewrite Hi in *. by rewrite Ho in Ho2.
Qed.
End theorems.
End InputSample.

(** ** samples/dac *)

Module DacSample.
Class Dac (E : Type) := {
  device_is_ready : M E bool;
  dac_channel_setup : M E Z;
  dac_write_value : Z -> M E Z;
  k_sleep : Z -> M E unit;
}.

Section program.
Context {E : Type} `{!Dac E} (DAC_RESOLUTION : Z).

Definition dac_values : Z := Z.shiftl 1 DAC_RESOLUTION.

Definition sleep_time : Z := if Z.quot 4096 dac_values >? 0 then Z.quot 4096 dac_values else 1.

(** The inner loop from [i] on, for the [n] values left; [false] when a write
    has failed. *)
Fixpoint ramp (n : nat) (i : Z) : M E bool :=
  match n with
  | O => ret true
  | S n =>
      let* r := dac_write_value i in
      if negb (r =? 0) then ret false else (k_sleep sleep_time ;; ramp n (i + 1))
  end.

Fixpoint ramps (k : nat) : M E bool :=
  match k with
  | O => ret true
  | S k =>
      let* ok := ramp (Z.to_nat dac_values) 0 in
      if ok then ramps k else ret false
  end.

(** [main] for at most [k] ramps. *)
Definition dac_main (k : nat) : M E Z :=
  let* ready := device_is_ready in
  if negb ready then ret 0
  else
    let* r := dac_channel_setup in
    if negb (r =? 0) then ret 0
    else
      let* _ := ramps k in
      ret 0.
End program.

Inductive dac_command := DacWrite (value : Z) | DacSleep (ms : Z).

(** [issued] is what the converter and the clock were told; [refused] whether
    a write has failed. *)
Class DacLaws (E : Type) `{!Dac E} := {
  issued : E -> list dac_command;
  refused : E -> bool;
  ready_law : forall e, exists b e', device_is_ready e = Ret b e' /\ (b = true /\ issued e' = issued e /\ refused e' = refused e);
  setup_law : forall e, exists r e', dac_channel_setup e = Ret r e' /\ (r = 0 /\ issued e' = issued e /\ refused e' = refused e);
  write_law : forall v e, exists r e', dac_write_value v e = Ret r e' /\
    (issued e' = issued e ++ [DacWrite v] /\ refused e' = refused e || negb (r =? 0));
  sleep_law : forall ms e, exists r e', k_sleep ms e = Ret r e' /\ (issued e' = issued e ++ [DacSleep ms] /\ refused e' = refused e);
}.

Section theorems.
Context {E : Type} `{!Dac E} `{!DacLaws E} (DAC_RESOLUTION : Z).

(** Value [i] of the sawtooth and its time. *)
Definition tooth (i : Z) : list dac_command :=
  [DacWrite (i `mod` dac_values DAC_RESOLUTION); DacSleep (sleep_time DAC_RESOLUTION)].

Definition teeth (l : list Z) : list dac_command := concat (map tooth l).

(** What [n] values from the [i]th on leave: all of them, or those before the
    one that failed. *)
Definition sawtooth (i n : Z) (ok : bool) (e e' : E) : Prop :=
  refused e' = negb ok /\
  if ok then issued e' = issued e ++ teeth (seqZ i n)
  else exists j, 0 <= j < n /\ issued e' = issued e ++ teeth (seqZ i j) ++ [DacWrite ((i + j) `mod` dac_values DAC_RESOLUTION)].

(** Two stretches, one after the other. *)
Lemma sawtooth_app i n m ok e e1 e2 : 0 <= n -> 0 <= m -> sawtooth i n true e e1 -> sawtooth (i + n) m ok e1 e2 -> sawtooth i (n + m) ok e e2.
Proof.
  intros Hn Hm [_ H1] [Hr H2]. split; [done|]. destruct ok.
  - rewrite H2, H1, seqZ_app by lia. unfold teeth. by rewrite map_app, concat_app, app_assoc.
  - destruct H2 as (j & Hj & H2). exists (n + j). split; [lia|]. rewrite H2, H1, seqZ_app by lia. unfold teeth.
    by rewrite map_app, concat_app, <- !app_assoc, Z.add_assoc.
Qed.

(** A stretch that fails is the end of a longer one. *)
Lemma sawtooth_weaken i n m e e1 : n <= m -> sawtooth i n false e e1 -> sawtooth i m false e e1.
Proof. intros Hnm [Hr (j & Hj & H)]. split; [done|]. exists j. split; [lia|done]. Qed.

Lemma ramp_wp n p i e : 0 <= DAC_RESOLUTION -> 0 <= i -> i + Z.of_nat n <= dac_values DAC_RESOLUTION -> refused e = false ->
  wp (ramp DAC_RESOLUTION n i) (fun ok e' => sawtooth (dac_values DAC_RESOLUTION * p + i) (Z.of_nat n) ok e e') e.
Proof.
  intros Hres. revert i e. induction n as [|n IH]; intros i e Hi Hle Hr; cbn [ramp].
  - apply wp_ret. split; [done|]. by rewrite app_nil_r.
  - assert ((dac_values DAC_RESOLUTION * p + i) `mod` dac_values DAC_RESOLUTION = i) as Hmod
      by (rewrite Z.add_comm, Z.mul_comm, Z.mod_add by lia; apply Z.mod_small; lia).
    apply wp_bind. eapply wp_law; [apply write_law|]. intros r e1 [H1 R1]. cbn beta. rewrite Hr in R1. cbn [orb] in R1.
    destruct (negb (r =? 0)); cbn [orb] in R1 |- *.
    + apply wp_ret. split; [done|]. exists 0. split; [lia|]. by rewrite Z.add_0_r, Hmod.
    + apply wp_bind. eapply wp_law; [apply sleep_law|]. intros _ e2 [H2 R2]. cbn beta.
      eapply wp_mono; [apply (IH (i + 1)); [lia|lia|congruence]|]. cbn beta. intros ok e3 H3. rewrite Nat2Z.inj_succ, <- Z.add_1_l.
      apply (sawtooth_app _ 1 _ _ _ e2); [lia|lia| |by rewrite <- Z.add_assoc].
      split; [cbn; congruence|]. rewrite H2, H1, <- app_assoc. rewrite seqZ_one. cbn. by rewrite Hmod.
Qed.

Lemma ramps_wp k p e : 0 <= DAC_RESOLUTION -> refused e = false ->
  wp (ramps DAC_RESOLUTION k) (fun ok e' => sawtooth (dac_values DAC_RESOLUTION * p) (dac_values DAC_RESOLUTION * Z.of_nat k) ok e e') e.
Proof.
  intros Hres. assert (0 < dac_values DAC_RESOLUTION) as Hpos by (unfold dac_values; rewrite Z.shiftl_1_l; lia).
  revert p e. induction k as [|k IH]; intros p e Hr; cbn [ramps].
  - apply wp_ret. split; [done|]. by rewrite Z.mul_0_r, app_nil_r.
  - apply wp_bind. eapply wp_mono; [apply (ramp_wp _ p 0); lia || done|]. cbn beta. rewrite Z2Nat.id, Z.add_0_r by lia. intros ok e1 H1.
    rewrite Nat2Z.inj_succ, Z.mul_succ_r, Z.add_comm. destruct ok.
    + eapply wp_mono; [apply (IH (p + 1)); apply (proj1 H1)|]. cbn beta. intros ok e2 H2. rewrite Z.mul_add_distr_l, Z.mul_1_r in H2.
      apply (sawtooth_app _ _ _ _ _ e1); [lia|nia|done|done].
    + apply wp_ret. apply (sawtooth_weaken _ (dac_values DAC_RESOLUTION)); [nia|done].
Qed.

(** [dac_sawtooth]: while no write fails the converter is given the sawtooth
    without a gap, [2^DAC_RESOLUTION] values a tooth, and about four seconds a
    tooth up to 12 bits; a write that fails is the program's last command. *)
Theorem dac_sawtooth k e : 0 <= DAC_RESOLUTION -> refused e = false ->
  wp (dac_main DAC_RESOLUTION k) (fun rc e' => rc = 0 /\ sawtooth 0 (2 ^ DAC_RESOLUTION * Z.of_nat k) (negb (refused e')) e e') e.
Proof.
  intros Hres Hr. unfold dac_main. apply wp_bind. eapply wp_law; [apply ready_law|]. intros _ e1 (-> & H1 & R1). cbn [negb].
  apply wp_bind. eapply wp_law; [apply setup_law|]. intros _ e2 (-> & H2 & R2). cbn [negb Z.eqb].
  apply wp_bind. eapply wp_mono; [apply (ramps_wp k 0); [done|congruence]|]. cbn beta. intros ok e3 [R3 H3]. apply wp_ret. split; [done|].
  rewrite R3, negb_involutive. split; [done|]. rewrite Z.mul_0_r in H3. rewrite <- Z.shiftl_1_l, <- H1, <- H2. exact H3.
Qed.

Lemma tooth_time : 0 <= DAC_RESOLUTION <= 12 -> dac_values DAC_RESOLUTION * sleep_time DAC_RESOLUTION = 4096.
Proof.
  intros Hr. assert (Forall (fun r => dac_values r * sleep_time r = 4096) (seqZ 0 13)) as Hall by (apply (bool_decide_unpack _); vm_compute; done).
  rewrite Forall_forall in Hall. apply Hall, elem_of_seqZ. lia.
Qed.
End theorems.
End DacSample.

(** ** samples/hv_shield *)

Module HvSample.
Class HvShield (E : Type) := {
  gpio_pin_configure_output : M E Z;
  dac_channel_setup : M E Z;
  gpio_pin_set_dt : bool -> M E Z;
  dac_write_value : Z -> M E Z;
  k_msleep : Z -> M E unit;
}.

Section program.
Context {E : Type} `{!HvShield E}.

(** One pass of the loop, over [dac_val] and [output]; errors are logged. *)
Definition hv_round (vars : Z * bool) : M E (Z * bool) :=
  let '(dac_val, output) := vars in
  let* output :=
    if Z.rem dac_val 1000 =? 0 then
      let* err := gpio_pin_set_dt output in
      ret (negb output)
    else ret output in
  let* err := dac_write_value dac_val in
  let dac_val := u16 (dac_val + 1) in
  let dac_val := if dac_val =? 0x1000 then 0 else dac_val in
  k_msleep 10 ;;
  ret (dac_val, output).

(** [main]: [Some err] when the set-up fails, [None] while the loop runs. *)
Definition hv_main (k : nat) : M E (option Z) :=
  let* err := gpio_pin_configure_output in
  if negb (err =? 0) then ret (Some err)
  else
    let* err := dac_channel_setup in
    if negb (err =? 0) then ret (Some err) else (loop_rounds hv_round k (0, false) ;; ret None).
End program.

Inductive hv_command := HvPin (level : bool) | HvDac (value : Z) | HvSleep (ms : Z).

(** The shield is told; what it answers is its own matter. *)
Class HvShieldLaws (E : Type) `{!HvShield E} := {
  told : E -> list hv_command;
  configure_law : forall e, exists r e', gpio_pin_configure_output e = Ret r e' /\ told e' = told e;
  setup_law : forall e, exists r e', dac_channel_setup e = Ret r e' /\ told e' = told e;
  pin_law : forall b e, exists r e', gpio_pin_set_dt b e = Ret r e' /\ told e' = told e ++ [HvPin b];
  write_law : forall v e, exists r e', dac_write_value v e = Ret r e' /\ told e' = told e ++ [HvDac v];
  sleep_law : forall ms e, exists r e', k_msleep ms e = Ret r e' /\ told e' = told e ++ [HvSleep ms];
}.

Section theorems.
Context {E : Type} `{!HvShield E} `{!HvShieldLaws E}.

(** The changes of the pin before round [i]: five in a ramp of 4096 values. *)
Definition changes (i : Z) : Z := 5 * (i / 4096) + (i `mod` 4096 + 999) / 1000.

(** What round [i] tells the shield. *)
Definition round_commands (i : Z) : list hv_command :=
  (if (i `mod` 4096) `mod` 1000 =? 0 then [HvPin (Z.odd (changes i))] else []) ++ [HvDac (i `mod` 4096); HvSleep 10].

(** The variables before round [i]. *)
Definition vars_at (i : Z) : Z * bool := (i `mod` 4096, Z.odd (changes i)).

Lemma changes_succ i : 0 <= i -> changes (i + 1) = changes i + (if (i `mod` 4096) `mod` 1000 =? 0 then 1 else 0).
Proof.
  intros Hi. unfold changes. pose proof (Z.mod_pos_bound i 4096 ltac:(lia)) as Hb. pose proof (Z.div_mod i 4096 ltac:(lia)) as Hd.
  set (q := i / 4096) in *. set (r := i `mod` 4096) in *. clearbody q r.
  assert (i + 1 = r + 1 + q * 4096) as -> by lia. rewrite Z.div_add, Z.mod_add by lia.
  destruct (decide (r = 4095)) as [->|Hne]; [change (4095 + 1) with 4096; change (4096 / 4096) with 1; change (4096 `mod` 4096) with 0; change (4095 `mod` 1000 =? 0) with false; change ((0 + 999) / 1000) with 0; change ((4095 + 999) / 1000) with 5; cbv iota; lia|].
  rewrite (Z.div_small (r + 1)), (Z.mod_small (r + 1)) by lia. destruct (Z.eqb_spec (r `mod` 1000) 0); Z.to_euclidean_division_equations; lia.
Qed.

Lemma vars_succ i : 0 <= i ->
  vars_at (i + 1) = (if u16 (i `mod` 4096 + 1) =? 0x1000 then 0 else u16 (i `mod` 4096 + 1),
                     if (i `mod` 4096) `mod` 1000 =? 0 then negb (Z.odd (changes i)) else Z.odd (changes i)).
Proof.
  intros Hi. unfold vars_at. rewrite (changes_succ i Hi). pose proof (Z.mod_pos_bound i 4096 ltac:(lia)) as Hb. f_equal.
  - unfold u16. rewrite (Z.mod_small (i `mod` 4096 + 1)) by lia. rewrite <- (Zplus_mod_idemp_l i 1).
    destruct (Z.eqb_spec (i `mod` 4096 + 1) 0x1000) as [->|]; [done|]. rewrite Z.mod_small; lia.
  - rewrite Z.odd_add. destruct (_ =? 0); cbn; by destruct (Z.odd (changes i)).
Qed.

Lemma hv_round_wp t0 (i : nat) vars e : vars = vars_at (Z.of_nat i) /\ told e = t0 ++ concat (map round_commands (seqZ 0 (Z.of_nat i))) ->
  wp (hv_round vars) (fun vars e' => vars = vars_at (Z.of_nat (S i)) /\ told e' = t0 ++ concat (map round_commands (seqZ 0 (Z.of_nat (S i))))) e.
Proof.
  intros [-> Ht]. assert (0 <= Z.of_nat i) as Hi by lia. rewrite Nat2Z.inj_succ, <- Z.add_1_r, (vars_succ _ Hi), seqZ_app by lia.
  rewrite seqZ_one, map_app, concat_app, app_assoc, <- Ht. cbn [map concat]. rewrite app_nil_r. change (0 + Z.of_nat i) with (Z.of_nat i). unfold round_commands.
  generalize dependent (Z.of_nat i). intros z _ Hz. clear i. pose proof (Z.mod_pos_bound z 4096 ltac:(lia)) as Hb.
  unfold hv_round, vars_at. rewrite Z.rem_mod_nonneg by lia. apply wp_bind.
  apply (wp_mono _ (fun out e' => out = (if (z `mod` 4096) `mod` 1000 =? 0 then negb (Z.odd (changes z)) else Z.odd (changes z)) /\
    told e' = told e ++ (if (z `mod` 4096) `mod` 1000 =? 0 then [HvPin (Z.odd (changes z))] else []))).
  { destruct (_ =? 0); [|apply wp_ret; by rewrite app_nil_r]. apply wp_bind. eapply wp_law; [apply pin_law|]. intros r e1 H1. by apply wp_ret. }
  intros out e1 [-> H1]. apply wp_bind. eapply wp_law; [apply write_law|]. intros r e2 H2. cbn beta.
  apply wp_bind. eapply wp_law; [apply sleep_law|]. intros ? e3 H3. apply wp_ret. split; [done|]. rewrite H3, H2, H1. by rewrite <- !app_assoc.
Qed.

(** [hv_ramp]: the program, unless its set-up fails, gives the converter the
    ramp from 0 to 4095 again and again, 10 ms a value, whatever the shield
    answers, and changes the pin with every thousandth value of a ramp: five
    times, so every other ramp begins with the pin on. *)
Theorem hv_ramp k e :
  wp (hv_main k) (fun rc e' => match rc with
    | Some err => err <> 0 /\ told e' = told e
    | None => told e' = told e ++ concat (map round_commands (seqZ 0 (Z.of_nat k)))
    end) e.
Proof.
  unfold hv_main. apply wp_bind. eapply wp_law; [apply configure_law|]. intros r e1 H1. cbn beta.
  destruct (Z.eqb_spec r 0) as [->|Hr]; cbn [negb]; [|by apply wp_ret].
  apply wp_bind. eapply wp_law; [apply setup_law|]. intros r e2 H2. cbn beta. rewrite H1 in H2.
  destruct (Z.eqb_spec r 0) as [->|Hr]; cbn [negb]; [|by apply wp_ret].
  apply wp_bind. eapply wp_mono; [apply (wp_loop_rounds hv_round _ (hv_round_wp (told e)) k 0)|].
  - split; [done|]. by rewrite app_nil_r.
  - cbn beta. intros vars e3 [_ H3]. apply wp_ret. exact H3.
Qed.

(** The pin at the beginning of ramp [n]. *)
Lemma ramp_level n : Z.odd (changes (4096 * n)) = Z.odd n.
Proof. unfold changes. rewrite (Z.mul_comm 4096), Z.div_mul, Z.mod_mul by lia. change ((0 + 999) / 1000) with 0. by rewrite Z.add_0_r, Z.odd_mul. Qed.
End theorems.
End HvSample.
