(* ===== verification/CanLog.v ===== *)
(** * CAN log backend ([lib/can_log/can_log.c])

    A backend of Zephyr's log that puts the text of the messages on the bus in
    frames of one identifier.  The log core, the CAN controller and the waiting
    for a transmission are the interface [CanLogEnv]; the log core hands over
    what is left of its buffer until nothing is ([flush]).  The semaphore of
    the transmission callback is part of the state. *)

From stdpp Require Import base list numbers relations.
From Stdlib Require Import ZArith Lia.
From S2P Require Import Prelude.
From S2P Require Import Can.

#[local] Open Scope Z_scope.

(** ** Definitions *)

(** Which callback a transmission was started with. *)
Inductive tx_callback := can_log_tx_cb_no_wait | can_log_tx_cb.

Record can_log_state := CanLogState {
  can_tx_sem : Z;
  can_log_id : Z;
  log_format_type : Z;
  panic_mode : bool;
}.

Record can_log_world (E : Type) := CanLogWorld { can_log : can_log_state; log_ext : E }.
Arguments CanLogWorld {E}.
Arguments can_log {E}.
Arguments log_ext {E}.

Definition LOG_OUTPUT_TEXT : Z := 0.
Definition can_log_state_init : can_log_state := CanLogState 0 0 LOG_OUTPUT_TEXT false.

(** [tx_callbacks t] is how many transmissions started with [can_log_tx_cb]
    call it during a wait of up to [t] milliseconds; those that called it since
    the last wait count, too, and a callback may come after the wait for its
    transmission has timed out. *)
Class CanLogEnv (E : Type) := {
  device_is_ready : M E bool;
  can_get_state : M E (Z * can_state);
  can_send : can_frame -> Z -> tx_callback -> M E Z;
  tx_callbacks : Z -> M E nat;
  can_set_mode_normal : M E Z;
  can_start : M E Z;
  log_backend_deactivate : M E unit;
  log_format : Z -> M E unit;
}.

(** The options of the Kconfig; an external address provider is [None] without
    the option. *)
Record can_log_kconfig := CanLogKconfig {
  CONFIG_LOG_MODE_IMMEDIATE : bool;
  CONFIG_CAN_LOG_SEND_TIMEOUT_MS : Z;
  CONFIG_CAN_LOG_ID : Z;
}.

Section can_log.
Context {E : Type} `{!CanLogEnv E} (cfg : can_log_kconfig) (can_log_get_id : option (M E Z)).

Definition env {A} (m : M E A) : M (can_log_world E) A :=
  zoom log_ext (fun e w => CanLogWorld (can_log w) e) m.
Definition update (f : can_log_state -> can_log_state) : M (can_log_world E) unit :=
  modify (fun w => CanLogWorld (f (can_log w)) (log_ext w)).

Definition set_sem (n : Z) (s : can_log_state) : can_log_state :=
  CanLogState n (can_log_id s) (log_format_type s) (panic_mode s).

Definition can_log_is_ready : M (can_log_world E) Z :=
  let* ready := env device_is_ready in
  if negb ready then ret (- ENODEV)
  else
    let* (rc, state) := env can_get_state in
    if negb (rc =? 0) then ret (- ENODEV)
    else match state with
    | CAN_STATE_BUS_OFF | CAN_STATE_STOPPED => ret (- EIO)
    | CAN_STATE_other _ => ret 0
    end.

(** Both callbacks of a transmission; the semaphore's limit is 1. *)
Definition run_tx_callback (cb : tx_callback) : M (can_log_world E) unit :=
  match cb with
  | can_log_tx_cb_no_wait => ret tt
  | can_log_tx_cb => update (fun s => set_sem (Z.min 1 (can_tx_sem s + 1)) s)
  end.

Fixpoint run_tx_callbacks (n : nat) : M (can_log_world E) unit :=
  match n with O => ret tt | S n => run_tx_callback can_log_tx_cb ;; run_tx_callbacks n end.

(** [k_sem_take (&can_tx_sem, timeout)]: a unit is taken when there is one or
    when a callback gives one in time; the result is not used. *)
Definition wait_sem (timeout : Z) : M (can_log_world E) unit :=
  let* n := env (tx_callbacks timeout) in
  run_tx_callbacks n ;;
  let* s := gets can_log in
  if 0 <? can_tx_sem s then update (set_sem (can_tx_sem s - 1)) else ret tt.

Definition can_log_line_out (data : list Z) : M (can_log_world E) Z :=
  let length_ := Z.of_nat (length data) in
  let* s := gets can_log in
  let synchronous := panic_mode s || CONFIG_LOG_MODE_IMMEDIATE cfg in
  let* ready := can_log_is_ready in
  if negb (ready =? 0) then ret length_
  else
    let length_ := if CAN_MAX_DLEN <? length_ then CAN_MAX_DLEN else length_ in
    let frame := CanFrame (can_log_id s) length_ 0 (take (Z.to_nat length_) data) in
    (if synchronous then
       let* _ := env (can_send frame K_NO_WAIT can_log_tx_cb_no_wait) in ret tt
     else
       wait_sem K_NO_WAIT ;;
       let* _ := env (can_send frame (CONFIG_CAN_LOG_SEND_TIMEOUT_MS cfg) can_log_tx_cb) in
       wait_sem (CONFIG_CAN_LOG_SEND_TIMEOUT_MS cfg)) ;;
    ret length_.

(** The format function writes through [can_log_line_out]. *)
Definition can_log_process : M (can_log_world E) unit :=
  let* s := gets can_log in env (log_format (log_format_type s)).

Definition can_format_set (log_type : Z) : M (can_log_world E) Z :=
  update (fun s => CanLogState (can_tx_sem s) (can_log_id s) log_type (panic_mode s)) ;; ret 0.

Definition can_log_init : M (can_log_world E) unit :=
  update (set_sem 0) ;;
  let* id := match can_log_get_id with Some m => env m | None => ret (CONFIG_CAN_LOG_ID cfg) end in
  update (fun s => CanLogState (can_tx_sem s) id (log_format_type s) (panic_mode s)).

Definition can_log_panic : M (can_log_world E) unit :=
  update (fun s => CanLogState (can_tx_sem s) (can_log_id s) (log_format_type s) true).

Definition can_log_autostart_bus_sysinit : M (can_log_world E) Z :=
  let* err := env can_set_mode_normal in
  if negb (err =? 0) then (env log_backend_deactivate ;; ret err)
  else
    let* err := env can_start in
    if negb (err =? 0) then (env log_backend_deactivate ;; ret err) else ret 0.

(** The caller in the log core: the part that was not taken is handed over
    again, [fuel] times at most. *)
Fixpoint flush (fuel : nat) (data : list Z) : M (can_log_world E) unit :=
  match fuel with
  | O => fail OutOfFuel
  | S fuel =>
      let* n := can_log_line_out data in
      match drop (Z.to_nat n) data with [] => ret tt | data => flush fuel data end
  end.
End can_log.

(** ** Theorems *)

(** The controller is up or not, and records what it is given to send. *)
Class CanLogLaws (E : Type) `{!CanLogEnv E} := {
  up : E -> bool;
  sent : E -> list can_frame;
  ready_law : forall e, exists b, device_is_ready e = Ret b e /\
    if b then exists rc s, can_get_state e = Ret (rc, s) e /\
      (up e = true <-> rc = 0 /\ exists n, s = CAN_STATE_other n)
    else up e = false;
  send_law : forall fr t cb e, exists rc e', can_send fr t cb e = Ret rc e' /\ sent e' = sent e ++ [fr] /\ up e' = up e;
  callbacks_law : forall t e, exists n e', tx_callbacks t e = Ret n e' /\ sent e' = sent e /\ up e' = up e;
}.

(** The frames of a text. *)
Fixpoint chunks (fuel : nat) (id : Z) (data : list Z) : list can_frame :=
  match fuel with
  | O => []
  | S fuel =>
      CanFrame id (Z.min 8 (Z.of_nat (length data))) 0 (take 8 data) ::
      match drop 8 data with [] => [] | data => chunks fuel id data end
  end.

Section can_log_theorems.
Context {E : Type} `{!CanLogEnv E} `{!CanLogLaws E} (cfg : can_log_kconfig).
Implicit Types (w : can_log_world E).

(** What the calls of the backend leave alone. *)
Definition quiet w w' : Prop :=
  can_log_id (can_log w') = can_log_id (can_log w) /\ panic_mode (can_log w') = panic_mode (can_log w) /\
  up (log_ext w') = up (log_ext w).

Lemma quiet_trans w1 w2 w3 : quiet w1 w2 -> quiet w2 w3 -> quiet w1 w3.
Proof. intros (H1 & H2 & H3) (H4 & H5 & H6). by split_and!; etransitivity; eauto. Qed.

Lemma is_ready_run w : exists rc, can_log_is_ready w = Ret rc w /\ (rc = 0 <-> up (log_ext w) = true).
Proof.
  unfold can_log_is_ready, env. destruct (ready_law (log_ext w)) as (b & Hb & Hcase).
  rewrite (bind_step _ _ _ b w) by (unfold zoom; rewrite Hb; by destruct w).
  destruct b; cbn [negb]; [|exists (- ENODEV); split; [done|]; rewrite Hcase; by split].
  destruct Hcase as (rc & s & Hs & Hup).
  rewrite (bind_step _ _ _ (rc, s) w) by (unfold zoom; rewrite Hs; by destruct w).
  destruct (Z.eqb_spec rc 0) as [->|Hne]; cbn [negb].
  - destruct s as [| |n]; eexists; (split; [done|]); rewrite Hup; split; try done; try (intros (_ & m & ?); done).
    intros _. by split; [|exists n].
  - exists (- ENODEV). split; [done|]. rewrite Hup. split; [done|by intros [? _]].
Qed.

Lemma run_tx_callbacks_run : forall n w, exists w', run_tx_callbacks n w = Ret tt w' /\ quiet w w' /\ log_ext w' = log_ext w.
Proof.
  induction n as [|n IH]; intros w; [by exists w|]. cbn [run_tx_callbacks].
  rewrite (bind_step _ _ _ _ _ (eq_refl : run_tx_callback can_log_tx_cb w = Ret tt _)).
  match goal with |- context [run_tx_callbacks n ?w1] => destruct (IH w1) as (w' & Hrun & Hq & He) end.
  exists w'. split_and!; [done| |done]. refine (quiet_trans _ _ _ _ Hq). by split_and!.
Qed.

Lemma wait_sem_run t w : exists w', wait_sem t w = Ret tt w' /\ quiet w w' /\ sent (log_ext w') = sent (log_ext w).
Proof.
  destruct (callbacks_law t (log_ext w)) as (n & e1 & Hrun & Hs & Hu). unfold wait_sem.
  rewrite (bind_step _ _ _ n (CanLogWorld (can_log w) e1)) by (unfold env, zoom; by rewrite Hrun).
  destruct (run_tx_callbacks_run n (CanLogWorld (can_log w) e1)) as (w2 & Hcb & Hq & He).
  rewrite (bind_step _ _ _ _ _ Hcb). cbn in He.
  assert (quiet w w2) by (refine (quiet_trans _ _ _ _ Hq); by split_and!).
  unfold bind, gets, update, modify, ret.
  destruct (0 <? _); eexists; (split; [reflexivity|]); (split; [exact H|cbn; by rewrite He]).
Qed.

Lemma frame_send_run fr t cb w : exists w', (let* _ := env (can_send fr t cb) in ret tt) w = Ret tt w' /\ quiet w w' /\
  sent (log_ext w') = sent (log_ext w) ++ [fr].
Proof.
  destruct (send_law fr t cb (log_ext w)) as (rc & e' & Hrun & Hs & Hu). exists (CanLogWorld (can_log w) e').
  split; [by unfold env, zoom, bind; rewrite Hrun|]. by split_and!.
Qed.

(** One call of the backend. *)
Lemma line_out_run data w : up (log_ext w) = true ->
  exists w', can_log_line_out cfg data w = Ret (Z.min 8 (Z.of_nat (length data))) w' /\ quiet w w' /\
    sent (log_ext w') = sent (log_ext w) ++ [CanFrame (can_log_id (can_log w)) (Z.min 8 (Z.of_nat (length data))) 0 (take 8 data)].
Proof.
  intros Hup. unfold can_log_line_out. unfold bind at 1, gets.
  destruct (is_ready_run w) as (rc & Hrun & Hrc). apply Hrc in Hup as ->. rewrite (bind_step _ _ _ _ _ Hrun).
  cbn [Z.eqb negb]. unfold CAN_MAX_DLEN.
  assert ((if 8 <? Z.of_nat (length data) then 8 else Z.of_nat (length data)) = Z.min 8 (Z.of_nat (length data))) as ->
    by (destruct (Z.ltb_spec 8 (Z.of_nat (length data))); lia).
  assert (take (Z.to_nat (Z.min 8 (Z.of_nat (length data)))) data = take 8 data) as ->.
  { destruct (decide (length data <= 8)%nat); [rewrite !take_ge by lia; done|]. f_equal. lia. }
  destruct (panic_mode (can_log w) || CONFIG_LOG_MODE_IMMEDIATE cfg).
  - match goal with |- context [can_send ?fr ?t ?cb] => destruct (frame_send_run fr t cb w) as (w1 & Hsend & Hq & Hs) end.
    exists w1. by rewrite (bind_step _ _ _ _ _ Hsend).
  - destruct (wait_sem_run K_NO_WAIT w) as (w1 & Hw1 & Hq1 & Hs1).
    match goal with |- context [can_send ?fr ?t ?cb] => destruct (send_law fr t cb (log_ext w1)) as (r & e2 & Hsend & Hs2 & Hu2) end.
    destruct (wait_sem_run (CONFIG_CAN_LOG_SEND_TIMEOUT_MS cfg) (CanLogWorld (can_log w1) e2)) as (w3 & Hw3 & Hq3 & Hs3).
    exists w3. split_and!.
    + rewrite bind_assoc, (bind_step _ _ _ _ _ Hw1), bind_assoc.
      rewrite (bind_step _ _ _ r (CanLogWorld (can_log w1) e2)) by (unfold env, zoom; by rewrite Hsend).
      by rewrite (bind_step _ _ _ _ _ Hw3).
    + apply (quiet_trans _ _ _ Hq1). apply (quiet_trans _ (CanLogWorld (can_log w1) e2)); [by split_and!|exact Hq3].
    + rewrite Hs3. cbn. by rewrite Hs2, Hs1.
Qed.

Lemma flush_run : forall fuel data w, up (log_ext w) = true -> (length data < fuel)%nat ->
  exists w', flush cfg fuel data w = Ret tt w' /\ quiet w w' /\
    sent (log_ext w') = sent (log_ext w) ++ chunks fuel (can_log_id (can_log w)) data.
Proof.
  induction fuel as [|fuel IH]; intros data w Hup Hfuel; [lia|].
  destruct (line_out_run data w Hup) as (w1 & Hrun & Hq1 & Hs1). cbn [flush chunks]. rewrite (bind_step _ _ _ _ _ Hrun).
  assert (drop (Z.to_nat (Z.min 8 (Z.of_nat (length data)))) data = drop 8 data) as ->.
  { destruct (decide (length data <= 8)%nat); [rewrite !drop_ge by lia; done|]. f_equal. lia. }
  destruct (drop 8 data) as [|x rest] eqn:Hd; [by exists w1|].
  assert (length (x :: rest) < fuel)%nat by (rewrite <- Hd, length_drop; apply (f_equal length) in Hd; rewrite length_drop in Hd; cbn in Hd; lia).
  destruct Hq1 as (Hid & Hp & Hu). destruct (IH (x :: rest) w1) as (w2 & Hrest & Hq2 & Hs2); [by rewrite Hu|done|].
  exists w2. split_and!; [done|by apply (quiet_trans _ w1)|]. rewrite Hs2, Hs1, Hid. by rewrite <- (assoc_L app).
Qed.

Lemma chunks_data id : forall fuel data, (length data < fuel)%nat ->
  concat (can_data <$> chunks fuel id data) = data /\
  Forall (fun fr => can_id fr = id /\ can_dlc fr = Z.of_nat (length (can_data fr)) /\ can_dlc fr <= 8) (chunks fuel id data).
Proof.
  induction fuel as [|fuel IH]; intros data Hf; [lia|]. cbn [chunks].
  assert (Z.min 8 (Z.of_nat (length data)) = Z.of_nat (length (take 8 data))) as -> by (rewrite length_take; lia).
  pose proof (take_drop 8 data) as Htd. pose proof (length_take data 8) as Hlt. destruct (drop 8 data) as [|x rest] eqn:Hd.
  - cbn. rewrite app_nil_r in *. split; [done|]. constructor; [|constructor]. split_and!; cbn -[take]; try done. lia.
  - destruct (IH (x :: rest)) as [Hc Ho].
    { rewrite <- Hd, length_drop. apply (f_equal length) in Hd. rewrite length_drop in Hd. cbn in Hd. lia. }
    cbn [fmap list_fmap concat can_data]. rewrite Hc. split; [done|].
    constructor; [|done]. split_and!; cbn -[take]; try done. lia.
Qed.

End can_log_theorems.
