(* ===== verification/Iso14229.v ===== *)
(** * The ISO 14229 instance ([lib/iso14229/iso14229_common.c]) and [uds_init]

    Between the CAN controller and the iso14229 server library (a submodule):
    two message queues that the controller's callback fills and the event loop
    empties, the event loop and the event callback, and the set-up, with
    [uds_init] and [uds_get_isotp_config] of lib/uds/uds.c on top.  The thread
    that runs the loop is in [IsoThread].

    The server library and the CAN controller are the interfaces [IsoServer]
    and [CanController].  A [k_msgq] is a bounded list, as Zephyr documents
    it. *)

From stdpp Require Import base gmap list numbers relations.
From Stdlib Require Import ZArith Lia.
From S2P Require Import Prelude.
From S2P Require Import Can.
From S2P Require Import UdsTypes.

#[local] Open Scope Z_scope.

(** ** Definitions: the instance *)

Definition ENOMSG : Z := 35.

(** [ARRAY_SIZE (can_phys_buffer) / sizeof (struct can_frame)] *)
Definition MSGQ_CAPACITY : nat := 25.

(** [UDSISOTpCConfig_t] *)
Record UDSISOTpCConfig_t := IsoTpConfig {
  source_addr : Z;
  target_addr : Z;
  source_addr_func : Z;
  target_addr_func : Z;
}.

(** The addresses in [UDSISOTpC_t]. *)
Record UDSISOTpC_t := IsoTp { phys_sa : Z; phys_ta : Z; func_sa : Z; func_ta : Z }.

(** Which of the function pointers are set, to the function of their name; the
    others are NULL. *)
Record iso_functions := IsoFunctions {
  set_callback : bool;
  event_loop_tick : bool;
  thread_start : bool;
  thread_stop : bool;
}.

(** The thread's members as one caller sees them; the thread with several
    callers is in [IsoThread]. *)
Record iso_thread := ThreadState { thread_running : bool; thread_stop_requested : bool }.

(** [tp], the queues, the callback with its mutex, the context, the function
    pointers, and the thread; with [CONFIG_ISO14229_THREAD]. *)
Record iso14229_zephyr_instance := IsoInstance {
  tp : UDSISOTpC_t;
  can_phys_msgq : list can_frame;
  can_func_msgq : list can_frame;
  event_callback_mutex : Z;
  event_callback : option nat;
  user_context : Z;
  functions : iso_functions;
  thread : iso_thread;
}.

Record iso_world (E : Type) := IsoWorld { iso : iso14229_zephyr_instance; iso_ext : E }.
Arguments IsoWorld {E}.
Arguments iso {E}.
Arguments iso_ext {E}.

(** Which of the two links a frame belongs to. *)
Inductive link := phys_link | func_link.

(** The server library; [isotp_on_can_message] and [UDSServerPoll] work on the
    library's own state, the poll may raise events. *)
Class IsoServer (E : Type) := {
  UDSServerInit : M E unit;
  (** and the addresses it stores in [*tp] *)
  UDSISOTpCInit : UDSISOTpCConfig_t -> M E UDSISOTpC_t;
  isotp_on_can_message : link -> list Z -> M E unit;
  UDSServerPoll : M (iso_world E) unit;
  k_mutex_init : M E Z;
  (** whether the result is not NULL *)
  k_thread_create : M E bool;
  run_event_callback : nat -> Z -> uds_arg -> Z -> M (iso_world E) Z;
}.

(** [can_add_rx_filter (can_dev, can_rx_cb, &inst->can_..._msgq, filter)] *)
Class CanController (E : Type) := {
  can_add_rx_filter : link -> can_filter -> M E Z;
  can_send_forever : can_frame -> M E Z;
}.

Section instance.
Context {E : Type} `{!IsoServer E} `{!CanController E} (UDS_TP_NOOP_ADDR : Z).

Definition env {A} (m : M E A) : M (iso_world E) A := zoom iso_ext (fun e w => IsoWorld (iso w) e) m.
Definition update (f : iso14229_zephyr_instance -> iso14229_zephyr_instance) : M (iso_world E) unit :=
  modify (fun w => IsoWorld (f (iso w)) (iso_ext w)).

Definition set_tp x i := IsoInstance x (can_phys_msgq i) (can_func_msgq i) (event_callback_mutex i) (event_callback i) (user_context i) (functions i) (thread i).
Definition set_mutex x i := IsoInstance (tp i) (can_phys_msgq i) (can_func_msgq i) x (event_callback i) (user_context i) (functions i) (thread i).
Definition set_event_callback x i := IsoInstance (tp i) (can_phys_msgq i) (can_func_msgq i) (event_callback_mutex i) x (user_context i) (functions i) (thread i).
Definition set_user_context x i := IsoInstance (tp i) (can_phys_msgq i) (can_func_msgq i) (event_callback_mutex i) (event_callback i) x (functions i) (thread i).

Definition set_functions (f : iso_functions -> iso_functions) i :=
  IsoInstance (tp i) (can_phys_msgq i) (can_func_msgq i) (event_callback_mutex i) (event_callback i) (user_context i) (f (functions i)) (thread i).
Definition set_thread x i := IsoInstance (tp i) (can_phys_msgq i) (can_func_msgq i) (event_callback_mutex i) (event_callback i) (user_context i) (functions i) x.

Definition queue_of (l : link) (i : iso14229_zephyr_instance) : list can_frame :=
  match l with phys_link => can_phys_msgq i | func_link => can_func_msgq i end.
Definition set_queue (l : link) (q : list can_frame) (i : iso14229_zephyr_instance) : iso14229_zephyr_instance :=
  match l with
  | phys_link => IsoInstance (tp i) q (can_func_msgq i) (event_callback_mutex i) (event_callback i) (user_context i) (functions i) (thread i)
  | func_link => IsoInstance (tp i) (can_phys_msgq i) q (event_callback_mutex i) (event_callback i) (user_context i) (functions i) (thread i)
  end.

(** [k_msgq_put] and [k_msgq_get] with [K_NO_WAIT]. *)
Definition k_msgq_put (l : link) (frame : can_frame) : M (iso_world E) Z :=
  let* i := gets iso in
  if decide (length (queue_of l i) < MSGQ_CAPACITY)%nat
  then (update (set_queue l (queue_of l i ++ [frame])) ;; ret 0) else ret (- ENOMSG).

Definition k_msgq_get (l : link) : M (iso_world E) (option can_frame) :=
  let* i := gets iso in
  match queue_of l i with
  | [] => ret None
  | f :: q => update (set_queue l q) ;; ret (Some f)
  end.

(** A mutex of Zephyr counts the locks of its owner. *)
Definition uds_cb (event : Z) (arg : uds_arg) : M (iso_world E) Z :=
  update (fun i => set_mutex (event_callback_mutex i + 1) i) ;;
  let* i := gets iso in
  let* r := match event_callback i with
            | Some f => run_event_callback f event arg (user_context i)
            | None => ret 0
            end in
  update (fun i => set_mutex (event_callback_mutex i - 1) i) ;;
  ret r.

(** A frame that does not fit is dropped. *)
Definition can_rx_cb (l : link) (frame : can_frame) : M (iso_world E) unit :=
  let* _ := k_msgq_put l frame in ret tt.

Definition iso14229_inject_can_frame_rx (frame : can_frame) (functional_address : bool) : M (iso_world E) unit :=
  let* i := gets iso in
  let id := if functional_address then func_sa (tp i) else phys_sa (tp i) in
  can_rx_cb phys_link (CanFrame id (can_dlc frame) (can_flags frame) (can_data frame)).

Definition iso14229_zephyr_set_callback (callback : option nat) : M (iso_world E) Z :=
  update (fun i => set_mutex (event_callback_mutex i + 1) i) ;;
  update (set_event_callback callback) ;;
  update (fun i => set_mutex (event_callback_mutex i - 1) i) ;;
  ret 0.

(** The loop over one queue. *)
Fixpoint drain (fuel : nat) (l : link) : M (iso_world E) unit :=
  match fuel with
  | O => fail OutOfFuel
  | S fuel =>
      let* frame := k_msgq_get l in
      match frame with
      | None => ret tt
      | Some f =>
          env (isotp_on_can_message l (take (Z.to_nat (can_dlc f)) (can_data f))) ;;
          drain fuel l
      end
  end.

(** [fuel]: frames that arrive during the loop keep it going; with none, one
    round more than the queue is long. *)
Definition iso14229_zephyr_event_loop_tick (fuel : nat) : M (iso_world E) unit :=
  drain fuel phys_link ;; drain fuel func_link ;; UDSServerPoll.

(** drv.c; the callback is NULL, so the call returns when the frame is sent. *)
Definition isotp_user_send_can (arbitration_id : Z) (data : list Z) : M (iso_world E) Z :=
  if CAN_MAX_DLEN <? Z.of_nat (length data) then fail OutOfBounds
  else
    let* r := env (can_send_forever (CanFrame arbitration_id (Z.of_nat (length data)) 0 data)) in
    ret (if negb (r =? 0) then - 1 else 0).

Definition iso14229_zephyr_init (iso_tp_config : UDSISOTpCConfig_t) (context : Z) : M (iso_world E) Z :=
  update (set_user_context context) ;;
  update (set_functions (fun f => IsoFunctions true (event_loop_tick f) (thread_start f) (thread_stop f))) ;;
  let* rc := env k_mutex_init in
  if negb (rc =? 0) then ret rc
  else
    update (fun i => set_queue func_link [] (set_queue phys_link [] i)) ;;
    env UDSServerInit ;;
    let* addresses := env (UDSISOTpCInit iso_tp_config) in
    update (set_tp addresses) ;;
    let* i := gets iso in
    let* err := env (can_add_rx_filter phys_link (CanFilter (phys_sa (tp i)) CAN_STD_ID_MASK)) in
    if err <? 0 then ret err
    else
      let* err := if negb (func_sa (tp i) =? UDS_TP_NOOP_ADDR)
                  then env (can_add_rx_filter func_link (CanFilter (func_sa (tp i)) CAN_STD_ID_MASK))
                  else ret 0 in
      if err <? 0 then ret err
      else
        update (set_functions (fun f => IsoFunctions (set_callback f) true true true)) ;;
        let* rc := env k_mutex_init in
        if negb (rc =? 0) then ret rc
        else update (set_thread (ThreadState false false)) ;; ret 0.

(** One call of [iso14229_zephyr_thread_start], with nobody else in the mutex. *)
Definition iso14229_zephyr_thread_start : M (iso_world E) Z :=
  let* i := gets iso in
  if thread_running (thread i) then ret (- EALREADY)
  else
    update (set_thread (ThreadState false false)) ;;
    let* created := env k_thread_create in
    if negb created then ret (- ENOMEM)
    else update (set_thread (ThreadState true false)) ;; ret 0.

(** lib/uds/uds.c: the instance's own fields are the dynamic registrations of
    [world] and, in the iso14229 instance, the callback. *)
Definition UDS_EVENT_CALLBACK : nat := 0.

Definition on_iso {A} (m : M (iso_world E) A) : M (world (iso_world E)) A :=
  zoom ext (fun e w => set_ext e w) m.

Definition uds_init (iso_tp_config : UDSISOTpCConfig_t) : M (world (iso_world E)) Z :=
  modify (set_dynamic_registrations []) ;;
  let* inst := gets inst_id in
  let* rc := on_iso (iso14229_zephyr_init iso_tp_config (Z.of_nat inst)) in
  if rc <? 0 then ret rc
  else
    let* i := on_iso (gets iso) in
    if negb (set_callback (functions i)) then fail NullPointer
    else
    let* rc := on_iso (iso14229_zephyr_set_callback (Some UDS_EVENT_CALLBACK)) in
    if rc <? 0 then ret rc else ret 0.

(** The arguments are whether the pointers are NULL. *)
Definition uds_get_isotp_config (inst_null config_null : bool) : M (world (iso_world E)) (Z * option UDSISOTpCConfig_t) :=
  if inst_null || config_null then ret (- EINVAL, None)
  else
    let* i := on_iso (gets iso) in
    ret (0, Some (IsoTpConfig (phys_sa (tp i)) (phys_ta (tp i)) (func_sa (tp i)) (func_ta (tp i)))).
End instance.

(** ** Theorems: the instance *)

(** The configuration as the ISO-TP transport stores it. *)
Definition addresses_of (c : UDSISOTpCConfig_t) : UDSISOTpC_t :=
  IsoTp (source_addr c) (target_addr c) (source_addr_func c) (target_addr_func c).

Class IsoServerLaws (E : Type) `{!IsoServer E} `{!CanController E} := {
  (** what the ISO-TP links were given, and the receive filters *)
  delivered : E -> list (link * list Z);
  rx_filters : E -> list (link * can_filter);
  server_init_law : forall e, exists e', UDSServerInit e = Ret tt e' /\ delivered e' = delivered e /\ rx_filters e' = rx_filters e;
  isotp_init_law : forall c e, exists e', UDSISOTpCInit c e = Ret (addresses_of c) e' /\ delivered e' = delivered e /\ rx_filters e' = rx_filters e;
  on_can_law : forall l d e, exists e', isotp_on_can_message l d e = Ret tt e' /\
    delivered e' = delivered e ++ [(l, d)] /\ rx_filters e' = rx_filters e;
  thread_law : forall e, exists b e', k_thread_create e = Ret b e' /\ delivered e' = delivered e /\ rx_filters e' = rx_filters e;
  mutex_law : forall e, exists rc, k_mutex_init e = Ret rc e /\ rc <= 0;
  add_law : forall l f e, exists rc e', can_add_rx_filter l f e = Ret rc e' /\ delivered e' = delivered e /\
    rx_filters e' = (if rc <? 0 then rx_filters e else rx_filters e ++ [(l, f)]);
}.

Section instance_theorems.
Context {E : Type} `{!IsoServer E} `{!CanController E} `{!IsoServerLaws E}.
Implicit Types (w : iso_world E).

(** Frames from the controller's callback. *)
Fixpoint receive_all (l : list (link * can_frame)) : M (iso_world E) unit :=
  match l with [] => ret tt | (k, f) :: l => can_rx_cb k f ;; receive_all l end.

(** Those of one link. *)
Definition on_link (k : link) (l : list (link * can_frame)) : list can_frame :=
  omap (fun '(j, f) => match j, k with phys_link, phys_link | func_link, func_link => Some f | _, _ => None end) l.

(** The instance with other queues. *)
Definition with_queues (p q : list can_frame) (i : iso14229_zephyr_instance) : iso14229_zephyr_instance :=
  set_queue func_link q (set_queue phys_link p i).

Definition payload (f : can_frame) : list Z := take (Z.to_nat (can_dlc f)) (can_data f).

(** A queue after a frame was offered to it. *)
Definition offered (q : list can_frame) (f : can_frame) : list can_frame :=
  if decide (length q < MSGQ_CAPACITY)%nat then q ++ [f] else q.

Lemma can_rx_cb_run k f w :
  can_rx_cb k f w = Ret tt (IsoWorld (set_queue k (offered (queue_of k (iso w)) f) (iso w)) (iso_ext w)).
Proof.
  unfold can_rx_cb, k_msgq_put, offered, bind, gets. destruct (decide _); [done|].
  destruct w as [[] e], k; done.
Qed.

Lemma offered_length q f : (length q <= MSGQ_CAPACITY)%nat -> (length (offered q f) <= MSGQ_CAPACITY)%nat.
Proof. unfold offered. destruct (decide _); [rewrite length_app; cbn; lia|done]. Qed.

Lemma take_put (q : list can_frame) f l :
  take MSGQ_CAPACITY (offered q f ++ l) = take MSGQ_CAPACITY (q ++ f :: l).
Proof.
  unfold offered. destruct (decide (length q < MSGQ_CAPACITY)%nat); [by rewrite <- (assoc_L app)|].
  by rewrite !take_app_le by lia.
Qed.

Lemma receive_all_run : forall l w, (length (can_phys_msgq (iso w)) <= MSGQ_CAPACITY)%nat ->
  (length (can_func_msgq (iso w)) <= MSGQ_CAPACITY)%nat ->
  receive_all l w = Ret tt (IsoWorld (with_queues (take MSGQ_CAPACITY (can_phys_msgq (iso w) ++ on_link phys_link l))
    (take MSGQ_CAPACITY (can_func_msgq (iso w) ++ on_link func_link l)) (iso w)) (iso_ext w)).
Proof.
  induction l as [|[k f] l IH]; intros w Hp Hf.
  - cbn. rewrite !app_nil_r, !take_ge by done. by destruct w as [[] e].
  - cbn [receive_all]. rewrite (bind_step _ _ _ _ _ (can_rx_cb_run k f w)).
    destruct k; cbn [queue_of on_link omap list_omap]; rewrite <- take_put;
      (rewrite IH; [by destruct w as [[] e]|cbn [iso set_queue can_phys_msgq can_func_msgq]; auto using offered_length..]).
Qed.

Lemma k_msgq_get_run k f q w : queue_of k (iso w) = f :: q ->
  k_msgq_get k w = Ret (Some f) (IsoWorld (set_queue k q (iso w)) (iso_ext w)).
Proof. intros Hq. unfold k_msgq_get, bind, gets. by rewrite Hq. Qed.

Lemma drain_run k : forall fuel w, (length (queue_of k (iso w)) < fuel)%nat ->
  exists e', drain fuel k w = Ret tt (IsoWorld (set_queue k [] (iso w)) e') /\
    delivered e' = delivered (iso_ext w) ++ ((fun f => (k, payload f)) <$> queue_of k (iso w)) /\
    rx_filters e' = rx_filters (iso_ext w).
Proof.
  induction fuel as [|fuel IH]; intros w Hf; [lia|]. cbn [drain].
  destruct (queue_of k (iso w)) as [|f q] eqn:Hq.
  - exists (iso_ext w). rewrite app_nil_r. split_and!; [|done|done].
    unfold k_msgq_get, bind, gets. rewrite Hq. destruct w as [[] e], k; cbn in Hq; subst; done.
  - destruct (on_can_law k (payload f) (iso_ext w)) as (e1 & Hmsg & Hd1 & Hr1).
    rewrite (bind_step _ _ _ _ _ (k_msgq_get_run k f q w Hq)).
    set (w1 := IsoWorld (set_queue k q (iso w)) e1).
    rewrite (bind_step _ _ _ tt w1) by (unfold env, zoom; cbn [iso_ext]; fold (payload f); by rewrite Hmsg).
    destruct (IH w1) as (e' & Hrest & Hd & Hr); [destruct k; cbn in *; lia|].
    exists e'. split_and!; [rewrite Hrest; destruct w as [[] e], k; done| |by rewrite Hr].
    rewrite Hd. subst w1. cbn [iso_ext iso]. rewrite Hd1, <- (assoc_L app). f_equal. by destruct k.
Qed.

Lemma reception_run l w :
  (length (can_phys_msgq (iso w)) <= MSGQ_CAPACITY)%nat -> (length (can_func_msgq (iso w)) <= MSGQ_CAPACITY)%nat ->
  exists w1 e2, receive_all l w = Ret tt w1 /\
    iso14229_zephyr_event_loop_tick (S MSGQ_CAPACITY) w1 = UDSServerPoll (IsoWorld (with_queues [] [] (iso w)) e2) /\
    delivered e2 = delivered (iso_ext w) ++
      ((fun f => (phys_link, payload f)) <$> take MSGQ_CAPACITY (can_phys_msgq (iso w) ++ on_link phys_link l)) ++
      ((fun f => (func_link, payload f)) <$> take MSGQ_CAPACITY (can_func_msgq (iso w) ++ on_link func_link l)).
Proof.
  intros Hp Hf. rewrite (receive_all_run l w Hp Hf). eexists.
  set (w1 := IsoWorld _ _).
  destruct (drain_run phys_link (S MSGQ_CAPACITY) w1) as (e1 & Hrun1 & Hd1 & _); [cbn -[take MSGQ_CAPACITY]; rewrite length_take; lia|].
  destruct (drain_run func_link (S MSGQ_CAPACITY) (IsoWorld (set_queue phys_link [] (iso w1)) e1)) as (e2 & Hrun2 & Hd2 & _);
    [cbn -[take MSGQ_CAPACITY]; rewrite length_take; lia|].
  exists e2. split_and!; [done| |].
  - unfold iso14229_zephyr_event_loop_tick. rewrite (bind_step _ _ _ _ _ Hrun1), (bind_step _ _ _ _ _ Hrun2). done.
  - rewrite Hd2. cbn [iso_ext]. by rewrite Hd1, <- (assoc_L app).
Qed.

(** C18. Received frames reach the ISO-TP links.  The controller's callback
    queues the frames of each link, 25 at most; the rest is dropped.  The next
    round of the event loop hands exactly the queued frames to the links, the
    physical ones first, each link's in the order of their arrival, cut to
    their length, and then polls the server with both queues empty and the
    rest of the instance as it was. *)
Theorem iso14229_reception l w :
  (length (can_phys_msgq (iso w)) <= MSGQ_CAPACITY)%nat -> (length (can_func_msgq (iso w)) <= MSGQ_CAPACITY)%nat ->
  exists w1 e2, receive_all l w = Ret tt w1 /\
    iso14229_zephyr_event_loop_tick (S MSGQ_CAPACITY) w1 = UDSServerPoll (IsoWorld (with_queues [] [] (iso w)) e2) /\
    delivered e2 = delivered (iso_ext w) ++
      ((fun f => (phys_link, payload f)) <$> take MSGQ_CAPACITY (can_phys_msgq (iso w) ++ on_link phys_link l)) ++
      ((fun f => (func_link, payload f)) <$> take MSGQ_CAPACITY (can_func_msgq (iso w) ++ on_link func_link l)).
Proof. apply reception_run. Qed.

(** An injected functional frame takes the physical link: the frame gets the
    functional address, but it is put into the queue of the physical link, so
    the event loop hands it to the physical link. *)
Theorem injected_functional_frame w frame :
  can_phys_msgq (iso w) = [] -> can_func_msgq (iso w) = [] ->
  exists w1 e2, iso14229_inject_can_frame_rx frame true w = Ret tt w1 /\
    iso14229_zephyr_event_loop_tick (S MSGQ_CAPACITY) w1 = UDSServerPoll (IsoWorld (with_queues [] [] (iso w)) e2) /\
    delivered e2 = delivered (iso_ext w) ++ [(phys_link, payload frame)].
Proof.
  intros Hp Hf. unfold iso14229_inject_can_frame_rx. unfold bind at 1, gets. cbn.
  set (fr := CanFrame _ _ _ _).
  destruct (reception_run [(phys_link, fr)] w) as (w1 & e2 & Hrx & Htick & Hd); [rewrite Hp; cbn; lia|rewrite Hf; cbn; lia|].
  cbn [receive_all] in Hrx. rewrite (bind_step _ _ _ _ _ (can_rx_cb_run phys_link fr w)) in Hrx. injection Hrx as <-.
  eexists _, e2. split_and!; [apply can_rx_cb_run|exact Htick|]. by rewrite Hp, Hf in Hd.
Qed.

(** The filters an instance wants. *)
Definition wanted (noop : Z) (cfg : UDSISOTpCConfig_t) : list (link * can_filter) :=
  (phys_link, CanFilter (source_addr cfg) CAN_STD_ID_MASK) ::
  (if source_addr_func cfg =? noop then [] else [(func_link, CanFilter (source_addr_func cfg) CAN_STD_ID_MASK)]).

(** A library or kernel function that is called on the environment. *)
Lemma env_step {A B} (m : M E A) (k : A -> M (iso_world E) B) a e' i e :
  m e = Ret a e' -> bind (env m) k (IsoWorld i e) = k a (IsoWorld i e').
Proof. intros H. apply bind_step. unfold env, zoom. cbn. by rewrite H. Qed.

Lemma update_step {B} f (k : unit -> M (iso_world E) B) i e : bind (update f) k (IsoWorld i e) = k tt (IsoWorld (f i) e).
Proof. reflexivity. Qed.

Lemma add_step {B} l f (k : Z -> M (iso_world E) B) i e :
  exists rc e', bind (env (can_add_rx_filter l f)) k (IsoWorld i e) = k rc (IsoWorld i e') /\
    rx_filters e' = if rc <? 0 then rx_filters e else rx_filters e ++ [(l, f)].
Proof. destruct (add_law l f e) as (rc & e' & Hrun & _ & Hf). exists rc, e'. by rewrite (env_step _ _ _ _ _ _ Hrun). Qed.

(** The functional filter is left out without an address. *)
Lemma functional_step {B} noop f (k : Z -> M (iso_world E) B) i e :
  exists rc e', bind (if negb (filter_id f =? noop) then env (can_add_rx_filter func_link f) else ret 0) k (IsoWorld i e)
      = k rc (IsoWorld i e') /\
    rx_filters e' = rx_filters e ++ if rc <? 0 then [] else if filter_id f =? noop then [] else [(func_link, f)].
Proof.
  destruct (filter_id f =? noop); cbn [negb].
  - exists 0, e. split; [done|by rewrite app_nil_r].
  - destruct (add_step func_link f k i e) as (rc & e' & Hrun & Hf). exists rc, e'. split; [exact Hrun|].
    rewrite Hf. destruct (rc <? 0); [by rewrite app_nil_r|done].
Qed.

(** An early return of the set-up, and its end: what is there of the filters
    wanted, and the function pointers. *)
Lemma iso_init_run noop cfg ctx (w : iso_world E) :
  exists rc i' e', iso14229_zephyr_init noop cfg ctx w = Ret rc (IsoWorld i' e') /\ (rc <= 0) /\
    event_callback i' = event_callback (iso w) /\ event_callback_mutex i' = event_callback_mutex (iso w) /\
    (exists added, added `prefix_of` wanted noop cfg /\ rx_filters e' = rx_filters (iso_ext w) ++ added /\
      (thread_start (functions i') = thread_start (functions (iso w)) \/
       thread_start (functions i') = true /\ added = wanted noop cfg)) /\
    (rc <> 0 -> thread i' = thread (iso w)) /\
    (rc = 0 -> functions i' = IsoFunctions true true true true /\ thread i' = ThreadState false false /\ user_context i' = ctx /\
      can_phys_msgq i' = [] /\ can_func_msgq i' = [] /\ tp i' = addresses_of cfg /\
      rx_filters e' = rx_filters (iso_ext w) ++ wanted noop cfg).
Proof.
  destruct w as [i e]. unfold iso14229_zephyr_init. rewrite !update_step.
  destruct (mutex_law e) as (rc0 & Hm0 & Hrc0). rewrite (env_step _ _ _ _ _ _ Hm0).
  destruct (Z.eqb_spec rc0 0) as [->|Hne0]; cbn [negb].
  2: { eexists rc0, _, e. split_and!; [done|lia|done|done| |done|done].
       exists []. split_and!; [apply prefix_nil|by rewrite app_nil_r|by left]. }
  rewrite update_step. destruct (server_init_law e) as (e1 & H1 & _ & Hf1). rewrite (env_step _ _ _ _ _ _ H1).
  destruct (isotp_init_law cfg e1) as (e2 & H2 & _ & Hf2). rewrite (env_step _ _ _ _ _ _ H2), update_step.
  unfold bind at 1, gets. cbn [iso]. match goal with |- context [IsoWorld (set_tp ?a ?x) _] => set (i1 := set_tp a x) end.
  change (phys_sa (tp i1)) with (source_addr cfg). change (func_sa (tp i1)) with (source_addr_func cfg).
  match goal with |- context [bind (env (can_add_rx_filter phys_link ?f)) ?k _] =>
    destruct (add_step phys_link f k i1 e2) as (rc3 & e3 & -> & Hf3) end. cbv beta.
  destruct (Z.ltb_spec rc3 0) as [Hneg|Hpos].
  { eexists rc3, i1, e3. split_and!; [done|lia|done|done| |done|lia].
    exists []. split_and!; [apply prefix_nil|by rewrite Hf3, Hf2, Hf1, app_nil_r|by left]. }
  match goal with |- context [bind (if _ then env (can_add_rx_filter func_link ?f) else _) ?k _] =>
    destruct (functional_step noop f k i1 e3) as (rc4 & e4 & Hrun4 & Hf4) end.
  cbn [filter_id] in Hrun4, Hf4. rewrite Hrun4. clear Hrun4. cbv beta.
  destruct (Z.ltb_spec rc4 0) as [Hneg4|Hpos4].
  { eexists rc4, i1, e4. split_and!; [done|lia|done|done| |done|lia].
    eexists [_]. split_and!; [apply prefix_cons, prefix_nil|by rewrite Hf4, Hf3, Hf2, Hf1, app_nil_r|by left]. }
  assert (rx_filters e4 = rx_filters e ++ wanted noop cfg) as Hall by (by rewrite Hf4, Hf3, Hf2, Hf1, <- (assoc_L app)).
  rewrite update_step. destruct (mutex_law e4) as (rc5 & Hm5 & Hrc5). rewrite (env_step _ _ _ _ _ _ Hm5).
  destruct (Z.eqb_spec rc5 0) as [->|Hne5]; cbn [negb].
  - rewrite update_step. eexists 0, _, e4. split_and!; [done|done|done|done| |done|done].
    exists (wanted noop cfg). split_and!; [done|done|by right].
  - eexists rc5, _, e4. split_and!; [done|lia|done|done| |done|lia].
    exists (wanted noop cfg). split_and!; [done|done|by right].
Qed.

Lemma uds_init_run noop cfg (w : world (iso_world E)) :
  exists rc (w' : world (iso_world E)), uds_init noop cfg w = Ret rc w' /\ dynamic_registrations w' = [] /\
    static_regs w' = static_regs w /\ heap w' = heap w /\
    let i := iso (ext w) in let i' := iso (ext w') in
    (rc <= 0) /\ event_callback_mutex i' = event_callback_mutex i /\
    if decide (rc < 0)
    then event_callback i' = event_callback i /\ thread i' = thread i /\
      exists added, added `prefix_of` wanted noop cfg /\ rx_filters (iso_ext (ext w')) = rx_filters (iso_ext (ext w)) ++ added /\
        (thread_start (functions i') = thread_start (functions i) \/
         thread_start (functions i') = true /\ added = wanted noop cfg)
    else event_callback i' = Some UDS_EVENT_CALLBACK /\ user_context i' = Z.of_nat (inst_id w) /\
      functions i' = IsoFunctions true true true true /\ thread i' = ThreadState false false /\
      can_phys_msgq i' = [] /\ can_func_msgq i' = [] /\
      rx_filters (iso_ext (ext w')) = rx_filters (iso_ext (ext w)) ++ wanted noop cfg /\
      uds_get_isotp_config false false w' = Ret (0, Some cfg) w'.
Proof.
  unfold uds_init. unfold bind at 1 2, modify, gets. set (w0 := set_dynamic_registrations [] w).
  destruct (iso_init_run noop cfg (Z.of_nat (inst_id w0)) (ext w0))
    as (rc & i1 & e1 & Hrun & Hrc & Hcb & Hmu & Hpre & Hth & Hok).
  rewrite (bind_step _ _ _ rc (set_ext (IsoWorld i1 e1) w0)) by (unfold on_iso, zoom; by rewrite Hrun).
  destruct (Z.ltb_spec rc 0) as [Hneg|Hpos].
  - exists rc, (set_ext (IsoWorld i1 e1) w0). rewrite decide_True by done. split_and!; try done. apply Hth. lia.
  - assert (rc = 0) as -> by lia. destruct (Hok eq_refl) as (Hfn & Hts & Hctx & Hp & Hf & Htp & Hfil).
    rewrite (bind_step _ _ _ i1 (set_ext (IsoWorld i1 e1) w0)) by done. rewrite Hfn. cbn [set_callback negb].
    eexists 0, (set_ext (IsoWorld _ e1) w0). split_and!; [reflexivity|done|done|done|done|subst w0; cbn in *; lia|].
    rewrite decide_False by done. cbn. split_and!; try done. rewrite Htp. by destruct cfg.
Qed.

(** Setting up an instance.  [uds_init] either returns an error of the
    kernel or of the CAN controller, and then no event callback has been
    installed, the filters are a prefix of those wanted, and the pointer to the
    function that starts the thread is as it was unless all filters are there;
    or it returns 0, and the instance has no dynamic registrations, empty
    queues, the event callback of the library, all of its functions, a thread
    that is not running, exactly the physical and, if one is configured, the
    functional receive filter, and [uds_get_isotp_config] gives back the
    configuration. *)
Theorem uds_init_spec noop cfg (w : world (iso_world E)) :
  exists rc (w' : world (iso_world E)), uds_init noop cfg w = Ret rc w' /\ dynamic_registrations w' = [] /\
    static_regs w' = static_regs w /\ heap w' = heap w /\
    let i := iso (ext w) in let i' := iso (ext w') in
    (rc <= 0) /\ event_callback_mutex i' = event_callback_mutex i /\
    if decide (rc < 0)
    then event_callback i' = event_callback i /\ thread i' = thread i /\
      exists added, added `prefix_of` wanted noop cfg /\ rx_filters (iso_ext (ext w')) = rx_filters (iso_ext (ext w)) ++ added /\
        (thread_start (functions i') = thread_start (functions i) \/
         thread_start (functions i') = true /\ added = wanted noop cfg)
    else event_callback i' = Some UDS_EVENT_CALLBACK /\ user_context i' = Z.of_nat (inst_id w) /\
      functions i' = IsoFunctions true true true true /\ thread i' = ThreadState false false /\
      can_phys_msgq i' = [] /\ can_func_msgq i' = [] /\
      rx_filters (iso_ext (ext w')) = rx_filters (iso_ext (ext w)) ++ wanted noop cfg /\
      uds_get_isotp_config false false w' = Ret (0, Some cfg) w'.
Proof. apply uds_init_run. Qed.
End instance_theorems.
