(* ===== verification/IsoThread.v ===== *)
(** * The thread of an ISO 14229 instance ([lib/iso14229/iso14229_common.c])

    [iso14229_zephyr_thread_start] and [iso14229_zephyr_thread_stop], called by
    any number of clients at any time, and the thread they start, as one
    transition system: a step is what happens between two operations of the
    kernel that another thread can observe.  The mutex [thread_mutex] orders
    the accesses to [thread_running]; [thread_stop_requested] is an atomic.

    The thread is cooperative, so nothing runs between its last statement, the
    unlock, and its termination, which wakes the clients that join it. *)

From stdpp Require Import base list numbers relations.
From Stdlib Require Import ZArith Lia.
From S2P Require Import Prelude.

#[local] Open Scope Z_scope.

(** ** Definitions *)

(** Where a client is: outside with the result of its last call, waiting for
    the mutex or inside of it in one of the two functions, behind the unlock of
    the stop function, or waiting in its join. *)
Inductive iso_client_pc :=
| Outside (result : option Z)
| WantStart | Starting
| WantStop | Stopping | Unlocked
| Joining.

(** Where the thread is: not there, at the head of its loop, or behind it
    waiting for the mutex or inside of it. *)
Inductive iso_thread_pc := Dead | Looping | WantLock | Locked.

Inductive owner := by_thread | by_client (c : nat).

#[export] Instance thread_pc_eq_dec : EqDecision iso_thread_pc.
Proof. solve_decision. Defined.
#[export] Instance client_pc_eq_dec : EqDecision iso_client_pc.
Proof. solve_decision. Defined.

Record iso_state := State {
  thread_running : bool;
  thread_stop_requested : bool;
  thread_mutex : option owner;
  thread : iso_thread_pc;
  clients : list iso_client_pc;
}.

Definition set_client (c : nat) (pc : iso_client_pc) (s : iso_state) : iso_state :=
  State (thread_running s) (thread_stop_requested s) (thread_mutex s) (thread s) (<[c := pc]> (clients s)).
Definition set_thread (pc : iso_thread_pc) (s : iso_state) : iso_state :=
  State (thread_running s) (thread_stop_requested s) (thread_mutex s) pc (clients s).
Definition set_thread_mutex (o : option owner) (s : iso_state) : iso_state :=
  State (thread_running s) (thread_stop_requested s) o (thread s) (clients s).

(** The termination of the thread ends every join. *)
Definition wake (pc : iso_client_pc) : iso_client_pc := match pc with Joining => Outside (Some 0) | pc => pc end.

(** A call of one of the two functions. *)
Inductive call_step : iso_state -> iso_state -> Prop :=
| call_start s c r : clients s !! c = Some (Outside r) -> call_step s (set_client c WantStart s)
| call_stop s c r : clients s !! c = Some (Outside r) -> call_step s (set_client c WantStop s).

(** [iso14229_zephyr_thread_start] *)
Inductive start_step : iso_state -> iso_state -> Prop :=
| start_lock s c : clients s !! c = Some WantStart -> thread_mutex s = None ->
    start_step s (set_client c Starting (set_thread_mutex (Some (by_client c)) s))
| start_running s c : clients s !! c = Some Starting -> thread_running s = true ->
    start_step s (set_client c (Outside (Some (- EALREADY))) (set_thread_mutex None s))
| start_no_thread s c : clients s !! c = Some Starting -> thread_running s = false ->
    start_step s (set_client c (Outside (Some (- ENOMEM)))
      (State (thread_running s) false None (thread s) (clients s)))
| start_thread s c : clients s !! c = Some Starting -> thread_running s = false ->
    start_step s (set_client c (Outside (Some 0)) (State true false None Looping (clients s))).

(** [iso14229_zephyr_thread_stop] *)
Inductive stop_step : iso_state -> iso_state -> Prop :=
| stop_lock s c : clients s !! c = Some WantStop -> thread_mutex s = None ->
    stop_step s (set_client c Stopping (set_thread_mutex (Some (by_client c)) s))
| stop_not_running s c : clients s !! c = Some Stopping -> thread_running s = false ->
    stop_step s (set_client c (Outside (Some (- EALREADY))) (set_thread_mutex None s))
| stop_request s c : clients s !! c = Some Stopping -> thread_running s = true ->
    stop_step s (set_client c Unlocked (State (thread_running s) true None (thread s) (clients s)))
| stop_join_dead s c : clients s !! c = Some Unlocked -> thread s = Dead ->
    stop_step s (set_client c (Outside (Some 0)) s)
| stop_join s c : clients s !! c = Some Unlocked -> thread s <> Dead ->
    stop_step s (set_client c Joining s).

(** [iso14229_thread_entry] *)
Inductive iso_thread_step : iso_state -> iso_state -> Prop :=
| thread_tick s : thread s = Looping -> thread_stop_requested s = false -> iso_thread_step s s
| thread_leave s : thread s = Looping -> thread_stop_requested s = true -> iso_thread_step s (set_thread WantLock s)
| thread_lock s : thread s = WantLock -> thread_mutex s = None ->
    iso_thread_step s (set_thread Locked (set_thread_mutex (Some by_thread) s))
| thread_exit s : thread s = Locked ->
    iso_thread_step s (State false (thread_stop_requested s) None Dead (wake <$> clients s)).

(** A step of a call that is under way, or of the thread. *)
Definition inner_step (s s' : iso_state) : Prop := start_step s s' \/ stop_step s s' \/ iso_thread_step s s'.
Definition iso_step (s s' : iso_state) : Prop := call_step s s' \/ inner_step s s'.

(** After [iso14229_zephyr_init], with [n] clients. *)
Definition initial (n : nat) : iso_state := State false false None Dead (replicate n (Outside None)).
Definition iso_reachable (n : nat) (s : iso_state) : Prop := rtc iso_step (initial n) s.

(** ** The invariant *)

Definition holds_mutex (pc : iso_client_pc) : Prop := pc = Starting \/ pc = Stopping.
#[export] Instance holds_mutex_dec pc : Decision (holds_mutex pc).
Proof. unfold holds_mutex. apply _. Defined.

Record iso_inv (s : iso_state) : Prop := Inv {
  inv_running : thread_running s = true <-> thread s <> Dead;
  inv_leaving : thread s = WantLock \/ thread s = Locked -> thread_stop_requested s = true;
  inv_joining : Joining ∈ clients s -> thread s <> Dead;
  inv_thread_lock : thread_mutex s = Some by_thread <-> thread s = Locked;
  inv_client_lock : forall c, thread_mutex s = Some (by_client c) <->
    exists pc, clients s !! c = Some pc /\ holds_mutex pc;
}.

Lemma initial_inv n : iso_inv (initial n).
Proof.
  constructor; cbn; try (split; (done || intros; congruence)).
  - by intros [?|?].
  - intros H. by apply elem_of_replicate in H as [? _].
  - intros c. split; [done|]. intros (pc & Hpc & Hh). apply lookup_replicate in Hpc as [-> _]. by destruct Hh.
Qed.

(** Another client's place. *)
Lemma client_at c pc c' pc' (l : list iso_client_pc) : l !! c = Some pc ->
  <[c := pc']> l !! c' = if decide (c' = c) then Some pc' else l !! c'.
Proof.
  intros H. destruct (decide (c' = c)) as [->|Hne].
  - apply list_lookup_insert_eq. by apply lookup_lt_Some in H.
  - by rewrite list_lookup_insert_ne.
Qed.

Lemma joining_insert c pc pc' (l : list iso_client_pc) : l !! c = Some pc -> Joining ∈ <[c := pc']> l ->
  pc' = Joining \/ Joining ∈ l.
Proof.
  intros Hc [k Hk]%list_elem_of_lookup. rewrite (client_at c pc) in Hk by done. case_decide.
  - left. by injection Hk.
  - right. by apply list_elem_of_lookup_2 in Hk.
Qed.

(** Who holds the mutex after a client moved. *)
Lemma locks_insert s c pc pc' (o : option owner) :
  iso_inv s -> clients s !! c = Some pc ->
  (o = if decide (holds_mutex pc') then Some (by_client c) else if decide (holds_mutex pc) then None else thread_mutex s) ->
  (holds_mutex pc' -> thread_mutex s = None \/ thread_mutex s = Some (by_client c)) ->
  forall c', o = Some (by_client c') <-> exists p, <[c := pc']> (clients s) !! c' = Some p /\ holds_mutex p.
Proof.
  intros Hinv Hc -> Hfree c'. pose proof (inv_client_lock _ Hinv) as Hl. rewrite (client_at c pc) by done.
  destruct (decide (c' = c)) as [->|Hne].
  - case_decide as Hpc'; [by split; [exists pc'|]|]. split; [|by intros (? & [= <-] & ?)].
    case_decide as Hpc; [done|]. intros Hm. apply Hl in Hm as (p & Hp & Hh). rewrite Hc in Hp. by injection Hp as <-.
  - rewrite <- Hl. case_decide as Hpc'.
    + split; [by intros [= ->]|]. intros Hm. destruct (Hfree Hpc'); congruence.
    + case_decide as Hpc; [|done]. split; [done|]. intros Hm.
      assert (thread_mutex s = Some (by_client c)) by (apply Hl; eauto). congruence.
Qed.

(** The mutex is untouched or passes between clients; the thread stays. *)
Lemma client_inv s c pc pc' r sr o t :
  iso_inv s -> clients s !! c = Some pc -> thread_mutex s <> Some by_thread \/ (~ holds_mutex pc /\ ~ holds_mutex pc') ->
  (o = if decide (holds_mutex pc') then Some (by_client c) else if decide (holds_mutex pc) then None else thread_mutex s) ->
  (holds_mutex pc' -> thread_mutex s = None \/ thread_mutex s = Some (by_client c)) ->
  (r = true <-> t <> Dead) -> (t = WantLock \/ t = Locked -> sr = true) ->
  (Joining ∈ <[c := pc']> (clients s) -> t <> Dead) ->
  (t = Locked <-> thread s = Locked) ->
  iso_inv (State r sr o t (<[c := pc']> (clients s))).
Proof.
  intros Hinv Hc Hm Ho Hfree Hr Hsr Hj Ht. constructor; cbn; try done.
  - rewrite Ht, <- (inv_thread_lock _ Hinv). subst o. case_decide as Hpc'; [|case_decide as Hpc; [|done]].
    + destruct (Hfree Hpc') as [H|H]; rewrite H; by split.
    + split; [done|]. intros H. destruct Hm as [Hm|[? ?]]; [by destruct Hm|done].
  - by apply (locks_insert s c pc).
Qed.

Lemma not_by_thread s c : thread_mutex s = None \/ thread_mutex s = Some (by_client c) -> thread_mutex s <> Some by_thread.
Proof. intros [H|H]; by rewrite H. Qed.

Lemma client_holds s c pc : iso_inv s -> clients s !! c = Some pc -> holds_mutex pc -> thread_mutex s = Some (by_client c).
Proof. intros Hinv Hc Hh. apply (inv_client_lock _ Hinv). eauto. Qed.

(** Joining clients among those that were there. *)
Lemma joining_kept s c pc pc' : iso_inv s -> clients s !! c = Some pc -> pc' <> Joining ->
  Joining ∈ <[c := pc']> (clients s) -> thread s <> Dead.
Proof.
  intros Hinv Hc Hne Hj. apply (inv_joining _ Hinv). by destruct (joining_insert c pc pc' _ Hc Hj).
Qed.

Lemma not_alive s : iso_inv s -> thread_running s = false -> thread s = Dead.
Proof.
  intros Hinv Hr. destruct (decide (thread s = Dead)) as [|Hne]; [done|]. apply (inv_running _ Hinv) in Hne. congruence.
Qed.

(** The side conditions of [client_inv] for a move of client [c] from [pc]. *)
Ltac client_move Hinv s c pc :=
  apply (client_inv s c pc); try done; try apply Hinv; try (by apply (joining_kept s c pc));
  lazymatch goal with
  | |- _ \/ _ => first [left; congruence | right; split; intros [?|?]; discriminate]
  | |- _ = (if decide _ then _ else _) =>
      repeat first [rewrite decide_True by (by left) | rewrite decide_True by (by right)
                   | rewrite decide_False by (intros [?|?]; discriminate)]; done
  | |- holds_mutex _ -> _ => first [intros [?|?]; discriminate | intros _; left; done]
  | |- _ => idtac
  end.

Lemma call_inv s s' : iso_inv s -> call_step s s' -> iso_inv s'.
Proof. intros Hinv Hstep. destruct Hstep as [s c r Hc|s c r Hc]; client_move Hinv s c (Outside r). Qed.

Lemma start_inv s s' : iso_inv s -> start_step s s' -> iso_inv s'.
Proof.
  intros Hinv Hstep. destruct Hstep as [s c Hc Hm|s c Hc Hr|s c Hc Hr|s c Hc Hr]; [client_move Hinv s c WantStart|..];
    pose proof (client_holds s c Starting Hinv Hc ltac:(by left)) as Hm; [client_move Hinv s c Starting|..];
    pose proof (not_alive s Hinv Hr) as Hd.
  - client_move Hinv s c Starting. rewrite Hd. by intros [?|?].
  - client_move Hinv s c Starting; [by intros [?|?]|by rewrite Hd].
Qed.

Lemma stop_inv s s' : iso_inv s -> stop_step s s' -> iso_inv s'.
Proof.
  intros Hinv Hstep. destruct Hstep as [s c Hc Hm|s c Hc Hr|s c Hc Hr|s c Hc Hd|s c Hc Hd];
    [client_move Hinv s c WantStop|..|client_move Hinv s c Unlocked|client_move Hinv s c Unlocked];
    pose proof (client_holds s c Stopping Hinv Hc ltac:(by right)) as Hm; client_move Hinv s c Stopping.
Qed.

Lemma thread_inv s s' : iso_inv s -> iso_thread_step s s' -> iso_inv s'.
Proof.
  intros Hinv Hstep. pose proof Hinv as [Hr Hl Hj Ht Hc]. destruct Hstep as [s Hd Hs|s Hd Hs|s Hd Hm|s Hd].
  - done.
  - constructor; cbn; [rewrite Hr, Hd|intros _|intros _|rewrite Ht, Hd|exact Hc]; by try split.
  - constructor; cbn; [rewrite Hr, Hd; by split|intros _; apply Hl; by left|by intros _|by split|].
    intros c. rewrite <- Hc, Hm. by split.
  - assert (thread_mutex s = Some by_thread) as Hm by (by apply Ht).
    constructor; cbn; try (by split); [by intros [?|?]| |].
    + intros [k Hk]%list_elem_of_lookup. rewrite list_lookup_fmap in Hk. destruct (clients s !! k) as [[]|]; done.
    + intros c. split; [done|]. intros (pc & Hpc & Hh). rewrite list_lookup_fmap in Hpc.
      destruct (clients s !! c) as [pc0|] eqn:Hpc0; [|done]. cbn in Hpc. injection Hpc as <-.
      assert (holds_mutex pc0) as Hh0 by (destruct pc0; cbn in Hh; try done; destruct Hh; done).
      assert (thread_mutex s = Some (by_client c)) as Hm' by (apply Hc; eauto). congruence.
Qed.

Lemma thread_reachable_inv n s : iso_reachable n s -> iso_inv s.
Proof.
  unfold iso_reachable. intros H. assert (iso_inv (initial n)) as Hi by apply initial_inv. revert Hi.
  induction H as [s|s1 s2 s3 Hstep _ IH]; [done|]. intros Hi. apply IH.
  destruct Hstep as [H|[H|[H|H]]]; [by apply (call_inv s1)|by apply (start_inv s1)|by apply (stop_inv s1)|by apply (thread_inv s1)].
Qed.

(** ** Stopping *)

(** The clients that called stop and have asked the thread to end are on their
    way: [wake] and their own steps take them out. *)
Definition stopping (pc : iso_client_pc) : Prop := pc = Unlocked \/ pc = Joining.

(** Once the thread is asked to stop, its own steps and at most one of the
    client in the mutex end it. *)
Lemma thread_ends s : iso_inv s -> thread s <> Dead -> thread_stop_requested s = true -> thread_mutex s = None \/ thread s = Locked ->
  exists k s', (k <= 3)%nat /\ nsteps iso_thread_step k s s' /\ thread s' = Dead /\ clients s' = wake <$> clients s.
Proof.
  intros Hinv Ha Hs Hm. destruct (thread s) eqn:Ht; [done|..].
  - destruct Hm as [Hm|]; [|done]. exists 3%nat. eexists. split; [done|]. split.
    + eapply nsteps_l; [by apply thread_leave|]. eapply nsteps_l; [by apply thread_lock|].
      eapply nsteps_l; [by apply thread_exit|apply nsteps_O].
    + done.
  - destruct Hm as [Hm|]; [|done]. exists 2%nat. eexists. split; [lia|]. split.
    + eapply nsteps_l; [by apply thread_lock|]. eapply nsteps_l; [by apply thread_exit|apply nsteps_O].
    + done.
  - exists 1%nat. eexists. split; [lia|]. split; [eapply nsteps_l; [by apply thread_exit|apply nsteps_O]|done].
Qed.

(** The client in the mutex gets out of it by one step, and leaves the thread
    and the other clients alone. *)
Lemma holder_leaves s c : iso_inv s -> thread_mutex s = Some (by_client c) -> thread s <> Dead -> thread_stop_requested s = true ->
  exists s', inner_step s s' /\ iso_inv s' /\ thread_mutex s' = None /\ thread s' = thread s /\ thread_stop_requested s' = true /\
    (forall d pc, stopping pc -> clients s !! d = Some pc -> clients s' !! d = Some pc).
Proof.
  intros Hinv Hm Ha Hs. pose proof Hm as Hc. apply (inv_client_lock _ Hinv) in Hc as (pc & Hc & [-> | ->]);
    assert (thread_running s = true) as Hr by (by apply (inv_running _ Hinv)).
  - eexists. split; [left; by apply start_running|]. split; [eapply start_inv; [exact Hinv|by apply start_running]|].
    split_and!; try done. intros d pc Hst Hd. cbn. rewrite list_lookup_insert_ne; [done|]. intros ->. destruct Hst; congruence.
  - eexists. split; [right; left; by apply stop_request|]. split; [eapply stop_inv; [exact Hinv|by apply stop_request]|].
    split_and!; try done. intros d pc Hst Hd. cbn. rewrite list_lookup_insert_ne; [done|]. intros ->. destruct Hst; congruence.
Qed.

Lemma thread_nsteps_inner k s s' : nsteps iso_thread_step k s s' -> nsteps inner_step k s s'.
Proof. induction 1; econstructor; [by right; right|done]. Qed.

(** A thread that was asked to stop ends, and the stopping clients with it. *)
Lemma requested_ends s : iso_inv s -> thread s <> Dead -> thread_stop_requested s = true ->
  exists k s', (k <= 4)%nat /\ nsteps inner_step k s s' /\ thread s' = Dead /\
    forall d pc, stopping pc -> clients s !! d = Some pc -> clients s' !! d = Some (wake pc).
Proof.
  intros Hinv Ha Hs.
  assert (forall s1, iso_inv s1 -> thread s1 <> Dead -> thread_stop_requested s1 = true -> thread_mutex s1 = None \/ thread s1 = Locked ->
    (forall d pc, stopping pc -> clients s !! d = Some pc -> clients s1 !! d = Some pc) ->
    exists k s', (k <= 3)%nat /\ nsteps inner_step k s1 s' /\ thread s' = Dead /\
      forall d pc, stopping pc -> clients s !! d = Some pc -> clients s' !! d = Some (wake pc)) as Hend.
  { intros s1 Hinv1 Ha1 Hs1 Hm1 Hd1. destruct (thread_ends s1 Hinv1 Ha1 Hs1 Hm1) as (k & s' & Hk & Hsteps & Hdead & Hcl).
    exists k, s'. split_and!; [done|by apply thread_nsteps_inner|done|].
    intros d pc Hst Hd. by rewrite Hcl, list_lookup_fmap, (Hd1 d pc Hst Hd). }
  destruct (thread_mutex s) as [[|c]|] eqn:Hm.
  - destruct (Hend s) as (k & s' & Hk & ?); [done|done|done|right; by apply (inv_thread_lock _ Hinv)|done|].
    exists k, s'. split; [lia|done].
  - destruct (holder_leaves s c Hinv Hm Ha Hs) as (s1 & Hstep & Hinv1 & Hm1 & Ht1 & Hs1 & Hd1).
    destruct (Hend s1) as (k & s' & Hk & Hsteps & ?); [done|by rewrite Ht1|done|by left|done|].
    exists (S k), s'. split; [lia|]. split; [by eapply nsteps_l|done].
  - destruct (Hend s) as (k & s' & Hk & ?); [done|done|done|by left|done|].
    exists k, s'. split; [lia|done].
Qed.

(** C12. Starting and stopping the thread, under every interleaving of any number
    of clients.  [thread_running] says whether the thread is there, so a start
    never makes a second one; nobody but the owner of the mutex is inside of
    it; a client that joins waits for a thread that is there; and a thread that
    has been asked to stop ends: at most four steps of the thread and of the
    client in the mutex lead to a state without it, in which every client that
    was joining has returned 0, and every client that was about to join returns
    0 by its next step. *)
Theorem iso14229_thread_lifecycle n s :
  iso_reachable n s ->
  (thread_running s = true <-> thread s <> Dead) /\
  (forall s', start_step s s' -> thread s' <> thread s -> thread s = Dead /\ thread s' = Looping) /\
  (forall c d pc pd, clients s !! c = Some pc -> clients s !! d = Some pd -> holds_mutex pc -> holds_mutex pd -> c = d) /\
  (Joining ∈ clients s -> thread s <> Dead) /\
  (thread s <> Dead -> thread_stop_requested s = true ->
     exists k s', (k <= 4)%nat /\ nsteps inner_step k s s' /\ thread s' = Dead /\
       (forall d, clients s !! d = Some Joining -> clients s' !! d = Some (Outside (Some 0))) /\
       (forall d, clients s !! d = Some Unlocked -> stop_step s' (set_client d (Outside (Some 0)) s'))).
Proof.
  intros Hreach. pose proof (thread_reachable_inv n s Hreach) as Hinv. split_and!.
  - apply Hinv.
  - intros s' Hstep Hne. destruct Hstep; try done. split; [by apply not_alive|done].
  - intros c d pc pd Hc Hd Hpc Hpd.
    pose proof (client_holds s c pc Hinv Hc Hpc). pose proof (client_holds s d pd Hinv Hd Hpd). congruence.
  - apply Hinv.
  - intros Ha Hs. destruct (requested_ends s Hinv Ha Hs) as (k & s' & Hk & Hsteps & Hdead & Hout).
    exists k, s'. split_and!; [done|done|done| |].
    + intros d Hd. apply (Hout d Joining); [by right|done].
    + intros d Hd. apply stop_join_dead; [apply (Hout d Unlocked); [by left|done]|done].
Qed.

(** The state after another client started the thread anew between a client's
    unlock and its join. *)
Definition restarted : iso_state := State true false None Looping [Joining; Outside (Some 0)].

(** A stop can wait for a thread that nobody has asked to stop.  The stop
    function unlocks before it joins; when the thread ends and another client
    starts it again in between, the join is with the new thread, and without a
    further call the stop never returns. *)
Theorem stop_joins_restarted_thread :
  iso_reachable 2 restarted /\ forall s, rtc inner_step restarted s -> s = restarted.
Proof.
  split.
  - unfold iso_reachable.
    eapply rtc_l; [left; by apply (call_start (initial 2) 0 None)|].
    eapply rtc_l; [right; left; by apply (start_lock _ 0)|].
    eapply rtc_l; [right; left; by apply (start_thread _ 0)|].
    eapply rtc_l; [left; by apply (call_stop _ 0 (Some 0))|].
    eapply rtc_l; [right; right; left; by apply (stop_lock _ 0)|].
    eapply rtc_l; [right; right; left; by apply (stop_request _ 0)|].
    do 3 (eapply rtc_l; [right; right; right; first [by apply thread_leave|by apply thread_lock|by apply thread_exit]|]).
    eapply rtc_l; [left; by apply (call_start _ 1 None)|].
    eapply rtc_l; [right; left; by apply (start_lock _ 1)|].
    eapply rtc_l; [right; left; by apply (start_thread _ 1)|].
    eapply rtc_l; [right; right; left; by apply (stop_join _ 0)|].
    apply rtc_refl.
  - intros s H. remember restarted as s0 eqn:H0. induction H as [|x y z Hstep _ IH]; [done|]. subst x.
    assert (forall c pc, clients restarted !! c = Some pc -> pc = Joining \/ pc = Outside (Some 0)) as Hpc
      by (intros [|[|c]] pc [= <-]; eauto).
    assert (y = restarted) as Hy; [|by rewrite IH]. clear IH.
    destruct Hstep as [Hs|[Hs|Hs]]; inversion Hs; subst; try done;
      match goal with Hc : clients restarted !! _ = Some _ |- _ => by destruct (Hpc _ _ Hc) end.
Qed.
