(* ===== verification/DefaultInstance.v ===== *)
(** * The start of the default instance ([lib/uds/default_instance.c])

    The initialisation level at which the default UDS instance is set up, the
    CAN controller is started, and the thread that serves the instance begins.
    It composes [uds_init] of file [Iso14229] with the controller's start,
    the interface [CanBus]; the addresses come from the configuration or from
    an address provider such as the one of file [Gearshift]. *)

From stdpp Require Import base gmap list numbers relations.
From Stdlib Require Import ZArith Lia.
From S2P Require Import Prelude.
From S2P Require Import Can.
From S2P Require Import UdsTypes.
From S2P Require Import Iso14229.

#[local] Open Scope Z_scope.

(** ** Definitions *)

Class CanBus (E : Type) := {
  device_is_ready : M E bool;
  can_set_mode_normal : M E Z;
  can_start : M E Z;
}.

Record default_instance_kconfig := DefaultInstanceKconfig {
  CONFIG_UDS_DEFAULT_INSTANCE_SOURCE_ADDRESS : Z;
  CONFIG_UDS_DEFAULT_INSTANCE_TARGET_ADDRESS : Z;
  CONFIG_UDS_DEFAULT_INSTANCE_FUNCTIONAL_SOURCE_ADDRESS : Z;
  CONFIG_UDS_DEFAULT_INSTANCE_FUNCTIONAL_TARGET_ADDRESS : Z;
}.

(** Without an external address provider. *)
Definition configured_addresses {W} (cfg : default_instance_kconfig) : M W UDSISOTpCConfig_t :=
  ret (IsoTpConfig (CONFIG_UDS_DEFAULT_INSTANCE_SOURCE_ADDRESS cfg) (CONFIG_UDS_DEFAULT_INSTANCE_TARGET_ADDRESS cfg)
         (CONFIG_UDS_DEFAULT_INSTANCE_FUNCTIONAL_SOURCE_ADDRESS cfg) (CONFIG_UDS_DEFAULT_INSTANCE_FUNCTIONAL_TARGET_ADDRESS cfg)).

Section default_instance.
Context {E : Type} `{!IsoServer E} `{!CanController E} `{!CanBus E} (UDS_TP_NOOP_ADDR : Z).

Definition on_bus {A} (m : M E A) : M (world (iso_world E)) A := on_iso (env m).

(** The call through [thread_start] of the instance. *)
Definition call_thread_start : M (world (iso_world E)) Z :=
  let* i := on_iso (gets iso) in
  if thread_start (functions i) then on_iso iso14229_zephyr_thread_start else fail NullPointer.

(** The results of [uds_init] and of the start of the thread are not used. *)
Definition uds_default_instance_init (uds_default_instance_get_addresses : M (world (iso_world E)) UDSISOTpCConfig_t) :
    M (world (iso_world E)) Z :=
  let* cfg := uds_default_instance_get_addresses in
  let* _ := uds_init UDS_TP_NOOP_ADDR cfg in
  let* ready := on_bus device_is_ready in
  if negb ready then ret (- ENODEV)
  else
    let* err := on_bus can_set_mode_normal in
    if negb (err =? 0) then ret err
    else
      let* err := on_bus can_start in
      if negb (err =? 0) then ret err
      else
        let* _ := call_thread_start in
        ret 0.
End default_instance.

(** ** Theorems *)

(** [started] is whether frames of the bus reach the filters. *)
Class CanBusLaws (E : Type) `{!IsoServer E} `{!CanController E} `{!IsoServerLaws E} `{!CanBus E} := {
  started : E -> bool;
  ready_law : forall e, exists b, device_is_ready e = Ret b e;
  mode_law : forall e, exists rc e', can_set_mode_normal e = Ret rc e' /\ rx_filters e' = rx_filters e /\ started e' = started e;
  start_law : forall e, exists rc e', can_start e = Ret rc e' /\ rx_filters e' = rx_filters e /\
    (rc = 0 -> started e' = true) /\ (rc <> 0 -> started e' = started e);
}.

(** The instance in zeroed memory, at the start of the program. *)
Definition zeroed (i : iso14229_zephyr_instance) : Prop :=
  functions i = IsoFunctions false false false false /\ thread i = ThreadState false false.

Section theorems.
Context {E : Type} `{!IsoServer E} `{!CanController E} `{!IsoServerLaws E} `{!CanBus E} `{!CanBusLaws E}.
Implicit Types (w : world (iso_world E)).

(** The state with another environment. *)
Definition with_bus (e : E) w : world (iso_world E) := set_ext (IsoWorld (iso (ext w)) e) w.

Lemma bus_step {A B} (m : M E A) (k : A -> M (world (iso_world E)) B) a e' w :
  m (iso_ext (ext w)) = Ret a e' -> bind (on_bus m) k w = k a (with_bus e' w).
Proof. intros H. apply bind_step. unfold on_bus, on_iso, env, zoom. by rewrite H. Qed.

Lemma with_bus_self w : with_bus (iso_ext (ext w)) w = w.
Proof. by destruct w as [? ? ? ? ? ? ? []]. Qed.

(** The end of the initialisation, by whether the controller came up. *)
Lemma bring_up_run w :
  exists rc e', (let* ready := on_bus device_is_ready in
    if negb ready then ret (- ENODEV)
    else let* err := on_bus can_set_mode_normal in
      if negb (err =? 0) then ret err
      else let* err := on_bus can_start in
        if negb (err =? 0) then ret err else let* _ := call_thread_start in ret 0) w =
    (if rc =? 0 then (let* _ := call_thread_start in ret 0) (with_bus e' w) else Ret rc (with_bus e' w)) /\
    rx_filters e' = rx_filters (iso_ext (ext w)) /\ (rc = 0 -> started e' = true) /\
    (rc <> 0 -> started e' = started (iso_ext (ext w))).
Proof.
  destruct (ready_law (iso_ext (ext w))) as (b & Hb). rewrite (bus_step _ _ _ _ _ Hb), with_bus_self.
  destruct b; cbn [negb]; [|exists (- ENODEV), (iso_ext (ext w)); by rewrite with_bus_self].
  destruct (mode_law (iso_ext (ext w))) as (rc1 & e1 & Hmode & Hf1 & Hs1). rewrite (bus_step _ _ _ _ _ Hmode).
  destruct (Z.eqb_spec rc1 0) as [->|Hne1]; cbn [negb].
  2: { exists rc1, e1. rewrite (proj2 (Z.eqb_neq _ _) Hne1). by split_and!. }
  destruct (start_law e1) as (rc2 & e2 & Hstart & Hf2 & Hok & Hfail).
  rewrite (bus_step _ _ rc2 e2 (with_bus e1 w)) by exact Hstart. exists rc2, e2.
  split_and!; [|by rewrite Hf2, Hf1|done|by intros H; rewrite Hfail].
  by destruct (rc2 =? 0).
Qed.

End theorems.
