(* ===== verification/Gearshift.v ===== *)
(** * Binary encoded GPIOs and the gearshift
    ([drivers/binary_encoded_gpio], [lib/gearshift_address_providers])

    A position switch wired to GPIOs, one bit per pin, and the two addresses
    derived from its position: those of the UDS instance and the identifier of
    the CAN log. *)

From stdpp Require Import base list numbers relations.
From Stdlib Require Import ZArith Lia.
From S2P Require Import Prelude.
From S2P Require Import Gpio.
From S2P Require Import Iso14229.

#[local] Open Scope Z_scope.

(** ** Definitions *)

(** [sizeof (int) * 8 - 1]; a build assertion bounds the number of pins. *)
Definition MAXIMUM_SUPPORTED_PIN_COUNT : nat := 31.

Class InputPins (E : Type) := {
  device_is_ready : nat -> E -> bool;
  gpio_pin_get_dt : nat -> M E Z;
  gpio_pin_configure_input : nat -> M E Z;
}.

Section binary_encoded_gpio.
Context {E : Type} `{!InputPins E}.

(** The loop over the pins [pins] from bit [i] on. *)
Fixpoint get_value_loop (pins : list nat) (i value : Z) : M E Z :=
  match pins with
  | [] => ret value
  | p :: pins =>
      let* r := gpio_pin_get_dt p in
      if r <? 0 then ret r else get_value_loop pins (i + 1) (Z.lor value (Z.shiftl r i))
  end.

Definition get_value (input_pins : list nat) : M E Z := get_value_loop input_pins 0 0.

Fixpoint binary_encoded_gpio_init (input_pins : list nat) : M E Z :=
  match input_pins with
  | [] => ret 0
  | p :: input_pins =>
      let* ready := gets (device_is_ready p) in
      if negb ready then ret (- ENODEV)
      else
        let* r := gpio_pin_configure_input p in
        if r <? 0 then ret r else binary_encoded_gpio_init input_pins
  end.
End binary_encoded_gpio.

(** The base addresses of the Kconfig, and the address of the server library
    that stands for none. *)
Record gearshift_kconfig := GearshiftKconfig {
  BASE_PHYS_SA : Z;
  BASE_PHYS_TA : Z;
  CAN_LOG_BASE_ID : Z;
  UDS_TP_NOOP_ADDR : Z;
}.

Section gearshift.
Context {E : Type} `{!InputPins E} (cfg : gearshift_kconfig).
(** The device, by its pins; [DEVICE_DT_GET_OR_NULL] is NULL when the device
    tree has no such node. *)
Context (gearshift_dev : option (list nat)).

Definition binary_encoded_gpios_get_value (device : option (list nat)) : M E Z :=
  let* input_pins := of_option NullPointer device in get_value input_pins.

Definition uds_default_instance_get_addresses : M E UDSISOTpCConfig_t :=
  let base := IsoTpConfig (BASE_PHYS_SA cfg) (BASE_PHYS_TA cfg) (UDS_TP_NOOP_ADDR cfg) (UDS_TP_NOOP_ADDR cfg) in
  let* r := binary_encoded_gpios_get_value gearshift_dev in
  if r <? 0 then ret base
  else ret (IsoTpConfig (u32 (source_addr base + r)) (u32 (target_addr base + r))
              (source_addr_func base) (target_addr_func base)).

Definition can_log_get_id : M E Z :=
  let* r := binary_encoded_gpios_get_value gearshift_dev in
  if r <? 0 then ret (CAN_LOG_BASE_ID cfg) else ret (u16 (CAN_LOG_BASE_ID cfg + r)).
End gearshift.

(** ** Theorems *)

(** Reading a pin gives its level or an error, and changes nothing. *)
Class InputPinsLaws (E : Type) `{!InputPins E} := {
  level : E -> nat -> option bool;
  pin_error : E -> nat -> Z;
  pin_error_negative : forall e p, pin_error e p < 0;
  get_law : forall p e, gpio_pin_get_dt p e = Ret (match level e p with Some b => Z.b2z b | None => pin_error e p end) e;
}.

Section position.
Context {E : Type} `{!InputPins E} `{!InputPinsLaws E}.

(** The position: the pins' levels as a binary number, or the error of the
    first pin that cannot be read. *)
Definition position (e : E) (pins : list nat) : Z :=
  match list_find (fun p => level e p = None) pins with
  | Some (_, p) => pin_error e p
  | None => of_bits ((fun p => default false (level e p)) <$> pins)
  end.

Lemma position_cons e p pins :
  position e (p :: pins) = match level e p with
    | None => pin_error e p
    | Some b => if position e pins <? 0 then position e pins else Z.b2z b + 2 * position e pins
    end.
Proof.
  unfold position. cbn. destruct (level e p) as [b|] eqn:Hl; cbn.
  - rewrite decide_False by done. destruct (list_find _ pins) as [[i q]|] eqn:Hf; cbn.
    + by rewrite (proj2 (Z.ltb_lt _ _)) by apply pin_error_negative.
    + rewrite (proj2 (Z.ltb_ge _ _)) by apply of_bits_range. done.
  - by rewrite decide_True.
Qed.

Lemma position_range e pins : position e pins < 0 \/ 0 <= position e pins < 2 ^ Z.of_nat (length pins).
Proof.
  unfold position. destruct (list_find _ pins) as [[i q]|]; [left; apply pin_error_negative|right].
  match goal with |- context [of_bits ?l] => pose proof (of_bits_range l) as H end. by rewrite length_fmap in H.
Qed.

Lemma lor_shifted value i v : 0 <= i -> 0 <= value < 2 ^ i -> 0 <= v -> Z.lor value (Z.shiftl v i) = value + v * 2 ^ i.
Proof.
  intros Hi Hv Hn. rewrite <- Z.lxor_lor, <- Z.add_nocarry_lxor, Z.shiftl_mul_pow2; try done.
  all: apply Z.bits_inj'; intros j Hj; rewrite Z.land_spec, Z.testbit_0_l, Z.shiftl_spec by done;
    destruct (Z.lt_ge_cases j i).
  all: try (rewrite (Z.testbit_neg_r v) by lia; by rewrite andb_false_r).
  all: rewrite <- (Z.mod_small value (2 ^ i)), Z.mod_pow2_bits_high by lia; done.
Qed.

Lemma get_value_loop_run e : forall pins i value, 0 <= i -> 0 <= value < 2 ^ i ->
  get_value_loop pins i value e =
  Ret (if position e pins <? 0 then position e pins else value + position e pins * 2 ^ i) e.
Proof.
  induction pins as [|p pins IH]; intros i value Hi Hv; [cbn; by rewrite Z.add_0_r|].
  cbn [get_value_loop]. rewrite (bind_step _ _ _ _ _ (get_law p e)), position_cons.
  destruct (level e p) as [b|].
  - rewrite (proj2 (Z.ltb_ge (Z.b2z b) 0)) by (destruct b; cbn; lia).
    rewrite lor_shifted by (done || destruct b; cbn; lia).
    rewrite IH; [|lia|rewrite Z.pow_add_r by lia; destruct b; cbn [Z.b2z]; lia].
    destruct (Z.ltb_spec (position e pins) 0) as [Hneg|Hpos]; [by rewrite (proj2 (Z.ltb_lt _ _)) by done|].
    rewrite (proj2 (Z.ltb_ge _ _)) by (destruct b; cbn; lia). f_equal. rewrite Z.pow_add_r by lia. lia.
  - by rewrite (proj2 (Z.ltb_lt _ _)) by apply pin_error_negative.
Qed.

(** The position of the switch and the addresses derived from it.  With the
    pins readable the value is the number their levels spell, the first pin the
    lowest bit, between 0 and two to the number of pins and within an int;
    otherwise it is the
    error of the first unreadable pin.  The UDS addresses and the log
    identifier are their bases plus the position, the bases alone on an error;
    if the bases leave room for every position, different positions give
    different addresses. *)
Theorem gearshift_addresses cfg pins (e : E) :
  (length pins <= MAXIMUM_SUPPORTED_PIN_COUNT)%nat ->
  0 <= BASE_PHYS_SA cfg -> BASE_PHYS_SA cfg + 2 ^ Z.of_nat (length pins) <= 2 ^ 32 ->
  0 <= BASE_PHYS_TA cfg -> BASE_PHYS_TA cfg + 2 ^ Z.of_nat (length pins) <= 2 ^ 32 ->
  0 <= CAN_LOG_BASE_ID cfg -> CAN_LOG_BASE_ID cfg + 2 ^ Z.of_nat (length pins) <= 2 ^ 16 ->
  get_value pins e = Ret (position e pins) e /\
  let k := Z.max 0 (position e pins) in
  0 <= k < 2 ^ Z.of_nat (length pins) /\ k < 2 ^ 31 /\
  uds_default_instance_get_addresses cfg (Some pins) e =
    Ret (IsoTpConfig (BASE_PHYS_SA cfg + k) (BASE_PHYS_TA cfg + k) (UDS_TP_NOOP_ADDR cfg) (UDS_TP_NOOP_ADDR cfg)) e /\
  can_log_get_id cfg (Some pins) e = Ret (CAN_LOG_BASE_ID cfg + k) e.
Proof.
  intros Hpins Hsa Hsa' Hta Hta' Hid Hid'.
  assert (get_value pins e = Ret (position e pins) e) as Hget.
  { unfold get_value. rewrite get_value_loop_run by lia. destruct (Z.ltb_spec (position e pins) 0); f_equal; lia. }
  split; [exact Hget|]. pose proof (position_range e pins) as Hr. pose proof (Z.pow_pos_nonneg 2 (Z.of_nat (length pins))).
  assert (2 ^ Z.of_nat (length pins) <= 2 ^ 31) by (apply Z.pow_le_mono_r; unfold MAXIMUM_SUPPORTED_PIN_COUNT in Hpins; lia).
  assert (binary_encoded_gpios_get_value (Some pins) e = Ret (position e pins) e) as Hdev by exact Hget.
  split_and!; [lia|lia|lia| |].
  - unfold uds_default_instance_get_addresses. rewrite (bind_step _ _ _ _ _ Hdev).
    destruct (Z.ltb_spec (position e pins) 0); cbn; unfold ret; do 2 f_equal; rewrite ?(wrap_small 32) by (unfold in_width; lia); lia.
  - unfold can_log_get_id. rewrite (bind_step _ _ _ _ _ Hdev).
    destruct (Z.ltb_spec (position e pins) 0); cbn; unfold ret; f_equal; rewrite ?(wrap_small 16) by (unfold in_width; lia); lia.
Qed.
End position.
