(* ===== verification/SensorSamples.v ===== *)
(** * The samples of the board's inputs, of the UDS server and of ISO-TP

    [AdcSample] (samples/adc) prints the analog inputs and the reference
    voltage, [GearshiftSample] (samples/gearshift) the position of the switch
    of [Gearshift], [IsoSample] (samples/iso14229) runs the server instance of
    [Iso14229] with a callback of its own, and [IsoTpSample]
    (samples/lin2can/isotp) sends and prints what comes over a transport.  What a program prints is what it
    shows, so printing is an operation of the environment here. *)

From stdpp Require Import base list numbers relations.
From Stdlib Require Import ZArith Lia.
From S2P Require Import Prelude.
From S2P Require Import Can.
From S2P Require Import UdsTypes.
From S2P Require Import Iso14229.
From S2P Require Import Gpio.
From S2P Require Import Gearshift.
From S2P Require Import BoardSamples.

#[local] Open Scope Z_scope.

(** ** samples/adc *)

Module AdcSample.
(** A channel of the device tree: its number and whether it is differential. *)
Record adc_dt_spec := AdcSpec { channel_id : Z; differential : bool }.

(** The calls of [printk] in the loop. *)
Inductive adc_text :=
| Reading (count : Z)
| Channel (channel : Z)
| NotRead (err : Z)
| Raw (val : Z)
| NoMillivolts
| Millivolts (val : Z)
| NoFetch (err : Z)
| NoGet (err : Z)
| Vref (val1 val2 : Z).

Class AdcBoard (E : Type) := {
  adc_is_ready_dt : adc_dt_spec -> M E bool;
  adc_channel_setup_dt : adc_dt_spec -> M E Z;
  device_is_ready : M E bool;
  (** the error, and what is in [buf]; [sequence] has just been set to the channel *)
  adc_read_dt : adc_dt_spec -> M E (Z * Z);
  (** the error, and what [val_mv] has become *)
  adc_raw_to_millivolts_dt : adc_dt_spec -> Z -> M E (Z * Z);
  sensor_sample_fetch_chan : M E Z;
  sensor_channel_get : M E (Z * (Z * Z));
  printk : adc_text -> M E unit;
  k_sleep : Z -> M E unit;
}.

Section program.
Context {E : Type} `{!AdcBoard E}.

(** [(int32_t)((int16_t)buf)] *)
Definition int16_of (buf : Z) : Z := if buf <? 2 ^ 15 then buf else buf - 2 ^ 16.

Fixpoint adc_setup (channels : list adc_dt_spec) : M E bool :=
  match channels with
  | [] => ret true
  | c :: channels =>
      let* ready := adc_is_ready_dt c in
      if negb ready then ret false
      else
        let* err := adc_channel_setup_dt c in
        if err <? 0 then ret false else adc_setup channels
  end.

(** The body of the inner loop. *)
Definition adc_channel (c : adc_dt_spec) : M E unit :=
  printk (Channel (channel_id c)) ;;
  let* r := adc_read_dt c in
  let '(err, buf) := r in
  if err <? 0 then printk (NotRead err)
  else
    let val_mv := if differential c then int16_of buf else buf in
    printk (Raw val_mv) ;;
    let* r := adc_raw_to_millivolts_dt c val_mv in
    let '(err, val_mv) := r in
    if err <? 0 then printk NoMillivolts else printk (Millivolts val_mv).

Fixpoint adc_channels_loop (channels : list adc_dt_spec) : M E unit :=
  match channels with [] => ret tt | c :: channels => adc_channel c ;; adc_channels_loop channels end.

(** The body of the outer loop; the sleep is at its end. *)
Definition adc_round (channels : list adc_dt_spec) (count : Z) : M E Z :=
  printk (Reading count) ;;
  adc_channels_loop channels ;;
  let count := u32 (count + 1) in
  let* err := sensor_sample_fetch_chan in
  if err <? 0 then (printk (NoFetch err) ;; ret count)
  else
    let* r := sensor_channel_get in
    let '(err, (val1, val2)) := r in
    if err <? 0 then (printk (NoGet err) ;; ret count)
    else
      printk (Vref val1 val2) ;;
      k_sleep 1000 ;;
      ret count.

Definition adc_main (channels : list adc_dt_spec) (k : nat) : M E Z :=
  let* ok := adc_setup channels in
  if negb ok then ret 0
  else
    let* ready := device_is_ready in
    if negb ready then ret 0 else (loop_rounds (adc_round channels) k 0 ;; ret 0).
End program.

(** The board over time: what a channel samples, or the error, as raw bits; the
    conversion; the reference voltage; what has been printed. *)
Class AdcBoardLaws (E : Type) `{!AdcBoard E} := {
  now : E -> Z;
  printed : E -> list adc_text;
  sample : Z -> adc_dt_spec -> Z + Z;
  millivolts : adc_dt_spec -> Z -> option Z;
  reference : Z -> Z + Z * Z;
  sample_range : forall t c, match sample t c with inl err => err < 0 | inr buf => 0 <= buf < 2 ^ 16 end;
  reference_range : forall t, match reference t with inl err => err < 0 | inr _ => True end;
  ready_law : forall c e, exists b e', adc_is_ready_dt c e = Ret b e' /\ (b = true /\ now e' = now e /\ printed e' = printed e);
  setup_law : forall c e, exists r e', adc_channel_setup_dt c e = Ret r e' /\ (0 <= r /\ now e' = now e /\ printed e' = printed e);
  vref_ready_law : forall e, exists b e', device_is_ready e = Ret b e' /\ (b = true /\ now e' = now e /\ printed e' = printed e);
  read_law : forall c e, exists r e', adc_read_dt c e = Ret r e' /\ ((now e' = now e /\ printed e' = printed e) /\
    match sample (now e) c with inl err => r.1 = err | inr buf => 0 <= r.1 /\ r.2 = buf end);
  convert_law : forall c v e, exists r e', adc_raw_to_millivolts_dt c v e = Ret r e' /\ ((now e' = now e /\ printed e' = printed e) /\
    match millivolts c v with None => r.1 < 0 | Some mv => 0 <= r.1 /\ r.2 = mv end);
  fetch_law : forall e, exists r e', sensor_sample_fetch_chan e = Ret r e' /\ ((now e' = now e /\ printed e' = printed e) /\
    match reference (now e) with inl err => r = err | inr _ => 0 <= r end);
  channel_law : forall e, exists r e', sensor_channel_get e = Ret r e' /\ ((now e' = now e /\ printed e' = printed e) /\
    match reference (now e) with inl _ => True | inr v => 0 <= r.1 /\ r.2 = v end);
  print_law : forall x e, exists r e', printk x e = Ret r e' /\ (now e' = now e /\ printed e' = printed e ++ [x]);
  sleep_law : forall ms e, exists r e', k_sleep ms e = Ret r e' /\ (now e' = now e + ms /\ printed e' = printed e);
}.

Section theorems.
Context {E : Type} `{!AdcBoard E} `{!AdcBoardLaws E}.

(** The number a channel's bits stand for. *)
Definition value_of (c : adc_dt_spec) (buf : Z) : Z := if differential c && (2 ^ 15 <=? buf) then buf - 2 ^ 16 else buf.

(** The lines of a channel, and of a round, at time [t]. *)
Definition channel_lines (t : Z) (c : adc_dt_spec) : list adc_text :=
  Channel (channel_id c) :: match sample t c with
  | inl err => [NotRead err]
  | inr buf => [Raw (value_of c buf); match millivolts c (value_of c buf) with None => NoMillivolts | Some mv => Millivolts mv end]
  end.

Definition adc_lines (channels : list adc_dt_spec) (count t : Z) : list adc_text :=
  Reading count :: concat (map (channel_lines t) channels) ++
  [match reference t with inl err => NoFetch err | inr (v1, v2) => Vref v1 v2 end].

(** The time a round takes. *)
Definition pause (t : Z) : Z := match reference t with inl _ => 0 | inr _ => 1000 end.

(** The rounds from [t] on. *)
Fixpoint adc_log (channels : list adc_dt_spec) (k : nat) (count t : Z) : list adc_text :=
  match k with O => [] | S k => adc_lines channels count t ++ adc_log channels k (u32 (count + 1)) (t + pause t) end.
Fixpoint adc_end (k : nat) (t : Z) : Z := match k with O => t | S k => adc_end k (t + pause t) end.

(** A step that prints [out] and takes [dt]. *)
Definition says (dt : Z) (out : list adc_text) (e e' : E) : Prop := now e' = now e + dt /\ printed e' = printed e ++ out.

Lemma says_trans d1 d2 o1 o2 e e1 e2 : says d1 o1 e e1 -> says d2 o2 e1 e2 -> says (d1 + d2) (o1 ++ o2) e e2.
Proof. intros [H1 P1] [H2 P2]. split; [lia|]. by rewrite P2, P1, app_assoc. Qed.

Lemma print_wp x e (Q : unit -> E -> Prop) : (forall e', says 0 [x] e e' -> Q tt e') -> wp (printk x) Q e.
Proof. intros HQ. eapply wp_law; [apply print_law|]. intros [] e' [H1 H2]. apply HQ. split; [lia|done]. Qed.

Lemma value_of_int16 c buf : 0 <= buf < 2 ^ 16 -> (if differential c then int16_of buf else buf) = value_of c buf.
Proof. intros Hb. unfold value_of, int16_of. destruct (differential c); cbn [andb]; [|done]. destruct (Z.ltb_spec buf (2 ^ 15)), (Z.leb_spec (2 ^ 15) buf); lia. Qed.

(** What is printed for a channel is the number of its kind: between -32768 and
    32767 for a differential one, between 0 and 65535 otherwise. *)
Lemma value_of_range c buf : 0 <= buf < 2 ^ 16 -> if differential c then - 2 ^ 15 <= value_of c buf < 2 ^ 15 else 0 <= value_of c buf < 2 ^ 16.
Proof. intros Hb. unfold value_of. destruct (differential c); cbn [andb]; [|done]. destruct (Z.leb_spec (2 ^ 15) buf); lia. Qed.

Lemma channel_wp c e : wp (adc_channel c) (fun _ e' => says 0 (channel_lines (now e) c) e e') e.
Proof.
  unfold adc_channel, channel_lines. apply wp_bind, print_wp. intros e1 S1. apply wp_bind.
  eapply wp_law; [apply read_law|]. intros [err buf] e2 ([T2 P2] & H2). cbn in H2. rewrite (proj1 S1), Z.add_0_r in H2.
  pose proof (sample_range (now e) c) as Hr. destruct (sample (now e) c) as [er|bf].
  - subst err. rewrite (proj2 (Z.ltb_lt _ _)) by done. apply print_wp. intros e3 [T3 P3]. destruct S1 as [T1 P1].
    split; [lia|]. by rewrite P3, P2, P1, <- app_assoc.
  - destruct H2 as [Herr ->]. rewrite (proj2 (Z.ltb_ge _ _)), value_of_int16 by done. apply wp_bind, print_wp. intros e3 [T3 P3]. apply wp_bind.
    eapply wp_law; [apply convert_law|]. intros [err' mv] e4 ([T4 P4] & H4). cbn in H4. destruct S1 as [T1 P1].
    destruct (millivolts c (value_of c bf)) as [v|].
    + destruct H4 as [H4 ->]. rewrite (proj2 (Z.ltb_ge _ _)) by done. apply print_wp. intros e5 [T5 P5]. split; [lia|]. by rewrite P5, P4, P3, P2, P1, <- !app_assoc.
    + rewrite (proj2 (Z.ltb_lt _ _)) by done. apply print_wp. intros e5 [T5 P5]. split; [lia|]. by rewrite P5, P4, P3, P2, P1, <- !app_assoc.
Qed.

Lemma channels_wp channels e : wp (adc_channels_loop channels) (fun _ e' => says 0 (concat (map (channel_lines (now e)) channels)) e e') e.
Proof.
  revert e. induction channels as [|c channels IH]; intros e; cbn.
  - apply wp_ret. split; [lia|by rewrite app_nil_r].
  - apply wp_bind. eapply wp_mono; [apply channel_wp|]. cbn beta. intros _ e1 S1.
    eapply wp_mono; [apply IH|]. cbn beta. intros _ e2 S2. rewrite (proj1 S1), Z.add_0_r in S2. exact (says_trans _ _ _ _ _ _ _ S1 S2).
Qed.

Lemma adc_round_wp channels count e :
  wp (adc_round channels count) (fun count' e' => count' = u32 (count + 1) /\ says (pause (now e)) (adc_lines channels count (now e)) e e') e.
Proof.
  unfold adc_round, pause, adc_lines. apply wp_bind, print_wp. intros e1 S1. apply wp_bind.
  eapply wp_mono; [apply channels_wp|]. cbn beta. intros _ e2 S2. pose proof (says_trans _ _ _ _ _ _ _ S1 S2) as S. rewrite (proj1 S1), !Z.add_0_r in S.
  apply wp_bind. eapply wp_law; [apply fetch_law|]. intros err e3 ([T3 P3] & H3). cbn beta. destruct S as [T P].
  assert (now e2 = now e) as Hnow by lia. rewrite Hnow in H3. pose proof (reference_range (now e)) as Hr. destruct (reference (now e)) as [er|[v1 v2]] eqn:Href.
  - subst err. rewrite (proj2 (Z.ltb_lt _ _)) by done. apply wp_bind, print_wp. intros e4 [T4 P4]. apply wp_ret.
    split; [done|]. split; [lia|]. rewrite P4, P3, P. by rewrite <- !app_assoc.
  - rewrite (proj2 (Z.ltb_ge _ _)) by done. apply wp_bind. eapply wp_law; [apply channel_law|]. intros [err' [w1 w2]] e4 ([T4 P4] & H4).
    rewrite T3, Hnow, Href in H4. destruct H4 as [H4 [= -> ->]]. cbn in H4. rewrite (proj2 (Z.ltb_ge _ _)) by done.
    apply wp_bind, print_wp. intros e5 [T5 P5]. apply wp_bind. eapply wp_law; [apply sleep_law|]. intros _ e6 [T6 P6]. apply wp_ret.
    split; [done|]. split; [lia|]. rewrite P6, P5, P4, P3, P. by rewrite <- !app_assoc.
Qed.

Lemma adc_rounds_wp channels k count e :
  wp (loop_rounds (adc_round channels) k count) (fun _ e' => now e' = adc_end k (now e) /\ printed e' = printed e ++ adc_log channels k count (now e)) e.
Proof.
  revert count e. induction k as [|k IH]; intros count e; cbn [loop_rounds adc_end adc_log].
  - apply wp_ret. by rewrite app_nil_r.
  - apply wp_bind. eapply wp_mono; [apply adc_round_wp|]. cbn beta. intros count' e1 (-> & T1 & P1).
    eapply wp_mono; [apply IH|]. cbn beta. intros _ e2 [T2 P2]. by rewrite T2, P2, P1, T1, app_assoc.
Qed.

Lemma adc_setup_wp channels e : wp (adc_setup channels) (fun ok e' => ok = true /\ now e' = now e /\ printed e' = printed e) e.
Proof.
  revert e. induction channels as [|c channels IH]; intros e; cbn [adc_setup]; [by apply wp_ret|].
  apply wp_bind. eapply wp_law; [apply ready_law|]. intros _ e1 (-> & T1 & P1). cbn [negb].
  apply wp_bind. eapply wp_law; [apply setup_law|]. intros r e2 (Hr & T2 & P2). rewrite (proj2 (Z.ltb_ge _ _)) by done.
  eapply wp_mono; [apply IH|]. cbn beta. intros _ e3 (-> & T3 & P3). split; [done|]. split; congruence.
Qed.

Lemma adc_main_wp channels k e :
  wp (adc_main channels k) (fun rc e' => rc = 0 /\ now e' = adc_end k (now e) /\ printed e' = printed e ++ adc_log channels k 0 (now e)) e.
Proof.
  unfold adc_main. apply wp_bind. eapply wp_mono; [apply adc_setup_wp|]. cbn beta. intros _ e1 (-> & T1 & P1). cbn [negb].
  apply wp_bind. eapply wp_law; [apply vref_ready_law|]. intros _ e2 (-> & T2 & P2). cbn [negb].
  apply wp_bind. eapply wp_mono; [apply adc_rounds_wp|]. cbn beta. intros _ e3 [T3 P3]. apply wp_ret. by rewrite T3, P3, T2, P2, T1, P1.
Qed.

(** [adc_prints]: on a board whose devices are ready the program prints, round
    by round, what the channels and the reference show at that time: the signed
    number for a differential channel, the error where a read fails. *)
Theorem adc_prints channels k e :
  wp (adc_main channels k) (fun rc e' => rc = 0 /\ now e' = adc_end k (now e) /\ printed e' = printed e ++ adc_log channels k 0 (now e)) e.
Proof. apply adc_main_wp. Qed.

(** [adc_spins]: while the reference cannot be read the rounds do not wait for
    the second: any number of them is printed at the same instant. *)
Theorem adc_spins channels k err e : reference (now e) = inl err -> wp (adc_main channels k) (fun rc e' => rc = 0 /\ now e' = now e) e.
Proof.
  intros Href. assert (adc_end k (now e) = now e) as <- by (induction k as [|k IH]; cbn; [done|]; unfold pause at 1; by rewrite Href, Z.add_0_r).
  eapply wp_mono; [apply adc_main_wp|]. cbn beta. by intros rc e' (H & T & _).
Qed.
End theorems.
End AdcSample.

(** ** samples/gearshift *)

Module GearshiftSample.
Class GearConsole (E : Type) := {
  log_position : Z -> M E unit;
  log_failure : Z -> M E unit;
  k_sleep : Z -> M E unit;
}.

Section program.
Context {E : Type} `{!InputPins E} `{!GearConsole E} (gearshift_dev : nat) (input_pins : list nat).

Definition gearshift_round (_ : unit) : M E unit :=
  let* position := binary_encoded_gpios_get_value (Some input_pins) in
  (if position <? 0 then log_failure position else log_position position) ;;
  k_sleep 1000.

Definition gearshift_main (k : nat) : M E Z :=
  let* ready := gets (device_is_ready gearshift_dev) in
  if negb ready then ret (- ENODEV) else (loop_rounds gearshift_round k tt ;; ret 0).
End program.

(** The log, and the levels of the pins as time goes by. *)
Class GearConsoleLaws (E : Type) `{!InputPins E} `{!GearConsole E} `{!InputPinsLaws E} := {
  logged : E -> list Z;
  now : E -> Z;
  switch_at : Z -> list nat -> Z;
  switch_law : forall e pins, position e pins = switch_at (now e) pins;
  position_law : forall p e, exists r e', log_position p e = Ret r e' /\ (now e' = now e /\ logged e' = logged e ++ [p]);
  failure_law : forall p e, exists r e', log_failure p e = Ret r e' /\ (now e' = now e /\ logged e' = logged e ++ [p]);
  sleep_law : forall ms e, exists r e', k_sleep ms e = Ret r e' /\ (now e' = now e + ms /\ logged e' = logged e);
}.

Section theorems.
Context {E : Type} `{!InputPins E} `{!GearConsole E} `{!InputPinsLaws E} `{!GearConsoleLaws E}.
Context (gearshift_dev : nat) (input_pins : list nat).

(** The positions of the first [n] seconds from [t] on. *)
Definition positions (t : Z) (n : nat) : list Z := map (fun i => switch_at (t + 1000 * i) input_pins) (seqZ 0 (Z.of_nat n)).

(** After [i] rounds. *)
Definition watched (e0 : E) (i : nat) (_ : unit) (e : E) : Prop :=
  now e = now e0 + 1000 * Z.of_nat i /\ logged e = logged e0 ++ positions (now e0) i.

Lemma gearshift_round_wp e0 i u e : watched e0 i u e -> wp (gearshift_round input_pins u) (watched e0 (S i)) e.
Proof.
  intros [Ht Hl]. unfold gearshift_round. apply wp_bind.
  assert (binary_encoded_gpios_get_value (Some input_pins) e = Ret (position e input_pins) e) as Hget.
  { unfold binary_encoded_gpios_get_value, of_option. cbn. unfold get_value. change (bind (ret input_pins) ?k e) with (k input_pins e).
    cbn beta. rewrite get_value_loop_run by lia. destruct (Z.ltb_spec (position e input_pins) 0); f_equal; lia. }
  apply wp_Ret. exists (position e input_pins), e. split; [exact Hget|]. apply wp_bind.
  apply (wp_mono _ (fun _ e' => now e' = now e /\ logged e' = logged e ++ [position e input_pins])).
  { destruct (position e input_pins <? 0); (eapply wp_law; [apply failure_law || apply position_law|]); intros r e1 H1; exact H1. }
  cbn beta. intros _ e1 [T1 L1]. eapply wp_law; [apply sleep_law|]. intros r e2 [T2 L2]. unfold watched, positions in *.
  rewrite Nat2Z.inj_succ, <- Z.add_1_r, seqZ_app, seqZ_one, map_app by lia. split; [lia|].
  rewrite L2, L1, Hl, switch_law, Ht, <- app_assoc. by rewrite Z.add_0_l.
Qed.

(** [positions_logged]: once a second the log gets the position of the switch,
    or the error of the first pin that cannot be read. *)
Theorem positions_logged k e : device_is_ready gearshift_dev e = true ->
  wp (gearshift_main gearshift_dev input_pins k) (fun rc e' => rc = 0 /\ logged e' = logged e ++ positions (now e) k) e.
Proof.
  intros Hready. unfold gearshift_main. apply wp_bind, wp_gets. rewrite Hready. cbn [negb]. apply wp_bind.
  eapply wp_mono; [apply (wp_loop_rounds _ (watched e) (gearshift_round_wp e) k 0)|].
  - split; [lia|]. unfold positions. cbn. by rewrite app_nil_r.
  - cbn beta. intros _ e1 [_ H1]. by apply wp_ret.
Qed.
End theorems.
End GearshiftSample.

(** ** samples/iso14229 *)

Module IsoSample.
Definition CAN_MODE_NORMAL : Z := 0.

Class CanPort (E : Type) := {
  device_is_ready : M E bool;
  can_set_mode : Z -> M E Z;
  can_start : M E Z;
}.

(** The callback of the program, and its number as a function pointer. *)
Definition EVENT_CALLBACK : nat := 1.

Definition sample_event_callback {W} (event : UDSEvent_t) (arg : uds_arg) : M W UDSErr_t :=
  match event with
  | UDS_EVT_DiagSessCtrl => match arg with UDSDiagSessCtrlArgs _ => ret UDS_PositiveResponse | _ => fail BadArgument end
  | UDS_EVT_SessionTimeout => ret UDS_PositiveResponse
  | _ => ret UDS_NRC_SubFunctionNotSupported
  end.

Section program.
Context {E : Type} `{!IsoServer E} `{!CanController E} `{!CanPort E} (UDS_TP_NOOP_ADDR : Z).

Definition iso_cfg : UDSISOTpCConfig_t := IsoTpConfig 0x7E8 0x7E0 0x7DF UDS_TP_NOOP_ADDR.

Definition iso_main : M (iso_world E) Z :=
  let* err := iso14229_zephyr_init UDS_TP_NOOP_ADDR iso_cfg 0 in
  if negb (err =? 0) then ret err
  else
    let* ready := env device_is_ready in
    if negb ready then ret (- ENODEV)
    else
      let* err := env (can_set_mode CAN_MODE_NORMAL) in
      if negb (err =? 0) then ret err
      else
        let* err := env can_start in
        if negb (err =? 0) then ret err
        else
          let* i := gets iso in
          if negb (set_callback (functions i)) then fail NullPointer
          else
            let* err := iso14229_zephyr_set_callback (Some EVENT_CALLBACK) in
            if negb (err =? 0) then ret err
            else
              let* i := gets iso in
              if negb (thread_start (functions i)) then fail NullPointer
              else
                let* err := iso14229_zephyr_thread_start in
                if negb (err =? 0) then ret err else ret 0.
End program.

(** The port, which has nothing to do with the filters; the numbers of the
    events and errors are those of the server library. *)
Class IsoSampleLaws (E : Type) `{!IsoServer E} `{!CanController E} `{!CanPort E} `{!IsoServerLaws E} := {
  started : E -> bool;
  event_number : UDSEvent_t -> Z;
  error_number : UDSErr_t -> Z;
  ready_law : forall e, exists b e', device_is_ready e = Ret b e' /\ (rx_filters e' = rx_filters e);
  mode_law : forall m e, exists r e', can_set_mode m e = Ret r e' /\ (rx_filters e' = rx_filters e);
  start_law : forall e, exists r e', can_start e = Ret r e' /\ (rx_filters e' = rx_filters e /\ (r = 0 -> started e' = true));
  created_law : forall e b e', k_thread_create e = Ret b e' -> started e' = started e;
  callback_law : forall event arg ctx (w : iso_world E), run_event_callback EVENT_CALLBACK (event_number event) arg ctx w =
    bind (sample_event_callback event arg) (fun r => ret (error_number r)) w;
}.

Section theorems.
Context {E : Type} `{!IsoServer E} `{!CanController E} `{!CanPort E} `{!IsoServerLaws E} `{!IsoSampleLaws E}.

(** The answer of an instance on which nobody holds the mutex to an event. *)
Definition answers (w : iso_world E) (event : UDSEvent_t) (arg : uds_arg) (r : UDSErr_t) : Prop :=
  uds_cb (event_number event) arg w = Ret (error_number r) w.

Lemma uds_cb_answers w event arg r :
  Iso14229.event_callback (iso w) = Some EVENT_CALLBACK ->
  (forall w' : iso_world E, sample_event_callback event arg w' = Ret r w') -> answers w event arg r.
Proof.
  intros Hcb Hr. destruct w as [i e]. unfold answers, uds_cb. rewrite update_step. unfold bind at 1, gets.
  cbn [iso] in *. change (Iso14229.event_callback (set_mutex _ i)) with (Iso14229.event_callback i). rewrite Hcb.
  erewrite bind_step; [|rewrite callback_law; unfold bind; rewrite Hr; reflexivity]. rewrite update_step. unfold ret. f_equal. f_equal.
  destruct i. unfold set_mutex. cbn. f_equal. lia.
Qed.

(** [iso_sample_serves]: the program ends with an error of the library, the
    kernel or the controller, and then no thread of its has been started; or it
    returns 0, and the controller runs, the filters of 0x7E8 and 0x7DF are
    there, the thread runs, and the server answers a change of the session and
    its end positively and every other event with "sub-function not
    supported". *)
Theorem iso_sample_serves noop (w : iso_world E) : noop <> 0x7DF ->
  wp (iso_main noop) (fun rc w' =>
    if rc =? 0 then
      started (iso_ext w') = true /\ thread (iso w') = ThreadState true false /\ tp (iso w') = IsoTp 0x7E8 0x7E0 0x7DF noop /\
      rx_filters (iso_ext w') = rx_filters (iso_ext w) ++
        [(phys_link, CanFilter 0x7E8 CAN_STD_ID_MASK); (func_link, CanFilter 0x7DF CAN_STD_ID_MASK)] /\
      (forall type, answers w' UDS_EVT_DiagSessCtrl (UDSDiagSessCtrlArgs type) UDS_PositiveResponse) /\
      (forall arg, answers w' UDS_EVT_SessionTimeout arg UDS_PositiveResponse) /\
      (forall event arg, event <> UDS_EVT_DiagSessCtrl -> event <> UDS_EVT_SessionTimeout ->
        answers w' event arg UDS_NRC_SubFunctionNotSupported)
    else thread (iso w') = thread (iso w) \/ thread (iso w') = ThreadState false false) w.
Proof.
  intros Hnoop. unfold iso_main. apply wp_bind.
  destruct (iso_init_run noop (iso_cfg noop) 0 w) as (rc & i1 & e1 & Hrun & _ & _ & _ & _ & Hth & Hok).
  apply wp_Ret. exists rc, (IsoWorld i1 e1). split; [exact Hrun|]. destruct (Z.eqb_spec rc 0) as [->|Hne]; cbn [negb].
  2: { apply wp_ret. rewrite (proj2 (Z.eqb_neq _ _)) by done. left. by apply Hth. }
  destruct (Hok eq_refl) as (Hfn & Hts & _ & _ & _ & Htp & Hfil).
  assert (rx_filters e1 = rx_filters (iso_ext w) ++ [(phys_link, CanFilter 0x7E8 CAN_STD_ID_MASK); (func_link, CanFilter 0x7DF CAN_STD_ID_MASK)]) as Hfil'.
  { rewrite Hfil. unfold wanted. cbn [source_addr_func iso_cfg]. by rewrite (proj2 (Z.eqb_neq 0x7DF noop)) by congruence. }
  unfold wp. destruct (ready_law e1) as (b & e2 & H2 & F2). rewrite (env_step _ _ _ _ _ _ H2).
  destruct b; cbn [negb]; [|by right].
  destruct (mode_law CAN_MODE_NORMAL e2) as (r3 & e3 & H3 & F3). rewrite (env_step _ _ _ _ _ _ H3).
  destruct (Z.eqb_spec r3 0) as [->|H0]; cbn [negb]; [|unfold ret; rewrite (proj2 (Z.eqb_neq _ _)) by done; by right].
  destruct (start_law e3) as (r4 & e4 & H4 & F4 & S4). rewrite (env_step _ _ _ _ _ _ H4).
  destruct (Z.eqb_spec r4 0) as [->|H0]; cbn [negb]; [|unfold ret; rewrite (proj2 (Z.eqb_neq _ _)) by done; by right].
  erewrite bind_step by reflexivity. cbn [iso]. rewrite Hfn. cbn [set_callback negb].
  unfold iso14229_zephyr_set_callback. rewrite bind_assoc, update_step, bind_assoc, update_step, bind_assoc, update_step, bind_ret_l.
  cbn [Z.eqb negb]. erewrite bind_step by reflexivity. cbn. rewrite Hfn. cbn [thread_start negb].
  unfold iso14229_zephyr_thread_start. rewrite bind_assoc. erewrite bind_step by reflexivity. cbn. rewrite Hts. cbn [thread_running].
  rewrite bind_assoc, update_step, bind_assoc. destruct (thread_law e4) as (b & e5 & H5 & _ & F5). rewrite (env_step _ _ _ _ _ _ H5).
  destruct b; cbn [negb]; [|by right]. rewrite bind_assoc, update_step. cbn.
  split_and!; [by rewrite (created_law _ _ _ H5), S4|done|by rewrite Htp|by rewrite F5, F4, F3, F2|..].
  - intros type. by apply uds_cb_answers.
  - intros arg. by apply uds_cb_answers.
  - intros event arg Hd Ht. apply uds_cb_answers; [done|]. intros w'. by destruct event.
Qed.
End theorems.
End IsoSample.

(** ** samples/lin2can/isotp *)

Module IsoTpSample.
(** What a thread prints or logs. *)
Inductive isotp_text := Printed (data : list Z) | ReceivingError (err : Z) | GotBytes (received : Z) | BindError (err : Z) | SendError (err : Z).

(** [isotp_recv_net] gives what remains, or an error, and the chain of
    fragments; [ISOTP_N_OK] is 0. *)
Class IsoTpLink (E : Type) := {
  device_is_ready : M E bool;
  can_set_mode : Z -> M E Z;
  can_start : M E Z;
  k_sem_give : M E unit;
  (** the semaphore is taken without a limit, so the call ends when it is *)
  k_sem_take : M E unit;
  isotp_bind : Z -> Z -> M E Z;
  isotp_recv_net : M E (Z * list (list Z));
  isotp_send : list Z -> Z -> Z -> M E Z;
  say : isotp_text -> M E unit;
  k_msleep : Z -> M E unit;
}.

Definition ISOTP_N_OK : Z := 0.
Definition rx_addr : Z := 0x80.
Definition tx_addr : Z := 0x180.

Section program.
Context {E : Type} `{!IsoTpLink E} (tx_data : list Z).

(** The loop over the chain. *)
Fixpoint print_chain (buf : list (list Z)) (received : Z) : M E Z :=
  match buf with
  | [] => ret received
  | frag :: buf => say (Printed frag) ;; print_chain buf (received + Z.of_nat (length frag))
  end.

(** The inner loop: until nothing remains or an error; [fuel]: how often
    something may remain. *)
Fixpoint receive_message (fuel : nat) (received : Z) : M E Z :=
  match fuel with
  | O => fail OutOfFuel
  | S fuel =>
      let* r := isotp_recv_net in
      let '(remaining, buf) := r in
      if remaining <? 0 then (say (ReceivingError remaining) ;; ret received)
      else
        let* received := print_chain buf received in
        if remaining =? 0 then ret received else receive_message fuel received
  end.

Definition receiver_round (fuel : nat) (_ : unit) : M E unit :=
  let* received := receive_message fuel 0 in
  say (GotBytes received).

Definition receiver_thread (fuel k : nat) : M E unit :=
  k_sem_take ;;
  let* err := isotp_bind tx_addr rx_addr in
  if negb (err =? ISOTP_N_OK) then say (BindError err) else loop_rounds (receiver_round fuel) k tt.

Definition sender_round (_ : unit) : M E unit :=
  k_msleep 1000 ;;
  let* err := isotp_send tx_data tx_addr rx_addr in
  if negb (err =? ISOTP_N_OK) then say (SendError err) else ret tt.

Definition isotp_main (k : nat) : M E Z :=
  let* ready := device_is_ready in
  if negb ready then ret 0
  else
    let* err := can_set_mode 0 in
    if negb (err =? 0) then ret 0
    else
      let* err := can_start in
      if negb (err =? 0) then ret 0
      else (k_sem_give ;; loop_rounds sender_round k tt ;; ret 0).
End program.

(** The link: what it will deliver to the receiver, and what has been said. *)
Class IsoTpLinkLaws (E : Type) `{!IsoTpLink E} := {
  inbox : E -> list (Z * list (list Z));
  said : E -> list isotp_text;
  take_law : forall e, exists r e', k_sem_take e = Ret r e' /\ (inbox e' = inbox e /\ said e' = said e);
  bind_law : forall t r e, exists err e', isotp_bind t r e = Ret err e' /\ (err = ISOTP_N_OK /\ inbox e' = inbox e /\ said e' = said e);
  recv_law : forall x l e, inbox e = x :: l -> exists e', isotp_recv_net e = Ret x e' /\ inbox e' = l /\ said e' = said e;
  say_law : forall t e, exists r e', say t e = Ret r e' /\ (inbox e' = inbox e /\ said e' = said e ++ [t]);
}.

Section theorems.
Context {E : Type} `{!IsoTpLink E} `{!IsoTpLinkLaws E}.

(** A transfer: parts after which something remains, and the last one or an
    error. *)
Record transfer := Transfer { parts : list (Z * list (list Z)); ending : Z * list (list Z) }.
Definition transfer_ok (t : transfer) : Prop := Forall (fun p => 0 < p.1) (parts t) /\ (ending t).1 <= 0.
Definition arrives (t : transfer) : list (Z * list (list Z)) := parts t ++ [ending t].

(** The fragments that are read: those of an error are not. *)
Definition fragments (t : transfer) : list (list Z) := concat (map snd (parts t)) ++ if (ending t).1 <? 0 then [] else (ending t).2.
Definition size (l : list (list Z)) : Z := Z.of_nat (length (concat l)).

(** What the receiver says about a transfer. *)
Definition report (t : transfer) : list isotp_text :=
  map Printed (fragments t) ++ (if (ending t).1 <? 0 then [ReceivingError (ending t).1] else []) ++ [GotBytes (size (fragments t))].

Lemma size_app l l' : size (l ++ l') = size l + size l'.
Proof. unfold size. rewrite concat_app, length_app. lia. Qed.

Lemma print_chain_wp buf n e :
  wp (print_chain buf n) (fun m e' => m = n + size buf /\ inbox e' = inbox e /\ said e' = said e ++ map Printed buf) e.
Proof.
  revert n e. induction buf as [|frag buf IH]; intros n e; cbn [print_chain].
  - apply wp_ret. split_and!; [unfold size; cbn; lia|done|by rewrite app_nil_r].
  - apply wp_bind. eapply wp_law; [apply say_law|]. intros _ e1 [I1 S1]. eapply wp_mono; [apply IH|]. cbn beta. intros m e2 (-> & I2 & S2).
    split_and!; [unfold size; cbn; rewrite length_app; lia|congruence|]. by rewrite S2, S1, <- app_assoc.
Qed.

Lemma receive_message_wp t rest fuel n e : transfer_ok t -> inbox e = arrives t ++ rest -> (length (parts t) < fuel)%nat ->
  wp (receive_message fuel n) (fun m e' => m = n + size (fragments t) /\ inbox e' = rest /\
    said e' = said e ++ map Printed (fragments t) ++ (if (ending t).1 <? 0 then [ReceivingError (ending t).1] else [])) e.
Proof.
  destruct t as [ps [r buf]]. unfold transfer_ok, arrives, fragments. cbn [parts ending fst snd]. intros [Hps Hr].
  revert n e fuel. induction ps as [|[q frs] ps IH]; intros n e fuel Hin Hfuel; (destruct fuel as [|fuel]; [cbn in Hfuel; lia|]); cbn [receive_message].
  - destruct (recv_law _ _ _ Hin) as (e1 & H1 & I1 & S1). unfold wp. rewrite (bind_step _ _ _ _ _ H1). destruct (Z.ltb_spec r 0) as [Hneg|Hpos].
    + apply wp_bind. eapply wp_law; [apply say_law|]. intros _ e2 [I2 S2]. apply wp_ret. split_and!; [unfold size; cbn; lia|congruence|]. by rewrite S2, S1.
    + apply wp_bind. eapply wp_mono; [apply print_chain_wp|]. cbn beta. intros m e2 (-> & I2 & S2). rewrite (proj2 (Z.eqb_eq r 0)) by lia.
      apply wp_ret. split_and!; [done|congruence|]. by rewrite S2, S1, app_nil_r.
  - inversion Hps as [|? ? Hq Hps']; subst. cbn in Hq. destruct (recv_law _ _ _ Hin) as (e1 & H1 & I1 & S1). unfold wp. rewrite (bind_step _ _ _ _ _ H1).
    rewrite (proj2 (Z.ltb_ge q 0)) by lia. apply wp_bind. eapply wp_mono; [apply print_chain_wp|]. cbn beta. intros m e2 (-> & I2 & S2).
    rewrite (proj2 (Z.eqb_neq q 0)) by lia. eapply wp_mono; [apply IH; [done|by rewrite I2, I1|cbn in Hfuel; lia]|]. cbn beta. intros m e3 (-> & I3 & S3).
    cbn [map concat snd]. rewrite <- (app_assoc frs), (size_app frs). split_and!; [lia|done|]. by rewrite S3, S2, S1, (map_app _ frs), <- !app_assoc.
Qed.

Lemma receiver_rounds_wp ts rest fuel e : Forall transfer_ok ts -> inbox e = concat (map arrives ts) ++ rest ->
  Forall (fun t => (length (parts t) < fuel)%nat) ts ->
  wp (loop_rounds (receiver_round fuel) (length ts) tt) (fun _ e' => inbox e' = rest /\ said e' = said e ++ concat (map report ts)) e.
Proof.
  revert e. induction ts as [|t ts IH]; intros e Hok Hin Hfuel; cbn [length loop_rounds].
  - apply wp_ret. split; [done|by rewrite app_nil_r].
  - inversion Hok as [|? ? Ht Hts]; subst. inversion Hfuel as [|? ? Hf Hfs]; subst. cbn in Hin. rewrite <- app_assoc in Hin.
    apply wp_bind, wp_bind. eapply wp_mono; [by apply (receive_message_wp t)|]. cbn beta. intros m e1 (-> & I1 & S1).
    eapply wp_law; [apply say_law|]. intros [] e2 [I2 S2]. eapply wp_mono; [apply IH; [done|congruence|done]|]. cbn beta. intros _ e3 [I3 S3].
    split; [done|]. rewrite S3, S2, S1. cbn. unfold report. by rewrite <- !app_assoc.
Qed.

(** [transfers_printed]: the receiver prints the data of every transfer, in
    the order of its fragments, and then their number; a transfer that breaks
    off is printed as far as it came, with the error. *)
Theorem transfers_printed ts rest fuel e : Forall transfer_ok ts -> inbox e = concat (map arrives ts) ++ rest ->
  Forall (fun t => (length (parts t) < fuel)%nat) ts ->
  wp (receiver_thread fuel (length ts)) (fun _ e' => inbox e' = rest /\ said e' = said e ++ concat (map report ts)) e.
Proof.
  intros Hok Hin Hfuel. unfold receiver_thread. apply wp_bind. eapply wp_law; [apply take_law|]. intros _ e1 [I1 S1].
  apply wp_bind. eapply wp_law; [apply bind_law|]. intros _ e2 (-> & I2 & S2). cbn [Z.eqb ISOTP_N_OK negb].
  eapply wp_mono; [apply receiver_rounds_wp; [done| |done]|].
  - by rewrite I2, I1.
  - cbn beta. intros _ e3 [I3 S3]. split; [done|]. by rewrite S3, S2, S1.
Qed.
End theorems.
End IsoTpSample.
