(* ===== verification/Usb.v ===== *)
(** * The USB devices ([lib/ardep_usb/ardep_usb.c], [firmware_loader/src/usb_dfu.c])

    Two programs set up one USB device each: the application's, whose detach
    request switches to the firmware loader, and the loader's, which takes a
    new firmware.  The device stack is the interface [UsbStack], in which a
    set-up call is a value of [usb_call], so that the order of the calls is
    part of a theorem; section [setup] is what the two files share. *)

From stdpp Require Import base list numbers relations.
From Stdlib Require Import ZArith Lia.
From S2P Require Import Prelude.
From S2P Require Import UdsServices.

#[local] Open Scope Z_scope.

(** ** Definitions *)

Inductive usbd_speed := USBD_SPEED_FS | USBD_SPEED_HS.
Inductive usb_descriptor := usb_lang | usb_mfr | usb_product.

(** Which classes a registration is for: all but those of the names, or one. *)
Inductive usb_classes := all_classes_but (names : list nat) | one_class (name : nat).

(** The calls whose result is looked at. *)
Inductive usb_call :=
| usbd_add_descriptor (d : usb_descriptor)
| usbd_add_configuration (s : usbd_speed)
| usbd_register_classes (s : usbd_speed) (c : usb_classes) (config : Z)
| usbd_init
| usbd_msg_register_cb
| usbd_enable.

(** ["dfu_dfu"] *)
Definition DFU_DFU : nat := 0.

Inductive usbd_msg_type := USBD_MSG_DFU_APP_DETACH | USBD_MSG_DFU_DOWNLOAD_COMPLETED | USBD_MSG_other (n : nat).

Class UsbStack (E : Type) := {
  usbd : usb_call -> M E Z;
  usbd_caps_speed : M E usbd_speed;
  usbd_device_set_code_triple : usbd_speed -> M E unit;
  usbd_disable : M E unit;
  usbd_shutdown : M E unit;
  submit_reset_work : M E unit;
}.

Section setup.
Context {E : Type} `{!UsbStack E}.

(** [err = call; if (err) { return err; }], one after the other. *)
Fixpoint usb_calls (l : list usb_call) : M E Z :=
  match l with
  | [] => ret 0
  | c :: l => let* err := usbd c in if negb (err =? 0) then ret err else usb_calls l
  end.

Definition descriptors : list usb_call :=
  [usbd_add_descriptor usb_lang; usbd_add_descriptor usb_mfr; usbd_add_descriptor usb_product].

Definition final_calls : list usb_call := [usbd_init; usbd_msg_register_cb; usbd_enable].

Definition then_calls (m : M E Z) (k : M E Z) : M E Z :=
  let* err := m in if negb (err =? 0) then ret err else k.

(** ** ardep_usb.c *)

Definition blacklist_class_names : list nat := [DFU_DFU].

Definition ardep_usb_init : M E Z :=
  then_calls (usb_calls descriptors)
  (let* speed := usbd_caps_speed in
   then_calls
     (match speed with
      | USBD_SPEED_HS => usb_calls [usbd_add_configuration USBD_SPEED_HS;
          usbd_register_classes USBD_SPEED_HS (all_classes_but blacklist_class_names) 1]
      | USBD_SPEED_FS => ret 0
      end)
     (usb_calls ([usbd_add_configuration USBD_SPEED_FS;
         usbd_register_classes USBD_SPEED_FS (all_classes_but blacklist_class_names) 1] ++ final_calls))).

Definition ardep_msg_cb `{!Platform E} (type : usbd_msg_type) : M E unit :=
  match type with
  | USBD_MSG_DFU_APP_DETACH =>
      usbd_disable ;; usbd_shutdown ;;
      let* _ := bootmode_set BOOT_MODE_TYPE_BOOTLOADER in
      sys_reboot SYS_REBOOT_WARM
  | _ => ret tt
  end.

(** ** usb_dfu.c *)

Definition firmware_loader_usb_init : M E Z :=
  then_calls (usb_calls descriptors)
  (let* speed := usbd_caps_speed in
   then_calls
     (match speed with
      | USBD_SPEED_HS =>
          then_calls (usb_calls [usbd_add_configuration USBD_SPEED_HS;
              usbd_register_classes USBD_SPEED_HS (one_class DFU_DFU) 1])
            (usbd_device_set_code_triple USBD_SPEED_HS ;; ret 0)
      | USBD_SPEED_FS => ret 0
      end)
     (then_calls (usb_calls [usbd_add_configuration USBD_SPEED_FS;
         usbd_register_classes USBD_SPEED_FS (one_class DFU_DFU) 1])
       (usbd_device_set_code_triple USBD_SPEED_FS ;; usb_calls final_calls))).

(** [reboot_after] is CONFIG_FIRMWARE_LOADER_USB_DFU_REBOOT_AFTER_COMPLETION. *)
Definition dfu_msg_cb (reboot_after : bool) (type : usbd_msg_type) : M E unit :=
  match type with
  | USBD_MSG_DFU_APP_DETACH =>
      usbd_disable ;; usbd_shutdown ;;
      let* _ := firmware_loader_usb_init in ret tt
  | USBD_MSG_DFU_DOWNLOAD_COMPLETED => if reboot_after then submit_reset_work else ret tt
  | USBD_MSG_other _ => ret tt
  end.

Definition reset_work_handler `{!Platform E} (delay_ms : Z) : M E unit :=
  k_msleep delay_ms ;; sys_reboot SYS_REBOOT_COLD.
End setup.

(** ** Theorems *)

(** [calls] is what the stack was asked for, with the results; the speed is
    that of the controller. *)
Class UsbStackLaws (E : Type) `{!UsbStack E} := {
  calls : E -> list (usb_call * Z);
  high_speed : bool;
  call_law : forall c e, exists rc e', usbd c e = Ret rc e' /\ calls e' = calls e ++ [(c, rc)];
  speed_law : forall e, usbd_caps_speed e = Ret (if high_speed then USBD_SPEED_HS else USBD_SPEED_FS) e;
  triple_law : forall s e, exists e', usbd_device_set_code_triple s e = Ret tt e' /\ calls e' = calls e;
}.

Section usb_theorems.
Context {E : Type} `{!UsbStack E} `{!UsbStackLaws E}.

(** [runs m l]: [m] makes the calls of [l] in their order up to the first one
    that fails, and returns its result, or 0 after the last. *)
Definition runs (m : M E Z) (l : list usb_call) : Prop :=
  forall e, exists rc e' done, m e = Ret rc e' /\
    if decide (rc = 0) then calls e' = calls e ++ ((fun c => (c, 0)) <$> l)
    else exists c, done ++ [c] `prefix_of` l /\ calls e' = calls e ++ ((fun c => (c, 0)) <$> done) ++ [(c, rc)].

Lemma runs_nil : runs (ret 0) [].
Proof. intros e. exists 0, e, []. split; [done|]. cbn. by rewrite app_nil_r. Qed.

(** A call in front, and the sequence of two lists. *)
Lemma runs_then m k l1 l2 : runs m l1 -> runs k l2 -> runs (then_calls m k) (l1 ++ l2).
Proof.
  intros Hm Hk e. destruct (Hm e) as (rc & e1 & dn & Hrun & Hcase). unfold then_calls. rewrite (bind_step _ _ _ _ _ Hrun).
  destruct (decide (rc = 0)) as [->|Hne]; cbn [negb Z.eqb].
  - destruct (Hk e1) as (rc2 & e2 & dn2 & Hrun2 & Hcase2). exists rc2, e2, (l1 ++ dn2). split; [done|].
    destruct (decide (rc2 = 0)).
    + by rewrite Hcase2, Hcase, fmap_app, (assoc_L app).
    + destruct Hcase2 as (c & Hp & Hc). exists c. rewrite <- (assoc_L app), fmap_app. split; [by apply prefix_app|].
      by rewrite Hc, Hcase, <- !(assoc_L app).
  - rewrite (proj2 (Z.eqb_neq _ _) Hne). exists rc, e1, dn. split; [done|]. rewrite decide_False by done.
    destruct Hcase as (c & Hp & Hc). exists c. split; [by apply prefix_app_r|done].
Qed.

Lemma runs_calls l : runs (usb_calls l) l.
Proof.
  induction l as [|c l IH]; [apply runs_nil|].
  assert (runs (usbd c) [c]) as Hc.
  { intros e. destruct (call_law c e) as (rc & e' & Hrun & Hcalls). exists rc, e', []. split; [done|].
    destruct (decide (rc = 0)) as [->|]; [done|]. by exists c. }
  exact (runs_then (usbd c) (usb_calls l) [c] l Hc IH).
Qed.

Lemma runs_triple s m l : runs m l -> runs (usbd_device_set_code_triple s ;; m) l.
Proof.
  intros Hm e. destruct (triple_law s e) as (e1 & Hrun & Hc). rewrite (bind_step _ _ _ _ _ Hrun), <- Hc. apply Hm.
Qed.

Lemma runs_speed (k : usbd_speed -> M E Z) l :
  runs (k (if high_speed then USBD_SPEED_HS else USBD_SPEED_FS)) l -> runs (let* s := usbd_caps_speed in k s) l.
Proof. intros Hk e. rewrite (bind_step _ _ _ _ _ (speed_law e)). apply Hk. Qed.

(** The calls for one speed, and all of a set-up. *)
Definition speed_calls (c : usb_classes) (s : usbd_speed) : list usb_call :=
  [usbd_add_configuration s; usbd_register_classes s c 1].
Definition setup_calls (c : usb_classes) : list usb_call :=
  descriptors ++ (if high_speed then speed_calls c USBD_SPEED_HS else []) ++ speed_calls c USBD_SPEED_FS ++ final_calls.

(** Setting up the devices.  Both programs make the same calls in the same
    order, the high-speed configuration only on a controller that has it, the
    application for every class but the firmware update and the loader for
    that class alone; the first failing call ends the set-up with its error,
    so the device is enabled only when everything before succeeded. *)
Theorem usb_setup :
  runs ardep_usb_init (setup_calls (all_classes_but [DFU_DFU])) /\
  runs firmware_loader_usb_init (setup_calls (one_class DFU_DFU)).
Proof.
  split; apply runs_then; try apply runs_calls; apply runs_speed; apply runs_then.
  - destruct high_speed; [apply runs_calls|apply runs_nil].
  - apply runs_calls.
  - destruct high_speed; [|apply runs_nil]. rewrite <- (app_nil_r (speed_calls _ _)).
    apply runs_then; [apply runs_calls|]. apply runs_triple, runs_nil.
  - apply runs_then; [apply runs_calls|]. apply runs_triple, runs_calls.
Qed.
End usb_theorems.
