(* ===== verification/FirmwareLoader.v ===== *)
(** * The firmware loader ([firmware_loader/src])

    An application on the UDS library that replaces the firmware in slot 0: a
    routine that erases the slot on a work queue while the client polls for
    the result (uds_routine_control.c), its session handlers (uds_session.c),
    and a [main] that resumes the programming session the main application
    was asked for before it rebooted into the loader (main.c).

    The handlers are the application's callbacks of [UdsSystem], so the
    theorems are about requests to [event_callback] with the registrations of
    the default instance and of the loader in any order the linker chooses.
    The flash map and the retention memory are the interfaces [FlashMap] and
    [Retention].  The delayable work item is whether it is scheduled, as
    Zephyr documents it. *)

From stdpp Require Import base gmap list numbers relations.
From Stdlib Require Import ZArith Lia.
From S2P Require Import Prelude.
From S2P Require Import Can.
From S2P Require Import UdsTypes.
From S2P Require Import Uds.
From S2P Require Import UdsMacros.
From S2P Require Import UdsServices.
From S2P Require Import UdsMemory.
From S2P Require Import UdsLinkControl.
From S2P Require Import UdsFileTransfer.
From S2P Require Import UdsUploadDownload.
From S2P Require Import UdsSystem.
From S2P Require Import UdsDispatch.
From S2P Require Iso14229.
Import Iso14229 (iso_world, IsoWorld, iso, iso_ext, iso14229_inject_can_frame_rx, can_phys_msgq,
  can_func_msgq, phys_sa, tp, MSGQ_CAPACITY).

#[local] Open Scope Z_scope.

(** ** Definitions: erasing the slot *)

Inductive uds_memory_erasure_routine_state :=
| UDS_MEMORY_ERASURE_STATE__NOT_STARTED
| UDS_MEMORY_ERASURE_STATE__IN_PROGRESS
| UDS_MEMORY_ERASURE_STATE__COMPLETED.

#[export] Instance erasure_state_eq_dec : EqDecision uds_memory_erasure_routine_state.
Proof. solve_decision. Defined.

(** [mutex] counts the locks of the owner, [work] is whether the item is
    scheduled. *)
Record uds_memory_erasure_routine_status := ErasureStatus {
  state : uds_memory_erasure_routine_state;
  mutex : Z;
  result : Z;
  work : bool;
}.

Definition erasure_status_init : uds_memory_erasure_routine_status :=
  ErasureStatus UDS_MEMORY_ERASURE_STATE__NOT_STARTED 0 0 false.

Record flash_area := FlashArea { fa_off : Z; fa_size : Z }.

(** [flash_area_open] yields the return value and [*fa]. *)
Class FlashMap (E : Type) := {
  flash_area_open : Z -> M E (Z * flash_area);
  flash_area_erase : flash_area -> Z -> Z -> M E Z;
  flash_area_close : flash_area -> M E unit;
}.

(** The static variable [erasure_status]. *)
Class ErasureVars (E : Type) := {
  erasure_status : E -> uds_memory_erasure_routine_status;
  set_erasure_status : uds_memory_erasure_routine_status -> E -> E;
}.

(** The object [&erasure_status] points to is the only one a registration
    carries, so [status] is [erasure_status].  [slot0] is
    [PARTITION_ID (slot0_partition)], [general_programming_failure] the value
    of the library's constant; that of [UDS_OK] is 0. *)
Section erase.
Context {E : Type} `{!Server E} `{!FlashMap E} `{!ErasureVars E}.
Context (slot0 general_programming_failure : Z).

Definition set_status (f : uds_memory_erasure_routine_status -> uds_memory_erasure_routine_status) : M E unit :=
  modify (fun e => set_erasure_status (f (erasure_status e)) e).

Definition lock_status : M E unit :=
  set_status (fun s => ErasureStatus (state s) (mutex s + 1) (result s) (work s)).
Definition unlock_status : M E unit :=
  set_status (fun s => ErasureStatus (state s) (mutex s - 1) (result s) (work s)).

(** [k_work_schedule]: nothing happens when the item is scheduled already. *)
Definition k_work_schedule : M E Z :=
  let* s := gets erasure_status in
  if work s then ret 0
  else (set_status (fun s => ErasureStatus (state s) (mutex s) (result s) true) ;; ret 1).

Definition erase_slot0_work_handler : M E unit :=
  let* (rc, fa) := flash_area_open slot0 in
  let* result :=
    if rc <? 0 then ret general_programming_failure
    else
      let* rc := flash_area_erase fa 0 (fa_size fa) in
      flash_area_close fa ;;
      ret 0 in
  lock_status ;;
  set_status (fun s => ErasureStatus UDS_MEMORY_ERASURE_STATE__COMPLETED (mutex s) result (work s)) ;;
  unlock_status.

(** The work queue takes the item and runs the handler; the result is
    whether there was one. *)
Definition run_work : M E bool :=
  let* s := gets erasure_status in
  if work s then
    set_status (fun s => ErasureStatus (state s) (mutex s) (result s) false) ;;
    erase_slot0_work_handler ;;
    ret true
  else ret false.

Definition routine_args (a : uds_arg) : option (Z * Z) :=
  match a with UDSRoutineCtrlArgs ctrlType id _ => Some (ctrlType, id) | _ => None end.

Definition erase_memory_routine_check (context : uds_context) (apply_action : bool) :
    M (world E) (UDSErr_t * bool) :=
  let* (ctrlType, _) := of_option BadArgument (routine_args (ctx_arg context)) in
  let* status := on_ext (gets erasure_status) in
  if bool_decide (ctrlType = UDS_ROUTINE_CONTROL__START_ROUTINE) &&
     bool_decide (state status = UDS_MEMORY_ERASURE_STATE__IN_PROGRESS)
  then ret (UDS_NRC_RequestSequenceError, false)
  else if bool_decide (ctrlType = UDS_ROUTINE_CONTROL__REQUEST_ROUTINE_RESULTS) &&
     bool_decide (state status <> UDS_MEMORY_ERASURE_STATE__COMPLETED)
  then ret (UDS_NRC_RequestSequenceError, false)
  else if bool_decide (ctrlType = UDS_ROUTINE_CONTROL__STOP_ROUTINE)
  then ret (UDS_NRC_SubFunctionNotSupported, false)
  else ret (UDS_OK, true).

Definition erase_memory_routine_action (context : uds_context) (consume_event : bool) :
    M (world E) (UDSErr_t * bool * uds_arg) :=
  let arg := ctx_arg context in
  let* (ctrlType, id) := of_option BadArgument (routine_args arg) in
  if bool_decide (id <> 0xFF00) then ret (UDS_NRC_RequestOutOfRange, false, arg)
  else if bool_decide (ctrlType = UDS_ROUTINE_CONTROL__START_ROUTINE) then
    on_ext lock_status ;;
    on_ext (set_status (fun s => ErasureStatus UDS_MEMORY_ERASURE_STATE__IN_PROGRESS (mutex s) 0 (work s))) ;;
    on_ext unlock_status ;;
    on_ext k_work_schedule ;;
    ret (UDS_PositiveResponse, true, arg)
  else if bool_decide (ctrlType = UDS_ROUTINE_CONTROL__REQUEST_ROUTINE_RESULTS) then
    on_ext lock_status ;;
    let* s := on_ext (gets erasure_status) in
    on_ext unlock_status ;;
    if bool_decide (state s <> UDS_MEMORY_ERASURE_STATE__COMPLETED)
    then ret (UDS_NRC_RequestSequenceError, true, arg)
    else
      let* r := on_ext (server_copy (Some (be32 (result s))) 4) in
      ret (r, true, arg)
  else ret (UDS_NRC_SubFunctionNotSupported, false, arg).
End erase.

(** ** Definitions: sessions *)

Section session.
Context {E : Type} `{!Platform E}.

Definition on_session_ctrl_check (context : uds_context) (apply_action : bool) :
    M (world E) (UDSErr_t * bool) := ret (UDS_OK, true).

Definition on_session_ctrl_action (context : uds_context) (consume_event : bool) :
    M (world E) (UDSErr_t * bool * uds_arg) :=
  match ctx_arg context with
  | UDSDiagSessCtrlArgs ty =>
      if bool_decide (ty = UDS_DIAG_SESSION__PROGRAMMING) then ret (UDS_OK, true, ctx_arg context)
      else if bool_decide (ty = UDS_DIAG_SESSION__EXTENDED) then ret (UDS_OK, true, ctx_arg context)
      else ret (UDS_NRC_SubFunctionNotSupported, true, ctx_arg context)
  | _ => fail BadArgument
  end.

Definition on_session_timeout_check (context : uds_context) (apply_action : bool) :
    M (world E) (UDSErr_t * bool) := ret (UDS_OK, true).

(** After [CODE_UNREACHABLE] the program has no meaning. *)
Definition on_session_timeout_action (context : uds_context) (consume_event : bool) :
    M (world E) (UDSErr_t * bool * uds_arg) :=
  on_ext log_flush ;;
  on_ext (sys_reboot SYS_REBOOT_COLD) ;;
  fail AssertFailed.
End session.

(** ** Definitions: the application *)

Section application.
Context {E : Type} `{!Server E} `{!Platform E} `{!FlashMap E} `{!ErasureVars E}.

(** The names of the callbacks. *)
#[export] Instance loader_callbacks : UserCallbacks E := {|
  user_check n c b :=
    match n with
    | 0%nat => erase_memory_routine_check c b
    | 1%nat => on_session_ctrl_check c b
    | 2%nat => on_session_timeout_check c b
    | _ => fail NullPointer
    end;
  user_action n c b :=
    match n with
    | 0%nat => erase_memory_routine_action c b
    | 1%nat => on_session_ctrl_action c b
    | 2%nat => on_session_timeout_action c b
    | _ => fail NullPointer
    end;
  user_unregister _ _ := fail NullPointer;
|}.

Definition erase_registration (inst : nat) (status : Z) : uds_registration_t :=
  UDS_REGISTER_ROUTINE_CONTROL_HANDLER (Some inst) status 0xFF00
    (Some (uds_check_user 0)) (Some (uds_action_user 0)).

Definition session_registration (inst : nat) : uds_registration_t :=
  UDS_REGISTER_DIAG_SESSION_CTRL_HANDLER (Some inst) 0
    (Some (uds_check_user 1)) (Some (uds_action_user 1))
    (Some (uds_check_user 2)) (Some (uds_action_user 2)).
End application.

(** [retention_read] yields the return value and the bytes read. *)
Class Retention (E : Type) := { retention_read : Z -> Z -> M E (Z * list Z) }.

Section main.
Context {E : Type} `{!Retention E} `{!Platform E}.

Definition resume_frame : can_frame := CanFrame 0 3 0 [0x02; 0x10; 0x02; 0; 0; 0; 0; 0].

Definition main : M (iso_world E) Z :=
  let* (r, bytes) := Iso14229.env (retention_read 0 1) in
  if negb (r =? 0) then ret r
  else
    let* session_type := of_option OutOfBounds (head bytes) in
    let* r := Iso14229.env (retention_write 0 [uds_diagnostic_session_value UDS_DIAG_SESSION__DEFAULT]) in
    if negb (r =? 0) then ret r
    else if session_type =? UDS_DIAG_SESSION__PROGRAMMING
    then (iso14229_inject_can_frame_rx resume_frame false ;; ret 0)
    else ret 0.
End main.

(** ** The erase routine: specification *)

Inductive erase_phase :=
| NotStarted
| Erasing
| Erased (result : Z) (blank : bool).  (** [blank]: the slot was erased *)

(** What happens to the loader: a routine control request of the client, or a
    turn of the work queue. *)
Inductive loader_op :=
| routine_request (ctrlType id : Z) (optionRecord : list Z)
| work_queue.

(** The response code of a request and the bytes put into its response. *)
Inductive erase_spec (failure : Z) : erase_phase -> loader_op -> option UDSErr_t -> list Z -> erase_phase -> Prop :=
| other_routine p c id o : id <> 0xFF00 ->
    erase_spec failure p (routine_request c id o) (Some UDS_NRC_SubFunctionNotSupported) [] p
| start p o : p <> Erasing ->
    erase_spec failure p (routine_request 0x01 0xFF00 o) (Some UDS_PositiveResponse) [] Erasing
| start_while_erasing o :
    erase_spec failure Erasing (routine_request 0x01 0xFF00 o) (Some UDS_NRC_RequestSequenceError) [] Erasing
| other_control p c o : c <> 0x01 -> c <> 0x03 ->
    erase_spec failure p (routine_request c 0xFF00 o) (Some UDS_NRC_SubFunctionNotSupported) [] p
| results_early p o : (forall r b, p <> Erased r b) ->
    erase_spec failure p (routine_request 0x03 0xFF00 o) (Some UDS_NRC_RequestSequenceError) [] p
| results r b o :
    erase_spec failure (Erased r b) (routine_request 0x03 0xFF00 o) (Some UDS_PositiveResponse) (be32 r) (Erased r b)
| results_do_not_fit r b o x : x <> UDS_OK ->
    erase_spec failure (Erased r b) (routine_request 0x03 0xFF00 o) (Some x) [] (Erased r b)
| no_work p : p <> Erasing -> erase_spec failure p work_queue None [] p
| slot_not_opened : erase_spec failure Erasing work_queue None [] (Erased failure false)
| slot_erased b : erase_spec failure Erasing work_queue None [] (Erased 0 b).

(** ** Theorems: the erase routine *)

Class LoaderLaws (E : Type) `{!Server E} `{!FlashMap E} `{!ErasureVars E} (slot0 : Z) := {
  (** what was put into responses, and the bytes of the slot *)
  response : E -> list Z;
  contents : E -> Z -> Z;
  slot : flash_area;
  set_law : forall s e, erasure_status (set_erasure_status s e) = s /\
    response (set_erasure_status s e) = response e /\ contents (set_erasure_status s e) = contents e;
  open_law : forall e, exists rc e', flash_area_open slot0 e = Ret (rc, slot) e' /\
    erasure_status e' = erasure_status e /\ response e' = response e /\ contents e' = contents e;
  erase_law : forall e, exists rc e', flash_area_erase slot 0 (fa_size slot) e = Ret rc e' /\
    erasure_status e' = erasure_status e /\ response e' = response e /\
    (0 <= rc -> forall a, 0 <= a < fa_size slot -> contents e' a = 0xFF);
  close_law : forall e, exists e', flash_area_close slot e = Ret tt e' /\
    erasure_status e' = erasure_status e /\ response e' = response e /\ contents e' = contents e;
  copy_law : forall bs e, exists r e', server_copy (Some bs) (Z.of_nat (length bs)) e = Ret r e' /\
    erasure_status e' = erasure_status e /\ contents e' = contents e /\
    response e' = (if decide (r = UDS_OK) then response e ++ bs else response e);
}.

Section loader_theorems.
Context {E : Type} `{!Iso14229Constants} `{!Server E} `{!Platform E} `{!Memory E} `{!UdsLinkControl.CanController E}
  `{!LinkControlVars E} `{!FileSystem E} `{!FileTransferVars E} `{!FlashDriver E} `{!UpDownVars E}
  `{!FlashMap E} `{!ErasureVars E}.
Context (slot0 failure : Z) `{!LoaderLaws E slot0} (cfg : uds_config) (depth fuel : nat).
Implicit Types (w : world E) (e : E) (p : erase_phase).

Definition routine_event (c id : Z) (o : list Z) : M (world E) (UDSErr_t * uds_arg) :=
  event_callback cfg (S (S depth)) fuel UDS_EVT_RoutineCtrl (UDSRoutineCtrlArgs c id o).

Definition loader_step (op : loader_op) : M (world E) (option UDSErr_t) :=
  match op with
  | routine_request c id o => let* (r, _) := routine_event c id o in ret (Some r)
  | work_queue => on_ext (run_work slot0 failure) ;; ret None
  end.

(** The registrations of the loader, in the order of the linker. *)
Definition loader_registrations (inst : nat) (status : Z) : list uds_registration_t :=
  default_instance_registrations cfg inst ++ [erase_registration inst status; session_registration inst].

Record loader_config w : Prop := LoaderConfig {
  registrations_linked : exists inst status, Permutation (static_regs w) (loader_registrations inst status);
  nothing_dynamic : dynamic_registrations w = [];
}.

Definition phase_of p (s : uds_memory_erasure_routine_status) : Prop :=
  mutex s = 0 /\
  match p with
  | NotStarted => state s = UDS_MEMORY_ERASURE_STATE__NOT_STARTED /\ work s = false
  | Erasing => state s = UDS_MEMORY_ERASURE_STATE__IN_PROGRESS /\ work s = true
  | Erased r _ => state s = UDS_MEMORY_ERASURE_STATE__COMPLETED /\ result s = r /\ work s = false
  end.

Definition slot_blank e : Prop := forall a, 0 <= a < fa_size slot -> contents e a = 0xFF.

Definition represents p e : Prop :=
  phase_of p (erasure_status e) /\ match p with Erased _ true => slot_blank e | _ => True end.

(** The check and the action of the routine, as the dispatcher runs them. *)
Definition erase_answer : uds_context -> M (world E) (UDSErr_t * bool * uds_arg) := user_answer 0 0.

Lemma erase_check_run c o b ctx w : ctx_arg ctx = UDSRoutineCtrlArgs c 0xFF00 o ->
  erase_memory_routine_check ctx b w =
    Ret (if bool_decide (c = 0x01) && bool_decide (state (erasure_status (ext w)) = UDS_MEMORY_ERASURE_STATE__IN_PROGRESS)
         then (UDS_NRC_RequestSequenceError, false)
         else if bool_decide (c = 0x03) && bool_decide (state (erasure_status (ext w)) <> UDS_MEMORY_ERASURE_STATE__COMPLETED)
         then (UDS_NRC_RequestSequenceError, false)
         else if bool_decide (c = 0x02) then (UDS_NRC_SubFunctionNotSupported, false) else (UDS_OK, true)) w.
Proof.
  intros Harg. unfold erase_memory_routine_check. rewrite Harg. unfold bind, of_option, on_ext, zoom, gets. cbn.
  rewrite set_ext_ext. by repeat case_match.
Qed.

(** [frames e e']: only the status differs. *)
Definition frames e e' : Prop := response e' = response e /\ contents e' = contents e.

Lemma wp_set_status f (Q : unit -> E -> Prop) e :
  (forall e', erasure_status e' = f (erasure_status e) -> frames e e' -> Q tt e') -> wp (set_status f) Q e.
Proof. intros HQ. apply HQ; [|split]; apply set_law. Qed.

Lemma wp_copy bs n (Q : UDSErr_t -> E -> Prop) e : n = Z.of_nat (length bs) ->
  (forall r e', erasure_status e' = erasure_status e -> contents e' = contents e ->
     response e' = (if decide (r = UDS_OK) then response e ++ bs else response e) -> Q r e') ->
  wp (server_copy (Some bs) n) Q e.
Proof. intros -> HQ. destruct (copy_law bs e) as (r & e' & Hc & ? & ? & ?). unfold wp. rewrite Hc. auto. Qed.

(** Run code that sets the status. *)
Ltac wp_status := repeat (wp_step || (apply wp_zoom; cbn beta) ||
  (apply wp_set_status; let e := fresh "e" in let Hs := fresh "Hs" in let Hf := fresh "Hf" in intros e Hs Hf; cbn [ext set_ext state mutex result work])).

(** Compare a status with the one its history gives. *)
Ltac status_eq :=
  repeat match goal with
  | H : erasure_status ?e = _ |- context [erasure_status ?e] => rewrite H
  | H : erasure_status ?e = _, H' : context [erasure_status ?e] |- _ => rewrite H in H'
  end; cbn in *; subst; try (f_equal; (done || lia)).

Lemma start_run o b ctx w : ctx_arg ctx = UDSRoutineCtrlArgs 0x01 0xFF00 o ->
  wp (erase_memory_routine_action ctx b) (fun x w' => x = (UDS_PositiveResponse, true, ctx_arg ctx) /\
    exists e', w' = set_ext e' w /\ frames (ext w) e' /\
    erasure_status e' = ErasureStatus UDS_MEMORY_ERASURE_STATE__IN_PROGRESS (mutex (erasure_status (ext w))) 0 true) w.
Proof.
  intros Harg. unfold erase_memory_routine_action. rewrite Harg. apply wp_bind, wp_ret. cbn beta iota.
  case_bool_decide; [done|]. case_bool_decide; [|done].
  unfold k_work_schedule, unlock_status, lock_status, on_ext. wp_status; (split; [done|]);
    eexists; (split; [reflexivity|]); unfold frames in *; cbn in *; (split; [intuition congruence|]); status_eq.
Qed.

Lemma results_run o b ctx w : ctx_arg ctx = UDSRoutineCtrlArgs 0x03 0xFF00 o ->
  state (erasure_status (ext w)) = UDS_MEMORY_ERASURE_STATE__COMPLETED ->
  wp (erase_memory_routine_action ctx b) (fun x w' => exists r e', x = (r, true, ctx_arg ctx) /\ w' = set_ext e' w /\
    contents e' = contents (ext w) /\ erasure_status e' = erasure_status (ext w) /\
    response e' = if decide (r = UDS_OK) then response (ext w) ++ be32 (result (erasure_status (ext w))) else response (ext w)) w.
Proof.
  intros Harg Hst. unfold erase_memory_routine_action. rewrite Harg. apply wp_bind, wp_ret. cbn beta iota.
  do 2 (case_bool_decide; [done|]). case_bool_decide; [|done].
  unfold unlock_status, lock_status, on_ext. wp_status; [by case_bool_decide; status_eq|].
  apply wp_copy; [done|]. intros r e' Hs1 Hc Hr. cbn in Hs1, Hc, Hr. apply wp_ret. eexists r, e'. unfold frames in *. cbn in *.
  split_and!; [done|done|intuition congruence|..].
  - destruct (erasure_status (ext w)) eqn:?. status_eq.
  - rewrite Hr, (proj1 Hf0), (proj1 Hf). by rewrite Hs.
Qed.

Lemma other_control_run c o b ctx w : ctx_arg ctx = UDSRoutineCtrlArgs c 0xFF00 o -> c <> 0x01 -> c <> 0x03 ->
  erase_memory_routine_action ctx b w = Ret (UDS_NRC_SubFunctionNotSupported, false, ctx_arg ctx) w.
Proof.
  intros Harg H1 H3. unfold erase_memory_routine_action. rewrite Harg. unfold bind, of_option, ret. cbn.
  by repeat (case_bool_decide; [done|]).
Qed.

Lemma erase_answer_refines n c o p w :
  represents p (ext w) ->
  exists r consume sent p' e',
    erase_answer (Context (inst_id w) (StaticReg n) UDS_EVT_RoutineCtrl (UDSRoutineCtrlArgs c 0xFF00 o)) w =
      Ret (r, consume, UDSRoutineCtrlArgs c 0xFF00 o) (set_ext e' w) /\
    decisive r consume = true /\ erase_spec failure p (routine_request c 0xFF00 o) (Some r) sent p' /\
    represents p' e' /\ response e' = response (ext w) ++ sent.
Proof.
  intros Hrep. pose proof Hrep as [[Hm Hp] Hb]. unfold erase_answer, user_answer. cbn [user_check user_action loader_callbacks].
  set (ctx := Context _ _ _ _).
  rewrite (bind_step _ _ _ _ _ (erase_check_run c o false ctx w eq_refl)).
  assert (forall r, r <> UDS_OK -> erase_spec failure p (routine_request c 0xFF00 o) (Some r) [] p ->
    exists r' consume sent p' e', @ret (world E) _ (r, false, ctx_arg ctx) w = Ret (r', consume, UDSRoutineCtrlArgs c 0xFF00 o) (set_ext e' w) /\ decisive r' consume = true /\
     erase_spec failure p (routine_request c 0xFF00 o) (Some r') sent p' /\ represents p' e' /\ response e' = response (ext w) ++ sent) as Hrefuse.
  { intros r Hr Hspec. exists r, false, [], p, (ext w). rewrite set_ext_ext, app_nil_r. split_and!; try done.
    unfold decisive. by rewrite bool_decide_true. }
  destruct (decide (c = 0x01)) as [->|Hc1]; [|destruct (decide (c = 0x03)) as [->|Hc3]].
  - rewrite (bool_decide_eq_true_2 (1 = 1)), (bool_decide_eq_false_2 (1 = 3)), (bool_decide_eq_false_2 (1 = 2)) by done. cbn [andb].
    case_bool_decide as Hst.
    + apply Hrefuse; [done|]. destruct p; [by destruct Hp; congruence|apply start_while_erasing|by destruct Hp; congruence].
    + cbn beta iota. rewrite decide_False by naive_solver.
      destruct (proj1 (wp_Ret _ _ _) (start_run o true ctx w eq_refl)) as (x & w' & Hrun & -> & e' & -> & Hfr & Hs).
      rewrite Hrun. eexists UDS_OK, true, [], Erasing, e'. rewrite app_nil_r.
      split_and!; [done|done|apply start; intros ->; by destruct Hp|..|apply Hfr].
      split; [|done]. rewrite Hs. by split_and!.
  - rewrite (bool_decide_eq_false_2 (3 = 1)), (bool_decide_eq_true_2 (3 = 3)), (bool_decide_eq_false_2 (3 = 2)) by done. cbn [andb].
    case_bool_decide as Hst.
    + apply Hrefuse; [done|]. apply results_early. intros r b ->. by destruct Hp.
    + cbn beta iota. rewrite decide_False by naive_solver.
      destruct (proj1 (wp_Ret _ _ _) (results_run o true ctx w eq_refl Hst)) as (x & w' & Hrun & r & e' & -> & -> & Hc & Hs & Hr).
      rewrite Hrun.
      destruct p as [| |r0 blank]; [by destruct Hp; congruence..|]. destruct Hp as (_ & Hres & Hw).
      assert (represents (Erased r0 blank) e') as Hrep'.
      { split; [by rewrite Hs|]. destruct blank; [|done]. unfold slot_blank. by rewrite Hc. }
      destruct (decide (r = UDS_OK)) as [->|Hne].
      * exists UDS_OK, true, (be32 r0), (Erased r0 blank), e'. split_and!; [done|done|apply results|done|by rewrite Hr, Hres].
      * exists r, true, [], (Erased r0 blank), e'. rewrite app_nil_r. split_and!; try done. by apply results_do_not_fit.
  - rewrite (bool_decide_eq_false_2 (c = 1)), (bool_decide_eq_false_2 (c = 3)) by done. cbn [andb].
    case_bool_decide; [apply Hrefuse; [done|by apply other_control]|].
    cbn beta iota. rewrite decide_False by naive_solver.
    rewrite (other_control_run c o true ctx w eq_refl Hc1 Hc3).
    apply Hrefuse; [done|by apply other_control].
Qed.

Lemma loader_config_set_ext e w : loader_config w -> loader_config (set_ext e w).
Proof. intros [(inst & status & Hperm) Hdyn]. split; [by exists inst, status|done]. Qed.

(** The routine control requests: the loader has one registration for the
    routine 0xFF00 and none for another. *)
Lemma routine_relevant inst status c id o :
  List.filter (relevant __uds_event_handler_data_routine_ctrl_ (UDSRoutineCtrlArgs c id o)) (loader_registrations inst status) =
  if decide (id = 0xFF00) then [erase_registration inst status] else [].
Proof.
  unfold loader_registrations, default_instance_registrations.
  destruct (CONFIG_UDS_USE_LINK_CONTROL cfg), (decide (id = 0xFF00)) as [->|Hne]; try reflexivity; lazy -[Z.eqb];
    by rewrite (proj2 (Z.eqb_neq _ _)) by congruence.
Qed.

(** A request for the routine is answered by its check and action. *)
Lemma routine_event_erase c o w r consume arg e' :
  loader_config w ->
  (forall n, erase_answer (Context (inst_id w) (StaticReg n) UDS_EVT_RoutineCtrl (UDSRoutineCtrlArgs c 0xFF00 o)) w = Ret (r, consume, arg) (set_ext e' w)) ->
  decisive r consume = true ->
  routine_event c 0xFF00 o w = Ret (r, arg) (set_ext e' w).
Proof.
  intros [(inst & status & Hperm) Hdyn] Hrun Hdec.
  refine (sole_answer cfg depth fuel __uds_event_handler_data_routine_ctrl_ (UDSRoutineCtrlArgs c 0xFF00 o) _ _ eq_refl
    (erase_registration inst status) 0 0 w (Ret (r, consume, arg) (set_ext e' w)) Hperm Hdyn _ eq_refl _ Hdec).
  - unfold uds_event_handlers. repeat constructor.
  - by rewrite routine_relevant.
  - intros i _. split; [|apply Hrun]. unfold looks. cbn [user_check loader_callbacks]. rewrite (erase_check_run c o) by done.
    repeat case_match; by eexists _, _.
Qed.

(** A request for another routine finds no registration. *)
Lemma routine_event_other c id o w : loader_config w -> id <> 0xFF00 ->
  routine_event c id o w = Ret (UDS_NRC_SubFunctionNotSupported, UDSRoutineCtrlArgs c id o) w.
Proof.
  intros [(inst & status & Hperm) Hdyn] Hid.
  refine (all_decline cfg depth fuel __uds_event_handler_data_routine_ctrl_ (UDSRoutineCtrlArgs c id o) _ _ eq_refl w Hperm Hdyn _).
  - unfold uds_event_handlers. repeat constructor.
  - intros r i Hin Hrel. pose proof (routine_relevant inst status c id o) as Hnone. rewrite decide_False in Hnone by done.
    assert (In r []) by (rewrite <- Hnone; apply filter_In; by rewrite <- list_elem_of_In). done.
Qed.

Lemma wp_open (Q : Z * flash_area -> E -> Prop) e :
  (forall rc e', erasure_status e' = erasure_status e -> frames e e' -> Q (rc, slot) e') -> wp (flash_area_open slot0) Q e.
Proof. intros HQ. destruct (open_law e) as (rc & e' & Ho & ? & ? & ?). unfold wp. rewrite Ho. by apply HQ. Qed.

Lemma wp_erase (Q : Z -> E -> Prop) e :
  (forall rc e', erasure_status e' = erasure_status e -> response e' = response e -> (0 <= rc -> slot_blank e') -> Q rc e') ->
  wp (flash_area_erase slot 0 (fa_size slot)) Q e.
Proof. intros HQ. destruct (erase_law e) as (rc & e' & Ho & ? & ? & ?). unfold wp. rewrite Ho. by apply HQ. Qed.

Lemma wp_close (Q : unit -> E -> Prop) e :
  (forall e', erasure_status e' = erasure_status e -> frames e e' -> Q tt e') -> wp (flash_area_close slot) Q e.
Proof. intros HQ. destruct (close_law e) as (e' & Ho & ? & ? & ?). unfold wp. rewrite Ho. by apply HQ. Qed.

(** The end of the handler. *)
Lemma finish_run r e :
  wp (lock_status ;; set_status (fun s => ErasureStatus UDS_MEMORY_ERASURE_STATE__COMPLETED (mutex s) r (work s)) ;; unlock_status)
    (fun _ e' => frames e e' /\
      erasure_status e' = ErasureStatus UDS_MEMORY_ERASURE_STATE__COMPLETED (mutex (erasure_status e)) r (work (erasure_status e))) e.
Proof.
  unfold lock_status, unlock_status. wp_status. unfold frames in *.
  split; [intuition congruence|status_eq].
Qed.

(** The handler: the slot is open and erased, or not. *)
Lemma work_handler_run e :
  wp (erase_slot0_work_handler slot0 failure) (fun _ e' => exists r b, response e' = response e /\
    erasure_status e' = ErasureStatus UDS_MEMORY_ERASURE_STATE__COMPLETED (mutex (erasure_status e)) r (work (erasure_status e)) /\
    (r = failure /\ b = false \/ r = 0) /\ (b = true -> slot_blank e')) e.
Proof.
  unfold erase_slot0_work_handler. apply wp_bind, wp_open. intros rc e1 Hs1 [Hr1 Hc1]. cbn beta iota. apply wp_bind.
  destruct (rc <? 0).
  - apply wp_ret. eapply wp_mono; [apply finish_run|]. cbn beta. intros [] e' [[Hr Hc] Hs].
    exists failure, false. rewrite Hr, Hs, Hs1. split_and!; [done|done|by left|done].
  - apply wp_bind, wp_erase. intros rc2 e2 Hs2 Hr2 Hb2. apply wp_bind, wp_close. intros e3 Hs3 [Hr3 Hc3].
    apply wp_ret. eapply wp_mono; [apply finish_run|]. cbn beta. intros [] e' [[Hr Hc] Hs].
    exists 0, (0 <=? rc2). rewrite Hr, Hr3, Hr2, Hs, Hs3, Hs2, Hs1. split_and!; [done|done|by right|].
    intros Hle%Z.leb_le. unfold slot_blank. rewrite Hc, Hc3. by apply Hb2.
Qed.

(** An opened slot: the result does not depend on the erasure. *)
Lemma work_handler_opened e rc1 e1 rc2 e2 :
  flash_area_open slot0 e = Ret (rc1, slot) e1 -> 0 <= rc1 ->
  flash_area_erase slot 0 (fa_size slot) e1 = Ret rc2 e2 ->
  wp (erase_slot0_work_handler slot0 failure) (fun _ e' => response e' = response e /\ contents e' = contents e2 /\
    erasure_status e' = ErasureStatus UDS_MEMORY_ERASURE_STATE__COMPLETED (mutex (erasure_status e)) 0 (work (erasure_status e))) e.
Proof.
  intros Hopen Hrc Herase. unfold erase_slot0_work_handler. apply wp_bind.
  destruct (open_law e) as (? & ? & Ho & Hs1 & Hr1 & _). rewrite Hopen in Ho. injection Ho as <- <-.
  destruct (erase_law e1) as (? & ? & Ho & Hs2 & Hr2 & _). rewrite Herase in Ho. injection Ho as <- <-.
  unfold wp at 1. rewrite Hopen. apply wp_bind. destruct (Z.ltb_spec rc1 0); [lia|].
  apply wp_bind. unfold wp at 1. rewrite Herase. apply wp_bind, wp_close. intros e3 Hs3 [Hr3 Hc3].
  apply wp_ret. eapply wp_mono; [apply finish_run|]. cbn beta. intros [] e' [[Hr Hc] Hs].
  rewrite Hr, Hr3, Hr2, Hc, Hs, Hs3, Hs2, Hs1. by split_and!.
Qed.

Lemma run_work_refines p e : represents p e ->
  exists b e' p', run_work slot0 failure e = Ret b e' /\ erase_spec failure p work_queue None [] p' /\
    represents p' e' /\ response e' = response e.
Proof.
  intros Hrep. pose proof Hrep as [[Hm Hp] _]. unfold run_work. unfold bind at 1, gets.
  destruct (work (erasure_status e)) eqn:Hw.
  2: { exists false, e, p. split; [done|]. split; [apply no_work; intros ->; by destruct Hp|done]. }
  assert (p = Erasing) as -> by (destruct p; [by destruct Hp|done|by destruct Hp as (_ & _ & ?)]).
  set (e0 := set_erasure_status (ErasureStatus (state (erasure_status e)) (mutex (erasure_status e)) (result (erasure_status e)) false) e).
  rewrite (bind_step _ _ _ tt e0) by done.
  destruct (set_law (ErasureStatus (state (erasure_status e)) (mutex (erasure_status e)) (result (erasure_status e)) false) e) as (Hs0 & Hr0 & _).
  fold e0 in Hs0, Hr0.
  destruct (proj1 (wp_Ret _ _ _) (work_handler_run e0)) as ([] & e' & Hrun & r & b & Hr & Hs & Hrb & Hblank).
  rewrite (bind_step _ _ _ _ _ Hrun). rewrite Hs0 in Hs. cbn in Hs. exists true, e', (Erased r b).
  split; [done|]. split; [|split; [|by rewrite Hr, Hr0]].
  - destruct Hrb as [[-> ->]| ->]; [apply slot_not_opened|apply slot_erased].
  - split; [rewrite Hs; by split_and!|]. destruct b; [by apply Hblank|done].
Qed.

Lemma loader_step_refines op p w : loader_config w -> represents p (ext w) ->
  exists reply sent p' e', loader_step op w = Ret reply (set_ext e' w) /\ erase_spec failure p op reply sent p' /\
    represents p' e' /\ response e' = response (ext w) ++ sent.
Proof.
  intros Hcfg Hrep. destruct op as [c id o|]; cbn [loader_step].
  - destruct (decide (id = 0xFF00)) as [->|Hid].
    + destruct (erase_answer_refines 0 c o p w Hrep) as (r & consume & sent & p' & e' & Hans & Hdec & Hspec & Hrep' & Hr).
      rewrite (bind_step _ _ _ _ _ (routine_event_erase c o w r consume _ e' Hcfg (fun _ => Hans) Hdec)). by exists (Some r), sent, p', e'.
    + rewrite (bind_step _ _ _ _ _ (routine_event_other c id o w Hcfg Hid)).
      exists (Some UDS_NRC_SubFunctionNotSupported), [], p, (ext w). rewrite set_ext_ext, app_nil_r.
      split_and!; [done|by apply other_routine|done|done].
  - destruct (run_work_refines p (ext w) Hrep) as (b & e' & p' & Hrun & Hspec & Hrep' & Hr).
    assert (on_ext (run_work slot0 failure) w = Ret b (set_ext e' w)) as Hon by (unfold on_ext, zoom; by rewrite Hrun).
    exists None, [], p', e'. rewrite app_nil_r. by rewrite (bind_step _ _ _ _ _ Hon).
Qed.


(** A failed erasure is reported as a success.  When the flash driver fails
    to erase the slot, the handler only logs it: the routine is completed, the
    slot is as the driver left it, and a request for the results is answered
    with the four zero bytes of a success. *)
Theorem failed_erase_reports_success w e1 e2 rc1 rc2 :
  loader_config w -> represents Erasing (ext w) ->
  (let s := erasure_status (ext w) in
   flash_area_open slot0 (set_erasure_status (ErasureStatus (state s) (mutex s) (result s) false) (ext w)) = Ret (rc1, slot) e1) ->
  0 <= rc1 -> flash_area_erase slot 0 (fa_size slot) e1 = Ret rc2 e2 -> rc2 < 0 ->
  exists w' reply sent w2, loader_step work_queue w = Ret None w' /\ contents (ext w') = contents e2 /\
    loader_step (routine_request 0x03 0xFF00 []) w' = Ret (Some reply) w2 /\
    response (ext w2) = response (ext w) ++ sent /\
    (reply = UDS_PositiveResponse -> sent = [0; 0; 0; 0]).
Proof.
  intros Hcfg Hrep Hopen Hrc1 Herase Hrc2. destruct Hrep as [(Hm & Hst & Hw) _].
  cbv zeta in Hopen. set (e0 := set_erasure_status _ (ext w)) in Hopen.
  destruct (set_law (ErasureStatus (state (erasure_status (ext w))) (mutex (erasure_status (ext w))) (result (erasure_status (ext w))) false) (ext w)) as (Hs0 & Hr0 & _).
  destruct (proj1 (wp_Ret _ _ _) (work_handler_opened _ _ _ _ _ Hopen Hrc1 Herase)) as ([] & e' & Hrun & Hr & Hc & Hs).
  fold e0 in Hs0, Hr0. rewrite Hs0 in Hs. cbn in Hs.
  assert (loader_step work_queue w = Ret None (set_ext e' w)) as Hwork.
  { unfold loader_step, on_ext, run_work. unfold bind at 1, zoom. unfold bind at 1, gets. rewrite Hw.
    rewrite (bind_step _ _ _ tt e0) by done. by rewrite (bind_step _ _ _ _ _ Hrun). }
  destruct (loader_step_refines (routine_request 0x03 0xFF00 []) (Erased 0 false) (set_ext e' w))
    as (reply & sent & p' & e3 & Hres & Hspec & _ & Hr3); [by apply loader_config_set_ext| |].
  { split; [|done]. cbn [ext set_ext]. rewrite Hs. by split_and!. }
  cbn [ext set_ext] in Hr3. rewrite Hr, Hr0 in Hr3.
  exists (set_ext e' w). inversion Hspec; subst; try done; [exfalso; naive_solver|..];
    (eexists _, _, _; split; [exact Hwork|]; split; [exact Hc|]; split; [exact Hres|]; split; [exact Hr3|done]).
Qed.

(** *** The session handlers *)

Definition session_event (ty : Z) : M (world E) (UDSErr_t * uds_arg) :=
  event_callback cfg (S (S depth)) fuel UDS_EVT_DiagSessCtrl (UDSDiagSessCtrlArgs ty).

(** The loader's session handlers decide.  With the handlers of the default
    instance linked before or after them (and its switch into the firmware
    loader and link control disabled, as in the loader's configuration), a request for the
    programming or the extended session is accepted, a request for every
    other session, the default session included, is refused, and neither
    changes any state. *)
Theorem loader_sessions ty w :
  loader_config w -> DISABLE_SWITCH_TO_FIRMWARE_LOADER cfg = true -> CONFIG_UDS_USE_LINK_CONTROL cfg = false ->
  session_event ty w = Ret (if bool_decide (ty = 0x02 \/ ty = 0x03) then UDS_OK else UDS_NRC_SubFunctionNotSupported, UDSDiagSessCtrlArgs ty) w.
Proof.
  intros [(inst & status & Hperm) _] Hcfg Hlink.
  assert (session_registration inst ∈ static_regs w) as (pre & post & Heq)%list_elem_of_split.
  { rewrite Hperm. unfold loader_registrations. set_solver. }
  unfold session_event. rewrite (handled cfg depth fuel __uds_event_handler_data_diag_sess_ctrl_) by (unfold uds_event_handlers; repeat constructor).
  assert (static_regs w !! length pre = Some (session_registration inst)) as Hreg by by rewrite Heq, list_lookup_middle.
  set (r := if bool_decide _ then _ else _).
  eapply (@dispatch_decided _ (callbacks cfg (S (S depth)) fuel) _ _ _ _ _ (length pre) r true).
  - apply lookup_lt_Some in Hreg. done.
  - intros j Hj. destruct (lookup_lt_is_Some_2 pre j Hj) as [x Hx].
    assert (static_regs w !! j = Some x) as Hxw by (rewrite Heq; by apply lookup_app_l_Some).
    assert (x ∈ default_instance_registrations cfg inst ++ [erase_registration inst status]) as Hin.
    { assert (Permutation (pre ++ post) (default_instance_registrations cfg inst ++ [erase_registration inst status])) as <-.
      { apply (Permutation.Permutation_cons_inv (a := session_registration inst)). rewrite Permutation_middle, <- Heq, Hperm.
        unfold loader_registrations. rewrite Permutation_middle. f_equiv. by apply Permutation_swap. }
      apply elem_of_app. left. by eapply list_elem_of_lookup_2. }
    destruct (decide (type x = UDS_REGISTRATION_TYPE__DIAG_SESSION_CTRL)) as [Hty|Hty].
    + apply (default_session_quiet _ _ _ _ _ _ inst Hcfg). rewrite Hxw. cbn. f_equal.
      unfold default_instance_registrations in Hin. rewrite Hlink in Hin. cbn in Hin.
      repeat (apply elem_of_cons in Hin as [->|Hin]; [done|]); by apply elem_of_nil in Hin.
    + apply inapplicable_quiet, (other_type _ _ _ _ _ x); [by apply read_static_run|done].
  - intros f. pose proof (visit_user cfg depth fuel __uds_event_handler_data_diag_sess_ctrl_ (session_registration inst) 1 1
      (length pre) w (UDSDiagSessCtrlArgs ty) f) as Hv.
    assert (forall c, ctx_arg c = UDSDiagSessCtrlArgs ty -> user_answer 1 1 c w = Ret (r, true, UDSDiagSessCtrlArgs ty) w) as Ha.
    { intros c Hc. unfold user_answer, bind. cbn. unfold on_session_ctrl_action. rewrite Hc. unfold r.
      repeat case_bool_decide; naive_solver. }
    rewrite Ha in Hv by done. apply Hv; try done; [unfold uds_event_handlers; repeat constructor|by eexists _, _].
  - done.
Qed.
End loader_theorems.

(** ** Theorems: resuming the session *)

(** [retained] is the byte the main application left; the CAN side is that of
    [Iso14229.IsoServerLaws]. *)
Class RetentionLaws (E : Type) `{!Retention E} `{!Platform E} `{!Iso14229.IsoServer E} `{!Iso14229.CanController E}
    `{!Iso14229.IsoServerLaws E} := {
  retained : E -> Z;
  retention_read_law : forall e, exists rc, retention_read 0 1 e = Ret (rc, [retained e]) e;
  retention_write_law : forall b e, exists rc e', retention_write 0 [b] e = Ret rc e' /\
    Iso14229.delivered e' = Iso14229.delivered e /\ (rc = 0 -> retained e' = b) /\ (rc <> 0 -> retained e' = retained e);
}.

Section resume.
Context {E : Type} `{!Retention E} `{!Platform E} `{!Iso14229.IsoServer E} `{!Iso14229.CanController E}
  `{!Iso14229.IsoServerLaws E} `{!RetentionLaws E}.
Implicit Types (w : iso_world E).

(** With the default session stored, [main] injects nothing. *)
Lemma main_default w : retained (iso_ext w) = 0x01 -> exists rc w', main w = Ret rc w' /\ iso w' = iso w.
Proof.
  destruct w as [i e]. cbn. intros Hs. unfold main.
  destruct (retention_read_law e) as [rc Hread]. rewrite (Iso14229.env_step _ _ _ _ _ _ Hread).
  destruct (Z.eqb_spec rc 0) as [->|Hne]; cbn [negb]; [|by eexists _, _].
  rewrite (bind_step _ _ _ (retained e) (IsoWorld i e)) by done.
  destruct (retention_write_law (uds_diagnostic_session_value UDS_DIAG_SESSION__DEFAULT) e) as (rc & e1 & Hwrite & _).
  rewrite (Iso14229.env_step _ _ _ _ _ _ Hwrite), Hs. destruct (negb (rc =? 0)); by eexists _, _.
Qed.

(** The round of the event loop after the frames of [l] for the physical
    link came in. *)
Lemma tick_after (l : list can_frame) i e w1 : (length l <= 1)%nat ->
  can_phys_msgq i = [] -> can_func_msgq i = [] ->
  Iso14229.receive_all ((fun f => (Iso14229.phys_link, f)) <$> l) (IsoWorld i e) = Ret tt w1 ->
  exists e2, Iso14229.iso14229_zephyr_event_loop_tick (S MSGQ_CAPACITY) w1 = Iso14229.UDSServerPoll (IsoWorld i e2) /\
    Iso14229.delivered e2 = Iso14229.delivered e ++ ((fun f => (Iso14229.phys_link, Iso14229.payload f)) <$> l).
Proof.
  intros Hl Hp Hf Hrx.
  destruct (Iso14229.reception_run ((fun f => (Iso14229.phys_link, f)) <$> l) (IsoWorld i e)) as (w1' & e2 & Hrx' & Htick & Hd);
    [cbn [iso]; rewrite ?Hp, ?Hf; cbn; lia..|].
  rewrite Hrx in Hrx'. injection Hrx' as <-. exists e2. cbn [iso iso_ext] in *. rewrite Hp, Hf in Hd. split.
  - rewrite Htick. f_equal. f_equal. destruct i. cbn in Hp, Hf. by subst.
  - rewrite Hd. destruct l as [|f [|]]; cbn in Hl; [done|done|lia].
Qed.

(** The programming session is resumed once.  [main] returns an error of the
    retention memory and has put nothing into the receive queues, or it
    returns 0, the stored session is the default one, and exactly when the
    stored session was the programming session the next round of the event
    loop hands a request for it to the physical link.  A second run of [main]
    injects nothing, so a crash of the loader cannot lead to a boot loop. *)
Theorem main_resumes_session w :
  can_phys_msgq (iso w) = [] -> can_func_msgq (iso w) = [] ->
  exists rc w1, main w = Ret rc w1 /\
    (rc <> 0 -> iso w1 = iso w) /\
    (rc = 0 -> retained (iso_ext w1) = 0x01 /\
      (exists e2, Iso14229.iso14229_zephyr_event_loop_tick (S MSGQ_CAPACITY) w1 =
        Iso14229.UDSServerPoll (IsoWorld (iso w) e2) /\
        Iso14229.delivered e2 = Iso14229.delivered (iso_ext w) ++
          (if decide (retained (iso_ext w) = 0x02) then [(Iso14229.phys_link, [0x02; 0x10; 0x02])] else [])) /\
      exists rc' w2, main w1 = Ret rc' w2 /\ iso w2 = iso w1).
Proof.
  intros Hp Hf. destruct w as [i e]. unfold main. cbn [iso iso_ext] in *.
  destruct (retention_read_law e) as [rc Hread]. rewrite (Iso14229.env_step _ _ _ _ _ _ Hread).
  destruct (Z.eqb_spec rc 0) as [->|Hne]; cbn [negb]; [|by eexists _, _; split_and!].
  rewrite (bind_step _ _ _ (retained e) (IsoWorld i e)) by done.
  destruct (retention_write_law (uds_diagnostic_session_value UDS_DIAG_SESSION__DEFAULT) e) as (rc & e1 & Hwrite & Hd1 & Hok & Hfail).
  rewrite (Iso14229.env_step _ _ _ _ _ _ Hwrite).
  destruct (Z.eqb_spec rc 0) as [->|Hne]; cbn [negb]; [|by eexists _, _; split_and!].
  specialize (Hok eq_refl).
  set (l := if decide (retained e = 2) then [CanFrame (phys_sa (tp i)) 3 0 [0x02; 0x10; 0x02; 0; 0; 0; 0; 0]] else []).
  assert (exists w1, Iso14229.receive_all ((fun f => (Iso14229.phys_link, f)) <$> l) (IsoWorld i e1) = Ret tt w1 /\ iso_ext w1 = e1 /\
    (if retained e =? UDS_DIAG_SESSION__PROGRAMMING then (iso14229_inject_can_frame_rx resume_frame false ;; ret 0) else ret 0)
      (IsoWorld i e1) = Ret 0 w1) as (w1 & Hrx & Hext & Hrest).
  { unfold l. destruct (Z.eqb_spec (retained e) UDS_DIAG_SESSION__PROGRAMMING) as [->|Hne].
    - rewrite decide_True by done. cbn [fmap list_fmap Iso14229.receive_all].
      set (fr := CanFrame _ _ _ _).
      rewrite (bind_step _ _ _ _ _ (Iso14229.can_rx_cb_run Iso14229.phys_link fr (IsoWorld i e1))).
      eexists. split_and!; [reflexivity|done|].
      assert (iso14229_inject_can_frame_rx resume_frame false (IsoWorld i e1) = Iso14229.can_rx_cb Iso14229.phys_link fr (IsoWorld i e1)) as Hin by done.
      rewrite Iso14229.can_rx_cb_run in Hin. by rewrite (bind_step _ _ _ _ _ Hin).
    - rewrite decide_False by done. by exists (IsoWorld i e1). }
  exists 0, w1. split; [exact Hrest|]. split; [done|]. intros _. rewrite Hext. split; [done|]. split.
  - destruct (tick_after l i e1 w1) as (e2 & Htick & Hd); [unfold l; destruct (decide _); cbn; lia|done|done|done|].
    exists e2. split; [done|]. rewrite Hd, Hd1. f_equal. unfold l. by destruct (decide _).
  - apply main_default. by rewrite Hext.
Qed.
End resume.
