(* ===== verification/UdsSample.v ===== *)
(** * The UDS sample application ([samples/uds/src])

    The application that shows how the library is used: security access and
    authentication (security_access.c, authentication.c), data identifiers and
    an LED with its update thread (data_by_id.c), a memory of 100 bytes
    (mem_by_address.c), a synchronous and an asynchronous routine
    (routine_control.c), trouble codes (dtc_information.c) and session handlers
    (diag_session_ctrl.c).  Here are its variables, all its functions, its
    registrations and its instance of [UserCallbacks]; the theorems are in
    [UdsSampleSecurity], [UdsSampleData], [UdsSampleRoutine] and
    [UdsSampleDtc]. *)

From stdpp Require Import base gmap list numbers relations strings.
From Stdlib Require Import ZArith Lia Ascii.
From S2P Require Import Prelude.
From S2P Require Import UdsTypes.
From S2P Require Import UdsMacros.
From S2P Require Import UdsServices.
From S2P Require Import UdsSystem.

#[local] Open Scope Z_scope.

(** ** The variables *)

Record authentication_data := AuthenticationData {
  authenticated : bool;
  seeed : list Z;
  algorithm_authenticator : list Z;
}.

Record led_data_t := LedData {
  led_state : Z;
  io_control_led_state : Z;
  io_control_active : bool;
}.

Inductive async_work_status :=
| ASYNC_WORK_STATUS_IDLE
| ASYNC_WORK_STATUS_SUCCESS
| ASYNC_WORK_STATUS_STOPPED
| ASYNC_WORK_STATUS_RUNNING.

#[export] Instance async_work_status_eq_dec : EqDecision async_work_status.
Proof. solve_decision. Defined.

Definition async_work_status_value (x : async_work_status) : Z :=
  match x with
  | ASYNC_WORK_STATUS_IDLE => 0
  | ASYNC_WORK_STATUS_SUCCESS => 1
  | ASYNC_WORK_STATUS_STOPPED => 2
  | ASYNC_WORK_STATUS_RUNNING => 3
  end.

Record uds_async_work_data := AsyncWorkData {
  current_progress : Z;
  async_status : async_work_status;
  force_stop : bool;
}.

Record DtcRecord := Dtc {
  dtc : list Z;
  status : Z;
  is_active : bool;
  is_frozen : bool;
}.

(** The mutexes and the delayable work items. *)
Inductive sample_mutex := led_data_mutex | async_work_mutex | dtc_record_mutex.
Inductive sample_work := async_routine_work | dtc_reactivate_work | dtc_status_increment_work.

#[export] Instance sample_mutex_eq_dec : EqDecision sample_mutex.
Proof. solve_decision. Defined.
#[export] Instance sample_work_eq_dec : EqDecision sample_work.
Proof. solve_decision. Defined.

(** Where the LED thread and the handler of the asynchronous routine are: the
    handler at its beginning, before the check of iteration [i] of its loop,
    or returned to the work queue. *)
Inductive led_pc := LedStart | LedLoop | LedReturned.
Inductive async_pc := AsyncNotRunning | AsyncStart | AsyncLoop (i : Z) | AsyncReturned.

#[export] Instance async_pc_eq_dec : EqDecision async_pc.
Proof. solve_decision. Defined.

(** [locked] are the mutexes somebody holds, [scheduled] the work items that
    wait for their delay or for the queue. *)
Record uds_sample := UdsSample {
  current_seed : Z;
  seed_requested : bool;
  auth_data : authentication_data;
  primitive_type : Z;
  led_data : led_data_t;
  fake_memory : list Z;
  async_work_data : uds_async_work_data;
  dtc_records : list DtcRecord;
  locked : list sample_mutex;
  scheduled : list sample_work;
  led_thread : led_pc;
  async_worker : async_pc;
}.

Definition set_current_seed x s := UdsSample x (seed_requested s) (auth_data s) (primitive_type s) (led_data s) (fake_memory s)
  (async_work_data s) (dtc_records s) (locked s) (scheduled s) (led_thread s) (async_worker s).
Definition set_seed_requested x s := UdsSample (current_seed s) x (auth_data s) (primitive_type s) (led_data s) (fake_memory s)
  (async_work_data s) (dtc_records s) (locked s) (scheduled s) (led_thread s) (async_worker s).
Definition set_auth_data x s := UdsSample (current_seed s) (seed_requested s) x (primitive_type s) (led_data s) (fake_memory s)
  (async_work_data s) (dtc_records s) (locked s) (scheduled s) (led_thread s) (async_worker s).
Definition set_primitive_type x s := UdsSample (current_seed s) (seed_requested s) (auth_data s) x (led_data s) (fake_memory s)
  (async_work_data s) (dtc_records s) (locked s) (scheduled s) (led_thread s) (async_worker s).
Definition set_led_data x s := UdsSample (current_seed s) (seed_requested s) (auth_data s) (primitive_type s) x (fake_memory s)
  (async_work_data s) (dtc_records s) (locked s) (scheduled s) (led_thread s) (async_worker s).
Definition set_fake_memory x s := UdsSample (current_seed s) (seed_requested s) (auth_data s) (primitive_type s) (led_data s) x
  (async_work_data s) (dtc_records s) (locked s) (scheduled s) (led_thread s) (async_worker s).
Definition set_async_work_data x s := UdsSample (current_seed s) (seed_requested s) (auth_data s) (primitive_type s) (led_data s) (fake_memory s)
  x (dtc_records s) (locked s) (scheduled s) (led_thread s) (async_worker s).
Definition set_dtc_records x s := UdsSample (current_seed s) (seed_requested s) (auth_data s) (primitive_type s) (led_data s) (fake_memory s)
  (async_work_data s) x (locked s) (scheduled s) (led_thread s) (async_worker s).
Definition set_locked x s := UdsSample (current_seed s) (seed_requested s) (auth_data s) (primitive_type s) (led_data s) (fake_memory s)
  (async_work_data s) (dtc_records s) x (scheduled s) (led_thread s) (async_worker s).
Definition set_scheduled x s := UdsSample (current_seed s) (seed_requested s) (auth_data s) (primitive_type s) (led_data s) (fake_memory s)
  (async_work_data s) (dtc_records s) (locked s) x (led_thread s) (async_worker s).
Definition set_led_thread x s := UdsSample (current_seed s) (seed_requested s) (auth_data s) (primitive_type s) (led_data s) (fake_memory s)
  (async_work_data s) (dtc_records s) (locked s) (scheduled s) x (async_worker s).
Definition set_async_worker x s := UdsSample (current_seed s) (seed_requested s) (auth_data s) (primitive_type s) (led_data s) (fake_memory s)
  (async_work_data s) (dtc_records s) (locked s) (scheduled s) (led_thread s) x.

(** *** The values the program starts with *)

Definition auth_data_init : authentication_data := AuthenticationData false (replicate 16 0)
  [0x06; 0x09; 0x60; 0x86; 0x48; 0x01; 0x65; 0x03; 0x04; 0x01; 0x02; 0x00; 0x00; 0x00; 0x00; 0x00].

Definition fake_memory_start_addr : Z := 0x00001000.

(** The fifth and the sixth byte are both 5. *)
Definition fake_memory_init : list Z := [1; 2; 3; 4; 5; 5] ++ (Z.of_nat <$> seq 7 94).

Definition dtc_status_availability_mask : Z := 0x7F.

Definition dtc_records_init : list DtcRecord :=
  [Dtc [0x0A; 0x9B; 0x17] 0x24 true false; Dtc [0x80; 0x51; 0x11] 0x2F true false].

Definition uds_sample_init : uds_sample :=
  UdsSample 0 false auth_data_init 5 (LedData 0 0 false) fake_memory_init
    (AsyncWorkData 0 ASYNC_WORK_STATUS_IDLE false) dtc_records_init [] [] LedStart AsyncNotRunning.

Definition uds_aes_key : list Z :=
  [0xc3; 0x6a; 0xd3; 0x5c; 0xa2; 0xb7; 0x0e; 0x82; 0xf7; 0xc3; 0x7a; 0xfa; 0x62; 0xad; 0xae; 0xc2].

(** A character array, with the terminating NUL. *)
Definition c_string (s : string) : list Z := (Z.of_nat <$> (nat_of_ascii <$> String.list_ascii_of_string s)) ++ [0].

Definition secure_data : list Z := c_string "Secret Data Protected by Security Access".
Definition string_data : list Z := c_string "Hello from UDS".
Definition authenticated_type : Z := 0x42.

(** *** Pointers

    The user contexts and data pointers of the registrations. *)

Definition ptr_primitive_type : addr := 1.
Definition ptr_string : addr := 2.
Definition ptr_authenticated_type : addr := 3.
Definition ptr_led_state : addr := 4.
Definition ptr_secure_data : addr := 5.

Definition ptr_primitive_type_size : Z := 1.
Definition ptr_string_size : Z := 2.
Definition ptr_authenticated_type_size : Z := 3.
Definition ptr_led_data : Z := 4.
Definition ptr_secure_data_size : Z := 5.
Definition ptr_auth_data : Z := 6.
Definition ptr_async_routine_data : Z := 7.

(** The bytes of the object behind a data pointer; the processor is
    little-endian. *)
Definition object_bytes (s : uds_sample) (p : addr) : option (list Z) :=
  match p with
  | 1%positive => Some [u8 (primitive_type s); u8 (Z.shiftr (primitive_type s) 8)]
  | 2%positive => Some string_data
  | 3%positive => Some [authenticated_type]
  | 4%positive => Some [led_state (led_data s)]
  | 5%positive => Some secure_data
  | _ => None
  end.

(** [*(uint16_t * ) user_context]: the size variables. *)
Definition size_variable (p : Z) : option Z :=
  if p =? ptr_primitive_type_size then Some 2
  else if p =? ptr_string_size then Some (Z.of_nat (length string_data))
  else if p =? ptr_authenticated_type_size then Some 1
  else if p =? ptr_secure_data_size then Some (Z.of_nat (length secure_data))
  else None.

(** main.c: the user context of the default instance. *)
Definition uds_default_instance_user_context : Z := ptr_auth_data.

(** ** What the sample asks of its environment *)

(** The variables of the program as a part of the environment. *)
Class SampleVars (E : Type) := {
  vars : E -> uds_sample;
  set_vars : uds_sample -> E -> E;
}.

(** Names of the iso14229 library: the states an authentication is answered
    with. *)
Inductive auth_state := UDS_AT_RA | UDS_AT_OVAC | UDS_AT_DAS.

(** The sub-functions, with the values the comments give. *)
Definition UDS_LEV_AT_DA : Z := 0x00.
Definition UDS_LEV_AT_RCFA : Z := 0x05.
Definition UDS_LEV_AT_VPOWNU : Z := 0x06.

(** More of the iso14229 server. *)
Class SecurityServer (E : Type) := {
  securityLevel : E -> Z;
  set_auth_state : auth_state -> M E UDSErr_t;
}.

Class Random (E : Type) := { sys_rand32_get : M E Z }.

(** The PSA Crypto API.  [psa_import_key] yields the status and [*key_id],
    the cipher functions the status, the output buffer and [*output_len],
    [psa_generate_random] the status and the buffer. *)
Inductive psa_key_usage := PSA_KEY_USAGE_ENCRYPT | PSA_KEY_USAGE_DECRYPT.
Inductive psa_algorithm := PSA_ALG_ECB_NO_PADDING.
Inductive psa_key_type := PSA_KEY_TYPE_AES.

Record psa_key_attributes := KeyAttributes {
  key_usage_flags : psa_key_usage;
  key_algorithm : psa_algorithm;
  key_type : psa_key_type;
  key_bits : Z;
}.

Definition PSA_SUCCESS : Z := 0.

Class PsaCrypto (E : Type) := {
  psa_crypto_init : M E Z;
  psa_import_key : psa_key_attributes -> list Z -> M E (Z * positive);
  psa_cipher_encrypt : positive -> psa_algorithm -> list Z -> M E (Z * list Z * Z);
  psa_cipher_decrypt : positive -> psa_algorithm -> list Z -> M E (Z * list Z * Z);
  psa_destroy_key : positive -> M E unit;
  psa_generate_random : Z -> M E (Z * list Z);
}.

(** The pin of [led]. *)
Class LedPin (E : Type) := {
  gpio_pin_configure_dt : M E Z;
  gpio_pin_get_dt : M E Z;
  gpio_pin_set_dt : Z -> M E Z;
}.

(** ** Mutexes and work items

    Locking a mutex that is held waits for ever; no function of the sample
    locks one it holds itself.  A work item is scheduled or not. *)

Section kernel.
Context {E : Type} `{!SampleVars E}.

Definition update (f : uds_sample -> uds_sample) : M E unit := modify (fun e => set_vars (f (vars e)) e).

Definition k_mutex_lock (m : sample_mutex) : M E unit :=
  let* s := gets vars in
  if decide (m ∈ locked s) then fail Blocked else update (set_locked (m :: locked s)).

Definition k_mutex_unlock (m : sample_mutex) : M E unit :=
  update (fun s => set_locked (filter (fun x => x <> m) (locked s)) s).

Definition k_work_schedule (k : sample_work) : M E Z :=
  let* s := gets vars in
  if decide (k ∈ scheduled s) then ret 0 else (update (set_scheduled (k :: scheduled s)) ;; ret 1).

Definition unschedule (k : sample_work) : M E unit :=
  update (fun s => set_scheduled (filter (fun x => x <> k) (scheduled s)) s).

(** Cancelling leaves a running handler alone. *)
Definition k_work_cancel_delayable (k : sample_work) : M E unit := unschedule k.

(** An item is pending when it is scheduled or its handler runs. *)
Definition k_work_delayable_is_pending (k : sample_work) : M E bool :=
  let* s := gets vars in
  ret (bool_decide (k ∈ scheduled s) ||
       bool_decide (k = async_routine_work) && bool_decide (async_worker s <> AsyncNotRunning)).
End kernel.

(** ** security_access.c *)

Section security_access.
Context {E : Type} `{!Server E} `{!SampleVars E} `{!SecurityServer E} `{!Random E}.

Definition secure_data_id : Z := 0x300.

Definition security_access_request_seed_check (context : uds_context) (apply_action : bool) :
    M (world E) (UDSErr_t * bool) :=
  match ctx_arg context with
  | UDSSecAccessRequestSeedArgs level => if negb (level =? 1) then ret (UDS_OK, apply_action) else ret (UDS_OK, true)
  | _ => fail BadArgument
  end.

Definition security_access_request_seed_action (context : uds_context) (consume_event : bool) :
    M (world E) (UDSErr_t * bool * uds_arg) :=
  match ctx_arg context with
  | UDSSecAccessRequestSeedArgs level =>
      let* seed := on_ext sys_rand32_get in
      on_ext (update (set_current_seed seed)) ;;
      on_ext (update (set_seed_requested true)) ;;
      let* s := on_ext (gets vars) in
      let* r := on_ext (server_copy (Some (be32 (current_seed s))) 4) in
      ret (r, true, ctx_arg context)
  | _ => fail BadArgument
  end.

Definition security_access_validate_key_check (context : uds_context) (apply_action : bool) :
    M (world E) (UDSErr_t * bool) :=
  match ctx_arg context with
  | UDSSecAccessValidateKeyArgs level key => if negb (level =? 1) then ret (UDS_OK, apply_action) else ret (UDS_OK, true)
  | _ => fail BadArgument
  end.

Definition security_access_validate_key_action (context : uds_context) (consume_event : bool) :
    M (world E) (UDSErr_t * bool * uds_arg) :=
  match ctx_arg context with
  | UDSSecAccessValidateKeyArgs level key =>
      let* s := on_ext (gets vars) in
      if negb (seed_requested s) then ret (UDS_NRC_RequestSequenceError, true, ctx_arg context)
      else if negb (Z.of_nat (length key) =? 4)
      then ret (UDS_NRC_IncorrectMessageLengthOrInvalidFormat, true, ctx_arg context)
      else
        let* received_key := of_option OutOfBounds (of_be32 key) in
        let expected_key := u32 (Z.lnot (current_seed s)) in
        if received_key =? expected_key
        then (on_ext (update (set_seed_requested false)) ;; ret (UDS_PositiveResponse, true, ctx_arg context))
        else (on_ext (update (set_seed_requested false)) ;; ret (UDS_NRC_InvalidKey, true, ctx_arg context))
  | _ => fail BadArgument
  end.

Definition read_secure_data_check (context : uds_context) (apply_action : bool) : M (world E) (UDSErr_t * bool) :=
  match ctx_arg context with
  | UDSRDBIArgs dataId _ =>
      if negb (dataId =? secure_data_id) then ret (UDS_OK, apply_action)
      else
        let* level := on_ext (gets securityLevel) in
        if level <? 1 then ret (UDS_NRC_SecurityAccessDenied, true) else ret (UDS_OK, true)
  | _ => fail BadArgument
  end.

Definition read_secure_data_action (context : uds_context) (consume_event : bool) :
    M (world E) (UDSErr_t * bool * uds_arg) :=
  match ctx_arg context with
  | UDSRDBIArgs dataId copy =>
      let* r := call_copy copy (Some secure_data) (Z.of_nat (length secure_data)) in
      ret (r, true, ctx_arg context)
  | _ => fail BadArgument
  end.
End security_access.

(** ** authentication.c *)

Section authentication.
Context {E : Type} `{!Server E} `{!SampleVars E} `{!SecurityServer E} `{!PsaCrypto E}.

(** [static int aes_ecb_crypt]: the return value and [output]. *)
Definition aes_ecb_crypt (key input : list Z) (encrypt : bool) : M E (Z * list Z) :=
  let* r := psa_crypto_init in
  if negb (r =? PSA_SUCCESS) then ret (-1, [])
  else
    let attr := KeyAttributes (if encrypt then PSA_KEY_USAGE_ENCRYPT else PSA_KEY_USAGE_DECRYPT)
      PSA_ALG_ECB_NO_PADDING PSA_KEY_TYPE_AES 128 in
    let* (st, key_id) := psa_import_key attr key in
    if negb (st =? PSA_SUCCESS) then ret (-1, [])
    else
      let* (st, output, output_len) :=
        if encrypt then psa_cipher_encrypt key_id PSA_ALG_ECB_NO_PADDING input
        else psa_cipher_decrypt key_id PSA_ALG_ECB_NO_PADDING input in
      psa_destroy_key key_id ;;
      ret (if (st =? PSA_SUCCESS) && (output_len =? 16) then 0 else -1, output).

Definition aes_encrypt_ecb (key input : list Z) : M E (Z * list Z) := aes_ecb_crypt key input true.
Definition aes_decrypt_ecb (key input : list Z) : M E (Z * list Z) := aes_ecb_crypt key input false.

(** The return value and, where [seed] was written, its new contents. *)
Definition generate_random_seed : M E (Z * option (list Z)) :=
  let* r := psa_crypto_init in
  if negb (r =? PSA_SUCCESS) then ret (-1, None)
  else
    let* (st, seed) := psa_generate_random 16 in
    ret (if st =? PSA_SUCCESS then 0 else -1, Some seed).

Definition auth_check (context : uds_context) (apply_action : bool) : M (world E) (UDSErr_t * bool) := ret (UDS_OK, true).

(** [context->registration->auth.user_context] as the authentication data. *)
Definition auth_user_context (context : uds_context) : M (world E) unit :=
  let* reg := read_reg (ctx_registration context) in
  if user_context reg =? ptr_auth_data then ret tt else fail NullPointer.

(** [memcmp (p, q, 16) != 0]; both have 16 bytes at least. *)
Definition memcmp16 (p q : list Z) : M (world E) bool :=
  if (length p <? 16)%nat || (length q <? 16)%nat then fail OutOfBounds
  else ret (bool_decide (take 16 p <> take 16 q)).

Definition set_authenticated (b : bool) : uds_sample -> uds_sample := fun s =>
  set_auth_data (AuthenticationData b (seeed (auth_data s)) (algorithm_authenticator (auth_data s))) s.
Definition set_seeed (x : list Z) : uds_sample -> uds_sample := fun s =>
  set_auth_data (AuthenticationData (authenticated (auth_data s)) x (algorithm_authenticator (auth_data s))) s.

(** The cases of the switch in [auth_action]. *)
Definition auth_request_challenge (args : auth_sub_args) : M (world E) UDSErr_t :=
  match args with
  | reqChallengeArgs algoInd =>
      let* s := on_ext (gets vars) in
      let* differs := memcmp16 algoInd (algorithm_authenticator (auth_data s)) in
      if differs then ret UDS_NRC_ConditionsNotCorrect
      else
        let* (r, seed) := on_ext generate_random_seed in
        on_ext (match seed with Some x => update (set_seeed x) | None => ret tt end) ;;
        if negb (r =? 0) then ret UDS_NRC_GeneralReject
        else
          on_ext (server_copy (Some [0x00; 0x10]) 2) ;;
          let* s := on_ext (gets vars) in
          on_ext (server_copy (Some (seeed (auth_data s))) 16) ;;
          on_ext (server_copy (Some [0x00; 0x00]) 2) ;;
          on_ext (set_auth_state UDS_AT_RA)
  | _ => fail BadArgument
  end.

Definition auth_verify_proof (args : auth_sub_args) : M (world E) UDSErr_t :=
  match args with
  | verifyPownArgs algoInd pown =>
      let* s := on_ext (gets vars) in
      let* differs := memcmp16 algoInd (algorithm_authenticator (auth_data s)) in
      if differs then ret UDS_NRC_ConditionsNotCorrect
      else if negb (Z.of_nat (length pown) =? 16) then ret UDS_NRC_IncorrectMessageLengthOrInvalidFormat
      else
        let* (r, decrypted_proof) := on_ext (aes_decrypt_ecb uds_aes_key pown) in
        if negb (r =? 0) then ret UDS_NRC_GeneralReject
        else
          let* s := on_ext (gets vars) in
          let* differs := memcmp16 decrypted_proof (seeed (auth_data s)) in
          if differs then (on_ext (update (set_authenticated false)) ;; ret UDS_NRC_InvalidKey)
          else
            on_ext (update (set_authenticated true)) ;;
            on_ext (server_copy (Some [0x00; 0x00]) 2) ;;
            on_ext (set_auth_state UDS_AT_OVAC)
  | _ => fail BadArgument
  end.

Definition auth_deauthenticate : M (world E) UDSErr_t :=
  on_ext (update (set_authenticated false)) ;;
  let* r := on_ext (set_auth_state UDS_AT_DAS) in
  if decide (r <> UDS_OK) then ret r else ret UDS_OK.

Definition auth_action (context : uds_context) (consume_event : bool) : M (world E) (UDSErr_t * bool * uds_arg) :=
  match ctx_arg context with
  | UDSAuthArgs type subFuncArgs =>
      auth_user_context context ;;
      let* r :=
        if type =? UDS_LEV_AT_RCFA then auth_request_challenge subFuncArgs
        else if type =? UDS_LEV_AT_VPOWNU then auth_verify_proof subFuncArgs
        else if type =? UDS_LEV_AT_DA then auth_deauthenticate
        else ret UDS_NRC_SubFunctionNotSupported in
      ret (r, consume_event, ctx_arg context)
  | _ => fail BadArgument
  end.

Definition auth_timeout_check (context : uds_context) (apply_action : bool) : M (world E) (UDSErr_t * bool) := ret (UDS_OK, true).

Definition auth_timeout_action (context : uds_context) (consume_event : bool) : M (world E) (UDSErr_t * bool * uds_arg) :=
  auth_user_context context ;;
  on_ext (update (set_authenticated false)) ;;
  ret (UDS_PositiveResponse, true, ctx_arg context).
End authentication.

(** ** data_by_id.c *)

Section data_by_id.
Context {E : Type} `{!Server E} `{!SampleVars E} `{!LedPin E}.

Definition primitive_type_id : Z := 0x50.
Definition string_id : Z := 0x100.
Definition authenticated_type_id : Z := 0x150.
Definition led_id : Z := 0x200.

(** The user context of the instance is the one main.c provides. *)
Definition read_data_by_id_check (context : uds_context) (apply_action : bool) : M (world E) (UDSErr_t * bool) :=
  match ctx_arg context with
  | UDSRDBIArgs dataId _ =>
      if dataId =? authenticated_type_id then
        if negb (uds_default_instance_user_context =? ptr_auth_data) then fail NullPointer
        else
          let* s := on_ext (gets vars) in
          if negb (authenticated (auth_data s)) then ret (UDS_NRC_ConditionsNotCorrect, apply_action)
          else ret (UDS_OK, true)
      else ret (UDS_OK, true)
  | _ => fail BadArgument
  end.

(** [memcpy (temp, p, size)] into the first bytes of [temp], which is zero. *)
Definition temp_with (bytes : list Z) (size : Z) : option (list Z) :=
  if (50 <? size) || (Z.of_nat (length bytes) <? size) then None
  else Some (take (Z.to_nat size) bytes ++ replicate (50 - Z.to_nat size) 0).

Definition read_data_by_id_action (context : uds_context) (consume_event : bool) :
    M (world E) (UDSErr_t * bool * uds_arg) :=
  let* reg := read_reg (ctx_registration context) in
  match ctx_arg context, payload reg with
  | UDSRDBIArgs dataId copy, data_identifier data _ _ _ _ =>
      let* size := of_option NullPointer (size_variable (user_context reg)) in
      let* s := on_ext (gets vars) in
      let* temp :=
        if dataId =? primitive_type_id then
          let* bytes := of_option NullPointer (object_bytes s data) in
          let* x := of_option OutOfBounds (of_le16 bytes) in
          of_option OutOfBounds (temp_with (be16 x) 2)
        else if (dataId =? string_id) || (dataId =? authenticated_type_id) then
          let* bytes := of_option NullPointer (object_bytes s data) in
          of_option OutOfBounds (temp_with bytes size)
        else ret (replicate 50 0) in
      let* r := call_copy copy (Some temp) size in
      ret (r, true, ctx_arg context)
  | _, _ => fail BadArgument
  end.

Definition write_primitive_data_by_id_check (context : uds_context) (apply_action : bool) :
    M (world E) (UDSErr_t * bool) := ret (UDS_OK, true).

(** [*(uint16_t * )data = x]: the only object the sample writes so. *)
Definition write_primitive_data_by_id_action (context : uds_context) (consume_event : bool) :
    M (world E) (UDSErr_t * bool * uds_arg) :=
  let* reg := read_reg (ctx_registration context) in
  match ctx_arg context, payload reg with
  | UDSWDBIArgs dataId data, data_identifier p _ _ _ _ =>
      let* x := of_option OutOfBounds (of_be16 data) in
      if decide (p = ptr_primitive_type)
      then (on_ext (update (set_primitive_type x)) ;; ret (UDS_PositiveResponse, true, ctx_arg context))
      else fail OutOfBounds
  | _, _ => fail BadArgument
  end.

Definition read_led_check (context : uds_context) (apply_action : bool) : M (world E) (UDSErr_t * bool) := ret (UDS_OK, true).

Definition read_led_action (context : uds_context) (consume_event : bool) : M (world E) (UDSErr_t * bool * uds_arg) :=
  let* led_state := on_ext gpio_pin_get_dt in
  if led_state <? 0 then ret (UDS_NRC_ConditionsNotCorrect, consume_event, ctx_arg context)
  else match ctx_arg context with
  | UDSRDBIArgs _ copy =>
      let* r := call_copy copy (Some [u8 led_state]) 1 in
      ret (r, true, ctx_arg context)
  | _ => fail BadArgument
  end.

Definition write_led_check (context : uds_context) (apply_action : bool) : M (world E) (UDSErr_t * bool) := ret (UDS_OK, true).

Definition set_led_state (x : Z) (s : uds_sample) : uds_sample :=
  set_led_data (LedData x (io_control_led_state (led_data s)) (io_control_active (led_data s))) s.
Definition set_io_control_led_state (x : Z) (s : uds_sample) : uds_sample :=
  set_led_data (LedData (led_state (led_data s)) x (io_control_active (led_data s))) s.
Definition set_io_control_active (b : bool) (s : uds_sample) : uds_sample :=
  set_led_data (LedData (led_state (led_data s)) (io_control_led_state (led_data s)) b) s.

Definition write_led_action (context : uds_context) (consume_event : bool) : M (world E) (UDSErr_t * bool * uds_arg) :=
  match ctx_arg context with
  | UDSWDBIArgs _ data =>
      match data with
      | [] => ret (UDS_NRC_IncorrectMessageLengthOrInvalidFormat, consume_event, ctx_arg context)
      | new_led_state :: _ =>
          on_ext (k_mutex_lock led_data_mutex) ;;
          on_ext (update (set_led_state new_led_state)) ;;
          on_ext (k_mutex_unlock led_data_mutex) ;;
          ret (UDS_PositiveResponse, true, ctx_arg context)
      end
  | _ => fail BadArgument
  end.

Definition io_ctrl_led_check (context : uds_context) (apply_action : bool) : M (world E) (UDSErr_t * bool) := ret (UDS_OK, true).

Definition io_ctrl_led_action (context : uds_context) (consume_event : bool) : M (world E) (UDSErr_t * bool * uds_arg) :=
  match ctx_arg context with
  | UDSIOCtrlArgs _ ioCtrlParam ctrlStateAndMask copy =>
      if (ioCtrlParam =? UDS_IO_CONTROL__SHORT_TERM_ADJUSTMENT) && (1 <=? length ctrlStateAndMask)%nat then
        on_ext (k_mutex_lock led_data_mutex) ;;
        let* current_led_state := on_ext gpio_pin_get_dt in
        if current_led_state <? 0
        then (on_ext (k_mutex_unlock led_data_mutex) ;; ret (UDS_NRC_ConditionsNotCorrect, consume_event, ctx_arg context))
        else
          on_ext (update (set_io_control_active true)) ;;
          let* x := of_option OutOfBounds (head ctrlStateAndMask) in
          on_ext (update (set_io_control_led_state x)) ;;
          on_ext (k_mutex_unlock led_data_mutex) ;;
          let* r := call_copy copy (Some [u8 current_led_state]) 1 in
          ret (r, consume_event, ctx_arg context)
      else if ioCtrlParam =? UDS_IO_CONTROL__RESET_TO_DEFAULT then
        on_ext (k_mutex_lock led_data_mutex) ;;
        on_ext (update (set_io_control_led_state 0)) ;;
        on_ext (update (set_led_state 0)) ;;
        on_ext (k_mutex_unlock led_data_mutex) ;;
        let* r := call_copy copy (Some [0]) 1 in
        ret (r, consume_event, ctx_arg context)
      else if ioCtrlParam =? UDS_IO_CONTROL__RETURN_CONTROL_TO_ECU then
        on_ext (k_mutex_lock led_data_mutex) ;;
        let* s := on_ext (gets vars) in
        on_ext (update (set_io_control_active false)) ;;
        on_ext (k_mutex_unlock led_data_mutex) ;;
        let* r := call_copy copy (Some [led_state (led_data s)]) 1 in
        ret (r, consume_event, ctx_arg context)
      else ret (UDS_NRC_RequestOutOfRange, consume_event, ctx_arg context)
  | _ => fail BadArgument
  end.

(** [led_update_thread], up to its loop and one round of it; between the
    rounds it sleeps. *)
Definition led_update_thread_start : M E led_pc :=
  k_mutex_lock led_data_mutex ;;
  let* r := gpio_pin_configure_dt in
  if r <? 0 then ret LedReturned
  else
    update (set_led_data (LedData 0 0 false)) ;;
    k_mutex_unlock led_data_mutex ;;
    ret LedLoop.

Definition led_update_thread_round : M E led_pc :=
  k_mutex_lock led_data_mutex ;;
  let* s := gets vars in
  let* _ := if io_control_active (led_data s) then gpio_pin_set_dt (io_control_led_state (led_data s))
            else gpio_pin_set_dt (led_state (led_data s)) in
  k_mutex_unlock led_data_mutex ;;
  ret LedLoop.

Definition led_update_thread : M E unit :=
  let* s := gets vars in
  let* pc := match led_thread s with
             | LedStart => led_update_thread_start
             | LedLoop => led_update_thread_round
             | LedReturned => ret LedReturned
             end in
  update (set_led_thread pc).
End data_by_id.

(** ** mem_by_address.c *)

Section mem_by_address.
Context {E : Type} `{!Server E} `{!SampleVars E}.

Definition fake_memory_size : Z := 100.

(** The check both events use. *)
Definition fake_memory_check (memAddr memSize : Z) (apply_action : bool) : bool :=
  let addr := u32 memAddr in
  let size := u32 memSize in
  if (addr <? fake_memory_start_addr) || (fake_memory_start_addr + fake_memory_size <=? u32 (addr + size))
  then apply_action else true.

Definition read_mem_by_address_check (context : uds_context) (apply_action : bool) : M (world E) (UDSErr_t * bool) :=
  match ctx_arg context with
  | UDSReadMemByAddrArgs memAddr memSize _ => ret (UDS_OK, fake_memory_check memAddr memSize apply_action)
  | _ => fail BadArgument
  end.

(** The index into [fake_memory]. *)
Definition fake_memory_index (memAddr : Z) : Z := u32 (u32 memAddr - fake_memory_start_addr).

(** The copy function reads [u16 size] bytes itself. *)
Definition read_mem_by_address_action (context : uds_context) (consume_event : bool) :
    M (world E) (UDSErr_t * bool * uds_arg) :=
  match ctx_arg context with
  | UDSReadMemByAddrArgs memAddr memSize copy =>
      let size := u32 memSize in
      let index := fake_memory_index memAddr in
      let* s := on_ext (gets vars) in
      if Z.of_nat (length (fake_memory s)) <? index + u16 size then fail OutOfBounds
      else
        let* r := call_copy copy (Some (drop (Z.to_nat index) (fake_memory s))) size in
        ret (r, consume_event, ctx_arg context)
  | _ => fail BadArgument
  end.

Definition write_mem_by_address_check (context : uds_context) (apply_action : bool) : M (world E) (UDSErr_t * bool) :=
  match ctx_arg context with
  | UDSWriteMemByAddrArgs memAddr memSize _ => ret (UDS_OK, fake_memory_check memAddr memSize apply_action)
  | _ => fail BadArgument
  end.

Definition write_mem_by_address_action (context : uds_context) (consume_event : bool) :
    M (world E) (UDSErr_t * bool * uds_arg) :=
  match ctx_arg context with
  | UDSWriteMemByAddrArgs memAddr memSize data =>
      let size := u32 memSize in
      let index := fake_memory_index memAddr in
      let* s := on_ext (gets vars) in
      if (Z.of_nat (length (fake_memory s)) <? index + size) || (Z.of_nat (length data) <? size) then fail OutOfBounds
      else
        on_ext (update (set_fake_memory (take (Z.to_nat index) (fake_memory s) ++ take (Z.to_nat size) data ++
                                         drop (Z.to_nat (index + size)) (fake_memory s)))) ;;
        ret (UDS_PositiveResponse, consume_event, ctx_arg context)
  | _ => fail BadArgument
  end.
End mem_by_address.

(** ** routine_control.c *)

Section routines.
Context {E : Type} `{!Server E} `{!Platform E} `{!SampleVars E}.

Definition SYNCHRONOUS_ROUTINE_ID : Z := 0x1234.
Definition ASYNCHRONOUS_ROUTINE_ID : Z := 0x5678.

Definition sync_routine_control_check (context : uds_context) (apply_action : bool) : M (world E) (UDSErr_t * bool) :=
  match ctx_arg context with
  | UDSRoutineCtrlArgs _ _ optionRecord =>
      if negb (Z.of_nat (length optionRecord) =? 4) then ret (UDS_NRC_IncorrectMessageLengthOrInvalidFormat, apply_action)
      else ret (UDS_OK, true)
  | _ => fail BadArgument
  end.

Definition sync_action (input : Z) : M E Z :=
  k_msleep 30 ;;
  ret (u32 (Z.lnot input)).

Definition sync_routine_control_action (context : uds_context) (consume_event : bool) :
    M (world E) (UDSErr_t * bool * uds_arg) :=
  match ctx_arg context with
  | UDSRoutineCtrlArgs _ _ optionRecord =>
      let* input := of_option OutOfBounds (of_be32 optionRecord) in
      let* output := on_ext (sync_action input) in
      let* r := on_ext (server_copy (Some (be32 output)) 4) in
      ret (r, true, ctx_arg context)
  | _ => fail BadArgument
  end.

Definition set_status (x : async_work_status) (s : uds_sample) : uds_sample :=
  set_async_work_data (AsyncWorkData (current_progress (async_work_data s)) x (force_stop (async_work_data s))) s.
Definition set_force_stop (b : bool) (s : uds_sample) : uds_sample :=
  set_async_work_data (AsyncWorkData (current_progress (async_work_data s)) (async_status (async_work_data s)) b) s.
Definition set_current_progress (x : Z) (s : uds_sample) : uds_sample :=
  set_async_work_data (AsyncWorkData x (async_status (async_work_data s)) (force_stop (async_work_data s))) s.

(** [async_action], in the pieces its mutex makes of it: up to the loop, one
    iteration, and what follows the loop. *)
Definition async_action_start : M E async_pc :=
  k_mutex_lock async_work_mutex ;;
  let* s := gets vars in
  if decide (async_status (async_work_data s) = ASYNC_WORK_STATUS_RUNNING)
  then (k_mutex_unlock async_work_mutex ;; ret AsyncReturned)
  else
    update (set_status ASYNC_WORK_STATUS_RUNNING) ;;
    update (set_current_progress 0) ;;
    update (set_force_stop false) ;;
    k_mutex_unlock async_work_mutex ;;
    ret (AsyncLoop 0).

Definition async_action_iteration (i : Z) : M E async_pc :=
  k_msleep 1 ;;
  k_mutex_lock async_work_mutex ;;
  let* s := gets vars in
  if force_stop (async_work_data s)
  then (update (set_status ASYNC_WORK_STATUS_STOPPED) ;; k_mutex_unlock async_work_mutex ;; ret AsyncReturned)
  else
    update (fun s => set_current_progress (u32 (current_progress (async_work_data s) + 1)) s) ;;
    k_mutex_unlock async_work_mutex ;;
    ret (AsyncLoop (i + 1)).

Definition async_action_finish : M E async_pc :=
  k_mutex_lock async_work_mutex ;;
  update (set_status ASYNC_WORK_STATUS_SUCCESS) ;;
  k_mutex_unlock async_work_mutex ;;
  ret AsyncReturned.

Definition async_action (pc : async_pc) : M E async_pc :=
  match pc with
  | AsyncStart => async_action_start
  | AsyncLoop i => if i <? 3000 then async_action_iteration i else async_action_finish
  | AsyncReturned | AsyncNotRunning => ret AsyncNotRunning
  end.

(** A turn of the work queue: it takes the item, or runs the next piece of
    its handler. *)
Definition async_queue_turn : M E unit :=
  let* s := gets vars in
  if decide (async_worker s = AsyncNotRunning) then
    if decide (async_routine_work ∈ scheduled s)
    then (unschedule async_routine_work ;; update (set_async_worker AsyncStart))
    else ret tt
  else
    let* pc := async_action (async_worker s) in
    update (set_async_worker pc).

Definition async_routine_control_check (context : uds_context) (apply_action : bool) : M (world E) (UDSErr_t * bool) := ret (UDS_OK, true).

(** The cases of the switch in [async_routine_control_action]. *)
Definition async_start_routine : M E UDSErr_t :=
  let* pending := k_work_delayable_is_pending async_routine_work in
  if pending then ret UDS_NRC_RequestSequenceError
  else
    k_mutex_lock async_work_mutex ;;
    let* s := gets vars in
    if decide (async_status (async_work_data s) = ASYNC_WORK_STATUS_RUNNING)
    then (k_mutex_unlock async_work_mutex ;; ret UDS_NRC_RequestSequenceError)
    else
      k_mutex_unlock async_work_mutex ;;
      let* r := k_work_schedule async_routine_work in
      if r <? 0 then ret UDS_NRC_ConditionsNotCorrect else ret UDS_PositiveResponse.

Definition async_stop_routine : M E UDSErr_t :=
  k_mutex_lock async_work_mutex ;;
  let* s := gets vars in
  if decide (async_status (async_work_data s) <> ASYNC_WORK_STATUS_RUNNING)
  then (k_mutex_unlock async_work_mutex ;; ret UDS_NRC_RequestSequenceError)
  else
    update (set_force_stop true) ;;
    k_mutex_unlock async_work_mutex ;;
    k_work_cancel_delayable async_routine_work ;;
    server_copy (Some [async_work_status_value ASYNC_WORK_STATUS_STOPPED]) 1.

Definition async_routine_results : M E UDSErr_t :=
  k_mutex_lock async_work_mutex ;;
  let* s := gets vars in
  let output := async_work_status_value (async_status (async_work_data s)) :: be32 (current_progress (async_work_data s)) in
  k_mutex_unlock async_work_mutex ;;
  server_copy (Some output) 5.

(** The user context is [&async_routine_data], which points to the only work
    data and work item. *)
Definition async_routine_control_action (context : uds_context) (consume_event : bool) :
    M (world E) (UDSErr_t * bool * uds_arg) :=
  match ctx_arg context with
  | UDSRoutineCtrlArgs ctrlType _ _ =>
      let* reg := read_reg (ctx_registration context) in
      if negb (user_context reg =? ptr_async_routine_data) then fail NullPointer
      else
        let* r :=
          if ctrlType =? UDS_ROUTINE_CONTROL__START_ROUTINE then on_ext async_start_routine
          else if ctrlType =? UDS_ROUTINE_CONTROL__STOP_ROUTINE then on_ext async_stop_routine
          else if ctrlType =? UDS_ROUTINE_CONTROL__REQUEST_ROUTINE_RESULTS then on_ext async_routine_results
          else ret UDS_NRC_SubFunctionNotSupported in
        ret (r, true, ctx_arg context)
  | _ => fail BadArgument
  end.
End routines.

(** ** dtc_information.c *)

Section dtc_information.
Context {E : Type} `{!Server E} `{!SampleVars E}.

Definition read_dtc_info_check (context : uds_context) (apply_action : bool) : M (world E) (UDSErr_t * bool) :=
  match ctx_arg context with
  | UDSRDTCIArgs _ _ => ret (UDS_OK, true)
  | _ => fail BadArgument
  end.

(** The loop over the records; when it returns from the function, the mutex
    is unlocked. *)
Fixpoint read_dtc_loop (records : list DtcRecord) (mask : Z) : M E UDSErr_t :=
  match records with
  | [] => ret UDS_OK
  | r :: records =>
      if negb (Z.land (status r) mask =? 0) && is_active r then
        let* rc := server_copy (Some (dtc r)) 3 in
        if decide (rc <> UDS_OK) then (k_mutex_unlock dtc_record_mutex ;; ret rc)
        else
          let* rc := server_copy (Some [status r]) 1 in
          if decide (rc <> UDS_OK) then (k_mutex_unlock dtc_record_mutex ;; ret rc)
          else read_dtc_loop records mask
      else read_dtc_loop records mask
  end.

Definition read_dtc_info_action (context : uds_context) (consume_event : bool) :
    M (world E) (UDSErr_t * bool * uds_arg) :=
  match ctx_arg context with
  | UDSRDTCIArgs _ mask =>
      let* rc := on_ext (server_copy (Some [dtc_status_availability_mask]) 1) in
      if decide (rc <> UDS_OK) then ret (rc, consume_event, ctx_arg context)
      else
        on_ext (k_mutex_lock dtc_record_mutex) ;;
        let* s := on_ext (gets vars) in
        let* rc := on_ext (read_dtc_loop (dtc_records s) mask) in
        if decide (rc <> UDS_OK) then ret (rc, consume_event, ctx_arg context)
        else
          on_ext (k_mutex_unlock dtc_record_mutex) ;;
          ret (UDS_PositiveResponse, true, ctx_arg context)
  | _ => fail BadArgument
  end.

(** A loop that sets a member of every record. *)
Definition for_each_record (f : DtcRecord -> DtcRecord) : M E unit :=
  update (fun s => set_dtc_records (f <$> dtc_records s) s).

Definition dtc_reactivate_work_handler : M E unit :=
  k_mutex_lock dtc_record_mutex ;;
  for_each_record (fun r => Dtc (dtc r) (status r) true (is_frozen r)) ;;
  k_mutex_unlock dtc_record_mutex.

Definition clear_diag_info_check (context : uds_context) (apply_action : bool) : M (world E) (UDSErr_t * bool) :=
  match ctx_arg context with
  | UDSCDIArgs _ => ret (UDS_OK, true)
  | _ => fail BadArgument
  end.

Definition clear_diag_info_act (context : uds_context) (consume_event : bool) : M (world E) (UDSErr_t * bool * uds_arg) :=
  on_ext (k_mutex_lock dtc_record_mutex) ;;
  on_ext (for_each_record (fun r => Dtc (dtc r) (status r) false (is_frozen r))) ;;
  on_ext (k_mutex_unlock dtc_record_mutex) ;;
  let* pending := on_ext (k_work_delayable_is_pending dtc_reactivate_work) in
  on_ext (if pending then k_work_cancel_delayable dtc_reactivate_work else ret tt) ;;
  on_ext (k_work_schedule dtc_reactivate_work) ;;
  ret (UDS_PositiveResponse, true, ctx_arg context).

Definition control_dtc_setting_check (context : uds_context) (apply_action : bool) : M (world E) (UDSErr_t * bool) :=
  match ctx_arg context with
  | UDSControlDTCSettingArgs _ _ => ret (UDS_OK, true)
  | _ => fail BadArgument
  end.

Definition control_dtc_setting_action (context : uds_context) (consume_event : bool) :
    M (world E) (UDSErr_t * bool * uds_arg) :=
  match ctx_arg context with
  | UDSControlDTCSettingArgs type _ =>
      on_ext (k_mutex_lock dtc_record_mutex) ;;
      if type =? 0x01 then
        on_ext (for_each_record (fun r => Dtc (dtc r) (status r) (is_active r) false)) ;;
        on_ext (k_mutex_unlock dtc_record_mutex) ;;
        ret (UDS_PositiveResponse, true, ctx_arg context)
      else if type =? 0x02 then
        on_ext (for_each_record (fun r => Dtc (dtc r) (status r) (is_active r) true)) ;;
        on_ext (k_mutex_unlock dtc_record_mutex) ;;
        ret (UDS_PositiveResponse, true, ctx_arg context)
      else
        on_ext (k_mutex_unlock dtc_record_mutex) ;;
        ret (UDS_NRC_SubFunctionNotSupported, false, ctx_arg context)
  | _ => fail BadArgument
  end.

Definition dtc_status_increment_work_handler : M E unit :=
  k_mutex_lock dtc_record_mutex ;;
  for_each_record (fun r => if negb (is_frozen r) then Dtc (dtc r) (Z.land (status r + 1) 0xFF) (is_active r) (is_frozen r) else r) ;;
  k_mutex_unlock dtc_record_mutex ;;
  k_work_schedule dtc_status_increment_work ;;
  ret tt.

Definition dtc_status_init : M E Z :=
  k_work_schedule dtc_status_increment_work ;;
  ret 0.

(** The work queue takes an item whose delay is over and runs its handler; that
    of the asynchronous routine runs in turns of its own. *)
Definition run_dtc_work (k : sample_work) : M E unit :=
  let* s := gets vars in
  if decide (k ∈ scheduled s) then
    match k with
    | dtc_reactivate_work => unschedule k ;; dtc_reactivate_work_handler
    | dtc_status_increment_work => unschedule k ;; dtc_status_increment_work_handler
    | async_routine_work => ret tt
    end
  else ret tt.
End dtc_information.

(** ** diag_session_ctrl.c *)

Section session.
Context {E : Type}.

Definition sample_session_ctrl_check (context : uds_context) (apply_action : bool) : M (world E) (UDSErr_t * bool) :=
  match ctx_arg context with
  | UDSDiagSessCtrlArgs _ => ret (UDS_OK, true)
  | _ => fail BadArgument
  end.

Definition sample_session_ctrl_action (context : uds_context) (consume_event : bool) : M (world E) (UDSErr_t * bool * uds_arg) :=
  match ctx_arg context with
  | UDSDiagSessCtrlArgs _ => ret (UDS_PositiveResponse, false, ctx_arg context)
  | _ => fail BadArgument
  end.

Definition sample_session_timeout_check (context : uds_context) (apply_action : bool) : M (world E) (UDSErr_t * bool) := ret (UDS_OK, true).

Definition sample_session_timeout_action (context : uds_context) (consume_event : bool) : M (world E) (UDSErr_t * bool * uds_arg) :=
  ret (UDS_PositiveResponse, false, ctx_arg context).
End session.

(** ** The application *)

Section application.
Context {E : Type} `{!Server E} `{!Platform E} `{!SampleVars E} `{!SecurityServer E} `{!Random E} `{!PsaCrypto E} `{!LedPin E}.

(** The names of the callbacks. *)
#[export] Instance sample_callbacks : UserCallbacks E := {|
  user_check n c b :=
    match n with
    | 0%nat => security_access_request_seed_check c b
    | 1%nat => security_access_validate_key_check c b
    | 2%nat => read_secure_data_check c b
    | 3%nat => auth_check c b
    | 4%nat => auth_timeout_check c b
    | 5%nat => read_data_by_id_check c b
    | 6%nat => write_primitive_data_by_id_check c b
    | 7%nat => read_led_check c b
    | 8%nat => write_led_check c b
    | 9%nat => io_ctrl_led_check c b
    | 10%nat => read_mem_by_address_check c b
    | 11%nat => write_mem_by_address_check c b
    | 12%nat => sync_routine_control_check c b
    | 13%nat => async_routine_control_check c b
    | 14%nat => read_dtc_info_check c b
    | 15%nat => clear_diag_info_check c b
    | 16%nat => control_dtc_setting_check c b
    | 17%nat => sample_session_ctrl_check c b
    | 18%nat => sample_session_timeout_check c b
    | _ => fail NullPointer
    end;
  user_action n c b :=
    match n with
    | 0%nat => security_access_request_seed_action c b
    | 1%nat => security_access_validate_key_action c b
    | 2%nat => read_secure_data_action c b
    | 3%nat => auth_action c b
    | 4%nat => auth_timeout_action c b
    | 5%nat => read_data_by_id_action c b
    | 6%nat => write_primitive_data_by_id_action c b
    | 7%nat => read_led_action c b
    | 8%nat => write_led_action c b
    | 9%nat => io_ctrl_led_action c b
    | 10%nat => read_mem_by_address_action c b
    | 11%nat => write_mem_by_address_action c b
    | 12%nat => sync_routine_control_action c b
    | 13%nat => async_routine_control_action c b
    | 14%nat => read_dtc_info_action c b
    | 15%nat => clear_diag_info_act c b
    | 16%nat => control_dtc_setting_action c b
    | 17%nat => sample_session_ctrl_action c b
    | 18%nat => sample_session_timeout_action c b
    | _ => fail NullPointer
    end;
  user_unregister _ _ := fail NullPointer;
|}.

#[local] Abbreviation chk n := (Some (uds_check_user n)).
#[local] Abbreviation act n := (Some (uds_action_user n)).

Definition security_access_registration (i : nat) :=
  UDS_REGISTER_SECURITY_ACCESS_HANDLER (Some i) 0 (chk 0) (act 0) (chk 1) (act 1).
Definition secure_data_registration (i : nat) :=
  UDS_REGISTER_DATA_BY_IDENTIFIER_HANDLER (Some i) ptr_secure_data_size secure_data_id ptr_secure_data
    (chk 2) (act 2) None None None None.
Definition authentication_registration (i : nat) :=
  UDS_REGISTER_AUTHENTICATION_HANDLER (Some i) ptr_auth_data (chk 3) (act 3) (chk 4) (act 4).
Definition primitive_type_registration (i : nat) :=
  UDS_REGISTER_DATA_BY_IDENTIFIER_HANDLER (Some i) ptr_primitive_type_size primitive_type_id ptr_primitive_type
    (chk 5) (act 5) (chk 6) (act 6) None None.
Definition string_registration (i : nat) :=
  UDS_REGISTER_DATA_BY_IDENTIFIER_HANDLER (Some i) ptr_string_size string_id ptr_string
    (chk 5) (act 5) None None None None.
Definition authenticated_type_registration (i : nat) :=
  UDS_REGISTER_DATA_BY_IDENTIFIER_HANDLER (Some i) ptr_authenticated_type_size authenticated_type_id ptr_authenticated_type
    (chk 5) (act 5) None None None None.
Definition led_registration (i : nat) :=
  UDS_REGISTER_DATA_BY_IDENTIFIER_HANDLER (Some i) ptr_led_data led_id ptr_led_state
    (chk 7) (act 7) (chk 8) (act 8) (chk 9) (act 9).
Definition memory_registration (i : nat) :=
  UDS_REGISTER_MEMORY_HANDLER (Some i) 0 (chk 10) (act 10) (chk 11) (act 11).
Definition sync_routine_registration (i : nat) :=
  UDS_REGISTER_ROUTINE_CONTROL_HANDLER (Some i) 0 SYNCHRONOUS_ROUTINE_ID (chk 12) (act 12).
Definition async_routine_registration (i : nat) :=
  UDS_REGISTER_ROUTINE_CONTROL_HANDLER (Some i) ptr_async_routine_data ASYNCHRONOUS_ROUTINE_ID (chk 13) (act 13).
Definition read_dtc_registration (i : nat) :=
  UDS_REGISTER_READ_DTC_INFO_HANDLER (Some i) 0 (chk 14) (act 14) UDS_READ_DTC_INFO_SUBFUNC__DTC_BY_STATUS_MASK.
Definition clear_diag_info_registration (i : nat) :=
  UDS_REGISTER_CLEAR_DIAG_INFO_HANDLER (Some i) 0 (chk 15) (act 15).
Definition control_dtc_setting_registration (i : nat) :=
  UDS_REGISTER_CONTROL_DTC_SETTING_HANDLER (Some i) 0 (chk 16) (act 16).
Definition session_registration (i : nat) :=
  UDS_REGISTER_DIAG_SESSION_CTRL_HANDLER (Some i) 0 (chk 17) (act 17) (chk 18) (act 18).

Definition sample_registrations (i : nat) : list uds_registration_t :=
  [security_access_registration i; secure_data_registration i; authentication_registration i; primitive_type_registration i;
   string_registration i; authenticated_type_registration i; led_registration i; memory_registration i;
   sync_routine_registration i; async_routine_registration i; read_dtc_registration i; clear_diag_info_registration i;
   control_dtc_setting_registration i; session_registration i].
End application.
