(* ===== verification/UdsSampleLaws.v ===== *)
(** * Reasoning about the UDS sample

    What the theorems assume of the environment of [UdsSample], as classes of
    laws, one per device; and the rules that run the sample's code on its
    variables and on what can be seen of the environment.  A request is
    delivered by [event_callback] to the registrations of the default instance
    and of the sample, in any order. *)

From stdpp Require Import base gmap list numbers relations.
From Stdlib Require Import ZArith Lia.
From S2P Require Import Prelude.
From S2P Require Import UdsTypes.
From S2P Require Import Uds.
From S2P Require Import UdsMacros.
From S2P Require Import UdsServices.
From S2P Require Import UdsMemory.
From S2P Require Import UdsLinkControl.
From S2P Require Import UdsFileTransfer.
From S2P Require Import UdsUploadDownload.
From S2P Require Import UdsSystem.
From S2P Require Import UdsDispatch.
From S2P Require Import UdsViews.
From S2P Require Import UdsSample.

#[local] Open Scope Z_scope.

(** ** The environment *)

(** What the theorems see of it: the bytes put into responses, the level of
    the LED, the keys in the PSA key store, and the security level of the
    server. *)
Record outside := Outside {
  response : list Z;
  led_on : bool;
  live_keys : gmap positive (list Z);
  level : Z;
}.

Definition answered (bs : list Z) (o : outside) : outside := Outside (response o ++ bs) (led_on o) (live_keys o) (level o).
Definition lit (b : bool) (o : outside) : outside := Outside (response o) b (live_keys o) (level o).
Definition with_keys (k : gmap positive (list Z)) (o : outside) : outside := Outside (response o) (led_on o) k (level o).

Class SampleLaws (E : Type) `{!Server E} `{!SampleVars E} := {
  observe : E -> outside;
  set_vars_law : forall s e, vars (set_vars s e) = s /\ observe (set_vars s e) = observe e;
  copy_law : forall bs n e, 0 <= n <= Z.of_nat (length bs) -> exists r e',
    server_copy (Some bs) n e = Ret r e' /\ vars e' = vars e /\
    observe e' = if decide (r = UDS_OK) then answered (take (Z.to_nat n) bs) (observe e) else observe e;
}.

(** [unchanged e e']: nothing the theorems see. *)
Definition unchanged {E} `{!Server E} `{!SampleVars E} `{!SampleLaws E} (e e' : E) : Prop :=
  vars e' = vars e /\ observe e' = observe e.

Class SecurityLaws (E : Type) `{!Server E} `{!SampleVars E} `{!SampleLaws E} `{!SecurityServer E} `{!Random E} := {
  level_law : forall e, securityLevel e = level (observe e);
  random_law : forall e, exists x e', sys_rand32_get e = Ret x e' /\ is_u32 x /\ unchanged e e';
}.

(** [set_auth_state] may append to the response.  The PSA functions may fail;
    an imported key is in the store until it is destroyed. *)
Class AuthLaws (E : Type) `{!Server E} `{!SampleVars E} `{!SampleLaws E} `{!SecurityServer E} `{!PsaCrypto E} := {
  aes_decrypt : list Z -> list Z -> list Z;
  aes_decrypt_length : forall k x, length (aes_decrypt k x) = 16%nat;
  set_auth_state_law : forall a e, exists r bs e', set_auth_state a e = Ret r e' /\ vars e' = vars e /\
    observe e' = answered bs (observe e);
  psa_crypto_init_law : forall e, exists r e', psa_crypto_init e = Ret r e' /\ unchanged e e';
  psa_import_key_law : forall attr key e, exists st k e', psa_import_key attr key e = Ret (st, k) e' /\ vars e' = vars e /\
    (st <> PSA_SUCCESS -> observe e' = observe e) /\
    (st = PSA_SUCCESS -> live_keys (observe e) !! k = None /\ observe e' = with_keys (<[k := key]> (live_keys (observe e))) (observe e));
  psa_cipher_decrypt_law : forall k alg key x e, live_keys (observe e) !! k = Some key -> exists st out len e',
    psa_cipher_decrypt k alg x e = Ret (st, out, len) e' /\ unchanged e e' /\
    (st = PSA_SUCCESS -> len = 16 -> out = aes_decrypt key x);
  psa_destroy_key_law : forall k e, exists e', psa_destroy_key k e = Ret tt e' /\ vars e' = vars e /\
    observe e' = with_keys (delete k (live_keys (observe e))) (observe e);
  psa_generate_random_law : forall e, exists st seed e', psa_generate_random 16 e = Ret (st, seed) e' /\ unchanged e e' /\
    length seed = 16%nat;
}.

(** The pin reads back what was set, up to failures of the driver. *)
Class LedLaws (E : Type) `{!Server E} `{!SampleVars E} `{!SampleLaws E} `{!LedPin E} := {
  led_configure_law : forall e, exists r b e', gpio_pin_configure_dt e = Ret r e' /\ vars e' = vars e /\
    observe e' = lit b (observe e);
  led_get_law : forall e, exists r e', gpio_pin_get_dt e = Ret r e' /\ unchanged e e' /\
    (r < 0 \/ r = Z.b2z (led_on (observe e)));
  led_set_law : forall v e, exists r e', gpio_pin_set_dt v e = Ret r e' /\ vars e' = vars e /\
    observe e' = if r =? 0 then lit (negb (v =? 0)) (observe e) else observe e;
}.

Class SleepLaws (E : Type) `{!Server E} `{!SampleVars E} `{!SampleLaws E} `{!Platform E} := {
  msleep_law : forall n e, exists e', k_msleep n e = Ret tt e' /\ unchanged e e';
}.

(** ** Running code of the sample *)

Section running.
Context {E : Type} `{!Server E} `{!SampleVars E} `{!SampleLaws E}.
Implicit Types (s : uds_sample) (o : outside).

(** [swp m Q s o]: with the variables [s] and the outside [o], [m] runs without
    a fault and ends with a result, variables and an outside that satisfy [Q]. *)
Definition swp {A} (m : M E A) (Q : A -> uds_sample -> outside -> Prop) s o : Prop :=
  forall e, vars e = s -> observe e = o -> wp m (fun a e' => Q a (vars e') (observe e')) e.

Lemma swp_ret {A} (a : A) (Q : A -> uds_sample -> outside -> Prop) s o : Q a s o -> swp (ret a) Q s o.
Proof. intros HQ e <- <-. by apply wp_ret. Qed.

Lemma swp_bind {A B} (m : M E A) (k : A -> M E B) (Q : B -> uds_sample -> outside -> Prop) s o :
  swp m (fun a s' o' => swp (k a) Q s' o') s o -> swp (bind m k) Q s o.
Proof. intros Hm e Hs Ho. apply wp_bind. eapply wp_mono; [by apply Hm|]. cbn beta. intros a e' Hk. by apply Hk. Qed.

Lemma swp_mono {A} (m : M E A) (P Q : A -> uds_sample -> outside -> Prop) s o :
  swp m P s o -> (forall a s' o', P a s' o' -> Q a s' o') -> swp m Q s o.
Proof. intros Hm HPQ e Hs Ho. eapply wp_mono; [by apply Hm|]. cbn beta. auto. Qed.

Lemma swp_vars (Q : uds_sample -> uds_sample -> outside -> Prop) s o : Q s s o -> swp (gets vars) Q s o.
Proof. by intros HQ e <- <-. Qed.

Lemma swp_update f (Q : unit -> uds_sample -> outside -> Prop) s o : Q tt (f s) o -> swp (update f) Q s o.
Proof. intros HQ e <- <-. unfold update. apply wp_modify. destruct (set_vars_law (f (vars e)) e) as [-> ->]. done. Qed.

Lemma swp_lock m (Q : unit -> uds_sample -> outside -> Prop) s o :
  m ∉ locked s -> Q tt (set_locked (m :: locked s) s) o -> swp (k_mutex_lock m) Q s o.
Proof. intros Hm HQ. apply swp_bind, swp_vars. rewrite decide_False by done. by apply swp_update. Qed.

Lemma swp_unlock m (Q : unit -> uds_sample -> outside -> Prop) s o :
  Q tt (set_locked (filter (fun x => x <> m) (locked s)) s) o -> swp (k_mutex_unlock m) Q s o.
Proof. intros HQ. unfold k_mutex_unlock. by apply swp_update. Qed.

Lemma swp_copy bs n (Q : UDSErr_t -> uds_sample -> outside -> Prop) s o :
  0 <= n <= Z.of_nat (length bs) -> Q UDS_OK s (answered (take (Z.to_nat n) bs) o) -> (forall r, r <> UDS_OK -> Q r s o) ->
  swp (server_copy (Some bs) n) Q s o.
Proof.
  intros Hn Hok Hno e <- <-. destruct (copy_law bs n e Hn) as (r & e' & Hrun & Hs & Ho). unfold wp. rewrite Hrun, Hs, Ho.
  destruct (decide (r = UDS_OK)) as [->|Hr]; auto.
Qed.

(** The same for the handlers, which run in the world of an instance: only
    the state behind the instance changes. *)
Definition hwp {A} (m : M (world E) A) (Q : A -> uds_sample -> outside -> Prop) (w : world E) s o : Prop :=
  forall e, vars e = s -> observe e = o ->
    exists a e', m (set_ext e w) = Ret a (set_ext e' w) /\ Q a (vars e') (observe e').

Lemma hwp_view {A} (m : M (world E) A) (Q : A -> uds_sample -> outside -> Prop) w s o :
  hwp m Q w s o <-> hvwp (fun e => (vars e, observe e)) m (fun a '(s', o') => Q a s' o') w (s, o).
Proof. split; [intros Hm e [= Hs Ho]|intros Hm e Hs Ho]; apply Hm; congruence. Qed.

Lemma hwp_ret {A} (a : A) (Q : A -> uds_sample -> outside -> Prop) w s o : Q a s o -> hwp (ret a) Q w s o.
Proof. intros HQ e <- <-. by exists a, e. Qed.

Lemma hwp_bind {A B} (m : M (world E) A) (k : A -> M (world E) B) (Q : B -> uds_sample -> outside -> Prop) w s o :
  hwp m (fun a s' o' => hwp (k a) Q w s' o') w s o -> hwp (bind m k) Q w s o.
Proof.
  intros Hm e Hs Ho. destruct (Hm e Hs Ho) as (a & e1 & Hrun & Hk). destruct (Hk e1) as (b & e2 & Hrun2 & HQ); [done..|].
  exists b, e2. split; [|done]. by rewrite (bind_step _ _ _ _ _ Hrun).
Qed.

Lemma hwp_mono {A} (m : M (world E) A) (P Q : A -> uds_sample -> outside -> Prop) w s o :
  hwp m P w s o -> (forall a s' o', P a s' o' -> Q a s' o') -> hwp m Q w s o.
Proof. intros Hm HPQ e Hs Ho. destruct (Hm e Hs Ho) as (a & e1 & Hrun & HP). eauto 6. Qed.

Lemma hwp_on_ext {A} (m : M E A) (Q : A -> uds_sample -> outside -> Prop) w s o : swp m Q s o -> hwp (on_ext m) Q w s o.
Proof.
  intros Hm e Hs Ho. destruct (proj1 (wp_Ret _ _ _) (Hm e Hs Ho)) as (a & e' & Hrun & HQ). exists a, e'. split; [|done].
  unfold on_ext, zoom. cbn [ext set_ext]. by rewrite Hrun.
Qed.

Lemma hwp_static i r (Q : uds_registration_t -> uds_sample -> outside -> Prop) w s o :
  static_regs w !! i = Some r -> Q r s o -> hwp (read_reg (StaticReg i)) Q w s o.
Proof. intros Hr HQ e <- <-. exists r, e. split; [|done]. by apply read_static_run. Qed.

Lemma hwp_of_option {A} f (x : option A) a (Q : A -> uds_sample -> outside -> Prop) w s o :
  x = Some a -> Q a s o -> hwp (of_option f x) Q w s o.
Proof. intros ->. apply hwp_ret. Qed.

Lemma hwp_copy bs n (Q : UDSErr_t -> uds_sample -> outside -> Prop) w s o :
  0 <= n < 2 ^ 16 -> n <= Z.of_nat (length bs) -> Q UDS_OK s (answered (take (Z.to_nat n) bs) o) ->
  (forall r, r <> UDS_OK -> Q r s o) -> hwp (call_copy copy_server (Some bs) n) Q w s o.
Proof. intros Hn Hl Hok Hno. apply hwp_on_ext. rewrite wrap_small by (unfold in_width; lia). by apply swp_copy; [lia|..]. Qed.
End running.

(** One step of a goal about the sample's code. *)
Ltac s_step :=
  lazymatch goal with
  | |- swp (ret _) _ _ _ => apply swp_ret
  | |- swp (bind _ _) _ _ _ => apply swp_bind
  | |- swp (gets vars) _ _ _ => apply swp_vars
  | |- swp (update _) _ _ _ => apply swp_update
  | |- swp (k_mutex_unlock _) _ _ _ => apply swp_unlock
  | |- swp (k_mutex_lock _) _ _ _ => apply swp_lock
  | |- hwp (ret _) _ _ _ _ => apply hwp_ret
  | |- hwp (bind _ _) _ _ _ _ => apply hwp_bind
  | |- hwp (on_ext _) _ _ _ _ => apply hwp_on_ext
  | |- hwp (of_option _ _) _ _ _ _ => eapply hwp_of_option; [reflexivity|]
  end; cbn beta iota delta [ctx_arg ctx_registration].

(** A branch that is decided. *)
Ltac s_decided b :=
  lazymatch type of b with
  | bool => first [change b with true | change b with false]
  | _ => first [ rewrite (decide_True (H := b)) by (done || congruence)
               | rewrite (decide_False (H := b)) by (congruence || (let H := fresh in intros H; by apply H)) ]
  end.
Ltac s_branch :=
  lazymatch goal with
  | |- hwp (if ?b then _ else _) _ _ _ _ => s_decided b
  | |- swp (if ?b then _ else _) _ _ _ => s_decided b
  end; cbn beta iota.
Ltac s_run := cbn beta iota delta [ctx_arg ctx_registration]; repeat (s_step || s_branch).

(** ** Requests *)

Section requests.
Context {E : Type} `{!Iso14229Constants} `{!Server E} `{!Platform E} `{!Memory E} `{!CanController E}
  `{!LinkControlVars E} `{!FileSystem E} `{!FileTransferVars E} `{!FlashDriver E} `{!UpDownVars E}
  `{!SampleVars E} `{!SecurityServer E} `{!Random E} `{!PsaCrypto E} `{!LedPin E} `{!SampleLaws E}.
Context (cfg : uds_config) (depth fuel : nat).
Implicit Types (s : uds_sample) (o : outside) (w : world E).

Definition request (ev : UDSEvent_t) (arg : uds_arg) : M (world E) (UDSErr_t * uds_arg) :=
  event_callback cfg (S (S depth)) fuel ev arg.

(** The program as it is linked. *)
Definition all_registrations (inst : nat) : list uds_registration_t :=
  default_instance_registrations cfg inst ++ sample_registrations inst.

Record sample_config w : Prop := SampleConfig {
  sample_linked : exists inst, Permutation (static_regs w) (all_registrations inst);
  sample_not_dynamic : dynamic_registrations w = [];
}.

Lemma sample_config_set_ext e w : sample_config w -> sample_config (set_ext e w).
Proof. by intros [H1 H2]. Qed.

(** A request that one registration of the sample is for. *)
Lemma request_answered h arg reg n m (Q : UDSErr_t * uds_arg -> uds_sample -> outside -> Prop) w s o :
  sample_config w -> h ∈ uds_event_handlers -> fits (event h) arg = true ->
  (forall inst, List.filter (relevant h arg) (all_registrations inst) = [reg inst]) ->
  (forall inst, actor_of (event h) (reg inst) = Actor (Some (uds_check_user n)) (Some (uds_action_user m))) ->
  (forall inst e i, vars e = s -> observe e = o -> static_regs w !! i = Some (reg inst) ->
     looks n (Context (inst_id w) (StaticReg i) (event h) arg) (set_ext e w)) ->
  (forall inst i, static_regs w !! i = Some (reg inst) ->
     hwp (user_answer n m (Context (inst_id w) (StaticReg i) (event h) arg))
       (fun '(r, c, a) s' o' => decisive r c = true /\ Q (r, a) s' o') w s o) ->
  hwp (request (event h) arg) Q w s o.
Proof.
  intros [(inst & Hperm) Hdyn] Hh Hfit Hsole Hact Hlook Hans. apply hwp_view.
  refine (request_view _ cfg depth fuel h arg (all_registrations inst) (reg inst) n m _ w _ Hperm Hdyn Hh Hfit (Hsole inst) (Hact inst) _ _).
  - intros e i [= Hs Ho] Hi. by eapply Hlook.
  - intros i Hi e He. destruct (proj1 (hwp_view _ _ _ _ _) (Hans inst i Hi) e He) as ([[r c] a] & e' & Hrun & HQ). by exists (r, c, a), e'.
Qed.

(** A request that this registration declines. *)
Lemma request_declined h arg reg n w :
  sample_config w -> h ∈ uds_event_handlers -> fits (event h) arg = true ->
  (forall inst, List.filter (relevant h arg) (all_registrations inst) = [reg inst]) ->
  (forall inst, check (actor_of (event h) (reg inst)) = Some (uds_check_user n)) ->
  (forall c, ctx_arg c = arg -> user_check n c false w = Ret (UDS_OK, false) w) ->
  request (event h) arg w = Ret (default_nrc h, arg) w.
Proof.
  intros [(inst & Hperm) Hdyn] Hh Hfit Hsole Hact Hdec.
  apply (all_decline cfg depth fuel h arg (all_registrations inst)); [done..|]. intros r i Hin Hrel _.
  assert (r = reg inst) as ->.
  { apply list_elem_of_singleton. rewrite <- Hsole. apply list_elem_of_In, filter_In. by rewrite <- list_elem_of_In. }
  exists n. split; [done|by apply Hdec].
Qed.

(** A request whose answer by this registration is a fault. *)
Lemma request_faults h arg reg n m f w :
  sample_config w -> h ∈ uds_event_handlers -> fits (event h) arg = true ->
  (forall inst, List.filter (relevant h arg) (all_registrations inst) = [reg inst]) ->
  (forall inst, actor_of (event h) (reg inst) = Actor (Some (uds_check_user n)) (Some (uds_action_user m))) ->
  (forall c, ctx_arg c = arg -> user_check n c false w = Ret (UDS_OK, true) w) ->
  (forall inst c i, ctx_arg c = arg -> ctx_registration c = StaticReg i -> static_regs w !! i = Some (reg inst) ->
     user_action m c true w = Fault f) ->
  request (event h) arg w = Fault f.
Proof.
  intros [(inst & Hperm) Hdyn] Hh Hfit Hsole Hact Hchk Hf.
  refine (sole_answer cfg depth fuel h arg (all_registrations inst) Hh Hfit (reg inst) n m w (Fault f) Hperm Hdyn (Hsole inst) (Hact inst) _).
  intros i Hi. set (c := Context _ _ _ _). assert (user_check n c false w = Ret (UDS_OK, true) w) as Hc by by apply Hchk.
  split; [by eexists _, _|]. unfold user_answer. rewrite (bind_step _ _ _ _ _ Hc). cbn beta iota.
  rewrite decide_False by naive_solver. by apply (Hf inst _ i).
Qed.
End requests.

(** Name the callbacks of an answer. *)
Ltac s_answer := unfold user_answer; cbn [user_check user_action sample_callbacks].

(** The members of a registration. *)
Ltac s_payload := cbn [ctx_arg]; lazy beta iota delta [payload user_context static_registration UDS_REGISTER_DATA_BY_IDENTIFIER_HANDLER
  secure_data_registration primitive_type_registration string_registration authenticated_type_registration].

(** Compute which of the linked registrations an event is meant for. *)
Ltac linked :=
  intros; unfold all_registrations, default_instance_registrations;
  match goal with |- context [CONFIG_UDS_USE_LINK_CONTROL ?c] => destruct (CONFIG_UDS_USE_LINK_CONTROL c) end;
  relevant_run; reflexivity.

(** ** Protocols of the sample *)

Section protocols.
Context {E : Type} `{!Server E} `{!Platform E} `{!SampleVars E} `{!SecurityServer E} `{!Random E} `{!PsaCrypto E} `{!LedPin E}
  `{!SampleLaws E}.
Context (cfg : uds_config) {Op R P : Type} (step : Op -> M (world E) R) (spec : P -> Op -> R -> list Z -> P -> Prop)
  (holds : P -> uds_sample -> outside -> Prop) (ok : Op -> Prop).

(** The state of a protocol of the sample. *)
Definition in_phase (p : P) (w : world E) : Prop := sample_config cfg w /\ holds p (vars (ext w)) (observe (ext w)).

(** A protocol that every operation follows. *)
Lemma sample_refines :
  (forall op p w s o, ok op -> sample_config cfg w -> holds p s o ->
     hwp (step op) (fun r s' o' => exists sent p', spec p op r sent p' /\ holds p' s' o' /\ response o' = response o ++ sent) w s o) ->
  forall ops p w, Forall ok ops -> in_phase p w -> exists rs sent p' w',
    run_ops step ops w = Ret rs w' /\ spec_ops spec p ops rs sent p' /\ in_phase p' w' /\
    response (observe (ext w')) = response (observe (ext w)) ++ sent.
Proof.
  intros Hstep. apply run_ops_refines. intros op p w Hok [Hcfg Hp].
  destruct (Hstep op p w _ _ Hok Hcfg Hp (ext w) eq_refl eq_refl) as (r & e' & Hrun & sent & p' & Hspec & Hp' & Hout).
  rewrite set_ext_ext in Hrun. exists r, sent, p', (set_ext e' w). split_and!; [done..| |done].
  split; [by apply sample_config_set_ext|done].
Qed.
End protocols.
