(* ===== verification/UdsSampleSecurity.v ===== *)
(** * Security access and authentication of the UDS sample
    ([samples/uds/src/security_access.c], [authentication.c])

    The two protocols that guard data of the sample, and the data they guard:
    what they answer and when they grant access, for every sequence of
    requests. *)

From stdpp Require Import base gmap list numbers relations.
From Stdlib Require Import ZArith Lia.
From S2P Require Import Prelude.
From S2P Require Import UdsTypes.
From S2P Require Import Uds.
From S2P Require Import UdsServices.
From S2P Require Import UdsMemory.
From S2P Require Import UdsLinkControl.
From S2P Require Import UdsFileTransfer.
From S2P Require Import UdsUploadDownload.
From S2P Require Import UdsSystem.
From S2P Require Import UdsDispatch.
From S2P Require Import UdsSample.
From S2P Require Import UdsSampleLaws.

#[local] Open Scope Z_scope.

(** ** Specification of security access *)

(** Whether a seed is out. *)
Inductive seed_phase := NoSeed | Seed (x : Z).

Inductive security_op := request_seed (lev : Z) | validate_key (lev : Z) (key : list Z).

(** The key of a seed: its bits inverted, as four bytes. *)
Definition key_of (seed : Z) : list Z := be32 (u32 (Z.lnot seed)).

Inductive security_spec : seed_phase -> security_op -> UDSErr_t -> list Z -> seed_phase -> Prop :=
| other_level p op : match op with request_seed lev | validate_key lev _ => lev <> 1 end ->
    security_spec p op UDS_NRC_ConditionsNotCorrect [] p
| seed_sent p x : security_spec p (request_seed 1) UDS_PositiveResponse (be32 x) (Seed x)
| seed_does_not_fit p x r : r <> UDS_OK -> security_spec p (request_seed 1) r [] (Seed x)
| key_without_seed key : security_spec NoSeed (validate_key 1 key) UDS_NRC_RequestSequenceError [] NoSeed
| key_of_wrong_length x key : length key <> 4%nat ->
    security_spec (Seed x) (validate_key 1 key) UDS_NRC_IncorrectMessageLengthOrInvalidFormat [] (Seed x)
| key_accepted x : security_spec (Seed x) (validate_key 1 (key_of x)) UDS_PositiveResponse [] NoSeed
| key_refused x key : length key = 4%nat -> key <> key_of x ->
    security_spec (Seed x) (validate_key 1 key) UDS_NRC_InvalidKey [] NoSeed.

Definition seed_holds (p : seed_phase) (s : uds_sample) (o : outside) : Prop :=
  match p with
  | NoSeed => seed_requested s = false
  | Seed x => seed_requested s = true /\ current_seed s = x /\ is_u32 x
  end.

(** Keys are bytes. *)
Definition security_op_ok (op : security_op) : Prop :=
  match op with validate_key _ key => Forall is_u8 key | _ => True end.

Section security.
Context {E : Type} `{!Iso14229Constants} `{!Server E} `{!Platform E} `{!Memory E} `{!CanController E}
  `{!LinkControlVars E} `{!FileSystem E} `{!FileTransferVars E} `{!FlashDriver E} `{!UpDownVars E}
  `{!SampleVars E} `{!SecurityServer E} `{!Random E} `{!PsaCrypto E} `{!LedPin E} `{!SampleLaws E} `{!SecurityLaws E}.
Context (cfg : uds_config) (depth fuel : nat).
Implicit Types (s : uds_sample) (o : outside) (w : world E).

Definition security_step (op : security_op) : M (world E) UDSErr_t :=
  let* (r, _) := match op with
                 | request_seed lev => request cfg depth fuel UDS_EVT_SecAccessRequestSeed (UDSSecAccessRequestSeedArgs lev)
                 | validate_key lev key => request cfg depth fuel UDS_EVT_SecAccessValidateKey (UDSSecAccessValidateKeyArgs lev key)
                 end in
  ret r.

Lemma swp_random (Q : Z -> uds_sample -> outside -> Prop) s o : (forall x, is_u32 x -> Q x s o) -> swp sys_rand32_get Q s o.
Proof.
  intros HQ e <- <-. destruct (random_law e) as (x & e' & Hrun & Hx & Hs & Ho). unfold wp. rewrite Hrun, Hs, Ho. by apply HQ.
Qed.

(** A request of another level. *)
Lemma other_level_request op w s o (Q : UDSErr_t -> uds_sample -> outside -> Prop) :
  sample_config cfg w -> match op with request_seed lev | validate_key lev _ => lev <> 1 end ->
  Q UDS_NRC_ConditionsNotCorrect s o -> hwp (security_step op) Q w s o.
Proof.
  intros Hcfg Hlev HQ. apply hwp_bind. intros e <- <-.
  destruct op as [lev|lev key]; (eexists (UDS_NRC_ConditionsNotCorrect, _), e; split; [|by apply hwp_ret]).
  - apply (request_declined cfg depth fuel __uds_event_handler_data_sec_access_request_seed_ _ security_access_registration 0);
      [by apply sample_config_set_ext|in_table|done|linked|done|]. intros c Hc. cbn [user_check sample_callbacks].
    unfold security_access_request_seed_check. rewrite Hc. by rewrite (proj2 (Z.eqb_neq _ _)).
  - apply (request_declined cfg depth fuel __uds_event_handler_data_sec_access_validate_key_ _ security_access_registration 1);
      [by apply sample_config_set_ext|in_table|done|linked|done|]. intros c Hc. cbn [user_check sample_callbacks].
    unfold security_access_validate_key_check. rewrite Hc. by rewrite (proj2 (Z.eqb_neq _ _)).
Qed.

Lemma request_seed_step p w s o : sample_config cfg w -> seed_holds p s o ->
  hwp (security_step (request_seed 1)) (fun r s' o' => exists sent p',
    security_spec p (request_seed 1) r sent p' /\ seed_holds p' s' o' /\ response o' = response o ++ sent) w s o.
Proof.
  intros Hcfg Hp. apply hwp_bind.
  apply (request_answered cfg depth fuel __uds_event_handler_data_sec_access_request_seed_ _ security_access_registration 0 0);
    [done|in_table|done|linked|done|by intros; eexists _, _|].
  intros inst i Hi. s_answer. unfold security_access_request_seed_check, security_access_request_seed_action. cbn [ctx_arg].
  s_run. apply swp_random. intros x Hx. s_run.
  apply swp_copy; [cbn; lia| |]; cbn [set_seed_requested set_current_seed current_seed].
  - s_run. split; [done|]. s_run. exists (be32 x), (Seed x). split_and!; [apply seed_sent|done..].
  - intros r Hr. s_run. split; [done|]. s_run. exists [], (Seed x). rewrite app_nil_r.
    split_and!; [by apply seed_does_not_fit|done..].
Qed.

Lemma be32_of_be32 key x : Forall is_u8 key -> length key = 4%nat -> of_be32 key = Some x -> be32 x = key /\ is_u32 x.
Proof.
  destruct key as [|a [|b [|c [|d [|]]]]]; try done. intros Hk _ [= <-]. rewrite !Forall_cons in Hk.
  destruct Hk as (Ha & Hb & Hc & Hd & _). unfold in_width in *. split; [|lia].
  unfold be32. rewrite (wrap_small 32) by (unfold in_width; lia). unfold wrap. rewrite !Z.shiftr_div_pow2 by lia.
  repeat (apply (f_equal2 cons); [Z.div_mod_to_equations; lia|]). done.
Qed.

Lemma validate_key_step p key w s o : sample_config cfg w -> seed_holds p s o -> Forall is_u8 key ->
  hwp (security_step (validate_key 1 key)) (fun r s' o' => exists sent p',
    security_spec p (validate_key 1 key) r sent p' /\ seed_holds p' s' o' /\ response o' = response o ++ sent) w s o.
Proof.
  intros Hcfg Hp Hkey. apply hwp_bind.
  apply (request_answered cfg depth fuel __uds_event_handler_data_sec_access_validate_key_ _ security_access_registration 1 1);
    [done|in_table|done|linked|done|by intros; eexists _, _|].
  intros inst i Hi. s_answer. unfold security_access_validate_key_check, security_access_validate_key_action. cbn [ctx_arg].
  s_run.
  destruct p as [|x]; cbn [seed_holds] in Hp.
  { rewrite Hp. cbn [negb]. s_run. split; [done|]. s_run. exists [], NoSeed. rewrite app_nil_r.
    split_and!; [apply key_without_seed|done..]. }
  destruct Hp as (Hreq & Hcur & Hx). rewrite Hreq. cbn [negb].
  destruct (Z.eqb_spec (Z.of_nat (length key)) 4) as [Hlen|Hlen]; cbn [negb].
  2: { s_run. split; [done|]. s_run. exists [], (Seed x). rewrite app_nil_r. split_and!; [apply key_of_wrong_length; lia|done..]. }
  destruct (of_be32 key) as [k|] eqn:Hk; [|by destruct key as [|? [|? [|? [|? ?]]]]].
  destruct (be32_of_be32 key k Hkey ltac:(lia) Hk) as [Hbe Hk32].
  s_run. rewrite Hcur. destruct (Z.eqb_spec k (u32 (Z.lnot x))) as [->|Hne]; s_run; (split; [done|]); s_run; exists [], NoSeed;
    rewrite app_nil_r; (split; [|done]).
  - rewrite <- Hbe. apply key_accepted.
  - apply key_refused; [lia|]. intros ->. unfold key_of in Hk. rewrite of_be32_be32 in Hk by by apply wrap_range. congruence.
Qed.


(** *** The data security access guards *)

(** The secure data identifier is read exactly at security level 1 or above;
    below it, the request is refused and nothing is sent. *)
Theorem secure_data_guarded w :
  sample_config cfg w -> exists r e', request cfg depth fuel UDS_EVT_ReadDataByIdent (UDSRDBIArgs secure_data_id copy_server) w =
      Ret (r, UDSRDBIArgs secure_data_id copy_server) (set_ext e' w) /\ vars e' = vars (ext w) /\
    (if decide (level (observe (ext w)) < 1)
     then r = UDS_NRC_SecurityAccessDenied /\ observe e' = observe (ext w)
     else observe e' = if decide (r = UDS_OK) then answered secure_data (observe (ext w)) else observe (ext w)).
Proof.
  intros Hcfg. set (arg := UDSRDBIArgs _ _).
  assert (hwp (request cfg depth fuel (event __uds_event_handler_data_read_data_by_ident_) arg)
    (fun '(r, a) s o => a = arg /\ s = vars (ext w) /\ if decide (level (observe (ext w)) < 1)
       then r = UDS_NRC_SecurityAccessDenied /\ o = observe (ext w)
       else o = if decide (r = UDS_OK) then answered secure_data (observe (ext w)) else observe (ext w)) w (vars (ext w)) (observe (ext w))) as Hr.
  2: { destruct (Hr (ext w) eq_refl eq_refl) as ([r a] & e' & Hrun & -> & Hs & Ho). rewrite set_ext_ext in Hrun. by exists r, e'. }
  assert (forall e c, observe e = observe (ext w) -> ctx_arg c = arg -> read_secure_data_check c false (set_ext e w) =
    Ret (if decide (level (observe (ext w)) < 1) then UDS_NRC_SecurityAccessDenied else UDS_OK, true) (set_ext e w)) as Hcheck.
  { intros e c He Hc. unfold read_secure_data_check. rewrite Hc. cbn. unfold bind, on_ext, zoom, gets. cbn. rewrite level_law, He.
    destruct (Z.ltb_spec (level (observe (ext w))) 1); case_decide; (done || lia). }
  apply (request_answered cfg depth fuel __uds_event_handler_data_read_data_by_ident_ arg secure_data_registration 2 2);
    [done|in_table|done|linked|done|..].
  { intros inst e i _ He Hi. eexists _, _. by apply Hcheck. }
  intros inst i Hi. s_answer. apply hwp_bind. intros e Hs Ho. eexists _, e. split; [by apply Hcheck|].
  rewrite Hs, Ho. destruct (decide (level (observe (ext w)) < 1)) as [Hlt|Hge].
  - rewrite decide_True by done. s_run. done.
  - rewrite decide_False by naive_solver. unfold read_secure_data_action. cbn [ctx_arg]. unfold arg.
    apply hwp_bind, hwp_copy; [by vm_compute|done|..].
    + s_run. rewrite decide_True by done. by rewrite Nat2Z.id, take_ge.
    + intros r Hr. s_run. by rewrite decide_False.
Qed.
End security.

(** ** Specification of authentication *)

(** Whether the client is authenticated, and the challenge it was sent last. *)
Record auth_phase := AuthPhase { allowed : bool; challenge : list Z }.

Inductive auth_op :=
| ask_challenge (algoInd : list Z)
| give_proof (algoInd pown : list Z)
| deauthenticate
| other_authentication (ty : Z) (args : auth_sub_args)
| time_out
| read_guarded.

Definition oid : list Z := algorithm_authenticator auth_data_init.

(** A part of a response that the copy function may have refused. *)
Definition piece (bs sent : list Z) : Prop := sent = bs \/ sent = [].

Inductive auth_spec (decrypt : list Z -> list Z) : auth_phase -> auth_op -> UDSErr_t -> list Z -> auth_phase -> Prop :=
| unknown_algorithm p op : match op with ask_challenge a | give_proof a _ => take 16 a <> oid | _ => False end ->
    auth_spec decrypt p op UDS_NRC_ConditionsNotCorrect [] p
| no_random_number p a x : take 16 a = oid -> length x = 16%nat ->
    auth_spec decrypt p (ask_challenge a) UDS_NRC_GeneralReject [] (AuthPhase (allowed p) x)
| challenged p a x r l1 l2 l3 l4 : take 16 a = oid -> length x = 16%nat ->
    piece [0x00; 0x10] l1 -> piece x l2 -> piece [0x00; 0x00] l3 ->
    auth_spec decrypt p (ask_challenge a) r (l1 ++ l2 ++ l3 ++ l4) (AuthPhase (allowed p) x)
| proof_of_wrong_length p a pown : take 16 a = oid -> length pown <> 16%nat ->
    auth_spec decrypt p (give_proof a pown) UDS_NRC_IncorrectMessageLengthOrInvalidFormat [] p
| no_decryption p a pown : take 16 a = oid -> length pown = 16%nat ->
    auth_spec decrypt p (give_proof a pown) UDS_NRC_GeneralReject [] p
| proof_refused p a pown : take 16 a = oid -> length pown = 16%nat -> decrypt pown <> challenge p ->
    auth_spec decrypt p (give_proof a pown) UDS_NRC_InvalidKey [] (AuthPhase false (challenge p))
| proof_accepted p a pown r l1 l2 : take 16 a = oid -> length pown = 16%nat -> decrypt pown = challenge p ->
    piece [0x00; 0x00] l1 -> auth_spec decrypt p (give_proof a pown) r (l1 ++ l2) (AuthPhase true (challenge p))
| deauthenticated p r l : auth_spec decrypt p deauthenticate r l (AuthPhase false (challenge p))
| other_sub_function p ty args : auth_spec decrypt p (other_authentication ty args) UDS_NRC_SubFunctionNotSupported [] p
| timed_out p : auth_spec decrypt p time_out UDS_PositiveResponse [] (AuthPhase false (challenge p))
| read_denied p : allowed p = false -> auth_spec decrypt p read_guarded UDS_NRC_ConditionsNotCorrect [] p
| read_allowed p : allowed p = true -> auth_spec decrypt p read_guarded UDS_PositiveResponse [authenticated_type] p
| read_does_not_fit p r : allowed p = true -> r <> UDS_OK -> auth_spec decrypt p read_guarded r [] p.

(** The store has the keys [keys] only: none of the sample's is left there. *)
Definition auth_holds (keys : gmap positive (list Z)) (p : auth_phase) (s : uds_sample) (o : outside) : Prop :=
  auth_data s = AuthenticationData (allowed p) (challenge p) oid /\ length (challenge p) = 16%nat /\ live_keys o = keys.

(** An algorithm indicator has 16 bytes. *)
Definition auth_op_ok (op : auth_op) : Prop :=
  match op with
  | ask_challenge a | give_proof a _ => (16 <= length a)%nat
  | other_authentication ty _ => ty <> UDS_LEV_AT_RCFA /\ ty <> UDS_LEV_AT_VPOWNU /\ ty <> UDS_LEV_AT_DA
  | _ => True
  end.

Section auth.
Context {E : Type} `{!Iso14229Constants} `{!Server E} `{!Platform E} `{!Memory E} `{!CanController E}
  `{!LinkControlVars E} `{!FileSystem E} `{!FileTransferVars E} `{!FlashDriver E} `{!UpDownVars E}
  `{!SampleVars E} `{!SecurityServer E} `{!Random E} `{!PsaCrypto E} `{!LedPin E} `{!SampleLaws E} `{!AuthLaws E}.
Context (cfg : uds_config) (depth fuel : nat) (keys : gmap positive (list Z)).
Implicit Types (s : uds_sample) (o : outside) (w : world E).

#[local] Abbreviation decrypt := (aes_decrypt uds_aes_key) (only parsing).

Definition auth_request (op : auth_op) : UDSEvent_t * uds_arg :=
  match op with
  | ask_challenge a => (UDS_EVT_Auth, UDSAuthArgs UDS_LEV_AT_RCFA (reqChallengeArgs a))
  | give_proof a pown => (UDS_EVT_Auth, UDSAuthArgs UDS_LEV_AT_VPOWNU (verifyPownArgs a pown))
  | deauthenticate => (UDS_EVT_Auth, UDSAuthArgs UDS_LEV_AT_DA auth_no_args)
  | other_authentication ty args => (UDS_EVT_Auth, UDSAuthArgs ty args)
  | time_out => (UDS_EVT_AuthTimeout, UDSOtherArgs)
  | read_guarded => (UDS_EVT_ReadDataByIdent, UDSRDBIArgs authenticated_type_id copy_server)
  end.

Definition auth_step (op : auth_op) : M (world E) UDSErr_t :=
  let '(ev, arg) := auth_request op in
  let* (r, _) := request cfg depth fuel ev arg in
  ret r.

(** *** The PSA functions *)

Lemma swp_decrypt pown (Q : Z * list Z -> uds_sample -> outside -> Prop) s o :
  (forall out, Q (-1, out) s o) -> Q (0, decrypt pown) s o -> swp (aes_decrypt_ecb uds_aes_key pown) Q s o.
Proof.
  intros Hfail Hok e <- <-. unfold aes_decrypt_ecb, aes_ecb_crypt.
  destruct (psa_crypto_init_law e) as (r & e1 & Hrun1 & Hs1 & Ho1). apply wp_bind. unfold wp at 1. rewrite Hrun1.
  destruct (negb (r =? PSA_SUCCESS)); [apply wp_ret; rewrite Hs1, Ho1; apply Hfail|].
  destruct (psa_import_key_law (KeyAttributes PSA_KEY_USAGE_DECRYPT PSA_ALG_ECB_NO_PADDING PSA_KEY_TYPE_AES 128) uds_aes_key e1)
    as (st & k & e2 & Hrun2 & Hs2 & Hno & Hyes). apply wp_bind. unfold wp at 1. rewrite Hrun2.
  destruct (Z.eqb_spec st PSA_SUCCESS) as [Hst|Hst]; cbn [negb].
  2: { apply wp_ret. rewrite Hs2, Hno by done. rewrite Hs1, Ho1. apply Hfail. }
  destruct (Hyes Hst) as [Hnew Ho2].
  destruct (psa_cipher_decrypt_law k PSA_ALG_ECB_NO_PADDING uds_aes_key pown e2) as (st3 & out & len & e3 & Hrun3 & [Hs3 Ho3] & Hout).
  { rewrite Ho2. apply lookup_insert_eq. }
  apply wp_bind. unfold wp at 1. rewrite Hrun3.
  destruct (psa_destroy_key_law k e3) as (e4 & Hrun4 & Hs4 & Ho4). apply wp_bind. unfold wp at 1. rewrite Hrun4. apply wp_ret.
  assert (vars e4 = vars e) as -> by congruence.
  assert (observe e4 = observe e) as ->.
  { rewrite Ho4, Ho3, Ho2. cbn. rewrite delete_insert_id by done. rewrite <- Ho1. by destruct (observe e1). }
  destruct (Z.eqb_spec st3 PSA_SUCCESS) as [Hst3|]; [|apply Hfail].
  destruct (Z.eqb_spec len 16) as [Hlen|]; [|apply Hfail]. cbn [andb]. by rewrite (Hout Hst3 Hlen).
Qed.

Lemma swp_random_seed (Q : Z * option (list Z) -> uds_sample -> outside -> Prop) s o :
  Q (-1, None) s o -> (forall r x, length x = 16%nat -> Q (r, Some x) s o) -> swp generate_random_seed Q s o.
Proof.
  intros Hno Hyes e <- <-. unfold generate_random_seed.
  destruct (psa_crypto_init_law e) as (r & e1 & Hrun1 & Hs1 & Ho1). apply wp_bind. unfold wp at 1. rewrite Hrun1.
  destruct (negb (r =? PSA_SUCCESS)); [apply wp_ret; by rewrite Hs1, Ho1|].
  destruct (psa_generate_random_law e1) as (st & x & e2 & Hrun2 & [Hs2 Ho2] & Hlen). apply wp_bind. unfold wp at 1. rewrite Hrun2.
  apply wp_ret. rewrite Hs2, Ho2, Hs1, Ho1. by apply Hyes.
Qed.

Lemma swp_auth_state a (Q : UDSErr_t -> uds_sample -> outside -> Prop) s o :
  (forall r bs, Q r s (answered bs o)) -> swp (set_auth_state a) Q s o.
Proof.
  intros HQ e <- <-. destruct (set_auth_state_law a e) as (r & bs & e' & Hrun & Hs & Ho). unfold wp. rewrite Hrun, Hs, Ho. apply HQ.
Qed.

(** A copy whose result is ignored. *)
Lemma swp_piece bs (Q : UDSErr_t -> uds_sample -> outside -> Prop) s o n : n = Z.of_nat (length bs) ->
  (forall r l, piece bs l -> Q r s (answered l o)) -> swp (server_copy (Some bs) n) Q s o.
Proof.
  intros -> HQ. apply swp_copy; [lia|..].
  - rewrite Nat2Z.id, take_ge by done. apply HQ. by left.
  - intros r _. specialize (HQ r [] ltac:(by right)). destruct o. unfold answered in HQ. cbn in HQ. by rewrite app_nil_r in HQ.
Qed.

Lemma hwp_memcmp16 p q (Q : bool -> uds_sample -> outside -> Prop) w s o :
  (16 <= length p)%nat -> (16 <= length q)%nat -> Q (bool_decide (take 16 p <> take 16 q)) s o -> hwp (memcmp16 p q) Q w s o.
Proof.
  intros Hp Hq HQ. unfold memcmp16. rewrite (proj2 (Nat.ltb_ge _ _)), (proj2 (Nat.ltb_ge (length q) _)) by lia. by apply hwp_ret.
Qed.

Lemma hwp_auth_context i inst ev arg n (Q : unit -> uds_sample -> outside -> Prop) w s o :
  static_regs w !! i = Some (authentication_registration inst) -> Q tt s o ->
  hwp (auth_user_context (Context n (StaticReg i) ev arg)) Q w s o.
Proof. intros Hi HQ. apply hwp_bind. eapply hwp_static; [exact Hi|]. s_run. done. Qed.

(** *** The cases of [auth_action] *)

#[local] Abbreviation outcome p op s o :=
  (fun r s' o' => exists sent p', auth_spec decrypt p op r sent p' /\ auth_holds keys p' s' o' /\ response o' = response o ++ sent)
  (only parsing).

Lemma quiet_outcome p op r s o : auth_spec decrypt p op r [] p -> auth_holds keys p s o -> outcome p op s o r s o.
Proof. intros Hspec Hp. exists [], p. by rewrite app_nil_r. Qed.

Lemma ask_challenge_run p a w s o : auth_holds keys p s o -> (16 <= length a)%nat ->
  hwp (auth_request_challenge (reqChallengeArgs a)) (outcome p (ask_challenge a) s o) w s o.
Proof.
  intros Hp Ha. pose proof Hp as (Hd & Hlen & Hk). unfold auth_request_challenge. s_run. rewrite Hd. cbn [algorithm_authenticator].
  apply hwp_memcmp16; [done|cbn; lia|]. change (take 16 oid) with oid.
  case_bool_decide as Hoid; [s_run; apply quiet_outcome; [by apply unknown_algorithm|done]|].
  s_run. apply swp_random_seed.
  { s_run. exists [], p. rewrite app_nil_r. split; [|done]. destruct p. by apply no_random_number. }
  intros r x Hx. s_run. destruct (r =? 0); cbn [negb].
  2: { s_run. exists [], (AuthPhase (allowed p) x). rewrite app_nil_r. split; [by apply no_random_number|].
       unfold set_seeed. rewrite Hd. by split_and!. }
  s_run. apply swp_piece; [done|]. intros r1 l1 Hl1. s_run.
  apply swp_piece; [unfold set_seeed; rewrite Hd; cbn; lia|]. intros r2 l2 Hl2. s_run.
  apply swp_piece; [done|]. intros r3 l3 Hl3. s_run. apply swp_auth_state. intros r4 l4.
  exists (l1 ++ l2 ++ l3 ++ l4), (AuthPhase (allowed p) x). unfold set_seeed in *. rewrite Hd in *. cbn in *.
  split_and!; [by apply challenged|done|by rewrite <- !(assoc_L app)].
Qed.

Lemma give_proof_run p a pown w s o : auth_holds keys p s o -> (16 <= length a)%nat ->
  hwp (auth_verify_proof (verifyPownArgs a pown)) (outcome p (give_proof a pown) s o) w s o.
Proof.
  intros Hp Ha. pose proof Hp as (Hd & Hlen & Hk). unfold auth_verify_proof. s_run. rewrite Hd. cbn [algorithm_authenticator].
  apply hwp_memcmp16; [done|cbn; lia|]. change (take 16 oid) with oid.
  case_bool_decide as Hoid; [s_run; apply quiet_outcome; [by apply unknown_algorithm|done]|].
  destruct (Z.eqb_spec (Z.of_nat (length pown)) 16) as [Hpown|Hpown]; cbn [negb].
  2: { s_run. apply quiet_outcome; [apply proof_of_wrong_length; [done|lia]|done]. }
  s_run. apply swp_decrypt.
  { intros out. s_run. apply quiet_outcome; [apply no_decryption; [done|lia]|done]. }
  s_run. rewrite Hd. cbn [seeed]. apply hwp_memcmp16; [by rewrite aes_decrypt_length|lia|].
  rewrite !take_ge by (rewrite ?aes_decrypt_length; lia). case_bool_decide as Hproof.
  - s_run. exists [], (AuthPhase false (challenge p)). rewrite app_nil_r. split; [apply proof_refused; [done|lia|done]|].
    unfold set_authenticated. rewrite Hd. by split_and!.
  - s_run. apply swp_piece; [done|]. intros r1 l1 Hl1. s_run. apply swp_auth_state. intros r2 l2.
    exists (l1 ++ l2), (AuthPhase true (challenge p)). unfold set_authenticated. rewrite Hd. cbn.
    split_and!; [apply proof_accepted; [done|lia|done|done]|done|by rewrite <- (assoc_L app)].
Qed.

Lemma deauthenticate_run p w s o : auth_holds keys p s o ->
  hwp auth_deauthenticate (outcome p deauthenticate s o) w s o.
Proof.
  intros (Hd & Hlen & Hk). unfold auth_deauthenticate. s_run. apply swp_auth_state. intros r l.
  assert (outcome p deauthenticate s o r (set_authenticated false s) (answered l o)) as Hout.
  { exists l, (AuthPhase false (challenge p)). split; [apply deauthenticated|]. unfold set_authenticated. rewrite Hd. by split_and!. }
  destruct (decide (r <> UDS_OK)) as [|Hr%dec_stable]; [|subst r]; by s_run.
Qed.

(** An authentication request runs the switch. *)
Lemma auth_request_run ty args (Q : UDSErr_t -> uds_sample -> outside -> Prop) w s o : sample_config cfg w ->
  hwp (if ty =? UDS_LEV_AT_RCFA then auth_request_challenge args
       else if ty =? UDS_LEV_AT_VPOWNU then auth_verify_proof args
       else if ty =? UDS_LEV_AT_DA then auth_deauthenticate else ret UDS_NRC_SubFunctionNotSupported) Q w s o ->
  hwp (let* (r, _) := request cfg depth fuel UDS_EVT_Auth (UDSAuthArgs ty args) in ret r) Q w s o.
Proof.
  intros Hcfg Hrun. apply hwp_bind.
  apply (request_answered cfg depth fuel __uds_event_handler_data_auth_ _ authentication_registration 3 3);
    [done|in_table|done|linked|done|by intros; eexists _, _|].
  intros inst i Hi. s_answer. unfold auth_check. s_run. unfold auth_action. cbn [ctx_arg]. s_run.
  eapply hwp_auth_context; [exact Hi|]. s_run. eapply hwp_mono; [exact Hrun|]. cbn beta. intros r s' o' HQ. s_run.
  split; [by unfold decisive|by s_run].
Qed.

Lemma time_out_run p w s o : sample_config cfg w -> auth_holds keys p s o -> hwp (auth_step time_out) (outcome p time_out s o) w s o.
Proof.
  intros Hcfg (Hd & Hlen & Hk). apply hwp_bind.
  apply (request_answered cfg depth fuel __uds_event_handler_data_auth_timeout_ _ authentication_registration 4 4);
    [done|in_table|done|linked|done|by intros; eexists _, _|].
  intros inst i Hi. s_answer. unfold auth_timeout_check. s_run. unfold auth_timeout_action. s_run.
  eapply hwp_auth_context; [exact Hi|]. s_run. split; [done|]. s_run. exists [], (AuthPhase false (challenge p)).
  rewrite app_nil_r. split; [apply timed_out|]. unfold set_authenticated. rewrite Hd. by split_and!.
Qed.

Lemma read_guarded_run p w s o : sample_config cfg w -> auth_holds keys p s o -> hwp (auth_step read_guarded) (outcome p read_guarded s o) w s o.
Proof.
  intros Hcfg Hp. pose proof Hp as (Hd & Hlen & Hk). apply hwp_bind.
  assert (forall e c, vars e = s -> ctx_arg c = UDSRDBIArgs authenticated_type_id copy_server -> read_data_by_id_check c false (set_ext e w) =
    Ret (if allowed p then (UDS_OK, true) else (UDS_NRC_ConditionsNotCorrect, false)) (set_ext e w)) as Hcheck.
  { intros e c He Hc. unfold read_data_by_id_check. rewrite Hc. cbn. unfold bind, on_ext, zoom, gets. cbn. rewrite He, Hd. cbn. by destruct (allowed p). }
  apply (request_answered cfg depth fuel __uds_event_handler_data_read_data_by_ident_ _ authenticated_type_registration 5 5);
    [done|in_table|done|linked|done|..].
  { intros inst e i He _ _. unfold looks. cbn [user_check sample_callbacks]. rewrite Hcheck by done. destruct (allowed p); by eexists _, _. }
  intros inst i Hi. s_answer. apply hwp_bind. intros e He Ho. eexists _, e. split; [by apply Hcheck|]. rewrite He, Ho.
  destruct (allowed p) eqn:Hallowed.
  - s_run. unfold read_data_by_id_action. s_run. eapply hwp_static; [exact Hi|]. s_payload. s_run.
    apply hwp_copy; [lia|by vm_compute|..].
    + s_run. split; [done|]. s_run. exists [authenticated_type], p. split; [by apply read_allowed|done].
    + intros r Hr. s_run. split; [done|]. s_run. apply quiet_outcome; [by apply read_does_not_fit|done].
  - s_run. split; [done|]. s_run. apply quiet_outcome; [by apply read_denied|done].
Qed.

Lemma auth_step_follows op p w s o : auth_op_ok op -> sample_config cfg w -> auth_holds keys p s o ->
  hwp (auth_step op) (outcome p op s o) w s o.
Proof.
  intros Hok Hcfg Hp. destruct op as [a|a pown| |ty args| |]; [..|by apply time_out_run|by apply read_guarded_run];
    apply auth_request_run; try done.
  - by apply ask_challenge_run.
  - by apply give_proof_run.
  - by apply deauthenticate_run.
  - destruct Hok as (H1 & H2 & H3). do 3 rewrite (proj2 (Z.eqb_neq _ _)) by done.
    s_run. apply quiet_outcome; [apply other_sub_function|done].
Qed.


Lemma challenge_kept ops p rs sent p' : spec_ops (auth_spec decrypt) p ops rs sent p' ->
  Forall (fun op => match op with ask_challenge _ => False | _ => True end) ops -> challenge p' = challenge p.
Proof.
  induction 1 as [|p op ops r sent p1 rs sent' p2 Hstep _ IH]; [done|]. intros [Hop Hops]%Forall_cons_1.
  rewrite IH by done. by destruct Hstep.
Qed.

(** A challenge stays valid after it was answered.  The proof that was
    accepted once, for instance one that was listened to, authenticates again
    after the client has deauthenticated or the authentication has timed out, until
    a new challenge is asked for. *)
Theorem proof_can_be_replayed ops p w a pown :
  Forall auth_op_ok ops -> Forall (fun op => match op with ask_challenge _ => False | _ => True end) ops ->
  in_phase cfg (auth_holds keys) p w -> take 16 a = oid -> length pown = 16%nat -> decrypt pown = challenge p ->
  exists rs r w', run_ops auth_step (ops ++ [give_proof a pown]) w = Ret (rs ++ [r]) w' /\
    (r = UDS_NRC_GeneralReject \/ authenticated (auth_data (vars (ext w'))) = true).
Proof.
  intros Hops Hnone Hp Ha Hlen Hdec.
  assert (forall ops, Forall auth_op_ok ops -> in_phase cfg (auth_holds keys) p w -> exists rs sent p' w',
    run_ops auth_step ops w = Ret rs w' /\ spec_ops (auth_spec decrypt) p ops rs sent p' /\ in_phase cfg (auth_holds keys) p' w' /\
    response (observe (ext w')) = response (observe (ext w)) ++ sent) as Hrun.
  { intros ops0. apply (sample_refines cfg). intros. by apply auth_step_follows. }
  destruct (Hrun ops) as (rs & sent & p1 & w1 & Hrs & Hspec & [Hcfg1 Hp1] & _); [done..|].
  assert (hwp (auth_step (give_proof a pown)) (outcome p1 (give_proof a pown) (vars (ext w1)) (observe (ext w1))) w1
    (vars (ext w1)) (observe (ext w1))) as Hstep.
  { apply auth_step_follows; [|done..]. cbn. rewrite <- (take_drop 16 a), length_app, Ha. cbn. lia. }
  destruct (Hstep (ext w1) eq_refl eq_refl) as (r & e2 & Hlast & sent2 & p2 & Hspec2 & (Hd & _) & _). rewrite set_ext_ext in Hlast.
  exists rs, r, (set_ext e2 w1). split.
  - clear -Hrs Hlast. revert w rs Hrs. induction ops as [|op ops IH]; intros w rs; cbn [run_ops app].
    + intros [= <- <-]. by rewrite (bind_step _ _ _ _ _ Hlast).
    + intros (x & wx & Hx & (xs & wxs & Hxs & [= <- <-])%bind_Ret)%bind_Ret. rewrite (bind_step _ _ _ _ _ Hx).
      by rewrite (bind_step _ _ _ _ _ (IH _ _ Hxs)).
  - cbn [ext set_ext]. rewrite Hd. cbn [authenticated]. pose proof (challenge_kept _ _ _ _ _ Hspec Hnone) as Hsame.
    inversion Hspec2; subst; cbn; try done; [by left|congruence|by right].
Qed.
End auth.
