(* ===== verification/UdsSampleData.v ===== *)
(** * Data identifiers, LED and memory of the UDS sample
    ([samples/uds/src/data_by_id.c], [mem_by_address.c],
    [diag_session_ctrl.c])

    What is read, written and controlled, the LED with its update thread as a
    protocol, and the bounds of the memory. *)

From stdpp Require Import base gmap list numbers relations.
From Stdlib Require Import ZArith Lia.
From S2P Require Import Prelude.
From S2P Require Import UdsTypes.
From S2P Require Import Uds.
From S2P Require Import UdsMacros.
From S2P Require Import UdsServices.
From S2P Require Import UdsMemory.
From S2P Require Import UdsLinkControl.
From S2P Require Import UdsFileTransfer.
From S2P Require Import UdsUploadDownload.
From S2P Require Import UdsSystem.
From S2P Require Import UdsDispatch.
From S2P Require Import UdsSample.
From S2P Require Import UdsSampleLaws.

#[local] Open Scope Z_scope.

Section data.
Context {E : Type} `{!Iso14229Constants} `{!Server E} `{!Platform E} `{!Memory E} `{!CanController E}
  `{!LinkControlVars E} `{!FileSystem E} `{!FileTransferVars E} `{!FlashDriver E} `{!UpDownVars E}
  `{!SampleVars E} `{!SecurityServer E} `{!Random E} `{!PsaCrypto E} `{!LedPin E} `{!SampleLaws E}.
Context (cfg : uds_config) (depth fuel : nat).
Implicit Types (s : uds_sample) (o : outside) (w : world E).

#[local] Abbreviation req := (request cfg depth fuel) (only parsing).

(** What a request that sends [bs] leaves: the bytes are in the response, or
    the copy function had an error, which is the answer. *)
Definition sends (bs : list Z) (arg : uds_arg) (s : uds_sample) (o : outside) (x : UDSErr_t * uds_arg) (s' : uds_sample)
    (o' : outside) : Prop :=
  x.2 = arg /\ s' = s /\ o' = if decide (x.1 = UDS_OK) then answered bs o else o.

(** *** The identifiers without a guard *)

Lemma read_primitive_run w s o : sample_config cfg w ->
  hwp (req UDS_EVT_ReadDataByIdent (UDSRDBIArgs primitive_type_id copy_server))
    (sends (be16 (primitive_type s)) (UDSRDBIArgs primitive_type_id copy_server) s o) w s o.
Proof.
  intros Hcfg.
  apply (request_answered cfg depth fuel __uds_event_handler_data_read_data_by_ident_ _ primitive_type_registration 5 5);
    [done|in_table|done|linked|done|by intros; eexists _, _|].
  intros inst i Hi. s_answer. unfold read_data_by_id_check. s_run. unfold read_data_by_id_action. s_run.
  eapply hwp_static; [exact Hi|]. s_payload. s_run.
  assert (u8 (primitive_type s) + u8 (Z.shiftr (primitive_type s) 8) * 2 ^ 8 = u16 (primitive_type s)) as ->.
  { unfold wrap. rewrite Z.shiftr_div_pow2 by lia. Z.div_mod_to_equations. lia. }
  assert (be16 (u16 (primitive_type s)) = be16 (primitive_type s)) as ->.
  { unfold be16. rewrite wrap_idemp by lia. f_equal. f_equal. unfold wrap. Z.div_mod_to_equations. lia. }
  apply hwp_copy; [lia|by lazy|..].
  - s_run. split; [done|]. by split_and!.
  - intros r Hr. s_run. split; [by unfold decisive; rewrite orb_true_l|]. split_and!; try done. by rewrite decide_False.
Qed.

Lemma write_primitive_run w s o a b data : sample_config cfg w ->
  hwp (req UDS_EVT_WriteDataByIdent (UDSWDBIArgs primitive_type_id (a :: b :: data)))
    (fun x s' o' => x = (UDS_PositiveResponse, UDSWDBIArgs primitive_type_id (a :: b :: data)) /\
       s' = set_primitive_type (a * 2 ^ 8 + b) s /\ o' = o) w s o.
Proof.
  intros Hcfg.
  apply (request_answered cfg depth fuel __uds_event_handler_data_write_data_by_ident_ _ primitive_type_registration 6 6);
    [done|in_table|done|linked|done|by intros; eexists _, _|].
  intros inst i Hi. s_answer. unfold write_primitive_data_by_id_check. s_run. unfold write_primitive_data_by_id_action. s_run.
  eapply hwp_static; [exact Hi|]. s_payload. s_run. by split_and!.
Qed.

(** What is written to the number is what is read back: the first two bytes of
    the request, most significant first, whatever follows them. *)
Theorem primitive_write_read w a b data :
  sample_config cfg w -> is_u8 a -> is_u8 b ->
  exists w1 r w2, req UDS_EVT_WriteDataByIdent (UDSWDBIArgs primitive_type_id (a :: b :: data)) w =
      Ret (UDS_PositiveResponse, UDSWDBIArgs primitive_type_id (a :: b :: data)) w1 /\
    req UDS_EVT_ReadDataByIdent (UDSRDBIArgs primitive_type_id copy_server) w1 =
      Ret (r, UDSRDBIArgs primitive_type_id copy_server) w2 /\
    (r = UDS_OK -> response (observe (ext w2)) = response (observe (ext w)) ++ [a; b]) /\
    (r <> UDS_OK -> observe (ext w2) = observe (ext w)).
Proof.
  intros Hcfg Ha Hb.
  destruct (write_primitive_run w (vars (ext w)) (observe (ext w)) a b data Hcfg (ext w) eq_refl eq_refl)
    as (x & e1 & Hrun1 & -> & Hs1 & Ho1). rewrite set_ext_ext in Hrun1.
  destruct (read_primitive_run (set_ext e1 w) (vars e1) (observe e1) (sample_config_set_ext _ _ _ Hcfg) e1 eq_refl eq_refl)
    as ([r arg] & e2 & Hrun2 & Harg & Hs2 & Ho2). cbn in Harg, Ho2. subst arg.
  exists (set_ext e1 w), r, (set_ext e2 w). split_and!; [exact Hrun1|exact Hrun2|..]; cbn [ext set_ext].
  - intros ->. rewrite Ho2, decide_True by done. rewrite Ho1, Hs1. cbn. f_equal.
    by apply (be16_of_be16 a b (a * 2 ^ 8 + b)).
  - intros Hr. by rewrite Ho2, decide_False, Ho1.
Qed.

(** The length of what is written is not checked: a request with fewer than
    two bytes makes the action read behind its end. *)
Theorem short_write_reads_behind w data :
  sample_config cfg w -> (length data < 2)%nat ->
  req UDS_EVT_WriteDataByIdent (UDSWDBIArgs primitive_type_id data) w = Fault OutOfBounds.
Proof.
  intros Hcfg Hlen.
  apply (request_faults cfg depth fuel __uds_event_handler_data_write_data_by_ident_ _ primitive_type_registration 6 6);
    [done|in_table|done|linked|done|done|]. intros inst c i Hc Hp Hi. cbn [user_action sample_callbacks].
  unfold write_primitive_data_by_id_action. rewrite Hc, Hp, (bind_step _ _ _ _ _ (read_static_run _ _ _ Hi)).
  s_payload. by destruct data as [|? [|? ?]]; [..|cbn in Hlen; lia].
Qed.

(** The text is sent as it is, with its terminating NUL. *)
Theorem string_read w :
  sample_config cfg w -> exists r e', req UDS_EVT_ReadDataByIdent (UDSRDBIArgs string_id copy_server) w =
    Ret (r, UDSRDBIArgs string_id copy_server) (set_ext e' w) /\ vars e' = vars (ext w) /\
    observe e' = if decide (r = UDS_OK) then answered (string_data) (observe (ext w)) else observe (ext w).
Proof.
  intros Hcfg.
  assert (hwp (req UDS_EVT_ReadDataByIdent (UDSRDBIArgs string_id copy_server))
    (sends string_data (UDSRDBIArgs string_id copy_server) (vars (ext w)) (observe (ext w))) w (vars (ext w)) (observe (ext w))) as Hr.
  { apply (request_answered cfg depth fuel __uds_event_handler_data_read_data_by_ident_ _ string_registration 5 5);
      [done|in_table|done|linked|done|by intros; eexists _, _|].
    intros inst i Hi. s_answer. unfold read_data_by_id_check. s_run. unfold read_data_by_id_action. s_run.
    eapply hwp_static; [exact Hi|]. s_payload. s_run.
    apply hwp_copy; [by vm_compute|by vm_compute|..].
    - s_run. split; [done|]. by split_and!.
    - intros r Hr. s_run. split; [done|]. split_and!; try done. by rewrite decide_False. }
  destruct (Hr (ext w) eq_refl eq_refl) as ([r a] & e' & Hrun & Ha & Hs & Ho). cbn in Ha, Ho. subst a. rewrite set_ext_ext in Hrun.
  by exists r, e'.
Qed.

(** A write to one of the read-only identifiers, and an I/O control of any
    identifier but that of the LED, calls a NULL function pointer. *)
Theorem read_only_write_crashes w did data param st copy :
  sample_config cfg w ->
  (did ∈ [string_id; authenticated_type_id; secure_data_id] ->
     req UDS_EVT_WriteDataByIdent (UDSWDBIArgs did data) w = Fault NullPointer) /\
  (did ∈ [primitive_type_id; string_id; authenticated_type_id; secure_data_id] ->
     req UDS_EVT_IOControl (UDSIOCtrlArgs did param st copy) w = Fault NullPointer).
Proof.
  intros [(inst & Hperm) Hdyn].
  assert (forall ev arg r, fits ev arg = true -> ev = UDS_EVT_WriteDataByIdent \/ ev = UDS_EVT_IOControl ->
    (exists h, h ∈ uds_event_handlers /\ event h = ev /\ List.filter (relevant h arg) (all_registrations cfg inst) = [r] /\
       forall p, read_reg p w = Ret r w -> exists chk, get_check h r = Some chk /\
         @call_check E (callbacks cfg (S (S depth)) fuel) chk (Context (inst_id w) p ev arg) false w = Fault NullPointer) ->
    req ev arg w = Fault NullPointer) as Hgen.
  { intros ev arg r Hfit Hev (h & Hh & <- & Hsole & Hchk). unfold request. rewrite handled by done.
    destruct (sole_element _ _ _ _ Hperm Hsole) as (pre & post & Heq & Hall).
    assert (static_regs w !! length pre = Some r) as Hreg by by rewrite Heq, list_lookup_middle.
    pose proof (read_static_run _ _ _ Hreg) as Hread. destruct (Hchk _ Hread) as (chk & Hget & Hcall).
    apply (@dispatch_fault E (callbacks cfg (S (S depth)) fuel) _ _ _ _ _ (length pre)); [by eapply lookup_lt_Some|..].
    - intros j Hj. eapply (others_passed_by cfg depth fuel h arg Hh Hfit _ pre); [exact Heq|exact Hall|lia|rewrite Heq, length_app; lia].
    - intros f. eapply visit_check_fault; [exact Hread| |exact Hget|exact Hcall].
      assert (In r (List.filter (relevant h arg) (all_registrations cfg inst))) as [_ Hrel]%filter_In by (rewrite Hsole; by left).
      unfold relevant in Hrel. by apply andb_prop in Hrel as [Hty%bool_decide_eq_true _]. }
  split; intros Hdid; [set (h := __uds_event_handler_data_write_data_by_ident_)|set (h := __uds_event_handler_data_io_control_)];
    repeat (apply elem_of_cons in Hdid as [->|Hdid]); try (by apply elem_of_nil in Hdid);
    (eapply Hgen; [done|first [by left|by right]|]);
    (exists h; split; [in_table|split; [done|split; [linked|]]]);
    intros p Hp; (eexists; split; [done|]); cbn [callbacks call_check run_check];
    unfold uds_check_write_with_data_id, uds_check_io_control_with_data_id; cbn [ctx_registration ctx_arg arg_dataId];
    by rewrite (bind_step _ _ _ _ _ Hp).
Qed.
End data.

(** ** The LED *)

(** The variables of the LED, whether its thread has configured it, and what
    it shows. *)
Record led_phase := LedPhase { configured : bool; controls : led_data_t; shown : bool }.

(** Requests of the client, and turns of the update thread. *)
Inductive led_op :=
| led_write (data : list Z)
| led_control (param : Z) (state : list Z)
| led_read
| led_turn.

Definition with_controls (d : led_data_t) (p : led_phase) : led_phase := LedPhase (configured p) d (shown p).

(** What the LED is to show. *)
Definition target (d : led_data_t) : bool :=
  negb ((if io_control_active d then io_control_led_state d else led_state d) =? 0).

(** The answer, and the byte that is sent with a positive one. *)
Definition reply (bs : list Z) (r : UDSErr_t) (sent : list Z) : Prop :=
  r = UDS_OK /\ sent = bs \/ r <> UDS_OK /\ sent = [].

Inductive led_spec : led_phase -> led_op -> option UDSErr_t -> list Z -> led_phase -> Prop :=
| write_nothing p : led_spec p (led_write []) (Some UDS_NRC_IncorrectMessageLengthOrInvalidFormat) [] p
| write_value p v data :
    led_spec p (led_write (v :: data)) (Some UDS_PositiveResponse) []
      (with_controls (LedData v (io_control_led_state (controls p)) (io_control_active (controls p))) p)
| control_no_reading p v st : led_spec p (led_control 0x03 (v :: st)) (Some UDS_NRC_ConditionsNotCorrect) [] p
| control_override p v st r sent : reply [Z.b2z (shown p)] r sent ->
    led_spec p (led_control 0x03 (v :: st)) (Some r) sent (with_controls (LedData (led_state (controls p)) v true) p)
| control_reset p st r sent : reply [0] r sent ->
    led_spec p (led_control 0x01 st) (Some r) sent (with_controls (LedData 0 0 (io_control_active (controls p))) p)
| control_return p st r sent : reply [led_state (controls p)] r sent ->
    led_spec p (led_control 0x00 st) (Some r) sent
      (with_controls (LedData (led_state (controls p)) (io_control_led_state (controls p)) false) p)
| control_unsupported p param st : param <> 0x00 -> param <> 0x01 -> (param = 0x03 -> st = []) ->
    led_spec p (led_control param st) (Some UDS_NRC_RequestOutOfRange) [] p
| read_no_reading p : led_spec p led_read (Some UDS_NRC_ConditionsNotCorrect) [] p
| read_shown p r sent : reply [Z.b2z (shown p)] r sent -> led_spec p led_read (Some r) sent p
| first_turn p b : configured p = false -> led_spec p led_turn None [] (LedPhase true (LedData 0 0 false) b)
| next_turn p : configured p = true -> led_spec p led_turn None [] (LedPhase true (controls p) (target (controls p)))
| failed_turn p : configured p = true -> led_spec p led_turn None [] p.

Definition led_holds (p : led_phase) (s : uds_sample) (o : outside) : Prop :=
  led_data s = controls p /\ led_on o = shown p /\ locked s = [] /\ led_thread s = if configured p then LedLoop else LedStart.

Section led.
Context {E : Type} `{!Iso14229Constants} `{!Server E} `{!Platform E} `{!Memory E} `{!CanController E}
  `{!LinkControlVars E} `{!FileSystem E} `{!FileTransferVars E} `{!FlashDriver E} `{!UpDownVars E}
  `{!SampleVars E} `{!SecurityServer E} `{!Random E} `{!PsaCrypto E} `{!LedPin E} `{!SampleLaws E} `{!LedLaws E}.
Context (cfg : uds_config) (depth fuel : nat).
Implicit Types (s : uds_sample) (o : outside) (w : world E) (p : led_phase).

Definition led_step (op : led_op) : M (world E) (option UDSErr_t) :=
  match op with
  | led_write data => let* (r, _) := request cfg depth fuel UDS_EVT_WriteDataByIdent (UDSWDBIArgs led_id data) in ret (Some r)
  | led_control param st =>
      let* (r, _) := request cfg depth fuel UDS_EVT_IOControl (UDSIOCtrlArgs led_id param st copy_server) in ret (Some r)
  | led_read => let* (r, _) := request cfg depth fuel UDS_EVT_ReadDataByIdent (UDSRDBIArgs led_id copy_server) in ret (Some r)
  | led_turn => on_ext led_update_thread ;; ret None
  end.

#[local] Abbreviation outcome p op o :=
  (fun r s' o' => exists sent p', led_spec p op r sent p' /\ led_holds p' s' o' /\ response o' = response o ++ sent) (only parsing).

Lemma swp_led_get (Q : Z -> uds_sample -> outside -> Prop) s o :
  (forall r, r < 0 \/ r = Z.b2z (led_on o) -> Q r s o) -> swp gpio_pin_get_dt Q s o.
Proof. intros HQ e <- <-. destruct (led_get_law e) as (r & e' & Hrun & [Hs Ho] & Hr). unfold wp. rewrite Hrun, Hs, Ho. by apply HQ. Qed.

Lemma swp_led_set v (Q : Z -> uds_sample -> outside -> Prop) s o :
  (forall r, Q r s (if r =? 0 then lit (negb (v =? 0)) o else o)) -> swp (gpio_pin_set_dt v) Q s o.
Proof. intros HQ e <- <-. destruct (led_set_law v e) as (r & e' & Hrun & Hs & Ho). unfold wp. rewrite Hrun, Hs, Ho. apply HQ. Qed.

(** A reply of one byte. *)
Lemma hwp_reply b (Q : UDSErr_t -> uds_sample -> outside -> Prop) w s o :
  (forall r sent o', reply [b] r sent -> response o' = response o ++ sent -> led_on o' = led_on o -> Q r s o') ->
  hwp (call_copy copy_server (Some [b]) 1) Q w s o.
Proof.
  intros HQ. apply hwp_copy; [lia|cbn; lia|..].
  - apply (HQ UDS_OK [b]); [by left|done..].
  - intros r Hr. apply (HQ r []); [by right|by rewrite app_nil_r|done].
Qed.

Lemma led_write_step p data w s o : sample_config cfg w -> led_holds p s o -> hwp (led_step (led_write data)) (outcome p (led_write data) o) w s o.
Proof.
  intros Hcfg Hp. pose proof Hp as (Hd & Hon & Hl & Ht). apply hwp_bind.
  apply (request_answered cfg depth fuel __uds_event_handler_data_write_data_by_ident_ _ led_registration 8 8);
    [done|in_table|done|linked|done|by intros; eexists _, _|].
  intros inst i Hi. s_answer. unfold write_led_check. s_run. unfold write_led_action. s_run.
  destruct data as [|v data]; s_run.
  - split; [done|]. s_run. exists [], p. rewrite app_nil_r. by split; [apply write_nothing|].
  - rewrite Hl. set_solver.
  - split; [done|]. s_run. exists [], (with_controls (LedData v (io_control_led_state (controls p)) (io_control_active (controls p))) p).
    rewrite app_nil_r. split; [apply write_value|]. split; [|done]. unfold led_holds, set_led_state. cbn. rewrite Hd, Hl. by split_and!.
Qed.

Lemma led_control_step p param st w s o : sample_config cfg w -> led_holds p s o ->
  hwp (led_step (led_control param st)) (outcome p (led_control param st) o) w s o.
Proof.
  intros Hcfg Hp. pose proof Hp as (Hd & Hon & Hl & Ht). apply hwp_bind.
  apply (request_answered cfg depth fuel __uds_event_handler_data_io_control_ _ led_registration 9 9);
    [done|in_table|done|linked|done|by intros; eexists _, _|].
  intros inst i Hi. s_answer. unfold io_ctrl_led_check. s_run. unfold io_ctrl_led_action. s_run.
  cbn [uds_input_output_control_param_value].
  destruct (Z.eqb_spec param 3) as [->|H3].
  { destruct st as [|v st]; cbn [length Nat.leb andb].
    { s_run. split; [done|]. s_run. exists [], p. rewrite app_nil_r. by split; [apply control_unsupported|]. }
    s_run; [rewrite Hl; set_solver|]. apply swp_led_get. intros r Hr.
    destruct (Z.ltb_spec r 0) as [Hneg|Hpos].
    - s_run. split; [done|]. s_run. exists [], p. rewrite app_nil_r. split; [apply control_no_reading|]. split; [|done].
      unfold led_holds. cbn. by rewrite Hl.
    - assert (u8 r = Z.b2z (shown p)) as -> by (destruct Hr as [|Hr]; [lia|rewrite <- Hon, Hr; by destruct (led_on o)]).
      s_run. apply hwp_reply. intros r1 sent o1 Hrep Hresp Hled. s_run. split; [by unfold decisive|]. s_run.
      exists sent, (with_controls (LedData (led_state (controls p)) v true) p). split; [by apply control_override|]. split; [|done].
      unfold led_holds, set_io_control_led_state, set_io_control_active. cbn. rewrite Hd, Hl, Hled. by split_and!. }
  cbn [andb]. destruct (Z.eqb_spec param 1) as [->|H1].
  { s_run; [rewrite Hl; set_solver|]. apply hwp_reply. intros r1 sent o1 Hrep Hresp Hled. s_run. split; [by unfold decisive|]. s_run.
    exists sent, (with_controls (LedData 0 0 (io_control_active (controls p))) p). split; [by apply control_reset|]. split; [|done].
    unfold led_holds, set_io_control_led_state, set_led_state. cbn. rewrite Hd, Hl, Hled. by split_and!. }
  destruct (Z.eqb_spec param 0) as [->|H0].
  { s_run; [rewrite Hl; set_solver|]. cbn [set_locked led_data]. rewrite Hd.
    apply hwp_reply. intros r1 sent o1 Hrep Hresp Hled. s_run. split; [by unfold decisive|]. s_run.
    eexists sent, _. split; [by apply control_return|]. split; [|done].
    unfold led_holds, set_io_control_active. cbn. rewrite Hd, Hl, Hled. by split_and!. }
  s_run. split; [done|]. s_run. exists [], p. rewrite app_nil_r. by split; [apply control_unsupported|].
Qed.

Lemma led_read_step p w s o : sample_config cfg w -> led_holds p s o -> hwp (led_step led_read) (outcome p led_read o) w s o.
Proof.
  intros Hcfg Hp. pose proof Hp as (Hd & Hon & Hl & Ht). apply hwp_bind.
  apply (request_answered cfg depth fuel __uds_event_handler_data_read_data_by_ident_ _ led_registration 7 7);
    [done|in_table|done|linked|done|by intros; eexists _, _|].
  intros inst i Hi. s_answer. unfold read_led_check. s_run. unfold read_led_action. s_run. apply swp_led_get. intros r Hr.
  destruct (Z.ltb_spec r 0) as [Hneg|Hpos].
  - s_run. split; [done|]. s_run. exists [], p. rewrite app_nil_r. by split; [apply read_no_reading|].
  - assert (u8 r = Z.b2z (shown p)) as -> by (destruct Hr as [|Hr]; [lia|rewrite <- Hon, Hr; by destruct (led_on o)]).
    s_run. apply hwp_reply. intros r1 sent o1 Hrep Hresp Hled. s_run. split; [by unfold decisive; rewrite orb_true_l|]. s_run.
    exists sent, p. split; [by apply read_shown|]. split; [|done]. unfold led_holds. by rewrite Hled.
Qed.

(** The driver can configure the pin. *)
Hypothesis led_configures : forall (e : E) r e', gpio_pin_configure_dt e = Ret r e' -> 0 <= r.

Lemma led_turn_step p w s o : led_holds p s o -> hwp (led_step led_turn) (outcome p led_turn o) w s o.
Proof.
  intros Hp. pose proof Hp as (Hd & Hon & Hl & Ht). cbn [led_step]. s_step. unfold led_update_thread. s_run. rewrite Ht.
  destruct (configured p) eqn:Hc.
  - unfold led_update_thread_round. s_run; [rewrite Hl; set_solver|]. cbn [set_locked led_data]. rewrite Hd.
    assert (forall v : Z, negb (v =? 0) = target (controls p) ->
      swp (gpio_pin_set_dt v) (fun (_ : Z) s1 o1 => swp (k_mutex_unlock led_data_mutex ;; ret LedLoop)
        (fun a s2 o2 => swp (update (set_led_thread a)) (fun _ s3 o3 => hwp (ret None) (outcome p led_turn o) w s3 o3) s2 o2) s1 o1)
        (set_locked (led_data_mutex :: locked s) s) o) as Hset.
    { intros v Hv. apply swp_led_set. intros r. s_run. exists []. destruct (r =? 0).
      - exists (LedPhase true (controls p) (target (controls p))). rewrite app_nil_r. split; [by apply next_turn|]. split; [|done].
        unfold led_holds. cbn. by rewrite Hd, Hl, Hv.
      - exists p. rewrite app_nil_r. split; [by apply failed_turn|]. split; [|done]. unfold led_holds. cbn. by rewrite Hd, Hl, Hc. }
    unfold target in Hset. destruct (io_control_active (controls p)); by apply Hset.
  - unfold led_update_thread_start. s_run; [rewrite Hl; set_solver|]. intros e Hs Ho.
    destruct (led_configure_law e) as (r & b & e1 & Hrun & Hs1 & Ho1). unfold wp. rewrite Hrun.
    assert (0 <= r) as Hr by by eapply led_configures.
    rewrite (proj2 (Z.ltb_ge _ _)) by done. rewrite Hs1, Ho1, Hs, Ho. s_run.
    exists [], (LedPhase true (LedData 0 0 false) b). rewrite app_nil_r. split; [by apply first_turn|]. split; [|done].
    unfold led_holds. cbn. by rewrite Hl.
Qed.


(** While the override is active, requests to write and turns of the thread do
    not change what the LED shows; the written value is kept for when the
    control is returned. *)
Theorem led_override_wins ops p w : 
  in_phase cfg led_holds p w -> configured p = true -> io_control_active (controls p) = true -> shown p = target (controls p) ->
  Forall (fun op => match op with led_control _ _ => False | _ => True end) ops ->
  exists rs w', run_ops led_step ops w = Ret rs w' /\ led_on (observe (ext w')) = target (controls p) /\
    led_state (led_data (vars (ext w'))) =
      List.fold_left (fun v op => match op with led_write (x :: _) => x | _ => v end) ops (led_state (controls p)).
Proof.
  intros Hp Hconf Hact Hshown Hops.
  assert (exists rs sent p' w', run_ops led_step ops w = Ret rs w' /\ spec_ops led_spec p ops rs sent p' /\ in_phase cfg led_holds p' w' /\
    response (observe (ext w')) = response (observe (ext w)) ++ sent) as (rs & sent & p' & w' & Hrun & Hspec & (_ & Hd & Hon & _) & _).
  { apply (sample_refines cfg _ _ _ (fun _ => True)); [|by apply Forall_true|done].
    intros [data|param st| |] p0 w0 s o _ Hcfg0 Hp0;
      [by apply led_write_step|by apply led_control_step|by apply led_read_step|by apply led_turn_step]. }
  exists rs, w'. split; [done|]. rewrite Hon, Hd.
  clear -Hspec Hconf Hact Hshown Hops. induction Hspec as [p|p op ops r sent p1 rs sent' p2 Hstep _ IH]; [done|].
  apply Forall_cons_1 in Hops as [Hop Hops]. cbn [List.fold_left].
  assert (configured p1 = true /\ controls p1 = LedData (match op with led_write (x :: _) => x | _ => led_state (controls p) end)
    (io_control_led_state (controls p)) true /\ shown p1 = target (controls p)) as (Hc1 & Hd1 & Hs1).
  { assert (controls p = LedData (led_state (controls p)) (io_control_led_state (controls p)) true) as Hp by (destruct (controls p); cbn in *; congruence).
    destruct Hstep; try done; cbn; split_and!; congruence. }
  assert (target (controls p1) = target (controls p)) as Ht by (rewrite Hd1; unfold target; by rewrite Hact).
  destruct IH as [-> ->]; [done|by rewrite Hd1|congruence|done|]. by rewrite Ht, Hd1.
Qed.
End led.

(** When the pin cannot be configured, the thread returns with the mutex
    locked: from then on every request that writes or controls the LED waits
    for ever. *)
Theorem led_failure_blocks_requests {E} `{!Iso14229Constants} `{!Server E} `{!Platform E} `{!Memory E} `{!CanController E}
    `{!LinkControlVars E} `{!FileSystem E} `{!FileTransferVars E} `{!FlashDriver E} `{!UpDownVars E}
    `{!SampleVars E} `{!SecurityServer E} `{!Random E} `{!PsaCrypto E} `{!LedPin E} `{!SampleLaws E} `{!LedLaws E}
    (cfg : uds_config) (depth fuel : nat) (w : world E) :
  sample_config cfg w -> locked (vars (ext w)) = [] -> led_thread (vars (ext w)) = LedStart ->
  (forall s r e', gpio_pin_configure_dt (set_vars s (ext w)) = Ret r e' -> r < 0) ->
  exists w1, on_ext led_update_thread w = Ret tt w1 /\
    (forall v data, request cfg depth fuel UDS_EVT_WriteDataByIdent (UDSWDBIArgs led_id (v :: data)) w1 = Fault Blocked) /\
    (forall param v st copy, param ∈ [0x00; 0x01; 0x03] ->
       request cfg depth fuel UDS_EVT_IOControl (UDSIOCtrlArgs led_id param (v :: st) copy) w1 = Fault Blocked).
Proof.
  intros Hcfg Hl Ht Hfail.
  assert (exists e1, led_update_thread (ext w) = Ret tt e1 /\ led_data_mutex ∈ locked (vars e1)) as (e1 & Hrun & Hlock).
  { pose (s1 := set_locked [led_data_mutex] (vars (ext w))).
    assert (k_mutex_lock led_data_mutex (ext w) = Ret tt (set_vars s1 (ext w))) as Hlocked.
    { unfold k_mutex_lock, update, bind, gets, modify. by rewrite Hl, decide_False by set_solver. }
    destruct (led_configure_law (set_vars s1 (ext w))) as (r & b & e1 & Hconf & Hs1 & _).
    assert (led_update_thread_start (ext w) = Ret LedReturned e1) as Hstart.
    { unfold led_update_thread_start. rewrite (bind_step _ _ _ _ _ Hlocked), (bind_step _ _ _ _ _ Hconf).
      by rewrite (proj2 (Z.ltb_lt _ _)) by by eapply Hfail. }
    unfold led_update_thread. rewrite (bind_step _ _ _ (vars (ext w)) (ext w)) by done. rewrite Ht, (bind_step _ _ _ _ _ Hstart).
    eexists. split; [done|]. rewrite (proj1 (set_vars_law _ _)), Hs1, (proj1 (set_vars_law _ _)). cbn. set_solver. }
  exists (set_ext e1 w). split; [unfold on_ext, zoom; by rewrite Hrun|].
  assert (forall A (k : unit -> M (world E) A), bind (on_ext (k_mutex_lock led_data_mutex)) k (set_ext e1 w) = Fault Blocked) as Hblock.
  { intros A k. unfold bind, on_ext, zoom, k_mutex_lock. cbn [ext set_ext]. unfold bind, gets. by rewrite decide_True by done. }
  split.
  - intros v data.
    apply (request_faults cfg depth fuel __uds_event_handler_data_write_data_by_ident_ _ led_registration 8 8);
      [by apply sample_config_set_ext|in_table|done|linked|done|done|]. intros inst c i Hc Hp Hi. cbn [user_action sample_callbacks].
    unfold write_led_action. rewrite Hc. by rewrite Hblock.
  - intros param v st copy Hparam.
    apply (request_faults cfg depth fuel __uds_event_handler_data_io_control_ _ led_registration 9 9);
      [by apply sample_config_set_ext|in_table|done|linked|done|done|]. intros inst c i Hc Hp Hi. cbn [user_action sample_callbacks].
    unfold io_ctrl_led_action. rewrite Hc. cbn [uds_input_output_control_param_value].
    repeat (apply elem_of_cons in Hparam as [->|Hparam]; [cbn [Z.eqb Pos.eqb andb length Nat.leb]; by rewrite Hblock|]).
    by apply elem_of_nil in Hparam.
Qed.

(** ** The memory *)

(** The memory has 100 bytes whatever is written. *)
Definition memory_holds (s : uds_sample) : Prop := Z.of_nat (length (fake_memory s)) = fake_memory_size.

(** [data] in the place of the bytes from [i] on. *)
Definition overwrite (i : nat) (data m : list Z) : list Z := take i m ++ data ++ drop (i + length data) m.

Section memory.
Context {E : Type} `{!Iso14229Constants} `{!Server E} `{!Platform E} `{!Memory E} `{!CanController E}
  `{!LinkControlVars E} `{!FileSystem E} `{!FileTransferVars E} `{!FlashDriver E} `{!UpDownVars E}
  `{!SampleVars E} `{!SecurityServer E} `{!Random E} `{!PsaCrypto E} `{!LedPin E} `{!SampleLaws E}.
Context (cfg : uds_config) (depth fuel : nat).
Implicit Types (s : uds_sample) (o : outside) (w : world E).

#[local] Abbreviation req := (request cfg depth fuel) (only parsing).
#[local] Abbreviation base := fake_memory_start_addr (only parsing).

(** What the check lets pass: it compares the 32-bit sum, and it does so with [>=]. *)
Definition passes (addr size : Z) : bool := (base <=? addr) && (u32 (addr + size) <? base + fake_memory_size).

Lemma check_passes addr size b : is_u32 addr -> is_u32 size -> fake_memory_check addr size b = if passes addr size then true else b.
Proof.
  intros Ha Hs. unfold fake_memory_check, passes. rewrite !(wrap_small 32 addr), !(wrap_small 32 size) by done.
  rewrite Z.ltb_antisym, (Z.leb_antisym _ (base + _)). by destruct (base <=? addr), (u32 (addr + size) <? base + fake_memory_size).
Qed.

(** A request that passes without a wrap is inside of the memory. *)
Lemma passes_inside addr size : is_u32 addr -> is_u32 size -> passes addr size = true -> addr + size < 2 ^ 32 ->
  fake_memory_index addr = addr - base /\ 0 <= addr - base /\ addr - base + size < fake_memory_size.
Proof.
  intros Ha Hs Hp Hw. unfold passes in Hp. apply andb_prop in Hp as [H1%Z.leb_le H2%Z.ltb_lt]. unfold in_width in *.
  unfold fake_memory_index, fake_memory_start_addr, fake_memory_size in *.
  rewrite (wrap_small 32 (addr + size)) in H2 by (unfold in_width; lia).
  rewrite (wrap_small 32 addr) by (unfold in_width; lia). rewrite wrap_small by (unfold in_width; lia). lia.
Qed.

(** One that passes because the sum wraps is not. *)
Lemma passes_wrapped addr size : is_u32 addr -> is_u32 size -> passes addr size = true -> 2 ^ 32 <= addr + size ->
  fake_memory_size < fake_memory_index addr + size.
Proof.
  intros Ha Hs Hp Hw. unfold passes in Hp. apply andb_prop in Hp as [H1%Z.leb_le H2%Z.ltb_lt]. unfold in_width in *.
  unfold fake_memory_index, fake_memory_start_addr, fake_memory_size in *. rewrite (wrap_small 32 addr) by (unfold in_width; lia).
  assert (u32 (addr + size) = addr + size - 2 ^ 32) as Hu.
  { unfold wrap. rewrite <- (Z_mod_plus_full _ (-1)), Z.mod_small by lia. lia. }
  rewrite Hu in H2. rewrite wrap_small by (unfold in_width; lia). lia.
Qed.

(** Requests the check declines. *)
Lemma memory_write_refused addr n data w : sample_config cfg w -> fake_memory_check addr n false = false ->
  req UDS_EVT_WriteMemByAddr (UDSWriteMemByAddrArgs addr n data) w = Ret (UDS_NRC_ConditionsNotCorrect, UDSWriteMemByAddrArgs addr n data) w.
Proof.
  intros Hcfg Hcheck.
  apply (request_declined cfg depth fuel __uds_event_handler_data_write_mem_by_addr_ _ memory_registration 11); [done|in_table|done|linked|done|].
  intros c Hc. cbn [user_check sample_callbacks]. unfold write_mem_by_address_check. by rewrite Hc, Hcheck.
Qed.

Lemma memory_read_refused addr n w : sample_config cfg w -> fake_memory_check addr n false = false ->
  req UDS_EVT_ReadMemByAddr (UDSReadMemByAddrArgs addr n copy_server) w = Ret (UDS_NRC_ConditionsNotCorrect, UDSReadMemByAddrArgs addr n copy_server) w.
Proof.
  intros Hcfg Hcheck.
  apply (request_declined cfg depth fuel __uds_event_handler_data_read_mem_by_addr_ _ memory_registration 10); [done|in_table|done|linked|done|].
  intros c Hc. cbn [user_check sample_callbacks]. unfold read_mem_by_address_check. by rewrite Hc, Hcheck.
Qed.

Lemma memory_write_run addr data w s o : sample_config cfg w -> memory_holds s -> is_u32 addr -> is_u32 (Z.of_nat (length data)) ->
  passes addr (Z.of_nat (length data)) = true -> addr + Z.of_nat (length data) < 2 ^ 32 ->
  hwp (req UDS_EVT_WriteMemByAddr (UDSWriteMemByAddrArgs addr (Z.of_nat (length data)) data)) (fun x s' o' =>
    x = (UDS_PositiveResponse, UDSWriteMemByAddrArgs addr (Z.of_nat (length data)) data) /\
    s' = set_fake_memory (overwrite (Z.to_nat (addr - base)) data (fake_memory s)) s /\ o' = o) w s o.
Proof.
  intros Hcfg Hm Ha Hn Hp Hw. destruct (passes_inside _ _ Ha Hn Hp Hw) as (Hidx & Hlo & Hhi).
  assert (fake_memory_check addr (Z.of_nat (length data)) false = true) as Hcheck by (rewrite check_passes by done; by rewrite Hp).
  apply (request_answered cfg depth fuel __uds_event_handler_data_write_mem_by_addr_ _ memory_registration 11 11);
    [done|in_table|done|linked|done|by intros; eexists _, _|].
  intros inst i Hi. s_answer. unfold write_mem_by_address_check. s_run. rewrite Hcheck. s_run. unfold write_mem_by_address_action. s_run.
  rewrite (wrap_small 32) by done. rewrite Hidx, Hm.
  rewrite (proj2 (Z.ltb_ge _ _)), Z.ltb_irrefl by lia. s_run. split; [done|]. split; [done|]. split; [|done].
  unfold overwrite. rewrite (take_ge data) by lia. do 4 f_equal. lia.
Qed.

Lemma memory_read_run addr n w s o : sample_config cfg w -> memory_holds s -> is_u32 addr -> is_u32 n ->
  passes addr n = true -> addr + n < 2 ^ 32 ->
  hwp (req UDS_EVT_ReadMemByAddr (UDSReadMemByAddrArgs addr n copy_server))
    (sends (take (Z.to_nat n) (drop (Z.to_nat (addr - base)) (fake_memory s))) (UDSReadMemByAddrArgs addr n copy_server) s o) w s o.
Proof.
  intros Hcfg Hm Ha Hn Hp Hw. destruct (passes_inside _ _ Ha Hn Hp Hw) as (Hidx & Hlo & Hhi).
  unfold memory_holds, fake_memory_size in *. pose proof Hn as Hn0. unfold in_width in Hn0.
  assert (fake_memory_check addr n false = true) as Hcheck by (rewrite check_passes by done; by rewrite Hp).
  apply (request_answered cfg depth fuel __uds_event_handler_data_read_mem_by_addr_ _ memory_registration 10 10);
    [done|in_table|done|linked|done|by intros; eexists _, _|].
  intros inst i Hi. s_answer. unfold read_mem_by_address_check. s_run. rewrite Hcheck. s_run. unfold read_mem_by_address_action. s_run.
  rewrite (wrap_small 32) by done. rewrite Hidx, (wrap_small 16) by (unfold in_width; lia).
  rewrite (proj2 (Z.ltb_ge _ _)) by lia. s_run. apply hwp_copy; [lia|rewrite length_drop; lia|..].
  - s_run. split; [done|]. by split_and!.
  - intros r Hr. s_run. split; [done|]. split_and!; try done. by rewrite decide_False.
Qed.

(** C37. The bounds of the memory, for a write of any data to any address: the
    request is refused and changes nothing, or it overwrites exactly the bytes at
    that place; or the 32-bit sum of address and length wraps, the check lets it
    pass, and the action writes far outside of the array. *)
Theorem memory_write_bounds w addr data :
  sample_config cfg w -> memory_holds (vars (ext w)) -> is_u32 addr -> is_u32 (Z.of_nat (length data)) ->
  let arg := UDSWriteMemByAddrArgs addr (Z.of_nat (length data)) data in
  if negb (passes addr (Z.of_nat (length data)))
  then req UDS_EVT_WriteMemByAddr arg w = Ret (UDS_NRC_ConditionsNotCorrect, arg) w
  else if addr + Z.of_nat (length data) <? 2 ^ 32
  then exists e', req UDS_EVT_WriteMemByAddr arg w = Ret (UDS_PositiveResponse, arg) (set_ext e' w) /\
    vars e' = set_fake_memory (overwrite (Z.to_nat (addr - base)) data (fake_memory (vars (ext w)))) (vars (ext w)) /\
    memory_holds (vars e') /\ observe e' = observe (ext w)
  else req UDS_EVT_WriteMemByAddr arg w = Fault OutOfBounds.
Proof.
  intros Hcfg Hm Ha Hn arg. pose proof (check_passes addr _ false Ha Hn) as Hcheck.
  destruct (passes addr (Z.of_nat (length data))) eqn:Hp; cbn [negb].
  2: by apply memory_write_refused.
  destruct (Z.ltb_spec (addr + Z.of_nat (length data)) (2 ^ 32)) as [Hw|Hw].
  - destruct (memory_write_run addr data w _ _ Hcfg Hm Ha Hn Hp Hw (ext w) eq_refl eq_refl) as (x & e' & Hrun & -> & Hs & Ho).
    rewrite set_ext_ext in Hrun. exists e'. split_and!; [exact Hrun|exact Hs| |exact Ho].
    destruct (passes_inside _ _ Ha Hn Hp Hw) as (_ & Hlo & Hhi).
    unfold memory_holds, overwrite in *. rewrite Hs. cbn [fake_memory set_fake_memory].
    rewrite !length_app, length_take, length_drop. lia.
  - pose proof (passes_wrapped _ _ Ha Hn Hp Hw) as Hidx.
    apply (request_faults cfg depth fuel __uds_event_handler_data_write_mem_by_addr_ _ memory_registration 11 11);
      [done|in_table|done|linked|done|..].
    + intros c Hc. cbn [user_check sample_callbacks]. unfold write_mem_by_address_check. rewrite Hc. unfold arg. by rewrite Hcheck.
    + intros inst c i Hc _ _. cbn [user_action sample_callbacks]. unfold write_mem_by_address_action. rewrite Hc. unfold arg.
      rewrite (bind_step _ _ _ (vars (ext w)) w) by (unfold on_ext, zoom, gets; by rewrite set_ext_ext).
      rewrite (wrap_small 32) by done. rewrite Hm. by rewrite (proj2 (Z.ltb_lt _ _)) by lia.
Qed.

(** What is written to the memory is read back. *)
Theorem memory_write_read w addr data :
  sample_config cfg w -> memory_holds (vars (ext w)) -> base <= addr -> addr + Z.of_nat (length data) < base + fake_memory_size ->
  exists w1 r w2,
    req UDS_EVT_WriteMemByAddr (UDSWriteMemByAddrArgs addr (Z.of_nat (length data)) data) w =
      Ret (UDS_PositiveResponse, UDSWriteMemByAddrArgs addr (Z.of_nat (length data)) data) w1 /\
    req UDS_EVT_ReadMemByAddr (UDSReadMemByAddrArgs addr (Z.of_nat (length data)) copy_server) w1 =
      Ret (r, UDSReadMemByAddrArgs addr (Z.of_nat (length data)) copy_server) w2 /\
    response (observe (ext w2)) = response (observe (ext w)) ++ (if decide (r = UDS_OK) then data else []).
Proof.
  intros Hcfg Hm Hlo Hhi. set (n := Z.of_nat (length data)) in *. unfold fake_memory_start_addr, fake_memory_size in Hlo, Hhi.
  assert (is_u32 addr /\ is_u32 n) as [Ha Hn] by (unfold in_width; lia).
  assert (passes addr n = true) as Hp.
  { unfold passes, fake_memory_start_addr, fake_memory_size. rewrite (wrap_small 32) by (unfold in_width in *; lia).
    rewrite (proj2 (Z.leb_le _ _)), (proj2 (Z.ltb_lt _ _)) by lia. done. }
  assert (addr + n < 2 ^ 32) as Hw by lia.
  destruct (memory_write_run addr data w _ _ Hcfg Hm Ha Hn Hp Hw (ext w) eq_refl eq_refl) as (x & e1 & Hrun & -> & Hs & Ho).
  rewrite set_ext_ext in Hrun.
  assert (memory_holds (vars e1)) as Hm1.
  { unfold memory_holds, overwrite, fake_memory_start_addr, fake_memory_size in *. rewrite Hs. cbn [fake_memory set_fake_memory].
    rewrite !length_app, length_take, length_drop. lia. }
  destruct (memory_read_run addr n (set_ext e1 w) (vars e1) (observe e1) (sample_config_set_ext _ _ _ Hcfg) Hm1 Ha Hn Hp Hw e1 eq_refl eq_refl)
    as ([r arg] & e2 & Hrun2 & Harg & _ & Ho2). cbn in Harg, Ho2. subst arg.
  exists (set_ext e1 w), r, (set_ext e2 w). split_and!; [exact Hrun|exact Hrun2|]. cbn [ext set_ext].
  rewrite Ho2, Ho, Hs. cbn [fake_memory set_fake_memory]. unfold memory_holds, fake_memory_size, fake_memory_start_addr in *.
  case_decide; [|by rewrite app_nil_r]. cbn. f_equal. unfold overwrite, n.
  rewrite drop_app_ge by (rewrite length_take; lia). rewrite length_take, Nat.min_l, Nat.sub_diag, drop_0 by lia.
  rewrite Nat2Z.id, take_app_length. done.
Qed.

(** The last byte of the memory cannot be read: a request for bytes up to and
    including it is refused. *)
Theorem memory_last_byte_refused w addr n :
  sample_config cfg w -> base <= addr -> 0 < n -> addr + n = base + fake_memory_size ->
  req UDS_EVT_ReadMemByAddr (UDSReadMemByAddrArgs addr n copy_server) w =
    Ret (UDS_NRC_ConditionsNotCorrect, UDSReadMemByAddrArgs addr n copy_server) w.
Proof.
  intros Hcfg Hlo Hn Hsum. apply memory_read_refused; [done|]. unfold fake_memory_start_addr, fake_memory_size in *.
  rewrite check_passes by (unfold in_width; lia). unfold passes, fake_memory_start_addr, fake_memory_size.
  rewrite Hsum, (wrap_small 32) by (unfold in_width; lia). rewrite (proj2 (Z.ltb_ge _ _)) by lia. by rewrite andb_false_r.
Qed.
End memory.
