(* ===== verification/UdsSampleRoutine.v ===== *)
(** * The routines of the UDS sample ([samples/uds/src/routine_control.c])

    The synchronous routine, and the asynchronous one as a protocol between the
    client and the work queue: in every interleaving of requests with the pieces
    of the work handler, what is answered, and that the routine ends. *)

From stdpp Require Import base gmap list numbers relations.
From Stdlib Require Import ZArith Lia.
From S2P Require Import Prelude.
From S2P Require Import UdsTypes.
From S2P Require Import Uds.
From S2P Require Import UdsMacros.
From S2P Require Import UdsServices.
From S2P Require Import UdsMemory.
From S2P Require Import UdsLinkControl.
From S2P Require Import UdsFileTransfer.
From S2P Require Import UdsUploadDownload.
From S2P Require Import UdsSystem.
From S2P Require Import UdsDispatch.
From S2P Require Import UdsSample.
From S2P Require Import UdsSampleLaws.

#[local] Open Scope Z_scope.

(** ** Specification *)

(** The asynchronous routine: at rest, waiting for the queue, taken by it, in
    its loop after [i] steps, or finished but not yet given back by the queue.
    [last] and [progress] are what a request for results shows. *)
Inductive async_phase :=
| Resting (last : async_work_status) (progress : Z)
| Waiting (last : async_work_status) (progress : Z)
| Starting (last : async_work_status) (progress : Z)
| Running (i : Z) (stop : bool)
| Ending (last : async_work_status) (progress : Z).

(** A turn of the work queue. *)
Definition turn (p : async_phase) : async_phase :=
  match p with
  | Resting last n => Resting last n
  | Waiting last n => Starting last n
  | Starting _ _ => Running 0 false
  | Running i stop =>
      if i <? 3000 then if stop then Ending ASYNC_WORK_STATUS_STOPPED i else Running (i + 1) false
      else Ending ASYNC_WORK_STATUS_SUCCESS i
  | Ending last n => Resting last n
  end.

(** The status and the progress a client sees. *)
Definition visible (p : async_phase) : async_work_status * Z :=
  match p with
  | Resting last n | Waiting last n | Starting last n | Ending last n => (last, n)
  | Running i _ => (ASYNC_WORK_STATUS_RUNNING, i)
  end.

Inductive async_op := async_request (ctrlType : Z) (optionRecord : list Z) | queue_turn.

Definition sent_if_positive (bs : list Z) (r : UDSErr_t) (sent : list Z) : Prop :=
  r = UDS_OK /\ sent = bs \/ r <> UDS_OK /\ sent = [].

Inductive async_spec : async_phase -> async_op -> option UDSErr_t -> list Z -> async_phase -> Prop :=
| start_accepted last n x : async_spec (Resting last n) (async_request 0x01 x) (Some UDS_PositiveResponse) [] (Waiting last n)
| start_refused p x : (forall last n, p <> Resting last n) ->
    async_spec p (async_request 0x01 x) (Some UDS_NRC_RequestSequenceError) [] p
| stop_acknowledged i stop x r sent : sent_if_positive [async_work_status_value ASYNC_WORK_STATUS_STOPPED] r sent ->
    async_spec (Running i stop) (async_request 0x02 x) (Some r) sent (Running i true)
| stop_refused p x : (forall i stop, p <> Running i stop) ->
    async_spec p (async_request 0x02 x) (Some UDS_NRC_RequestSequenceError) [] p
| results_sent p x r sent : sent_if_positive (async_work_status_value (visible p).1 :: be32 (visible p).2) r sent ->
    async_spec p (async_request 0x03 x) (Some r) sent p
| other_control p c x : c <> 0x01 -> c <> 0x02 -> c <> 0x03 ->
    async_spec p (async_request c x) (Some UDS_NRC_SubFunctionNotSupported) [] p
| queue_turned p : async_spec p queue_turn None [] (turn p).

(** How the variables show the phase. *)
Definition at_rest (last : async_work_status) (n : Z) (d : uds_async_work_data) : Prop :=
  async_status d = last /\ last <> ASYNC_WORK_STATUS_RUNNING /\ current_progress d = n.

Definition async_holds (p : async_phase) (s : uds_sample) (o : outside) : Prop :=
  locked s = [] /\
  match p with
  | Resting last n => at_rest last n (async_work_data s) /\ (async_routine_work ∉ scheduled s) /\ async_worker s = AsyncNotRunning
  | Waiting last n => at_rest last n (async_work_data s) /\ (async_routine_work ∈ scheduled s) /\ async_worker s = AsyncNotRunning
  | Starting last n => at_rest last n (async_work_data s) /\ (async_routine_work ∉ scheduled s) /\ async_worker s = AsyncStart
  | Running i stop => async_work_data s = AsyncWorkData i ASYNC_WORK_STATUS_RUNNING stop /\ 0 <= i <= 3000 /\
      (async_routine_work ∉ scheduled s) /\ async_worker s = AsyncLoop i
  | Ending last n => at_rest last n (async_work_data s) /\ (async_routine_work ∉ scheduled s) /\ async_worker s = AsyncReturned
  end.

Section routines.
Context {E : Type} `{!Iso14229Constants} `{!Server E} `{!Platform E} `{!Memory E} `{!CanController E}
  `{!LinkControlVars E} `{!FileSystem E} `{!FileTransferVars E} `{!FlashDriver E} `{!UpDownVars E}
  `{!SampleVars E} `{!SecurityServer E} `{!Random E} `{!PsaCrypto E} `{!LedPin E} `{!SampleLaws E} `{!SleepLaws E}.
Context (cfg : uds_config) (depth fuel : nat).
Implicit Types (s : uds_sample) (o : outside) (w : world E) (p : async_phase).

Lemma swp_msleep n (Q : unit -> uds_sample -> outside -> Prop) s o : Q tt s o -> swp (k_msleep n) Q s o.
Proof. intros HQ e <- <-. destruct (msleep_law n e) as (e' & Hrun & Hs & Ho). unfold wp. by rewrite Hrun, Hs, Ho. Qed.

(** *** The synchronous routine *)

Lemma complement_bytes a b c d x : Forall is_u8 [a; b; c; d] -> of_be32 [a; b; c; d] = Some x ->
  be32 (u32 (Z.lnot x)) = [255 - a; 255 - b; 255 - c; 255 - d].
Proof.
  intros Hb [= <-]. rewrite !Forall_cons in Hb. destruct Hb as (Ha & Hb & Hc & Hd & _). unfold in_width in *.
  set (x := a * 2 ^ 24 + b * 2 ^ 16 + c * 2 ^ 8 + d).
  assert (u32 (Z.lnot x) = 2 ^ 32 - 1 - x) as ->.
  { unfold wrap, Z.lnot. rewrite <- (Z_mod_plus_full _ 1), Z.mod_small; unfold x; lia. }
  unfold be32. rewrite (wrap_small 32) by (unfold in_width, x; lia). unfold wrap. rewrite !Z.shiftr_div_pow2 by lia. unfold x.
  repeat (apply (f_equal2 cons); [Z.div_mod_to_equations; lia|]). done.
Qed.

(** The synchronous routine sends back the complement of its four bytes,
    whatever the control type; an option record of another length is refused.
    Nothing else changes. *)
Theorem sync_routine_complements w ctrl record :
  sample_config cfg w -> Forall is_u8 record ->
  exists r e', request cfg depth fuel UDS_EVT_RoutineCtrl (UDSRoutineCtrlArgs ctrl SYNCHRONOUS_ROUTINE_ID record) w =
      Ret (r, UDSRoutineCtrlArgs ctrl SYNCHRONOUS_ROUTINE_ID record) (set_ext e' w) /\ vars e' = vars (ext w) /\
    if decide (length record = 4%nat)
    then observe e' = if decide (r = UDS_OK) then answered ((fun b => 255 - b) <$> record) (observe (ext w)) else observe (ext w)
    else r = UDS_NRC_IncorrectMessageLengthOrInvalidFormat /\ observe e' = observe (ext w).
Proof.
  intros Hcfg Hbytes. set (arg := UDSRoutineCtrlArgs _ _ _).
  assert (hwp (request cfg depth fuel (event __uds_event_handler_data_routine_ctrl_) arg)
    (fun '(r, a) s o => a = arg /\ s = vars (ext w) /\ if decide (length record = 4%nat)
       then o = if decide (r = UDS_OK) then answered ((fun b => 255 - b) <$> record) (observe (ext w)) else observe (ext w)
       else r = UDS_NRC_IncorrectMessageLengthOrInvalidFormat /\ o = observe (ext w)) w (vars (ext w)) (observe (ext w))) as Hr.
  2: { destruct (Hr (ext w) eq_refl eq_refl) as ([r a] & e' & Hrun & -> & Hs & Ho). rewrite set_ext_ext in Hrun. by exists r, e'. }
  apply (request_answered cfg depth fuel __uds_event_handler_data_routine_ctrl_ _ sync_routine_registration 12 12);
    [done|in_table|done|linked|done|..].
  { intros inst e i _ _ _. unfold looks. cbn [user_check sample_callbacks]. unfold sync_routine_control_check. cbn [ctx_arg]. unfold arg.
    destruct (negb _); by eexists _, _. }
  intros inst i Hi. s_answer. unfold sync_routine_control_check, sync_routine_control_action, arg. s_run.
  destruct (decide (length record = 4%nat)) as [Hlen|Hlen].
  - rewrite Hlen. s_run. destruct record as [|a [|b [|c [|d [|]]]]]; try discriminate Hlen.
    s_run. unfold sync_action. s_run. apply swp_msleep. s_run.
    rewrite (complement_bytes a b c d _ Hbytes eq_refl). apply swp_copy; [cbn; lia|..].
    + s_run. rewrite decide_True by done. by split_and!.
    + intros r Hr. s_run. split; [by unfold decisive; rewrite orb_true_l|]. rewrite decide_False by done. by split_and!.
  - assert ((Z.of_nat (length record) =? 4) = false) as -> by (apply Z.eqb_neq; lia). s_run. by split_and!.
Qed.

(** *** The asynchronous routine *)

Definition async_step (op : async_op) : M (world E) (option UDSErr_t) :=
  match op with
  | async_request c x =>
      let* (r, _) := request cfg depth fuel UDS_EVT_RoutineCtrl (UDSRoutineCtrlArgs c ASYNCHRONOUS_ROUTINE_ID x) in ret (Some r)
  | queue_turn => on_ext async_queue_turn ;; ret None
  end.

#[local] Abbreviation outcome p op o :=
  (fun r s' o' => exists sent p', async_spec p op r sent p' /\ async_holds p' s' o' /\ response o' = response o ++ sent) (only parsing).

Lemma quiet_step p op r s o : async_spec p op r [] p -> async_holds p s o -> outcome p op o r s o.
Proof. intros Hspec Hp. exists [], p. by rewrite app_nil_r. Qed.

(** The mutex is locked and unlocked again around what reads only. *)
Lemma relocked s : locked s = [] -> set_locked (filter (fun x => x <> async_work_mutex) (locked (set_locked [async_work_mutex] s)))
  (set_locked [async_work_mutex] s) = s.
Proof. intros Hl. destruct s. cbn in *. by subst. Qed.

(** A routine request runs the switch. *)
Lemma async_request_run c x (Q : option UDSErr_t -> uds_sample -> outside -> Prop) w s o : sample_config cfg w ->
  hwp (if c =? UDS_ROUTINE_CONTROL__START_ROUTINE then on_ext async_start_routine
       else if c =? UDS_ROUTINE_CONTROL__STOP_ROUTINE then on_ext async_stop_routine
       else if c =? UDS_ROUTINE_CONTROL__REQUEST_ROUTINE_RESULTS then on_ext async_routine_results
       else ret UDS_NRC_SubFunctionNotSupported) (fun r => Q (Some r)) w s o ->
  hwp (async_step (async_request c x)) Q w s o.
Proof.
  intros Hcfg Hrun. apply hwp_bind.
  apply (request_answered cfg depth fuel __uds_event_handler_data_routine_ctrl_ _ async_routine_registration 13 13);
    [done|in_table|done|linked|done|by intros; eexists _, _|].
  intros inst i Hi. s_answer. unfold async_routine_control_check. s_run. unfold async_routine_control_action. s_run.
  eapply hwp_static; [exact Hi|]. cbn beta. change (negb (user_context (async_routine_registration inst) =? ptr_async_routine_data)) with false.
  s_run. eapply hwp_mono; [exact Hrun|]. cbn beta. intros r s' o' HQ. s_run. split; [by unfold decisive; rewrite orb_true_l|by s_run].
Qed.

Lemma swp_pending (Q : bool -> uds_sample -> outside -> Prop) s o :
  Q (bool_decide (async_routine_work ∈ scheduled s) || bool_decide (async_worker s <> AsyncNotRunning)) s o ->
  swp (k_work_delayable_is_pending async_routine_work) Q s o.
Proof. intros HQ. unfold k_work_delayable_is_pending. s_run. done. Qed.

Lemma start_routine_run p x w s o : async_holds p s o -> hwp (on_ext async_start_routine) (fun r => outcome p (async_request 0x01 x) o (Some r)) w s o.
Proof.
  intros Hp. pose proof Hp as [Hl Hcase]. s_step. unfold async_start_routine. s_run. apply swp_pending.
  assert ((forall last n, p <> Resting last n) ->
    bool_decide (async_routine_work ∈ scheduled s) || bool_decide (async_worker s <> AsyncNotRunning) = true) as Hpend.
  { destruct p as [last n|last n|last n|i stop|last n]; intros Hne; [by destruct (Hne last n)|..].
    - destruct Hcase as (_ & Hsch & _). by rewrite bool_decide_true.
    - destruct Hcase as (_ & _ & Hw). by rewrite Hw, orb_true_r.
    - destruct Hcase as (_ & _ & _ & Hw). by rewrite Hw, (bool_decide_true (AsyncLoop i <> AsyncNotRunning)), orb_true_r.
    - destruct Hcase as (_ & _ & Hw). by rewrite Hw, orb_true_r. }
  destruct p as [last n|last n|last n|i stop|last n];
    [|rewrite Hpend by done; s_run; apply quiet_step; [by apply start_refused|done]..].
  destruct Hcase as (Hd & Hsch & Hw). rewrite bool_decide_false by done. rewrite Hw. s_run; [rewrite Hl; set_solver|].
  cbn [set_locked async_work_data]. destruct Hd as (Hst & Hnr & Hn). rewrite decide_False by congruence. rewrite Hl. s_run.
  rewrite relocked by done. unfold k_work_schedule. s_run.
  exists [], (Waiting last n). rewrite app_nil_r. split; [apply start_accepted|]. split; [|done].
  split; [done|]. split; [done|]. split; [|done]. cbn. set_solver.
Qed.

(** A reply with these bytes. *)
Lemma swp_reply bs n (Q : UDSErr_t -> uds_sample -> outside -> Prop) s o : n = Z.of_nat (length bs) ->
  (forall r sent o', sent_if_positive bs r sent -> response o' = response o ++ sent -> Q r s o') -> swp (server_copy (Some bs) n) Q s o.
Proof.
  intros -> HQ. apply swp_copy; [lia|..].
  - apply (HQ UDS_OK bs); [by left|]. by rewrite Nat2Z.id, take_ge.
  - intros r Hr. apply (HQ r []); [by right|by rewrite app_nil_r].
Qed.

Lemma stop_routine_run p x w s o : async_holds p s o -> hwp (on_ext async_stop_routine) (fun r => outcome p (async_request 0x02 x) o (Some r)) w s o.
Proof.
  intros Hp. pose proof Hp as [Hl Hcase]. s_step. unfold async_stop_routine. s_run; [rewrite Hl; set_solver|].
  cbn [set_locked async_work_data].
  assert ((forall i stop, p <> Running i stop) -> async_status (async_work_data s) <> ASYNC_WORK_STATUS_RUNNING) as Hnot.
  { intros Hne. destruct p as [last n|last n|last n|i stop|last n]; [..|by destruct (Hne i stop)|];
      destruct Hcase as ((Hst & ? & _) & _); congruence. }
  destruct p as [last n|last n|last n|i stop|last n]; [..| |];
    try (rewrite decide_True by (by apply Hnot); rewrite Hl; s_run; rewrite relocked by done; apply quiet_step; [by apply stop_refused|done]).
  destruct Hcase as (Hd & Hi & Hsch & Hw). rewrite decide_False by (rewrite Hd; intros Hne; by apply Hne). rewrite Hl. s_run.
  unfold k_work_cancel_delayable, unschedule. s_run. apply swp_reply; [done|]. intros r sent o' Hsent Hresp.
  exists sent, (Running i true). split; [by apply stop_acknowledged|]. split; [|done].
  unfold async_holds, set_force_stop. cbn. rewrite Hd. split_and!; try done; [lia|lia|]. rewrite list_elem_of_filter. by intros [_ ?].
Qed.

Lemma routine_results_run p x w s o : async_holds p s o -> hwp (on_ext async_routine_results) (fun r => outcome p (async_request 0x03 x) o (Some r)) w s o.
Proof.
  intros Hp. pose proof Hp as [Hl Hcase]. s_step. unfold async_routine_results. s_run; [rewrite Hl; set_solver|].
  rewrite Hl, relocked by done. cbn [set_locked async_work_data].
  assert ((async_status (async_work_data s), current_progress (async_work_data s)) = visible p) as Hvis.
  { destruct p as [last n|last n|last n|i stop|last n]; cbn; [..|by destruct Hcase as [-> _]|]; by destruct Hcase as ((-> & _ & ->) & _). }
  apply swp_reply; [done|]. intros r sent o' Hsent Hresp. exists sent, p. split; [|done].
  apply results_sent. by rewrite <- Hvis.
Qed.

(** A turn of the queue. *)
Lemma turn_run p w s o : async_holds p s o -> hwp (async_step queue_turn) (outcome p queue_turn o) w s o.
Proof.
  intros Hp. pose proof Hp as [Hl Hcase]. cbn [async_step]. s_run. unfold async_queue_turn. s_run.
  assert (forall s' o', async_holds (turn p) s' o' -> response o' = response o -> outcome p queue_turn o None s' o') as Hdone.
  { intros s' o' Hp' Hresp. exists [], (turn p). rewrite app_nil_r. split; [apply queue_turned|done]. }
  destruct p as [last n|last n|last n|i stop|last n].
  - destruct Hcase as (Hd & Hsch & Hw). rewrite decide_True by done. rewrite decide_False by done. s_run. by apply Hdone.
  - destruct Hcase as (Hd & Hsch & Hw). rewrite decide_True by done. rewrite decide_True by done. unfold unschedule. s_run.
    apply Hdone; [|done]. split; [done|]. split; [done|]. split; [|done]. cbn. rewrite list_elem_of_filter. by intros [? _].
  - destruct Hcase as ((Hst & Hnr & Hn) & Hsch & Hw). rewrite Hw. s_run. unfold async_action, async_action_start. s_run; [rewrite Hl; set_solver|].
    cbn [set_locked async_work_data]. rewrite decide_False by congruence. rewrite Hl. s_run. apply Hdone; [|done].
    split; [done|]. by split_and!; try done; lia.
  - destruct Hcase as (Hd & Hi & Hsch & Hw). rewrite Hw. s_run. unfold async_action. cbn [turn] in Hdone.
    destruct (Z.ltb_spec i 3000) as [Hlt|Hge].
    + unfold async_action_iteration. s_run. apply swp_msleep. s_run; [rewrite Hl; set_solver|].
      cbn [set_locked async_work_data]. rewrite Hd, Hl. cbn [force_stop]. destruct stop; s_run; (apply Hdone; [|done]).
      * unfold set_status. cbn. rewrite Hd. by split_and!.
      * unfold set_current_progress. cbn. rewrite Hd. cbn. rewrite wrap_small by (unfold in_width; lia). split_and!; try done; lia.
    + unfold async_action_finish. s_run; [rewrite Hl; set_solver|]. rewrite Hl. apply Hdone; [|done].
      unfold set_status. cbn. rewrite Hd. by split_and!.
  - destruct Hcase as (Hd & Hsch & Hw). rewrite Hw. s_run. unfold async_action. s_run. apply Hdone; [|done]. by split_and!.
Qed.

Lemma async_step_follows op p w s o : sample_config cfg w -> async_holds p s o -> hwp (async_step op) (outcome p op o) w s o.
Proof.
  intros Hcfg Hp. destruct op as [c x|]; [|by apply turn_run]. apply async_request_run; [done|]. cbn [uds_routine_control_subfunc_value].
  destruct (Z.eqb_spec c 1) as [->|H1]; [by apply start_routine_run|]. destruct (Z.eqb_spec c 2) as [->|H2]; [by apply stop_routine_run|].
  destruct (Z.eqb_spec c 3) as [->|H3]; [by apply routine_results_run|]. s_run. apply quiet_step; [by apply other_control|done].
Qed.

(** C14. The asynchronous routine follows its protocol in every interleaving of
    the client's requests with the work queue.  A start is accepted exactly
    when the routine rests; a stop exactly while it runs; results show the
    status and the number of steps done; no request ever waits for the mutex. *)
Theorem async_routine_refines ops p w :
  in_phase cfg async_holds p w -> exists rs sent p' w',
    run_ops async_step ops w = Ret rs w' /\ spec_ops async_spec p ops rs sent p' /\ in_phase cfg async_holds p' w' /\
    response (observe (ext w')) = response (observe (ext w)) ++ sent.
Proof.
  intros Hp. apply (sample_refines cfg _ _ _ (fun _ => True)); [|by apply Forall_true|done].
  intros op p0 w0 s o _ Hcfg0 Hp0. by apply async_step_follows.
Qed.

(** *** The routine ends *)

(** The turns of the queue that are left. *)
Definition remaining (p : async_phase) : Z :=
  match p with
  | Resting _ _ => 0 | Waiting _ _ => 3004 | Starting _ _ => 3003 | Running i _ => 3002 - i | Ending _ _ => 1
  end.

Definition turns (ops : list async_op) : Z :=
  Z.of_nat (length (List.filter (fun op => match op with queue_turn => true | _ => false end) ops)).

(** No request that starts the routine; none that stops it. *)
Definition no_start (op : async_op) : Prop := match op with async_request c _ => c <> 0x01 | _ => True end.
Definition no_stop (op : async_op) : Prop := match op with async_request c _ => c <> 0x02 | _ => True end.

(** The routine is at work and nobody has stopped it. *)
Definition on_its_way (p : async_phase) : Prop :=
  match p with
  | Waiting _ _ | Starting _ _ | Running _ false => True
  | Resting last n | Ending last n => last = ASYNC_WORK_STATUS_SUCCESS /\ n = 3000
  | Running _ true => False
  end.

Definition step_bound (p : async_phase) : Prop := match p with Running i _ => 0 <= i <= 3000 | _ => True end.

Lemma spec_ends ops p rs sent p' : spec_ops async_spec p ops rs sent p' -> step_bound p -> Forall no_start ops ->
  step_bound p' /\ 0 <= remaining p' <= Z.max 0 (remaining p - turns ops) /\ (on_its_way p -> Forall no_stop ops -> on_its_way p').
Proof.
  induction 1 as [p|p op ops r sent p1 rs sent' p2 Hstep _ IH]; intros Hb Hops.
  { split; [done|]. unfold turns. cbn. split; [destruct p as [| | |i [|]|]; cbn in *; lia|done]. }
  apply Forall_cons_1 in Hops as [Hop Hops].
  assert (step_bound p1 /\ remaining p1 <= Z.max 0 (remaining p - turns [op]) /\ (on_its_way p -> no_stop op -> on_its_way p1)) as (Hb1 & Hr1 & Hw1).
  { assert (turns [queue_turn] = 1) as Ht by done.
    destruct Hstep; try done; cbn [no_start no_stop] in *; unfold turns in *; cbn in *; try (by destruct Hop); try (by split; [done|split; [lia|naive_solver]]).
    destruct p as [| | |i [|]|]; cbn in *; try (split_and!; (done || lia)).
    - destruct (Z.ltb_spec i 3000); cbn; (split_and!; (done || lia)).
    - destruct (Z.ltb_spec i 3000); cbn; (split_and!; try (done || lia)). intros _ _. split; [done|lia]. }
  destruct (IH Hb1 Hops) as (Hb2 & Hr2 & Hw2). split; [done|]. split.
  - assert (turns (op :: ops) = turns [op] + turns ops) as -> by (unfold turns; destruct op; cbn; lia).
    assert (0 <= turns ops) by (unfold turns; lia). lia.
  - intros Hway [Hns Hnss]%Forall_cons_1. auto.
Qed.

(** C16. The asynchronous routine ends.  From every phase, whatever requests
    other than a start come in between, it rests after as many turns of the
    queue as are left, 3004 at most; and unless it is stopped, it rests with
    success after 3000 steps. *)
Theorem async_routine_ends ops p w :
  in_phase cfg async_holds p w -> Forall no_start ops -> remaining p <= turns ops ->
  exists rs w' last n, run_ops async_step ops w = Ret rs w' /\ in_phase cfg async_holds (Resting last n) w' /\ remaining p <= 3004 /\
    (on_its_way p -> Forall no_stop ops -> last = ASYNC_WORK_STATUS_SUCCESS /\ n = 3000).
Proof.
  intros Hp Hops Hturns.
  assert (step_bound p) as Hb by (destruct Hp as [_ [_ Hcase]]; destruct p; cbn; try done; by destruct Hcase as (_ & ? & _)).
  assert (exists rs sent p' w', run_ops async_step ops w = Ret rs w' /\ spec_ops async_spec p ops rs sent p' /\ in_phase cfg async_holds p' w' /\
    response (observe (ext w')) = response (observe (ext w)) ++ sent) as (rs & sent & p' & w' & Hrun & Hspec & Hp' & _).
  { apply (sample_refines cfg _ _ _ (fun _ => True)); [|by apply Forall_true|done]. intros op p0 w0 s o _ Hcfg0 Hp0. by apply async_step_follows. }
  destruct (spec_ends _ _ _ _ _ Hspec Hb Hops) as (Hb' & Hr' & Hway).
  assert (exists last n, p' = Resting last n) as (last & n & ->).
  { destruct p' as [last n| | |i st|]; [by eexists _, _|..]; cbn in Hr', Hb'; lia. }
  exists rs, w', last, n. split_and!; [done|done|destruct p; cbn in *; lia|]. intros H1 H2. by apply Hway.
Qed.

(** A stop that comes after the last step is acknowledged and has no effect:
    the client is told the routine stopped, and it ends with success. *)
Theorem late_stop_has_no_effect w x y :
  in_phase cfg async_holds (Running 3000 false) w ->
  exists r r' w', run_ops async_step [async_request 0x02 x; queue_turn; queue_turn; async_request 0x03 y] w = Ret [Some r; None; None; Some r'] w' /\
    (r = UDS_OK -> r' = UDS_OK -> response (observe (ext w')) = response (observe (ext w)) ++ [2; 1; 0; 0; 0x0B; 0xB8]).
Proof.
  intros Hp.
  assert (exists rs sent p' w', run_ops async_step [async_request 0x02 x; queue_turn; queue_turn; async_request 0x03 y] w = Ret rs w' /\
    spec_ops async_spec (Running 3000 false) [async_request 0x02 x; queue_turn; queue_turn; async_request 0x03 y] rs sent p' /\
    in_phase cfg async_holds p' w' /\ response (observe (ext w')) = response (observe (ext w)) ++ sent) as (rs & sent & p' & w' & Hrun & Hspec & _ & Hresp).
  { apply (sample_refines cfg _ _ _ (fun _ => True)); [|by apply Forall_true|done]. intros op p0 w0 s o _ Hcfg0 Hp0. by apply async_step_follows. }
  repeat match goal with
  | H : spec_ops _ _ (_ :: _) _ _ _ |- _ => inversion H; clear H; subst
  | H : spec_ops _ _ [] _ _ _ |- _ => inversion H; clear H; subst
  | H : async_spec _ queue_turn _ _ _ |- _ => inversion H; clear H; subst
  end.
  match goal with H : async_spec (Running 3000 false) _ _ _ _ |- _ => inversion H; clear H; subst end; try done; try (by naive_solver).
  cbn in *. match goal with H : async_spec (Resting _ _) _ _ _ _ |- _ => inversion H; clear H; subst end; [|done].
  eexists _, _, w'. split; [exact Hrun|]. intros -> ->. rewrite Hresp.
  repeat match goal with H : sent_if_positive _ _ _ |- _ => destruct H as [[_ ->]|[? _]]; [|done] end. done.
Qed.
End routines.
