(* ===== verification/UdsSampleDtc.v ===== *)
(** * Trouble codes and sessions of the UDS sample
    ([samples/uds/src/dtc_information.c], [diag_session_ctrl.c])

    The trouble codes as a protocol between the client's requests and the two
    work items that count the status bytes and bring cleared codes back, and the
    session handlers next to those of the default instance. *)

From stdpp Require Import base gmap list numbers relations.
From Stdlib Require Import ZArith Lia.
From S2P Require Import Prelude.
From S2P Require Import UdsTypes.
From S2P Require Import Uds.
From S2P Require Import UdsMacros.
From S2P Require Import UdsServices.
From S2P Require Import UdsMemory.
From S2P Require Import UdsLinkControl.
From S2P Require Import UdsFileTransfer.
From S2P Require Import UdsUploadDownload.
From S2P Require Import UdsSystem.
From S2P Require Import UdsDispatch.
From S2P Require Import UdsSample.
From S2P Require Import UdsSampleLaws.

#[local] Open Scope Z_scope.

(** ** Specification *)

(** The status bytes of the codes; whether the codes were cleared and are to
    come back; whether the status bytes are frozen, and counted at all. *)
Record dtc_phase := DtcPhase {
  statuses : list Z;
  cleared : bool;
  frozen : bool;
  reactivation : bool;
  counting : bool;
}.

Definition codes : list (list Z) := dtc <$> dtc_records_init.

(** The codes and status bytes that a mask selects. *)
Definition selection (mask : Z) (records : list (list Z * Z)) : list Z :=
  concat ((fun '(c, x) => if Z.land x mask =? 0 then [] else c ++ [x]) <$> records).

Definition report (mask : Z) (p : dtc_phase) : list Z :=
  dtc_status_availability_mask :: (if cleared p then [] else selection mask (zip codes (statuses p))).

Inductive dtc_op :=
| read_dtcs (mask : Z)
| clear_dtcs (group : Z)
| control_dtcs (setting : Z) (data : list Z)
| start_counting
| run_work (k : sample_work).

Inductive dtc_spec : dtc_phase -> dtc_op -> option UDSErr_t -> list Z -> dtc_phase -> Prop :=
| reported p mask : dtc_spec p (read_dtcs mask) (Some UDS_PositiveResponse) (report mask p) p
| report_does_not_fit p mask r sent : r <> UDS_OK -> sent `prefix_of` report mask p -> dtc_spec p (read_dtcs mask) (Some r) sent p
| now_cleared p g : dtc_spec p (clear_dtcs g) (Some UDS_PositiveResponse) [] (DtcPhase (statuses p) true (frozen p) true (counting p))
| resumed p data : dtc_spec p (control_dtcs 0x01 data) (Some UDS_PositiveResponse) []
    (DtcPhase (statuses p) (cleared p) false (reactivation p) (counting p))
| now_frozen p data : dtc_spec p (control_dtcs 0x02 data) (Some UDS_PositiveResponse) []
    (DtcPhase (statuses p) (cleared p) true (reactivation p) (counting p))
| other_setting p x data : x <> 0x01 -> x <> 0x02 ->
    dtc_spec p (control_dtcs x data) (Some UDS_NRC_SubFunctionNotSupported) [] p
| counting_started p : dtc_spec p start_counting None [] (DtcPhase (statuses p) (cleared p) (frozen p) (reactivation p) true)
| reactivated p : reactivation p = true ->
    dtc_spec p (run_work dtc_reactivate_work) None [] (DtcPhase (statuses p) false (frozen p) false (counting p))
| counted p : counting p = true ->
    dtc_spec p (run_work dtc_status_increment_work) None []
      (DtcPhase (if frozen p then statuses p else (fun x => u8 (x + 1)) <$> statuses p) (cleared p) (frozen p) (reactivation p) true)
| nothing_to_do p k : match k with dtc_reactivate_work => reactivation p = false | dtc_status_increment_work => counting p = false
                      | async_routine_work => True end -> dtc_spec p (run_work k) None [] p.

Definition dtc_holds (p : dtc_phase) (s : uds_sample) (o : outside) : Prop :=
  dtc_records s = zip_with (fun c x => Dtc c x (negb (cleared p)) (frozen p)) codes (statuses p) /\
  length (statuses p) = 2%nat /\ Forall is_u8 (statuses p) /\ locked s = [] /\
  bool_decide (dtc_reactivate_work ∈ scheduled s) = reactivation p /\
  bool_decide (dtc_status_increment_work ∈ scheduled s) = counting p.

Section dtc.
Context {E : Type} `{!Iso14229Constants} `{!Server E} `{!Platform E} `{!Memory E} `{!CanController E}
  `{!LinkControlVars E} `{!FileSystem E} `{!FileTransferVars E} `{!FlashDriver E} `{!UpDownVars E}
  `{!SampleVars E} `{!SecurityServer E} `{!Random E} `{!PsaCrypto E} `{!LedPin E} `{!SampleLaws E}.
Context (cfg : uds_config) (depth fuel : nat).
Implicit Types (s : uds_sample) (o : outside) (w : world E) (p : dtc_phase).

Definition dtc_step (op : dtc_op) : M (world E) (option UDSErr_t) :=
  match op with
  | read_dtcs mask =>
      let* (r, _) := request cfg depth fuel UDS_EVT_ReadDTCInformation
        (UDSRDTCIArgs UDS_READ_DTC_INFO_SUBFUNC__DTC_BY_STATUS_MASK mask) in ret (Some r)
  | clear_dtcs g => let* (r, _) := request cfg depth fuel UDS_EVT_ClearDiagnosticInfo (UDSCDIArgs g) in ret (Some r)
  | control_dtcs x data => let* (r, _) := request cfg depth fuel UDS_EVT_ControlDTCSetting (UDSControlDTCSettingArgs x data) in ret (Some r)
  | start_counting => on_ext dtc_status_init ;; ret None
  | run_work k => on_ext (run_dtc_work k) ;; ret None
  end.

#[local] Abbreviation outcome p op o :=
  (fun r s' o' => exists sent p', dtc_spec p op r sent p' /\ dtc_holds p' s' o' /\ response o' = response o ++ sent) (only parsing).

Lemma answered_nil o : answered [] o = o.
Proof. destruct o. unfold answered. cbn. by rewrite app_nil_r. Qed.
Lemma answered_app bs1 bs2 o : answered bs2 (answered bs1 o) = answered (bs1 ++ bs2) o.
Proof. destruct o. unfold answered. cbn. by rewrite (assoc_L app). Qed.

(** The loop over the records. *)
Lemma read_dtc_loop_run active frz mask (Q : UDSErr_t -> uds_sample -> outside -> Prop) s : forall records o,
  Q UDS_OK s (answered (if active : bool then selection mask records else []) o) ->
  (forall r sent, r <> UDS_OK -> sent `prefix_of` (if active then selection mask records else []) ->
     Q r (set_locked (filter (fun x => x <> dtc_record_mutex) (locked s)) s) (answered sent o)) ->
  Forall (fun c => length c = 3%nat) records.*1 ->
  swp (read_dtc_loop ((fun '(c, x) => Dtc c x active frz) <$> records) mask) Q s o.
Proof.
  induction records as [|[c x] records IH]; intros o Hok Hno Hlen; cbn [fmap list_fmap read_dtc_loop].
  { s_run. cbn in Hok. destruct active; by rewrite answered_nil in Hok. }
  apply Forall_cons_1 in Hlen as [Hc Hlen]. cbn in Hc. cbn [status is_active dtc].
  destruct active; cbn [andb]; [|rewrite andb_false_r; by apply IH]. rewrite andb_true_r.
  unfold selection in *. cbn [fmap list_fmap concat] in *. fold (selection mask records) in *.
  destruct (Z.land x mask =? 0); cbn [negb]; [by apply IH|].
  s_run. apply swp_copy; [rewrite Hc; lia|..].
  2: { intros r Hr. rewrite decide_True by done. s_run. rewrite <- (answered_nil o). apply Hno; [done|]. apply prefix_nil. }
  s_run. change (Z.to_nat 3) with 3%nat. rewrite take_ge by lia. apply swp_copy; [cbn; lia|..].
  - s_run. apply IH; [|intros r sent Hr Hp|done]; rewrite !answered_app; cbn [Z.to_nat Pos.to_nat Pos.iter_op take].
    + by rewrite (assoc_L app).
    + apply Hno; [done|]. rewrite <- (assoc_L app c). do 2 apply prefix_app. done.
  - intros r Hr. rewrite decide_True by done. s_run. apply Hno; [done|]. rewrite <- (assoc_L app). apply prefix_app_r. done.
Qed.

Lemma zip_with_records active frz l : zip_with (fun c x => Dtc c x active frz) codes l =
  (fun '(c, x) => Dtc c x active frz) <$> zip codes l.
Proof. rewrite zip_with_zip. apply list_fmap_ext. by intros ? []. Qed.

Lemma read_dtcs_step p mask w s o : sample_config cfg w -> dtc_holds p s o -> hwp (dtc_step (read_dtcs mask)) (outcome p (read_dtcs mask) o) w s o.
Proof.
  intros Hcfg Hp. pose proof Hp as (Hrec & Hlen & Hu8 & Hl & _). apply hwp_bind.
  apply (request_answered cfg depth fuel __uds_event_handler_data_read_dtc_information_ _ read_dtc_registration 14 14);
    [done|in_table|done|linked|done|by intros; eexists _, _|].
  intros inst i Hi. s_answer. unfold read_dtc_info_check. s_run. unfold read_dtc_info_action. s_run.
  apply swp_copy; [cbn; lia|..].
  2: { intros r Hr. s_run. split; [by unfold decisive; rewrite bool_decide_true|]. s_run. exists [], p. rewrite app_nil_r.
       split; [|done]. apply report_does_not_fit; [done|apply prefix_nil]. }
  s_run; [rewrite Hl; set_solver|]. cbn [set_locked dtc_records]. rewrite Hrec, zip_with_records.
  assert (Forall (fun c => length c = 3%nat) (zip codes (statuses p)).*1) as Hthree.
  { destruct (statuses p) as [|? [|? [|]]]; try done. by repeat constructor. }
  assert (forall s', dtc_records s' = dtc_records s -> locked s' = [] -> scheduled s' = scheduled s -> dtc_holds p s' o) as Hkeep.
  { intros s' Hr' Hl' Hs'. destruct Hp as (_ & ? & ? & _ & ? & ?). unfold dtc_holds. by rewrite Hr', Hl', Hs'. }
  apply read_dtc_loop_run; [| |done].
  - s_run. split; [done|]. s_run. exists (report mask p), p. split; [apply reported|].
    split; [apply Hkeep; [done|cbn; by rewrite Hl|done]|]. unfold report. cbn. rewrite <- (assoc_L app). by destruct (cleared p).
  - intros r sent Hr Hpre. s_run. split; [by unfold decisive; rewrite bool_decide_true, orb_true_r|]. s_run.
    exists (dtc_status_availability_mask :: sent), p. split.
    + apply report_does_not_fit; [done|]. unfold report. apply prefix_cons. by destruct (cleared p).
    + split; [apply Hkeep; [done|cbn; by rewrite Hl|done]|]. cbn. by rewrite <- (assoc_L app).
Qed.

(** The other requests change records or schedule work, and send nothing. *)
Lemma silent p op r p' s' o : dtc_spec p op r [] p' -> dtc_holds p' s' o -> outcome p op o r s' o.
Proof. intros Hspec Hp. exists [], p'. by rewrite app_nil_r. Qed.

Lemma set_actives active frz l b : (fun r => Dtc (dtc r) (status r) b (is_frozen r)) <$>
  zip_with (fun c x => Dtc c x active frz) codes l = zip_with (fun c x => Dtc c x b frz) codes l.
Proof. rewrite !zip_with_records, <- list_fmap_compose. apply list_fmap_ext. by intros ? []. Qed.
Lemma set_frozens active frz l b : (fun r => Dtc (dtc r) (status r) (is_active r) b) <$>
  zip_with (fun c x => Dtc c x active frz) codes l = zip_with (fun c x => Dtc c x active b) codes l.
Proof. rewrite !zip_with_records, <- list_fmap_compose. apply list_fmap_ext. by intros ? []. Qed.

(** Scheduling a work item, and what it leaves of the others. *)
Lemma swp_schedule k (Q : Z -> uds_sample -> outside -> Prop) s o :
  (forall r s', s' = set_scheduled (scheduled s') s -> k ∈ scheduled s' ->
     (forall j, j <> k -> (j ∈ scheduled s' <-> j ∈ scheduled s)) -> Q r s' o) ->
  swp (k_work_schedule k) Q s o.
Proof.
  intros HQ. unfold k_work_schedule. s_run. destruct (decide (k ∈ scheduled s)) as [Hin|Hin]; s_run; apply HQ; try done; try set_solver.
  - by destruct s.
Qed.

Lemma clear_dtcs_step p g w s o : sample_config cfg w -> dtc_holds p s o -> hwp (dtc_step (clear_dtcs g)) (outcome p (clear_dtcs g) o) w s o.
Proof.
  intros Hcfg (Hrec & Hlen & Hu8 & Hl & Hre & Hinc). apply hwp_bind.
  apply (request_answered cfg depth fuel __uds_event_handler_data_clear_diag_info_ _ clear_diag_info_registration 15 15);
    [done|in_table|done|linked|done|by intros; eexists _, _|].
  intros inst i Hi. s_answer. unfold clear_diag_info_check. s_run. unfold clear_diag_info_act, for_each_record, k_work_delayable_is_pending.
  s_run; [rewrite Hl; set_solver|]. cbn [set_locked dtc_records locked set_dtc_records scheduled]. rewrite Hl, Hrec, set_actives, Hre.
  replace (bool_decide (dtc_reactivate_work = async_routine_work)) with false by done. rewrite andb_false_l, orb_false_r.
  assert (forall s', dtc_records s' = zip_with (fun c x => Dtc c x false (frozen p)) codes (statuses p) -> locked s' = [] ->
    dtc_reactivate_work ∈ scheduled s' -> (dtc_status_increment_work ∈ scheduled s' <-> dtc_status_increment_work ∈ scheduled s) ->
    decisive UDS_PositiveResponse true = true /\ hwp (ret (Some UDS_PositiveResponse)) (outcome p (clear_dtcs g) o) w s' o) as Hend.
  { intros s' Hr' Hl' Hs' Hi'. split; [done|]. s_run. eapply silent; [apply now_cleared|]. split_and!; try done; cbn.
    - by rewrite bool_decide_true.
    - rewrite <- Hinc. by apply bool_decide_ext. }
  destruct (reactivation p) eqn:Hp; apply bool_decide_eq_true in Hre || apply bool_decide_eq_false in Hre;
    [unfold k_work_cancel_delayable, unschedule|]; s_run; apply swp_schedule; intros r s' -> Hin Hother; s_run;
    (apply Hend; [done..|]); rewrite Hother by done; cbn; [rewrite list_elem_of_filter; naive_solver|done].
Qed.

Lemma control_dtcs_step p x data w s o : sample_config cfg w -> dtc_holds p s o -> hwp (dtc_step (control_dtcs x data)) (outcome p (control_dtcs x data) o) w s o.
Proof.
  intros Hcfg (Hrec & Hlen & Hu8 & Hl & Hre & Hinc). apply hwp_bind.
  apply (request_answered cfg depth fuel __uds_event_handler_data_control_dtc_setting_ _ control_dtc_setting_registration 16 16);
    [done|in_table|done|linked|done|by intros; eexists _, _|].
  intros inst i Hi. s_answer. unfold control_dtc_setting_check. s_run. unfold control_dtc_setting_action, for_each_record.
  s_run; [rewrite Hl; set_solver|]. rewrite Hl.
  assert (forall r c p' s', decisive r c = true -> dtc_spec p (control_dtcs x data) (Some r) [] p' -> dtc_holds p' s' o ->
    decisive r c = true /\ hwp (ret (Some r)) (outcome p (control_dtcs x data) o) w s' o) as Hend.
  { intros r c p' s' Hd Hspec Hp'. split; [done|]. s_run. by eapply silent. }
  destruct (Z.eqb_spec x 1) as [->|H1]; [|destruct (Z.eqb_spec x 2) as [->|H2]]; s_run.
  - eapply Hend; [done|apply resumed|]. unfold dtc_holds. cbn. by rewrite Hrec, set_frozens.
  - eapply Hend; [done|apply now_frozen|]. unfold dtc_holds. cbn. by rewrite Hrec, set_frozens.
  - eapply Hend; [done|by apply other_setting|]. unfold dtc_holds. by cbn.
Qed.

Lemma start_counting_step p w s o : dtc_holds p s o -> hwp (dtc_step start_counting) (outcome p start_counting o) w s o.
Proof.
  intros (Hrec & Hlen & Hu8 & Hl & Hre & Hinc). cbn [dtc_step]. unfold dtc_status_init. s_run.
  apply swp_schedule. intros r s' -> Hin Hother. s_run. eapply silent; [apply counting_started|]. split_and!; try done; cbn.
  - rewrite <- Hre. by apply bool_decide_ext, Hother.
  - by rewrite bool_decide_true.
Qed.

Lemma count_records active frz l :
  (fun r => if negb (is_frozen r) then Dtc (dtc r) (Z.land (status r + 1) 0xFF) (is_active r) (is_frozen r) else r) <$>
    zip_with (fun c x => Dtc c x active frz) codes l =
  zip_with (fun c x => Dtc c x active frz) codes (if frz : bool then l else (fun x => u8 (x + 1)) <$> l).
Proof.
  rewrite !zip_with_records. destruct frz.
  - rewrite <- list_fmap_compose. apply list_fmap_ext. by intros ? [].
  - generalize codes as c. induction l as [|x l IH]; intros [|y c]; try done. cbn [zip zip_with fmap list_fmap status negb is_frozen is_active dtc].
    rewrite (wrap_land 8) by lia. f_equal. apply IH.
Qed.

Lemma run_work_step p k w s o : dtc_holds p s o -> hwp (dtc_step (run_work k)) (outcome p (run_work k) o) w s o.
Proof.
  intros Hp. pose proof Hp as (Hrec & Hlen & Hu8 & Hl & Hre & Hinc). cbn [dtc_step]. unfold run_dtc_work. s_run.
  destruct (decide (k ∈ scheduled s)) as [Hin|Hin].
  2: { s_run. eapply silent; [|done]. apply nothing_to_do. destruct k; [done|by rewrite <- Hre, bool_decide_false|by rewrite <- Hinc, bool_decide_false]. }
  destruct k; [s_run; by eapply silent; [apply nothing_to_do|]|..]; unfold unschedule.
  - unfold dtc_reactivate_work_handler, for_each_record. s_run; [cbn; rewrite Hl; set_solver|]. cbn. rewrite Hl, Hrec, set_actives.
    eapply silent; [apply reactivated; by rewrite <- Hre, bool_decide_true|]. split_and!; try done; cbn.
    + rewrite bool_decide_false; [done|]. rewrite list_elem_of_filter. naive_solver.
    + rewrite <- Hinc. apply bool_decide_ext. rewrite list_elem_of_filter. naive_solver.
  - unfold dtc_status_increment_work_handler, for_each_record. s_run; [cbn; rewrite Hl; set_solver|]. cbn. rewrite Hl, Hrec, count_records.
    apply swp_schedule. intros r s' -> Hin' Hother. s_run.
    eapply silent; [apply counted; by rewrite <- Hinc, bool_decide_true|]. split_and!; try done; cbn.
    + destruct (frozen p); [done|]. by rewrite length_fmap.
    + destruct (frozen p); [done|]. apply Forall_fmap, Forall_true. intros x. apply wrap_range. lia.
    + rewrite <- Hre. apply bool_decide_ext. rewrite Hother by done. cbn. rewrite list_elem_of_filter. naive_solver.
    + by rewrite bool_decide_true.
Qed.

(** C17. The trouble codes follow their protocol in every interleaving of the
    client's requests with the two work items.  A report sends the availability
    mask and every code whose status byte the mask selects, none while the
    codes are cleared, or a prefix of that when the response is full; a clear
    hides the codes until the work item brings them back and resets no status
    byte; the status bytes count up, modulo 256, unless they are frozen. *)
Theorem dtc_refines ops p w :
  in_phase cfg dtc_holds p w -> exists rs sent p' w',
    run_ops dtc_step ops w = Ret rs w' /\ spec_ops dtc_spec p ops rs sent p' /\ in_phase cfg dtc_holds p' w' /\
    response (observe (ext w')) = response (observe (ext w)) ++ sent.
Proof.
  intros Hp. apply (sample_refines cfg _ _ _ (fun _ => True)); [|by apply Forall_true|done].
  intros op p0 w0 s o _ Hcfg0 Hp0. destruct op; [by apply read_dtcs_step|by apply clear_dtcs_step|by apply control_dtcs_step|
    by apply start_counting_step|by apply run_work_step].
Qed.

(** *** Sessions *)

(** A request for any session is answered positively and changes nothing, in a
    build without the switch into the firmware loader and without link control:
    the sample's handlers let it pass, like those of the default instance. *)
Theorem sample_sessions ty w :
  sample_config cfg w -> DISABLE_SWITCH_TO_FIRMWARE_LOADER cfg = true -> CONFIG_UDS_USE_LINK_CONTROL cfg = false ->
  request cfg depth fuel UDS_EVT_DiagSessCtrl (UDSDiagSessCtrlArgs ty) w = Ret (UDS_OK, UDSDiagSessCtrlArgs ty) w.
Proof.
  intros [(inst & Hperm) Hdyn] Hswitch Hlink. pose (h := __uds_event_handler_data_diag_sess_ctrl_).
  destruct (all_quiet cfg depth fuel h (UDSDiagSessCtrlArgs ty) w) as (r & Hrun & Hr); [in_table|done| |by destruct Hr as [-> | ->]].
  intros i r Hi. pose proof (read_static_run _ _ _ Hi) as Hread.
  assert (r ∈ all_registrations cfg inst) as Hin by (rewrite <- Hperm; by eapply list_elem_of_lookup_2).
  destruct (decide (type r = UDS_REGISTRATION_TYPE__DIAG_SESSION_CTRL)) as [Hty|Hty]; [|by eapply inapplicable_quiet, other_type].
  unfold all_registrations, default_instance_registrations, sample_registrations in Hin. rewrite Hlink in Hin. cbn [app] in Hin.
  apply elem_of_cons in Hin as [Hr|Hin].
  { apply (default_session_quiet cfg depth fuel ty w i inst Hswitch). by rewrite Hi, Hr. }
  repeat (apply elem_of_cons in Hin as [->|Hin]; [try discriminate Hty|]); [|by apply elem_of_nil in Hin].
  intros f. pose proof (visit_user cfg depth fuel h (session_registration inst) 17 17 i w (UDSDiagSessCtrlArgs ty) f) as Hv.
  apply Hv; try done; [in_table|by eexists _, _].
Qed.
End dtc.
