(* ===== verification/UdsSampleWitness.v ===== *)
(** * Witnesses for the UDS sample

    A concrete environment that satisfies the laws of [UdsSampleLaws] - that of
    [UdsWitness] with the variables of the sample, an LED, a key store and a
    toy cipher - and for every theorem with hypotheses a closed instance
    there. *)

From stdpp Require Import base gmap list numbers relations.
From Stdlib Require Import ZArith Lia.
From S2P Require Import Prelude.
From S2P Require Import UdsTypes.
From S2P Require Import Uds.
From S2P Require Import UdsMacros.
From S2P Require Import UdsServices.
From S2P Require Import UdsMemory.
From S2P Require Import UdsLinkControl.
From S2P Require Import UdsFileTransfer.
From S2P Require Import UdsUploadDownload.
From S2P Require Import UdsSystem.
From S2P Require Import UdsDispatch.
From S2P Require UdsWitness.
From S2P Require Import UdsSample.
From S2P Require Import UdsSampleLaws.
From S2P Require Import UdsSampleSecurity.
From S2P Require Import UdsSampleData.
From S2P Require Import UdsSampleRoutine.
From S2P Require Import UdsSampleDtc.

#[local] Open Scope Z_scope.

(** ** The environment *)

Record bench := Bench {
  base : UdsWitness.env;
  program : uds_sample;
  shines : bool;
  store : gmap positive (list Z);
  security : Z;
}.

Definition with_base (e : UdsWitness.env) (b : bench) : bench := Bench e (program b) (shines b) (store b) (security b).
Definition with_program (s : uds_sample) (b : bench) : bench := Bench (base b) s (shines b) (store b) (security b).
Definition with_shine (x : bool) (b : bench) : bench := Bench (base b) (program b) x (store b) (security b).
Definition with_store (k : gmap positive (list Z)) (b : bench) : bench := Bench (base b) (program b) (shines b) k (security b).

#[export] Existing Instance UdsWitness.env_constants.
#[export] Instance bench_server : Server bench := UdsWitness.lifted_server base with_base.
#[export] Instance bench_platform : Platform bench := UdsWitness.lifted_platform base with_base.
#[export] Instance bench_memory : Memory bench := UdsWitness.lifted_memory base with_base (fun _ _ => eq_refl).
#[export] Instance bench_can : CanController bench := UdsWitness.lifted_controller base with_base.
#[export] Instance bench_link : LinkControlVars bench := UdsWitness.lifted_link_vars base with_base.
#[export] Instance bench_fs : FileSystem bench := UdsWitness.lifted_fs base with_base.
#[export] Instance bench_ft : FileTransferVars bench := UdsWitness.lifted_ft_vars base with_base (fun _ _ => eq_refl).
#[export] Instance bench_flash : FlashDriver bench := UdsWitness.lifted_flash_driver base with_base.
#[export] Instance bench_ud : UpDownVars bench := UdsWitness.lifted_ud_vars base with_base (fun _ _ => eq_refl).

#[export] Instance bench_vars : SampleVars bench := {| vars := program; set_vars := with_program |}.
#[export] Instance bench_random : Random bench := {| sys_rand32_get := ret 0x01020304 |}.
#[export] Instance bench_security : SecurityServer bench := {|
  securityLevel := security;
  set_auth_state a := server_copy (Some [match a with UDS_AT_RA => 0x11 | UDS_AT_OVAC => 0x12 | UDS_AT_DAS => 0x10 end]) 1;
|}.

(** The cipher is the exclusive or with the key; random bytes count up. *)
Definition toy_cipher (k x : list Z) : list Z := resize 16 0 (zip_with Z.lxor k x).

#[export] Instance bench_crypto : PsaCrypto bench := {|
  psa_crypto_init := ret 0;
  psa_import_key _ key b := let k := fresh (dom (store b)) in Ret (PSA_SUCCESS, k) (with_store (<[k := key]> (store b)) b);
  psa_cipher_encrypt k _ x b :=
    match store b !! k with Some key => Ret (PSA_SUCCESS, toy_cipher key x, 16) b | None => Ret (- 136, [], 0) b end;
  psa_cipher_decrypt k _ x b :=
    match store b !! k with Some key => Ret (PSA_SUCCESS, toy_cipher key x, 16) b | None => Ret (- 136, [], 0) b end;
  psa_destroy_key k b := Ret tt (with_store (delete k (store b)) b);
  psa_generate_random n := ret (PSA_SUCCESS, Z.of_nat <$> seq 0 (Z.to_nat n));
|}.

#[export] Instance bench_pin : LedPin bench := {|
  gpio_pin_configure_dt b := Ret 0 (with_shine false b);
  gpio_pin_get_dt b := Ret (Z.b2z (shines b)) b;
  gpio_pin_set_dt v b := Ret 0 (with_shine (negb (v =? 0)) b);
|}.

(** ** It satisfies the laws *)

#[export] Instance bench_laws : SampleLaws bench.
Proof.
  refine {| observe b := Outside (UdsWitness.e_sent (base b)) (shines b) (store b) (security b) |}; [done|].
  intros bs n e Hn. by eexists _, _.
Defined.

#[export] Instance bench_security_laws : SecurityLaws bench.
Proof. split; [done|]. intros e. eexists _, e. by split_and!. Defined.

#[export] Instance bench_auth_laws : AuthLaws bench.
Proof.
  refine {| aes_decrypt := toy_cipher |}.
  - intros k x. apply length_resize.
  - intros a e. by eexists _, _, _.
  - intros e. by eexists _, _.
  - intros attr key e. eexists _, _, _. split; [done|]. split; [done|]. split; [by intros []|]. intros _. split; [|done].
    cbn. apply not_elem_of_dom, is_fresh.
  - intros k alg key x e Hk. cbn in Hk. eexists _, _, _, e. cbn. rewrite Hk. by split_and!.
  - intros k e. by eexists.
  - intros e. by eexists _, _, e.
Defined.

#[export] Instance bench_led_laws : LedLaws bench.
Proof.
  split.
  - intros e. by eexists 0, false, _.
  - intros e. eexists _, e. split_and!; [done|done|]. by right.
  - intros v e. by eexists 0, _.
Defined.

#[export] Instance bench_sleep_laws : SleepLaws bench.
Proof. split. intros n e. exists e. split; [|done]. by destruct e. Defined.

(** ** The program on it *)

Definition cfg : uds_config := UdsConfig UdsWitness.demo_memory_config UdsWitness.demo_updown_config 500000 true false.

Definition bench_with (lev : Z) (s : uds_sample) : world bench :=
  World 0 (all_registrations cfg 0) [] ∅ 1 [] [] (Bench UdsWitness.demo_env s false ∅ lev).
Definition start : world bench := bench_with 0 uds_sample_init.

Lemma bench_config lev s : sample_config cfg (bench_with lev s).
Proof. split; [by exists 0%nat|done]. Qed.

(** ** Security access and authentication *)

Definition security_ops : list security_op :=
  [validate_key 1 [1; 2; 3; 4]; request_seed 1; validate_key 1 [0xFE; 0xFD]; validate_key 1 [0xFE; 0xFD; 0xFC; 0xFB];
   request_seed 3; request_seed 1; validate_key 1 [1; 2; 3; 4] ].

Example security_replies :
  match run_ops (security_step cfg 0 0) security_ops start with Ret rs _ => rs | Fault _ => [] end =
  [UDS_NRC_RequestSequenceError; UDS_OK; UDS_NRC_IncorrectMessageLengthOrInvalidFormat; UDS_OK;
   UDS_NRC_ConditionsNotCorrect; UDS_OK; UDS_NRC_InvalidKey].
Proof. by vm_compute. Qed.


Lemma secure_data_guarded_witness :
  exists r e', request cfg 0 0 UDS_EVT_ReadDataByIdent (UDSRDBIArgs secure_data_id copy_server) start =
      Ret (r, UDSRDBIArgs secure_data_id copy_server) (set_ext e' start) /\ vars e' = vars (ext start) /\
    (if decide (level (observe (ext start)) < 1)
     then r = UDS_NRC_SecurityAccessDenied /\ observe e' = observe (ext start)
     else observe e' = if decide (r = UDS_OK) then answered secure_data (observe (ext start)) else observe (ext start)).
Proof. apply (secure_data_guarded cfg 0 0 start). apply bench_config. Defined.

(** The proof of the challenge 0, 1, ..., 15. *)
Definition proof : list Z := toy_cipher uds_aes_key (Z.of_nat <$> seq 0 16).
Definition auth_ops : list auth_op :=
  [read_guarded; ask_challenge [1; 2; 3; 4; 5; 6; 7; 8; 9; 10; 11; 12; 13; 14; 15; 16]; ask_challenge oid; give_proof oid [1; 2];
   give_proof oid proof; read_guarded; time_out; read_guarded; deauthenticate; other_authentication 1 auth_no_args].

Example auth_replies :
  match run_ops (auth_step cfg 0 0) auth_ops start with
  | Ret rs w => Some (rs, store (ext w)) | Fault _ => None end =
  Some ([UDS_NRC_ConditionsNotCorrect; UDS_NRC_ConditionsNotCorrect; UDS_OK; UDS_NRC_IncorrectMessageLengthOrInvalidFormat;
    UDS_OK; UDS_OK; UDS_OK; UDS_NRC_ConditionsNotCorrect; UDS_OK; UDS_NRC_SubFunctionNotSupported], ∅).
Proof. by vm_compute. Qed.

Definition no_challenge : auth_phase := AuthPhase false (replicate 16 0).

Lemma start_auth : in_phase cfg (auth_holds ∅) no_challenge start.
Proof. split; [apply bench_config|by split_and!]. Qed.


(** The proof of the challenge the program starts with: the key itself. *)
Lemma proof_can_be_replayed_witness :
  exists rs r w', run_ops (auth_step cfg 0 0) ([give_proof oid uds_aes_key; time_out] ++ [give_proof oid uds_aes_key]) start = Ret (rs ++ [r]) w' /\
    (r = UDS_NRC_GeneralReject \/ authenticated (auth_data (vars (ext w'))) = true).
Proof.
  apply (proof_can_be_replayed cfg 0 0 ∅ [give_proof oid uds_aes_key; time_out] no_challenge start oid uds_aes_key);
    [| |apply start_auth|done|done|by vm_compute]; repeat (constructor; [cbn; try done; lia|]); constructor.
Defined.

(** ** Data identifiers, the LED and the memory *)

Lemma primitive_write_read_witness :
  exists w1 r w2, request cfg 0 0 UDS_EVT_WriteDataByIdent (UDSWDBIArgs primitive_type_id [0x12; 0x34; 0x56]) start =
      Ret (UDS_PositiveResponse, UDSWDBIArgs primitive_type_id [0x12; 0x34; 0x56]) w1 /\
    request cfg 0 0 UDS_EVT_ReadDataByIdent (UDSRDBIArgs primitive_type_id copy_server) w1 =
      Ret (r, UDSRDBIArgs primitive_type_id copy_server) w2 /\
    (r = UDS_OK -> response (observe (ext w2)) = [0x12; 0x34]) /\ (r <> UDS_OK -> observe (ext w2) = observe (ext start)).
Proof. refine (primitive_write_read cfg 0 0 start 0x12 0x34 [0x56] _ _ _); [apply bench_config|unfold in_width; lia..]. Defined.

Lemma short_write_reads_behind_witness :
  request cfg 0 0 UDS_EVT_WriteDataByIdent (UDSWDBIArgs primitive_type_id [0x12]) start = Fault OutOfBounds.
Proof. apply (short_write_reads_behind cfg 0 0 start [0x12]); [apply bench_config|cbn; lia]. Defined.

Lemma string_read_witness :
  exists r e', request cfg 0 0 UDS_EVT_ReadDataByIdent (UDSRDBIArgs string_id copy_server) start =
    Ret (r, UDSRDBIArgs string_id copy_server) (set_ext e' start) /\ vars e' = vars (ext start) /\
    observe e' = if decide (r = UDS_OK) then answered string_data (observe (ext start)) else observe (ext start).
Proof. apply (string_read cfg 0 0 start). apply bench_config. Defined.

Lemma read_only_write_crashes_witness :
  (string_id ∈ [string_id; authenticated_type_id; secure_data_id] ->
     request cfg 0 0 UDS_EVT_WriteDataByIdent (UDSWDBIArgs string_id [65]) start = Fault NullPointer) /\
  (string_id ∈ [primitive_type_id; string_id; authenticated_type_id; secure_data_id] ->
     request cfg 0 0 UDS_EVT_IOControl (UDSIOCtrlArgs string_id 0 [] copy_server) start = Fault NullPointer).
Proof. apply (read_only_write_crashes cfg 0 0 start string_id [65] 0 [] copy_server). apply bench_config. Defined.

Lemma bench_configures (e : bench) r e' : gpio_pin_configure_dt e = Ret r e' -> 0 <= r.
Proof. intros [= <- _]. done. Qed.

Definition led_ops : list led_op :=
  [led_turn; led_write [1]; led_turn; led_read; led_control 3 [0]; led_turn; led_write [1; 2]; led_read; led_control 0 [];
   led_turn; led_read; led_control 1 []; led_control 2 []; led_write [] ].

Example led_replies :
  match run_ops (led_step cfg 0 0) led_ops start with
  | Ret rs w => Some (rs, response (observe (ext w))) | Fault _ => None end =
  Some ([None; Some UDS_OK; None; Some UDS_OK; Some UDS_OK; None; Some UDS_OK; Some UDS_OK; Some UDS_OK;
    None; Some UDS_OK; Some UDS_OK; Some UDS_NRC_RequestOutOfRange; Some UDS_NRC_IncorrectMessageLengthOrInvalidFormat],
    [1; 1; 0; 1; 1; 0]).
Proof. by vm_compute. Qed.


(** The LED after an override to on. *)
Definition overridden : led_data_t := LedData 0 1 true.
Definition overridden_start : world bench :=
  World 0 (all_registrations cfg 0) [] ∅ 1 [] []
    (Bench UdsWitness.demo_env (set_led_thread LedLoop (set_led_data overridden uds_sample_init)) true ∅ 0).

Lemma led_override_wins_witness :
  exists rs w', run_ops (led_step cfg 0 0) [led_write [0]; led_turn; led_read; led_write [7]; led_turn] overridden_start = Ret rs w' /\
    led_on (observe (ext w')) = true /\ led_state (led_data (vars (ext w'))) = 7.
Proof.
  refine (led_override_wins cfg 0 0 bench_configures [led_write [0]; led_turn; led_read; led_write [7]; led_turn] (LedPhase true overridden true) overridden_start _ _ _ _ _);
    [split; [split; [by exists 0%nat|done]|by split_and!]|done|done|done|by repeat constructor].
Defined.

(** A pin that can be read only. *)
Module BrokenPin.
#[export] Instance broken_pin : LedPin bench := {|
  gpio_pin_configure_dt := ret (- EIO); gpio_pin_get_dt b := Ret (Z.b2z (shines b)) b; gpio_pin_set_dt _ := ret (- EIO);
|}.

#[export] Instance broken_pin_laws : LedLaws bench.
Proof.
  split.
  - intros e. eexists (- EIO), (shines e), e. by destruct e.
  - intros e. eexists _, e. split_and!; [done|done|]. by right.
  - intros v e. by eexists (- EIO), e.
Defined.

Lemma led_failure_blocks_requests_witness :
  exists w1, on_ext led_update_thread start = Ret tt w1 /\
    (forall v data, request cfg 0 0 UDS_EVT_WriteDataByIdent (UDSWDBIArgs led_id (v :: data)) w1 = Fault Blocked) /\
    (forall param v st copy, param ∈ [0x00; 0x01; 0x03] ->
       request cfg 0 0 UDS_EVT_IOControl (UDSIOCtrlArgs led_id param (v :: st) copy) w1 = Fault Blocked).
Proof.
  refine (led_failure_blocks_requests cfg 0 0 start _ _ _ _); [apply bench_config|done|done|].
  intros s r e' [= <- _]. reflexivity.
Defined.
End BrokenPin.

(** A write that the check lets pass because the sum wraps. *)
Lemma memory_write_bounds_witness :
  let arg := UDSWriteMemByAddrArgs 0xFFFFFFFF (Z.of_nat (length [1; 2])) [1; 2] in
  request cfg 0 0 UDS_EVT_WriteMemByAddr arg start = Fault OutOfBounds.
Proof. refine (memory_write_bounds cfg 0 0 start 0xFFFFFFFF [1; 2] _ _ _ _); [apply bench_config|by vm_compute|by vm_compute..]. Defined.

Lemma memory_write_read_witness :
  exists w1 r w2,
    request cfg 0 0 UDS_EVT_WriteMemByAddr (UDSWriteMemByAddrArgs 0x1010 3 [7; 8; 9]) start =
      Ret (UDS_PositiveResponse, UDSWriteMemByAddrArgs 0x1010 3 [7; 8; 9]) w1 /\
    request cfg 0 0 UDS_EVT_ReadMemByAddr (UDSReadMemByAddrArgs 0x1010 3 copy_server) w1 =
      Ret (r, UDSReadMemByAddrArgs 0x1010 3 copy_server) w2 /\
    response (observe (ext w2)) = response (observe (ext start)) ++ (if decide (r = UDS_OK) then [7; 8; 9] else []).
Proof.
  refine (memory_write_read cfg 0 0 start 0x1010 [7; 8; 9] _ _ _ _); [apply bench_config|by vm_compute|..];
    unfold fake_memory_start_addr, fake_memory_size; cbn; lia.
Defined.

Lemma memory_last_byte_refused_witness :
  request cfg 0 0 UDS_EVT_ReadMemByAddr (UDSReadMemByAddrArgs 0x1063 1 copy_server) start =
    Ret (UDS_NRC_ConditionsNotCorrect, UDSReadMemByAddrArgs 0x1063 1 copy_server) start.
Proof.
  apply (memory_last_byte_refused cfg 0 0 start 0x1063 1); [apply bench_config|..]; unfold fake_memory_start_addr, fake_memory_size; lia.
Defined.

(** ** The routines *)

Lemma sync_routine_complements_witness :
  exists r e', request cfg 0 0 UDS_EVT_RoutineCtrl (UDSRoutineCtrlArgs 1 SYNCHRONOUS_ROUTINE_ID [0; 1; 2; 255]) start =
      Ret (r, UDSRoutineCtrlArgs 1 SYNCHRONOUS_ROUTINE_ID [0; 1; 2; 255]) (set_ext e' start) /\ vars e' = vars (ext start) /\
    observe e' = if decide (r = UDS_OK) then answered [255; 254; 253; 0] (observe (ext start)) else observe (ext start).
Proof.
  refine (sync_routine_complements cfg 0 0 start 1 [0; 1; 2; 255] _ _); [apply bench_config|].
  repeat (constructor; [unfold in_width; lia|]). constructor.
Defined.

Definition never_run : async_phase := Resting ASYNC_WORK_STATUS_IDLE 0.

Lemma start_async : in_phase cfg async_holds never_run start.
Proof. split; [apply bench_config|]. split; [done|]. split_and!; [done..|set_solver|done]. Qed.

Definition async_ops : list async_op :=
  [async_request 2 []; async_request 1 []; async_request 1 []; queue_turn; queue_turn; queue_turn; queue_turn; async_request 3 [];
   async_request 2 []; queue_turn; async_request 3 []; queue_turn; async_request 4 []; async_request 1 [] ].

Example async_replies :
  match run_ops (async_step cfg 0 0) async_ops start with
  | Ret rs w => Some (rs, response (observe (ext w))) | Fault _ => None end =
  Some ([Some UDS_NRC_RequestSequenceError; Some UDS_OK; Some UDS_NRC_RequestSequenceError; None; None; None; None; Some UDS_OK;
    Some UDS_OK; None; Some UDS_OK; None; Some UDS_NRC_SubFunctionNotSupported; Some UDS_OK],
    [3; 0; 0; 0; 2; 2; 2; 0; 0; 0; 2]).
Proof. by vm_compute. Qed.

Lemma async_routine_refines_witness :
  exists rs sent p' w', run_ops (async_step cfg 0 0) async_ops start = Ret rs w' /\
    spec_ops async_spec never_run async_ops rs sent p' /\ in_phase cfg async_holds p' w' /\
    response (observe (ext w')) = response (observe (ext start)) ++ sent.
Proof. apply (async_routine_refines cfg 0 0 async_ops never_run start start_async). Defined.

(** The routine after its last step. *)
Definition last_step : uds_sample :=
  set_async_worker (AsyncLoop 3000) (set_async_work_data (AsyncWorkData 3000 ASYNC_WORK_STATUS_RUNNING false) uds_sample_init).

Lemma last_step_running : in_phase cfg async_holds (Running 3000 false) (bench_with 0 last_step).
Proof. split; [apply bench_config|]. split; [done|]. split_and!; [done|lia|lia|set_solver|done]. Qed.

Lemma async_routine_ends_witness :
  exists rs w' last n, run_ops (async_step cfg 0 0) [queue_turn; async_request 3 []; queue_turn] (bench_with 0 last_step) = Ret rs w' /\
    in_phase cfg async_holds (Resting last n) w' /\ remaining (Running 3000 false) <= 3004 /\
    (on_its_way (Running 3000 false) -> Forall no_stop [queue_turn; async_request 3 []; queue_turn] ->
      last = ASYNC_WORK_STATUS_SUCCESS /\ n = 3000).
Proof.
  apply (async_routine_ends cfg 0 0 [queue_turn; async_request 3 []; queue_turn] (Running 3000 false) (bench_with 0 last_step)
    last_step_running); [by repeat constructor|by vm_compute].
Defined.

Lemma late_stop_has_no_effect_witness :
  exists r r' w', run_ops (async_step cfg 0 0) [async_request 0x02 []; queue_turn; queue_turn; async_request 0x03 [] ] (bench_with 0 last_step) =
      Ret [Some r; None; None; Some r'] w' /\
    (r = UDS_OK -> r' = UDS_OK ->
      response (observe (ext w')) = response (observe (ext (bench_with 0 last_step))) ++ [2; 1; 0; 0; 0x0B; 0xB8]).
Proof. apply (late_stop_has_no_effect cfg 0 0 (bench_with 0 last_step) [] [] last_step_running). Defined.

(** ** Trouble codes and sessions *)

Definition first_codes : dtc_phase := DtcPhase [0x24; 0x2F] false false false false.
Definition dtc_ops : list dtc_op :=
  [start_counting; read_dtcs 0x08; run_work dtc_status_increment_work; read_dtcs 0x24; clear_dtcs 0xFFFFFF; read_dtcs 0xFF;
   run_work dtc_reactivate_work; control_dtcs 2 []; run_work dtc_status_increment_work; read_dtcs 0x01; control_dtcs 1 [];
   control_dtcs 3 [] ].

Example dtc_replies :
  match run_ops (dtc_step cfg 0 0) dtc_ops start with
  | Ret rs w => Some (rs, response (observe (ext w))) | Fault _ => None end =
  Some ([None; Some UDS_OK; None; Some UDS_OK; Some UDS_OK; Some UDS_OK; None; Some UDS_OK; None; Some UDS_OK; Some UDS_OK;
      Some UDS_NRC_SubFunctionNotSupported],
    [0x7F; 0x80; 0x51; 0x11; 0x2F; 0x7F; 0x0A; 0x9B; 0x17; 0x25; 0x80; 0x51; 0x11; 0x30; 0x7F; 0x7F; 0x0A; 0x9B; 0x17; 0x25]).
Proof. by vm_compute. Qed.

Lemma dtc_refines_witness :
  exists rs sent p' w', run_ops (dtc_step cfg 0 0) dtc_ops start = Ret rs w' /\
    spec_ops dtc_spec first_codes dtc_ops rs sent p' /\ in_phase cfg dtc_holds p' w' /\
    response (observe (ext w')) = response (observe (ext start)) ++ sent.
Proof.
  apply (dtc_refines cfg 0 0 dtc_ops first_codes start). split; [apply bench_config|].
  split_and!; try done. by repeat (constructor; [unfold in_width; lia|]).
Defined.

Lemma sample_sessions_witness :
  request cfg 0 0 UDS_EVT_DiagSessCtrl (UDSDiagSessCtrlArgs 0x03) start = Ret (UDS_OK, UDSDiagSessCtrlArgs 0x03) start.
Proof. apply (sample_sessions cfg 0 0 0x03 start); [apply bench_config|done|done]. Defined.
