(* ===== verification/UdsBusSample.v ===== *)
(** * The UDS bus sample ([samples/uds_bus_sample/src])

    Boards on one CAN bus that sign a frame in turn.  Every board has two
    parts: the worker (worker.c) waits for a frame with one identifier, appends
    a signature and sends it on with another; the controller (controller.c) is
    a routine that sends the first frame and waits for the last.  Here are the
    variables of a board, all functions of both files, their registrations and
    the instance of [UserCallbacks]; the theorems, and the bus, are in
    [UdsBusTheorems]. *)

From stdpp Require Import base gmap list numbers relations.
From Stdlib Require Import ZArith Lia.
From S2P Require Import Prelude.
From S2P Require Import Can.
From S2P Require Import UdsTypes.
From S2P Require Import UdsMacros.
From S2P Require Import UdsServices.
From S2P Require Import UdsSystem.
From S2P Require Iso14229.

#[local] Open Scope Z_scope.

(** ** The variables of a board *)

Definition CONTROLLER_CAN_SEND_ADDR : Z := 0x001.
Definition CONTROLLER_CAN_RECEIVE_ADDR : Z := 0x000.

Inductive controller_routine_status :=
| CONTROLLER_ROUTINE_STATUS__SUCCESS
| CONTROLLER_ROUTINE_STATUS__ERROR
| CONTROLLER_ROUTINE_STATUS__NOT_COMPLETED.

Definition controller_routine_status_value (x : controller_routine_status) : Z :=
  match x with
  | CONTROLLER_ROUTINE_STATUS__SUCCESS => 0x00
  | CONTROLLER_ROUTINE_STATUS__ERROR => 0x01
  | CONTROLLER_ROUTINE_STATUS__NOT_COMPLETED => 0xFF
  end.

(** The two work items, and the callbacks of receive filters. *)
Inductive bus_work := controller_routine_work | can_rx_cb_work.
Inductive rx_callback := controller_routine_rx_cb | worker_rx_cb.

#[export] Instance bus_work_eq_dec : EqDecision bus_work.
Proof. solve_decision. Defined.

(** Where [controller_routine] is: not running, waiting for the semaphore, or
    past the wait, with its result; the number is [filter_id]. *)
Inductive controller_pc :=
| ControllerIdle
| ControllerWaiting (filter_id : Z)
| ControllerWoken (ret filter_id : Z).

#[export] Instance controller_pc_eq_dec : EqDecision controller_pc.
Proof. solve_decision. Defined.

(** [controller_received_frame] is the local variable of [controller_routine]:
    there is none when the function does not run.  [work_queue] are the items
    the system work queue has still to take; it runs one handler at a time. *)
Record bus_node := BusNode {
  running : bool;
  routine_result : list Z;
  data_mutex_locked : bool;
  controller_receive_sem : Z;
  controller_received_frame : option can_frame;
  controller : controller_pc;
  can_receive_addr : Z;
  can_send_addr : Z;
  receive_can_filter_id : Z;
  received_can_frame : can_frame;
  work_queue : list bus_work;
}.

Definition set_running x s := BusNode x (routine_result s) (data_mutex_locked s) (controller_receive_sem s) (controller_received_frame s)
  (controller s) (can_receive_addr s) (can_send_addr s) (receive_can_filter_id s) (received_can_frame s) (work_queue s).
Definition set_routine_result x s := BusNode (running s) x (data_mutex_locked s) (controller_receive_sem s) (controller_received_frame s)
  (controller s) (can_receive_addr s) (can_send_addr s) (receive_can_filter_id s) (received_can_frame s) (work_queue s).
Definition set_data_mutex_locked x s := BusNode (running s) (routine_result s) x (controller_receive_sem s) (controller_received_frame s)
  (controller s) (can_receive_addr s) (can_send_addr s) (receive_can_filter_id s) (received_can_frame s) (work_queue s).
Definition set_controller_receive_sem x s := BusNode (running s) (routine_result s) (data_mutex_locked s) x (controller_received_frame s)
  (controller s) (can_receive_addr s) (can_send_addr s) (receive_can_filter_id s) (received_can_frame s) (work_queue s).
Definition set_controller_received_frame x s := BusNode (running s) (routine_result s) (data_mutex_locked s) (controller_receive_sem s) x
  (controller s) (can_receive_addr s) (can_send_addr s) (receive_can_filter_id s) (received_can_frame s) (work_queue s).
Definition set_controller x s := BusNode (running s) (routine_result s) (data_mutex_locked s) (controller_receive_sem s)
  (controller_received_frame s) x (can_receive_addr s) (can_send_addr s) (receive_can_filter_id s) (received_can_frame s) (work_queue s).
Definition set_can_receive_addr x s := BusNode (running s) (routine_result s) (data_mutex_locked s) (controller_receive_sem s)
  (controller_received_frame s) (controller s) x (can_send_addr s) (receive_can_filter_id s) (received_can_frame s) (work_queue s).
Definition set_can_send_addr x s := BusNode (running s) (routine_result s) (data_mutex_locked s) (controller_receive_sem s)
  (controller_received_frame s) (controller s) (can_receive_addr s) x (receive_can_filter_id s) (received_can_frame s) (work_queue s).
Definition set_receive_can_filter_id x s := BusNode (running s) (routine_result s) (data_mutex_locked s) (controller_receive_sem s)
  (controller_received_frame s) (controller s) (can_receive_addr s) (can_send_addr s) x (received_can_frame s) (work_queue s).
Definition set_received_can_frame x s := BusNode (running s) (routine_result s) (data_mutex_locked s) (controller_receive_sem s)
  (controller_received_frame s) (controller s) (can_receive_addr s) (can_send_addr s) (receive_can_filter_id s) x (work_queue s).
Definition set_work_queue x s := BusNode (running s) (routine_result s) (data_mutex_locked s) (controller_receive_sem s)
  (controller_received_frame s) (controller s) (can_receive_addr s) (can_send_addr s) (receive_can_filter_id s) (received_can_frame s) x.

(** The values the program starts with; [data] of a frame has 8 bytes. *)
Definition no_frame : can_frame := CanFrame 0 0 0 (replicate 8 0).
Definition bus_node_init : bus_node :=
  BusNode false (replicate 9 0) false 0 None ControllerIdle 0 0 (-1) no_frame [].

(** ** What a board asks of its environment *)

(** [stack_contents] is what a local variable holds before it is written. *)
Class BusVars (B : Type) := {
  node : B -> bus_node;
  set_node : bus_node -> B -> B;
  stack_contents : B -> can_frame;
}.

(** The CAN controller; [can_send] waits until the frame is on the bus. *)
Class BusCan (B : Type) := {
  can_send : can_frame -> M B Z;
  can_add_rx_filter : rx_callback -> can_filter -> M B Z;
  can_remove_rx_filter : Z -> M B unit;
}.

Section board.
Context {B : Type} `{!BusVars B} `{!BusCan B}.

Definition update (f : bus_node -> bus_node) : M B unit := modify (fun b => set_node (f (node b)) b).

(** ** The kernel objects *)

Definition lock_data : M B unit :=
  let* s := gets node in if data_mutex_locked s then fail Blocked else update (set_data_mutex_locked true).
Definition unlock_data : M B unit := update (set_data_mutex_locked false).

(** The semaphore counts to 1. *)
Definition k_sem_give : M B unit := update (fun s => set_controller_receive_sem (Z.min 1 (controller_receive_sem s + 1)) s).

(** 0 when the item is queued already, 2 when its handler runs. *)
Definition k_work_submit (k : bus_work) : M B Z :=
  let* s := gets node in
  if decide (k ∈ work_queue s) then ret 0
  else
    update (set_work_queue (work_queue s ++ [k])) ;;
    ret (if decide (k = controller_routine_work /\ controller s <> ControllerIdle) then 2 else 1).

Definition k_work_is_pending (k : bus_work) : M B bool :=
  let* s := gets node in
  ret (bool_decide (k ∈ work_queue s) || bool_decide (k = controller_routine_work /\ controller s <> ControllerIdle)).

(** ** controller.c *)

Definition controller_routine_rx (frame : can_frame) : M B unit :=
  let* s := gets node in
  match controller_received_frame s with
  | None => fail UseAfterFree
  | Some _ => update (set_controller_received_frame (Some frame)) ;; k_sem_give
  end.

Definition set_status_byte (x : controller_routine_status) : M B unit :=
  update (fun s => set_routine_result (<[0%nat := controller_routine_status_value x]> (routine_result s)) s).

Definition initial_frame : can_frame := CanFrame CONTROLLER_CAN_SEND_ADDR 1 0 (0xde :: replicate 7 0).

(** [controller_routine] up to the wait, the wait for a second (which [expired]
    ends), and what follows it. *)
Definition controller_routine_start : M B controller_pc :=
  lock_data ;;
  update (set_running true) ;;
  unlock_data ;;
  let* frame := gets stack_contents in
  update (set_controller_received_frame (Some frame)) ;;
  let* filter_id := can_add_rx_filter controller_routine_rx_cb (CanFilter CONTROLLER_CAN_RECEIVE_ADDR CAN_STD_ID_MASK) in
  let* err := can_send initial_frame in
  if negb (err =? 0) then
    lock_data ;;
    set_status_byte CONTROLLER_ROUTINE_STATUS__ERROR ;;
    update (set_running false) ;;
    unlock_data ;;
    update (set_controller_received_frame None) ;;
    ret ControllerIdle
  else ret (ControllerWaiting filter_id).

Definition EAGAIN : Z := 11.

Definition controller_routine_wait (expired : bool) (filter_id : Z) : M B controller_pc :=
  let* s := gets node in
  if 0 <? controller_receive_sem s
  then (update (set_controller_receive_sem (controller_receive_sem s - 1)) ;; ret (ControllerWoken 0 filter_id))
  else if expired then ret (ControllerWoken (- EAGAIN) filter_id)
  else ret (ControllerWaiting filter_id).

(** [memcpy (&routine_result[1], data, n)] *)
Definition copy_result (data : list Z) (n : Z) (s : bus_node) : bus_node :=
  set_routine_result (take 1 (routine_result s) ++ take (Z.to_nat n) data ++ drop (1 + Z.to_nat n) (routine_result s)) s.

Definition controller_routine_finish (err filter_id : Z) : M B controller_pc :=
  can_remove_rx_filter filter_id ;;
  lock_data ;;
  (if negb (err =? 0) then set_status_byte CONTROLLER_ROUTINE_STATUS__ERROR
   else
     set_status_byte CONTROLLER_ROUTINE_STATUS__SUCCESS ;;
     let* s := gets node in
     let* frame := of_option UseAfterFree (controller_received_frame s) in
     update (copy_result (can_data frame) (Z.min (can_dlc frame) 8))) ;;
  update (set_running false) ;;
  unlock_data ;;
  update (set_controller_received_frame None) ;;
  ret ControllerIdle.

(** ** worker.c *)

Definition CAN_MAX_DLC : Z := 8.

Definition worker_rx (frame : can_frame) : M B unit :=
  update (set_received_can_frame frame) ;;
  k_work_submit can_rx_cb_work ;;
  ret tt.

(** The callback of a filter. *)
Definition run_rx_callback (cb : rx_callback) (frame : can_frame) : M B unit :=
  match cb with controller_routine_rx_cb => controller_routine_rx frame | worker_rx_cb => worker_rx frame end.

(** *** In the world of the instance *)

#[local] Abbreviation W := (world (Iso14229.iso_world B)) (only parsing).

Definition on_board {A} (m : M B A) : M W A := on_ext (Iso14229.env m).

Definition can_rx_cb_work_handler : M W unit :=
  let* s := on_board (gets node) in
  let to_send := received_can_frame s in
  if CAN_MAX_DLC <? can_dlc to_send + 1 then (on_board (can_send to_send) ;; ret tt)
  else
    let* (_, isotp_config) := Iso14229.uds_get_isotp_config false false in
    let* isotp_config := of_option NullPointer isotp_config in
    let* first := of_option OutOfBounds (head (can_data to_send)) in
    let signature := Z.lxor first (Z.land (Iso14229.source_addr isotp_config) 0xff) in
    on_board (can_send (CanFrame (can_send_addr s) (can_dlc to_send + 1) (can_flags to_send)
                                 (<[Z.to_nat (can_dlc to_send) := signature]> (can_data to_send)))) ;;
    ret tt.

(** The system work queue goes on: with the handler that waits, or the next
    item. *)
Definition work_queue_turn (expired : bool) : M W unit :=
  let* s := on_board (gets node) in
  match controller s with
  | ControllerWaiting filter_id =>
      let* pc := on_board (controller_routine_wait expired filter_id) in on_board (update (set_controller pc))
  | ControllerWoken err filter_id =>
      let* pc := on_board (controller_routine_finish err filter_id) in on_board (update (set_controller pc))
  | ControllerIdle =>
      match work_queue s with
      | [] => ret tt
      | k :: q =>
          on_board (update (set_work_queue q)) ;;
          match k with
          | controller_routine_work =>
              let* pc := on_board controller_routine_start in on_board (update (set_controller pc))
          | can_rx_cb_work => can_rx_cb_work_handler
          end
      end
  end.

(** *** The UDS handlers *)

Context `{!Server (Iso14229.iso_world B)}.

(** controller.c: [async_routine_control_check] and [_action] *)
Definition controller_control_check (context : uds_context) (apply_action : bool) : M W (UDSErr_t * bool) := ret (UDS_OK, true).

Definition controller_start : M B UDSErr_t :=
  let* pending := k_work_is_pending controller_routine_work in
  if pending then ret UDS_NRC_RequestSequenceError
  else
    lock_data ;;
    let* s := gets node in
    if running s then (unlock_data ;; ret UDS_NRC_RequestSequenceError)
    else
      set_status_byte CONTROLLER_ROUTINE_STATUS__NOT_COMPLETED ;;
      unlock_data ;;
      let* r := k_work_submit controller_routine_work in
      if r <? 0 then ret UDS_NRC_ConditionsNotCorrect else ret UDS_PositiveResponse.

Definition controller_control_action (context : uds_context) (consume_event : bool) : M W (UDSErr_t * bool * uds_arg) :=
  match ctx_arg context with
  | UDSRoutineCtrlArgs ctrlType _ _ =>
      let* r :=
        if ctrlType =? UDS_ROUTINE_CONTROL__START_ROUTINE then on_board controller_start
        else if ctrlType =? UDS_ROUTINE_CONTROL__STOP_ROUTINE then ret UDS_NRC_SubFunctionNotSupported
        else if ctrlType =? UDS_ROUTINE_CONTROL__REQUEST_ROUTINE_RESULTS then
          on_board lock_data ;;
          let* s := on_board (gets node) in
          on_board unlock_data ;;
          on_ext (server_copy (Some (routine_result s)) 9)
        else ret UDS_NRC_SubFunctionNotSupported in
      ret (r, true, ctx_arg context)
  | _ => fail BadArgument
  end.

Definition rw_data_by_id_check (context : uds_context) (apply_action : bool) : M W (UDSErr_t * bool) := ret (UDS_OK, true).

(** The bytes of a [uint16_t] variable; the processor is little-endian. *)
Definition le16 (x : Z) : list Z := [u8 x; u8 (Z.shiftr x 8)].

Definition r_data_by_id_action (context : uds_context) (consume_event : bool) : M W (UDSErr_t * bool * uds_arg) :=
  match ctx_arg context with
  | UDSRDBIArgs dataId copy =>
      let* s := on_board (gets node) in
      if dataId =? 0x1100 then (call_copy copy (Some (le16 (can_receive_addr s))) 2 ;; ret (UDS_PositiveResponse, true, ctx_arg context))
      else if dataId =? 0x1101 then (call_copy copy (Some (le16 (can_send_addr s))) 2 ;; ret (UDS_PositiveResponse, true, ctx_arg context))
      else ret (UDS_OK, false, ctx_arg context)
  | _ => fail BadArgument
  end.

(** The case of the receive address, after the check of the length. *)
Definition write_receive_addr (addr : Z) : M B UDSErr_t :=
  update (set_can_receive_addr addr) ;;
  let* s := gets node in
  (if negb (receive_can_filter_id s =? -1) then can_remove_rx_filter (receive_can_filter_id s) else ret tt) ;;
  let* id := can_add_rx_filter worker_rx_cb (CanFilter addr CAN_STD_ID_MASK) in
  update (set_receive_can_filter_id id) ;;
  if id <? 0 then ret UDS_NRC_ConditionsNotCorrect else ret UDS_PositiveResponse.

Definition w_data_by_id_action (context : uds_context) (consume_event : bool) : M W (UDSErr_t * bool * uds_arg) :=
  match ctx_arg context with
  | UDSWDBIArgs dataId data =>
      if dataId =? 0x1100 then
        if negb (Z.of_nat (length data) =? 2)
        then ret (UDS_NRC_IncorrectMessageLengthOrInvalidFormat, consume_event, ctx_arg context)
        else
          let* addr := of_option OutOfBounds (of_le16 data) in
          let* r := on_board (write_receive_addr addr) in
          if decide (r = UDS_PositiveResponse) then ret (r, true, ctx_arg context) else ret (r, consume_event, ctx_arg context)
      else if dataId =? 0x1101 then
        if negb (Z.of_nat (length data) =? 2)
        then ret (UDS_NRC_IncorrectMessageLengthOrInvalidFormat, consume_event, ctx_arg context)
        else
          let* addr := of_option OutOfBounds (of_le16 data) in
          on_board (update (set_can_send_addr addr)) ;;
          ret (UDS_PositiveResponse, true, ctx_arg context)
      else ret (UDS_OK, false, ctx_arg context)
  | _ => fail BadArgument
  end.

(** ** The program *)

#[export] Instance bus_callbacks : UserCallbacks (Iso14229.iso_world B) := {|
  user_check n c b :=
    match n with
    | 0%nat => controller_control_check c b
    | 1%nat => rw_data_by_id_check c b
    | _ => fail NullPointer
    end;
  user_action n c b :=
    match n with
    | 0%nat => controller_control_action c b
    | 1%nat => r_data_by_id_action c b
    | 2%nat => w_data_by_id_action c b
    | _ => fail NullPointer
    end;
  user_unregister _ _ := fail NullPointer;
|}.
End board.

(** The data pointers are NULL; no function of the sample uses them. *)
Definition unused_data : addr := 1.

Definition receive_addr_registration (i : nat) :=
  UDS_REGISTER_DATA_BY_IDENTIFIER_HANDLER (Some i) 0 0x1100 unused_data
    (Some (uds_check_user 1)) (Some (uds_action_user 1)) (Some (uds_check_user 1)) (Some (uds_action_user 2)) None None.
Definition send_addr_registration (i : nat) :=
  UDS_REGISTER_DATA_BY_IDENTIFIER_HANDLER (Some i) 0 0x1101 unused_data
    (Some (uds_check_user 1)) (Some (uds_action_user 1)) (Some (uds_check_user 1)) (Some (uds_action_user 2)) None None.
Definition controller_registration (i : nat) :=
  UDS_REGISTER_ROUTINE_CONTROL_HANDLER (Some i) 0 0x0000 (Some (uds_check_user 0)) (Some (uds_action_user 0)).

Definition bus_registrations (i : nat) : list uds_registration_t :=
  [receive_addr_registration i; send_addr_registration i; controller_registration i].
