(* ===== verification/UdsBusTheorems.v ===== *)
(** * The boards of the UDS bus sample together

    The laws of a board's environment, the bus that connects the boards, and
    the theorem of the sample: whatever the order in which the boards' work
    queues run, the controller gets the frame with the signatures of all
    workers. *)

From stdpp Require Import base gmap list numbers relations.
From Stdlib Require Import ZArith Lia.
From S2P Require Import Prelude.
From S2P Require Import Can.
From S2P Require Import UdsTypes.
From S2P Require Import Uds.
From S2P Require Import UdsMacros.
From S2P Require Import UdsServices.
From S2P Require Import UdsMemory.
From S2P Require Import UdsLinkControl.
From S2P Require Import UdsFileTransfer.
From S2P Require Import UdsUploadDownload.
From S2P Require Import UdsSystem.
From S2P Require Import UdsDispatch.
From S2P Require Import UdsViews.
From S2P Require Iso14229.
From S2P Require Import UdsBusSample.

#[local] Open Scope Z_scope.

(** ** The environment *)

(** What the theorems see of a board: its variables, its receive filters by
    number, the frames it has sent, and the bytes put into responses. *)
Record board_view := BoardView {
  vars : bus_node;
  filters : gmap Z (rx_callback * can_filter);
  sent : list can_frame;
  reply : list Z;
}.

Definition with_vars s v := BoardView s (filters v) (sent v) (reply v).
Definition with_filters f v := BoardView (vars v) f (sent v) (reply v).
Definition with_sent fr v := BoardView (vars v) (filters v) (sent v ++ [fr]) (reply v).
Definition with_reply bs v := BoardView (vars v) (filters v) (sent v) (reply v ++ bs).

(** The physical source address of an instance. *)
Definition source {B} (e : Iso14229.iso_world B) : Z := Iso14229.phys_sa (Iso14229.tp (Iso14229.iso e)).

Class BusLaws (B : Type) `{!BusVars B} `{!BusCan B} `{!Server (Iso14229.iso_world B)} := {
  view_of : B -> board_view;
  node_law : forall b, node b = vars (view_of b);
  set_node_law : forall s b, view_of (set_node s b) = with_vars s (view_of b);
  send_law : forall fr b, exists rc b', can_send fr b = Ret rc b' /\
    (rc = 0 /\ view_of b' = with_sent fr (view_of b) \/ rc <> 0 /\ view_of b' = view_of b);
  add_law : forall cb f b, exists id b', can_add_rx_filter cb f b = Ret id b' /\
    (0 <= id /\ filters (view_of b) !! id = None /\ view_of b' = with_filters (<[id := (cb, f)]> (filters (view_of b))) (view_of b) \/
     id < 0 /\ view_of b' = view_of b);
  remove_law : forall id b, exists b', can_remove_rx_filter id b = Ret tt b' /\
    view_of b' = with_filters (delete id (filters (view_of b))) (view_of b);
  copy_law : forall bs n (e : Iso14229.iso_world B), 0 <= n <= Z.of_nat (length bs) -> exists r e',
    server_copy (Some bs) n e = Ret r e' /\ source e' = source e /\
    view_of (Iso14229.iso_ext e') =
      if decide (r = UDS_OK) then with_reply (take (Z.to_nat n) bs) (view_of (Iso14229.iso_ext e)) else view_of (Iso14229.iso_ext e);
}.

(** No error of the controller: every frame is sent and there is room for
    every filter. *)
Class HealthyBus (B : Type) `{!BusCan B} := {
  send_ok : forall fr (b : B) rc b', can_send fr b = Ret rc b' -> rc = 0;
  add_ok : forall cb f (b : B) id b', can_add_rx_filter cb f b = Ret id b' -> 0 <= id;
}.

(** ** Running the code of a board *)

Section running.
Context {B : Type} `{!BusVars B} `{!BusCan B} `{!Server (Iso14229.iso_world B)} `{!BusLaws B}.
Implicit Types (v : board_view).

(** The source address, and what is seen of the board. *)
Definition seen (e : Iso14229.iso_world B) : Z * board_view := (source e, view_of (Iso14229.iso_ext e)).

Lemma b_node (Q : bus_node -> board_view -> Prop) v : Q (vars v) v -> vwp view_of (gets node) Q v.
Proof. apply vwp_gets, node_law. Qed.

Lemma b_update f (Q : unit -> board_view -> Prop) v : Q tt (with_vars (f (vars v)) v) -> vwp view_of (update f) Q v.
Proof.
  intros HQ. unfold update. apply (vwp_modify _ _ (fun v => with_vars (f (vars v)) v)); [|done].
  intros b. by rewrite set_node_law, node_law.
Qed.

Lemma b_stack (Q : can_frame -> board_view -> Prop) v : (forall fr, Q fr v) -> vwp view_of (gets stack_contents) Q v.
Proof. intros HQ b <-. by eexists _, b. Qed.

Lemma b_lock (Q : unit -> board_view -> Prop) v : data_mutex_locked (vars v) = false ->
  Q tt (with_vars (set_data_mutex_locked true (vars v)) v) -> vwp view_of lock_data Q v.
Proof. intros Hl HQ. apply vwp_bind, b_node. rewrite Hl. by apply b_update. Qed.

Lemma b_send_ok `{!HealthyBus B} fr (Q : Z -> board_view -> Prop) v : Q 0 (with_sent fr v) -> vwp view_of (can_send fr) Q v.
Proof.
  intros HQ b <-. destruct (send_law fr b) as (rc & b' & Hrun & Hcase). pose proof (send_ok _ _ _ _ Hrun) as ->.
  destruct Hcase as [[_ Hv]|[? _]]; [|done]. exists 0, b'. by rewrite Hv.
Qed.

Lemma b_add_ok `{!HealthyBus B} cb f (Q : Z -> board_view -> Prop) v :
  (forall id, 0 <= id -> filters v !! id = None -> Q id (with_filters (<[id := (cb, f)]> (filters v)) v)) ->
  vwp view_of (can_add_rx_filter cb f) Q v.
Proof.
  intros HQ b <-. destruct (add_law cb f b) as (id & b' & Hrun & Hcase). pose proof (add_ok _ _ _ _ _ Hrun).
  destruct Hcase as [(Hid & Hnew & Hv)|[? _]]; [|lia]. exists id, b'. rewrite Hv. auto.
Qed.

Lemma b_remove id (Q : unit -> board_view -> Prop) v : Q tt (with_filters (delete id (filters v)) v) ->
  vwp view_of (can_remove_rx_filter id) Q v.
Proof. intros HQ b <-. destruct (remove_law id b) as (b' & Hrun & Hv). exists tt, b'. by rewrite Hv. Qed.

Lemma b_on_board {A} (m : M B A) (Q : A -> Z * board_view -> Prop) w sa v :
  vwp view_of m (fun a v' => Q a (sa, v')) v -> hvwp seen (on_board m) Q w (sa, v).
Proof.
  intros Hm. apply hvwp_on_ext. intros e [= Hsa Hv]. destruct (Hm _ Hv) as (a & b' & Hrun & HQ).
  exists a, (Iso14229.IsoWorld (Iso14229.iso e) b'). unfold Iso14229.env, zoom. rewrite Hrun. split; [done|].
  unfold seen, source in *. cbn. by rewrite Hsa.
Qed.

Lemma b_copy bs n (Q : UDSErr_t -> Z * board_view -> Prop) w sa v : 0 <= n < 2 ^ 16 -> n <= Z.of_nat (length bs) ->
  Q UDS_OK (sa, with_reply (take (Z.to_nat n) bs) v) -> (forall r, r <> UDS_OK -> Q r (sa, v)) ->
  hvwp seen (on_ext (server_copy (Some bs) n)) Q w (sa, v).
Proof.
  intros Hn Hl Hok Hno. apply hvwp_on_ext. intros e [= Hsa Hv].
  destruct (copy_law bs n e) as (r & e' & Hrun & Hsa' & Hv'); [lia|]. exists r, e'. split; [done|].
  unfold seen. rewrite Hsa', Hsa, Hv', Hv. destruct (decide (r = UDS_OK)) as [->|Hr]; auto.
Qed.
End running.

(** Compute the variables. *)
Ltac b_simpl := lazy beta iota delta [with_vars with_filters with_sent with_reply vars filters sent reply
  running routine_result data_mutex_locked controller_receive_sem controller_received_frame controller can_receive_addr can_send_addr
  receive_can_filter_id received_can_frame work_queue
  set_running set_routine_result set_data_mutex_locked set_controller_receive_sem set_controller_received_frame set_controller
  set_can_receive_addr set_can_send_addr set_receive_can_filter_id set_received_can_frame set_work_queue copy_result fst snd].

Ltac b_step :=
  lazymatch goal with
  | |- vwp _ (ret _) _ _ => apply vwp_ret
  | |- vwp _ (bind _ _) _ _ => apply vwp_bind
  | |- vwp _ (gets node) _ _ => apply b_node
  | |- vwp _ (gets stack_contents) _ _ => apply b_stack; intros ?stack
  | |- vwp _ (update _) _ _ => apply b_update
  | |- vwp _ lock_data _ _ => apply b_lock; [cbn; (done || congruence)|]
  | |- vwp _ unlock_data _ _ => apply b_update
  | |- vwp _ k_sem_give _ _ => apply b_update
  | |- vwp _ (set_status_byte _) _ _ => apply b_update
  | |- vwp _ (can_send _) _ _ => apply b_send_ok
  | |- vwp _ (can_remove_rx_filter _) _ _ => apply b_remove
  | |- vwp _ (of_option _ _) _ _ => eapply vwp_of_option; [reflexivity|]
  | |- vwp _ (if ?b then _ else _) _ _ => first [change b with true | change b with false]
  | |- hvwp _ (if ?b then _ else _) _ _ _ => first [change b with true | change b with false]
  | |- hvwp _ (ret _) _ _ _ => apply hvwp_ret
  | |- hvwp _ (bind _ _) _ _ _ => apply hvwp_bind
  | |- hvwp _ (on_board _) _ _ _ => apply b_on_board
  | |- hvwp _ (of_option _ _) _ _ _ => eapply hvwp_of_option; [reflexivity|]
  end; b_simpl.
Ltac b_run := repeat b_step.

(** ** The bus

    Every frame is received by all other boards when it is sent: the callbacks
    of the matching filters run.  A turn of the bus is a turn of the work queue
    of one board. *)

Section bus.
Context {B : Type} `{!BusVars B} `{!BusCan B} `{!Server (Iso14229.iso_world B)} `{!BusLaws B}.

#[local] Abbreviation W := (world (Iso14229.iso_world B)) (only parsing).

Definition matches (fr : can_frame) (f : can_filter) : Prop := Z.land (can_id fr) (filter_mask f) = Z.land (filter_id f) (filter_mask f).

#[export] Instance matches_dec fr f : Decision (matches fr f).
Proof. unfold matches. apply _. Defined.

Definition called (fr : can_frame) (v : board_view) : list rx_callback :=
  (fun x => x.2.1) <$> filter (fun x => matches fr x.2.2) (map_to_list (filters v)).

Fixpoint run_callbacks (cbs : list rx_callback) (fr : can_frame) : M B unit :=
  match cbs with [] => ret tt | cb :: cbs => run_rx_callback cb fr ;; run_callbacks cbs fr end.

Definition hear (fr : can_frame) : M W unit :=
  let* w := gets (fun w => w) in on_board (run_callbacks (called fr (seen (ext w)).2) fr).

Fixpoint hear_all (frs : list can_frame) : M W unit :=
  match frs with [] => ret tt | fr :: frs => hear fr ;; hear_all frs end.

(** The boards from number [k] on, without board [i]. *)
Fixpoint others_hear (k i : nat) (frs : list can_frame) (ws : list W) : outcome (list W) unit :=
  match ws with
  | [] => Ret tt []
  | w :: ws =>
      match (if decide (k = i) then Ret tt w else hear_all frs w), others_hear (S k) i frs ws with
      | Ret _ w', Ret _ ws' => Ret tt (w' :: ws')
      | Fault f, _ | _, Fault f => Fault f
      end
  end.

Definition frames_of (w : W) : list can_frame := sent (seen (ext w)).2.

(** Board [i] runs [m]; the others hear what it sends. *)
Definition on_bus {A} (i : nat) (m : M W A) : M (list W) A := fun ws =>
  match ws !! i with
  | None => Fault NullPointer
  | Some w =>
      match m w with
      | Ret a w' =>
          match others_hear 0 i (drop (length (frames_of w)) (frames_of w')) (<[i := w']> ws) with
          | Ret _ ws' => Ret a ws'
          | Fault f => Fault f
          end
      | Fault f => Fault f
      end
  end.

Definition bus_turn (i : nat) : M (list W) unit :=
  let* ws := gets (fun ws => ws) in
  if decide (i < length ws)%nat then on_bus i (work_queue_turn false) else ret tt.

Lemma called_singleton fr v id cb f : filters v = {[id := (cb, f)]} -> called fr v = if decide (matches fr f) then [cb] else [].
Proof.
  intros Hf. unfold called. rewrite Hf, map_to_list_singleton, filter_cons, filter_nil. cbn. by destruct (decide (matches fr f)).
Qed.

Lemma hear_run fr cbs (Q : unit -> Z * board_view -> Prop) (w : W) sa v :
  called fr v = cbs -> vwp view_of (run_callbacks cbs fr) (fun a v' => Q a (sa, v')) v -> hvwp seen (hear fr) Q w (sa, v).
Proof.
  intros Hc Hm e He. destruct (b_on_board _ Q w sa v Hm e He) as (a & e' & Hrun & HQ). exists a, e'. split; [|done].
  unfold hear, bind, gets. cbn [ext set_ext]. rewrite He. cbn [snd]. by rewrite Hc.
Qed.

Lemma others_hear_run (R : nat -> W -> W -> Prop) i frs : forall ws k,
  (forall j w, ws !! j = Some w -> (k + j)%nat <> i -> exists w', hear_all frs w = Ret tt w' /\ R (k + j)%nat w w') ->
  (forall j w, ws !! j = Some w -> (k + j)%nat = i -> R (k + j)%nat w w) ->
  exists ws', others_hear k i frs ws = Ret tt ws' /\ length ws' = length ws /\
    forall j w, ws !! j = Some w -> exists w', ws' !! j = Some w' /\ R (k + j)%nat w w'.
Proof.
  induction ws as [|w ws IH]; intros k Hothers Hself; [by exists []|].
  destruct (IH (S k)) as (ws' & Hrun & Hlen & Hall).
  { intros j w1 Hj Hne. destruct (Hothers (S j) w1 Hj) as (w' & H1 & H2); [lia|]. exists w'. by rewrite <- Nat.add_succ_comm in H2. }
  { intros j w1 Hj Heq. specialize (Hself (S j) w1 Hj). rewrite <- Nat.add_succ_comm in Hself. auto. }
  assert (exists w', (if decide (k = i) then Ret tt w else hear_all frs w) = Ret tt w' /\ R k w w') as (w' & Hw & HR).
  { destruct (decide (k = i)) as [Heq|Hne].
    - exists w. split; [done|]. specialize (Hself 0%nat w eq_refl). rewrite Nat.add_0_r in Hself. auto.
    - specialize (Hothers 0%nat w eq_refl). rewrite Nat.add_0_r in Hothers. auto. }
  exists (w' :: ws'). cbn [others_hear]. rewrite Hw, Hrun. split; [done|]. split; [by cbn; rewrite Hlen|].
  intros [|j] w1 Hj; cbn in *.
  - injection Hj as <-. exists w'. by rewrite Nat.add_0_r.
  - destruct (Hall j w1 Hj) as (w2 & H1 & H2). exists w2. by rewrite <- Nat.add_succ_comm.
Qed.

Lemma others_hear_nil i ws : forall k, others_hear k i [] ws = Ret tt ws.
Proof. induction ws as [|w ws IH]; intros k; [done|]. cbn [others_hear]. rewrite IH. by case_decide. Qed.

(** Code that sends nothing. *)
Lemma on_bus_quiet {A} i (m : M W A) Q ws w : ws !! i = Some w ->
  hvwp seen m (fun a x' => sent x'.2 = sent (seen (ext w)).2 /\ Q a x') w (seen (ext w)) ->
  exists a e', on_bus i m ws = Ret a (<[i := set_ext e' w]> ws) /\ Q a (seen e').
Proof.
  intros Hi Hm. destruct (hvwp_run _ _ _ _ Hm) as (a & e' & Hrun & Hs & HQ). exists a, e'. split; [|done].
  unfold on_bus, frames_of. rewrite Hi, Hrun. cbn [ext set_ext]. by rewrite Hs, drop_ge, others_hear_nil.
Qed.

(** The boards after board [i] became [w'] and the others heard its frames. *)
Lemma others_hear_boards (R : nat -> W -> W -> Prop) i frs ws w w' : ws !! i = Some w -> R i w w' ->
  (forall j w0, j <> i -> ws !! j = Some w0 -> exists w1, hear_all frs w0 = Ret tt w1 /\ R j w0 w1) ->
  exists ws', others_hear 0 i frs (<[i := w']> ws) = Ret tt ws' /\ length ws' = length ws /\
    forall j w0, ws !! j = Some w0 -> exists w1, ws' !! j = Some w1 /\ R j w0 w1.
Proof.
  intros Hi Hw' Hothers.
  destruct (others_hear_run (fun j w0 w1 => if decide (j = i) then w1 = w0 else R j w0 w1) i frs (<[i := w']> ws) 0) as (ws' & Hrun & Hlen & Hall).
  - intros j w0 Hj Hne. cbn in Hne |- *. rewrite list_lookup_insert_ne in Hj by done. destruct (Hothers j w0 Hne Hj) as (w1 & H1 & H2).
    exists w1. by rewrite decide_False.
  - intros j w0 _ Heq. by rewrite decide_True.
  - rewrite length_insert in Hlen. exists ws'. split_and!; [done..|]. intros j w0 Hj. destruct (decide (j = i)) as [->|Hne].
    + destruct (Hall i w') as (w1 & Hw1 & HR); [apply list_lookup_insert_eq; by eapply lookup_lt_Some|].
      cbn in Hw1, HR. rewrite decide_True in HR by done. subst w1. exists w'. by simplify_eq.
    + destruct (Hall j w0) as (w1 & Hw1 & HR); [by rewrite list_lookup_insert_ne|]. cbn in Hw1, HR. rewrite decide_False in HR by done. by exists w1.
Qed.
End bus.

(** ** The chain of signatures *)

Definition signature (sa : Z) : Z := Z.lxor 0xde (Z.land sa 0xff).

Section chain.
(** [n] workers: worker [j] has the source address [address j] and waits for
    the identifier [hop j]; the controller is board 0. *)
Context (n : nat) (address hop : nat -> Z).

Definition signatures (k : nat) : list Z := (fun j => signature (address j)) <$> seq 1 k.

(** What the frame carries after [k] workers. *)
Definition payload (k : nat) : list Z := 0xde :: signatures k.
Definition chain_frame (k : nat) : can_frame :=
  CanFrame (hop (S k)) (Z.of_nat (S k)) 0 (payload k ++ replicate (7 - k) 0).

(** The frame has room for all signatures; every worker waits for an
    identifier of its own, the first for that of the first frame, and the last
    sends to the controller. *)
Record chain_ok : Prop := ChainOk {
  chain_length : (1 <= n <= 7)%nat;
  hop_first : hop 1 = CONTROLLER_CAN_SEND_ADDR;
  hop_last : hop (S n) = CONTROLLER_CAN_RECEIVE_ADDR;
  hop_std : forall j, (1 <= j <= S n)%nat -> 0 <= hop j <= CAN_STD_ID_MASK;
  hop_apart : forall i j, (1 <= i <= S n)%nat -> (1 <= j <= S n)%nat -> hop i = hop j -> i = j;
}.

Lemma length_payload k : length (payload k) = S k.
Proof. unfold payload, signatures. cbn. by rewrite length_fmap, length_seq. Qed.

Lemma payload_S k : payload (S k) = payload k ++ [signature (address (S k))].
Proof. unfold payload, signatures. by rewrite seq_S, fmap_app. Qed.

(** A worker appends its signature. *)
Lemma sign k : (k < 7)%nat ->
  <[S k := signature (address (S k))]> (payload k ++ replicate (7 - k) 0) = payload (S k) ++ replicate (7 - S k) 0.
Proof.
  intros Hk. rewrite payload_S, <- (assoc_L app). replace (7 - k)%nat with (S (7 - S k)) by lia. cbn [replicate].
  rewrite insert_app_r_alt by (rewrite length_payload; lia). by rewrite length_payload, Nat.sub_diag.
Qed.

(** The frame is at the start ([0]), with worker [p], with the controller
    ([n + 1]), taken by it ([n + 2]), or its data are the result ([n + 3]). *)
Definition worker_ok (p j : nat) (x : Z * board_view) : Prop :=
  x.1 = address j /\ controller (vars x.2) = ControllerIdle /\ can_send_addr (vars x.2) = hop (S j) /\
  (exists id, filters x.2 = {[id := (worker_rx_cb, CanFilter (hop j) CAN_STD_ID_MASK)]}) /\
  (if decide (p = j) then work_queue (vars x.2) = [can_rx_cb_work] /\ received_can_frame (vars x.2) = chain_frame (pred j)
   else work_queue (vars x.2) = []).

Definition waits (id : Z) (frame : option can_frame) (v : board_view) : Prop :=
  controller_received_frame (vars v) = frame /\ is_Some frame /\ work_queue (vars v) = [] /\
  filters v = {[id := (controller_routine_rx_cb, CanFilter CONTROLLER_CAN_RECEIVE_ADDR CAN_STD_ID_MASK)]}.

Definition controller_ok (p : nat) (x : Z * board_view) : Prop :=
  let v := x.2 in
  data_mutex_locked (vars v) = false /\ length (routine_result (vars v)) = 9%nat /\
  if decide (p = 0%nat) then
    controller (vars v) = ControllerIdle /\ work_queue (vars v) = [controller_routine_work] /\
    controller_receive_sem (vars v) = 0 /\ filters v = ∅
  else if decide (p <= n)%nat then
    exists id frame, controller (vars v) = ControllerWaiting id /\ controller_receive_sem (vars v) = 0 /\ waits id frame v
  else if decide (p = S n) then
    exists id, controller (vars v) = ControllerWaiting id /\ controller_receive_sem (vars v) = 1 /\ waits id (Some (chain_frame n)) v
  else if decide (p = S (S n)) then
    exists id, controller (vars v) = ControllerWoken 0 id /\ controller_receive_sem (vars v) = 0 /\ waits id (Some (chain_frame n)) v
  else
    controller (vars v) = ControllerIdle /\ work_queue (vars v) = [] /\ running (vars v) = false /\ filters v = ∅ /\
    controller_receive_sem (vars v) = 0 /\
    take (2 + n) (routine_result (vars v)) = controller_routine_status_value CONTROLLER_ROUTINE_STATUS__SUCCESS :: payload n.

(** The board whose turn moves the frame on. *)
Definition holder (p : nat) : nat := if decide (p <= n)%nat then p else 0%nat.

(** The frame sent when it is moved on. *)
Definition passed_on (p : nat) : list can_frame := if decide (p <= n)%nat then [chain_frame p] else [].

Context {B : Type} `{!BusVars B} `{!BusCan B} `{!Server (Iso14229.iso_world B)} `{!BusLaws B} `{!HealthyBus B}.
Implicit Types (w : world (Iso14229.iso_world B)) (v : board_view) (x : Z * board_view).

(** *** Turns of one board *)

Lemma idle_turn w x : controller (vars x.2) = ControllerIdle -> work_queue (vars x.2) = [] ->
  hvwp seen (work_queue_turn false) (fun _ x' => x' = x) w x.
Proof. destruct x as [sa [ [run res mu sem fr pc ra sd fid rf q] fs se re] ]. cbn. intros -> ->. unfold work_queue_turn. by b_run. Qed.

(** The address the instance has. *)
Lemma b_config (Q : Z * option Iso14229.UDSISOTpCConfig_t -> Z * board_view -> Prop) w sa v :
  (forall ta fa ft, Q (0, Some (Iso14229.IsoTpConfig sa ta fa ft)) (sa, v)) ->
  hvwp seen (Iso14229.uds_get_isotp_config false false) Q w (sa, v).
Proof. intros HQ e [= <- <-]. eexists _, e. split; [reflexivity|]. apply HQ. Qed.

Lemma worker_turn w j x : (1 <= j <= 7)%nat -> worker_ok j j x ->
  hvwp seen (work_queue_turn false)
    (fun _ x' => worker_ok (S j) j x' /\ sent x'.2 = sent x.2 ++ [chain_frame j] /\ reply x'.2 = reply x.2) w x.
Proof.
  destruct x as [sa [ [run res mu sem fr pc ra sd fid rf q] fs se re] ]. intros Hj (Hsa & Hc & Hto & Hf & Hqr).
  rewrite decide_True in Hqr by done. destruct Hqr as [Hq Hrec]. cbn in *. subst.
  unfold work_queue_turn. b_run. unfold can_rx_cb_work_handler. b_run. destruct j as [|k]; [lia|].
  cbn [pred chain_frame can_dlc can_data can_flags]. rewrite (proj2 (Z.ltb_ge _ _)) by (unfold CAN_MAX_DLC; lia).
  b_run. apply b_config. intros ta fa ft. b_run.
  cbn [Iso14229.source_addr]. change (Z.lxor 0xde (Z.land (address (S k)) 0xff)) with (signature (address (S k))).
  rewrite Nat2Z.id, sign by lia. split; [|split; [|done] ].
  - split_and!; try done. rewrite decide_False by lia. done.
  - cbn. unfold chain_frame. do 3 f_equal. lia.
Qed.

(** What a turn does not change, apart from the frames it sends. *)
Definition turn_sends (frs : list can_frame) x x' : Prop := x'.1 = x.1 /\ sent x'.2 = sent x.2 ++ frs /\ reply x'.2 = reply x.2.

Lemma controller_waits w p x : (1 <= p <= n)%nat -> controller_ok p x -> hvwp seen (work_queue_turn false) (fun _ x' => x' = x) w x.
Proof.
  destruct x as [sa [ [run res mu sem fr pc ra sd fid rf q] fs se re] ]. intros Hp (Hm & Hl & Hcase).
  rewrite decide_False, decide_True in Hcase by lia. cbn in Hcase. destruct Hcase as (id & frame & -> & -> & _).
  unfold work_queue_turn. b_run. unfold controller_routine_wait. by b_run.
Qed.

(** The nine bytes of the result, after a frame of this length. *)
Lemma result_bytes (st : Z) res : (n <= 7)%nat -> length res = 9%nat -> let res' := <[0%nat := st]> res in
  let out := take 1 res' ++ take (Z.to_nat (Z.min (can_dlc (chain_frame n)) 8)) (can_data (chain_frame n)) ++
             drop (1 + Z.to_nat (Z.min (can_dlc (chain_frame n)) 8)) res' in
  length out = 9%nat /\ take (2 + n) out = st :: payload n.
Proof.
  intros Hn Hl. cbn [chain_frame can_dlc can_data]. replace (Z.to_nat (Z.of_nat (S n) `min` 8)) with (S n) by lia.
  destruct res as [|r res]; [discriminate Hl|]. cbn in Hl. injection Hl as Hl. pose proof (length_payload n) as Hp.
  set (data := payload n) in *. clearbody data. rewrite take_app_le, (take_ge data) by lia.
  cbn [insert list_insert take app Nat.add drop]. rewrite take_0, app_nil_l. split.
  - cbn [length]. rewrite length_app, length_drop. lia.
  - f_equal. by rewrite take_app_le, take_ge by lia.
Qed.

Lemma controller_turn w p x : chain_ok -> (p = 0 \/ p = S n \/ p = S (S n))%nat -> controller_ok p x ->
  hvwp seen (work_queue_turn false) (fun _ x' => controller_ok (S p) x' /\ turn_sends (passed_on p) x x') w x.
Proof.
  destruct x as [sa [ [run res mu sem fr pc ra sd fid rf q] fs se re] ]. intros Hok Hp (Hm & Hl & Hcase). pose proof (chain_length Hok) as Hn.
  cbn in Hm, Hl. subst mu. b_simpl. unfold controller_ok, turn_sends, passed_on, waits in *.
  destruct Hp as [->|[->| ->] ]; repeat first [rewrite decide_False in Hcase by lia | rewrite decide_True in Hcase by lia]; cbn in Hcase.
  - destruct Hcase as (-> & -> & -> & ->). unfold work_queue_turn. b_run. unfold controller_routine_start. b_run.
    apply b_add_ok. intros id Hid _. b_run.
    split; [|rewrite decide_True by lia; split_and!; [done| |done] ].
    + rewrite decide_False, decide_True by lia. split_and!; [done..|]. eexists id, _. by split_and!.
    + f_equal. unfold chain_frame, initial_frame. by rewrite (hop_first Hok).
  - destruct Hcase as (id & -> & -> & Hfr & Hs & -> & ->). unfold work_queue_turn. b_run. unfold controller_routine_wait. b_run.
    rewrite !decide_False, decide_True by lia. rewrite decide_False by lia. rewrite app_nil_r. split; [|done]. split_and!; [done..|]. by exists id.
  - destruct Hcase as (id & -> & -> & -> & _ & -> & ->). unfold work_queue_turn. b_run. unfold controller_routine_finish. b_run.
    rewrite !decide_False by lia. rewrite app_nil_r. split; [|done].
    destruct (result_bytes (controller_routine_status_value CONTROLLER_ROUTINE_STATUS__SUCCESS) res ltac:(lia) Hl) as [Hlen Htake].
    split_and!; try done. by rewrite delete_singleton_eq.
Qed.

(** *** All boards *)

Definition board_ok (p j : nat) x : Prop := if decide (j = 0%nat) then controller_ok p x else worker_ok p j x.

Lemma hop_land j : chain_ok -> (1 <= j <= S n)%nat -> Z.land (hop j) CAN_STD_ID_MASK = hop j.
Proof. intros Hok Hj. pose proof (hop_std Hok j Hj). change CAN_STD_ID_MASK with (Z.ones 11). rewrite Z.land_ones, Z.mod_small; unfold CAN_STD_ID_MASK in *; lia. Qed.

Lemma chain_matches p j : chain_ok -> (p <= n)%nat -> (1 <= j <= S n)%nat ->
  matches (chain_frame p) (CanFilter (hop j) CAN_STD_ID_MASK) <-> j = S p.
Proof.
  intros Hok Hp Hj. unfold matches. cbn [chain_frame can_id filter_mask filter_id]. rewrite !hop_land by (done || lia). split; [|by intros ->].
  intros Heq. symmetry. apply (hop_apart Hok); [lia|lia|done].
Qed.

Lemma holder_turn w p x : chain_ok -> (p <= n + 2)%nat -> board_ok p (holder p) x ->
  hvwp seen (work_queue_turn false) (fun _ x' => board_ok (S p) (holder p) x' /\ turn_sends (passed_on p) x x') w x.
Proof.
  intros Hok Hp Hx. pose proof (chain_length Hok). unfold board_ok, holder in *.
  destruct (decide (p <= n)%nat) as [Hle|Hgt]; [destruct (decide (p = 0%nat)) as [Hz|Hz]|].
  - apply controller_turn; [done|by left|done].
  - eapply hvwp_mono; [apply worker_turn with (j := p); [lia|done]|]. cbn beta. intros _ x' (Hx' & Hs & Hr). split; [done|].
    unfold turn_sends, passed_on. rewrite decide_True by done. destruct Hx as [? _], Hx' as [? _]. split_and!; [congruence|done..].
  - apply controller_turn; [done|lia|done].
Qed.

Lemma other_turn w p j x : chain_ok -> (j <= n)%nat -> j <> holder p \/ (n + 2 < p)%nat -> board_ok p j x ->
  hvwp seen (work_queue_turn false) (fun _ x' => x' = x) w x.
Proof.
  intros Hok Hj Hne Hx. pose proof (chain_length Hok). unfold board_ok, holder in *.
  destruct (decide (j = 0%nat)) as [->|Hj0].
  - destruct (decide (p <= n)%nat) as [Hle|Hgt]; [apply controller_waits with p; [lia|done]|].
    destruct Hx as (_ & _ & Hcase). repeat (rewrite decide_False in Hcase by lia). apply idle_turn; tauto.
  - destruct Hx as (_ & Hc & _ & _ & Hq). apply idle_turn; [done|]. rewrite decide_False in Hq; [done|].
    intros ->. rewrite decide_True in Hne by lia. lia.
Qed.

Lemma worker_hears w p j x : chain_ok -> (1 <= j <= n)%nat -> (p <= n)%nat -> j <> p -> worker_ok p j x ->
  hvwp seen (hear (chain_frame p)) (fun _ x' => worker_ok (S p) j x' /\ turn_sends [] x x') w x.
Proof.
  destruct x as [sa [ [run res mu sem fr pc ra sd fid rf q] fs se re] ]. intros Hok Hj Hp Hne (Hsa & Hc & Hto & (id & Hf) & Hq).
  rewrite decide_False in Hq by done. cbn in *. subst. eapply hear_run; [by eapply called_singleton|].
  unfold turn_sends, worker_ok. destruct (decide (matches _ _)) as [Hm|Hm]; rewrite (chain_matches _ _ Hok) in Hm by lia.
  - subst j. cbn [run_callbacks run_rx_callback]. unfold worker_rx, k_work_submit. b_run.
    change (if decide (can_rx_cb_work ∈ @nil bus_work) then ?a else ?b) with b. b_run. rewrite app_nil_r. split; [|done].
    split_and!; try done; [by exists id|]. by rewrite decide_True.
  - cbn [run_callbacks]. b_run. rewrite app_nil_r. split; [|done]. split_and!; try done; [by exists id|]. by rewrite decide_False by lia.
Qed.

Lemma controller_hears w p x : chain_ok -> (1 <= p <= n)%nat -> controller_ok p x ->
  hvwp seen (hear (chain_frame p)) (fun _ x' => controller_ok (S p) x' /\ turn_sends [] x x') w x.
Proof.
  destruct x as [sa [ [run res mu sem fr pc ra sd fid rf q] fs se re] ]. intros Hok Hp (Hm & Hl & Hcase).
  rewrite decide_False, decide_True in Hcase by lia. cbn in *. destruct Hcase as (id & frame & -> & -> & Hfr & [f ->] & Hq & Hf).
  cbn in Hfr, Hq, Hf. subst. eapply hear_run; [by eapply called_singleton|]. unfold turn_sends, controller_ok, waits.
  assert (matches (chain_frame p) (CanFilter CONTROLLER_CAN_RECEIVE_ADDR CAN_STD_ID_MASK) <-> p = n) as Hiff.
  { rewrite <- (hop_last Hok), (chain_matches _ _ Hok) by lia. lia. }
  destruct (decide (matches _ _)) as [Hm|Hm]; rewrite Hiff in Hm.
  - subst p. cbn [run_callbacks run_rx_callback]. unfold controller_routine_rx. b_run. rewrite app_nil_r. split; [|done].
    rewrite !decide_False, decide_True by lia. split_and!; [done..|]. by exists id.
  - cbn [run_callbacks]. b_run. rewrite app_nil_r. split; [|done].
    rewrite decide_False, decide_True by lia. split_and!; [done..|]. by exists id, (Some f).
Qed.

Lemma other_hears w p j x : chain_ok -> (j <= n)%nat -> j <> holder p -> (p <= n + 2)%nat -> board_ok p j x ->
  hvwp seen (hear_all (passed_on p)) (fun _ x' => board_ok (S p) j x' /\ turn_sends [] x x') w x.
Proof.
  intros Hok Hj Hne Hp Hx. unfold board_ok, holder, passed_on in *. destruct (decide (p <= n)%nat) as [Hle|Hgt]; cbn [hear_all].
  - apply hvwp_bind. eapply hvwp_mono; [|intros u x' Hx'; apply hvwp_ret; exact Hx']. cbn beta.
    destruct (decide (j = 0%nat)) as [->|Hj0]; [apply controller_hears; (done || lia)|apply worker_hears; (done || lia)].
  - rewrite decide_False in Hx by done. destruct x as [sa v]. apply hvwp_ret. rewrite decide_False by done. split.
    + destruct Hx as (? & ? & ? & ? & Hq). split_and!; try done. rewrite decide_False in Hq by lia. by rewrite decide_False by lia.
    + split_and!; [done|by rewrite app_nil_r|done].
Qed.

(** The boards when the frame is at [p], and what of a board stays. *)
Definition stage (p : nat) (ws : list (world (Iso14229.iso_world B))) : Prop :=
  length ws = S n /\ (p <= n + 3)%nat /\ forall j w, ws !! j = Some w -> board_ok p j (seen (ext w)).

Definition same_board w w' : Prop :=
  (exists e', w' = set_ext e' w) /\ (seen (ext w')).1 = (seen (ext w)).1 /\ reply (seen (ext w')).2 = reply (seen (ext w)).2.

Definition same_boards (ws ws' : list (world (Iso14229.iso_world B))) : Prop :=
  forall j w, ws !! j = Some w -> exists w', ws' !! j = Some w' /\ same_board w w'.

#[export] Instance same_board_reflexive : Reflexive same_board.
Proof. intros w. split_and!; [|done|done]. exists (ext w). by rewrite set_ext_ext. Qed.

#[export] Instance same_board_transitive : Transitive same_board.
Proof. intros w1 w2 w3 ([e1 ->] & Hs1 & Hr1) ([e2 ->] & Hs2 & Hr2). split_and!; [by exists e2|congruence|congruence]. Qed.

#[export] Instance same_boards_preorder : PreOrder same_boards.
Proof.
  split; [intros ws j w Hj; by exists w|]. intros ws1 ws2 ws3 H1 H2 j w Hj.
  destruct (H1 j w Hj) as (w1 & Hj1 & Hs1). destruct (H2 j w1 Hj1) as (w2 & Hj2 & Hs2). exists w2. split; [done|]. by etrans.
Qed.

(** A turn of board [i] moves the frame on if the board has it. *)
Definition advance (i p : nat) : nat := if decide (i = holder p /\ (p <= n + 2)%nat) then S p else p.

Lemma turn_same w x' frs e' : x' = seen e' -> turn_sends frs (seen (ext w)) x' -> same_board w (set_ext e' w).
Proof. intros -> (Hs & _ & Hr). split_and!; [by eexists|done|done]. Qed.

(** Board [i] becomes [w'], and the others are as far when they have heard it. *)
Lemma boards_follow {A} i p' (m : M (world (Iso14229.iso_world B)) A) a frs ws w w' :
  ws !! i = Some w -> m w = Ret a w' -> frames_of w' = frames_of w ++ frs -> length ws = S n -> (p' <= n + 3)%nat ->
  board_ok p' i (seen (ext w')) -> same_board w w' ->
  (forall j w0, j <> i -> ws !! j = Some w0 -> exists e0, hear_all frs w0 = Ret tt (set_ext e0 w0) /\ board_ok p' j (seen e0) /\
     turn_sends [] (seen (ext w0)) (seen e0)) ->
  exists ws', on_bus i m ws = Ret a ws' /\ stage p' ws' /\ same_boards ws ws'.
Proof.
  intros Hi Hm Hsent Hlen Hp' Hw' Hsame Hothers. unfold on_bus. rewrite Hi, Hm, Hsent, drop_app_length.
  destruct (others_hear_boards (fun j w0 w1 => board_ok p' j (seen (ext w1)) /\ same_board w0 w1) i frs ws w w') as (ws' & Hrun & Hl & Hall); [done..| |].
  - intros j w0 Hne Hj. destruct (Hothers j w0 Hne Hj) as (e0 & Hrun & Hb & Hs). exists (set_ext e0 w0). split_and!; [done|done|by eapply turn_same].
  - exists ws'. rewrite Hrun. split_and!; [done| |].
    + split_and!; [lia|done|]. intros j w1 Hj. destruct (lookup_lt_is_Some_2 ws j) as [w0 Hw0]; [rewrite <- Hl; by eapply lookup_lt_Some|].
      destruct (Hall j w0 Hw0) as (w2 & Hw2 & Hb & _). by simplify_eq.
    + intros j w0 Hj. destruct (Hall j w0 Hj) as (w1 & Hw1 & _ & Hs). by exists w1.
Qed.

Lemma bus_turn_run i p ws : chain_ok -> stage p ws ->
  exists ws', bus_turn i ws = Ret tt ws' /\ stage (advance i p) ws' /\ same_boards ws ws'.
Proof.
  intros Hok (Hlen & Hp & Hall). unfold bus_turn, advance, bind, gets. destruct (ws !! i) as [w|] eqn:Hi.
  2: { apply lookup_ge_None in Hi. rewrite decide_False by lia. exists ws. split_and!; [done| |by intros j w Hj; exists w].
       rewrite decide_False; [done|]. intros [-> _]. unfold holder in Hi. case_decide; lia. }
  rewrite decide_True by (by eapply lookup_lt_Some).
  assert (forall j w0, ws !! j = Some w0 -> (j <= n)%nat) as Hin by (intros j w0 Hj; apply lookup_lt_Some in Hj; lia).
  pose proof (Hall i w Hi) as Hbi. destruct (decide (i = holder p /\ (p <= n + 2)%nat)) as [ [Hh Hp2]|Hnot].
  - subst i. destruct (hvwp_run _ _ _ _ (holder_turn w p _ Hok Hp2 Hbi)) as ([] & e' & Hrun & Hb' & Hsends).
    pose proof Hsends as (_ & Hs & _).
    apply (boards_follow _ _ _ _ (passed_on p) _ w _ Hi Hrun Hs); [done|lia|done|by eapply turn_same|]. intros j w0 Hne Hj.
    destruct (hvwp_run _ _ _ _ (other_hears w0 p j _ Hok (Hin _ _ Hj) Hne Hp2 (Hall j w0 Hj))) as ([] & e0 & H0). by exists e0.
  - destruct (hvwp_run _ _ _ _ (other_turn w p i _ Hok (Hin _ _ Hi) ltac:(destruct (decide (i = holder p)); [right|left]; naive_solver lia) Hbi))
      as ([] & e' & Hrun & Hseen).
    assert (forall x, turn_sends [] x x) as Hnone by (intros x; split_and!; [done|by rewrite app_nil_r|done]).
    apply (boards_follow _ _ _ _ [] _ w _ Hi Hrun); [unfold frames_of; cbn [ext set_ext]; by rewrite Hseen, app_nil_r|done|done|cbn [ext set_ext]; by rewrite Hseen|eapply turn_same; [symmetry; exact Hseen|apply Hnone]|].
    intros j w0 Hne Hj. exists (ext w0). rewrite set_ext_ext. split_and!; [done|by apply Hall|done].
Qed.

(** Turns of any boards in any order. *)
Definition bus_turns (ts : list nat) : M (list (world (Iso14229.iso_world B))) (list unit) := run_ops bus_turn ts.

Definition progress (p : nat) (ts : list nat) : nat := List.fold_left (fun p i => advance i p) ts p.

Lemma bus_turns_run ts : forall p ws, chain_ok -> stage p ws ->
  exists rs ws', bus_turns ts ws = Ret rs ws' /\ stage (progress p ts) ws' /\ same_boards ws ws'.
Proof.
  induction ts as [|i ts IH]; intros p ws Hok Hst.
  { by exists [], ws. }
  destruct (bus_turn_run i p ws Hok Hst) as (ws1 & Hrun & Hst1 & Hsame1).
  destruct (IH _ _ Hok Hst1) as (rs & ws2 & Hrun2 & Hst2 & Hsame2). exists (tt :: rs), ws2.
  unfold bus_turns in *. cbn [run_ops]. rewrite (bind_step _ _ _ _ _ Hrun), (bind_step _ _ _ _ _ Hrun2). split_and!; [done|done|]. by etrans.
Qed.

(** In a round every board has a turn at least; [n + 3] rounds are enough. *)
Definition round (ts : list nat) : Prop := forall j, (j <= n)%nat -> j ∈ ts.

Lemma advance_le i p : (p <= n + 3)%nat -> (p <= advance i p <= n + 3)%nat.
Proof. intros Hp. unfold advance. case_decide; lia. Qed.

Lemma progress_le ts : forall p, (p <= n + 3)%nat -> (p <= progress p ts <= n + 3)%nat.
Proof.
  induction ts as [|i ts IH]; intros p Hp; [by cbn|]. pose proof (advance_le i p Hp). specialize (IH (advance i p)).
  cbn. unfold progress in IH. lia.
Qed.

Lemma progress_holder ts : forall p, (p <= n + 2)%nat -> holder p ∈ ts -> (S p <= progress p ts)%nat.
Proof.
  induction ts as [|i ts IH]; intros p Hp Hin; [by apply elem_of_nil in Hin|]. cbn. fold (progress (advance i p) ts).
  unfold advance at 1. case_decide as Hi.
  - pose proof (progress_le ts (S p)). lia.
  - apply IH; [done|]. apply elem_of_cons in Hin as [Heq|Hin]; [naive_solver|done].
Qed.

Lemma rounds_progress rounds : forall p, (p <= n + 3)%nat -> Forall round rounds ->
  (Nat.min (n + 3) (p + length rounds) <= progress p (concat rounds))%nat.
Proof.
  induction rounds as [|r rounds IH]; intros p Hp Hr; [cbn; lia|]. apply Forall_cons_1 in Hr as [Hr Hrs].
  cbn [concat]. unfold progress. rewrite List.fold_left_app. fold (progress p r). fold (progress (progress p r) (concat rounds)).
  pose proof (progress_le r p Hp) as Hle. specialize (IH (progress p r) ltac:(lia) Hrs). cbn [length].
  destruct (decide (p <= n + 2)%nat) as [Hlt|Hge].
  - assert (S p <= progress p r)%nat; [|lia]. apply progress_holder; [done|]. apply Hr. unfold holder. case_decide; lia.
  - lia.
Qed.
End chain.

(** ** Errors *)

Section errors.
Context {B : Type} `{!BusVars B} `{!BusCan B} `{!Server (Iso14229.iso_world B)} `{!BusLaws B}.
Implicit Types (w : world (Iso14229.iso_world B)) (v : board_view).

(** A frame with eight bytes is sent without a signature, and with the
    identifier it was received with: the next worker does not get it. *)
Lemma full_frame_keeps_identifier `{!HealthyBus B} w x : controller (vars x.2) = ControllerIdle -> work_queue (vars x.2) = [can_rx_cb_work] ->
  8 <= can_dlc (received_can_frame (vars x.2)) ->
  hvwp seen (work_queue_turn false) (fun _ x' => sent x'.2 = sent x.2 ++ [received_can_frame (vars x.2)]) w x.
Proof.
  destruct x as [sa [ [run res mu sem fr pc ra sd fid rf q] fs se re] ]. cbn. intros -> -> Hdlc. unfold work_queue_turn. b_run.
  unfold can_rx_cb_work_handler. b_run. rewrite (proj2 (Z.ltb_lt _ _)) by (unfold CAN_MAX_DLC; lia). by b_run.
Qed.

(** There is room for a filter, but no frame can be sent. *)
Class BusOff : Prop := {
  off_add : forall cb f (b : B) id b', can_add_rx_filter cb f b = Ret id b' -> filters (view_of b) = ∅ -> 0 <= id;
  off_send : forall fr (b : B) rc b', can_send fr b = Ret rc b' -> rc <> 0;
}.
Context `{!BusOff}.

Lemma b_send_fails fr (Q : Z -> board_view -> Prop) v : (forall rc, rc <> 0 -> Q rc v) -> vwp view_of (can_send fr) Q v.
Proof.
  intros HQ b <-. destruct (send_law fr b) as (rc & b' & Hrun & Hcase). pose proof (off_send _ _ _ _ Hrun) as Hrc.
  destruct Hcase as [[? _]|[_ Hv]]; [done|]. exists rc, b'. rewrite Hv. auto.
Qed.

Lemma b_add_first cb f (Q : Z -> board_view -> Prop) v : filters v = ∅ ->
  (forall id, 0 <= id -> Q id (with_filters {[id := (cb, f)]} v)) -> vwp view_of (can_add_rx_filter cb f) Q v.
Proof.
  intros Hf HQ b <-. destruct (add_law cb f b) as (id & b' & Hrun & Hcase). pose proof (off_add _ _ _ _ _ Hrun Hf).
  destruct Hcase as [(Hid & _ & Hv)|[? _]]; [|lia]. exists id, b'. rewrite Hv, Hf. auto.
Qed.

(** A frame that a board with one filter, for which [m] fails, cannot take. *)
Lemma hear_faults fr w f cb filter id : filters (seen (ext w)).2 = {[id := (cb, filter)]} -> matches fr filter ->
  on_board (run_rx_callback cb fr) w = Fault f -> hear fr w = Fault f.
Proof.
  intros Hf Hm Hrun. unfold hear, bind, gets. rewrite (called_singleton _ _ _ _ _ Hf), decide_True by done. cbn [run_callbacks].
  revert Hrun. unfold on_board, on_ext, Iso14229.env, zoom, bind. by destruct (run_rx_callback _ _ _).
Qed.

(** When the first frame cannot be sent, the routine reports the error but
    returns without removing its filter, and the filter's callback still has
    the address of the local variable of the function that returned: the next
    frame for the controller writes there. *)
Theorem failed_send_dangles w sa v fr : seen (ext w) = (sa, v) ->
  controller (vars v) = ControllerIdle -> work_queue (vars v) = [controller_routine_work] -> data_mutex_locked (vars v) = false ->
  filters v = ∅ -> can_id fr = CONTROLLER_CAN_RECEIVE_ADDR ->
  exists e', work_queue_turn false w = Ret tt (set_ext e' w) /\
    running (vars (seen e').2) = false /\
    routine_result (vars (seen e').2) = <[0%nat := controller_routine_status_value CONTROLLER_ROUTINE_STATUS__ERROR]> (routine_result (vars v)) /\
    hear fr (set_ext e' w) = Fault UseAfterFree.
Proof.
  intros Hseen Hc Hq Hm Hf Hid. destruct v as [ [run res mu sem f pc ra sd fid rf q] fs se re]. cbn in *. subst.
  destruct (hvwp_run seen (work_queue_turn false) (fun _ x' => controller_received_frame (vars x'.2) = None /\ running (vars x'.2) = false /\
    routine_result (vars x'.2) = <[0%nat := 1]> res /\
    exists id, filters x'.2 = {[id := (controller_routine_rx_cb, CanFilter CONTROLLER_CAN_RECEIVE_ADDR CAN_STD_ID_MASK)]}) w)
    as ([] & e' & Hrun & Hnone & Hr & Hres & id & Hfs).
  { rewrite Hseen. unfold work_queue_turn. b_run. unfold controller_routine_start. b_run. apply b_add_first; [done|]. intros id _. b_run.
    apply b_send_fails. intros rc Hrc. rewrite (proj2 (Z.eqb_neq _ _)) by done. b_run. split_and!; [done..|]. by exists id. }
  exists e'. split_and!; [done..|]. apply (hear_faults _ (set_ext e' w) _ _ _ _ Hfs); [by unfold matches; rewrite Hid|].
  unfold on_board, on_ext, Iso14229.env, zoom. cbn [ext set_ext run_rx_callback]. unfold controller_routine_rx, bind, gets.
  rewrite node_law. unfold seen in Hnone. cbn in Hnone. by rewrite Hnone.
Qed.
End errors.
