(* ===== verification/UdsBusScenario.v ===== *)
(** * A client of the UDS bus sample

    What client.py does with the boards, over the whole stack: it sets the
    addresses of the workers and starts the routine of the controller with
    requests that the UDS library of each board dispatches, lets the boards
    run, and asks for the result. *)

From stdpp Require Import base gmap list numbers relations.
From Stdlib Require Import ZArith Lia.
From S2P Require Import Prelude.
From S2P Require Import Can.
From S2P Require Import UdsTypes.
From S2P Require Import Uds.
From S2P Require Import UdsMacros.
From S2P Require Import UdsServices.
From S2P Require Import UdsMemory.
From S2P Require Import UdsLinkControl.
From S2P Require Import UdsFileTransfer.
From S2P Require Import UdsUploadDownload.
From S2P Require Import UdsSystem.
From S2P Require Import UdsDispatch.
From S2P Require Import UdsViews.
From S2P Require Iso14229.
From S2P Require Import UdsBusSample.
From S2P Require Import UdsBusTheorems.

#[local] Open Scope Z_scope.

Section scenario.
Context {B : Type} `{!BusVars B} `{!BusCan B} `{!Server (Iso14229.iso_world B)} `{!BusLaws B}.
Context `{!Iso14229Constants} `{!Platform (Iso14229.iso_world B)} `{!Memory (Iso14229.iso_world B)}
  `{!CanController (Iso14229.iso_world B)} `{!LinkControlVars (Iso14229.iso_world B)} `{!FileSystem (Iso14229.iso_world B)}
  `{!FileTransferVars (Iso14229.iso_world B)} `{!FlashDriver (Iso14229.iso_world B)} `{!UpDownVars (Iso14229.iso_world B)}.
Context (cfg : uds_config) (depth fuel : nat).

#[local] Abbreviation W := (world (Iso14229.iso_world B)) (only parsing).
Implicit Types (w : W) (v : board_view) (sa : Z).

(** ** Requests to one board *)

Definition board_registrations (inst : nat) : list uds_registration_t :=
  default_instance_registrations cfg inst ++ bus_registrations inst.

Record board_config w : Prop := BoardConfig {
  board_linked : exists inst, Permutation (static_regs w) (board_registrations inst);
  board_not_dynamic : dynamic_registrations w = [];
}.

Definition request (ev : UDSEvent_t) (arg : uds_arg) : M W (UDSErr_t * uds_arg) := event_callback cfg (S (S depth)) fuel ev arg.

Lemma board_answers h arg reg n m (Q : UDSErr_t * uds_arg -> Z * board_view -> Prop) w sa v :
  board_config w -> h ∈ uds_event_handlers -> fits (event h) arg = true ->
  (forall inst, List.filter (relevant h arg) (board_registrations inst) = [reg inst]) ->
  (forall inst, actor_of (event h) (reg inst) = Actor (Some (uds_check_user n)) (Some (uds_action_user m))) ->
  (forall c w, user_check n c false w = Ret (UDS_OK, true) w) ->
  (forall c, ctx_arg c = arg -> hvwp seen (user_action m c true) (fun '(r, c, a) x => decisive r c = true /\ Q (r, a) x) w (sa, v)) ->
  hvwp seen (request (event h) arg) Q w (sa, v).
Proof.
  intros [(inst & Hperm) Hdyn] Hh Hfit Hsole Hact Hchk Hans.
  refine (request_view seen cfg depth fuel h arg _ (reg inst) n m Q w _ Hperm Hdyn Hh Hfit (Hsole inst) (Hact inst) _ _).
  - intros e i _ _. by eexists _, _.
  - intros i _ e He. destruct (Hans (Context (inst_id w) (StaticReg i) (event h) arg) eq_refl e He) as (x & e' & Hrun & HQ).
    exists x, e'. split; [|done]. unfold user_answer. rewrite (bind_step _ _ _ _ _ (Hchk _ _)). cbn beta iota. by rewrite decide_False by naive_solver.
Qed.

Ltac board_linked :=
  intros; unfold board_registrations, default_instance_registrations;
  destruct (CONFIG_UDS_USE_LINK_CONTROL cfg); relevant_run; reflexivity.

(** The two bytes that the handler puts together again. *)
Lemma le16_value x : is_u16 x -> u8 x + u8 (Z.shiftr x 8) * 2 ^ 8 = x.
Proof. intros Hx. unfold wrap, in_width in *. rewrite Z.shiftr_div_pow2 by lia. Z.div_mod_to_equations. lia. Qed.

Lemma set_receive_address w sa v x `{!HealthyBus B} : board_config w -> is_u16 x -> receive_can_filter_id (vars v) = -1 ->
  hvwp seen (request UDS_EVT_WriteDataByIdent (UDSWDBIArgs 0x1100 (le16 x)))
    (fun '(r, _) x' => r = UDS_PositiveResponse /\ exists id, filters v !! id = None /\
       x' = (sa, with_filters (<[id := (worker_rx_cb, CanFilter x CAN_STD_ID_MASK)]> (filters v))
                   (with_vars (set_receive_can_filter_id id (set_can_receive_addr x (vars v))) v))) w (sa, v).
Proof.
  destruct v as [ [run res mu sem fr pc ra sd fid rf q] fs se re]. cbn. intros Hcfg Hx ->.
  apply (board_answers __uds_event_handler_data_write_data_by_ident_ _ receive_addr_registration 1 2); [done|in_table|done|board_linked|done|done|].
  intros c Hc. cbn [user_action bus_callbacks]. unfold w_data_by_id_action. rewrite Hc. b_run. unfold write_receive_addr. b_run.
  rewrite (le16_value x Hx). apply b_add_ok. intros id Hid Hnew. b_run. rewrite (proj2 (Z.ltb_ge _ _)) by done. b_run.
  rewrite decide_True by done. b_run. split; [done|]. split; [done|]. by exists id.
Qed.

Lemma set_send_address w sa v x : board_config w -> is_u16 x ->
  hvwp seen (request UDS_EVT_WriteDataByIdent (UDSWDBIArgs 0x1101 (le16 x)))
    (fun '(r, _) x' => r = UDS_PositiveResponse /\ x' = (sa, with_vars (set_can_send_addr x (vars v)) v)) w (sa, v).
Proof.
  destruct v as [ [run res mu sem fr pc ra sd fid rf q] fs se re]. intros Hcfg Hx.
  apply (board_answers __uds_event_handler_data_write_data_by_ident_ _ send_addr_registration 1 2); [done|in_table|done|board_linked|done|done|].
  intros c Hc. cbn [user_action bus_callbacks]. unfold w_data_by_id_action. rewrite Hc. b_run. by rewrite (le16_value x Hx).
Qed.

(** The routine of a board that does nothing yet. *)
Definition start_args : uds_arg := UDSRoutineCtrlArgs UDS_ROUTINE_CONTROL__START_ROUTINE 0x0000 [].
Definition results_args : uds_arg := UDSRoutineCtrlArgs UDS_ROUTINE_CONTROL__REQUEST_ROUTINE_RESULTS 0x0000 [].

Lemma start_controller w sa v : board_config w -> vars v = bus_node_init ->
  hvwp seen (request UDS_EVT_RoutineCtrl start_args)
    (fun '(r, _) x' => r = UDS_PositiveResponse /\
       x' = (sa, with_vars (set_work_queue [controller_routine_work] (set_routine_result (0xFF :: replicate 8 0) bus_node_init)) v)) w (sa, v).
Proof.
  destruct v as [s fs se re]. cbn. intros Hcfg ->.
  apply (board_answers __uds_event_handler_data_routine_ctrl_ _ controller_registration 0 0); [done|in_table|done|board_linked|done|done|].
  intros c Hc. cbn [user_action bus_callbacks]. unfold controller_control_action. rewrite Hc. unfold start_args, bus_node_init. b_run.
  unfold controller_start, k_work_is_pending. b_run.
  unfold k_work_submit. b_run. rewrite decide_False by (by intros ?%elem_of_nil). by b_run.
Qed.

(** The result of the routine: the nine bytes, when they fit the response. *)
Lemma controller_results w sa v : board_config w -> data_mutex_locked (vars v) = false -> length (routine_result (vars v)) = 9%nat ->
  hvwp seen (request UDS_EVT_RoutineCtrl results_args)
    (fun '(r, _) x' => x' = (sa, if decide (r = UDS_OK) then with_reply (routine_result (vars v)) v else v)) w (sa, v).
Proof.
  destruct v as [ [run res mu sem fr pc ra sd fid rf q] fs se re]. cbn. intros Hcfg -> Hl.
  apply (board_answers __uds_event_handler_data_routine_ctrl_ _ controller_registration 0 0); [done|in_table|done|board_linked|done|done|].
  intros c Hc. cbn [user_action bus_callbacks]. unfold controller_control_action. rewrite Hc. unfold results_args. b_run.
  apply b_copy; [done|lia| |]; [|intros r Hr]; b_run; (split; [done|]).
  - by rewrite decide_True, take_ge by (done || lia).
  - by rewrite decide_False.
Qed.

(** ** The client

    [n] workers at the boards 1 to [n], the controller at board 0. *)

Context (n : nat) (address hop : nat -> Z) `{!HealthyBus B}.

Definition request_to (j : nat) (ev : UDSEvent_t) (arg : uds_arg) : M (list W) UDSErr_t :=
  let* (r, _) := on_bus j (request ev arg) in ret r.

Definition configure (j : nat) : M (list W) (list UDSErr_t) :=
  let* r1 := request_to j UDS_EVT_WriteDataByIdent (UDSWDBIArgs 0x1100 (le16 (hop j))) in
  let* r2 := request_to j UDS_EVT_WriteDataByIdent (UDSWDBIArgs 0x1101 (le16 (hop (S j)))) in
  ret [r1; r2].

(** The boards run between the start and the question for the result. *)
Definition client (turns : list nat) : M (list W) (list UDSErr_t * UDSErr_t * UDSErr_t) :=
  let* configured := run_ops configure (seq 1 n) in
  let* started := request_to 0 UDS_EVT_RoutineCtrl start_args in
  bus_turns turns ;;
  let* result := request_to 0 UDS_EVT_RoutineCtrl results_args in
  ret (concat configured, started, result).

Definition fresh_board (j : nat) (x : Z * board_view) : Prop := x.1 = address j /\ vars x.2 = bus_node_init /\ filters x.2 = ∅.

(** The boards when the first [k] workers have their addresses. *)
Definition configured (k : nat) (ws : list W) : Prop :=
  length ws = S n /\ forall j w, ws !! j = Some w -> board_config w /\
    if decide (1 <= j <= k)%nat then worker_ok address hop 0 j (seen (ext w)) else fresh_board j (seen (ext w)).

Lemma board_config_ext e w : board_config w -> board_config (set_ext e w).
Proof. by intros [Hs Hd]. Qed.

Lemma same_boards_insert j ws w e' : ws !! j = Some w -> same_board w (set_ext e' w) -> same_boards ws (<[j := set_ext e' w]> ws).
Proof.
  intros Hj Hs i w0 Hi. destruct (decide (i = j)) as [->|Hne].
  - simplify_eq. eexists. split; [apply list_lookup_insert_eq; by eapply lookup_lt_Some|done].
  - exists w0. rewrite list_lookup_insert_ne by done. split; [done|]. reflexivity.
Qed.

(** A request to one board that ends with [Q] and changes neither the address,
    nor the frames sent, nor the reply. *)
Lemma request_to_run j ev arg (Q : UDSErr_t -> Z * board_view -> Prop) ws w : ws !! j = Some w ->
  hvwp seen (request ev arg) (fun '(r, _) x' => turn_sends [] (seen (ext w)) x' /\ Q r x') w (seen (ext w)) ->
  exists r e', request_to j ev arg ws = Ret r (<[j := set_ext e' w]> ws) /\ same_boards ws (<[j := set_ext e' w]> ws) /\ Q r (seen e').
Proof.
  intros Hj Hm.
  destruct (on_bus_quiet j (request ev arg) (fun '(r, _) x' => turn_sends [] (seen (ext w)) x' /\ Q r x') ws w Hj) as ([r a] & e' & Hrun & Hs & HQ).
  - eapply hvwp_mono; [exact Hm|]. intros [r a] x' [Hs HQ]. pose proof Hs as (_ & Hsent & _). by rewrite app_nil_r in Hsent.
  - exists r, e'. unfold request_to. rewrite (bind_step _ _ _ _ _ Hrun). split; [done|]. split; [|done].
    apply same_boards_insert; [done|]. by eapply turn_same.
Qed.

Lemma turn_quiet sa v v' : sent v' = sent v -> reply v' = reply v -> turn_sends [] (sa, v) (sa, v').
Proof. intros Hs Hr. split_and!; [done|by rewrite app_nil_r|done]. Qed.

Lemma hop_u16 j : chain_ok n hop -> (1 <= j <= S n)%nat -> is_u16 (hop j).
Proof. intros Hok Hj. pose proof (hop_std _ _ Hok j Hj). unfold in_width, CAN_STD_ID_MASK in *. lia. Qed.

(** A fresh board with its receive address, then with both. *)
Definition hears (j : nat) (id : Z) (v : board_view) : board_view :=
  with_filters {[id := (worker_rx_cb, CanFilter (hop j) CAN_STD_ID_MASK)]}
    (with_vars (set_receive_can_filter_id id (set_can_receive_addr (hop j) bus_node_init)) v).
Definition relays (j : nat) (id : Z) (v : board_view) : board_view :=
  with_vars (set_can_send_addr (hop (S j)) (vars (hears j id v))) (hears j id v).

Lemma configure_board j ws w v : chain_ok n hop -> (1 <= j <= n)%nat -> ws !! j = Some w -> board_config w -> seen (ext w) = (address j, v) ->
  vars v = bus_node_init -> filters v = ∅ ->
  exists e' id, configure j ws = Ret [UDS_PositiveResponse; UDS_PositiveResponse] (<[j := set_ext e' w]> ws) /\
    seen e' = (address j, relays j id v) /\ same_boards ws (<[j := set_ext e' w]> ws).
Proof.
  intros Hok Hj Hw Hcfg Hseen Hvs Hfs.
  destruct (request_to_run j UDS_EVT_WriteDataByIdent (UDSWDBIArgs 0x1100 (le16 (hop j)))
    (fun r x' => r = UDS_PositiveResponse /\ exists id, x' = (address j, hears j id v)) ws w Hw) as (r1 & e1 & Hrun1 & Hsame1 & -> & id & He1).
  { rewrite Hseen. eapply hvwp_mono; [apply set_receive_address; first [done|apply hop_u16; done || lia|by rewrite Hvs]|].
    intros [r a] x' (-> & id & _ & ->). rewrite Hvs, Hfs. split; [by apply turn_quiet|]. split; [done|]. by exists id. }
  set (ws1 := <[j := set_ext e1 w]> ws) in *.
  assert (ws1 !! j = Some (set_ext e1 w)) as Hw1 by (apply list_lookup_insert_eq; by eapply lookup_lt_Some).
  destruct (request_to_run j UDS_EVT_WriteDataByIdent (UDSWDBIArgs 0x1101 (le16 (hop (S j))))
    (fun r x' => r = UDS_PositiveResponse /\ x' = (address j, relays j id v)) ws1 _ Hw1) as (r2 & e2 & Hrun2 & Hsame2 & -> & He2).
  { cbn [ext set_ext]. rewrite He1. eapply hvwp_mono; [apply set_send_address; first [by apply board_config_ext|apply hop_u16; done || lia]|].
    intros [r a] x' (-> & ->). split; [by apply turn_quiet|done]. }
  exists e2, id. unfold configure. rewrite (bind_step _ _ _ _ _ Hrun1), (bind_step _ _ _ _ _ Hrun2).
  unfold ws1 in *. rewrite list_insert_insert_eq in *. split_and!; [done..|]. by etrans.
Qed.

(** Worker [S k] gets its addresses. *)
Lemma configure_run k ws : chain_ok n hop -> (k < n)%nat -> configured k ws ->
  exists ws', configure (S k) ws = Ret [UDS_PositiveResponse; UDS_PositiveResponse] ws' /\ configured (S k) ws' /\ same_boards ws ws'.
Proof.
  intros Hok Hk [Hlen Hall]. destruct (lookup_lt_is_Some_2 ws (S k)) as [w Hw]; [lia|].
  destruct (Hall _ _ Hw) as [Hcfg Hfr]. rewrite decide_False in Hfr by lia. destruct (seen (ext w)) as [sa v] eqn:Hseen.
  destruct Hfr as (Hsa & Hvs & Hfs). cbn in Hsa, Hvs, Hfs. subst sa.
  destruct (configure_board (S k) ws w v) as (e' & id & Hrun & He' & Hsame); [done || lia..|].
  eexists. split_and!; [exact Hrun| |done]. split; [by rewrite length_insert|]. intros j w0 Hj. destruct (decide (j = S k)) as [->|Hne].
  - rewrite list_lookup_insert_eq in Hj by lia. injection Hj as <-. split; [by apply board_config_ext|]. cbn [ext set_ext]. rewrite He'.
    rewrite decide_True by lia. split_and!; [done..|by exists id|done].
  - rewrite list_lookup_insert_ne in Hj by done. destruct (Hall j w0 Hj) as [Hc Hcase]. split; [done|]. revert Hcase. do 2 case_decide; lia || done.
Qed.

Lemma configure_all m : forall k ws, chain_ok n hop -> (k + m <= n)%nat -> configured k ws ->
  exists rs ws', run_ops configure (seq (S k) m) ws = Ret rs ws' /\ concat rs = replicate (2 * m) UDS_PositiveResponse /\
    configured (k + m) ws' /\ same_boards ws ws'.
Proof.
  induction m as [|m IH]; intros k ws Hok Hm Hc.
  { exists [], ws. rewrite Nat.add_0_r. split_and!; [done..|]. reflexivity. }
  destruct (configure_run k ws Hok ltac:(lia) Hc) as (ws1 & Hrun1 & Hc1 & Hs1).
  destruct (IH (S k) ws1 Hok ltac:(lia) Hc1) as (rs & ws2 & Hrun2 & Hrs & Hc2 & Hs2).
  exists ([UDS_PositiveResponse; UDS_PositiveResponse] :: rs), ws2. cbn [seq run_ops]. rewrite (bind_step _ _ _ _ _ Hrun1), (bind_step _ _ _ _ _ Hrun2).
  rewrite <- Nat.add_succ_comm. split_and!; [done| |done|by etrans]. cbn [concat]. rewrite Hrs. by replace (2 * S m)%nat with (S (S (2 * m))) by lia.
Qed.

(** The start puts the frame at its first place. *)
Lemma controller_started ws : chain_ok n hop -> configured n ws ->
  exists ws', request_to 0 UDS_EVT_RoutineCtrl start_args ws = Ret UDS_PositiveResponse ws' /\ stage n address hop 0 ws' /\ same_boards ws ws'.
Proof.
  intros Hok [Hlen Hall]. destruct (lookup_lt_is_Some_2 ws 0) as [w Hw]; [lia|].
  destruct (Hall _ _ Hw) as [Hcfg Hfr]. rewrite decide_False in Hfr by lia. destruct (seen (ext w)) as [sa v] eqn:Hseen.
  destruct Hfr as (Hsa & Hvs & Hfs). cbn in Hsa, Hvs, Hfs. subst sa.
  destruct (request_to_run 0 UDS_EVT_RoutineCtrl start_args (fun r x' => r = UDS_PositiveResponse /\ controller_ok n address hop 0 x') ws w Hw)
    as (r & e' & Hrun & Hsame & -> & Hcok).
  { rewrite Hseen. eapply hvwp_mono; [by apply start_controller|]. intros [r a] x' (-> & ->). split; [by apply turn_quiet|]. by split_and!. }
  eexists. split_and!; [exact Hrun| |done]. split; [by rewrite length_insert|]. split; [lia|]. intros j w0 Hj. unfold board_ok.
  destruct (decide (j = 0%nat)) as [->|Hne].
  - rewrite list_lookup_insert_eq in Hj by lia. by injection Hj as <-.
  - rewrite list_lookup_insert_ne in Hj by done. destruct (Hall j w0 Hj) as [_ Hcase]. apply lookup_lt_Some in Hj.
    rewrite decide_True in Hcase by lia. done.
Qed.

End scenario.

(** The identifiers that client.py gives to [n] workers. *)
Definition client_hop (n j : nat) : Z :=
  if decide (j = 1%nat) then 0x001 else if decide (j = S n) then 0x000 else Z.of_nat (S j).

Lemma client_chain_ok n : (1 <= n <= 7)%nat -> chain_ok n (client_hop n).
Proof.
  intros Hn. split; unfold client_hop; [done|done|by rewrite decide_False, decide_True by lia| |].
  - intros j Hj. repeat case_decide; unfold CAN_STD_ID_MASK; lia.
  - intros i j Hi Hj. repeat case_decide; lia.
Qed.
