(* ===== verification/UdsBusWitness.v ===== *)
(** * Witnesses for the UDS bus sample

    A concrete environment that satisfies the laws of [UdsBusTheorems] - that
    of [UdsWitness] with the variables of a board and a CAN controller, which
    can be off the bus - and closed instances of the theorems on it: three
    boards, of which two sign. *)

From stdpp Require Import base gmap list numbers relations.
From Stdlib Require Import ZArith Lia.
From S2P Require Import Prelude.
From S2P Require Import Can.
From S2P Require Import UdsTypes.
From S2P Require Import Uds.
From S2P Require Import UdsMacros.
From S2P Require Import UdsServices.
From S2P Require Import UdsMemory.
From S2P Require Import UdsLinkControl.
From S2P Require Import UdsFileTransfer.
From S2P Require Import UdsUploadDownload.
From S2P Require Import UdsSystem.
From S2P Require UdsWitness.
From S2P Require Iso14229.
From S2P Require Import UdsBusSample.
From S2P Require Import UdsBusTheorems.
From S2P Require Import UdsBusScenario.

#[local] Open Scope Z_scope.

(** ** The environment *)

Record station := Station {
  base : UdsWitness.env;
  variables : bus_node;
  rx_filters : gmap Z (rx_callback * can_filter);
  tx_frames : list can_frame;
}.

Definition with_base (e : UdsWitness.env) (b : station) := Station e (variables b) (rx_filters b) (tx_frames b).
Definition with_variables s (b : station) := Station (base b) s (rx_filters b) (tx_frames b).
Definition with_rx_filters f (b : station) := Station (base b) (variables b) f (tx_frames b).
Definition with_tx fr (b : station) := Station (base b) (variables b) (rx_filters b) (tx_frames b ++ [fr]).

#[export] Instance station_vars : BusVars station := {|
  node := variables; set_node := with_variables; stack_contents _ := no_frame;
|}.

(** The first number not in use. *)
Definition new_filter (f : gmap Z (rx_callback * can_filter)) : Z :=
  Z.of_nat (fresh (set_map (C := gset Z) (D := gset nat) Z.to_nat (dom f))).

Definition ENETDOWN : Z := 100.

(** The controller, which is on the bus or off. *)
Definition station_can (up : bool) : BusCan station := {|
  can_send fr b := if up then Ret 0 (with_tx fr b) else Ret (- ENETDOWN) b;
  can_add_rx_filter cb f b := let id := new_filter (rx_filters b) in Ret id (with_rx_filters (<[id := (cb, f)]> (rx_filters b)) b);
  can_remove_rx_filter id b := Ret tt (with_rx_filters (delete id (rx_filters b)) b);
|}.

#[local] Abbreviation E := (Iso14229.iso_world station) (only parsing).

Definition base_of (e : E) : UdsWitness.env := base (Iso14229.iso_ext e).
Definition set_base (x : UdsWitness.env) (e : E) : E := Iso14229.IsoWorld (Iso14229.iso e) (with_base x (Iso14229.iso_ext e)).

#[export] Existing Instance UdsWitness.env_constants.
#[export] Instance station_server : Server E := UdsWitness.lifted_server base_of set_base.
#[export] Instance station_platform : Platform E := UdsWitness.lifted_platform base_of set_base.
#[export] Instance station_memory : Memory E := UdsWitness.lifted_memory base_of set_base (fun _ _ => eq_refl).
#[export] Instance station_controller : UdsLinkControl.CanController E := UdsWitness.lifted_controller base_of set_base.
#[export] Instance station_link : LinkControlVars E := UdsWitness.lifted_link_vars base_of set_base.
#[export] Instance station_fs : FileSystem E := UdsWitness.lifted_fs base_of set_base.
#[export] Instance station_ft : FileTransferVars E := UdsWitness.lifted_ft_vars base_of set_base (fun _ _ => eq_refl).
#[export] Instance station_flash : FlashDriver E := UdsWitness.lifted_flash_driver base_of set_base.
#[export] Instance station_ud : UpDownVars E := UdsWitness.lifted_ud_vars base_of set_base (fun _ _ => eq_refl).

Lemma new_filter_new f : f !! new_filter f = None.
Proof.
  apply not_elem_of_dom. intros Hin. unfold new_filter in Hin. set (X := set_map _ _) in Hin.
  apply (is_fresh X). unfold X at 2. apply elem_of_map. exists (Z.of_nat (fresh X)). split; [by rewrite Nat2Z.id|done].
Qed.

Definition station_laws (up : bool) : BusLaws station (BusCan0 := station_can up).
Proof.
  refine {| view_of b := BoardView (variables b) (rx_filters b) (tx_frames b) (UdsWitness.e_sent (base b)) |}; [done..| | | |].
  - intros fr b. cbn. destruct up; eexists _, _; (split; [done|]); [by left|right; done].
  - intros cb f b. eexists _, _. split; [done|]. left. split_and!; [apply Nat2Z.is_nonneg|apply new_filter_new|done].
  - intros id b. by eexists.
  - intros bs n e Hn. by eexists _, _.
Defined.

(** Board [j] has the address 0x7E8 + [j]. *)
Definition address (j : nat) : Z := 0x7E8 + Z.of_nat j.
Definition cfg : uds_config := UdsConfig UdsWitness.demo_memory_config UdsWitness.demo_updown_config 500000 true false.

Definition board (s : bus_node) (j : nat) : world E :=
  World 0 (board_registrations cfg 0) [] ∅ 1 [] []
    (Iso14229.IsoWorld
       (Iso14229.IsoInstance (Iso14229.IsoTp (address j) (0x7E0 + Z.of_nat j) 0 0) [] [] 0 None 0
          (Iso14229.IsoFunctions true true true true) (Iso14229.ThreadState false false))
       (Station UdsWitness.demo_env s ∅ [])).

(** ** Boards on the bus *)

Module OnBus.
#[local] Instance can_up : BusCan station := station_can true.
#[local] Instance laws_up : BusLaws station := station_laws true.

#[local] Instance healthy : HealthyBus station.
Proof.
  split.
  - intros fr b rc b' [= <- _]. done.
  - intros cb f b id b' [= <- _]. apply Nat2Z.is_nonneg.
Defined.

(** Three boards; in a round they have their turns in an awkward order. *)
Definition boards : list (world E) := board bus_node_init <$> seq 0 3.
Definition rounds : list (list nat) := replicate 5 [2%nat; 0%nat; 1%nat; 2%nat].

Definition result_of (o : outcome (list (world E)) (list UDSErr_t * UDSErr_t * UDSErr_t)) :=
  match o with
  | Ret (cs, s, r) ws => Some (cs, s, r, (fun w => UdsWitness.e_sent (base_of (ext w))) <$> ws)
  | Fault _ => None
  end.

Example signed : result_of (client cfg 0 0 2 (client_hop 2) (concat rounds) boards) =
  Some (replicate 4 UDS_OK, UDS_OK, UDS_OK, [[0; 0xDE; Z.lxor 0xDE 0xE9; Z.lxor 0xDE 0xEA; 0; 0; 0; 0; 0]; []; [] ]).
Proof. by vm_compute. Qed.

(** A frame that comes between the end of the wait and the removal of the
    filter leaves the semaphore given: the next run, for which no frame comes,
    reports success. *)
Definition late_frame : M (list (world E)) (list Z) :=
  request_to cfg 0 0 0 UDS_EVT_RoutineCtrl start_args ;; bus_turn 0 ;; on_bus 0 (work_queue_turn true) ;;
  on_bus 0 (hear no_frame) ;; bus_turn 0 ;;
  let* ws := gets (fun ws => ws) in
  request_to cfg 0 0 0 UDS_EVT_RoutineCtrl start_args ;; bus_turn 0 ;; bus_turn 0 ;; bus_turn 0 ;;
  let* ws' := gets (fun ws => ws) in
  ret (omap (fun w => head (routine_result (vars (seen (ext w)).2))) (ws ++ ws')).

Example late_frame_makes_next_run_succeed :
  match late_frame [board bus_node_init 0] with Ret xs _ => xs | Fault _ => [] end =
  [controller_routine_status_value CONTROLLER_ROUTINE_STATUS__ERROR; controller_routine_status_value CONTROLLER_ROUTINE_STATUS__SUCCESS].
Proof. by vm_compute. Qed.

Lemma boards_fresh : configured cfg 2 address (client_hop 2) 0 boards.
Proof.
  split; [done|]. intros j w Hj. unfold boards in Hj. rewrite list_lookup_fmap, fmap_Some in Hj.
  destruct Hj as (k & [-> Hk]%lookup_seq & ->). rewrite decide_False by lia. by repeat split; try exists 0%nat.
Qed.

End OnBus.

(** ** A board off the bus *)

Module OffBus.
#[local] Instance can_down : BusCan station := station_can false.
#[local] Instance laws_down : BusLaws station := station_laws false.

#[local] Instance down : BusOff (B := station).
Proof.
  split.
  - intros cb f b id b' [= <- _] _. apply Nat2Z.is_nonneg.
  - intros fr b rc b' [= <- _]. done.
Defined.

Definition started : world E := board (set_work_queue [controller_routine_work] bus_node_init) 0.

Definition started_view : board_view := BoardView (set_work_queue [controller_routine_work] bus_node_init) ∅ [] [].

Lemma failed_send_dangles_witness : exists e',
  work_queue_turn false started = Ret tt (set_ext e' started) /\
  running (vars (seen e').2) = false /\
  routine_result (vars (seen e').2) =
    <[0%nat := controller_routine_status_value CONTROLLER_ROUTINE_STATUS__ERROR]> (routine_result (vars started_view)) /\
  hear no_frame (set_ext e' started) = Fault UseAfterFree.
Proof. apply (failed_send_dangles started (address 0) started_view no_frame); reflexivity. Defined.
End OffBus.
