(* ===== verification/GpioExpander.v ===== *)
(** * The GPIO expander ([samples/gpio_expander/src/main.c])

    A board whose pins are configured, written and read over CAN.  A frame
    with the directions of the pins, or with the levels of the outputs, is
    copied by the receive callback, which submits a work item; the system work
    queue applies it pin by pin; the main thread sends the state of all pins
    again and again.  The callbacks interrupt the work at any place: the step
    relation has a step for every read of the shared arrays and for every call
    of the GPIO driver.  The theorems say what the pins and the state frame
    show once the work is done. *)

From stdpp Require Import base list numbers relations.
From Stdlib Require Import ZArith Lia.
From S2P Require Import Prelude.
From S2P Require Import Gpio.
From S2P Require Import Can.

#[local] Open Scope Z_scope.

(** ** Data *)

(** CONFIG_GPIO_EXPANDER_*_FRAME_ID *)
Definition GPIO_CONFIG_FRAME_ID : Z := 1.
Definition GPIO_WRITE_FRAME_ID : Z := 2.
Definition GPIO_STATE_FRAME_ID : Z := 3.

(** The flags a pin is configured with. *)
Inductive gpio_direction := OUTPUT | INPUT.

Inductive expander_work := configure_gpios_work | write_gpios_work.
Inductive expander_rx_callback := receive_config_callback_fn | receive_write_callback_fn.

#[export] Instance gpio_direction_eq_dec : EqDecision gpio_direction.
Proof. solve_decision. Defined.
#[export] Instance expander_work_eq_dec : EqDecision expander_work.
Proof. solve_decision. Defined.

(** The variables; [work_queue] are the submitted items of the system work
    queue that have not started. *)
Record expander := Expander {
  config_frame_data : list Z;
  write_frame_data : list Z;
  tx_queue_sem : Z;
  work_queue : list expander_work;
}.

Definition expander_data_init : expander := Expander (replicate 8 0) (replicate 8 0) 0 [].

Definition set_config_data x s := Expander x (write_frame_data s) (tx_queue_sem s) (work_queue s).
Definition set_write_data x s := Expander (config_frame_data s) x (tx_queue_sem s) (work_queue s).
Definition set_tx_sem x s := Expander (config_frame_data s) (write_frame_data s) x (work_queue s).
Definition set_queue x s := Expander (config_frame_data s) (write_frame_data s) (tx_queue_sem s) x.

Record gx_world (E : Type) := GxWorld { gx : expander; gx_ext : E }.
Arguments GxWorld {E}.
Arguments gx {E}.
Arguments gx_ext {E}.

(** The pins of the [gpios] array, by index. *)
Class ExpanderPins (E : Type) := {
  gpio_pin_configure_dt : nat -> gpio_direction -> M E Z;
  gpio_pin_set_dt : nat -> Z -> M E Z;
  gpio_pin_get_dt : nat -> M E Z;
}.

Class ExpanderCan (E : Type) := {
  can_is_ready : E -> bool;
  can_start : M E Z;
  can_add_rx_filter : expander_rx_callback -> can_filter -> M E Z;
  can_send : can_frame -> M E Z;
}.

Section program.
Context {E : Type} `{!ExpanderPins E} `{!ExpanderCan E}.
(** [ARRAY_SIZE (gpios)] *)
Context (n : nat).

Definition on_board {A} (m : M E A) : M (gx_world E) A :=
  zoom gx_ext (fun e w => GxWorld (gx w) e) m.
Definition get_gx : M (gx_world E) expander := gets gx.
Definition update (f : expander -> expander) : M (gx_world E) unit :=
  modify (fun w => GxWorld (f (gx w)) (gx_ext w)).

(** [data[pin / 8] >> (pin % 8) & 1] *)
Definition pin_bit (data : list Z) (pin : nat) : option Z :=
  (fun b => Z.land (Z.shiftr b (Z.of_nat (pin mod 8))) 1) <$> data !! (pin / 8)%nat.

Definition is_gpio_output (pin : nat) : M (gx_world E) bool :=
  let* s := get_gx in
  let* b := of_option OutOfBounds (pin_bit (config_frame_data s) pin) in
  ret (negb (b =? 0)).

Definition output_level (pin : nat) : M (gx_world E) Z :=
  let* s := get_gx in of_option OutOfBounds (pin_bit (write_frame_data s) pin).

Definition init_can : M (gx_world E) Z :=
  let* w := get in
  if negb (can_is_ready (gx_ext w)) then ret (- ENODEV) else on_board can_start.

(** A binary semaphore. *)
Definition can_tx_callback : M (gx_world E) unit := update (set_tx_sem 1).

(** [data[i / 8] |= level << (i % 8)] *)
Definition or_pin (i : nat) (level : Z) (data : list Z) : M (gx_world E) (list Z) :=
  let* b := of_option OutOfBounds (data !! (i / 8)%nat) in
  ret (<[(i / 8)%nat := u8 (Z.lor b (Z.shiftl level (Z.of_nat (i mod 8))))]> data).

(** The loop over the pins: an error, or the data of the frame. *)
Fixpoint state_loop (k i : nat) (data : list Z) : M (gx_world E) (Z * list Z) :=
  match k with
  | O => ret (0, data)
  | S k =>
      let* out := is_gpio_output i in
      if out : bool then
        let* level := output_level i in
        let* data := or_pin i level data in
        state_loop k (S i) data
      else
        let* value := on_board (gpio_pin_get_dt i) in
        if value <? 0 then ret (value, data)
        else
          let* data := or_pin i value data in
          state_loop k (S i) data
  end.

Definition send_state_update_frame : M (gx_world E) Z :=
  let* (err, data) := state_loop n 0 (replicate 8 0) in
  if err <? 0 then ret err else on_board (can_send (CanFrame GPIO_STATE_FRAME_ID 8 0 data)).

Definition receive_config_filter : can_filter := CanFilter GPIO_CONFIG_FRAME_ID CAN_STD_ID_MASK.
Definition receive_write_filter : can_filter := CanFilter GPIO_WRITE_FRAME_ID CAN_STD_ID_MASK.

(** [memcpy (dst, frame->data, frame->dlc)] *)
Definition copy_frame (frame : can_frame) (dst : list Z) : M (gx_world E) (list Z) :=
  let k := Z.to_nat (can_dlc frame) in
  if decide (k <= length (can_data frame) /\ k <= length dst)%nat
  then ret (take k (can_data frame) ++ drop k dst) else fail OutOfBounds.

(** An item that is queued already is not queued again. *)
Definition k_work_submit (x : expander_work) : M (gx_world E) unit :=
  update (fun s => if decide (x ∈ work_queue s) then s else set_queue (work_queue s ++ [x]) s).

Definition receive_config_callback (frame : can_frame) : M (gx_world E) unit :=
  let* s := get_gx in
  let* data := copy_frame frame (config_frame_data s) in
  update (set_config_data data) ;;
  k_work_submit configure_gpios_work.

Definition receive_write_callback (frame : can_frame) : M (gx_world E) unit :=
  let* s := get_gx in
  let* data := copy_frame frame (write_frame_data s) in
  update (set_write_data data) ;;
  k_work_submit write_gpios_work.

Definition configure_pin (i : nat) (out : bool) : M (gx_world E) Z :=
  on_board (gpio_pin_configure_dt i (if out then OUTPUT else INPUT)).

(** The loops of the two work handlers, from pin [i] on. *)
Fixpoint configure_loop (k i : nat) : M (gx_world E) unit :=
  match k with
  | O => ret tt
  | S k =>
      let* out := is_gpio_output i in
      let* err := configure_pin i out in
      if negb (err =? 0) then ret tt else configure_loop k (S i)
  end.
Definition configure_gpios : M (gx_world E) unit := configure_loop n 0.

Fixpoint write_loop (k i : nat) : M (gx_world E) unit :=
  match k with
  | O => ret tt
  | S k =>
      let* out := is_gpio_output i in
      if negb out then write_loop k (S i)
      else
        let* level := output_level i in
        let* err := on_board (gpio_pin_set_dt i level) in
        if negb (err =? 0) then ret tt else write_loop k (S i)
  end.
Definition write_gpios : M (gx_world E) unit := write_loop n 0.

Definition configure_receive_filters : M (gx_world E) Z :=
  let* filter_id := on_board (can_add_rx_filter receive_config_callback_fn receive_config_filter) in
  if filter_id <? 0 then ret filter_id
  else
    let* filter_id := on_board (can_add_rx_filter receive_write_callback_fn receive_write_filter) in
    if filter_id <? 0 then ret filter_id else ret 0.

Definition init : M (gx_world E) Z :=
  update (set_tx_sem 1) ;;
  configure_gpios ;;
  let* err := init_can in
  if negb (err =? 0) then ret err
  else
    let* err := configure_receive_filters in
    ret err.

(** ** Threads and interrupts *)

(** Where the work queue thread is: between items; before it reads the
    direction of a pin; with it; before it reads the level of an output; with
    it. *)
Inductive work_pc :=
| Waiting
| ConfigureRead (i : nat)
| ConfigurePin (i : nat) (out : bool)
| WriteRead (i : nat)
| WriteLevel (i : nat)
| WriteSet (i : nat) (level : Z).

Definition gx_state : Type := gx_world E * work_pc.

(** The thread takes one step. *)
Definition work_step (pc : work_pc) : M (gx_world E) work_pc :=
  match pc with
  | Waiting =>
      let* s := get_gx in
      match work_queue s with
      | [] => ret Waiting
      | x :: q =>
          update (set_queue q) ;;
          ret (match x with configure_gpios_work => ConfigureRead 0 | write_gpios_work => WriteRead 0 end)
      end
  | ConfigureRead i =>
      if decide (i < n)%nat then let* out := is_gpio_output i in ret (ConfigurePin i out) else ret Waiting
  | ConfigurePin i out =>
      let* err := configure_pin i out in
      ret (if negb (err =? 0) then Waiting else ConfigureRead (S i))
  | WriteRead i =>
      if decide (i < n)%nat
      then let* out := is_gpio_output i in ret (if out then WriteLevel i else WriteRead (S i))
      else ret Waiting
  | WriteLevel i => let* level := output_level i in ret (WriteSet i level)
  | WriteSet i level =>
      let* err := on_board (gpio_pin_set_dt i level) in
      ret (if negb (err =? 0) then Waiting else WriteRead (S i))
  end.

(** What happens: a step of the work queue thread, a frame in one of the
    filters, a round of the main thread, the end of a transmission. *)
Inductive gx_event :=
| Work
| ConfigFrame (frame : can_frame)
| WriteFrame (frame : can_frame)
| StateUpdate
| Transmitted.

Inductive gx_step : gx_event -> gx_state -> gx_state -> Prop :=
| step_work w pc w' pc' : work_step pc w = Ret pc' w' -> gx_step Work (w, pc) (w', pc')
| step_config w pc f w' : receive_config_callback f w = Ret tt w' -> gx_step (ConfigFrame f) (w, pc) (w', pc)
| step_write w pc f w' : receive_write_callback f w = Ret tt w' -> gx_step (WriteFrame f) (w, pc) (w', pc)
| step_update w pc r w' : send_state_update_frame w = Ret r w' -> gx_step StateUpdate (w, pc) (w', pc)
| step_transmitted w pc w' : can_tx_callback w = Ret tt w' -> gx_step Transmitted (w, pc) (w', pc).

Inductive gx_run : list gx_event -> gx_state -> gx_state -> Prop :=
| run_nil s : gx_run [] s s
| run_cons ev evs s1 s2 s3 : gx_step ev s1 s2 -> gx_run evs s2 s3 -> gx_run (ev :: evs) s1 s3.

(** No work is left. *)
Definition quiet (s : gx_state) : Prop := s.2 = Waiting /\ work_queue (gx s.1) = [].
End program.

(** ** The environment *)

(** What is seen of the pins: the direction, the level of the output driver,
    the inputs that were read with their values, and the frames that were
    sent. *)
Record pins_view := PinsView {
  is_output : nat -> bool;
  latch : nat -> Z;
  reads : list (nat * Z);
  sent : list can_frame;
}.

(** All but pin [i]. *)
Definition other_pins (i : nat) (v v' : pins_view) : Prop :=
  (forall j, j <> i -> is_output v' j = is_output v j /\ latch v' j = latch v j) /\ reads v' = reads v /\ sent v' = sent v.

Definition same_outputs (v v' : pins_view) : Prop := forall j, is_output v' j = is_output v j /\ latch v' j = latch v j.

(** Pins that work.  Configuring an output does not change its level, writing
    sets the level of an output. *)
Class ExpanderLaws (E : Type) `{!ExpanderPins E} `{!ExpanderCan E} := {
  pins : E -> pins_view;
  configure_law : forall i d e, exists e', gpio_pin_configure_dt i d e = Ret 0 e' /\ other_pins i (pins e) (pins e') /\
    is_output (pins e') i = bool_decide (d = OUTPUT) /\ (d = OUTPUT -> latch (pins e') i = latch (pins e) i);
  pin_set_law : forall i x e, exists e', gpio_pin_set_dt i x e = Ret 0 e' /\ other_pins i (pins e) (pins e') /\
    is_output (pins e') i = is_output (pins e) i /\ (is_output (pins e) i = true -> latch (pins e') i = x);
  pin_get_law : forall i e, exists x e', gpio_pin_get_dt i e = Ret x e' /\ 0 <= x <= 1 /\ same_outputs (pins e) (pins e') /\
    reads (pins e') = reads (pins e) ++ [(i, x)] /\ sent (pins e') = sent (pins e);
  can_start_law : forall e, exists r e', can_start e = Ret r e' /\ pins e' = pins e;
  add_filter_law : forall cb f e, exists r e', can_add_rx_filter cb f e = Ret r e' /\ pins e' = pins e;
  send_law : forall f e, exists r e', can_send f e = Ret r e' /\ same_outputs (pins e) (pins e') /\
    reads (pins e') = reads (pins e) /\ sent (pins e') = if r =? 0 then sent (pins e) ++ [f] else sent (pins e);
}.

Section props.
Context {E : Type} `{!ExpanderPins E} `{!ExpanderCan E} `{!ExpanderLaws E}.
Context (n : nat) (Hn : (n <= 64)%nat).
Implicit Types (w : gx_world E) (s : gx_state (E := E)).

Definition view w : pins_view := pins (gx_ext w).

(** The bits of pin [i] in the two arrays. *)
Definition out_bit (d : expander) (i : nat) : bool := default false ((fun b => negb (b =? 0)) <$> pin_bit (config_frame_data d) i).
Definition level_bit (d : expander) (i : nat) : Z := default 0 (pin_bit (write_frame_data d) i).

Record expander_wf (d : expander) : Prop := ExpanderWf {
  wf_config : length (config_frame_data d) = 8%nat;
  wf_write : length (write_frame_data d) = 8%nat;
}.

Lemma pin_bit_is_Some data i : length data = 8%nat -> (i < 64)%nat -> exists b, pin_bit data i = Some b.
Proof.
  intros Hl Hi. destruct (lookup_lt_is_Some_2 data (i / 8)) as [b Hb].
  - rewrite Hl. apply Nat.Div0.div_lt_upper_bound. lia.
  - unfold pin_bit. rewrite Hb. by eexists.
Qed.

Lemma is_gpio_output_run w i : expander_wf (gx w) -> (i < n)%nat -> is_gpio_output i w = Ret (out_bit (gx w) i) w.
Proof.
  intros [Hl _] Hi. destruct (pin_bit_is_Some _ i Hl) as [b Hb]; [lia|].
  unfold is_gpio_output, get_gx, out_bit. unfold bind, gets. by rewrite Hb.
Qed.

Lemma output_level_run w i : expander_wf (gx w) -> (i < n)%nat -> output_level i w = Ret (level_bit (gx w) i) w.
Proof.
  intros [_ Hl] Hi. destruct (pin_bit_is_Some _ i Hl) as [b Hb]; [lia|].
  unfold output_level, get_gx, level_bit. unfold bind, gets. by rewrite Hb.
Qed.

Lemma on_board_run {A} (m : M E A) w a e : m (gx_ext w) = Ret a e -> on_board m w = Ret a (GxWorld (gx w) e).
Proof. intros H. unfold on_board, zoom. by rewrite H. Qed.

Lemma configure_pin_run w i o : exists w', configure_pin i o w = Ret 0 w' /\ gx w' = gx w /\ other_pins i (view w) (view w') /\
  is_output (view w') i = o /\ (o = true -> latch (view w') i = latch (view w) i).
Proof.
  destruct (configure_law i (if o then OUTPUT else INPUT) (gx_ext w)) as (e' & Hr & Ho & Hd & Hl).
  eexists. split; [by apply on_board_run|]. split; [done|]. split; [done|]. unfold view. cbn [gx_ext].
  destruct o; (split; [by rewrite Hd|]); [intros _; by apply Hl|done].
Qed.

Lemma set_pin_run w i x : exists w', on_board (gpio_pin_set_dt i x) w = Ret 0 w' /\ gx w' = gx w /\ other_pins i (view w) (view w') /\
  is_output (view w') i = is_output (view w) i /\ (is_output (view w) i = true -> latch (view w') i = x).
Proof.
  destruct (pin_set_law i x (gx_ext w)) as (e' & Hr & Ho & Hd & Hl).
  eexists. split; [by apply on_board_run|]. by split_and!.
Qed.

(** ** The work queue thread *)

(** What a step does. *)
Definition work_effect (pc : work_pc) w (pc' : work_pc) w' : Prop :=
  match pc with
  | Waiting =>
      match work_queue (gx w) with
      | [] => pc' = Waiting /\ w' = w
      | x :: q => pc' = (match x with configure_gpios_work => ConfigureRead 0 | write_gpios_work => WriteRead 0 end) /\
          w' = GxWorld (set_queue q (gx w)) (gx_ext w)
      end
  | ConfigureRead i => w' = w /\ pc' = if decide (i < n)%nat then ConfigurePin i (out_bit (gx w) i) else Waiting
  | ConfigurePin i o => gx w' = gx w /\ pc' = ConfigureRead (S i) /\ other_pins i (view w) (view w') /\
      is_output (view w') i = o
  | WriteRead i => w' = w /\ pc' = if decide (i < n)%nat then (if out_bit (gx w) i then WriteLevel i else WriteRead (S i)) else Waiting
  | WriteLevel i => w' = w /\ pc' = WriteSet i (level_bit (gx w) i)
  | WriteSet i x => gx w' = gx w /\ pc' = WriteRead (S i) /\ other_pins i (view w) (view w') /\
      is_output (view w') i = is_output (view w) i /\ (is_output (view w) i = true -> latch (view w') i = x)
  end.

(** The index of a pin is in range where it is used. *)
Definition pc_ok (pc : work_pc) : Prop :=
  match pc with ConfigurePin i _ | WriteLevel i | WriteSet i _ => (i < n)%nat | _ => True end.

Lemma work_step_run pc w : expander_wf (gx w) -> pc_ok pc ->
  exists pc' w', work_step n pc w = Ret pc' w' /\ work_effect pc w pc' w' /\ expander_wf (gx w') /\ pc_ok pc'.
Proof.
  intros Hwf Hpc. destruct pc as [|i|i o|i|i|i x]; cbn [work_step work_effect].
  - unfold get_gx, update. unfold bind, gets, modify, ret.
    destruct (work_queue (gx w)) as [|x q]; (do 2 eexists; split; [reflexivity|]); [done|].
    split; [done|]. split; [by destruct Hwf|by destruct x].
  - case_decide as Hi; [rewrite (bind_step _ _ _ _ _ (is_gpio_output_run w i Hwf Hi))|];
      (do 2 eexists; split; [reflexivity|]); done.
  - destruct (configure_pin_run w i o) as (w' & Hr & Hg & Ho & Hd & _). rewrite (bind_step _ _ _ _ _ Hr).
    do 2 eexists. split; [reflexivity|]. rewrite Hg. by split_and!.
  - case_decide as Hi; [rewrite (bind_step _ _ _ _ _ (is_gpio_output_run w i Hwf Hi))|];
      (do 2 eexists; split; [reflexivity|]); [|done]. split; [done|]. split; [done|]. by destruct (out_bit (gx w) i).
  - rewrite (bind_step _ _ _ _ _ (output_level_run w i Hwf Hpc)). do 2 eexists. split; [reflexivity|]. done.
  - destruct (set_pin_run w i x) as (w' & Hr & Hg & Ho & Hd & Hl). rewrite (bind_step _ _ _ _ _ Hr).
    do 2 eexists. split; [reflexivity|]. rewrite Hg. by split_and!.
Qed.

(** Every step brings the thread nearer to its rest. *)
Definition work_left s : nat :=
  length (work_queue (gx s.1)) * (3 * n + 2) +
  match s.2 with
  | Waiting => 0
  | ConfigureRead i => 2 * (n - i) + 1
  | ConfigurePin i _ => 2 * (n - i)
  | WriteRead i => 3 * (n - i) + 1
  | WriteLevel i => 3 * (n - i)
  | WriteSet i _ => 3 * (n - i) - 1
  end.

Lemma work_left_decreases pc w pc' w' : pc_ok pc -> work_effect pc w pc' w' -> ~ quiet (w, pc) ->
  (work_left (w', pc') < work_left (w, pc))%nat.
Proof.
  intros Hpc He Hq. unfold work_left. cbn [fst snd]. destruct pc as [|i|i o|i|i|i x]; cbn [work_effect pc_ok] in *.
  - destruct (work_queue (gx w)) as [|x q] eqn:Hw; [by destruct Hq|]. destruct He as [-> ->].
    cbn [gx set_queue work_queue length]. destruct x; lia.
  - destruct He as [-> ->]. case_decide; lia.
  - destruct He as (-> & -> & _). lia.
  - destruct He as [-> ->]. case_decide; [destruct (out_bit _ _)|]; lia.
  - destruct He as [-> ->]. lia.
  - destruct He as (-> & -> & _). lia.
Qed.

Definition state_ok s : Prop := expander_wf (gx s.1) /\ pc_ok s.2.

#[local] Instance quiet_dec s : Decision (quiet s).
Proof.
  refine (match s.2 as pc, work_queue (gx s.1) as q return s.2 = pc -> work_queue (gx s.1) = q -> Decision (quiet s) with
    | Waiting, [] => fun H1 H2 => left (conj H1 H2)
    | _, _ => fun H1 H2 => right _
    end eq_refl eq_refl); intros [H3 H4]; congruence.
Defined.

Lemma work_ends s : state_ok s -> exists k s', (k <= work_left s)%nat /\ gx_run n (replicate k Work) s s' /\ quiet s'.
Proof.
  remember (work_left s) as m eqn:Hm. revert s Hm. induction (lt_wf m) as [m _ IH]. intros s -> Hok.
  destruct (decide (quiet s)) as [Hq|Hq]; [exists 0%nat, s; split; [lia|]; split; [constructor|done]|].
  destruct s as [w pc]. destruct Hok as [Hwf Hpc]. cbn [fst snd] in *.
  destruct (work_step_run pc w Hwf Hpc) as (pc' & w' & Hr & He & Hwf' & Hpc').
  pose proof (work_left_decreases _ _ _ _ Hpc He Hq) as Hlt.
  destruct (IH _ Hlt (w', pc') eq_refl) as (k & s' & Hk & Hrun & Hq'); [done|].
  exists (S k), s'. split; [lia|]. split; [|done]. cbn [replicate]. econstructor; [by constructor|done].
Qed.

(** ** Frames and updates *)

(** The contents of an array after [memcpy]. *)
Definition overwrite (frame : can_frame) (dst : list Z) : list Z :=
  let k := Z.to_nat (can_dlc frame) in take k (can_data frame) ++ drop k dst.

Lemma length_overwrite f dst : (Z.to_nat (can_dlc f) <= length (can_data f) /\ Z.to_nat (can_dlc f) <= length dst)%nat ->
  length (overwrite f dst) = length dst.
Proof. intros [H1 H2]. unfold overwrite. rewrite length_app, length_take, length_drop. lia. Qed.

Lemma copy_frame_inv f dst w data w' : copy_frame f dst w = Ret data w' ->
  w' = w /\ data = overwrite f dst /\ length data = length dst.
Proof.
  unfold copy_frame. case_decide as H; [|done]. intros [= <- <-]. split; [done|]. split; [done|]. by apply length_overwrite.
Qed.

(** The queue after a submission. *)
Definition submitted (x : expander_work) (q : list expander_work) : list expander_work := if decide (x ∈ q) then q else q ++ [x].

Lemma elem_of_submitted x y q : y ∈ submitted x q <-> y = x \/ y ∈ q.
Proof.
  unfold submitted. case_decide as H; [split; [by right|by intros [->|] ]|]. rewrite elem_of_app, list_elem_of_singleton. tauto.
Qed.

Lemma submit_run x w : k_work_submit x w = Ret tt (GxWorld (set_queue (submitted x (work_queue (gx w))) (gx w)) (gx_ext w)).
Proof. unfold k_work_submit, update, modify, submitted. case_decide; [|done]. by destruct w as [ [] ]. Qed.

Lemma config_frame_inv f w w' : receive_config_callback f w = Ret tt w' ->
  view w' = view w /\ config_frame_data (gx w') = overwrite f (config_frame_data (gx w)) /\
  length (config_frame_data (gx w')) = length (config_frame_data (gx w)) /\
  write_frame_data (gx w') = write_frame_data (gx w) /\ work_queue (gx w') = submitted configure_gpios_work (work_queue (gx w)).
Proof.
  unfold receive_config_callback, get_gx. unfold bind at 1, gets. intros (data & w1 & H & Hrest)%bind_Ret.
  apply copy_frame_inv in H as (-> & -> & Hl). unfold update in Hrest. unfold bind, modify in Hrest. rewrite submit_run in Hrest.
  injection Hrest as <-. by split_and!.
Qed.

Lemma write_frame_inv f w w' : receive_write_callback f w = Ret tt w' ->
  view w' = view w /\ config_frame_data (gx w') = config_frame_data (gx w) /\
  write_frame_data (gx w') = overwrite f (write_frame_data (gx w)) /\
  length (write_frame_data (gx w')) = length (write_frame_data (gx w)) /\
  work_queue (gx w') = submitted write_gpios_work (work_queue (gx w)).
Proof.
  unfold receive_write_callback, get_gx. unfold bind at 1, gets. intros (data & w1 & H & Hrest)%bind_Ret.
  apply copy_frame_inv in H as (-> & -> & Hl). unfold update in Hrest. unfold bind, modify in Hrest. rewrite submit_run in Hrest.
  injection Hrest as <-. by split_and!.
Qed.

(** The byte of a pin: a bit that is set in zeroed memory. *)
Lemma pin_bit_testbit data i : pin_bit data i = (fun b => Z.b2z (Z.testbit b (Z.of_nat (i mod 8)))) <$> data !! (i / 8)%nat.
Proof.
  unfold pin_bit. destruct (data !! (i / 8)%nat) as [b|]; [|done]. cbn. f_equal.
  rewrite Z.testbit_spec', <- Z.shiftr_div_pow2 by lia. by rewrite (Z.land_ones _ 1).
Qed.

Lemma pin_bit_bit data i b : pin_bit data i = Some b -> 0 <= b <= 1.
Proof.
  rewrite pin_bit_testbit. destruct (data !! (i / 8)%nat); [|done]. intros [= <-]. destruct (Z.testbit _ _); cbn; lia.
Qed.

Lemma level_bit_range d i : 0 <= level_bit d i <= 1.
Proof. unfold level_bit. destruct (pin_bit _ i) as [b|] eqn:H; [by eapply pin_bit_bit|cbn; lia]. Qed.

Lemma testbit_level i level k : 0 <= level <= 1 -> 0 <= k ->
  Z.testbit (Z.shiftl level (Z.of_nat (i mod 8))) k = bool_decide (k = Z.of_nat (i mod 8)) && (level =? 1).
Proof.
  intros Hl Hk. assert (level = 0 \/ level = 1) as [-> | ->] by lia.
  - by rewrite Z.shiftl_0_l, Z.testbit_0_l, andb_false_r.
  - rewrite andb_true_r. apply testbit_BIT; lia.
Qed.

Lemma or_pin_run i level data w : length data = 8%nat -> (i < 64)%nat -> 0 <= level <= 1 -> pin_bit data i = Some 0 ->
  exists data', or_pin i level data w = Ret data' w /\ length data' = 8%nat /\ pin_bit data' i = Some level /\
    forall j, j <> i -> pin_bit data' j = pin_bit data j.
Proof.
  intros Hl Hi Hlev H0. unfold or_pin.
  destruct (lookup_lt_is_Some_2 data (i / 8)) as [b Hb]; [rewrite Hl; apply Nat.Div0.div_lt_upper_bound; lia|].
  rewrite Hb. cbn [of_option]. unfold bind, ret. eexists. split; [reflexivity|]. split; [by rewrite length_insert|].
  assert (forall j, (j / 8 = i / 8)%nat ->
    pin_bit (<[(i / 8)%nat := u8 (Z.lor b (Z.shiftl level (Z.of_nat (i mod 8))))]> data) j =
    Some (Z.b2z (Z.testbit b (Z.of_nat (j mod 8)) || (bool_decide (j = i) && (level =? 1))))) as Hbits.
  { intros j Hj. rewrite pin_bit_testbit, Hj, list_lookup_insert_eq by (by eapply lookup_lt_Some). cbn [fmap option_fmap option_map]. f_equal.
    pose proof (Nat.mod_upper_bound j 8). rewrite testbit_wrap, Z.lor_spec, testbit_level by lia.
    rewrite (proj2 (Z.ltb_lt _ 8)) by lia. cbn [andb]. do 2 f_equal. f_equal. apply bool_decide_ext.
    pose proof (Nat.div_mod_eq i 8). pose proof (Nat.div_mod_eq j 8). lia. }
  split.
  - rewrite Hbits by done. rewrite bool_decide_true by done. rewrite pin_bit_testbit, Hb in H0. injection H0 as H0.
    destruct (Z.testbit b _); [done|]. assert (level = 0 \/ level = 1) as [-> | ->] by lia; done.
  - intros j Hne. destruct (decide (j / 8 = i / 8)%nat) as [Hj|Hj].
    + rewrite Hbits by done. rewrite bool_decide_false by done. by rewrite orb_false_r, pin_bit_testbit, Hj, Hb.
    + unfold pin_bit. by rewrite list_lookup_insert_ne.
Qed.

(** The inputs among the pins, and the pairs read of them. *)
Definition read_pairs (d : expander) (value : nat -> Z) (k i : nat) : list (nat * Z) :=
  (fun j => (j, value j)) <$> filter (fun j => out_bit d j = false) (seq i k).

Lemma read_pairs_ext d value value' k i : (forall j, (i <= j)%nat -> value j = value' j) -> read_pairs d value k i = read_pairs d value' k i.
Proof.
  intros H. apply list_fmap_ext. intros m j [_ Hj]%list_elem_of_lookup_2%list_elem_of_filter. apply elem_of_seq in Hj. by rewrite H by lia.
Qed.

(** The bits of a state frame from the pins in [d] and the values read. *)
Definition state_bit (d : expander) (value : nat -> Z) (i : nat) : Z := if out_bit d i then level_bit d i else value i.

Lemma state_loop_run k : forall i data w, expander_wf (gx w) -> (i + k <= n)%nat -> length data = 8%nat ->
  (forall j, (i <= j < 64)%nat -> pin_bit data j = Some 0) ->
  exists value data' w', state_loop k i data w = Ret (0, data') w' /\ gx w' = gx w /\ same_outputs (view w) (view w') /\
    sent (view w') = sent (view w) /\ reads (view w') = reads (view w) ++ read_pairs (gx w) value k i /\ length data' = 8%nat /\
    (forall j, 0 <= value j <= 1) /\
    (forall j, (i <= j < i + k)%nat -> pin_bit data' j = Some (state_bit (gx w) value j)) /\
    (forall j, (j < i)%nat -> pin_bit data' j = pin_bit data j).
Proof.
  induction k as [|k IH]; intros i data w Hwf Hik Hl Hz; cbn [state_loop].
  { exists (fun _ => 0), data, w. unfold read_pairs. cbn. rewrite app_nil_r. split_and!; (done || (intros; lia)). }
  rewrite (bind_step _ _ _ _ _ (is_gpio_output_run w i Hwf ltac:(lia))).
  destruct (out_bit (gx w) i) eqn:Hout.
  - rewrite (bind_step _ _ _ _ _ (output_level_run w i Hwf ltac:(lia))).
    destruct (or_pin_run i (level_bit (gx w) i) data w) as (data1 & Hr & Hl1 & Hb1 & Ho1); [done|lia|apply level_bit_range|apply Hz; lia|].
    rewrite (bind_step _ _ _ _ _ Hr).
    destruct (IH (S i) data1 w) as (value & data' & w' & Hrun & Hg & Hs & Hse & Hre & Hl' & Hv & Hbits & Hlow);
      [done|lia|done|intros j Hj; rewrite Ho1 by lia; apply Hz; lia|].
    exists value, data', w'. split; [done|]. split; [done|]. split; [done|]. split; [done|]. split.
    { rewrite Hre. unfold read_pairs. cbn [seq]. rewrite filter_cons_False by (by rewrite Hout). done. }
    split; [done|]. split; [done|]. split.
    + intros j Hj. destruct (decide (j = i)) as [->|]; [|apply Hbits; lia]. rewrite Hlow by lia. unfold state_bit. by rewrite Hout.
    + intros j Hj. rewrite Hlow by lia. apply Ho1. lia.
  - destruct (pin_get_law i (gx_ext w)) as (x & e1 & Hr & Hx & Hso & Hre1 & Hse1).
    rewrite (bind_step _ _ _ _ _ (on_board_run _ _ _ _ Hr)). rewrite (proj2 (Z.ltb_ge x 0)) by lia.
    set (w1 := GxWorld (gx w) e1).
    destruct (or_pin_run i x data w1) as (data1 & Hr1 & Hl1 & Hb1 & Ho1); [done|lia|lia|apply Hz; lia|].
    rewrite (bind_step _ _ _ _ _ Hr1).
    destruct (IH (S i) data1 w1) as (value & data' & w' & Hrun & Hg & Hs & Hse & Hre & Hl' & Hv & Hbits & Hlow);
      [done|lia|done|intros j Hj; rewrite Ho1 by lia; apply Hz; lia|].
    exists (fun j => if decide (j = i) then x else value j), data', w'. split; [done|]. split; [done|]. split.
    { intros j. destruct (Hs j) as [-> ->]. apply Hso. }
    split; [rewrite Hse; apply Hse1|]. split.
    { rewrite Hre. unfold view at 1. cbn [w1 gx_ext]. rewrite Hre1, <- app_assoc. f_equal.
      unfold read_pairs at 2. cbn [seq]. rewrite filter_cons_True by done. cbn [fmap list_fmap app]. rewrite decide_True by done.
      f_equal. apply read_pairs_ext. intros j Hj. by rewrite decide_False by lia. }
    split; [done|]. split; [intros j; case_decide; [lia|apply Hv]|]. split.
    + intros j Hj. unfold state_bit. destruct (decide (j = i)) as [->|Hne].
      * rewrite Hlow by lia. by rewrite Hout.
      * rewrite Hbits by lia. done.
    + intros j Hj. rewrite Hlow by lia. apply Ho1. lia.
Qed.

Lemma state_frame_run w : expander_wf (gx w) ->
  exists value data r w', send_state_update_frame n w = Ret r w' /\ gx w' = gx w /\ same_outputs (view w) (view w') /\
    reads (view w') = reads (view w) ++ read_pairs (gx w) value n 0 /\
    sent (view w') = (if r =? 0 then sent (view w) ++ [CanFrame GPIO_STATE_FRAME_ID 8 0 data] else sent (view w)) /\
    length data = 8%nat /\ forall j, (j < n)%nat -> pin_bit data j = Some (state_bit (gx w) value j).
Proof.
  intros Hwf. destruct (state_loop_run n 0 (replicate 8 0) w Hwf) as (value & data & w1 & Hr & Hg & Hs & Hse & Hre & Hl & _ & Hb & _);
    [lia|done| |].
  { intros j Hj. destruct (pin_bit_is_Some (replicate 8 0) j eq_refl) as [b Hb]; [lia|]. rewrite Hb. rewrite pin_bit_testbit in Hb.
    destruct (replicate 8 0 !! (j / 8)%nat) as [x|] eqn:Hx; [|done]. apply lookup_replicate in Hx as [-> _].
    injection Hb as <-. by rewrite Z.testbit_0_l. }
  unfold send_state_update_frame. rewrite (bind_step _ _ _ _ _ Hr). cbn [Z.ltb Z.compare].
  destruct (send_law (CanFrame GPIO_STATE_FRAME_ID 8 0 data) (gx_ext w1)) as (r & e' & Hsend & Hso & Hre' & Hse').
  fold (view w1) in Hso, Hre', Hse'. rewrite Hre in Hre'. rewrite Hse in Hse'.
  exists value, data, r. eexists. split; [by apply on_board_run|]. split; [done|].
  split; [intros j; destruct (Hso j) as [H1 H2]; unfold view at 1 3; cbn [gx_ext]; rewrite H1, H2; apply Hs|].
  split; [done|]. split; [done|]. split; [done|]. intros j Hj. apply Hb. lia.
Qed.

(** ** Invariants *)

(** What an event does to the arrays. *)
Definition config_after (ev : gx_event) (data : list Z) : list Z := match ev with ConfigFrame f => overwrite f data | _ => data end.
Definition write_after (ev : gx_event) (data : list Z) : list Z := match ev with WriteFrame f => overwrite f data | _ => data end.

(** The first [i] pins have the direction of the configuration. *)
Definition directions_below w (i : nat) : Prop := forall j, (j < i)%nat -> is_output (view w) j = out_bit (gx w) j.
(** The outputs among them have the level that was written. *)
Definition levels_below w (i : nat) : Prop := forall j, (j < i)%nat -> out_bit (gx w) j = true -> latch (view w) j = level_bit (gx w) j.

(** The directions are set for the pins that are done, or the work is queued. *)
Definition directions_inv s : Prop :=
  configure_gpios_work ∈ work_queue (gx s.1) \/
  match s.2 with
  | ConfigureRead i => directions_below s.1 (i `min` n)
  | ConfigurePin i o => directions_below s.1 i /\ o = out_bit (gx s.1) i
  | _ => directions_below s.1 n
  end.

(** No configuration is under way. *)
Definition configured s : Prop :=
  (configure_gpios_work ∉ work_queue (gx s.1)) /\ directions_below s.1 n /\
  match s.2 with ConfigureRead _ | ConfigurePin _ _ => False | _ => True end.

(** So are the levels. *)
Definition levels_inv s : Prop :=
  write_gpios_work ∈ work_queue (gx s.1) \/
  match s.2 with
  | WriteRead i => levels_below s.1 (i `min` n)
  | WriteLevel i => levels_below s.1 i /\ out_bit (gx s.1) i = true
  | WriteSet i x => levels_below s.1 i /\ out_bit (gx s.1) i = true /\ x = level_bit (gx s.1) i
  | _ => levels_below s.1 n
  end.

Lemma out_bit_eq d d' i : config_frame_data d' = config_frame_data d -> out_bit d' i = out_bit d i.
Proof. unfold out_bit. by intros ->. Qed.
Lemma level_bit_eq d d' i : write_frame_data d' = write_frame_data d -> level_bit d' i = level_bit d i.
Proof. unfold level_bit. by intros ->. Qed.

(** Nothing that the invariants are about has changed. *)
Definition undisturbed w w' : Prop :=
  same_outputs (view w) (view w') /\ config_frame_data (gx w') = config_frame_data (gx w) /\
  write_frame_data (gx w') = write_frame_data (gx w).

Lemma directions_undisturbed w w' i : undisturbed w w' -> directions_below w i -> directions_below w' i.
Proof. intros (Hs & Hc & _) H j Hj. destruct (Hs j) as [-> _]. rewrite (out_bit_eq _ _ _ Hc). by apply H. Qed.

Lemma levels_undisturbed w w' i : undisturbed w w' -> levels_below w i -> levels_below w' i.
Proof.
  intros (Hs & Hc & Hw) H j Hj. destruct (Hs j) as [_ ->]. rewrite (out_bit_eq _ _ _ Hc), (level_bit_eq _ _ _ Hw). by apply H.
Qed.

Lemma same_undisturbed w : undisturbed w w.
Proof. by split_and!. Qed.

(** An event: what the arrays hold, and what is as it was. *)
Lemma event_effect ev s s' : state_ok s -> gx_step n ev s s' ->
  state_ok s' /\
  config_frame_data (gx s'.1) = config_after ev (config_frame_data (gx s.1)) /\
  write_frame_data (gx s'.1) = write_after ev (write_frame_data (gx s.1)) /\
  match ev with
  | Work => work_effect s.2 s.1 s'.2 s'.1
  | ConfigFrame _ => s'.2 = s.2 /\ view s'.1 = view s.1 /\ work_queue (gx s'.1) = submitted configure_gpios_work (work_queue (gx s.1))
  | WriteFrame _ => s'.2 = s.2 /\ view s'.1 = view s.1 /\ work_queue (gx s'.1) = submitted write_gpios_work (work_queue (gx s.1))
  | StateUpdate | Transmitted => s'.2 = s.2 /\ undisturbed s.1 s'.1 /\ work_queue (gx s'.1) = work_queue (gx s.1)
  end.
Proof.
  intros [Hwf Hpc] H. destruct H as [w pc w' pc' H|w pc f w' H|w pc f w' H|w pc r w' H|w pc w' H]; cbn [fst snd] in *; unfold state_ok; cbn [fst snd].
  - destruct (work_step_run pc w Hwf Hpc) as (pc2 & w2 & Hr & He & Hwf2 & Hpc2). rewrite H in Hr. injection Hr as <- <-.
    split; [done|]. cbn [config_after write_after].
    assert (config_frame_data (gx w') = config_frame_data (gx w) /\ write_frame_data (gx w') = write_frame_data (gx w)) as [-> ->]; [|done].
    destruct pc; cbn [work_effect] in He; try (destruct He as [Hg _]; by rewrite Hg).
    destruct (work_queue (gx w)); by destruct He as [_ ->].
  - apply config_frame_inv in H as (Hv & Hc & Hl & Hw & Hq). destruct Hwf. repeat split; try done; congruence.
  - apply write_frame_inv in H as (Hv & Hc & Hw & Hl & Hq). destruct Hwf. repeat split; try done; congruence.
  - destruct (state_frame_run w Hwf) as (value & data & r2 & w2 & Hr & Hg & Hs & _). rewrite H in Hr. injection Hr as <- <-.
    unfold undisturbed. rewrite Hg. split_and!; done.
  - injection H as <-. destruct Hwf. repeat split; done.
Qed.

Lemma directions_work pc w pc' w' : work_effect pc w pc' w' -> directions_inv (w, pc) -> directions_inv (w', pc').
Proof.
  unfold directions_inv. cbn [fst snd]. intros He Hinv. destruct pc as [|i|i o|i|i|i x]; cbn [work_effect] in He.
  - destruct (work_queue (gx w)) as [|y q] eqn:Hq; [destruct He as [-> ->]; rewrite Hq; tauto|].
    destruct He as [-> ->]. cbn [gx set_queue work_queue]. destruct Hinv as [Hin|Hd].
    + apply elem_of_cons in Hin as [<-|Hin]; [right; intros j Hj; lia|by left].
    + right. destruct y; [intros j Hj; lia|exact Hd].
  - destruct He as [-> ->]. destruct Hinv as [Hin|Hd]; [by left|]. right. case_decide; [by rewrite Nat.min_l in Hd by lia|].
    by rewrite Nat.min_r in Hd by lia.
  - destruct He as (Hg & -> & (Hoth & _) & Ho). rewrite Hg. destruct Hinv as [Hin|[Hd ->] ]; [by left|]. right.
    intros j Hj. rewrite Hg. destruct (decide (j = i)) as [->|Hne]; [done|]. destruct (Hoth j Hne) as [-> _]. apply Hd. lia.
  - destruct He as [-> ->]. destruct Hinv as [Hin|Hd]; [by left|]. right. case_decide; [by destruct (out_bit _ _)|done].
  - destruct He as [-> ->]. tauto.
  - destruct He as (Hg & -> & (Hoth & _) & Ho & _). rewrite Hg. destruct Hinv as [Hin|Hd]; [by left|]. right.
    intros j Hj. rewrite Hg. destruct (decide (j = i)) as [->|Hne]; [rewrite Ho|destruct (Hoth j Hne) as [-> _] ]; by apply Hd.
Qed.

(** Events that leave outputs and configuration alone. *)
Lemma directions_kept pc w w' : (forall j, is_output (view w') j = is_output (view w) j) ->
  config_frame_data (gx w') = config_frame_data (gx w) ->
  (configure_gpios_work ∈ work_queue (gx w) -> configure_gpios_work ∈ work_queue (gx w')) ->
  directions_inv (w, pc) -> directions_inv (w', pc).
Proof.
  unfold directions_inv. cbn [fst snd]. intros Hv Hc Hq [Hin|Hd]; [left; by apply Hq|]. right.
  assert (forall i, directions_below w i -> directions_below w' i) as Hb.
  { intros i H j Hj. rewrite Hv, (out_bit_eq _ _ _ Hc). by apply H. }
  destruct pc; try (by apply Hb). destruct Hd as [Hd ->]. split; [by apply Hb|]. symmetry. by apply out_bit_eq.
Qed.

Lemma directions_step ev s s' : state_ok s -> gx_step n ev s s' -> directions_inv s -> directions_inv s'.
Proof.
  intros Hok Hstep Hinv. destruct (event_effect ev s s' Hok Hstep) as (_ & Hc & _ & He).
  destruct s as [w pc], s' as [w' pc']. cbn [fst snd] in *. destruct ev as [|f|f| |]; cbn [config_after] in *.
  - by eapply directions_work.
  - destruct He as (_ & _ & Hq). left. cbn [fst]. rewrite Hq. apply elem_of_submitted. by left.
  - destruct He as (-> & Hv & Hq). eapply directions_kept; [|exact Hc| |exact Hinv]; [by rewrite Hv|].
    rewrite Hq. intros ?. apply elem_of_submitted. by right.
  - destruct He as (-> & (Hs & _) & Hq). eapply directions_kept; [apply Hs|exact Hc|by rewrite Hq|exact Hinv].
  - destruct He as (-> & (Hs & _) & Hq). eapply directions_kept; [apply Hs|exact Hc|by rewrite Hq|exact Hinv].
Qed.

(** While no configuration frame arrives, the configuration stays. *)
Definition is_config (ev : gx_event) : bool := match ev with ConfigFrame _ => true | _ => false end.

Lemma configured_work pc w pc' w' : configured (w, pc) -> work_effect pc w pc' w' -> configured (w', pc').
Proof.
  unfold configured. cbn [fst snd]. intros (Hni & Hdir & Hpc) He. destruct pc as [|i|i o|i|i|i x]; cbn [work_effect] in He; try done.
  - destruct (work_queue (gx w)) as [|y q] eqn:Hq; [destruct He as [-> ->]; by rewrite Hq|].
    destruct He as [-> ->]. cbn [gx set_queue work_queue]. apply not_elem_of_cons in Hni as [Hy Hni]. by destruct y.
  - destruct He as [-> ->]. split_and!; try done. by case_decide; [destruct (out_bit _ _)|].
  - by destruct He as [-> ->].
  - destruct He as (Hg & -> & (Hoth & _) & Ho & _). unfold directions_below. rewrite Hg. split_and!; try done.
    intros j Hj. destruct (decide (j = i)) as [->|Hne]; [rewrite Ho|destruct (Hoth j Hne) as [-> _] ]; by apply Hdir.
Qed.

Lemma configured_kept pc w w' : (forall j, is_output (view w') j = is_output (view w) j) ->
  config_frame_data (gx w') = config_frame_data (gx w) ->
  (configure_gpios_work ∈ work_queue (gx w') -> configure_gpios_work ∈ work_queue (gx w)) ->
  configured (w, pc) -> configured (w', pc).
Proof.
  unfold configured. cbn [fst snd]. intros Hv Hc Hq (Hni & Hdir & Hpc). split; [tauto|]. split; [|done].
  intros j Hj. rewrite Hv, (out_bit_eq _ _ _ Hc). by apply Hdir.
Qed.

Lemma configured_step ev s s' : state_ok s -> gx_step n ev s s' -> is_config ev = false -> configured s -> configured s'.
Proof.
  intros Hok Hstep Hnc Hcf. destruct (event_effect ev s s' Hok Hstep) as (_ & Hc & _ & He).
  destruct s as [w pc], s' as [w' pc']. cbn [fst snd] in *. destruct ev as [|f|f| |]; cbn [config_after] in *; [|done| | |].
  - by eapply configured_work.
  - destruct He as (-> & Hv & Hq). eapply configured_kept; [by rewrite Hv|exact Hc| |exact Hcf].
    rewrite Hq. rewrite elem_of_submitted. intros [|]; done.
  - destruct He as (-> & (Hs & _) & Hq). eapply configured_kept; [apply Hs|exact Hc|by rewrite Hq|exact Hcf].
  - destruct He as (-> & (Hs & _) & Hq). eapply configured_kept; [apply Hs|exact Hc|by rewrite Hq|exact Hcf].
Qed.

(** The levels, while the configuration is left alone. *)
Lemma levels_work pc w pc' w' : configured (w, pc) -> work_effect pc w pc' w' -> pc_ok pc -> levels_inv (w, pc) -> levels_inv (w', pc').
Proof.
  unfold configured, levels_inv. cbn [fst snd]. intros (Hni & Hdir & Hpc) He Hok Hinv.
  destruct pc as [|i|i o|i|i|i x]; cbn [work_effect pc_ok] in *; try done.
  - destruct (work_queue (gx w)) as [|y q] eqn:Hq; [destruct He as [-> ->]; rewrite Hq; tauto|].
    destruct He as [-> ->]. cbn [gx set_queue work_queue]. apply not_elem_of_cons in Hni as [Hy _].
    destruct y; [done|]. right. intros j Hj. lia.
  - destruct He as [-> ->]. destruct Hinv as [Hin|Hl]; [by left|]. right. case_decide as Hi.
    + rewrite Nat.min_l in Hl by lia. destruct (out_bit (gx w) i) eqn:Ho; [done|]. intros j Hj Hj2.
      destruct (decide (j = i)) as [->|]; [congruence|]. apply Hl; [lia|done].
    + by rewrite Nat.min_r in Hl by lia.
  - destruct He as [-> ->]. destruct Hinv as [Hin|[Hl Ho] ]; [by left|]. by right.
  - destruct He as (Hg & -> & (Hoth & _) & Ho & Hs). unfold levels_below in *. rewrite Hg.
    destruct Hinv as [Hin|(Hl & Hout & ->)]; [by left|]. right. intros j Hj Hj2.
    destruct (decide (j = i)) as [->|Hne]; [apply Hs; by rewrite Hdir|]. destruct (Hoth j Hne) as [_ ->]. apply Hl; [lia|done].
Qed.

Lemma levels_kept pc w w' : undisturbed w w' -> work_queue (gx w') = work_queue (gx w) -> levels_inv (w, pc) -> levels_inv (w', pc).
Proof.
  unfold levels_inv. cbn [fst snd]. intros Hu Hq Hinv. rewrite Hq. destruct Hinv as [Hin|Hl]; [by left|]. right.
  pose proof Hu as (_ & Hc & Hw). destruct pc; try (by eapply levels_undisturbed).
  - destruct Hl as [Hl Ho]. split; [by eapply levels_undisturbed|]. by rewrite (out_bit_eq _ _ _ Hc).
  - destruct Hl as (Hl & Ho & ->). rewrite (out_bit_eq _ _ _ Hc), (level_bit_eq _ _ _ Hw). split; [by eapply levels_undisturbed|done].
Qed.

Lemma levels_step ev s s' : state_ok s -> gx_step n ev s s' -> configured s -> is_config ev = false ->
  (levels_inv s \/ exists f, ev = WriteFrame f) -> levels_inv s'.
Proof.
  intros Hok Hstep Hcf Hnc Hinv. destruct (event_effect ev s s' Hok Hstep) as (_ & _ & _ & He).
  destruct s as [w pc], s' as [w' pc']. cbn [fst snd] in *. destruct ev as [|f|f| |]; [|done| | |];
    try (destruct Hinv as [Hinv|[? ?] ]; [|done]).
  - destruct Hok as [_ Hpc]. by eapply levels_work.
  - destruct He as (_ & _ & Hq). left. cbn [fst]. rewrite Hq. apply elem_of_submitted. by left.
  - destruct He as (-> & Hu & Hq). by eapply levels_kept.
  - destruct He as (-> & Hu & Hq). by eapply levels_kept.
Qed.

(** ** Runs *)

Lemma gx_run_app evs1 evs2 s1 s3 : gx_run n (evs1 ++ evs2) s1 s3 -> exists s2, gx_run n evs1 s1 s2 /\ gx_run n evs2 s2 s3.
Proof.
  revert s1. induction evs1 as [|ev evs1 IH]; intros s1 H; [exists s1; by split; [constructor|] |].
  inversion H; subst. edestruct IH as (s & Ha & Hb); [eassumption|]. exists s. split; [by econstructor|done].
Qed.

(** An invariant of the steps is one of the runs. *)
Lemma gx_run_inv (P : gx_state -> Prop) (ok : gx_event -> Prop) : (forall ev s s', state_ok s -> gx_step n ev s s' -> ok ev -> P s -> P s') ->
  forall evs s s', gx_run n evs s s' -> Forall ok evs -> state_ok s -> P s -> P s'.
Proof.
  intros Hstep evs s s' Hrun. induction Hrun as [s|ev evs s1 s2 s3 H1 _ IH]; intros Hall Hok HP; [done|].
  inversion Hall; subst. apply IH; [done| |by eapply Hstep]. by eapply event_effect.
Qed.

Lemma gx_run_data evs s s' : gx_run n evs s s' -> state_ok s ->
  state_ok s' /\ config_frame_data (gx s'.1) = fold_left (fun d ev => config_after ev d) evs (config_frame_data (gx s.1)) /\
  write_frame_data (gx s'.1) = fold_left (fun d ev => write_after ev d) evs (write_frame_data (gx s.1)).
Proof.
  intros Hrun. induction Hrun as [s|ev evs s1 s2 s3 H1 _ IH]; intros Hok; [done|].
  destruct (event_effect ev s1 s2 Hok H1) as (Hok2 & Hc & Hw & _). cbn [fold_left]. rewrite <- Hc, <- Hw. by apply IH.
Qed.

Lemma Forall_work k (ok : gx_event -> Prop) : ok Work -> Forall ok (replicate k Work).
Proof. intros H. apply Forall_forall. by intros x [-> _]%elem_of_replicate. Qed.

Lemma fold_work {A} (f : A -> gx_event -> A) k a : (forall a, f a Work = a) -> fold_left f (replicate k Work) a = a.
Proof. intros H. induction k as [|k IH]; cbn; [done|]. by rewrite H. Qed.

(** The work that is left, done without further frames. *)
Lemma work_done s : state_ok s -> exists k s', (k <= work_left s)%nat /\ gx_run n (replicate k Work) s s' /\ quiet s' /\ state_ok s' /\
  config_frame_data (gx s'.1) = config_frame_data (gx s.1) /\ write_frame_data (gx s'.1) = write_frame_data (gx s.1).
Proof.
  intros Hok. destruct (work_ends s Hok) as (k & s' & Hk & Hrun & Hq). destruct (gx_run_data _ _ _ Hrun Hok) as (Hok' & Hc & Hw).
  rewrite fold_work in Hc by done. rewrite fold_work in Hw by done. eauto 10.
Qed.

Lemma quiet_directions s : quiet s -> directions_inv s -> directions_below s.1 n.
Proof. unfold directions_inv. intros [-> ->] [Hin|H]; [by apply not_elem_of_nil in Hin|done]. Qed.

Lemma quiet_levels s : quiet s -> levels_inv s -> levels_below s.1 n.
Proof. unfold levels_inv. intros [-> ->] [Hin|H]; [by apply not_elem_of_nil in Hin|done]. Qed.

(** ** Start *)

Lemma configure_loop_run k : forall i w, expander_wf (gx w) -> (i + k = n)%nat -> directions_below w i ->
  exists w', configure_loop k i w = Ret tt w' /\ gx w' = gx w /\ directions_below w' n /\ sent (view w') = sent (view w).
Proof.
  induction k as [|k IH]; intros i w Hwf Hik Hd; cbn [configure_loop].
  { exists w. split_and!; try done. by replace n with i by lia. }
  rewrite (bind_step _ _ _ _ _ (is_gpio_output_run w i Hwf ltac:(lia))).
  destruct (configure_pin_run w i (out_bit (gx w) i)) as (w1 & Hr & Hg & (Hoth & _ & Hse) & Ho & _).
  rewrite (bind_step _ _ _ _ _ Hr). cbn [Z.eqb negb].
  destruct (IH (S i) w1) as (w' & Hrun & Hg' & Hd' & Hse'); [by rewrite Hg|lia| |].
  { intros j Hj. rewrite Hg. destruct (decide (j = i)) as [->|Hne]; [done|]. destruct (Hoth j Hne) as [-> _]. apply Hd. lia. }
  exists w'. rewrite Hg', Hse'. by split_and!.
Qed.

Lemma expander_data_init_wf : expander_wf expander_data_init.
Proof. by constructor. Qed.

Lemma out_bit_init d i : config_frame_data d = replicate 8 0 -> out_bit d i = false.
Proof.
  intros H. unfold out_bit, pin_bit. rewrite H. destruct (replicate 8 0 !! (i / 8)%nat) as [x|] eqn:Hx; [|done].
  apply lookup_replicate in Hx as [-> _]. cbn [fmap option_fmap option_map default]. by rewrite Z.shiftr_0_l.
Qed.

Lemma init_run w : gx w = expander_data_init -> exists err w', init n w = Ret err w' /\ gx w' = set_tx_sem 1 expander_data_init /\ directions_below w' n.
Proof.
  intros Hg0. unfold init, configure_gpios. unfold bind at 1, update, modify. rewrite Hg0.
  set (w0 := GxWorld _ (gx_ext w)).
  destruct (configure_loop_run n 0 w0 ltac:(by constructor) eq_refl ltac:(intros j Hj; lia)) as (w1 & Hr & Hg & Hd & _).
  rewrite (bind_step _ _ _ _ _ Hr).
  assert (exists err w2, init_can w1 = Ret err w2 /\ gx w2 = gx w1 /\ view w2 = view w1) as (err & w2 & Hc & Hg2 & Hv2).
  { unfold init_can. unfold bind, get. destruct (can_is_ready (gx_ext w1)); cbn [negb]; [|unfold ret; eauto 6].
    destruct (can_start_law (gx_ext w1)) as (r & e' & Hrun & Hp). do 2 eexists. split; [by apply on_board_run|]. by split. }
  rewrite (bind_step _ _ _ _ _ Hc).
  assert (forall w', gx w' = gx w1 -> view w' = view w1 -> gx w' = set_tx_sem 1 expander_data_init /\ directions_below w' n) as Hkeep.
  { intros w' Hg' Hv'. split; [by rewrite Hg', Hg|]. intros j Hj. rewrite Hv', Hg'. by apply Hd. }
  destruct (negb (err =? 0)); [do 2 eexists; split; [reflexivity|by apply Hkeep]|].
  unfold configure_receive_filters. destruct (add_filter_law receive_config_callback_fn receive_config_filter (gx_ext w2)) as (r1 & e1 & H1 & Hp1).
  rewrite bind_assoc, (bind_step _ _ _ _ _ (on_board_run _ _ _ _ H1)).
  destruct (r1 <? 0); [do 2 eexists; split; [reflexivity|apply Hkeep; [done|unfold view; cbn; by rewrite Hp1]]|].
  destruct (add_filter_law receive_write_callback_fn receive_write_filter e1) as (r2 & e2 & H2 & Hp2).
  rewrite bind_assoc. erewrite bind_step; [|apply on_board_run; exact H2].
  destruct (r2 <? 0); (do 2 eexists; split; [reflexivity|apply Hkeep; [done|unfold view; cbn; by rewrite Hp2, Hp1]]).
Qed.

(** No work is left, and the pins have the configured directions. *)
Definition settled s : Prop := state_ok s /\ quiet s /\ directions_below s.1 n.

(** C26. The board starts with all pins as inputs, whatever CAN says.
    After that, whatever frames arrive and wherever they interrupt the work,
    and however often the state is sent: when no more frames come the work ends,
    in a bounded number of steps, and then every pin has the direction of the
    configuration, which holds the frames received in their order. *)
Theorem configuration_settles w0 : gx w0 = expander_data_init ->
  exists err w1, init n w0 = Ret err w1 /\ settled (w1, Waiting) /\ (forall i, (i < n)%nat -> is_output (view w1) i = false) /\
    forall evs s, gx_run n evs (w1, Waiting) s ->
      exists k s', (k <= work_left s)%nat /\ gx_run n (replicate k Work) s s' /\ settled s' /\
        config_frame_data (gx s'.1) = fold_left (fun d ev => config_after ev d) evs (replicate 8 0) /\
        forall i, (i < n)%nat -> is_output (view s'.1) i = out_bit (gx s'.1) i.
Proof.
  intros H0. destruct (init_run w0 H0) as (err & w1 & Hr & Hg & Hd). exists err, w1. split; [done|].
  assert (state_ok (w1, Waiting)) as Hok by (split; [cbn; rewrite Hg; by constructor|done]).
  split; [split; [done|split; [split; [done|cbn; by rewrite Hg]|done] ]|].
  split; [intros i Hi; rewrite Hd by done; apply out_bit_init; by rewrite Hg|].
  intros evs s Hrun. destruct (gx_run_data _ _ _ Hrun Hok) as (Hok' & Hc & _).
  destruct (work_done s Hok') as (k & s' & Hk & Hrun' & Hq & Hok2 & Hc2 & _). exists k, s'.
  assert (directions_below s'.1 n) as Hd'.
  { apply quiet_directions; [done|]. eapply (gx_run_inv directions_inv (fun _ => True)); [|exact Hrun'|by apply Forall_true|done|].
    - intros ev x y Hx Hxy _. by apply (directions_step ev).
    - eapply (gx_run_inv directions_inv (fun _ => True)); [|exact Hrun|by apply Forall_true|done|by right].
      intros ev x y Hx Hxy _. by apply (directions_step ev). }
  split; [done|]. split; [done|]. split; [done|]. split; [|done]. cbn [fst] in Hc. rewrite Hg in Hc. by rewrite Hc2, Hc.
Qed.

Lemma config_kept evs d : Forall (fun ev => is_config ev = false) evs -> fold_left (fun d ev => config_after ev d) evs d = d.
Proof. intros H. induction H as [|ev evs Hev _ IH]; cbn [fold_left]; [done|]. by destruct ev. Qed.

Lemma quiet_configured s : quiet s -> directions_below s.1 n -> configured s.
Proof. intros [Hpc Hq] Hd. unfold configured. rewrite Hpc, Hq. split_and!; [apply not_elem_of_nil|done|done]. Qed.

Lemma levels_run evs s s' : gx_run n evs s s' -> Forall (fun ev => is_config ev = false) evs -> state_ok s ->
  configured s /\ levels_inv s -> configured s' /\ levels_inv s'.
Proof.
  intros Hrun Hnc Hok Hcl. eapply (gx_run_inv (fun s => configured s /\ levels_inv s)); [|exact Hrun|exact Hnc|done|done].
  intros ev x y Hx Hxy Hev [? ?]. split; [by eapply configured_step|]. apply (levels_step ev x y); [done|done|done|done|by left].
Qed.

(** After a write frame. *)
Lemma levels_run_write s evs1 f evs2 s1 : state_ok s -> configured s -> Forall (fun ev => is_config ev = false) (evs1 ++ WriteFrame f :: evs2) ->
  gx_run n (evs1 ++ WriteFrame f :: evs2) s s1 -> configured s1 /\ levels_inv s1.
Proof.
  intros Hok Hcf Hnc Hrun. destruct (gx_run_app _ _ _ _ Hrun) as (s2 & Hrun1 & Hrun2). apply Forall_app in Hnc as [Hnc1 Hnc2].
  inversion Hnc2 as [|? ? _ Hnc3]; subst. destruct (gx_run_data _ _ _ Hrun1 Hok) as (Hok2 & _).
  assert (configured s2) as Hcf2.
  { eapply (gx_run_inv configured); [|exact Hrun1|exact Hnc1|done|done]. intros ev x y Hx Hxy Hev. by apply (configured_step ev). }
  inversion Hrun2 as [|ev ? ? s3 ? Hw Hrun3]; subst. destruct (event_effect _ _ _ Hok2 Hw) as (Hok3 & _).
  apply (levels_run _ _ _ Hrun3 Hnc3 Hok3). split; [by apply (configured_step _ s2 s3 Hok2 Hw)|].
  apply (levels_step _ s2 s3 Hok2 Hw); [done|done|]. right. by eexists.
Qed.

(** C25. From a settled state, and while no configuration
    frame arrives: once a write frame came the work ends, whatever other write
    frames and updates there were in between, and then every output has the
    level that was written last; the next state frame tells for every output the
    level it has, and for every input the level that was read for it. *)
Theorem written_levels_settle s evs1 f evs2 s1 :
  settled s -> Forall (fun ev => is_config ev = false) (evs1 ++ WriteFrame f :: evs2) -> gx_run n (evs1 ++ WriteFrame f :: evs2) s s1 ->
  exists k s', (k <= work_left s1)%nat /\ gx_run n (replicate k Work) s1 s' /\ settled s' /\
    config_frame_data (gx s'.1) = config_frame_data (gx s.1) /\
    write_frame_data (gx s'.1) = fold_left (fun d ev => write_after ev d) (evs1 ++ WriteFrame f :: evs2) (write_frame_data (gx s.1)) /\
    (forall i, (i < n)%nat -> is_output (view s'.1) i = true -> latch (view s'.1) i = level_bit (gx s'.1) i) /\
    exists value data r w', send_state_update_frame n s'.1 = Ret r w' /\ gx w' = gx s'.1 /\
      sent (view w') = (if r =? 0 then sent (view s'.1) ++ [CanFrame GPIO_STATE_FRAME_ID 8 0 data] else sent (view s'.1)) /\
      reads (view w') = reads (view s'.1) ++ read_pairs (gx s'.1) value n 0 /\
      forall i, (i < n)%nat -> pin_bit data i = Some (if is_output (view s'.1) i then latch (view s'.1) i else value i).
Proof.
  intros (Hok & Hq & Hd) Hnc Hrun. pose proof (quiet_configured s Hq Hd) as Hcf.
  pose proof (levels_run_write s evs1 f evs2 s1 Hok Hcf Hnc Hrun) as Hcl1. destruct (gx_run_data _ _ _ Hrun Hok) as (Hok1 & Hc1 & Hw1).
  rewrite config_kept in Hc1 by done. destruct (work_done s1 Hok1) as (k & s' & Hk & Hrun' & Hq' & Hok' & Hc' & Hw').
  destruct (levels_run _ _ _ Hrun' (Forall_work k _ eq_refl) Hok1 Hcl1) as [ (_ & Hd' & _) Hl].
  pose proof (quiet_levels _ Hq' Hl) as Hlv. exists k, s'. split; [done|]. split; [done|]. split; [done|].
  split; [by rewrite Hc', Hc1|]. split; [by rewrite Hw', Hw1|]. split; [intros i Hi Ho; apply Hlv; [done|by rewrite <- Hd']|].
  destruct Hok' as [Hwf' _]. destruct (state_frame_run s'.1 Hwf') as (value & data & r & w' & Hsend & Hg & _ & Hre & Hse & _ & Hb).
  exists value, data, r, w'. split_and!; try done. intros i Hi. rewrite Hb by done. unfold state_bit. rewrite Hd' by done.
  destruct (out_bit (gx s'.1) i) eqn:Ho; [by rewrite Hlv|done].
Qed.

(** Pin [i] has the level [x], and only a configuration as an output is
    under way. *)
Definition level_untouched (i : nat) (x : Z) s : Prop :=
  (write_gpios_work ∉ work_queue (gx s.1)) /\ out_bit (gx s.1) i = true /\ latch (view s.1) i = x /\
  match s.2 with
  | WriteRead _ | WriteLevel _ | WriteSet _ _ => False
  | ConfigurePin j o => j = i -> o = true
  | _ => True
  end.

Lemma level_untouched_step i x s s' : state_ok s -> gx_step n Work s s' -> level_untouched i x s -> level_untouched i x s'.
Proof.
  intros [Hwf Hpc] Hstep (Hq & Ho & Hl & Hp). inversion Hstep as [w pc w' pc' H| | | |]; subst. unfold level_untouched. cbn [fst snd] in *.
  destruct pc as [|j|j o|j|j|j y]; try done.
  - unfold work_step, get_gx, update in H. unfold bind, gets, modify, ret in H. destruct (work_queue (gx w)) as [|y q] eqn:Hwq; injection H as <- <-.
    + rewrite Hwq. split_and!; done.
    + apply not_elem_of_cons in Hq as [Hy Hq]. destruct y; [|done]. split_and!; done.
  - cbn [work_step] in H. case_decide as Hj; [|injection H as <- <-; by split_and!].
    rewrite (bind_step _ _ _ _ _ (is_gpio_output_run w j Hwf Hj)) in H. injection H as <- <-. split_and!; try done. by intros ->.
  - cbn [work_step] in H. destruct (configure_pin_run w j o) as (w2 & Hr & Hg & (Hoth & _) & _ & Hlat).
    rewrite (bind_step _ _ _ _ _ Hr) in H. injection H as <- <-. rewrite Hg. split_and!; try done.
    destruct (decide (j = i)) as [->|Hne]; [by rewrite Hlat by auto|]. by destruct (Hoth i ltac:(congruence)) as [_ ->].
Qed.

(** [stored_level_not_driven]: a level that was written while the pin was an
    input is stored, but not driven when a configuration frame makes the pin an
    output: the pin keeps the level it has, while the state frame tells the
    stored one. *)
Theorem stored_level_not_driven s g s1 k s' i :
  settled s -> gx_step n (ConfigFrame g) s s1 -> (i < n)%nat -> out_bit (gx s1.1) i = true ->
  gx_run n (replicate k Work) s1 s' -> quiet s' ->
  is_output (view s'.1) i = true /\ latch (view s'.1) i = latch (view s.1) i /\
  exists data r w', send_state_update_frame n s'.1 = Ret r w' /\ pin_bit data i = Some (level_bit (gx s.1) i) /\
    sent (view w') = (if r =? 0 then sent (view s'.1) ++ [CanFrame GPIO_STATE_FRAME_ID 8 0 data] else sent (view s'.1)).
Proof.
  intros (Hok & [Hpc Hwq] & Hd) Hstep Hi Ho Hrun Hq. destruct (event_effect _ _ _ Hok Hstep) as (Hok1 & Hc & Hw & Hpc1 & Hv & Hq1).
  destruct (gx_run_data _ _ _ Hrun Hok1) as (Hok' & Hc' & Hw'). rewrite fold_work in Hc', Hw' by done.
  assert (level_untouched i (latch (view s.1) i) s1) as Hun.
  { unfold level_untouched. rewrite Hq1, Hpc1, Hpc, Hwq, Hv. split_and!; try done. rewrite elem_of_submitted. by intros [|?%elem_of_nil]. }
  assert (level_untouched i (latch (view s.1) i) s') as (_ & Ho' & Hl & _).
  { eapply (gx_run_inv (level_untouched i (latch (view s.1) i)) (fun ev => ev = Work)); [|exact Hrun|by apply Forall_work|done|done].
    intros ev x y Hx Hxy ->. by apply level_untouched_step. }
  assert (directions_inv s') as Hdi.
  { eapply (gx_run_inv directions_inv (fun _ => True)); [|exact Hrun|by apply Forall_true|done|].
    - intros ev x y Hx Hxy _. by apply (directions_step ev).
    - left. rewrite Hq1. apply elem_of_submitted. by left. }
  split; [by rewrite (quiet_directions _ Hq Hdi)|]. split; [done|]. destruct Hok' as [Hwf' _].
  destruct (state_frame_run s'.1 Hwf') as (value & data & r & w' & Hsend & _ & _ & _ & Hse & _ & Hb).
  exists data, r, w'. split; [done|]. split; [|done]. rewrite Hb by done. unfold state_bit. rewrite Ho'. f_equal. apply level_bit_eq. by rewrite Hw', Hw.
Qed.
(** Steps of the work queue thread one after the other. *)
Lemma works_cons s1 s2 s3 : gx_step n Work s1 s2 -> (exists k, gx_run n (replicate k Work) s2 s3) -> exists k, gx_run n (replicate k Work) s1 s3.
Proof. intros H [k Hk]. exists (S k). by eapply run_cons. Qed.

Lemma configure_loop_steps k : forall i w w', (i + k = n)%nat -> configure_loop k i w = Ret tt w' ->
  exists m, gx_run n (replicate m Work) (w, ConfigureRead i) (w', Waiting).
Proof.
  induction k as [|k IH]; intros i w w' Hi H; cbn [configure_loop] in H.
  { injection H as <-. apply (works_cons _ (w, Waiting)); [|exists 0%nat; constructor].
    constructor. cbn [work_step]. by rewrite decide_False by lia. }
  apply bind_Ret in H as (out & w1 & Hout & H). apply bind_Ret in H as (err & w2 & Herr & H).
  apply (works_cons _ (w1, ConfigurePin i out)).
  { constructor. cbn [work_step]. rewrite decide_True by lia. by rewrite (bind_step _ _ _ _ _ Hout). }
  apply (works_cons _ (w2, if negb (err =? 0) then Waiting else ConfigureRead (S i))).
  { constructor. cbn [work_step]. by rewrite (bind_step _ _ _ _ _ Herr). }
  destruct (negb (err =? 0)); [|apply IH; [lia|done] ]. injection H as <-. exists 0%nat. constructor.
Qed.

Lemma write_loop_steps k : forall i w w', (i + k = n)%nat -> write_loop k i w = Ret tt w' ->
  exists m, gx_run n (replicate m Work) (w, WriteRead i) (w', Waiting).
Proof.
  induction k as [|k IH]; intros i w w' Hi H; cbn [write_loop] in H.
  { injection H as <-. apply (works_cons _ (w, Waiting)); [|exists 0%nat; constructor].
    constructor. cbn [work_step]. by rewrite decide_False by lia. }
  apply bind_Ret in H as (out & w1 & Hout & H).
  apply (works_cons _ (w1, if out then WriteLevel i else WriteRead (S i))).
  { constructor. cbn [work_step]. rewrite decide_True by lia. by rewrite (bind_step _ _ _ _ _ Hout). }
  destruct out; cbn [negb] in H; [|apply IH; [lia|done] ].
  apply bind_Ret in H as (x & w2 & Hx & H). apply bind_Ret in H as (err & w3 & Herr & H).
  apply (works_cons _ (w2, WriteSet i x)); [constructor; cbn [work_step]; by rewrite (bind_step _ _ _ _ _ Hx)|].
  apply (works_cons _ (w3, if negb (err =? 0) then Waiting else WriteRead (S i))).
  { constructor. cbn [work_step]. by rewrite (bind_step _ _ _ _ _ Herr). }
  destruct (negb (err =? 0)); [|apply IH; [lia|done] ]. injection H as <-. exists 0%nat. constructor.
Qed.

(** [work_is_handler]: the steps of the thread, when nothing comes in between,
    are the two handlers. *)
Theorem work_is_handler w w' :
  (configure_gpios n w = Ret tt w' -> exists m, gx_run n (replicate m Work) (w, ConfigureRead 0) (w', Waiting)) /\
  (write_gpios n w = Ret tt w' -> exists m, gx_run n (replicate m Work) (w, WriteRead 0) (w', Waiting)).
Proof. split; intros H; [by apply (configure_loop_steps n)|by apply (write_loop_steps n)]. Qed.
End props.
