(* ===== verification/HwTest.v ===== *)
(** * The hardware test ([samples/hardware_test], [samples/hardware_tester])

    Two boards are wired pin to pin.  The one under test (the SUT, hardware_test)
    drives its pins, controllers and lines, the tester (hardware_tester) looks at
    them and logs what it sees.  A script on a computer sends both of them the
    same commands.  Here is what the parts share: the clock, the log, and the
    front end that takes commands (main.c, the same in both programs).  The GPIO
    test is in [HwTestGpio], the tests of the lines in [HwTestLines]. *)

From stdpp Require Import base list numbers strings.
From Stdlib Require Import ZArith Lia.
From S2P Require Import Prelude.
From S2P Require Import UdsViews.

#[local] Open Scope Z_scope.

(** ** The log *)

Inductive command := HwInfo | GpioTest | CanTest | LinTest | UartTest.

(** The messages; devices and pins by their index. *)
Inductive message :=
| Text (s : string)
| Started (c : command)
| Stopped (c : command)
| UnknownCommand (s : string)
| Idle (b : bool)
| HardwareId (s : string)
| PinNotReady (i : nat)
| PinConfigureFailed (i : nat) (err : Z)
| PinOn (i : nat)
| PinNotActive (i : nat)
| OtherPinActive (j : nat)
| DeviceNotReady (i : nat)
| DeviceError (i : nat) (err : Z)
| FrameSent (i : nat) (id data : Z)
| FrameReceived (i : nat) (id data : Z)
| Sending (i : nat) (byte : Z)
| Received (i : nat) (byte : Z).

Inductive entry := LOG_INF (m : message) | LOG_WRN (m : message) | LOG_ERR (m : message).

#[export] Instance command_eq_dec : EqDecision command.
Proof. solve_decision. Defined.
#[export] Instance message_eq_dec : EqDecision message.
Proof. solve_decision. Defined.
#[export] Instance entry_eq_dec : EqDecision entry.
Proof. solve_decision. Defined.

(** ** A board: its clock in milliseconds and its log *)

Class HwBoard (E : Type) := {
  k_msleep : Z -> M E unit;
  k_uptime_get_32 : M E Z;
  log : entry -> M E unit;
}.

(** The loop over the devices of an array. *)
Fixpoint for_each {E} (i k : nat) (f : nat -> M E unit) : M E unit :=
  match k with O => ret tt | S k => f i ;; for_each (S i) k f end.

(** It keeps an invariant that may speak of the next index. *)
Lemma vwp_for_each {E V} (view : E -> V) (I : nat -> V -> Prop) (f : nat -> M E unit) k : forall i v, I i v ->
  (forall j v, (i <= j < i + k)%nat -> I j v -> vwp view (f j) (fun _ v' => I (S j) v') v) ->
  vwp view (for_each i k f) (fun _ v' => I (i + k)%nat v') v.
Proof.
  induction k as [|k IH]; intros i v Hi Hf; cbn [for_each].
  - apply vwp_ret. by rewrite Nat.add_0_r.
  - apply vwp_bind. eapply vwp_mono; [apply Hf; [lia|done]|]. intros ? v' Hv'. cbn beta in *. rewrite <- Nat.add_succ_comm. apply IH; [done|].
    intros j v2 Hj. apply Hf. lia.
Qed.

(** ** What happens to a device over time

    A history has the values a device was given, with the time and its index, in
    the order of time. *)

Abbreviation history := (list (Z * nat * Z)) (only parsing).

(** The value at a time is the last one given before. *)
Definition apply_drive (i : nat) (t : Z) (x : Z) (d : Z * nat * Z) : Z := let '(t', j, y) := d in if decide (j = i /\ t' <= t) then y else x.
Definition level (first : Z) (ds : history) (i : nat) (t : Z) : Z := fold_left (apply_drive i t) ds first.

(** [k] devices from number [i] on are given [y] at one time. *)
Definition all_set (y : Z) (i k : nat) (t : Z) : history := (fun j => (t, j, y)) <$> seq i k.

#[global] Arguments all_set : simpl never.

Lemma all_set_S y i k t : all_set y i (S k) t = all_set y i k t ++ [(t, (i + k)%nat, y)].
Proof. unfold all_set. by rewrite seq_S, fmap_app. Qed.

Lemma level_app first ds1 ds2 i t : level first (ds1 ++ ds2) i t = level (level first ds1 i t) ds2 i t.
Proof. apply fold_left_app. Qed.

Lemma level_all_set first y k i t0 : forall j t, level first (all_set y j k t0) i t = if decide ((j <= i < j + k)%nat /\ t0 <= t) then y else first.
Proof.
  revert first. induction k as [|k IH]; intros first j t; [rewrite decide_False by lia; done|].
  unfold all_set, level in *. cbn [seq fmap list_fmap fold_left]. rewrite IH. unfold apply_drive. repeat case_decide; lia || done.
Qed.

(** ** The front end

    A thread reads lines from the console and puts them into a message queue;
    another takes them out and runs the tests.  The step relation has a step for
    every call at which one of them can wait or the other can see a
    difference. *)

Definition COMMAND_MAX_LEN : nat := 64.
Definition COMMAND_QUEUE_LEN : nat := 4.

(** [strncpy (command, input, sizeof (command) - 1)] into zeroed memory. *)
Definition copy_command (input : string) : string := String.substring 0 (COMMAND_MAX_LEN - 1) input.

(** The comparisons of [execute_command]. *)
Definition command_of (s : string) : option command :=
  if decide (s = "hwInfo start"%string) then Some HwInfo
  else if decide (s = "gpio start"%string) then Some GpioTest
  else if decide (s = "can start"%string) then Some CanTest
  else if decide (s = "lin start"%string) then Some LinTest
  else if decide (s = "uart start"%string) then Some UartTest
  else None.

Inductive front_thread := Receiver | Dispatcher.

#[export] Instance front_thread_eq_dec : EqDecision front_thread.
Proof. solve_decision. Defined.

(** [handle_console_input]: waiting for a line; before the lock for an idle
    request; with its result; before the unlock; with a command to enqueue. *)
Inductive receiver_pc :=
| Reading
| IdleRequested
| IdleTried (err : bool)
| IdleAnswered (err : bool)
| Enqueueing (c : string).

(** [command_dispatch_thread] and [dispatch_command]: waiting for a command;
    before the lock; with the lock; in a test; before the unlock. *)
Inductive dispatcher_pc :=
| Dequeueing
| Locking (c : string)
| Executing (c : string)
| InTest (k : command)
| Unlocking.

Record front_end := FrontEnd {
  command_queue : list string;
  command_mutex : option front_thread;
  receiver : receiver_pc;
  dispatcher : dispatcher_pc;
  printed : list entry;
}.

Definition front_end_init : front_end := FrontEnd [] None Reading Dequeueing [].

Definition prints (ms : list entry) (s : front_end) : front_end :=
  FrontEnd (command_queue s) (command_mutex s) (receiver s) (dispatcher s) (printed s ++ ms).
Definition set_receiver pc (s : front_end) : front_end := FrontEnd (command_queue s) (command_mutex s) pc (dispatcher s) (printed s).
Definition set_dispatcher pc (s : front_end) : front_end := FrontEnd (command_queue s) (command_mutex s) (receiver s) pc (printed s).
Definition set_command_queue q (s : front_end) : front_end := FrontEnd q (command_mutex s) (receiver s) (dispatcher s) (printed s).
Definition set_command_mutex m (s : front_end) : front_end := FrontEnd (command_queue s) m (receiver s) (dispatcher s) (printed s).

(** Only the owner unlocks. *)
Definition k_mutex_unlock (t : front_thread) (s : front_end) : front_end :=
  if decide (command_mutex s = Some t) then set_command_mutex None s else s.

(** A line is typed. *)
Definition length_warning (input : string) : list entry :=
  if decide (COMMAND_MAX_LEN <= String.length input)%nat then [LOG_WRN (Text "Command too long, will be truncated")] else [].
Definition request_of (input : string) : receiver_pc :=
  if decide (copy_command input = "idle"%string) then IdleRequested else Enqueueing (copy_command input).
Definition line_read (input : string) (s : front_end) : front_end := set_receiver (request_of input) (prints (length_warning input) s).

Inductive receiver_step : front_end -> front_end -> Prop :=
| idle_lock s : receiver s = IdleRequested -> command_mutex s = None ->
    receiver_step s (set_receiver (IdleTried false) (set_command_mutex (Some Receiver) s))
| idle_busy s t : receiver s = IdleRequested -> command_mutex s = Some t ->
    receiver_step s (set_receiver (IdleTried true) s)
| idle_answer s err : receiver s = IdleTried err ->
    receiver_step s (set_receiver (IdleAnswered err) (prints [LOG_INF (Idle (negb err))] s))
| idle_unlock s err : receiver s = IdleAnswered err ->
    receiver_step s (set_receiver Reading (k_mutex_unlock Receiver s))
| enqueue s c : receiver s = Enqueueing c -> (length (command_queue s) < COMMAND_QUEUE_LEN)%nat ->
    receiver_step s (set_receiver Reading (set_command_queue (command_queue s ++ [c]) s)).

Inductive dispatcher_step : front_end -> front_end -> Prop :=
| dequeue s c q : dispatcher s = Dequeueing -> command_queue s = c :: q ->
    dispatcher_step s (set_dispatcher (Locking c) (set_command_queue q s))
| dispatch_lock s c : dispatcher s = Locking c -> command_mutex s = None ->
    dispatcher_step s (set_dispatcher (Executing c) (set_command_mutex (Some Dispatcher) s))
| execute_test s c k : dispatcher s = Executing c -> command_of c = Some k ->
    dispatcher_step s (set_dispatcher (InTest k) (prints [LOG_INF (Started k)] s))
| execute_unknown s c : dispatcher s = Executing c -> command_of c = None ->
    dispatcher_step s (set_dispatcher Unlocking (prints [LOG_ERR (UnknownCommand c)] s))
| test_ends s k : dispatcher s = InTest k ->
    dispatcher_step s (set_dispatcher Unlocking (prints [LOG_INF (Stopped k)] s))
| dispatch_unlock s : dispatcher s = Unlocking ->
    dispatcher_step s (set_dispatcher Dequeueing (k_mutex_unlock Dispatcher s)).

(** The messages of the front end itself. *)
Definition of_front_end (m : entry) : bool :=
  match m with
  | LOG_INF (Started _) | LOG_INF (Stopped _) | LOG_ERR (UnknownCommand _) | LOG_INF (Idle _) => true
  | _ => false
  end.

(** A step of the program, of a test that prints, or a line typed. *)
Inductive front_label := Tau | Prints (m : entry) | Typed (s : string).

Inductive front_step : front_end -> front_label -> front_end -> Prop :=
| receiver_runs s s' : receiver_step s s' -> front_step s Tau s'
| dispatcher_runs s s' : dispatcher_step s s' -> front_step s Tau s'
| test_prints s k m : dispatcher s = InTest k -> of_front_end m = false -> front_step s (Prints m) (prints [m] s)
| line_typed s input : receiver s = Reading -> front_step s (Typed input) (line_read input s).

Inductive front_steps : front_end -> list front_label -> front_end -> Prop :=
| front_steps_nil s : front_steps s [] s
| front_steps_snoc s ls s1 l s2 : front_steps s ls s1 -> front_step s1 l s2 -> front_steps s (ls ++ [l]) s2.

(** ** What the front end does *)

(** The commands that were typed. *)
Definition accepted (ls : list front_label) : list string :=
  omap (fun l => match l with Typed s => if decide (copy_command s = "idle"%string) then None else Some (copy_command s) | _ => None end) ls.

(** What the front end prints for a command. *)
Definition block (c : string) : list entry :=
  match command_of c with Some k => [LOG_INF (Started k); LOG_INF (Stopped k)] | None => [LOG_ERR (UnknownCommand c)] end.

(** The markers of commands in a log, and where a log stops: outside of tests,
    or in one; idle is answered with true only outside. *)
Definition is_marker (m : entry) : bool :=
  match m with LOG_INF (Started _) | LOG_INF (Stopped _) | LOG_ERR (UnknownCommand _) => true | _ => false end.

Definition log_state : Type := option (option command).
Definition reads_entry (st : log_state) (m : entry) : log_state :=
  match st, m with
  | Some None, LOG_INF (Started k) => Some (Some k)
  | Some (Some k), LOG_INF (Stopped k') => if decide (k = k') then Some None else None
  | Some None, LOG_INF (Idle true) | Some None, LOG_ERR (UnknownCommand _) => st
  | _, LOG_INF (Started _) | _, LOG_INF (Stopped _) | _, LOG_INF (Idle true) | _, LOG_ERR (UnknownCommand _) => None
  | _, _ => st
  end.
Definition reads (l : list entry) : log_state := fold_left reads_entry l (Some None).

(** The command in hand and that to be enqueued; a test in progress. *)
Definition in_hand (s : front_end) (cur : list string) : Prop :=
  match dispatcher s with
  | Locking c | Executing c => cur = [c]
  | InTest k => exists c, cur = [c] /\ command_of c = Some k
  | Dequeueing | Unlocking => cur = []
  end.
Definition to_enqueue (s : front_end) : list string := match receiver s with Enqueueing c => [c] | _ => [] end.
Definition running_test (s : front_end) : option command := match dispatcher s with InTest k => Some k | _ => None end.
Definition begun (s : front_end) : list entry := match running_test s with Some k => [LOG_INF (Started k)] | None => [] end.

(** The commands [done] have run. *)
Definition executed (ls : list front_label) (done : list string) (s : front_end) : Prop :=
  (exists cur, in_hand s cur /\ accepted ls = done ++ cur ++ command_queue s ++ to_enqueue s) /\
  filter (fun m => is_marker m = true) (printed s) = concat (block <$> done) ++ begun s.

Definition mutex_held (s : front_end) : Prop :=
  (match dispatcher s with Executing _ | InTest _ | Unlocking => command_mutex s = Some Dispatcher | _ => command_mutex s <> Some Dispatcher end) /\
  (match receiver s with IdleTried false | IdleAnswered false => command_mutex s = Some Receiver | _ => command_mutex s <> Some Receiver end).

Record front_inv (ls : list front_label) (s : front_end) : Prop := FrontInv {
  inv_executed : exists done, executed ls done s;
  inv_mutex : mutex_held s;
  inv_reads : reads (printed s) = Some (running_test s);
  inv_queue : (length (command_queue s) <= COMMAND_QUEUE_LEN)%nat;
}.

Lemma accepted_app ls1 ls2 : accepted (ls1 ++ ls2) = accepted ls1 ++ accepted ls2.
Proof. apply omap_app. Qed.

Lemma reads_app l ms : reads (l ++ ms) = fold_left reads_entry ms (reads l).
Proof. apply fold_left_app. Qed.

(** A step that does not change what was accepted. *)
Lemma executed_quiet ls l done s s' : accepted [l] = [] -> (forall cur, in_hand s cur -> in_hand s' cur) -> command_queue s' = command_queue s ->
  to_enqueue s' = to_enqueue s -> begun s' = begun s ->
  filter (fun m => is_marker m = true) (printed s') = filter (fun m => is_marker m = true) (printed s) ->
  executed ls done s -> executed (ls ++ [l]) done s'.
Proof.
  intros Hl Hh Hq He Hb Hp [(cur & Hc & Hacc) Hm]. split.
  - exists cur. split; [auto|]. by rewrite accepted_app, Hl, app_nil_r, Hq, He.
  - by rewrite Hp, Hm, Hb.
Qed.

#[local] Arguments length_warning : simpl never.
#[local] Arguments request_of : simpl never.

Lemma request_cases input : request_of input = IdleRequested /\ copy_command input = "idle"%string \/
  request_of input = Enqueueing (copy_command input) /\ copy_command input <> "idle"%string.
Proof. unfold request_of. case_decide; auto. Qed.

Lemma warning_cases input : length_warning input = [] \/ length_warning input = [LOG_WRN (Text "Command too long, will be truncated")].
Proof. unfold length_warning. case_decide; auto. Qed.

Ltac front_cases :=
  repeat match goal with s : front_end |- _ => destruct s as [? ? ? ? ?] end;
  unfold k_mutex_unlock in *; cbn in *; simplify_eq; repeat case_decide; cbn in *; simplify_eq;
  try match goal with |- context [request_of ?i] => destruct (request_cases i) as [[-> ?]|[-> ?] ] end;
  try match goal with |- context [length_warning ?i] => destruct (warning_cases i) as [->| ->] end.

(** Decide by the program counters. *)
Ltac by_pcs :=
  repeat match goal with
  | |- context [match ?x with _ => _ end] => is_var x; destruct x
  | H : context [match ?x with _ => _ end] |- _ => is_var x; destruct x
  end; try done; try congruence; intuition congruence.

Lemma mutex_step s l s' : front_step s l s' -> mutex_held s -> mutex_held s'.
Proof. unfold mutex_held. intros [? ? []|? ? []| |? input] [Hd Hr]; front_cases; split; by_pcs. Qed.

Lemma queue_step s l s' : front_step s l s' -> (length (command_queue s) <= COMMAND_QUEUE_LEN)%nat -> (length (command_queue s') <= COMMAND_QUEUE_LEN)%nat.
Proof. intros [? ? []|? ? []| |] Hq; front_cases; rewrite ?length_app; cbn; lia. Qed.

(** Idle is answered with true only when no test runs. *)
Lemma reads_step s l s' : front_step s l s' -> mutex_held s -> reads (printed s) = Some (running_test s) -> reads (printed s') = Some (running_test s').
Proof.
  unfold mutex_held, running_test, reads. intros [? ? []|? ? []|? k m Hd Hm|] [Hmd Hmr] Hre; front_cases;
    rewrite ?fold_left_app, ?Hre; cbn; try done; try (by_pcs; fail).
  by rewrite decide_True.
Qed.

Lemma receiver_executed ls s s' done : receiver_step s s' -> executed ls done s -> executed (ls ++ [Tau]) done s'.
Proof.
  intros [s1 Hr Hm|s1 t Hr Hm|s1 err Hr|s1 err Hr|s1 c Hr Hlen] Hex.
  5: { destruct Hex as [(cur & Hc & Hacc) Hm]. split; [|exact Hm]. exists cur. split; [exact Hc|]. rewrite accepted_app, app_nil_r, Hacc.
       unfold to_enqueue. rewrite Hr. cbn. by rewrite app_nil_r. }
  all: eapply executed_quiet; [done|..|exact Hex]; unfold in_hand, to_enqueue, begun, running_test, k_mutex_unlock in *;
    repeat case_decide; cbn; rewrite ?filter_app, ?app_nil_r, ?Hr; done.
Qed.

Lemma dispatcher_executed ls s s' done : dispatcher_step s s' -> executed ls done s -> exists done', executed (ls ++ [Tau]) done' s'.
Proof.
  intros [s1 c q Hd Hq|s1 c Hd Hm|s1 c k Hd Hk|s1 c Hd Hk|s1 k Hd|s1 Hd] [(cur & Hc & Hacc) Hmk];
    unfold executed, in_hand, begun, running_test in *; rewrite Hd in *; cbn in Hmk.
  - exists done. rewrite accepted_app, app_nil_r. cbn. split; [|done]. exists [c]. split; [done|]. subst cur. by rewrite Hacc, Hq.
  - exists done. rewrite accepted_app, app_nil_r. cbn. split; [|done]. by exists cur.
  - exists done. rewrite accepted_app, app_nil_r. cbn. rewrite filter_app. cbn. rewrite Hmk, app_nil_r. split; [|done]. exists cur. split; [by exists c|done].
  - subst cur. exists (done ++ [c]). rewrite accepted_app, app_nil_r. cbn. rewrite filter_app, fmap_app, concat_app. cbn. unfold block. rewrite Hk, Hmk. cbn.
    rewrite !app_nil_r. split; [|done]. exists []. split; [done|]. rewrite Hacc. by rewrite <- (assoc_L app).
  - destruct Hc as (c & -> & Hk). exists (done ++ [c]). rewrite accepted_app, app_nil_r. cbn. rewrite filter_app, fmap_app, concat_app. cbn. unfold block. rewrite Hk, Hmk. cbn.
    rewrite !app_nil_r, <- (assoc_L app). split; [|done]. exists []. split; [done|]. rewrite Hacc. by rewrite <- (assoc_L app).
  - exists done. rewrite accepted_app, app_nil_r. unfold k_mutex_unlock. case_decide; cbn; (split; [by exists cur|done]).
Qed.

Lemma executed_step ls s l s' done : front_step s l s' -> executed ls done s -> exists done', executed (ls ++ [l]) done' s'.
Proof.
  intros [s1 s2 Hstep|s1 s2 Hstep|s1 k m Hd Hm|s1 input Hr] Hex.
  - exists done. by eapply receiver_executed.
  - by eapply dispatcher_executed.
  - exists done. eapply executed_quiet; [done|..|exact Hex]; try done. cbn. rewrite filter_app. cbn.
    destruct (decide _) as [Hmk|]; [|by rewrite app_nil_r]. by destruct m as [ []| |[] ].
  - exists done. destruct Hex as [(cur & Hc & Hacc) Hmk]. split.
    + exists cur. split; [exact Hc|]. rewrite accepted_app, Hacc. unfold to_enqueue, line_read, accepted. rewrite Hr. cbn.
      destruct (request_cases input) as [[-> Hi]|[-> Hi] ]; [rewrite decide_True by done|rewrite decide_False by done]; cbn;
        by rewrite ?app_nil_r, <- ?(assoc_L app).
    + unfold line_read, begun, running_test in *. cbn. rewrite filter_app, Hmk. destruct (warning_cases input) as [->| ->]; cbn; by rewrite app_nil_r.
Qed.

Lemma front_inv_step ls s l s' : front_inv ls s -> front_step s l s' -> front_inv (ls ++ [l]) s'.
Proof.
  intros [ [done Hex] Hmu Hre Hq] Hstep. split; [by eapply executed_step|by eapply mutex_step|by eapply reads_step|by eapply queue_step].
Qed.

Lemma front_inv_reachable ls s : front_steps front_end_init ls s -> front_inv ls s.
Proof.
  intros Hsteps. remember front_end_init as s0 eqn:Hs0. induction Hsteps as [s|s ls s1 l s2 _ IH Hstep]; [|eapply front_inv_step; eauto].
  subst. split; [|by split|done|cbn; lia]. exists []. split; [|done]. by exists [].
Qed.

(** C21. In every interleaving of the two threads with the console and with what
    the tests print, the accepted commands run one at a time and in order: the
    log is the concatenation of their blocks, and the commands that have not
    run are the one in hand, those in the queue and the one the receiver
    waits to enqueue.  An idle request is answered with true only outside of a
    test, and the queue stays within its length. *)
Theorem commands_run_in_order ls s : front_steps front_end_init ls s ->
  exists done cur, accepted ls = done ++ cur ++ command_queue s ++ to_enqueue s /\ in_hand s cur /\
    filter (fun m => is_marker m = true) (printed s) = concat (block <$> done) ++ begun s /\
    reads (printed s) = Some (running_test s) /\ (length (command_queue s) <= COMMAND_QUEUE_LEN)%nat.
Proof. intros [ [done [(cur & Hc & Hacc) Hm] ] Hmu Hre Hq]%front_inv_reachable. by exists done, cur. Qed.

(** Nothing left to do. *)
Definition at_rest (s : front_end) : Prop := receiver s = Reading /\ dispatcher s = Dequeueing /\ command_queue s = [].

(** How much there is to do: a command takes four steps of the dispatcher once
    it is in the queue. *)
Definition receiver_work (pc : receiver_pc) : nat :=
  match pc with Reading => 0 | IdleRequested => 3 | IdleTried _ => 2 | IdleAnswered _ => 1 | Enqueueing _ => 6 end.
Definition dispatcher_work (pc : dispatcher_pc) : nat :=
  match pc with Dequeueing => 0 | Locking _ => 4 | Executing _ => 3 | InTest _ => 2 | Unlocking => 1 end.
Definition work_left (s : front_end) : nat := receiver_work (receiver s) + dispatcher_work (dispatcher s) + 5 * length (command_queue s).

Lemma tau_works s s' : front_step s Tau s' -> (work_left s' < work_left s)%nat.
Proof.
  unfold work_left. intros Hstep. inversion Hstep as [? ? H|? ? H|? ? ? H|? ? H]; subst; destruct H as [? H1|? ? H1|? ? H1|? ? H1|? ? H1] || destruct H as [? ? ? H1 H2|? ? H1|? ? ? H1|? ? H1|? ? H1|? H1].
  all: unfold k_mutex_unlock; repeat case_decide; cbn; rewrite ?H1, ?H2, ?length_app; cbn; lia.
Qed.

(** A thread can go on, unless both have nothing to do. *)
Lemma front_progress s : mutex_held s -> (length (command_queue s) <= COMMAND_QUEUE_LEN)%nat -> at_rest s \/ exists s', front_step s Tau s'.
Proof.
  intros [Hd Hr] Hq. destruct (dispatcher s) as [|c|c|k|] eqn:Hdi.
  - destruct (command_queue s) as [|c q] eqn:Hqu; [|right; eexists; by eapply dispatcher_runs, dequeue].
    destruct (receiver s) as [| |err|err|c] eqn:Hre; [by left|right..].
    + destruct (command_mutex s) as [t|] eqn:Hm; eexists; eapply receiver_runs; [by eapply idle_busy|by apply idle_lock].
    + eexists. by eapply receiver_runs, idle_answer.
    + eexists. by eapply receiver_runs, idle_unlock.
    + eexists. eapply receiver_runs, enqueue; [done|]. rewrite Hqu. cbn. unfold COMMAND_QUEUE_LEN. lia.
  - destruct (command_mutex s) as [t|] eqn:Hm; [|right; eexists; by eapply dispatcher_runs, dispatch_lock].
    right. destruct (receiver s) as [| |err|err|c'] eqn:Hre; [| |eexists; eapply receiver_runs; by apply idle_answer|eexists; eapply receiver_runs; by eapply idle_unlock|].
    all: exfalso; destruct t; congruence.
  - destruct (command_of c) eqn:Hk; right; eexists; eapply dispatcher_runs; [by eapply execute_test|by eapply execute_unknown].
  - right. eexists. by eapply dispatcher_runs, test_ends.
  - right. eexists. by eapply dispatcher_runs, dispatch_unlock.
Qed.

(** Steps of the program alone. *)
Inductive tau_steps : front_end -> front_end -> Prop :=
| tau_refl s : tau_steps s s
| tau_more s s1 s2 : front_step s Tau s1 -> tau_steps s1 s2 -> tau_steps s s2.

Lemma tau_steps_reachable ls s s' : front_steps front_end_init ls s -> tau_steps s s' ->
  exists ls', front_steps front_end_init (ls ++ ls') s' /\ accepted ls' = [].
Proof.
  intros Hr Hs. revert ls Hr. induction Hs as [s|s s1 s2 Hstep _ IH]; intros ls Hr; [by exists []; rewrite app_nil_r|].
  destruct (IH (ls ++ [Tau])) as (ls' & Hr' & Ha); [by eapply front_steps_snoc|]. exists (Tau :: ls'). by rewrite <- (assoc_L app) in Hr'.
Qed.

(** C22. When nothing more is typed and the tests end, every accepted command is
    run: however the threads take their turns, there are finitely many steps,
    and when none is left, the log has the blocks of all commands and both threads
    wait for more. *)
Theorem commands_finish ls s : front_steps front_end_init ls s ->
  Acc (fun s2 s1 => front_step s1 Tau s2) s /\
  forall s', tau_steps s s' -> ~ (exists s2, front_step s' Tau s2) ->
    at_rest s' /\ filter (fun m => is_marker m = true) (printed s') = concat (block <$> accepted ls).
Proof.
  intros Hreach. split.
  - clear Hreach. remember (work_left s) as m eqn:Hm. revert s Hm. induction m as [m IH] using lt_wf_ind. intros s ->.
    constructor. intros s' Hstep. eapply IH; [by apply tau_works|done].
  - intros s' Hs Hstuck. destruct (tau_steps_reachable _ _ _ Hreach Hs) as (ls' & Hreach' & Hnone).
    destruct (front_inv_reachable _ _ Hreach') as [ [done [(cur & Hc & Hacc) Hm] ] Hmu Hre Hq].
    destruct (front_progress s' Hmu Hq) as [Hrest|?]; [|done]. split; [done|]. destruct Hrest as (Hr & Hd & Hqu).
    unfold in_hand, to_enqueue, begun, running_test in *. rewrite Hd in *. rewrite Hr, Hqu in Hacc. subst cur.
    rewrite accepted_app, Hnone, !app_nil_r in Hacc. by rewrite Hm, app_nil_r, Hacc.
Qed.

(** "idle true" does not say that nothing is left to do: the dispatcher may have
    taken a command without having locked the mutex yet. *)
Lemma idle_with_command_in_hand : exists ls s, front_steps front_end_init ls s /\
  printed s = [LOG_INF (Idle true)] /\ dispatcher s = Locking "gpio start".
Proof.
  set (s1 := line_read "gpio start" front_end_init). set (s2 := set_receiver Reading (set_command_queue ["gpio start"%string] s1)).
  set (s3 := set_dispatcher (Locking "gpio start") (set_command_queue [] s2)). set (s4 := line_read "idle" s3).
  set (s5 := set_receiver (IdleTried false) (set_command_mutex (Some Receiver) s4)).
  exists (((((([] ++ [Typed "gpio start"]) ++ [Tau]) ++ [Tau]) ++ [Typed "idle"]) ++ [Tau]) ++ [Tau]),
    (set_receiver (IdleAnswered false) (prints [LOG_INF (Idle true)] s5)).
  split; [|done].
  refine (front_steps_snoc _ _ _ _ _ (front_steps_snoc _ _ _ _ _ (front_steps_snoc _ _ _ _ _ (front_steps_snoc _ _ _ _ _
    (front_steps_snoc _ _ _ _ _ (front_steps_snoc _ _ _ _ _ (front_steps_nil _) (line_typed _ _ _)) _) _) (line_typed _ _ _)) _) _);
    first [reflexivity | apply receiver_runs, (enqueue s1); [reflexivity|cbn; unfold COMMAND_QUEUE_LEN; lia] |
      by apply dispatcher_runs, (dequeue s2 "gpio start" []) | by apply receiver_runs, (idle_lock s4) | by apply receiver_runs, (idle_answer s5)].
Qed.

(** ** The hardware identifier (hw_info.c) *)

(** [hwinfo_get_device_id (hw_info, length)] returns the number of bytes it wrote,
    and the bytes, or an error. *)
Class HwInfoDevice (E : Type) := { hwinfo_get_device_id : Z -> M E (Z * list Z) }.

(** "%02X" of a byte *)
Definition hex_digit (x : Z) : Ascii.ascii := Ascii.ascii_of_nat (Z.to_nat (if x <? 10 then 48 + x else 55 + x)).
Fixpoint hex (bs : list Z) : string :=
  match bs with [] => EmptyString | b :: bs => String (hex_digit (Z.shiftr b 4)) (String (hex_digit (Z.land b 0xF)) (hex bs)) end.

Section hw_info.
Context {E : Type} `{!HwBoard E} `{!HwInfoDevice E}.

(** An array whose size is not positive has no meaning. *)
Definition log_hardware_info : M E unit :=
  let* (length, bytes) := hwinfo_get_device_id 60 in
  if length * 2 + 1 <=? 0 then fail OutOfBounds
  else log (LOG_INF (HardwareId (hex (take (Z.to_nat length) bytes)))).
End hw_info.

(** Reading the digits again. *)
Definition digit_value (c : Ascii.ascii) : Z := let x := Z.of_nat (Ascii.nat_of_ascii c) in if x <? 58 then x - 48 else x - 55.
Fixpoint of_hex (s : string) : list Z :=
  match s with String a (String b s) => digit_value a * 16 + digit_value b :: of_hex s | _ => [] end.

Lemma digit_value_hex x : 0 <= x < 16 -> digit_value (hex_digit x) = x.
Proof.
  intros Hx. unfold digit_value, hex_digit. rewrite Ascii.nat_ascii_embedding by (case_match; lia).
  destruct (Z.ltb_spec x 10); match goal with |- context [?a <? 58] => destruct (Z.ltb_spec a 58) end; lia.
Qed.

Lemma of_hex_hex bs : Forall is_u8 bs -> of_hex (hex bs) = bs.
Proof.
  induction 1 as [|b bs Hb _ IH]; [done|]. cbn. unfold in_width in Hb. rewrite IH.
  assert (Z.shiftr b 4 = b / 16 /\ Z.land b 0xF = b mod 16) as [-> ->].
  { split; [by rewrite Z.shiftr_div_pow2|]. by change 0xF with (Z.ones 4); rewrite Z.land_ones. }
  rewrite !digit_value_hex by (Z.div_mod_to_equations; lia). f_equal. Z.div_mod_to_equations; lia.
Qed.
