(* ===== verification/ShieldSamples.v ===== *)
(** * The samples of the power I/O shield ([samples/power_io_shield])

    Here is what the programs ask of a shield, the GPIO functions of Zephyr by
    the port and pin numbers of dt-bindings/power-io-shield.h; their
    implementation by the driver of [PowerIoShield]; and the programs
    toggle_outputs, multiple and interrupts.  The end of line test is in
    [EndOfLine]. *)

From stdpp Require Import base gmap list numbers strings.
From Stdlib Require Import ZArith Lia.
From S2P Require Import Prelude.
From S2P Require Import Gpio.
From S2P Require Import PowerIoShield.
From S2P Require Import UdsViews.
From S2P Require Import HwTest.

#[local] Open Scope Z_scope.

(** ** The interface *)

(** The entries of the three arrays in the device tree. *)
Inductive shield_pin := input_gpios (i : nat) | output_gpios (i : nat) | fault_gpios (i : nat).

#[export] Instance shield_pin_eq_dec : EqDecision shield_pin.
Proof. solve_decision. Defined.

Definition POWER_IO_SHIELD_INPUT (pin : Z) : Z := Z.lor POWER_IO_SHIELD_INPUT_BASE pin.
Definition POWER_IO_SHIELD_OUTPUT (pin : Z) : Z := Z.lor POWER_IO_SHIELD_OUTPUT_BASE pin.
Definition POWER_IO_SHIELD_FAULT (pin : Z) : Z := Z.lor POWER_IO_SHIELD_FAULT_BASE pin.

(** The flags the programs use; no pin is active low. *)
Definition input_flags : gpio_flags_t := GpioFlags true false false false false false.
Definition output_low_flags : gpio_flags_t := GpioFlags false true false false false false.

Inductive gpio_int_flags := GPIO_INT_EDGE_TO_ACTIVE | GPIO_INT_EDGE_TO_INACTIVE | GPIO_INT_EDGE_BOTH | GPIO_INT_LEVEL_ACTIVE.

Class ShieldPins (W : Type) := {
  pin_configure : shield_pin -> gpio_flags_t -> M W Z;
  pin_interrupt_configure : shield_pin -> gpio_int_flags -> M W Z;
  add_callback : nat -> M W Z;
  pin_get : shield_pin -> M W Z;
  pin_set : shield_pin -> Z -> M W Z;
}.

(** What is printed. *)
Inductive shield_message :=
| Heading (s : string)
| Value (v : Z)
| PinError (p : shield_pin) (err : Z).

(** [device_is_ready] of a shield, the time and the console. *)
Class ShieldBoard (W : Type) := {
  shield_is_ready : nat -> W -> bool;
  k_msleep : Z -> M W unit;
  printk : shield_message -> M W unit;
}.

(** ** The interface over the driver

    Zephyr's functions for one pin in terms of the port functions of a driver,
    for pins that are active high. *)

(** The pin number; [input_gpios] and the others of one shield. *)
Definition pin_number (p : shield_pin) : Z :=
  match p with
  | input_gpios i => POWER_IO_SHIELD_INPUT (Z.of_nat i)
  | output_gpios i => POWER_IO_SHIELD_OUTPUT (Z.of_nat i)
  | fault_gpios i => POWER_IO_SHIELD_FAULT (Z.of_nat i)
  end.

Definition int_mode (f : gpio_int_flags) : gpio_int_mode :=
  match f with GPIO_INT_LEVEL_ACTIVE => GPIO_INT_MODE_LEVEL | _ => GPIO_INT_MODE_EDGE end.
Definition int_trig (f : gpio_int_flags) : gpio_int_trig :=
  match f with
  | GPIO_INT_EDGE_TO_ACTIVE | GPIO_INT_LEVEL_ACTIVE => GPIO_INT_TRIG_HIGH
  | GPIO_INT_EDGE_TO_INACTIVE => GPIO_INT_TRIG_LOW
  | GPIO_INT_EDGE_BOTH => GPIO_INT_TRIG_BOTH
  end.

Section over_driver.
Context {E : Type} `{!I2C E} `{!IntGpios E} `{!GpioCallbacks E}.

Definition driver_pin_get (p : shield_pin) : M (pio_world E) Z :=
  let* (r, v) := power_io_shield_port_get_raw in
  ret (match v with Some v => Z.b2z (Z.testbit v (pin_number p)) | None => r end).

Definition driver_pin_set (p : shield_pin) (x : Z) : M (pio_world E) Z :=
  if x =? 0 then power_io_shield_gpio_clear_bits_raw (BIT (pin_number p)) else power_io_shield_gpio_set_bits_raw (BIT (pin_number p)).

#[export] Instance driver_pins : ShieldPins (pio_world E) := {|
  pin_configure p flags := power_io_shield_pin_configure (pin_number p) flags;
  pin_interrupt_configure p f := power_io_shield_pin_interrupt_configure false (pin_number p) (int_mode f) (int_trig f);
  add_callback cb := power_io_shield_manage_callback cb true;
  pin_get := driver_pin_get;
  pin_set := driver_pin_set;
|}.
End over_driver.

(** ** The programs *)

Section programs.
Context {W : Type} `{!ShieldPins W} `{!ShieldBoard W}.
(** The lengths of the three arrays. *)
Context (inputs outputs faults : nat).

(** A loop over an array that ends [main] with 1 when a pin fails: 0, or 1. *)
Fixpoint pins_or_1 (k i : nat) (f : nat -> M W Z) : M W Z :=
  match k with
  | O => ret 0
  | S k => let* r := f i in if negb (r =? 0) then ret 1 else pins_or_1 k (S i) f
  end.

Definition initialize_inputs : M W Z := pins_or_1 inputs 0 (fun i => pin_configure (input_gpios i) input_flags).
Definition initialize_outputs : M W Z := pins_or_1 outputs 0 (fun i => pin_configure (output_gpios i) output_low_flags).
Definition initialize_faults : M W Z := pins_or_1 faults 0 (fun i => pin_configure (fault_gpios i) input_flags).

(** The first failing step ends [main]. *)
Definition and_then (m k : M W Z) : M W Z := let* r := m in if negb (r =? 0) then ret r else k.

(** The pins of an array printed; one that cannot be read is skipped. *)
Definition print_pins (pin : nat -> shield_pin) (k : nat) : M W unit :=
  for_each 0 k (fun i =>
    let* r := pin_get (pin i) in
    if r <? 0 then printk (PinError (pin i) r) else printk (Value r)).

Definition print_inputs_and_faults : M W unit :=
  printk (Heading "Input GPIO states: ") ;;
  print_pins input_gpios inputs ;;
  printk (Heading "Fault GPIO states: ") ;;
  print_pins fault_gpios faults ;;
  k_msleep 1000.

(** *** toggle_outputs *)

Definition toggle_setup : M W Z :=
  let* ready := gets (shield_is_ready 0) in
  if negb ready then ret 1
  else and_then initialize_inputs (and_then initialize_outputs initialize_faults).

(** One round of the loop: the next value of [output_value]. *)
Definition toggle_round (output_value : Z) : M W Z :=
  printk (Heading "Output GPIO target: ") ;;
  for_each 0 outputs (fun i =>
    let value := Z.land (Z.shiftr output_value (Z.of_nat i)) 1 in
    printk (Value value) ;;
    let* ret_ := pin_set (output_gpios i) value in
    if negb (ret_ =? 0) then printk (PinError (output_gpios i) ret_) else ret tt) ;;
  print_inputs_and_faults ;;
  ret (u8 (output_value + 1)).

(** *** multiple *)

Definition multiple_setup : M W Z :=
  let* ready := gets (shield_is_ready 0) in
  if negb ready then ret 1
  else
    let* ready := gets (shield_is_ready 1) in
    if negb ready then ret 1
    else and_then initialize_inputs (and_then initialize_outputs initialize_faults).

(** The first half of the outputs is on one shield, the second on the other. *)
Definition multiple_round (output_value : Z) : M W Z :=
  for_each 0 (outputs / 2) (fun i =>
    let value := Z.land (Z.shiftr output_value (Z.of_nat i)) 1 in
    let* r := pin_set (output_gpios i) value in
    (if negb (r =? 0) then printk (PinError (output_gpios i) r) else ret tt) ;;
    let j := (i + outputs / 2)%nat in
    let* r := pin_set (output_gpios j) value in
    (if negb (r =? 0) then printk (PinError (output_gpios j) r) else ret tt)) ;;
  print_inputs_and_faults ;;
  ret (u8 (output_value + 1)).

(** The loop of both: [k] rounds, from [output_value]. *)
Fixpoint rounds (round : Z -> M W Z) (k : nat) (output_value : Z) : M W Z :=
  match k with
  | O => ret output_value
  | S k => let* output_value := round output_value in rounds round k output_value
  end.

(** [main], which does not end unless the set-up fails, for [k] rounds. *)
Definition counter_main (setup : M W Z) (round : Z -> M W Z) (k : nat) : M W Z :=
  and_then setup (rounds round k 0 ;; ret 0).

(** *** interrupts *)

(** The callbacks with their pins. *)
Definition fault_interrupt_cb : nat := 0.
Definition edge_interrupt_cb : nat := 1.
Definition level_interrupt_cb : nat := 2.
Definition callback_pins (cb : nat) : Z :=
  match cb with
  | O => Z.lor (Z.lor (BIT (POWER_IO_SHIELD_FAULT 0)) (BIT (POWER_IO_SHIELD_FAULT 1))) (BIT (POWER_IO_SHIELD_FAULT 2))
  | 1%nat => Z.lor (Z.lor (BIT (POWER_IO_SHIELD_INPUT 0)) (BIT (POWER_IO_SHIELD_INPUT 1))) (BIT (POWER_IO_SHIELD_INPUT 2))
  | 2%nat => BIT (POWER_IO_SHIELD_INPUT 3)
  | _ => 0
  end.

Definition interrupt_or_1 (p : shield_pin) (f : gpio_int_flags) : M W Z :=
  let* r := pin_interrupt_configure p f in ret (if negb (r =? 0) then 1 else 0).

Definition interrupts_setup : M W Z :=
  let* ready := gets (shield_is_ready 0) in
  if negb ready then ret 1
  else
    add_callback fault_interrupt_cb ;;
    add_callback edge_interrupt_cb ;;
    add_callback level_interrupt_cb ;;
    and_then initialize_inputs
      (and_then (interrupt_or_1 (input_gpios 0) GPIO_INT_EDGE_TO_ACTIVE)
        (and_then (interrupt_or_1 (input_gpios 1) GPIO_INT_EDGE_TO_INACTIVE)
          (and_then (interrupt_or_1 (input_gpios 2) GPIO_INT_EDGE_BOTH)
            (and_then (interrupt_or_1 (input_gpios 3) GPIO_INT_LEVEL_ACTIVE)
              (pins_or_1 faults 0 (fun i =>
                 and_then (pin_configure (fault_gpios i) input_flags)
                   (pin_interrupt_configure (fault_gpios i) GPIO_INT_EDGE_TO_ACTIVE))))))).

Definition interrupts_main (k : nat) : M W Z :=
  and_then interrupts_setup (for_each 0 k (fun _ => print_inputs_and_faults) ;; ret 0).
End programs.

(** ** The laws *)

(** A shield that works, with arrays of these lengths: [level] is what an output
    is set to, [reading] what a read of a pin gives now.  What is read does not
    follow a write at once. *)
Definition valid_pin (inputs outputs faults : nat) (p : shield_pin) : Prop :=
  match p with input_gpios i => i < inputs | output_gpios i => i < outputs | fault_gpios i => i < faults end%nat.
Definition pin_flags (p : shield_pin) : gpio_flags_t := match p with output_gpios _ => output_low_flags | _ => input_flags end.

(** The levels after a change of one output. *)
Definition level_after (p : shield_pin) (x : bool) (v : nat -> bool) (j : nat) : bool :=
  if decide (p = output_gpios j) then x else v j.

Lemma level_after_output i x v j : level_after (output_gpios i) x v j = if decide (j = i) then x else v j.
Proof. unfold level_after. repeat case_decide; congruence. Qed.

Class ShieldLaws (W : Type) `{!ShieldPins W} `{!ShieldBoard W} (inputs outputs faults : nat) := {
  shield_ok : W -> Prop;
  level : W -> nat -> bool;
  reading : W -> shield_pin -> Z;
  configure_law : forall p w, shield_ok w -> valid_pin inputs outputs faults p ->
    wp (pin_configure p (pin_flags p)) (fun r w' => r = 0 /\ shield_ok w' /\
      forall j, (j < outputs)%nat -> level w' j = level_after p false (level w) j) w;
  set_law : forall i x w, shield_ok w -> (i < outputs)%nat ->
    wp (pin_set (output_gpios i) x) (fun r w' => r = 0 /\ shield_ok w' /\
      forall j, (j < outputs)%nat -> level w' j = level_after (output_gpios i) (negb (x =? 0)) (level w) j) w;
  get_law : forall p w, shield_ok w -> valid_pin inputs outputs faults p ->
    wp (pin_get p) (fun r w' => r = reading w p /\ shield_ok w' /\ (forall j, (j < outputs)%nat -> level w' j = level w j) /\
      forall q, valid_pin inputs outputs faults q -> reading w' q = reading w q) w;
  printk_law : forall m w, shield_ok w ->
    wp (printk m) (fun _ w' => shield_ok w' /\ (forall j, (j < outputs)%nat -> level w' j = level w j) /\
      forall q, valid_pin inputs outputs faults q -> reading w' q = reading w q) w;
  msleep_law : forall k w, shield_ok w -> wp (k_msleep k) (fun _ w' => shield_ok w' /\ forall j, (j < outputs)%nat -> level w' j = level w j) w;
}.

(** An invariant of a loop that may speak of the next index. *)
Lemma wp_for_each {W} (I : nat -> W -> Prop) (f : nat -> M W unit) k : forall i w, I i w ->
  (forall j w, (i <= j < i + k)%nat -> I j w -> wp (f j) (fun _ w' => I (S j) w') w) ->
  wp (for_each i k f) (fun _ w' => I (i + k)%nat w') w.
Proof.
  induction k as [|k IH]; intros i w Hi Hf; cbn [for_each].
  - apply wp_ret. by rewrite Nat.add_0_r.
  - apply wp_bind. eapply wp_mono; [apply Hf; [lia|done]|]. intros ? w' Hw'. cbn beta in *. rewrite <- Nat.add_succ_comm. apply IH; [done|].
    intros j w2 Hj. apply Hf. lia.
Qed.

(** The test of bit [i] of [output_value]. *)
Lemma counter_bit v i : negb (Z.land (Z.shiftr v (Z.of_nat i)) 1 =? 0) = Z.testbit v (Z.of_nat i).
Proof.
  rewrite (Z.land_ones _ 1), Z.shiftr_div_pow2 by lia. rewrite <- Z.testbit_spec' by lia. by destruct (Z.testbit v (Z.of_nat i)).
Qed.

Section counters.
Context {W : Type} `{!ShieldPins W} `{!ShieldBoard W} {inputs outputs faults : nat} `{!ShieldLaws W inputs outputs faults}.
Implicit Types (w : W) (L : nat -> bool).

(** The shield works and its outputs are [L]. *)
Definition at_levels (L : nat -> bool) w : Prop := shield_ok w /\ forall j, (j < outputs)%nat -> level w j = L j.

Lemma at_levels_ext L L' w : (forall j, (j < outputs)%nat -> L j = L' j) -> at_levels L w -> at_levels L' w.
Proof. intros H [Hok Hl]. split; [done|]. intros j Hj. rewrite Hl by done. by apply H. Qed.

Lemma wp_configure L p w : at_levels L w -> valid_pin inputs outputs faults p ->
  wp (pin_configure p (pin_flags p)) (fun r w' => r = 0 /\ at_levels (level_after p false L) w') w.
Proof.
  intros [Hok Hl] Hp. eapply wp_mono; [by apply configure_law|]. intros r w' (-> & Hok' & Hl'). split; [done|]. split; [done|].
  intros j Hj. rewrite Hl' by done. unfold level_after. case_decide; [done|by apply Hl].
Qed.

Lemma wp_set L i x w : at_levels L w -> (i < outputs)%nat ->
  wp (pin_set (output_gpios i) x) (fun r w' => r = 0 /\ at_levels (level_after (output_gpios i) (negb (x =? 0)) L) w') w.
Proof.
  intros [Hok Hl] Hp. eapply wp_mono; [by apply set_law|]. intros r w' (-> & Hok' & Hl'). split; [done|]. split; [done|].
  intros j Hj. rewrite Hl' by done. unfold level_after. case_decide; [done|by apply Hl].
Qed.

Lemma wp_printk L m w : at_levels L w -> wp (printk m) (fun _ => at_levels L) w.
Proof.
  intros [Hok Hl]. eapply wp_mono; [by apply printk_law|]. intros _ w' (Hok' & Hl' & _). split; [done|].
  intros j Hj. rewrite Hl' by done. by apply Hl.
Qed.

Lemma wp_msleep L k w : at_levels L w -> wp (k_msleep k) (fun _ => at_levels L) w.
Proof.
  intros [Hok Hl]. eapply wp_mono; [by apply msleep_law|]. intros _ w' (Hok' & Hl'). split; [done|].
  intros j Hj. rewrite Hl' by done. by apply Hl.
Qed.

Lemma wp_get L p w : at_levels L w -> valid_pin inputs outputs faults p -> wp (pin_get p) (fun _ => at_levels L) w.
Proof.
  intros [Hok Hl] Hp. eapply wp_mono; [by apply get_law|]. intros r w' (_ & Hok' & Hl' & _). split; [done|].
  intros j Hj. rewrite Hl' by done. by apply Hl.
Qed.

Lemma wp_print_pins L pin k w : (forall i, (i < k)%nat -> valid_pin inputs outputs faults (pin i)) -> at_levels L w ->
  wp (print_pins pin k) (fun _ => at_levels L) w.
Proof.
  intros Hv Hw. unfold print_pins. apply (wp_for_each (fun _ => at_levels L)); [done|]. intros j w1 Hj Hw1.
  apply wp_bind. eapply wp_mono; [apply wp_get; [done|apply Hv; lia]|]. cbn beta. intros r w2 Hw2.
  destruct (r <? 0); by apply wp_printk.
Qed.

Lemma wp_print_all L w : at_levels L w -> wp (print_inputs_and_faults inputs faults) (fun _ => at_levels L) w.
Proof.
  intros Hw. unfold print_inputs_and_faults.
  apply wp_bind. eapply wp_mono; [by apply wp_printk|]. cbn beta. intros _ w1 H1.
  apply wp_bind. eapply wp_mono; [by apply wp_print_pins|]. cbn beta. intros _ w2 H2.
  apply wp_bind. eapply wp_mono; [by apply wp_printk|]. cbn beta. intros _ w3 H3.
  apply wp_bind. eapply wp_mono; [by apply wp_print_pins|]. cbn beta. intros _ w4 H4. by apply wp_msleep.
Qed.

(** A loop over pins that all work. *)
Lemma wp_pins_or_1 (I : nat -> W -> Prop) (f : nat -> M W Z) k : forall i w, I i w ->
  (forall j w, (i <= j < i + k)%nat -> I j w -> wp (f j) (fun r w' => r = 0 /\ I (S j) w') w) ->
  wp (pins_or_1 k i f) (fun r w' => r = 0 /\ I (i + k)%nat w') w.
Proof.
  induction k as [|k IH]; intros i w Hi Hf; cbn [pins_or_1].
  - apply wp_ret. by rewrite Nat.add_0_r.
  - apply wp_bind. eapply wp_mono; [apply Hf; [lia|done]|]. intros r w' [-> Hw']. cbn beta. cbn [Z.eqb negb].
    rewrite <- Nat.add_succ_comm. apply IH; [done|]. intros j w2 Hj. apply Hf. lia.
Qed.

Lemma wp_and_then (Q : Z -> W -> Prop) m k w : wp m (fun r w' => r = 0 /\ wp k Q w') w -> wp (and_then m k) Q w.
Proof. intros Hm. apply wp_bind. eapply wp_mono; [exact Hm|]. by intros r w' [-> Hk]. Qed.

Definition all_low : nat -> bool := fun _ => false.

(** The set-up of the pins: all outputs are low. *)
Lemma wp_initialize L w : at_levels L w ->
  wp (and_then (initialize_inputs inputs) (and_then (initialize_outputs outputs) (initialize_faults faults)))
    (fun r w' => r = 0 /\ at_levels all_low w') w.
Proof.
  intros Hw. apply wp_and_then. eapply wp_mono; [apply (wp_pins_or_1 (fun _ => at_levels L)); [done|]|].
  { intros j w1 Hj Hw1. apply (wp_configure L (input_gpios j) w1 Hw1). cbn. lia. }
  intros r w1 [-> H1]. split; [done|]. apply wp_and_then.
  eapply wp_mono; [apply (wp_pins_or_1 (fun i => at_levels (fun j => if decide (j < i)%nat then false else L j)))|].
  { eapply at_levels_ext; [|exact H1]. intros j Hj. by rewrite decide_False by lia. }
  { intros j w2 Hj Hw2. eapply wp_mono; [apply (wp_configure _ (output_gpios j) w2 Hw2); cbn; lia|]. intros r w3 [-> H3]. split; [done|].
    eapply at_levels_ext; [|exact H3]. intros i Hi. rewrite level_after_output. repeat case_decide; subst; done || lia. }
  intros r w2 [-> H2]. split; [done|]. eapply wp_mono; [apply (wp_pins_or_1 (fun _ => at_levels all_low))|].
  { eapply at_levels_ext; [|exact H2]. intros j Hj. cbn beta. by rewrite decide_True by lia. }
  { intros j w3 Hj Hw3. apply (wp_configure _ (fault_gpios j) w3 Hw3). cbn. lia. }
  done.
Qed.

(** One round of each program shows the counter. *)
Definition counter (v : Z) : nat -> bool := fun i => Z.testbit v (Z.of_nat i).
Definition counter_twice (v : Z) : nat -> bool := fun i => Z.testbit v (Z.of_nat (i mod (outputs / 2))).

Lemma wp_toggle_round L v w : at_levels L w ->
  wp (toggle_round inputs outputs faults v) (fun r w' => r = u8 (v + 1) /\ at_levels (counter v) w') w.
Proof.
  intros Hw. unfold toggle_round. apply wp_bind. eapply wp_mono; [by apply wp_printk|]. cbn beta. intros _ w1 H1. apply wp_bind.
  eapply wp_mono; [apply (wp_for_each (fun i => at_levels (fun j => if decide (j < i)%nat then counter v j else L j)))|].
  { eapply at_levels_ext; [|exact H1]. intros j Hj. by rewrite decide_False by lia. }
  { intros j w2 Hj Hw2. cbn zeta. apply wp_bind. eapply wp_mono; [by apply wp_printk|]. cbn beta. intros _ w3 H3. apply wp_bind.
    eapply wp_mono; [apply wp_set; [exact H3|lia]|]. intros r w4 [-> H4]. cbn beta. cbn [Z.eqb negb]. apply wp_ret.
    eapply at_levels_ext; [|exact H4]. intros i Hi. rewrite level_after_output, counter_bit. repeat case_decide; subst; done || lia. }
  cbn beta. intros _ w2 H2. apply wp_bind. eapply wp_mono; [apply wp_print_all; exact H2|]. cbn beta. intros _ w3 H3. apply wp_ret.
  split; [done|]. eapply at_levels_ext; [|exact H3]. intros i Hi. cbn beta. by rewrite decide_True by lia.
Qed.
(** Indices of the two halves. *)
Lemma half_index h i j : (i < h)%nat -> (j < 2 * h)%nat -> (j mod h = i)%nat <-> j = i \/ j = (i + h)%nat.
Proof.
  intros Hi Hj. pose proof (Nat.div_mod_eq j h) as Hd. pose proof (Nat.mod_upper_bound j h ltac:(lia)). split.
  - intros Hm. assert (j / h < 2)%nat by (apply Nat.Div0.div_lt_upper_bound; lia).
    destruct (j / h)%nat as [|[|] ]; lia.
  - intros [-> | ->]; [by apply Nat.mod_small|]. rewrite <- (Nat.mod_small i h) at 2 by done.
    rewrite <- (Nat.Div0.mod_add i 1 h). f_equal. lia.
Qed.

Lemma wp_multiple_round h L v w : outputs = (2 * h)%nat -> at_levels L w ->
  wp (multiple_round inputs outputs faults v) (fun r w' => r = u8 (v + 1) /\ at_levels (counter_twice v) w') w.
Proof.
  intros Ho Hw. unfold multiple_round. assert (outputs / 2 = h)%nat as Hh by (rewrite Ho, Nat.mul_comm; by apply Nat.div_mul).
  apply wp_bind. rewrite Hh.
  eapply wp_mono; [apply (wp_for_each (fun i => at_levels (fun j => if decide (j mod h < i)%nat then counter_twice v j else L j)))|].
  { eapply at_levels_ext; [|exact Hw]. intros j Hj. by rewrite decide_False by lia. }
  { intros j w2 Hj Hw2. cbn zeta. apply wp_bind. eapply wp_mono; [apply wp_set; [exact Hw2|lia]|]. intros r w3 [-> H3]. cbn beta. cbn [Z.eqb negb].
    apply wp_bind, wp_ret, wp_bind. eapply wp_mono; [apply wp_set; [exact H3|lia]|]. intros r w4 [-> H4]. cbn beta. cbn [Z.eqb negb]. apply wp_ret.
    eapply at_levels_ext; [|exact H4]. intros i Hi. rewrite !level_after_output, !counter_bit. unfold counter_twice. rewrite Hh.
    pose proof (half_index h j i ltac:(lia) ltac:(lia)) as Hidx.
    destruct (decide (i mod h = j)%nat) as [Hm|Hm]; [rewrite (decide_True _ _ (P := (i mod h < S j)%nat)) by lia|].
    - rewrite Hm. destruct (proj1 Hidx Hm) as [-> | ->]; repeat case_decide; done || lia.
    - repeat case_decide; subst; try done; try lia; exfalso; apply Hm, Hidx; lia. }
  cbn beta. intros _ w2 H2. apply wp_bind. eapply wp_mono; [apply wp_print_all; exact H2|]. cbn beta. intros _ w3 H3. apply wp_ret.
  split; [done|]. eapply at_levels_ext; [|exact H3]. intros i Hi. cbn beta. rewrite decide_True; [done|]. apply Nat.mod_upper_bound. lia.
Qed.

(** The value that the outputs show after [k] rounds from [v]. *)
Lemma wp_rounds (round : Z -> M W Z) (shown : Z -> nat -> bool) :
  (forall v L w, at_levels L w -> wp (round v) (fun r w' => r = u8 (v + 1) /\ at_levels (shown v) w') w) ->
  forall k v L w, at_levels L w ->
  wp (rounds round k v) (fun _ => at_levels (match k with O => L | S k => shown (match k with O => v | _ => u8 (v + Z.of_nat k) end) end)) w.
Proof.
  intros Hround. induction k as [|k IH]; intros v L w Hw; cbn [rounds]; [by apply wp_ret|].
  apply wp_bind. eapply wp_mono; [by apply (Hround v L)|]. intros r w1 [-> H1]. cbn beta.
  eapply wp_mono; [by apply IH|]. cbn beta. intros _ w2 H2. eapply at_levels_ext; [|exact H2]. intros j _.
  destruct k as [|k]; [done|]. f_equal. destruct k as [|k]; [f_equal; lia|]. rewrite wrap_add_l. f_equal. lia.
Qed.

Lemma wp_counter_main (setup : M W Z) (round : Z -> M W Z) (shown : Z -> nat -> bool) k L w :
  wp setup (fun r w' => r = 0 /\ at_levels all_low w') w ->
  (forall v L w, at_levels L w -> wp (round v) (fun r w' => r = u8 (v + 1) /\ at_levels (shown v) w') w) ->
  at_levels L w ->
  wp (counter_main setup round k)
    (fun r w' => r = 0 /\ at_levels (match k with O => all_low | S k => shown (Z.of_nat k mod 256) end) w') w.
Proof.
  intros Hset Hround Hw. apply wp_and_then. eapply wp_mono; [exact Hset|]. intros r w1 [-> H1]. split; [done|].
  apply wp_bind. eapply wp_mono; [by apply (wp_rounds round shown Hround)|]. cbn beta. intros _ w2 H2. apply wp_ret. split; [done|].
  by destruct k as [|[|k] ].
Qed.

(** [toggle_counts]: on a shield that works the first program counts: after
    [k] rounds the outputs show the number of the last round, in binary, as far
    as 8 bits go. *)
Theorem toggle_counts k w : shield_ok w -> shield_is_ready 0 w = true ->
  wp (counter_main (toggle_setup inputs outputs faults) (toggle_round inputs outputs faults) k)
    (fun r w' => r = 0 /\ shield_ok w' /\ forall i, (i < outputs)%nat -> level w' i =
       match k with O => false | S k => Z.testbit (Z.of_nat k mod 256) (Z.of_nat i) end) w.
Proof.
  intros Hok Hready. eapply wp_mono; [apply (wp_counter_main _ _ counter k (level w))|].
  - apply wp_bind, wp_gets. rewrite Hready. cbn [negb]. by apply (wp_initialize (level w)).
  - intros v L w1. apply wp_toggle_round.
  - done.
  - intros r w' (-> & Hok' & Hl). split; [done|]. split; [done|]. intros i Hi. rewrite Hl by done. by destruct k.
Qed.

(** [multiple_counts]: so do both shields of the second program. *)
Theorem multiple_counts h k w : outputs = (2 * h)%nat -> shield_ok w -> shield_is_ready 0 w = true -> shield_is_ready 1 w = true ->
  wp (counter_main (multiple_setup inputs outputs faults) (multiple_round inputs outputs faults) k)
    (fun r w' => r = 0 /\ shield_ok w' /\ forall i, (i < h)%nat ->
       let bit := match k with O => false | S k => Z.testbit (Z.of_nat k mod 256) (Z.of_nat i) end in
       level w' i = bit /\ level w' (i + h)%nat = bit) w.
Proof.
  intros Ho Hok Hr0 Hr1. eapply wp_mono; [apply (wp_counter_main _ _ counter_twice k (level w))|].
  - apply wp_bind, wp_gets. rewrite Hr0. cbn [negb]. apply wp_bind, wp_gets. rewrite Hr1. cbn [negb]. by apply (wp_initialize (level w)).
  - intros v L w1. by apply (wp_multiple_round h).
  - done.
  - intros r w' (-> & Hok' & Hl). split; [done|]. split; [done|]. intros i Hi bit. rewrite !Hl by lia. subst bit. destruct k; [done|].
    unfold counter_twice. assert (outputs / 2 = h)%nat as -> by (rewrite Ho, Nat.mul_comm; by apply Nat.div_mul).
    rewrite (proj2 (half_index h i i Hi ltac:(lia))) by lia. by rewrite (proj2 (half_index h i (i + h) Hi ltac:(lia))) by lia.
Qed.
End counters.
