(* ===== verification/EndOfLine.v ===== *)
(** * The end of line test of the power I/O shield
    ([samples/power_io_shield/end_of_line_tester/src/main.c])

    Every input of the shield is wired to an output.  When the host says START
    the program drives patterns on the outputs and compares the inputs.  The
    theorems say when the program hears the host, and that the test passes
    exactly when the shield answers right to the patterns it drives. *)

From stdpp Require Import base gmap list numbers strings.
From Stdlib Require Import ZArith Lia.
From S2P Require Import Prelude.
From S2P Require Import Gpio.
From S2P Require Import PowerIoShield.
From S2P Require Import UdsViews.
From S2P Require Import HwTest.
From S2P Require Import ShieldSamples.

#[local] Open Scope Z_scope.

(** ** The program *)

(** The UART of the console: 0 and a byte, or -1; and the reset. *)
Class EolConsole (W : Type) := {
  uart_poll_in : M W (Z * Z);
  k_yield : M W unit;
  sys_reboot : M W unit;
}.

(** How [main] ends. *)
Inductive eol_result := Returned (err : Z) | Rebooted.

(** "START" *)
Definition START : list Z := [83; 84; 65; 82; 84].

(** The first pattern that is not driven. *)
Definition PATTERN_END : Z := Z.shiftl 1 6 - 1.

Section program.
Context {W : Type} `{!ShieldPins W} `{!ShieldBoard W} `{!EolConsole W}.
(** The lengths of the arrays; there are as many inputs as outputs. *)
Context (pins faults : nat).

(** A loop over pins that compares what is read. *)
Fixpoint assert_loop (pin : nat -> shield_pin) (expected : nat -> M W Z) (k i : nat) : M W Z :=
  match k with
  | O => ret 0
  | S k =>
      let* val := pin_get (pin i) in
      if val <? 0 then (printk (PinError (pin i) val) ;; ret val)
      else
        let* e := expected i in
        if negb (val =? e) then (printk (PinError (pin i) val) ;; ret (-1))
        else assert_loop pin expected k (S i)
  end.

Definition assert_input_pins (expected_states : list bool) : M W Z :=
  assert_loop input_gpios (fun i => let* b := of_option OutOfBounds (expected_states !! i) in ret (Z.b2z b)) pins 0.

Definition assert_fault_pins_low : M W Z := assert_loop fault_gpios (fun _ => ret 0) faults 0.

(** The number of bytes of the message that were received in a row. *)
Fixpoint wait_loop (fuel : nat) (msg : list Z) (received : nat) : M W Z :=
  match fuel with
  | O => fail OutOfFuel
  | S fuel =>
      if decide (received < length msg)%nat then
        let* (r, byte) := uart_poll_in in
        let received := if r =? 0 then (if bool_decide (msg !! received = Some byte) then S received else 0%nat) else received in
        k_yield ;;
        wait_loop fuel msg received
      else ret 0
  end.

Definition wait_for_uart_msg (fuel : nat) (msg : list Z) : M W Z := wait_loop fuel msg 0.

(** Driving a pattern: the error, and [expected_input_states]. *)
Fixpoint drive_loop (pattern : Z) (k i : nat) (expected : list bool) : M W (Z * list bool) :=
  match k with
  | O => ret (0, expected)
  | S k =>
      let state := negb (Z.land pattern (Z.shiftl 1 (Z.of_nat i)) =? 0) in
      let expected := <[i := state]> expected in
      let* err := pin_set (output_gpios i) (Z.b2z state) in
      if negb (err =? 0) then (printk (PinError (output_gpios i) err) ;; ret (err, expected))
      else drive_loop pattern k (S i) expected
  end.

Definition test_pattern (pattern : Z) (expected : list bool) : M W (Z * list bool) :=
  let* (err, expected) := drive_loop pattern pins 0 expected in
  if negb (err =? 0) then ret (err, expected)
  else
    k_msleep 1 ;;
    let* err := assert_input_pins expected in
    if negb (err =? 0) then ret (err, expected)
    else
      let* err := assert_fault_pins_low in
      if negb (err =? 0) then ret (err, expected)
      else (k_msleep 5 ;; ret (0, expected)).

Fixpoint pattern_loop (fuel : nat) (pattern : Z) (expected : list bool) : M W Z :=
  match fuel with
  | O => fail OutOfFuel
  | S fuel =>
      if pattern <? PATTERN_END then
        let* (err, expected) := test_pattern pattern expected in
        if negb (err =? 0) then ret err else pattern_loop fuel (u8 (pattern + 1)) expected
      else ret 0
  end.

(** A loop over the outputs that the first error ends. *)
Fixpoint for_outputs (f : nat -> M W Z) (k i : nat) : M W Z :=
  match k with
  | O => ret 0
  | S k => let* err := f i in if negb (err =? 0) then (printk (PinError (output_gpios i) err) ;; ret err) else for_outputs f k (S i)
  end.

(** What [main] does after START: 0, or the error it returns. *)
Definition eol_test : M W Z :=
  printk (Heading "Starting end of line test") ;;
  and_then (for_outputs (fun i => pin_configure (output_gpios i) output_low_flags) pins 0)
    (k_msleep 1 ;;
     let expected := replicate pins false in
     and_then (assert_input_pins expected)
       (and_then assert_fault_pins_low
         (and_then (pattern_loop (S (Z.to_nat PATTERN_END)) 0 expected)
           (and_then (for_outputs (fun i => pin_set (output_gpios i) 0) pins 0)
             (printk (Heading "End of line tester completed successfully") ;; ret 0))))).

Definition eol_main (fuel : nat) : M W eol_result :=
  let* ready := gets (shield_is_ready 0) in
  if negb ready then (printk (Heading "HV Shield device not ready") ;; ret (Returned 1))
  else
    printk (Heading "Waiting for host to say START") ;;
    wait_for_uart_msg fuel START ;;
    let* err := eol_test in
    if negb (err =? 0) then ret (Returned err)
    else (k_msleep 5000 ;; sys_reboot ;; ret Rebooted).
End program.

(** ** The environment *)

(** The console: what the polls that are to come give, a byte or nothing; the
    shield is not concerned. *)
Class EolConsoleLaws (W : Type) `{!ShieldPins W} `{!ShieldBoard W} `{!EolConsole W} (pins faults : nat) `{!ShieldLaws W pins pins faults} := {
  polls : W -> list (option Z);
  poll_law : forall w, shield_ok w -> wp uart_poll_in (fun rb w' => shield_ok w' /\ polls w' = tail (polls w) /\
    match head (polls w) with Some (Some b) => rb = (0, b) | _ => rb.1 = -1 end) w;
  yield_law : forall w, shield_ok w -> wp k_yield (fun _ w' => shield_ok w' /\ polls w' = polls w) w;
  printk_polls : forall m w, shield_ok w -> wp (printk m) (fun _ w' => shield_ok w' /\ polls w' = polls w) w;
  reboot_law : forall w, shield_ok w -> wp sys_reboot (fun _ w' => forall i, (i < pins)%nat -> level w' i = level w i) w;
}.

Definition output_levels {W} `{!ShieldPins W} `{!ShieldBoard W} {pins faults : nat} `{!ShieldLaws W pins pins faults} (w : W) : list bool :=
  level w <$> seq 0 pins.

(** The hardware: a millisecond after the outputs were set, inputs and faults
    show what [inp] and [flt] give for them.  A negative value is a read that
    fails. *)
Class Hardware (W : Type) `{!ShieldPins W} `{!ShieldBoard W} (pins faults : nat) `{!ShieldLaws W pins pins faults} (inp flt : list bool -> nat -> Z) := {
  settle_law : forall k w, shield_ok w -> 1 <= k -> wp (k_msleep k) (fun _ w' =>
    (forall i, (i < pins)%nat -> reading w' (input_gpios i) = inp (output_levels w) i) /\
    (forall i, (i < faults)%nat -> reading w' (fault_gpios i) = flt (output_levels w) i)) w;
}.

(** ** The message of the host *)

Section message.
Context {W : Type} `{!ShieldPins W} `{!ShieldBoard W} `{!EolConsole W} {pins faults : nat} `{!ShieldLaws W pins pins faults}
  `{!EolConsoleLaws W pins faults}.
Implicit Types (w : W) (ps : list (option Z)) (msg : list Z).

(** The bytes among the polls. *)
Definition bytes (ps : list (option Z)) : list Z := omap id ps.

(** One round of the wait. *)
Definition next_received (msg : list Z) (received : nat) (p : option Z) : nat :=
  match p with Some b => if bool_decide (msg !! received = Some b) then S received else 0%nat | None => received end.

Lemma wait_round fuel msg r w : shield_ok w -> (r < length msg)%nat ->
  exists w', wait_loop (S fuel) msg r w = wait_loop fuel msg (next_received msg r (default None (head (polls w)))) w' /\
    shield_ok w' /\ polls w' = tail (polls w).
Proof.
  intros Hok Hr. cbn [wait_loop]. rewrite decide_True by done.
  destruct (proj1 (wp_Ret _ _ _) (poll_law w Hok)) as ([rc b] & w1 & H1 & Hok1 & Hp1 & Hres).
  destruct (proj1 (wp_Ret _ _ _) (yield_law w1 Hok1)) as (u & w2 & H2 & Hok2 & Hp2).
  exists w2. split; [|by rewrite Hp2]. rewrite (bind_step _ _ _ _ _ H1), (bind_step _ _ _ _ _ H2). f_equal.
  destruct (head (polls w)) as [ [x|]|]; cbn in *; [by injection Hres as -> ->|by rewrite Hres|by rewrite Hres].
Qed.

(** What was received in a row is the end of what was read. *)
Definition received_inv msg (read : list Z) (r : nat) : Prop := exists pre, read = pre ++ take r msg.

Lemma received_inv_step msg read r p : (r < length msg)%nat -> received_inv msg read r ->
  received_inv msg (read ++ bytes [p]) (next_received msg r p).
Proof.
  intros Hr [pre ->]. destruct p as [b|]; cbn; [|exists pre; by rewrite app_nil_r].
  case_bool_decide as Hb; [exists pre; by rewrite <- app_assoc, (take_S_r _ _ _ Hb)|].
  exists ((pre ++ take r msg) ++ [b]). by rewrite app_nil_r.
Qed.

Lemma bytes_cons p ps : bytes (p :: ps) = bytes [p] ++ bytes ps.
Proof. by destruct p. Qed.

(** While the bytes before the message do not have its first byte, nothing is
    received; and then the message is, byte by byte. *)
Lemma wait_heard msg h t : msg = h :: t -> h ∉ t -> forall ps fuel r w pre post,
  shield_ok w -> polls w = ps -> (length ps < fuel)%nat ->
  (r = 0%nat /\ bytes ps = pre ++ msg ++ post /\ h ∉ pre \/ (0 < r <= length msg)%nat /\ bytes ps = drop r msg ++ post) ->
  wp (wait_loop fuel msg r) (fun rc w' => rc = 0 /\ shield_ok w' /\ bytes (polls w') = post) w.
Proof.
  intros Hmsg Hh. induction ps as [|p ps IH]; intros [|fuel] r w pre post Hok Hps Hf Hst; [cbn in Hf; lia| |cbn in Hf; lia|].
  - destruct Hst as [(-> & Hb & _)|(Hr & Hb)]; [rewrite Hmsg in Hb; symmetry in Hb; apply app_eq_nil in Hb as [_ ?]; done|].
    symmetry in Hb. apply app_eq_nil in Hb as [Hd Hb]. apply (f_equal length) in Hd. rewrite length_drop in Hd. cbn in Hd.
    cbn [wait_loop]. rewrite decide_False by lia. apply wp_ret. split_and!; [done|done|by rewrite Hps, Hb].
  - destruct (decide (r < length msg)%nat) as [Hr|Hr].
    + destruct (wait_round fuel msg r w Hok Hr) as (w' & Heq & Hok' & Hp'). unfold wp. rewrite Heq. rewrite Hps in Hp' |- *.
      cbn [head tail default from_option id] in Hp' |- *. cbn [length] in Hf.
      destruct p as [b|]; [|apply (IH _ _ _ pre post); [done|done|lia|exact Hst] ]. cbn [next_received].
      destruct Hst as [(-> & Hb & Hpre)|(Hr0 & Hb)]; cbn [bytes omap list_omap id] in Hb.
      * destruct pre as [|x pre]; [rewrite app_nil_l in Hb|]; rewrite Hmsg in Hb; injection Hb as Hx Hb.
        -- rewrite bool_decide_true by (by rewrite Hmsg, Hx). apply (IH _ _ _ [] post); [done|done|lia|]. right.
           split; [rewrite Hmsg; cbn; lia|]. by rewrite Hmsg.
        -- subst x. apply not_elem_of_cons in Hpre as [Hbh Hpre]. rewrite bool_decide_false by (rewrite Hmsg; cbn; congruence).
           apply (IH _ _ _ pre post); [done|done|lia|]. left. split; [done|]. split; [by rewrite Hmsg|done].
      * destruct (lookup_lt_is_Some_2 msg r Hr) as [x Hx]. rewrite (drop_S _ _ _ Hx) in Hb. injection Hb as -> Hb.
        rewrite bool_decide_true by done. apply (IH _ _ _ [] post); [done|done|lia|]. right. split; [lia|done].
    + cbn [wait_loop]. rewrite decide_False by done. apply wp_ret. split; [done|]. split; [done|]. rewrite Hps.
      destruct Hst as [(-> & _)|(_ & Hb)]; [rewrite Hmsg in Hr; cbn in Hr; lia|]. by rewrite drop_ge in Hb by lia.
Qed.

(** And when the wait is over the message was read. *)
Lemma wait_sound msg fuel : forall r w read rc w', shield_ok w -> received_inv msg read r -> (r <= length msg)%nat ->
  wait_loop fuel msg r w = Ret rc w' -> exists c pre, polls w = c ++ polls w' /\ read ++ bytes c = pre ++ msg.
Proof.
  induction fuel as [|fuel IH]; intros r w read rc w' Hok Hinv Hr Hrun; [done|].
  destruct (decide (r < length msg)%nat) as [Hlt|Hge].
  - destruct (wait_round fuel msg r w Hok Hlt) as (w1 & Heq & Hok1 & Hp1). rewrite Heq in Hrun.
    assert (next_received msg r (default None (head (polls w))) <= length msg)%nat as Hle.
    { unfold next_received. destruct (default _ _); [case_bool_decide|]; lia. }
    destruct (polls w) as [|p ps]; cbn [head tail default from_option] in *.
    + destruct (IH _ _ read _ _ Hok1 Hinv Hle Hrun) as (c & pre & Hc & Hpre). rewrite Hp1 in Hc. eauto.
    + destruct (IH _ _ _ _ _ Hok1 (received_inv_step _ _ _ p Hlt Hinv) Hle Hrun) as (c & pre & Hc & Hpre).
      exists (p :: c), pre. rewrite Hp1 in Hc. rewrite bytes_cons, app_assoc, Hpre, Hc. done.
  - cbn [wait_loop] in Hrun. rewrite decide_False in Hrun by done. injection Hrun as <- <-. destruct Hinv as [pre ->].
    exists [], pre. split; [done|]. cbn. by rewrite app_nil_r, take_ge by lia.
Qed.
(** Without further bytes nothing is heard. *)
Lemma wait_silent msg fuel : forall r w, shield_ok w -> polls w = [] -> (r < length msg)%nat -> wait_loop fuel msg r w = Fault OutOfFuel.
Proof.
  induction fuel as [|fuel IH]; intros r w Hok Hp Hr; [done|].
  destruct (wait_round fuel msg r w Hok Hr) as (w' & -> & Hok' & Hp'). rewrite Hp in Hp' |- *. by apply IH.
Qed.

(** [host_heard]: when the host says START, and no byte before it is an S,
    the program hears it, having read the message and nothing behind it;
    and whenever it goes on, from whatever bytes, the last that it read is
    START. *)
Theorem host_heard fuel w pre post : shield_ok w -> bytes (polls w) = pre ++ START ++ post -> (83 ∉ pre) -> (length (polls w) < fuel)%nat ->
  wp (wait_for_uart_msg fuel START) (fun rc w' => rc = 0 /\ shield_ok w' /\ bytes (polls w') = post) w /\
  forall fuel' w0 rc w', shield_ok w0 -> wait_for_uart_msg fuel' START w0 = Ret rc w' ->
    exists c before, polls w0 = c ++ polls w' /\ bytes c = before ++ START.
Proof.
  intros Hok Hb Hpre Hf. split.
  - unfold wait_for_uart_msg. assert (83 ∉ [84; 65; 82; 84]) as Hs by (rewrite !not_elem_of_cons; split_and!; done || apply not_elem_of_nil).
    apply (wait_heard START 83 [84; 65; 82; 84] eq_refl Hs (polls w) fuel 0 w pre post); auto.
  - intros fuel' w0 rc w' Hok0 Hrun. apply (wait_sound START fuel' 0 w0 [] rc w' Hok0); [by exists []|cbn; lia|done].
Qed.

(** [start_after_s_lost]: the byte that ends a partial message is not looked at
    again: of the bytes SSTART the program hears nothing. *)
Theorem start_after_s_lost fuel w : shield_ok w -> polls w = Some <$> 83 :: START -> wait_for_uart_msg fuel START w = Fault OutOfFuel.
Proof.
  intros Hok Hp. unfold wait_for_uart_msg.
  assert (forall ps r fuel w, shield_ok w -> polls w = ps -> (fold_left (next_received START) ps r < length START)%nat ->
    (forall k, (fold_left (next_received START) (take k ps) r < length START)%nat) -> wait_loop fuel START r w = Fault OutOfFuel) as Hlost.
  { clear. induction ps as [|p ps IH]; intros r fuel w Hok Hp Hr Hk; [by apply wait_silent|]. destruct fuel as [|fuel]; [done|].
    destruct (wait_round fuel START r w Hok (Hk 0%nat)) as (w' & -> & Hok' & Hp'). rewrite Hp in Hp' |- *.
    apply IH; [done|done|exact Hr|]. intros k. exact (Hk (S k)). }
  apply (Hlost (Some <$> 83 :: START)); [done|done|vm_compute; lia|].
  intros k. do 6 (destruct k as [|k]; [vm_compute; lia|]). rewrite take_ge by (cbn; lia). vm_compute. lia.
Qed.
End message.

(** ** The test *)

Section test.
Context {W : Type} `{!ShieldPins W} `{!ShieldBoard W} `{!EolConsole W} {pins faults : nat} `{!ShieldLaws W pins pins faults}
  {inp flt : list bool -> nat -> Z} `{!Hardware W pins faults inp flt}.
Implicit Types (w : W) (L : nat -> bool).

(** The levels of a pattern, and that the shield answers right to it. *)
Definition pattern_levels (p : Z) : nat -> bool := fun i => Z.testbit p (Z.of_nat i).
Definition levels_list (L : nat -> bool) : list bool := L <$> seq 0 pins.
Definition answers (L : nat -> bool) : Prop :=
  (forall i, (i < pins)%nat -> inp (levels_list L) i = Z.b2z (L i)) /\ (forall j, (j < faults)%nat -> flt (levels_list L) j = 0).

(** What the hardware answers to the outputs [L] at a pin. *)
Definition answer (L : nat -> bool) (p : shield_pin) : Z :=
  match p with input_gpios i => inp (levels_list L) i | fault_gpios i => flt (levels_list L) i | output_gpios _ => 0 end.
Definition sensed (p : shield_pin) : Prop :=
  match p with input_gpios i => i < pins | fault_gpios i => i < faults | output_gpios _ => False end%nat.

(** The outputs are [L], and inputs and faults show the answer to them. *)
Definition shows L w : Prop := at_levels L w /\ forall p, sensed p -> reading w p = answer L p.

Lemma sensed_valid p : sensed p -> valid_pin pins pins faults p.
Proof. by destruct p. Qed.

Lemma levels_list_eq L w : at_levels L w -> output_levels w = levels_list L.
Proof. intros [_ Hl]. apply list_fmap_ext. intros i x Hx. apply lookup_seq in Hx as [-> Hi]. apply Hl. lia. Qed.

Lemma shows_get L p w : shows L w -> sensed p -> wp (pin_get p) (fun r w' => r = answer L p /\ shows L w') w.
Proof.
  intros ([Hok Hl] & Ha) Hp. eapply wp_mono; [apply get_law; [done|by apply sensed_valid]|]. intros r w' (-> & Hok' & Hl' & Hr).
  split; [by apply Ha|]. split; [split; [done|]; intros j Hlt; rewrite Hl' by done; by apply Hl|].
  intros q Hq. rewrite Hr by (by apply sensed_valid). by apply Ha.
Qed.

Lemma shows_settle k w L : at_levels L w -> 1 <= k -> wp (k_msleep k) (fun _ => shows L) w.
Proof.
  intros Hw Hk. pose proof Hw as [Hok Hl]. destruct (proj1 (wp_Ret _ _ _) (msleep_law k w Hok)) as (u & w' & Hrun & Hok' & Hl').
  destruct (proj1 (wp_Ret _ _ _) (settle_law k w Hok Hk)) as (u' & w2 & Hrun2 & Hi & Hj). rewrite Hrun in Hrun2. injection Hrun2 as <- <-.
  rewrite (levels_list_eq L w Hw) in Hi, Hj. apply wp_Ret. exists u, w'. split; [done|]. split; [split; [done|]|].
  - intros j Hlt. rewrite Hl' by done. by apply Hl.
  - intros [i|i|i] Hp; [by apply Hi|done|by apply Hj].
Qed.

(** A result tells whether [P] holds; in either case the outputs are [L], and
    if it does the shield is as in [Q]. *)
Definition decides (P : Prop) L (Q : W -> Prop) (r : Z) w : Prop := at_levels L w /\ if r =? 0 then P /\ Q w else ~ P.

(** Comparing pins: 0 exactly when all answers are the expected ones. *)
Lemma wp_assert L pin (expected : nat -> M W Z) (e : nat -> Z) k : forall i w, shows L w ->
  (forall j, (i <= j < i + k)%nat -> sensed (pin j) /\ (forall w, expected j w = Ret (e j) w) /\ 0 <= e j) ->
  wp (assert_loop pin expected k i) (decides (forall j, (i <= j < i + k)%nat -> answer L (pin j) = e j) L (shows L)) w.
Proof.
  induction k as [|k IH]; intros i w Hw He; cbn [assert_loop].
  { apply wp_ret. split; [apply Hw|]. split; [|done]. intros j Hj. lia. }
  destruct (He i ltac:(lia)) as (Hv & Hrun & Hpos). apply wp_bind. eapply wp_mono; [by apply (shows_get L)|]. intros val w1 [-> H1]. cbn beta.
  assert (forall r w2, r <> 0 -> answer L (pin i) <> e i -> at_levels L w2 ->
    decides (forall j, (i <= j < i + S k)%nat -> answer L (pin j) = e j) L (shows L) r w2) as Hfail.
  { intros r w2 Hr Hne Hlev. split; [done|]. rewrite (proj2 (Z.eqb_neq _ _)) by done. intros H. apply Hne, H. lia. }
  destruct (Z.ltb_spec (answer L (pin i)) 0) as [Hneg|Hge].
  { apply wp_bind. eapply wp_mono; [apply (wp_printk L); apply H1|]. cbn beta. intros _ w2 H2. apply wp_ret. apply Hfail; [lia|lia|done]. }
  unfold wp. rewrite (bind_step _ _ _ _ _ (Hrun w1)).
  destruct (Z.eqb_spec (answer L (pin i)) (e i)) as [Heq|Hne]; cbn [negb].
  - eapply wp_mono; [apply (IH (S i) w1 H1); intros j Hj; apply He; lia|]. intros r w2 [Hlev Hr]. split; [done|].
    destruct (r =? 0); [destruct Hr as [Hr Hs]; split; [|done]|contradict Hr].
    + intros j Hj. destruct (decide (j = i)) as [->|]; [done|]. apply Hr. lia.
    + intros j Hj. apply Hr. lia.
  - apply wp_bind. eapply wp_mono; [apply (wp_printk L); apply H1|]. cbn beta. intros _ w2 H2. apply wp_ret. by apply Hfail.
Qed.

Definition inputs_right (L : nat -> bool) : Prop := forall i, (i < pins)%nat -> inp (levels_list L) i = Z.b2z (L i).
Definition faults_low (L : nat -> bool) : Prop := forall j, (j < faults)%nat -> flt (levels_list L) j = 0.

Lemma wp_assert_inputs L expected w : shows L w -> length expected = pins -> (forall i, (i < pins)%nat -> expected !! i = Some (L i)) ->
  wp (assert_input_pins pins expected) (decides (inputs_right L) L (shows L)) w.
Proof.
  intros Hw Hlen He. eapply wp_mono.
  - apply (wp_assert L input_gpios _ (fun i => Z.b2z (L i)) pins 0 w Hw). intros j Hj. split; [cbn; lia|]. split.
    + intros w1. rewrite He by lia. done.
    + destruct (L j); cbn; lia.
  - intros r w1 [Hlev Hr]. split; [done|]. destruct (r =? 0).
    + destruct Hr as [Hr Hs]. split; [|done]. intros i Hi. apply Hr. lia.
    + contradict Hr. intros j Hj. apply Hr. lia.
Qed.

Lemma wp_assert_faults L w : shows L w -> wp (assert_fault_pins_low faults) (decides (faults_low L) L (shows L)) w.
Proof.
  intros Hw. eapply wp_mono.
  - apply (wp_assert L fault_gpios _ (fun _ => 0) faults 0 w Hw). intros j Hj. split; [cbn; lia|]. by split.
  - intros r w1 [Hlev Hr]. split; [done|]. destruct (r =? 0).
    + destruct Hr as [Hr Hs]. split; [|done]. intros i Hi. apply Hr. lia.
    + contradict Hr. intros j Hj. apply Hr. lia.
Qed.

Lemma pattern_bit p i : negb (Z.land p (Z.shiftl 1 (Z.of_nat i)) =? 0) = Z.testbit p (Z.of_nat i).
Proof. fold (BIT (Z.of_nat i)). rewrite land_BIT by lia. apply negb_involutive. Qed.

(** Driving a pattern. *)
Lemma wp_drive p k : forall i L expected w, at_levels L w -> (i + k = pins)%nat -> length expected = pins ->
  (forall j, (j < i)%nat -> L j = pattern_levels p j /\ expected !! j = Some (pattern_levels p j)) ->
  wp (drive_loop p k i expected) (fun '(r, expected) w' => r = 0 /\ at_levels (pattern_levels p) w' /\ length expected = pins /\
    forall j, (j < pins)%nat -> expected !! j = Some (pattern_levels p j)) w.
Proof.
  induction k as [|k IH]; intros i L expected w Hw Hik Hlen Hd; cbn [drive_loop].
  { apply wp_ret. split; [done|]. split; [eapply at_levels_ext; [|exact Hw]; intros j Hj; apply Hd; lia|].
    split; [done|]. intros j Hj. apply Hd. lia. }
  rewrite pattern_bit. apply wp_bind. eapply wp_mono; [apply wp_set; [exact Hw|lia]|]. intros r w1 [-> H1]. cbn beta. cbn [Z.eqb negb].
  apply (IH (S i) _ _ w1 H1); [lia|by rewrite length_insert|]. intros j Hj. rewrite level_after_output. case_decide as Hji.
  - subst j. rewrite list_lookup_insert_eq by lia. unfold pattern_levels. by destruct (Z.testbit p (Z.of_nat i)).
  - rewrite list_lookup_insert_ne by done. apply Hd. lia.
Qed.

Definition right_answer (p : Z) : Prop := inputs_right (pattern_levels p) /\ faults_low (pattern_levels p).

Lemma wp_test_pattern p L expected w : at_levels L w -> length expected = pins ->
  wp (test_pattern pins faults p expected) (fun '(r, expected) w' => length expected = pins /\
    decides (right_answer p) (pattern_levels p) (fun _ => True) r w') w.
Proof.
  intros Hw Hlen. unfold test_pattern. apply wp_bind. eapply wp_mono; [apply (wp_drive p pins 0 L expected w Hw); [done|done|intros j Hj; lia]|].
  intros [r ex] w1 (-> & H1 & Hlen1 & Hex). cbn beta iota. cbn [Z.eqb negb]. apply wp_bind.
  eapply wp_mono; [apply (shows_settle 1 w1 _ H1); lia|]. cbn beta. intros _ w2 H2. apply wp_bind.
  eapply wp_mono; [by apply (wp_assert_inputs _ ex w2 H2)|]. intros r w3 [Hlev3 Hr]. cbn beta.
  destruct (Z.eqb_spec r 0) as [->|Hr0]; cbn [negb]; [|apply wp_ret; split; [done|split; [done|]; rewrite (proj2 (Z.eqb_neq _ _)) by done; by intros [? _]] ].
  destruct Hr as [Hin H3]. apply wp_bind. eapply wp_mono; [by apply wp_assert_faults|]. intros r w4 [Hlev4 Hr]. cbn beta.
  destruct (Z.eqb_spec r 0) as [->|Hr0]; cbn [negb]; [|apply wp_ret; split; [done|split; [done|]; rewrite (proj2 (Z.eqb_neq _ _)) by done; by intros [_ ?]] ].
  destruct Hr as [Hf _]. apply wp_bind. eapply wp_mono; [apply (wp_msleep (pattern_levels p)); exact Hlev4|]. cbn beta. intros _ w5 H5.
  apply wp_ret. split; [done|]. split; [done|]. by split_and!.
Qed.
Lemma right_answer_zero L : (forall i, (i < pins)%nat -> L i = false) -> inputs_right L /\ faults_low L <-> right_answer 0.
Proof.
  intros HL. assert (levels_list L = levels_list (pattern_levels 0)) as Heq.
  { apply list_fmap_ext. intros i x Hx. apply lookup_seq in Hx as [-> Hi]. rewrite HL by lia. unfold pattern_levels. by rewrite Z.testbit_0_l by lia. }
  unfold right_answer, inputs_right, faults_low. rewrite Heq. split; intros [H1 H2]; (split; [|done]); intros i Hi;
    (rewrite H1, HL by done); unfold pattern_levels; by rewrite Z.testbit_0_l by lia.
Qed.

Lemma wp_pattern_loop fuel : forall p L expected w, at_levels L w -> length expected = pins -> 0 <= p <= PATTERN_END -> PATTERN_END - p < Z.of_nat fuel ->
  wp (pattern_loop pins faults fuel p expected) (fun r w' => (exists L', at_levels L' w') /\
    if r =? 0 then forall q, p <= q < PATTERN_END -> right_answer q else ~ (forall q, p <= q < PATTERN_END -> right_answer q)) w.
Proof.
  change PATTERN_END with 63. induction fuel as [|fuel IH]; intros p L expected w Hw Hlen Hp Hf; [lia|]. cbn [pattern_loop].
  change PATTERN_END with 63. destruct (Z.ltb_spec p 63) as [Hlt|Hge]; [|apply wp_ret; split; [by eexists|]; intros q Hq; lia].
  apply wp_bind. eapply wp_mono; [by apply (wp_test_pattern p L)|]. intros [r ex] w1 (Hlen1 & Hlev & Hr). cbn beta iota.
  destruct (Z.eqb_spec r 0) as [->|Hr0]; cbn [negb].
  - destruct Hr as [Hr _]. rewrite (wrap_small 8) by (unfold in_width; lia).
    eapply wp_mono; [apply (IH (p + 1) _ ex w1 Hlev Hlen1); lia|]. intros r w2 [HL H]. split; [done|]. destruct (r =? 0).
    + intros q Hq. destruct (decide (q = p)) as [->|]; [done|]. apply H. lia.
    + contradict H. intros q Hq. apply H. lia.
  - apply wp_ret. split; [by eexists|]. rewrite (proj2 (Z.eqb_neq _ _)) by done. contradict Hr. apply Hr. lia.
Qed.

(** A loop over the outputs that does not fail: all are low at the end. *)
Lemma wp_for_outputs (f : nat -> M W Z) :
  (forall L i w, at_levels L w -> (i < pins)%nat -> wp (f i) (fun r w' => r = 0 /\ at_levels (level_after (output_gpios i) false L) w') w) ->
  forall k i L w, at_levels L w -> (i + k = pins)%nat -> (forall j, (j < i)%nat -> L j = false) ->
  wp (for_outputs f k i) (fun r w' => r = 0 /\ at_levels all_low w') w.
Proof.
  intros Hset. induction k as [|k IH]; intros i L w Hw Hik Hlow; cbn [for_outputs].
  { apply wp_ret. split; [done|]. eapply at_levels_ext; [|exact Hw]. intros j Hj. apply Hlow. lia. }
  apply wp_bind. eapply wp_mono; [apply Hset; [exact Hw|lia]|]. intros r w1 [-> H1]. cbn beta. cbn [Z.eqb negb].
  apply (IH (S i) _ w1 H1); [lia|]. intros j Hj. rewrite level_after_output. case_decide; [done|]. apply Hlow. lia.
Qed.

(** The part after START. *)
Lemma wp_eol_test w : shield_ok w ->
  wp (eol_test pins faults) (fun r w' => (exists L, at_levels L w' /\ (r = 0 -> L = all_low)) /\
    (r = 0 <-> forall q, 0 <= q < PATTERN_END -> right_answer q)) w.
Proof.
  intros Hok. assert (at_levels (level w) w) as H0 by done. unfold eol_test.
  apply wp_bind. eapply wp_mono; [by apply (wp_printk (level w))|]. cbn beta. intros _ w1 H1. apply wp_and_then.
  eapply wp_mono; [apply (wp_for_outputs (fun i => pin_configure (output_gpios i) output_low_flags)) with (L := level w); [|exact H1|done|intros j Hj; lia]|].
  { intros L i w2 Hw2 Hi. by apply (wp_configure L (output_gpios i)). }
  intros r w2 [-> H2]. split; [done|]. apply wp_bind. eapply wp_mono; [apply (shows_settle 1 w2 all_low H2); lia|]. cbn beta. intros _ w3 H3. cbn zeta.
  assert (forall r w', r <> 0 -> ~ right_answer 0 -> at_levels all_low w' ->
    (exists L, at_levels L w' /\ (r = 0 -> L = all_low)) /\ (r = 0 <-> forall q, 0 <= q < PATTERN_END -> right_answer q)) as Hfail.
  { intros r w' Hr Hna Hw'. split; [by exists all_low|]. split; [done|]. intros H. contradict Hna. apply H. change PATTERN_END with 63. lia. }
  pose proof (right_answer_zero all_low ltac:(done)) as Hzero.
  unfold and_then at 1. apply wp_bind.
  eapply wp_mono; [apply (wp_assert_inputs all_low _ w3 H3); [apply length_replicate|intros i Hi; by apply lookup_replicate_2]|].
  intros r w4 [H4 Hr]. cbn beta. destruct (Z.eqb_spec r 0) as [->|Hr0]; cbn [negb]; [|apply wp_ret, Hfail; [done|tauto|done] ].
  destruct Hr as [Hin Hs4]. unfold and_then at 1. apply wp_bind. eapply wp_mono; [by apply wp_assert_faults|].
  intros r w5 [H5 Hr]. cbn beta. destruct (Z.eqb_spec r 0) as [->|Hr0]; cbn [negb]; [|apply wp_ret, Hfail; [done|tauto|done] ].
  unfold and_then at 1. apply wp_bind.
  eapply wp_mono; [apply (wp_pattern_loop _ 0 _ _ _ H5 (length_replicate _ _)); change PATTERN_END with 63; lia|].
  intros r w6 [ [L H6] Hv]. cbn beta. destruct (Z.eqb_spec r 0) as [->|Hr0]; cbn [negb]; [|apply wp_ret; split; [by exists L|done] ].
  apply wp_and_then. eapply wp_mono; [apply (wp_for_outputs (fun i => pin_set (output_gpios i) 0)) with (L := L); [|exact H6|done|intros j Hj; lia]|].
  { intros L' i w7 Hw7 Hi. by apply (wp_set L'). }
  intros r w7 [-> H7]. split; [done|]. apply wp_bind. eapply wp_mono; [by apply (wp_printk all_low)|]. cbn beta. intros _ w8 H8. apply wp_ret.
  split; [by exists all_low|done].
Qed.

(** C24. For every hardware behind the pins: once the host
    said START the program ends; it reboots, the sign of success, exactly
    when the shield answers right to every pattern below [PATTERN_END], all
    inputs like the outputs and no fault; otherwise it returns an error.
    After a success all outputs are low. *)
Theorem end_of_line_verdict `{!EolConsoleLaws W pins faults} fuel w pre post :
  shield_ok w -> shield_is_ready 0 w = true -> bytes (polls w) = pre ++ START ++ post -> (83 ∉ pre) -> (length (polls w) < fuel)%nat ->
  wp (eol_main pins faults fuel) (fun res w' =>
    (res = Rebooted <-> forall q, 0 <= q < PATTERN_END -> right_answer q) /\
    (res = Rebooted -> forall i, (i < pins)%nat -> level w' i = false) /\
    (forall err, res = Returned err -> err <> 0)) w.
Proof.
  intros Hok Hready Hb Hpre Hf. unfold eol_main. apply wp_bind, wp_gets. rewrite Hready. cbn [negb].
  apply wp_bind. eapply wp_mono; [by apply printk_polls|]. cbn beta. intros _ w1 [Hok1 Hp1]. apply wp_bind.
  assert (83 ∉ [84; 65; 82; 84]) as Hs by (rewrite !not_elem_of_cons; split_and!; done || apply not_elem_of_nil).
  eapply wp_mono; [apply (wait_heard START 83 [84; 65; 82; 84] eq_refl Hs (polls w) fuel 0 w1 pre post); auto|].
  intros rc w2 (_ & Hok2 & _). cbn beta. apply wp_bind. eapply wp_mono; [by apply wp_eol_test|]. intros r w3 [ (L & H3 & HL) Hv]. cbn beta.
  destruct (Z.eqb_spec r 0) as [->|Hr]; cbn [negb].
  - apply wp_bind. eapply wp_mono; [by apply (wp_msleep L)|]. cbn beta. intros _ w4 [Hok4 Hl4]. apply wp_bind.
    eapply wp_mono; [by apply reboot_law|]. intros u w5 Hl5. cbn beta. apply wp_ret. split; [tauto|]. split; [|done].
    intros _ i Hi. rewrite Hl5, Hl4 by done. by rewrite HL.
  - apply wp_ret. split; [split; [done|tauto]|]. split; [done|]. by intros err [= <-].
Qed.
End test.
