(* ===== verification/ShieldOnDriver.v ===== *)
(** * The shield's samples on its driver

    The interface of [ShieldSamples] over the driver of [PowerIoShield] keeps
    its laws when the expander and its bus work; and the interrupts sample
    leaves the driver with exactly the interrupts its README tells of. *)

From stdpp Require Import base gmap list numbers strings.
From Stdlib Require Import ZArith Lia.
From S2P Require Import Prelude.
From S2P Require Import Gpio.
From S2P Require Import PowerIoShield.
From S2P Require Import ShieldSamples.
From S2P Require Import EndOfLine.

#[local] Open Scope Z_scope.

(** ** The pins of one shield *)

Definition shield_valid (p : shield_pin) : Prop := valid_pin 6 6 3 p.

(** The cases of an index below a constant. *)
Ltac index_cases i := first [exfalso; lia | destruct i as [|i]; [|index_cases i] ].

Lemma pin_number_range p : shield_valid p -> 0 <= pin_number p < 32.
Proof. destruct p as [i|i|i]; intros Hi; cbn in Hi; index_cases i; by vm_compute. Qed.

Lemma pin_number_inj p q : shield_valid p -> shield_valid q -> pin_number p = pin_number q -> p = q.
Proof.
  intros Hp Hq. destruct p as [i|i|i], q as [j|j|j]; cbn in Hp, Hq; index_cases i; index_cases j; intros H; vm_compute in H; done.
Qed.

(** Pins that can interrupt. *)
Definition interrupting (p : shield_pin) : Prop := match p with input_gpios i => i < 6 | fault_gpios i => i < 3 | _ => False end%nat.

Lemma interrupting_valid p : interrupting p -> shield_valid p.
Proof. by destruct p. Qed.

Lemma interrupting_pin p : interrupting p -> interrupt_pin (pin_number p).
Proof. unfold interrupt_pin. destruct p as [i|i|i]; [|done|]; intros Hi; cbn in Hi; index_cases i; vm_compute; intuition congruence. Qed.

Section driver.
Context {E : Type} `{!I2C E} `{!IntGpios E} `{!GpioCallbacks E} `{!ShieldBoard E}.
Context (port : E -> Z) (ok : E -> Prop) `{!ExpanderBus port ok}.

(** The clock and the console of the board. *)
#[export] Instance driver_board : ShieldBoard (pio_world E) := {|
  shield_is_ready n w := shield_is_ready n (pio_ext w);
  k_msleep k := on_bus (k_msleep k);
  printk m := on_bus (printk m);
|}.

(** The bus never fails, and time does not change an output. *)
Class ReliableBus : Prop := {
  reliable_write : forall lo hi e rc e', ok e -> i2c_write_dt [REG_GPIOA; lo; hi] e = Ret rc e' -> rc = 0;
  reliable_read : forall e rc l e', ok e -> i2c_write_read_dt REG_GPIOA 2 e = Ret (rc, l) e' -> rc = 0;
  sleep_keeps : forall k e, ok e -> wp (k_msleep k) (fun _ e' => ok e' /\
    forall i, 0 <= i < 6 -> Z.testbit (port e') (i + 2) = Z.testbit (port e) (i + 2)) e;
  printk_keeps : forall m e, ok e -> wp (printk m) (fun _ e' => ok e' /\ port e' = port e) e;
}.
Context {Hrel : ReliableBus}.
Implicit Types (w : pio_world E).

(** The driver between calls: its semaphore is free, and the outputs are what
    its cache says. *)
Record driver_ok w : Prop := DriverOk {
  ok_lock : lock (pio w) = 1;
  ok_bus : ok (pio_ext w);
  ok_cache : forall i, 0 <= i < 6 -> Z.testbit (port (pio_ext w)) (i + 2) = Z.testbit (gpio (pio w)) (i + 2);
}.

Definition driver_level w (i : nat) : bool := Z.testbit (gpio (pio w)) (Z.of_nat i + 2).

(** What a read of the port gives for a pin. *)
Definition driver_reading w (p : shield_pin) : Z :=
  Z.b2z (Z.testbit (power_io_shield_gpio_bits_to_zephyr_bits (Z.lxor (port (pio_ext w)) POWER_IO_SHIELD_HARD_INVERT_PINS)) (pin_number p)).

Lemma driver_get p w : driver_ok w -> wp (driver_pin_get p) (fun r w' => r = driver_reading w p /\ driver_ok w' /\
  pio_ext w' = pio_ext w /\ forall j, (j < 6)%nat -> driver_level w' j = driver_level w j) w.
Proof.
  intros [Hl Hok Hc]. destruct (port_get_run port ok w Hl Hok) as (r & v & w2 & Hr & Hl2 & He2 & Hv).
  assert (r = 0) as ->.
  { unfold power_io_shield_port_get_raw in Hr. rewrite (bind_step _ _ _ _ _ (take_lock_run w Hl)) in Hr.
    destruct (gpio_read_law port ok (pio_ext w) Hok) as (rc & bytes & Hrd & Hby). pose proof (reliable_read _ _ _ _ Hok Hrd) as ->.
    destruct (Hby eq_refl) as (b0 & b1 & -> & _). unfold read_u16_reg, PowerIoShield.on_bus in Hr. unfold bind, zoom in Hr. cbn [pio_ext] in Hr.
    rewrite Hrd in Hr. cbn in Hr. by injection Hr as <- _ _. }
  destruct (Hv eq_refl) as [-> Hg]. unfold driver_pin_get. apply wp_bind, wp_Ret. do 2 eexists. split; [exact Hr|]. cbn beta. apply wp_ret.
  split; [done|]. split; [constructor; [done|by rewrite He2|intros i Hi; by rewrite He2, Hg]|]. split; [done|].
  intros j Hj. unfold driver_level. by rewrite Hg, Hc by lia.
Qed.

Lemma output_bit i k : (i < 6)%nat -> 0 <= k < 6 -> Z.testbit (BIT (pin_number (output_gpios i))) (k + 8) = bool_decide (k = Z.of_nat i).
Proof.
  intros Hi Hk. assert (pin_number (output_gpios i) = Z.of_nat i + 8) as -> by (index_cases i; by vm_compute).
  rewrite testbit_BIT by lia. apply bool_decide_ext. lia.
Qed.

Lemma driver_masked mask value w : driver_ok w ->
  wp (power_io_shield_gpio_set_masked_raw mask value) (fun r w' => r = 0 /\ driver_ok w' /\
    forall j, (j < 6)%nat -> driver_level w' j = if Z.testbit mask (Z.of_nat j + 8) then Z.testbit value (Z.of_nat j + 8) else driver_level w j) w.
Proof.
  intros [Hl Hok Hc]. destruct (masked_run port ok w mask value Hl Hok) as (rc & w1 & Hr & Hl1 & Hok1 & Hres). apply wp_Ret. exists rc, w1.
  split; [done|]. destruct Hres as [(_ & _ & _ & lo & hi & rc' & e' & Hwr & Hne)|(-> & Hg & Hb)]; [by apply reliable_write in Hwr|].
  split; [done|]. split; [by constructor|]. intros j Hj. unfold driver_level. rewrite Hg. apply masked_word_bit. lia.
Qed.

Lemma driver_set i x w : driver_ok w -> (i < 6)%nat ->
  wp (driver_pin_set (output_gpios i) x) (fun r w' => r = 0 /\ driver_ok w' /\
    forall j, (j < 6)%nat -> driver_level w' j = level_after (output_gpios i) (negb (x =? 0)) (driver_level w) j) w.
Proof.
  intros Hok Hi. unfold driver_pin_set. destruct (x =? 0); cbn [negb]; (eapply wp_mono; [by apply driver_masked|]); intros r w' (-> & Hok' & Hb);
    (split; [done|]; split; [done|]); intros j Hj; rewrite Hb, level_after_output, !output_bit by lia;
    rewrite ?Z.testbit_0_l; repeat case_bool_decide; repeat case_decide; done || lia.
Qed.

Lemma driver_configure p w : driver_ok w -> shield_valid p ->
  wp (power_io_shield_pin_configure (pin_number p) (pin_flags p)) (fun r w' => r = 0 /\ driver_ok w' /\
    forall j, (j < 6)%nat -> driver_level w' j = level_after p false (driver_level w) j) w.
Proof.
  intros Hok Hp. destruct p as [i|i|i]; cbn in Hp.
  - assert (power_io_shield_pin_configure (pin_number (input_gpios i)) (pin_flags (input_gpios i)) w = Ret 0 w) as Hr by by index_cases i.
    apply wp_Ret. exists 0, w. unfold level_after. by split_and!.
  - assert (power_io_shield_pin_configure (pin_number (output_gpios i)) (pin_flags (output_gpios i)) =
      (take_lock ;; update (fun d => set_gpio (Z.ldiff (gpio d) (BIT (Z.of_nat i + 2))) d) ;;
      let* d := get_pio in let* r := write_u16_reg REG_GPIOA (gpio d) in give_lock ;; ret (if negb (r =? 0) then - EIO else 0))) as ->
      by by index_cases i.
    destruct Hok as [Hl Hok Hc]. unfold wp. rewrite (bind_step _ _ _ _ _ (take_lock_run w Hl)).
    unfold update, get_pio. unfold bind at 1 2, modify, gets. cbn [pio pio_ext gpio set_gpio set_lock]. set (g := Z.ldiff _ _).
    destruct (gpio_write_law port ok (Z.land g 255) (Z.land (Z.shiftr g 8) 255) (pio_ext w) Hok) as (rc & e1 & Hwr & Hok1 & Hport).
    pose proof (reliable_write _ _ _ _ _ Hok Hwr) as ->. cbn [Z.eqb] in Hport.
    unfold write_u16_reg, PowerIoShield.on_bus. unfold bind at 1, zoom. cbn [pio pio_ext]. rewrite Hwr.
    erewrite bind_step; [|by apply give_lock_run]. cbn. split; [done|].
    split.
    + constructor; [done|done|]. cbn [pio pio_ext gpio set_gpio set_lock]. intros k Hk. rewrite Hport by lia.
      change 255 with (Z.ones 8). by rewrite land_ones_bit by lia.
    + intros j Hj. unfold driver_level. cbn [pio gpio set_gpio set_lock]. subst g. rewrite testbit_clear, level_after_output by lia.
      repeat case_decide; done || lia.
  - assert (power_io_shield_pin_configure (pin_number (fault_gpios i)) (pin_flags (fault_gpios i)) w = Ret 0 w) as Hr by by index_cases i.
    apply wp_Ret. exists 0, w. unfold level_after. by split_and!.
Qed.

Lemma driver_on_bus {A} (m : M E A) (Q : A -> E -> Prop) w :
  wp m Q (pio_ext w) -> wp (PowerIoShield.on_bus m) (fun a w' => pio w' = pio w /\ Q a (pio_ext w')) w.
Proof. intros H. apply wp_zoom. eapply wp_mono; [exact H|]. done. Qed.

(** The driver keeps the laws. *)
#[export] Instance driver_laws : ShieldLaws (pio_world E) 6 6 3.
Proof.
  refine {| shield_ok := driver_ok; level := driver_level; reading := driver_reading;
            configure_law := _; set_law := _; get_law := _; printk_law := _; msleep_law := _ |}.
  - intros p w Hok Hp. by apply driver_configure.
  - intros i x w Hok Hi. by apply driver_set.
  - intros p w Hok Hp. eapply wp_mono; [by apply driver_get|]. intros r w' (-> & Hok' & He & Hl). split_and!; try done.
    intros q _. unfold driver_reading. by rewrite He.
  - intros m w [Hl Hok Hc]. eapply wp_mono; [by apply driver_on_bus, printk_keeps|]. intros ? w' (Hp & Hok' & He). split.
    { constructor; [by rewrite Hp|done|]. intros i Hi. rewrite He, Hp. by apply Hc. }
    split; [intros j Hj; unfold driver_level; by rewrite Hp|]. intros q _. unfold driver_reading. by rewrite He.
  - intros k w [Hl Hok Hc]. eapply wp_mono; [by apply driver_on_bus, sleep_keeps|]. intros ? w' (Hp & Hok' & He). split.
    { constructor; [by rewrite Hp|done|]. intros i Hi. rewrite He, Hp by done. by apply Hc. }
    intros j Hj. unfold driver_level. by rewrite Hp.
Defined.

(** The wires: a millisecond after the outputs were set, the terminals of the
    inputs have the levels [inp] gives for them, and the faults those of [flt];
    the inputs of the expander are inverted. *)
Class Wires (inp flt : list bool -> nat -> bool) : Prop := {
  wires_settle : forall k e, ok e -> 1 <= k -> wp (k_msleep k) (fun _ e' =>
    let L := (fun i => Z.testbit (port e) (Z.of_nat i + 2)) <$> seq 0 6 in
    (forall i, (i < 6)%nat -> Z.testbit (port e') (Z.of_nat i + 8) = negb (inp L i)) /\
    (forall j, (j < 3)%nat -> Z.testbit (port e') (power_io_shield_zephyr_pin_to_gpio_bit (pin_number (fault_gpios j))) = flt L j)) e;
}.

Lemma fault_reading z j : (j < 3)%nat ->
  Z.testbit (power_io_shield_gpio_bits_to_zephyr_bits (Z.lxor z POWER_IO_SHIELD_HARD_INVERT_PINS)) (pin_number (fault_gpios j)) =
  Z.testbit z (power_io_shield_zephyr_pin_to_gpio_bit (pin_number (fault_gpios j))).
Proof.
  intros Hj. rewrite zephyr_bits_spec by (apply pin_number_range; done). rewrite Z.lxor_spec.
  assert (Z.testbit ZEPHYR_PINS_PORT_MASK (pin_number (fault_gpios j)) = true /\
    Z.testbit POWER_IO_SHIELD_HARD_INVERT_PINS (power_io_shield_zephyr_pin_to_gpio_bit (pin_number (fault_gpios j))) = false) as [-> ->]
    by (index_cases j; by vm_compute).
  apply xorb_false_r.
Qed.

(** The hardware of the end of line test. *)
#[export] Instance driver_hardware inp flt : Wires inp flt ->
  Hardware (pio_world E) 6 3 (fun L i => Z.b2z (inp L i)) (fun L j => Z.b2z (flt L j)).
Proof.
  intros Hwires. constructor. intros k w [Hl Hok Hc] Hk. eapply wp_mono; [by apply driver_on_bus, (wires_settle k)|].
  intros u w' (Hp & Hi & Hj). cbn beta zeta in Hi, Hj.
  assert (output_levels w = (fun i => Z.testbit (port (pio_ext w)) (Z.of_nat i + 2)) <$> seq 0 6) as Hlev.
  { apply list_fmap_ext. intros i x Hx. apply lookup_seq in Hx as [-> Hx]. cbn [level driver_laws]. unfold driver_level. by rewrite Hc by lia. }
  rewrite Hlev. cbn [reading driver_laws]. unfold driver_reading. split.
  - intros i Hlt. f_equal. assert (pin_number (input_gpios i) = Z.of_nat i) as -> by (by index_cases i).
    rewrite (proj2 (port_value_bits _ (Z.of_nat i) ltac:(lia))), Hi by done. apply negb_involutive.
  - intros j Hlt. f_equal. by rewrite fault_reading, Hj.
Qed.
End driver.

(** ** The interrupts sample *)

Section interrupts.
Context {E : Type} `{!I2C E} `{!IntGpios E} `{!GpioCallbacks E} `{!ShieldBoard E}.
Context (ok : E -> Prop) `{!ConfigBus ok}.
(** The callback list of Zephyr does not touch the driver's data. *)
Context (callbacks_kept : forall cb set (w : pio_world E), ok (pio_ext w) ->
  wp (gpio_manage_callback cb set) (fun _ w' => pio w' = pio w /\ ok (pio_ext w')) w).
Implicit Types (w : pio_world E).

(** Whether a pin is reported for the flags and levels the expander gives. *)
Definition reports (d : power_io_shield_data) (intf intcap : Z) (p : shield_pin) : bool :=
  Z.testbit (power_io_shield_gpio_bits_to_zephyr_bits (pending_interrupts d intf intcap)) (pin_number p).

(** What is asked for: the flag of the pin, and its level for an edge. *)
Definition wanted (f : gpio_int_flags) (intf intcap : Z) (p : shield_pin) : bool :=
  let bit := power_io_shield_zephyr_pin_to_gpio_bit (pin_number p) in
  Z.testbit intf bit &&
  match f with
  | GPIO_INT_EDGE_TO_ACTIVE => logical_level intcap bit
  | GPIO_INT_EDGE_TO_INACTIVE => negb (logical_level intcap bit)
  | GPIO_INT_EDGE_BOTH | GPIO_INT_LEVEL_ACTIVE => true
  end.

(** The driver is free, and reports the pins as in [cfg], the others as [d0]
    does. *)
Definition configured_as (d0 : power_io_shield_data) (cfg : shield_pin -> option gpio_int_flags) w : Prop :=
  lock (pio w) = 1 /\ ok (pio_ext w) /\ forall p, interrupting p -> forall intf intcap,
    reports (pio w) intf intcap p = match cfg p with Some f => wanted f intf intcap p | None => reports d0 intf intcap p end.

Lemma configured_as_ext d0 cfg cfg' w : (forall p, interrupting p -> cfg p = cfg' p) -> configured_as d0 cfg w -> configured_as d0 cfg' w.
Proof. intros H (Hl & Hok & Hr). split; [done|]. split; [done|]. intros p Hp. rewrite <- H by done. by apply Hr. Qed.

Lemma wanted_reported f intf intcap p :
  wanted f intf intcap p =
  (Z.testbit intf (power_io_shield_zephyr_pin_to_gpio_bit (pin_number p)) &&
   reported (int_mode f) (int_trig f) (logical_level intcap (power_io_shield_zephyr_pin_to_gpio_bit (pin_number p)))).
Proof. by destruct f. Qed.

Definition with_pin (p : shield_pin) (f : gpio_int_flags) (cfg : shield_pin -> option gpio_int_flags) (q : shield_pin) : option gpio_int_flags :=
  if decide (q = p) then Some f else cfg q.

Lemma wp_interrupt d0 cfg p f w : interrupting p -> configured_as d0 cfg w ->
  wp (pin_interrupt_configure p f) (fun r w' => r = 0 /\ configured_as d0 (with_pin p f cfg) w') w.
Proof.
  intros Hp (Hl & Hok & Hr).
  destruct (interrupt_configure_run ok w (pin_number p) (int_mode f) (int_trig f) Hok (interrupting_pin p Hp) ltac:(by destruct f) Hl)
    as (w1 & Hrun & Hl1 & Hok1 & H1 & H2 & _ & H4 & H5).
  apply wp_Ret. exists 0, w1. split; [exact Hrun|]. split; [done|]. split; [done|]. split; [done|]. intros q Hq intf intcap.
  destruct (reported_after (pio w1) (pio w) (pin_number p) (int_mode f) (int_trig f) intf intcap (interrupting_pin p Hp)
    ltac:(by destruct f) H1 H2 H4 H5) as [Hrep Hoth].
  unfold with_pin. case_decide as Hqp.
  - subst q. rewrite wanted_reported. exact Hrep.
  - rewrite <- Hr by done. apply Hoth; [by apply interrupting_pin|]. intros Heq. apply Hqp.
    apply pin_number_inj; [by apply interrupting_valid|by apply interrupting_valid|done].
Qed.

Lemma configure_input_run p w : interrupting p -> pin_configure p input_flags w = Ret 0 w.
Proof. destruct p as [i|i|i]; [|done|]; intros Hi; cbn in Hi; by index_cases i. Qed.

Lemma wp_interrupt_or_1 d0 cfg p f w : interrupting p -> configured_as d0 cfg w ->
  wp (interrupt_or_1 p f) (fun r w' => r = 0 /\ configured_as d0 (with_pin p f cfg) w') w.
Proof. intros Hp Hw. apply wp_bind. eapply wp_mono; [by apply wp_interrupt|]. intros r w' [-> Hw']. by apply wp_ret. Qed.

Lemma wp_add_callback d0 cfg cb w : configured_as d0 cfg w -> wp (add_callback cb) (fun _ => configured_as d0 cfg) w.
Proof.
  intros (Hl & Hok & Hr). eapply wp_mono; [by apply callbacks_kept|]. intros ? w' [Hp Hok']. unfold configured_as. by rewrite Hp.
Qed.

(** What the README asks for: input 0 a rising edge, input 1 a falling one,
    input 2 any, input 3 a high level; and the faults. *)
Definition readme_interrupts (p : shield_pin) : option gpio_int_flags :=
  match p with
  | input_gpios 0 => Some GPIO_INT_EDGE_TO_ACTIVE
  | input_gpios 1 => Some GPIO_INT_EDGE_TO_INACTIVE
  | input_gpios 2 => Some GPIO_INT_EDGE_BOTH
  | input_gpios 3 => Some GPIO_INT_LEVEL_ACTIVE
  | fault_gpios _ => Some GPIO_INT_EDGE_TO_ACTIVE
  | _ => None
  end.

End interrupts.
