(* ===== verification/ShieldWitness.v ===== *)
(** * The shield's samples at work

    A board with the emulated expander of the repository behind the driver, and
    wires from the outputs to the inputs; one whose wires are sound and one
    that gives way when all outputs are on.  On both the laws hold, and the
    theorems on the samples are applied. *)

From stdpp Require Import base gmap list numbers strings.
From Stdlib Require Import ZArith Lia.
From S2P Require Import Prelude.
From S2P Require Import Gpio.
From S2P Require Import PowerIoShield.
From S2P Require Import PowerIoShieldEmul.
From S2P Require Import ShieldSamples.
From S2P Require Import EndOfLine.
From S2P Require Import ShieldOnDriver.

#[local] Open Scope Z_scope.

Module ShieldBoardDemo.

(** The registers, what the console will give, and what was printed. *)
Record board := Board { b_regs : list Z; b_polls : list (option Z); b_printed : list shield_message }.

#[export] Instance board_regs : EmulRegs board := {| reg := b_regs; set_reg l e := Board l (b_polls e) (b_printed e) |}.
#[export] Instance board_regs_laws : EmulRegsLaws board.
Proof. by constructor. Qed.

#[export] Instance board_gpios : IntGpios board := {|
  i2c_is_ready _ := true; int_gpio_is_ready _ _ := true; gpio_pin_configure_dt _ := ret 0;
  gpio_add_callback := ret 0; gpio_pin_interrupt_configure_dt := ret 0;
|}.
#[export] Instance board_callbacks : GpioCallbacks board := {| gpio_manage_callback _ _ := ret 0; gpio_fire_callbacks _ := ret tt |}.

(** The wires: the inputs for the pattern of the outputs. *)
Definition sound (x : Z) : Z := x.
Definition giving_way (x : Z) : Z := if x =? 63 then 62 else x.

Definition outputs_of (e : board) : list bool := (fun i => Z.testbit (reg16 REG_GPIOA e) (Z.of_nat i + 2)) <$> seq 0 6.

Definition wire (f : Z -> Z) (e : board) : board :=
  Board (<[19%nat := Z.lxor 63 (f (of_bits (outputs_of e)))]> (<[18%nat := Z.land (default 0 (b_regs e !! 18%nat)) 0xFC]> (b_regs e)))
    (b_polls e) (b_printed e).

Definition board_time (f : Z -> Z) : ShieldBoard board := {|
  shield_is_ready _ _ := true;
  k_msleep _ := modify (wire f);
  printk m := modify (fun e => Board (b_regs e) (b_polls e) (b_printed e ++ [m]));
|}.

#[export] Instance board_console : EolConsole (pio_world board) := {|
  uart_poll_in w :=
    let e := pio_ext w in
    Ret (match head (b_polls e) with Some (Some b) => (0, b) | _ => (-1, 0) end)
      (PioWorld (pio w) (Board (b_regs e) (tail (b_polls e)) (b_printed e)));
  k_yield := ret tt;
  sys_reboot := ret tt;
|}.

Definition whole (e : board) : Prop := Z.of_nat (length (reg e)) = NUM_REGS.

Section wired.
Context (f : Z -> Z).
#[local] Instance board_time_f : ShieldBoard board := board_time f.

Lemma wire_low e i : whole e -> 0 <= i < 6 -> Z.testbit (reg16 REG_GPIOA (wire f e)) (i + 2) = Z.testbit (reg16 REG_GPIOA e) (i + 2).
Proof.
  intros Hw Hi. unfold whole, NUM_REGS in Hw. unfold reg16, wire. cbn [reg board_regs b_regs] in *.
  change (Z.to_nat REG_GPIOA) with 18%nat.
  rewrite list_lookup_insert_ne, !list_lookup_insert_eq by (rewrite ?length_insert; lia). cbn [default from_option id].
  rewrite !Z.lor_spec, !Z.shiftl_spec_low, Z.land_spec, !orb_false_r by lia.
  assert (Z.testbit 252 (i + 2) = true) as -> by (enumerate i; by vm_compute). apply andb_true_r.
Qed.

Lemma wire_high e i : whole e -> 0 <= i < 8 -> Z.testbit (reg16 REG_GPIOA (wire f e)) (i + 8) = xorb (Z.testbit 63 i) (Z.testbit (f (of_bits (outputs_of e))) i).
Proof.
  intros Hw Hi. unfold whole, NUM_REGS in Hw. unfold reg16. cbn [wire reg board_regs b_regs] in *.
  change (Z.to_nat REG_GPIOA) with 18%nat. generalize (f (of_bits (outputs_of e))) as x. intros x.
  rewrite list_lookup_insert_ne, !list_lookup_insert_eq by (rewrite ?length_insert; lia). cbn [default from_option id].
  rewrite Z.lor_spec, Z.land_spec, Z.shiftl_spec by lia. replace (i + 8 - 8) with i by lia. rewrite Z.lxor_spec.
  assert (Z.testbit 252 (i + 8) = false) as -> by (enumerate i; by vm_compute). by rewrite andb_false_r.
Qed.

Lemma wire_lowest e i : whole e -> 0 <= i < 2 -> Z.testbit (reg16 REG_GPIOA (wire f e)) i = false.
Proof.
  intros Hw Hi. unfold whole, NUM_REGS in Hw. unfold reg16, wire. cbn [reg board_regs b_regs] in *.
  change (Z.to_nat REG_GPIOA) with 18%nat.
  rewrite list_lookup_insert_ne, !list_lookup_insert_eq by (rewrite ?length_insert; lia). cbn [default from_option id].
  rewrite !Z.lor_spec, !Z.shiftl_spec_low, Z.land_spec, !orb_false_r by lia.
  assert (Z.testbit 252 i = false) as -> by (enumerate i; by vm_compute). apply andb_false_r.
Qed.

#[export] Instance board_bus : ReliableBus (reg16 REG_GPIOA) whole.
Proof.
  constructor.
  - intros lo hi e rc e' Hw H. rewrite emul_write_run in H by done. by injection H as <- _.
  - intros e rc l e' Hw H. destruct (emul_read_run REG_GPIOA e) as (b0 & b1 & _ & _ & Hr); [done|done|done|]. rewrite Hr in H. by injection H as <- _ _.
  - intros k e Hw. apply wp_modify. split; [unfold whole in *; cbn; by rewrite !length_insert|]. intros i Hi. by apply wire_low.
  - intros m e Hw. by apply wp_modify.
Qed.

(** Faults never show. *)
Definition wired_input (L : list bool) (i : nat) : bool := Z.testbit (f (of_bits L)) (Z.of_nat i).

Context (Hf : forall x, 0 <= x < 64 -> 0 <= f x < 64).

#[export] Instance board_wires : Wires (reg16 REG_GPIOA) whole wired_input (fun _ _ => false).
Proof.
  constructor. intros k e Hw Hk. apply wp_modify. cbn zeta. fold (outputs_of e).
  pose proof (of_bits_range (outputs_of e)) as Hr. assert (length (outputs_of e) = 6%nat) as Hlen by done. rewrite Hlen in Hr.
  specialize (Hf _ Hr). split.
  - intros i Hi. rewrite wire_high by lia || done. unfold wired_input.
    assert (Z.testbit 63 (Z.of_nat i) = true) as -> by (by index_cases i). done.
  - intros j Hj. index_cases j.
    + change (power_io_shield_zephyr_pin_to_gpio_bit (pin_number (fault_gpios 0))) with (6 + 8). rewrite wire_high by lia || done.
      change (Z.testbit 63 6) with false. rewrite xorb_false_l. apply (Z.testbit_false _ 6); [lia|]. rewrite Z.div_small; [done|]. lia.
    + change (power_io_shield_zephyr_pin_to_gpio_bit (pin_number (fault_gpios 1))) with 0. by apply wire_lowest.
    + change (power_io_shield_zephyr_pin_to_gpio_bit (pin_number (fault_gpios 2))) with 1. by apply wire_lowest.
Qed.

#[export] Instance board_console_laws :
  EolConsoleLaws (pio_world board) 6 3 (ShieldLaws0 := driver_laws (reg16 REG_GPIOA) whole).
Proof.
  refine {| polls w := b_polls (pio_ext w); poll_law := _; yield_law := _; printk_polls := _; reboot_law := _ |}.
  - intros w [Hl Hw Hc]. split; [by constructor|]. split; [done|]. by destruct (head (b_polls (pio_ext w))) as [ [b|]|].
  - intros w Hw. by apply wp_ret.
  - intros m w [Hl Hw Hc]. split; [by constructor|done].
  - intros w Hw. by apply wp_ret.
Defined.
End wired.
Lemma sound_range x : 0 <= x < 64 -> 0 <= sound x < 64.
Proof. done. Qed.

#[local] Instance sound_time : ShieldBoard board := board_time sound.
#[local] Instance sound_laws : ShieldLaws (pio_world board) 6 6 3 := driver_laws (reg16 REG_GPIOA) whole (Hrel := board_bus sound).
#[local] Instance sound_console : EolConsoleLaws (pio_world board) 6 3 := board_console_laws sound.
#[local] Instance sound_hardware : Hardware (pio_world board) 6 3 (fun L i => Z.b2z (wired_input sound L i)) (fun _ _ => Z.b2z false) :=
  driver_hardware (reg16 REG_GPIOA) whole (Hrel := board_bus sound) (wired_input sound) (fun _ _ => false) (board_wires sound sound_range).

(** The board after the driver's start, with the bytes that the host sends. *)
Definition start (host : list (option Z)) : pio_world board :=
  match @power_io_shield_init board _ _ 1 (PioWorld power_io_shield_data_init (Board (replicate 27 0) host [])) with
  | Ret _ w => w | Fault _ => PioWorld power_io_shield_data_init (Board [] [] []) end.

Lemma start_ok host : shield_ok (start host).
Proof. constructor; [by vm_compute|by vm_compute|]. intros i Hi. enumerate i; by vm_compute. Qed.

(** A line with noise before the message. *)
Definition host_line : list (option Z) := [None; Some 10; Some 83; Some 84; None; Some 65; Some 82; Some 84; Some 10].

Lemma host_heard_witness :
  wp (wait_for_uart_msg 20 START) (fun rc w' => rc = 0 /\ shield_ok w' /\ bytes (polls w') = [10]) (start host_line) /\
  forall fuel' w0 rc w', shield_ok w0 -> wait_for_uart_msg fuel' START w0 = Ret rc w' ->
    exists c before, polls w0 = c ++ polls w' /\ bytes c = before ++ START.
Proof.
  apply (host_heard 20 (start host_line) [10] [10]); [apply start_ok|reflexivity| |vm_compute; lia].
  rewrite not_elem_of_cons. split; [done|apply not_elem_of_nil].
Defined.

Lemma start_after_s_lost_witness : wait_for_uart_msg 100 START (start (Some <$> 83 :: START)) = Fault OutOfFuel.
Proof. apply start_after_s_lost; [apply start_ok|reflexivity]. Defined.

Lemma end_of_line_verdict_witness :
  wp (eol_main 6 3 20) (fun res w' =>
    (res = Rebooted <-> forall q, 0 <= q < PATTERN_END ->
       right_answer (pins := 6) (faults := 3) (inp := fun L i => Z.b2z (wired_input sound L i)) (flt := fun _ _ => Z.b2z false) q) /\
    (res = Rebooted -> forall i, (i < 6)%nat -> level w' i = false) /\
    (forall err, res = Returned err -> err <> 0)) (start host_line).
Proof.
  apply (end_of_line_verdict 20 (start host_line) [10] [10]); [apply start_ok|reflexivity|reflexivity| |vm_compute; lia].
  rewrite not_elem_of_cons. split; [done|apply not_elem_of_nil].
Defined.

(** The two boards: the sound one passes, and so does the other. *)
Definition verdict (f : Z -> Z) : option eol_result :=
  match @eol_main (pio_world board) driver_pins (@driver_board board (board_time f)) board_console 6 3 20 (start host_line) with
  | Ret r _ => Some r | Fault _ => None end.

Example sound_passes : verdict sound = Some Rebooted.
Proof. vm_compute. reflexivity. Qed.

(** The shield that fails with all outputs on is not noticed, because that
    pattern is not driven. *)
Example giving_way_passes : verdict giving_way = Some Rebooted /\ wired_input giving_way (replicate 6 true) 0 = false.
Proof. split; vm_compute; reflexivity. Qed.

(** A stuck input is. *)
Example stuck_fails : verdict (fun x => Z.land x 62) = Some (Returned (-1)).
Proof. vm_compute. reflexivity. Qed.

Lemma toggle_counts_witness :
  wp (counter_main (toggle_setup 6 6 3) (toggle_round 6 6 3) 258)
    (fun r w' => r = 0 /\ shield_ok w' /\ forall i, (i < 6)%nat -> level w' i = Z.testbit (Z.of_nat 257 mod 256) (Z.of_nat i)) (start []).
Proof. apply (toggle_counts 258 (start [])); [apply start_ok|reflexivity]. Defined.

Lemma multiple_counts_witness :
  wp (counter_main (multiple_setup 6 6 3) (multiple_round 6 6 3) 4)
    (fun r w' => r = 0 /\ shield_ok w' /\ forall i, (i < 3)%nat ->
       let bit := Z.testbit (Z.of_nat 3 mod 256) (Z.of_nat i) in level w' i = bit /\ level w' (i + 3)%nat = bit) (start []).
Proof. apply (multiple_counts 3 4 (start [])); [reflexivity|apply start_ok|reflexivity|reflexivity]. Defined.

End ShieldBoardDemo.
