(* ===== verification/HwTestGpio.v ===== *)
(** * The GPIO test ([hardware_test/src/gpio.c], [hardware_tester/src/gpio.c])

    The SUT sets its pins one after the other; the tester waits for each to get
    active and looks that no other is.  Nothing but time synchronises the two:
    the theorems say how far apart the boards may start, and how late a sleeping
    thread may wake up, for a sound wiring to pass - and what one pin stuck low
    does to the pins after it. *)

From stdpp Require Import base list numbers strings sets.
From Stdlib Require Import ZArith Lia.
From S2P Require Import Prelude.
From S2P Require Import UdsViews.
From S2P Require Import HwTest.

#[local] Open Scope Z_scope.

(** ** The pins *)

(** [GPIO_OUTPUT_INACTIVE], [GPIO_INPUT] *)
Inductive pin_mode := OUTPUT_INACTIVE | INPUT.

(** The pins of the [gpios] array, by their index. *)
Class GpioPins (E : Type) := {
  gpio_is_ready_dt : nat -> M E bool;
  gpio_pin_configure_dt : nat -> pin_mode -> M E Z;
  gpio_pin_set_dt : nat -> Z -> M E Z;
  gpio_pin_get : nat -> M E Z;
}.

(** The delays of Kconfig, in milliseconds. *)
Record sut_config := SutConfig {
  SUT_GPIO_PRE_TEST_DELAY_MS : Z;
  GPIO_TOGGLE_DELAY_MS : Z;
  GPIO_POST_TEST_DELAY_MS : Z;
}.
Record tester_config := TesterConfig {
  GPIO_PRE_TEST_DELAY_MS : Z;
  GPIO_PIN_CHECK_DELAY_MS : Z;
  GPIO_PIN_ACTIVE_DELAY_MS : Z;
  GPIO_PIN_TIMEOUT_MS : Z;
  POST_TEST_DELAY_MS : Z;
}.

Definition sut_defaults : sut_config := SutConfig 300 10 100.
Definition tester_defaults : tester_config := TesterConfig 100 1 3 600 300.

Section programs.
Context {E : Type} `{!HwBoard E} `{!GpioPins E} (n : nat).

(** ** The SUT *)

Section sut.
Context (cfg : sut_config).

Definition gpio_ready_check : M E unit :=
  log (LOG_INF (Text "gpio ready check")) ;;
  for_each 0 n (fun i =>
    let* ready := gpio_is_ready_dt i in
    if ready : bool then ret tt else log (LOG_ERR (PinNotReady i))) ;;
  log (LOG_INF (Text "gpio ready check finished")).

Definition gpio_initialize : M E unit :=
  log (LOG_INF (Text "gpio configure")) ;;
  for_each 0 n (fun i =>
    let* r := gpio_pin_configure_dt i OUTPUT_INACTIVE in
    if r <? 0 then log (LOG_ERR (PinConfigureFailed i r)) else ret tt) ;;
  log (LOG_INF (Text "gpio configure finished")).

Definition gpio_toggle : M E unit :=
  for_each 0 n (fun i =>
    log (LOG_INF (PinOn i)) ;;
    gpio_pin_set_dt i 1 ;;
    k_msleep (GPIO_TOGGLE_DELAY_MS cfg) ;;
    gpio_pin_set_dt i 0 ;;
    k_msleep (GPIO_TOGGLE_DELAY_MS cfg)).

Definition disable_gpios : M E unit :=
  for_each 0 n (fun i => gpio_pin_set_dt i 0 ;; ret tt).

Definition sut_gpio_test : M E unit :=
  gpio_ready_check ;;
  gpio_initialize ;;
  k_msleep (SUT_GPIO_PRE_TEST_DELAY_MS cfg) ;;
  gpio_toggle ;;
  k_msleep (GPIO_POST_TEST_DELAY_MS cfg) ;;
  disable_gpios.
End sut.

(** ** The tester *)

Section tester.
Context (cfg : tester_config).

Definition configure_gpios : M E unit :=
  for_each 0 n (fun i =>
    let* r := gpio_pin_configure_dt i INPUT in
    if negb (r =? 0) then log (LOG_ERR (PinConfigureFailed i r)) else ret tt).

(** The wait for a pin; the uptime has 32 bits. *)
Fixpoint wait_active (fuel : nat) (i : nat) (start : Z) : M E unit :=
  match fuel with
  | O => fail OutOfFuel
  | S fuel =>
      let* level := gpio_pin_get i in
      if level =? 0 then
        k_msleep (GPIO_PIN_CHECK_DELAY_MS cfg) ;;
        let* t := k_uptime_get_32 in
        if GPIO_PIN_TIMEOUT_MS cfg <? u32 (t - start) then log (LOG_ERR (PinNotActive i))
        else wait_active fuel i start
      else ret tt
  end.

(** That all other pins are inactive. *)
Definition check_others (i : nat) : M E unit :=
  for_each 0 n (fun j =>
    if decide (i = j) then ret tt
    else
      let* level := gpio_pin_get j in
      if negb (level =? 0) then log (LOG_ERR (OtherPinActive j)) else ret tt).

(** A round takes a millisecond at least. *)
Definition wait_fuel : nat := Z.to_nat (GPIO_PIN_TIMEOUT_MS cfg) + 2.

Definition test_pin (i : nat) : M E unit :=
  let* start := k_uptime_get_32 in
  wait_active wait_fuel i start ;;
  k_msleep (GPIO_PIN_ACTIVE_DELAY_MS cfg) ;;
  check_others i.

Definition execute_gpio_test : M E unit := for_each 0 n test_pin.

Definition tester_gpio_test : M E unit :=
  k_msleep (GPIO_PRE_TEST_DELAY_MS cfg) ;;
  configure_gpios ;;
  execute_gpio_test ;;
  k_msleep (POST_TEST_DELAY_MS cfg).
End tester.
End programs.

(** ** The environment *)

(** What is seen of a board: the time, the levels its outputs were given, with
    the time and the pin, and its log. *)
Record gpio_view := GpioView {
  now : Z;
  driven : list (Z * nat * Z);
  logged : list entry;
}.

Definition at_time t v := GpioView t (driven v) (logged v).
Definition drive i x v := GpioView (now v) (driven v ++ [(now v, i, x)]) (logged v).
Definition with_entry m v := GpioView (now v) (driven v) (logged v ++ [m]).

(** The laws of a board whose pins work; [wave] are the levels on its wires.
    A sleeping thread wakes up at most [late] after its time. *)
Class GpioLaws (E : Type) `{!HwBoard E} `{!GpioPins E} (late : Z) (wave : nat -> Z -> Z) := {
  gpio_view_of : E -> gpio_view;
  sleep_law : forall k e, 0 <= k -> exists d e', k_msleep k e = Ret tt e' /\ 0 <= d <= late /\
    gpio_view_of e' = at_time (now (gpio_view_of e) + k + d) (gpio_view_of e);
  uptime_law : forall e, k_uptime_get_32 e = Ret (u32 (now (gpio_view_of e))) e;
  log_law : forall m e, exists e', log m e = Ret tt e' /\ gpio_view_of e' = with_entry m (gpio_view_of e);
  ready_law : forall i e, gpio_is_ready_dt i e = Ret true e;
  output_law : forall i e, exists e', gpio_pin_configure_dt i OUTPUT_INACTIVE e = Ret 0 e' /\ gpio_view_of e' = drive i 0 (gpio_view_of e);
  input_law : forall i e, exists e', gpio_pin_configure_dt i INPUT e = Ret 0 e' /\ gpio_view_of e' = gpio_view_of e;
  set_law : forall i x e, exists e', gpio_pin_set_dt i x e = Ret 0 e' /\ gpio_view_of e' = drive i x (gpio_view_of e);
  get_law : forall i e, gpio_pin_get i e = Ret (wave i (now (gpio_view_of e))) e;
}.

(** ** Rules *)

Section rules.
Context {E : Type} `{!HwBoard E} `{!GpioPins E} {late : Z} {wave : nat -> Z -> Z} `{!GpioLaws E late wave}.
Implicit Types (v : gpio_view).

Lemma g_sleep k (Q : unit -> gpio_view -> Prop) v : 0 <= k ->
  (forall d, 0 <= d <= late -> Q tt (at_time (now v + k + d) v)) -> vwp gpio_view_of (k_msleep k) Q v.
Proof. intros Hk HQ e <-. destruct (sleep_law k e Hk) as (d & e' & Hrun & Hd & Hv). exists tt, e'. rewrite Hv. auto. Qed.

Lemma g_uptime (Q : Z -> gpio_view -> Prop) v : Q (u32 (now v)) v -> vwp gpio_view_of k_uptime_get_32 Q v.
Proof. intros HQ e <-. eexists _, e. split; [apply uptime_law|done]. Qed.

Lemma g_log m (Q : unit -> gpio_view -> Prop) v : Q tt (with_entry m v) -> vwp gpio_view_of (log m) Q v.
Proof. intros HQ e <-. destruct (log_law m e) as (e' & Hrun & Hv). exists tt, e'. by rewrite Hv. Qed.

Lemma g_ready i (Q : bool -> gpio_view -> Prop) v : Q true v -> vwp gpio_view_of (gpio_is_ready_dt i) Q v.
Proof. intros HQ e <-. eexists _, e. split; [apply ready_law|done]. Qed.

Lemma g_output i (Q : Z -> gpio_view -> Prop) v : Q 0 (drive i 0 v) -> vwp gpio_view_of (gpio_pin_configure_dt i OUTPUT_INACTIVE) Q v.
Proof. intros HQ e <-. destruct (output_law i e) as (e' & Hrun & Hv). exists 0, e'. by rewrite Hv. Qed.

Lemma g_input i (Q : Z -> gpio_view -> Prop) v : Q 0 v -> vwp gpio_view_of (gpio_pin_configure_dt i INPUT) Q v.
Proof. intros HQ e <-. destruct (input_law i e) as (e' & Hrun & Hv). exists 0, e'. by rewrite Hv. Qed.

Lemma g_set i x (Q : Z -> gpio_view -> Prop) v : Q 0 (drive i x v) -> vwp gpio_view_of (gpio_pin_set_dt i x) Q v.
Proof. intros HQ e <-. destruct (set_law i x e) as (e' & Hrun & Hv). exists 0, e'. by rewrite Hv. Qed.

Lemma g_get i (Q : Z -> gpio_view -> Prop) v : Q (wave i (now v)) v -> vwp gpio_view_of (gpio_pin_get i) Q v.
Proof. intros HQ e <-. eexists _, e. split; [apply get_law|done]. Qed.
End rules.

Ltac g_step :=
  lazymatch goal with
  | |- vwp _ (ret _) _ _ => apply vwp_ret
  | |- vwp _ (bind _ _) _ _ => apply vwp_bind
  | |- vwp _ (k_msleep _) _ _ => apply g_sleep; [first [assumption | lia] | intros ?d ?Hd]
  | |- vwp _ k_uptime_get_32 _ _ => apply g_uptime
  | |- vwp _ (log _) _ _ => apply g_log
  | |- vwp _ (gpio_is_ready_dt _) _ _ => apply g_ready
  | |- vwp _ (gpio_pin_configure_dt _ OUTPUT_INACTIVE) _ _ => apply g_output
  | |- vwp _ (gpio_pin_configure_dt _ INPUT) _ _ => apply g_input
  | |- vwp _ (gpio_pin_set_dt _ _) _ _ => apply g_set
  | |- vwp _ (gpio_pin_get _) _ _ => apply g_get
  | |- vwp _ (if ?b then _ else _) _ _ => first [change b with true | change b with false]
  end; cbn beta iota.
Ltac g_run := repeat g_step.

(** ** The tester on wires with pulses *)

Section tester_theorems.
Context {E : Type} `{!HwBoard E} `{!GpioPins E} (n : nat) (cfg : tester_config) (late toggle since : Z) (wave : nat -> Z -> Z) `{!GpioLaws E late wave}.
Context (rise fall : nat -> Z).
Implicit Types (v : gpio_view).

(** The pins from the time [since] on: each is high once, from [rise] to [fall]. *)
Record pulses : Prop := Pulses {
  pulse_width : forall i, (i < n)%nat -> rise i + toggle <= fall i <= rise i + toggle + late;
  pulse_gap : forall i, (S i < n)%nat -> fall i + toggle <= rise (S i) <= fall i + toggle + late;
}.

Definition pulse_wave (i : nat) : Prop := forall t, since <= t -> wave i t = if decide (rise i <= t < fall i) then 1 else 0.

(** A pin that is never high outside of its pulse. *)
Definition low_outside (i : nat) : Prop := forall t, since <= t -> ~ rise i <= t < fall i -> wave i t = 0.

Lemma pulse_wave_low i : pulse_wave i -> low_outside i.
Proof. intros Hw t Ht Hno. rewrite Hw by done. by rewrite decide_False. Qed.

(** The delays fit the pulses. *)
Record delays_fit : Prop := DelaysFit {
  late_positive : 0 <= late;
  check_positive : 1 <= GPIO_PIN_CHECK_DELAY_MS cfg;
  check_fits : GPIO_PIN_CHECK_DELAY_MS cfg + late <= toggle;
  active_fits : 0 <= GPIO_PIN_ACTIVE_DELAY_MS cfg /\ GPIO_PIN_ACTIVE_DELAY_MS cfg + late <= toggle;
  timeout_fits : 5 * (toggle + late) <= GPIO_PIN_TIMEOUT_MS cfg < 2 ^ 30;
  other_delays : 0 <= GPIO_PRE_TEST_DELAY_MS cfg /\ 0 <= POST_TEST_DELAY_MS cfg;
}.

Lemma elapsed t start : 0 <= t - start < 2 ^ 32 -> u32 (u32 t - u32 start) = t - start.
Proof. intros Ht. unfold wrap. rewrite <- Zminus_mod. by apply Z.mod_small. Qed.

(** The wait ends in the pulse. *)
Lemma wait_active_run i start fuel : forall v, delays_fit -> pulses -> pulse_wave i -> (i < n)%nat ->
  since <= now v -> start <= now v < fall i -> fall i - start <= GPIO_PIN_TIMEOUT_MS cfg ->
  rise i - now v < Z.of_nat fuel -> (0 < fuel)%nat ->
  vwp gpio_view_of (wait_active cfg fuel i (u32 start))
    (fun _ v' => logged v' = logged v /\ driven v' = driven v /\ now v <= now v' /\ rise i <= now v' < fall i) v.
Proof.
  induction fuel as [|fuel IH]; intros v Hd Hp Hw Hi Hs Ht Hout Hf Hf0; [lia|]. cbn [wait_active]. g_run. rewrite Hw by done.
  pose proof Hd as [Hl Hc1 Hc _ Hto _]. pose proof (pulse_width Hp i Hi) as Hwid.
  case_decide as Hin; g_run; [split_and!; (done || lia)|]. cbn [now at_time].
  rewrite elapsed by lia. rewrite (proj2 (Z.ltb_ge _ _)) by lia.
  eapply vwp_mono; [apply IH; cbn; (done || lia)|]. cbn. intros _ v' (? & ? & ? & ?). split_and!; (done || lia).
Qed.

(** Apart from the pins to be looked at, all are low. *)
Lemma check_others_run i v : (forall j, (j < n)%nat -> j <> i -> wave j (now v) = 0) ->
  vwp gpio_view_of (check_others n i) (fun _ v' => v' = v) v.
Proof.
  intros Hlow. eapply vwp_mono; [apply (vwp_for_each _ (fun _ v' => v' = v)); [done|]|done]. intros j v' Hj ->.
  case_decide as Hne; g_run; [done|]. rewrite Hlow by (lia || done). by g_run.
Qed.

(** The pulses follow each other. *)
Lemma pulses_apart i j : delays_fit -> pulses -> (i < j < n)%nat -> fall i + toggle <= rise j.
Proof.
  intros Hd Hp [Hij Hj]. pose proof Hd as [Hl Hc1 Hc _ _ _]. induction j as [|j IH]; [lia|]. pose proof (pulse_gap Hp j Hj). destruct (decide (i = j)) as [->|Hne]; [lia|].
  specialize (IH ltac:(lia) ltac:(lia)). pose proof (pulse_width Hp j ltac:(lia)). lia.
Qed.

Lemma others_low i t : delays_fit -> pulses -> (forall j, (j < n)%nat -> low_outside j) -> (i < n)%nat -> since <= t ->
  rise i <= t < fall i + toggle -> forall j, (j < n)%nat -> j <> i -> wave j t = 0.
Proof.
  intros Hd Hp Hw Hi Hs Ht j Hj Hne. apply Hw; [done..|]. intros Hin.
  destruct (decide (i < j)%nat); [pose proof (pulses_apart i j Hd Hp ltac:(lia))|pose proof (pulses_apart j i Hd Hp ltac:(lia))];
    pose proof (pulse_width Hp i Hi); pose proof (pulse_width Hp j Hj); destruct Hd; lia.
Qed.

(** Where the tester is when it comes to pin [i]: the end of the pulse is no
    further than [limit]. *)
Definition before_pin (limit : Z) (l0 : list entry) (i : nat) v : Prop :=
  logged v = l0 /\ since <= now v /\ ((i < n)%nat -> now v < fall i /\ fall i - now v <= limit).

Lemma test_pin_run limit i l0 v : delays_fit -> pulses -> pulse_wave i -> (forall j, (j < n)%nat -> low_outside j) -> (i < n)%nat ->
  3 * (toggle + late) <= limit <= GPIO_PIN_TIMEOUT_MS cfg -> before_pin limit l0 i v ->
  vwp gpio_view_of (test_pin n cfg i) (fun _ v' => before_pin limit l0 (S i) v') v.
Proof.
  intros Hd Hp Hwi Hw Hi Hlim (Hl0 & Hs & Ht). specialize (Ht Hi). unfold test_pin. g_run.
  pose proof (pulse_width Hp i Hi) as Hwid. pose proof Hd as [Hl Hc1 Hc [Ha0 Ha] Hto _].
  eapply vwp_mono; [apply wait_active_run; (done || auto || unfold wait_fuel; lia)|]. cbn beta. intros ? v1 (Hlog & _ & Hle & Hin). g_run.
  eapply vwp_mono; [apply check_others_run|].
  - apply others_low; try done; cbn; lia.
  - cbn beta. intros ? ? ->. split_and!; cbn; [congruence|lia|]. intros Hi'. pose proof (pulse_gap Hp i Hi'). pose proof (pulse_width Hp (S i) Hi'). lia.
Qed.

(** The tester finds nothing wrong. *)
Lemma tester_gpio_test_run v : delays_fit -> pulses -> (forall j, (j < n)%nat -> pulse_wave j) -> since <= now v + GPIO_PRE_TEST_DELAY_MS cfg ->
  ((0 < n)%nat -> now v + GPIO_PRE_TEST_DELAY_MS cfg + late < fall 0 /\ fall 0 - (now v + GPIO_PRE_TEST_DELAY_MS cfg) <= GPIO_PIN_TIMEOUT_MS cfg) ->
  vwp gpio_view_of (tester_gpio_test n cfg) (fun _ v' => logged v' = logged v) v.
Proof.
  intros Hd Hp Hw Hs Hfirst. pose proof (other_delays Hd) as [Hpre Hpost]. pose proof (late_positive Hd) as Hl. unfold tester_gpio_test. g_run.
  eapply vwp_mono; [apply (vwp_for_each _ (fun _ v' => v' = at_time (now v + GPIO_PRE_TEST_DELAY_MS cfg + d) v)); [done|]|].
  { intros j v' _ ->. by g_run. }
  cbn beta. intros ? ? ->. g_run. unfold execute_gpio_test.
  eapply vwp_mono; [apply (vwp_for_each _ (before_pin (GPIO_PIN_TIMEOUT_MS cfg) (logged v)))|].
  - split_and!; cbn; [done|lia|]. intros Hn. specialize (Hfirst Hn). lia.
  - intros j v' Hj Hb. pose proof (timeout_fits Hd). pose proof (check_fits Hd). pose proof (check_positive Hd).
    apply test_pin_run; first [done | lia | apply Hw; lia | intros i Hi; by apply pulse_wave_low, Hw].
  - cbn beta. intros ? v' (Hlog & _). by g_run.
Qed.

(** *** A pin that stays low *)

(** The wait for a pin that does not get active any more. *)
Lemma wait_times_out i start fuel : forall v, delays_fit -> (forall t, now v <= t -> wave i t = 0) ->
  start <= now v <= start + GPIO_PIN_TIMEOUT_MS cfg -> GPIO_PIN_TIMEOUT_MS cfg - (now v - start) < Z.of_nat fuel ->
  vwp gpio_view_of (wait_active cfg fuel i (u32 start))
    (fun _ v' => logged v' = logged v ++ [LOG_ERR (PinNotActive i)] /\ start + GPIO_PIN_TIMEOUT_MS cfg < now v') v.
Proof.
  induction fuel as [|fuel IH]; intros v Hd Hw Hs Hf; [lia|]. pose proof Hd as [Hl Hc1 Hc _ Hto _].
  cbn [wait_active]. g_run. rewrite Hw by lia. g_run. cbn [now at_time]. rewrite elapsed by lia.
  destruct (Z.ltb_spec (GPIO_PIN_TIMEOUT_MS cfg) (now v + GPIO_PIN_CHECK_DELAY_MS cfg + d - start)); g_run; [by split; [|cbn; lia]|].
  eapply vwp_mono; [apply IH; cbn; [done| |lia|lia]; intros t Ht; apply Hw; lia|]. by cbn.
Qed.

(** Looking at the others only adds to the log. *)
Lemma check_others_logs i v :
  vwp gpio_view_of (check_others n i) (fun _ v' => now v' = now v /\ exists more, logged v' = logged v ++ more) v.
Proof.
  apply (vwp_for_each _ (fun _ v' => now v' = now v /\ exists more, logged v' = logged v ++ more)).
  - split; [done|]. exists []. by rewrite app_nil_r.
  - intros j v' _ (Ht & more & Hlog). case_decide; g_run; [by split; [|exists more]|]. destruct (negb _); g_run; [|by split; [|exists more]].
    split; [done|]. exists (more ++ [LOG_ERR (OtherPinActive j)]). cbn. by rewrite Hlog, (assoc_L app).
Qed.

(** Where the tester is when it comes to pin [i], some time after pin [d]: it has
    reported all of them, and the pulse of pin [i] is over. *)
Definition behind_pin (d i : nat) v : Prop :=
  since <= now v /\ ((i < n)%nat -> fall i <= now v) /\ forall j, (d <= j < i)%nat -> LOG_ERR (PinNotActive j) ∈ logged v.

Lemma test_missed_pin d i v : delays_fit -> pulses -> (d <= i)%nat -> (forall t, now v <= t -> wave i t = 0) ->
  since <= now v -> ((S i < n)%nat -> fall (S i) <= now v + GPIO_PIN_TIMEOUT_MS cfg) ->
  (forall j, (d <= j < i)%nat -> LOG_ERR (PinNotActive j) ∈ logged v) ->
  vwp gpio_view_of (test_pin n cfg i) (fun _ v' => behind_pin d (S i) v') v.
Proof.
  intros Hd Hp Hdi Hw Hs Hnext Hlog. pose proof Hd as [Hl Hc1 Hc [Ha0 _] Hto _]. unfold test_pin. g_run.
  eapply vwp_mono; [apply wait_times_out; [done|done|lia|unfold wait_fuel; lia]|]. cbn beta. intros ? v1 [Hlog1 Ht1]. g_run.
  eapply vwp_mono; [apply check_others_logs|]. cbn. intros ? v2 (Ht2 & more & Hlog2). split_and!; [lia|lia|].
  intros j Hj. rewrite Hlog2, Hlog1. destruct (decide (j = i)) as [->|Hne]; [set_solver|]. specialize (Hlog j ltac:(lia)). set_solver.
Qed.

(** One pin that stays low fails all pins after it.  The tester waits for
    the dead pin until the time-out, which is much longer than a pulse, while
    the SUT goes on; so the pulses of the next pins are over when it waits for
    them.  The log blames every pin from the dead one on. *)
Theorem dead_pin_fails_the_rest d (e : E) : delays_fit -> pulses -> (d < n)%nat ->
  (forall i, (i < n)%nat -> i <> d -> pulse_wave i) -> (forall t, since <= t -> wave d t = 0) ->
  let look := now (gpio_view_of e) + GPIO_PRE_TEST_DELAY_MS cfg in
  since <= look -> look + late < fall 0 -> fall 0 + 2 * (toggle + late) <= look + GPIO_PIN_TIMEOUT_MS cfg ->
  exists e', tester_gpio_test n cfg e = Ret tt e' /\ forall j, (d <= j < n)%nat -> LOG_ERR (PinNotActive j) ∈ logged (gpio_view_of e').
Proof.
  intros Hd Hp Hdn Hw Hdead look Hs Hlook Hwait. pose proof Hd as [Hl Hc1 Hc _ Hto [Hpre Hpost] ].
  assert (forall j, (j < n)%nat -> low_outside j) as Hlow.
  { intros j Hj. destruct (decide (j = d)) as [->|Hne]; [intros t Ht _; by apply Hdead|by apply pulse_wave_low, Hw]. }
  set (limit := GPIO_PIN_TIMEOUT_MS cfg - 2 * (toggle + late)).
  set (I := fun (i : nat) v => if decide (i <= d)%nat then before_pin limit (logged (gpio_view_of e)) i v else behind_pin d i v).
  assert (vwp gpio_view_of (tester_gpio_test n cfg) (fun _ v' => forall j, (d <= j < n)%nat -> LOG_ERR (PinNotActive j) ∈ logged v') (gpio_view_of e)) as Hrun.
  2: { destruct (Hrun e eq_refl) as ([] & e' & ? & ?). by exists e'. }
  unfold tester_gpio_test. g_run.
  eapply vwp_mono; [apply (vwp_for_each _ (fun _ v' => v' = at_time (look + d0) (gpio_view_of e))); [done|]; intros j v' _ ->; by g_run|].
  cbn beta. intros ? ? ->. g_run. unfold execute_gpio_test. eapply vwp_mono; [apply (vwp_for_each _ I)|].
  - unfold I. rewrite decide_True by lia. split_and!; cbn; [done|lia|]. intros _. unfold limit. lia.
  - intros j v Hj Hb. unfold I in *. pose proof (fun H => pulse_gap Hp j H) as Hgap. pose proof (fun H => pulse_width Hp (S j) H) as Hnext.
    destruct (decide (S j <= d)%nat) as [Hlt|Hge].
    + rewrite decide_True in Hb by lia. apply test_pin_run; first [done | unfold limit; lia | apply Hw; lia].
    + destruct (decide (j <= d)%nat) as [Hle|Hgt].
      * replace j with d in * by lia. destruct Hb as (_ & Hsv & Hb). specialize (Hb Hdn). apply test_missed_pin; try done; [|unfold limit in Hb; lia|lia].
        intros t Ht. apply Hdead. lia.
      * destruct Hb as (Hsv & Hover & Hlog). specialize (Hover ltac:(lia)). apply test_missed_pin; try done; [lia| |lia].
        intros t Ht. apply Hlow; lia.
  - unfold I. cbn beta. intros ? v' Hb. rewrite decide_False in Hb by lia. destruct Hb as (_ & _ & Hlog). g_run. intros j Hj. apply Hlog. lia.
Qed.
End tester_theorems.

(** ** The SUT drives such pulses *)

(** The drives of pulses that begin with pin [i]. *)
Fixpoint toggles (i : nat) (ps : list (Z * Z)) : list (Z * nat * Z) :=
  match ps with [] => [] | (r, f) :: ps => (r, i, 1) :: (f, i, 0) :: toggles (S i) ps end.

(** Pulses from the time [t] to [t']. *)
Inductive train (toggle late : Z) : Z -> list (Z * Z) -> Z -> Prop :=
| train_nil t : train toggle late t [] t
| train_cons t f t1 ps t' : t + toggle <= f <= t + toggle + late -> f + toggle <= t1 <= f + toggle + late ->
    train toggle late t1 ps t' -> train toggle late t ((t, f) :: ps) t'.

(** The pulse of a pin as the level of its wire. *)
Lemma level_toggles toggle late ps : 0 <= toggle -> forall t0 t1 i j t x, train toggle late t0 ps t1 ->
  level x (toggles j ps) i t =
    match (if decide (j <= i)%nat then ps !! (i - j)%nat else None) with
    | Some (r, f) => if decide (r <= t) then if decide (f <= t) then 0 else 1 else x
    | None => x
    end.
Proof.
  intros Htog. induction ps as [|[r f] ps IH]; intros t0 t1 i j t x Htr; [by case_decide|].
  inversion Htr as [|? ? t2 ? ? Hf Ht2 Hrest]; subst. cbn [toggles level fold_left]. fold (level (apply_drive i t (apply_drive i t x (r, j, 1)) (f, j, 0)) (toggles (S j) ps) i t).
  rewrite (IH t2 t1 i (S j) t _ Hrest). destruct (decide (j = i)) as [->|Hne].
  - rewrite decide_False by lia. rewrite decide_True, Nat.sub_diag by lia. cbn. repeat case_decide; lia || done.
  - cbn. rewrite !(decide_False (P := j = i /\ _)) by naive_solver. destruct (decide (S j <= i)%nat).
    + rewrite decide_True by lia. by replace (i - j)%nat with (S (i - S j)) by lia.
    + rewrite decide_False by lia. done.
Qed.

Section sut_theorems.
Context {E : Type} `{!HwBoard E} `{!GpioPins E} (n : nat) (cfg : sut_config) (late : Z) (wave : nat -> Z -> Z) `{!GpioLaws E late wave}.
Implicit Types (v : gpio_view).
#[local] Abbreviation toggle := (GPIO_TOGGLE_DELAY_MS cfg) (only parsing).

Lemma gpio_initialize_run v :
  vwp gpio_view_of (gpio_initialize n) (fun _ v' => now v' = now v /\ driven v' = driven v ++ all_set 0 0 n (now v)) v.
Proof.
  unfold gpio_initialize. g_run.
  eapply vwp_mono; [apply (vwp_for_each _ (fun i v' => now v' = now v /\ driven v' = driven v ++ all_set 0 0 i (now v)))|].
  - cbn. by rewrite app_nil_r.
  - intros i v' _ [Ht Hdr]. g_run. cbn. rewrite Ht, Hdr, all_set_S. by rewrite <- (assoc_L app).
  - cbn beta. intros ? v' [Ht Hdr]. by g_run.
Qed.

Lemma disable_gpios_run v :
  vwp gpio_view_of (disable_gpios n) (fun _ v' => driven v' = driven v ++ all_set 0 0 n (now v)) v.
Proof.
  eapply vwp_mono; [apply (vwp_for_each _ (fun i v' => now v' = now v /\ driven v' = driven v ++ all_set 0 0 i (now v)))|].
  - cbn. by rewrite app_nil_r.
  - intros i v' _ [Ht Hdr]. g_run. cbn. rewrite Ht, Hdr, all_set_S. by rewrite <- (assoc_L app).
  - by cbn beta; intros ? v' [_ Hdr].
Qed.

Lemma gpio_ready_check_run v :
  vwp gpio_view_of (gpio_ready_check n) (fun _ v' => now v' = now v /\ driven v' = driven v) v.
Proof.
  unfold gpio_ready_check. g_run.
  eapply vwp_mono; [apply (vwp_for_each _ (fun _ v' => now v' = now v /\ driven v' = driven v)); [done|]|].
  - intros i v' _ Hv'. by g_run.
  - cbn beta. intros ? v' Hv'. by g_run.
Qed.

Lemma gpio_toggle_run k : 0 <= toggle -> forall i v,
  vwp gpio_view_of (for_each i k (fun i => log (LOG_INF (PinOn i)) ;; gpio_pin_set_dt i 1 ;; k_msleep toggle ;; gpio_pin_set_dt i 0 ;; k_msleep toggle))
    (fun _ v' => exists ps, length ps = k /\ train toggle late (now v) ps (now v') /\ driven v' = driven v ++ toggles i ps) v.
Proof.
  intros Htog. induction k as [|k IH]; intros i v; cbn [for_each].
  - apply vwp_ret. exists []. rewrite app_nil_r. split_and!; [done| |done]. constructor.
  - g_run. eapply vwp_mono; [apply IH|]. cbn. intros ? v' (ps & Hlen & Htr & Hdr).
    exists ((now v, now v + toggle + d) :: ps). split_and!; [by rewrite <- Hlen| |].
    + econstructor; [| |exact Htr]; lia.
    + rewrite Hdr. cbn. by rewrite <- !(assoc_L app).
Qed.

(** All that the SUT does to its wires. *)
Lemma sut_gpio_test_run v : 0 <= toggle -> 0 <= SUT_GPIO_PRE_TEST_DELAY_MS cfg -> 0 <= GPIO_POST_TEST_DELAY_MS cfg ->
  vwp gpio_view_of (sut_gpio_test n cfg) (fun _ v' => exists ps start stop off,
    length ps = n /\ train toggle late start ps stop /\
    now v + SUT_GPIO_PRE_TEST_DELAY_MS cfg <= start <= now v + SUT_GPIO_PRE_TEST_DELAY_MS cfg + late /\ stop <= off /\
    driven v' = driven v ++ all_set 0 0 n (now v) ++ toggles 0 ps ++ all_set 0 0 n off) v.
Proof.
  intros Htog Hpre Hpost. unfold sut_gpio_test. g_run. eapply vwp_mono; [apply gpio_ready_check_run|]. cbn beta. intros ? v1 [Ht1 Hd1].
  g_run. eapply vwp_mono; [apply gpio_initialize_run|]. cbn beta. intros ? v2 [Ht2 Hd2].
  g_run. unfold gpio_toggle. eapply vwp_mono; [by apply gpio_toggle_run|]. cbn. intros ? v3 (ps & Hlen & Htr & Hd3).
  g_run. eapply vwp_mono; [apply disable_gpios_run|]. cbn. intros ? v4 Hd4.
  eexists ps, _, (now v3), _. split_and!; [done|exact Htr|lia|lia| |].
  2: { rewrite Hd4, Hd3, Hd2, Hd1, Ht1. rewrite <- !(assoc_L app). reflexivity. }
  lia.
Qed.
End sut_theorems.

(** ** Both boards *)

Lemma train_pulse toggle late : 0 <= toggle -> forall ps t0 t1 i r f, train toggle late t0 ps t1 -> ps !! i = Some (r, f) ->
  t0 <= r /\ (i = 0%nat -> r = t0) /\ r + toggle <= f <= r + toggle + late /\ f <= t1 /\
  forall r' f', ps !! S i = Some (r', f') -> f + toggle <= r' <= f + toggle + late.
Proof.
  intros Htog. induction ps as [|[r0 f0] ps IH]; intros t0 t1 i r f Htr Hi; [done|].
  inversion Htr as [|? ? t2 ? ? Hf Ht2 Hrest]; subst.
  assert (forall t ps t', train toggle late t ps t' -> t <= t') as Hmono by (induction 1; lia).
  destruct i as [|i]; cbn in Hi.
  - injection Hi as -> ->. split_and!; try lia; [specialize (Hmono _ _ _ Hrest); lia|]. intros r' f' H'. cbn in H'.
    destruct ps as [|[r1 f1] ps]; [done|]. injection H' as -> ->. inversion Hrest; subst. lia.
  - destruct (IH t2 t1 i r f Hrest Hi) as (H0 & _ & Hw & Hle & Hnext). split_and!; try lia. exact Hnext.
Qed.

(** The wires while the SUT runs its test: what was driven before does not
    matter. *)
Lemma driven_wave toggle late pull ds0 ps start stop off n s0 i r f : 0 <= toggle -> length ps = n -> train toggle late start ps stop ->
  s0 <= start -> stop <= off -> ps !! i = Some (r, f) -> forall t, s0 <= t ->
  level pull (ds0 ++ all_set 0 0 n s0 ++ toggles 0 ps ++ all_set 0 0 n off) i t = if decide (r <= t < f) then 1 else 0.
Proof.
  intros Htog Hlen Htr Hs Hoff Hi t Ht. pose proof (lookup_lt_Some _ _ _ Hi) as Hin.
  destruct (train_pulse _ _ Htog _ _ _ _ _ _ Htr Hi) as (Hr & _ & Hw & Hle & _).
  rewrite !level_app, !level_all_set, (level_toggles _ _ _ Htog _ _ _ _ _ _ Htr), Nat.sub_0_r, Hi.
  rewrite (decide_True (P := (0 <= i)%nat)) by lia. repeat case_decide; lia || done.
Qed.

(** Functions for the list. *)
Definition rise_of (ps : list (Z * Z)) (i : nat) : Z := from_option fst 0 (ps !! i).
Definition fall_of (ps : list (Z * Z)) (i : nat) : Z := from_option snd 0 (ps !! i).

Lemma train_pulses toggle late ps t0 t1 : 0 <= toggle -> train toggle late t0 ps t1 ->
  pulses (length ps) late toggle (rise_of ps) (fall_of ps) /\ ((0 < length ps)%nat -> rise_of ps 0 = t0).
Proof.
  intros Htog Htr. unfold rise_of, fall_of. split; [split|].
  - intros i Hi. destruct (lookup_lt_is_Some_2 ps i Hi) as [[r f] Hp]. rewrite Hp. by destruct (train_pulse _ _ Htog _ _ _ _ _ _ Htr Hp) as (_ & _ & ? & _).
  - intros i Hi. destruct (lookup_lt_is_Some_2 ps i ltac:(lia)) as [[r f] Hp]. destruct (lookup_lt_is_Some_2 ps (S i) Hi) as [[r' f'] Hp'].
    rewrite Hp, Hp'. destruct (train_pulse _ _ Htog _ _ _ _ _ _ Htr Hp) as (_ & _ & _ & _ & Hn). by eapply Hn.
  - intros Hn. destruct (lookup_lt_is_Some_2 ps 0 Hn) as [[r f] Hp]. rewrite Hp. destruct (train_pulse _ _ Htog _ _ _ _ _ _ Htr Hp) as (_ & Hz & _). by apply Hz.
Qed.

Section together.
Context {E1 E2 : Type} `{!HwBoard E1} `{!GpioPins E1} `{!HwBoard E2} `{!GpioPins E2} (n : nat) (scfg : sut_config) (tcfg : tester_config).
Context (late pull : Z) (wave1 wave2 : nat -> Z -> Z) `{!GpioLaws E1 late wave1} `{!GpioLaws E2 late wave2}.

(** The boards are wired pin to pin. *)
Definition wired (v : gpio_view) : Prop := forall i t, (i < n)%nat -> wave2 i t = level pull (driven v) i t.

(** How far apart the boards may start: the tester looks at the pins when they
    are driven, before the first pulse ends, and waits long enough for it. *)
Record starts_fit (sut tester : Z) : Prop := StartsFit {
  driven_before : sut <= tester + GPIO_PRE_TEST_DELAY_MS tcfg;
  looks_in_time : tester + GPIO_PRE_TEST_DELAY_MS tcfg + late < sut + SUT_GPIO_PRE_TEST_DELAY_MS scfg + GPIO_TOGGLE_DELAY_MS scfg;
  waits_enough : sut + SUT_GPIO_PRE_TEST_DELAY_MS scfg + GPIO_TOGGLE_DELAY_MS scfg + 2 * late <=
                 tester + GPIO_PRE_TEST_DELAY_MS tcfg + GPIO_PIN_TIMEOUT_MS tcfg;
}.

(** C23. The GPIO test passes on sound boards.  The two programs share no clock
    and exchange nothing but the levels of the pins; if sleeping threads wake up
    no later than the delays allow for, and the boards start no further apart
    than the delays before the test, the tester logs nothing: it sees every pin
    in its pulse and the others low then. *)
Theorem gpio_test_passes (e1 : E1) (e2 : E2) :
  delays_fit tcfg late (GPIO_TOGGLE_DELAY_MS scfg) -> 0 <= SUT_GPIO_PRE_TEST_DELAY_MS scfg -> 0 <= GPIO_POST_TEST_DELAY_MS scfg ->
  starts_fit (now (gpio_view_of e1)) (now (gpio_view_of e2)) ->
  exists e1', sut_gpio_test n scfg e1 = Ret tt e1' /\
    (wired (gpio_view_of e1') -> exists e2', tester_gpio_test n tcfg e2 = Ret tt e2' /\ logged (gpio_view_of e2') = logged (gpio_view_of e2)).
Proof.
  intros Hd Hpre Hpost [Hbefore Hlook Hwait]. pose proof Hd as [Hl Hc1 Hc _ _ _]. assert (0 <= GPIO_TOGGLE_DELAY_MS scfg) as Htog by lia.
  destruct (sut_gpio_test_run n scfg late wave1 _ Htog Hpre Hpost e1 eq_refl) as ([] & e1' & Hrun & ps & start & stop & off & Hlen & Htr & Hst & Hoff & Hdr).
  exists e1'. split; [done|]. intros Hwire. destruct (train_pulses _ _ _ _ _ Htog Htr) as [Hp H0]. rewrite Hlen in Hp, H0.
  destruct (tester_gpio_test_run n tcfg late (GPIO_TOGGLE_DELAY_MS scfg) (now (gpio_view_of e1)) wave2 (rise_of ps) (fall_of ps) (gpio_view_of e2))
    with (e := e2) as ([] & e2' & Hrun2 & Hlog); try done; [| |by exists e2'].
  - intros i Hi t Ht. destruct (lookup_lt_is_Some_2 ps i) as [[r f] Hp']; [lia|]. rewrite Hwire, Hdr by done. unfold rise_of, fall_of. rewrite Hp'.
    eapply driven_wave; (done || lia).
  - intros Hn. specialize (H0 Hn). pose proof (pulse_width _ _ _ _ _ Hp 0%nat Hn). lia.
Qed.
End together.
