(* ===== verification/HwTestLines.v ===== *)
(** * The tests of the lines ([can.c], [uart.c], [lin.c] of both programs)

    The SUT sends CAN frames and LIN bytes, and echoes what it hears on its
    UARTs; the tester logs what arrives.  As in the GPIO test only the delays
    keep the boards together: the theorems say that everything sent arrives while
    the receiver listens. *)

From stdpp Require Import base list numbers strings sets.
From Stdlib Require Import ZArith Lia.
From S2P Require Import Prelude.
From S2P Require Import Can.
From S2P Require Import UdsViews.
From S2P Require Import HwTest.

#[local] Open Scope Z_scope.

(** ** The devices *)

Class Uarts (E : Type) := {
  uart_is_ready : nat -> M E bool;
  (** one byte, or none *)
  uart_fifo_read : nat -> M E (option Z);
  uart_irq_callback_user_data_set : nat -> M E Z;
  uart_irq_rx_enable : nat -> M E unit;
  uart_irq_rx_disable : nat -> M E unit;
  uart_irq_update : nat -> M E bool;
  uart_irq_rx_ready : nat -> M E bool;
  uart_poll_out : nat -> Z -> M E unit;
}.

Class Cans (E : Type) := {
  can_is_ready : nat -> M E bool;
  can_start : nat -> M E Z;
  can_stop : nat -> M E Z;
  can_add_rx_filter : nat -> can_filter -> M E Z;
  can_remove_rx_filter : nat -> Z -> M E unit;
  can_send : nat -> can_frame -> M E Z;
}.

(** The variable of hardware_tester/src/can.c: the filter of every device. *)
Class RxFilters (E : Type) := {
  rx_filters : E -> list Z;
  set_rx_filters : list Z -> E -> E;
}.

(** ** The programs; [n] is the length of the device array *)

Section uart.
Context {E : Type} `{!HwBoard E} `{!Uarts E} (n : nat).

(** [while (uart_fifo_read (dev, &byte, 1) == 1) { ... }] *)
Fixpoint read_all (fuel : nat) (i : nat) (f : Z -> M E unit) : M E unit :=
  match fuel with
  | O => fail OutOfFuel
  | S fuel =>
      let* byte := uart_fifo_read i in
      match byte with
      | Some b => f b ;; read_all fuel i f
      | None => ret tt
      end
  end.

(** [fuel]: bytes that arrive during the loop keep it going. *)
Definition uart_interrupt_callback (fuel : nat) (i : nat) (f : Z -> M E unit) : M E unit :=
  let* updated := uart_irq_update i in
  if negb updated then ret tt
  else
    let* ready := uart_irq_rx_ready i in
    if negb ready then ret tt else read_all fuel i f.

Definition sut_uart_byte (i : nat) (byte : Z) : M E unit := log (LOG_INF (Received i byte)) ;; uart_poll_out i byte.
Definition tester_uart_byte (i : nat) (byte : Z) : M E unit := log (LOG_INF (Received i byte)).
Definition sut_uart_interrupt (fuel i : nat) : M E unit := uart_interrupt_callback fuel i (sut_uart_byte i).
Definition tester_uart_interrupt (fuel i : nat) : M E unit := uart_interrupt_callback fuel i (tester_uart_byte i).

(** uart.c of both programs, lin.c of the tester. *)
Definition setup_uarts (fuel : nat) : M E unit :=
  for_each 0 n (fun i =>
    let* ready := uart_is_ready i in
    if negb ready then log (LOG_ERR (DeviceNotReady i))
    else
      read_all fuel i (fun _ => ret tt) ;;
      let* r := uart_irq_callback_user_data_set i in
      if r <? 0 then log (LOG_ERR (DeviceError i r)) else uart_irq_rx_enable i).

Definition disable_uart_interrupts : M E unit := for_each 0 n uart_irq_rx_disable.

Definition sut_uart_test (fuel : nat) (UART_TEST_DURATION_MS : Z) : M E unit :=
  setup_uarts fuel ;;
  k_msleep UART_TEST_DURATION_MS ;;
  disable_uart_interrupts.

Definition message_bytes : list Z := [102; 114; 105; 99; 107; 108; 121].

Fixpoint send_string (UART_CHAR_DELAY_MS : Z) (i : nat) (bs : list Z) : M E unit :=
  match bs with
  | [] => ret tt
  | b :: bs => log (LOG_INF (Sending i b)) ;; uart_poll_out i b ;; k_msleep UART_CHAR_DELAY_MS ;; send_string UART_CHAR_DELAY_MS i bs
  end.

Definition send_characters (UART_CHAR_DELAY_MS : Z) : M E unit :=
  for_each 0 n (fun i => send_string UART_CHAR_DELAY_MS i message_bytes).

Definition tester_uart_test (fuel : nat) (UART_PRE_TEST_DELAY_MS UART_CHAR_DELAY_MS POST_TEST_DELAY_MS : Z) : M E unit :=
  setup_uarts fuel ;;
  k_msleep UART_PRE_TEST_DELAY_MS ;;
  send_characters UART_CHAR_DELAY_MS ;;
  k_msleep POST_TEST_DELAY_MS ;;
  disable_uart_interrupts ;;
  k_msleep POST_TEST_DELAY_MS.

(** *** LIN: the bytes of a UART *)

Definition sut_lin_setup (fuel : nat) : M E unit :=
  for_each 0 n (fun i =>
    let* ready := uart_is_ready i in
    if negb ready then log (LOG_ERR (DeviceNotReady i)) else read_all fuel i (fun _ => ret tt)).

Definition sut_lin_test (fuel : nat) (LIN_PRE_TEST_DELAY_MS LIN_MESSAGE_DELAY_MS : Z) : M E unit :=
  sut_lin_setup fuel ;;
  k_msleep LIN_PRE_TEST_DELAY_MS ;;
  for_each 0 n (fun i => send_string LIN_MESSAGE_DELAY_MS i (replicate 4 102)).

Definition tester_lin_test (fuel : nat) (CAN_TEST_DURATION_MS POST_TEST_DELAY_MS : Z) : M E unit :=
  setup_uarts fuel ;;
  k_msleep CAN_TEST_DURATION_MS ;;
  disable_uart_interrupts ;;
  k_msleep POST_TEST_DELAY_MS.
End uart.

Section can.
Context {E : Type} `{!HwBoard E} `{!Cans E} (n : nat).

Definition sut_init_can : M E unit :=
  for_each 0 n (fun i =>
    let* ready := can_is_ready i in
    if negb ready then log (LOG_ERR (DeviceNotReady i))
    else
      let* err := can_start i in
      if negb (err =? 0) then log (LOG_ERR (DeviceError i err)) else ret tt).

Definition test_frame : can_frame := CanFrame 0x65 1 0 (0x34 :: replicate 7 0).

Definition send_can_frame : M E unit :=
  for_each 0 n (fun i =>
    log (LOG_INF (FrameSent i 0x65 0x34)) ;;
    let* rc := can_send i test_frame in
    if rc <? 0 then log (LOG_ERR (DeviceError i rc)) else ret tt).

Definition send_frames (CAN_FRAME_DELAY_MS : Z) : M E unit :=
  for_each 0 10 (fun _ => send_can_frame ;; k_msleep CAN_FRAME_DELAY_MS).

Definition sut_stop_can : M E unit := for_each 0 n (fun i => can_stop i ;; ret tt).

Definition sut_can_test (CAN_PRE_TEST_DELAY_MS CAN_FRAME_DELAY_MS CAN_POST_TEST_DELAY_MS : Z) : M E unit :=
  sut_init_can ;;
  k_msleep CAN_PRE_TEST_DELAY_MS ;;
  send_frames CAN_FRAME_DELAY_MS ;;
  k_msleep CAN_POST_TEST_DELAY_MS ;;
  sut_stop_can.

Context `{!RxFilters E}.

Definition can_rx_callback (i : nat) (frame : can_frame) : M E unit :=
  let* data := of_option OutOfBounds (head (can_data frame)) in
  log (LOG_INF (FrameReceived i (can_id frame) data)).

Definition receive_frame_filter : can_filter := CanFilter 0x65 CAN_STD_ID_MASK.

Definition tester_init_can : M E unit :=
  for_each 0 n (fun i =>
    let* ready := can_is_ready i in
    if negb ready then log (LOG_ERR (DeviceNotReady i))
    else
      let* err := can_start i in
      if negb (err =? 0) then log (LOG_ERR (DeviceError i err))
      else
        let* id := can_add_rx_filter i receive_frame_filter in
        modify (fun e => set_rx_filters (<[i := id]> (rx_filters e)) e) ;;
        if id <? 0 then log (LOG_ERR (DeviceError i id)) else ret tt).

Definition tester_stop_can : M E unit :=
  for_each 0 n (fun i =>
    let* fs := gets rx_filters in
    let* id := of_option OutOfBounds (fs !! i) in
    can_remove_rx_filter i id ;;
    can_stop i ;; ret tt).

Definition tester_can_test (CAN_TEST_DURATION_MS POST_TEST_DELAY_MS : Z) : M E unit :=
  tester_init_can ;;
  k_msleep CAN_TEST_DURATION_MS ;;
  k_msleep POST_TEST_DELAY_MS ;;
  tester_stop_can.
End can.

(** ** The environment *)

(** What is seen of a board's lines: the time; for every device a history of
    whether it is switched on (its receive interrupt is enabled, its controller
    is started) and whether its callback is called (it is set, it has a filter
    for the frame of the test); what was sent, with the time and the device; and
    the static array of the program, if it has one. *)
Record line_view (A : Type) := LineView {
  now : Z;
  switched : history;
  hooked : history;
  sends : list (Z * nat * A);
  stored : list Z;
}.
Arguments LineView {A}.
Arguments now {A}.
Arguments switched {A}.
Arguments hooked {A}.
Arguments sends {A}.
Arguments stored {A}.

Section view.
Context {A : Type}.
Implicit Types (v : line_view A).

Definition at_time t v := LineView t (switched v) (hooked v) (sends v) (stored v).
Definition switch i x v := LineView (now v) (switched v ++ [(now v, i, x)]) (hooked v) (sends v) (stored v).
Definition hook i x v := LineView (now v) (switched v) (hooked v ++ [(now v, i, x)]) (sends v) (stored v).
Definition send_one i a v := LineView (now v) (switched v) (hooked v) (sends v ++ [(now v, i, a)]) (stored v).
Definition sends_more l v := LineView (now v) (switched v) (hooked v) (sends v ++ l) (stored v).
Definition store l v := LineView (now v) (switched v) (hooked v) (sends v) l.

(** A device hears what arrives at a time. *)
Definition hears v (i : nat) (t : Z) : Prop := level 0 (switched v) i t = 1 /\ level 0 (hooked v) i t = 1.
End view.

(** UARTs that work.  [handler_sends]: the interrupt handlers, which run while the
    thread sleeps, send bytes. *)
Class UartLaws (E : Type) `{!HwBoard E} `{!Uarts E} (late : Z) (handler_sends : bool) := {
  uart_view : E -> line_view Z;
  fifo : E -> nat -> list Z;
  FIFO_SIZE : nat;
  uart_log : E -> list entry;
  fifo_size_law : forall e i, (length (fifo e i) <= FIFO_SIZE)%nat;
  sleep_law : forall k e, 0 <= k -> exists d e' l, k_msleep k e = Ret tt e' /\ 0 <= d <= late /\ (handler_sends = false -> l = []) /\
    uart_view e' = at_time (now (uart_view e) + k + d) (sends_more l (uart_view e));
  log_law : forall m e, exists e', log m e = Ret tt e' /\ uart_view e' = uart_view e /\ fifo e' = fifo e /\ uart_log e' = uart_log e ++ [m];
  ready_law : forall i e, uart_is_ready i e = Ret true e;
  read_law : forall i e, exists e', uart_fifo_read i e = Ret (head (fifo e i)) e' /\ uart_view e' = uart_view e /\ uart_log e' = uart_log e /\
    fifo e' i = tail (fifo e i);
  callback_law : forall i e, exists e', uart_irq_callback_user_data_set i e = Ret 0 e' /\ uart_view e' = hook i 1 (uart_view e);
  enable_law : forall i e, exists e', uart_irq_rx_enable i e = Ret tt e' /\ uart_view e' = switch i 1 (uart_view e);
  disable_law : forall i e, exists e', uart_irq_rx_disable i e = Ret tt e' /\ uart_view e' = switch i 0 (uart_view e);
  update_law : forall i e, uart_irq_update i e = Ret true e;
  rx_ready_law : forall i e, uart_irq_rx_ready i e = Ret (negb (bool_decide (fifo e i = []))) e;
  out_law : forall i b e, exists e', uart_poll_out i b e = Ret tt e' /\ uart_view e' = send_one i b (uart_view e) /\ fifo e' = fifo e /\ uart_log e' = uart_log e;
}.

(** CAN controllers that work; whether a filter is for the frame of the test. *)
Definition for_test_frame (f : can_filter) : Z :=
  if decide (Z.land (can_id test_frame) (filter_mask f) = Z.land (filter_id f) (filter_mask f)) then 1 else 0.

Class CanLaws (E : Type) `{!HwBoard E} `{!Cans E} (late : Z) := {
  can_view : E -> line_view can_frame;
  can_sleep_law : forall k e, 0 <= k -> exists d e', k_msleep k e = Ret tt e' /\ 0 <= d <= late /\ can_view e' = at_time (now (can_view e) + k + d) (can_view e);
  can_log_law : forall m e, exists e', log m e = Ret tt e' /\ can_view e' = can_view e;
  can_ready_law : forall i e, can_is_ready i e = Ret true e;
  start_law : forall i e, exists e', can_start i e = Ret 0 e' /\ can_view e' = switch i 1 (can_view e);
  stop_law : forall i e, exists e', can_stop i e = Ret 0 e' /\ can_view e' = switch i 0 (can_view e);
  add_law : forall i f e, exists id e', can_add_rx_filter i f e = Ret id e' /\ 0 <= id /\ can_view e' = hook i (for_test_frame f) (can_view e);
  remove_law : forall i id e, exists e', can_remove_rx_filter i id e = Ret tt e' /\ can_view e' = hook i 0 (can_view e);
  can_send_law : forall i f e, exists e', can_send i f e = Ret 0 e' /\ can_view e' = send_one i f (can_view e);
}.

Class RxFilterLaws (E : Type) `{!RxFilters E} `{!HwBoard E} `{!Cans E} late `{!CanLaws E late} := {
  rx_filters_law : forall e, rx_filters e = stored (can_view e);
  set_rx_filters_law : forall l e, can_view (set_rx_filters l e) = store l (can_view e);
}.

(** ** Rules *)

(** A device that was on and has its callback from [a] on, and is switched off
    at [b]. *)
Lemma hears_between {A} (v : line_view A) sw0 hk0 n a b hk1 i t :
  switched v = sw0 ++ all_set 1 0 n a ++ all_set 0 0 n b -> hooked v = hk0 ++ all_set 1 0 n a ++ hk1 ->
  (forall first, level first hk1 i t = first) -> (i < n)%nat -> a <= t < b -> hears v i t.
Proof.
  intros Hs Hh Hk1 Hi Ht. unfold hears. rewrite Hs, Hh, !level_app, Hk1, !level_all_set, decide_False, decide_True by lia. by rewrite decide_True by lia.
Qed.

Section uart_rules.
Context {E : Type} `{!HwBoard E} `{!Uarts E} {late : Z} {hs : bool} `{!UartLaws E late hs}.
Implicit Types (v : line_view Z).

Lemma u_sleep k (Q : unit -> line_view Z -> Prop) v : 0 <= k ->
  (forall d l, 0 <= d <= late -> (hs = false -> l = []) -> Q tt (at_time (now v + k + d) (sends_more l v))) -> vwp uart_view (k_msleep k) Q v.
Proof. intros Hk HQ e <-. destruct (sleep_law k e Hk) as (d & e' & l & Hrun & Hd & Hl & Hv). exists tt, e'. rewrite Hv. auto. Qed.

Lemma u_log m (Q : unit -> line_view Z -> Prop) v : Q tt v -> vwp uart_view (log m) Q v.
Proof. intros HQ e <-. destruct (log_law m e) as (e' & Hrun & Hv & _). exists tt, e'. by rewrite Hv. Qed.

Lemma u_ready i (Q : bool -> line_view Z -> Prop) v : Q true v -> vwp uart_view (uart_is_ready i) Q v.
Proof. intros HQ e <-. eexists _, e. split; [apply ready_law|done]. Qed.

Lemma u_callback i (Q : Z -> line_view Z -> Prop) v : Q 0 (hook i 1 v) -> vwp uart_view (uart_irq_callback_user_data_set i) Q v.
Proof. intros HQ e <-. destruct (callback_law i e) as (e' & Hrun & Hv). exists 0, e'. by rewrite Hv. Qed.

Lemma u_enable i (Q : unit -> line_view Z -> Prop) v : Q tt (switch i 1 v) -> vwp uart_view (uart_irq_rx_enable i) Q v.
Proof. intros HQ e <-. destruct (enable_law i e) as (e' & Hrun & Hv). exists tt, e'. by rewrite Hv. Qed.

Lemma u_disable i (Q : unit -> line_view Z -> Prop) v : Q tt (switch i 0 v) -> vwp uart_view (uart_irq_rx_disable i) Q v.
Proof. intros HQ e <-. destruct (disable_law i e) as (e' & Hrun & Hv). exists tt, e'. by rewrite Hv. Qed.

Lemma u_out i b (Q : unit -> line_view Z -> Prop) v : Q tt (send_one i b v) -> vwp uart_view (uart_poll_out i b) Q v.
Proof. intros HQ e <-. destruct (out_law i b e) as (e' & Hrun & Hv & _). exists tt, e'. by rewrite Hv. Qed.

(** Reading all bytes without looking at them. *)
Lemma u_read_all i fuel : (FIFO_SIZE < fuel)%nat -> forall (Q : unit -> line_view Z -> Prop) v, Q tt v ->
  vwp uart_view (read_all fuel i (fun _ => ret tt)) Q v.
Proof.
  intros Hf Q v HQ e He. assert (exists e', read_all fuel i (fun _ => ret tt) e = Ret tt e' /\ uart_view e' = v) as (e' & Hrun & Hv);
    [|exists tt, e'; by rewrite Hv].
  pose proof (fifo_size_law e i) as Hlen. assert (length (fifo e i) < fuel)%nat as Hlt by lia. clear Hlen Hf HQ Q.
  revert e He Hlt. induction fuel as [|fuel IH]; intros e He Hlt; [lia|]. cbn [read_all].
  destruct (read_law i e) as (e1 & Hrun & Hv & _ & Hq). rewrite (bind_step _ _ _ _ _ Hrun).
  destruct (fifo e i) as [|b q] eqn:Hfifo; cbn in *; [exists e1; by rewrite Hv|]. apply IH; [congruence|]. rewrite Hq. lia.
Qed.
End uart_rules.

Ltac u_step :=
  lazymatch goal with
  | |- vwp _ (ret _) _ _ => apply vwp_ret
  | |- vwp _ (bind _ _) _ _ => apply vwp_bind
  | |- vwp _ (k_msleep _) _ _ => apply u_sleep; [first [assumption | lia] | intros ?d ?l ?Hd ?Hl]
  | |- vwp _ (log _) _ _ => apply u_log
  | |- vwp _ (uart_is_ready _) _ _ => apply u_ready
  | |- vwp _ (uart_irq_callback_user_data_set _) _ _ => apply u_callback
  | |- vwp _ (uart_irq_rx_enable _) _ _ => apply u_enable
  | |- vwp _ (uart_irq_rx_disable _) _ _ => apply u_disable
  | |- vwp _ (uart_poll_out _ _) _ _ => apply u_out
  | |- vwp _ (read_all _ _ (fun _ => ret tt)) _ _ => apply u_read_all; [assumption|]
  | |- vwp _ (if ?b then _ else _) _ _ => first [change b with true | change b with false]
  end; cbn beta iota.
Ltac u_run := repeat u_step.

(** ** UART and LIN *)

(** Sent in an interval, and what without the times. *)
Definition sent_within {A} (a b : Z) (l : list (Z * nat * A)) : Prop := Forall (fun x => a <= x.1.1 <= b) l.
Definition untimed {A} (l : list (Z * nat * A)) : list (nat * A) := (fun x => (x.1.2, x.2)) <$> l.

Lemma sent_within_weaken {A} a b a' b' (l : list (Z * nat * A)) : sent_within a b l -> a' <= a -> b <= b' -> sent_within a' b' l.
Proof. intros Hl Ha Hb. eapply Forall_impl; [exact Hl|]. cbn. lia. Qed.

(** The bytes of a message on every device. *)
Definition on_every (n : nat) (bs : list Z) : list (nat * Z) := concat ((fun i => pair i <$> bs) <$> seq 0 n).

Section uart_theorems.
Context {E : Type} `{!HwBoard E} `{!Uarts E} (n : nat) {late : Z} {hs : bool} `{!UartLaws E late hs} (fuel : nat) (enough : (FIFO_SIZE < fuel)%nat).
Implicit Types (v : line_view Z).

Lemma setup_uarts_run v :
  vwp uart_view (setup_uarts n fuel) (fun _ v' => now v' = now v /\ sends v' = sends v /\
    switched v' = switched v ++ all_set 1 0 n (now v) /\ hooked v' = hooked v ++ all_set 1 0 n (now v)) v.
Proof.
  apply (vwp_for_each _ (fun i v' => now v' = now v /\ sends v' = sends v /\
    switched v' = switched v ++ all_set 1 0 i (now v) /\ hooked v' = hooked v ++ all_set 1 0 i (now v))).
  - by rewrite !app_nil_r.
  - intros i v' _ (Ht & Hs & Hsw & Hh). u_run. cbn. rewrite Ht, Hs, Hsw, Hh, !all_set_S. by rewrite <- !(assoc_L app).
Qed.

Lemma disable_uarts_run v :
  vwp uart_view (disable_uart_interrupts n) (fun _ v' => now v' = now v /\ sends v' = sends v /\ hooked v' = hooked v /\
    switched v' = switched v ++ all_set 0 0 n (now v)) v.
Proof.
  apply (vwp_for_each _ (fun i v' => now v' = now v /\ sends v' = sends v /\ hooked v' = hooked v /\ switched v' = switched v ++ all_set 0 0 i (now v))).
  - by rewrite !app_nil_r.
  - intros i v' _ (Ht & Hs & Hh & Hsw). u_run. cbn. rewrite Ht, Hs, Hsw, Hh, all_set_S. by rewrite <- !(assoc_L app).
Qed.

Definition same_lines v v' : Prop := switched v' = switched v /\ hooked v' = hooked v.

(** What a loop has sent since [v]. *)
Definition sent_since v (what : list (nat * Z)) (delay : Z) (steps : nat) v' : Prop :=
  same_lines v v' /\ now v <= now v' <= now v + Z.of_nat steps * (delay + late) /\
  exists out, sends v' = sends v ++ out /\ untimed out = what /\ sent_within (now v) (now v' - delay) out.

Lemma sent_since_trans v w1 w2 delay k1 k2 v1 v2 : sent_since v w1 delay k1 v1 -> sent_since v1 w2 delay k2 v2 -> sent_since v (w1 ++ w2) delay (k1 + k2) v2.
Proof.
  intros ([Hs1 Hh1] & Ht1 & o1 & Ho1 & Hu1 & Hw1) ([Hs2 Hh2] & Ht2 & o2 & Ho2 & Hu2 & Hw2). split; [split; congruence|]. split; [nia|].
  exists (o1 ++ o2). split_and!.
  - by rewrite Ho2, Ho1, (assoc_L app).
  - unfold untimed in *. by rewrite fmap_app, Hu1, Hu2.
  - apply Forall_app. split; eapply sent_within_weaken; [exact Hw1| | |exact Hw2| |]; lia.
Qed.

Lemma send_string_run delay i bs : hs = false -> 0 <= delay -> forall v,
  vwp uart_view (send_string delay i bs) (fun _ => sent_since v (pair i <$> bs) delay (length bs)) v.
Proof.
  intros Hhs Hdelay. induction bs as [|b bs IH]; intros v; cbn [send_string].
  - apply vwp_ret. split; [done|]. split; [cbn; lia|]. exists []. rewrite app_nil_r. split_and!; [done..|]. constructor.
  - u_run. rewrite (Hl Hhs). eapply vwp_mono; [apply IH|]. intros ? v'. apply (sent_since_trans v [(i, b)] _ _ 1).
    split; [done|]. split; [cbn; lia|]. exists [(now v, i, b)]. split_and!; [by cbn; rewrite app_nil_r|done|]. constructor; [cbn; lia|constructor].
Qed.

(** The same string on every device. *)
Lemma send_messages_run delay bs k : hs = false -> 0 <= delay -> forall i v,
  vwp uart_view (for_each i k (fun i => send_string delay i bs))
    (fun _ => sent_since v (concat ((fun i => pair i <$> bs) <$> seq i k)) delay (k * length bs)) v.
Proof.
  intros Hhs Hdelay. induction k as [|k IH]; intros i v; cbn [for_each].
  - apply vwp_ret. split; [done|]. split; [cbn; lia|]. exists []. rewrite app_nil_r. split_and!; [done..|]. constructor.
  - apply vwp_bind. eapply vwp_mono; [by apply send_string_run|]. cbn beta. intros ? v1 H1.
    eapply vwp_mono; [apply IH|]. cbn beta. intros ? v2. by apply sent_since_trans.
Qed.

(** The tester: what it sends, and that it hears while it sends and for
    [POST_TEST_DELAY_MS] after. *)
Lemma tester_uart_test_run pre char post v : hs = false -> 0 <= pre -> 0 <= char -> 0 <= post ->
  vwp uart_view (tester_uart_test n fuel pre char post) (fun _ v' => exists out stop, sends v' = sends v ++ out /\
    untimed out = on_every n message_bytes /\
    sent_within (now v + pre) (Z.min (stop - char - post) (now v + pre + late + 7 * Z.of_nat n * (char + late))) out /\
    forall i t, (i < n)%nat -> now v <= t < stop -> hears v' i t) v.
Proof.
  intros Hhs Hpre Hchar Hpost. unfold tester_uart_test. u_run. eapply vwp_mono; [apply setup_uarts_run|]. cbn beta. intros ? v1 (Ht1 & Hs1 & Hsw1 & Hh1).
  u_run. rewrite (Hl Hhs). unfold send_characters. eapply vwp_mono; [by apply send_messages_run|]. cbn beta.
  intros ? v2 ([Hsw2 Hh2] & Ht2 & out & Hout & Hun & Hin). u_run. rewrite (Hl0 Hhs).
  eapply vwp_mono; [apply disable_uarts_run|]. cbn beta. intros ? v3 (Ht3 & Hs3 & Hh3 & Hsw3). u_run. rewrite (Hl1 Hhs).
  cbn in *. exists out, (now v2 + post + d0). split_and!.
  - rewrite app_nil_r, Hs3, Hout, app_nil_r, Hs1. cbn. by rewrite !app_nil_r.
  - done.
  - eapply sent_within_weaken; [exact Hin|lia|]. rewrite Nat2Z.inj_mul in Ht2. cbn in Ht2. lia.
  - intros i t Hi Ht. eapply (hears_between _ _ _ n _ _ []); [cbn; rewrite Hsw3, Hsw2; cbn; rewrite Hsw1, <- (assoc_L app); reflexivity| |done|done|lia].
    cbn. rewrite Hh3, Hh2. cbn. by rewrite Hh1, app_nil_r.
Qed.

(** The SUT hears for the time of its test. *)
Lemma sut_uart_test_run duration v : 0 <= duration ->
  vwp uart_view (sut_uart_test n fuel duration) (fun _ v' => forall i t, (i < n)%nat -> now v <= t < now v + duration -> hears v' i t) v.
Proof.
  intros Hdur. unfold sut_uart_test. u_run. eapply vwp_mono; [apply setup_uarts_run|]. cbn beta. intros ? v1 (Ht1 & Hs1 & Hsw1 & Hh1).
  u_run. eapply vwp_mono; [apply disable_uarts_run|]. cbn beta. intros ? v2 (Ht2 & Hs2 & Hh2 & Hsw2) i t Hi Ht. cbn in *.
  eapply (hears_between _ _ _ n _ _ []); [rewrite Hsw2, Hsw1, <- (assoc_L app); reflexivity|by rewrite Hh2, Hh1, app_nil_r|done|done|lia].
Qed.

(** LIN: the tester hears for the time of its test, the SUT sends. *)
Lemma tester_lin_test_run duration post v : 0 <= duration -> 0 <= post ->
  vwp uart_view (tester_lin_test n fuel duration post) (fun _ v' => forall i t, (i < n)%nat -> now v <= t < now v + duration -> hears v' i t) v.
Proof.
  intros Hdur Hpost. unfold tester_lin_test. u_run. eapply vwp_mono; [apply setup_uarts_run|]. cbn beta. intros ? v1 (Ht1 & Hs1 & Hsw1 & Hh1).
  u_run. eapply vwp_mono; [apply disable_uarts_run|]. cbn beta. intros ? v2 (Ht2 & Hs2 & Hh2 & Hsw2). u_run. intros i t Hi Ht. cbn in *.
  eapply (hears_between _ _ _ n _ _ []); [cbn; rewrite Hsw2, Hsw1, <- (assoc_L app); reflexivity|by cbn; rewrite Hh2, Hh1, app_nil_r|done|done|lia].
Qed.

Lemma sut_lin_test_run pre delay v : hs = false -> 0 <= pre -> 0 <= delay ->
  vwp uart_view (sut_lin_test n fuel pre delay) (fun _ v' => exists out, sends v' = sends v ++ out /\ untimed out = on_every n (replicate 4 102) /\
    sent_within (now v + pre) (now v + pre + late + 4 * Z.of_nat n * (delay + late)) out) v.
Proof.
  intros Hhs Hpre Hdelay. unfold sut_lin_test. u_run.
  eapply vwp_mono; [apply (vwp_for_each _ (fun _ v' => v' = v)); [done|]|].
  { intros j v' _ ->. by u_run. }
  cbn beta. intros ? ? ->. u_run. rewrite (Hl Hhs). eapply vwp_mono; [by apply send_messages_run|]. cbn beta.
  intros ? v2 (_ & Ht2 & out & Hout & Hun & Hin). cbn in *. exists out. split_and!; [by rewrite Hout, app_nil_r|done|].
  eapply sent_within_weaken; [exact Hin|lia|]. rewrite Nat2Z.inj_mul in Ht2. cbn in Ht2. lia.
Qed.

(** The interrupt handler takes every byte from the FIFO, logs it, and on the SUT
    sends it back. *)
Lemma read_all_run i (f : Z -> M E unit) (reply : Z -> line_view Z -> line_view Z) :
  (forall b e, exists e', f b e = Ret tt e' /\ uart_view e' = reply b (uart_view e) /\ fifo e' = fifo e /\ uart_log e' = uart_log e ++ [LOG_INF (Received i b)]) ->
  forall m e, (length (fifo e i) < m)%nat -> exists e', read_all m i f e = Ret tt e' /\
    uart_view e' = fold_left (fun v b => reply b v) (fifo e i) (uart_view e) /\
    uart_log e' = uart_log e ++ ((fun b => LOG_INF (Received i b)) <$> fifo e i) /\ fifo e' i = [].
Proof.
  intros Hf. induction m as [|m IH]; intros e Hlt; [lia|]. cbn [read_all].
  destruct (read_law i e) as (e1 & Hrun & Hv & Hlog & Hq). rewrite (bind_step _ _ _ _ _ Hrun).
  destruct (fifo e i) as [|b q] eqn:Hfifo; cbn in *; [exists e1; by rewrite Hlog, app_nil_r|].
  destruct (Hf b e1) as (e2 & Hrun2 & Hv2 & Hq2 & Hlog2). rewrite (bind_step _ _ _ _ _ Hrun2).
  destruct (IH e2) as (e3 & Hrun3 & Hv3 & Hlog3 & Hq3); [rewrite Hq2, Hq; lia|]. exists e3.
  rewrite Hrun3, Hv3, Hlog3, Hlog2, Hlog, Hv2, Hv, Hq2, Hq. split_and!; [done|done| |done]. by rewrite <- (assoc_L app).
Qed.

Lemma interrupt_run i f reply :
  (forall b e, exists e', f b e = Ret tt e' /\ uart_view e' = reply b (uart_view e) /\ fifo e' = fifo e /\ uart_log e' = uart_log e ++ [LOG_INF (Received i b)]) ->
  forall e, exists e', uart_interrupt_callback fuel i f e = Ret tt e' /\
    uart_view e' = fold_left (fun v b => reply b v) (fifo e i) (uart_view e) /\
    uart_log e' = uart_log e ++ ((fun b => LOG_INF (Received i b)) <$> fifo e i) /\ fifo e' i = [].
Proof.
  intros Hf e. pose proof (fifo_size_law e i) as Hlen. unfold uart_interrupt_callback, bind. rewrite update_law. cbn. rewrite rx_ready_law.
  case_bool_decide as Hempty; cbn; [|apply read_all_run; [done|lia] ].
  exists e. rewrite Hempty. by rewrite app_nil_r.
Qed.

Lemma fold_send i bs : forall v, fold_left (fun v b => send_one i b v) bs v = sends_more ((fun b => (now v, i, b)) <$> bs) v.
Proof.
  induction bs as [|b bs IH]; intros v; cbn; [by destruct v; unfold sends_more; cbn; rewrite app_nil_r|].
  rewrite IH. unfold sends_more. cbn. by rewrite <- (assoc_L app).
Qed.

(** The interrupt handler of the SUT echoes every byte it finds, at once and
    in order, and logs it; the FIFO is empty then. *)
Theorem uart_handler_echoes i (e : E) : exists e', sut_uart_interrupt fuel i e = Ret tt e' /\
  sends (uart_view e') = sends (uart_view e) ++ ((fun b => (now (uart_view e), i, b)) <$> fifo e i) /\
  uart_log e' = uart_log e ++ ((fun b => LOG_INF (Received i b)) <$> fifo e i) /\ fifo e' i = [].
Proof.
  destruct (interrupt_run i (sut_uart_byte i) (send_one i)) with (e := e) as (e' & Hrun & Hv & Hlog & Hq).
  - intros b e0. destruct (log_law (LOG_INF (Received i b)) e0) as (e1 & H1 & Hv1 & Hq1 & Hl1).
    destruct (out_law i b e1) as (e2 & H2 & Hv2 & Hq2 & Hl2). exists e2. unfold sut_uart_byte. rewrite (bind_step _ _ _ _ _ H1), H2.
    split_and!; [done|congruence..].
  - exists e'. by rewrite Hv, fold_send.
Qed.
End uart_theorems.

(** ** CAN *)

Section can_theorems.
Context {E : Type} `{!HwBoard E} `{!Cans E} (n : nat) {late : Z} `{!CanLaws E late}.
Implicit Types (v : line_view can_frame).

Lemma c_sleep k (Q : unit -> line_view can_frame -> Prop) v : 0 <= k ->
  (forall d, 0 <= d <= late -> Q tt (at_time (now v + k + d) v)) -> vwp can_view (k_msleep k) Q v.
Proof. intros Hk HQ e <-. destruct (can_sleep_law k e Hk) as (d & e' & Hrun & Hd & Hv). exists tt, e'. rewrite Hv. auto. Qed.

Lemma c_log m (Q : unit -> line_view can_frame -> Prop) v : Q tt v -> vwp can_view (log m) Q v.
Proof. intros HQ e <-. destruct (can_log_law m e) as (e' & Hrun & Hv). exists tt, e'. by rewrite Hv. Qed.

Lemma c_ready i (Q : bool -> line_view can_frame -> Prop) v : Q true v -> vwp can_view (can_is_ready i) Q v.
Proof. intros HQ e <-. eexists _, e. split; [apply can_ready_law|done]. Qed.

Lemma c_start i (Q : Z -> line_view can_frame -> Prop) v : Q 0 (switch i 1 v) -> vwp can_view (can_start i) Q v.
Proof. intros HQ e <-. destruct (start_law i e) as (e' & Hrun & Hv). exists 0, e'. by rewrite Hv. Qed.

Lemma c_stop i (Q : Z -> line_view can_frame -> Prop) v : Q 0 (switch i 0 v) -> vwp can_view (can_stop i) Q v.
Proof. intros HQ e <-. destruct (stop_law i e) as (e' & Hrun & Hv). exists 0, e'. by rewrite Hv. Qed.

Lemma c_add i f (Q : Z -> line_view can_frame -> Prop) v : (forall id, 0 <= id -> Q id (hook i (for_test_frame f) v)) -> vwp can_view (can_add_rx_filter i f) Q v.
Proof. intros HQ e <-. destruct (add_law i f e) as (id & e' & Hrun & Hid & Hv). exists id, e'. rewrite Hv. auto. Qed.

Lemma c_remove i id (Q : unit -> line_view can_frame -> Prop) v : Q tt (hook i 0 v) -> vwp can_view (can_remove_rx_filter i id) Q v.
Proof. intros HQ e <-. destruct (remove_law i id e) as (e' & Hrun & Hv). exists tt, e'. by rewrite Hv. Qed.

Lemma c_send i f (Q : Z -> line_view can_frame -> Prop) v : Q 0 (send_one i f v) -> vwp can_view (can_send i f) Q v.
Proof. intros HQ e <-. destruct (can_send_law i f e) as (e' & Hrun & Hv). exists 0, e'. by rewrite Hv. Qed.
End can_theorems.

Ltac c_step :=
  lazymatch goal with
  | |- vwp _ (ret _) _ _ => apply vwp_ret
  | |- vwp _ (bind _ _) _ _ => apply vwp_bind
  | |- vwp _ (k_msleep _) _ _ => apply c_sleep; [first [assumption | lia] | intros ?d ?Hd]
  | |- vwp _ (log _) _ _ => apply c_log
  | |- vwp _ (can_is_ready _) _ _ => apply c_ready
  | |- vwp _ (can_start _) _ _ => apply c_start
  | |- vwp _ (can_stop _) _ _ => apply c_stop
  | |- vwp _ (can_add_rx_filter _ _) _ _ => apply c_add; intros ?id ?Hid
  | |- vwp _ (can_remove_rx_filter _ _) _ _ => apply c_remove
  | |- vwp _ (can_send _ _) _ _ => apply c_send
  | |- vwp _ (if ?b then _ else _) _ _ => first [change b with true | change b with false]
  end; cbn beta iota.
Ltac c_run := repeat c_step.

(** The frames of one round, and of the test. *)
Definition round_frames (n : nat) : list (nat * can_frame) := (fun i => (i, test_frame)) <$> seq 0 n.
Definition all_frames (n : nat) : list (nat * can_frame) := concat (replicate 10 (round_frames n)).

Section can_tests.
Context {E : Type} `{!HwBoard E} `{!Cans E} (n : nat) {late : Z} `{!CanLaws E late}.
Implicit Types (v : line_view can_frame).

(** Since [v], frames were sent within an interval. *)
Definition frames_since v (what : list (nat * can_frame)) v' : Prop :=
  exists out, sends v' = sends v ++ out /\ untimed out = what /\ sent_within (now v) (now v') out.

Lemma frames_since_trans v v1 v2 w1 w2 : now v <= now v1 <= now v2 -> frames_since v w1 v1 -> frames_since v1 w2 v2 -> frames_since v (w1 ++ w2) v2.
Proof.
  intros Ht (o1 & Ho1 & Hu1 & Hw1) (o2 & Ho2 & Hu2 & Hw2). exists (o1 ++ o2). split_and!.
  - by rewrite Ho2, Ho1, (assoc_L app).
  - unfold untimed in *. by rewrite fmap_app, Hu1, Hu2.
  - apply Forall_app. split; eapply sent_within_weaken; [exact Hw1| | |exact Hw2| |]; lia.
Qed.

Lemma send_can_frame_run v : vwp can_view (send_can_frame n) (fun _ v' => now v' = now v /\ frames_since v (round_frames n) v') v.
Proof.
  apply (vwp_for_each _ (fun i v' => now v' = now v /\ frames_since v ((fun i => (i, test_frame)) <$> seq 0 i) v')).
  - split; [done|]. exists []. rewrite app_nil_r. split_and!; [done..|]. constructor.
  - intros i v' _ [Ht Hs]. c_run. split; [done|]. rewrite seq_S, fmap_app. eapply (frames_since_trans v v'); [cbn; lia|done|].
    exists [(now v', i, test_frame)]. split_and!; [done..|]. constructor; [cbn; lia|constructor].
Qed.

Lemma send_frames_run delay v : 0 <= delay ->
  vwp can_view (send_frames n delay) (fun _ v' => now v <= now v' <= now v + 10 * (delay + late) /\ frames_since v (all_frames n) v') v.
Proof.
  intros Hdelay. apply (vwp_for_each _ (fun i v' => now v <= now v' <= now v + Z.of_nat i * (delay + late) /\ frames_since v (concat (replicate i (round_frames n))) v')).
  - split; [cbn; lia|]. exists []. rewrite app_nil_r. split_and!; [done..|]. constructor.
  - intros i v' _ [Ht Hs]. c_run. eapply vwp_mono; [apply send_can_frame_run|]. cbn beta. intros ? v1 [Ht1 Hs1]. c_run.
    split; [cbn; lia|]. rewrite replicate_S_end, concat_app. cbn. rewrite app_nil_r. eapply (frames_since_trans v v'); [cbn; lia|done|].
    destruct Hs1 as (out & Ho & Hu & Hw). exists out. split_and!; [done..|]. eapply sent_within_weaken; [exact Hw| |]; cbn; lia.
Qed.

Lemma sut_can_test_run pre delay post v : 0 <= pre -> 0 <= delay -> 0 <= post ->
  vwp can_view (sut_can_test n pre delay post) (fun _ v' => exists out, sends v' = sends v ++ out /\ untimed out = all_frames n /\
    sent_within (now v + pre) (now v + pre + late + 10 * (delay + late)) out) v.
Proof.
  intros Hpre Hdelay Hpost. unfold sut_can_test. c_run.
  eapply vwp_mono; [apply (vwp_for_each _ (fun _ v' => now v' = now v /\ sends v' = sends v)); [done|]|].
  { intros j v' _ Hv'. by c_run. }
  cbn beta. intros ? v1 [Ht1 Hs1]. c_run. eapply vwp_mono; [by apply send_frames_run|]. cbn beta. intros ? v2 (Ht2 & out & Hout & Hun & Hin). c_run.
  eapply vwp_mono; [apply (vwp_for_each _ (fun _ v' => sends v' = sends v2)); [done|]|].
  { intros j v' _ Hv'. by c_run. }
  cbn in *. intros ? v3 Hs3. exists out. rewrite Hs3, Hout, Hs1. split_and!; [done..|]. eapply sent_within_weaken; [exact Hin|lia|lia].
Qed.

Context `{!RxFilters E} `{!RxFilterLaws E late}.

Lemma c_filters (Q : list Z -> line_view can_frame -> Prop) v : Q (stored v) v -> vwp can_view (gets rx_filters) Q v.
Proof. apply vwp_gets, rx_filters_law. Qed.

Lemma c_store i x (Q : unit -> line_view can_frame -> Prop) v : Q tt (store (<[i := x]> (stored v)) v) ->
  vwp can_view (modify (fun e => set_rx_filters (<[i := x]> (rx_filters e)) e)) Q v.
Proof. intros HQ. apply (vwp_modify _ _ (fun v => store (<[i := x]> (stored v)) v)); [|done]. intros e. by rewrite set_rx_filters_law, rx_filters_law. Qed.

Lemma tester_can_test_run duration post v : 0 <= duration -> 0 <= post -> length (stored v) = n ->
  vwp can_view (tester_can_test n duration post) (fun _ v' => forall i t, (i < n)%nat -> now v <= t < now v + duration + post -> hears v' i t) v.
Proof.
  intros Hdur Hpost Hlen. unfold tester_can_test. c_run.
  eapply vwp_mono; [apply (vwp_for_each _ (fun i v' => now v' = now v /\ length (stored v') = n /\
    switched v' = switched v ++ all_set 1 0 i (now v) /\ hooked v' = hooked v ++ all_set 1 0 i (now v)))|].
  { by rewrite !app_nil_r. }
  { intros i v' _ (Ht & Hl & Hsw & Hh). c_run. apply c_store. c_run. rewrite (proj2 (Z.ltb_ge _ _)) by done. c_run.
    cbn. rewrite length_insert, Ht, Hsw, Hh, !all_set_S. by rewrite <- !(assoc_L app). }
  cbn beta. intros ? v1 (Ht1 & Hl1 & Hsw1 & Hh1). c_run.
  eapply vwp_mono; [apply (vwp_for_each _ (fun i v' => now v' = now v1 + duration + d + post + d0 /\ length (stored v') = n /\
    switched v' = switched v1 ++ all_set 0 0 i (now v1 + duration + d + post + d0) /\
    hooked v' = hooked v1 ++ all_set 0 0 i (now v1 + duration + d + post + d0)))|].
  { by rewrite !app_nil_r. }
  { intros i v' Hi (Ht & Hl & Hsw & Hh). c_run. apply c_filters. destruct (lookup_lt_is_Some_2 (stored v') i) as [id Hid]; [lia|].
    c_run. eapply vwp_of_option; [exact Hid|]. c_run. cbn. rewrite Ht, Hsw, Hh, !all_set_S. by rewrite <- !(assoc_L app). }
  cbn beta. intros ? v2 (Ht2 & Hl2 & Hsw2 & Hh2) i t Hi Ht. unfold hears.
  rewrite Hsw2, Hh2, Hsw1, Hh1, !level_app, !level_all_set. split; repeat case_decide; lia || done.
Qed.
End can_tests.

(** ** Both boards

    What is sent at [t] on a line arrives at the device of the same index of the
    other board at [t + d], where [0 <= d <= delay]. *)

Definition devices_below {A} (n : nat) (l : list (nat * A)) : Prop := Forall (fun x => (x.1 < n)%nat) l.

Lemma on_every_below n bs : devices_below n (on_every n bs).
Proof.
  unfold devices_below, on_every. apply Forall_concat, Forall_fmap, Forall_forall. intros i Hi%elem_of_seq. cbn.
  apply Forall_fmap, Forall_true. intros b. cbn. lia.
Qed.

Lemma all_frames_below n : devices_below n (all_frames n).
Proof.
  apply Forall_concat, Forall_replicate. unfold round_frames. apply Forall_fmap, Forall_forall. intros i Hi%elem_of_seq. cbn. lia.
Qed.

(** The time and the device of something sent. *)
Lemma sent_at {A} n a b (out : list (Z * nat * A)) l t i x : untimed out = l -> devices_below n l -> sent_within a b out ->
  (t, i, x) ∈ out -> (i < n)%nat /\ a <= t <= b.
Proof.
  intros Hun Hbelow Hin Hel. unfold sent_within, devices_below in *. subst l. unfold untimed in Hbelow. rewrite Forall_fmap in Hbelow.
  rewrite Forall_forall in Hin, Hbelow. exact (conj (Hbelow _ Hel) (Hin _ Hel)).
Qed.

(** All of [out] was sent by one board and is heard by the other. *)
Definition arrives {A} (delay : Z) (sender receiver : line_view A) (out : list (Z * nat * A)) : Prop :=
  (exists before, sends sender = before ++ out) /\
  forall t i a d, (t, i, a) ∈ out -> 0 <= d <= delay -> hears receiver i (t + d).

Section uart_together.
Context {E1 E2 : Type} `{!HwBoard E1} `{!Uarts E1} `{!HwBoard E2} `{!Uarts E2} (n : nat) (late delay : Z).
Context {handlers : bool} `{!UartLaws E1 late handlers} `{!UartLaws E2 late false} (fuel : nat).
Context (enough1 : (FIFO_SIZE (E := E1) < fuel)%nat) (enough2 : (FIFO_SIZE (E := E2) < fuel)%nat).

End uart_together.

Section lin_together.
Context {E1 E2 : Type} `{!HwBoard E1} `{!Uarts E1} `{!HwBoard E2} `{!Uarts E2} (n : nat) (late delay : Z).
Context {handlers : bool} `{!UartLaws E1 late false} `{!UartLaws E2 late handlers} (fuel : nat).
Context (enough1 : (FIFO_SIZE (E := E1) < fuel)%nat) (enough2 : (FIFO_SIZE (E := E2) < fuel)%nat).

(** The LIN test: the four bytes that the SUT sends on every line reach the
    tester while its handler runs. *)
Theorem lin_test_received (e1 : E1) (e2 : E2) pre message_delay duration post :
  0 <= pre -> 0 <= message_delay -> 0 <= duration -> 0 <= post ->
  let sut := now (uart_view e1) in let tester := now (uart_view e2) in
  tester <= sut + pre -> sut + pre + late + 4 * Z.of_nat n * (message_delay + late) + delay < tester + duration ->
  exists e1' e2' out, sut_lin_test n fuel pre message_delay e1 = Ret tt e1' /\ tester_lin_test n fuel duration post e2 = Ret tt e2' /\
    untimed out = on_every n (replicate 4 102) /\ arrives delay (uart_view e1') (uart_view e2') out.
Proof.
  intros Hpre Hmsg Hdur Hpost sut tester Hs Ht.
  destruct (sut_lin_test_run n fuel enough1 pre message_delay _ eq_refl Hpre Hmsg e1 eq_refl) as ([] & e1' & Hrun1 & out & Hout & Hun & Hin).
  destruct (tester_lin_test_run n fuel enough2 duration post _ Hdur Hpost e2 eq_refl) as ([] & e2' & Hrun2 & Hhear).
  exists e1', e2', out. split_and!; [done..|]. split; [by exists (sends (uart_view e1))|]. intros t i b d Hel Hd.
  destruct (sent_at _ _ _ _ _ _ _ _ Hun (on_every_below n _) Hin Hel). apply Hhear; [done|]. subst sut tester. lia.
Qed.
End lin_together.

Section can_together.
Context {E1 E2 : Type} `{!HwBoard E1} `{!Cans E1} `{!HwBoard E2} `{!Cans E2} `{!RxFilters E2} (n : nat) (late delay : Z).
Context `{!CanLaws E1 late} `{!CanLaws E2 late} `{!RxFilterLaws E2 late}.

(** The CAN test: the ten frames that the SUT sends on every bus reach the
    tester while its controller is started and has a filter that lets them
    through. *)
Theorem can_test_received (e1 : E1) (e2 : E2) pre frame_delay sut_post duration post :
  0 <= pre -> 0 <= frame_delay -> 0 <= sut_post -> 0 <= duration -> 0 <= post -> length (stored (can_view e2)) = n ->
  let sut := now (can_view e1) in let tester := now (can_view e2) in
  tester <= sut + pre -> sut + pre + late + 10 * (frame_delay + late) + delay < tester + duration + post ->
  exists e1' e2' out, sut_can_test n pre frame_delay sut_post e1 = Ret tt e1' /\ tester_can_test n duration post e2 = Ret tt e2' /\
    untimed out = all_frames n /\ arrives delay (can_view e1') (can_view e2') out.
Proof.
  intros Hpre Hframe Hspost Hdur Hpost Hlen sut tester Hs Ht.
  destruct (sut_can_test_run n pre frame_delay sut_post _ Hpre Hframe Hspost e1 eq_refl) as ([] & e1' & Hrun1 & out & Hout & Hun & Hin).
  destruct (tester_can_test_run n duration post _ Hdur Hpost Hlen e2 eq_refl) as ([] & e2' & Hrun2 & Hhear).
  exists e1', e2', out. split_and!; [done..|]. split; [by exists (sends (can_view e1))|]. intros t i f d Hel Hd.
  destruct (sent_at _ _ _ _ _ _ _ _ Hun (all_frames_below n) Hin Hel). apply Hhear; [done|]. subst sut tester. lia.
Qed.
End can_together.
