(* ===== verification/HwTestWitness.v ===== *)
(** * Witnesses for the hardware test

    Concrete boards that satisfy the laws of [HwTestGpio] and [HwTestLines], on
    which a sleeping thread wakes up two milliseconds late, and closed instances of
    the theorems with the delays of Kconfig. *)

From stdpp Require Import base list numbers strings sets.
From Stdlib Require Import ZArith Lia.
From S2P Require Import Prelude.
From S2P Require Import Can.
From S2P Require Import UdsViews.
From S2P Require Import HwTest.
From S2P Require HwTestGpio.
From S2P Require HwTestLines.

#[local] Open Scope Z_scope.

Definition lateness : Z := 2.

(** ** The front end *)

Definition session_labels : list front_label := ((([] ++ [Typed "gpio start"]) ++ [Tau]) ++ [Tau]) ++ [Tau].
Definition session_state : front_end :=
  set_dispatcher (Executing "gpio start") (set_command_mutex (Some Dispatcher)
    (set_dispatcher (Locking "gpio start") (set_command_queue []
      (set_receiver Reading (set_command_queue ["gpio start"%string] (line_read "gpio start" front_end_init)))))).

Lemma session_steps : front_steps front_end_init session_labels session_state.
Proof.
  refine (front_steps_snoc _ _ _ _ _ (front_steps_snoc _ _ _ _ _ (front_steps_snoc _ _ _ _ _
    (front_steps_snoc _ _ _ _ _ (front_steps_nil _) (line_typed _ _ _)) _) _) _);
    first [reflexivity | apply receiver_runs, (enqueue (line_read "gpio start" front_end_init)); [reflexivity|cbn; unfold COMMAND_QUEUE_LEN; lia] |
      by apply dispatcher_runs, (dequeue _ "gpio start" []) | by apply dispatcher_runs, dispatch_lock].
Defined.

Lemma commands_run_in_order_witness : exists done cur,
  accepted session_labels = done ++ cur ++ command_queue session_state ++ to_enqueue session_state /\ in_hand session_state cur /\
    filter (fun m => is_marker m = true) (printed session_state) = concat (block <$> done) ++ begun session_state /\
    reads (printed session_state) = Some (running_test session_state) /\ (length (command_queue session_state) <= COMMAND_QUEUE_LEN)%nat.
Proof. apply (commands_run_in_order session_labels session_state session_steps). Defined.

Lemma commands_finish_witness :
  Acc (fun s2 s1 => front_step s1 Tau s2) session_state /\
  forall s', tau_steps session_state s' -> ~ (exists s2, front_step s' Tau s2) ->
    at_rest s' /\ filter (fun m => is_marker m = true) (printed s') = concat (block <$> accepted session_labels).
Proof. apply (commands_finish session_labels session_state session_steps). Defined.

(** ** GPIO: a board is what is seen of it *)

Module GpioDemo.
Import HwTestGpio.

#[local] Instance gpio_board : HwBoard gpio_view := {|
  k_msleep k v := Ret tt (at_time (now v + k + lateness) v);
  k_uptime_get_32 v := Ret (u32 (now v)) v;
  log m v := Ret tt (with_entry m v);
|}.

Definition pins (wave : nat -> Z -> Z) : GpioPins gpio_view := {|
  gpio_is_ready_dt _ := ret true;
  gpio_pin_configure_dt i mode v := match mode with OUTPUT_INACTIVE => Ret 0 (drive i 0 v) | INPUT => Ret 0 v end;
  gpio_pin_set_dt i x v := Ret 0 (drive i x v);
  gpio_pin_get i v := Ret (wave i (now v)) v;
|}.

Definition pins_laws wave : GpioLaws gpio_view (GpioPins0 := pins wave) lateness wave.
Proof.
  refine {| gpio_view_of v := v |}; try done; try (intros; by eexists).
  intros k e Hk. exists lateness, (at_time (now e + k + lateness) e). by split_and!.
Defined.

(** The SUT, whose inputs do not matter; the tester starts 50 ms later. *)
Definition nothing : nat -> Z -> Z := fun _ _ => 0.
Definition sut : gpio_view := GpioView 1000 [] [].
Definition tester : gpio_view := GpioView 1050 [] [].
Definition sut_end : gpio_view :=
  match sut_gpio_test (GpioPins0 := pins nothing) 3 sut_defaults sut with Ret _ v => v | Fault _ => sut end.
Definition wires (i : nat) (t : Z) : Z := level 1 (driven sut_end) i t.

Example tester_content :
  match tester_gpio_test (GpioPins0 := pins wires) 3 tester_defaults tester with Ret _ v => Some (logged v) | Fault _ => None end = Some [].
Proof. by vm_compute. Qed.

(** Pin 1 is shorted to ground. *)
Example tester_blames_the_rest :
  match tester_gpio_test (GpioPins0 := pins (fun i t => if decide (i = 1%nat) then 0 else wires i t)) 3 tester_defaults tester with
  | Ret _ v => omap (fun m => match m with LOG_ERR (PinNotActive i) => Some i | _ => None end) (logged v)
  | Fault _ => [] end = [1; 2]%nat.
Proof. by vm_compute. Qed.

Lemma delays : delays_fit tester_defaults lateness (GPIO_TOGGLE_DELAY_MS sut_defaults).
Proof. by split. Qed.

Lemma gpio_test_passes_witness : exists v,
  sut_gpio_test (GpioPins0 := pins nothing) 3 sut_defaults sut = Ret tt v /\
    (wired 3 1 wires v -> exists v', tester_gpio_test (GpioPins0 := pins wires) 3 tester_defaults tester = Ret tt v' /\ logged v' = logged tester).
Proof.
  apply (gpio_test_passes (GpioPins0 := pins nothing) (GpioPins1 := pins wires) 3 sut_defaults tester_defaults lateness 1 nothing wires
    (GpioLaws0 := pins_laws nothing) (GpioLaws1 := pins_laws wires) sut tester); [exact delays|done|done|by split].
Defined.

(** Four pins with the pulses of the delays; pin 1 is dead. *)
Definition rise (i : nat) : Z := 1300 + 20 * Z.of_nat i.
Definition fall (i : nat) : Z := 1310 + 20 * Z.of_nat i.
Definition dead_wires (i : nat) (t : Z) : Z := if decide (i <> 1%nat /\ rise i <= t < fall i) then 1 else 0.

Lemma dead_pin_fails_the_rest_witness : exists v',
  tester_gpio_test (GpioPins0 := pins dead_wires) 4 tester_defaults tester = Ret tt v' /\
  forall j, (1 <= j < 4)%nat -> LOG_ERR (PinNotActive j) ∈ logged v'.
Proof.
  apply (dead_pin_fails_the_rest (GpioPins0 := pins dead_wires) 4 tester_defaults lateness 10 1000 dead_wires (GpioLaws0 := pins_laws dead_wires) rise fall 1 tester).
  - exact delays.
  - split; intros i Hi; unfold rise, fall, lateness; lia.
  - lia.
  - intros i Hi Hne t Ht. unfold dead_wires. repeat case_decide; naive_solver.
  - intros t Ht. unfold dead_wires. by rewrite decide_False by naive_solver.
  - done.
  - done.
  - done.
Defined.
End GpioDemo.

(** ** UART, LIN *)

Module UartDemo.
Import HwTestLines.

(** A FIFO holds 16 bytes. *)
Record uart_board := UartBoard { seen : line_view Z; bytes : nat -> list Z; log_of : list entry }.

Definition fifo_of (b : uart_board) (i : nat) : list Z := take 16 (bytes b i).
Definition see (f : line_view Z -> line_view Z) (b : uart_board) : uart_board := UartBoard (f (seen b)) (bytes b) (log_of b).

#[local] Instance board_clock : HwBoard uart_board := {|
  k_msleep k b := Ret tt (see (fun v => at_time (now v + k + lateness) v) b);
  k_uptime_get_32 b := Ret (u32 (now (seen b))) b;
  log m b := Ret tt (UartBoard (seen b) (bytes b) (log_of b ++ [m]));
|}.

#[local] Instance board_uarts : Uarts uart_board := {|
  uart_is_ready _ := ret true;
  uart_fifo_read i b := Ret (head (fifo_of b i)) (UartBoard (seen b) (fun j => if decide (j = i) then tail (fifo_of b i) else bytes b j) (log_of b));
  uart_irq_callback_user_data_set i b := Ret 0 (see (hook i 1) b);
  uart_irq_rx_enable i b := Ret tt (see (switch i 1) b);
  uart_irq_rx_disable i b := Ret tt (see (switch i 0) b);
  uart_irq_update _ := ret true;
  uart_irq_rx_ready i b := Ret (negb (bool_decide (fifo_of b i = []))) b;
  uart_poll_out i x b := Ret tt (see (send_one i x) b);
|}.

Definition board_laws (handlers : bool) : UartLaws uart_board lateness handlers.
Proof.
  refine {| uart_view := seen; fifo := fifo_of; FIFO_SIZE := 16; uart_log := log_of |}; try done; try (intros; by eexists).
  - intros e i. unfold fifo_of. rewrite length_take. lia.
  - intros k e Hk. exists lateness. eexists _, []. split_and!; [done|done|done|done|]. unfold sends_more. cbn. by rewrite app_nil_r.
  - intros i e. eexists. split_and!; [done|done|done|]. unfold fifo_of at 1. cbn. rewrite decide_True by done. apply take_ge.
    unfold fifo_of. pose proof (firstn_le_length 16 (bytes e i)). destruct (take 16 (bytes e i)); cbn in *; lia.
Defined.

Definition start_at (t : Z) : uart_board := UartBoard (LineView t [] [] [] []) (fun i => [7; 7]) [].

(** Which program runs decides whether its handlers send. *)
Abbreviation sut_laws := (board_laws true).
Abbreviation tester_laws := (board_laws false).


Lemma lin_test_received_witness : exists e1' e2' out,
  sut_lin_test 1 17 1000 100 (start_at 1000) = Ret tt e1' /\ tester_lin_test 1 17 2500 300 (start_at 1100) = Ret tt e2' /\
    untimed out = on_every 1 (replicate 4 102) /\ arrives 10 (seen e1') (seen e2') out.
Proof.
  apply (lin_test_received 1 lateness 10 (UartLaws0 := tester_laws) (UartLaws1 := tester_laws) 17 ltac:(cbn; lia) ltac:(cbn; lia) (start_at 1000) (start_at 1100) 1000 100 2500 300);
    cbn; unfold lateness; lia.
Defined.

Lemma uart_handler_echoes_witness : exists e',
  sut_uart_interrupt 17 0 (start_at 1000) = Ret tt e' /\
  sends (seen e') = [(1000, 0%nat, 7); (1000, 0%nat, 7)] /\
  log_of e' = [LOG_INF (Received 0 7); LOG_INF (Received 0 7)] /\ fifo_of e' 0 = [].
Proof. apply (uart_handler_echoes (UartLaws0 := sut_laws) 17 ltac:(cbn; lia) 0 (start_at 1000)). Defined.
End UartDemo.

(** ** CAN: a board is what is seen of it *)

Module CanDemo.
Import HwTestLines.
#[local] Abbreviation B := (line_view can_frame) (only parsing).

#[local] Instance can_clock : HwBoard B := {|
  k_msleep k v := Ret tt (at_time (now v + k + lateness) v);
  k_uptime_get_32 v := Ret (u32 (now v)) v;
  log _ v := Ret tt v;
|}.

#[local] Instance controllers : Cans B := {|
  can_is_ready _ := ret true;
  can_start i v := Ret 0 (switch i 1 v);
  can_stop i v := Ret 0 (switch i 0 v);
  can_add_rx_filter i f v := Ret 0 (hook i (for_test_frame f) v);
  can_remove_rx_filter i _ v := Ret tt (hook i 0 v);
  can_send i f v := Ret 0 (send_one i f v);
|}.

#[local] Instance filters : RxFilters B := {| rx_filters := stored; set_rx_filters := store |}.

#[local] Instance controllers_laws : CanLaws B lateness.
Proof.
  refine {| can_view v := v |}; try done; try (intros; by eexists).
  - intros k e Hk. exists lateness. by eexists.
  - intros i f e. exists 0. by eexists.
Defined.

#[local] Instance filters_laws : RxFilterLaws B lateness.
Proof. by split. Defined.

Definition at_rest_since (t : Z) : B := LineView t [] [] [] [0; 0].

Lemma can_test_received_witness : exists e1' e2' out,
  sut_can_test 2 1000 50 300 (at_rest_since 1000) = Ret tt e1' /\ tester_can_test 2 2500 300 (at_rest_since 1100) = Ret tt e2' /\
    untimed out = all_frames 2 /\ arrives 10 (can_view e1') (can_view e2') out.
Proof.
  apply (can_test_received 2 lateness 10 (at_rest_since 1000) (at_rest_since 1100) 1000 50 300 2500 300); try done; cbn; unfold lateness; lia.
Defined.
End CanDemo.
