(* ===== verification/SampleWitness.v ===== *)
(** * The GPIO expander and the LIN samples at work

    Concrete pins and a concrete bus on which the laws hold, and the theorems
    of [GpioExpander] and [LinSamples] on them. *)

From stdpp Require Import base gmap list numbers strings.
From Stdlib Require Import ZArith Lia.
From S2P Require Import Prelude.
From S2P Require Import Can.
From S2P Require Import Lin.
From S2P Require LinScheduler.
From S2P Require Import LinPair.
From S2P Require Import LinSamples.
From S2P Require Import Lin2Can.
From S2P Require Import Lin2CanSamples.
From S2P Require Import CanRouter.
From S2P Require Import Lin2CanGateway.
From S2P Require Import GpioExpander.

#[local] Open Scope Z_scope.

(** ** The expander *)

Module ExpanderDemo.

(** Pins whose inputs are all high. *)
Definition board : Type := pins_view.

Definition set_pin (i : nat) (out : bool) (x : Z) (v : board) : board :=
  PinsView (fun j => if decide (j = i) then out else is_output v j) (fun j => if decide (j = i) then x else latch v j) (reads v) (sent v).

#[export] Instance board_pins : ExpanderPins board := {|
  gpio_pin_configure_dt i d v := Ret 0 (set_pin i (bool_decide (d = OUTPUT)) (latch v i) v);
  gpio_pin_set_dt i x v := Ret 0 (set_pin i (is_output v i) x v);
  gpio_pin_get_dt i v := Ret 1 (PinsView (is_output v) (latch v) (reads v ++ [(i, 1)]) (sent v));
|}.
#[export] Instance board_can : ExpanderCan board := {|
  can_is_ready _ := true; can_start := ret 0; can_add_rx_filter cb _ := ret (match cb with receive_config_callback_fn => 0 | receive_write_callback_fn => 1 end);
  can_send f v := Ret 0 (PinsView (is_output v) (latch v) (reads v) (sent v ++ [f]));
|}.

#[export] Instance board_laws : ExpanderLaws board.
Proof.
  refine {| pins v := v; configure_law := _; pin_set_law := _; pin_get_law := _; can_start_law := _; add_filter_law := _; send_law := _ |}.
  - intros i d v. eexists. split; [reflexivity|]. cbn. rewrite decide_True by done. split; [|by rewrite decide_True].
    split; [|done]. intros j Hj. cbn. by rewrite !decide_False.
  - intros i x v. eexists. split; [reflexivity|]. cbn. rewrite !decide_True by done. split; [|done].
    split; [|done]. intros j Hj. cbn. by rewrite !decide_False.
  - intros i v. do 2 eexists. split; [reflexivity|]. cbn. split_and!; (lia || done).
  - intros v. by do 2 eexists.
  - intros cb f v. by do 2 eexists.
  - intros f v. by do 2 eexists.
Defined.

(** Running events. *)
Definition exec (n : nat) (ev : gx_event) (s : gx_state (E := board)) : option gx_state :=
  let '(w, pc) := s in
  match ev with
  | Work => match work_step n pc w with Ret pc' w' => Some (w', pc') | Fault _ => None end
  | ConfigFrame f => match receive_config_callback f w with Ret _ w' => Some (w', pc) | Fault _ => None end
  | WriteFrame f => match receive_write_callback f w with Ret _ w' => Some (w', pc) | Fault _ => None end
  | StateUpdate => match send_state_update_frame n w with Ret _ w' => Some (w', pc) | Fault _ => None end
  | Transmitted => match can_tx_callback w with Ret _ w' => Some (w', pc) | Fault _ => None end
  end.

Fixpoint exec_all (n : nat) (evs : list gx_event) (s : gx_state (E := board)) : option gx_state :=
  match evs with [] => Some s | ev :: evs => s ← exec n ev s; exec_all n evs s end.

Lemma exec_step n ev s s' : exec n ev s = Some s' -> gx_step n ev s s'.
Proof.
  destruct s as [w pc], ev as [|f|f| |]; cbn [exec].
  - destruct (work_step n pc w) eqn:H; [|done]. intros [= <-]. by constructor.
  - destruct (receive_config_callback f w) as [ [] w1|] eqn:H; [|done]. intros [= <-]. by constructor.
  - destruct (receive_write_callback f w) as [ [] w1|] eqn:H; [|done]. intros [= <-]. by constructor.
  - destruct (send_state_update_frame n w) eqn:H; [|done]. intros [= <-]. by econstructor.
  - destruct (can_tx_callback w) as [ [] w1|] eqn:H; [|done]. intros [= <-]. by constructor.
Qed.

Lemma exec_run n evs : forall s s', exec_all n evs s = Some s' -> gx_run n evs s s'.
Proof.
  induction evs as [|ev evs IH]; intros s s'; cbn [exec_all]; [intros [= <-]; constructor|].
  destruct (exec n ev s) as [s1|] eqn:H; [|done]. cbn. intros H2. econstructor; [by apply exec_step|by apply IH].
Qed.

(** Four pins. *)
Definition fresh : gx_world board := GxWorld expander_data_init (PinsView (fun _ => true) (fun _ => 0) [] []).

Lemma configuration_settles_witness :
  exists err w1, init 4 fresh = Ret err w1 /\ settled 4 (w1, Waiting) /\ (forall i, (i < 4)%nat -> is_output (view w1) i = false) /\
    forall evs s, gx_run 4 evs (w1, Waiting) s ->
      exists k s', (k <= work_left 4 s)%nat /\ gx_run 4 (replicate k Work) s s' /\ settled 4 s' /\
        config_frame_data (gx s'.1) = fold_left (fun d ev => config_after ev d) evs (replicate 8 0) /\
        forall i, (i < 4)%nat -> is_output (view s'.1) i = out_bit (gx s'.1) i.
Proof. apply (configuration_settles 4 ltac:(lia) fresh). reflexivity. Defined.

(** The board after its start, with pins 0 and 2 as outputs. *)
Definition config_frame : can_frame := CanFrame GPIO_CONFIG_FRAME_ID 1 0 [5; 0; 0; 0; 0; 0; 0; 0].
Definition write_frame : can_frame := CanFrame GPIO_WRITE_FRAME_ID 8 0 [4; 0; 0; 0; 0; 0; 0; 0].

Definition started : gx_state := match init 4 fresh with Ret _ w => (w, Waiting) | Fault _ => (fresh, Waiting) end.
Definition configured_board : gx_state := default started (exec_all 4 (ConfigFrame config_frame :: replicate 10 Work) started).

Lemma settled_by_computation s : expander_wf (gx s.1) -> s.2 = Waiting -> work_queue (gx s.1) = [] ->
  (forall i, (i < 4)%nat -> is_output (view s.1) i = out_bit (gx s.1) i) -> settled 4 s.
Proof. intros Hwf Hpc Hq Hd. split; [split; [done|by rewrite Hpc]|]. by split. Qed.

Ltac below_four i := do 4 (destruct i as [|i]; [vm_compute; reflexivity|]); lia.

Lemma configured_settled : settled 4 configured_board.
Proof. apply settled_by_computation; [by constructor|by vm_compute|by vm_compute|]. intros i Hi. below_four i. Qed.

(** A frame with levels, in the middle of the work for another one. *)
Definition events : list gx_event := [WriteFrame config_frame; Work; Work; StateUpdate; Work] ++ WriteFrame write_frame :: [StateUpdate; Work].
Definition written : gx_state := default started (exec_all 4 events configured_board).

Lemma written_levels_settle_witness :
  exists k s', (k <= work_left 4 written)%nat /\ gx_run 4 (replicate k Work) written s' /\ settled 4 s' /\
    config_frame_data (gx s'.1) = config_frame_data (gx configured_board.1) /\
    write_frame_data (gx s'.1) = fold_left (fun d ev => write_after ev d) events (write_frame_data (gx configured_board.1)) /\
    (forall i, (i < 4)%nat -> is_output (view s'.1) i = true -> latch (view s'.1) i = level_bit (gx s'.1) i) /\
    exists value data r w', send_state_update_frame 4 s'.1 = Ret r w' /\ gx w' = gx s'.1 /\
      sent (view w') = (if r =? 0 then sent (view s'.1) ++ [CanFrame GPIO_STATE_FRAME_ID 8 0 data] else sent (view s'.1)) /\
      reads (view w') = reads (view s'.1) ++ read_pairs (gx s'.1) value 4 0 /\
      forall i, (i < 4)%nat -> pin_bit data i = Some (if is_output (view s'.1) i then latch (view s'.1) i else value i).
Proof.
  apply (written_levels_settle 4 ltac:(lia) configured_board [WriteFrame config_frame; Work; Work; StateUpdate; Work] write_frame [StateUpdate; Work] written
    configured_settled); [by repeat constructor|]. apply exec_run. vm_compute. reflexivity.
Defined.

(** A level written while the pin is an input. *)
Definition stored : gx_state := default started (exec_all 4 (WriteFrame write_frame :: replicate 10 Work) started).
Definition configured_later : gx_state := default started (exec_all 4 [ConfigFrame config_frame] stored).
Definition settled_later : gx_state := default started (exec_all 4 (replicate 10 Work) configured_later).

Lemma stored_level_not_driven_witness :
  is_output (view settled_later.1) 2 = true /\ latch (view settled_later.1) 2 = latch (view stored.1) 2 /\
  exists data r w', send_state_update_frame 4 settled_later.1 = Ret r w' /\ pin_bit data 2 = Some (level_bit (gx stored.1) 2) /\
    sent (view w') = (if r =? 0 then sent (view settled_later.1) ++ [CanFrame GPIO_STATE_FRAME_ID 8 0 data] else sent (view settled_later.1)).
Proof.
  apply (stored_level_not_driven 4 ltac:(lia) stored config_frame configured_later 10).
  - apply settled_by_computation; [by constructor|by vm_compute|by vm_compute|]. intros i Hi. below_four i.
  - apply exec_step. vm_compute. reflexivity.
  - lia.
  - vm_compute. reflexivity.
  - apply exec_run. vm_compute. reflexivity.
  - by split; vm_compute.
Defined.

(** The pin is low, and was told to be high. *)
Example stored_level_differs : latch (view settled_later.1) 2 = 0 /\ level_bit (gx stored.1) 2 = 1.
Proof. by vm_compute. Qed.
End ExpanderDemo.

(** ** The LED over LIN *)

Module LedDemo.

Definition bus : Type := list bus_request.

#[export] Instance bus_lin : LinBus bus := {|
  lin_set_mode _ := ret 0; lin_set_header_callback := ret 0; lin_set_rx_callback := ret 0;
  lin_receive id _ n b := Ret 0 (b ++ [RequestFrame id n]);
  lin_send f b := Ret 0 (b ++ [SendFrame f]);
|}.

#[export] Instance bus_requests : BusRequests bus.
Proof.
  refine {| pending b := b; take_request b := Ret (head b) (tail b); receive_law := _; lin_send_law := _; take_law := _ |}; intros; by eexists.
Defined.

Lemma led_boards_refine_witness :
  exists wc wr,
    commander_main 8 true (AlWorld (abstract_lin_data_init 8) (commander_init, [])) = Ret 0 wc /\
    responder_main 8 true (AlWorld (abstract_lin_data_init 8) (responder_init, [])) = Ret 0 wr /\
    forall evs, exists s, led_run_all true (replicate 8 0) (replicate 8 0) evs (wc, wr) = Ret tt s /\
      protocol_of s = led_spec_all true evs (LedProtocol false false false).
Proof. apply (led_boards_refine true (replicate 8 0) (replicate 8 0) 8 ([] : bus) []); [lia|done|done|done]. Defined.
End LedDemo.

(** ** CAN over LIN *)

Module ExchangeDemo.
Import LedDemo.

(** A queue for three frames. *)
Definition frame_queue : Type := list lin2can_outgoing_frame_t.

#[export] Instance frame_queue_ops : MsgQueue frame_queue := {|
  k_msgq_put x _ q := if decide (length q < 3)%nat then Ret 0 (q ++ [x]) else Ret (- 35) q;
  k_msgq_get q := match q with [] => Ret None q | x :: l => Ret (Some x) l end;
|}.

#[export, refine] Instance frame_queue_laws : MsgQueueLaws frame_queue := {| queue q := q; capacity := 3 |}.
Proof.
  - intros x t q H. cbn. rewrite decide_True by done. by eexists.
  - intros x q H. cbn. rewrite decide_False by lia. by eexists.
  - intros q H. cbn. by rewrite H.
  - intros q x l H. cbn. rewrite H. by eexists.
Defined.

(** The defaults of the driver's Kconfig. *)
Definition kconfig : lin2can_kconfig := Lin2CanKconfig 0x80 0x180 0x01 0x181 0x3C 0x3D.

Lemma exchange_config_ok : mapping_ok kconfig.
Proof. split; [by apply (bool_decide_unpack _); vm_compute|]. by repeat constructor. Qed.

#[local] Abbreviation no_frames := ([] : frame_queue).
#[local] Abbreviation idle_bus := ([] : bus).

Lemma can_samples_exchange_witness :
  exists wc wr, l2c_boot kconfig 4 LIN_MODE_COMMANDER (l2c_commander_setup kconfig) (power_up 4 no_frames idle_bus) = Ret 0 wc /\
    l2c_boot kconfig 4 LIN_MODE_RESPONDER (l2c_responder_setup kconfig) (power_up 4 no_frames idle_bus) = Ret 0 wr /\
    forall evs, exists s, let t := traffic_spec_all (Q := frame_queue) kconfig evs in
      l2c_run_all kconfig (replicate 8 0) (replicate 8 0) evs (wc, wr) = Ret tt s /\
      dumps s.1 = heard nth_responder_frame (r_heard t) /\ dumps s.2 = heard nth_commander_frame (c_heard t) /\
      (c_heard t <= c_sent t <= S (c_heard t))%nat /\ (r_heard t <= r_sent t <= r_heard t + 3)%nat.
Proof.
  apply (can_samples_exchange kconfig (replicate 8 0) (replicate 8 0) exchange_config_ok 4 ltac:(lia) ltac:(by split_and!)
           ltac:(by apply (bool_decide_unpack _); vm_compute) ltac:(by apply (bool_decide_unpack _); vm_compute) ltac:(cbn; lia)
           no_frames no_frames idle_bus idle_bus); [lia|done|done|done].
Defined.

(** A slot per frame carries every frame over. *)
Example every_frame_heard :
  let evs := [CommanderRun; ResponderRun; Slot 0x3D; Slot 0x3C; CommanderRun; ResponderRun; Slot 0x3D; Slot 0x3C] in
  traffic_spec_all (Q := frame_queue) kconfig evs = Traffic 2 2 2 2.
Proof. by vm_compute. Qed.

(** A controller that sends everything. *)
Record controller := Controller { cfilters : list (nat * can_filter); csent : list can_frame }.

#[export] Instance controller_ops : CanA controller := {|
  can_a_start := ret 0;
  can_a_add_rx_filter t f c := Ret (Z.of_nat (length (cfilters c))) (Controller (cfilters c ++ [(t, f)]) (csent c));
  can_a_send fr c := Ret 0 (Controller (cfilters c) (csent c ++ [fr]));
|}.

#[export] Instance controller_laws : CanALaws controller.
Proof.
  refine {| can_a_filters := cfilters; can_a_sent := csent |}.
  - intros c. by eexists _, _.
  - intros t f c H. cbn. rewrite H. by eexists.
  - intros fr c. by eexists _, _.
Defined.

End ExchangeDemo.
