(* ===== verification/DriverWitness.v ===== *)
(** * Witnesses for the drivers

    A LIN bus that records what it is asked to send, applications for it, and
    a board with an emulated power I/O shield; for every theorem on the drivers
    with hypotheses a closed instance there. *)

From stdpp Require Import base gmap list numbers relations.
From Stdlib Require Import ZArith Lia.
From S2P Require Import Prelude.
From S2P Require Import Lin.
From S2P Require Import LinScheduler.
From S2P Require Import Can.
From S2P Require Import Lin2Can.
From S2P Require Import Gpio.
From S2P Require Import PowerIoShield.
From S2P Require Import PowerIoShieldEmul.

#[local] Open Scope Z_scope.

(** ** LIN *)

Module LinDemo.
(** What went over the bus and what the application received. *)
Record bus := Bus { requested : list Z; sent : list (list Z); received : list (list Z) }.

#[export] Instance bus_lin : LinBus bus := {|
  lin_set_mode _ := ret 0; lin_set_header_callback := ret 0; lin_set_rx_callback := ret 0;
  lin_receive id _ _ e := Ret 0 (Bus (requested e ++ [id]) (sent e) (received e));
  lin_send f e := Ret 0 (Bus (requested e) (sent e ++ [frame_data f]) (received e));
|}.

#[export] Instance bus_callbacks : LinCallbacks bus := {|
  incoming_cb _ f _ w :=
    Ret tt (AlWorld (al_data w) (Bus (requested (al_ext w)) (sent (al_ext w)) (received (al_ext w) ++ [frame_data f])));
  outgoing_cb n f u w := Ret (true, LinFrame (frame_id f) (frame_len f) (frame_type f) [Z.of_nat n; u]) w;
|}.

#[export] Instance bus_callback_laws : LinCallbackLaws bus.
Proof. constructor; intros n f u w a w'; cbn; by intros [= <- <-]. Qed.

Definition calls : list al_op :=
  [op_register_incoming (Some 1%nat) 0x10 2 0; op_register_outgoing (Some 2%nat) 0x11 2 7;
   op_register_outgoing (Some 3%nat) 0x10 4 0; op_free_slots; op_unregister 0x3F].

Definition table : al_world bus :=
  match al_run_all 4 calls (AlWorld (abstract_lin_data_init 4) (Bus [] [] [])) with
  | Ret _ w => w | Fault _ => AlWorld (abstract_lin_data_init 4) (Bus [] [] []) end.

Lemma al_refines_map_witness :
  exists d', al_run_all 4 calls (AlWorld (abstract_lin_data_init 4) (Bus [] [] [])) =
      Ret [(0, None); (0, None); (- EEXIST, None); (0, Some 2); (- EINVAL, None)] (AlWorld d' (Bus [] [] [])) /\
    lin_wf 4 d' /\ handlers d' = snd (spec_run_all 4 calls ∅).
Proof. apply (al_refines_map 4 ltac:(lia) calls (Bus [] [] [])). Defined.

Lemma table_wf : lin_wf 4 (al_data table).
Proof.
  constructor; [done|by cbn|..].
  - apply (bool_decide_unpack _). by vm_compute.
  - repeat constructor; cbn; done || lia.
Qed.

Definition stack : lin_frame := LinFrame 0 0 LIN_CHECKSUM_AUTO [].
Definition frame10 : lin_frame := LinFrame 0x10 2 LIN_CHECKSUM_AUTO [5; 6].

Lemma lin_dispatch_witness :
  lin_header_callback frame10 table = header_response frame10 (handlers (al_data table) !! frame_id frame10) table /\
  lin_rx_callback 0 frame10 table = Ret tt (AlWorld (al_data table) (Bus [] [] [[5; 6] ])) /\
  al_schedule_now LIN_MODE_COMMANDER stack 0x11 table = Ret 0 (AlWorld (al_data table) (Bus [] [[2; 7] ] [])).
Proof. exact (lin_dispatch 4 ltac:(lia) stack table frame10 0x11 table_wf). Defined.
End LinDemo.

(** ** CAN over LIN *)

Module Lin2CanDemo.
(** The message queue of the driver, and the CAN frames the application got. *)
Record node := Node { frames : list lin2can_outgoing_frame_t; seen : list (can_frame * Z) }.

#[export] Instance node_queue : MsgQueue node := {|
  k_msgq_put x _ e := if decide (length (frames e) < 3)%nat then Ret 0 (Node (frames e ++ [x]) (seen e)) else Ret (- 35) e;
  k_msgq_get e := match frames e with [] => Ret None e | x :: l => Ret (Some x) (Node l (seen e)) end;
|}.

#[export, refine] Instance node_queue_laws : MsgQueueLaws node := {| queue := frames; capacity := 3 |}.
Proof.
  - intros x t e H. cbn. rewrite decide_True by done. by eexists.
  - intros x e H. cbn. rewrite decide_False by lia. by eexists.
  - intros e H. cbn. by rewrite H.
  - intros e x l H. cbn. rewrite H. by eexists.
Defined.

#[export] Instance node_can : CanCallbacks node := {|
  can_rx_callback _ fr u w := Ret tt (L2cWorld (l2c_data w) (Node (frames (l2c_ext w)) (seen (l2c_ext w) ++ [(fr, u)])));
  can_tx_callback _ _ _ := ret tt;
|}.
#[export] Instance node_can_laws : CanCallbackLaws node.
Proof. constructor; [by intros; eexists|]. intros f fr u w [] w'. cbn. by intros [= <-]. Qed.

#[export] Instance node_users : LinUsers node := {|
  user_incoming_cb _ _ _ := ret tt; user_outgoing_cb _ f _ := ret (false, f);
|}.
#[export] Instance node_users_laws : LinUsersLaws node.
Proof. by constructor; intros f fr u w a w' [= <- <-]. Qed.

(** The defaults of the driver's Kconfig. *)
Definition kconfig : lin2can_kconfig := Lin2CanKconfig 0x80 0x180 0x01 0x181 0x3C 0x3D.

Lemma kconfig_ok : mapping_ok kconfig.
Proof. split; [by apply (bool_decide_unpack _); vm_compute|]. by repeat constructor. Qed.

Definition power_up : al_world (l2c_world node) :=
  AlWorld (abstract_lin_data_init 4) (L2cWorld lin2can_data_init (Node [] [])).

(** A node after the driver's start, with a receiver for two identifiers. *)
Definition booted (mode : lin_mode) : al_world (l2c_world node) :=
  match (lin2can_init kconfig 4 mode 0 ;;
         Lin.on_bus (lin2can_add_rx_filter kconfig (Some 1%nat) 11 (CanFilter 0x180 CAN_STD_ID_MASK)) ;;
         Lin.on_bus (lin2can_add_rx_filter kconfig (Some 1%nat) 22 (CanFilter 0x01 CAN_STD_ID_MASK))) power_up with
  | Ret _ w => w | Fault _ => power_up end.

Lemma booted_attached mode : attached kconfig 4 mode (booted mode).
Proof.
  destruct mode; constructor; try done; try by eexists.
  - constructor; [done|by cbn|by apply (bool_decide_unpack _); vm_compute|repeat constructor; cbn; done || lia].
  - constructor; [done|by cbn|by apply (bool_decide_unpack _); vm_compute|repeat constructor; cbn; done || lia].
Qed.

Definition frame_a : can_frame := CanFrame 0x01 3 0 [0x02; 0x10; 0x02; 0; 0; 0; 0; 0].
Definition frame_b : can_frame := CanFrame 0x180 8 0 [0x10; 1; 2; 3; 4; 5; 6; 7].


(** What the receiving application saw. *)
Lemma received_frames :
  exists w, receive_all kconfig [padded frame_a; padded frame_b] (booted LIN_MODE_RESPONDER) = Ret tt w /\
    seen (l2c_ext (al_ext w)) =
      [(CanFrame 0x01 8 0 [0x02; 0x10; 0x02; 255; 255; 255; 255; 255], 22); (CanFrame 0x180 8 0 [0x10; 1; 2; 3; 4; 5; 6; 7], 11)].
Proof. eexists. split; [by vm_compute|done]. Qed.

Lemma rx_filter_spec_witness :
  exists r w', lin2can_add_rx_filter kconfig (Some 1%nat) 5 (CanFilter 0x80 CAN_STD_ID_MASK)
      (L2cWorld lin2can_data_init (Node [] [])) = Ret r w' /\
    (filter_added kconfig (L2cWorld lin2can_data_init (Node [] [])) w' 1 5 (CanFilter 0x80 CAN_STD_ID_MASK) r \/
     (r < 0 /\ w' = L2cWorld lin2can_data_init (Node [] []) /\
      filter_refused kconfig (L2cWorld lin2can_data_init (Node [] [])) (CanFilter 0x80 CAN_STD_ID_MASK))).
Proof.
  apply (rx_filter_spec kconfig (L2cWorld lin2can_data_init (Node [] [])) 1 5 (CanFilter 0x80 CAN_STD_ID_MASK));
    [exact kconfig_ok|done|by cbn].
Defined.

Lemma lin2can_init_spec_witness :
  exists r w', lin2can_init kconfig 4 LIN_MODE_COMMANDER 0 power_up = Ret r w' /\
    l2c_ext (al_ext w') = Node [] [] /\ lin_wf 4 (al_data w') /\
    (forall id, receiver kconfig (l2c_data (al_ext w')) id = None) /\
    if decide (both_fit kconfig 4 LIN_MODE_COMMANDER (handlers (al_data power_up)))
    then r = 0 /\ attached kconfig 4 LIN_MODE_COMMANDER w' /\
      handlers (al_data w') = <[0x3C := out_entry kconfig LIN_MODE_COMMANDER 0]>
                                (<[0x3D := in_entry kconfig LIN_MODE_COMMANDER 0]> ∅)
    else (r = - ENOSPC \/ r = - EEXIST) /\
      (handlers (al_data w') = ∅ \/ handlers (al_data w') = <[0x3D := in_entry kconfig LIN_MODE_COMMANDER 0]> ∅).
Proof.
  apply (lin2can_init_spec kconfig 4 LIN_MODE_COMMANDER 0 power_up); [lia|by split|apply al_init_wf; lia|done].
Defined.

Lemma empty_frame_misrouted_witness :
  exists e' lf,
    lin2can_send kconfig (CanFrame 0x80 0 0 (replicate 8 0)) 0 (Some 1%nat) 0 (L2cWorld lin2can_data_init (Node [] [])) =
      Ret 0 (L2cWorld lin2can_data_init e') /\
    frames e' = [OutgoingFrame lf (Some 1%nat) 0] /\
    lin_incoming_cb kconfig lf (L2cWorld (Lin2CanData (replicate 4 (RxSlot (Some 1%nat) 7)) 0 0) (Node [] [])) =
      Ret tt (L2cWorld (Lin2CanData (replicate 4 (RxSlot (Some 1%nat) 7)) 0 0)
                (Node [] [(CanFrame 0x181 8 0 [63; 255; 255; 255; 255; 255; 255; 255], 7)])).
Proof.
  destruct (empty_frame_misrouted kconfig kconfig_ok (L2cWorld lin2can_data_init (Node [] []))
              (L2cWorld (Lin2CanData (replicate 4 (RxSlot (Some 1%nat) 7)) 0 0) (Node [] []))
              (CanFrame 0x80 0 0 (replicate 8 0)) 1 0 0) as (e' & lf & Hsend & Hqueue & Hin);
    [by apply (bool_decide_unpack _); vm_compute|done|done|cbn; lia|].
  exists e', lf. split_and!; [exact Hsend|exact Hqueue|]. etransitivity; [exact Hin|]. by vm_compute.
Defined.
End Lin2CanDemo.

(** ** Scheduler *)

Module SchedulerDemo.
Definition tbls : list abstract_lin_schedule_table_t := [[ScheduleEntry 1 10; ScheduleEntry 2 10]; [ScheduleEntry 3 5] ].

Lemma tbls_ok : tables_ok tbls.
Proof. split; [done|]. repeat constructor; cbn; done || lia. Qed.

(** The first table is active from the start, and its first entry is due. *)
Definition started : system :=
  System (set_current_table_entry 1 (set_active 0 (thread_start (register_scheduler tbls 0)))) (ScheduleNow 1) Idle [].

Lemma started_reachable : reachable tbls 0 started.
Proof.
  eapply rtc_l; [left; by apply (step_take_active _ _ _ 0)|].
  eapply rtc_l; [left; by eapply step_read_table|]. apply rtc_refl.
Qed.

Lemma scheduler_safe_witness :
  let s := sched started in
  (thread started <> Crashed) /\
  (forall id, thread started = ReadTable \/ thread started = ScheduleNow id \/ thread started = GiveActive ->
     waiting tbls (client started) /\
     exists table, tbls !! Z.to_nat (current_table s) = Some table /\
       log started = cyclic table (length (log started)) /\
       (thread started = ScheduleNow id -> log started ++ [id] = cyclic table (S (length (log started))))) /\
  (client started = Idle -> current_table s <> no_table -> thread started = TakeActive -> active s = 1) /\
  (client started = Idle -> current_table s = no_table -> resting (thread started) /\ active s = 0).
Proof. apply (scheduler_safe tbls tbls_ok 0 started); [right; cbn; lia|apply started_reachable]. Defined.
End SchedulerDemo.

(** ** Power I/O shield *)

Module ShieldDemo.
(** The emulated registers, the pins the application was told of, and whether
    its callback reads the port. *)
Record board := Board { b_regs : list Z; b_fired : list Z; b_reads : bool }.

#[export] Instance board_regs : EmulRegs board := {|
  reg := b_regs; set_reg l e := Board l (b_fired e) (b_reads e);
|}.
#[export] Instance board_regs_laws : EmulRegsLaws board.
Proof. by constructor. Qed.

#[export] Instance board_gpios : IntGpios board := {|
  i2c_is_ready _ := true; int_gpio_is_ready _ _ := true; gpio_pin_configure_dt _ := ret 0;
  gpio_add_callback := ret 0; gpio_pin_interrupt_configure_dt := ret 0;
|}.

(** An application that records the pins. *)
Definition recording : GpioCallbacks board := {|
  gpio_manage_callback _ _ := ret 0;
  gpio_fire_callbacks pins w :=
    Ret tt (PioWorld (pio w) (Board (b_regs (pio_ext w)) (b_fired (pio_ext w) ++ [pins]) (b_reads (pio_ext w))));
|}.

(** An application that reads the port. *)
Definition port_reading : GpioCallbacks board := {|
  gpio_manage_callback _ _ := ret 0;
  gpio_fire_callbacks _ := power_io_shield_port_get_raw ;; ret tt;
|}.

(** The board after the driver's start. *)
Definition start : pio_world board :=
  match @power_io_shield_init board _ _ 1 (PioWorld power_io_shield_data_init (Board (replicate 27 0) [] false)) with
  | Ret _ w => w | Fault _ => PioWorld power_io_shield_data_init (Board [] [] false) end.

Lemma pins_correspond_witness :
  Z.testbit (power_io_shield_gpio_bits_to_zephyr_bits 0x4001) 16 =
    (Z.testbit ZEPHYR_PINS_PORT_MASK 16 && Z.testbit 0x4001 (power_io_shield_zephyr_pin_to_gpio_bit 16)) /\
  (Z.testbit ZEPHYR_PINS_PORT_MASK 16 = true ->
   power_io_shield_gpio_bits_to_zephyr_bits (BIT (power_io_shield_zephyr_pin_to_gpio_bit 16)) = BIT 16 /\
   0 <= power_io_shield_zephyr_pin_to_gpio_bit 16 < 16).
Proof. apply (pins_correspond 0x4001 16). lia. Defined.


Lemma interrupt_configuration_witness :
  let bit := power_io_shield_zephyr_pin_to_gpio_bit 3 in
  exists w1, power_io_shield_pin_interrupt_configure false 3 GPIO_INT_MODE_EDGE GPIO_INT_TRIG_HIGH start = Ret 0 w1 /\
    lock (pio w1) = 1 /\
    Z.testbit (power_io_shield_gpio_bits_to_zephyr_bits (pending_interrupts (pio w1) 0x0800 0)) 3 = true /\
    (GPIO_INT_MODE_EDGE = GPIO_INT_MODE_LEVEL ->
       xorb (Z.testbit (defval (pio w1)) bit) (Z.testbit POWER_IO_SHIELD_HARD_INVERT_PINS bit) = false) /\
    (forall q, interrupt_pin q -> q <> 3 ->
       Z.testbit (power_io_shield_gpio_bits_to_zephyr_bits (pending_interrupts (pio w1) 0x0800 0)) q =
       Z.testbit (power_io_shield_gpio_bits_to_zephyr_bits (pending_interrupts (pio start) 0x0800 0)) q).
Proof.
  apply (interrupt_configuration (fun e : board => Z.of_nat (length (reg e)) = NUM_REGS) start 3
           GPIO_INT_MODE_EDGE GPIO_INT_TRIG_HIGH 0x0800 0); [by vm_compute|left; lia|done|by vm_compute].
Defined.

(** A level interrupt of the first input, pending in the expander. *)
Definition flagged : pio_world board :=
  PioWorld (PioData 0x0100 0x0100 0x0100 0 0 0 (Work true false) (Work true false) 1)
    (Board (<[15%nat := 1]> (replicate 27 0)) [] false).


Lemma callback_reading_port_blocks_witness :
  @power_io_shield_interrupt_work_handler board _ port_reading flagged = Fault Blocked.
Proof.
  apply (@callback_reading_port_blocks board _ port_reading flagged 0x0100 0 (pio_ext flagged) (pio_ext flagged));
    try done; first [by exists 0, 1|by exists 0, 0].
Defined.
End ShieldDemo.
