(* ===== verification/AppWitness.v ===== *)
(** * Witnesses for the shields, the CAN applications and the loader

    For every component a concrete environment that satisfies the laws its
    theorems assume, and for every theorem with hypotheses a closed instance
    there.  Each module imports the component it is about, because the
    components use the same names for their own state. *)

From stdpp Require Import base gmap list numbers relations.
From Stdlib Require Import ZArith Lia.
From S2P Require Import Prelude.
From S2P Require Import Can.
From S2P Require Import Gpio.
From S2P Require HvShield.
From S2P Require UdsLegacy.
From S2P Require CanRouter.
From S2P Require CanLog.
From S2P Require Iso14229.
From S2P Require IsoThread.
From S2P Require DefaultInstance.
From S2P Require Gearshift.
From S2P Require UdsTypes.
From S2P Require UdsMacros.
From S2P Require UdsServices.
From S2P Require UdsMemory.
From S2P Require UdsLinkControl.
From S2P Require UdsFileTransfer.
From S2P Require UdsUploadDownload.
From S2P Require UdsSystem.
From S2P Require UdsWitness.
From S2P Require FirmwareLoader.

#[local] Open Scope Z_scope.

(** ** HV shield: a bus that records the frames, and ports of pins *)

Module HvDemo.
Import HvShield.

Record board := Board { shown : list (list Z); levels : Z -> Z -> bool }.

#[export] Instance board_bus : ShieldBus board := {|
  oe_configure_inactive := ret 0; oe_set _ := ret 0;
  spi_write_dt f e := Ret 0 (Board (shown e ++ [f]) (levels e));
|}.

(** The pin 9 of any port cannot be set. *)
#[export] Instance board_ports : GpioPorts board := {|
  gpio_pin_configure_dt _ _ _ := ret 0;
  gpio_pin_get_config_dt _ _ := ret (0, GpioFlags true false false false false false);
  gpio_pin_get_dt port p e := Ret (Z.b2z (levels e port p)) e;
  gpio_pin_set port p v e :=
    if p =? 9 then Ret (- EIO) e
    else Ret 0 (Board (shown e) (fun q i => if (q =? port) && (i =? p) then v else levels e q i));
  pin_interrupt_configure _ := None; port_set_bits_raw _ := None; port_clear_bits_raw _ := None;
  port_toggle_bits _ := None; get_pending_int _ := None;
|}.

#[export] Instance board_bus_laws : ShieldBusLaws board.
Proof. refine {| frames := shown |}. intros f e. by eexists _, _. Defined.

#[export] Instance board_port_laws : GpioPortsLaws board.
Proof.
  refine {| level := levels |}.
  - intros port p e. eexists. split; [reflexivity|]. by right.
  - intros port p v e. cbn. destruct (p =? 9).
    + exists (- EIO), e. split_and!; [done|done|]. intros q i. by rewrite decide_False by (by intros [? _]).
    + eexists 0, _. split_and!; [done|done|]. intros q i. cbn.
      destruct (Z.eqb_spec q port), (Z.eqb_spec i p); cbn; first [by rewrite decide_True | by rewrite decide_False by naive_solver].
Defined.

Definition demo : hv_world board := HvWorld (Registers 0 0 0) 0x3 0 (Board [] (fun _ _ => false)).
Definition calls : list hv_op :=
  [set_output 0 true; set_gain 1 HV_SHIELD_DAC_GAIN_16; set_output 32 true; set_output 13 true; set_output 0 false].

Lemma hv_shield_refines_witness :
  exists rs w', hv_run_all calls demo = Ret rs w' /\ results_ok calls rs blank /\
    frames (hv_ext w') = [[0; 0; 0; 0; 0x10]; [0xF0; 0; 0; 0; 0x10]; [0xF0; 0; 0; 0x02; 0x10]; [0xF0; 0; 0; 0x02; 0]] /\
    represents (registers w') (spec_run calls blank).2 /\ input_map w' = 0x3 /\ output_map w' = 0.
Proof.
  assert ((spec_run calls blank).1 = [[0; 0; 0; 0; 0x10]; [0xF0; 0; 0; 0; 0x10]; [0xF0; 0; 0; 0x02; 0x10]; [0xF0; 0; 0; 0x02; 0] ])
    as <- by (by vm_compute).
  refine (hv_shield_refines calls demo blank _ _).
  - constructor; [|reflexivity|reflexivity]. intros i Hi. by rewrite Z.testbit_0_l.
  - repeat (constructor; [cbn; lia|]). constructor.
Defined.

Definition pins : list (Z * Z) := [(0, 4); (1, 4); (0, 9)].

Lemma hv_port_write_read_witness :
  exists r w', hvs_set_masked_raw pins 0x3 0x2 demo = Ret r w' /\ r <= 0 /\
    (forall port p, (port, p) ∉ pins -> level (hv_ext w') port p = level (hv_ext demo) port p) /\
    exists r' v, hvs_gpio_port_get_raw pins false w' = Ret (r', Some v) w' /\
      (r = 0 -> r' = 0 -> forall j, 0 <= j -> Z.testbit v j =
         match pins !! Z.to_nat j with
         | Some (port, p) => Z.testbit (input_map demo) j &&
             (if Z.testbit 0x3 j then Z.testbit 0x2 j else level (hv_ext demo) port p)
         | None => false
         end).
Proof. apply (hv_port_write_read pins 0x3 0x2 demo). apply (bool_decide_unpack _). by vm_compute. Defined.
End HvDemo.

(** ** Legacy UDS: a link and an image of 1000 bytes *)

Module LegacyDemo.
Import UdsLegacy.

Record device := Device { out : list (list Z); image : list Z; space : nat }.

#[export] Instance device_env : LegacyEnv device := {|
  device_is_ready := ret true; can_get_state := ret (0, CAN_STATE_STOPPED); can_set_mode _ := ret 0; can_start := ret 0;
  isotp_bind := ret 0;
  isotp_send m e := Ret 0 (Device (out e ++ [m]) (image e) (space e));
  flash_img_init e := Ret 0 (Device (out e) [] 1000);
  flash_img_buffered_write d _ e :=
    if decide (length d <= space e)%nat then Ret 0 (Device (out e) (image e ++ d) (space e - length d)) else Ret (- ENOSPC) e;
  boot_request_upgrade := ret 0; k_timer_start := ret tt;
|}.

#[export] Instance device_laws : LegacyLaws device.
Proof.
  refine {| sent := out; written := image; room := space; image_size := 1000 |}.
  - intros d e. by eexists _, _.
  - intros e. eexists _, _. by split_and!.
  - intros d b e. cbn. destruct (decide (length d <= space e)%nat); eexists _, _; by split_and!.
  - intros e. by eexists _, _.
  - intros e. by eexists.
Defined.

Definition start : legacy_world device := LegacyWorld legacy_state_init (Device [] [] 0).

Definition received : list (option (list Z)) :=
  [Some [0x10; 0x02]; None; Some [0x99]; Some [0x11; 0x05]; Some [0x31; 0x02; 0x05; 0x39]; Some [0x37] ].

Lemma legacy_answers_witness :
  exists n w' handled rest groups, thread_loop received start = Ret n w' /\
    omap id received = handled ++ rest /\ Forall2 group_ok handled groups /\
    sent (legacy_ext w') = concat groups /\
    (n = Next -> rest = []) /\ (n <> Next -> exists m, last handled = Some m /\ ends_with m n).
Proof.
  refine (legacy_answers received start _ _); [|by vm_compute].
  cbn. repeat (constructor; [split; [done|unfold rx_size; cbn; lia]|]). constructor.
Defined.

Definition blocks : list (list Z * nat) := [([1; 2; 3], 0%nat); ([4], 2%nat)].

(** The state after the erase request. *)
Definition erased : legacy_world device :=
  match thread_loop [Some erase_request] start with Ret _ w => w | Fault _ => start end.

Lemma legacy_download_witness :
  exists w2, thread_loop (Some <$> (block_requests 0 blocks ++ [[UDS_SID_REQUEST_TRANSFER_EXIT] ])) erased = Ret Next w2 /\
    written (legacy_ext w2) = [1; 2; 3; 4] /\
    sent (legacy_ext w2) = sent (legacy_ext erased) ++ [[0x76; 0]; [0x76; 1]; [0x76; 1]; [0x76; 1]; [0x77] ] /\
    flash_context_initialized (legacy w2) = false.
Proof.
  refine (legacy_download start erased blocks _ _ _ _ _); [by vm_compute|by vm_compute|by vm_compute| |].
  - repeat (constructor; [cbn; lia|]). constructor.
  - cbn. lia.
Defined.

Lemma acknowledged_block_lost_witness :
  exists w', thread_loop [Some [UDS_SID_TRANSFER_DATA; 7; 9]; Some [UDS_SID_TRANSFER_DATA; 0; 5] ] erased = Ret Next w' /\
    sent (legacy_ext w') = sent (legacy_ext erased) ++
      [[UDS_SID_NEGATIVE_RESPONSE; UDS_SID_TRANSFER_DATA; UDS_NRC_INCORRECT_MESSAGE_LENGTH_OR_INVALID_FORMAT]; [0x76; 0] ] /\
    written (legacy_ext w') = written (legacy_ext erased) /\ downloading 0 1000 w'.
Proof.
  apply (acknowledged_block_lost 0xFF 1000 erased 7 [5] [9]); try lia; [|by vm_compute|cbn; lia..].
  constructor; by vm_compute.
Defined.
End LegacyDemo.

(** ** CAN router and CAN log *)

Module RouterDemo.
Import CanRouter.

(** Controllers with two filters each. *)
Record cans := Cans { installed : nat -> list (nat * can_filter); frames_out : nat -> list can_frame }.

#[export] Instance cans_devices : CanDevices cans := {|
  can_add_rx_filter dev target f e :=
    if decide (length (installed e dev) < 2)%nat
    then Ret (Z.of_nat (length (installed e dev)))
           (Cans (fun d => if decide (d = dev) then installed e d ++ [(target, f)] else installed e d) (frames_out e))
    else Ret (- ENOSPC) e;
  can_send dev fr e :=
    Ret 0 (Cans (installed e) (fun d => if decide (d = dev) then frames_out e d ++ [fr] else frames_out e d));
|}.

#[export] Instance cans_laws : CanDevicesLaws cans.
Proof.
  refine {| filters := installed; transmitted := frames_out; max_filters _ := 2%nat |}.
  - intros dev target f e. cbn. destruct (decide (length (installed e dev) < 2)%nat); eexists _, _; by split_and!.
  - intros dev fr e. eexists _, _. by split_and!.
Defined.

(** Two routes from one controller: the second ends the registration. *)
Example second_filter_is_an_error f :
  exists e', can_router_register [RouterEntry 0 1 f; RouterEntry 0 2 f; RouterEntry 1 0 f] (Cans (fun _ => []) (fun _ => [])) = Ret 1 e' /\
    filters e' 1%nat = [].
Proof. by eexists. Qed.
End RouterDemo.

Module LogDemo.
Import CanLog.

#[export] Instance log_env : CanLogEnv (list can_frame) := {|
  device_is_ready := ret true; can_get_state := ret (0, CAN_STATE_other 0);
  can_send fr _ _ e := Ret 0 (e ++ [fr]); tx_callbacks _ := ret 1%nat;
  can_set_mode_normal := ret 0; can_start := ret 0; log_backend_deactivate := ret tt; log_format _ := ret tt;
|}.

#[export] Instance log_laws : CanLogLaws (list can_frame).
Proof.
  refine {| up _ := true; sent e := e |}.
  - intros e. exists true. split; [done|]. exists 0, (CAN_STATE_other 0). split; [done|]. split; [|done]. intros _. split; [done|by eexists].
  - intros fr t cb e. by eexists _, _.
  - intros t e. by eexists _, _.
Defined.

Definition demo : can_log_world (list can_frame) := CanLogWorld (CanLogState 0 0x100 0 false) [].

End LogDemo.

(** ** The ISO 14229 instance, its thread, and the gearshift *)

Module IsoDemo.
Import Iso14229.

Record stack := Stack { got : list (link * list Z); accepted : list (link * can_filter) }.

#[export] Instance stack_server : IsoServer stack := {|
  UDSServerInit := ret tt; UDSISOTpCInit c := ret (addresses_of c);
  isotp_on_can_message l d e := Ret tt (Stack (got e ++ [(l, d)]) (accepted e));
  UDSServerPoll := ret tt; k_mutex_init := ret 0; k_thread_create := ret true; run_event_callback _ _ _ _ := ret 0;
|}.

#[export] Instance stack_can : CanController stack := {|
  can_add_rx_filter l f e := Ret (Z.of_nat (length (accepted e))) (Stack (got e) (accepted e ++ [(l, f)]));
  can_send_forever _ := ret 0;
|}.

#[export] Instance stack_laws : IsoServerLaws stack.
Proof.
  refine {| delivered := got; rx_filters := accepted |}; try (intros; by eexists); try (by intros; eexists _, _).
  intros l f e. eexists _, _. split_and!; [done|done|]. by rewrite (proj2 (Z.ltb_ge _ _)) by lia.
Defined.

Definition instance : iso14229_zephyr_instance :=
  IsoInstance (IsoTp 0x7E0 0x7E8 0x7DF 0) [] [] 0 None 0 (IsoFunctions true true true true) (ThreadState false false).
Definition idle : iso_world stack := IsoWorld instance (Stack [] []).
Definition request : can_frame := CanFrame 0x7E0 3 0 [2; 16; 2; 0; 0; 0; 0; 0].
Definition broadcast : can_frame := CanFrame 0x7DF 2 0 [1; 62; 0; 0; 0; 0; 0; 0].

(** The functional frame came first and is delivered last. *)
Lemma iso14229_reception_witness :
  exists w1 e2, receive_all [(func_link, broadcast); (phys_link, request)] idle = Ret tt w1 /\
    iso14229_zephyr_event_loop_tick (S MSGQ_CAPACITY) w1 = UDSServerPoll (IsoWorld instance e2) /\
    delivered e2 = [(phys_link, [2; 16; 2]); (func_link, [1; 62])].
Proof. refine (iso14229_reception [(func_link, broadcast); (phys_link, request)] idle _ _); cbn; lia. Defined.

Lemma injected_functional_frame_witness :
  exists w1 e2, iso14229_inject_can_frame_rx broadcast true idle = Ret tt w1 /\
    iso14229_zephyr_event_loop_tick (S MSGQ_CAPACITY) w1 = UDSServerPoll (IsoWorld instance e2) /\
    delivered e2 = [(phys_link, [1; 62])].
Proof. refine (injected_functional_frame idle broadcast _ _); reflexivity. Defined.
End IsoDemo.

(** ** The start of the default instance *)

Module DefaultDemo.
Import UdsTypes Iso14229 DefaultInstance.

(** A controller with room for [room] filters. *)
Record bus := Bus { got : list (link * list Z); accepted : list (link * can_filter); room : nat; on : bool }.

#[export] Instance bus_server : IsoServer bus := {|
  UDSServerInit := ret tt; UDSISOTpCInit c := ret (addresses_of c);
  isotp_on_can_message l d e := Ret tt (Bus (got e ++ [(l, d)]) (accepted e) (room e) (on e));
  UDSServerPoll := ret tt; k_mutex_init := ret 0; k_thread_create := ret true; run_event_callback _ _ _ _ := ret 0;
|}.

#[export] Instance bus_can : CanController bus := {|
  can_add_rx_filter l f e :=
    if decide (length (accepted e) < room e)%nat
    then Ret (Z.of_nat (length (accepted e))) (Bus (got e) (accepted e ++ [(l, f)]) (room e) (on e))
    else Ret (- ENOSPC) e;
  can_send_forever _ := ret 0;
|}.

#[export] Instance bus_start : CanBus bus := {|
  device_is_ready := ret true; can_set_mode_normal := ret 0;
  can_start e := Ret 0 (Bus (got e) (accepted e) (room e) true);
|}.

#[export] Instance bus_laws : IsoServerLaws bus.
Proof.
  refine {| delivered := got; rx_filters := accepted |}; try (intros; by eexists); try (by intros; eexists _, _).
  intros l f e. unfold can_add_rx_filter, bus_can. destruct (decide _); eexists _, _; (split; [done|]); [|done].
  split; [done|]. cbn. by rewrite (proj2 (Z.ltb_ge _ _)) by lia.
Defined.

#[export] Instance bus_start_laws : CanBusLaws bus.
Proof.
  refine {| started := on |}; intros e.
  - by exists true.
  - by eexists _, _.
  - eexists _, _. by split_and!.
Defined.

Definition kconfig : default_instance_kconfig := DefaultInstanceKconfig 0x7E8 0x7E0 0x7DF 0xFFFFFFFF.
Definition addresses : UDSISOTpCConfig_t := IsoTpConfig 0x7E8 0x7E0 0x7DF 0xFFFFFFFF.
Definition boot (room : nat) : world (iso_world bus) :=
  World 1 [] [] ∅ 1 [] []
    (IsoWorld (IsoInstance (IsoTp 0 0 0 0) [] [] 0 None 0 (IsoFunctions false false false false) (ThreadState false false))
       (Bus [] [] room false)).


(** With room for one filter the start calls NULL; with room for two the
    thread runs. *)
Lemma default_instance_outcomes :
  uds_default_instance_init 0xFFFFFFFF (configured_addresses kconfig) (boot 1) = Fault NullPointer /\
  exists w', uds_default_instance_init 0xFFFFFFFF (configured_addresses kconfig) (boot 2) = Ret 0 w' /\
    thread_running (thread (iso (ext w'))) = true /\ on (iso_ext (ext w')) = true.
Proof. split; [by vm_compute|]. eexists. by split_and!; vm_compute. Qed.
End DefaultDemo.

Module ThreadDemo.
Import IsoThread.

(** One client has started the thread, another waits for its end, and a third
    is about to. *)
Definition joining : iso_state := State true true None Looping [Outside (Some 0); Joining; Unlocked].

Lemma joining_reachable : iso_reachable 3 joining.
Proof.
  unfold iso_reachable.
  eapply rtc_l; [left; by apply (call_start (initial 3) 0 None)|].
  eapply rtc_l; [right; left; by apply (start_lock _ 0)|].
  eapply rtc_l; [right; left; by apply (start_thread _ 0)|].
  eapply rtc_l; [left; by apply (call_stop _ 1 None)|].
  eapply rtc_l; [right; right; left; by apply (stop_lock _ 1)|].
  eapply rtc_l; [right; right; left; by apply (stop_request _ 1)|].
  eapply rtc_l; [right; right; left; by apply (stop_join _ 1)|].
  eapply rtc_l; [left; by apply (call_stop _ 2 None)|].
  eapply rtc_l; [right; right; left; by apply (stop_lock _ 2)|].
  eapply rtc_l; [right; right; left; by apply (stop_request _ 2)|].
  apply rtc_refl.
Qed.

Lemma iso14229_thread_lifecycle_witness :
  (true = true <-> thread joining <> Dead) /\
  (forall s', start_step joining s' -> thread s' <> Looping -> thread joining = Dead /\ thread s' = Looping) /\
  (forall c d pc pd, clients joining !! c = Some pc -> clients joining !! d = Some pd -> holds_mutex pc -> holds_mutex pd -> c = d) /\
  (Joining ∈ clients joining -> Looping <> Dead) /\
  (Looping <> Dead -> true = true ->
     exists k s', (k <= 4)%nat /\ nsteps inner_step k joining s' /\ thread s' = Dead /\
       (forall d, clients joining !! d = Some Joining -> clients s' !! d = Some (Outside (Some 0))) /\
       (forall d, clients joining !! d = Some Unlocked -> stop_step s' (set_client d (Outside (Some 0)) s'))).
Proof. exact (iso14229_thread_lifecycle 3 joining joining_reachable). Defined.
End ThreadDemo.

Module GearshiftDemo.
Import Gearshift.

(** The pins by number; reading a pin that is not there is an error. *)
#[export] Instance switch_pins : InputPins (list bool) := {|
  device_is_ready _ _ := true;
  gpio_pin_get_dt p e := Ret (match e !! p with Some b => Z.b2z b | None => - EIO end) e;
  gpio_pin_configure_input _ := ret 0;
|}.

#[export] Instance switch_laws : InputPinsLaws (list bool).
Proof. refine {| level e p := e !! p; pin_error _ _ := - EIO |}; [done|]. by intros p e. Defined.

Definition kconfig : gearshift_kconfig := GearshiftKconfig 0x7E0 0x7E8 0x100 0xFFFFFFFF.

(** Pins 0 and 2 are high: position 5. *)
Lemma gearshift_addresses_witness :
  get_value [0; 1; 2]%nat [true; false; true] = Ret 5 [true; false; true] /\
  0 <= 5 < 8 /\ 5 < 2 ^ 31 /\
  uds_default_instance_get_addresses kconfig (Some [0; 1; 2]%nat) [true; false; true] =
    Ret (Iso14229.IsoTpConfig 0x7E5 0x7ED 0xFFFFFFFF 0xFFFFFFFF) [true; false; true] /\
  can_log_get_id kconfig (Some [0; 1; 2]%nat) [true; false; true] = Ret 0x105 [true; false; true].
Proof.
  refine (gearshift_addresses kconfig [0; 1; 2]%nat [true; false; true] _ _ _ _ _ _ _); cbn; unfold MAXIMUM_SUPPORTED_PIN_COUNT; lia.
Defined.
End GearshiftDemo.

(** ** The firmware loader *)

Module LoaderDemo.
Import UdsTypes UdsMacros UdsServices UdsMemory UdsLinkControl UdsFileTransfer UdsUploadDownload UdsSystem UdsWitness FirmwareLoader.

(** The environment of the UDS library with a slot of 16 bytes, whose flash
    can be [broken]. *)
Record loader := Loader {
  base : UdsWitness.env;
  status : uds_memory_erasure_routine_status;
  bytes : Z -> Z;
  broken : bool;
}.

Definition with_base (e : UdsWitness.env) (l : loader) : loader := Loader e (status l) (bytes l) (broken l).
#[export] Instance loader_server : Server loader := lifted_server base with_base.
#[export] Instance loader_platform : Platform loader := lifted_platform base with_base.
#[export] Instance loader_memory : Memory loader := lifted_memory base with_base (fun _ _ => eq_refl).
#[export] Instance loader_can : UdsLinkControl.CanController loader := lifted_controller base with_base.
#[export] Instance loader_link : LinkControlVars loader := lifted_link_vars base with_base.
#[export] Instance loader_fs : FileSystem loader := lifted_fs base with_base.
#[export] Instance loader_ft : FileTransferVars loader := lifted_ft_vars base with_base (fun _ _ => eq_refl).
#[export] Instance loader_flash : FlashDriver loader := lifted_flash_driver base with_base.
#[export] Instance loader_ud : UpDownVars loader := lifted_ud_vars base with_base (fun _ _ => eq_refl).

#[export] Instance loader_map : FlashMap loader := {|
  flash_area_open _ := ret (0, FlashArea 0x20000 16);
  flash_area_erase fa off len l :=
    if broken l then Ret (- EIO) l
    else Ret 0 (Loader (base l) (status l) (fun a => if (off <=? a) && (a <? off + len) then 0xFF else bytes l a) false);
  flash_area_close _ := ret tt;
|}.
#[export] Instance loader_vars : ErasureVars loader := {|
  erasure_status := status; set_erasure_status s l := Loader (base l) s (bytes l) (broken l);
|}.

#[export] Instance loader_laws : LoaderLaws loader 1.
Proof.
  refine {| response l := UdsWitness.e_sent (base l); contents := bytes; slot := FlashArea 0x20000 16 |}.
  - done.
  - intros e. by eexists _, _.
  - intros e. cbn. destruct (broken e); eexists _, _; split_and!; try done.
    intros _ a Ha. cbn. by rewrite (proj2 (Z.leb_le _ _)), (proj2 (Z.ltb_lt _ _)) by lia.
  - intros e. by eexists.
  - intros bs e. eexists _, _. split_and!; [done|done|done|]. cbn. by rewrite Nat2Z.id, take_ge by done.
Defined.

Definition cfg : uds_config := UdsConfig UdsWitness.demo_memory_config UdsWitness.demo_updown_config 500000 true false.
Definition statics : list uds_registration_t := loader_registrations cfg 0 7.

Definition world_with (s : uds_memory_erasure_routine_status) (b : bool) : world loader :=
  World 0 statics [] ∅ 1 [] [] (Loader UdsWitness.demo_env s (fun a => a) b).
Definition fresh : world loader := world_with erasure_status_init false.

Lemma fresh_config s b : loader_config cfg (world_with s b).
Proof. split; [by exists 0%nat, 7|done]. Qed.

(** Erasing, with requests that come too early and a second erasure. *)
Definition ops : list loader_op :=
  [routine_request 3 0xFF00 []; routine_request 1 0xFF00 []; routine_request 1 0xFF00 []; routine_request 2 0xFF00 [];
   work_queue; routine_request 3 0xFF00 []; routine_request 1 0x1234 []; work_queue; routine_request 1 0xFF00 [] ].

Example erase_replies :
  match run_ops (loader_step 1 0x72 cfg 0 0) ops fresh with Ret rs _ => rs | Fault _ => [] end =
  [Some UDS_NRC_RequestSequenceError; Some UDS_OK; Some UDS_NRC_RequestSequenceError; Some UDS_NRC_SubFunctionNotSupported;
   None; Some UDS_OK; Some UDS_NRC_SubFunctionNotSupported; None; Some UDS_OK].
Proof. by vm_compute. Qed.


(** A broken flash while an erasure is scheduled. *)
Definition scheduled : uds_memory_erasure_routine_status := ErasureStatus UDS_MEMORY_ERASURE_STATE__IN_PROGRESS 0 0 true.
Definition broken_ext : loader :=
  Loader UdsWitness.demo_env (ErasureStatus UDS_MEMORY_ERASURE_STATE__IN_PROGRESS 0 0 false) (fun a => a) true.

Lemma failed_erase_reports_success_witness :
  exists w' reply sent w2, loader_step 1 0x72 cfg 0 0 work_queue (world_with scheduled true) = Ret None w' /\
    contents (slot0 := 1) (ext w') = (fun a => a) /\
    loader_step 1 0x72 cfg 0 0 (routine_request 0x03 0xFF00 []) w' = Ret (Some reply) w2 /\
    response (slot0 := 1) (ext w2) = response (slot0 := 1) (ext (world_with scheduled true)) ++ sent /\
    (reply = UDS_PositiveResponse -> sent = [0; 0; 0; 0]).
Proof.
  refine (failed_erase_reports_success 1 0x72 cfg 0 0 (world_with scheduled true) broken_ext broken_ext 0 (- EIO) _ _ _ _ _ _);
    [apply fresh_config|by repeat split|done|lia|done|done].
Defined.

Lemma loader_sessions_witness :
  session_event cfg 0 0 0x01 fresh = Ret (UDS_NRC_SubFunctionNotSupported, UDSDiagSessCtrlArgs 0x01) fresh.
Proof. apply (loader_sessions cfg 0 0 0x01 fresh); [apply fresh_config|done|done]. Defined.
End LoaderDemo.

(** ** Resuming the session: retention memory next to the ISO-TP stack *)

Module ResumeDemo.
Import UdsServices Iso14229 FirmwareLoader IsoDemo.

Record board := Board { kept : Z; links : IsoDemo.stack }.

Definition lift {A} (m : M IsoDemo.stack A) : M board A := zoom links (fun s b => Board (kept b) s) m.

#[export] Instance board_retention : Retention board := {| retention_read _ _ b := Ret (0, [kept b]) b |}.
#[export] Instance board_platform : Platform board := {|
  retention_write _ d b := Ret 0 (Board (default 0 (head d)) (links b));
  bootmode_set _ := ret 0; sys_reboot _ := ret tt; log_flush := ret tt; k_msleep _ := ret tt;
|}.
#[export] Instance board_server : IsoServer board := {|
  UDSServerInit := ret tt; UDSISOTpCInit c := ret (addresses_of c); isotp_on_can_message l d := lift (isotp_on_can_message l d);
  UDSServerPoll := ret tt; k_mutex_init := ret 0; k_thread_create := ret true; run_event_callback _ _ _ _ := ret 0;
|}.
#[export] Instance board_can : CanController board := {|
  can_add_rx_filter l f := lift (can_add_rx_filter l f); can_send_forever _ := ret 0;
|}.

#[export] Instance board_laws : IsoServerLaws board.
Proof.
  refine {| delivered b := IsoDemo.got (links b); rx_filters b := IsoDemo.accepted (links b) |}; try (intros; by eexists); try (by intros; eexists _, _).
  intros l f e. eexists _, _. split_and!; [done|done|]. by rewrite (proj2 (Z.ltb_ge _ _)) by lia.
Defined.

#[export] Instance board_retention_laws : RetentionLaws board.
Proof.
  refine {| retained := kept |}.
  - intros e. by exists 0.
  - intros b e. by eexists 0, _.
Defined.

Definition start : iso_world board := IsoWorld IsoDemo.instance (Board 0x02 (IsoDemo.Stack [] [])).

Lemma main_resumes_session_witness :
  exists rc w1, main start = Ret rc w1 /\
    (rc <> 0 -> iso w1 = IsoDemo.instance) /\
    (rc = 0 -> retained (iso_ext w1) = 0x01 /\
      (exists e2, iso14229_zephyr_event_loop_tick (S MSGQ_CAPACITY) w1 = UDSServerPoll (IsoWorld IsoDemo.instance e2) /\
        delivered e2 = [(phys_link, [0x02; 0x10; 0x02])]) /\
      exists rc' w2, main w1 = Ret rc' w2 /\ iso w2 = iso w1).
Proof. refine (main_resumes_session start _ _); reflexivity. Defined.
End ResumeDemo.
